(* ===== verification/_CoqProject ===== *)
-Q . S2P
Prelude.v
StateFail.v
RecordSet.v
CLib.v
Log.v
Fifo.v
Getopt.v
P2pdConfig.v
Dlist.v
Ring.v
RtspTokenizer.v
RtspDecoder.v
RtspMessages.v
WpaParser.v
Posix.v
Bytes.v
Unaligned.v
DhcpConfig.v
DhcpCommon.v
DhcpServer.v
DhcpHandlers.v
DhcpNet.v
DhcpClientBase.v
DhcpClient6.v
DhcpClient.v
DhcpClientPackets.v
DhcpReplies.v
DhcpClientFacts.v
DhcpClientLife.v
DhcpClientRuns.v
Steps.v
DhcpCalls.v
DhcpLeased.v
DhcpHandshake.v
Dhcp.v
DhcpFacts.v
DhcpService.v
DhcpRuns.v
DhcpLink.v
RtspCtrl.v
WpaCtrl.v
WpaCtrlFacts.v
P2pdInterface.v
P2pd.v
P2pdFacts.v
P2pdLife.v
P2pdService.v
OpenwfdIe.v
