(* ===== verification/Prelude.v ===== *)
(** * OpenWFD verification library

    A model of the C code of OpenWFD, an implementation of Wi-Fi Display, with
    the theorems that make its parts correct.  This first file is also the
    prelude all others share (byte lists of [Z], [ztake]/[zdrop]/[put],
    truncation to machine widths, tactics and hints).

    ** The program

    [src/] holds a small library and three programs.  [openwfd_p2pd] starts
    wpa_supplicant for an interface ([src/p2pd.c], [src/p2pd_interface.c],
    [src/p2pd_dummy.c]) and talks to it over a control socket
    ([src/wpa_ctrl.c], [src/wpa_parser.c]); [openwfd_dhcp] ([src/dhcp.c]) gives
    a peer an address or gets one, with the DHCP server and client in
    [src/gdhcp/]; the RTSP part ([src/rtsp_ctrl.c], [src/rtsp_decoder.c],
    [src/rtsp_tokenizer.c] over the ring buffer [src/shl_ring.c]) reads and
    writes the messages of a Wi-Fi Display session.  [tools/openwfd_ie.c] prints
    the information elements devices announce themselves with.

    ** The files

    Machinery.  [StateFail.v]: steps that may fail, with a weakest precondition.
    [RecordSet.v]: field updates of records.  [CLib.v]: C strings and [malloc]
    (a heap is an oracle that grants or refuses a request, and the number of
    live blocks).  [Posix.v]: system calls as an oracle that sees the whole
    past, open descriptors, and the clock of [src/shared.c].  [Steps.v]: a
    judgement for relations that every step of a handler keeps.  [Bytes.v]:
    network byte order and the part of [src/gdhcp/unaligned.h] the DHCP code uses
    on a little-endian host; [Unaligned.v]: the rest of it, and the same for a
    big-endian host.  [Log.v]: [src/shl_log.c], [src/shl_log.h] and
    [src/shl_llog.h].  [Getopt.v]: [getopt_long]
    and the option loop the programs share.  [Dlist.v]: the intrusive list
    [src/shl_dlist.h] over a store of links.

    RTSP.  [Ring.v] is [src/shl_ring.c]; [Fifo.v] is the interface (a class of
    operations and a class of laws) through which [RtspDecoder.v]
    ([src/rtsp_decoder.c]) uses it, so the decoder is verified against the laws
    and [Ring.v] discharges them.  [RtspMessages.v] puts both together.
    [RtspTokenizer.v] is [src/rtsp_tokenizer.c]; [RtspCtrl.v] is
    [src/rtsp_ctrl.c].

    wpa_supplicant and the daemon.  [WpaParser.v] is [src/wpa_parser.c] with
    [src/wpa.h]; [WpaCtrl.v] is [src/wpa_ctrl.c] and [WpaCtrlFacts.v] its
    properties, for any user of the connection that keeps an invariant.
    [P2pdConfig.v] is [src/p2pd_config.c], [P2pdInterface.v]
    [src/p2pd_interface.c], [P2pd.v] [src/p2pd_dummy.c] and [src/p2pd.c];
    [P2pdFacts.v] says what they own, [P2pdLife.v] what becomes of the child and
    when the loop stops, [P2pdService.v] what the daemon does for its peers.

    DHCP.  [DhcpCommon.v] has the packets and options of [src/gdhcp/common.c],
    [DhcpNet.v] its sockets and frames with [src/gdhcp/ipv4ll.c].
    [DhcpServer.v] is [src/gdhcp/server.c], [DhcpHandlers.v] its properties.
    The client [src/gdhcp/client.c] is split into its state
    ([DhcpClientBase.v]), DHCPv6 messages ([DhcpClient6.v]) and everything else
    ([DhcpClient.v]); [DhcpClientPackets.v] says what its packets say,
    [DhcpClientFacts.v] has its invariant, [DhcpClientLife.v] its life up to the
    loss of a lease, and [DhcpClientRuns.v] whole runs on a concrete system.
    [DhcpConfig.v] is [src/dhcp_config.c]; [Dhcp.v] is [src/dhcp.c], which runs
    the client or the server, with the system calls of the server and the last
    helper of [src/shared.c].  [DhcpCalls.v] says which system calls a client
    makes, [DhcpFacts.v] what the program gives back, [DhcpService.v] what it does
    for its interface, and [DhcpRuns.v] has whole runs of it.  Client and server
    meet in four files: [DhcpReplies.v] says when the server answers and what
    exactly its answers say, [DhcpLeased.v] what a client makes of answers that
    arrive in frames and which frames it sends, [DhcpHandshake.v] puts the two
    on one link, and [DhcpLink.v] two computers that run the whole program, one as
    a client and one as a server, from their setups to the address.

    [OpenwfdIe.v] is [tools/openwfd_ie.c] with the constants it takes from
    [src/openwfd/wfd_defs.h].

    Structures are records with the fields of the C structures, functions have
    their names, and a part of a long function that has a definition of its own
    is named after what it does.  Handlers run in a state monad; [None] in the
    DHCP parts and the information element tool means that the code reads or
    writes outside its memory or that a loop does not end, so a theorem that an
    operation gives [Some] says that it is safe and returns; in the daemon
    [None] means that a call does not return.

    ** What is shown

    Ring buffer: push, pull and what they keep ([Ring.v]).  RTSP decoder: it
    refines an abstract decoder that reads one byte at a time; well-formed
    messages come back whatever the cuts; nothing leaks; what an error leaves
    behind.  Tokenizer: bounds, round trip, the line that writes before its
    block.  Control connections: at any point of their life they own exactly
    their descriptors and blocks, dispatching reports a closed connection,
    requests exchange one command for one reply and end when the clock does.
    Event parser: it refines a token-level grammar; round trips.  Daemon: main
    gives back every descriptor, socket file and block; every child it has
    started is known to be gone or has been told to go; its loop stops only for
    a reason; a PIN request is answered; an interface that was created is set
    up; its waits end.  Command lines: parsing ends, keeps account of its
    strings, and reads back a configuration that was written as options.
    Intrusive list: it refines sequences.  DHCP packets: options are read back
    and stay inside their field; the searches that do not end; checksums; frames
    come back from the receiver.  DHCP server: it returns, its lease table stays
    consistent in every reachable state, an address belongs to one client; a
    packet that hangs it.  DHCP client: in every reachable state it owns its
    watch, its descriptor and two strings, and at most one timer as long as it was
    never started while a timer was pending; stopping it leaves no watch and no
    descriptor (and no timer, under the same condition: an example shows the
    timer that is left otherwise); without an answer it gives up after ten
    timers; a short lease that nobody renews is lost in time, and a long one is
    never given up; its packets can be read; and the inputs that break
    it.  Client and server: from the start of a client to its lease, the frames of
    each are what the other needs, so that a client is bound to an address the
    server holds for it; and two programs set up by their command lines get as far
    as the address and netmask on the interface of the client.  DHCP program: it
    gives back its descriptors; what its [ip] commands leave on the interface is
    read off the trace of system calls ([ip_seen] in [DhcpFacts.v]), and when the
    last of them has succeeded no address it has added is left; the address of a
    server and the address of a lease are set by commands that were successful.
    Information elements: the printer stays
    inside its buffers for every input, and prints well-formed elements exactly.
    Logging: the error number survives, and a message that is not hidden is one
    line with the time since the first, as [log__time] computes it even when the
    clock was set back.  Byte order: both kinds of host store and
    read the same bytes.

    ** Bounds and fuel

    Recursion that is not structural has fuel, and the theorems give enough of
    it: 600 steps for an option search in a packet whose options cannot hide an
    overload (a field has at most 388 bytes), 3 rounds for folding a checksum
    (two are needed for a 32-bit sum), the length of a line for tokenizers,
    [size] halvings for the binary search, the number of addresses of the range
    for the search of a free one, the number of arguments and their bytes for a
    command line, the length of an element or a block for its loops.  [recv]
    loops have the bound of 128 rounds of the source.  Waiting loops of
    [WpaCtrl.v] and [P2pdInterface.v] end with fuel above the timeout of 10^7
    microseconds when the clock advances.  The random host of
    [ipv4ll_random_ip] has fuel because nothing bounds how often [rand] misses.

    ** Not modelled, and why

    The debug and log calls inside the components (those of [Log.v], the debug
    hooks of the DHCP code, messages on standard error) are left out of their
    models: they keep the error number and have no other effect on the state.
    What [vfprintf] makes of a format is a parameter of [Log.v].  The
    environment variable [POSIXLY_CORRECT] is taken to be unset.  The users of
    the events of a connection are a sequence in [P2pdInterface.v], which
    [Dlist.v] justifies; signal masks are stored, and a signal arrives only
    through the signal descriptor.  The user's callbacks of the DHCP client do
    not change the client; [Dhcp.v] runs them when the client has returned, which
    is the same because the client makes no further system call and does not
    change what they look at ([lease_told_last] in [DhcpService.v]).  The kernel,
    [inet_addr], [inet_pton], [inet_ntop] for IPv6, the order in which a hash
    table is walked and the content of uninitialised memory are parameters.  The
    blocks of the value lists of the client are asked for but not counted.  GLib
    source ids are not reused; removing a watch closes its descriptor at once.
    In the DHCPv6 reader bytes behind the buffer read as zero.  Of
    [src/openwfd/wfd_defs.h] only the constants of the information element tool
    are used; [src/openwfd/wfd.h] are its packed structures.  [test/test_rtsp.c]
    tests the modelled code.  In [DhcpHandshake.v] and [DhcpLink.v] nothing else
    happens on the link while the exchange lasts, and the server is the DHCPv4
    one; whether a frame reaches the other side is a hypothesis of each step.  In
    [DhcpLink.v] the kernels store bytes, and a walk over a hash table visits each
    entry once. *)

From stdpp Require Export base numbers list list_numbers option strings.
From Stdlib Require Export ZArith Lia Ascii.
Open Scope Z_scope.

(** ** Machine integers (LP64, little endian) *)

Definition u8 (x : Z) : Z := x mod 2 ^ 8.

Definition u16 (x : Z) : Z := x mod 2 ^ 16.

Definition u32 (x : Z) : Z := x mod 2 ^ 32.

Definition u64 (x : Z) : Z := x mod 2 ^ 64.

(** Two's complement reading of a [w]-bit pattern. *)
Definition to_signed (w x : Z) : Z :=
  let y := x mod 2 ^ w in if y <? 2 ^ (w - 1) then y else y - 2 ^ w.

Definition i32 (x : Z) : Z := to_signed 32 x.

(** Plain [char] is signed on the x86 ABIs: the value of a byte read through
    a [char]. *)
Definition schar (c : Z) : Z := to_signed 8 c.

Definition PTRDIFF_MAX : Z := 2 ^ 63 - 1.

Definition ULONG_MAX : Z := 2 ^ 64 - 1.

(** ** errno values (Linux) *)

Definition EIO : Z := 5.
Definition ENXIO : Z := 6.
Definition EAGAIN : Z := 11.
Definition EINTR : Z := 4.
Definition ENOMEM : Z := 12.
Definition EFAULT : Z := 14.
Definition ENODEV : Z := 19.
Definition EINVAL : Z := 22.
Definition EPIPE : Z := 32.
Definition EPROTO : Z := 71.
Definition EADDRINUSE : Z := 98.
Definition EADDRNOTAVAIL : Z := 99.
Definition ETIMEDOUT : Z := 110.
Definition EALREADY : Z := 114.

(** ** Bytes, characters and literals *)

Definition byte_ok (c : Z) : Prop := 0 <= c < 256.

Definition chr (a : Ascii.ascii) : Z := Z.of_N (Ascii.N_of_ascii a).

#[global] Arguments chr _%_char_scope.

Fixpoint str (s : string) : list Z :=
  match s with
  | EmptyString => []
  | String a s => chr a :: str s
  end.

Definition DQUOTE : Z := 34.
Definition BSLASH : Z := 92.
Definition CR : Z := 13.
Definition LF : Z := 10.
Definition TAB : Z := 9.
Definition SP : Z := 32.

(** ** Lists indexed by machine integers *)

Definition zlen {A} (l : list A) : Z := Z.of_nat (length l).

Definition ztake {A} (n : Z) (l : list A) : list A := take (Z.to_nat n) l.

Definition zdrop {A} (n : Z) (l : list A) : list A := drop (Z.to_nat n) l.

(** [memcpy (&buf[off], src, length src)].  A copy that leaves the block
    changes the length of the list, so "the length is preserved" is the
    statement that the copy stays inside the block. *)
Definition memcpy {A} (off : Z) (src buf : list A) : list A :=
  ztake off buf ++ src ++ zdrop (off + zlen src) buf.

#[global] Arguments Z.add : simpl never.
#[global] Arguments Z.sub : simpl never.
#[global] Arguments Z.opp : simpl never.
#[global] Arguments Z.mul : simpl never.
#[global] Arguments Z.pow : simpl never.
#[global] Arguments Z.div : simpl never.
#[global] Arguments Z.modulo : simpl never.
#[global] Arguments Z.eqb : simpl nomatch.
#[global] Arguments Z.ltb : simpl nomatch.
#[global] Arguments Z.leb : simpl nomatch.
#[global] Arguments Z.of_nat : simpl never.
#[global] Arguments Z.to_nat : simpl never.

(** ** Lemmas *)

Lemma zlen_nil {A} : zlen (@nil A) = 0.
Proof. reflexivity. Qed.

Lemma zlen_cons {A} (x : A) l : zlen (x :: l) = zlen l + 1.
Proof. unfold zlen; simpl; lia. Qed.

Lemma zlen_app {A} (l k : list A) : zlen (l ++ k) = zlen l + zlen k.
Proof. unfold zlen; rewrite length_app; lia. Qed.

Lemma zlen_nonneg {A} (l : list A) : 0 <= zlen l.
Proof. unfold zlen; lia. Qed.

Lemma zlen_nil_inv {A} (l : list A) : zlen l = 0 -> l = [].
Proof. destruct l; unfold zlen; simpl; [done | lia]. Qed.

Lemma zlen_ztake {A} n (l : list A) : zlen (ztake n l) = Z.max 0 (Z.min n (zlen l)).
Proof. unfold zlen, ztake; rewrite length_take; lia. Qed.

Lemma zlen_zdrop {A} n (l : list A) : zlen (zdrop n l) = Z.max 0 (zlen l - Z.max 0 n).
Proof. unfold zlen, zdrop; rewrite length_drop; lia. Qed.

Lemma zlen_replicate {A} n (x : A) : zlen (replicate n x) = Z.of_nat n.
Proof. unfold zlen; rewrite length_replicate; done. Qed.

Lemma zlen_rev {A} (l : list A) : zlen (rev l) = zlen l.
Proof. unfold zlen; rewrite length_rev; done. Qed.

Lemma zlen_map {A B} (f : A -> B) l : zlen (map f l) = zlen l.
Proof. unfold zlen; rewrite length_map; done. Qed.

Create Rewrite HintDb zlist.
#[export] Hint Rewrite @zlen_nil @zlen_cons @zlen_app @zlen_ztake @zlen_zdrop
  @zlen_replicate @zlen_rev @zlen_map : zlist.

(** Normalise lengths and call [lia], with every length non-negative. *)
Ltac pose_zlen :=
  repeat match goal with
  | |- context [@zlen ?A ?l] =>
    lazymatch goal with
    | H : 0 <= zlen l |- _ => fail
    | _ => pose proof (@zlen_nonneg A l)
    end
  | H0 : context [@zlen ?A ?l] |- _ =>
    lazymatch goal with
    | H : 0 <= zlen l |- _ => fail
    | _ => pose proof (@zlen_nonneg A l)
    end
  end.

Ltac zlia := autorewrite with zlist in *; pose_zlen; lia.

Lemma ztake_all {A} n (l : list A) : zlen l <= n -> ztake n l = l.
Proof. unfold ztake, zlen; intros; apply take_ge; lia. Qed.

Lemma ztake_neg {A} n (l : list A) : n <= 0 -> ztake n l = [].
Proof. unfold ztake; intros; by replace (Z.to_nat n) with 0%nat by lia. Qed.

Lemma zdrop_all {A} n (l : list A) : zlen l <= n -> zdrop n l = [].
Proof. unfold zdrop, zlen; intros; apply drop_ge; lia. Qed.

Lemma zdrop_neg {A} n (l : list A) : n <= 0 -> zdrop n l = l.
Proof. unfold zdrop; intros; by replace (Z.to_nat n) with 0%nat by lia. Qed.

Lemma ztake_zdrop {A} n (l : list A) : ztake n l ++ zdrop n l = l.
Proof. apply take_drop. Qed.

Lemma ztake_app {A} n (l k : list A) : ztake n (l ++ k) = ztake n l ++ ztake (n - zlen l) k.
Proof.
  unfold ztake, zlen; rewrite take_app; f_equal; f_equal; lia.
Qed.

Lemma zdrop_app {A} n (l k : list A) : 0 <= n -> zdrop n (l ++ k) = zdrop n l ++ zdrop (n - zlen l) k.
Proof.
  intros; unfold zdrop, zlen; rewrite drop_app; f_equal; f_equal; lia.
Qed.

Lemma ztake_app_eq {A} n (l k : list A) : n = zlen l -> ztake n (l ++ k) = l.
Proof.
  intros ->; rewrite ztake_app, ztake_all by lia.
  rewrite ztake_neg by lia; apply app_nil_r.
Qed.

Lemma zdrop_app_eq {A} n (l k : list A) : n = zlen l -> zdrop n (l ++ k) = k.
Proof.
  intros ->; pose proof (zlen_nonneg l); rewrite zdrop_app by lia.
  rewrite (zdrop_all _ l), zdrop_neg by lia; done.
Qed.

Lemma ztake_app_le {A} n (l k : list A) : n <= zlen l -> ztake n (l ++ k) = ztake n l.
Proof. intros; rewrite ztake_app, (ztake_neg _ k) by lia; apply app_nil_r. Qed.

Lemma zdrop_app_le {A} n (l k : list A) : n <= zlen l -> zdrop n (l ++ k) = zdrop n l ++ k.
Proof.
  intros; unfold zdrop, zlen in *; rewrite drop_app.
  replace (Z.to_nat n - length l)%nat with 0%nat by lia; done.
Qed.

Lemma zdrop_zdrop {A} n m (l : list A) : 0 <= n -> 0 <= m -> zdrop n (zdrop m l) = zdrop (m + n) l.
Proof. intros; unfold zdrop; rewrite drop_drop; f_equal; lia. Qed.

Lemma ztake_ztake {A} n m (l : list A) : ztake n (ztake m l) = ztake (Z.min n m) l.
Proof. unfold ztake; rewrite take_take; f_equal; lia. Qed.

Lemma zlen_memcpy {A} off (src buf : list A) :
  0 <= off -> off + zlen src <= zlen buf -> zlen (memcpy off src buf) = zlen buf.
Proof. intros; unfold memcpy; zlia. Qed.

Lemma if_ltb_min a b : (if a <? b then a else b) = Z.min a b.
Proof. destruct (Z.ltb_spec a b); lia. Qed.

Lemma ztake_min {A} m n (l : list A) : zlen l <= n -> ztake (Z.min m n) l = ztake m l.
Proof. intros. by rewrite <- (ztake_ztake m n), (ztake_all n l) by lia. Qed.

(** Cutting a block at two points. *)
Lemma zsplit3 {A} a b (l : list A) :
  0 <= a -> 0 <= b -> a + b <= zlen l ->
  exists x y z, l = x ++ y ++ z /\ zlen x = a /\ zlen y = b /\ zlen z = zlen l - a - b.
Proof.
  intros; exists (ztake a l), (ztake b (zdrop a l)), (zdrop (a + b) l).
  rewrite <- (zdrop_zdrop b a), ztake_zdrop, ztake_zdrop by lia.
  repeat split; zlia.
Qed.

(** *** List equations by lookups *)

Lemma lookup_app_case {A} (l k : list A) (i : nat) :
  (l ++ k) !! i = if decide (i < length l)%nat then l !! i else k !! (i - length l)%nat.
Proof. case_decide; [by apply lookup_app_l | apply lookup_app_r; lia]. Qed.

Lemma lookup_take_case {A} n (l : list A) (i : nat) :
  take n l !! i = if decide (i < n)%nat then l !! i else None.
Proof. case_decide; [by apply lookup_take_lt | apply lookup_take_ge; lia]. Qed.

Lemma lookup_ge_None' {A} (l : list A) (i : nat) : (length l <= i)%nat -> l !! i = None.
Proof. apply lookup_ge_None_2. Qed.

(** Decides equations between lists built with [++], [ztake], [zdrop] and
    [memcpy] out of list variables, by comparing the lookups at every index. *)
Ltac zlist_len := rewrite ?length_app, ?length_take, ?length_drop in *.

Ltac zlist_eq :=
  apply list_eq; intros ?i; unfold memcpy, ztake, zdrop, zlen in *;
  repeat first
    [ rewrite lookup_app_case | rewrite lookup_take_case | rewrite lookup_drop ];
  zlist_len;
  repeat (case_decide; zlist_len; try lia);
  first
    [ done
    | f_equal; lia
    | rewrite !lookup_ge_None' by (zlist_len; lia); done
    | match goal with
      | |- ?l !! ?a = ?l !! ?b =>
        destruct (decide (a = b)) as [->|]; [done|];
        rewrite !lookup_ge_None' by lia; done
      end
    | idtac ].

(** *** Copies into a block *)

Section memcpy.
Context {A : Type}.
Implicit Types (l d : list A).

Lemma ztake_memcpy_before n off d l :
  n <= off -> 0 <= off <= zlen l -> ztake n (memcpy off d l) = ztake n l.
Proof. intros; unfold memcpy. rewrite ztake_app_le, ztake_ztake by zlia. f_equal; lia. Qed.

Lemma ztake_memcpy_end n off d l :
  0 <= off <= zlen l -> n = off + zlen d -> ztake n (memcpy off d l) = ztake off l ++ d.
Proof. intros ? ->; unfold memcpy. rewrite app_assoc. apply ztake_app_eq. zlia. Qed.

Lemma zdrop_memcpy_after n off d l :
  0 <= off <= zlen l -> off + zlen d <= n -> zdrop n (memcpy off d l) = zdrop n l.
Proof. intros; zlist_eq. Qed.

Lemma zdrop_memcpy_end st off d l :
  0 <= st <= off -> off <= zlen l -> off + zlen d = zlen l ->
  zdrop st (memcpy off d l) = ztake (off - st) (zdrop st l) ++ d.
Proof. intros; zlist_eq. Qed.

Lemma zwindow_memcpy_end st n off d l :
  0 <= st <= off -> off <= zlen l -> n = off - st + zlen d ->
  ztake n (zdrop st (memcpy off d l)) = ztake (off - st) (zdrop st l) ++ d.
Proof. intros ? ? ->; zlist_eq. Qed.

Lemma memcpy_app off d x w y :
  off = zlen x -> zlen w = zlen d -> memcpy off d (x ++ w ++ y) = x ++ d ++ y.
Proof.
  intros -> Hw; unfold memcpy. pose proof (zlen_nonneg x); pose proof (zlen_nonneg d).
  rewrite ztake_app_eq by done. rewrite (app_assoc x w y), zdrop_app_eq by zlia. done.
Qed.

Lemma memcpy_app_0 d w y : zlen w = zlen d -> memcpy 0 d (w ++ y) = d ++ y.
Proof. intros. apply (memcpy_app 0 d [] w y); done. Qed.

Lemma memcpy_last x n l : zlen l = n + 1 -> 0 <= n -> memcpy n [x] l = ztake n l ++ [x].
Proof. intros; unfold memcpy. rewrite (zdrop_all _ l) by zlia. done. Qed.

Lemma ztake_zdrop_app n m l :
  0 <= n -> 0 <= m -> ztake n l ++ ztake m (zdrop n l) = ztake (n + m) l.
Proof. intros; zlist_eq. Qed.

End memcpy.
