(* ===== verification/StateFail.v ===== *)
(** * State and failure.

    The monad of steps that may get stuck (a search that does not end, memory
    that must not be touched), and its weakest precondition. *)

From S2P Require Import Prelude.

Definition sfm (S A : Type) : Type := S -> option (A * S).

Definition sret {S A} (a : A) : sfm S A := fun s => Some (a, s).

Definition sbind {S A B} (m : sfm S A) (k : A -> sfm S B) : sfm S B :=
  fun s => match m s with Some (a, s') => k a s' | None => None end.

Definition slift {S A} (o : option A) : sfm S A := fun s => option_map (fun a => (a, s)) o.

Definition sget {S} : sfm S S := fun s => Some (s, s).

Definition smod {S} (f : S -> S) : sfm S unit := fun s => Some (tt, f s).

Declare Scope srv_scope.
Delimit Scope srv_scope with srv.
Notation "'let*' x ':=' m 'in' k" := (sbind m (fun x => k))
  (at level 10, x pattern, m at level 100, k at level 200) : srv_scope.
Open Scope srv_scope.

(** ** Weakest precondition; [F] is what a step that fails has to establish *)

Definition swp {S A} (F : Prop) (m : sfm S A) (Q : A -> S -> Prop) (s : S) : Prop :=
  match m s with Some (a, s') => Q a s' | None => F end.

Section swp.
Context {S : Type} (F : Prop).
Implicit Types s : S.

Lemma swp_ret {A} (a : A) (Q : A -> S -> Prop) s : Q a s -> swp F (sret a) Q s.
Proof. done. Qed.

Lemma swp_bind {A B} (m : sfm S A) (k : A -> sfm S B) Q s :
  swp F m (fun a s' => swp F (k a) Q s') s -> swp F (sbind m k) Q s.
Proof. unfold swp, sbind. by destruct (m s) as [[a s']|]. Qed.

Lemma swp_mono {A} (m : sfm S A) (Q R : A -> S -> Prop) s :
  swp F m Q s -> (forall a s', Q a s' -> R a s') -> swp F m R s.
Proof. unfold swp. destruct (m s) as [[a s']|]; auto. Qed.

Lemma swp_get (Q : S -> S -> Prop) s : Q s s -> swp F sget Q s.
Proof. done. Qed.

Lemma swp_mod f (Q : unit -> S -> Prop) s : Q tt (f s) -> swp F (smod f) Q s.
Proof. done. Qed.

Lemma swp_lift {A} (o : option A) (Q : A -> S -> Prop) s :
  (forall a, o = Some a -> Q a s) -> (o = None -> F) -> swp F (slift o) Q s.
Proof. unfold swp, slift. destruct o; cbn; auto. Qed.

(** A step that does not fail. *)
Lemma swp_total {A} (m : sfm S A) (Q : A -> S -> Prop) s : swp False m Q s -> swp F m Q s.
Proof. unfold swp. destruct (m s) as [[a s']|]; [done|contradiction]. Qed.

End swp.
