(* ===== verification/RecordSet.v ===== *)
(** * Updating a field of a record.

    [r <| field := v |>] is the record [r] with one field changed.  An instance
    of [Eta] lists the fields of a record type; the setter of a field is built
    from it on demand. *)

From S2P Require Import Prelude.

Class Eta (R : Type) := eta : R -> R.

Class Setter {R E : Type} (get : R -> E) := rset : (E -> E) -> R -> R.

Arguments rset {R E} get {_} f r /.

Ltac build_setter R E get :=
  exact (fun (f : E -> E) (r : R) => ltac:(
    let inst := constr:(_ : Eta R) in
    let body := eval hnf in (inst r) in
    lazymatch eval pattern (get r) in body with
    | ?F _ => let t := eval cbv beta in (F (f (get r))) in exact t
    end)).

#[export] Hint Extern 1 (@Setter ?R ?E ?get) => build_setter R E get : typeclass_instances.

Declare Scope record_scope.
Notation "r <| get := v |>" := (rset get (fun _ => v) r)
  (at level 12, left associativity, get at level 11, v at level 99) : record_scope.
Open Scope record_scope.

(** The mechanism on a small record. *)
Module test.

Record point := mkPoint { px : Z; py : Z }.

#[local] Instance eta_point : Eta point := fun p => mkPoint (px p) (py p).

Example set_twice p : p <| py := 4 |> <| px := py p |> = mkPoint (py p) 4.
Proof. reflexivity. Qed.

Example set_other p v : px (p <| py := v |>) = px p.
Proof. reflexivity. Qed.

End test.
