(* ===== verification/CLib.v ===== *)
(** * The C library functions the program relies on.

    C strings are lists of bytes; a string ends at its first zero byte or, when
    the list holds none, at the end of the list (where the terminator is).
    [malloc] is a state monad over [heap]. *)

From stdpp Require Import pretty.
From S2P Require Import Prelude.

(** ** Strings *)

(** The bytes before the terminator. *)
Fixpoint cstr (l : list Z) : list Z :=
  match l with
  | [] => []
  | c :: l' => if c =? 0 then [] else c :: cstr l'
  end.

Definition strlen (l : list Z) : Z := zlen (cstr l).

(** [&s[n]] for [n] up to the terminator. *)
Definition char_at (l : list Z) (n : Z) : Z :=
  if n <? 0 then 0 else default 0 (l !! Z.to_nat n).

Fixpoint strncmp (a b : list Z) (n : nat) : Z :=
  match n with
  | O => 0
  | S n' =>
    let x := hd 0 a in
    let y := hd 0 b in
    if x =? y then (if x =? 0 then 0 else strncmp (tl a) (tl b) n') else x - y
  end.

Definition strcmp (a b : list Z) : Z := strncmp a b (S (length a + length b)).

Definition tolower (c : Z) : Z := if (65 <=? c) && (c <=? 90) then c + 32 else c.

Definition strncasecmp (a b : list Z) (n : nat) : Z :=
  strncmp (map tolower a) (map tolower b) n.

(** [isspace] in the C locale. *)
Definition isspace (c : Z) : bool := (c =? 32) || ((9 <=? c) && (c <=? 13)).

Definition isdigit (c : Z) : bool := (48 <=? c) && (c <=? 57).

Definition isxdigit (c : Z) : bool :=
  isdigit c || ((65 <=? c) && (c <=? 70)) || ((97 <=? c) && (c <=? 102)).

Fixpoint skip_space (l : list Z) : list Z :=
  match l with
  | c :: l' => if isspace c then skip_space l' else l
  | [] => []
  end.

(** Longest run of decimal digits: its value and what follows. *)
Fixpoint dec_digits (acc : Z) (l : list Z) : Z * list Z :=
  match l with
  | c :: l' => if isdigit c then dec_digits (acc * 10 + (c - 48)) l' else (acc, l)
  | [] => (acc, [])
  end.

(** [strtoul (s, &end, 10)]: the value and the string [end] points to.
    Without a digit nothing is consumed; a value out of range saturates; a
    minus sign negates modulo 2^64. *)
Definition strtoul (s : list Z) : Z * list Z :=
  let s1 := skip_space s in
  let '(neg, s2) :=
    match s1 with
    | c :: r => if c =? 45 then (true, r) else if c =? 43 then (false, r) else (false, s1)
    | [] => (false, s1)
    end in
  match s2 with
  | c :: _ =>
    if isdigit c then
      let '(v, e) := dec_digits 0 s2 in
      if ULONG_MAX <? v then (ULONG_MAX, e)
      else if neg then (u64 (- v), e) else (v, e)
    else (0, s)
  | [] => (0, s)
  end.

(** Offset of the first occurrence of [c]. *)
Fixpoint strchr (l : list Z) (c : Z) : option Z :=
  match l with
  | [] => None
  | x :: l' => if x =? c then Some 0 else option_map (Z.add 1) (strchr l' c)
  end.

(** [%u]; a dotted quad; [inet_ntoa] of an address in network order. *)
Definition dec (n : Z) : list Z := str (pretty (Z.to_N n)).

Definition dotted (a b c d : Z) : list Z :=
  dec a ++ [chr "."] ++ dec b ++ [chr "."] ++ dec c ++ [chr "."] ++ dec d.

Definition inet_ntoa (ip : Z) : list Z :=
  dotted (u8 ip) (u8 (ip / 2 ^ 8)) (u8 (ip / 2 ^ 16)) (u8 (ip / 2 ^ 24)).

(** ** Dynamic memory

    The allocator answers requests with the booleans of [h_answers], in order,
    and grants every request once they are used up.  A request above
    [PTRDIFF_MAX] is always refused, as malloc(3) documents.  Fresh memory
    holds arbitrary bytes ([h_fill]).  [h_live] counts the live blocks. *)
Record heap := mkHeap {
  h_answers : list bool;
  h_fill : nat -> Z;
  h_live : Z;
}.

Definition alloc (A : Type) : Type := heap -> A * heap.

Definition ret {A} (a : A) : alloc A := fun h => (a, h).

Definition bind {A B} (m : alloc A) (k : A -> alloc B) : alloc B :=
  fun h => let '(a, h') := m h in k a h'.

Declare Scope alloc_scope.
Delimit Scope alloc_scope with alloc.
Notation "'let!' x ':=' m 'in' k" := (bind m (fun x => k))
  (at level 10, x pattern, m at level 100, k at level 200) : alloc_scope.
Notation "m ';;!' k" := (bind m (fun _ => k))
  (at level 100, right associativity) : alloc_scope.
Open Scope alloc_scope.

(** Grant or refuse one request of [n] bytes. *)
Definition grant (n : Z) : alloc bool := fun h =>
  if PTRDIFF_MAX <? n then (false, h)
  else match h_answers h with
       | [] => (true, mkHeap [] (h_fill h) (h_live h + 1))
       | true :: r => (true, mkHeap r (h_fill h) (h_live h + 1))
       | false :: r => (false, mkHeap r (h_fill h) (h_live h))
       end.

Definition fresh_bytes (n : Z) : alloc (list Z) := fun h =>
  (map (h_fill h) (seq 0 (Z.to_nat n)), h).

(** [NULL] is [None]. *)
Definition malloc (n : Z) : alloc (option (list Z)) :=
  let! ok := grant n in
  if ok then let! b := fresh_bytes n in ret (Some b) else ret None.

(** [realloc] of a live block: the old block stays valid on failure. *)
Definition realloc (n : Z) : alloc bool := fun h =>
  let '(ok, h') := grant n h in
  (ok, mkHeap (h_answers h') (h_fill h') (h_live h)).

(** [free] of [n] blocks. *)
Definition free_blocks (n : Z) : alloc unit := fun h =>
  (tt, mkHeap (h_answers h) (h_fill h) (h_live h - n)).

Definition strdup (s : list Z) : alloc (option (list Z)) :=
  let! ok := grant (strlen s + 1) in
  ret (if ok then Some (cstr s) else None).

(** A heap on which every request that is not too large is granted. *)
Definition heap_ok (h : heap) : Prop := Forall (fun b => b = true) (h_answers h).

Definition heap0 : heap := mkHeap [] (fun _ => 170) 0.

(** ** Lemmas *)

Lemma grant_ok n h :
  heap_ok h -> n <= PTRDIFF_MAX ->
  exists h', grant n h = (true, h') /\ heap_ok h' /\
             h_live h' = h_live h + 1 /\ h_fill h' = h_fill h.
Proof.
  unfold grant, heap_ok; intros Hok Hn.
  destruct (Z.ltb_spec PTRDIFF_MAX n) as [?|_]; [lia|].
  destruct (h_answers h) as [|b r] eqn:E.
  - eexists; split; [reflexivity|]; repeat split; by constructor.
  - inversion Hok; subst; eexists; split; [reflexivity|]; by repeat split.
Qed.

(** One request: refused with the live count unchanged, or granted. *)
Lemma grant_cases n h :
  (exists h', grant n h = (true, h') /\ n <= PTRDIFF_MAX /\
      h_live h' = h_live h + 1 /\ h_fill h' = h_fill h /\ (heap_ok h -> heap_ok h')) \/
  (exists h', grant n h = (false, h') /\ h_live h' = h_live h /\ h_fill h' = h_fill h /\
      (heap_ok h -> n <= PTRDIFF_MAX -> False) /\ (heap_ok h -> heap_ok h')).
Proof.
  unfold grant, heap_ok; destruct (Z.ltb_spec PTRDIFF_MAX n).
  - right; eexists; split; [done|]; repeat split; auto; lia.
  - destruct (h_answers h) as [|[] r] eqn:E.
    + left; eexists; split; [done|]; repeat split; simpl; auto.
    + left; eexists; split; [done|]; repeat split; simpl; auto. by inversion 1.
    + right; eexists; split; [done|]; repeat split; simpl; auto; by inversion 1.
Qed.

Lemma zlen_fresh n h : 0 <= n -> zlen (fst (fresh_bytes n h)) = n.
Proof. intros; unfold fresh_bytes; cbn [fst]; rewrite zlen_map; unfold zlen; rewrite length_seq; lia. Qed.

Lemma strchr_some l c i : strchr l c = Some i -> 0 <= i < zlen l /\ char_at l i = c.
Proof.
  revert i; induction l as [|x l IH]; cbn; intros i; [done|]. rewrite zlen_cons. pose proof (zlen_nonneg l).
  destruct (Z.eqb_spec x c) as [->|]; [intros [= <-]; split; [lia|done]|].
  destruct (strchr l c) as [j|]; [|done]. cbn. intros [= <-]. destruct (IH j eq_refl) as [Hj <-].
  split; [lia|]. unfold char_at. rewrite (proj2 (Z.ltb_ge j 0)) by lia.
  rewrite (proj2 (Z.ltb_ge _ 0)) by lia. replace (Z.to_nat (1 + j)) with (S (Z.to_nat j)) by lia. done.
Qed.

Lemma cstr_no_zero l : Forall (fun c => c <> 0) (cstr l).
Proof.
  induction l as [|c l IH]; simpl; [done|].
  destruct (Z.eqb_spec c 0); [constructor|by constructor].
Qed.

Lemma cstr_id l : Forall (fun c => c <> 0) l -> cstr l = l.
Proof.
  induction 1 as [|c l Hc _ IH]; simpl; [done|].
  destruct (Z.eqb_spec c 0); [done | by rewrite IH].
Qed.

Lemma cstr_app_zero l k : Forall (fun c => c <> 0) l -> cstr (l ++ 0 :: k) = l.
Proof.
  induction 1 as [|c l Hc _ IH]; simpl; [done|].
  destruct (Z.eqb_spec c 0); [done | by rewrite IH].
Qed.

Lemma strlen_le l : strlen l <= zlen l.
Proof.
  unfold strlen; induction l as [|c l IH]; simpl; [done|].
  destruct (c =? 0); zlia.
Qed.

Lemma strlen_nonneg l : 0 <= strlen l.
Proof. apply zlen_nonneg. Qed.

Lemma strncmp_prefix a b n :
  Forall (fun c => c <> 0) b -> length b = n -> strncmp a b n = 0 -> exists r, a = b ++ r.
Proof.
  revert a n; induction b as [|y b IH]; intros a n Hb <- H; simpl in *; [by exists a|].
  apply Forall_cons in Hb as [Hy Hb]; cbn beta in Hy. destruct a as [|x a]; simpl in H.
  - destruct (Z.eqb_spec 0 y); lia.
  - destruct (Z.eqb_spec x y); [subst | lia].
    destruct (Z.eqb_spec y 0); [lia|].
    destruct (IH a (length b)) as [r ->]; try done. by exists r.
Qed.

Lemma strncmp_app a r :
  Forall (fun c => c <> 0) a -> strncmp (a ++ r) a (length a) = 0.
Proof.
  induction 1 as [|x a Hx _ IH]; simpl; [done|].
  rewrite Z.eqb_refl. destruct (Z.eqb_spec x 0); done.
Qed.

#[export] Hint Resolve cstr_no_zero strlen_nonneg : core.

(** *** Reasoning about [alloc]: a weakest precondition *)

Definition wp {A} (m : alloc A) (Q : A -> heap -> Prop) (h : heap) : Prop :=
  let '(a, h') := m h in Q a h'.

Lemma wp_ret {A} (a : A) Q h : Q a h -> wp (ret a) Q h.
Proof. done. Qed.

Lemma wp_bind {A B} (m : alloc A) (k : A -> alloc B) Q h :
  wp m (fun a h' => wp (k a) Q h') h -> wp (bind m k) Q h.
Proof. unfold wp, bind; destruct (m h); done. Qed.

Lemma wp_mono {A} (m : alloc A) (Q R : A -> heap -> Prop) h :
  wp m Q h -> (forall a h', Q a h' -> R a h') -> wp m R h.
Proof. unfold wp; destruct (m h); auto. Qed.

Lemma wp_fst {A} (m : alloc A) (P : A -> Prop) h : wp m (fun a _ => P a) h -> P (fst (m h)).
Proof. unfold wp; destruct (m h); done. Qed.

(** What one successful or refused request does to the heap. *)
Definition heap_step (h h' : heap) (d : Z) : Prop :=
  h_live h' = h_live h + d /\ (heap_ok h -> heap_ok h').

Lemma heap_step_refl h : heap_step h h 0.
Proof. split; [lia | done]. Qed.

Lemma heap_step_trans h1 h2 h3 a b c :
  heap_step h1 h2 a -> heap_step h2 h3 b -> c = a + b -> heap_step h1 h3 c.
Proof. intros [? ?] [? ?] ->; split; [lia | auto]. Qed.

Lemma wp_grant n Q h :
  (forall h', n <= PTRDIFF_MAX -> heap_step h h' 1 -> Q true h') ->
  (forall h', (heap_ok h -> n <= PTRDIFF_MAX -> False) -> heap_step h h' 0 -> Q false h') ->
  wp (grant n) Q h.
Proof.
  intros Ht Hf; unfold wp.
  destruct (grant_cases n h) as [(h' & -> & ? & ? & ? & ?)|(h' & -> & ? & ? & ? & ?)].
  - apply Ht; [done | split; [lia | done]].
  - apply Hf; [done | split; [lia | done]].
Qed.

Lemma wp_malloc n Q h :
  0 <= n ->
  (forall b h', zlen b = n -> n <= PTRDIFF_MAX -> heap_step h h' 1 -> Q (Some b) h') ->
  (forall h', (heap_ok h -> n <= PTRDIFF_MAX -> False) -> heap_step h h' 0 -> Q None h') ->
  wp (malloc n) Q h.
Proof.
  intros Hn Ht Hf; unfold malloc. apply wp_bind, wp_grant.
  - intros h' Hmax Hst. unfold wp, bind, fresh_bytes, ret. apply Ht; try done.
    rewrite zlen_map; unfold zlen; rewrite length_seq; lia.
  - intros h' Hno Hst. by apply Hf.
Qed.

Lemma wp_realloc n Q h :
  (forall h', n <= PTRDIFF_MAX -> heap_step h h' 0 -> Q true h') ->
  (forall h', (heap_ok h -> n <= PTRDIFF_MAX -> False) -> heap_step h h' 0 -> Q false h') ->
  wp (realloc n) Q h.
Proof.
  intros Ht Hf; unfold wp, realloc.
  destruct (grant_cases n h) as [(h' & -> & ? & ? & ? & ?)|(h' & -> & ? & ? & ? & ?)].
  - apply Ht; [done|]. split; cbn [h_live]; [lia | done].
  - apply Hf; [done|]. split; cbn [h_live]; [lia | done].
Qed.

Lemma wp_free n Q h :
  (forall h', heap_step h h' (- n) -> Q tt h') -> wp (free_blocks n) Q h.
Proof.
  intros HQ; unfold wp, free_blocks; apply HQ. split; cbn [h_live]; [lia | done].
Qed.

Lemma wp_strdup s Q h :
  (forall h', heap_step h h' 1 -> Q (Some (cstr s)) h') ->
  (forall h', (heap_ok h -> strlen s + 1 <= PTRDIFF_MAX -> False) -> heap_step h h' 0 -> Q None h') ->
  wp (strdup s) Q h.
Proof.
  intros Ht Hf; unfold strdup. apply wp_bind, wp_grant; intros; apply wp_ret; auto.
Qed.

(** ** Blocks of zero-terminated strings *)

(** The tokens a block of zero-terminated strings holds. *)
Definition flatten_tokens (ts : list (list Z)) : list Z := concat (map (fun t => t ++ [0]) ts).

(** The number of terminators. *)
Definition zeros (l : list Z) : Z := zlen (filter (fun c => c = 0) l).

Lemma zeros_app l k : zeros (l ++ k) = zeros l + zeros k.
Proof. unfold zeros; rewrite filter_app; zlia. Qed.

Lemma zeros_one c : zeros [c] = if c =? 0 then 1 else 0.
Proof. unfold zeros. destruct (Z.eqb_spec c 0) as [->|]; [done|]. by rewrite filter_cons_False. Qed.

Definition ends_zero (l : list Z) : Prop := l = [] \/ exists k, l = k ++ [0].

Lemma split_tokens l :
  ends_zero l ->
  exists ts, l = flatten_tokens ts /\ zlen ts = zeros l /\
             Forall (Forall (fun c => c <> 0)) ts.
Proof.
  intros He. induction l as [|c l IH]; [by exists []|].
  assert (ends_zero l) as Hl.
  { destruct He as [|[k Hk]]; [done|]. destruct k as [|x k]; injection Hk as -> ->; [left; done | right; by exists k]. }
  destruct (IH Hl) as (ts & -> & Hn & Hf).
  change (c :: flatten_tokens ts) with ([c] ++ flatten_tokens ts). rewrite zeros_app, zeros_one.
  destruct (Z.eqb_spec c 0) as [->|Hc].
  - exists ([] :: ts). split_and!; [done | zlia | by constructor].
  - destruct ts as [|t ts].
    + exfalso. destruct He as [|[k Hk]]; [done|].
      cbn in Hk. destruct k as [|? [|]]; cbn in Hk; congruence.
    + exists ((c :: t) :: ts). apply Forall_cons in Hf as [Ht Hts].
      split_and!; [done | zlia | repeat (constructor; auto)].
Qed.

Lemma ends_zero_app l : ends_zero (l ++ [0]).
Proof. right; eauto. Qed.

(** ** Binary search *)

(** [bsearch]: [cmp] compares the key with an element.  The fuel is the length
    of the table, which the interval never outgrows. *)
Fixpoint bsearch_loop {A} (cmp : A -> Z) (l : list A) (lo hi : nat) (fuel : nat) : option A :=
  match fuel with
  | O => None
  | S fuel' =>
    if (lo <? hi)%nat then
      let mid := ((lo + hi) / 2)%nat in
      match l !! mid with
      | None => None
      | Some e =>
        let r := cmp e in
        if r <? 0 then bsearch_loop cmp l lo mid fuel'
        else if 0 <? r then bsearch_loop cmp l (S mid) hi fuel'
        else Some e
      end
    else None
  end.

Definition bsearch {A} (cmp : A -> Z) (l : list A) : option A :=
  bsearch_loop cmp l 0 (length l) (S (length l)).

(** The table is sorted for the key: what compares at or below an element is
    below every later one. *)
Definition bsearch_sorted {A} (cmp : A -> Z) (l : list A) : Prop :=
  forall i j x y, (i < j)%nat -> l !! i = Some x -> l !! j = Some y -> cmp x <= 0 -> cmp y < 0.

Lemma bsearch_loop_spec {A} (cmp : A -> Z) l lo hi fuel :
  bsearch_sorted cmp l -> (hi <= length l)%nat -> (hi - lo < fuel)%nat ->
  match bsearch_loop cmp l lo hi fuel with
  | Some e => cmp e = 0 /\ exists i, l !! i = Some e
  | None => forall i x, (lo <= i < hi)%nat -> l !! i = Some x -> cmp x <> 0
  end.
Proof.
  intros Hs. revert lo hi; induction fuel as [|fuel IH]; intros lo hi Hhi Hf; [lia|].
  cbn [bsearch_loop]. destruct (Nat.ltb_spec lo hi) as [Hlt|]; [|lia].
  set (mid := ((lo + hi) / 2)%nat).
  assert (lo <= mid < hi)%nat as Hmid.
  { unfold mid. split; [apply Nat.div_le_lower_bound | apply Nat.Div0.div_lt_upper_bound]; lia. }
  destruct (l !! mid) as [e|] eqn:He; [|apply lookup_ge_None in He; lia].
  destruct (Z.ltb_spec (cmp e) 0) as [Hneg|]; [|destruct (Z.ltb_spec 0 (cmp e)) as [Hpos|]].
  - specialize (IH lo mid ltac:(lia) ltac:(lia)). destruct (bsearch_loop cmp l lo mid fuel); [done|].
    intros i x Hi Hx. destruct (decide (i < mid)%nat) as [|Hge]; [apply (IH i); [lia|done]|].
    destruct (decide (i = mid)) as [->|]; [simplify_eq; lia|].
    specialize (Hs mid i e x ltac:(lia) He Hx). lia.
  - specialize (IH (S mid) hi ltac:(lia) ltac:(lia)).
    destruct (bsearch_loop cmp l (S mid) hi fuel); [done|].
    intros i x Hi Hx. destruct (decide (mid < i)%nat) as [|Hge]; [apply (IH i); [lia|done]|].
    destruct (decide (i = mid)) as [->|]; [simplify_eq; lia|].
    specialize (Hs i mid x e ltac:(lia) Hx He). lia.
  - split; [lia | by exists mid].
Qed.

(** On a sorted table the binary search is the linear one. *)
Lemma bsearch_find {A} (cmp : A -> Z) l :
  bsearch_sorted cmp l -> bsearch cmp l = List.find (fun e => cmp e =? 0) l.
Proof.
  intros Hs. pose proof (bsearch_loop_spec cmp l 0 (length l) (S (length l)) Hs) as H.
  specialize (H ltac:(lia) ltac:(lia)). unfold bsearch.
  destruct (bsearch_loop cmp l 0 (length l) (S (length l))) as [e|].
  - destruct H as [He [i Hi]]. symmetry. clear -Hs He Hi.
    assert (forall j x, l !! j = Some x -> cmp x = 0 -> j = i) as Huniq.
    { intros j x Hx H0. destruct (lt_eq_lt_dec i j) as [[Hlt|]|Hlt]; [|done|].
      - specialize (Hs i j e x Hlt Hi Hx). lia.
      - specialize (Hs j i x e Hlt Hx Hi). lia. }
    clear Hs. revert i Hi Huniq. induction l as [|y l IH]; intros i Hi Huniq; [done|].
    cbn [List.find]. destruct (Z.eqb_spec (cmp y) 0) as [Hy|Hy].
    + specialize (Huniq 0%nat y eq_refl Hy). by subst; cbn in Hi; simplify_eq.
    + destruct i as [|i]; [cbn in Hi; simplify_eq|]. apply (IH i Hi).
      intros j x Hx H0. specialize (Huniq (S j) x Hx H0). lia.
  - symmetry. clear Hs. destruct (List.find _ l) as [x|] eqn:Hf; [|done].
    apply List.find_some in Hf as [Hin Hx]. apply list_elem_of_In in Hin.
    apply list_elem_of_lookup_1 in Hin as [i Hi]. exfalso. apply (H i x); [|done|lia].
    apply lookup_lt_Some in Hi. lia.
Qed.
