(* ===== verification/Log.v ===== *)
(** * Logging.

    [src/shl_log.c], [src/shl_log.h] and [src/shl_llog.h].  The program writes
    lines to its standard error output; a message carries the position in the
    source, a subsystem, and a severity.  The text of a message is what
    [vfprintf] makes of its format, its arguments and the error number; [clock]
    is what [gettimeofday] gives, and [noise] what a call of the C library may
    leave in the error number. *)

From stdpp Require Import gmap.
From S2P Require Import Prelude RecordSet StateFail CLib.

(** ** Severities *)

Definition LOG_FATAL : Z := 0.
Definition LOG_ALERT : Z := 1.
Definition LOG_CRITICAL : Z := 2.
Definition LOG_ERROR : Z := 3.
Definition LOG_WARNING : Z := 4.
Definition LOG_NOTICE : Z := 5.
Definition LOG_INFO : Z := 6.
Definition LOG_DEBUG : Z := 7.
Definition LOG_SEV_NUM : Z := 8.

Definition log__sev2str (sev : Z) : list Z :=
  if sev =? LOG_DEBUG then str "DEBUG"
  else if sev =? LOG_INFO then str "INFO"
  else if sev =? LOG_NOTICE then str "NOTICE"
  else if sev =? LOG_WARNING then str "WARNING"
  else if sev =? LOG_ERROR then str "ERROR"
  else if sev =? LOG_CRITICAL then str "CRITICAL"
  else if sev =? LOG_ALERT then str "ALERT"
  else str "FATAL".

(** ** State *)

Record timeval := mkTime { tv_sec : Z; tv_usec : Z }.

(** Where a message comes from; [None] is [NULL]. *)
Record site := mkSite { file : option (list Z); line : Z; func : option (list Z); subs : option (list Z) }.

(** The arguments of a format. *)
Inductive arg := AInt (n : Z) | AStr (text : list Z).

Record logger := mkLogger {
  log__ftime : timeval;
  log_max_sev : Z;
  err : Z;
  stderr : list Z;
  calls : nat;
}.

#[export] Instance eta_logger : Eta logger := fun s =>
  mkLogger (log__ftime s) (log_max_sev s) (err s) (stderr s) (calls s).

(** At the start of the program. *)
Definition logger0 : logger := mkLogger (mkTime 0 0) LOG_NOTICE 0 [] 0.

Definition lm (A : Type) : Type := sfm logger A.

Definition get_errno : lm Z := fun s => Some (err s, s).

Definition set_errno (e : Z) : lm unit := smod (fun s => s <| err := e |>).

(** [%.nlld]: at least [n] digits. *)
Definition pad (n : nat) (v : Z) : list Z :=
  let digits := dec (Z.abs v) in
  (if v <? 0 then [chr "-"] else []) ++ replicate (n - length digits) (chr "0") ++ digits.

Section log.
Context (clock : nat -> timeval) (noise : nat -> Z -> Z).
Context (vformat : list Z -> list arg -> Z -> list Z).

Definition gettimeofday : lm timeval := fun s =>
  Some (clock (calls s), s <| calls := S (calls s) |>).

Definition fprintf (text : list Z) : lm unit := smod (fun s =>
  s <| stderr := stderr s ++ text |> <| err := noise (calls s) (err s) |> <| calls := S (calls s) |>).

Definition vfprintf (format : list Z) (args : list arg) : lm unit := fun s => fprintf (vformat format args (err s)) s.

(** ** [shl_log.c] *)

Definition log_lock : lm unit := sret tt.
Definition log_unlock : lm unit := sret tt.

Definition log__time : lm (Z * Z) :=
  let* s := sget in
  if (tv_sec (log__ftime s) =? 0) && (tv_usec (log__ftime s) =? 0) then
    let* t := gettimeofday in
    let* _ := smod (fun s => s <| log__ftime := t |>) in
    sret (0, 0)
  else
    let* t := gettimeofday in
    let sec := tv_sec t - tv_sec (log__ftime s) in
    let usec := tv_usec t - tv_usec (log__ftime s) in
    if usec <? 0 then
      let sec := sec - 1 in
      let sec := if sec <? 0 then 0 else sec in
      sret (sec, 1000000 + usec)
    else sret (sec, usec).

(** ["[%.4lld.%.6lld] "] and the parts behind it. *)
Definition stamp (sec usec : Z) : list Z := [chr "["] ++ pad 4 sec ++ [chr "."] ++ pad 6 usec ++ str "] ".

Definition part (text : list Z) : list Z := text ++ str ": ".

Definition log__submit (at_ : site) (sev : Z) (format : list Z) (args : list arg) : lm unit :=
  let* saved_errno := get_errno in
  let* (sec, usec) := log__time in
  let* s := sget in
  if (sev <? LOG_SEV_NUM) && (log_max_sev s <? sev) then sret tt
  else
    let prefix := if sev <? LOG_SEV_NUM then Some (log__sev2str sev) else None in
    let* _ :=
      (match prefix, subs at_ with
       | Some p, Some subs => fprintf (stamp sec usec ++ part p ++ part subs)
       | Some p, None => fprintf (stamp sec usec ++ part p)
       | None, Some subs => fprintf (stamp sec usec ++ part subs)
       | None, None => fprintf (stamp sec usec)
       end) in
    let* _ := set_errno saved_errno in
    let* _ := vfprintf format args in
    if sev =? LOG_DEBUG then
      let func := default (str "<unknown>") (func at_) in
      let file := default (str "<unknown>") (file at_) in
      let line := if line at_ <? 0 then 0 else line at_ in
      fprintf (str " (" ++ func ++ str "() in " ++ file ++ str ":" ++ dec line ++ str ")" ++ [LF])
    else fprintf [LF].

Definition log_submit (at_ : site) (sev : Z) (format : list Z) (args : list arg) : lm unit :=
  let* saved_errno := get_errno in
  let* _ := log_lock in
  let* _ := set_errno saved_errno in
  let* _ := log__submit at_ sev format args in
  let* _ := log_unlock in
  set_errno saved_errno.

Definition log_format (at_ : site) (sev : Z) (format : list Z) (args : list arg) : lm unit :=
  let* saved_errno := get_errno in
  let* _ := log_lock in
  let* _ := set_errno saved_errno in
  let* _ := log__submit at_ sev format args in
  let* _ := log_unlock in
  set_errno saved_errno.

Definition log_llog {D} (data : D) (at_ : site) (sev : Z) (format : list Z) (args : list arg) : lm unit :=
  log_submit at_ sev format args.

(** ** [shl_log.h]

    The helpers are macros; [at_] is the place where one is used, [debug] is
    whether [BUILD_ENABLE_DEBUG] is defined there. *)

Definition log_dummyf (sev : Z) (format : list Z) (args : list arg) : lm unit := sret tt.

Definition log_debug (debug : bool) (at_ : site) (format : list Z) (args : list arg) : lm unit :=
  if debug then log_format at_ LOG_DEBUG format args else log_dummyf LOG_DEBUG format args.

Definition log_info at_ := log_format at_ LOG_INFO.
Definition log_notice at_ := log_format at_ LOG_NOTICE.
Definition log_warning at_ := log_format at_ LOG_WARNING.
Definition log_error at_ := log_format at_ LOG_ERROR.
Definition log_critical at_ := log_format at_ LOG_CRITICAL.
Definition log_alert at_ := log_format at_ LOG_ALERT.
Definition log_fatal at_ := log_format at_ LOG_FATAL.

Definition log_EINVAL (at_ : site) : lm Z :=
  let* _ := log_error at_ (str "invalid arguments") [] in sret (- EINVAL).

Definition log_EFAULT (at_ : site) : lm Z :=
  let* _ := log_error at_ (str "internal operation failed") [] in sret (- EFAULT).

Definition log_ENOMEM (at_ : site) : lm Z :=
  let* _ := log_error at_ (str "out of memory") [] in sret (- ENOMEM).

Definition log_EPIPE (at_ : site) : lm Z :=
  let* _ := log_error at_ (str "fd closed unexpectedly") [] in sret (- EPIPE).

Definition log_ERRNO (at_ : site) : lm Z :=
  let* e := get_errno in
  let* _ := log_error at_ (str "syscall failed (%d): %m") [AInt e] in
  let* e := get_errno in
  sret (- e).

Definition log_ERR (at_ : site) (r : Z) : lm Z :=
  let* _ := set_errno (- r) in
  let* _ := log_error at_ (str "syscall failed (%d): %m") [AInt r] in
  sret r.

(** ** [shl_llog.h]: loggers of a library, which may be missing *)

Definition LLOG_FATAL : Z := 0.
Definition LLOG_ALERT : Z := 1.
Definition LLOG_CRITICAL : Z := 2.
Definition LLOG_ERROR : Z := 3.
Definition LLOG_WARNING : Z := 4.
Definition LLOG_NOTICE : Z := 5.
Definition LLOG_INFO : Z := 6.
Definition LLOG_DEBUG : Z := 7.

Definition llog_submit_t (D : Type) : Type := D -> site -> Z -> list Z -> list arg -> lm unit.

Section llog.
Context {D : Type} (llog : option (llog_submit_t D)) (data : D).

Definition llog_format (at_ : site) (sev : Z) (format : list Z) (args : list arg) : lm unit :=
  let* saved_errno := get_errno in
  match llog with
  | Some llog =>
    let* _ := set_errno saved_errno in
    llog data at_ sev format args
  | None => sret tt
  end.

Definition llog_dummyf (sev : Z) (format : list Z) (args : list arg) : lm unit := sret tt.

Definition llog_ddebug (debug : bool) (at_ : site) (format : list Z) (args : list arg) : lm unit :=
  if debug then llog_format at_ LLOG_DEBUG format args else llog_dummyf LLOG_DEBUG format args.

Definition llog_dinfo at_ := llog_format at_ LLOG_INFO.
Definition llog_dnotice at_ := llog_format at_ LLOG_NOTICE.
Definition llog_dwarning at_ := llog_format at_ LLOG_WARNING.
Definition llog_derror at_ := llog_format at_ LLOG_ERROR.
Definition llog_dcritical at_ := llog_format at_ LLOG_CRITICAL.
Definition llog_dalert at_ := llog_format at_ LLOG_ALERT.
Definition llog_dfatal at_ := llog_format at_ LLOG_FATAL.

Definition llog_dEINVAL (at_ : site) : lm Z :=
  let* _ := llog_derror at_ (str "invalid arguments") [] in sret (- EINVAL).

Definition llog_dEFAULT (at_ : site) : lm Z :=
  let* _ := llog_derror at_ (str "internal operation failed") [] in sret (- EFAULT).

Definition llog_dENOMEM (at_ : site) : lm Z :=
  let* _ := llog_derror at_ (str "out of memory") [] in sret (- ENOMEM).

Definition llog_dEPIPE (at_ : site) : lm Z :=
  let* _ := llog_derror at_ (str "fd closed unexpectedly") [] in sret (- EPIPE).

Definition llog_dERRNO (at_ : site) : lm Z :=
  let* e := get_errno in
  let* _ := llog_derror at_ (str "syscall failed (%d): %m") [AInt e] in
  let* e := get_errno in
  sret (- e).

Definition llog_dERR (at_ : site) (r : Z) : lm Z :=
  let* _ := set_errno (- r) in
  let* _ := llog_derror at_ (str "syscall failed (%d): %m") [AInt r] in
  sret r.

End llog.

(** An object of the library with its two fields; the helpers with a [d] use
    the fields themselves. *)
Record logged (D : Type) := mkLogged { llog : option (llog_submit_t D); llog_data : D }.

Section object.
Context {D : Type} (obj : logged D).

Definition llog_printf (at_ : site) (sev : Z) (format : list Z) (args : list arg) : lm unit :=
  llog_format (llog D obj) (llog_data D obj) at_ sev format args.

Definition llog_debug (debug : bool) := llog_ddebug (llog D obj) (llog_data D obj) debug.
Definition llog_info at_ := llog_printf at_ LLOG_INFO.
Definition llog_notice at_ := llog_printf at_ LLOG_NOTICE.
Definition llog_warning at_ := llog_printf at_ LLOG_WARNING.
Definition llog_error at_ := llog_printf at_ LLOG_ERROR.
Definition llog_critical at_ := llog_printf at_ LLOG_CRITICAL.
Definition llog_alert at_ := llog_printf at_ LLOG_ALERT.
Definition llog_fatal at_ := llog_printf at_ LLOG_FATAL.

Definition llog_EINVAL := llog_dEINVAL (llog D obj) (llog_data D obj).
Definition llog_EFAULT := llog_dEFAULT (llog D obj) (llog_data D obj).
Definition llog_ENOMEM := llog_dENOMEM (llog D obj) (llog_data D obj).
Definition llog_EPIPE := llog_dEPIPE (llog D obj) (llog_data D obj).
Definition llog_ERRNO := llog_dERRNO (llog D obj) (llog_data D obj).
Definition llog_ERR := llog_dERR (llog D obj) (llog_data D obj).

End object.

(** ** What is logged *)

Definition timeval_ok (t : timeval) : Prop := 0 <= tv_usec t < 1000000.

Definition micros (t : timeval) : Z := 1000000 * tv_sec t + tv_usec t.

(** Seconds, rounded down, and microseconds between two times, as they are shown.
    When the clock was set back the seconds are negative; they are cut off at 0
    only when the microseconds of the later time are the smaller ones. *)
Definition elapsed (since now : timeval) : Z * Z :=
  let d := micros now - micros since in
  (if tv_usec now <? tv_usec since then Z.max 0 (d / 1000000) else d / 1000000, d mod 1000000).

Lemma elapsed_forward since now :
  micros since <= micros now ->
  elapsed since now = ((micros now - micros since) / 1000000, (micros now - micros since) mod 1000000).
Proof.
  intros H. unfold elapsed. cbv zeta. rewrite Z.max_r by (apply Z.div_pos; lia). by destruct (_ <? _).
Qed.

Definition unset (t : timeval) : bool := (tv_sec t =? 0) && (tv_usec t =? 0).

Definition hidden (max_sev sev : Z) : bool := (sev <? LOG_SEV_NUM) && (max_sev <? sev).

(** A line of the log. *)
Definition log_line (at_ : site) (sev : Z) (since now : timeval) (text : list Z) : list Z :=
  stamp (elapsed since now).1 (elapsed since now).2 ++
  (if sev <? LOG_SEV_NUM then part (log__sev2str sev) else []) ++
  (match subs at_ with Some subs => part subs | None => [] end) ++ text ++
  (if sev =? LOG_DEBUG
   then str " (" ++ default (str "<unknown>") (func at_) ++ str "() in " ++ default (str "<unknown>") (file at_) ++
        str ":" ++ dec (Z.max 0 (line at_)) ++ str ")"
   else []) ++ [LF].

Lemma log__time_spec s :
  timeval_ok (log__ftime s) -> timeval_ok (clock (calls s)) ->
  let since := if unset (log__ftime s) then clock (calls s) else log__ftime s in
  log__time s = Some (elapsed since (clock (calls s)), s <| calls := S (calls s) |> <| log__ftime := since |>).
Proof.
  intros Hf Hc. unfold log__time, sbind at 1, sget. unfold unset, elapsed, micros, timeval_ok in *. cbv zeta.
  destruct (_ && _).
  - unfold sbind, gettimeofday, smod, sret. cbn [rset calls]. rewrite Z.sub_diag, Z.ltb_irrefl. done.
  - unfold sbind, gettimeofday, sret. cbv zeta. set (t := clock (calls s)) in *. set (f := log__ftime s) in *.
    assert (s <| calls := S (calls s) |> = s <| calls := S (calls s) |> <| log__ftime := f |>) as <- by (by subst f; destruct s).
    destruct (Z.ltb_spec (tv_usec t - tv_usec f) 0).
    + rewrite (proj2 (Z.ltb_lt (tv_usec t) (tv_usec f))) by lia.
      rewrite <- (Z.div_unique_pos _ 1000000 (tv_sec t - tv_sec f - 1) (1000000 + (tv_usec t - tv_usec f))) by lia.
      rewrite <- (Z.mod_unique_pos _ 1000000 (tv_sec t - tv_sec f - 1) (1000000 + (tv_usec t - tv_usec f))) by lia.
      do 3 f_equal. destruct (Z.ltb_spec (tv_sec t - tv_sec f - 1) 0); lia.
    + rewrite (proj2 (Z.ltb_ge (tv_usec t) (tv_usec f))) by lia. do 3 f_equal.
      * apply (Z.div_unique_pos _ _ _ (tv_usec t - tv_usec f)); lia.
      * apply (Z.mod_unique_pos _ _ (tv_sec t - tv_sec f)); lia.
Qed.

(** From one state to the next this text was written. *)
Record wrote (text : list Z) (s s' : logger) : Prop := {
  wr_text : stderr s' = stderr s ++ text;
  wr_ftime : log__ftime s' = log__ftime s;
  wr_sev : log_max_sev s' = log_max_sev s;
}.

Lemma wrote_app a b s1 s2 s3 : wrote a s1 s2 -> wrote b s2 s3 -> wrote (a ++ b) s1 s3.
Proof. intros [H1 H2 H3] [H4 H5 H6]. split; [|congruence..]. by rewrite H4, H1, app_assoc. Qed.

Lemma swp_fprintf text (Q : unit -> logger -> Prop) s :
  (forall s', wrote text s s' -> Q tt s') -> swp False (fprintf text) Q s.
Proof. intros HQ. by apply HQ. Qed.

Lemma swp_vfprintf format args (Q : unit -> logger -> Prop) s :
  (forall s', wrote (vformat format args (err s)) s s' -> Q tt s') -> swp False (vfprintf format args) Q s.
Proof. intros HQ. by apply HQ. Qed.

Lemma swp_set_errno e (Q : unit -> logger -> Prop) s :
  (forall s', wrote [] s s' -> err s' = e -> Q tt s') -> swp False (set_errno e) Q s.
Proof. intros HQ. apply HQ; [split; [by rewrite app_nil_r|done..]|done]. Qed.

Lemma swp_get_errno (Q : Z -> logger -> Prop) s : Q (err s) s -> swp False get_errno Q s.
Proof. done. Qed.

Lemma log__submit_spec at_ sev format args s (Q : unit -> logger -> Prop) :
  timeval_ok (log__ftime s) -> timeval_ok (clock (calls s)) ->
  (forall s', log_max_sev s' = log_max_sev s ->
    log__ftime s' = (if unset (log__ftime s) then clock (calls s) else log__ftime s) ->
    stderr s' = stderr s ++ (if hidden (log_max_sev s) sev then [] else
      log_line at_ sev (log__ftime s') (clock (calls s)) (vformat format args (err s))) -> Q tt s') ->
  swp False (log__submit at_ sev format args) Q s.
Proof.
  intros Hf Hc HQ. pose proof (log__time_spec s Hf Hc) as Ht. cbv zeta in Ht. unfold log__submit.
  apply swp_bind, swp_get_errno, swp_bind. unfold swp at 1. rewrite Ht.
  set (since := if unset (log__ftime s) then clock (calls s) else log__ftime s) in *.
  destruct (elapsed since (clock (calls s))) as [sec usec] eqn:Ee. set (s1 := s <| calls := S (calls s) |> <| log__ftime := since |>).
  assert (stderr s1 = stderr s /\ log_max_sev s1 = log_max_sev s /\ log__ftime s1 = since) as (E1 & E2 & E3) by done. clearbody s1.
  apply swp_bind, swp_get. rewrite E2. unfold hidden in HQ. destruct (_ && _) eqn:Eh.
  - apply swp_ret, HQ; [done|done|by rewrite app_nil_r].
  - clear Eh.
    assert (forall s2 s3 s4 s5, wrote (stamp sec usec ++ (if sev <? LOG_SEV_NUM then part (log__sev2str sev) else []) ++
        (match subs at_ with Some subs => part subs | None => [] end)) s1 s2 -> wrote [] s2 s3 ->
      wrote (vformat format args (err s)) s3 s4 -> wrote ((if sev =? LOG_DEBUG
         then str " (" ++ default (str "<unknown>") (func at_) ++ str "() in " ++ default (str "<unknown>") (file at_) ++
              str ":" ++ dec (Z.max 0 (line at_)) ++ str ")" else []) ++ [LF]) s4 s5 -> Q tt s5) as Hend.
    { intros s2 s3 s4 s5 H1 H2 H3 H4. destruct (wrote_app _ _ _ _ _ (wrote_app _ _ _ _ _ (wrote_app _ _ _ _ _ H1 H2) H3) H4) as [Hx Hy Hz].
      apply HQ; [congruence|congruence|]. rewrite Hx, E1, Hy, E3. f_equal. unfold log_line. rewrite Ee, app_nil_r, <- !app_assoc. done. }
    apply swp_bind. eapply swp_mono with (Q := fun _ s2 => wrote (stamp sec usec ++
        (if sev <? LOG_SEV_NUM then part (log__sev2str sev) else []) ++ (match subs at_ with Some subs => part subs | None => [] end)) s1 s2).
    { destruct (sev <? LOG_SEV_NUM), (subs at_); apply swp_fprintf; intros s2 Hs2; rewrite ?app_nil_r; exact Hs2. }
    intros _ s2 Hs2. apply swp_bind, swp_set_errno. intros s3 Hs3 He3. apply swp_bind, swp_vfprintf. rewrite He3.
    intros s4 Hs4. specialize (fun s5 => Hend s2 s3 s4 s5 Hs2 Hs3 Hs4).
    destruct (sev =? LOG_DEBUG); apply swp_fprintf; intros s5 Hs5; apply Hend; [|done].
    replace (Z.max 0 (line at_)) with (if line at_ <? 0 then 0 else line at_) by (destruct (Z.ltb_spec (line at_) 0); lia).
    rewrite <- !app_assoc. exact Hs5.
Qed.

(** C33. Logging a message never fails and leaves the error number as it was.
    Unless its severity is below the chosen one exactly one line is written: the
    seconds and microseconds since the first message ([elapsed], which also says
    what is shown when the clock was set back in between), the severity, the subsystem
    if there is one, the text - made with the error number of the caller, however
    the library changes it in between -, and the position for a debug message.  A
    hidden message writes nothing, but sets the start of the time all the same. *)
Theorem log_format_spec at_ sev format args s :
  timeval_ok (log__ftime s) -> timeval_ok (clock (calls s)) ->
  exists s', log_format at_ sev format args s = Some (tt, s') /\ err s' = err s /\ log_max_sev s' = log_max_sev s /\
    log__ftime s' = (if unset (log__ftime s) then clock (calls s) else log__ftime s) /\
    stderr s' = stderr s ++ (if hidden (log_max_sev s) sev then [] else
      log_line at_ sev (log__ftime s') (clock (calls s)) (vformat format args (err s))).
Proof.
  intros Hf Hc. assert (swp False (log_format at_ sev format args) (fun _ s' => err s' = err s /\ log_max_sev s' = log_max_sev s /\
    log__ftime s' = (if unset (log__ftime s) then clock (calls s) else log__ftime s) /\
    stderr s' = stderr s ++ (if hidden (log_max_sev s) sev then [] else
      log_line at_ sev (log__ftime s') (clock (calls s)) (vformat format args (err s)))) s) as H.
  - unfold log_format. apply swp_bind, swp_get_errno, swp_bind. unfold log_lock. apply swp_ret, swp_bind.
    unfold swp at 1, set_errno, smod. set (s1 := s <| err := err s |>).
    assert (s1 = s) as -> by (by destruct s). apply swp_bind, log__submit_spec; [done..|]. intros s2 H1 H2 H3.
    unfold log_unlock. apply swp_bind, swp_ret, swp_set_errno. intros s3 [W1 W2 W3] He. rewrite app_nil_r in W1.
    rewrite W1, W2, W3. by split_and!.
  - unfold swp in H. destruct (log_format _ _ _ _ s) as [[[] s']|]; [by exists s'|done].
Qed.

(** Whatever the clock says. *)
Lemma log__submit_total at_ sev format args s : swp False (log__submit at_ sev format args) (fun _ _ => True) s.
Proof.
  unfold log__submit. apply swp_bind, swp_get_errno, swp_bind.
  assert (exists t s', log__time s = Some (t, s')) as ([sec usec] & s1 & Ht).
  { unfold log__time, sbind at 1, sget. destruct (_ && _); [by do 2 eexists|]. unfold sbind, gettimeofday, sret. cbv zeta.
    destruct (_ <? 0); by do 2 eexists. }
  unfold swp at 1. rewrite Ht. apply swp_bind, swp_get. destruct (_ && _); [done|]. apply swp_bind.
  eapply swp_mono with (Q := fun _ _ => True); [by destruct (sev <? LOG_SEV_NUM), (subs at_)|]. intros _ s2 _.
  apply swp_bind, swp_set_errno. intros s3 _ _. apply swp_bind. unfold vfprintf, swp at 1.
  by destruct (sev =? LOG_DEBUG).
Qed.

Lemma log_format_errno at_ sev format args s :
  exists s', log_format at_ sev format args s = Some (tt, s') /\ err s' = err s.
Proof.
  assert (swp False (log_format at_ sev format args) (fun _ s' => err s' = err s) s) as H.
  - unfold log_format. apply swp_bind, swp_get_errno, swp_bind. unfold log_lock. apply swp_ret, swp_bind, swp_set_errno.
    intros s1 _ _. apply swp_bind. eapply swp_mono; [apply log__submit_total|]. intros _ s2 _.
    unfold log_unlock. apply swp_bind, swp_ret, swp_set_errno. by intros s3 _ ->.
  - unfold swp in H. destruct (log_format _ _ _ _ s) as [[[] s']|]; [by exists s'|done].
Qed.

(** The helpers return the error they report, [log_ERRNO] the caller's. *)
Lemma log_ERRNO_spec at_ s : exists s', log_ERRNO at_ s = Some (- err s, s') /\ err s' = err s.
Proof.
  unfold log_ERRNO, sbind at 1, get_errno. unfold sbind at 1, log_error.
  destruct (log_format_errno at_ LOG_ERROR (str "syscall failed (%d): %m") [AInt (err s)] s) as (s' & -> & He).
  exists s'. unfold sbind, get_errno, sret. by rewrite He.
Qed.

Lemma log_ERR_spec at_ r s : exists s', log_ERR at_ r s = Some (r, s') /\ err s' = - r.
Proof.
  unfold log_ERR, sbind at 1, set_errno, smod. unfold sbind, log_error.
  destruct (log_format_errno at_ LOG_ERROR (str "syscall failed (%d): %m") [AInt r] (s <| err := - r |>)) as (s' & -> & He).
  by exists s'.
Qed.

(** A library without a logger reports nothing and returns the same; with
    [log_llog] its messages are those of the program. *)
Lemma llog_none {D} (data : D) at_ s : llog_dERRNO None data at_ s = Some (- err s, s).
Proof. done. Qed.

Lemma llog_is_log {D} (data : D) at_ sev format args s :
  llog_format (Some log_llog) data at_ sev format args s = log_format at_ sev format args s.
Proof.
  unfold llog_format, sbind at 1, get_errno. unfold sbind, set_errno, smod.
  assert (s <| err := err s |> = s) as -> by (by destruct s). done.
Qed.

End log.

(** ** Examples *)

(** A clock that was set back by ten seconds: what is shown is not cut off. *)
Example clock_set_back : elapsed (mkTime 100 5) (mkTime 90 7) = (-10, 2) /\ elapsed (mkTime 100 5) (mkTime 90 3) = (0, 999998).
Proof. by split. Qed.

(** A clock that starts at 100.9 s and ticks by 0.2 s with every call. *)
Definition sample_clock (n : nat) : timeval :=
  mkTime (100 + (900000 + 200000 * Z.of_nat n) / 1000000) ((900000 + 200000 * Z.of_nat n) mod 1000000).

Definition sample_format (format : list Z) (args : list arg) (e : Z) : list Z :=
  format ++ concat (map (fun a => match a with AInt n => str " " ++ dec n | AStr t => str " " ++ t end) args) ++ str " " ++ dec e.

Definition sample_site : site := mkSite (Some (str "p2pd.c")) 42 (Some (str "main")) (Some (str "p2pd")).

Definition sample_run : lm Z :=
  let* _ := log_info sample_clock (fun _ _ => 9) sample_format sample_site (str "hidden") [] in
  let* _ := set_errno 2 in
  log_ERRNO sample_clock (fun _ _ => 9) sample_format sample_site.

Example sample_log :
  option_map (fun '(r, s) => (r, err s, stderr s)) (sample_run logger0) =
  Some (-2, 2, str "[0000.200000] ERROR: p2pd: syscall failed (%d): %m 2 2" ++ [LF]).
Proof. vm_compute. reflexivity. Qed.

Lemma log_format_spec_witness :
  exists s', log_format sample_clock (fun _ _ => 9) sample_format sample_site LOG_DEBUG (str "x") [] (logger0 <| log_max_sev := 7 |>) = Some (tt, s') /\
    stderr s' = str "[0000.000000] DEBUG: p2pd: x 0 (main() in p2pd.c:42)" ++ [LF].
Proof.
  destruct (log_format_spec sample_clock (fun _ _ => 9) sample_format sample_site LOG_DEBUG (str "x") [] (logger0 <| log_max_sev := 7 |>))
    as (s' & Hs & _ & _ & Hf & Ht); [by split|by split|].
  exists s'. split; [exact Hs|]. rewrite Ht, Hf. vm_compute. reflexivity.
Defined.
