(* ===== verification/Fifo.v ===== *)
(** * The byte queue the RTSP decoder works on.

    [Fifo] lists the ring-buffer operations [src/rtsp_decoder.c] calls;
    [FifoLaws] states what they promise in terms of the queued bytes.  The
    decoder is verified against the laws, and [Ring.v] discharges them for the
    ring buffer. *)

From S2P Require Import Prelude CLib.

Class Fifo (Q : Type) := {
  q_push : Q -> list Z -> alloc (Z * Q);
  q_pull : Q -> Z -> Q;
  q_copy : Q -> option Z -> alloc (option (list Z * Z));
  q_length : Q -> Z;
  q_flush : Q -> Q;
  q_clear : Q -> alloc Q;
  q_empty : Q;
}.

Class FifoLaws (Q : Type) `{Fifo Q} := {
  q_wf : Q -> Prop;
  q_contents : Q -> list Z;
  (** heap blocks the queue owns *)
  q_owned : Q -> Z;
  q_empty_law : q_wf q_empty /\ q_contents q_empty = [] /\ q_owned q_empty = 0;
  q_length_law q : q_wf q -> q_length q = zlen (q_contents q);
  q_flush_law q :
    q_wf q -> q_wf (q_flush q) /\ q_contents (q_flush q) = [] /\ q_owned (q_flush q) = q_owned q;
  q_pull_law q n :
    q_wf q -> 0 <= n ->
    q_wf (q_pull q n) /\ q_contents (q_pull q n) = zdrop n (q_contents q) /\
    q_owned (q_pull q n) = q_owned q;
  q_push_law q d h :
    q_wf q -> zlen d <= PTRDIFF_MAX ->
    wp (q_push q d) (fun '(e, q') h' =>
      q_wf q' /\ heap_step h h' (q_owned q' - q_owned q) /\
      ((e = 0 /\ q_contents q' = q_contents q ++ d) \/
       (e = - ENOMEM /\ q' = q /\
        (heap_ok h -> 2 ^ 62 <= zlen (q_contents q) + zlen d)))) h;
  q_copy_law q m h :
    q_wf q -> 0 <= m ->
    wp (q_copy q (Some m)) (fun x h' =>
      match x with
      | Some (b, l) =>
        b = ztake m (q_contents q) ++ [0] /\ l = zlen (ztake m (q_contents q)) /\
        heap_step h h' 1
      | None => heap_step h h' 0 /\ (heap_ok h -> False)
      end) h;
  q_clear_law q h :
    q_wf q ->
    wp (q_clear q) (fun q' h' => q' = q_empty /\ heap_step h h' (- q_owned q)) h;
}.
