(* ===== verification/Getopt.v ===== *)
(** * Command lines: [getopt_long] as [src/dhcp_config.c] and [src/p2pd_config.c]
    use it.

    [getopt] is the position in the arguments behind the program's name: the
    rest of a cluster of short options, the arguments that are left, and the
    operands that have been skipped (GNU [getopt_long] moves them behind the
    options).  The string of short options starts with a colon, so a missing
    argument is reported as [':'].  [options_loop] is the loop both programs run
    over it. *)

From S2P Require Import Prelude CLib.

Record long_option := mkOpt { o_name : list Z; o_has_arg : bool; o_val : Z }.

Record getopt := mkGet { g_next : list Z; g_args : list (list Z); g_rest : list (list Z) }.

Definition QUESTION : Z := chr "?".
Definition COLON : Z := chr ":".
Definition DASH : Z := chr "-".
Definition EQUALS : Z := chr "=".

(** The text up to the first [=], and what is behind it. *)
Fixpoint split_equals (a : list Z) : list Z * option (list Z) :=
  match a with
  | [] => ([], None)
  | c :: a => if c =? EQUALS then ([], Some a)
              else let '(name, v) := split_equals a in (c :: name, v)
  end.

Definition is_prefix (a b : list Z) : bool := bool_decide (take (length a) b = a).

(** An exact name, or a prefix of a name that leaves no choice. *)
Definition long_match (opts : list long_option) (name : list Z) : option long_option :=
  match List.find (fun o => bool_decide (o_name o = name)) opts with
  | Some o => Some o
  | None =>
    match List.filter (fun o => is_prefix name (o_name o)) opts with
    | [] => None
    | o :: others =>
      if forallb (fun p => Bool.eqb (o_has_arg p) (o_has_arg o) && (o_val p =? o_val o)) others
      then Some o else None
    end
  end.

(** What a call returns, the argument it leaves in [optarg], and where it stands. *)
Definition got : Type := Z * option (list Z) * getopt.

(** The argument an option requires: the next one of the command line. *)
Definition next_arg (c : Z) (args rest : list (list Z)) : got :=
  match args with
  | [] => (COLON, None, mkGet [] args rest)
  | v :: args => (c, Some v, mkGet [] args rest)
  end.

Definition long_step (opts : list long_option) (a : list Z) (args rest : list (list Z)) : got :=
  let '(name, v) := split_equals a in
  match long_match opts name with
  | None => (QUESTION, None, mkGet [] args rest)
  | Some o =>
    match v with
    | Some v => if o_has_arg o then (o_val o, Some v, mkGet [] args rest)
                else (QUESTION, None, mkGet [] args rest)
    | None => if o_has_arg o then next_arg (o_val o) args rest
              else (o_val o, None, mkGet [] args rest)
    end
  end.

Definition short_step (optstring : list Z) (c : Z) (cs : list Z) (args rest : list (list Z)) : got :=
  match strchr optstring c with
  | None => (QUESTION, None, mkGet cs args rest)
  | Some i =>
    if (c =? COLON) || (c =? chr ";") then (QUESTION, None, mkGet cs args rest)
    else if char_at optstring (i + 1) =? COLON then
      match cs with
      | [] => next_arg c args rest
      | _ => (c, Some cs, mkGet [] args rest)
      end
    else (c, None, mkGet cs args rest)
  end.

(** The next argument that is an option; ["--"] ends the options. *)
Fixpoint scan_args (optstring : list Z) (opts : list long_option) (args rest : list (list Z)) : got :=
  match args with
  | [] => (-1, None, mkGet [] [] rest)
  | a :: args =>
    match a with
    | d :: c :: cs =>
      if negb (d =? DASH) then scan_args optstring opts args (rest ++ [a])
      else if c =? DASH then
        match cs with
        | [] => (-1, None, mkGet [] [] (rest ++ args))
        | _ => long_step opts cs args rest
        end
      else short_step optstring c cs args rest
    | _ => scan_args optstring opts args (rest ++ [a])
    end
  end.

Definition getopt_long (optstring : list Z) (opts : list long_option) (g : getopt) : got :=
  match g_next g with
  | c :: cs => short_step optstring c cs (g_args g) (g_rest g)
  | [] => scan_args optstring opts (g_args g) (g_rest g)
  end.

Definition getopt_start (args : list (list Z)) : getopt := mkGet [] args [].

(** How many calls are left at most. *)
Definition getopt_left (g : getopt) : nat :=
  length (g_next g) + sum_list (map (fun a => S (length a)) (g_args g)).

Lemma getopt_left_start args : (length args <= getopt_left (getopt_start args))%nat.
Proof. unfold getopt_left, getopt_start; cbn. induction args; cbn; lia. Qed.

(** ** Strings of a configuration *)

Definition free_string (s : option (list Z)) : alloc unit :=
  match s with Some _ => free_blocks 1 | None => ret tt end.

Definition string_blocks (s : option (list Z)) : Z := match s with Some _ => 1 | None => 0 end.

Definition strings_blocks (l : list (option (list Z))) : Z := foldr (fun s n => string_blocks s + n) 0 l.

Fixpoint free_strings (l : list (option (list Z))) : alloc unit :=
  match l with
  | [] => ret tt
  | s :: l => free_string s ;;! free_strings l
  end.

Section options.
Context {conf : Type} (optstring : list Z) (opts : list long_option).

(** An option with a value: the copy replaces the value of an earlier one. *)
Definition set_string (get : conf -> option (list Z)) (set : option (list Z) -> conf -> conf)
    (optarg : option (list Z)) (c : conf) : alloc (option (Z * conf)) :=
  match optarg with
  | None => ret None
  | Some a =>
    let! t := strdup a in
    match t with
    | None => ret (Some (- ENOMEM, c))
    | Some t => free_string (get c) ;;! ret (Some (0, set (Some t) c))
    end
  end.

(** A value that was not given gets a default. *)
Definition default_string (get : conf -> option (list Z)) (set : option (list Z) -> conf -> conf)
    (v : list Z) (c : conf) : alloc (Z * conf) :=
  match get c with
  | Some _ => ret (0, c)
  | None =>
    let! t := strdup v in
    match t with
    | None => ret (- ENOMEM, c)
    | Some t => ret (0, set (Some t) c)
    end
  end.

Inductive options_end :=
| Fails (r : Z)
| Ends (help : bool) (operands : list (list Z)).

(** [set_option] is the [switch] on an option that is not [--help]; [None]: the
    fuel is used up, or [strdup] of no string. *)
Context (is_help : Z -> bool) (set_option : Z -> option (list Z) -> conf -> alloc (option (Z * conf))).

Fixpoint options_loop (fuel : nat) (g : getopt) (help : bool) (c : conf) :
    alloc (option (options_end * conf)) :=
  match fuel with
  | O => ret None
  | S fuel =>
    let '(o, optarg, g) := getopt_long optstring opts g in
    if o <=? 0 then ret (Some (Ends help (g_rest g), c))
    else if (o =? COLON) || (o =? QUESTION) then ret (Some (Fails (- EINVAL), c))
    else if is_help o then options_loop fuel g true c
    else
      let! res := set_option o optarg c in
      match res with
      | None => ret None
      | Some (r, c) => if r <? 0 then ret (Some (Fails r, c)) else options_loop fuel g help c
      end
  end.

End options.

(** ** What a call returns *)

(** An option of the tables, with an argument if and only if it takes one. *)
Definition known_option (optstring : list Z) (opts : list long_option) (c : Z) (arg : option (list Z)) : Prop :=
  (exists o, In o opts /\ c = o_val o /\ bool_decide (is_Some arg) = o_has_arg o) \/
  (exists i, strchr optstring c = Some i /\ c <> COLON /\
     bool_decide (is_Some arg) = (char_at optstring (i + 1) =? COLON)).

Section getopt.
Context (optstring : list Z) (opts : list long_option).

(** The outcome of one call from a position with [n] calls left. *)
Definition got_ok (n : nat) (g : got) : Prop :=
  let '(c, arg, g') := g in
  c = -1 \/
  (getopt_left g' < n)%nat /\ (c = COLON \/ c = QUESTION \/ known_option optstring opts c arg).

Lemma long_match_in name o : long_match opts name = Some o -> In o opts.
Proof.
  unfold long_match. destruct (List.find _ _) as [o'|] eqn:E; [|clear E].
  - intros [= <-]. by apply List.find_some in E as [? _].
  - destruct (List.filter _ opts) as [|o' l] eqn:E; [done|]. destruct (forallb _ l); [|done].
    intros [= <-]. assert (In o' (List.filter (fun o => is_prefix name (o_name o)) opts)) as Hi by (rewrite E; by left).
    by apply List.filter_In in Hi as [? _].
Qed.

Lemma next_arg_ok n c args rest :
  (forall v, known_option optstring opts c (Some v)) ->
  (sum_list (map (fun a : list Z => S (length a)) args) < n)%nat -> got_ok n (next_arg c args rest).
Proof.
  intros Hk Hn. unfold next_arg, got_ok, getopt_left. destruct args as [|v args]; right; cbn in *.
  - split; [lia|]. by left.
  - split; [lia|]. right; right. apply Hk.
Qed.

Lemma long_step_ok a args rest n :
  (sum_list (map (fun a : list Z => S (length a)) args) < n)%nat -> got_ok n (long_step opts a args rest).
Proof.
  intros Hn. unfold long_step. destruct (split_equals a) as [name v].
  assert (forall c arg, c = QUESTION \/ known_option optstring opts c arg ->
    got_ok n (c, arg, mkGet [] args rest)) as Hstay.
  { intros c arg H. right. unfold getopt_left. cbn [g_next g_args length]. split; [lia|]. tauto. }
  destruct (long_match opts name) as [o|] eqn:E; [|apply Hstay; by left]. apply long_match_in in E.
  assert (forall arg, bool_decide (is_Some arg) = o_has_arg o -> known_option optstring opts (o_val o) arg) as Hk.
  { intros arg H. left. by exists o. }
  destruct v as [v|], (o_has_arg o) eqn:Eh; try (apply Hstay; auto; fail).
  apply next_arg_ok; [|done]. intros v. by apply Hk.
Qed.

Lemma short_step_ok c cs args rest n :
  (length cs + sum_list (map (fun a : list Z => S (length a)) args) < n)%nat ->
  got_ok n (short_step optstring c cs args rest).
Proof.
  intros Hn. unfold short_step.
  assert (forall c arg cs', (length cs' <= length cs)%nat -> c = QUESTION \/ known_option optstring opts c arg ->
    got_ok n (c, arg, mkGet cs' args rest)) as Hstay.
  { intros c' arg cs' Hl H. right. unfold getopt_left. cbn [g_next g_args]. split; [lia|]. tauto. }
  destruct (strchr optstring c) as [i|] eqn:E; [|apply Hstay; auto].
  destruct (Z.eqb_spec c COLON); [apply Hstay; auto|]. cbn [orb].
  destruct (c =? chr ";"); [apply Hstay; auto|].
  assert (forall arg, bool_decide (is_Some arg) = (char_at optstring (i + 1) =? COLON) ->
    known_option optstring opts c arg) as Hk.
  { intros arg H. right. by exists i. }
  destruct (char_at optstring (i + 1) =? COLON) eqn:Ea; [|apply Hstay; auto].
  destruct cs as [|c' cs]; [|apply Hstay; [cbn; lia|auto]].
  apply next_arg_ok; [|cbn in Hn; lia]. intros v. by apply Hk.
Qed.

Lemma scan_args_ok args rest n :
  (sum_list (map (fun a : list Z => S (length a)) args) <= n)%nat ->
  got_ok n (scan_args optstring opts args rest).
Proof.
  revert rest; induction args as [|a args IH]; intros rest Hn; cbn [scan_args]; [by left|].
  cbn in Hn. destruct a as [|d [|c cs]]; cbn [length] in Hn; try (apply IH; lia).
  destruct (negb (d =? DASH)); [apply IH; lia|].
  destruct (c =? DASH); [|apply short_step_ok; lia].
  destruct cs as [|x cs]; [by left|]. apply long_step_ok; lia.
Qed.

Lemma getopt_long_ok g : got_ok (getopt_left g) (getopt_long optstring opts g).
Proof.
  destruct g as [[|c cs] args rest]; unfold getopt_long, getopt_left; cbn [g_next g_args g_rest length].
  - apply scan_args_ok. cbn. lia.
  - apply short_step_ok. lia.
Qed.

End getopt.

(** ** Strings of a configuration, and the loop *)

Lemma wp_free_string s Q h :
  (forall h', heap_step h h' (- string_blocks s) -> Q tt h') -> wp (free_string s) Q h.
Proof.
  intros HQ. unfold free_string. destruct s; cbn in HQ.
  - by apply wp_free.
  - apply wp_ret, HQ, heap_step_refl.
Qed.

Lemma wp_free_strings l Q h :
  (forall h', heap_step h h' (- strings_blocks l) -> Q tt h') -> wp (free_strings l) Q h.
Proof.
  revert h; induction l as [|s l IH]; intros h HQ; cbn [free_strings].
  - apply wp_ret, HQ, heap_step_refl.
  - apply wp_bind, wp_free_string. intros h1 H1. apply IH. intros h2 H2. apply HQ.
    eapply heap_step_trans; [done..|].
    change (strings_blocks (s :: l)) with (string_blocks s + strings_blocks l). lia.
Qed.

Section strings.
Context {conf : Type}.
Implicit Types c : conf.

Lemma wp_set_string get set a c Q h :
  (forall h', heap_step h h' (1 - string_blocks (get c)) -> Q (Some (0, set (Some (cstr a)) c)) h') ->
  (forall h', (heap_ok h -> strlen a + 1 <= PTRDIFF_MAX -> False) -> heap_step h h' 0 ->
     Q (Some (- ENOMEM, c)) h') ->
  wp (set_string get set (Some a) c) Q h.
Proof.
  intros Ht Hf. unfold set_string. apply wp_bind, wp_strdup; intros h1.
  - intros H1. apply wp_bind, wp_free_string. intros h2 H2. apply wp_ret, Ht.
    eapply heap_step_trans; [done..|]. lia.
  - intros Hno H1. by apply wp_ret, Hf.
Qed.

Lemma wp_default_string get set v c Q h :
  (is_Some (get c) -> Q (0, c) h) ->
  (forall h', get c = None -> heap_step h h' 1 -> Q (0, set (Some (cstr v)) c) h') ->
  (forall h', get c = None -> (heap_ok h -> strlen v + 1 <= PTRDIFF_MAX -> False) -> heap_step h h' 0 ->
     Q (- ENOMEM, c) h') ->
  wp (default_string get set v c) Q h.
Proof.
  intros Hs Ht Hf. unfold default_string. destruct (get c) eqn:E; [by apply wp_ret, Hs|].
  apply wp_bind, wp_strdup; intros h1; intros; apply wp_ret; auto.
Qed.

Context (optstring : list Z) (opts : list long_option) (is_help : Z -> bool).
Context (set_option : Z -> option (list Z) -> conf -> alloc (option (Z * conf))).
Local Notation loop := (options_loop optstring opts is_help set_option).

(** The loop ends, whatever the arguments are, and keeps what one option keeps. *)
Lemma options_loop_spec (owned : conf -> Z) (Inv : conf -> Prop) fuel g help c h :
  (forall o arg c h, Inv c -> known_option optstring opts o arg -> is_help o = false ->
     wp (set_option o arg c) (fun res h' => exists r c', res = Some (r, c') /\ Inv c' /\
       heap_step h h' (owned c' - owned c) /\ (r = 0 \/ r = - ENOMEM)) h) ->
  Inv c -> (getopt_left g < fuel)%nat ->
  wp (loop fuel g help c) (fun res h' => exists e c', res = Some (e, c') /\ Inv c' /\
    heap_step h h' (owned c' - owned c) /\ (forall r, e = Fails r -> r = - EINVAL \/ r = - ENOMEM)) h.
Proof.
  intros Hset. revert g help c h; induction fuel as [|fuel IH]; intros g help c h Hc Hf; [lia|].
  cbn [options_loop]. pose proof (getopt_long_ok optstring opts g) as Hg. unfold got_ok in Hg.
  destruct (getopt_long optstring opts g) as [[o arg] g'].
  assert (heap_step h h (owned c - owned c)) as Hstay by (rewrite Z.sub_diag; apply heap_step_refl).
  destruct (Z.leb_spec o 0); [apply wp_ret; eexists _, _; split_and!; done|].
  destruct (Z.eqb_spec o COLON); [apply wp_ret; eexists _, _; split_and!; try done; intros r [= <-]; by left|].
  destruct (Z.eqb_spec o QUESTION); [apply wp_ret; eexists _, _; split_and!; try done; intros r [= <-]; by left|].
  cbn [orb]. destruct Hg as [->|[Hl [?|[?|Hk]]]]; try done.
  destruct (is_help o) eqn:Eh; [apply IH; [done|lia]|].
  apply wp_bind. eapply wp_mono; [by apply Hset|]. intros res h1 (r & c1 & -> & Hc1 & H1 & Hr).
  destruct Hr as [->| ->]; cbn.
  - eapply wp_mono; [apply IH; [done|lia]|]. intros res h2 (e & c2 & -> & Hc2 & H2 & He).
    exists e, c2. split_and!; try done. eapply heap_step_trans; [done..|]. lia.
  - apply wp_ret. exists (Fails (- ENOMEM)), c1. split_and!; try done. intros r [= <-]. by right.
Qed.

End strings.

(** ** Command lines written from options *)

Definition long_arg (o : long_option) (v : option (list Z)) : list Z :=
  DASH :: DASH :: o_name o ++ match v with Some v => EQUALS :: v | None => [] end.

(** Each name can be written: it is found first, is not empty, has no [=], and
    its value is not one that [getopt_long] uses itself. *)
Definition table_ok (opts : list long_option) : bool :=
  forallb (fun o => bool_decide (o_name o <> []) && forallb (fun c => negb (c =? EQUALS)) (o_name o) &&
                    (COLON <? o_val o) && (QUESTION <? o_val o) &&
                    match List.find (fun p => bool_decide (o_name p = o_name o)) opts with
                    | Some p => Bool.eqb (o_has_arg p) (o_has_arg o) && (o_val p =? o_val o)
                    | None => false
                    end) opts.

Lemma split_equals_name name v :
  forallb (fun c => negb (c =? EQUALS)) name = true ->
  split_equals (name ++ match v with Some v => EQUALS :: v | None => [] end) = (name, v).
Proof.
  induction name as [|c name IH]; cbn; intros H.
  - destruct v; [|done]. cbn. done.
  - apply andb_true_iff in H as [H1 H2]. destruct (c =? EQUALS); [done|]. by rewrite IH.
Qed.

Section render.
Context (optstring : list Z) (opts : list long_option) (Hopts : table_ok opts = true).

Lemma getopt_long_arg o v args :
  In o opts -> bool_decide (is_Some v) = o_has_arg o ->
  getopt_long optstring opts (mkGet [] (long_arg o v :: args) []) = (o_val o, v, mkGet [] args []) /\
  COLON < o_val o /\ QUESTION < o_val o.
Proof.
  intros Ho Hv. unfold table_ok in Hopts. rewrite forallb_forall in Hopts. specialize (Hopts o Ho). cbn in Hopts.
  rewrite !andb_true_iff in Hopts. destruct Hopts as [[[[Hne Heq] Hc] Hq] Hf].
  apply bool_decide_eq_true in Hne. split; [|lia].
  unfold getopt_long, long_arg. cbn [g_next g_args g_rest scan_args]. cbn [negb Z.eqb DASH chr].
  rewrite Z.eqb_refl. cbn [negb]. destruct (o_name o) as [|x name] eqn:En; [done|]. rewrite <- app_comm_cons.
  unfold long_step. rewrite app_comm_cons, <- En in *. rewrite split_equals_name by done.
  unfold long_match. destruct (List.find _ opts) as [p|]; [|done].
  apply andb_true_iff in Hf as [Hp1 Hp2]. apply Bool.eqb_prop in Hp1. apply Z.eqb_eq in Hp2. rewrite Hp1, Hp2.
  destruct v as [v|]; cbn in Hv; rewrite <- Hv; reflexivity.
Qed.

(** Options that can all be stored leave what they say, one after the other. *)
Lemma options_loop_render {conf : Type} (is_help : Z -> bool)
    (set_option : Z -> option (list Z) -> conf -> alloc (option (Z * conf)))
    (apply_option : conf -> long_option * option (list Z) -> conf) (l : list (long_option * option (list Z)))
    fuel c h :
  (forall o v c h, In (o, v) l -> heap_ok h ->
     wp (set_option (o_val o) v c) (fun res h' => res = Some (0, apply_option c (o, v)) /\ heap_ok h') h) ->
  Forall (fun '(o, v) => In o opts /\ bool_decide (is_Some v) = o_has_arg o /\ is_help (o_val o) = false) l ->
  (length l < fuel)%nat -> heap_ok h ->
  wp (options_loop optstring opts is_help set_option fuel
        (getopt_start (map (fun '(o, v) => long_arg o v) l)) false c)
     (fun res h' => res = Some (Ends false [], foldl apply_option c l) /\ heap_ok h') h.
Proof.
  revert fuel c h; induction l as [|[o v] l IH]; intros fuel c h Hset Hl Hf Hh; destruct fuel as [|fuel]; cbn in Hf; try lia.
  - split; [done|]. exact Hh.
  - apply Forall_cons in Hl as [(Ho & Hv & Hhelp) Hl]. cbn [map options_loop]. unfold getopt_start.
    destruct (getopt_long_arg o v (map (fun '(o, v) => long_arg o v) l) Ho Hv) as (-> & Hc & Hq).
    rewrite (proj2 (Z.leb_gt _ _)) by (change COLON with 58 in Hc; lia).
    rewrite (proj2 (Z.eqb_neq _ COLON)), (proj2 (Z.eqb_neq _ QUESTION)) by lia. cbn [orb]. rewrite Hhelp.
    apply wp_bind. eapply wp_mono; [apply Hset; [by left|done]|]. intros res h1 [-> H1]. cbn [Z.ltb Z.compare].
    apply IH; [|done|lia|done]. intros o' v' c' h' Hi. apply Hset. by right.
Qed.

End render.
