(* ===== verification/P2pdConfig.v ===== *)
(** * The command line of the P2P daemon ([src/p2pd_config.c], [src/p2pd.h]).

    [owfd_p2pd_config] is [struct owfd_p2pd_config]; each string it has is a
    block of its own.  The arguments are those behind the program's name.
    Messages on [stderr] are left out. *)

From S2P Require Import Prelude RecordSet CLib Getopt.

Record owfd_p2pd_config := mkConf {
  verbose : bool; silent : bool; debug : bool;
  interface : option (list Z);
  wpa_binary : option (list Z); wpa_ctrldir : option (list Z);
}.

#[export] Instance eta_p2pd_config : Eta owfd_p2pd_config := fun c =>
  mkConf (verbose c) (silent c) (debug c) (interface c) (wpa_binary c) (wpa_ctrldir c).

Definition LONG_OPT_OFFSET : Z := 10000.

Definition OPT_HELP : Z := 0.
Definition OPT_VERBOSE : Z := 1.
Definition OPT_SILENT : Z := 2.
Definition OPT_DEBUG : Z := 3.
Definition OPT_INTERFACE : Z := 4.
Definition OPT_WPA_BINARY : Z := 5.
Definition OPT_WPA_CTRLDIR : Z := 6.

Definition short_options : list Z := str ":hvi:".

Definition OPT (name : string) (arg : bool) (val : Z) : long_option :=
  mkOpt (str name) arg (LONG_OPT_OFFSET + val).

Definition long_options : list long_option := [
  OPT "help" false OPT_HELP; OPT "verbose" false OPT_VERBOSE;
  OPT "silent" false OPT_SILENT; OPT "debug" false OPT_DEBUG;
  OPT "interface" true OPT_INTERFACE;
  OPT "wpa-binary" true OPT_WPA_BINARY; OPT "wpa-ctrldir" true OPT_WPA_CTRLDIR].

Definition BUILD_BINDIR_WPA_SUPPLICANT : list Z := str "/bin".

Definition owfd_p2pd_init_config : owfd_p2pd_config := mkConf false false false None None None.

Definition config_strings (conf : owfd_p2pd_config) : list (option (list Z)) :=
  [interface conf; wpa_binary conf; wpa_ctrldir conf].

Definition owfd_p2pd_clear_config (conf : owfd_p2pd_config) : alloc unit :=
  free_strings (config_strings conf).

(** [c] is the short option or the long one. *)
Definition is_opt (c : Z) (short : option Z) (n : Z) : bool :=
  bool_decide (short = Some c) || (c =? LONG_OPT_OFFSET + n).

Definition is_help (c : Z) : bool := is_opt c (Some (chr "h")) OPT_HELP.

(** The [switch] of the option loop. *)
Definition p2pd_option (c : Z) (optarg : option (list Z)) (conf : owfd_p2pd_config) :
    alloc (option (Z * owfd_p2pd_config)) :=
  let set conf := ret (Some (0, conf)) in
  if is_opt c (Some (chr "v")) OPT_VERBOSE then set (conf <| verbose := true |>)
  else if is_opt c None OPT_SILENT then set (conf <| silent := true |>)
  else if is_opt c None OPT_DEBUG then set (conf <| debug := true |>)
  else if is_opt c (Some (chr "i")) OPT_INTERFACE then
    set_string interface (fun t conf => conf <| interface := t |>) optarg conf
  else if is_opt c None OPT_WPA_BINARY then
    set_string wpa_binary (fun t conf => conf <| wpa_binary := t |>) optarg conf
  else if is_opt c None OPT_WPA_CTRLDIR then
    set_string wpa_ctrldir (fun t conf => conf <| wpa_ctrldir := t |>) optarg conf
  else set conf.

(** The checks behind the option loop. *)
Definition check_config (help : bool) (operands : list (list Z)) (conf : owfd_p2pd_config) :
    alloc (Z * owfd_p2pd_config) :=
  if help then ret (- EAGAIN, conf)
  else if bool_decide (operands <> []) then ret (- EINVAL, conf)
  else if bool_decide (interface conf = None) then ret (- EINVAL, conf)
  else
    let! (r, conf) := default_string wpa_binary (fun t conf => conf <| wpa_binary := t |>)
                        (BUILD_BINDIR_WPA_SUPPLICANT ++ str "/wpa_supplicant") conf in
    if r <? 0 then ret (r, conf)
    else default_string wpa_ctrldir (fun t conf => conf <| wpa_ctrldir := t |>) (str "/run/wpa_supplicant") conf.

(** [None]: the loop has used up its fuel, or an option came without its
    argument; this does not happen. *)
Definition owfd_p2pd_parse_argv (args : list (list Z)) (conf : owfd_p2pd_config) :
    alloc (option (Z * owfd_p2pd_config)) :=
  let g := getopt_start args in
  let! res := options_loop short_options long_options is_help p2pd_option (S (getopt_left g)) g false conf in
  match res with
  | None => ret None
  | Some (Fails r, conf) => ret (Some (r, conf))
  | Some (Ends help operands, conf) => let! rc := check_config help operands conf in ret (Some rc)
  end.

(** ** What parsing leaves *)

Definition owned (conf : owfd_p2pd_config) : Z := strings_blocks (config_strings conf).

(** What a step of the parser does to the heap. *)
Definition keeps (conf : owfd_p2pd_config) (h : heap) (conf' : owfd_p2pd_config) (h' : heap) : Prop :=
  heap_step h h' (owned conf' - owned conf).

Lemma p2pd_keeps_refl conf h : keeps conf h conf h.
Proof. unfold keeps. rewrite Z.sub_diag. apply heap_step_refl. Qed.

Lemma p2pd_keeps_trans c0 h0 c1 h1 c2 h2 : keeps c0 h0 c1 h1 -> keeps c1 h1 c2 h2 -> keeps c0 h0 c2 h2.
Proof. intros H1 H2. eapply heap_step_trans; [done..|]. lia. Qed.

(** Setting a string changes the blocks by its own. *)
Definition string_field (get : owfd_p2pd_config -> option (list Z))
    (set : option (list Z) -> owfd_p2pd_config -> owfd_p2pd_config) : Prop :=
  forall v conf, owned (set (Some v) conf) - owned conf = 1 - string_blocks (get conf).

Lemma p2pd_string_fields :
  string_field interface (fun t conf => conf <| interface := t |>) /\
  string_field wpa_binary (fun t conf => conf <| wpa_binary := t |>) /\
  string_field wpa_ctrldir (fun t conf => conf <| wpa_ctrldir := t |>).
Proof.
  split_and!; intros v conf; unfold owned, strings_blocks; cbn [config_strings foldr rset];
    change (string_blocks (Some v)) with 1; unfold config_strings; cbn; lia.
Qed.

Definition takes_arg (c : Z) : bool :=
  is_opt c (Some (chr "i")) OPT_INTERFACE || (LONG_OPT_OFFSET + OPT_WPA_BINARY <=? c).

Lemma p2pd_known_arg c arg : known_option short_options long_options c arg -> bool_decide (is_Some arg) = takes_arg c.
Proof.
  intros [(o & Ho & -> & ->)|(i & Hi & Hc & ->)].
  - cbn in Ho. destruct_or! Ho; try done; subst o; reflexivity.
  - apply strchr_some in Hi as [Hi <-]. change (zlen short_options) with 5 in Hi.
    assert (i = 0 \/ i = 1 \/ i = 2 \/ i = 3 \/ i = 4) as Hcase by lia.
    destruct_or! Hcase; subst i; first [done|reflexivity].
Qed.

Lemma p2pd_set_string_keeps get set arg conf h :
  string_field get set -> is_Some arg ->
  wp (set_string get set arg conf) (fun res h' => exists r conf', res = Some (r, conf') /\
    keeps conf h conf' h' /\ (r = 0 \/ r = - ENOMEM)) h.
Proof.
  intros Hf [a ->]. apply wp_set_string.
  - intros h' Hh. eexists _, _. split; [done|]. split; [|by left]. unfold keeps. by rewrite Hf.
  - intros h' _ Hh. eexists _, _. split; [done|]. split; [|by right]. unfold keeps. by rewrite Z.sub_diag.
Qed.

Lemma p2pd_option_keeps c arg conf h :
  known_option short_options long_options c arg ->
  wp (p2pd_option c arg conf) (fun res h' => exists r conf', res = Some (r, conf') /\
    keeps conf h conf' h' /\ (r = 0 \/ r = - ENOMEM)) h.
Proof.
  intros Hk. apply p2pd_known_arg in Hk. destruct p2pd_string_fields as (F1 & F2 & F3).
  assert (forall conf', owned conf' = owned conf ->
    wp (ret (Some (0, conf'))) (fun res h' => exists r conf', res = Some (r, conf') /\
      keeps conf h conf' h' /\ (r = 0 \/ r = - ENOMEM)) h) as Hflag.
  { intros conf' Ho. apply wp_ret. eexists _, _. split; [done|]. split; [|by left].
    unfold keeps. rewrite Ho, Z.sub_diag. apply heap_step_refl. }
  assert (takes_arg c = true -> is_Some arg) as Harg.
  { intros Ht. rewrite Ht in Hk. by apply bool_decide_eq_true in Hk. }
  unfold takes_arg in Harg. unfold p2pd_option.
  repeat match goal with
  | |- wp (if is_opt ?c ?s ?n then _ else _) _ _ => destruct (is_opt c s n) eqn:?
  end; first [by apply Hflag|apply p2pd_set_string_keeps; [done|apply Harg]];
    first [reflexivity|match goal with H : is_opt c None _ = true |- _ =>
      unfold is_opt in H; rewrite bool_decide_false in H by done; apply Z.eqb_eq in H; by subst c end].
Qed.

(** A configuration the daemon can run with. *)
Definition config_ok (conf : owfd_p2pd_config) : Prop :=
  is_Some (interface conf) /\ is_Some (wpa_binary conf) /\ is_Some (wpa_ctrldir conf).

Lemma p2pd_check_config_keeps help operands conf h :
  wp (check_config help operands conf) (fun '(r, conf') h' => keeps conf h conf' h' /\
    (r = 0 /\ config_ok conf' \/ r = - EAGAIN \/ r = - EINVAL \/ r = - ENOMEM)) h.
Proof.
  unfold check_config. pose proof (p2pd_keeps_refl conf h) as Hk. destruct p2pd_string_fields as (_ & F2 & F3).
  destruct help; [apply wp_ret; auto|]. destruct (bool_decide (operands <> [])); [apply wp_ret; auto|].
  case_bool_decide as Hi; [apply wp_ret; auto|]. apply not_eq_None_Some in Hi.
  assert (forall conf' h', is_Some (interface conf') -> is_Some (wpa_binary conf') -> keeps conf h conf' h' ->
    wp (default_string wpa_ctrldir (fun t conf => conf <| wpa_ctrldir := t |>) (str "/run/wpa_supplicant") conf')
      (fun '(r, conf') h' => keeps conf h conf' h' /\
        (r = 0 /\ config_ok conf' \/ r = - EAGAIN \/ r = - EINVAL \/ r = - ENOMEM)) h') as Hrest.
  { intros conf' h' H1 H2 H'. apply wp_default_string.
    - intros H3. split; [done|]. left. by split.
    - intros h2 Hn H3. split; [eapply p2pd_keeps_trans; [done|]; unfold keeps; by rewrite F3, Hn|]. left.
      split; [done|]. by split_and!.
    - intros h2 Hn _ H3. split; [eapply p2pd_keeps_trans; [done|]; unfold keeps; by rewrite Z.sub_diag|]. auto. }
  apply wp_bind, wp_default_string.
  - intros Hb. cbn [Z.ltb Z.compare]. by apply Hrest.
  - intros h1 Hn H1. cbn [Z.ltb Z.compare]. apply Hrest; try done. unfold keeps. by rewrite F2, Hn.
  - intros h1 Hn _ H1. apply wp_ret. split; [|auto]. unfold keeps. by rewrite Z.sub_diag.
Qed.

Lemma p2pd_parse_keeps args h :
  wp (owfd_p2pd_parse_argv args owfd_p2pd_init_config) (fun res h' => exists r conf,
    res = Some (r, conf) /\ (r = 0 /\ config_ok conf \/ r = - EAGAIN \/ r = - EINVAL \/ r = - ENOMEM) /\
    keeps owfd_p2pd_init_config h conf h') h.
Proof.
  unfold owfd_p2pd_parse_argv. apply wp_bind. eapply wp_mono.
  { apply (options_loop_spec _ _ _ _ owned (fun _ => True)); [|done|lia]. intros c arg conf h1 _ Hk _.
    eapply wp_mono; [by apply p2pd_option_keeps|]. intros res h2 (r & conf' & -> & ? & Hr). by eexists _, _. }
  intros res h1 (e & conf & -> & _ & H1 & He). destruct e as [r|help operands].
  - apply wp_ret. eexists _, _. split; [done|]. split; [destruct (He r eq_refl) as [-> | ->]; auto|done].
  - apply wp_bind. eapply wp_mono; [by apply p2pd_check_config_keeps|]. intros [r conf'] h2 [H2 Hr].
    apply wp_ret. eexists _, _. split; [done|]. split; [done|]. by eapply p2pd_keeps_trans.
Qed.

(** Parsing the daemon's command line ends with a configuration that can be
    run or with one of the documented errors, and never loses memory: for every
    list of arguments and every behaviour of the allocator, each live block that
    is left is a string of the configuration, clearing it gives everything back,
    and on success the interface, the path of wpa_supplicant and its control
    directory are set. *)
Theorem owfd_p2pd_parse_argv_ok args h :
  wp (owfd_p2pd_parse_argv args owfd_p2pd_init_config) (fun res h' => exists r conf,
    res = Some (r, conf) /\
    (r = 0 /\ config_ok conf \/ r = - EAGAIN \/ r = - EINVAL \/ r = - ENOMEM) /\
    h_live h' = h_live h + strings_blocks (config_strings conf) /\
    wp (owfd_p2pd_clear_config conf) (fun _ h'' => h_live h'' = h_live h) h') h.
Proof.
  eapply wp_mono; [apply p2pd_parse_keeps|]. intros res h' (r & conf & -> & Hr & Hl & _).
  change (owned owfd_p2pd_init_config) with 0 in Hl. unfold owned in Hl.
  exists r, conf. split_and!; [done|done|lia|]. apply wp_free_strings. intros h'' [Hl' _]. lia.
Qed.

(** Defaults, a cluster, an operand and a missing argument. *)
Example p2pd_defaults :
  fst (owfd_p2pd_parse_argv [str "-vi"; str "wlan0"] owfd_p2pd_init_config heap0) =
    Some (0, mkConf true false false (Some (str "wlan0")) (Some (str "/bin/wpa_supplicant"))
                    (Some (str "/run/wpa_supplicant"))) /\
  option_map fst (fst (owfd_p2pd_parse_argv [str "x"; str "-iwlan0"] owfd_p2pd_init_config heap0)) = Some (- EINVAL) /\
  option_map fst (fst (owfd_p2pd_parse_argv [str "--interface"] owfd_p2pd_init_config heap0)) = Some (- EINVAL).
Proof. vm_compute. done. Qed.
