(* ===== verification/Dlist.v ===== *)
(** * The intrusive list of [src/shl_dlist.h].

    The store maps the address of each [struct shl_dlist] to its two pointers
    ([NULL] is 0); reading or writing an address outside it fails.  A list with
    head [h] represents the sequence of its other elements ([is_list]); the
    operations are shown to be those of sequences.  The [for] macros are loops
    over a body; they have fuel. *)

From stdpp Require Import gmap.
From S2P Require Import Prelude StateFail.

Record shl_dlist := mkDlist { next : Z; prev : Z }.

Notation store := (gmap Z shl_dlist).

Definition load (a : Z) : sfm store shl_dlist := fun st => option_map (fun n => (n, st)) (st !! a).

Definition set_next (a v : Z) : sfm store unit :=
  let* n := load a in smod (fun st => <[a := mkDlist v (prev n)]> st).

Definition set_prev (a v : Z) : sfm store unit :=
  let* n := load a in smod (fun st => <[a := mkDlist (next n) v]> st).

Definition shl_dlist_init (list : Z) : sfm store unit :=
  let* _ := set_next list list in set_prev list list.

Definition shl_dlist__link (prev next n : Z) : sfm store unit :=
  let* _ := set_prev next n in
  let* _ := set_next n next in
  let* _ := set_prev n prev in
  set_next prev n.

Definition shl_dlist_link (head n : Z) : sfm store unit :=
  let* h := load head in shl_dlist__link head (next h) n.

Definition shl_dlist_link_tail (head n : Z) : sfm store unit :=
  let* h := load head in shl_dlist__link (prev h) head n.

Definition shl_dlist__unlink (prev next : Z) : sfm store unit :=
  let* _ := set_prev next prev in
  set_next prev next.

Definition shl_dlist_unlink (e : Z) : sfm store unit :=
  let* n := load e in
  let* _ := shl_dlist__unlink (prev n) (next n) in
  let* _ := set_prev e 0 in
  set_next e 0.

Definition shl_dlist_empty (head : Z) : sfm store bool :=
  let* h := load head in sret (next h =? head).

Definition shl_dlist_first (head : Z) : sfm store Z := let* h := load head in sret (next h).

Definition shl_dlist_last (head : Z) : sfm store Z := let* h := load head in sret (prev h).

(** ** The loops *)

Section loops.
Context {A : Type} (body : Z -> A -> sfm store A).

(** [for (; iter != stop; iter = step(iter)) body]. *)
Fixpoint for_loop (step : Z -> sfm store Z) (fuel : nat) (iter stop : Z) (a : A) : sfm store A :=
  match fuel with
  | O => slift None
  | S fuel =>
    if iter =? stop then sret a
    else
      let* a := body iter a in
      let* iter := step iter in
      for_loop step fuel iter stop a
  end.

(** The same with the next element read before the body runs. *)
Fixpoint safe_loop (step : Z -> sfm store Z) (fuel : nat) (iter tmp stop : Z) (a : A) : sfm store A :=
  match fuel with
  | O => slift None
  | S fuel =>
    if iter =? stop then sret a
    else
      let* a := body iter a in
      let* tmp' := step tmp in
      safe_loop step fuel tmp tmp' stop a
  end.

Definition shl_dlist_for_each (fuel : nat) (head : Z) (a : A) : sfm store A :=
  let* iter := shl_dlist_first head in for_loop shl_dlist_first fuel iter head a.

Definition shl_dlist_for_each_reverse (fuel : nat) (head : Z) (a : A) : sfm store A :=
  let* iter := shl_dlist_last head in for_loop shl_dlist_last fuel iter head a.

Definition shl_dlist_for_each_safe (fuel : nat) (head : Z) (a : A) : sfm store A :=
  let* iter := shl_dlist_first head in
  let* tmp := shl_dlist_first iter in
  safe_loop shl_dlist_first fuel iter tmp head a.

Definition shl_dlist_for_each_reverse_safe (fuel : nat) (head : Z) (a : A) : sfm store A :=
  let* iter := shl_dlist_last head in
  let* tmp := shl_dlist_last iter in
  safe_loop shl_dlist_last fuel iter tmp head a.

(** The element behind [iter], stepping over [head]. *)
Definition step_over (step : Z -> sfm store Z) (skip : bool) (head iter : Z) : sfm store Z :=
  let* n := step iter in
  if (n =? head) && skip then step n else sret n.

Definition shl_dlist_for_each_but_one (fuel : nat) (start head : Z) (a : A) : sfm store A :=
  let* iter := step_over shl_dlist_first true head start in
  for_loop (step_over shl_dlist_first (negb (start =? head)) head) fuel iter start a.

Definition shl_dlist_for_each_reverse_but_one (fuel : nat) (start head : Z) (a : A) : sfm store A :=
  let* iter := step_over shl_dlist_last true head start in
  for_loop (step_over shl_dlist_last (negb (start =? head)) head) fuel iter start a.

End loops.

(** ** Sequences in the store *)

Definition next_of (st : store) (a : Z) : option Z := next <$> st !! a.
Definition prev_of (st : store) (a : Z) : option Z := prev <$> st !! a.

(** From [a] over the elements of [l] to [z], linked both ways. *)
Fixpoint chain (st : store) (a : Z) (l : list Z) (z : Z) : Prop :=
  match l with
  | [] => next_of st a = Some z /\ prev_of st z = Some a
  | x :: l => next_of st a = Some x /\ prev_of st x = Some a /\ chain st x l z
  end.

Definition is_list (st : store) (h : Z) (l : list Z) : Prop := NoDup (h :: l) /\ chain st h l h.

(** The neighbours of a gap in a sequence. *)
Definition before (a : Z) (l : list Z) : Z := default a (last l).
Definition behind (l : list Z) (z : Z) : Z := default z (head l).

Lemma before_cons a x l : before a (x :: l) = before x l.
Proof. unfold before. destruct l; [done|]. rewrite last_cons. cbn. by destruct (last (z :: l)) eqn:E. Qed.

Lemma chain_app st a l x k z : chain st a (l ++ x :: k) z <-> chain st a l x /\ chain st x k z.
Proof. revert a; induction l as [|y l IH]; intros a; cbn; [tauto|]. rewrite IH. tauto. Qed.

(** What a sequence depends on. *)
Lemma chain_frame st st' a l z :
  chain st a l z -> (forall x, x ∈ a :: l -> next_of st' x = next_of st x) ->
  (forall x, x ∈ l ++ [z] -> prev_of st' x = prev_of st x) -> chain st' a l z.
Proof.
  revert a; induction l as [|x l IH]; intros a; cbn; intros Hc Hn Hp.
  - by rewrite Hn, Hp by set_solver.
  - destruct Hc as (H1 & H2 & H3). rewrite Hn, Hp by set_solver. split_and!; [done..|].
    apply IH; set_solver.
Qed.

Lemma chain_ends st a l z : chain st a l z -> next_of st a = Some (behind l z) /\ prev_of st z = Some (before a l).
Proof.
  revert a; induction l as [|x l IH]; intros a; cbn [chain]; [done|]. intros (H1 & _ & H3). rewrite before_cons.
  split; [done|]. by apply IH.
Qed.

(** ** What the operations do to the pointers *)

Lemma in_store_next st a : is_Some (next_of st a) <-> is_Some (st !! a).
Proof. unfold next_of. by rewrite fmap_is_Some. Qed.

Lemma in_store_prev st a : is_Some (prev_of st a) <-> is_Some (st !! a).
Proof. unfold prev_of. by rewrite fmap_is_Some. Qed.

(** [st'] is [st] with one pointer changed. *)
Definition nexted (st : store) (a v : Z) (st' : store) : Prop :=
  (forall x, next_of st' x = if decide (x = a) then Some v else next_of st x) /\
  (forall x, prev_of st' x = prev_of st x).

Definition preved (st : store) (a v : Z) (st' : store) : Prop :=
  (forall x, prev_of st' x = if decide (x = a) then Some v else prev_of st x) /\
  (forall x, next_of st' x = next_of st x).

Lemma swp_load a Q st :
  is_Some (st !! a) ->
  (forall n, next_of st a = Some (next n) -> prev_of st a = Some (prev n) -> Q n st) -> swp False (load a) Q st.
Proof. intros [n Hn] HQ. unfold swp, load, next_of, prev_of in *. rewrite Hn in *. by apply HQ. Qed.

Lemma swp_set_next a v Q st :
  is_Some (st !! a) -> (forall st', nexted st a v st' -> Q tt st') -> swp False (set_next a v) Q st.
Proof.
  intros Ha HQ. apply swp_bind, swp_load; [done|]. intros n Hn Hp. apply HQ. unfold nexted, next_of, prev_of in *.
  split; intros x; destruct (decide (x = a)) as [->|].
  - by rewrite lookup_insert_eq.
  - by rewrite lookup_insert_ne.
  - by rewrite lookup_insert_eq, Hp.
  - by rewrite lookup_insert_ne.
Qed.

Lemma swp_set_prev a v Q st :
  is_Some (st !! a) -> (forall st', preved st a v st' -> Q tt st') -> swp False (set_prev a v) Q st.
Proof.
  intros Ha HQ. apply swp_bind, swp_load; [done|]. intros n Hn Hp. apply HQ. unfold preved, next_of, prev_of in *.
  split; intros x; destruct (decide (x = a)) as [->|].
  - by rewrite lookup_insert_eq.
  - by rewrite lookup_insert_ne.
  - by rewrite lookup_insert_eq, Hn.
  - by rewrite lookup_insert_ne.
Qed.

Lemma nexted_in st a v st' x : nexted st a v st' -> is_Some (st !! x) -> is_Some (st' !! x).
Proof. intros [_ H] Hx. by rewrite <- in_store_prev, H, in_store_prev. Qed.

Lemma preved_in st a v st' x : preved st a v st' -> is_Some (st !! x) -> is_Some (st' !! x).
Proof. intros [_ H] Hx. by rewrite <- in_store_next, H, in_store_next. Qed.

#[local] Hint Resolve nexted_in preved_in : core.

(** The pointers after [n] was put between [p] and [q]. *)
Record linked (st : store) (p q n : Z) (st' : store) : Prop := {
  linked_next : forall x, next_of st' x = if decide (x = p) then Some n else if decide (x = n) then Some q else next_of st x;
  linked_prev : forall x, prev_of st' x = if decide (x = n) then Some p else if decide (x = q) then Some n else prev_of st x;
}.

Lemma link_linked p q n st :
  is_Some (st !! p) -> is_Some (st !! q) -> is_Some (st !! n) ->
  swp False (shl_dlist__link p q n) (fun _ st' => linked st p q n st') st.
Proof.
  intros Hp Hq Hn. apply swp_bind, swp_set_prev; [done|]. intros s1 H1.
  apply swp_bind, swp_set_next; [by eauto|]. intros s2 H2.
  apply swp_bind, swp_set_prev; [by eauto|]. intros s3 H3.
  apply swp_set_next; [by eauto 6|]. intros s4 [H4n H4p]. destruct H1 as [H1p H1n], H2 as [H2n H2p], H3 as [H3p H3n].
  split; intros x.
  - by rewrite H4n, H3n, H2n, H1n.
  - by rewrite H4p, H3p, H2p, H1p.
Qed.

(** The pointers after [p] and [q] were joined. *)
Record joined (st : store) (p q : Z) (st' : store) : Prop := {
  joined_next : forall x, next_of st' x = if decide (x = p) then Some q else next_of st x;
  joined_prev : forall x, prev_of st' x = if decide (x = q) then Some p else prev_of st x;
}.

Lemma unlink_joined p q st :
  is_Some (st !! p) -> is_Some (st !! q) -> swp False (shl_dlist__unlink p q) (fun _ st' => joined st p q st') st.
Proof.
  intros Hp Hq. apply swp_bind, swp_set_prev; [done|]. intros s1 H1.
  apply swp_set_next; [by eauto|]. intros s2 [H2n H2p]. destruct H1 as [H1p H1n]. split; intros x.
  - by rewrite H2n, H1n.
  - by rewrite H2p, H1p.
Qed.

(** ** Inserting and removing *)

Lemma chain_linked st st' a l k z n :
  chain st a (l ++ k) z -> NoDup (a :: l ++ k) -> NoDup ((l ++ k) ++ [z]) -> n ∉ a :: l ++ k -> n <> z ->
  linked st (before a l) (behind k z) n st' -> chain st' a (l ++ n :: k) z.
Proof.
  revert a; induction l as [|x l IH]; intros a Hc Ha Hz Hn Hnz [Ln Lp]; cbn [app chain] in *.
  - change (before a []) with a in *.
    rewrite Ln, Lp, !decide_True by done. split_and!; [done..|].
    destruct k as [|y k]; cbn [chain behind default head] in *.
    + rewrite Ln, Lp. rewrite decide_False by set_solver. rewrite decide_True by done.
      rewrite decide_False by done. by rewrite decide_True.
    + change (behind (y :: k) z) with y in *. destruct Hc as (H1 & H2 & H3).
      rewrite Ln, Lp. rewrite decide_False by set_solver. rewrite decide_True by done.
      rewrite decide_False by set_solver. rewrite decide_True by done. split_and!; [done..|].
      apply (chain_frame st); [done| |].
      * intros v Hv. rewrite Ln. apply NoDup_cons in Ha as [Ha _]. rewrite !decide_False by set_solver. done.
      * intros v Hv. rewrite Lp. apply NoDup_cons in Hz as [Hz _]. rewrite !decide_False by set_solver. done.
  - rewrite before_cons in *. destruct Hc as (H1 & H2 & H3). apply NoDup_cons in Ha as [Ha1 Ha2].
    apply NoDup_cons in Hz as [Hz1 Hz2].
    assert (a <> before x l) as Hab.
    { intros ->. apply Ha1. unfold before. destruct (last l) eqn:E; [|by left].
      right. apply elem_of_app. left. by apply last_Some_elem_of in E. }
    assert (x <> behind k z) as Hxb.
    { intros ->. apply Hz1. unfold behind. destruct k; set_solver. }
    rewrite Ln, Lp, !decide_False by (done || set_solver). split_and!; [done..|].
    apply IH; first [done|by split|set_solver].
Qed.

Lemma chain_joined st st' a l e k z :
  chain st a (l ++ e :: k) z -> NoDup (a :: l ++ e :: k) -> NoDup ((l ++ e :: k) ++ [z]) ->
  joined st (before a l) (behind k z) st' -> chain st' a (l ++ k) z.
Proof.
  revert a; induction l as [|x l IH]; intros a Hc Ha Hz [Ln Lp]; cbn [app chain] in *.
  - change (before a []) with a in *. destruct Hc as (H1 & H2 & H3).
    destruct k as [|y k]; cbn [chain behind default head] in *.
    + rewrite Ln, Lp. by rewrite !decide_True.
    + change (behind (y :: k) z) with y in *. destruct H3 as (H3 & H4 & H5).
      rewrite Ln, Lp, !decide_True by done. split_and!; [done..|].
      apply (chain_frame st); [done| |].
      * intros v Hv. rewrite Ln. apply NoDup_cons in Ha as [Ha _]. rewrite decide_False by set_solver. done.
      * intros v Hv. rewrite Lp. apply NoDup_cons in Hz as [_ Hz]. apply NoDup_cons in Hz as [Hz _].
        rewrite decide_False by set_solver. done.
  - rewrite before_cons in *. destruct Hc as (H1 & H2 & H3). apply NoDup_cons in Ha as [Ha1 Ha2].
    apply NoDup_cons in Hz as [Hz1 Hz2].
    assert (a <> before x l) as Hab.
    { intros ->. apply Ha1. unfold before. destruct (last l) eqn:E; [|by left].
      right. apply elem_of_app. left. by apply last_Some_elem_of in E. }
    assert (x <> behind k z) as Hxb.
    { intros ->. apply Hz1. unfold behind. destruct k; set_solver. }
    rewrite Ln, Lp, !decide_False by (done || set_solver). split_and!; [done..|].
    apply IH; first [done|by split|set_solver].
Qed.

(** Everything a sequence mentions is in the store. *)
Lemma chain_in st a l z x : chain st a l z -> x ∈ a :: l ++ [z] -> is_Some (st !! x).
Proof.
  revert a; induction l as [|y l IH]; intros a; cbn [app chain].
  - intros [H1 H2] Hx. rewrite <- in_store_next. destruct (decide (x = a)) as [->|]; [by rewrite H1|].
    assert (x = z) as -> by set_solver. rewrite in_store_next, <- in_store_prev. by rewrite H2.
  - intros (H1 & H2 & H3) Hx. destruct (decide (x = a)) as [->|].
    + rewrite <- in_store_next. by rewrite H1.
    + apply (IH y); [done|set_solver].
Qed.

(** *** Two lists that share no element *)

Definition apart (h : Z) (l : list Z) (h' : Z) (l' : list Z) : Prop := forall x, x ∈ h :: l -> x ∈ h' :: l' -> False.

Lemma nodup_rotate (h : Z) l : NoDup (h :: l) -> NoDup (l ++ [h]).
Proof. intros H. rewrite (Permutation_app_comm l [h]). exact H. Qed.

Lemma before_in (a : Z) l : before a l ∈ a :: l.
Proof. unfold before. destruct (last l) eqn:E; [|by left]. right. by apply last_Some_elem_of in E. Qed.

Lemma behind_in l (z : Z) : behind l z ∈ l ++ [z].
Proof. unfold behind. destruct l; set_solver. Qed.

(** Putting a new element into a list leaves every other list alone. *)
Lemma insert_spec st h l k n :
  is_list st h (l ++ k) -> is_Some (st !! n) -> n ∉ h :: l ++ k ->
  swp False (shl_dlist__link (before h l) (behind k h) n) (fun _ st' =>
    is_list st' h (l ++ n :: k) /\ (forall x, is_Some (st !! x) -> is_Some (st' !! x)) /\
    forall h' l', is_list st h' l' -> apart h (n :: l ++ k) h' l' -> is_list st' h' l') st.
Proof.
  intros [Hd Hc] Hn Hnot. pose proof (before_in h l) as Hb. pose proof (behind_in k h) as Hq.
  eapply swp_mono; [apply link_linked|].
  - apply (chain_in _ _ _ _ _ Hc). set_solver.
  - apply (chain_in _ _ _ _ _ Hc). set_solver.
  - done.
  - intros [] st' HL. split; [|split].
    + split; [|eapply chain_linked; try done; [by apply nodup_rotate|set_solver]].
      rewrite <- Permutation_middle. apply NoDup_cons in Hd as [H1 H2]. apply NoDup_cons. split; [set_solver|].
      apply NoDup_cons. split; [set_solver|done].
    + intros x Hx. rewrite <- in_store_next, (linked_next _ _ _ _ _ HL). repeat case_decide; try done.
      by rewrite in_store_next.
    + intros h' l' [Hd' Hc'] Hap. split; [done|]. apply (chain_frame st); [done| |].
      * intros x Hx. rewrite (linked_next _ _ _ _ _ HL).
        rewrite !decide_False by (intros E; apply (Hap x); set_solver). done.
      * intros x Hx. rewrite (linked_prev _ _ _ _ _ HL).
        rewrite !decide_False by (intros E; apply (Hap x); set_solver). done.
Qed.

(** What an operation on the list of [h], which touches only elements of [t],
    keeps: the addresses of the store and every list without these elements. *)
Definition untouched (t : list Z) (st st' : store) : Prop :=
  (forall x, is_Some (st !! x) -> is_Some (st' !! x)) /\
  (forall h' l', is_list st h' l' -> (forall x, x ∈ t -> x ∈ h' :: l' -> False) -> is_list st' h' l').

Lemma untouched_refl t st : untouched t st st.
Proof. by split. Qed.

Lemma untouched_trans t1 t2 st1 st2 st3 :
  untouched t1 st1 st2 -> untouched t2 st2 st3 -> untouched (t1 ++ t2) st1 st3.
Proof.
  intros [H1 H2] [H3 H4]. split; [by auto|]. intros h' l' Hl Hap.
  apply H4; [apply H2; [done|]|]; intros x Hx; apply Hap; set_solver.
Qed.

Lemma untouched_weaken t t' st st' : untouched t st st' -> (forall x, x ∈ t -> x ∈ t') -> untouched t' st st'.
Proof. intros [H1 H2] Ht. split; [done|]. intros h' l' Hl Hap. apply H2; [done|]. intros x Hx. apply Hap, Ht, Hx. Qed.

Lemma shl_dlist_init_spec st h :
  is_Some (st !! h) ->
  swp False (shl_dlist_init h) (fun _ st' => is_list st' h [] /\ untouched [h] st st') st.
Proof.
  intros Hh. apply swp_bind, swp_set_next; [done|]. intros s1 H1. apply swp_set_prev; [by eauto|].
  intros s2 H2. split; [split; [apply NoDup_singleton|]|split].
  - destruct H1 as [H1n H1p], H2 as [H2p H2n]. cbn. by rewrite H2n, H1n, H2p, !decide_True.
  - eauto.
  - destruct H1 as [H1n H1p], H2 as [H2p H2n]. intros h' l' [Hd Hc] Hap. split; [done|].
    apply (chain_frame st); [done| |]; intros x Hx.
    + rewrite H2n, H1n, decide_False; [done|]. intros ->. apply (Hap h); set_solver.
    + rewrite H2p, decide_False; [by rewrite H1p|]. intros ->. apply (Hap h); set_solver.
Qed.

Lemma shl_dlist_link_spec st h l n :
  is_list st h l -> is_Some (st !! n) -> n ∉ h :: l ->
  swp False (shl_dlist_link h n) (fun _ st' => is_list st' h (n :: l) /\ untouched (n :: h :: l) st st') st.
Proof.
  intros Hl Hn Hnot. destruct Hl as [Hd Hc]. destruct (chain_ends _ _ _ _ Hc) as [Hnx _].
  apply swp_bind, swp_load; [by apply in_store_next; rewrite Hnx|]. intros hd E1 _.
  rewrite Hnx in E1. injection E1 as E1. rewrite <- E1.
  eapply swp_mono; [apply (insert_spec st h [] l n); [by split|done|done]|].
  intros [] st' (H1 & H2 & H3). split; [done|]. split; [done|]. intros h' l' Hl' Hap. apply H3; [done|].
  intros x Hx Hx'. apply (Hap x); set_solver.
Qed.

Lemma shl_dlist_link_tail_spec st h l n :
  is_list st h l -> is_Some (st !! n) -> n ∉ h :: l ->
  swp False (shl_dlist_link_tail h n) (fun _ st' => is_list st' h (l ++ [n]) /\ untouched (n :: h :: l) st st') st.
Proof.
  intros Hl Hn Hnot. destruct Hl as [Hd Hc]. destruct (chain_ends _ _ _ _ Hc) as [_ Hpv].
  apply swp_bind, swp_load; [by apply in_store_prev; rewrite Hpv|]. intros hd _ E1.
  rewrite Hpv in E1. injection E1 as E1. rewrite <- E1.
  eapply swp_mono; [apply (insert_spec st h l [] n); rewrite ?app_nil_r; [by split|done|done]|].
  intros [] st' (H1 & H2 & H3). split; [done|]. split; [done|]. intros h' l' Hl' Hap. apply H3; [done|].
  rewrite app_nil_r. intros x Hx Hx'. apply (Hap x); set_solver.
Qed.

Lemma shl_dlist_unlink_spec st h l e k :
  is_list st h (l ++ e :: k) ->
  swp False (shl_dlist_unlink e) (fun _ st' => is_list st' h (l ++ k) /\ st' !! e = Some (mkDlist 0 0) /\
    untouched (h :: l ++ e :: k) st st') st.
Proof.
  intros [Hd Hc]. pose proof Hc as Hc'. apply chain_app in Hc' as [Hc1 Hc2].
  apply chain_ends in Hc1 as [_ Hpv]. apply chain_ends in Hc2 as [Hnx _].
  pose proof (before_in h l) as Hb. pose proof (behind_in k h) as Hq.
  assert (forall x, x ∈ h :: (l ++ e :: k) ++ [h] -> is_Some (st !! x)) as Hin by (intros x; by apply (chain_in _ _ _ _ _ Hc)).
  apply swp_bind, swp_load; [apply Hin; set_solver|]. intros nd E1 E2.
  rewrite Hnx in E1. rewrite Hpv in E2. injection E1 as <-. injection E2 as <-.
  apply swp_bind. eapply swp_mono; [apply unlink_joined; apply Hin; set_solver|]. intros [] s1 HJ.
  assert (is_Some (s1 !! e)) as He.
  { rewrite <- in_store_next, (joined_next _ _ _ _ HJ). case_decide; [done|]. rewrite in_store_next. apply Hin. set_solver. }
  apply swp_bind, swp_set_prev; [done|]. intros s2 [H2p H2n].
  assert (is_Some (s2 !! e)) as He2 by (by rewrite <- in_store_next, H2n, in_store_next).
  apply swp_set_next; [done|]. intros s3 [H3n H3p].
  assert (e ∉ h :: l ++ k) as Hnot.
  { rewrite <- Permutation_middle in Hd. apply NoDup_cons in Hd as [? Hd]. apply NoDup_cons in Hd as [? _]. set_solver. }
  split; [|split; [|split]].
  - split.
    + rewrite <- Permutation_middle in Hd. apply NoDup_cons in Hd as [? Hd]. apply NoDup_cons in Hd as [? Hd].
      apply NoDup_cons. split; [set_solver|done].
    + apply (chain_frame s1).
      * eapply chain_joined; [done|done|by apply nodup_rotate|done].
      * intros x Hx. rewrite H3n, decide_False by set_solver. apply H2n.
      * intros x Hx. rewrite H3p, H2p, decide_False by set_solver. done.
  - assert (next_of s3 e = Some 0) as En by (by rewrite H3n, decide_True).
    assert (prev_of s3 e = Some 0) as Ep by (by rewrite H3p, H2p, decide_True).
    unfold next_of, prev_of in En, Ep. destruct (s3 !! e) as [[]|]; cbn in *; congruence.
  - intros x Hx. rewrite <- in_store_next, H3n, H2n, (joined_next _ _ _ _ HJ).
    repeat case_decide; try done. by rewrite in_store_next.
  - intros h' l' [Hd' Hc'] Hap. split; [done|]. apply (chain_frame st); [done| |]; intros x Hx.
    + rewrite H3n, H2n, (joined_next _ _ _ _ HJ), !decide_False by (intros E; apply (Hap x); set_solver). done.
    + rewrite H3p, H2p, (joined_prev _ _ _ _ HJ), !decide_False by (intros E; apply (Hap x); set_solver). done.
Qed.

Lemma shl_dlist_empty_spec st h l :
  is_list st h l -> swp False (shl_dlist_empty h) (fun b st' => b = bool_decide (l = []) /\ st' = st) st.
Proof.
  intros [Hd Hc]. destruct (chain_ends _ _ _ _ Hc) as [Hnx _].
  apply swp_bind, swp_load; [by apply in_store_next; rewrite Hnx|]. intros hd E1 _.
  rewrite Hnx in E1. injection E1 as E1. apply swp_ret. split; [|done]. rewrite <- E1.
  destruct l as [|x l]; cbn; [by rewrite Z.eqb_refl|]. apply NoDup_cons in Hd as [Hd _].
  change (behind (x :: l) h) with x. destruct (Z.eqb_spec x h) as [->|]; [|done]. exfalso. apply Hd. by left.
Qed.

Lemma shl_dlist_first_spec st a l z :
  chain st a l z -> swp False (shl_dlist_first a) (fun n st' => n = behind l z /\ st' = st) st.
Proof.
  intros Hc. destruct (chain_ends _ _ _ _ Hc) as [Hnx _].
  apply swp_bind, swp_load; [by apply in_store_next; rewrite Hnx|]. intros nd E1 _.
  rewrite Hnx in E1. injection E1 as E1. by apply swp_ret.
Qed.

Lemma shl_dlist_last_spec st a l z :
  chain st a l z -> swp False (shl_dlist_last z) (fun n st' => n = before a l /\ st' = st) st.
Proof.
  intros Hc. destruct (chain_ends _ _ _ _ Hc) as [_ Hpv].
  apply swp_bind, swp_load; [by apply in_store_prev; rewrite Hpv|]. intros nd _ E1.
  rewrite Hpv in E1. injection E1 as E1. by apply swp_ret.
Qed.

(** ** Operations on one list *)

Inductive list_op := Link (n : Z) | LinkTail (n : Z) | Unlink (n : Z).

Definition run_op (h : Z) (o : list_op) : sfm store unit :=
  match o with
  | Link n => shl_dlist_link h n
  | LinkTail n => shl_dlist_link_tail h n
  | Unlink n => shl_dlist_unlink n
  end.

Fixpoint run_ops (h : Z) (ops : list list_op) : sfm store unit :=
  match ops with
  | [] => sret tt
  | o :: ops => let* _ := run_op h o in run_ops h ops
  end.

(** The same on sequences, and when it may be done: only a new element is
    linked, only an element of the list is unlinked. *)
Definition seq_op (l : list Z) (o : list_op) : list Z :=
  match o with
  | Link n => n :: l
  | LinkTail n => l ++ [n]
  | Unlink n => filter (fun x => x <> n) l
  end.

Fixpoint ops_allowed (st : store) (h : Z) (l : list Z) (ops : list list_op) : Prop :=
  match ops with
  | [] => True
  | o :: ops =>
    match o with
    | Link n | LinkTail n => n ∉ h :: l /\ is_Some (st !! n)
    | Unlink n => n ∈ l
    end /\ ops_allowed st h (seq_op l o) ops
  end.

Definition op_element (o : list_op) : Z := match o with Link n | LinkTail n | Unlink n => n end.

Lemma seq_unlink (h : Z) l e k : NoDup (h :: l ++ e :: k) -> filter (fun x => x <> e) (l ++ e :: k) = l ++ k.
Proof.
  intros Hd. apply NoDup_cons in Hd as [_ Hd]. rewrite <- Permutation_middle in Hd. apply NoDup_cons in Hd as [He _].
  assert (forall l' : list Z, e ∉ l' -> filter (fun x => x <> e) l' = l') as Hf.
  { induction l' as [|x l' IH]; intros Hn; [done|]. rewrite filter_cons_True by set_solver. rewrite IH by set_solver. done. }
  rewrite filter_app, filter_cons_False by tauto. rewrite !Hf by set_solver. done.
Qed.

Lemma run_op_spec st h l o :
  is_list st h l -> ops_allowed st h l [o] ->
  swp False (run_op h o) (fun _ st' => is_list st' h (seq_op l o) /\ untouched (op_element o :: h :: l) st st') st.
Proof.
  intros Hl [Ho _]. destruct o as [n|n|n]; cbn in *.
  - destruct Ho. by apply shl_dlist_link_spec.
  - destruct Ho. by apply shl_dlist_link_tail_spec.
  - apply list_elem_of_split in Ho as (l1 & l2 & ->). eapply swp_mono; [by apply shl_dlist_unlink_spec|].
    intros [] st' (H1 & _ & H2). rewrite (seq_unlink h) by apply Hl. split; [done|].
    apply (untouched_weaken _ _ _ _ H2). set_solver.
Qed.

(** C36. The intrusive list implements sequences: a run of link, link-tail and
    unlink operations that only links new elements and only unlinks elements of
    the list never leaves the store, turns the list into the sequence the same
    operations give, and changes no other list whose elements are not involved;
    [empty], [first] and [last] then say what the sequence says. *)
Theorem dlist_refines_sequence st h l ops :
  is_list st h l -> ops_allowed st h l ops ->
  swp False (run_ops h ops) (fun _ st' =>
    is_list st' h (foldl seq_op l ops) /\ untouched (h :: l ++ map op_element ops) st st' /\
    swp False (shl_dlist_empty h) (fun b s => b = bool_decide (foldl seq_op l ops = []) /\ s = st') st' /\
    swp False (shl_dlist_first h) (fun x s => x = default h (head (foldl seq_op l ops)) /\ s = st') st' /\
    swp False (shl_dlist_last h) (fun x s => x = default h (last (foldl seq_op l ops)) /\ s = st') st') st.
Proof.
  revert st l; induction ops as [|o ops IH]; intros st l Hl Ho; cbn [run_ops foldl].
  - apply swp_ret. split; [done|]. split; [apply untouched_refl|].
    split; [by apply shl_dlist_empty_spec|]. destruct Hl as [_ Hc].
    split; [by apply shl_dlist_first_spec|]. by eapply shl_dlist_last_spec.
  - destruct Ho as [Ho Hops]. apply swp_bind. eapply swp_mono; [apply run_op_spec; [done|by split]|].
    intros [] s1 [H1 Hu1]. eapply swp_mono; [apply IH; [done|]|].
    + assert (forall l ops, ops_allowed st h l ops -> ops_allowed s1 h l ops) as Hmono.
      { clear -Hu1. intros l1 ops1; revert l1; induction ops1 as [|o1 ops1 IH]; intros l1; [done|]. cbn. intros [H1 H2].
        split; [|by apply IH]. destruct o1; intuition; by apply Hu1. }
      by apply Hmono.
    + intros [] s2 (H2 & Hu2 & H3). split; [done|]. split; [|done].
      eapply untouched_weaken; [by eapply untouched_trans|]. intros x Hx. cbn [map op_element].
      assert (forall y, y ∈ seq_op l o -> y ∈ l \/ y = op_element o) as Hs.
      { intros y Hy. destruct o; cbn in *; [set_solver..|]. apply list_elem_of_filter in Hy. tauto. }
      destruct (decide (x = op_element o)) as [->|]; [set_solver|]. specialize (Hs x). set_solver.
Qed.

(** ** The loops visit the elements *)

(** Links in one direction. *)
Fixpoint links (nx : Z -> option Z) (a : Z) (l : list Z) (z : Z) : Prop :=
  match l with
  | [] => nx a = Some z
  | x :: l => nx a = Some x /\ links nx x l z
  end.

Lemma links_app nx a l x k z : links nx a (l ++ x :: k) z <-> links nx a l x /\ links nx x k z.
Proof. revert a; induction l as [|y l IH]; intros a; cbn; [tauto|]. rewrite IH. tauto. Qed.

Lemma links_behind nx a l z : links nx a l z -> nx a = Some (behind l z).
Proof. destruct l; [done|]. by intros [? _]. Qed.

Lemma chain_nexts st a l z : chain st a l z -> links (next_of st) a l z.
Proof. revert a; induction l as [|x l IH]; intros a; cbn; [tauto|]. intros (? & _ & ?). auto. Qed.

Lemma chain_prevs st a l z : chain st a l z -> links (prev_of st) z (rev l) a.
Proof.
  revert a; induction l as [|x l IH]; intros a; cbn; [tauto|]. intros (_ & ? & ?). apply links_app. auto.
Qed.

(** A step of a loop along the links [nx]. *)
Definition follows (nx : Z -> option Z) (step : Z -> sfm store Z) (st : store) : Prop :=
  forall a n, nx a = Some n -> step a st = Some (n, st).

Lemma first_follows st : follows (next_of st) shl_dlist_first st.
Proof. intros a n. unfold next_of, shl_dlist_first, sbind, load. destruct (st !! a); cbn; [|done]. by intros [= <-]. Qed.

Lemma last_follows st : follows (prev_of st) shl_dlist_last st.
Proof. intros a n. unfold prev_of, shl_dlist_last, sbind, load. destruct (st !! a); cbn; [|done]. by intros [= <-]. Qed.

(** Stepping over the head. *)
Definition over (nx : Z -> option Z) (skip : bool) (h a : Z) : option Z :=
  match nx a with
  | Some n => if (n =? h) && skip then nx n else Some n
  | None => None
  end.

Lemma over_follows nx step skip h st : follows nx step st -> follows (over nx skip h) (step_over step skip h) st.
Proof.
  intros H a n. unfold over, step_over, sbind. destruct (nx a) as [m|] eqn:E; [|done]. rewrite (H _ _ E).
  destruct (_ && _); [apply H|]. by intros [= ->].
Qed.

Section visits.
Context {A : Type} (f : A -> Z -> A).
Local Notation visit := (fun x a => sret (f a x)).

Lemma for_loop_visits nx step st l stop fuel iter a acc :
  follows nx step st -> links nx a l stop -> stop ∉ l -> iter = behind l stop -> (length l < fuel)%nat ->
  for_loop visit step fuel iter stop acc st = Some (foldl f acc l, st).
Proof.
  intros Hf Hl Hs -> Hn. revert a acc fuel Hl Hn; induction l as [|x l IH]; intros a acc [|fuel] Hl Hn; try (cbn in Hn; lia).
  - cbn. by rewrite Z.eqb_refl.
  - cbn [for_loop foldl]. change (behind (x :: l) stop) with x.
    destruct (Z.eqb_spec x stop) as [->|]; [set_solver|]. destruct Hl as [_ Hl]. unfold sbind at 1, sret at 1.
    unfold sbind. rewrite (Hf _ _ (links_behind _ _ _ _ Hl)). apply (IH ltac:(set_solver) x); [done|cbn in Hn; lia].
Qed.

(** Behind [start] to the head, and from the head to [start]. *)
Lemma links_over nx h start l1 l2 a :
  h ∉ l1 -> h ∉ l2 -> h <> start -> links nx a l2 h -> links nx h l1 start ->
  links (over nx true h) a (l2 ++ l1) start.
Proof.
  intros H1 H2 Hs Hl2 Hl1.
  assert (forall l a, h ∉ l -> links nx a l start -> links (over nx true h) a l start) as Hplain.
  { induction l as [|x l IH]; intros b Hh; cbn; unfold over.
    - intros ->. by rewrite (proj2 (Z.eqb_neq start h)) by congruence.
    - intros [-> Hx]. rewrite (proj2 (Z.eqb_neq x h)) by set_solver. split; [done|]. apply IH; [set_solver|done]. }
  revert a Hl2; induction l2 as [|x l2 IH]; intros a; cbn [app links].
  - intros Ha. assert (over nx true h a = nx h) as Ho by (unfold over; rewrite Ha, Z.eqb_refl; done).
    destruct l1 as [|y l1]; cbn [links] in *; [by rewrite Ho|]. rewrite Ho. destruct Hl1 as [Hy Hl1].
    split; [done|]. apply Hplain; [set_solver|done].
  - intros [Ha Hx]. split; [|apply IH; [set_solver|done]]. unfold over. rewrite Ha.
    by rewrite (proj2 (Z.eqb_neq x h)) by set_solver.
Qed.

(** The loops over a list end and visit what they should: [for_each] the
    elements in order, the reverse loop in reverse order, and the loops "but one"
    the elements behind [start] and then those before it (reversed in the reverse
    loop), each exactly once and without changing the list. *)
Theorem dlist_loops_visit st h l fuel acc :
  is_list st h l -> (length l < fuel)%nat ->
  shl_dlist_for_each visit fuel h acc st = Some (foldl f acc l, st) /\
  shl_dlist_for_each_reverse visit fuel h acc st = Some (foldl f acc (rev l), st) /\
  forall l1 start l2, l = l1 ++ start :: l2 ->
    shl_dlist_for_each_but_one visit fuel start h acc st = Some (foldl f acc (l2 ++ l1), st) /\
    shl_dlist_for_each_reverse_but_one visit fuel start h acc st = Some (foldl f acc (rev l1 ++ rev l2), st).
Proof.
  intros [Hd Hc] Hf. pose proof (chain_nexts _ _ _ _ Hc) as Hn. pose proof (chain_prevs _ _ _ _ Hc) as Hp.
  apply NoDup_cons in Hd as [Hh Hd]. split; [|split].
  - unfold shl_dlist_for_each, sbind. rewrite (first_follows st _ _ (links_behind _ _ _ _ Hn)).
    by eapply for_loop_visits; [apply first_follows|done|..].
  - unfold shl_dlist_for_each_reverse, sbind. rewrite (last_follows st _ _ (links_behind _ _ _ _ Hp)).
    eapply for_loop_visits; [apply last_follows|done| |done|by rewrite length_rev].
    by rewrite list_elem_of_In, <- in_rev, <- list_elem_of_In.
  - intros l1 start l2 ->. assert (start <> h) as Hsh by set_solver.
    apply NoDup_app in Hd as (Hd1 & Hd & Hd2). apply NoDup_cons in Hd2 as [Hd2 _].
    assert (start ∉ l2 ++ l1) as Hs by set_solver. rewrite length_app in Hf. cbn in Hf.
    apply links_app in Hn as [Hn1 Hn2].
    rewrite rev_app_distr in Hp. cbn in Hp. rewrite <- app_assoc in Hp. apply links_app in Hp as [Hp1 Hp2].
    assert (forall (x : Z) k, x ∈ rev k <-> x ∈ k) as Hrev by (intros x k; by rewrite !list_elem_of_In, <- in_rev).
    unfold shl_dlist_for_each_but_one, shl_dlist_for_each_reverse_but_one, sbind.
    rewrite (proj2 (Z.eqb_neq _ _) Hsh). cbn [negb]. split.
    + pose proof (links_over (next_of st) h start l1 l2 start) as Hl.
      specialize (Hl ltac:(set_solver) ltac:(set_solver) ltac:(done) Hn2 Hn1).
      rewrite (over_follows _ _ _ _ _ (first_follows st) _ _ (links_behind _ _ _ _ Hl)).
      eapply for_loop_visits; [apply over_follows, first_follows|done|done|done|rewrite length_app; lia].
    + pose proof (links_over (prev_of st) h start (rev l2) (rev l1) start) as Hl.
      specialize (Hl ltac:(rewrite Hrev; set_solver) ltac:(rewrite Hrev; set_solver) ltac:(done) Hp2 Hp1).
      rewrite (over_follows _ _ _ _ _ (last_follows st) _ _ (links_behind _ _ _ _ Hl)).
      eapply for_loop_visits; [apply over_follows, last_follows|done| |done|rewrite length_app, !length_rev; lia].
      intros Hin. apply elem_of_app in Hin. rewrite !Hrev in Hin. set_solver.
Qed.

End visits.

Lemma safe_loop_unlinks {A} (f : A -> Z -> A) st h l fuel acc :
  is_list st h l -> (length l < fuel)%nat ->
  swp False (safe_loop (fun x a => let* _ := shl_dlist_unlink x in sret (f a x)) shl_dlist_first fuel
               (behind l h) (match l with [] => h | _ :: l => behind l h end) h acc)
    (fun r st' => r = foldl f acc l /\ is_list st' h []) st.
Proof.
  revert st l acc; induction fuel as [|fuel IH]; intros st l acc Hl Hf; [lia|]. cbn [safe_loop].
  destruct l as [|x l]; cbn [foldl].
  - change (behind [] h) with h. rewrite Z.eqb_refl. by apply swp_ret.
  - change (behind (x :: l) h) with x. pose proof Hl as [Hd _]. apply NoDup_cons in Hd as [Hh _].
    destruct (Z.eqb_spec x h) as [->|]; [exfalso; apply Hh; by left|].
    apply swp_bind, swp_bind. eapply swp_mono; [apply (shl_dlist_unlink_spec st h [] x l Hl)|].
    intros [] s1 (H1 & _ & _). apply swp_ret. cbn [app] in H1. apply swp_bind.
    assert (swp False (shl_dlist_first (behind l h))
      (fun n s => n = match l with [] => h | _ :: l => behind l h end /\ s = s1) s1) as Hstep.
    { destruct H1 as [_ Hc]. destruct l as [|y l]; [by apply (shl_dlist_first_spec s1 h [] h)|].
      apply shl_dlist_first_spec, Hc. }
    eapply swp_mono; [exact Hstep|]. intros tmp s [-> ->]. apply IH; [done|cbn in Hf; lia].
Qed.

(** The safe loop lets its body take the element out of the list: a loop that
    unlinks every element it is given ends, has visited all of them in order, and
    leaves an empty list. *)
Theorem dlist_safe_loop_empties {A} (f : A -> Z -> A) st h l fuel acc :
  is_list st h l -> (length l < fuel)%nat ->
  swp False (shl_dlist_for_each_safe (fun x a => let* _ := shl_dlist_unlink x in sret (f a x)) fuel h acc)
    (fun r st' => r = foldl f acc l /\ is_list st' h []) st.
Proof.
  intros Hl Hf. pose proof Hl as [_ Hc]. apply swp_bind. eapply swp_mono; [by apply (shl_dlist_first_spec st h l h)|].
  intros x s [-> ->]. apply swp_bind.
  assert (swp False (shl_dlist_first (behind l h))
    (fun n s => n = match l with [] => h | _ :: l => behind l h end /\ s = st) st) as Hstep.
  { destruct l as [|y l]; [by apply (shl_dlist_first_spec st h [] h)|]. apply (shl_dlist_first_spec st y l h), Hc. }
  eapply swp_mono; [exact Hstep|]. intros n s [-> ->]. by apply safe_loop_unlinks.
Qed.

(** ** Witnesses *)

(** Two heads (1, 2) and five elements. *)
Definition sample_store : store :=
  list_to_map (map (fun a => (a, if a <? 3 then mkDlist a a else mkDlist 0 0)) [1; 2; 3; 4; 5; 6; 7]).

Definition sample_ops : list list_op := [Link 3; LinkTail 4; LinkTail 5; Unlink 4; Link 6].

Lemma sample_is_list : is_list sample_store 1 [].
Proof. split; [apply NoDup_singleton|]. vm_compute. done. Qed.

Lemma sample_allowed : ops_allowed sample_store 1 [] sample_ops.
Proof. cbn. split_and!; try (by eexists); set_solver. Qed.

Lemma dlist_refines_sequence_witness :
  ops_allowed sample_store 1 [] sample_ops /\
  swp False (run_ops 1 sample_ops) (fun _ st' => is_list st' 1 [6; 3; 5]) sample_store.
Proof.
  split; [exact sample_allowed|]. eapply swp_mono.
  - apply (dlist_refines_sequence sample_store 1 [] sample_ops sample_is_list sample_allowed).
  - intros [] st' (H & _). exact H.
Defined.

Definition sample_linked : store :=
  match run_ops 1 [LinkTail 3; LinkTail 4; LinkTail 5; LinkTail 6] sample_store with Some (_, st) => st | None => ∅ end.

Lemma sample_linked_list : is_list sample_linked 1 [3; 4; 5; 6].
Proof. split; [repeat constructor; set_solver|]. vm_compute. done. Qed.

Lemma dlist_loops_visit_witness :
  shl_dlist_for_each (fun x a => sret (a ++ [x])) 10 1 [] sample_linked = Some ([3; 4; 5; 6], sample_linked) /\
  shl_dlist_for_each_but_one (fun x a => sret (a ++ [x])) 10 4 1 [] sample_linked = Some ([5; 6; 3], sample_linked).
Proof.
  destruct (dlist_loops_visit (fun a x => a ++ [x]) sample_linked 1 [3; 4; 5; 6] 10 [] sample_linked_list ltac:(cbn; lia))
    as (H1 & _ & H2).
  split; [exact H1|]. exact (proj1 (H2 [3] 4 [5; 6] eq_refl)).
Defined.

Lemma dlist_safe_loop_empties_witness :
  swp False (shl_dlist_for_each_safe (fun x a => let* _ := shl_dlist_unlink x in sret (a ++ [x])) 10 1 [])
    (fun r st' => r = [3; 4; 5; 6] /\ is_list st' 1 []) sample_linked.
Proof. apply (dlist_safe_loop_empties (fun a x => a ++ [x]) sample_linked 1 [3; 4; 5; 6] 10 [] sample_linked_list). cbn. lia. Defined.
