(* ===== verification/Ring.v ===== *)
(** * The ring buffer of [src/shl_ring.c] and [src/shl_ring.h].

    [shl_ring] is [struct shl_ring]; sizes and indices are [size_t] values.
    [r_buf] holds the bytes of the block [r->buf] ([NULL], which the code only
    has together with [size = 0], is the empty list).  The abstraction of a
    ring is the list of bytes it queues ([ring_contents]). *)

From S2P Require Import Prelude CLib Fifo.

(** ** Data and operations *)

Record shl_ring := mkRing {
  r_buf : list Z;
  r_size : Z;
  r_start : Z;
  r_end : Z;
}.

Definition RING_MASK (r : shl_ring) (v : Z) : Z := Z.land v (u64 (r_size r - 1)).

(** [free (r->buf)], where [free (NULL)] does nothing. *)
Definition free_buf (b : list Z) : alloc unit :=
  match b with [] => ret tt | _ => free_blocks 1 end.

Definition ring_resize (r : shl_ring) (nsize : Z) : alloc (Z * shl_ring) :=
  let! b := malloc nsize in
  match b with
  | None => ret (- ENOMEM, r)
  | Some buf =>
    let '(buf', end', start') :=
      if r_end r =? r_start r then (buf, 0, 0)
      else if r_start r <? r_end r then
        (memcpy 0 (ztake (r_end r - r_start r) (zdrop (r_start r) (r_buf r))) buf,
         r_end r - r_start r, 0)
      else
        (memcpy (r_size r - r_start r) (ztake (r_end r) (r_buf r))
           (memcpy 0 (ztake (r_size r - r_start r) (zdrop (r_start r) (r_buf r))) buf),
         r_end r + (r_size r - r_start r), 0) in
    free_buf (r_buf r) ;;!
    ret (0, mkRing buf' nsize start' end')
  end.

(** [for (i = 1; i < 8 * sizeof(size_t); i *= 2) v |= v >> i] *)
Fixpoint ring_pow2_loop (fuel : nat) (i v : Z) : Z :=
  match fuel with
  | O => v
  | S fuel' =>
    if i <? 64 then ring_pow2_loop fuel' (i * 2) (Z.lor v (Z.shiftr v i)) else v
  end.

Definition ring_pow2 (v : Z) : Z :=
  if v =? 0 then 4096 else u64 (ring_pow2_loop 7 1 (v - 1) + 1).

Definition ring_grow (r : shl_ring) (add : Z) : alloc (Z * shl_ring) :=
  let len :=
    if r_end r <? r_start r then r_start r - r_end r
    else u64 (r_start r + r_size r - r_end r) in
  if add <? len then ret (0, r)
  else
    let len := ring_pow2 (u64 (r_size r + add - len + 1)) in
    if len <=? r_size r then ret (- ENOMEM, r)
    else ring_resize r len.

(** The copy of [shl_ring_push], once there is room for the data. *)
Definition ring_fill (r : shl_ring) (u8 : list Z) : shl_ring :=
  let '(r, u8) :=
    if r_start r <=? r_end r then
      let l := u64 (r_size r - r_end r) in
      let l := if zlen u8 <? l then zlen u8 else l in
      (mkRing (memcpy (r_end r) (ztake l u8) (r_buf r)) (r_size r) (r_start r)
         (RING_MASK r (r_end r + l)), zdrop l u8)
    else (r, u8) in
  if zlen u8 =? 0 then r
  else
    mkRing (memcpy (r_end r) u8 (r_buf r)) (r_size r) (r_start r)
      (RING_MASK r (r_end r + zlen u8)).

Definition shl_ring_push (r : shl_ring) (u8 : list Z) : alloc (Z * shl_ring) :=
  let! (err, r) := ring_grow r (zlen u8) in
  if err <? 0 then ret (err, r) else ret (0, ring_fill r u8).

(** The return value and the entries of [vec] that are filled, an iovec being
    an offset into [r->buf] and a length. *)
Definition shl_ring_peek (r : shl_ring) : Z * list (Z * Z) :=
  if r_start r <? r_end r then
    (1, [(r_start r, r_end r - r_start r)])
  else if r_end r <? r_start r then
    ((if r_end r =? 0 then 1 else 2),
     [(r_start r, r_size r - r_start r); (0, r_end r)])
  else (0, []).

(** The bytes an iovec of [r] designates. *)
Definition iov_bytes (r : shl_ring) (v : Z * Z) : list Z :=
  ztake (snd v) (zdrop (fst v) (r_buf r)).

Definition shl_ring_pull (r : shl_ring) (len : Z) : shl_ring :=
  let '(r, len) :=
    if r_end r <? r_start r then
      let l := r_size r - r_start r in
      let l := if len <? l then len else l in
      (mkRing (r_buf r) (r_size r) (RING_MASK r (r_start r + l)) (r_end r), len - l)
    else (r, len) in
  if len =? 0 then r
  else
    let l := u64 (r_end r - r_start r) in
    let l := if len <? l then len else l in
    mkRing (r_buf r) (r_size r) (RING_MASK r (r_start r + l)) (r_end r).

Definition shl_ring_flush (r : shl_ring) : shl_ring :=
  mkRing (r_buf r) (r_size r) 0 0.

Definition shl_ring_clear (r : shl_ring) : alloc shl_ring :=
  free_buf (r_buf r) ;;! ret (mkRing [] 0 0 0).

(** The new block ([sum + 1] bytes) and the value stored in [*len]. *)
Definition shl_ring_copy (r : shl_ring) (len : option Z) : alloc (option (list Z * Z)) :=
  let '(n, vec) := shl_ring_peek r in
  let v0 := default (0, 0) (vec !! 0%nat) in
  let v1 := default (0, 0) (vec !! 1%nat) in
  let sum := (if 0 <? n then snd v0 else 0) + (if 1 <? n then snd v1 else 0) in
  let sum := match len with Some m => if m <? sum then m else sum | None => sum end in
  let! b := malloc (sum + 1) in
  match b with
  | None => ret None
  | Some b =>
    let b := memcpy sum [0] b in
    let b :=
      if 0 <? n then
        let l0 := if sum <? snd v0 then sum else snd v0 in
        let b := memcpy 0 (ztake l0 (iov_bytes r v0)) b in
        let rest := sum - l0 in
        if (1 <? n) && (0 <? rest) then
          let l1 := if rest <? snd v1 then rest else snd v1 in
          memcpy l0 (ztake l1 (iov_bytes r v1)) b
        else b
      else b in
    ret (Some (b, sum))
  end.

Definition shl_ring_length (r : shl_ring) : Z :=
  if r_start r <? r_end r then r_end r - r_start r
  else if r_end r <? r_start r then (r_size r - r_start r) + r_end r
  else 0.

(** A zeroed [struct shl_ring]. *)
Definition ring0 : shl_ring := mkRing [] 0 0 0.

(** ** Abstraction and invariant *)

Definition ring_contents (r : shl_ring) : list Z :=
  if r_start r <=? r_end r then ztake (r_end r - r_start r) (zdrop (r_start r) (r_buf r))
  else zdrop (r_start r) (r_buf r) ++ ztake (r_end r) (r_buf r).

(** The block has [size] bytes, both indices are inside it, and [size] is zero
    or a power of two an allocation can have. *)
Definition ring_wf (r : shl_ring) : Prop :=
  zlen (r_buf r) = r_size r /\
  ((r_size r = 0 /\ r_start r = 0 /\ r_end r = 0) \/
   (0 <= r_start r < r_size r /\ 0 <= r_end r < r_size r /\
    exists k, 0 <= k <= 62 /\ r_size r = 2 ^ k)).

(** ** Lemmas *)

(** *** The power-of-two computation *)

(** The [i] bits below (and including) bit [L] are set, and none above. *)
Definition top_ones (L i v : Z) : Prop :=
  (forall j, 0 <= j -> L - i < j <= L -> Z.testbit v j = true) /\
  (forall j, L < j -> Z.testbit v j = false).

Lemma top_ones_step L i v :
  0 < i -> top_ones L i v -> top_ones L (i * 2) (Z.lor v (Z.shiftr v i)).
Proof.
  intros Hi [Ht Hf]; split; intros j Hj.
  - intros Hr; rewrite Z.lor_spec, Z.shiftr_spec by lia.
    destruct (Z_lt_dec (L - i) j); [rewrite (Ht j) by lia; done|].
    rewrite (Ht (j + i)) by lia; apply orb_true_r.
  - destruct (Z_lt_dec j 0).
    + rewrite Z.testbit_neg_r by lia; done.
    + rewrite Z.lor_spec, Z.shiftr_spec, !Hf by lia; done.
Qed.

Lemma top_ones_full L v : 0 <= L -> top_ones L (L + 1) v -> v = Z.ones (L + 1).
Proof.
  intros HL [Ht Hf]; apply Z.bits_inj'; intros j Hj.
  destruct (Z_lt_dec L j).
  - rewrite Hf, Z.ones_spec_high by lia; done.
  - rewrite Ht, Z.ones_spec_low by lia; done.
Qed.

Lemma top_ones_weaken L i k v : k <= i -> top_ones L i v -> top_ones L k v.
Proof. intros ? [Ht Hf]; split; intros; [apply Ht | apply Hf]; lia. Qed.

Lemma ring_pow2_loop_ones v :
  0 < v < 2 ^ 64 -> ring_pow2_loop 7 1 v = Z.ones (Z.log2 v + 1).
Proof.
  intros Hv.
  assert (0 <= Z.log2 v < 64) by (split; [apply Z.log2_nonneg | apply Z.log2_lt_pow2; lia]).
  assert (top_ones (Z.log2 v) 1 v) as H0.
  { split; intros j ?; [intros; replace j with (Z.log2 v) by lia; apply Z.bit_log2; lia
                       | apply Z.bits_above_log2; lia]. }
  cbn [ring_pow2_loop]; cbn -[Z.lor Z.shiftr].
  apply top_ones_full; [lia|].
  apply top_ones_weaken with (i := 64); [lia|].
  do 6 (match goal with |- top_ones _ ?i _ =>
          let h := eval vm_compute in (i / 2) in
          change i with (h * 2); apply top_ones_step; [done|] end).
  exact H0.
Qed.

(** The routine rounds up to a power of two; above 2^63 the result wraps to
    zero. *)
Lemma ring_pow2_log2_up v :
  1 <= v <= 2 ^ 63 -> ring_pow2 v = 2 ^ Z.log2_up v.
Proof.
  intros Hv; unfold ring_pow2.
  destruct (Z.eqb_spec v 0); [lia|].
  destruct (Z.eq_dec v 1) as [->|]; [reflexivity|].
  rewrite ring_pow2_loop_ones by lia.
  rewrite Z.log2_up_eqn by lia.
  replace (Z.pred v) with (v - 1) by lia.
  rewrite Z.ones_equiv. unfold u64.
  assert (Z.log2 (v - 1) <= 62).
  { apply Z.lt_succ_r, Z.log2_lt_pow2; [lia|]. simpl. lia. }
  pose proof (Z.log2_nonneg (v - 1)).
  assert (2 ^ (Z.log2 (v - 1) + 1) <= 2 ^ 63) by (apply Z.pow_le_mono_r; lia).
  assert (0 < 2 ^ (Z.log2 (v - 1) + 1)) by (apply Z.pow_pos_nonneg; lia).
  rewrite Z.mod_small by lia. lia.
Qed.

Lemma ring_pow2_overflow v : 2 ^ 63 < v < 2 ^ 64 -> ring_pow2 v = 0.
Proof.
  intros Hv; unfold ring_pow2.
  destruct (Z.eqb_spec v 0); [lia|].
  rewrite ring_pow2_loop_ones by lia.
  replace (Z.log2 (v - 1)) with 63 by (symmetry; apply Z.log2_unique; lia).
  reflexivity.
Qed.

Lemma ring_pow2_bounds v :
  1 <= v <= 2 ^ 63 ->
  exists k, 0 <= k <= 63 /\ ring_pow2 v = 2 ^ k /\ v <= 2 ^ k.
Proof.
  intros Hv; exists (Z.log2_up v).
  rewrite ring_pow2_log2_up by lia.
  pose proof (Z.log2_up_nonneg v).
  assert (Z.log2_up v <= 63) by (apply Z.log2_up_le_pow2; lia).
  repeat split; try lia.
  destruct (Z.eq_dec v 1) as [->|]; [done|].
  apply Z.log2_up_spec; lia.
Qed.

(** *** Indices *)

Lemma ring_mask_mod r v k :
  r_size r = 2 ^ k -> 0 <= k <= 62 -> RING_MASK r v = v mod r_size r.
Proof.
  intros Hs Hk; unfold RING_MASK, u64; rewrite Hs.
  assert (0 < 2 ^ k) by (apply Z.pow_pos_nonneg; lia).
  assert (2 ^ k <= 2 ^ 62) by (apply Z.pow_le_mono_r; lia).
  rewrite Z.mod_small by lia.
  replace (2 ^ k - 1) with (Z.ones k) by (rewrite Z.ones_equiv; lia).
  apply Z.land_ones; lia.
Qed.

(** The two regimes of a well-formed ring's index arithmetic. *)
Lemma mod_wrap a n : 0 < n -> 0 <= a <= n -> a mod n = if a =? n then 0 else a.
Proof.
  intros; destruct (Z.eqb_spec a n) as [->|].
  - apply Z.mod_same; lia.
  - apply Z.mod_small; lia.
Qed.

Lemma ring_wf_pow k : 0 <= k <= 62 -> 0 < 2 ^ k <= 2 ^ 62.
Proof.
  intros; split; [apply Z.pow_pos_nonneg; lia | apply Z.pow_le_mono_r; lia].
Qed.

Lemma ring_length_contents r : ring_wf r -> shl_ring_length r = zlen (ring_contents r).
Proof.
  intros [Hb Hi]; unfold shl_ring_length, ring_contents.
  destruct (Z.ltb_spec (r_start r) (r_end r)), (Z.ltb_spec (r_end r) (r_start r)),
    (Z.leb_spec (r_start r) (r_end r)); destruct Hi as [|(? & ? & _)]; zlia.
Qed.

Lemma ring_contents_lt r : ring_wf r -> zlen (ring_contents r) = 0 \/ zlen (ring_contents r) < r_size r.
Proof.
  intros Hwf; rewrite <- ring_length_contents by done; destruct Hwf as [Hb Hi].
  unfold shl_ring_length; destruct Hi as [|(? & ? & _)];
  destruct (Z.ltb_spec (r_start r) (r_end r)), (Z.ltb_spec (r_end r) (r_start r)); lia.
Qed.

Lemma ring0_wf : ring_wf ring0.
Proof. split; [done | left; done]. Qed.

(** *** Writing *)

(** With [size] bytes in the block and both indices inside it, the masks are
    reductions modulo [size]. *)
Lemma ring_fill_eq buf size st en d k :
  size = 2 ^ k -> 0 <= k <= 62 -> 0 <= st < size -> 0 <= en < size ->
  ring_fill (mkRing buf size st en) d =
    if st <=? en then
      if zlen d <? size - en then mkRing (memcpy en d buf) size st (en + zlen d)
      else
        let d2 := zdrop (size - en) d in
        let buf1 := memcpy en (ztake (size - en) d) buf in
        if zlen d2 =? 0 then mkRing buf1 size st 0
        else mkRing (memcpy 0 d2 buf1) size st (zlen d2 mod size)
    else if zlen d =? 0 then mkRing buf size st en
    else mkRing (memcpy en d buf) size st ((en + zlen d) mod size).
Proof.
  intros Hs Hk Hst Hen. pose proof (ring_wf_pow k Hk). pose proof (zlen_nonneg d).
  assert (forall b s e v, RING_MASK (mkRing b size s e) v = v mod size) as Hmask.
  { intros; by apply (ring_mask_mod (mkRing b size s e) v k). }
  unfold ring_fill; cbn [r_buf r_size r_start r_end].
  assert (u64 (size - en) = size - en) as -> by (apply Z.mod_small; lia).
  rewrite !Hmask.
  destruct (Z.leb_spec st en); cbn [r_buf r_size r_start r_end].
  - destruct (Z.ltb_spec (zlen d) (size - en)).
    + rewrite (zdrop_all (zlen d) d), (ztake_all (zlen d) d), Z.mod_small by lia. done.
    + replace (en + (size - en)) with size by lia. rewrite Z.mod_same by lia.
      rewrite Hmask; done.
  - rewrite Hmask; done.
Qed.

(** Pushing data for which there is room appends it to the queue. *)
Lemma ring_fill_ok r d :
  ring_wf r -> zlen (ring_contents r) + zlen d < r_size r ->
  ring_wf (ring_fill r d) /\ r_size (ring_fill r d) = r_size r /\
  ring_contents (ring_fill r d) = ring_contents r ++ d.
Proof.
  intros Hwf Hroom. pose proof (zlen_nonneg d). pose proof (zlen_nonneg (ring_contents r)).
  destruct r as [buf size st en]; destruct Hwf as [Hb Hi]; cbn [r_buf r_size r_start r_end] in *.
  destruct Hi as [|(Hst & Hen & k & Hk & Hs)]; [lia|].
  rewrite (ring_fill_eq _ _ _ _ _ k) by done.
  unfold ring_wf, ring_contents in *; cbn [r_buf r_size r_start r_end] in *.
  destruct (Z.leb_spec st en) as [Hle|Hlt].
  - assert (en - st + zlen d < size) by zlia.
    destruct (Z.ltb_spec (zlen d) (size - en)); cbn [r_buf r_size r_start r_end].
    + rewrite (proj2 (Z.leb_le _ _)) by lia.
      rewrite zlen_memcpy by lia. split_and!; try done; [right; eauto with lia|].
      apply zwindow_memcpy_end; lia.
    + assert (0 < st) by lia.
      set (d1 := ztake (size - en) d); set (d2 := zdrop (size - en) d).
      assert (zlen d1 = size - en) by (unfold d1; zlia).
      assert (zlen d2 = zlen d - (size - en)) by (unfold d2; zlia).
      replace d with (d1 ++ d2) by apply ztake_zdrop.
      destruct (Z.eqb_spec (zlen d2) 0) as [Hz|Hz]; cbn [r_buf r_size r_start r_end].
      * apply zlen_nil_inv in Hz as ->. destruct (Z.leb_spec st 0); [lia|].
        rewrite zlen_memcpy by lia. split_and!; try done; [right; eauto with lia|].
        rewrite zdrop_memcpy_end, (ztake_neg 0), !app_nil_r by lia; done.
      * rewrite Z.mod_small by lia. destruct (Z.leb_spec st (zlen d2)); [lia|].
        rewrite !zlen_memcpy by (rewrite ?zlen_memcpy; lia).
        split_and!; try done; [right; eauto with lia|].
        rewrite zdrop_memcpy_after by (rewrite ?zlen_memcpy; lia).
        rewrite zdrop_memcpy_end by lia.
        rewrite ztake_memcpy_end by (rewrite ?zlen_memcpy; lia).
        rewrite (ztake_neg 0), <- app_assoc by lia; done.
  - assert (size - st + en + zlen d < size) by zlia.
    rewrite Z.mod_small by lia.
    destruct (Z.eqb_spec (zlen d) 0) as [Hz|Hz]; cbn [r_buf r_size r_start r_end].
    + apply zlen_nil_inv in Hz as ->. rewrite app_nil_r.
      destruct (Z.leb_spec st en); [lia|]. split_and!; try done. right; eauto with lia.
    + destruct (Z.leb_spec st (en + zlen d)); [lia|].
      rewrite zlen_memcpy by lia. split_and!; try done; [right; eauto with lia|].
      rewrite zdrop_memcpy_after, ztake_memcpy_end, app_assoc by lia; done.
Qed.

(** *** Growing *)

(** Live blocks owned by a ring. *)
Definition ring_owned (r : shl_ring) : Z := match r_buf r with [] => 0 | _ => 1 end.

Lemma ring_owned_pos r : 0 < zlen (r_buf r) -> ring_owned r = 1.
Proof. unfold ring_owned, zlen; destruct (r_buf r); simpl; [lia | done]. Qed.

Lemma wp_free_buf b Q h :
  (forall h', heap_step h h' (- match b with [] => 0 | _ => 1 end) -> Q tt h') ->
  wp (free_buf b) Q h.
Proof.
  intros HQ; destruct b; cbn [free_buf].
  - apply wp_ret, HQ, heap_step_refl.
  - apply wp_free, HQ.
Qed.

(** What a failing or succeeding buffer operation guarantees: on failure the
    ring is untouched; on success it is well-formed and queues [c]. *)
Definition ring_post (r : shl_ring) (h : heap) (c : list Z) (P : shl_ring -> Prop)
    (too_big : Prop) (x : Z * shl_ring) (h' : heap) : Prop :=
  let '(e, r') := x in
  ring_wf r' /\ heap_step h h' (ring_owned r' - ring_owned r) /\
  ((e = 0 /\ ring_contents r' = c /\ P r') \/
   (e = - ENOMEM /\ r' = r /\ (heap_ok h -> too_big))).

Lemma ring_resize_ok r nsize k h :
  ring_wf r -> nsize = 2 ^ k -> 0 <= k <= 63 -> r_size r < nsize ->
  wp (ring_resize r nsize)
     (ring_post r h (ring_contents r) (fun r' => r_size r' = nsize) (k = 63)) h.
Proof.
  intros Hwf Hn Hk Hlt.
  assert (0 < nsize) as Hpos by (subst; apply Z.pow_pos_nonneg; lia).
  unfold ring_resize. apply wp_bind, wp_malloc; [lia| |].
  - intros b h1 Hb Hmax Hst1.
    assert (k <= 62) as Hk62.
    { destruct (Z.eq_dec k 63) as [->|]; [|lia]. unfold PTRDIFF_MAX in *; subst; lia. }
    destruct r as [buf size st en]; destruct Hwf as [Hbuf Hi]; cbn [r_buf r_size r_start r_end] in *.
    assert (forall b' en', zlen b' = nsize -> 0 <= en' < nsize ->
              ring_wf (mkRing b' nsize 0 en')) as Hmk.
    { intros; split; [done|]; right; cbn [r_size r_start r_end].
      split; [lia|]; split; [lia|]; exists k; lia. }
    assert (forall b' en', zlen b' = nsize -> 0 <= en' < nsize ->
      ring_contents (mkRing b' nsize 0 en') = ring_contents (mkRing buf size st en) ->
      wp (free_buf buf ;;! ret (0, mkRing b' nsize 0 en'))
       (ring_post (mkRing buf size st en) h (ring_contents (mkRing buf size st en))
          (fun r' => r_size r' = nsize) (k = 63)) h1) as Hdone.
    { intros b' en' Hb' Hen' Hc. apply wp_bind, wp_free_buf. intros h2 Hst2. apply wp_ret.
      split; [auto|]; split; [|by left].
      eapply heap_step_trans; [done..|].
      unfold ring_owned at 1; cbn [r_buf]; destruct b'; [unfold zlen in *; simpl in *; lia|].
      unfold ring_owned; cbn [r_buf]; destruct buf; lia. }
    assert (0 <= st <= size /\ 0 <= en <= size) as [? ?] by (destruct Hi as [|(? & ? & _)]; lia).
    destruct (Z.eqb_spec en st) as [->|Hne]; [|destruct (Z.ltb_spec st en)]; apply Hdone; try done; try lia;
      unfold ring_contents; cbn [r_buf r_size r_start r_end].
    + rewrite !Z.leb_refl, Z.sub_diag, !ztake_neg by lia; done.
    + rewrite zlen_memcpy; zlia.
    + rewrite (proj2 (Z.leb_le 0 _)), (proj2 (Z.leb_le st _)), Z.sub_0_r, (zdrop_neg 0) by lia.
      rewrite ztake_memcpy_end, (ztake_neg 0) by zlia; done.
    + rewrite !zlen_memcpy; try (rewrite ?zlen_memcpy); zlia.
    + rewrite (proj2 (Z.leb_le 0 _)), (proj2 (Z.leb_gt st _)), Z.sub_0_r, (zdrop_neg 0) by lia.
      rewrite ztake_memcpy_end by (rewrite ?zlen_memcpy; zlia).
      rewrite ztake_memcpy_end, (ztake_neg 0) by zlia; cbn [app].
      rewrite (ztake_all (size - st)) by zlia; done.
  - intros h1 Hno Hst1. apply wp_ret. split; [done|]. split; [by rewrite Z.sub_diag|].
    right. split; [done|]. split; [done|]. intros Hok.
    destruct (Z.eq_dec k 63); [done|]. exfalso; apply Hno; [done|].
    assert (2 ^ k <= 2 ^ 62) by (apply Z.pow_le_mono_r; lia). unfold PTRDIFF_MAX; lia.
Qed.

(** Free bytes of a ring, the one that always stays unused included. *)
Lemma ring_space r :
  ring_wf r ->
  (if r_end r <? r_start r then r_start r - r_end r
   else u64 (r_start r + r_size r - r_end r)) = r_size r - zlen (ring_contents r).
Proof.
  intros Hwf; rewrite <- ring_length_contents by done; destruct Hwf as [Hb Hi].
  unfold shl_ring_length. destruct Hi as [(Hs & Ha & He)|(? & ? & k & Hk & Hs)].
  - rewrite Hs, Ha, He; done.
  - pose proof (ring_wf_pow k Hk). unfold u64.
    destruct (Z.ltb_spec (r_end r) (r_start r)), (Z.ltb_spec (r_start r) (r_end r)); try lia;
      rewrite Z.mod_small by lia; lia.
Qed.

Lemma ring_wf_size r : ring_wf r -> 0 <= r_size r <= 2 ^ 62.
Proof.
  intros [_ [|(? & ? & k & Hk & Hs)]]; [lia|]. pose proof (ring_wf_pow k Hk); lia.
Qed.

Lemma ring_grow_ok r add h :
  ring_wf r -> 0 <= add <= PTRDIFF_MAX ->
  wp (ring_grow r add)
     (ring_post r h (ring_contents r)
        (fun r' => zlen (ring_contents r) + add < r_size r')
        (2 ^ 62 <= zlen (ring_contents r) + add)) h.
Proof.
  intros Hwf Hadd; unfold ring_grow. rewrite ring_space by done.
  pose proof (zlen_nonneg (ring_contents r)) as Hc.
  pose proof (ring_contents_lt r Hwf) as Hlt. pose proof (ring_wf_size r Hwf) as Hsz.
  unfold PTRDIFF_MAX in *.
  destruct (Z.ltb_spec add (r_size r - zlen (ring_contents r))) as [Hfit|Hno].
  - apply wp_ret. split; [done|]. rewrite Z.sub_diag. split; [apply heap_step_refl|].
    left; split_and!; try done; lia.
  - assert (zlen (ring_contents r) <= 2 ^ 62) by lia.
    set (need := zlen (ring_contents r) + add + 1).
    replace (r_size r + add - (r_size r - zlen (ring_contents r)) + 1) with need by (unfold need; lia).
    assert (u64 need = need) as -> by (apply Z.mod_small; unfold need; lia).
    destruct (Z_le_dec need (2 ^ 63)) as [Hle|Hgt].
    + assert (1 <= need) by (unfold need; lia).
      rewrite ring_pow2_log2_up by lia. set (k := Z.log2_up need).
      assert (0 <= k <= 63 /\ need <= 2 ^ k /\ (need <= 2 ^ 62 -> k <= 62)) as (Hk & Hpk & Hk62).
      { pose proof (Z.log2_up_nonneg need). unfold k; repeat split; try lia.
        - apply Z.log2_up_le_pow2; lia.
        - destruct (Z.eq_dec need 1) as [->|]; [done|]. apply Z.log2_up_spec; lia.
        - intros; apply Z.log2_up_le_pow2; lia. }
      destruct (Z.leb_spec (2 ^ k) (r_size r)); [unfold need in *; lia|].
      eapply wp_mono; [apply (ring_resize_ok r (2 ^ k) k); try done; lia|].
      intros [e r'] h' (Hwf' & Hstep & [(-> & Hcont & Hs)|(-> & -> & Hbig)]);
        (split; [done|]; split; [done|]).
      * left; split_and!; try done. unfold need in *; lia.
      * right; split_and!; try done. intros Hok. specialize (Hbig Hok). unfold need in *; lia.
    + rewrite ring_pow2_overflow by (unfold need in *; lia).
      destruct (Z.leb_spec 0 (r_size r)); [|lia].
      apply wp_ret. split; [done|]. rewrite Z.sub_diag. split; [apply heap_step_refl|].
      right; split_and!; try done. intros _; unfold need in *; lia.
Qed.

Lemma ring_push_ok r d h :
  ring_wf r -> zlen d <= PTRDIFF_MAX ->
  wp (shl_ring_push r d)
     (ring_post r h (ring_contents r ++ d) (fun _ => True)
        (2 ^ 62 <= zlen (ring_contents r) + zlen d)) h.
Proof.
  intros Hwf Hd; pose proof (zlen_nonneg d). unfold shl_ring_push.
  apply wp_bind. eapply wp_mono; [apply ring_grow_ok; [done|lia]|].
  intros [e r1] h1 (Hwf1 & Hst & [(-> & Hc & Hroom)|(-> & -> & Hbig)]).
  - cbn [Z.ltb]. apply wp_ret. rewrite <- Hc in *.
    destruct (ring_fill_ok r1 d Hwf1 Hroom) as (Hwf2 & Hsz & Hcont).
    split; [done|]. split; [|by left].
    pose proof (zlen_nonneg (ring_contents r1)).
    rewrite (ring_owned_pos (ring_fill r1 d)) by (destruct Hwf2 as [-> _]; lia).
    rewrite (ring_owned_pos r1) in Hst by (destruct Hwf1 as [-> _]; lia). done.
  - apply wp_ret. split; [done|]. split; [done|]. right; done.
Qed.

(** *** Reading *)

(** Dropping from the front, in the two regimes. *)
Lemma ring_pull_eq buf size st en n k :
  size = 2 ^ k -> 0 <= k <= 62 -> 0 <= st < size -> 0 <= en < size -> 0 <= n ->
  shl_ring_pull (mkRing buf size st en) n =
    if en <? st then
      if n <? size - st then mkRing buf size (st + n) en
      else mkRing buf size (Z.min (n - (size - st)) en) en
    else mkRing buf size (Z.min (st + n) en) en.
Proof.
  intros Hs Hk Hst Hen Hn. pose proof (ring_wf_pow k Hk).
  assert (forall b s e v, RING_MASK (mkRing b size s e) v = v mod size) as Hmask.
  { intros; by apply (ring_mask_mod (mkRing b size s e) v k). }
  unfold shl_ring_pull; cbn [r_buf r_size r_start r_end]; rewrite !Hmask.
  destruct (Z.ltb_spec en st).
  - destruct (Z.ltb_spec n (size - st)).
    + rewrite Z.sub_diag, Z.mod_small by lia; done.
    + replace (st + (size - st)) with size by lia. rewrite Z.mod_same by lia.
      cbn [r_buf r_size r_start r_end]. rewrite !Hmask, Z.sub_0_r, Z.add_0_l.
      assert (u64 en = en) as -> by (apply Z.mod_small; lia).
      destruct (Z.eqb_spec (n - (size - st)) 0) as [->|]; [f_equal; lia|].
      destruct (Z.ltb_spec (n - (size - st)) en); rewrite Z.mod_small by lia; f_equal; lia.
  - cbn [r_buf r_size r_start r_end].
    assert (u64 (en - st) = en - st) as -> by (apply Z.mod_small; lia). rewrite !Hmask.
    destruct (Z.eqb_spec n 0); [f_equal; lia|].
    destruct (Z.ltb_spec n (en - st)); rewrite Z.mod_small by lia; f_equal; lia.
Qed.

Lemma ring_pull_ok r n :
  ring_wf r -> 0 <= n ->
  ring_wf (shl_ring_pull r n) /\ r_buf (shl_ring_pull r n) = r_buf r /\
  ring_contents (shl_ring_pull r n) = zdrop n (ring_contents r).
Proof.
  intros Hwf Hn; destruct r as [buf size st en]; destruct Hwf as [Hb Hi];
    cbn [r_buf r_size r_start r_end] in *.
  destruct Hi as [(-> & -> & ->)|(Hst & Hen & k & Hk & Hs)].
  { destruct buf; [|unfold zlen in *; simpl in *; lia].
    assert (shl_ring_pull (mkRing [] 0 0 0) n = ring0) as ->.
    { unfold shl_ring_pull; cbn [r_buf r_size r_start r_end Z.ltb Z.compare].
      destruct (n =? 0); [done|]. change (u64 (0 - 0)) with 0.
      by rewrite (proj2 (Z.ltb_ge n 0)) by lia. }
    split_and!; [apply ring0_wf | done |].
    change (ring_contents ring0) with (@nil Z); change (ring_contents (mkRing [] 0 0 0)) with (@nil Z).
    by rewrite zdrop_all by zlia. }
  rewrite (ring_pull_eq _ _ _ _ _ k) by done.
  unfold ring_contents, ring_wf.
  destruct (Z.ltb_spec en st); [destruct (Z.ltb_spec n (size - st))|];
    cbn [r_buf r_size r_start r_end]; (split; [split; [done|]; right; eauto with lia|]);
    (split; [done|]).
  - destruct (Z.leb_spec (st + n) en), (Z.leb_spec st en); try lia.
    rewrite zdrop_app_le, zdrop_zdrop by zlia; done.
  - destruct (Z.leb_spec (Z.min (n - (size - st)) en) en), (Z.leb_spec st en); try lia.
    zlist_eq.
  - destruct (Z.leb_spec (Z.min (st + n) en) en), (Z.leb_spec st en); try lia.
    zlist_eq.
Qed.

Lemma ring_flush_ok r :
  ring_wf r -> ring_wf (shl_ring_flush r) /\ r_buf (shl_ring_flush r) = r_buf r /\
  ring_contents (shl_ring_flush r) = [].
Proof.
  intros [Hb Hi]; split; [|split; [done|]].
  - split; [done|]. destruct Hi as [(? & _ & _)|(? & ? & k & Hk & Hs)]; [left; done|].
    right; cbn [shl_ring_flush r_start r_end r_size]. split; [lia|]; split; [lia|]; eauto.
  - unfold ring_contents; cbn. by rewrite ztake_neg by lia.
Qed.

Ltac iov_eval :=
  repeat match goal with
  | |- context [ztake 1 (?a :: ?l)] => change (ztake 1 (a :: l)) with [a]
  | |- context [ztake 2 [?a; ?b]] => change (ztake 2 [a; b]) with [a; b]
  end.

Lemma ring_peek_ok r n vec :
  ring_wf r -> shl_ring_peek r = (n, vec) ->
  concat (map (iov_bytes r) (ztake n vec)) = ring_contents r /\
  Forall (fun v => 0 <= fst v /\ 0 <= snd v /\ fst v + snd v <= r_size r) vec /\
  Forall (fun v => 0 < snd v) (ztake n vec) /\ 0 <= n <= 2.
Proof.
  intros Hwf Hp; destruct r as [buf size st en]; destruct Hwf as [Hb Hi].
  unfold shl_ring_peek, ring_contents, iov_bytes in *; cbn [r_buf r_size r_start r_end] in *.
  assert (0 <= st <= size /\ 0 <= en <= size /\ (st = size -> size = 0))
    as (? & ? & ?) by (destruct Hi as [|(? & ? & _)]; lia).
  destruct (Z.ltb_spec st en); [|destruct (Z.ltb_spec en st)]; simplify_eq.
  - rewrite (proj2 (Z.leb_le _ _)) by lia. iov_eval.
    cbn [map concat fst snd]. rewrite app_nil_r.
    split; [done|]. repeat constructor; cbn; lia.
  - rewrite (proj2 (Z.leb_gt _ _)) by lia. destruct (Z.eqb_spec en 0) as [->|];
      iov_eval; cbn [map concat fst snd]; (split; [|repeat constructor; cbn; lia]).
    + rewrite (ztake_neg 0), !app_nil_r, ztake_all by zlia; done.
    + rewrite app_nil_r, ztake_all, (zdrop_neg 0) by zlia; done.
  - rewrite (proj2 (Z.leb_le _ _)), (ztake_neg (en - st)) by lia.
    split; [done|]. repeat constructor; cbn; lia.
Qed.

(** The copy is the queue cut to [m] bytes, with a terminator. *)
Definition copy_post (r : shl_ring) (m : Z) (h : heap) (x : option (list Z * Z)) (h' : heap) : Prop :=
  match x with
  | Some (b, l) =>
    b = ztake m (ring_contents r) ++ [0] /\ l = zlen (ztake m (ring_contents r)) /\
    heap_step h h' 1
  | None => heap_step h h' 0 /\ (heap_ok h -> False)
  end.

Lemma copy_one sum d b :
  zlen b = sum + 1 -> 0 <= sum <= zlen d ->
  memcpy 0 (ztake sum d) (memcpy sum [0] b) = ztake sum d ++ [0].
Proof. intros. rewrite memcpy_last, memcpy_app_0 by zlia. done. Qed.

Lemma copy_two sum d0 d1 b :
  zlen b = sum + 1 -> zlen d0 <= sum <= zlen d0 + zlen d1 ->
  memcpy (zlen d0) (ztake (sum - zlen d0) d1) (memcpy 0 d0 (memcpy sum [0] b)) =
  ztake sum (d0 ++ d1) ++ [0].
Proof.
  intros Hb Hs. pose proof (zlen_nonneg d0). rewrite memcpy_last by lia.
  rewrite <- (ztake_zdrop (zlen d0) (ztake sum b)), <- app_assoc.
  rewrite memcpy_app_0, memcpy_app by zlia.
  rewrite (ztake_app sum d0 d1), (ztake_all sum d0), <- app_assoc by lia. done.
Qed.

Lemma ring_copy_ok r m h :
  ring_wf r -> 0 <= m -> wp (shl_ring_copy r (Some m)) (copy_post r m h) h.
Proof.
  intros Hwf Hm. pose proof (ring_wf_size r Hwf) as Hsz. pose proof (ring_contents_lt r Hwf) as Hlt.
  pose proof (zlen_nonneg (ring_contents r)) as Hc0.
  rewrite <- ring_length_contents in Hlt, Hc0 by done.
  destruct r as [buf size st en]; destruct Hwf as [Hb Hi]; cbn [r_buf r_size r_start r_end] in *.
  assert (0 <= st <= size /\ 0 <= en <= size) as [? ?] by (destruct Hi as [|(? & ? & _)]; lia).
  unfold shl_ring_copy, shl_ring_peek, copy_post, shl_ring_length, ring_contents in *;
    cbn [r_buf r_size r_start r_end] in *.
  destruct (Z.ltb_spec st en); [|destruct (Z.ltb_spec en st); [destruct (Z.eqb_spec en 0) as [->|]|]];
    cbn [default id lookup list_lookup snd fst Z.ltb Z.compare Pos.compare Pos.compare_cont] in *;
    match goal with |- context [st <=? ?e] => destruct (Z.leb_spec st e); try lia end.
  all: rewrite ?Z.add_0_r, !if_ltb_min.
  all: apply wp_bind, wp_malloc; [lia| |];
    [intros b h1 Hlb _ Hst; apply wp_ret; cbn beta iota
    |intros h1 Hno Hst; apply wp_ret; split; [done|]; intros Hok; apply Hno; [done|unfold PTRDIFF_MAX; lia]].
  all: unfold iov_bytes; cbn [fst snd r_buf andb]; rewrite ?(zdrop_neg 0), ?(ztake_neg 0), ?app_nil_r by lia.
  - set (d := ztake (en - st) (zdrop st buf)). assert (zlen d = en - st) as Hd by (unfold d; zlia).
    rewrite <- (ztake_min m (en - st) d) by lia.
    replace (Z.min (Z.min m (en - st)) (en - st)) with (Z.min m (en - st)) by lia.
    rewrite copy_one by lia. split_and!; try done; zlia.
  - set (d := zdrop st buf). assert (zlen d = size - st) by (unfold d; zlia).
    rewrite <- (ztake_min m (size - st) d) by lia.
    replace (Z.min (Z.min m (size - st)) (size - st)) with (Z.min m (size - st)) by lia.
    rewrite (ztake_all _ d), copy_one by lia. split_and!; try done; zlia.
  - set (d0 := zdrop st buf). assert (zlen d0 = size - st) by (unfold d0; zlia).
    set (d1 := ztake en buf). assert (zlen d1 = en) by (unfold d1; zlia).
    set (t := size - st + en) in *. rewrite <- (ztake_min m t (d0 ++ d1)) by zlia.
    destruct (Z.ltb_spec 0 (Z.min m t - Z.min (Z.min m t) (size - st))).
    + replace (Z.min (Z.min m t) (size - st)) with (zlen d0) by lia.
      rewrite (Z.min_l _ en), (ztake_all _ d0), (ztake_all _ d0), copy_two by lia.
      split_and!; try done; zlia.
    + replace (Z.min (Z.min m t) (size - st)) with (Z.min m t) by lia.
      rewrite (ztake_all _ d0), copy_one by lia.
      rewrite ztake_app_le by lia. split_and!; try done; zlia.
  - replace (en - st) with 0 by lia. rewrite (ztake_neg 0), (ztake_all m) by zlia.
    replace (Z.min m 0) with 0 by lia. rewrite memcpy_last, (ztake_neg 0) by lia. done.
Qed.

Lemma ring_clear_ok r h :
  wp (shl_ring_clear r) (fun r' h' => r' = ring0 /\ heap_step h h' (- ring_owned r)) h.
Proof. apply wp_bind, wp_free_buf. intros h' Hst; apply wp_ret; done. Qed.

Lemma ring_owned_same r r' : r_buf r' = r_buf r -> ring_owned r' = ring_owned r.
Proof. unfold ring_owned; by intros ->. Qed.

(** *** The ring is a queue *)

#[export] Instance ring_Fifo : Fifo shl_ring := {
  q_push := shl_ring_push;
  q_pull := shl_ring_pull;
  q_copy := shl_ring_copy;
  q_length := shl_ring_length;
  q_flush := shl_ring_flush;
  q_clear := shl_ring_clear;
  q_empty := ring0;
}.

#[export] Instance ring_FifoLaws : FifoLaws shl_ring.
Proof.
  refine {| q_wf := ring_wf; q_contents := ring_contents; q_owned := ring_owned |}.
  - split; [apply ring0_wf | done].
  - apply ring_length_contents.
  - intros q Hq; destruct (ring_flush_ok q Hq) as (? & ? & ?).
    split_and!; try done; by apply ring_owned_same.
  - intros q n Hq Hn; destruct (ring_pull_ok q n Hq Hn) as (? & ? & ?).
    split_and!; try done; by apply ring_owned_same.
  - intros q d h Hq Hd. eapply wp_mono; [by apply ring_push_ok|].
    intros [e q'] h' (? & ? & [(? & ? & _)|?]); split_and!; try done; auto.
  - intros q m h Hq Hm. eapply wp_mono; [by apply ring_copy_ok|]. done.
  - intros q h _. apply ring_clear_ok.
Defined.

(** ** Properties *)

(** C18. [shl_ring_push] either appends the data to the queued bytes and
    returns 0, or returns -ENOMEM and leaves the ring as it was; the indices
    stay inside the block, no block leaks, and with memory available it only
    fails for queues beyond 2^62 bytes. *)
Theorem shl_ring_push_spec r d h :
  ring_wf r -> zlen d <= PTRDIFF_MAX ->
  let '((e, r'), h') := shl_ring_push r d h in
  ring_wf r' /\
  h_live h' - ring_owned r' = h_live h - ring_owned r /\
  ((e = 0 /\ ring_contents r' = ring_contents r ++ d) \/
   (e = - ENOMEM /\ r' = r)) /\
  (heap_ok h -> zlen (ring_contents r) + zlen d < 2 ^ 62 -> e = 0).
Proof.
  intros Hr Hd. pose proof (ring_push_ok r d h Hr Hd) as H; unfold wp in H.
  destruct (shl_ring_push r d h) as [[e r'] h'].
  destruct H as (Hwf & [Hlive _] & [(-> & Hc & _)|(-> & -> & Hbig)]);
    (split; [done|]; split; [lia|]; split; [auto|]).
  - done.
  - intros Hok Hlt. specialize (Hbig Hok). lia.
Qed.

(** [shl_ring_pull] drops the first [n] bytes of the queue (all of them
    when there are fewer), [shl_ring_flush] drops all, and [shl_ring_length]
    is the number of queued bytes. *)
Theorem shl_ring_pull_spec r n :
  ring_wf r -> 0 <= n ->
  ring_wf (shl_ring_pull r n) /\
  ring_contents (shl_ring_pull r n) = zdrop n (ring_contents r) /\
  shl_ring_length (shl_ring_pull r n) = Z.max 0 (shl_ring_length r - n) /\
  ring_contents (shl_ring_flush r) = [].
Proof.
  intros Hr Hn; destruct (ring_pull_ok r n Hr Hn) as (Hwf & _ & Hc).
  split_and!; try done.
  rewrite !ring_length_contents, Hc by done. zlia.
Qed.

(** [shl_ring_peek] describes exactly the queued bytes: the one or two
    iovecs it announces are non-empty, lie inside the block and, in order,
    spell the queue. *)
Theorem shl_ring_peek_spec r :
  ring_wf r ->
  let '(n, vec) := shl_ring_peek r in
  concat (map (iov_bytes r) (ztake n vec)) = ring_contents r /\
  Forall (fun v => 0 <= fst v /\ 0 < snd v /\ fst v + snd v <= zlen (r_buf r)) (ztake n vec) /\
  (n = 0 <-> ring_contents r = []).
Proof.
  intros Hr; destruct (shl_ring_peek r) as [n vec] eqn:Hp.
  destruct (ring_peek_ok r n vec Hr Hp) as (Hc & Hb & Hpos & Hn).
  pose proof (proj1 Hr) as ->. split; [done|]. split.
  - apply Forall_lookup; intros i v Hi.
    pose proof (Forall_lookup_1 _ _ _ _ Hpos Hi). unfold ztake in Hi.
    apply lookup_take_Some in Hi as [Hi _]. pose proof (Forall_lookup_1 _ _ _ _ Hb Hi).
    naive_solver lia.
  - rewrite <- Hc. split; [intros ->; by rewrite ztake_neg|]. intros Hnil.
    destruct (decide (n = 0)); [done|]. exfalso.
    assert (zlen (ring_contents r) = 0) as H0 by (rewrite <- Hc, Hnil; done).
    rewrite <- ring_length_contents in H0 by done. unfold shl_ring_length, shl_ring_peek in *.
    destruct (Z.ltb_spec (r_start r) (r_end r)); [simplify_eq; lia|].
    destruct (Z.ltb_spec (r_end r) (r_start r)); simplify_eq.
    destruct Hr as [_ [|(? & ? & _)]]; lia.
Qed.

(** [shl_ring_copy] with a limit returns a fresh block with the first
    bytes of the queue and a terminating zero, and reports their number. *)
Theorem shl_ring_copy_spec r m h :
  ring_wf r -> 0 <= m ->
  let '(x, h') := shl_ring_copy r (Some m) h in
  match x with
  | Some (b, l) => b = ztake m (ring_contents r) ++ [0] /\
                   l = Z.min m (shl_ring_length r) /\ h_live h' = h_live h + 1
  | None => h_live h' = h_live h /\ ~ heap_ok h
  end.
Proof.
  intros Hr Hm. pose proof (ring_copy_ok r m h Hr Hm) as H; unfold wp in H.
  destruct (shl_ring_copy r (Some m) h) as [[[b l]|] h'].
  - destruct H as (-> & -> & [? _]). rewrite ring_length_contents by done.
    split_and!; try done. zlia.
  - destruct H as ([? _] & ?). split; [lia | auto].
Qed.

(** [ring_pow2] rounds up to the next power of two, and wraps to 0 for the
    values that have none below 2^64. *)
Theorem ring_pow2_spec v :
  1 <= v < 2 ^ 64 ->
  ring_pow2 v = if v <=? 2 ^ 63 then 2 ^ Z.log2_up v else 0.
Proof.
  intros Hv; destruct (Z.leb_spec v (2 ^ 63)).
  - apply ring_pow2_log2_up; lia.
  - apply ring_pow2_overflow; lia.
Qed.

(** ** Witnesses *)

Definition ring_example : shl_ring := mkRing (str "efgXabcd") 8 4 3.

Lemma ring_example_wf : ring_wf ring_example.
Proof. split; [reflexivity|]. right. cbn. split; [lia|]; split; [lia|]. by exists 3. Qed.

Lemma shl_ring_push_spec_witness :
  ring_contents ring_example = str "abcdefg" /\
  ring_contents (snd (fst (shl_ring_push ring_example (str "hijk") heap0))) = str "abcdefghijk".
Proof.
  split; [reflexivity|].
  destruct (shl_ring_push_spec ring_example (str "hijk") heap0 ring_example_wf
              ltac:(vm_compute; discriminate)) as (_ & _ & [[_ H]|[H _]] & _);
    [exact H | vm_compute in H; discriminate].
Defined.

Lemma shl_ring_pull_spec_witness :
  ring_contents (shl_ring_pull ring_example 5) = str "fg".
Proof.
  rewrite (proj1 (proj2 (shl_ring_pull_spec ring_example 5 ring_example_wf ltac:(lia)))).
  reflexivity.
Defined.

Lemma shl_ring_peek_spec_witness :
  concat (map (iov_bytes ring_example) (snd (shl_ring_peek ring_example))) = str "abcdefg".
Proof.
  pose proof (shl_ring_peek_spec ring_example ring_example_wf) as H.
  exact (proj1 H).
Defined.

Lemma shl_ring_copy_spec_witness :
  match fst (shl_ring_copy ring_example (Some 6) heap0) with
  | Some (b, l) => b = str "abcdef" ++ [0]
  | None => False
  end.
Proof.
  exact (proj1 (shl_ring_copy_spec ring_example 6 heap0 ring_example_wf ltac:(lia))).
Defined.

Lemma ring_pow2_spec_witness : ring_pow2 4097 = 8192.
Proof. rewrite (ring_pow2_spec 4097 ltac:(lia)). reflexivity. Defined.
