(* ===== verification/RtspTokenizer.v ===== *)
(** * The RTSP header tokenizer of [src/rtsp_tokenizer.c].

    [tok] holds the local variables of [owfd_rtsp_tokenize]; [tok_step] is the
    body of its loop and [tok_run] the loop. *)

From S2P Require Import Prelude CLib.

(** ** The code *)

(** [t_out] is [t[0 .. dst)].  (The byte [t[0]] is set to 0 before the loop,
    which matters only when nothing is written.) *)
Record tok := mkTok {
  t_out : list Z;
  t_num : Z;
  t_quoted : bool;
  t_escaped : bool;
  t_last : Z;
}.

Definition tok0 : tok := mkTok [] 0 false false 0.

(** [*dst++ = c] *)
Definition t_put (c : Z) (s : tok) : tok :=
  mkTok (t_out s ++ [c]) (t_num s) (t_quoted s) (t_escaped s) (t_last s).

(** [*dst++ = 0; ++num] *)
Definition t_end (s : tok) : tok :=
  mkTok (t_out s ++ [0]) (t_num s + 1) (t_quoted s) (t_escaped s) (t_last s).

(** [--dst]; [None] when [dst] would leave the block. *)
Definition t_back (s : tok) : option tok :=
  match t_out s with
  | [] => None
  | _ => Some (mkTok (removelast (t_out s)) (t_num s) (t_quoted s) (t_escaped s) (t_last s))
  end.

Definition t_set (quoted escaped : bool) (last : Z) (s : tok) : tok :=
  mkTok (t_out s) (t_num s) quoted escaped last.

(** The separators that are tokens of their own: ( ) [ ] { } < > @ , ; : \ / ? = *)
Definition is_special (c : Z) : bool :=
  existsb (Z.eqb c) (str "()[]{}<>@,;:\/?=").

(** The character an escape sequence stands for. *)
Definition unescape (c : Z) : Z :=
  if c =? BSLASH then BSLASH
  else if c =? DQUOTE then DQUOTE
  else if c =? chr "n" then 10
  else if c =? chr "r" then 13
  else if c =? chr "t" then 9
  else if c =? chr "a" then 7
  else if c =? chr "f" then 12
  else if c =? chr "v" then 11
  else if c =? chr "b" then 8
  else if c =? chr "e" then 27
  else c.

Definition tok_step (s : tok) (c : Z) : option tok :=
  let prev := t_last s in
  let s := t_set (t_quoted s) (t_escaped s) c s in
  let finish (s : tok) := if prev =? 0 then s else t_end s in
  if t_quoted s then
    if t_escaped s then
      if (c =? chr "0") || (c =? 0) then option_map (t_set true false c) (t_back s)
      else Some (t_set true false c (t_put (unescape c) s))
    else if c =? DQUOTE then Some (t_set false (t_escaped s) 0 (t_end s))
    else if c =? BSLASH then Some (t_set true true c s)
    else if c =? 0 then Some s
    else Some (t_put c s)
  else
    if c =? DQUOTE then Some (t_set true false 0 (finish s))
    else if c =? 0 then Some s
    else if c =? SP then Some (t_set false (t_escaped s) 0 (finish s))
    else if is_special c then Some (t_set false (t_escaped s) 0 (t_end (t_put c (finish s))))
    else if (schar c <=? 31) || (c =? 127) then Some (t_set false (t_escaped s) 0 (finish s))
    else Some (t_put c s).

Fixpoint tok_run (s : tok) (line : list Z) : option tok :=
  match line with
  | [] => Some s
  | c :: l => match tok_step s c with Some s' => tok_run s' l | None => None end
  end.

(** The terminator of an unfinished last token. *)
Definition tok_finish (s : tok) : tok := if t_last s =? 0 then s else t_end s.

(** [TokOk num buf]: the return value and the bytes written to the block;
    [TokOob]: [dst] moved below the start of the block. *)
Inductive tok_result :=
| TokErr (e : Z)
| TokOob
| TokOk (num : Z) (buf : list Z).

Definition owfd_rtsp_tokenize (line : list Z) : alloc tok_result :=
  let len := strlen line in
  let l := u64 (len * 2 + 1) in
  if l <=? len then ret (TokErr (- ENOMEM))
  else
    let! t := malloc l in
    match t with
    | None => ret (TokErr (- ENOMEM))
    | Some _ =>
      match tok_run tok0 (cstr line) with
      | None => ret TokOob
      | Some s => let s := tok_finish s in ret (TokOk (t_num s) (t_out s))
      end
    end.

(** ** Specification vocabulary *)

(** No backslash is followed by the digit 0. *)
Fixpoint no_zero_escape (line : list Z) : bool :=
  match line with
  | a :: ((b :: _) as r) => negb ((a =? BSLASH) && (b =? chr "0")) && no_zero_escape r
  | _ => true
  end.

(** Source text for a token: a bare word, a quoted string, or a separator. *)
Inductive item :=
| Word (w : list Z)
| Quoted (t : list Z)
| Special (c : Z).

(** Printable ASCII that is neither a separator, a quote, nor a blank. *)
Definition plain (c : Z) : bool :=
  (33 <=? c) && (c <=? 126) && negb (is_special c) && negb (c =? DQUOTE).

Definition escape (c : Z) : list Z :=
  if (c =? DQUOTE) || (c =? BSLASH) then [BSLASH; c] else [c].

Definition render (i : item) : list Z :=
  match i with
  | Word w => w
  | Quoted t => DQUOTE :: concat (map escape t) ++ [DQUOTE]
  | Special c => [c]
  end.

Definition item_text (i : item) : list Z :=
  match i with Word w => w | Quoted t => t | Special c => [c] end.

Definition item_ok (i : item) : Prop :=
  match i with
  | Word w => w <> [] /\ Forall (fun c => plain c = true) w
  | Quoted t => Forall (fun c => 0 < c < 256) t
  | Special c => is_special c = true
  end.

(** Items separated by blanks. *)
Definition render_line (its : list item) : list Z := concat (map (fun i => render i ++ [SP]) its).

(** ** Lemmas *)

Lemma t_back_out s s' : t_back s = Some s' -> t_out s' = removelast (t_out s) /\ t_out s <> [].
Proof. unfold t_back; destruct (t_out s) eqn:E; [done|]. intros; simplify_eq; done. Qed.

Lemma zlen_removelast (l : list Z) : zlen (removelast l) = Z.max 0 (zlen l - 1).
Proof.
  induction l as [|x [|y l] IH]; [done..|].
  change (removelast (x :: y :: l)) with (x :: removelast (y :: l)).
  rewrite !zlen_cons, IH. zlia.
Qed.

Lemma tok_run_app s l k :
  tok_run s (l ++ k) = match tok_run s l with Some s' => tok_run s' k | None => None end.
Proof. revert s; induction l as [|c l IH]; intros s; simpl; [done|]. by destruct (tok_step s c). Qed.

(** Splits the branches of [tok_step] and reduces the resulting states. *)
Ltac tok_cases :=
  unfold tok_step in *; cbn zeta in *; cbn [t_set t_out t_num t_quoted t_escaped t_last] in *;
  repeat match goal with
  | H : context [if ?b then _ else _] |- _ => destruct b eqn:?
  | |- context [if ?b then _ else _] => destruct b eqn:?
  end; simplify_eq; cbn [t_set t_out t_num t_quoted t_escaped t_last t_put t_end] in *.

(** Bytes written plus the terminator an unfinished token still needs. *)
Definition tok_need (s : tok) : Z := zlen (t_out s) + (if t_last s =? 0 then 0 else 1).

Lemma tok_step_need s c s' :
  tok_step s c = Some s' -> tok_need s' <= tok_need s + 2.
Proof.
  intros H. unfold tok_need. destruct s as [out num q e last].
  destruct (t_quoted (mkTok out num q e last) && t_escaped (mkTok out num q e last) &&
            ((c =? chr "0") || (c =? 0))) eqn:Hback.
  - apply andb_true_iff in Hback as [[Hq He]%andb_true_iff Hc]. cbn in Hq, He; subst.
    unfold tok_step in H; cbn [t_set t_quoted t_escaped t_last] in H. rewrite Hc in H.
    destruct (t_back _) as [s1|] eqn:Hb; [|done]. cbn in H; simplify_eq; cbn [t_set t_out t_last].
    apply t_back_out in Hb as [-> _]; cbn [t_set t_out]. rewrite zlen_removelast.
    pose proof (zlen_nonneg out). destruct (c =? 0), (last =? 0); lia.
  - tok_cases; try done; rewrite ?zlen_app, ?zlen_cons, ?zlen_nil;
      repeat match goal with |- context [if ?b then _ else _] => destruct b end; lia.
Qed.

Lemma tok_run_need s l s' :
  tok_run s l = Some s' -> tok_need s' <= tok_need s + 2 * zlen l.
Proof.
  revert s; induction l as [|c l IH]; intros s; simpl; intros H; simplify_eq; [zlia|].
  destruct (tok_step s c) as [s1|] eqn:Hs; [|done].
  apply tok_step_need in Hs. apply IH in H. rewrite zlen_cons. lia.
Qed.

Lemma unescape_nonzero c : (c =? chr "0") || (c =? 0) = false -> unescape c <> 0.
Proof.
  intros H; apply orb_false_iff in H as [_ H%Z.eqb_neq]. unfold unescape.
  repeat match goal with |- context [if ?b then _ else _] => destruct b end; try done.
Qed.

(** What holds after each character of a line without a zero escape. *)
Definition tok_inv (s : tok) : Prop :=
  zeros (t_out s) = t_num s /\
  (t_last s = 0 -> ends_zero (t_out s)) /\
  (t_quoted s = true -> t_escaped s = true -> t_last s = BSLASH).

Create HintDb tokdb.
#[export] Hint Resolve ends_zero_app : tokdb.

Lemma tok_step_inv s c :
  tok_inv s -> c <> 0 -> ~ (t_last s = BSLASH /\ c = chr "0") ->
  exists s', tok_step s c = Some s' /\ tok_inv s' /\ (t_last s' = c \/ t_last s' = 0).
Proof.
  intros (Hz & He & Hq) Hc Hno. destruct s as [out num q e last].
  cbn [t_out t_num t_quoted t_escaped t_last] in *.
  destruct (q && e && ((c =? chr "0") || (c =? 0))) eqn:Hback.
  - exfalso. apply andb_true_iff in Hback as [[-> ->]%andb_true_iff Hx].
    apply orb_true_iff in Hx as [?%Z.eqb_eq|?%Z.eqb_eq]; [|done]. apply Hno; auto.
  - unfold tok_inv. destruct q; [destruct e|]; unfold tok_step; cbn zeta;
      cbn [t_set t_out t_num t_quoted t_escaped t_last].
    + cbn [andb] in Hback. rewrite Hback. eexists; split; [done|].
      cbn [t_set t_put t_out t_num t_quoted t_escaped t_last].
      rewrite zeros_app, zeros_one, (proj2 (Z.eqb_neq _ _)) by (by apply unescape_nonzero).
      repeat split; [lia | done | done | by left].
    + repeat case_match; simplify_eq; try lia;
        (eexists; split; [done|]); cbn [t_set t_put t_end t_out t_num t_quoted t_escaped t_last] in *;
        rewrite ?zeros_app, ?zeros_one, ?(proj2 (Z.eqb_neq c 0)) by done; cbn [Z.eqb];
        repeat split; auto with tokdb; try done; try lia.
    + destruct (Z.eqb_spec last 0) as [->|];
      repeat case_match; simplify_eq; try lia;
        (eexists; split; [done|]); cbn [t_set t_put t_end t_out t_num t_quoted t_escaped t_last] in *;
        rewrite ?zeros_app, ?zeros_one, ?(proj2 (Z.eqb_neq c 0)) by done; cbn [Z.eqb];
        repeat split; auto with tokdb; try done; try lia.
Qed.

Lemma no_zero_escape_0 b r : no_zero_escape (b :: r) = true -> no_zero_escape (0 :: r) = true.
Proof.
  destruct r as [|x r]; [done|]. cbn [no_zero_escape].
  by intros [_ H]%andb_true_iff.
Qed.

Lemma tok_run_inv s l :
  tok_inv s -> Forall (fun c => c <> 0) l -> no_zero_escape (t_last s :: l) = true ->
  exists s', tok_run s l = Some s' /\ tok_inv s'.
Proof.
  revert s; induction l as [|c l IH]; intros s Hs Hl Hno; [by exists s|].
  apply Forall_cons in Hl as [Hc Hl]. cbn [no_zero_escape] in Hno.
  apply andb_true_iff in Hno as [Hadj Hno].
  destruct (tok_step_inv s c Hs Hc) as (s' & Hstep & Hs' & Hlast).
  { intros [Hb ->]. by rewrite Hb in Hadj. }
  cbn [tok_run]. rewrite Hstep. apply IH; [done..|].
  destruct Hlast as [->| ->]; [done | by eapply no_zero_escape_0].
Qed.

(** *** Rendering and tokenizing again *)

(** Between two tokens. *)
Definition tok_idle (out : list Z) (num : Z) (e : bool) : tok := mkTok out num false e 0.

Lemma is_special_spec c :
  is_special c = true ->
  c <> 0 /\ c <> DQUOTE /\ c <> SP.
Proof.
  unfold is_special. intros (x & Hx & ->%Z.eqb_eq)%existsb_exists.
  repeat (destruct Hx as [<-|Hx]; [done|]). done.
Qed.

Lemma plain_spec c :
  plain c = true ->
  c <> 0 /\ c <> DQUOTE /\ c <> SP /\ is_special c = false /\ (schar c <=? 31) = false /\ c <> 127.
Proof.
  unfold plain. rewrite !andb_true_iff, !negb_true_iff, !Z.leb_le, Z.eqb_neq.
  intros (((? & ?) & ?) & ?). unfold schar, to_signed, SP.
  rewrite (Z.mod_small c) by (simpl; lia). split_and!; try lia; try done.
  rewrite (proj2 (Z.ltb_lt c _)) by (simpl; lia). apply Z.leb_gt; lia.
Qed.

Lemma tok_run_word out num e w last :
  Forall (fun c => plain c = true) w -> last <> 0 \/ w <> [] ->
  exists last', last' <> 0 /\ tok_run (mkTok out num false e last) w = Some (mkTok (out ++ w) num false e last').
Proof.
  intros Hw; revert out last; induction Hw as [|c w Hc Hw IH]; intros out last Hne.
  - exists last. rewrite app_nil_r. destruct Hne; done.
  - destruct (plain_spec c Hc) as (H0 & Hd & Hs & Hsp & Hsc & H127).
    cbn [tok_run].
    assert (tok_step (mkTok out num false e last) c = Some (mkTok (out ++ [c]) num false e c)) as ->.
    { unfold tok_step; cbn zeta; cbn [t_set t_quoted].
      rewrite !(proj2 (Z.eqb_neq c _)) by done. by rewrite Hsp, Hsc. }
    destruct (IH (out ++ [c]) c (or_introl H0)) as (last' & Hl & Hrun).
    exists last'; split; [done|]. rewrite Hrun, <- app_assoc; done.
Qed.

Lemma tok_run_quoted out num t last :
  Forall (fun c => 0 < c < 256) t ->
  exists last', tok_run (mkTok out num true false last) (concat (map escape t)) =
                Some (mkTok (out ++ t) num true false last').
Proof.
  intros Ht; revert out last; induction Ht as [|c t Hc Ht IH]; intros out last.
  - exists last. by rewrite app_nil_r.
  - cbn [map concat]. rewrite tok_run_app.
    destruct (IH (out ++ [c]) c) as [last' Hrun]. exists last'.
    assert (tok_run (mkTok out num true false last) (escape c) =
            Some (mkTok (out ++ [c]) num true false c)) as ->;
      [|by rewrite Hrun, <- app_assoc].
    unfold escape. destruct (Z.eqb_spec c DQUOTE) as [->|Hd]; [done|].
    destruct (Z.eqb_spec c BSLASH) as [->|Hb]; [done|]. cbn [orb tok_run].
    unfold tok_step; cbn zeta; cbn [t_set t_quoted t_escaped].
    rewrite !(proj2 (Z.eqb_neq c _)) by (done || lia). done.
Qed.

Lemma tok_run_item out num e i :
  item_ok i ->
  exists e', tok_run (tok_idle out num e) (render i ++ [SP]) =
             Some (tok_idle (out ++ item_text i ++ [0]) (num + 1) e').
Proof.
  intros Hi; destruct i as [w|t|c]; cbn [render item_text item_ok] in *.
  - destruct Hi as [Hne Hw].
    destruct (tok_run_word out num e w 0 Hw (or_intror Hne)) as (last & Hl & Hrun).
    exists e. unfold tok_idle. rewrite tok_run_app, Hrun. cbn [tok_run]. unfold tok_step; cbn zeta.
    cbn [t_set t_quoted t_last t_escaped]. rewrite (proj2 (Z.eqb_neq last 0)) by done.
    cbn; unfold t_end, t_put, t_set; cbn; by rewrite <- ?app_assoc.
  - destruct (tok_run_quoted out num t 0 Hi) as [last Hrun]. exists false.
    unfold tok_idle. rewrite <- !app_comm_cons, <- app_assoc. cbn [tok_run].
    change (tok_step (mkTok out num false e 0) DQUOTE) with (Some (mkTok out num true false 0)).
    cbn iota. rewrite tok_run_app, Hrun. cbn; unfold t_end, t_put, t_set; cbn; by rewrite <- ?app_assoc.
  - destruct (is_special_spec c Hi) as (H0 & Hd & Hs). exists e.
    unfold tok_idle. cbn [app tok_run]. unfold tok_step at 1; cbn zeta; cbn [t_set t_quoted t_last t_escaped].
    rewrite !(proj2 (Z.eqb_neq c _)) by done. rewrite Hi. cbn; unfold t_end, t_put, t_set; cbn; by rewrite <- ?app_assoc.
Qed.

Lemma tok_run_line out num e its :
  Forall item_ok its ->
  exists e', tok_run (tok_idle out num e) (render_line its) =
             Some (tok_idle (out ++ flatten_tokens (map item_text its)) (num + zlen its) e').
Proof.
  intros Hi; revert out num e; induction Hi as [|i its Hi His IH]; intros out num e.
  - exists e. cbn. rewrite app_nil_r, Z.add_0_r. done.
  - unfold render_line, flatten_tokens in *; cbn [map concat]. rewrite tok_run_app.
    destruct (tok_run_item out num e i Hi) as [e1 ->].
    destruct (IH (out ++ item_text i ++ [0]) (num + 1) e1) as [e2 Hrun]. exists e2.
    rewrite Hrun, <- !app_assoc, zlen_cons. do 2 f_equal. lia.
Qed.

Lemma tokenize_run line h :
  heap_ok h -> 2 * strlen line + 1 <= PTRDIFF_MAX ->
  fst (owfd_rtsp_tokenize line h) =
    match tok_run tok0 (cstr line) with
    | None => TokOob
    | Some s => TokOk (t_num (tok_finish s)) (t_out (tok_finish s))
    end.
Proof.
  intros Hh Hl. pose proof (strlen_nonneg line). unfold owfd_rtsp_tokenize.
  assert (u64 (strlen line * 2 + 1) = strlen line * 2 + 1) as ->
    by (apply Z.mod_small; unfold PTRDIFF_MAX in *; lia).
  rewrite (proj2 (Z.leb_gt _ _)) by lia.
  apply (wp_fst _ (fun r => r = _)), wp_bind, wp_malloc; [lia| |].
  - intros b h' _ _ _. destruct (tok_run tok0 (cstr line)); by apply wp_ret.
  - intros h' Hno _. exfalso; apply Hno; [done|lia].
Qed.

(** ** Properties *)

(** At every point of the loop, and with the final terminator, the bytes
    written fit into twice the length of the line: the block of
    [2 * strlen(line) + 1] bytes is never overrun. *)
Theorem owfd_rtsp_tokenize_bounds line i s :
  tok_run tok0 (take i (cstr line)) = Some s ->
  zlen (t_out s) <= 2 * strlen line /\ zlen (t_out (tok_finish s)) <= 2 * strlen line.
Proof.
  intros H%tok_run_need. unfold tok_need in H.
  change (zlen (t_out tok0)) with 0 in H; change (t_last tok0 =? 0) with true in H.
  assert (zlen (take i (cstr line)) <= strlen line)
    by (unfold strlen, zlen; rewrite length_take; lia).
  unfold tok_finish. destruct (t_last s =? 0); [lia|].
  cbn [t_end t_out]; zlia.
Qed.

(** On a line without a backslash-0 sequence the tokenizer succeeds, and
    the block holds exactly as many zero-terminated tokens as it returns. *)
Theorem owfd_rtsp_tokenize_counts line h :
  heap_ok h -> 2 * strlen line + 1 <= PTRDIFF_MAX -> no_zero_escape (cstr line) = true ->
  exists ts, fst (owfd_rtsp_tokenize line h) = TokOk (zlen ts) (flatten_tokens ts) /\
             Forall (Forall (fun c => c <> 0)) ts.
Proof.
  intros Hh Hl Hno. rewrite tokenize_run by done.
  destruct (tok_run_inv tok0 (cstr line)) as (s & -> & Hz & He & _).
  - by repeat split; try left.
  - apply cstr_no_zero.
  - cbn [t_last tok0]. destruct (cstr line) eqn:E; [done|]. rewrite <- E in *.
    rewrite E. cbn [no_zero_escape]. rewrite E in Hno. done.
  - unfold tok_finish. destruct (Z.eqb_spec (t_last s) 0) as [H0|H0].
    + destruct (split_tokens (t_out s) (He H0)) as (ts & Hts & Hn & Hf).
      exists ts. by rewrite Hn, Hz, Hts.
    + destruct (split_tokens (t_out (t_end s))) as (ts & Hts & Hn & Hf); [apply ends_zero_app|].
      exists ts. rewrite Hts, Hn. cbn [t_end t_num t_out]. by rewrite zeros_app, Hz.
Qed.

(** A quoted string that starts with the escape backslash-0 moves the
    write position below the start of the block, whatever follows. *)
Theorem owfd_rtsp_tokenize_underflow rest h :
  heap_ok h -> 2 * strlen (DQUOTE :: BSLASH :: chr "0" :: rest) + 1 <= PTRDIFF_MAX ->
  fst (owfd_rtsp_tokenize (DQUOTE :: BSLASH :: chr "0" :: rest) h) = TokOob.
Proof. intros Hh Hl. by rewrite tokenize_run. Qed.

(** C19. Round trip: bare words, quoted strings (with quotes and backslashes
    escaped) and separators come back as the tokens they render. *)
Theorem owfd_rtsp_tokenize_render its h :
  heap_ok h -> Forall item_ok its -> cstr (render_line its) = render_line its ->
  2 * strlen (render_line its) + 1 <= PTRDIFF_MAX ->
  fst (owfd_rtsp_tokenize (render_line its) h) =
    TokOk (zlen its) (flatten_tokens (map item_text its)).
Proof.
  intros Hh Hi Hc Hl. rewrite tokenize_run, Hc by done.
  destruct (tok_run_line [] 0 false its Hi) as [e He].
  unfold tok_idle in He. change (tok_run tok0 (render_line its)) with
    (tok_run (mkTok [] 0 false false 0) (render_line its)).
  by rewrite He.
Qed.

(** ** Witnesses *)

(** The lines of [test/test_rtsp.c]. *)
Definition tokenize0 (line : list Z) : tok_result := fst (owfd_rtsp_tokenize line heap0).

Example tokenize_test_1 :
  tokenize0 (str "content-args: (50+10)") =
  TokOk 5 (flatten_tokens (map str ["content-args"; ":"; "("; "50+10"; ")"])).
Proof. reflexivity. Qed.

Example tokenize_test_2 :
  tokenize0 (str "asdf" ++ [DQUOTE; DQUOTE] ++ str "asdf") =
  TokOk 3 (flatten_tokens [str "asdf"; []; str "asdf"]).
Proof. reflexivity. Qed.

(** The zero escape after another token removes that token's terminator: two
    tokens are announced, one is stored. *)
Example tokenize_lost_token :
  tokenize0 (str "a " ++ [DQUOTE; BSLASH; chr "0"; DQUOTE]) = TokOk 2 (flatten_tokens [str "a"]).
Proof. reflexivity. Qed.

(** Bytes above 127 are negative [char]s and are dropped as control characters. *)
Example tokenize_utf8 : tokenize0 [99; 195; 169; 100] = TokOk 2 (flatten_tokens [str "c"; str "d"]).
Proof. reflexivity. Qed.

Lemma owfd_rtsp_tokenize_bounds_witness :
  exists s, tok_run tok0 (take 5 (cstr (str "a=(b)c"))) = Some s /\
            zlen (t_out (tok_finish s)) <= 12.
Proof.
  eexists; split; [vm_compute; reflexivity|].
  exact (proj2 (owfd_rtsp_tokenize_bounds (str "a=(b)c") 5 _ ltac:(vm_compute; reflexivity))).
Defined.

Lemma owfd_rtsp_tokenize_counts_witness :
  exists ts, tokenize0 (str "session: id;timeout=30") = TokOk (zlen ts) (flatten_tokens ts) /\
             Forall (Forall (fun c => c <> 0)) ts.
Proof.
  apply (owfd_rtsp_tokenize_counts (str "session: id;timeout=30") heap0);
    [constructor | vm_compute; discriminate | reflexivity].
Defined.

Lemma owfd_rtsp_tokenize_underflow_witness :
  tokenize0 (DQUOTE :: BSLASH :: chr "0" :: [DQUOTE]) = TokOob.
Proof.
  apply (owfd_rtsp_tokenize_underflow [DQUOTE] heap0); [constructor | vm_compute; discriminate].
Defined.

Lemma owfd_rtsp_tokenize_render_witness :
  tokenize0 (render_line [Word (str "a-b"); Special (chr ":"); Quoted [BSLASH; 200; DQUOTE; 32]]) =
  TokOk 3 (flatten_tokens [str "a-b"; [chr ":"]; [BSLASH; 200; DQUOTE; 32]]).
Proof.
  apply (owfd_rtsp_tokenize_render
           [Word (str "a-b"); Special (chr ":"); Quoted [BSLASH; 200; DQUOTE; 32]] heap0);
    [constructor | | reflexivity | vm_compute; discriminate].
  repeat constructor; discriminate.
Defined.
