(* ===== verification/RtspDecoder.v ===== *)
(** * The incremental RTSP decoder of [src/rtsp_decoder.c].

    The decoder is written over the queue interface [Fifo] (instantiated with
    the ring buffer of [Ring.v]).  The callback is represented by the list of
    messages it has been called with ([d_log]). *)

From S2P Require Import Prelude CLib Fifo Ring.

(** ** Data *)

Inductive dstate :=
| STATE_NEW
| STATE_HEADER
| STATE_HEADER_QUOTE
| STATE_HEADER_NL
| STATE_BODY.

(** [struct owfd_rtsp_msg]: the header lines with their lengths, and the body
    block (its terminator included) with its length. *)
Record owfd_rtsp_msg := mkMsg {
  m_header : list (list Z * Z);
  m_body : option (list Z * Z);
}.

Record owfd_rtsp_decoder (Q : Type) := mkDec {
  d_data : Z;
  d_cb : bool;
  d_ring : Q;
  d_state : dstate;
  d_last_chr : Z;
  d_remaining_body : Z;
  d_quoted : bool;
  d_header_size : Z;
  d_msg : owfd_rtsp_msg;
  d_log : list owfd_rtsp_msg;
}.

Arguments mkDec {Q} _ _ _ _ _ _ _ _ _ _.
Arguments d_data {Q} _.
Arguments d_cb {Q} _.
Arguments d_ring {Q} _.
Arguments d_state {Q} _.
Arguments d_last_chr {Q} _.
Arguments d_remaining_body {Q} _.
Arguments d_quoted {Q} _.
Arguments d_header_size {Q} _.
Arguments d_msg {Q} _.
Arguments d_log {Q} _.

(** ** The header line sanitizer *)

Record san := mkSan {
  s_out : list Z;
  s_last : Z;
  s_quoted : bool;
  s_escaped : bool;
}.

(** The loop body of [sanitize_header_line]. *)
Definition sanitize_step (s : san) (c : Z) : san :=
  let prev := s_last s in
  if s_quoted s then
    if (prev =? BSLASH) && negb (s_escaped s) then
      mkSan (s_out s ++ [if c =? 0 then chr "0" else c]) c true true
    else
      if c =? DQUOTE then mkSan (s_out s ++ [c]) c false false
      else if c =? 0 then mkSan (s_out s) c true false
      else mkSan (s_out s ++ [c]) c true false
  else
    if c =? 0 then mkSan (s_out s) c false (s_escaped s)
    else
      let c := if (c =? CR) || (c =? LF) || (c =? TAB) then SP else c in
      if (c =? SP) && (prev =? SP) then mkSan (s_out s) c false (s_escaped s)
      else if c =? DQUOTE then mkSan (s_out s ++ [c]) c true false
      else mkSan (s_out s ++ [c]) c false (s_escaped s).

Definition san0 : san := mkSan [] 0 false false.

(** [while (dst > line && *(dst - 1) == ' ') *--dst = 0] *)
Fixpoint drop_spaces (rl : list Z) : list Z :=
  match rl with
  | c :: rl' => if c =? SP then drop_spaces rl' else rl
  | [] => []
  end.

Definition trim_right (l : list Z) : list Z := rev (drop_spaces (rev l)).

(** The string left in [line]; its length is the return value. *)
Definition sanitize_header_line (line : list Z) : list Z :=
  trim_right (s_out (fold_left sanitize_step line san0)).

Definition CONTENT_LENGTH : list Z := str "content-length:".

(** The return value and the new [remaining_body]. *)
Definition parse_header_line (remaining : Z) (line : list Z) : Z * Z :=
  if strncasecmp line CONTENT_LENGTH 15 =? 0 then
    let '(l, e) := strtoul (drop 15 line) in
    if (char_at line 15 =? 0) || negb (hd 0 e =? 0) then (- EINVAL, remaining)
    else if negb (remaining =? 0) && negb (remaining =? l) then (- EINVAL, remaining)
    else (0, l)
  else (0, remaining).

(** ** The decoder *)

Section decoder.
Context {Q : Type} `{Fifo Q}.
Implicit Types (dec : owfd_rtsp_decoder Q).

(** The user's pointer. *)
Definition owfd_rtsp_decoder_set_data (data : Z) dec :=
  mkDec data (d_cb dec) (d_ring dec) (d_state dec) (d_last_chr dec) (d_remaining_body dec) (d_quoted dec)
    (d_header_size dec) (d_msg dec) (d_log dec).

Definition owfd_rtsp_decoder_get_data dec : Z := d_data dec.

Definition set_ring (q : Q) dec :=
  mkDec (d_data dec) (d_cb dec) q (d_state dec) (d_last_chr dec) (d_remaining_body dec) (d_quoted dec)
    (d_header_size dec) (d_msg dec) (d_log dec).

Definition set_state (s : dstate) dec :=
  mkDec (d_data dec) (d_cb dec) (d_ring dec) s (d_last_chr dec) (d_remaining_body dec) (d_quoted dec)
    (d_header_size dec) (d_msg dec) (d_log dec).

Definition set_last_chr (c : Z) dec :=
  mkDec (d_data dec) (d_cb dec) (d_ring dec) (d_state dec) c (d_remaining_body dec) (d_quoted dec)
    (d_header_size dec) (d_msg dec) (d_log dec).

Definition set_remaining_body (n : Z) dec :=
  mkDec (d_data dec) (d_cb dec) (d_ring dec) (d_state dec) (d_last_chr dec) n (d_quoted dec)
    (d_header_size dec) (d_msg dec) (d_log dec).

Definition set_quoted (b : bool) dec :=
  mkDec (d_data dec) (d_cb dec) (d_ring dec) (d_state dec) (d_last_chr dec) (d_remaining_body dec) b
    (d_header_size dec) (d_msg dec) (d_log dec).

Definition set_header_size (n : Z) dec :=
  mkDec (d_data dec) (d_cb dec) (d_ring dec) (d_state dec) (d_last_chr dec) (d_remaining_body dec) (d_quoted dec)
    n (d_msg dec) (d_log dec).

Definition set_msg (m : owfd_rtsp_msg) dec :=
  mkDec (d_data dec) (d_cb dec) (d_ring dec) (d_state dec) (d_last_chr dec) (d_remaining_body dec) (d_quoted dec)
    (d_header_size dec) m (d_log dec).

Definition add_log (m : owfd_rtsp_msg) dec :=
  mkDec (d_data dec) (d_cb dec) (d_ring dec) (d_state dec) (d_last_chr dec) (d_remaining_body dec) (d_quoted dec)
    (d_header_size dec) (d_msg dec) (d_log dec ++ [m]).

Definition header_num dec : Z := zlen (m_header (d_msg dec)).

Definition sizeof_decoder : Z := 120.

(** The decoder, or [-ENOMEM]. *)
Definition owfd_rtsp_decoder_new (cb : bool) : alloc (Z + owfd_rtsp_decoder Q) :=
  let! ok := grant sizeof_decoder in
  if negb ok then ret (inl (- ENOMEM))
  else
    let! ok := grant (8 * 8) in
    if negb ok then free_blocks 1 ;;! ret (inl (- ENOMEM))
    else
      let! ok := grant (8 * 8) in
      if negb ok then free_blocks 2 ;;! ret (inl (- ENOMEM))
      else ret (inr (mkDec 0 cb q_empty STATE_NEW 0 0 false 8 (mkMsg [] None) [])).

Definition body_blocks (m : owfd_rtsp_msg) : Z :=
  match m_body m with Some _ => 1 | None => 0 end.

(** Frees the header lines, both arrays, the body, the ring and the object. *)
Definition owfd_rtsp_decoder_free dec : alloc unit :=
  free_blocks (header_num dec) ;;!
  free_blocks 2 ;;!
  free_blocks (body_blocks (d_msg dec)) ;;!
  let! _ := q_clear (d_ring dec) in
  free_blocks 1.

Definition owfd_rtsp_decoder_flush dec :=
  set_remaining_body 0 (set_last_chr 0 (set_state STATE_NEW (set_ring (q_flush (d_ring dec)) dec))).

Definition msg_done dec : alloc (owfd_rtsp_decoder Q) :=
  let dec1 := if d_cb dec then add_log (d_msg dec) dec else dec in
  free_blocks (header_num dec) ;;!
  free_blocks (body_blocks (d_msg dec)) ;;!
  ret (set_msg (mkMsg [] None) dec1).

Definition push_header_line dec (line : list Z) (len : Z) : alloc (Z * owfd_rtsp_decoder Q) :=
  let append dec :=
    set_msg (mkMsg (m_header (d_msg dec) ++ [(line, len)]) (m_body (d_msg dec))) dec in
  if d_header_size dec =? header_num dec + 2 then
    let n := u64 (d_header_size dec * 2) in
    if n <? d_header_size dec then ret (- ENOMEM, dec)
    else
      let! ok := realloc (u64 (8 * n)) in
      if negb ok then ret (- ENOMEM, dec)
      else
        let! ok := realloc (u64 (8 * n)) in
        if negb ok then ret (- ENOMEM, dec)
        else ret (0, append (set_header_size n dec))
  else ret (0, append dec).

Definition finish_header_line dec (rlen : Z) : alloc (Z * owfd_rtsp_decoder Q) :=
  let! x := q_copy (d_ring dec) (Some rlen) in
  match x with
  | None => ret (- ENOMEM, dec)
  | Some (b, l) =>
    let dec := set_ring (q_pull (d_ring dec) rlen) dec in
    let line := sanitize_header_line (ztake l b) in
    let '(r, rem) := parse_header_line (d_remaining_body dec) line in
    let dec := set_remaining_body rem dec in
    if r <? 0 then free_blocks 1 ;;! ret (r, dec)
    else
      let! (r, dec) := push_header_line dec line (zlen line) in
      if r <? 0 then free_blocks 1 ;;! ret (r, dec) else ret (0, dec)
  end.

Definition feed_char_new dec (ch rlen : Z) : alloc (Z * owfd_rtsp_decoder Q) :=
  if (ch =? CR) || (ch =? LF) || (ch =? TAB) || (ch =? SP) then ret (rlen + 1, dec)
  else
    let dec := set_remaining_body 0 (set_state STATE_HEADER dec) in
    ret (1, set_ring (q_pull (d_ring dec) rlen) dec).

(** The last line is complete and the new character does not continue it. *)
Definition is_nl (c : Z) : bool := (c =? CR) || (c =? LF).

Definition feed_char_header dec (ch rlen : Z) : alloc (Z * owfd_rtsp_decoder Q) :=
  if ch =? CR then
    if is_nl (d_last_chr dec) then
      let dec := set_state STATE_HEADER_NL dec in
      let! (r, dec) := finish_header_line dec rlen in
      if r <? 0 then ret (r, dec)
      else
        let! dec := if d_remaining_body dec =? 0 then msg_done dec else ret dec in
        ret (0 + 1, dec)
    else ret (rlen + 1, dec)
  else if ch =? LF then
    if d_last_chr dec =? LF then
      let! (r, dec) := finish_header_line dec rlen in
      if r <? 0 then ret (r, dec)
      else
        let dec := set_state STATE_BODY dec in
        let! dec :=
          if d_remaining_body dec =? 0 then msg_done (set_state STATE_NEW dec) else ret dec in
        ret (0, set_ring (q_pull (d_ring dec) 1) dec)
    else if d_last_chr dec =? CR then ret (rlen + 1, dec)
    else ret (rlen + 1, dec)
  else if ch =? DQUOTE then
    let nl := is_nl (d_last_chr dec) in
    let! (r, dec) := if nl then finish_header_line dec rlen else ret (0, dec) in
    let rlen' := if nl then 0 else rlen in
    if r <? 0 then ret (r, dec)
    else ret (rlen' + 1, set_quoted false (set_state STATE_HEADER_QUOTE dec))
  else if (ch =? TAB) || (ch =? SP) then ret (rlen + 1, dec)
  else
    let nl := is_nl (d_last_chr dec) in
    let! (r, dec) := if nl then finish_header_line dec rlen else ret (0, dec) in
    let rlen' := if nl then 0 else rlen in
    if r <? 0 then ret (r, dec) else ret (rlen' + 1, dec).

Definition feed_char_header_quote dec (ch rlen : Z) : alloc (Z * owfd_rtsp_decoder Q) :=
  if (d_last_chr dec =? BSLASH) && negb (d_quoted dec) then
    ret (rlen + 1, set_quoted true dec)
  else
    let dec := set_quoted false dec in
    if ch =? DQUOTE then ret (rlen + 1, set_state STATE_HEADER dec)
    else ret (rlen + 1, dec).

Definition feed_char_body dec (ch rlen : Z) : alloc (Z * owfd_rtsp_decoder Q) :=
  if d_remaining_body dec =? 0 then feed_char_new (set_state STATE_NEW dec) ch rlen
  else
    let rlen := rlen + 1 in
    let dec := set_remaining_body (d_remaining_body dec - 1) dec in
    if d_remaining_body dec =? 0 then
      let! x := q_copy (d_ring dec) (Some rlen) in
      match x with
      | None => ret (- ENOMEM, dec)
      | Some (b, l) =>
        let dec := set_msg (mkMsg (m_header (d_msg dec)) (Some (b, l))) dec in
        let! dec := msg_done dec in
        let dec := set_state STATE_NEW dec in
        ret (0, set_ring (q_pull (d_ring dec) rlen) dec)
      end
    else ret (rlen, dec).

Definition feed_char_header_nl dec (ch rlen : Z) : alloc (Z * owfd_rtsp_decoder Q) :=
  if ch =? LF then
    let dec := set_ring (q_pull (d_ring dec) (rlen + 1)) dec in
    let dec := set_state STATE_BODY dec in
    ret (0, if d_remaining_body dec =? 0 then set_state STATE_NEW dec else dec)
  else
    let dec := set_ring (q_pull (d_ring dec) rlen) dec in
    feed_char_body (set_state STATE_BODY dec) ch 0.

Definition feed_char dec (ch rlen : Z) : alloc (Z * owfd_rtsp_decoder Q) :=
  match d_state dec with
  | STATE_NEW => feed_char_new dec ch rlen
  | STATE_HEADER => feed_char_header dec ch rlen
  | STATE_HEADER_QUOTE => feed_char_header_quote dec ch rlen
  | STATE_HEADER_NL => feed_char_header_nl dec ch rlen
  | STATE_BODY => feed_char_body dec ch rlen
  end.

(** The loop over the input. *)
Fixpoint feed_loop dec (buf : list Z) (rlen : Z) : alloc (Z * owfd_rtsp_decoder Q) :=
  match buf with
  | [] => ret (0, dec)
  | c :: buf' =>
    let! (l, dec) := feed_char dec c rlen in
    if l <? 0 then ret (l, dec) else feed_loop (set_last_chr c dec) buf' l
  end.

Definition owfd_rtsp_decoder_feed dec (buf : list Z) : alloc (Z * owfd_rtsp_decoder Q) :=
  let rlen := q_length (d_ring dec) in
  let! (r, q) := q_push (d_ring dec) buf in
  let dec := set_ring q dec in
  if r <? 0 then ret (- ENOMEM, dec)
  else
    let! (r, dec) := feed_loop dec buf rlen in
    if r <? 0 then ret (r, owfd_rtsp_decoder_flush dec) else ret (r, dec).

End decoder.

(** ** Abstract decoder

    The contract of the decoder, without queue, arrays or allocation: it
    consumes one byte at a time, keeps the bytes of the current line or body
    ([a_pend]) and the finished header lines, and logs complete messages. *)

Record adec := mkA {
  a_cb : bool;
  a_state : dstate;
  a_last : Z;
  a_rem : Z;
  a_quoted : bool;
  a_pend : list Z;
  a_header : list (list Z);
  a_log : list owfd_rtsp_msg;
}.

Definition with_len (l : list Z) : list Z * Z := (l, zlen l).

(** Report a message and forget it. *)
Definition a_done (body : option (list Z * Z)) (a : adec) : adec :=
  mkA (a_cb a) (a_state a) (a_last a) (a_rem a) (a_quoted a) (a_pend a) []
    (if a_cb a then a_log a ++ [mkMsg (map with_len (a_header a)) body] else a_log a).

Definition a_set (s : dstate) (rem : Z) (quoted : bool) (pend : list Z) (a : adec) : adec :=
  mkA (a_cb a) s (a_last a) rem quoted pend (a_header a) (a_log a).

(** Finish the pending line; [None] when its content length is refused. *)
Definition a_finish (a : adec) : option adec :=
  let line := sanitize_header_line (a_pend a) in
  let '(r, rem) := parse_header_line (a_rem a) line in
  if r <? 0 then None
  else Some (mkA (a_cb a) (a_state a) (a_last a) rem (a_quoted a) [] (a_header a ++ [line]) (a_log a)).

Definition a_push (c : Z) (a : adec) : adec :=
  a_set (a_state a) (a_rem a) (a_quoted a) (a_pend a ++ [c]) a.

Definition a_state_is (s : dstate) (a : adec) : adec :=
  a_set s (a_rem a) (a_quoted a) (a_pend a) a.

Definition is_lws (c : Z) : bool := (c =? CR) || (c =? LF) || (c =? TAB) || (c =? SP).

Definition a_new (a : adec) (c : Z) : adec :=
  if is_lws c then a_push c a else a_set STATE_HEADER 0 (a_quoted a) [c] a.

Definition a_body (a : adec) (c : Z) : adec :=
  if a_rem a =? 0 then a_new (a_state_is STATE_NEW a) c
  else if a_rem a =? 1 then
    a_set STATE_NEW 0 (a_quoted a) []
      (a_done (Some (a_pend a ++ [c] ++ [0], zlen (a_pend a) + 1)) a)
  else a_set (a_state a) (a_rem a - 1) (a_quoted a) (a_pend a ++ [c]) a.

Definition a_char (a : adec) (c : Z) : option adec :=
  match a_state a with
  | STATE_NEW => Some (a_new a c)
  | STATE_HEADER =>
    if c =? CR then
      if is_nl (a_last a) then
        option_map (fun a => a_push c (if a_rem a =? 0 then a_done None a else a))
          (a_finish (a_state_is STATE_HEADER_NL a))
      else Some (a_push c a)
    else if c =? LF then
      if a_last a =? LF then
        option_map (fun a =>
            if a_rem a =? 0 then a_done None (a_state_is STATE_NEW a) else a_state_is STATE_BODY a)
          (a_finish a)
      else Some (a_push c a)
    else if c =? DQUOTE then
      option_map (fun a => a_set STATE_HEADER_QUOTE (a_rem a) false (a_pend a ++ [c]) a)
        (if is_nl (a_last a) then a_finish a else Some a)
    else if (c =? TAB) || (c =? SP) then Some (a_push c a)
    else option_map (a_push c) (if is_nl (a_last a) then a_finish a else Some a)
  | STATE_HEADER_QUOTE =>
    if (a_last a =? BSLASH) && negb (a_quoted a) then
      Some (a_set STATE_HEADER_QUOTE (a_rem a) true (a_pend a ++ [c]) a)
    else Some (a_set (if c =? DQUOTE then STATE_HEADER else STATE_HEADER_QUOTE) (a_rem a) false
                 (a_pend a ++ [c]) a)
  | STATE_HEADER_NL =>
    if c =? LF then
      Some (a_set (if a_rem a =? 0 then STATE_NEW else STATE_BODY) (a_rem a) (a_quoted a) [] a)
    else Some (a_body (a_set STATE_BODY (a_rem a) (a_quoted a) [] a) c)
  | STATE_BODY => Some (a_body a c)
  end.

Definition a_set_last (c : Z) (a : adec) : adec :=
  mkA (a_cb a) (a_state a) c (a_rem a) (a_quoted a) (a_pend a) (a_header a) (a_log a).

(** The recovery after an error: the pending bytes and the position in the
    message are dropped, the header lines collected so far are kept. *)
Definition a_flush (a : adec) : adec :=
  mkA (a_cb a) STATE_NEW 0 0 (a_quoted a) [] (a_header a) (a_log a).

Fixpoint a_feed (a : adec) (buf : list Z) : Z * adec :=
  match buf with
  | [] => (0, a)
  | c :: buf' =>
    match a_char a c with
    | None => (- EINVAL, a_flush a)
    | Some a' => a_feed (a_set_last c a') buf'
    end
  end.

(** ** Simulation *)

Section simulation.
Context {Q : Type} `{FifoLaws Q}.
Implicit Types (d : owfd_rtsp_decoder Q) (a : adec).

(** Heap blocks behind a decoder (the object itself and its arrays apart). *)
Definition dec_owned d : Z :=
  q_owned (d_ring d) + header_num d + body_blocks (d_msg d).

(** What survives an error: everything but the position in the message. *)
Definition sim_core d a : Prop :=
  d_cb d = a_cb a /\ q_wf (d_ring d) /\ d_quoted d = a_quoted a /\
  d_msg d = mkMsg (map with_len (a_header a)) None /\ d_log d = a_log a /\
  (* both arrays have room for the lines and the final NULL *)
  header_num d + 2 <= d_header_size d <= 2 ^ 60.

(** The queue holds the pending bytes and the input not yet looked at. *)
Definition sim d a (rest : list Z) : Prop :=
  sim_core d a /\ q_contents (d_ring d) = a_pend a ++ rest /\
  d_state d = a_state a /\ d_last_chr d = a_last a /\ d_remaining_body d = a_rem a.

(** Splits a simulation goal into its fields. *)
Ltac sim_solve :=
  unfold sim, sim_core, header_num in *; cbn in *; split_and!; try done; try lia.

(** Outcome of a step whose abstract counterpart is [o]. *)
Definition step_post (o : option adec) d a (rest : list Z) (len : adec -> Z) (h : heap)
    (x : Z * owfd_rtsp_decoder Q) (h' : heap) : Prop :=
  let '(r, d') := x in
  heap_step h h' (dec_owned d' - dec_owned d) /\
  ((exists a', o = Some a' /\ r = len a' /\ sim d' a' rest) \/
   (o = None /\ r = - EINVAL /\ sim_core d' a) \/
   (r = - ENOMEM /\ sim_core d' a /\ ~ heap_ok h)).

Lemma header_num_sim d a : sim_core d a -> header_num d = zlen (a_header a).
Proof. intros (_ & _ & _ & Hm & _); unfold header_num; rewrite Hm; cbn; apply zlen_map. Qed.

Lemma wp_msg_done d body h (R : owfd_rtsp_decoder Q -> heap -> Prop) :
  m_body (d_msg d) = body ->
  (forall h', heap_step h h' (- (header_num d + body_blocks (d_msg d))) ->
     R (set_msg (mkMsg [] None) (if d_cb d then add_log (d_msg d) d else d)) h') ->
  wp (msg_done d) R h.
Proof.
  intros _ HR. unfold msg_done. apply wp_bind, wp_free. intros h1 H1.
  apply wp_bind, wp_free. intros h2 H2. apply wp_ret, HR.
  eapply heap_step_trans; [done..|]. lia.
Qed.

Lemma zlen_with_len l : zlen (map with_len l) = zlen l.
Proof. apply zlen_map. Qed.

(** Appending a line, within the bound on the number of lines. *)
Lemma wp_push_header_line d a line h (R : Z * owfd_rtsp_decoder Q -> heap -> Prop) :
  sim_core d a -> zlen (a_header a) < 2 ^ 58 ->
  (forall d' h', heap_step h h' 0 ->
     sim_core d' (mkA (a_cb a) (a_state a) (a_last a) (a_rem a) (a_quoted a) (a_pend a)
                    (a_header a ++ [line]) (a_log a)) ->
     d_ring d' = d_ring d -> d_state d' = d_state d -> d_last_chr d' = d_last_chr d ->
     d_remaining_body d' = d_remaining_body d -> R (0, d') h') ->
  (forall h', heap_step h h' 0 -> ~ heap_ok h -> R (- ENOMEM, d) h') ->
  wp (push_header_line d line (zlen line)) R h.
Proof.
  intros Hs Hbig Hok Hno. pose proof (header_num_sim d a Hs) as Hnum.
  destruct Hs as (Hcb & Hwf & Hq & Hm & Hl & Hsz). pose proof (zlen_nonneg (a_header a)).
  unfold push_header_line. rewrite Hm; cbn [m_header m_body].
  assert (forall n h', heap_step h h' 0 -> header_num d + 3 <= n <= 2 ^ 60 ->
     R (0, set_msg (mkMsg (map with_len (a_header a) ++ [(line, zlen line)]) None)
             (set_header_size n d)) h') as Hgo.
  { intros n h' Hst Hn. apply Hok; try done.
    unfold sim_core, header_num; cbn. rewrite map_app, zlen_app, zlen_map.
    rewrite Hnum in Hn. split_and!; try done; cbn; zlia. }
  destruct (Z.eqb_spec (d_header_size d) (header_num d + 2)) as [He|Hne].
  - assert (u64 (d_header_size d * 2) = d_header_size d * 2) as -> by (apply Z.mod_small; lia).
    rewrite (proj2 (Z.ltb_ge _ _)) by lia.
    assert (u64 (8 * (d_header_size d * 2)) = 8 * (d_header_size d * 2)) as -> by (apply Z.mod_small; lia).
    assert (8 * (d_header_size d * 2) <= PTRDIFF_MAX) by (unfold PTRDIFF_MAX; lia).
    apply wp_bind, wp_realloc; intros h1 Hg1 Hst1; cbn [negb].
    + apply wp_bind, wp_realloc; intros h2 Hg2 Hst2; cbn [negb]; apply wp_ret.
      * cbn [set_header_size set_msg d_msg]. rewrite Hm. cbn [m_header m_body].
        apply Hgo; [|lia]. eapply heap_step_trans; [done..|lia].
      * apply Hno; [eapply heap_step_trans; [done..|lia]|]. destruct Hst1; tauto.
    + apply wp_ret. apply Hno; [done|tauto].
  - apply wp_ret. specialize (Hgo (d_header_size d) h (heap_step_refl h)).
    destruct d; apply Hgo; cbn in *; lia.
Qed.

Definition plen (a : adec) : Z := zlen (a_pend a).

Lemma sim_rest_app d a c rest : sim d a (c :: rest) -> q_contents (d_ring d) = (a_pend a ++ [c]) ++ rest.
Proof. intros (_ & Hc & _). by rewrite <- app_assoc. Qed.

Lemma wp_finish d a rest h :
  sim d a rest -> zlen (a_header a) < 2 ^ 58 ->
  wp (finish_header_line d (plen a)) (step_post (a_finish a) d a rest (fun _ => 0) h) h.
Proof.
  intros Hs Hbig. destruct Hs as (Hcore & Hc & Hst & Hlast & Hrem). unfold plen.
  pose proof Hcore as (Hcb & Hwf & Hq & Hm & Hl & Hsz).
  pose proof (zlen_nonneg (a_pend a)).
  unfold finish_header_line, a_finish. apply wp_bind.
  eapply wp_mono; [apply q_copy_law; [done|lia]|].
  intros [[b l]|] h1; cbn beta iota zeta.
  - intros (-> & -> & Hst1). rewrite Hc, !ztake_app_eq by done.
    destruct (q_pull_law (d_ring d) (zlen (a_pend a))) as (Hwf' & Hc' & Ho'); [done|lia|].
    rewrite Hc, zdrop_app_eq in Hc' by done.
    cbn [set_ring d_remaining_body]. rewrite Hrem.
    set (line := sanitize_header_line (a_pend a)).
    destruct (parse_header_line (a_rem a) line) as [r rem] eqn:Hp.
    assert (r = 0 \/ r = - EINVAL) as Hr.
    { unfold parse_header_line in Hp. destruct (strtoul _). repeat case_match; simplify_eq; auto. }
    set (d1 := set_remaining_body rem (set_ring (q_pull (d_ring d) (zlen (a_pend a))) d)).
    assert (sim_core d1 a) as Hcore1 by sim_solve.
    assert (dec_owned d1 = dec_owned d) as Hown1 by (unfold dec_owned; cbn; by rewrite Ho').
    destruct Hr as [-> | ->].
    + cbn [Z.ltb Z.compare].
      apply wp_bind, (wp_push_header_line d1 a line); [done..| |].
      * intros d2 h2 Hst2 Hcore2 Hr2 Hs2 Hl2 Hrem2. cbn beta iota. cbn [Z.ltb Z.compare]. apply wp_ret.
        split.
        -- eapply heap_step_trans; [done..|]. rewrite <- Hown1. unfold dec_owned.
           rewrite (header_num_sim _ _ Hcore2), (header_num_sim _ _ Hcore1), Hr2; cbn [a_header].
           destruct Hcore2 as (_ & _ & _ & -> & _), Hcore1 as (_ & _ & _ & -> & _).
           cbn [body_blocks m_body]. zlia.
        -- left. eexists; split; [done|]; split; [done|]. unfold sim; cbn.
           rewrite Hr2, Hs2, Hl2, Hrem2. by split_and!.
      * intros h2 Hst2 Hno. cbn beta iota. change (- ENOMEM <? 0) with true. cbn iota.
        apply wp_bind, wp_free. intros h3 Hst3. apply wp_ret. split.
        -- eapply heap_step_trans; [done| eapply heap_step_trans; [done..|]|]; [done|]. rewrite Hown1; lia.
        -- right; right. split_and!; try done. destruct Hst1; tauto.
    + change (- EINVAL <? 0) with true. cbn iota.
      apply wp_bind, wp_free. intros h2 Hst2. apply wp_ret. split.
      * eapply heap_step_trans; [done..|]. rewrite Hown1; lia.
      * right; left. by split_and!.
  - intros [Hst1 Hno]. apply wp_ret. split; [by rewrite Z.sub_diag|].
    right; right. by split_and!.
Qed.

(** [step_post] for the same outcome seen from a state with the same blocks
    and the same lines. *)
Lemma step_post_weaken o d1 a1 d a rest len h x h' :
  dec_owned d1 = dec_owned d -> (forall d', sim_core d' a1 -> sim_core d' a) ->
  step_post o d1 a1 rest len h x h' -> step_post o d a rest len h x h'.
Proof.
  intros Ho Hc; destruct x as [r d']; unfold step_post; rewrite Ho.
  intros [Hst [(a' & ? & ? & ?)|[(? & ? & ?)|(? & ? & ?)]]]; split; eauto 10.
Qed.

(** A step that allocates nothing. *)
Lemma step_pure a' d' d a rest h :
  dec_owned d' = dec_owned d -> sim d' a' rest ->
  wp (ret (plen a', d')) (step_post (Some a') d a rest plen h) h.
Proof.
  intros Ho Hs. apply wp_ret. split; [rewrite Ho, Z.sub_diag; apply heap_step_refl|]. left; eauto.
Qed.

Lemma plen_push c a : plen (a_push c a) = plen a + 1.
Proof. unfold plen; cbn; zlia. Qed.

Lemma sim_push d a c rest : sim d a (c :: rest) -> sim d (a_push c a) rest.
Proof.
  intros Hs. pose proof (sim_rest_app _ _ _ _ Hs). destruct Hs as (Hc & _ & ?). by split.
Qed.

(** Dropping a prefix of the queue. *)
Lemma sim_pull d a a' n rest :
  sim_core d a -> 0 <= n -> zdrop n (q_contents (d_ring d)) = a_pend a' ++ rest ->
  sim_core d a' -> d_state d = a_state a' -> d_last_chr d = a_last a' ->
  d_remaining_body d = a_rem a' ->
  sim (set_ring (q_pull (d_ring d) n) d) a' rest /\
  dec_owned (set_ring (q_pull (d_ring d) n) d) = dec_owned d.
Proof.
  intros Hc Hn Hd (Hcb & Hwf & Hq & Hm & Hl & Hsz) ? ? ?.
  destruct (q_pull_law (d_ring d) n Hwf Hn) as (? & Hc' & Ho).
  unfold dec_owned; cbn. rewrite Ho. split; [|done]. unfold sim; cbn; rewrite Hc'. sim_solve.
Qed.

Lemma wp_feed_new d a c rest h :
  sim d a (c :: rest) ->
  wp (feed_char_new d c (plen a)) (step_post (Some (a_new a c)) d a rest plen h) h.
Proof.
  intros Hs. unfold feed_char_new, a_new, is_lws.
  destruct ((c =? CR) || (c =? LF) || (c =? TAB) || (c =? SP)).
  - rewrite <- (plen_push c). apply step_pure; [done|]. by apply sim_push.
  - pose proof (zlen_nonneg (a_pend a)). destruct Hs as (Hcore & Hc & _ & Hlast & _).
    change 1 with (plen (a_set STATE_HEADER 0 (a_quoted a) [c] a)).
    set (d1 := set_remaining_body 0 (set_state STATE_HEADER d)).
    destruct (sim_pull d1 a (a_set STATE_HEADER 0 (a_quoted a) [c] a) (plen a) rest) as [? ?];
      try done. { unfold d1; cbn. by rewrite Hc, zdrop_app_eq. }
    by apply step_pure.
Qed.

Lemma wp_feed_body d a c rest h :
  sim d a (c :: rest) ->
  wp (feed_char_body d c (plen a)) (step_post (Some (a_body a c)) d a rest plen h) h.
Proof.
  intros Hs. pose proof (sim_rest_app _ _ _ _ Hs) as Hc2.
  pose proof Hs as (Hcore & Hc & Hst & Hlast & Hrem).
  pose proof Hcore as (Hcb & Hwf & Hq & Hm & Hl & Hsz).
  pose proof (zlen_nonneg (a_pend a)). unfold feed_char_body, a_body. rewrite Hrem.
  destruct (Z.eqb_spec (a_rem a) 0) as [Hz|Hz].
  - change (plen a) with (plen (a_state_is STATE_NEW a)).
    eapply wp_mono; [apply wp_feed_new; split_and!; done|].
    intros x h'. apply step_post_weaken; done.
  - cbn [set_remaining_body d_remaining_body].
    destruct (Z.eqb_spec (a_rem a) 1) as [->|Hone].
    + change (1 - 1 =? 0) with true. cbn iota.
      apply wp_bind. eapply wp_mono; [apply q_copy_law; [done|unfold plen; lia]|].
      intros [[b l]|] h1; cbn beta iota zeta.
      * intros (-> & -> & Hst1). cbn [set_remaining_body d_ring]. rewrite Hc2.
        assert (ztake (plen a + 1) ((a_pend a ++ [c]) ++ rest) = a_pend a ++ [c]) as ->
          by (apply ztake_app_eq; unfold plen; zlia).
        apply wp_bind. eapply wp_msg_done; [done|]. intros h2 Hst2.
        apply wp_ret. cbn [set_msg set_state set_ring d_msg m_header set_remaining_body m_body
            header_num body_blocks d_ring d_cb] in *.
        destruct (q_pull_law (d_ring d) (plen a + 1)) as (Hwf' & Hc' & Ho'); [done|unfold plen; lia|].
        rewrite Hc2, zdrop_app_eq in Hc' by (unfold plen; zlia).
        split.
        -- eapply heap_step_trans; [done..|]. unfold dec_owned, header_num, body_blocks; cbn.
           destruct (d_cb d); cbn; rewrite Ho', Hm; cbn; rewrite ?zlen_nil; lia.
        -- left. eexists; split; [done|]; split; [done|].
           unfold header_num in Hsz; rewrite Hm in Hsz; cbn in Hsz. pose proof (zlen_nonneg (map with_len (a_header a))).
           unfold sim, sim_core, header_num, a_set, a_done; cbn; rewrite <- Hcb.
           destruct (d_cb d) eqn:?; cbn; rewrite ?Hm, ?Hl; cbn; rewrite ?zlen_app, <- ?app_assoc;
             split_and!; try done; rewrite ?zlen_nil; try lia.
      * intros [Hst1 Hno]. apply wp_ret. split; [by rewrite Z.sub_diag|].
        right; right. by split_and!.
    + rewrite (proj2 (Z.eqb_neq _ _)) by lia.
      set (a1 := a_set (a_state a) (a_rem a - 1) (a_quoted a) (a_pend a ++ [c]) a).
      replace (plen a + 1) with (plen a1) by (unfold plen, a1; cbn; zlia).
      apply step_pure; [done|]. by split_and!.
Qed.

(** A continuation that cannot fail ends in the state [a']. *)
Definition done_post a' d (rest : list Z) (h : heap) (x : Z * owfd_rtsp_decoder Q) (h' : heap) : Prop :=
  let '(r, d') := x in heap_step h h' (dec_owned d' - dec_owned d) /\ r = plen a' /\ sim d' a' rest.

Lemma wp_then o f d a c rest h m (K : owfd_rtsp_decoder Q -> alloc (Z * owfd_rtsp_decoder Q)) :
  wp m (step_post o d a (c :: rest) (fun _ => 0) h) h ->
  (forall d1 a1 h1, o = Some a1 -> sim d1 a1 (c :: rest) ->
     wp (K d1) (done_post (f a1) d1 rest h1) h1) ->
  wp (let! (r, dec) := m in if r <? 0 then ret (r, dec) else K dec)
     (step_post (option_map f o) d a rest plen h) h.
Proof.
  intros Hm HK. apply wp_bind. eapply wp_mono; [exact Hm|].
  intros [r d1] h1 [Hst [(a1 & -> & -> & Hs)|[(-> & -> & Hs)|(-> & Hs & Hno)]]]; cbn beta iota.
  - change (0 <? 0) with false; cbn iota. eapply wp_mono; [by apply HK|].
    intros [r d2] h2 (Hst2 & -> & Hs2). split; [eapply heap_step_trans; [done..|lia]|]. left; eauto.
  - change (- EINVAL <? 0) with true; cbn iota. apply wp_ret. split; [done|]. right; left; done.
  - change (- ENOMEM <? 0) with true; cbn iota. apply wp_ret. split; [done|]. right; right; done.
Qed.

(** [msg_done] without a body. *)
Lemma wp_done_nobody d a rest h (R : owfd_rtsp_decoder Q -> heap -> Prop) :
  sim d a rest ->
  (forall d' h', heap_step h h' (dec_owned d' - dec_owned d) -> sim d' (a_done None a) rest ->
     d_ring d' = d_ring d -> R d' h') ->
  wp (msg_done d) R h.
Proof.
  intros (Hcore & Hc & Hst & Hlast & Hrem) HR. destruct Hcore as (Hcb & Hwf & Hq & Hm & Hl & Hsz).
  eapply wp_msg_done; [done|]. intros h' Hst'.
  unfold header_num in *; rewrite Hm in Hst', Hsz; cbn in Hst', Hsz.
  pose proof (zlen_nonneg (map with_len (a_header a))).
  apply HR; unfold dec_owned, header_num, sim, sim_core, a_done; cbn.
  - replace (d_ring (if d_cb d then add_log (d_msg d) d else d)) with (d_ring d) by (by destruct (d_cb d)).
    rewrite Hm; cbn. rewrite zlen_nil.
    eapply heap_step_trans; [apply heap_step_refl|exact Hst'|lia].
  - rewrite <- Hcb. destruct (d_cb d) eqn:?; cbn; unfold header_num; cbn;
      rewrite ?Hm, ?Hl; cbn; split_and!; try done; rewrite ?zlen_nil; lia.
  - by destruct (d_cb d).
Qed.

Lemma sim_set_state d a s rest : sim d a rest -> sim (set_state s d) (a_state_is s a) rest.
Proof. intros (Hc & ? & ? & ? & ?). split; [exact Hc|]. by split_and!. Qed.

Lemma option_map_if {A B} (f : A -> B) (b : bool) x y :
  option_map f (if b then x else y) = if b then option_map f x else option_map f y.
Proof. by destruct b. Qed.

Lemma a_finish_pend a a1 : a_finish a = Some a1 -> a_pend a1 = [].
Proof. unfold a_finish. destruct (parse_header_line _ _), (_ <? 0); intros; by simplify_eq. Qed.

Lemma wp_finish_nl d a c rest h (f : adec -> adec) (g : owfd_rtsp_decoder Q -> owfd_rtsp_decoder Q) :
  sim d a (c :: rest) -> zlen (a_header a) < 2 ^ 58 ->
  (forall d1 a1, sim d1 a1 (c :: rest) ->
     dec_owned (g d1) = dec_owned d1 /\ sim (g d1) (f a1) rest /\ plen (f a1) = plen a1 + 1) ->
  wp (let nl := is_nl (d_last_chr d) in
      let! (r, dec) := if nl then finish_header_line d (plen a) else ret (0, d) in
      let rlen' := if nl then 0 else plen a in
      if r <? 0 then ret (r, dec) else ret (rlen' + 1, g dec))
     (step_post (option_map f (if is_nl (a_last a) then a_finish a else Some a)) d a rest plen h) h.
Proof.
  intros Hs Hbig Hfg. pose proof Hs as (_ & _ & _ & Hlast & _). rewrite Hlast.
  destruct (is_nl (a_last a)); cbn zeta.
  - apply (wp_then (a_finish a) f d a c rest h (finish_header_line d (plen a))
             (fun dec => ret (0 + 1, g dec))); [by apply wp_finish|].
    intros d1 a1 h1 Ha1 Hs1. destruct (Hfg d1 a1 Hs1) as (Ho & Hs' & Hp).
    apply wp_ret. split; [rewrite Ho, Z.sub_diag; apply heap_step_refl|].
    split; [|done]. rewrite Hp. unfold plen. by rewrite (a_finish_pend _ _ Ha1).
  - apply wp_bind, wp_ret; cbn beta iota. change (0 <? 0) with false; cbn iota.
    destruct (Hfg d a Hs) as (Ho & Hs' & Hp). rewrite <- Hp. by apply step_pure.
Qed.

Lemma wp_feed_header d a c rest h :
  sim d a (c :: rest) -> zlen (a_header a) < 2 ^ 58 -> a_state a = STATE_HEADER ->
  wp (feed_char_header d c (plen a)) (step_post (a_char a c) d a rest plen h) h.
Proof.
  intros Hs Hbig Hst. unfold a_char; rewrite Hst. unfold feed_char_header.
  assert (forall d', d' = d -> wp (ret (plen a + 1, d')) (step_post (Some (a_push c a)) d a rest plen h) h) as Hpush.
  { intros d' ->. rewrite <- (plen_push c). apply step_pure; [done | by apply sim_push]. }
  pose proof Hs as (_ & _ & _ & Hlast & _).
  destruct (c =? CR); [|destruct (c =? LF); [|destruct (c =? DQUOTE); [|destruct ((c =? TAB) || (c =? SP))]]].
  - rewrite Hlast. destruct (is_nl (a_last a)); [|by apply Hpush].
    eapply (wp_mono _ (step_post _ (set_state STATE_HEADER_NL d) (a_state_is STATE_HEADER_NL a) rest plen h));
      [|intros x h'; by apply step_post_weaken].
    apply (wp_then _ _ _ _ c rest h (finish_header_line (set_state STATE_HEADER_NL d) (plen a))
       (fun dec => let! dec := if d_remaining_body dec =? 0 then msg_done dec else ret dec in ret (0 + 1, dec))).
    { apply (wp_finish _ (a_state_is STATE_HEADER_NL a)); [by apply sim_set_state | done]. }
    intros d1 a1 h1 Ha1 Hs1. apply a_finish_pend in Ha1.
    pose proof Hs1 as (_ & _ & _ & _ & ->). apply wp_bind.
    destruct (a_rem a1 =? 0).
    + eapply wp_done_nobody; [exact Hs1|]. intros d2 h2 Hst2 Hs2 _. apply wp_ret.
      split; [done|]. split; [unfold plen; cbn; by rewrite Ha1 | by apply sim_push].
    + apply wp_ret, wp_ret. split; [rewrite Z.sub_diag; apply heap_step_refl|].
      split; [unfold plen; cbn; by rewrite Ha1 | by apply sim_push].
  - rewrite Hlast. destruct (a_last a =? LF) eqn:?; [|by destruct (a_last a =? CR); apply Hpush].
    apply (wp_then _ _ _ _ c rest h (finish_header_line d (plen a))
       (fun dec => let dec := set_state STATE_BODY dec in
          let! dec := if d_remaining_body dec =? 0 then msg_done (set_state STATE_NEW dec) else ret dec in
          ret (0, set_ring (q_pull (d_ring dec) 1) dec))).
    { by apply wp_finish. }
    intros d1 a1 h1 Ha1 Hs1. apply a_finish_pend in Ha1. cbn zeta.
    pose proof Hs1 as (_ & Hc1 & _ & _ & Hr1). cbn [set_state d_remaining_body]. rewrite Hr1.
    rewrite Ha1 in Hc1; cbn [app] in Hc1. apply wp_bind.
    destruct (a_rem a1 =? 0).
    + eapply wp_done_nobody; [apply sim_set_state, (sim_set_state _ a1 STATE_BODY), Hs1|]. intros d2 h2 Hst2 Hs2 Hr2. apply wp_ret.
      pose proof Hs2 as (Hcore2 & Hc2 & ? & ? & ?). cbn in Hc2.
      destruct (sim_pull d2 (a_done None (a_state_is STATE_NEW a1)) (a_done None (a_state_is STATE_NEW a1)) 1 rest)
        as [Hsim Ho]; try done; [cbn; by rewrite Hc2, Ha1|].
      split; [by rewrite Ho|]. split; [unfold plen; cbn; by rewrite Ha1 | done].
    + apply wp_ret, wp_ret. destruct Hs1 as (Hcore1 & _ & ? & ? & ?).
      destruct (sim_pull (set_state STATE_BODY d1) (a_state_is STATE_BODY a1) (a_state_is STATE_BODY a1) 1 rest)
        as [Hsim Ho]; try done; [cbn; by rewrite Hc1, Ha1|].
      split; [cbn in Ho |- *; rewrite Ho, Z.sub_diag; apply heap_step_refl|].
      split; [unfold plen; cbn; by rewrite Ha1 | done].
  - apply (wp_finish_nl d a c rest h (fun a => a_set STATE_HEADER_QUOTE (a_rem a) false (a_pend a ++ [c]) a)
             (fun dec => set_quoted false (set_state STATE_HEADER_QUOTE dec))); [done..|].
    intros d1 a1 Hs1. pose proof (sim_rest_app _ _ _ _ Hs1).
    destruct Hs1 as ((Hcb & Hwf & Hq & Hm & Hl & Hsz) & _ & ? & ? & ?).
    split; [done|]. split; [sim_solve | unfold plen; cbn; zlia].
  - by apply Hpush.
  - apply (wp_finish_nl d a c rest h (a_push c) (fun dec => dec)); [done..|].
    intros d1 a1 Hs1. split; [done|]. split; [by apply sim_push | apply plen_push].
Qed.

Lemma wp_feed_quote d a c rest h :
  sim d a (c :: rest) -> a_state a = STATE_HEADER_QUOTE ->
  wp (feed_char_header_quote d c (plen a)) (step_post (a_char a c) d a rest plen h) h.
Proof.
  intros Hs Hst. unfold a_char; rewrite Hst. unfold feed_char_header_quote.
  pose proof (sim_rest_app _ _ _ _ Hs).
  destruct Hs as ((Hcb & Hwf & Hq & Hm & Hl & Hsz) & _ & Hst' & Hlast & Hrem).
  rewrite Hlast, Hq.
  assert (forall s b (d' : owfd_rtsp_decoder Q), d' = set_state s (set_quoted b d) ->
     wp (ret (plen a + 1, d')) (step_post (Some (a_set s (a_rem a) b (a_pend a ++ [c]) a)) d a rest plen h) h) as Hgo.
  { intros s b d' ->.
    replace (plen a + 1) with (plen (a_set s (a_rem a) b (a_pend a ++ [c]) a)) by (unfold plen; cbn; zlia).
    apply step_pure; [done|]. sim_solve. }
  destruct ((a_last a =? BSLASH) && negb (a_quoted a)); [|destruct (c =? DQUOTE)];
    apply Hgo; destruct d; unfold set_quoted, set_state; cbn in *; congruence.
Qed.

Lemma wp_feed_nl d a c rest h :
  sim d a (c :: rest) ->
  a_state a = STATE_HEADER_NL ->
  wp (feed_char_header_nl d c (plen a)) (step_post (a_char a c) d a rest plen h) h.
Proof.
  intros Hs Hst. unfold a_char; rewrite Hst. unfold feed_char_header_nl.
  pose proof (sim_rest_app _ _ _ _ Hs) as Hc2. pose proof (zlen_nonneg (a_pend a)).
  pose proof Hs as (Hcore & Hc & _ & Hlast & Hrem).
  destruct (c =? LF).
  - set (a' := a_set (if a_rem a =? 0 then STATE_NEW else STATE_BODY) (a_rem a) (a_quoted a) [] a).
    destruct (sim_pull (set_state (a_state a') d) a a' (plen a + 1) rest) as [Hsim Ho]; try done.
    { unfold plen; lia. } { cbn. rewrite Hc2, zdrop_app_eq; [done|unfold plen; zlia]. }
    change 0 with (plen a') at 1. cbn zeta.
    cbn [set_state set_ring d_remaining_body]. rewrite Hrem.
    apply step_pure; destruct (a_rem a =? 0); cbn in *; done.
  - cbn zeta. destruct (sim_pull d a (a_set (a_state a) (a_rem a) (a_quoted a) [] a) (plen a) (c :: rest))
      as [Hsim Ho]; try done.
    { cbn. by rewrite Hc, zdrop_app_eq. } { destruct Hs as (_ & _ & ? & _); done. }
    set (a' := a_set STATE_BODY (a_rem a) (a_quoted a) [] a).
    change 0 with (plen a').
    eapply wp_mono; [apply (wp_feed_body _ a')|].
    + apply (sim_set_state _ _ STATE_BODY) in Hsim. exact Hsim.
    + intros x h'. apply step_post_weaken; [exact Ho | done].
Qed.

Lemma wp_feed_char d a c rest h :
  sim d a (c :: rest) -> zlen (a_header a) < 2 ^ 58 ->
  wp (feed_char d c (plen a)) (step_post (a_char a c) d a rest plen h) h.
Proof.
  intros Hs Hbig. pose proof Hs as (_ & _ & Hst & _). unfold feed_char; rewrite Hst.
  destruct (a_state a) eqn:Ha.
  - unfold a_char; rewrite Ha. by apply wp_feed_new.
  - by apply wp_feed_header.
  - by apply wp_feed_quote.
  - by apply wp_feed_nl.
  - unfold a_char; rewrite Ha. by apply wp_feed_body.
Qed.

Lemma a_finish_header a a' : a_finish a = Some a' -> zlen (a_header a') = zlen (a_header a) + 1.
Proof.
  unfold a_finish. destruct (parse_header_line _ _), (_ <? 0); intros; simplify_eq. cbn. zlia.
Qed.

(** A byte finishes at most one line. *)
Lemma a_char_header a c a' :
  a_char a c = Some a' -> zlen (a_header a') <= zlen (a_header a) + 1.
Proof.
  pose proof (zlen_nonneg (a_header a)).
  assert (forall b c, zlen (a_header (a_new b c)) = zlen (a_header b)) as Hnew.
  { intros b x; unfold a_new; by destruct (is_lws x). }
  assert (forall b c, zlen (a_header (a_body b c)) <= zlen (a_header b)) as Hbody.
  { intros b x; unfold a_body. pose proof (zlen_nonneg (a_header b)).
    destruct (_ =? 0); [rewrite Hnew; cbn; lia|]. destruct (_ =? 1); cbn; rewrite ?zlen_nil; lia. }
  unfold a_char. intros Hc; destruct (a_state a); simplify_eq; rewrite ?Hnew; try lia.
  - assert (forall f b, (forall x, zlen (a_header (f x)) <= zlen (a_header x)) ->
      zlen (a_header b) = zlen (a_header a) ->
      option_map f (a_finish b) = Some a' -> zlen (a_header a') <= zlen (a_header a) + 1) as Hfin.
    { intros f b Hf Hb Ho. destruct (a_finish b) as [x|] eqn:Hx; [|done].
      cbn in Ho; simplify_eq. apply a_finish_header in Hx. specialize (Hf x). lia. }
    repeat match type of Hc with
    | context [if ?b then _ else _] => destruct b
    end; try (cbn in Hc; simplify_eq; cbn; lia).
    all: eapply Hfin; [|..|exact Hc]; [|done].
    all: intros x; cbn beta; pose proof (zlen_nonneg (a_header x)); try (destruct (a_rem x =? 0));
      cbn -[zlen]; rewrite ?zlen_nil; lia.
  - by destruct ((_ =? _) && _); simplify_eq; cbn; lia.
  - destruct (c =? LF); simplify_eq; [cbn; lia|]. etransitivity; [apply Hbody|]. cbn; lia.
  - etransitivity; [apply Hbody|]; lia.
Qed.

Lemma sim_set_last d a c rest : sim d a rest -> sim (set_last_chr c d) (a_set_last c a) rest.
Proof. intros (Hc & ? & ? & ? & ?). split; [exact Hc|]. by split_and!. Qed.

Lemma sim_flush d a :
  sim_core d a ->
  sim (owfd_rtsp_decoder_flush d) (a_flush a) [] /\
  dec_owned (owfd_rtsp_decoder_flush d) = dec_owned d.
Proof.
  intros (Hcb & Hwf & Hq & Hm & Hl & Hsz). destruct (q_flush_law (d_ring d) Hwf) as (? & ? & Ho).
  unfold dec_owned; cbn. rewrite Ho. split; [|done]. sim_solve.
Qed.

Definition loop_post a (buf : list Z) d h (x : Z * owfd_rtsp_decoder Q) (h' : heap) : Prop :=
  let '(r, d') := x in
  heap_step h h' (dec_owned d' - dec_owned d) /\
  ((r = 0 /\ fst (a_feed a buf) = 0 /\ sim d' (snd (a_feed a buf)) []) \/
   (r = - EINVAL /\ fst (a_feed a buf) = - EINVAL /\
    exists a1, sim_core d' a1 /\ snd (a_feed a buf) = a_flush a1) \/
   (r = - ENOMEM /\ ~ heap_ok h /\ exists a1, sim_core d' a1)).

Lemma wp_feed_loop buf a d h :
  sim d a buf -> zlen (a_header a) + zlen buf < 2 ^ 58 ->
  wp (feed_loop d buf (plen a)) (loop_post a buf d h) h.
Proof.
  revert a d h; induction buf as [|c buf IH]; intros a d h Hs Hbig; cbn [feed_loop a_feed].
  - apply wp_ret. split; [rewrite Z.sub_diag; apply heap_step_refl|]. by left.
  - rewrite zlen_cons in Hbig. pose proof (zlen_nonneg buf).
    apply wp_bind. eapply wp_mono; [apply wp_feed_char; [done|lia]|].
    intros [r d1] h1 [Hst1 [(a1 & Ha & -> & Hs1)|[(Ha & -> & Hs1)|(-> & Hs1 & Hno)]]]; cbn beta iota.
    + pose proof (zlen_nonneg (a_pend a1)). pose proof (a_char_header _ _ _ Ha).
      rewrite (proj2 (Z.ltb_ge (plen a1) 0)) by done.
      change (plen a1) with (plen (a_set_last c a1)).
      eapply wp_mono; [apply (IH (a_set_last c a1)); [by apply sim_set_last | cbn [a_set_last a_header]; lia]|].
      intros [r d2] h2 [Hst2 Hpost]. unfold loop_post. cbn [a_feed]. rewrite Ha. split.
      * eapply heap_step_trans; [done..|]. unfold dec_owned, header_num; cbn; lia.
      * destruct Hpost as [?|[?|(-> & Hno & ?)]]; [by left | by right; left|].
        right; right. split_and!; try done. intros ?; apply Hno, Hst1; done.
    + change (- EINVAL <? 0) with true; cbn iota. apply wp_ret. split; [done|].
      right; left. cbn [a_feed]. rewrite Ha. split_and!; try done. by exists a.
    + change (- ENOMEM <? 0) with true; cbn iota. apply wp_ret. split; [done|].
      right; right. split_and!; try done. by exists a.
Qed.

(** Feeding a buffer refines the abstract decoder; when memory runs out the
    decoder is left in a state that still matches some abstract state. *)
Definition feed_post a (buf : list Z) d h (x : Z * owfd_rtsp_decoder Q) (h' : heap) : Prop :=
  let '(r, d') := x in
  heap_step h h' (dec_owned d' - dec_owned d) /\
  ((r = fst (a_feed a buf) /\ sim d' (snd (a_feed a buf)) []) \/
   (r = - ENOMEM /\ ~ heap_ok h /\ exists a1, sim d' a1 [])).

Lemma wp_feed buf a d h :
  sim d a [] -> plen a + zlen buf < 2 ^ 62 -> zlen (a_header a) + zlen buf < 2 ^ 58 ->
  wp (owfd_rtsp_decoder_feed d buf) (feed_post a buf d h) h.
Proof.
  intros Hs Hlen Hbig. pose proof Hs as (Hcore & Hc & Hst & Hlast & Hrem).
  rewrite app_nil_r in Hc. pose proof Hcore as (Hcb & Hwf & Hq & Hm & Hl & Hsz).
  pose proof (zlen_nonneg buf). pose proof (zlen_nonneg (a_pend a)). pose proof (zlen_nonneg (a_header a)).
  unfold owfd_rtsp_decoder_feed. rewrite q_length_law, Hc by done. fold (plen a).
  apply wp_bind. eapply wp_mono; [apply q_push_law; [done|unfold PTRDIFF_MAX; lia]|].
  intros [e q] h1 (Hwf1 & Hst1 & [(-> & Hc1)|(-> & -> & Hbig')]); cbn beta iota zeta.
  - change (0 <? 0) with false; cbn iota. rewrite Hc in Hc1.
    assert (sim (set_ring q d) a buf) as Hs1 by sim_solve.
    apply wp_bind. eapply wp_mono; [by apply wp_feed_loop|].
    intros [r d2] h2 [Hst2 Hpost].
    assert (heap_step h h2 (dec_owned d2 - dec_owned d)) as Hst12
      by (eapply heap_step_trans; [done..|]; unfold dec_owned, header_num; cbn; lia).
    destruct Hpost as [(-> & Hr & Hs2)|[(-> & Hr & a1 & Hs2 & Ha1)|(-> & Hno & a1 & Hs2)]]; cbn beta iota.
    + change (0 <? 0) with false; cbn iota. apply wp_ret. split; [done|]. left. by rewrite Hr.
    + change (- EINVAL <? 0) with true; cbn iota. apply wp_ret.
      destruct (sim_flush d2 a1 Hs2) as [Hs3 Ho]. split; [by rewrite Ho|]. left. by rewrite Hr, Ha1.
    + change (- ENOMEM <? 0) with true; cbn iota. apply wp_ret.
      destruct (sim_flush d2 a1 Hs2) as [Hs3 Ho]. split; [by rewrite Ho|]. right.
      split_and!; [done| |by eexists]. intros ?; apply Hno, Hst1; done.
  - change (- ENOMEM <? 0) with true; cbn iota. apply wp_ret.
    split.
    + rewrite Z.sub_diag in Hst1. eapply heap_step_trans; [exact Hst1|apply heap_step_refl|].
      unfold dec_owned, header_num; cbn; lia.
    + right. split_and!; [done| |exists a; by destruct d].
      intros Hok; specialize (Hbig' Hok). rewrite Hc in Hbig'. unfold plen in *; lia.
Qed.

End simulation.
