(* ===== verification/RtspMessages.v ===== *)
(** * Messages through the RTSP decoder.

    Consequences of the simulation of [RtspDecoder.v] for the decoder running
    on the ring buffer: its invariant, independence of how the input is cut
    into buffers, the round trip of well-formed messages, what the header
    sanitizer guarantees, and what an error leaves behind. *)

From S2P Require Import Prelude CLib Fifo Ring RtspDecoder.

(** ** Vocabulary *)

(** The decoder the program uses. *)
Definition decoder : Type := owfd_rtsp_decoder shl_ring.

(** Feed several buffers, stopping at the first error. *)
Fixpoint feed_chunks (d : decoder) (bufs : list (list Z)) : alloc (Z * decoder) :=
  match bufs with
  | [] => ret (0, d)
  | b :: bufs' =>
    let! (r, d) := owfd_rtsp_decoder_feed d b in
    if r <? 0 then ret (r, d) else feed_chunks d bufs'
  end.

(** The invariant of a decoder between two calls. *)
Definition decoder_ok (d : decoder) : Prop := exists a, sim d a [].

(** Room for [n] more bytes. *)
Definition has_room (d : decoder) (n : Z) : Prop :=
  shl_ring_length (d_ring d) + n < 2 ^ 57 /\ header_num d + n < 2 ^ 57.

(** A message: header lines and a body. *)
Record message := mkMessage { g_lines : list (list Z); g_body : list Z }.

Definition CRLF : list Z := [CR; LF].

Definition encode (m : message) : list Z :=
  concat (map (fun l => l ++ CRLF) (g_lines m)) ++ CRLF ++ g_body m.

(** What the callback gets for it. *)
Definition reported (m : message) : owfd_rtsp_msg :=
  mkMsg (map with_len (g_lines m))
    (match g_body m with [] => None | b => Some (b ++ [0], zlen b) end).

(** No two blanks in a row. *)
Fixpoint no_dspace (l : list Z) : bool :=
  match l with
  | a :: ((b :: _) as r) => negb ((a =? SP) && (b =? SP)) && no_dspace r
  | _ => true
  end.

Definition line_char (c : Z) : bool :=
  negb ((c =? 0) || (c =? CR) || (c =? LF) || (c =? TAB) || (c =? DQUOTE)).

(** A header line in normal form: not empty, no control characters or quotes,
    no blank at either end, single blanks inside. *)
Definition line_ok (l : list Z) : bool :=
  match l with [] => false | c :: _ => negb (c =? SP) end &&
  negb (List.last l 0 =? SP) && forallb line_char l && no_dspace l.

(** The body length the lines announce; [None] if they contradict each other. *)
Fixpoint announced (rem : Z) (lines : list (list Z)) : option Z :=
  match lines with
  | [] => Some rem
  | l :: lines' =>
    let '(r, rem') := parse_header_line rem l in
    if r <? 0 then None else announced rem' lines'
  end.

Definition message_ok (m : message) : Prop :=
  g_lines m <> [] /\ Forall (fun l => line_ok l = true) (g_lines m) /\
  announced 0 (g_lines m) = Some (zlen (g_body m)).

(** ** The abstract decoder *)

Lemma a_feed_app a x y a1 :
  a_feed a x = (0, a1) -> a_feed a (x ++ y) = a_feed a1 y.
Proof.
  revert a; induction x as [|c x IH]; intros a; cbn [a_feed app]; [by intros; simplify_eq|].
  destruct (a_char a c); [apply IH | done].
Qed.

Lemma a_feed_codes a x : fst (a_feed a x) = 0 \/ fst (a_feed a x) = - EINVAL.
Proof.
  revert a; induction x as [|c x IH]; intros a; cbn [a_feed]; [by left|].
  destruct (a_char a c); [apply IH | by right].
Qed.

Lemma a_new_plen a c : plen (a_new a c) <= plen a + 1.
Proof.
  pose proof (zlen_nonneg (a_pend a)).
  unfold a_new, plen; destruct (is_lws c); cbn; unfold plen; zlia.
Qed.

Lemma a_body_plen a c : plen (a_body a c) <= plen a + 1.
Proof.
  pose proof (zlen_nonneg (a_pend a)).
  unfold a_body. destruct (_ =? 0); [apply (a_new_plen (a_state_is STATE_NEW a))|].
  destruct (_ =? 1); unfold plen; cbn; [rewrite zlen_nil; lia | zlia].
Qed.

Lemma a_char_plen a c a' : a_char a c = Some a' -> plen a' <= plen a + 1.
Proof.
  pose proof (zlen_nonneg (a_pend a)) as Hn. unfold a_char.
  assert (forall f b, a_pend b = a_pend a -> (forall x, plen (f x) <= plen x + 1) ->
    option_map f (a_finish b) = Some a' -> plen a' <= plen a + 1) as Hfin.
  { intros f b Hb Hf Ho. destruct (a_finish b) as [x|] eqn:Hx; [|done]. cbn in Ho; simplify_eq.
    specialize (Hf x). apply a_finish_pend in Hx. unfold plen in *. rewrite Hx, zlen_nil in Hf. lia. }
  intros Hc; destruct (a_state a).
  - simplify_eq. apply a_new_plen.
  - repeat match type of Hc with
    | context [if ?b then _ else _] => destruct b
    end; try (cbn in Hc; simplify_eq; unfold plen; cbn; zlia).
    all: eapply Hfin; [|..|exact Hc]; [done|].
    all: intros x; cbn beta; try (destruct (a_rem x =? 0)); unfold plen; cbn; zlia.
  - destruct (_ && _); simplify_eq; unfold plen; cbn; zlia.
  - destruct (c =? LF); simplify_eq; [unfold plen in *; cbn; rewrite zlen_nil; lia|].
    etransitivity; [apply a_body_plen|]. unfold plen in *; cbn; rewrite zlen_nil; lia.
  - simplify_eq. apply a_body_plen.
Qed.

Lemma a_feed_sizes a x :
  plen (snd (a_feed a x)) <= plen a + zlen x /\
  zlen (a_header (snd (a_feed a x))) <= zlen (a_header a) + zlen x.
Proof.
  revert a; induction x as [|c x IH]; intros a; cbn [a_feed]; [cbn [snd]; zlia|].
  rewrite zlen_cons. pose proof (zlen_nonneg x). pose proof (zlen_nonneg (a_pend a)).
  destruct (a_char a c) as [a'|] eqn:Hc.
  - destruct (IH (a_set_last c a')). apply a_char_plen in Hc as Hp. apply a_char_header in Hc.
    change (plen (a_set_last c a')) with (plen a') in *. cbn [a_set_last a_header] in *. lia.
  - unfold plen; cbn. rewrite zlen_nil. lia.
Qed.

(** ** The decoder on chunks *)

Lemma wp_feed_chunks bufs a d h :
  sim d a [] -> plen a + zlen (concat bufs) < 2 ^ 58 ->
  zlen (a_header a) + zlen (concat bufs) < 2 ^ 58 -> heap_ok h ->
  fst (a_feed a (concat bufs)) = 0 ->
  wp (feed_chunks d bufs)
     (fun '(r, d') h' => r = 0 /\ sim d' (snd (a_feed a (concat bufs))) [] /\
        heap_step h h' (dec_owned d' - dec_owned d)) h.
Proof.
  revert a d h; induction bufs as [|b bufs IH]; intros a d h Hs Hp Hh Hok Hr; cbn [feed_chunks concat].
  - apply wp_ret. split_and!; try done. rewrite Z.sub_diag. apply heap_step_refl.
  - cbn [concat] in *. rewrite zlen_app in *. pose proof (zlen_nonneg (concat bufs)).
    pose proof (zlen_nonneg b). destruct (a_feed_sizes a b) as [Hp1 Hh1].
    destruct (a_feed a b) as [r1 a1] eqn:Hf; cbn [snd] in *.
    assert (r1 = 0) as ->.
    { destruct (a_feed_codes a b) as [H1|H1]; rewrite Hf in H1; [done|]. exfalso.
      cbn in H1; subst. clear -Hf Hr. revert a Hf Hr; induction b as [|c b IH]; intros a Hf Hr; [done|].
      cbn [a_feed app] in *. destruct (a_char a c); [by eapply IH | done]. }
    rewrite (a_feed_app _ _ _ _ Hf) in *.
    apply wp_bind. eapply wp_mono; [apply (wp_feed b a); [done|lia..]|].
    intros [r d1] h1 [Hst1 [[-> Hs1]|(_ & Hno & _)]]; [|done]. rewrite Hf in *; cbn [fst snd] in *.
    change (0 <? 0) with false; cbn iota.
    eapply wp_mono; [apply (IH a1); try done; [lia|lia|by apply Hst1]|].
    intros [r d2] h2 (-> & Hs2 & Hst2). split_and!; try done.
    eapply heap_step_trans; [done..|lia].
Qed.

(** If the chunks are processed without error, so is their concatenation. *)
Lemma wp_feed_chunks_ok bufs a d h :
  sim d a [] -> plen a + zlen (concat bufs) < 2 ^ 58 ->
  zlen (a_header a) + zlen (concat bufs) < 2 ^ 58 -> heap_ok h ->
  fst (fst (feed_chunks d bufs h)) = 0 -> fst (a_feed a (concat bufs)) = 0.
Proof.
  revert a d h; induction bufs as [|b bufs IH]; intros a d h Hs Hp Hh Hok Hr; [done|].
  cbn [concat feed_chunks] in *. rewrite zlen_app in *. pose proof (zlen_nonneg (concat bufs)).
  pose proof (zlen_nonneg b). destruct (a_feed_sizes a b) as [Hp1 Hh1].
  pose proof (wp_feed b a d h Hs ltac:(lia) ltac:(lia)) as Hwp.
  unfold wp in Hwp. unfold bind in Hr.
  destruct (owfd_rtsp_decoder_feed d b h) as [[r1 d1] h1].
  destruct Hwp as [Hst1 [[-> Hs1]|(_ & Hno & _)]]; [|done].
  destruct (a_feed a b) as [r1 a1] eqn:Hf; cbn [fst snd] in *.
  destruct (a_feed_codes a b) as [H1|H1]; rewrite Hf in H1; cbn in H1; subst.
  - rewrite (a_feed_app _ _ _ _ Hf). eapply IH; [exact Hs1|lia|lia|by apply Hst1|exact Hr].
  - done.
Qed.

Lemma wp_new cb h :
  wp (owfd_rtsp_decoder_new (Q := shl_ring) cb) (fun x h' =>
    match x with
    | inr d => d_cb d = cb /\ d_log d = [] /\ dec_owned d = 0 /\
               sim d (mkA cb STATE_NEW 0 0 false [] [] []) [] /\ heap_step h h' 3
    | inl e => e = - ENOMEM /\ ~ heap_ok h /\ heap_step h h' 0
    end) h.
Proof.
  unfold owfd_rtsp_decoder_new, sizeof_decoder.
  apply wp_bind, wp_grant; intros h1 Hg1 Hs1; cbn [negb].
  2: { apply wp_ret; split_and!; try done. intros ?; apply Hg1; done. }
  apply wp_bind, wp_grant; intros h2 Hg2 Hs2; cbn [negb].
  2: { apply wp_bind, wp_free; intros h3 Hs3. apply wp_ret; split_and!; try done.
       - intros ?; apply Hg2; [by apply Hs1 | done].
       - apply (heap_step_trans h h1 h3 1 (-1)); [exact Hs1| |done].
         by apply (heap_step_trans h1 h2 h3 0 (-1)). }
  apply wp_bind, wp_grant; intros h3 Hg3 Hs3; cbn [negb].
  2: { apply wp_bind, wp_free; intros h4 Hs4. apply wp_ret; split_and!; try done.
       - intros ?; apply Hg3; [by apply Hs2, Hs1 | done].
       - apply (heap_step_trans h h1 h4 1 (-1)); [exact Hs1| |done].
         apply (heap_step_trans h1 h2 h4 1 (-2)); [exact Hs2| |done].
         by apply (heap_step_trans h2 h3 h4 0 (-2)). }
  apply wp_ret. split_and!; try done.
  - pose proof (@q_empty_law shl_ring _ _) as (Hw & Hc & _). unfold sim, sim_core, header_num; cbn.
    split_and!; try done.
  - apply (heap_step_trans h h1 h3 1 2); [exact Hs1| |done].
    by apply (heap_step_trans h1 h2 h3 1 1).
Qed.

(** ** The sanitizer *)

Lemma trim_right_app_sp l : trim_right (l ++ [SP]) = trim_right l.
Proof. unfold trim_right. by rewrite rev_app_distr. Qed.

Lemma trim_right_id l : List.last l 0 <> SP -> trim_right l = l.
Proof.
  intros Hl. unfold trim_right. destruct (rev l) as [|c r] eqn:Hr.
  - apply (f_equal (@rev Z)) in Hr. by rewrite rev_involutive in Hr.
  - apply (f_equal (@rev Z)) in Hr. rewrite rev_involutive in Hr. subst l. cbn [rev] in *.
    rewrite last_last in Hl. cbn [drop_spaces]. by rewrite (proj2 (Z.eqb_neq c SP)).
Qed.

Lemma drop_spaces_spec l : exists n, l = replicate n SP ++ drop_spaces l.
Proof.
  induction l as [|c l [n IH]]; [by exists 0%nat|]. cbn [drop_spaces].
  destruct (Z.eqb_spec c SP) as [->|]; [exists (S n); cbn; by rewrite <- IH | by exists 0%nat].
Qed.

Lemma trim_right_prefix l : exists n, l = trim_right l ++ replicate n SP.
Proof.
  unfold trim_right. destruct (drop_spaces_spec (rev l)) as [n Hn]. exists n.
  apply (f_equal (@rev Z)) in Hn. rewrite rev_involutive, rev_app_distr in Hn.
  rewrite Hn at 1. f_equal. clear. induction n as [|n IH]; [done|].
  cbn [replicate rev]. rewrite IH. clear. induction n; cbn; [done | by f_equal].
Qed.

Lemma trim_right_last l : List.last (trim_right l) 0 <> SP.
Proof.
  unfold trim_right. generalize (rev l) as k; clear l. induction k as [|c k IH]; [done|].
  cbn [drop_spaces]. destruct (Z.eqb_spec c SP); [done|]. cbn [rev]. by rewrite last_last.
Qed.

Lemma sanitize_fold s line :
  exists k, s_out (fold_left sanitize_step line s) = s_out s ++ k /\
            zlen k <= zlen line /\ Forall (fun c => c <> 0) k.
Proof.
  revert s; induction line as [|c line IH]; intros s; cbn [fold_left].
  - exists []. by rewrite app_nil_r.
  - destruct (IH (sanitize_step s c)) as (k & -> & Hk & Hz).
    assert (exists j, s_out (sanitize_step s c) = s_out s ++ j /\ zlen j <= 1 /\
              Forall (fun c => c <> 0) j) as (j & -> & Hj & Hjz).
    { unfold sanitize_step; cbn zeta.
      repeat match goal with |- context [if ?b then _ else _] => destruct b eqn:? end;
        cbn [s_out];
        first [ exists []; rewrite app_nil_r; split_and!; [done|done|constructor]
              | eexists; split; [reflexivity|]; split; [done|]; constructor; [|constructor] ];
        rewrite ?Z.eqb_neq in *; try done; try (by rewrite Z.eqb_eq in *; subst). }
    exists (j ++ k). rewrite app_assoc, zlen_app, zlen_cons. split_and!; [done|lia|].
    by apply Forall_app.
Qed.

(** *** Lines in normal form are left alone *)

Lemma line_char_spec c :
  line_char c = true -> c <> 0 /\ c <> CR /\ c <> LF /\ c <> TAB /\ c <> DQUOTE.
Proof.
  unfold line_char. rewrite negb_true_iff, !orb_false_iff, !Z.eqb_neq. tauto.
Qed.

Lemma line_ok_spec l :
  line_ok l = true ->
  exists c l', l = c :: l' /\ c <> SP /\ List.last l 0 <> SP /\
    Forall (fun c => line_char c = true) l /\ no_dspace l = true.
Proof.
  unfold line_ok. destruct l as [|c l']; [done|].
  rewrite !andb_true_iff, !negb_true_iff, !Z.eqb_neq, forallb_forall.
  intros (((? & ?) & Hf) & ?). exists c, l'. split_and!; try done.
  apply Forall_forall. intros x Hx. by apply Hf, list_elem_of_In.
Qed.

Lemma sanitize_step_char out last e c :
  line_char c = true -> ~ (c = SP /\ last = SP) ->
  sanitize_step (mkSan out last false e) c = mkSan (out ++ [c]) c false e.
Proof.
  intros (H0 & Hcr & Hlf & Htab & Hq)%line_char_spec Hsp.
  unfold sanitize_step; cbn [s_quoted s_out s_last s_escaped].
  rewrite (proj2 (Z.eqb_neq c 0)), (proj2 (Z.eqb_neq c CR)), (proj2 (Z.eqb_neq c LF)),
    (proj2 (Z.eqb_neq c TAB)) by done. cbn [orb]; cbv zeta.
  rewrite (proj2 (Z.eqb_neq c DQUOTE)) by done.
  destruct (Z.eqb_spec c SP), (Z.eqb_spec last SP); try tauto; done.
Qed.

(** Rewrites the comparisons of an ordinary character to [false]. *)
Ltac not_special Hcr Hlf Htab Hq :=
  rewrite ?(proj2 (Z.eqb_neq _ CR) Hcr), ?(proj2 (Z.eqb_neq _ LF) Hlf),
    ?(proj2 (Z.eqb_neq _ TAB) Htab), ?(proj2 (Z.eqb_neq _ DQUOTE) Hq).

Lemma is_nl_false c : c <> CR -> c <> LF -> is_nl c = false.
Proof. intros; unfold is_nl. by rewrite (proj2 (Z.eqb_neq c CR)), (proj2 (Z.eqb_neq c LF)). Qed.

Lemma last_cons_default (c d : Z) l : List.last (c :: l) d = List.last l c.
Proof.
  revert c d; induction l as [|y l IH]; intros c d; [done|].
  change (List.last (c :: y :: l) d) with (List.last (y :: l) d). by rewrite !IH.
Qed.

Lemma sanitize_line out last e l :
  Forall (fun c => line_char c = true) l -> no_dspace (last :: l) = true ->
  fold_left sanitize_step l (mkSan out last false e) =
    mkSan (out ++ l) (List.last l last) false e.
Proof.
  intros Hl; revert out last; induction Hl as [|c l Hc Hl IH]; intros out last Hd.
  - cbn. by rewrite app_nil_r.
  - cbn [no_dspace] in Hd. apply andb_true_iff in Hd as [Hn Hd]. cbn [fold_left].
    rewrite sanitize_step_char; [|done|].
    + rewrite IH by done. by rewrite <- app_assoc, last_cons_default.
    + rewrite negb_true_iff, andb_false_iff, !Z.eqb_neq in Hn. tauto.
Qed.

Lemma sanitize_line_ok l :
  line_ok l = true -> sanitize_header_line (l ++ CRLF) = l.
Proof.
  intros (c & l' & -> & Hc & Hlast & Hch & Hd)%line_ok_spec.
  unfold sanitize_header_line. rewrite fold_left_app. unfold san0.
  rewrite sanitize_line; [|done|].
  - cbn [app]. rewrite last_cons_default in *.
    unfold CRLF; cbn [fold_left]. unfold sanitize_step at 2; cbn [s_quoted s_out s_last s_escaped].
    change (CR =? 0) with false; change ((CR =? CR) || (CR =? LF) || (CR =? TAB)) with true; cbn iota.
    rewrite (proj2 (Z.eqb_neq (List.last l' c) SP)) by done.
    change ((SP =? SP) && false) with false; change (SP =? DQUOTE) with false; cbn iota.
    change (s_out (sanitize_step _ LF)) with ((c :: l') ++ [SP]).
    rewrite trim_right_app_sp, trim_right_id; [done|]. by rewrite last_cons_default.
  - exact Hd.
Qed.

(** ** Well-formed messages *)

(** Between two header lines: [l] is complete but may still be continued. *)
Definition in_header (cb : bool) (q : bool) (rem : Z) (hs : list (list Z)) (l : list Z)
    (log : list owfd_rtsp_msg) : adec :=
  mkA cb STATE_HEADER LF rem q (l ++ CRLF) hs log.

Lemma line_push cb q rem hs log p last l :
  Forall (fun c => line_char c = true) l -> is_nl last = false ->
  exists last', is_nl last' = false /\
    a_feed (mkA cb STATE_HEADER last rem q p hs log) l =
      (0, mkA cb STATE_HEADER last' rem q (p ++ l) hs log).
Proof.
  intros Hl; revert p last; induction Hl as [|c l Hc Hl IH]; intros p last Hlast.
  - exists last. by rewrite app_nil_r.
  - destruct (line_char_spec c Hc) as (H0 & Hcr & Hlf & Htab & Hq).
    pose proof (is_nl_false c Hcr Hlf) as Hnl.
    destruct (IH (p ++ [c]) c Hnl) as (last' & ? & Hf). exists last'. split; [done|].
    rewrite <- app_assoc in Hf. cbn [a_feed].
    assert (a_char (mkA cb STATE_HEADER last rem q p hs log) c =
            Some (a_push c (mkA cb STATE_HEADER last rem q p hs log))) as ->; [|exact Hf].
    unfold a_char; cbn [a_state a_last]. not_special Hcr Hlf Htab Hq.
    rewrite Hlast. by destruct (_ || _).
Qed.

Lemma line_crlf cb q rem hs log p last :
  is_nl last = false ->
  a_feed (mkA cb STATE_HEADER last rem q p hs log) CRLF =
    (0, mkA cb STATE_HEADER LF rem q (p ++ CRLF) hs log).
Proof.
  intros Hl. unfold CRLF; cbn [a_feed]. unfold a_char at 1; cbn [a_state a_last].
  change (CR =? CR) with true; cbn iota. rewrite Hl. cbn -[app].
  unfold a_set_last, a_push, a_set; cbn. by rewrite <- app_assoc.
Qed.

(** The first line of a message. *)
Lemma feed_first_line cb q rem0 last0 pend hs log l :
  line_ok l = true ->
  a_feed (mkA cb STATE_NEW last0 rem0 q pend hs log) (l ++ CRLF) =
    (0, in_header cb q 0 hs l log).
Proof.
  intros (c & l' & -> & Hc & _ & Hch & _)%line_ok_spec. apply Forall_cons in Hch as [Hcc Hch].
  destruct (line_char_spec c Hcc) as (_ & Hcr & Hlf & Htab & Hq).
  cbn [app a_feed]. unfold a_char; cbn [a_state]. unfold a_new, is_lws.
  not_special Hcr Hlf Htab Hq. rewrite (proj2 (Z.eqb_neq c SP) Hc). cbn [orb].
  change (a_set_last c (a_set _ _ _ _ _)) with (mkA cb STATE_HEADER c 0 q [c] hs log).
  pose proof (is_nl_false c Hcr Hlf) as Hnl.
  destruct (line_push cb q 0 hs log [c] c l' Hch Hnl) as (last & Hl & Hf).
  rewrite (a_feed_app _ _ _ _ Hf), line_crlf by done. done.
Qed.

(** A further line completes the one before. *)
Lemma feed_next_line cb q rem rem' hs log l l2 :
  line_ok l = true -> line_ok l2 = true -> parse_header_line rem l = (0, rem') ->
  a_feed (in_header cb q rem hs l log) (l2 ++ CRLF) =
    (0, in_header cb q rem' (hs ++ [l]) l2 log).
Proof.
  intros Hl1 (c & l' & -> & Hc & _ & Hch & _)%line_ok_spec Hp. apply Forall_cons in Hch as [Hcc Hch].
  destruct (line_char_spec c Hcc) as (_ & Hcr & Hlf & Htab & Hq).
  cbn [app a_feed]. unfold in_header, a_char; cbn [a_state a_last].
  not_special Hcr Hlf Htab Hq.
  rewrite (proj2 (Z.eqb_neq c SP) Hc). cbn [orb]. change (is_nl LF) with true; cbn iota.
  unfold a_finish; cbn [a_pend a_rem]. rewrite sanitize_line_ok, Hp by done. cbn [Z.ltb Z.compare option_map].
  change (a_set_last c (a_push _ _)) with (mkA cb STATE_HEADER c rem' q [c] (hs ++ [l]) log).
  pose proof (is_nl_false c Hcr Hlf) as Hnl.
  destruct (line_push cb q rem' (hs ++ [l]) log [c] c l' Hch Hnl) as (last & Hl & Hf).
  rewrite (a_feed_app _ _ _ _ Hf), line_crlf by done. done.
Qed.

Lemma announced_cons rem l ls n :
  announced rem (l :: ls) = Some n ->
  exists rem', parse_header_line rem l = (0, rem') /\ announced rem' ls = Some n.
Proof.
  cbn [announced]. destruct (parse_header_line rem l) as [r rem'] eqn:Hp.
  assert (r = 0 \/ r = - EINVAL) as [-> | ->].
  { unfold parse_header_line in Hp. destruct (strtoul _). repeat case_match; simplify_eq; auto. }
  - intros. by exists rem'.
  - done.
Qed.

Lemma feed_lines cb q log ls rem hs l n :
  line_ok l = true -> Forall (fun l => line_ok l = true) ls ->
  announced rem (l :: ls) = Some n ->
  exists rem' l', line_ok l' = true /\ parse_header_line rem' l' = (0, n) /\
    a_feed (in_header cb q rem hs l log) (concat (map (fun l => l ++ CRLF) ls)) =
      (0, in_header cb q rem' (hs ++ removelast (l :: ls)) l' log) /\
    removelast (l :: ls) ++ [l'] = l :: ls.
Proof.
  revert rem hs l; induction ls as [|l2 ls IH]; intros rem hs l Hl Hls Ha.
  - destruct (announced_cons _ _ _ _ Ha) as (rem' & Hp & Hn). cbn in Hn; simplify_eq.
    exists rem, l. cbn. by rewrite app_nil_r.
  - apply Forall_cons in Hls as [Hl2 Hls].
    destruct (announced_cons _ _ _ _ Ha) as (rem' & Hp & Hn).
    destruct (IH rem' (hs ++ [l]) l2 Hl2 Hls Hn) as (rem2 & l' & Hl' & Hp' & Hf & Hr).
    exists rem2, l'. split_and!; try done.
    + cbn [map concat]. rewrite (a_feed_app _ _ _ _ (feed_next_line _ _ _ _ _ _ _ _ Hl Hl2 Hp)).
      rewrite Hf, <- app_assoc. done.
    + change (removelast (l :: l2 :: ls)) with (l :: removelast (l2 :: ls)). cbn [app]. by rewrite Hr.
Qed.

(** The body completes the message. *)
Lemma feed_body cb q hs log last p b :
  b <> [] ->
  exists last', a_feed (mkA cb STATE_BODY last (zlen b) q p hs log) b =
    (0, mkA cb STATE_NEW last' 0 q [] []
          (if cb then log ++ [mkMsg (map with_len hs) (Some (p ++ b ++ [0], zlen p + zlen b))] else log)).
Proof.
  revert last p; induction b as [|c b IH]; intros last p Hne; [done|].
  pose proof (zlen_nonneg b). cbn [a_feed]. unfold a_char; cbn [a_state]. unfold a_body; cbn [a_rem].
  rewrite zlen_cons, (proj2 (Z.eqb_neq _ 0)) by lia.
  destruct b as [|c2 b].
  - exists c. change (zlen [] + 1 =? 1) with true; cbn iota. by destruct cb.
  - rewrite (proj2 (Z.eqb_neq _ 1)) by zlia.
    destruct (IH c (p ++ [c]) ltac:(done)) as [last' Hf]. exists last'.
    replace (zlen (c2 :: b) + 1 - 1) with (zlen (c2 :: b)) by lia.
    change (a_set_last c (a_set _ _ _ _ _)) with
      (mkA cb STATE_BODY c (zlen (c2 :: b)) q (p ++ [c]) hs log).
    rewrite Hf, <- app_assoc, zlen_app. cbn [app].
    replace (zlen p + zlen [c] + zlen (c2 :: b)) with (zlen p + (zlen (c2 :: b) + 1)) by zlia.
    done.
Qed.

(** The blank line. *)
Lemma feed_blank cb q rem n hs l log :
  line_ok l = true -> parse_header_line rem l = (0, n) ->
  a_feed (in_header cb q rem hs l log) CRLF =
    (0, if n =? 0
        then mkA cb STATE_NEW LF 0 q [] []
               (if cb then log ++ [mkMsg (map with_len (hs ++ [l])) None] else log)
        else mkA cb STATE_BODY LF n q [] (hs ++ [l]) log).
Proof.
  intros Hl Hp. unfold CRLF, in_header; cbn [a_feed]. unfold a_char at 1; cbn [a_state a_last].
  change (CR =? CR) with true; change (is_nl LF) with true; cbn iota.
  unfold a_finish; cbn [a_state_is a_set a_pend a_rem]. rewrite sanitize_line_ok, Hp by done.
  cbn [Z.ltb Z.compare option_map a_rem].
  destruct (Z.eqb_spec n 0) as [->|Hn].
  - by destruct cb.
  - unfold a_char, a_set_last, a_push, a_set; cbn. by rewrite (proj2 (Z.eqb_neq n 0)).
Qed.

(** What is logged for [m] when the lines [hs] were kept from before. *)
Definition log_msg (cb : bool) (hs : list (list Z)) (m : message) (log : list owfd_rtsp_msg) :
    list owfd_rtsp_msg :=
  if cb then log ++ [reported (mkMessage (hs ++ g_lines m) (g_body m))] else log.

Lemma feed_message cb q hs log last0 rem0 m :
  message_ok m ->
  exists last', a_feed (mkA cb STATE_NEW last0 rem0 q [] hs log) (encode m) =
    (0, mkA cb STATE_NEW last' 0 q [] [] (log_msg cb hs m log)).
Proof.
  destruct m as [[|l ls] b]; intros (Hne & Hok & Ha); cbn [g_lines g_body] in *; [done|].
  apply Forall_cons in Hok as [Hl Hls]. unfold encode; cbn [g_lines g_body map concat].
  destruct (feed_lines cb q log ls 0 hs l (zlen b) Hl Hls Ha) as (rem' & l' & Hl' & Hp' & Hf & Hr).
  rewrite <- app_assoc, (a_feed_app _ _ _ _ (feed_first_line _ _ _ _ _ _ _ _ Hl)).
  rewrite (a_feed_app _ _ _ _ Hf), (a_feed_app _ _ _ _ (feed_blank _ _ _ _ _ _ _ Hl' Hp')).
  rewrite <- app_assoc, Hr. unfold log_msg, reported; cbn [g_lines g_body].
  destruct b as [|c b].
  - change (zlen [] =? 0) with true; cbn iota. exists LF. done.
  - rewrite (proj2 (Z.eqb_neq _ 0)) by zlia.
    apply (feed_body cb q (hs ++ l :: ls) log LF [] (c :: b)). done.
Qed.

Lemma feed_messages cb q log last0 rem0 ms :
  Forall message_ok ms ->
  exists last' rem', a_feed (mkA cb STATE_NEW last0 rem0 q [] [] log) (concat (map encode ms)) =
    (0, mkA cb STATE_NEW last' rem' q [] [] (if cb then log ++ map reported ms else log)).
Proof.
  intros Hms; revert log last0 rem0; induction Hms as [|m ms Hm Hms IH]; intros log last0 rem0.
  - exists last0, rem0. cbn. rewrite app_nil_r. by destruct cb.
  - destruct (feed_message cb q [] log last0 rem0 m Hm) as [last1 Hf].
    destruct (IH (log_msg cb [] m log) last1 0) as (last2 & rem2 & Hf2). exists last2, rem2.
    cbn [map concat]. rewrite (a_feed_app _ _ _ _ Hf), Hf2. unfold log_msg. destruct m; cbn [g_lines g_body app].
    destruct cb; [by rewrite <- app_assoc | done].
Qed.

(** A line with a refused content length: the error comes with the first
    character after its line break. *)
Lemma feed_bad_line cb q log last0 rem0 l0 ls bad n rem' :
  Forall (fun l => line_ok l = true) (l0 :: ls) -> announced 0 (l0 :: ls) = Some n ->
  line_ok bad = true -> parse_header_line n bad = (- EINVAL, rem') ->
  a_feed (mkA cb STATE_NEW last0 rem0 q [] [] log) (encode (mkMessage (l0 :: ls ++ [bad]) [])) =
    (- EINVAL, mkA cb STATE_NEW 0 0 q [] (l0 :: ls) log).
Proof.
  intros (Hl0 & Hls)%Forall_cons Ha Hb Hp. unfold encode; cbn [g_lines g_body map concat].
  destruct (feed_lines cb q log ls 0 [] l0 n Hl0 Hls Ha) as (rem1 & l' & Hl' & Hp' & Hf & Hr).
  rewrite map_app, concat_app. cbn [map concat]. rewrite app_nil_r, <- app_assoc.
  rewrite (a_feed_app _ _ _ _ (feed_first_line _ _ _ _ _ _ _ _ Hl0)), <- app_assoc.
  rewrite (a_feed_app _ _ _ _ Hf).
  rewrite (a_feed_app _ _ _ _ (feed_next_line _ _ _ _ _ _ _ _ Hl' Hb Hp')). cbn [app].
  unfold CRLF, in_header; cbn [a_feed app]. unfold a_char at 1; cbn [a_state a_last].
  change (CR =? CR) with true; change (is_nl LF) with true; cbn iota.
  unfold a_finish; cbn [a_state_is a_set a_pend a_rem]. rewrite sanitize_line_ok, Hp by done.
  unfold a_flush; cbn [a_cb a_quoted a_header a_log]. do 2 f_equal. exact Hr.
Qed.

(** ** Whole sessions *)

(** Whatever happens to the chunks, the blocks of the decoder stay accounted
    for and the decoder stays a decoder. *)
Lemma wp_feed_chunks_any bufs a d h :
  sim d a [] -> plen a + zlen (concat bufs) < 2 ^ 58 ->
  zlen (a_header a) + zlen (concat bufs) < 2 ^ 58 ->
  wp (feed_chunks d bufs)
     (fun '(r, d') h' => (exists a', sim d' a' []) /\ heap_step h h' (dec_owned d' - dec_owned d)) h.
Proof.
  revert a d h; induction bufs as [|b bufs IH]; intros a d h Hs Hp Hh; cbn [feed_chunks concat].
  - apply wp_ret. split; [by exists a|]. rewrite Z.sub_diag. apply heap_step_refl.
  - cbn [concat] in *. rewrite zlen_app in *. pose proof (zlen_nonneg (concat bufs)).
    pose proof (zlen_nonneg b). destruct (a_feed_sizes a b) as [Hp1 Hh1].
    apply wp_bind. eapply wp_mono; [apply (wp_feed b a); [done|lia..]|].
    intros [r d1] h1 [Hst1 Hcase].
    destruct (Z.ltb_spec r 0) as [Hneg|Hpos].
    + apply wp_ret. split; [|done]. destruct Hcase as [[_ ?]|(_ & _ & ?)]; [by eexists|done].
    + destruct Hcase as [[-> Hs1]|(-> & _)]; [|unfold ENOMEM in *; lia].
      eapply wp_mono; [apply (IH _ d1 h1 Hs1); lia|].
      intros [r d2] h2 (? & Hst2). split; [done|]. eapply heap_step_trans; [done..|lia].
Qed.

Lemma wp_dec_free d a rest h :
  sim d a rest ->
  wp (owfd_rtsp_decoder_free d) (fun _ h' => heap_step h h' (- (dec_owned d + 3))) h.
Proof.
  intros ((_ & Hwf & _) & _). unfold owfd_rtsp_decoder_free, dec_owned.
  apply wp_bind, wp_free. intros h1 H1. apply wp_bind, wp_free. intros h2 H2.
  apply wp_bind, wp_free. intros h3 H3. apply wp_bind.
  eapply wp_mono; [by apply q_clear_law|]. intros q h4 [_ H4]. apply wp_free. intros h5 H5.
  refine (heap_step_trans _ _ _ _ _ _ H1 (heap_step_trans _ _ _ _ _ _ H2
    (heap_step_trans _ _ _ _ _ _ H3 (heap_step_trans _ _ _ _ _ _ H4 H5 eq_refl) eq_refl) eq_refl) _).
  lia.
Qed.

(** Create a decoder, feed it the buffers and free it. *)
Definition session (cb : bool) (bufs : list (list Z)) : alloc Z :=
  let! x := owfd_rtsp_decoder_new (Q := shl_ring) cb in
  match x with
  | inl e => ret e
  | inr d =>
    let! (r, d) := feed_chunks d bufs in
    owfd_rtsp_decoder_free d ;;! ret r
  end.

(** Create a decoder and feed it the buffers: the result and the messages. *)
Definition decode (bufs : list (list Z)) : alloc (Z * list owfd_rtsp_msg) :=
  let! x := owfd_rtsp_decoder_new (Q := shl_ring) true in
  match x with
  | inl e => ret (e, [])
  | inr d => let! (r, d) := feed_chunks d bufs in ret (r, d_log d)
  end.

(** ** Properties *)

(** C1. Feeding a buffer to a decoder on the ring buffer refines the abstract
    decoder: the return value, the messages reported, the finished lines, the
    pending bytes and the state are those of [a_feed]; the block count moves by
    exactly what the decoder owns; [-ENOMEM] happens only when a request was
    refused, and leaves a decoder that can be fed again. *)
Theorem owfd_rtsp_decoder_feed_refines (d : decoder) a buf h :
  sim d a [] -> zlen (a_pend a) + zlen buf < 2 ^ 58 -> zlen (a_header a) + zlen buf < 2 ^ 58 ->
  let '(r, d', h') := owfd_rtsp_decoder_feed d buf h in
  h_live h' = h_live h + (dec_owned d' - dec_owned d) /\
  ((r = fst (a_feed a buf) /\ sim d' (snd (a_feed a buf)) []) \/
   (r = - ENOMEM /\ ~ heap_ok h /\ decoder_ok d')).
Proof.
  intros Hs Hp Hh. pose proof (wp_feed buf a d h Hs) as Hwp.
  specialize (Hwp ltac:(unfold plen; lia) Hh). unfold wp in Hwp.
  destruct (owfd_rtsp_decoder_feed d buf h) as [[r d'] h'].
  destruct Hwp as [[Hl _] Hcase]. by split.
Qed.

(** C4. Creating a decoder, feeding it any buffers (with whatever errors that
    gives, refused allocations included) and freeing it leaves no heap block
    behind. *)
Theorem owfd_rtsp_decoder_no_leak cb bufs h :
  zlen (concat bufs) < 2 ^ 58 ->
  h_live (snd (session cb bufs h)) = h_live h.
Proof.
  intros Hlen.
  assert (wp (session cb bufs) (fun _ h' => heap_step h h' 0) h) as Hwp.
  { unfold session. apply wp_bind. eapply wp_mono; [apply wp_new|].
    intros [e|d] h1; [intros (_ & _ & Hst); by apply wp_ret|].
    intros (_ & _ & Hown & Hs & Hst). apply wp_bind.
    eapply wp_mono; [apply (wp_feed_chunks_any bufs _ d h1 Hs); unfold plen; cbn; rewrite zlen_nil; lia|].
    intros [r d2] h2 [(a2 & Hs2) Hst2]. apply wp_bind.
    eapply wp_mono; [by eapply wp_dec_free|]. intros u h3 Hst3. apply wp_ret.
    refine (heap_step_trans _ _ _ _ _ _ Hst (heap_step_trans _ _ _ _ _ _ Hst2 Hst3 eq_refl) _). lia. }
  unfold wp in Hwp. destruct (session cb bufs h). cbn. destruct Hwp; lia.
Qed.

(** C3. How the input is cut into buffers does not matter: if one cutting is
    processed without error, so is every other, and the decoder ends with the
    same messages, lines, pending bytes and state. *)
Theorem owfd_rtsp_decoder_feed_chunking (d : decoder) bufs1 bufs2 h :
  decoder_ok d -> has_room d (zlen (concat bufs1)) -> heap_ok h ->
  concat bufs1 = concat bufs2 -> fst (fst (feed_chunks d bufs1 h)) = 0 ->
  let d1 := snd (fst (feed_chunks d bufs1 h)) in
  let '(r2, d2, _) := feed_chunks d bufs2 h in
  r2 = 0 /\ d_log d2 = d_log d1 /\ d_msg d2 = d_msg d1 /\ d_state d2 = d_state d1 /\
  d_last_chr d2 = d_last_chr d1 /\ d_remaining_body d2 = d_remaining_body d1 /\
  d_quoted d2 = d_quoted d1 /\ ring_contents (d_ring d2) = ring_contents (d_ring d1).
Proof.
  intros [a Hs] [Hr Hn] Hok Heq Hz.
  assert (plen a = shl_ring_length (d_ring d)) as Hpl.
  { destruct Hs as ((_ & Hwf & _) & Hc & _). rewrite app_nil_r in Hc.
    rewrite ring_length_contents by done. unfold plen. by rewrite <- Hc. }
  assert (header_num d = zlen (a_header a)) as Hhn by (apply header_num_sim, Hs).
  pose proof (zlen_nonneg (concat bufs1)).
  assert (fst (a_feed a (concat bufs1)) = 0) as Hf
    by (eapply (wp_feed_chunks_ok bufs1 a d h); try done; lia).
  pose proof (wp_feed_chunks bufs1 a d h Hs) as H1.
  pose proof (wp_feed_chunks bufs2 a d h Hs) as H2. rewrite <- Heq in H2.
  specialize (H1 ltac:(lia) ltac:(lia) Hok Hf). specialize (H2 ltac:(lia) ltac:(lia) Hok Hf).
  unfold wp in H1, H2. destruct (feed_chunks d bufs1 h) as [[r1 d1] h1], (feed_chunks d bufs2 h) as [[r2 d2] h2].
  destruct H1 as (-> & ((? & ? & ? & ? & ? & ?) & Hc1 & ? & ? & ?) & _).
  destruct H2 as (-> & ((? & ? & ? & ? & ? & ?) & Hc2 & ? & ? & ?) & _). cbn [fst snd].
  change ring_contents with (@q_contents shl_ring _ _). split_and!; congruence.
Qed.

(** C2. Round trip: well-formed messages written one after the other and cut
    into buffers in any way are reported as they are, each exactly once and in
    order, with their lines, bodies and lengths. *)
Theorem owfd_rtsp_decoder_roundtrip ms bufs h :
  Forall message_ok ms -> concat bufs = concat (map encode ms) ->
  zlen (concat bufs) < 2 ^ 57 -> heap_ok h ->
  fst (decode bufs h) = (0, map reported ms).
Proof.
  intros Hms Heq Hlen Hok. apply wp_fst. unfold decode. apply wp_bind.
  eapply wp_mono; [apply wp_new|]. intros [e|d] h1; [by intros (_ & Hno & _)|].
  intros (Hcb & Hlog & _ & Hs & Hst). apply wp_bind.
  destruct (feed_messages true false [] 0 0 ms Hms) as (last' & rem' & Hf). rewrite <- Heq in Hf.
  eapply wp_mono; [apply (wp_feed_chunks bufs _ d h1 Hs)|].
  - unfold plen; cbn; rewrite zlen_nil; lia.
  - cbn; rewrite zlen_nil; lia.
  - by apply Hst.
  - by rewrite Hf.
  - intros [r d2] h2 (-> & Hs2 & _). apply wp_ret. rewrite Hf in Hs2; cbn in Hs2.
    destruct Hs2 as ((_ & _ & _ & _ & -> & _) & _). done.
Qed.

(** What the sanitizer leaves of a line holds no zero byte, does not end
    in a blank, and is not longer than the line, so it fits the copy of the
    line it overwrites; a line in normal form is kept as it is. *)
Theorem sanitize_header_line_spec line :
  let out := sanitize_header_line line in
  zlen out <= zlen line /\ Forall (fun c => c <> 0) out /\ List.last out 0 <> SP /\
  (forall l, line_ok l = true -> line = l ++ CRLF -> out = l).
Proof.
  unfold sanitize_header_line.
  destruct (sanitize_fold san0 line) as (k & Hk & Hlen & Hz); cbn [san0 s_out app] in Hk.
  rewrite Hk. destruct (trim_right_prefix k) as [n Hn]. cbn zeta. split_and!.
  - apply (f_equal zlen) in Hn. rewrite zlen_app in Hn. zlia.
  - rewrite Hn in Hz. apply Forall_app in Hz as [Hz _]. exact Hz.
  - apply trim_right_last.
  - intros l Hl ->. rewrite <- Hk. by apply sanitize_line_ok.
Qed.

(** An error keeps the header lines that came before it: the next message
    is reported with the lines of the refused one in front of its own. *)
Theorem owfd_rtsp_decoder_flush_keeps_lines l0 ls bad n rem' m h :
  Forall (fun l => line_ok l = true) (l0 :: ls) -> announced 0 (l0 :: ls) = Some n ->
  line_ok bad = true -> parse_header_line n bad = (- EINVAL, rem') -> message_ok m ->
  let refused := encode (mkMessage (l0 :: ls ++ [bad]) []) in
  zlen refused + zlen (encode m) < 2 ^ 57 -> heap_ok h ->
  wp (let! x := owfd_rtsp_decoder_new (Q := shl_ring) true in
      match x with
      | inl e => ret (e, e, [])
      | inr d =>
        let! (r1, d) := owfd_rtsp_decoder_feed d refused in
        let! (r2, d) := owfd_rtsp_decoder_feed d (encode m) in
        ret (r1, r2, d_log d)
      end)
     (fun x _ => x = (- EINVAL, 0, [reported (mkMessage (l0 :: ls ++ g_lines m) (g_body m))])) h.
Proof.
  intros Hls Ha Hbad Hp Hm refused Hlen Hok.
  pose proof (feed_bad_line true false [] 0 0 l0 ls bad n rem' Hls Ha Hbad Hp) as Hf1.
  fold refused in Hf1. clearbody refused. pose proof (zlen_nonneg refused). pose proof (zlen_nonneg (encode m)).
  apply wp_bind. eapply wp_mono; [apply wp_new|]. intros [e|d] h1; [by intros (_ & Hno & _)|].
  intros (_ & _ & _ & Hs & Hst). apply wp_bind.
  eapply wp_mono; [apply (wp_feed refused _ d h1 Hs); unfold plen; cbn; rewrite ?zlen_nil; lia|].
  intros [r1 d1] h2 [Hst1 Hcase].
  destruct Hcase as [[-> Hs1]|(_ & Hno & _)]; [|by destruct Hno; apply Hst].
  destruct (a_feed_sizes (mkA true STATE_NEW 0 0 false [] [] []) refused) as [_ Hsz].
  rewrite Hf1 in Hs1, Hsz |- *; cbn [fst snd] in *. cbn [a_header] in Hsz; rewrite zlen_nil in Hsz.
  apply wp_bind. eapply wp_mono; [apply (wp_feed (encode m) _ d1 h2 Hs1)|].
  - unfold plen; cbn; rewrite zlen_nil; lia.
  - cbn [a_header]; lia.
  - destruct (feed_message true false (l0 :: ls) [] 0 0 m Hm) as [last' Hf2].
    intros [r2 d2] h3 [_ [[-> Hs2]|(_ & Hno & _)]]; [|by destruct Hno; apply Hst1, Hst].
    apply wp_ret. rewrite Hf2 in Hs2 |- *; cbn [fst snd] in *.
    destruct Hs2 as ((_ & _ & _ & _ & -> & _) & _). done.
Qed.

(** ** Witnesses *)

Definition dec0 : decoder := mkDec 0 true ring0 STATE_NEW 0 0 false 8 (mkMsg [] None) [].

Lemma sim_dec0 : sim dec0 (mkA true STATE_NEW 0 0 false [] [] []) [].
Proof.
  pose proof (@q_empty_law shl_ring _ _) as (Hw & Hc & _). unfold sim, sim_core, header_num; cbn.
  by split_and!.
Qed.

Definition options : message :=
  mkMessage [str "OPTIONS * RTSP/1.0"; str "CSeq: 1"] [].

Definition parameters : message :=
  mkMessage [str "SET_PARAMETER x RTSP/1.0"; str "Content-Length: 4"] (str "a: b").

Lemma owfd_rtsp_decoder_feed_refines_witness :
  let '(r, d', h') := owfd_rtsp_decoder_feed dec0 (encode parameters) heap0 in
  h_live h' = h_live heap0 + (dec_owned d' - dec_owned dec0) /\
  ((r = fst (a_feed (mkA true STATE_NEW 0 0 false [] [] []) (encode parameters)) /\
    sim d' (snd (a_feed (mkA true STATE_NEW 0 0 false [] [] []) (encode parameters))) []) \/
   (r = - ENOMEM /\ ~ heap_ok heap0 /\ decoder_ok d')).
Proof.
  apply (owfd_rtsp_decoder_feed_refines dec0 (mkA true STATE_NEW 0 0 false [] [] []));
    [exact sim_dec0 | reflexivity | reflexivity].
Defined.

Lemma owfd_rtsp_decoder_no_leak_witness :
  h_live (snd (session true [encode options; str "Content-Length: x"; CRLF; CRLF]
                 (mkHeap [true; true; true; true; true; false] (fun _ => 0) 7))) = 7.
Proof. apply owfd_rtsp_decoder_no_leak. reflexivity. Defined.

Lemma owfd_rtsp_decoder_feed_chunking_witness :
  let d1 := snd (fst (feed_chunks dec0 [encode options; encode parameters] heap0)) in
  let '(r2, d2, _) := feed_chunks dec0 (map (fun c => [c]) (encode options ++ encode parameters)) heap0 in
  r2 = 0 /\ d_log d2 = d_log d1 /\ d_msg d2 = d_msg d1 /\ d_state d2 = d_state d1 /\
  d_last_chr d2 = d_last_chr d1 /\ d_remaining_body d2 = d_remaining_body d1 /\
  d_quoted d2 = d_quoted d1 /\ ring_contents (d_ring d2) = ring_contents (d_ring d1).
Proof.
  apply (owfd_rtsp_decoder_feed_chunking dec0); [| |constructor|vm_compute; reflexivity..].
  - eexists; exact sim_dec0.
  - split; reflexivity.
Defined.

Lemma owfd_rtsp_decoder_roundtrip_witness :
  fst (decode (map (fun c => [c]) (encode options ++ encode parameters)) heap0) =
    (0, [reported options; reported parameters]).
Proof.
  apply (owfd_rtsp_decoder_roundtrip [options; parameters]).
  - repeat constructor; discriminate.
  - vm_compute; reflexivity.
  - reflexivity.
  - constructor.
Defined.

Lemma owfd_rtsp_decoder_flush_keeps_lines_witness :
  wp (let! x := owfd_rtsp_decoder_new (Q := shl_ring) true in
      match x with
      | inl e => ret (e, e, [])
      | inr d =>
        let! (r1, d) := owfd_rtsp_decoder_feed d
          (encode (mkMessage [str "GET / RTSP/1.0"; str "Content-Length: 1x"] [])) in
        let! (r2, d) := owfd_rtsp_decoder_feed d (encode options) in
        ret (r1, r2, d_log d)
      end)
     (fun x _ => x = (- EINVAL, 0,
        [reported (mkMessage (str "GET / RTSP/1.0" :: [] ++ g_lines options) [])])) heap0.
Proof.
  apply (owfd_rtsp_decoder_flush_keeps_lines (str "GET / RTSP/1.0") [] (str "Content-Length: 1x") 0 0).
  - repeat constructor.
  - reflexivity.
  - reflexivity.
  - reflexivity.
  - repeat constructor; discriminate.
  - reflexivity.
  - constructor.
Defined.
