(* ===== verification/WpaParser.v ===== *)
(** * The wpa_supplicant event parser of [src/wpa_parser.c].

    Strings are lists of bytes without terminator; a token block is the list of
    the bytes of the allocated block, the terminators included. *)

From S2P Require Import Prelude CLib.

(** ** Data ([src/wpa.h]) *)

Inductive owfd_wpa_event_type :=
| OWFD_WPA_EVENT_UNKNOWN
| OWFD_WPA_EVENT_AP_STA_CONNECTED
| OWFD_WPA_EVENT_AP_STA_DISCONNECTED
| OWFD_WPA_EVENT_P2P_DEVICE_FOUND
| OWFD_WPA_EVENT_P2P_FIND_STOPPED
| OWFD_WPA_EVENT_P2P_GO_NEG_REQUEST
| OWFD_WPA_EVENT_P2P_GO_NEG_SUCCESS
| OWFD_WPA_EVENT_P2P_GO_NEG_FAILURE
| OWFD_WPA_EVENT_P2P_GROUP_FORMATION_SUCCESS
| OWFD_WPA_EVENT_P2P_GROUP_FORMATION_FAILURE
| OWFD_WPA_EVENT_P2P_GROUP_STARTED
| OWFD_WPA_EVENT_P2P_GROUP_REMOVED
| OWFD_WPA_EVENT_P2P_PROV_DISC_SHOW_PIN
| OWFD_WPA_EVENT_P2P_PROV_DISC_ENTER_PIN
| OWFD_WPA_EVENT_P2P_PROV_DISC_PBC_REQ
| OWFD_WPA_EVENT_P2P_PROV_DISC_PBC_RESP
| OWFD_WPA_EVENT_P2P_SERV_DISC_REQ
| OWFD_WPA_EVENT_P2P_SERV_DISC_RESP
| OWFD_WPA_EVENT_P2P_INVITATION_RECEIVED
| OWFD_WPA_EVENT_P2P_INVITATION_RESULT.

#[export] Instance owfd_wpa_event_type_eq_dec : EqDecision owfd_wpa_event_type.
Proof. solve_decision. Defined.

(** The value of the enumerator. *)
Definition event_code (ty : owfd_wpa_event_type) : Z :=
  match ty with
  | OWFD_WPA_EVENT_UNKNOWN => 0
  | OWFD_WPA_EVENT_AP_STA_CONNECTED => 1
  | OWFD_WPA_EVENT_AP_STA_DISCONNECTED => 2
  | OWFD_WPA_EVENT_P2P_DEVICE_FOUND => 3
  | OWFD_WPA_EVENT_P2P_FIND_STOPPED => 4
  | OWFD_WPA_EVENT_P2P_GO_NEG_REQUEST => 5
  | OWFD_WPA_EVENT_P2P_GO_NEG_SUCCESS => 6
  | OWFD_WPA_EVENT_P2P_GO_NEG_FAILURE => 7
  | OWFD_WPA_EVENT_P2P_GROUP_FORMATION_SUCCESS => 8
  | OWFD_WPA_EVENT_P2P_GROUP_FORMATION_FAILURE => 9
  | OWFD_WPA_EVENT_P2P_GROUP_STARTED => 10
  | OWFD_WPA_EVENT_P2P_GROUP_REMOVED => 11
  | OWFD_WPA_EVENT_P2P_PROV_DISC_SHOW_PIN => 12
  | OWFD_WPA_EVENT_P2P_PROV_DISC_ENTER_PIN => 13
  | OWFD_WPA_EVENT_P2P_PROV_DISC_PBC_REQ => 14
  | OWFD_WPA_EVENT_P2P_PROV_DISC_PBC_RESP => 15
  | OWFD_WPA_EVENT_P2P_SERV_DISC_REQ => 16
  | OWFD_WPA_EVENT_P2P_SERV_DISC_RESP => 17
  | OWFD_WPA_EVENT_P2P_INVITATION_RECEIVED => 18
  | OWFD_WPA_EVENT_P2P_INVITATION_RESULT => 19
  end.

Definition OWFD_WPA_EVENT_P_MSGDUMP : Z := 0.
Definition OWFD_WPA_EVENT_P_DEBUG : Z := 1.
Definition OWFD_WPA_EVENT_P_INFO : Z := 2.
Definition OWFD_WPA_EVENT_P_WARNING : Z := 3.
Definition OWFD_WPA_EVENT_P_ERROR : Z := 4.
Definition OWFD_WPA_EVENT_P_COUNT : Z := 5.

Definition OWFD_WPA_EVENT_ROLE_GO : Z := 0.
Definition OWFD_WPA_EVENT_ROLE_CLIENT : Z := 1.

Definition OWFD_WPA_EVENT_MAC_STRLEN : Z := 18.

(** [struct owfd_wpa_event].  Every member of the payload union begins with
    the MAC array; the role and the string pointer, where a member has them,
    are at the same offsets in every member.  So the union is one record. *)
Record owfd_wpa_event := mkEvent {
  ev_type : owfd_wpa_event_type;
  ev_priority : Z;
  ev_raw : option (list Z);
  ev_mac : list Z;
  ev_role : Z;
  ev_str : option (list Z);
}.

Definition set_type ty ev :=
  mkEvent ty (ev_priority ev) (ev_raw ev) (ev_mac ev) (ev_role ev) (ev_str ev).
Definition set_priority p ev :=
  mkEvent (ev_type ev) p (ev_raw ev) (ev_mac ev) (ev_role ev) (ev_str ev).
Definition set_raw raw ev :=
  mkEvent (ev_type ev) (ev_priority ev) raw (ev_mac ev) (ev_role ev) (ev_str ev).
Definition set_mac mac ev :=
  mkEvent (ev_type ev) (ev_priority ev) (ev_raw ev) mac (ev_role ev) (ev_str ev).
Definition set_role role ev :=
  mkEvent (ev_type ev) (ev_priority ev) (ev_raw ev) (ev_mac ev) role (ev_str ev).
Definition set_str s ev :=
  mkEvent (ev_type ev) (ev_priority ev) (ev_raw ev) (ev_mac ev) (ev_role ev) s.

(** All bytes zero. *)
Definition owfd_wpa_event_init : owfd_wpa_event :=
  mkEvent OWFD_WPA_EVENT_UNKNOWN 0 None (replicate 18 0) 0 None.

Definition opt_blocks {A} (o : option A) : Z := match o with Some _ => 1 | None => 0 end.

(** [free], of a null pointer or of one block. *)
Definition free_opt {A} (o : option A) : alloc unit := free_blocks (opt_blocks o).

(** The events whose payload owns a string. *)
Definition has_str (ty : owfd_wpa_event_type) : bool :=
  match ty with
  | OWFD_WPA_EVENT_P2P_DEVICE_FOUND
  | OWFD_WPA_EVENT_P2P_GROUP_STARTED
  | OWFD_WPA_EVENT_P2P_PROV_DISC_SHOW_PIN => true
  | _ => false
  end.

Definition owfd_wpa_event_reset (ev : owfd_wpa_event) : alloc owfd_wpa_event :=
  free_opt (ev_raw ev) ;;!
  (if has_str (ev_type ev) then free_opt (ev_str ev) else ret tt) ;;!
  ret owfd_wpa_event_init.

(** ** The table of event names *)

Record event_type := mkType { ty_name : list Z; ty_len : Z; ty_code : owfd_wpa_event_type }.

Definition EVENT (name : string) (code : owfd_wpa_event_type) : event_type :=
  mkType (str name) (zlen (str name)) code.

Definition event_list : list event_type := [
  EVENT "AP-STA-CONNECTED" OWFD_WPA_EVENT_AP_STA_CONNECTED;
  EVENT "AP-STA-DISCONNECTED" OWFD_WPA_EVENT_AP_STA_DISCONNECTED;
  EVENT "P2P-DEVICE-FOUND" OWFD_WPA_EVENT_P2P_DEVICE_FOUND;
  EVENT "P2P-FIND-STOPPED" OWFD_WPA_EVENT_P2P_FIND_STOPPED;
  EVENT "P2P-GO-NEG-FAILURE" OWFD_WPA_EVENT_P2P_GO_NEG_FAILURE;
  EVENT "P2P-GO-NEG-REQUEST" OWFD_WPA_EVENT_P2P_GO_NEG_REQUEST;
  EVENT "P2P-GO-NEG-SUCCESS" OWFD_WPA_EVENT_P2P_GO_NEG_SUCCESS;
  EVENT "P2P-GROUP-FORMATION-FAILURE" OWFD_WPA_EVENT_P2P_GROUP_FORMATION_FAILURE;
  EVENT "P2P-GROUP-FORMATION-SUCCESS" OWFD_WPA_EVENT_P2P_GROUP_FORMATION_SUCCESS;
  EVENT "P2P-GROUP-REMOVED" OWFD_WPA_EVENT_P2P_GROUP_REMOVED;
  EVENT "P2P-GROUP-STARTED" OWFD_WPA_EVENT_P2P_GROUP_STARTED;
  EVENT "P2P-INVITATION-RECEIVED" OWFD_WPA_EVENT_P2P_INVITATION_RECEIVED;
  EVENT "P2P-INVITATION-RESULT" OWFD_WPA_EVENT_P2P_INVITATION_RESULT;
  EVENT "P2P-PROV-DISC-ENTER-PIN" OWFD_WPA_EVENT_P2P_PROV_DISC_ENTER_PIN;
  EVENT "P2P-PROV-DISC-PBC-REQ" OWFD_WPA_EVENT_P2P_PROV_DISC_PBC_REQ;
  EVENT "P2P-PROV-DISC-PBC-RESP" OWFD_WPA_EVENT_P2P_PROV_DISC_PBC_RESP;
  EVENT "P2P-PROV-DISC-SHOW-PIN" OWFD_WPA_EVENT_P2P_PROV_DISC_SHOW_PIN;
  EVENT "P2P-SERV-DISC-REQ" OWFD_WPA_EVENT_P2P_SERV_DISC_REQ;
  EVENT "P2P-SERV-DISC-RESP" OWFD_WPA_EVENT_P2P_SERV_DISC_RESP
].

(** Linear search by code; the argument is any [unsigned int]. *)
Definition owfd_wpa_event_name (type : Z) : list Z :=
  match List.find (fun e => event_code (ty_code e) =? type) event_list with
  | Some e => ty_name e
  | None => str "UNKNOWN"
  end.

Definition event_comp (k : list Z) (t : event_type) : Z :=
  let r := strncmp k (ty_name t) (Z.to_nat (ty_len t)) in
  if negb (r =? 0) then r
  else if negb (char_at k (ty_len t) =? 0) && negb (char_at k (ty_len t) =? SP) then 1
  else 0.

(** ** Tokens *)

Record wtok := mkWtok {
  w_out : list Z;
  w_last : Z;
  w_num : Z;
  w_quoted : bool;
  w_escaped : bool;
}.

Definition SQUOTE : Z := 39.

Definition is_blank (c : Z) : bool := (c =? SP) || (c =? LF) || (c =? TAB) || (c =? CR).

Definition wtok_step (s : wtok) (c : Z) : wtok :=
  let 'mkWtok out last n quoted escaped := s in
  if quoted then
    if escaped then mkWtok (out ++ [c]) c n true false
    else if c =? SQUOTE then mkWtok out last n false false
    else if c =? BSLASH then mkWtok out last n true true
    else mkWtok (out ++ [c]) c n true false
  else
    if is_blank c then
      if last =? 0 then mkWtok out 0 n false escaped
      else mkWtok (out ++ [0]) 0 (n + 1) false escaped
    else if c =? SQUOTE then mkWtok out c n true false
    else mkWtok (out ++ [c]) c n false escaped.

Definition wtok0 : wtok := mkWtok [] 0 0 false false.

(** The block and the number of tokens in it. *)
Definition tokenize (src : list Z) : alloc (option (list Z * Z)) :=
  let! b := malloc (u64 (strlen src + 1)) in
  match b with
  | None => ret None
  | Some buf =>
    let buf := memcpy 0 [0] buf in
    let s := fold_left wtok_step (cstr src) wtok0 in
    let buf := memcpy 0 (w_out s) buf in
    if w_last s =? 0 then ret (Some (buf, w_num s))
    else ret (Some (memcpy (zlen (w_out s)) [0] buf, w_num s + 1))
  end.

(** [tokens + strlen (tokens) + 1] *)
Definition next_token (tokens : list Z) : list Z := zdrop (strlen tokens + 1) tokens.

(** ** Field parsers *)

(** One [%2x] conversion of [sscanf]: blanks, then at most two characters of a
    hexadecimal number with optional sign.  [0x] with nothing after it is a
    prefix of a number but not one, so it fails. *)
Definition scan_x2 (s : list Z) : option (list Z) :=
  match skip_space s with
  | c :: s' =>
    if (c =? chr "+") || (c =? chr "-") then
      match s' with
      | d :: s'' => if isxdigit d then Some s'' else None
      | [] => None
      end
    else if isxdigit c then
      match s' with
      | d :: s'' =>
        if isxdigit d then Some s''
        else if (c =? chr "0") && (tolower d =? chr "x") then None
        else Some s'
      | [] => Some []
      end
    else None
  | [] => None
  end.

(** A literal [:] of the format. *)
Definition scan_colon (s : list Z) : option (list Z) :=
  match s with
  | c :: s' => if c =? chr ":" then Some s' else None
  | [] => None
  end.

(** [sscanf (src, "%2x:%2x:...") == n]: all [n] conversions succeed. *)
Fixpoint scan_mac (n : nat) (s : list Z) : bool :=
  match n with
  | O => true
  | S O => match scan_x2 s with Some _ => true | None => false end
  | S n' =>
    match scan_x2 s with
    | Some s1 => match scan_colon s1 with Some s2 => scan_mac n' s2 | None => false end
    | None => false
    end
  end.

(** The return value and the 18 bytes at [buf] ([strcpy] on success). *)
Definition parse_mac (buf : list Z) (src : list Z) : Z * list Z :=
  if 17 <? strlen src then (- EINVAL, buf)
  else if negb (scan_mac 6 (cstr src)) then (- EINVAL, buf)
  else (0, memcpy 0 (cstr src ++ [0]) buf).

(** ** The payload parsers: return value and event *)

(** All four [parse_*] functions that only read a MAC. *)
Definition parse_mac_only (ev : owfd_wpa_event) (tokens : list Z) (num : Z) : Z * owfd_wpa_event :=
  if num <? 1 then (- EINVAL, ev)
  else
    let '(r, mac) := parse_mac (ev_mac ev) tokens in
    if r <? 0 then (r, ev) else (0, set_mac mac ev).

Definition parse_ap_sta_connected := parse_mac_only.
Definition parse_ap_sta_disconnected := parse_mac_only.
Definition parse_p2p_prov_disc_enter_pin := parse_mac_only.
Definition parse_p2p_prov_disc_pbc_req := parse_mac_only.
Definition parse_p2p_prov_disc_pbc_resp := parse_mac_only.

(** The loop over the [n] remaining tokens. *)
Fixpoint device_found_loop (ev : owfd_wpa_event) (tokens : list Z) (n : nat) :
    alloc (Z * owfd_wpa_event) :=
  match n with
  | O => ret (- EINVAL, ev)
  | S n' =>
    if negb (strncmp tokens (str "name=") 5 =? 0) then device_found_loop ev (next_token tokens) n'
    else
      let! name := strdup (drop 5 tokens) in
      match name with
      | None => ret (- ENOMEM, ev)
      | Some s => ret (0, set_str (Some s) ev)
      end
  end.

Definition parse_p2p_device_found (ev : owfd_wpa_event) (tokens : list Z) (num : Z) :
    alloc (Z * owfd_wpa_event) :=
  if num <? 2 then ret (- EINVAL, ev)
  else
    let '(r, mac) := parse_mac (ev_mac ev) tokens in
    if r <? 0 then ret (r, ev)
    else device_found_loop (set_mac mac ev) (next_token tokens) (Z.to_nat (num - 1)).

Fixpoint go_neg_loop (ev : owfd_wpa_event) (has_role has_peer : bool) (tokens : list Z) (n : nat) :
    Z * owfd_wpa_event :=
  match n with
  | O => (if has_role && has_peer then 0 else - EINVAL, ev)
  | S n' =>
    if strncmp tokens (str "role=") 5 =? 0 then
      if strcmp (drop 5 tokens) (str "GO") =? 0 then
        go_neg_loop (set_role OWFD_WPA_EVENT_ROLE_GO ev) true has_peer (next_token tokens) n'
      else if strcmp (drop 5 tokens) (str "client") =? 0 then
        go_neg_loop (set_role OWFD_WPA_EVENT_ROLE_CLIENT ev) true has_peer (next_token tokens) n'
      else (- EINVAL, ev)
    else if strncmp tokens (str "peer_dev=") 9 =? 0 then
      let '(r, mac) := parse_mac (ev_mac ev) (drop 9 tokens) in
      if r <? 0 then (r, ev)
      else go_neg_loop (set_mac mac ev) has_role true (next_token tokens) n'
    else go_neg_loop ev has_role has_peer (next_token tokens) n'
  end.

Definition parse_p2p_go_neg_success (ev : owfd_wpa_event) (tokens : list Z) (num : Z) :
    Z * owfd_wpa_event :=
  if num <? 2 then (- EINVAL, ev) else go_neg_loop ev false false tokens (Z.to_nat num).

Fixpoint group_started_loop (ev : owfd_wpa_event) (tokens : list Z) (n : nat) : Z * owfd_wpa_event :=
  match n with
  | O => (- EINVAL, ev)
  | S n' =>
    if negb (strncmp tokens (str "go_dev_addr=") 12 =? 0) then
      group_started_loop ev (next_token tokens) n'
    else
      let '(r, mac) := parse_mac (ev_mac ev) (drop 12 tokens) in
      if r <? 0 then (r, ev) else (0, set_mac mac ev)
  end.

Definition parse_p2p_group_started (ev : owfd_wpa_event) (tokens : list Z) (num : Z) :
    alloc (Z * owfd_wpa_event) :=
  if num <? 3 then ret (- EINVAL, ev)
  else
    let! ifname := strdup tokens in
    match ifname with
    | None => ret (- ENOMEM, ev)
    | Some s =>
      let ev := set_str (Some s) ev in
      let tokens := next_token tokens in
      if strcmp tokens (str "GO") =? 0 then
        ret (group_started_loop (set_role OWFD_WPA_EVENT_ROLE_GO ev) (next_token tokens)
               (Z.to_nat (num - 2)))
      else if strcmp tokens (str "client") =? 0 then
        ret (group_started_loop (set_role OWFD_WPA_EVENT_ROLE_CLIENT ev) (next_token tokens)
               (Z.to_nat (num - 2)))
      else ret (- EINVAL, ev)
    end.

Definition parse_p2p_prov_disc_show_pin (ev : owfd_wpa_event) (tokens : list Z) (num : Z) :
    alloc (Z * owfd_wpa_event) :=
  if num <? 2 then ret (- EINVAL, ev)
  else
    let '(r, mac) := parse_mac (ev_mac ev) tokens in
    if r <? 0 then ret (r, ev)
    else
      let! pin := strdup (next_token tokens) in
      match pin with
      | None => ret (- ENOMEM, set_mac mac ev)
      | Some s => ret (0, set_str (Some s) (set_mac mac ev))
      end.

(** ** The event parser *)

Fixpoint skip_sp (t : list Z) : list Z :=
  match t with
  | c :: t' => if c =? SP then skip_sp t' else t
  | [] => []
  end.

(** The string after the priority and the priority; [None] when the bracket is
    not closed.  [end + 1 != t] compares positions in [event]. *)
Definition parse_priority (event : list Z) : option (list Z * Z) :=
  if char_at event 0 =? chr "<" then
    match strchr event (chr ">") with
    | None => None
    | Some i =>
      let t := zdrop (i + 1) event in
      let '(v, e) := strtoul (zdrop 1 event) in
      let p := u32 v in
      let p :=
        if (OWFD_WPA_EVENT_P_COUNT <=? p) || negb (zlen e - 1 =? zlen t) ||
           (char_at event 1 =? chr "=") || (char_at event 1 =? chr "-")
        then OWFD_WPA_EVENT_P_MSGDUMP else p in
      Some (t, p)
    end
  else Some (event, OWFD_WPA_EVENT_P_MSGDUMP).

Definition parse_payload (ev : owfd_wpa_event) (tokens : list Z) (num : Z) :
    alloc (Z * owfd_wpa_event) :=
  match ev_type ev with
  | OWFD_WPA_EVENT_AP_STA_CONNECTED => ret (parse_ap_sta_connected ev tokens num)
  | OWFD_WPA_EVENT_AP_STA_DISCONNECTED => ret (parse_ap_sta_disconnected ev tokens num)
  | OWFD_WPA_EVENT_P2P_DEVICE_FOUND => parse_p2p_device_found ev tokens num
  | OWFD_WPA_EVENT_P2P_GO_NEG_SUCCESS => ret (parse_p2p_go_neg_success ev tokens num)
  | OWFD_WPA_EVENT_P2P_GROUP_STARTED => parse_p2p_group_started ev tokens num
  | OWFD_WPA_EVENT_P2P_PROV_DISC_SHOW_PIN => parse_p2p_prov_disc_show_pin ev tokens num
  | OWFD_WPA_EVENT_P2P_PROV_DISC_ENTER_PIN => ret (parse_p2p_prov_disc_enter_pin ev tokens num)
  | OWFD_WPA_EVENT_P2P_PROV_DISC_PBC_REQ => ret (parse_p2p_prov_disc_pbc_req ev tokens num)
  | OWFD_WPA_EVENT_P2P_PROV_DISC_PBC_RESP => ret (parse_p2p_prov_disc_pbc_resp ev tokens num)
  | _ => ret (0, ev)
  end.

Definition event_unknown (ev : owfd_wpa_event) : Z * owfd_wpa_event :=
  (0, set_type OWFD_WPA_EVENT_UNKNOWN ev).

Definition event_error (r : Z) (ev : owfd_wpa_event) : alloc (Z * owfd_wpa_event) :=
  let! ev := owfd_wpa_event_reset ev in ret (r, ev).

Definition owfd_wpa_event_parse (ev : owfd_wpa_event) (event : list Z) : alloc (Z * owfd_wpa_event) :=
  let event := cstr event in
  let! ev := owfd_wpa_event_reset ev in
  match parse_priority event with
  | None => ret (event_unknown ev)
  | Some (t, p) =>
    let ev := set_priority p ev in
    match bsearch (event_comp t) event_list with
    | None => ret (event_unknown ev)
    | Some code =>
      let ev := set_type (ty_code code) ev in
      let! raw := strdup (skip_sp (zdrop (ty_len code) t)) in
      match raw with
      | None => event_error (- ENOMEM) ev
      | Some s =>
        let ev := set_raw (Some s) ev in
        let! tokens := tokenize s in
        match tokens with
        | None => event_error (- ENOMEM) ev
        | Some (buf, num) =>
          let! (r, ev) := parse_payload ev buf num in
          free_blocks 1 ;;!
          if r <? 0 then event_error r ev else ret (0, ev)
        end
      end
    end
  end.

(** ** Specification *)

(** What the fields of a recognised event are. *)
Record payload := mkPayload { pl_mac : list Z; pl_role : Z; pl_str : option (list Z) }.

Definition strip_prefix (p t : list Z) : option (list Z) :=
  if decide (take (length p) t = p) then Some (drop (length p) t) else None.

Definition mac_ok (t : list Z) : bool := (zlen t <=? 17) && scan_mac 6 t.

Definition role_of (t : list Z) : option Z :=
  if decide (t = str "GO") then Some OWFD_WPA_EVENT_ROLE_GO
  else if decide (t = str "client") then Some OWFD_WPA_EVENT_ROLE_CLIENT
  else None.

(** The payload the tokens of an event denote; [None] when they are refused.
    The last [role=] and [peer_dev=] of a negotiation count, and all of them
    must be right; of [name=] and [go_dev_addr=] only the first is read. *)
Definition spec_payload (ty : owfd_wpa_event_type) (ts : list (list Z)) : option payload :=
  match ty with
  | OWFD_WPA_EVENT_AP_STA_CONNECTED | OWFD_WPA_EVENT_AP_STA_DISCONNECTED
  | OWFD_WPA_EVENT_P2P_PROV_DISC_ENTER_PIN | OWFD_WPA_EVENT_P2P_PROV_DISC_PBC_REQ
  | OWFD_WPA_EVENT_P2P_PROV_DISC_PBC_RESP =>
    match ts with
    | m :: _ => if mac_ok m then Some (mkPayload m 0 None) else None
    | [] => None
    end
  | OWFD_WPA_EVENT_P2P_DEVICE_FOUND =>
    match ts with
    | m :: rest =>
      if mac_ok m then
        match omap (strip_prefix (str "name=")) rest with
        | name :: _ => Some (mkPayload m 0 (Some name))
        | [] => None
        end
      else None
    | [] => None
    end
  | OWFD_WPA_EVENT_P2P_GO_NEG_SUCCESS =>
    let roles := map role_of (omap (strip_prefix (str "role=")) ts) in
    let macs := omap (strip_prefix (str "peer_dev=")) ts in
    if forallb mac_ok macs then
      match mapM id roles, last macs with
      | Some rs, Some m =>
        match last rs with Some r => Some (mkPayload m r None) | None => None end
      | _, _ => None
      end
    else None
  | OWFD_WPA_EVENT_P2P_GROUP_STARTED =>
    match ts with
    | ifname :: r :: rest =>
      match role_of r, omap (strip_prefix (str "go_dev_addr=")) rest with
      | Some role, m :: _ => if mac_ok m then Some (mkPayload m role (Some ifname)) else None
      | _, _ => None
      end
    | _ => None
    end
  | OWFD_WPA_EVENT_P2P_PROV_DISC_SHOW_PIN =>
    match ts with
    | m :: pin :: _ => if mac_ok m then Some (mkPayload m 0 (Some pin)) else None
    | _ => None
    end
  | _ => Some (mkPayload [] 0 None)
  end.

(** The tokens of a line: [cur] is the open token, [q] and [e] tell whether we
    are inside quotes and after a backslash there. *)
Fixpoint words (cur : option (list Z)) (q e : bool) (src : list Z) : list (list Z) :=
  match src with
  | [] => match cur with Some t => [t] | None => [] end
  | c :: src' =>
    let add := Some (default [] cur ++ [c]) in
    if q then
      if e then words add true false src'
      else if c =? SQUOTE then words cur false false src'
      else if c =? BSLASH then words cur true true src'
      else words add true false src'
    else if is_blank c then
      match cur with
      | Some t => t :: words None false false src'
      | None => words None false false src'
      end
    else if c =? SQUOTE then words (Some (default [] cur)) true false src'
    else words add false false src'
  end.

Definition tokens_of (src : list Z) : list (list Z) := words None false false src.

(** The table entry whose name starts the line, followed by a blank or the end. *)
Definition names (t : list Z) (e : event_type) : bool :=
  match strip_prefix (ty_name e) t with
  | Some [] => true
  | Some (c :: _) => c =? SP
  | None => false
  end.

Inductive parsed :=
| Unknown (p : Z)
| Malformed
| Known (ty : owfd_wpa_event_type) (p : Z) (raw : list Z) (pl : payload).

Definition spec_event (event : list Z) : parsed :=
  match parse_priority event with
  | None => Unknown 0
  | Some (t, p) =>
    match List.find (names t) event_list with
    | None => Unknown p
    | Some e =>
      let raw := skip_sp (zdrop (ty_len e) t) in
      match spec_payload (ty_code e) (tokens_of raw) with
      | Some pl => Known (ty_code e) p raw pl
      | None => Malformed
      end
    end
  end.

Definition matches (ev : owfd_wpa_event) (pl : payload) : Prop :=
  cstr (ev_mac ev) = pl_mac pl /\ ev_role ev = pl_role pl /\ ev_str ev = pl_str pl.

(** Return value and event the specification allows. *)
Definition agrees (s : parsed) (r : Z) (ev : owfd_wpa_event) : Prop :=
  match s with
  | Unknown p => r = 0 /\ ev = set_priority p owfd_wpa_event_init
  | Malformed => r = - EINVAL /\ ev = owfd_wpa_event_init
  | Known ty p raw pl =>
    r = 0 /\ ev_type ev = ty /\ ev_priority ev = p /\ ev_raw ev = Some raw /\ matches ev pl
  end.

(** ** The name table *)

Fixpoint name_lt (a b : list Z) : bool :=
  match a, b with
  | x :: a', y :: b' => (x <? y) || ((x =? y) && name_lt a' b')
  | _, _ => false
  end.

Lemma name_lt_strncmp k a b :
  name_lt a b = true -> Forall (fun c => c <> 0) a ->
  strncmp k a (length a) <= 0 -> strncmp k b (length b) < 0.
Proof.
  revert k b; induction a as [|x a IH]; intros k [|y b] Hlt Hz Hle; try done.
  apply Forall_cons in Hz as [Hx Hz]. cbn [name_lt] in Hlt. cbn [length strncmp hd] in *.
  apply orb_true_iff in Hlt as [Hxy%Z.ltb_lt|[->%Z.eqb_eq Hlt]%andb_true_iff].
  - assert (hd 0 k <= x) by (destruct (Z.eqb_spec (hd 0 k) x); lia).
    destruct (Z.eqb_spec (hd 0 k) y); lia.
  - revert Hle. destruct (Z.eqb_spec (hd 0 k) y) as [->|]; [|lia].
    destruct (Z.eqb_spec y 0); [done|]. by apply (IH (tl k)).
Qed.

Fixpoint all_lt (l : list event_type) : bool :=
  match l with
  | [] => true
  | x :: l' => forallb (fun y => name_lt (ty_name x) (ty_name y)) l' && all_lt l'
  end.

Definition type_ok (e : event_type) : Prop :=
  ty_len e = zlen (ty_name e) /\ Forall (fun c => c <> 0) (ty_name e).

Lemma all_lt_lookup l i j x y :
  all_lt l = true -> (i < j)%nat -> l !! i = Some x -> l !! j = Some y ->
  name_lt (ty_name x) (ty_name y) = true.
Proof.
  revert i j; induction l as [|z l IH]; intros i j Hl Hij Hx Hy; [done|].
  apply andb_true_iff in Hl as [Hz Hl]. destruct j as [|j]; [lia|].
  destruct i as [|i]; cbn in Hx, Hy; simplify_eq.
  - rewrite forallb_forall in Hz. apply Hz, list_elem_of_In. by eapply list_elem_of_lookup_2.
  - apply (IH i j); try done; lia.
Qed.

Lemma event_list_ok : Forall type_ok event_list.
Proof. repeat (constructor; [split; [done|repeat constructor; done]|]). constructor. Qed.

Lemma event_comp_sorted k : bsearch_sorted (event_comp k) event_list.
Proof.
  intros i j x y Hij Hx Hy Hle.
  pose proof (all_lt_lookup event_list i j x y eq_refl Hij Hx Hy) as Hlt.
  pose proof (Forall_lookup_1 _ _ _ _ event_list_ok Hx) as [Hlx Hzx].
  pose proof (Forall_lookup_1 _ _ _ _ event_list_ok Hy) as [Hly Hzy].
  unfold event_comp in *. rewrite Hlx in Hle; rewrite Hly. unfold zlen in *; rewrite Nat2Z.id in *.
  pose proof (name_lt_strncmp k _ _ Hlt Hzx) as Hs.
  destruct (Z.eqb_spec (strncmp k (ty_name x) (length (ty_name x))) 0) as [H0|H0]; cbn in Hle.
  - specialize (Hs ltac:(lia)). by rewrite (proj2 (Z.eqb_neq _ 0)) by lia.
  - specialize (Hs Hle). by rewrite (proj2 (Z.eqb_neq _ 0)) by lia.
Qed.

Lemma strip_prefix_spec p t r : strip_prefix p t = Some r <-> t = p ++ r.
Proof.
  unfold strip_prefix. case_decide as H; split.
  - intros [= <-]. by rewrite <- H at 1; rewrite take_drop.
  - intros ->. by rewrite drop_app_length.
  - done.
  - intros ->. destruct H. by rewrite take_app_length.
Qed.

Lemma strncmp_strip p t :
  Forall (fun c => c <> 0) p ->
  (strncmp t p (length p) =? 0) = match strip_prefix p t with Some _ => true | None => false end.
Proof.
  intros Hp. destruct (strip_prefix p t) as [r|] eqn:Hs.
  - apply strip_prefix_spec in Hs as ->. by rewrite strncmp_app.
  - apply Z.eqb_neq. intros (r & ->)%strncmp_prefix; [|done..].
    by rewrite (proj2 (strip_prefix_spec p (p ++ r) r)) in Hs.
Qed.

Lemma event_comp_names k e :
  type_ok e -> Forall (fun c => c <> 0) k -> (event_comp k e =? 0) = names k e.
Proof.
  intros [Hl Hz] Hk. unfold event_comp, names. rewrite Hl. unfold zlen; rewrite Nat2Z.id.
  rewrite strncmp_strip by done. destruct (strip_prefix _ k) as [r|] eqn:Hs; cbn [negb].
  - apply strip_prefix_spec in Hs as ->. unfold char_at.
    rewrite (proj2 (Z.ltb_ge _ 0)) by lia. rewrite Nat2Z.id, lookup_app_r, Nat.sub_diag by done.
    destruct r as [|c r]; [done|]. cbn. apply Forall_app in Hk as [_ [Hc _]%Forall_cons].
    rewrite (proj2 (Z.eqb_neq c 0)) by done. by destruct (c =? SP).
  - pose proof (strncmp_strip _ k Hz) as Hn. rewrite Hs in Hn. by rewrite Hn.
Qed.

(** The binary search finds the entry whose name is the first word. *)
Lemma event_lookup k :
  Forall (fun c => c <> 0) k ->
  bsearch (event_comp k) event_list = List.find (names k) event_list.
Proof.
  intros Hk. rewrite bsearch_find by apply event_comp_sorted.
  pose proof event_list_ok as Hok. induction Hok as [|e l He _ IH]; [done|].
  cbn [List.find]. by rewrite event_comp_names, IH.
Qed.

(** ** The tokenizer *)

Definition cur_bytes (cur : option (list Z)) : list Z := default [] cur.

(** The state after some input: the finished tokens and the open one. *)
Definition wtok_at (done : list (list Z)) (cur : option (list Z)) (s : wtok) : Prop :=
  w_out s = flatten_tokens done ++ cur_bytes cur /\
  (w_last s = 0 <-> cur = None) /\ w_num s = zlen done.

Lemma flatten_tokens_app a b : flatten_tokens (a ++ b) = flatten_tokens a ++ flatten_tokens b.
Proof. unfold flatten_tokens. by rewrite map_app, concat_app. Qed.

Lemma flatten_tokens_one t : flatten_tokens [t] = t ++ [0].
Proof. unfold flatten_tokens; cbn. by rewrite app_nil_r. Qed.

Lemma wtok_add dn cur s c q e n :
  wtok_at dn cur s -> c <> 0 -> n = w_num s ->
  wtok_at dn (Some (default [] cur ++ [c])) (mkWtok (w_out s ++ [c]) c n q e).
Proof.
  intros (Ho & _ & Hn) Hc ->. split_and!; cbn; [|by split; intros|done].
  rewrite Ho, <- app_assoc. by destruct cur.
Qed.

Lemma wtok_run dn cur s src :
  wtok_at dn cur s -> Forall (fun c => c <> 0) src -> (w_quoted s = true -> cur <> None) ->
  let s' := fold_left wtok_step src s in
  exists dn' cur', wtok_at dn' cur' s' /\
    dn' ++ match cur' with Some t => [t] | None => [] end =
    dn ++ words cur (w_quoted s) (if w_quoted s then w_escaped s else false) src /\
    zlen (w_out s') <= zlen (w_out s) + zlen src.
Proof.
  intros Hat Hz Hq. revert dn cur s Hat Hq; induction Hz as [|c src Hc Hz IH]; intros dn cur s Hat Hq.
  - exists dn, cur. cbn. split_and!; [done|by destruct cur|zlia].
  - cbn [fold_left words].
    assert (forall dn1 cur1 s1, wtok_at dn1 cur1 s1 -> (w_quoted s1 = true -> cur1 <> None) ->
      wtok_step s c = s1 -> zlen (w_out s1) <= zlen (w_out s) + 1 ->
      dn1 ++ words cur1 (w_quoted s1) (if w_quoted s1 then w_escaped s1 else false) src =
      dn ++ words cur (w_quoted s) (if w_quoted s then w_escaped s else false) (c :: src) ->
      exists dn' cur', wtok_at dn' cur' (fold_left wtok_step src (wtok_step s c)) /\
        dn' ++ match cur' with Some t => [t] | None => [] end =
        dn ++ words cur (w_quoted s) (if w_quoted s then w_escaped s else false) (c :: src) /\
        zlen (w_out (fold_left wtok_step src (wtok_step s c))) <= zlen (w_out s) + zlen (c :: src)) as Hgo.
    { intros dn1 cur1 s1 Hat1 Hq1 -> Hlen Hw. destruct (IH dn1 cur1 s1 Hat1 Hq1) as (d2 & c2 & ? & He & ?).
      exists d2, c2. split_and!; [done|by rewrite He|zlia]. }
    pose proof (fun q e => wtok_add dn cur s c q e (w_num s) Hat Hc eq_refl) as Hadd.
    destruct Hat as (Ho & Hl & Hn). destruct s as [out last n q e]; cbn [w_out w_last w_num w_quoted w_escaped] in *.
    cbn [wtok_step words] in Hgo |- *.
    destruct q; [destruct e; [|destruct (c =? SQUOTE) eqn:?; [|destruct (c =? BSLASH) eqn:?]]
                |destruct (is_blank c) eqn:?; [destruct (Z.eqb_spec last 0) as [Hl0|Hl0]|destruct (c =? SQUOTE) eqn:?]].
    all: first
      [ by apply (Hgo dn (Some (default [] cur ++ [c])) _ (Hadd true false)); try done; cbn; zlia
      | by apply (Hgo dn (Some (default [] cur ++ [c])) _ (Hadd false e)); try done; cbn; zlia
      | by apply (Hgo dn cur (mkWtok out last n false false)); try done; cbn; zlia
      | by apply (Hgo dn cur (mkWtok out last n true true)); try done; cbn; try zlia; intros; apply Hq
      | idtac ].
    + apply Hl in Hl0 as ->. apply (Hgo dn None (mkWtok out 0 n false e)); try done; cbn; zlia.
    + destruct cur as [t|]; [|tauto]. cbn [cur_bytes default] in *.
      apply (Hgo (dn ++ [t]) None (mkWtok (out ++ [0]) 0 (n + 1) false e)); try done; cbn; [|zlia|].
      * split_and!; cbn; [|done|zlia].
        rewrite Ho, flatten_tokens_app, flatten_tokens_one, app_nil_r. by rewrite <- app_assoc.
      * by rewrite <- app_assoc.
    + apply (Hgo dn (Some (default [] cur)) (mkWtok out c n true false)); try done; cbn; zlia.
Qed.

(** The block a token list is stored in (of a size malloc can give). *)
Definition holds (buf : list Z) (ts : list (list Z)) : Prop :=
  zlen buf <= 2 ^ 62 /\ exists rest, buf = flatten_tokens ts ++ rest.

Definition no_zero (l : list Z) : Prop := Forall (fun c => c <> 0) l.

Lemma words_no_zero cur q e src :
  no_zero src -> no_zero (default [] cur) -> Forall no_zero (words cur q e src).
Proof.
  intros Hz; revert cur q e; induction Hz as [|c src Hc Hz IH]; intros cur q e Hcur; cbn [words].
  - destruct cur; repeat constructor. exact Hcur.
  - assert (no_zero (default [] cur ++ [c])) by (apply Forall_app; split; [done | by repeat constructor]).
    destruct q; [destruct e; [|destruct (c =? SQUOTE); [|destruct (c =? BSLASH)]]
                |destruct (is_blank c); [destruct cur|destruct (c =? SQUOTE)]];
      try (apply IH; done).
    constructor; [exact Hcur | by apply IH; constructor].
Qed.

Lemma wp_tokenize src h :
  no_zero src -> strlen src < 2 ^ 62 ->
  wp (tokenize src) (fun x h' =>
    match x with
    | Some (buf, num) =>
      holds buf (tokens_of src) /\ num = zlen (tokens_of src) /\ zlen buf = strlen src + 1 /\
      heap_step h h' 1
    | None => ~ heap_ok h /\ heap_step h h' 0
    end) h.
Proof.
  intros Hz Hlen. pose proof (strlen_nonneg src). unfold tokenize.
  assert (u64 (strlen src + 1) = strlen src + 1) as -> by (apply Z.mod_small; lia).
  apply wp_bind, wp_malloc; [lia| |].
  2: { intros h' Hno Hst. apply wp_ret. split; [|done]. intros Hok; apply Hno; [done|unfold PTRDIFF_MAX; lia]. }
  intros b h' Hb Hmax Hst.
  assert (cstr src = src) as Hcs by (by apply cstr_id). unfold strlen in *; rewrite Hcs in *.
  destruct (wtok_run [] None wtok0 src) as (dn & cur & (Ho & Hl & Hn) & Hw & Hout); try done.
  cbn [app w_quoted wtok0 w_out] in Hw, Hout. fold (tokens_of src) in Hw. rewrite zlen_nil in Hout.
  set (s := fold_left wtok_step src wtok0) in *. set (b1 := memcpy 0 [0] b).
  assert (zlen b1 = zlen src + 1) as Hb1 by (unfold b1; rewrite zlen_memcpy; zlia).
  assert (zlen (memcpy 0 (w_out s) b1) = zlen src + 1) as Hb2 by (rewrite zlen_memcpy; zlia).
  destruct (Z.eqb_spec (w_last s) 0) as [H0|H0]; apply wp_ret.
  - apply Hl in H0 as ->. rewrite app_nil_r in Hw, Ho. subst dn. split_and!; try done.
    split; [lia|]. unfold memcpy. rewrite Ho, ztake_neg by lia. by eexists.
  - destruct cur as [t|]; [|tauto]. cbn [cur_bytes default id] in Ho. split_and!; try done.
    + split; [rewrite zlen_memcpy; zlia|]. rewrite <- Hw, flatten_tokens_app, flatten_tokens_one, app_assoc, <- Ho.
      set (b2 := memcpy 0 (w_out s) b1). unfold memcpy.
      assert (ztake (zlen (w_out s)) b2 = w_out s) as ->.
      { unfold b2. rewrite ztake_memcpy_end by zlia. by rewrite ztake_neg. }
      rewrite app_assoc. by eexists.
    + rewrite <- Hw. zlia.
    + rewrite zlen_memcpy; [done|zlia|]. rewrite Hb2. zlia.
Qed.

(** ** Tokens in a block *)

Lemma holds_cons buf t ts :
  holds buf (t :: ts) -> exists r, buf = t ++ 0 :: r /\ holds r ts.
Proof.
  intros [Hl [rest ->]]. exists (flatten_tokens ts ++ rest).
  assert (flatten_tokens (t :: ts) ++ rest = t ++ 0 :: flatten_tokens ts ++ rest) as He
    by (unfold flatten_tokens; cbn; by rewrite <- !app_assoc).
  rewrite He in *. split; [done|]. split; [|by eexists]. zlia.
Qed.

Lemma next_token_app t r : no_zero t -> next_token (t ++ 0 :: r) = r.
Proof.
  intros Hz. unfold next_token, strlen. rewrite cstr_app_zero by done.
  change (t ++ 0 :: r) with (t ++ [0] ++ r). rewrite app_assoc. apply zdrop_app_eq. zlia.
Qed.

Lemma strncmp_token t r p n : strncmp (t ++ 0 :: r) p n = strncmp t p n.
Proof.
  revert t p; induction n as [|n IH]; intros t p; [done|]. destruct t as [|x t]; cbn [strncmp app hd tl].
  - destruct (0 =? hd 0 p); done.
  - by rewrite IH.
Qed.

Lemma strip_token t r p s :
  strip_prefix p t = Some s -> drop (length p) (t ++ 0 :: r) = s ++ 0 :: r.
Proof. intros ->%strip_prefix_spec. by rewrite <- app_assoc, drop_app_length. Qed.

Lemma no_zero_strip p t s : no_zero t -> strip_prefix p t = Some s -> no_zero s.
Proof. intros Hz ->%strip_prefix_spec. by apply Forall_app in Hz as [_ ?]. Qed.

(** Comparing a token with a keyword. *)
Lemma token_prefix t r p n :
  no_zero p -> n = length p ->
  (strncmp (t ++ 0 :: r) p n =? 0) = match strip_prefix p t with Some _ => true | None => false end.
Proof. intros Hp ->. by rewrite strncmp_token, strncmp_strip. Qed.

Lemma strncmp_eq a b n :
  no_zero a -> no_zero b -> (length a + length b < n)%nat -> (strncmp a b n =? 0) = bool_decide (a = b).
Proof.
  intros Ha; revert b n; induction Ha as [|x a Hx Ha IH]; intros b n Hb Hn.
  - destruct n; [cbn in Hn; lia|]. destruct Hb as [|y b Hy Hb]; cbn; [done|].
    destruct (Z.eqb_spec 0 y); [lia|]. rewrite (proj2 (Z.eqb_neq _ 0)) by lia. done.
  - destruct n; [cbn in Hn; lia|]. destruct Hb as [|y b Hy Hb]; cbn [strncmp hd tl].
    + rewrite (proj2 (Z.eqb_neq x 0)) by done. by rewrite (proj2 (Z.eqb_neq _ 0)) by lia.
    + destruct (Z.eqb_spec x y) as [->|Hne].
      * rewrite (proj2 (Z.eqb_neq y 0)) by done. rewrite IH by (done || cbn in Hn; lia).
        apply bool_decide_ext. split; [by intros -> | by intros [=]].
      * rewrite (proj2 (Z.eqb_neq _ 0)) by lia. symmetry. apply bool_decide_eq_false. by intros [=].
Qed.

Lemma token_is t r p :
  no_zero t -> no_zero p -> (strcmp (t ++ 0 :: r) p =? 0) = bool_decide (t = p).
Proof.
  intros Ht Hp. unfold strcmp. rewrite strncmp_token. apply strncmp_eq; try done.
  rewrite length_app; cbn; lia.
Qed.

(** Reading the MAC of a token. *)
Lemma parse_mac_token buf t r :
  no_zero t -> zlen buf = 18 ->
  parse_mac buf (t ++ 0 :: r) =
    if mac_ok t then (0, memcpy 0 (t ++ [0]) buf) else (- EINVAL, buf).
Proof.
  intros Hz Hb. unfold parse_mac, mac_ok, strlen. rewrite cstr_app_zero by done.
  destruct (Z.ltb_spec 17 (zlen t)).
  - by rewrite (proj2 (Z.leb_gt _ _)).
  - rewrite (proj2 (Z.leb_le _ _)) by done. cbn [andb]. by destruct (scan_mac 6 t).
Qed.

Lemma mac_ok_put t buf :
  no_zero t -> mac_ok t = true -> zlen buf = 18 ->
  zlen (memcpy 0 (t ++ [0]) buf) = 18 /\ cstr (memcpy 0 (t ++ [0]) buf) = t.
Proof.
  intros Hz [Hl%Z.leb_le _]%andb_true_iff Hb. split; [rewrite zlen_memcpy; zlia|].
  unfold memcpy. rewrite ztake_neg by lia. cbn [app]. rewrite <- app_assoc. by apply cstr_app_zero.
Qed.

(** ** The payload parsers meet the specification *)

(** An event just before its payload is read. *)
Definition fresh (ty : owfd_wpa_event_type) (p : Z) (raw : list Z) (ev : owfd_wpa_event) : Prop :=
  ev_type ev = ty /\ ev_priority ev = p /\ ev_raw ev = Some raw.

Definition payload_ok (ty : owfd_wpa_event_type) (p : Z) (raw : list Z) (ev : owfd_wpa_event) : Prop :=
  fresh ty p raw ev /\ zlen (ev_mac ev) = 18 /\ (has_str ty = false -> ev_str ev = None).

(** Outcome of a payload parser: the specified payload, or [-EINVAL] when there
    is none, or [-ENOMEM] on a refused request; the string it may own is the
    only block. *)
Definition payload_post ty p raw (spec : option payload) (h : heap) (x : Z * owfd_wpa_event) (h' : heap) : Prop :=
  let '(r, ev) := x in
  payload_ok ty p raw ev /\ heap_step h h' (opt_blocks (ev_str ev)) /\
  match spec with
  | Some pl => r = 0 /\ matches ev pl \/ r = - ENOMEM /\ ~ heap_ok h
  | None => r = - EINVAL \/ r = - ENOMEM /\ ~ heap_ok h
  end.

Section payloads.
Context (ty : owfd_wpa_event_type) (p : Z) (raw : list Z).

(** The event [parse_payload] is called with. *)
Definition ev0 : owfd_wpa_event := mkEvent ty p (Some raw) (replicate 18 0) 0 None.

Lemma ev0_ok : payload_ok ty p raw ev0.
Proof. by repeat split. Qed.

Lemma post_inval h ev :
  payload_ok ty p raw ev -> ev_str ev = None -> payload_post ty p raw None h (- EINVAL, ev) h.
Proof. intros Hev Hs. unfold payload_post. rewrite Hs. split_and!; [done|apply heap_step_refl|by left]. Qed.

Ltac not_neg := change (0 <? 0) with false; change (- EINVAL <? 0) with true; cbn iota.

Lemma mac_only_ok buf ts h :
  holds buf ts -> Forall no_zero ts ->
  wp (ret (parse_mac_only ev0 buf (zlen ts)))
     (payload_post ty p raw
        (match ts with m :: _ => if mac_ok m then Some (mkPayload m 0 None) else None | [] => None end) h) h.
Proof.
  intros Hb Hz. apply wp_ret. unfold parse_mac_only.
  destruct Hz as [|m ts Hm Hz]; [by apply post_inval; [apply ev0_ok|]|].
  rewrite (proj2 (Z.ltb_ge _ _)) by zlia. apply holds_cons in Hb as (r & -> & Hb).
  rewrite parse_mac_token by done. destruct (mac_ok m) eqn:Hok; not_neg.
  - destruct (mac_ok_put m (ev_mac ev0) Hm Hok eq_refl) as [Hl Hc].
    split_and!; [by repeat split|apply heap_step_refl|left; by repeat split].
  - by apply post_inval; [apply ev0_ok|].
Qed.

(** Duplicating a string of the block. *)
Lemma wp_strdup_token s t r h (R : option (list Z) -> heap -> Prop) :
  no_zero s -> zlen (t ++ 0 :: r) <= 2 ^ 62 -> zlen s <= zlen t ->
  (forall h', heap_step h h' 1 -> R (Some s) h') ->
  (forall h', ~ heap_ok h -> heap_step h h' 0 -> R None h') ->
  wp (strdup (s ++ 0 :: r)) R h.
Proof.
  intros Hz Hl Hle Hs Hn. apply wp_strdup; rewrite ?cstr_app_zero by done; [done|].
  intros h' Hno Hst. apply Hn; [|done]. intros Hok; apply (Hno Hok).
  unfold strlen; rewrite cstr_app_zero by done. unfold PTRDIFF_MAX. zlia.
Qed.

Lemma device_found_loop_ok ev buf ts h :
  holds buf ts -> Forall no_zero ts -> payload_ok ty p raw ev -> has_str ty = true ->
  ev_str ev = None -> ev_role ev = 0 ->
  wp (device_found_loop ev buf (length ts))
     (payload_post ty p raw
        (match omap (strip_prefix (str "name=")) ts with
         | name :: _ => Some (mkPayload (cstr (ev_mac ev)) 0 (Some name))
         | [] => None end) h) h.
Proof.
  intros Hb Hz Hev Hty Hs Hr. revert buf Hb.
  induction Hz as [|t ts Ht Hz IH]; intros buf Hb; cbn [device_found_loop length omap list_omap].
  - apply wp_ret. by apply post_inval.
  - pose proof Hb as [Hlen _]. apply holds_cons in Hb as (r & -> & Hb).
    rewrite token_prefix; [|by repeat constructor|done].
    rewrite next_token_app by done. destruct (strip_prefix (str "name=") t) as [s|] eqn:Hp; cbn [negb].
    + change 5%nat with (length (str "name=")). rewrite (strip_token _ _ _ _ Hp).
      destruct Hev as ((? & ? & ?) & Hm & _). pose proof (no_zero_strip _ _ _ Ht Hp).
      apply wp_bind, (wp_strdup_token _ t); [done..| |intros h' Hst|intros h' Hno Hst]; [|apply wp_ret..].
      * apply strip_prefix_spec in Hp as ->. zlia.
      * split_and!; [|done|left; by repeat split]. repeat split; try done. cbn; congruence.
      * split_and!; [by repeat split|by cbn; rewrite Hs|]. destruct (omap _ _); by right.
    + apply IH, Hb.
Qed.

Lemma device_found_ok buf ts h :
  holds buf ts -> Forall no_zero ts -> has_str ty = true ->
  wp (parse_p2p_device_found ev0 buf (zlen ts))
     (payload_post ty p raw (spec_payload OWFD_WPA_EVENT_P2P_DEVICE_FOUND ts) h) h.
Proof.
  intros Hb Hz Hty. unfold parse_p2p_device_found. cbn [spec_payload].
  destruct (Z.ltb_spec (zlen ts) 2) as [Hlt|Hge].
  - apply wp_ret. destruct ts as [|m [|? ?]]; [| |zlia].
    + by apply post_inval; [apply ev0_ok|].
    + cbn [omap list_omap]. destruct (mac_ok m); by apply post_inval; [apply ev0_ok|].
  - destruct Hz as [|m ts Hm Hz]; [zlia|]. apply holds_cons in Hb as (r & -> & Hb).
    rewrite parse_mac_token by done. destruct (mac_ok m) eqn:Hok; not_neg.
    + destruct (mac_ok_put m (ev_mac ev0) Hm Hok eq_refl) as [Hl Hc].
      rewrite next_token_app by done. replace (Z.to_nat (zlen (m :: ts) - 1)) with (length ts)
        by (unfold zlen; cbn; lia).
      eapply wp_mono; [by apply (device_found_loop_ok (set_mac (memcpy 0 (m ++ [0]) (ev_mac ev0)) ev0) r ts)|].
      intros x h'. cbn [set_mac ev_mac]. by rewrite Hc.
    + apply wp_ret. by apply post_inval; [apply ev0_ok|].
Qed.

Lemma show_pin_ok buf ts h :
  holds buf ts -> Forall no_zero ts -> has_str ty = true ->
  wp (parse_p2p_prov_disc_show_pin ev0 buf (zlen ts))
     (payload_post ty p raw (spec_payload OWFD_WPA_EVENT_P2P_PROV_DISC_SHOW_PIN ts) h) h.
Proof.
  intros Hb Hz Hty. unfold parse_p2p_prov_disc_show_pin. cbn [spec_payload].
  destruct (Z.ltb_spec (zlen ts) 2) as [Hlt|Hge].
  - apply wp_ret. destruct ts as [|m [|? ?]]; [| |zlia]; by apply post_inval; [apply ev0_ok|].
  - destruct Hz as [|m ts Hm Hz]; [zlia|]. destruct Hz as [|pin ts Hpin Hz]; [zlia|].
    apply holds_cons in Hb as (r & -> & Hb). pose proof Hb as [Hlen _].
    rewrite parse_mac_token by done. destruct (mac_ok m) eqn:Hok; not_neg.
    + destruct (mac_ok_put m (ev_mac ev0) Hm Hok eq_refl) as [Hl Hc].
      rewrite next_token_app by done. apply holds_cons in Hb as (r2 & -> & _).
      apply wp_bind, (wp_strdup_token _ pin); [done..| |]; intros h'; [intros Hst|intros Hno Hst]; apply wp_ret.
      * split_and!; [|done|left; by repeat split]. repeat split; try done. cbn; congruence.
      * split_and!; [by repeat split|done|by right].
    + apply wp_ret. by apply post_inval; [apply ev0_ok|].
Qed.

Lemma group_started_loop_ok ev buf ts :
  holds buf ts -> Forall no_zero ts -> zlen (ev_mac ev) = 18 ->
  group_started_loop ev buf (length ts) =
    match omap (strip_prefix (str "go_dev_addr=")) ts with
    | m :: _ => if mac_ok m then (0, set_mac (memcpy 0 (m ++ [0]) (ev_mac ev)) ev) else (- EINVAL, ev)
    | [] => (- EINVAL, ev)
    end.
Proof.
  intros Hb Hz Hm. revert buf Hb.
  induction Hz as [|t ts Ht Hz IH]; intros buf Hb; cbn [group_started_loop length omap list_omap]; [done|].
  apply holds_cons in Hb as (r & -> & Hb). rewrite token_prefix; [|by repeat constructor|done].
  rewrite next_token_app by done. destruct (strip_prefix (str "go_dev_addr=") t) as [s|] eqn:Hp; cbn [negb].
  - change 12%nat with (length (str "go_dev_addr=")). rewrite (strip_token _ _ _ _ Hp).
    rewrite parse_mac_token; [|by eapply no_zero_strip|done]. by destruct (mac_ok s).
  - by apply IH.
Qed.

Lemma role_of_token t r :
  no_zero t ->
  (strcmp (t ++ 0 :: r) (str "GO") =? 0) = bool_decide (t = str "GO") /\
  (strcmp (t ++ 0 :: r) (str "client") =? 0) = bool_decide (t = str "client").
Proof. intros Hz. split; apply token_is; try done; by repeat constructor. Qed.

Lemma group_started_ok buf ts h :
  holds buf ts -> Forall no_zero ts -> has_str ty = true ->
  wp (parse_p2p_group_started ev0 buf (zlen ts))
     (payload_post ty p raw (spec_payload OWFD_WPA_EVENT_P2P_GROUP_STARTED ts) h) h.
Proof.
  intros Hb Hz Hty. unfold parse_p2p_group_started. cbn [spec_payload].
  destruct (Z.ltb_spec (zlen ts) 3) as [Hlt|Hge].
  { apply wp_ret. destruct ts as [|i [|ro [|? ?]]]; [..|zlia]; cbn [omap list_omap];
      try destruct (role_of _); by apply post_inval; [apply ev0_ok|]. }
  destruct Hz as [|i ts Hi Hz]; [zlia|]. destruct Hz as [|ro ts Hro Hz]; [zlia|].
  pose proof Hb as [Hlen _]. apply holds_cons in Hb as (r & -> & Hb).
  apply wp_bind, (wp_strdup_token _ i); [done..| |]; intros h'; [intros Hst|intros Hno Hst].
  2: { apply wp_ret. split_and!; [by repeat split|done|].
       destruct (role_of ro); [|by right]. destruct (omap _ _) as [|m ?]; [by right|].
       destruct (mac_ok m); by right. }
  cbn zeta. rewrite next_token_app by done. apply holds_cons in Hb as (r2 & -> & Hb).
  destruct (role_of_token ro r2 Hro) as [-> ->]. rewrite next_token_app by done.
  replace (Z.to_nat (zlen (i :: ro :: ts) - 2)) with (length ts) by (unfold zlen; cbn; lia).
  assert (forall role, wp (ret (group_started_loop (set_role role (set_str (Some i) ev0)) r2 (length ts)))
     (payload_post ty p raw
        (match omap (strip_prefix (str "go_dev_addr=")) ts with
         | m :: _ => if mac_ok m then Some (mkPayload m role (Some i)) else None
         | [] => None end) h) h') as Hgo.
  { intros role. apply wp_ret. rewrite group_started_loop_ok by done.
    destruct (omap _ ts) as [|m ms] eqn:Hom.
    - split_and!; [|done|by left]. repeat split; try done. cbn; congruence.
    - assert (no_zero m) as Hm.
      { assert (m ∈ omap (strip_prefix (str "go_dev_addr=")) ts) as Hin by (rewrite Hom; left).
        apply list_elem_of_omap in Hin as (t & Hin & Hs). eapply no_zero_strip; [|exact Hs].
        rewrite Forall_forall in Hz. by apply Hz. }
      destruct (mac_ok m) eqn:Hok.
      + destruct (mac_ok_put m (ev_mac ev0) Hm Hok eq_refl) as [Hl Hc].
        split_and!; [|done|left; by repeat split]. repeat split; try done. cbn; congruence.
      + split_and!; [|done|by left]. repeat split; try done. cbn; congruence. }
  unfold role_of. destruct (decide (ro = str "GO")) as [Hgo'|Hgo'].
  - rewrite bool_decide_eq_true_2 by done. apply Hgo.
  - rewrite bool_decide_eq_false_2 by done. case_bool_decide as Hcl.
    + rewrite decide_True by done. apply Hgo.
    + rewrite decide_False by done. apply wp_ret. split_and!; [|done|by left].
      repeat split; try done. cbn; congruence.
Qed.

Lemma role_not_peer t s :
  strip_prefix (str "role=") t = Some s -> strip_prefix (str "peer_dev=") t = None.
Proof.
  intros ->%strip_prefix_spec. destruct (strip_prefix _ _) as [x|] eqn:Hx; [|done].
  by apply strip_prefix_spec in Hx.
Qed.

Lemma go_neg_loop_ok ev hr hp buf ts :
  holds buf ts -> Forall no_zero ts -> payload_ok ty p raw ev -> ev_str ev = None ->
  let '(r, ev') := go_neg_loop ev hr hp buf (length ts) in
  let macs := omap (strip_prefix (str "peer_dev=")) ts in
  payload_ok ty p raw ev' /\ ev_str ev' = None /\
  match (if forallb mac_ok macs then mapM id (map role_of (omap (strip_prefix (str "role=")) ts)) else None) with
  | None => r = - EINVAL
  | Some rs =>
    ev_role ev' = default (ev_role ev) (last rs) /\
    cstr (ev_mac ev') = default (cstr (ev_mac ev)) (last macs) /\
    r = if (hr || bool_decide (rs <> [])) && (hp || bool_decide (macs <> [])) then 0 else - EINVAL
  end.
Proof.
  intros Hb Hz. revert ev hr hp buf Hb.
  induction Hz as [|t ts Ht Hz IH]; intros ev hr hp buf Hb Hev Hs; cbn [go_neg_loop length omap list_omap].
  - cbn. split_and!; try done. by destruct hr, hp.
  - apply holds_cons in Hb as (r & -> & Hb). rewrite !token_prefix by (done || by repeat constructor).
    rewrite !next_token_app by done.
    destruct (strip_prefix (str "role=") t) as [s|] eqn:Hp.
    + pose proof (no_zero_strip _ _ _ Ht Hp) as Hsz. change 5%nat with (length (str "role=")).
      rewrite (strip_token _ _ _ _ Hp). destruct (role_of_token s r Hsz) as [-> ->].
      rewrite (role_not_peer _ _ Hp).
      cbn [map].
      assert (forall role, role_of s = Some role ->
        let '(r, ev') := go_neg_loop (set_role role ev) true hp r (length ts) in
        payload_ok ty p raw ev' /\ ev_str ev' = None /\
        match (if forallb mac_ok (omap (strip_prefix (str "peer_dev=")) ts)
               then mapM id (role_of s :: map role_of (omap (strip_prefix (str "role=")) ts)) else None) with
        | None => r = - EINVAL
        | Some rs =>
          ev_role ev' = default (ev_role ev) (last rs) /\
          cstr (ev_mac ev') = default (cstr (ev_mac ev)) (last (omap (strip_prefix (str "peer_dev=")) ts)) /\
          r = if (hr || bool_decide (rs <> [])) &&
                 (hp || bool_decide (omap (strip_prefix (str "peer_dev=")) ts <> [])) then 0 else - EINVAL
        end) as Hgo.
      { intros role Hrole. specialize (IH (set_role role ev) true hp r Hb Hev Hs).
        destruct (go_neg_loop _ _ _ _ _) as [x ev']. destruct IH as (? & ? & IH). split_and!; [done..|].
        rewrite Hrole. destruct (forallb _ _); [|done]. cbn [mapM mbind option_bind id].
        destruct (mapM id _) as [rs|]; [|done]. destruct IH as (IH1 & IH2 & IH3). cbn [mret option_ret].
        split_and!; [rewrite IH1, last_cons; by destruct (last rs)|done|].
        rewrite IH3. rewrite (bool_decide_eq_true_2 (role :: rs <> [])) by done. by rewrite orb_true_r. }
      destruct (decide (s = str "GO")) as [H1|H1].
      { rewrite (bool_decide_eq_true_2 (s = str "GO")) by done. apply Hgo.
        unfold role_of. by rewrite decide_True. }
      rewrite (bool_decide_eq_false_2 (s = str "GO")) by done.
      destruct (decide (s = str "client")) as [H2|H2].
      { rewrite (bool_decide_eq_true_2 (s = str "client")) by done. apply Hgo.
        unfold role_of. by rewrite decide_False, decide_True. }
      rewrite (bool_decide_eq_false_2 (s = str "client")) by done. split_and!; [done..|].
      assert (role_of s = None) as -> by (unfold role_of; by rewrite !decide_False).
      by destruct (forallb _ _).
    + destruct (strip_prefix (str "peer_dev=") t) as [s|] eqn:Hp2; [|by apply IH].
      pose proof (no_zero_strip _ _ _ Ht Hp2) as Hsz. change 9%nat with (length (str "peer_dev=")).
      rewrite (strip_token _ _ _ _ Hp2). pose proof Hev as (Hf & Hm & Hst).
      rewrite parse_mac_token by done. cbn [forallb]. destruct (mac_ok s) eqn:Hok; not_neg; cbn [andb].
      * destruct (mac_ok_put s (ev_mac ev) Hsz Hok Hm) as [Hl Hc].
        specialize (IH (set_mac (memcpy 0 (s ++ [0]) (ev_mac ev)) ev) hr true r Hb).
        specialize (IH ltac:(by split_and!) Hs).
        destruct (go_neg_loop _ _ _ _ _) as [x ev']. destruct IH as (? & ? & IH). split_and!; [done..|].
        destruct (forallb _ _); [|done]. destruct (mapM id _) as [rs|]; [|done].
        destruct IH as (IH1 & IH2 & IH3). split_and!; [done| |].
        -- rewrite IH2, last_cons. cbn [set_mac ev_mac]. rewrite Hc. by destruct (last (omap _ ts)).
        -- rewrite IH3, (bool_decide_eq_true_2 (_ :: _ <> [])) by done. by rewrite orb_true_r.
      * by split_and!.
Qed.

Lemma go_neg_ok buf ts h :
  holds buf ts -> Forall no_zero ts -> has_str ty = false ->
  wp (ret (parse_p2p_go_neg_success ev0 buf (zlen ts)))
     (payload_post ty p raw (spec_payload OWFD_WPA_EVENT_P2P_GO_NEG_SUCCESS ts) h) h.
Proof.
  intros Hb Hz Hty. apply wp_ret. unfold parse_p2p_go_neg_success.
  pose proof (go_neg_loop_ok ev0 false false buf ts Hb Hz ev0_ok eq_refl) as Hl.
  assert (spec_payload OWFD_WPA_EVENT_P2P_GO_NEG_SUCCESS ts = None \/ 2 <= zlen ts) as Hn.
  { destruct ts as [|t [|t2 ts]]; [by left| |right; zlia]. left.
    cbn [spec_payload omap list_omap].
    destruct (strip_prefix (str "role=") t) as [s|] eqn:Hp.
    - rewrite (role_not_peer _ _ Hp).
      cbn [forallb map mapM last]. unfold id. by destruct (role_of s).
    - destruct (strip_prefix (str "peer_dev=") t); [|done]. cbn [forallb]. by destruct (mac_ok _). }
  destruct (Z.ltb_spec (zlen ts) 2) as [Hlt|Hge].
  - destruct Hn as [->|]; [|lia]. by apply post_inval; [apply ev0_ok|].
  - replace (Z.to_nat (zlen ts)) with (length ts) by (unfold zlen; lia).
    destruct (go_neg_loop _ _ _ _ _) as [r ev']. destruct Hl as (Hok & Hs & Hl).
    unfold payload_post. rewrite Hs. split_and!; [done|apply heap_step_refl|].
    cbn [spec_payload]. cbn zeta. destruct (forallb _ _); [|by left].
    destruct (mapM id _) as [rs|]; [|by left]. destruct Hl as (H1 & H2 & ->). cbn [orb].
    destruct (last (omap (strip_prefix (str "peer_dev=")) ts)) as [m|] eqn:Hm.
    + rewrite (bool_decide_eq_true_2 (omap _ ts <> [])) by (by intros H; rewrite H in Hm).
      destruct (last rs) as [x|] eqn:Hx.
      * rewrite bool_decide_eq_true_2 by (by intros ->). left. by repeat split.
      * apply last_None in Hx as ->. by left.
    + apply last_None in Hm as ->. rewrite andb_false_r. by left.
Qed.

End payloads.

Lemma parse_payload_ok ty p raw buf ts h :
  holds buf ts -> Forall no_zero ts ->
  wp (parse_payload (ev0 ty p raw) buf (zlen ts))
     (payload_post ty p raw (spec_payload ty ts) h) h.
Proof.
  intros Hb Hz. unfold parse_payload. cbn [ev0 ev_type]. fold (ev0 ty p raw).
  assert (wp (ret (0, ev0 ty p raw)) (payload_post ty p raw (Some (mkPayload [] 0 None)) h) h) as Hnone.
  { apply wp_ret. split_and!; [apply ev0_ok|apply heap_step_refl|left; by repeat split]. }
  destruct ty; first
    [ exact Hnone
    | by apply mac_only_ok | by apply device_found_ok | by apply go_neg_ok
    | by apply group_started_ok | by apply show_pin_ok ].
Qed.

(** ** The whole event *)

Definition event_wf (ev : owfd_wpa_event) : Prop :=
  zlen (ev_mac ev) = 18 /\ (has_str (ev_type ev) = false -> ev_str ev = None).

(** The blocks an event owns. *)
Definition ev_owned (ev : owfd_wpa_event) : Z := opt_blocks (ev_raw ev) + opt_blocks (ev_str ev).

Lemma init_wf : event_wf owfd_wpa_event_init.
Proof. by split. Qed.

Lemma wp_reset ev h (R : owfd_wpa_event -> heap -> Prop) :
  event_wf ev -> (forall h', heap_step h h' (- ev_owned ev) -> R owfd_wpa_event_init h') ->
  wp (owfd_wpa_event_reset ev) R h.
Proof.
  intros [_ Hs] HR. unfold owfd_wpa_event_reset, free_opt. apply wp_bind, wp_free. intros h1 H1.
  apply wp_bind. destruct (has_str (ev_type ev)).
  - apply wp_free. intros h2 H2. apply wp_ret, HR. eapply heap_step_trans; [done..|]. unfold ev_owned; lia.
  - apply wp_ret, wp_ret, HR. unfold ev_owned. rewrite Hs by done. cbn [opt_blocks].
    eapply heap_step_trans; [exact H1|apply heap_step_refl|]. lia.
Qed.

Lemma skip_sp_suffix t : exists k, t = k ++ skip_sp t.
Proof.
  induction t as [|c t [k IH]]; [by exists []|]. cbn [skip_sp].
  destruct (c =? SP); [exists (c :: k); cbn; by rewrite <- IH | by exists []].
Qed.

Lemma no_zero_zdrop n l : no_zero l -> no_zero (zdrop n l).
Proof. intros Hl. rewrite <- (ztake_zdrop n l) in Hl. by apply Forall_app in Hl as [_ ?]. Qed.

Lemma skip_sp_ok t : no_zero t -> no_zero (skip_sp t) /\ zlen (skip_sp t) <= zlen t.
Proof.
  intros Hz. destruct (skip_sp_suffix t) as [k Hk]. split.
  - rewrite Hk in Hz. by apply Forall_app in Hz as [_ ?].
  - apply (f_equal zlen) in Hk. zlia.
Qed.

Lemma parse_priority_ok event t p :
  no_zero event -> parse_priority event = Some (t, p) -> no_zero t /\ zlen t <= zlen event.
Proof.
  intros Hz Hp. unfold parse_priority in Hp. destruct (_ =? chr "<").
  - destruct (strchr event (chr ">")) as [i|]; [|done]. destruct (strtoul _). simplify_eq.
    split; [by apply no_zero_zdrop | zlia].
  - by simplify_eq.
Qed.

Definition event_post (ev : owfd_wpa_event) (event : list Z) (h : heap) (x : Z * owfd_wpa_event) (h' : heap) : Prop :=
  let '(r, ev') := x in
  event_wf ev' /\ heap_step h h' (ev_owned ev' - ev_owned ev) /\
  (agrees (spec_event (cstr event)) r ev' \/
   r = - ENOMEM /\ ~ heap_ok h /\ ev' = owfd_wpa_event_init).

Lemma wp_event_error r ev h (R : Z * owfd_wpa_event -> heap -> Prop) :
  event_wf ev -> (forall h', heap_step h h' (- ev_owned ev) -> R (r, owfd_wpa_event_init) h') ->
  wp (event_error r ev) R h.
Proof.
  intros Hwf HR. unfold event_error. apply wp_bind, wp_reset; [done|].
  intros h' Hst. by apply wp_ret, HR.
Qed.

(** The part after the name has been recognised. *)
Lemma wp_event_rest ty p raw h1 h (R : Z * owfd_wpa_event -> heap -> Prop) :
  no_zero raw -> zlen raw < 2 ^ 62 -> heap_step h h1 1 ->
  (forall r ev h', heap_step h h' (ev_owned ev) -> event_wf ev ->
     match spec_payload ty (tokens_of raw) with
     | Some pl => agrees (Known ty p raw pl) r ev
     | None => agrees Malformed r ev
     end \/ (r = - ENOMEM /\ ~ heap_ok h /\ ev = owfd_wpa_event_init) -> R (r, ev) h') ->
  wp (let! tokens := tokenize raw in
      match tokens with
      | None => event_error (- ENOMEM) (ev0 ty p raw)
      | Some (buf, num) =>
        let! (r, ev) := parse_payload (ev0 ty p raw) buf num in
        free_blocks 1 ;;!
        if r <? 0 then event_error r ev else ret (0, ev)
      end) R h1.
Proof.
  intros Hz Hlen Hst HR. assert (heap_ok h -> heap_ok h1) as Hok by apply Hst.
  assert (event_wf (ev0 ty p raw)) as Hwf0 by by split.
  apply wp_bind. eapply wp_mono; [apply wp_tokenize; [done|unfold strlen; by rewrite cstr_id]|].
  intros [[buf num]|] h2.
  2: { intros (Hno & Hst2). apply wp_event_error; [done|]. intros h3 Hst3.
       apply HR; [|apply init_wf|right; tauto]. cbn.
       eapply heap_step_trans; [done|eapply heap_step_trans; [done|done|reflexivity]|done]. }
  intros (Hb & -> & _ & Hst2). assert (heap_ok h -> heap_ok h2) as Hok2 by (intros ?; by apply Hst2, Hok).
  apply wp_bind. eapply wp_mono; [apply parse_payload_ok; [done|]|].
  { apply words_no_zero; [done|constructor]. }
  intros [r ev] h3 (((Hty & Hp & Hraw) & Hmac & Hstr) & Hst3 & Hcase).
  apply wp_bind, wp_free. intros h4 Hst4.
  assert (heap_step h h4 (ev_owned ev)) as Hall.
  { unfold ev_owned. rewrite Hraw. cbn [opt_blocks].
    refine (heap_step_trans _ _ _ _ _ _ Hst (heap_step_trans _ _ _ _ _ _ Hst2
      (heap_step_trans _ _ _ _ _ _ Hst3 Hst4 eq_refl) eq_refl) _). lia. }
  assert (event_wf ev) as Hwf by (split; [done|by rewrite Hty]).
  assert (forall e : Z, (spec_payload ty (tokens_of raw) = None /\ e = - EINVAL \/ e = - ENOMEM /\ ~ heap_ok h2) ->
    wp (event_error e ev) R h4) as Herr.
  { intros e He. apply wp_event_error; [done|]. intros h5 Hst5. apply HR; [|apply init_wf|].
    - eapply heap_step_trans; [exact Hall|exact Hst5|]. change (ev_owned owfd_wpa_event_init) with 0. lia.
    - destruct He as [[-> ->]|[-> Hno]]; [by left|right; tauto]. }
  destruct (spec_payload ty (tokens_of raw)) as [pl|] eqn:Hpl.
  - destruct Hcase as [[-> Hm]|[-> Hno]].
    + change (0 <? 0) with false; cbn iota. apply wp_ret, HR; [done..|]. left. by split_and!.
    + change (- ENOMEM <? 0) with true; cbn iota. apply Herr. by right.
  - destruct Hcase as [->|[-> Hno]].
    + change (- EINVAL <? 0) with true; cbn iota. apply Herr. by left.
    + change (- ENOMEM <? 0) with true; cbn iota. apply Herr. by right.
Qed.

Lemma wp_event_parse ev event h :
  event_wf ev -> strlen event < 2 ^ 62 ->
  wp (owfd_wpa_event_parse ev event) (event_post ev event h) h.
Proof.
  intros Hwf Hlen. unfold owfd_wpa_event_parse, spec_event, event_post. cbn zeta.
  unfold spec_event. set (e := cstr event) in *.
  assert (no_zero e) as Hz by apply cstr_no_zero. unfold strlen in Hlen; fold e in Hlen.
  apply wp_bind, wp_reset; [done|]. intros h1 Hst1.
  assert (forall x, ev_owned x = 0 -> heap_step h h1 (ev_owned x - ev_owned ev)) as H0.
  { intros x ->. by rewrite Z.sub_0_l. }
  destruct (parse_priority e) as [[t p]|] eqn:Hp.
  2: { apply wp_ret. split_and!; [by split|by apply H0|by left]. }
  destruct (parse_priority_ok _ _ _ Hz Hp) as [Hzt Hlt]. rewrite event_lookup by done.
  destruct (List.find (names t) event_list) as [code|].
  2: { apply wp_ret. split_and!; [by split|by apply H0|by left]. }
  set (raw := skip_sp (zdrop (ty_len code) t)).
  destruct (skip_sp_ok (zdrop (ty_len code) t)) as [Hzr Hlr]; [by apply no_zero_zdrop|]. fold raw in Hzr, Hlr.
  assert (cstr raw = raw) as Hcr by (by apply cstr_id).
  assert (zlen raw < 2 ^ 62) by zlia.
  apply wp_bind, wp_strdup; [intros h2 Hst2|intros h2 Hno Hst2].
  - rewrite Hcr. apply (wp_event_rest (ty_code code) p raw h2 h1); [done..|].
    intros r ev' h' Hst Hwf' Hcase. split_and!; [done| |].
    + eapply heap_step_trans; [done..|]. lia.
    + destruct Hcase as [Hc|(? & ? & ?)]; [left|right; destruct Hst1; tauto].
      by destruct (spec_payload _ _).
  - apply wp_event_error; [by split|]. intros h3 Hst3. split_and!; [apply init_wf| |].
    + refine (heap_step_trans _ _ _ _ _ _ Hst1 (heap_step_trans _ _ _ _ _ _ Hst2 Hst3 eq_refl) _).
      unfold ev_owned; cbn. lia.
    + right. split_and!; [done| |done]. intros Hok. apply Hno; [by apply Hst1|].
      unfold strlen; rewrite Hcr. unfold PTRDIFF_MAX; lia.
Qed.

(** ** Names and quoting *)

Lemma names_spec t e : names t e = true -> exists r, t = ty_name e ++ r /\ (r = [] \/ hd 0 r = SP).
Proof.
  unfold names. destruct (strip_prefix (ty_name e) t) as [r|] eqn:Hs; [|done].
  apply strip_prefix_spec in Hs as ->. intros Hr. exists r. split; [done|].
  destruct r as [|c r]; [by left|]. right. by apply Z.eqb_eq.
Qed.

Lemma names_self e r : r = [] \/ hd 0 r = SP -> names (ty_name e ++ r) e = true.
Proof.
  intros Hr. unfold names. rewrite (proj2 (strip_prefix_spec (ty_name e) _ r) eq_refl).
  destruct r as [|c r]; [done|]. destruct Hr as [?|Hc]; [done|]. cbn in Hc; subst. done.
Qed.

Lemma bsearch_unique (l : list event_type) t x y :
  bsearch_sorted (event_comp t) l -> x ∈ l -> y ∈ l -> event_comp t x = 0 -> event_comp t y = 0 -> x = y.
Proof.
  intros Hs Hx Hy Hx0 Hy0. apply list_elem_of_lookup_1 in Hx as [i Hi]. apply list_elem_of_lookup_1 in Hy as [j Hj].
  destruct (lt_eq_lt_dec i j) as [[Hlt| ->]|Hlt]; [|congruence|].
  - specialize (Hs i j x y Hlt Hi Hj). lia.
  - specialize (Hs j i y x Hlt Hj Hi). lia.
Qed.

Lemma find_names t e :
  no_zero t -> e ∈ event_list -> names t e = true -> List.find (names t) event_list = Some e.
Proof.
  intros Hz He Hn. destruct (List.find (names t) event_list) as [e'|] eqn:Hf.
  - apply List.find_some in Hf as [Hin Hn']. apply list_elem_of_In in Hin. f_equal.
    assert (forall x, x ∈ event_list -> names t x = true -> event_comp t x = 0) as Hc.
    { intros x Hx Hnx. apply Z.eqb_eq. rewrite event_comp_names; [done| |done].
      pose proof event_list_ok as Hok. rewrite Forall_forall in Hok. by apply Hok. }
    eapply bsearch_unique; [apply event_comp_sorted|..]; eauto.
  - eapply List.find_none in Hf; [|apply list_elem_of_In; exact He]. congruence.
Qed.

(** The text of an event: priority, name and arguments. *)
Definition render_event (p : Z) (name args : list Z) : list Z :=
  [chr "<"; 48 + p; chr ">"] ++ name ++ SP :: args.

Lemma strtoul_digit p x : 0 <= p < 5 -> strtoul (48 + p :: chr ">" :: x) = (p, chr ">" :: x).
Proof.
  intros Hp. assert (p = 0 \/ p = 1 \/ p = 2 \/ p = 3 \/ p = 4) as Hps by lia.
  by destruct Hps as [->|[->|[->|[->| ->]]]].
Qed.

Lemma parse_priority_render p x :
  0 <= p < 5 -> parse_priority (chr "<" :: 48 + p :: chr ">" :: x) = Some (x, p).
Proof.
  intros Hp. unfold parse_priority.
  change (zdrop 1 (chr "<" :: ?r)) with r. rewrite strtoul_digit by done.
  assert (strchr (chr "<" :: 48 + p :: chr ">" :: x) (chr ">") = Some 2) as ->.
  { cbn [strchr]. change (chr "<" =? chr ">") with false; change (chr ">" =? chr ">") with true.
    rewrite (proj2 (Z.eqb_neq (48 + p) (chr ">"))) by (change (chr ">") with 62; lia). done. }
  change (char_at (chr "<" :: _) 0 =? chr "<") with true; cbn iota.
  change (char_at (chr "<" :: 48 + p :: ?r) 1) with (48 + p).
  change (zdrop (2 + 1) (chr "<" :: 48 + p :: chr ">" :: x)) with x.
  assert (u32 p = p) as -> by (apply Z.mod_small; lia).
  rewrite (proj2 (Z.leb_gt _ _)) by (unfold OWFD_WPA_EVENT_P_COUNT; lia).
  replace (zlen (chr ">" :: x) - 1) with (zlen x) by zlia. rewrite Z.eqb_refl.
  change (chr "=") with 61; change (chr "-") with 45.
  by rewrite !(proj2 (Z.eqb_neq (48 + p) _)) by lia.
Qed.

Lemma spec_render_event e p args :
  e ∈ event_list -> 0 <= p < 5 -> no_zero args -> hd 0 args <> SP ->
  spec_event (render_event p (ty_name e) args) =
    match spec_payload (ty_code e) (tokens_of args) with
    | Some pl => Known (ty_code e) p args pl
    | None => Malformed
    end.
Proof.
  intros He Hp Hz Hsp. unfold spec_event.
  assert (parse_priority (render_event p (ty_name e) args) = Some (ty_name e ++ SP :: args, p)) as ->.
  { by apply parse_priority_render. }
  pose proof event_list_ok as Hok. rewrite Forall_forall in Hok. destruct (Hok e He) as [Hl Hnz].
  assert (no_zero (ty_name e ++ SP :: args)) as Hzt by (apply Forall_app; split; [done|by constructor]).
  rewrite (find_names _ e) by (done || apply names_self; by right).
  rewrite zdrop_app_eq by done. cbn [skip_sp]. change (SP =? SP) with true; cbn iota.
  assert (skip_sp args = args) as ->; [|done].
  destruct args as [|c args]; [done|]. cbn in Hsp |- *. by rewrite (proj2 (Z.eqb_neq c SP)).
Qed.

(** A token between quotes. *)
Definition quote_char (c : Z) : list Z := if (c =? SQUOTE) || (c =? BSLASH) then [BSLASH; c] else [c].

Definition quote (t : list Z) : list Z := SQUOTE :: concat (map quote_char t) ++ [SQUOTE; SP].

Lemma words_quoted acc t r :
  words (Some acc) true false (concat (map quote_char t) ++ SQUOTE :: SP :: r) =
    (acc ++ t) :: words None false false r.
Proof.
  revert acc; induction t as [|c t IH]; intros acc.
  - cbn. by rewrite app_nil_r.
  - cbn [map concat]. unfold quote_char at 1.
    destruct ((c =? SQUOTE) || (c =? BSLASH)) eqn:Hc; cbn [app words].
    + change (BSLASH =? SQUOTE) with false; change (BSLASH =? BSLASH) with true; cbn iota.
      cbn [default]. rewrite IH, <- app_assoc. done.
    + apply orb_false_iff in Hc as [-> ->]. cbn [default]. rewrite IH, <- app_assoc. done.
Qed.

Lemma tokens_quoted ts : tokens_of (concat (map quote ts)) = ts.
Proof.
  unfold tokens_of. induction ts as [|t ts IH]; [done|]. cbn [map concat]. unfold quote at 1.
  cbn [app words]. change (is_blank SQUOTE) with false; change (SQUOTE =? SQUOTE) with true; cbn iota.
  cbn [default]. rewrite <- app_assoc. cbn [app]. by rewrite words_quoted, IH.
Qed.

Lemma no_zero_quoted ts : Forall no_zero ts -> no_zero (concat (map quote ts)).
Proof.
  induction 1 as [|t ts Ht _ IH]; [constructor|]. cbn [map concat]. apply Forall_app. split; [|done].
  constructor; [done|]. apply Forall_app. split; [|by repeat constructor].
  induction Ht as [|c t Hc Ht IHt]; [constructor|]. cbn [map concat]. apply Forall_app. split; [|done].
  unfold quote_char. destruct (_ || _); by repeat constructor.
Qed.

(** ** Properties *)

(** C5. [owfd_wpa_event_parse] refines its specification for every input and
    every behaviour of the allocator: unknown events, malformed payloads and
    recognised events with their fields are told apart as specified; [-ENOMEM]
    is returned only when a request was refused; the MAC field keeps its 18
    bytes; an event that failed is blank and owns nothing, the old contents of
    the event are released, and no block is lost. *)
Theorem owfd_wpa_event_parse_refines ev event h :
  event_wf ev -> strlen event < 2 ^ 62 ->
  let '(r, ev', h') := owfd_wpa_event_parse ev event h in
  event_wf ev' /\ h_live h' = h_live h + (ev_owned ev' - ev_owned ev) /\
  (agrees (spec_event (cstr event)) r ev' \/
   r = - ENOMEM /\ ~ heap_ok h /\ ev' = owfd_wpa_event_init).
Proof.
  intros Hwf Hlen. pose proof (wp_event_parse ev event h Hwf Hlen) as Hwp. unfold wp in Hwp.
  destruct (owfd_wpa_event_parse ev event h) as [[r ev'] h'].
  destruct Hwp as (? & [? _] & ?). by split_and!.
Qed.

(** The table is in an order for which binary search is right: for every
    line it finds the same entry as reading the table from the top, and no two
    entries ever match the same line. *)
Theorem event_list_bsearch t :
  no_zero t ->
  bsearch (event_comp t) event_list = List.find (names t) event_list /\
  (forall x y, x ∈ event_list -> y ∈ event_list -> names t x = true -> names t y = true -> x = y).
Proof.
  intros Hz. split; [by apply event_lookup|]. intros x y Hx Hy Hnx Hny.
  pose proof (find_names t x Hz Hx Hnx) as H1. pose proof (find_names t y Hz Hy Hny) as H2. congruence.
Qed.

(** Round trip of event lines: a line made of a priority, the name
    [owfd_wpa_event_name] gives for a type, and arguments is parsed to that
    type, priority and raw text, with the specified payload, or refused with
    [-EINVAL] when the arguments do not make a payload. *)
Theorem owfd_wpa_event_name_roundtrip ty p args ev h :
  ty <> OWFD_WPA_EVENT_UNKNOWN -> 0 <= p < 5 -> no_zero args -> hd 0 args <> SP -> zlen args < 2 ^ 61 ->
  event_wf ev -> heap_ok h ->
  let '(r, ev', _) :=
    owfd_wpa_event_parse ev (render_event p (owfd_wpa_event_name (event_code ty)) args) h in
  match spec_payload ty (tokens_of args) with
  | Some pl => r = 0 /\ ev_type ev' = ty /\ ev_priority ev' = p /\ ev_raw ev' = Some args /\ matches ev' pl
  | None => r = - EINVAL /\ ev' = owfd_wpa_event_init
  end.
Proof.
  intros Hty Hp Hz Hsp Hlen Hwf Hok.
  assert (Exists (fun e => ty_code e = ty /\ ty_name e = owfd_wpa_event_name (event_code ty) /\
    zlen (ty_name e) < 100) event_list) as (e & He & <- & <- & Hn)%Exists_exists.
  { destruct ty; [done|..]; repeat first [apply Exists_cons_hd; by split_and! | apply Exists_cons_tl]. }
  pose proof event_list_ok as Hall. rewrite Forall_forall in Hall. destruct (Hall e He) as [_ Hnz].
  assert (no_zero (render_event p (ty_name e) args)) as Hzr.
  { apply Forall_app. split; [repeat constructor; done || lia|]. apply Forall_app. split; [done|by constructor]. }
  pose proof (wp_event_parse ev (render_event p (ty_name e) args) h Hwf) as Hwp.
  unfold strlen in Hwp. unfold wp, event_post in Hwp. rewrite cstr_id in Hwp by done.
  specialize (Hwp ltac:(unfold render_event; zlia)).
  destruct (owfd_wpa_event_parse _ _ _) as [[r ev'] h']. destruct Hwp as (_ & _ & [Hag|(_ & Hno & _)]); [|done].
  rewrite spec_render_event in Hag by done. by destruct (spec_payload _ _).
Qed.

(** Round trip of tokens: whatever strings are written between quotes, with
    quotes and backslashes escaped, come back from [tokenize] one per token,
    zero-terminated, inside a block of exactly [strlen + 1] bytes. *)
Theorem tokenize_quoted ts h :
  Forall no_zero ts -> zlen (concat (map quote ts)) < 2 ^ 62 -> heap_ok h ->
  exists buf rest, fst (tokenize (concat (map quote ts)) h) = Some (buf, zlen ts) /\
    buf = flatten_tokens ts ++ rest /\ zlen buf = zlen (concat (map quote ts)) + 1.
Proof.
  intros Hz Hlen Hok. pose proof (no_zero_quoted ts Hz) as Hq.
  pose proof (wp_tokenize (concat (map quote ts)) h Hq) as Hwp. unfold strlen in Hwp.
  rewrite cstr_id in Hwp by done. specialize (Hwp Hlen). unfold wp in Hwp.
  destruct (tokenize _ h) as [[[buf num]|] h']; [|by destruct Hwp].
  rewrite tokens_quoted in Hwp. destruct Hwp as ([_ [rest ->]] & -> & Hl & _). by exists (flatten_tokens ts ++ rest), rest.
Qed.

(** ** Witnesses *)

(** The lines of [test/test_wpa.c] and others. *)
Definition parse0 (event : string) : Z * owfd_wpa_event :=
  fst (owfd_wpa_event_parse owfd_wpa_event_init (str event) heap0).

Example parse_found :
  let '(r, ev) := parse0 "<4>P2P-DEVICE-FOUND 00:00:00:00:00:00 name='some device' x=1" in
  (r, ev_type ev, ev_priority ev, cstr (ev_mac ev), ev_str ev) =
  (0, OWFD_WPA_EVENT_P2P_DEVICE_FOUND, 4, str "00:00:00:00:00:00", Some (str "some device")).
Proof. vm_compute. reflexivity. Qed.

(** The priority is cut to an [unsigned int] before it is compared. *)
Example parse_priority_wraps :
  ev_priority (snd (parse0 "<4294967297>P2P-FIND-STOPPED")) = OWFD_WPA_EVENT_P_DEBUG.
Proof. vm_compute. reflexivity. Qed.

(** A plus sign is accepted, an equals sign never gets that far. *)
Example parse_priority_plus : ev_priority (snd (parse0 "<+3>P2P-FIND-STOPPED")) = 3.
Proof. vm_compute. reflexivity. Qed.

Definition event_example : owfd_wpa_event :=
  mkEvent OWFD_WPA_EVENT_P2P_DEVICE_FOUND 2 (Some (str "x")) (replicate 18 0) 0 (Some (str "y")).

Definition line_example : list Z := str "<2>P2P-GROUP-STARTED wlan0 GO go_dev_addr=0:1:2:3:4:5".

(** The third request is refused. *)
Definition heap_example : heap := mkHeap [true; true; false] (fun _ => 7) 2.

Lemma owfd_wpa_event_parse_refines_witness :
  let '(r, ev', h') := owfd_wpa_event_parse event_example line_example heap_example in
  event_wf ev' /\ h_live h' = h_live heap_example + (ev_owned ev' - ev_owned event_example) /\
  (agrees (spec_event (cstr line_example)) r ev' \/
   r = - ENOMEM /\ ~ heap_ok heap_example /\ ev' = owfd_wpa_event_init).
Proof.
  assert (event_wf event_example) as Hwf by (split; [reflexivity | discriminate]).
  assert (strlen line_example < 2 ^ 62) as Hlen by reflexivity.
  exact (owfd_wpa_event_parse_refines event_example line_example heap_example Hwf Hlen).
Defined.

Lemma event_list_bsearch_witness :
  bsearch (event_comp (str "P2P-FIND-STOPPED ")) event_list =
    List.find (names (str "P2P-FIND-STOPPED ")) event_list /\
  (forall x y, x ∈ event_list -> y ∈ event_list -> names (str "P2P-FIND-STOPPED ") x = true ->
     names (str "P2P-FIND-STOPPED ") y = true -> x = y).
Proof. apply event_list_bsearch. repeat constructor; discriminate. Defined.

Lemma owfd_wpa_event_name_roundtrip_witness :
  let '(r, ev', _) := owfd_wpa_event_parse owfd_wpa_event_init
    (render_event 3 (owfd_wpa_event_name 6) (str "role=client peer_dev=0:a:B:3:4:55")) heap0 in
  r = 0 /\ ev_type ev' = OWFD_WPA_EVENT_P2P_GO_NEG_SUCCESS /\ ev_priority ev' = 3 /\
  ev_raw ev' = Some (str "role=client peer_dev=0:a:B:3:4:55") /\
  matches ev' (mkPayload (str "0:a:B:3:4:55") OWFD_WPA_EVENT_ROLE_CLIENT None).
Proof.
  apply (owfd_wpa_event_name_roundtrip OWFD_WPA_EVENT_P2P_GO_NEG_SUCCESS 3
           (str "role=client peer_dev=0:a:B:3:4:55")); try done.
  - repeat constructor; discriminate.
  - constructor.
Defined.

Lemma tokenize_quoted_witness :
  exists buf rest, fst (tokenize (concat (map quote [str "it's"; []; str "a b"])) heap0) = Some (buf, 3) /\
    buf = flatten_tokens [str "it's"; []; str "a b"] ++ rest /\
    zlen buf = zlen (concat (map quote [str "it's"; []; str "a b"])) + 1.
Proof.
  apply (tokenize_quoted [str "it's"; []; str "a b"]).
  - repeat constructor; discriminate.
  - reflexivity.
  - constructor.
Defined.
