(* ===== verification/Posix.v ===== *)
(** * System calls, and the helpers of [src/shared.c].

    The operating system is a parameter: it answers a call with a number
    (negative: minus the error number) and the bytes it stores, and may look at
    everything that happened before.  The world keeps the events, the open
    descriptors of the process and the heap. *)

From stdpp Require Import gmultiset.
From S2P Require Import Prelude CLib.

(** ** Calls *)

Definition EPOLLIN : Z := 0x001.
Definition EPOLLOUT : Z := 0x004.
Definition EPOLLERR : Z := 0x008.
Definition EPOLLHUP : Z := 0x010.
Definition POLLIN : Z := 0x001.
Definition POLLOUT : Z := 0x004.
Definition POLLERR : Z := 0x008.
Definition POLLHUP : Z := 0x010.
Definition O_NONBLOCK : Z := 2048.
Definition EINPROGRESS : Z := 115.

(** A pointer registered with an epoll set is a [tag].  [Accept] stands for
    the user getting a connected socket, [Callback] for a call of the function
    the user has installed.  [Rand] is [rand] and [random], [IoChannelNew] is
    GLib's [g_io_channel_unix_new] (negative: [NULL]).  [Fork] answers the
    process id of the child, or 0 in the child. *)
Inductive call :=
| EpollCreate
| TimerfdCreate
| Socket
| Accept
| Bind (fd : Z) (addr : list Z)
| Connect (fd : Z) (addr : list Z)
| GetFl (fd : Z)
| SetFl (fd flags : Z)
| EpollAdd (efd fd events tag : Z)
| EpollMod (efd fd events tag : Z)
| EpollDel (efd fd : Z)
| EpollWait (efd max timeout : Z)
| TimerfdSettime (fd sec nsec : Z)
| Read (fd n : Z)
| Writev (fd : Z) (bytes : list Z)
| Send (fd : Z) (bytes : list Z)
| Recv (fd n : Z)
| Ppoll (fd events sec nsec : Z)
| ClockGettime
| Mktemp (template : list Z)
| Unlink (name : list Z)
| SocketOn (domain protocol : Z)
| SetSockOpt (fd opt : Z) (value : list Z)
| SendTo (fd : Z) (bytes addr : list Z)
| Write (fd : Z) (bytes : list Z)
| Ioctl (fd request : Z) (ifr : list Z)
| SendMsg (fd : Z) (bytes addr control : list Z)
| Gettimeofday
| Time
| Rand
| Srand (seed : Z)
| IoChannelNew (fd : Z)
| Fork
| Waitpid (pid : Z)
| Kill (pid sig : Z)
| Execve (argv : list (list Z))
| Exit (status : Z)
| Dup2 (fd fd2 : Z)
| Sigaction (sig : Z)
| Sigprocmask (sigs : list Z)
| Signalfd (sigs : list Z)
| InotifyInit
| InotifyAddWatch (fd : Z) (name : list Z) (mask : Z)
| InotifyRmWatch (fd w : Z)
| Access (name : list Z)
| Close (fd : Z)
| Callback (fn : nat) (data : list Z).

Record event := mkEvent { ev_call : call; ev_ret : Z; ev_data : list Z }.

(** [w_bad] counts the times a descriptor was closed that was not open. *)
Record world := mkWorld {
  w_heap : heap;
  w_fds : gmultiset Z;
  w_bad : Z;
  w_trace : list event;
}.

Definition io (A : Type) : Type := world -> A * world.

Definition iret {A} (a : A) : io A := fun w => (a, w).

Definition ibind {A B} (m : io A) (k : A -> io B) : io B :=
  fun w => let '(a, w') := m w in k a w'.

Declare Scope io_scope.
Delimit Scope io_scope with io.
Notation "'let%' x ':=' m 'in' k" := (ibind m (fun x => k))
  (at level 10, x pattern, m at level 100, k at level 200) : io_scope.
Open Scope io_scope.

(** The heap part of the world. *)
Definition on_heap {A} (m : alloc A) : io A := fun w =>
  let '(a, h) := m (w_heap w) in (a, mkWorld h (w_fds w) (w_bad w) (w_trace w)).

(** Calls that give a new descriptor. *)
Definition creates (c : call) : bool :=
  match c with EpollCreate | TimerfdCreate | Socket | SocketOn _ _ | Accept | Signalfd _ | InotifyInit => true | _ => false end.

Definition fds_after (c : call) (r : Z) (fds : gmultiset Z) : gmultiset Z :=
  match c with
  | Close fd => fds ∖ {[+ fd +]}
  | _ => if creates c && (0 <=? r) then {[+ r +]} ⊎ fds else fds
  end.

Definition bad_after (c : call) (fds : gmultiset Z) (bad : Z) : Z :=
  match c with
  | Close fd => if decide (fd ∈ fds) then bad else bad + 1
  | _ => bad
  end.

Section posix.
Context (kernel : list event -> call -> Z * list Z).

Definition sys (c : call) : io (Z * list Z) := fun w =>
  let '(r, d) := kernel (w_trace w) c in
  ((r, d), mkWorld (w_heap w) (fds_after c r (w_fds w)) (bad_after c (w_fds w) (w_bad w))
             (w_trace w ++ [mkEvent c r d])).

(** The answer alone. *)
Definition sys_ (c : call) : io Z := fun w => let '((r, _), w') := sys c w in (r, w').

(** ** [src/shared.c] *)

(** The clock gives seconds and nanoseconds; [int64_t] arithmetic. *)
Definition get_time_us : io Z :=
  let% (_, d) := sys ClockGettime in
  let t := default 0 (d !! 0%nat) * 1000 * 1000 in
  iret (t + default 0 (d !! 1%nat) / 1000).

End posix.

(** Division and remainder truncate towards zero. *)
Definition us_to_timespec (us : Z) : Z * Z :=
  (Z.quot us (1000 * 1000), Z.rem us (1000 * 1000) * 1000).

(** ** Weakest precondition *)

Definition iwp {A} (m : io A) (Q : A -> world -> Prop) (w : world) : Prop :=
  let '(a, w') := m w in Q a w'.

Lemma iwp_ret {A} (a : A) Q w : Q a w -> iwp (iret a) Q w.
Proof. done. Qed.

Lemma iwp_bind {A B} (m : io A) (k : A -> io B) Q w :
  iwp m (fun a w' => iwp (k a) Q w') w -> iwp (ibind m k) Q w.
Proof. unfold iwp, ibind. by destruct (m w). Qed.

Lemma iwp_mono {A} (m : io A) (Q R : A -> world -> Prop) w :
  iwp m Q w -> (forall a w', Q a w' -> R a w') -> iwp m R w.
Proof. unfold iwp. destruct (m w); auto. Qed.

Lemma iwp_heap {A} (m : alloc A) (Q : A -> world -> Prop) w :
  wp m (fun a h => Q a (mkWorld h (w_fds w) (w_bad w) (w_trace w))) (w_heap w) -> iwp (on_heap m) Q w.
Proof. unfold wp, iwp, on_heap. by destruct (m (w_heap w)). Qed.

(** The world after a call. *)
Definition called (c : call) (r : Z) (d : list Z) (w : world) : world :=
  mkWorld (w_heap w) (fds_after c r (w_fds w)) (bad_after c (w_fds w) (w_bad w))
    (w_trace w ++ [mkEvent c r d]).

Lemma iwp_sys kernel c (Q : Z * list Z -> world -> Prop) w :
  (forall r d, kernel (w_trace w) c = (r, d) -> Q (r, d) (called c r d w)) -> iwp (sys kernel c) Q w.
Proof. unfold iwp, sys, called. intros HQ. destruct (kernel (w_trace w) c) as [r d]. by apply HQ. Qed.

Lemma iwp_sys_ kernel c (Q : Z -> world -> Prop) w :
  (forall r d, kernel (w_trace w) c = (r, d) -> Q r (called c r d w)) -> iwp (sys_ kernel c) Q w.
Proof. unfold iwp, sys_, sys, called. intros HQ. destruct (kernel (w_trace w) c) as [r d]. by eapply HQ. Qed.

(** ** Descriptor accounting *)

Lemma fds_swap (a b c : gmultiset Z) : a ⊎ (b ⊎ c) = b ⊎ (a ⊎ c).
Proof. multiset_solver. Qed.

Lemma fds_close (a f : gmultiset Z) (x : Z) : (a ⊎ ({[+ x +]} ⊎ f)) ∖ {[+ x +]} = a ⊎ f.
Proof. multiset_solver. Qed.

Lemma fds_open (a f : gmultiset Z) (x : Z) : x ∈ a ⊎ ({[+ x +]} ⊎ f).
Proof. multiset_solver. Qed.

Lemma fds_assoc (a b c : gmultiset Z) : (a ⊎ b) ⊎ c = a ⊎ (b ⊎ c).
Proof. multiset_solver. Qed.

Lemma fds_empty (a : gmultiset Z) : a ⊎ ∅ = a.
Proof. multiset_solver. Qed.

Lemma pop_head {A} `{Countable A} (x : A) (X : gmultiset A) : ({[+ x +]} ⊎ X) ∖ {[+ x +]} = X.
Proof. multiset_solver. Qed.

Lemma in_head {A} `{Countable A} (x : A) (X : gmultiset A) : x ∈ {[+ x +]} ⊎ X.
Proof. multiset_solver. Qed.
