(* ===== verification/Bytes.v ===== *)
(** * Multi-byte integers in byte blocks ([src/gdhcp/unaligned.h], [htonl]),
    on a little-endian host. *)

From S2P Require Import Prelude.

(** The byte at an offset; offsets outside the block read as 0 here, and the
    theorems state where the code reads. *)
Definition byte_at (l : list Z) (i : Z) : Z := default 0 (l !! Z.to_nat i).

Definition le_bytes16 (v : Z) : list Z := [u8 v; u8 (v / 2 ^ 8)].

Definition le_bytes32 (v : Z) : list Z := [u8 v; u8 (v / 2 ^ 8); u8 (v / 2 ^ 16); u8 (v / 2 ^ 24)].

(** A [uint16_t] or [uint32_t] in memory. *)
Definition get_le16 (l : list Z) (i : Z) : Z := byte_at l i + 2 ^ 8 * byte_at l (i + 1).

Definition get_le32 (l : list Z) (i : Z) : Z :=
  byte_at l i + 2 ^ 8 * byte_at l (i + 1) + 2 ^ 16 * byte_at l (i + 2) + 2 ^ 24 * byte_at l (i + 3).

Definition bswap_16 (v : Z) : Z := get_le16 (rev (le_bytes16 v)) 0.

Definition bswap_32 (v : Z) : Z := get_le32 (rev (le_bytes32 v)) 0.

Definition htons : Z -> Z := bswap_16.

Definition htonl : Z -> Z := bswap_32.

Definition ntohl : Z -> Z := bswap_32.

Definition get_be16 (l : list Z) (i : Z) : Z := bswap_16 (get_le16 l i).

Definition get_be32 (l : list Z) (i : Z) : Z := bswap_32 (get_le32 l i).

(** The bytes [put_be16] and [put_be32] store. *)
Definition put_be16 (v : Z) : list Z := le_bytes16 (bswap_16 v).

Definition put_be32 (v : Z) : list Z := le_bytes32 (bswap_32 v).

(** ** Lemmas *)

Lemma u8_range v : 0 <= u8 v < 256.
Proof. apply Z.mod_pos_bound; lia. Qed.

Lemma byte_at_app l k i : 0 <= i < zlen l -> byte_at (l ++ k) i = byte_at l i.
Proof. intros Hi. unfold byte_at, zlen in *. by rewrite lookup_app_l by lia. Qed.

Lemma byte_at_app_r l k i : zlen l <= i -> byte_at (l ++ k) i = byte_at k (i - zlen l).
Proof.
  intros Hi. unfold byte_at, zlen in *. rewrite lookup_app_r by lia. do 2 f_equal. lia.
Qed.

Lemma byte_at_cons c l : byte_at (c :: l) 0 = c.
Proof. done. Qed.

Lemma byte_at_range l i : Forall byte_ok l -> 0 <= byte_at l i < 256.
Proof.
  intros Hl. unfold byte_at. destruct (l !! _) as [c|] eqn:Hc; cbn; [|lia].
  exact (Forall_lookup_1 _ _ _ _ Hl Hc).
Qed.

Lemma le_bytes32_get v : 0 <= v < 2 ^ 32 -> get_le32 (le_bytes32 v) 0 = v.
Proof.
  intros Hv. change (u8 v + 2 ^ 8 * u8 (v / 2 ^ 8) + 2 ^ 16 * u8 (v / 2 ^ 16) + 2 ^ 24 * u8 (v / 2 ^ 24) = v).
  unfold u8. Z.div_mod_to_equations. lia.
Qed.

Lemma bswap_32_explicit a b c d :
  0 <= a < 256 -> 0 <= b < 256 -> 0 <= c < 256 -> 0 <= d < 256 ->
  bswap_32 (a + 2 ^ 8 * b + 2 ^ 16 * c + 2 ^ 24 * d) = d + 2 ^ 8 * c + 2 ^ 16 * b + 2 ^ 24 * a.
Proof.
  intros. set (v := a + 2 ^ 8 * b + 2 ^ 16 * c + 2 ^ 24 * d).
  change (u8 (v / 2 ^ 24) + 2 ^ 8 * u8 (v / 2 ^ 16) + 2 ^ 16 * u8 (v / 2 ^ 8) + 2 ^ 24 * u8 v =
          d + 2 ^ 8 * c + 2 ^ 16 * b + 2 ^ 24 * a).
  assert (u8 v = a /\ u8 (v / 2 ^ 8) = b /\ u8 (v / 2 ^ 16) = c /\ u8 (v / 2 ^ 24) = d) as (-> & -> & -> & ->).
  { unfold v, u8. split_and!; Z.div_mod_to_equations; lia. }
  done.
Qed.

Lemma split32 v : 0 <= v < 2 ^ 32 ->
  exists a b c d, v = a + 2 ^ 8 * b + 2 ^ 16 * c + 2 ^ 24 * d /\
    0 <= a < 256 /\ 0 <= b < 256 /\ 0 <= c < 256 /\ 0 <= d < 256.
Proof.
  intros Hv. exists (u8 v), (u8 (v / 2 ^ 8)), (u8 (v / 2 ^ 16)), (u8 (v / 2 ^ 24)).
  split_and!; try apply u8_range. symmetry. exact (le_bytes32_get v Hv).
Qed.

Lemma bswap_32_range v : 0 <= bswap_32 v < 2 ^ 32.
Proof.
  change (bswap_32 v) with
    (u8 (v / 2 ^ 24) + 2 ^ 8 * u8 (v / 2 ^ 16) + 2 ^ 16 * u8 (v / 2 ^ 8) + 2 ^ 24 * u8 v).
  pose proof (u8_range v). pose proof (u8_range (v / 2 ^ 8)).
  pose proof (u8_range (v / 2 ^ 16)). pose proof (u8_range (v / 2 ^ 24)). lia.
Qed.

Lemma bswap_32_invol v : 0 <= v < 2 ^ 32 -> bswap_32 (bswap_32 v) = v.
Proof.
  intros (a & b & c & d & -> & ? & ? & ? & ?)%split32.
  rewrite (bswap_32_explicit a b c d) by done. by rewrite bswap_32_explicit.
Qed.

Lemma put_be32_get v : 0 <= v < 2 ^ 32 -> get_be32 (put_be32 v) 0 = v.
Proof.
  intros Hv. unfold get_be32, put_be32.
  rewrite le_bytes32_get by apply bswap_32_range. by apply bswap_32_invol.
Qed.

Lemma le_bytes32_ok v : Forall byte_ok (le_bytes32 v).
Proof. repeat constructor; apply u8_range. Qed.

Lemma le_bytes16_ok v : Forall byte_ok (le_bytes16 v).
Proof. repeat constructor; apply u8_range. Qed.

Lemma get_le32_range l i : Forall byte_ok l -> 0 <= get_le32 l i < 2 ^ 32.
Proof.
  intros Hl. unfold get_le32.
  pose proof (byte_at_range l i Hl). pose proof (byte_at_range l (i + 1) Hl).
  pose proof (byte_at_range l (i + 2) Hl). pose proof (byte_at_range l (i + 3) Hl). lia.
Qed.

#[export] Hint Resolve le_bytes32_ok le_bytes16_ok bswap_32_range : core.
