(* ===== verification/Unaligned.v ===== *)
(** * Integers in byte blocks, on either kind of host ([src/gdhcp/unaligned.h]).

    [Bytes.v] has the readers and writers of the little-endian branch that the
    DHCP code uses; here are the 64-bit ones and the big-endian branch, with the
    proof that both branches read and write the same bytes. *)

From S2P Require Import Prelude Bytes.

(** ** Memory of a host *)

Fixpoint le_bytes (n : nat) (v : Z) : list Z :=
  match n with O => [] | S n => u8 v :: le_bytes n (v / 256) end.

Fixpoint le_value (l : list Z) : Z :=
  match l with [] => 0 | b :: l => b + 256 * le_value l end.

(** An object of [n] bytes with this value, and the value of [n] bytes. *)
Definition put_unaligned (big : bool) (n : nat) (v : Z) : list Z :=
  if big then rev (le_bytes n v) else le_bytes n v.

Definition get_unaligned (big : bool) (n : nat) (l : list Z) : Z :=
  let b := take n l in le_value (if big then rev b else b).

(** [bswap_16], [bswap_32], [bswap_64] *)
Definition bswap (n : nat) (v : Z) : Z := le_value (rev (le_bytes n v)).

(** ** The little-endian branch *)

Definition get_le64 (l : list Z) : Z := get_unaligned false 8 l.
Definition get_be64 (l : list Z) : Z := bswap 8 (get_unaligned false 8 l).
Definition put_be64 (v : Z) : list Z := put_unaligned false 8 (bswap 8 v).
Definition put_le64 (v : Z) : list Z := put_unaligned false 8 v.

(** ** The big-endian branch *)

Definition get_le64_big (l : list Z) : Z := bswap 8 (get_unaligned true 8 l).
Definition get_be64_big (l : list Z) : Z := get_unaligned true 8 l.
Definition get_le32_big (l : list Z) : Z := bswap 4 (get_unaligned true 4 l).
Definition get_be32_big (l : list Z) : Z := get_unaligned true 4 l.
Definition get_le16_big (l : list Z) : Z := bswap 2 (get_unaligned true 2 l).
Definition get_be16_big (l : list Z) : Z := get_unaligned true 2 l.
Definition put_be16_big (v : Z) : list Z := put_unaligned true 2 v.
Definition put_be32_big (v : Z) : list Z := put_unaligned true 4 v.
Definition put_le16_big (v : Z) : list Z := put_unaligned true 2 (bswap 2 v).
Definition put_le32_big (v : Z) : list Z := put_unaligned true 4 (bswap 4 v).
Definition put_be64_big (v : Z) : list Z := put_unaligned true 8 v.
Definition put_le64_big (v : Z) : list Z := put_unaligned true 8 (bswap 8 v).

(** ** Lemmas *)

Lemma length_le_bytes n v : length (le_bytes n v) = n.
Proof. revert v; induction n as [|n IH]; intros v; cbn; [done|by rewrite IH]. Qed.

Lemma le_bytes_ok n v : Forall byte_ok (le_bytes n v).
Proof. revert v; induction n as [|n IH]; intros v; constructor; [apply u8_range|apply IH]. Qed.

Lemma le_value_bytes n v : 0 <= v < 256 ^ Z.of_nat n -> le_value (le_bytes n v) = v.
Proof.
  revert v; induction n as [|n IH]; intros v Hv; cbn [le_bytes le_value]; [change (256 ^ Z.of_nat 0) with 1 in Hv; lia|].
  rewrite Nat2Z.inj_succ, Z.pow_succ_r in Hv by lia. rewrite IH.
  - change (u8 v) with (v mod 256). pose proof (Z.div_mod v 256). lia.
  - split; [apply Z.div_pos; lia|apply Z.div_lt_upper_bound; lia].
Qed.

Lemma le_bytes_value l : Forall byte_ok l -> le_bytes (length l) (le_value l) = l.
Proof.
  induction 1 as [|b l Hb _ IH]; cbn [length le_bytes le_value]; [done|]. unfold byte_ok in Hb.
  assert (u8 (b + 256 * le_value l) = b) as ->.
  { change ((b + 256 * le_value l) mod 256 = b). rewrite (Z.mul_comm 256), Z.mod_add by lia. by apply Z.mod_small. }
  assert ((b + 256 * le_value l) / 256 = le_value l) as ->; [|by rewrite IH].
  rewrite (Z.mul_comm 256), Z.div_add, Z.div_small by lia. done.
Qed.

Lemma le_value_range l : Forall byte_ok l -> 0 <= le_value l < 256 ^ Z.of_nat (length l).
Proof.
  induction 1 as [|b l Hb _ IH]; cbn [length le_value]; [done|]. unfold byte_ok in Hb.
  rewrite Nat2Z.inj_succ, Z.pow_succ_r by lia. lia.
Qed.

(** Storing a swapped value stores its bytes the other way round. *)
Lemma le_bytes_bswap n v : le_bytes n (bswap n v) = rev (le_bytes n v).
Proof.
  unfold bswap. rewrite <- (length_le_bytes n v) at 1. rewrite <- length_rev. apply le_bytes_value.
  apply Forall_rev, le_bytes_ok.
Qed.

Lemma bswap_value l n : Forall byte_ok l -> length l = n -> bswap n (le_value l) = le_value (rev l).
Proof. intros Hl <-. unfold bswap. by rewrite le_bytes_value. Qed.

(** ** What the functions mean, whatever the host *)

Lemma put_le_bytes n v : put_unaligned true n (bswap n v) = le_bytes n v /\ put_unaligned false n v = le_bytes n v.
Proof. unfold put_unaligned. by rewrite le_bytes_bswap, rev_involutive. Qed.

Lemma put_be_bytes n v : put_unaligned false n (bswap n v) = rev (le_bytes n v) /\ put_unaligned true n v = rev (le_bytes n v).
Proof. unfold put_unaligned. by rewrite le_bytes_bswap. Qed.

Lemma get_le_value n l : Forall byte_ok l -> (n <= length l)%nat ->
  bswap n (get_unaligned true n l) = le_value (take n l) /\ get_unaligned false n l = le_value (take n l).
Proof.
  intros Hl Hn. unfold get_unaligned. split; [|done]. rewrite bswap_value; [by rewrite rev_involutive| |].
  - by apply Forall_rev, Forall_take.
  - rewrite length_rev, length_take. lia.
Qed.

Lemma get_be_value n l : Forall byte_ok l -> (n <= length l)%nat ->
  bswap n (get_unaligned false n l) = le_value (rev (take n l)) /\ get_unaligned true n l = le_value (rev (take n l)).
Proof.
  intros Hl Hn. unfold get_unaligned. split; [|done]. apply bswap_value; [by apply Forall_take|]. rewrite length_take. lia.
Qed.

Lemma get_put n v rest : 0 <= v < 256 ^ Z.of_nat n ->
  le_value (take n (le_bytes n v ++ rest)) = v /\ le_value (rev (take n (rev (le_bytes n v) ++ rest))) = v.
Proof.
  intros Hv. rewrite !take_app_length' by (by rewrite ?length_rev, length_le_bytes). rewrite rev_involutive.
  by rewrite le_value_bytes.
Qed.

(** *** The functions of [Bytes.v] *)

Lemma le_bytes32_eq v : le_bytes32 v = le_bytes 4 v.
Proof. unfold le_bytes32. cbn [le_bytes]. by rewrite !Z.div_div by done. Qed.

Lemma le_bytes16_eq v : le_bytes16 v = le_bytes 2 v.
Proof. done. Qed.

Lemma bswap_32_eq v : bswap_32 v = bswap 4 v.
Proof.
  unfold bswap_32, bswap. rewrite le_bytes32_eq. cbn [le_bytes]. generalize (u8 v) (u8 (v / 256)) (u8 (v / 256 / 256)) (u8 (v / 256 / 256 / 256)).
  intros a b c d. change (d + 2 ^ 8 * c + 2 ^ 16 * b + 2 ^ 24 * a = d + 256 * (c + 256 * (b + 256 * (a + 256 * 0)))). lia.
Qed.

Lemma bswap_16_eq v : bswap_16 v = bswap 2 v.
Proof. unfold bswap_16, bswap. rewrite le_bytes16_eq. cbn [le_bytes]. generalize (u8 v) (u8 (v / 256)).
  intros a b. change (b + 2 ^ 8 * a = b + 256 * (a + 256 * 0)). lia. Qed.

Lemma put_be32_eq v : put_be32 v = put_unaligned false 4 (bswap 4 v).
Proof. unfold put_be32. by rewrite le_bytes32_eq, bswap_32_eq. Qed.

Lemma put_be16_eq v : put_be16 v = put_unaligned false 2 (bswap 2 v).
Proof. unfold put_be16. by rewrite le_bytes16_eq, bswap_16_eq. Qed.

(** What a big-endian host stores and reads is what a little-endian one does. *)
Lemma same_bytes n v : 0 <= v < 256 ^ Z.of_nat n ->
  put_unaligned false n v = put_unaligned true n (bswap n v) /\ put_unaligned false n (bswap n v) = put_unaligned true n v /\
  (forall big : bool, (if big then bswap n (get_unaligned true n (le_bytes n v)) else get_unaligned false n (le_bytes n v)) = v) /\
  (forall big : bool, (if big then get_unaligned true n (rev (le_bytes n v)) else bswap n (get_unaligned false n (rev (le_bytes n v)))) = v).
Proof.
  intros Hv. destruct (put_le_bytes n v) as [-> ->], (put_be_bytes n v) as [-> ->].
  assert (Forall byte_ok (le_bytes n v) /\ Forall byte_ok (rev (le_bytes n v))) as [H1 H2]
    by (split; [|apply Forall_rev]; apply le_bytes_ok).
  assert (n <= length (le_bytes n v) /\ n <= length (rev (le_bytes n v)))%nat as [L1 L2]
    by (rewrite length_rev, length_le_bytes; lia).
  destruct (get_le_value n _ H1 L1) as [-> ->], (get_be_value n _ H2 L2) as [-> ->].
  destruct (get_put n v [] Hv) as [G1 G2]. rewrite !app_nil_r in G1, G2. split_and!; [done|done|by intros []..].
Qed.

(** Both branches store the same bytes, least or most significant first, and
    read them back, so a packet does not depend on the host; the readers and
    writers of [Bytes.v] are the little-endian branch. *)
Theorem unaligned_host_independent v :
  (0 <= v < 2 ^ 64 -> put_le64 v = put_le64_big v /\ put_be64 v = put_be64_big v /\
     get_le64 (put_le64 v) = v /\ get_be64 (put_be64 v) = v /\ get_le64_big (put_le64_big v) = v /\ get_be64_big (put_be64_big v) = v) /\
  (0 <= v < 2 ^ 32 -> le_bytes32 v = put_le32_big v /\ put_be32 v = put_be32_big v /\
     get_le32_big (le_bytes32 v) = v /\ get_be32_big (put_be32 v) = v) /\
  (0 <= v < 2 ^ 16 -> le_bytes16 v = put_le16_big v /\ put_be16 v = put_be16_big v /\
     get_le16_big (le_bytes16 v) = v /\ get_be16_big (put_be16 v) = v).
Proof.
  split_and!; intros Hv.
  - destruct (same_bytes 8 v Hv) as (H1 & H2 & H3 & H4). split_and!; [exact H1|exact H2|exact (H3 false)| | |].
    + unfold get_be64, put_be64. rewrite (proj1 (put_be_bytes 8 v)). exact (H4 false).
    + unfold get_le64_big, put_le64_big. rewrite (proj1 (put_le_bytes 8 v)). exact (H3 true).
    + exact (H4 true).
  - destruct (same_bytes 4 v Hv) as (H1 & H2 & H3 & H4). rewrite le_bytes32_eq, put_be32_eq.
    split_and!; [exact H1|exact H2|exact (H3 true)|]. rewrite (proj1 (put_be_bytes 4 v)). exact (H4 true).
  - destruct (same_bytes 2 v Hv) as (H1 & H2 & H3 & H4). rewrite le_bytes16_eq, put_be16_eq.
    split_and!; [exact H1|exact H2|exact (H3 true)|]. rewrite (proj1 (put_be_bytes 2 v)). exact (H4 true).
Qed.
