(* ===== verification/DhcpConfig.v ===== *)
(** * The command line of the DHCP program ([src/dhcp_config.c], [src/dhcp.h]).

    [owfd_dhcp_config] is [struct owfd_dhcp_config]; each string it has is a
    block of its own.  The arguments are those behind the program's name.
    Messages on [stderr] are left out. *)

From S2P Require Import Prelude RecordSet CLib Bytes Getopt.

Record owfd_dhcp_config := mkConf {
  verbose : bool; silent : bool; debug : bool;
  client : bool; server : bool; ipv4 : bool; ipv6 : bool;
  interface : option (list Z); ip_binary : option (list Z);
  local : option (list Z); gateway : option (list Z); dns : option (list Z);
  subnet : option (list Z); ip_from : option (list Z); ip_to : option (list Z);
}.

#[export] Instance eta_dhcp_config : Eta owfd_dhcp_config := fun c =>
  mkConf (verbose c) (silent c) (debug c) (client c) (server c) (ipv4 c) (ipv6 c) (interface c) (ip_binary c)
    (local c) (gateway c) (dns c) (subnet c) (ip_from c) (ip_to c).

Definition LONG_OPT_OFFSET : Z := 10000.

Definition OPT_HELP : Z := 0.
Definition OPT_VERBOSE : Z := 1.
Definition OPT_SILENT : Z := 2.
Definition OPT_DEBUG : Z := 3.
Definition OPT_CLIENT : Z := 4.
Definition OPT_SERVER : Z := 5.
Definition OPT_IPV4 : Z := 6.
Definition OPT_IPV6 : Z := 7.
Definition OPT_INTERFACE : Z := 8.
Definition OPT_IP_BINARY : Z := 9.
Definition OPT_LOCAL : Z := 10.
Definition OPT_GATEWAY : Z := 11.
Definition OPT_DNS : Z := 12.
Definition OPT_SUBNET : Z := 13.
Definition OPT_IP_FROM : Z := 14.
Definition OPT_IP_TO : Z := 15.

Definition short_options : list Z := str ":hvcs46i:".

Definition OPT (name : string) (arg : bool) (val : Z) : long_option :=
  mkOpt (str name) arg (LONG_OPT_OFFSET + val).

Definition long_options : list long_option := [
  OPT "help" false OPT_HELP; OPT "verbose" false OPT_VERBOSE;
  OPT "silent" false OPT_SILENT; OPT "debug" false OPT_DEBUG;
  OPT "client" false OPT_CLIENT; OPT "server" false OPT_SERVER;
  OPT "ipv4" false OPT_IPV4; OPT "ipv6" false OPT_IPV6;
  OPT "interface" true OPT_INTERFACE; OPT "ip-binary" true OPT_IP_BINARY;
  OPT "local" true OPT_LOCAL; OPT "gateway" true OPT_GATEWAY;
  OPT "dns" true OPT_DNS; OPT "subnet" true OPT_SUBNET;
  OPT "ip-from" true OPT_IP_FROM; OPT "ip-to" true OPT_IP_TO].

Definition BUILD_BINDIR_IP : list Z := str "/bin".

Definition owfd_dhcp_init_config : owfd_dhcp_config :=
  mkConf false false false false false false false None None None None None None None None.

(** The strings of a configuration, in the order they are freed. *)
Definition config_strings (conf : owfd_dhcp_config) : list (option (list Z)) :=
  [interface conf; ip_binary conf; local conf; gateway conf; dns conf; subnet conf; ip_from conf; ip_to conf].

Definition owfd_dhcp_clear_config (conf : owfd_dhcp_config) : alloc unit :=
  free_strings (config_strings conf).

(** [c] is the short option or the long one. *)
Definition is_opt (c : Z) (short : option Z) (n : Z) : bool :=
  bool_decide (short = Some c) || (c =? LONG_OPT_OFFSET + n).

Definition is_help (c : Z) : bool := is_opt c (Some (chr "h")) OPT_HELP.

(** The [switch] of the option loop. *)
Definition dhcp_option (c : Z) (optarg : option (list Z)) (conf : owfd_dhcp_config) :
    alloc (option (Z * owfd_dhcp_config)) :=
  let set conf := ret (Some (0, conf)) in
  if is_opt c (Some (chr "v")) OPT_VERBOSE then set (conf <| verbose := true |>)
  else if is_opt c None OPT_SILENT then set (conf <| silent := true |>)
  else if is_opt c None OPT_DEBUG then set (conf <| debug := true |>)
  else if is_opt c (Some (chr "c")) OPT_CLIENT then set (conf <| server := false |> <| client := true |>)
  else if is_opt c (Some (chr "s")) OPT_SERVER then set (conf <| client := false |> <| server := true |>)
  else if is_opt c (Some (chr "4")) OPT_IPV4 then set (conf <| ipv6 := false |> <| ipv4 := true |>)
  else if is_opt c (Some (chr "6")) OPT_IPV6 then set (conf <| ipv4 := false |> <| ipv6 := true |>)
  else if is_opt c (Some (chr "i")) OPT_INTERFACE then
    set_string interface (fun t conf => conf <| interface := t |>) optarg conf
  else if is_opt c None OPT_IP_BINARY then
    set_string ip_binary (fun t conf => conf <| ip_binary := t |>) optarg conf
  else if is_opt c None OPT_LOCAL then set_string local (fun t conf => conf <| local := t |>) optarg conf
  else if is_opt c None OPT_GATEWAY then set_string gateway (fun t conf => conf <| gateway := t |>) optarg conf
  else if is_opt c None OPT_DNS then set_string dns (fun t conf => conf <| dns := t |>) optarg conf
  else if is_opt c None OPT_SUBNET then set_string subnet (fun t conf => conf <| subnet := t |>) optarg conf
  else if is_opt c None OPT_IP_FROM then set_string ip_from (fun t conf => conf <| ip_from := t |>) optarg conf
  else if is_opt c None OPT_IP_TO then set_string ip_to (fun t conf => conf <| ip_to := t |>) optarg conf
  else set conf.

(** ** Addresses *)

Definition prefix : list Z := [0; 0; 0; 0; 0; 0; 0; 0; 0; 0; 0xff; 0xff].

Section addresses.
(** [inet_pton] for [AF_INET6]: the 16 bytes of an address. *)
Context (inet_pton6 : list Z -> option (list Z)).

Definition verify_address (argval : option (list Z)) (v4 : bool) : Z :=
  match argval with
  | None => - EINVAL
  | Some s =>
    match inet_pton6 s with
    | None => - EINVAL
    | Some addr => if v4 && negb (bool_decide (take 12 addr = prefix)) then - EINVAL else 0
    end
  end.

Definition make_ipv4 (get : owfd_dhcp_config -> option (list Z))
    (set : option (list Z) -> owfd_dhcp_config -> owfd_dhcp_config) (conf : owfd_dhcp_config) :
    alloc (Z * owfd_dhcp_config) :=
  let addr := default (replicate 16 0) (inet_pton6 (default [] (get conf))) in
  let s_addr := htonl (u32 (Z.lor (Z.lor (Z.lor (Z.shiftl (byte_at addr 12) 24) (Z.shiftl (byte_at addr 13) 16))
                                         (Z.shiftl (byte_at addr 14) 8)) (byte_at addr 15))) in
  let! t := strdup (inet_ntoa s_addr) in
  match t with
  | None => ret (- ENOMEM, conf)
  | Some t => free_string (get conf) ;;! ret (0, set (Some t) conf)
  end.

Definition check_address (get : owfd_dhcp_config -> option (list Z))
    (set : option (list Z) -> owfd_dhcp_config -> owfd_dhcp_config) (conf : owfd_dhcp_config) :
    alloc (Z * owfd_dhcp_config) :=
  let r := verify_address (get conf) (ipv4 conf) in
  if (0 <=? r) && ipv4 conf then make_ipv4 get set conf else ret (r, conf).

(** The addresses a server needs, in the order they are checked. *)
Definition server_addresses :
    list ((owfd_dhcp_config -> option (list Z)) * (option (list Z) -> owfd_dhcp_config -> owfd_dhcp_config)) := [
  (local, fun t conf => conf <| local := t |>); (gateway, fun t conf => conf <| gateway := t |>);
  (dns, fun t conf => conf <| dns := t |>); (subnet, fun t conf => conf <| subnet := t |>);
  (ip_from, fun t conf => conf <| ip_from := t |>); (ip_to, fun t conf => conf <| ip_to := t |>)].

Fixpoint check_addresses
    (l : list ((owfd_dhcp_config -> option (list Z)) * (option (list Z) -> owfd_dhcp_config -> owfd_dhcp_config)))
    (conf : owfd_dhcp_config) : alloc (Z * owfd_dhcp_config) :=
  match l with
  | [] => ret (0, conf)
  | (get, set) :: l =>
    let! (r, conf) := check_address get set conf in
    if r <? 0 then ret (r, conf) else check_addresses l conf
  end.

(** The checks behind the option loop. *)
Definition check_config (help : bool) (operands : list (list Z)) (conf : owfd_dhcp_config) :
    alloc (Z * owfd_dhcp_config) :=
  if help then ret (- EAGAIN, conf)
  else if bool_decide (operands <> []) then ret (- EINVAL, conf)
  else if negb (client conf) && negb (server conf) then ret (- EINVAL, conf)
  else if negb (ipv4 conf) && negb (ipv6 conf) then ret (- EINVAL, conf)
  else if ipv6 conf then ret (- EINVAL, conf)
  else if bool_decide (interface conf = None) then ret (- EINVAL, conf)
  else
    let! (r, conf) := default_string ip_binary (fun t conf => conf <| ip_binary := t |>)
                        (BUILD_BINDIR_IP ++ str "/ip") conf in
    if r <? 0 then ret (r, conf)
    else if server conf then check_addresses server_addresses conf else ret (0, conf).

(** [None]: the loop has used up its fuel, or an option came without its
    argument; this does not happen. *)
Definition owfd_dhcp_parse_argv (args : list (list Z)) (conf : owfd_dhcp_config) :
    alloc (option (Z * owfd_dhcp_config)) :=
  let g := getopt_start args in
  let! res := options_loop short_options long_options is_help dhcp_option (S (getopt_left g)) g false conf in
  match res with
  | None => ret None
  | Some (Fails r, conf) => ret (Some (r, conf))
  | Some (Ends help operands, conf) => let! rc := check_config help operands conf in ret (Some rc)
  end.

End addresses.

(** ** Invariant of the option loop *)

(** A string without a zero byte, if there is one. *)
Definition c_string (s : option (list Z)) : Prop := forall v, s = Some v -> Forall (fun c => c <> 0) v.

Definition owned (conf : owfd_dhcp_config) : Z := strings_blocks (config_strings conf).

(** Neither both modes nor both protocols, and strings are C strings. *)
Record config_inv (conf : owfd_dhcp_config) : Prop := {
  inv_mode : client conf && server conf = false;
  inv_protocol : ipv4 conf && ipv6 conf = false;
  inv_strings : Forall c_string (config_strings conf);
}.

(** The parts of a configuration that are not strings. *)
Definition modes (conf : owfd_dhcp_config) : bool * bool * bool * bool :=
  (client conf, server conf, ipv4 conf, ipv6 conf).

(** A string field: setting it changes the blocks by its own, and nothing else. *)
Record string_field (get : owfd_dhcp_config -> option (list Z))
    (set : option (list Z) -> owfd_dhcp_config -> owfd_dhcp_config) : Prop := {
  sf_get : forall t conf, get (set t conf) = t;
  sf_modes : forall t conf, modes (set t conf) = modes conf;
  sf_owned : forall v conf, owned (set (Some v) conf) - owned conf = 1 - string_blocks (get conf);
  sf_strings : forall t conf, Forall c_string (config_strings conf) -> c_string t ->
    Forall c_string (config_strings (set t conf));
}.

Ltac string_field :=
  split; [done|done|
    intros v conf; unfold owned, strings_blocks; cbn [config_strings foldr rset];
    change (string_blocks (Some v)) with 1; unfold config_strings; cbn; lia|
    intros t conf; unfold config_strings; rewrite !Forall_cons; tauto].

Lemma interface_field : string_field interface (fun t conf => conf <| interface := t |>).
Proof. string_field. Qed.

Lemma ip_binary_field : string_field ip_binary (fun t conf => conf <| ip_binary := t |>).
Proof. string_field. Qed.

Lemma local_field : string_field local (fun t conf => conf <| local := t |>).
Proof. string_field. Qed.

Lemma gateway_field : string_field gateway (fun t conf => conf <| gateway := t |>).
Proof. string_field. Qed.

Lemma dns_field : string_field dns (fun t conf => conf <| dns := t |>).
Proof. string_field. Qed.

Lemma subnet_field : string_field subnet (fun t conf => conf <| subnet := t |>).
Proof. string_field. Qed.

Lemma ip_from_field : string_field ip_from (fun t conf => conf <| ip_from := t |>).
Proof. string_field. Qed.

Lemma ip_to_field : string_field ip_to (fun t conf => conf <| ip_to := t |>).
Proof. string_field. Qed.

Create HintDb config.
#[export] Hint Resolve interface_field ip_binary_field local_field gateway_field dns_field subnet_field
  ip_from_field ip_to_field : config.

(** What a step of the parser keeps; [P] is what it leaves besides. *)
Definition keeps (conf : owfd_dhcp_config) (h : heap) (conf' : owfd_dhcp_config) (h' : heap) : Prop :=
  config_inv conf' /\ heap_step h h' (owned conf' - owned conf).

Lemma config_keeps_refl conf h : config_inv conf -> keeps conf h conf h.
Proof. split; [done|]. rewrite Z.sub_diag. apply heap_step_refl. Qed.

Lemma config_keeps_trans c0 h0 c1 h1 c2 h2 : keeps c0 h0 c1 h1 -> keeps c1 h1 c2 h2 -> keeps c0 h0 c2 h2.
Proof. intros [_ H1] [? H2]. split; [done|]. eapply heap_step_trans; [done..|]. lia. Qed.

Lemma keeps_set get set v conf h h' :
  string_field get set -> config_inv conf -> Forall (fun c => c <> 0) v ->
  heap_step h h' (1 - string_blocks (get conf)) -> keeps conf h (set (Some v) conf) h'.
Proof.
  intros [_ Hm Ho Hs] [Hi1 Hi2 Hi3] Hv Hh. specialize (Hm (Some v) conf). unfold modes in Hm.
  injection Hm as Hm1 Hm2 Hm3 Hm4.
  split; [split|].
  - by rewrite Hm1, Hm2.
  - by rewrite Hm3, Hm4.
  - apply Hs; [done|]. by intros v' [= <-].
  - by rewrite Ho.
Qed.

(** An option that takes an argument has one. *)
Definition takes_arg (c : Z) : bool :=
  is_opt c (Some (chr "i")) OPT_INTERFACE || (LONG_OPT_OFFSET + OPT_IP_BINARY <=? c).

Lemma known_arg c arg : known_option short_options long_options c arg -> bool_decide (is_Some arg) = takes_arg c.
Proof.
  intros [(o & Ho & -> & ->)|(i & Hi & Hc & ->)].
  - cbn in Ho. destruct_or! Ho; try done; subst o; reflexivity.
  - apply strchr_some in Hi as [Hi <-]. change (zlen short_options) with 9 in Hi.
    assert (i = 0 \/ i = 1 \/ i = 2 \/ i = 3 \/ i = 4 \/ i = 5 \/ i = 6 \/ i = 7 \/ i = 8) as Hcase by lia.
    destruct_or! Hcase; subst i; first [done|reflexivity].
Qed.

Lemma is_opt_long c n : is_opt c None n = true -> c = LONG_OPT_OFFSET + n.
Proof. unfold is_opt. rewrite bool_decide_false by done. cbn [orb]. by intros ->%Z.eqb_eq. Qed.

Lemma set_string_keeps get set arg conf h :
  string_field get set -> config_inv conf -> is_Some arg ->
  wp (set_string get set arg conf) (fun res h' => exists r conf', res = Some (r, conf') /\
    keeps conf h conf' h' /\ (r = 0 \/ r = - ENOMEM)) h.
Proof.
  intros Hf Hc [a ->]. apply wp_set_string.
  - intros h' Hh. eexists _, _. split; [done|]. split; [|by left].
    apply (keeps_set get set); try done; apply cstr_no_zero.
  - intros h' _ Hh. eexists _, _. split; [done|]. split; [|by right]. split; [done|]. by rewrite Z.sub_diag.
Qed.

Lemma dhcp_option_keeps c arg conf h :
  config_inv conf -> known_option short_options long_options c arg ->
  wp (dhcp_option c arg conf) (fun res h' => exists r conf', res = Some (r, conf') /\
    keeps conf h conf' h' /\ (r = 0 \/ r = - ENOMEM)) h.
Proof.
  intros Hc Hk. apply known_arg in Hk.
  assert (forall conf', config_inv conf' -> owned conf' = owned conf ->
    wp (ret (Some (0, conf'))) (fun res h' => exists r conf', res = Some (r, conf') /\
      keeps conf h conf' h' /\ (r = 0 \/ r = - ENOMEM)) h) as Hflag.
  { intros conf' Hc' Ho. apply wp_ret. eexists _, _. split; [done|]. split; [|by left]. split; [done|].
    rewrite Ho, Z.sub_diag. apply heap_step_refl. }
  assert (takes_arg c = true -> is_Some arg) as Harg.
  { intros Ht. rewrite Ht in Hk. by apply bool_decide_eq_true in Hk. }
  unfold takes_arg in Harg. unfold dhcp_option.
  repeat match goal with
  | |- wp (if is_opt ?c ?s ?n then _ else _) _ _ => destruct (is_opt c s n) eqn:?
  end; first [apply Hflag; [destruct Hc; split; done|done]|apply set_string_keeps; [auto with config|done|apply Harg]];
    first [reflexivity|match goal with H : is_opt c None _ = true |- _ => apply is_opt_long in H; by subst c end].
Qed.

(** ** What parsing leaves *)

Definition is_dotted (s : option (list Z)) : Prop :=
  exists a b c d, s = Some (dotted a b c d) /\ Forall byte_ok [a; b; c; d].

(** A configuration the program can run with. *)
Record config_ok (conf : owfd_dhcp_config) : Prop := {
  ok_mode : client conf = negb (server conf);
  ok_ipv4 : ipv4 conf = true;
  ok_ipv6 : ipv6 conf = false;
  ok_interface : is_Some (interface conf);
  ok_ip_binary : is_Some (ip_binary conf);
  ok_addresses : server conf = true ->
    Forall is_dotted [local conf; gateway conf; dns conf; subnet conf; ip_from conf; ip_to conf];
}.

Lemma dec_byte n : byte_ok n -> Forall (fun c => c <> 0) (dec n) /\ zlen (dec n) <= 3.
Proof.
  intros Hn. assert (forallb (fun n => forallb (fun c => negb (c =? 0)) (dec (Z.of_nat n)) &&
    (zlen (dec (Z.of_nat n)) <=? 3)) (seq 0 256) = true) as H by (vm_compute; reflexivity).
  rewrite forallb_forall in H. specialize (H (Z.to_nat n)). unfold byte_ok in Hn.
  rewrite Z2Nat.id in H by lia. specialize (H ltac:(apply in_seq; lia)). apply andb_true_iff in H as [H Hl].
  split; [|lia]. rewrite forallb_forall in H. apply Forall_forall. intros c Hc%list_elem_of_In ->. by specialize (H 0 Hc).
Qed.

Lemma dotted_no_zero a b c d : Forall byte_ok [a; b; c; d] -> Forall (fun c => c <> 0) (dotted a b c d).
Proof.
  rewrite !Forall_cons. intros (? & ? & ? & ? & _). unfold dotted.
  repeat (apply Forall_app; split); try (by apply dec_byte); by repeat constructor.
Qed.

Lemma dotted_length a b c d : Forall byte_ok [a; b; c; d] -> zlen (dotted a b c d) <= 15.
Proof.
  rewrite !Forall_cons. intros ([_ Ha]%dec_byte & [_ Hb]%dec_byte & [_ Hc]%dec_byte & [_ Hd]%dec_byte & _).
  unfold dotted. rewrite !zlen_app. change (zlen [chr "."]) with 1. lia.
Qed.

Lemma inet_ntoa_dotted ip : exists a b c d, inet_ntoa ip = dotted a b c d /\ Forall byte_ok [a; b; c; d].
Proof. eexists _, _, _, _. split; [done|]. repeat constructor; apply u8_range. Qed.

Section parse.
Context (inet_pton6 : list Z -> option (list Z)).

(** One address is checked, and replaced by its dotted form. *)
Lemma check_address_keeps get set conf h :
  string_field get set -> config_inv conf -> ipv4 conf = true ->
  wp (check_address inet_pton6 get set conf) (fun '(r, conf') h' => keeps conf h conf' h' /\
    (r = 0 /\ (exists t, is_dotted t /\ conf' = set t conf) \/ r = - EINVAL \/ r = - ENOMEM)) h.
Proof.
  intros Hf Hc H4. unfold check_address, verify_address. rewrite H4.
  destruct (get conf) as [s|] eqn:Es; [|apply wp_ret; split; [by apply config_keeps_refl|auto]].
  destruct (inet_pton6 s) as [addr|]; [|apply wp_ret; split; [by apply config_keeps_refl|auto]].
  destruct (bool_decide (take 12 addr = prefix)); cbn [negb andb];
    [|apply wp_ret; split; [by apply config_keeps_refl|auto]]. change ((0 <=? 0) && true) with true. cbv iota.
  unfold make_ipv4. lazymatch goal with |- context [inet_ntoa ?ip] =>
    destruct (inet_ntoa_dotted ip) as (a & b & c & d & -> & Hb) end.
  pose proof (dotted_no_zero _ _ _ _ Hb) as Hz. apply wp_bind, wp_strdup; intros h1; [intros H1|intros _ H1].
  - rewrite cstr_id by done. apply wp_bind, wp_free_string. intros h2 H2. apply wp_ret. split.
    + apply (keeps_set get set); try done. eapply heap_step_trans; [done..|]. lia.
    + left. split; [done|]. eexists. split; [|done]. by exists a, b, c, d.
  - apply wp_ret. split; [|auto]. split; [done|]. by rewrite Z.sub_diag.
Qed.

(** Setting several fields, one after the other. *)
Definition set_all
    (l : list ((owfd_dhcp_config -> option (list Z)) * (option (list Z) -> owfd_dhcp_config -> owfd_dhcp_config)))
    (ts : list (option (list Z))) (conf : owfd_dhcp_config) : owfd_dhcp_config :=
  foldl (fun conf '((_, set), t) => set t conf) conf (zip l ts).

Lemma check_addresses_keeps l conf h :
  Forall (fun '(get, set) => string_field get set) l -> config_inv conf -> ipv4 conf = true ->
  wp (check_addresses inet_pton6 l conf) (fun '(r, conf') h' => keeps conf h conf' h' /\
    (r = 0 /\ (exists ts, Forall is_dotted ts /\ length ts = length l /\ conf' = set_all l ts conf) \/
     r = - EINVAL \/ r = - ENOMEM)) h.
Proof.
  intros Hl. revert conf h; induction Hl as [|[get set] l Hf Hl IH]; intros conf h Hc H4; cbn [check_addresses].
  - apply wp_ret. split; [by apply config_keeps_refl|]. left. split; [done|]. by exists [].
  - apply wp_bind. eapply wp_mono; [by apply check_address_keeps|]. intros [r conf1] h1 [H1 Hr].
    destruct Hr as [(-> & t & Ht & ->)|[->| ->]]; cbn [Z.ltb Z.compare]; [|apply wp_ret; auto..].
    assert (ipv4 (set t conf) = true) as H4'.
    { pose proof (sf_modes _ _ Hf t conf) as Hm. unfold modes in Hm. congruence. }
    eapply wp_mono; [apply IH; [apply H1|done]|]. intros [r conf2] h2 [H2 Hr].
    split; [by eapply config_keeps_trans|]. destruct Hr as [(-> & ts & Hts & Hlen & ->)|Hr]; [left|by right].
    split; [done|]. exists (t :: ts). split_and!; [by constructor|cbn; lia|done].
Qed.

Lemma server_addresses_fields : Forall (fun '(get, set) => string_field get set) server_addresses.
Proof. unfold server_addresses. rewrite !Forall_cons, Forall_nil. auto 10 with config. Qed.

Lemma check_config_keeps help operands conf h :
  config_inv conf ->
  wp (check_config inet_pton6 help operands conf) (fun '(r, conf') h' => keeps conf h conf' h' /\
    (r = 0 /\ config_ok conf' \/ r = - EAGAIN \/ r = - EINVAL \/ r = - ENOMEM)) h.
Proof.
  intros Hc. unfold check_config. pose proof (config_keeps_refl conf h Hc) as Hk.
  destruct help; [apply wp_ret; auto|]. destruct (bool_decide (operands <> [])); [apply wp_ret; auto|].
  destruct (negb (client conf) && negb (server conf)) eqn:Em; [apply wp_ret; auto|].
  destruct (negb (ipv4 conf) && negb (ipv6 conf)) eqn:Ep; [apply wp_ret; auto|].
  destruct (ipv6 conf) eqn:E6; [apply wp_ret; auto|].
  case_bool_decide as Hi; [apply wp_ret; auto|].
  assert (ipv4 conf = true) as E4 by (destruct (ipv4 conf); done).
  assert (client conf = negb (server conf)) as Emode.
  { pose proof (inv_mode _ Hc). by destruct (client conf), (server conf). }
  assert (forall r conf' h', is_Some (interface conf') -> modes conf' = modes conf -> is_Some (ip_binary conf') ->
    keeps conf h conf' h' -> r = 0 ->
    wp (if r <? 0 then ret (r, conf') else
        if server conf' then check_addresses inet_pton6 server_addresses conf' else ret (0, conf'))
      (fun '(r, conf') h' => keeps conf h conf' h' /\
        (r = 0 /\ config_ok conf' \/ r = - EAGAIN \/ r = - EINVAL \/ r = - ENOMEM)) h') as Hrest.
  { intros r conf' h' Hi' Hm Hb Hk' ->. cbn [Z.ltb Z.compare]. unfold modes in Hm. injection Hm as Hm1 Hm2 Hm3 Hm4.
    destruct (server conf') eqn:Es.
    - eapply wp_mono; [apply check_addresses_keeps; [apply server_addresses_fields|apply Hk'|congruence]|].
      intros [r conf2] h2 [H2 Hr]. split; [by eapply config_keeps_trans|].
      destruct Hr as [(-> & ts & Hts & Hlen & ->)|Hr]; [left|auto]. split; [done|].
      do 6 (destruct ts as [|? ts]; [done|]). destruct ts; [|done]. cbn.
      split; cbn; try congruence; try done.
    - apply wp_ret. split; [done|]. left. split; [done|]. split; try congruence; done. }
  apply wp_bind, wp_default_string.
  - intros Hb. apply Hrest; try done. by apply not_eq_None_Some.
  - intros h1 Hb H1. apply Hrest; try done; [by apply not_eq_None_Some|].
    apply (keeps_set ip_binary (fun t conf => conf <| ip_binary := t |>));
      [auto with config|done|apply cstr_no_zero|by rewrite Hb].
  - intros h1 Hb _ H1. apply wp_ret. split; [|auto]. split; [done|]. by rewrite Z.sub_diag.
Qed.

(** C34. Parsing a command line ends with a configuration that can be run or with
    one of the documented errors, and never loses memory: for every list of
    arguments and every behaviour of the allocator, [owfd_dhcp_parse_argv] on a
    fresh configuration returns, each live block it leaves is a string of the
    configuration, so that clearing it gives everything back; and when it returns
    0 exactly one of client and server is chosen, the protocol is IPv4, the
    interface and the path of [ip] are set, and a server has all six addresses in
    dotted form. *)
Theorem owfd_dhcp_parse_argv_ok args h :
  wp (owfd_dhcp_parse_argv inet_pton6 args owfd_dhcp_init_config) (fun res h' => exists r conf,
    res = Some (r, conf) /\
    (r = 0 /\ config_ok conf \/ r = - EAGAIN \/ r = - EINVAL \/ r = - ENOMEM) /\
    h_live h' = h_live h + strings_blocks (config_strings conf) /\
    wp (owfd_dhcp_clear_config conf) (fun _ h'' => h_live h'' = h_live h) h') h.
Proof.
  assert (config_inv owfd_dhcp_init_config) as H0 by (split; [done..|by repeat constructor]).
  assert (forall conf h', keeps owfd_dhcp_init_config h conf h' ->
    h_live h' = h_live h + strings_blocks (config_strings conf) /\
    wp (owfd_dhcp_clear_config conf) (fun _ h'' => h_live h'' = h_live h) h') as Hend.
  { intros conf h' [_ [Hl _]]. change (owned owfd_dhcp_init_config) with 0 in Hl. unfold owned in Hl.
    split; [lia|]. apply wp_free_strings. intros h'' [Hl' _]. lia. }
  unfold owfd_dhcp_parse_argv. apply wp_bind. eapply wp_mono.
  { apply (options_loop_spec _ _ _ _ owned config_inv); [|done|lia]. intros c arg conf h1 Hc Hk _.
    eapply wp_mono; [by apply dhcp_option_keeps|]. intros res h2 (r & conf' & -> & [? ?] & Hr). by eexists _, _. }
  intros res h1 (e & conf & -> & Hc & H1 & He). destruct e as [r|help operands].
  - apply wp_ret. eexists _, _. split; [done|]. split; [destruct (He r eq_refl) as [-> | ->]; auto|]. by apply Hend.
  - apply wp_bind. eapply wp_mono; [by apply check_config_keeps|]. intros [r conf'] h2 [H2 Hr].
    apply wp_ret. eexists _, _. split; [done|]. split; [done|]. apply Hend.
    eapply config_keeps_trans; [|done]. by split.
Qed.

End parse.

(** ** Writing a configuration as a command line *)

(** An IPv4 address inside IPv6. *)
Definition v6_text (v : list Z) : list Z := str "::ffff:" ++ v.

Definition flag (b : bool) (o : long_option) : list (long_option * option (list Z)) :=
  if b then [(o, None)] else [].

Definition with_value (o : long_option) (v : option (list Z)) : list (long_option * option (list Z)) :=
  match v with Some v => [(o, Some v)] | None => [] end.

(** What is given for an address: a server gets it inside IPv6. *)
Definition given (conf : owfd_dhcp_config) (v : option (list Z)) : option (list Z) :=
  if server conf then option_map v6_text v else v.

Definition config_options (conf : owfd_dhcp_config) : list (long_option * option (list Z)) :=
  flag (verbose conf) (OPT "verbose" false OPT_VERBOSE) ++
  flag (silent conf) (OPT "silent" false OPT_SILENT) ++
  flag (debug conf) (OPT "debug" false OPT_DEBUG) ++
  flag (client conf) (OPT "client" false OPT_CLIENT) ++
  flag (server conf) (OPT "server" false OPT_SERVER) ++
  flag (ipv4 conf) (OPT "ipv4" false OPT_IPV4) ++
  with_value (OPT "interface" true OPT_INTERFACE) (interface conf) ++
  with_value (OPT "ip-binary" true OPT_IP_BINARY) (ip_binary conf) ++
  with_value (OPT "local" true OPT_LOCAL) (given conf (local conf)) ++
  with_value (OPT "gateway" true OPT_GATEWAY) (given conf (gateway conf)) ++
  with_value (OPT "dns" true OPT_DNS) (given conf (dns conf)) ++
  with_value (OPT "subnet" true OPT_SUBNET) (given conf (subnet conf)) ++
  with_value (OPT "ip-from" true OPT_IP_FROM) (given conf (ip_from conf)) ++
  with_value (OPT "ip-to" true OPT_IP_TO) (given conf (ip_to conf)).

Definition command_line (conf : owfd_dhcp_config) : list (list Z) :=
  map (fun '(o, v) => long_arg o v) (config_options conf).

(** A string [strdup] can copy, and still can inside IPv6. *)
Definition string_fits (s : option (list Z)) : Prop :=
  forall v, s = Some v -> Forall (fun c => c <> 0) v /\ zlen v + 8 <= PTRDIFF_MAX.

(** What the [switch] stores when [strdup] does not fail. *)
Definition store (conf : owfd_dhcp_config) (ov : long_option * option (list Z)) : owfd_dhcp_config :=
  let n := o_val (fst ov) - LONG_OPT_OFFSET in
  let v := snd ov in
  if n =? OPT_VERBOSE then conf <| verbose := true |>
  else if n =? OPT_SILENT then conf <| silent := true |>
  else if n =? OPT_DEBUG then conf <| debug := true |>
  else if n =? OPT_CLIENT then conf <| server := false |> <| client := true |>
  else if n =? OPT_SERVER then conf <| client := false |> <| server := true |>
  else if n =? OPT_IPV4 then conf <| ipv6 := false |> <| ipv4 := true |>
  else if n =? OPT_IPV6 then conf <| ipv4 := false |> <| ipv6 := true |>
  else if n =? OPT_INTERFACE then conf <| interface := v |>
  else if n =? OPT_IP_BINARY then conf <| ip_binary := v |>
  else if n =? OPT_LOCAL then conf <| local := v |>
  else if n =? OPT_GATEWAY then conf <| gateway := v |>
  else if n =? OPT_DNS then conf <| dns := v |>
  else if n =? OPT_SUBNET then conf <| subnet := v |>
  else if n =? OPT_IP_FROM then conf <| ip_from := v |>
  else conf <| ip_to := v |>.

Lemma set_string_stores get set v (conf : owfd_dhcp_config) h :
  Forall (fun c => c <> 0) v -> zlen v + 1 <= PTRDIFF_MAX -> heap_ok h ->
  wp (set_string get set (Some v) conf) (fun res h' => res = Some (0, set (Some v) conf) /\ heap_ok h') h.
Proof.
  intros Hv Hl Hh. apply wp_set_string; intros h1.
  - intros [_ H1]. rewrite cstr_id by done. auto.
  - intros Hno _. exfalso. apply Hno; [done|]. unfold strlen. by rewrite cstr_id.
Qed.

Lemma dhcp_option_stores o v conf h :
  In o long_options -> bool_decide (is_Some v) = o_has_arg o -> is_help (o_val o) = false ->
  (forall t, v = Some t -> Forall (fun c => c <> 0) t /\ zlen t + 1 <= PTRDIFF_MAX) -> heap_ok h ->
  wp (dhcp_option (o_val o) v conf) (fun res h' => res = Some (0, store conf (o, v)) /\ heap_ok h') h.
Proof.
  intros Ho Hv Hhelp Ht Hh. cbn in Ho. destruct_or! Ho; try done; subst o; try discriminate Hhelp;
    (destruct v as [v|]; [|try discriminate Hv]; try discriminate Hv);
    first [destruct (Ht v eq_refl); by apply set_string_stores|by apply wp_ret].
Qed.

Lemma long_options_ok : table_ok long_options = true.
Proof. vm_compute. reflexivity. Qed.

Section render.
Context (inet_pton6 : list Z -> option (list Z)).
Context (Hpton : forall a b c d, Forall byte_ok [a; b; c; d] ->
  inet_pton6 (v6_text (dotted a b c d)) = Some (prefix ++ [a; b; c; d])).

Lemma lor_shift x k y : 0 <= k -> 0 <= y < 2 ^ k -> Z.lor (Z.shiftl x k) y = x * 2 ^ k + y.
Proof.
  intros Hk Hy. rewrite Z.shiftl_mul_pow2 by done. rewrite <- Z.lxor_lor, Z.add_nocarry_lxor; try done;
    apply Z.bits_inj'; intros n Hn; rewrite Z.land_spec, Z.bits_0;
    (destruct (Z.ltb_spec n k); [rewrite Z.mul_pow2_bits_low by done; done|
      rewrite <- (Z.mod_small y (2 ^ k)) by done; rewrite Z.mod_pow2_bits_high by lia; apply andb_false_r]).
Qed.

Lemma ipv4_in_ipv6 a b c d :
  Forall byte_ok [a; b; c; d] ->
  inet_ntoa (htonl (u32 (Z.lor (Z.lor (Z.lor (Z.shiftl a 24) (Z.shiftl b 16)) (Z.shiftl c 8)) d))) = dotted a b c d.
Proof.
  rewrite !Forall_cons. unfold byte_ok. intros (Ha & Hb & Hc & Hd & _).
  assert (Z.lor (Z.lor (Z.lor (Z.shiftl a 24) (Z.shiftl b 16)) (Z.shiftl c 8)) d =
    d + 2 ^ 8 * c + 2 ^ 16 * b + 2 ^ 24 * a) as ->.
  { rewrite lor_shift by (rewrite ?Z.shiftl_mul_pow2 by lia; lia). rewrite (Z.shiftl_mul_pow2 b 16) by lia.
    replace (a * 2 ^ 24 + b * 2 ^ 16) with (Z.shiftl (a * 2 ^ 8 + b) 16) by (rewrite Z.shiftl_mul_pow2 by lia; lia).
    rewrite lor_shift by (rewrite ?Z.shiftl_mul_pow2 by lia; lia). rewrite (Z.shiftl_mul_pow2 c 8) by lia.
    replace ((a * 2 ^ 8 + b) * 2 ^ 16 + c * 2 ^ 8) with (Z.shiftl ((a * 2 ^ 8 + b) * 2 ^ 8 + c) 8)
      by (rewrite Z.shiftl_mul_pow2 by lia; lia).
    rewrite lor_shift by lia. lia. }
  unfold u32. rewrite Z.mod_small by lia. unfold htonl. rewrite bswap_32_explicit by done.
  unfold inet_ntoa, u8. f_equal; Z.div_mod_to_equations; lia.
Qed.

Lemma default_some {A} (x y : A) : default x (Some y) = y.
Proof. done. Qed.

Lemma check_address_render get set conf a b c d h :
  get conf = Some (v6_text (dotted a b c d)) -> ipv4 conf = true -> Forall byte_ok [a; b; c; d] -> heap_ok h ->
  wp (check_address inet_pton6 get set conf)
     (fun res h' => res = (0, set (Some (dotted a b c d)) conf) /\ heap_ok h') h.
Proof.
  intros Hg H4 Hb Hh. unfold check_address, verify_address. rewrite Hg, H4, (Hpton a b c d Hb).
  rewrite bool_decide_true by done. cbn [negb andb]. change ((0 <=? 0) && true) with true. cbv iota.
  unfold make_ipv4. rewrite Hg, !default_some, (Hpton a b c d Hb), default_some.
  change (byte_at (prefix ++ [a; b; c; d]) 12) with a. change (byte_at (prefix ++ [a; b; c; d]) 13) with b.
  change (byte_at (prefix ++ [a; b; c; d]) 14) with c. change (byte_at (prefix ++ [a; b; c; d]) 15) with d.
  rewrite ipv4_in_ipv6 by done. pose proof (dotted_no_zero a b c d Hb) as Hz.
  apply wp_bind, wp_strdup; intros h1.
  - intros [_ H1]. apply wp_bind, wp_free_string. intros h2 [_ H2]. apply wp_ret. rewrite cstr_id by done. auto.
  - intros Hno _. exfalso. apply Hno; [done|]. unfold strlen. rewrite cstr_id by done.
    pose proof (dotted_length a b c d Hb). unfold PTRDIFF_MAX. lia.
Qed.

(** What the option loop leaves of a configuration written as a command line. *)
Definition as_given (conf : owfd_dhcp_config) : owfd_dhcp_config :=
  mkConf (verbose conf) (silent conf) (debug conf) (client conf) (server conf) (ipv4 conf) (ipv6 conf)
    (interface conf) (ip_binary conf) (given conf (local conf)) (given conf (gateway conf))
    (given conf (dns conf)) (given conf (subnet conf)) (given conf (ip_from conf)) (given conf (ip_to conf)).

Ltac simpl_config :=
  cbn [rset verbose silent debug client server ipv4 ipv6 interface ip_binary local gateway dns subnet ip_from ip_to].

Ltac step a b c d :=
  apply wp_bind; eapply wp_mono; [apply (check_address_render _ _ _ a b c d); [reflexivity|reflexivity|done|done]|];
  let h := fresh "h" in intros ? h [-> ?]; change (0 <? 0) with false; cbv beta iota;
  simpl_config.

Lemma check_addresses_render conf h :
  config_ok conf -> server conf = true -> heap_ok h ->
  wp (check_addresses inet_pton6 server_addresses (as_given conf)) (fun res h' => res = (0, conf) /\ heap_ok h') h.
Proof.
  intros [_ H4 _ _ _ Ha] Hs Hh. specialize (Ha Hs). destruct conf; cbn in *. subst.
  rewrite !Forall_cons in Ha.
  destruct Ha as ((a1 & b1 & c1 & d1 & -> & H1) & (a2 & b2 & c2 & d2 & -> & H2) & (a3 & b3 & c3 & d3 & -> & H3) &
    (a4 & b4 & c4 & d4 & -> & H5) & (a5 & b5 & c5 & d5 & -> & H6) & (a6 & b6 & c6 & d6 & -> & H7) & _).
  unfold server_addresses, as_given, given. cbn [check_addresses server option_map].
  step a1 b1 c1 d1. step a2 b2 c2 d2. step a3 b3 c3 d3.
  step a4 b4 c4 d4. step a5 b5 c5 d5. step a6 b6 c6 d6.
  by apply wp_ret.
Qed.

Lemma check_config_render conf h :
  config_ok conf -> heap_ok h ->
  wp (check_config inet_pton6 false [] (as_given conf)) (fun res h' => res = (0, conf) /\ heap_ok h') h.
Proof.
  intros Hok Hh. pose proof Hok as [Hm H4 H6 Hi Hb _]. unfold check_config. cbn [client server ipv4 ipv6 interface as_given].
  rewrite bool_decide_false by (intros H; by apply H). rewrite Hm, H4, H6. cbn [negb andb].
  replace (negb (negb (server conf)) && negb (server conf)) with false by (by destruct (server conf)). cbn [negb].
  rewrite bool_decide_false by (intros Hn; rewrite Hn in Hi; by destruct Hi).
  apply wp_bind, wp_default_string; cbn [ip_binary as_given]; intros; try by destruct (ip_binary conf), Hb.
  cbn [Z.ltb Z.compare]. change (server (as_given conf)) with (server conf).
  destruct (server conf) eqn:Es; [by apply check_addresses_render|].
  apply wp_ret. split; [|done]. unfold as_given, given. rewrite Es. destruct conf. cbn in Es |- *. by subst.
Qed.

(** Storing a value that is optional. *)
Lemma store_value get set o v conf :
  (forall t, store conf (o, Some t) = set (Some t) conf) -> set (get conf) conf = conf -> get conf = None ->
  foldl store conf (with_value o v) = set v conf.
Proof. intros Hs Hg Hn. destruct v as [v|]; cbn; [by rewrite Hs|]. by rewrite <- Hn. Qed.

Lemma store_flag (get : owfd_dhcp_config -> bool) set b o conf :
  store conf (o, None) = set true conf -> set (get conf) conf = conf -> get conf = false ->
  foldl store conf (flag b o) = set b conf.
Proof. intros Hs Hg Hn. destruct b; cbn; [by rewrite Hs|]. by rewrite <- Hn. Qed.

Lemma store_options conf :
  client conf = negb (server conf) -> ipv4 conf = true -> ipv6 conf = false ->
  foldl store owfd_dhcp_init_config (config_options conf) = as_given conf.
Proof.
  intros Hm H4 H6. unfold config_options. rewrite !foldl_app. unfold owfd_dhcp_init_config.
  rewrite (store_flag verbose (fun b c => c <| verbose := b |>) _ (OPT "verbose" _ _)) by done. simpl_config.
  rewrite (store_flag silent (fun b c => c <| silent := b |>) _ (OPT "silent" _ _)) by done. simpl_config.
  rewrite (store_flag debug (fun b c => c <| debug := b |>) _ (OPT "debug" _ _)) by done. simpl_config.
  assert (forall c, client c = false -> server c = false ->
    foldl store (foldl store c (flag (client conf) (OPT "client" false OPT_CLIENT)))
      (flag (server conf) (OPT "server" false OPT_SERVER)) =
    c <| client := client conf |> <| server := server conf |>) as Hcs.
  { intros c Hc Hs. rewrite Hm. destruct c; cbn in *; subst. by destruct (server conf). }
  rewrite Hcs by done. simpl_config.
  rewrite (store_flag ipv4 (fun b c => c <| ipv4 := b |>) _ (OPT "ipv4" _ _)) by done. simpl_config.
  rewrite (store_value interface (fun t c => c <| interface := t |>) (OPT "interface" _ _)) by done. simpl_config.
  rewrite (store_value ip_binary (fun t c => c <| ip_binary := t |>) (OPT "ip-binary" _ _)) by done. simpl_config.
  rewrite (store_value local (fun t c => c <| local := t |>) (OPT "local" _ _)) by done. simpl_config.
  rewrite (store_value gateway (fun t c => c <| gateway := t |>) (OPT "gateway" _ _)) by done. simpl_config.
  rewrite (store_value dns (fun t c => c <| dns := t |>) (OPT "dns" _ _)) by done. simpl_config.
  rewrite (store_value subnet (fun t c => c <| subnet := t |>) (OPT "subnet" _ _)) by done. simpl_config.
  rewrite (store_value ip_from (fun t c => c <| ip_from := t |>) (OPT "ip-from" _ _)) by done. simpl_config.
  rewrite (store_value ip_to (fun t c => c <| ip_to := t |>) (OPT "ip-to" _ _)) by done. simpl_config.
  unfold as_given. by rewrite H4, H6.
Qed.

(** Each option of the command line is in the table and can be stored. *)
Definition option_ok (ov : long_option * option (list Z)) : Prop :=
  In (fst ov) long_options /\ bool_decide (is_Some (snd ov)) = o_has_arg (fst ov) /\
  is_help (o_val (fst ov)) = false /\
  (forall t, snd ov = Some t -> Forall (fun c => c <> 0) t /\ zlen t + 1 <= PTRDIFF_MAX).

Lemma flag_ok b o : In o long_options -> o_has_arg o = false -> is_help (o_val o) = false -> Forall option_ok (flag b o).
Proof. intros Ho Ha Hh. destruct b; constructor; [|constructor]. by split_and!. Qed.

Lemma with_value_ok o v :
  In o long_options -> o_has_arg o = true -> is_help (o_val o) = false ->
  (forall t, v = Some t -> Forall (fun c => c <> 0) t /\ zlen t + 1 <= PTRDIFF_MAX) ->
  Forall option_ok (with_value o v).
Proof.
  intros Ho Ha Hh Hv. destruct v as [v|]; constructor; [|constructor]. split_and!; [done|by cbn; rewrite Ha|done|exact Hv].
Qed.

Lemma fits_stores v : string_fits v -> forall t, v = Some t -> Forall (fun c => c <> 0) t /\ zlen t + 1 <= PTRDIFF_MAX.
Proof. intros Hv t Ht. destruct (Hv t Ht). split; [done|lia]. Qed.

Lemma given_stores conf v :
  string_fits v -> forall t, given conf v = Some t -> Forall (fun c => c <> 0) t /\ zlen t + 1 <= PTRDIFF_MAX.
Proof.
  intros Hv t Ht. unfold given in Ht. destruct (server conf); [|by apply (fits_stores v)].
  destruct v as [v|]; [|done]. injection Ht as <-. destruct (Hv v eq_refl) as [H1 H2]. unfold v6_text. split.
  - apply Forall_app. split; [|done]. by repeat constructor.
  - rewrite zlen_app. change (zlen (str "::ffff:")) with 7. lia.
Qed.

Lemma config_options_ok conf : Forall string_fits (config_strings conf) -> Forall option_ok (config_options conf).
Proof.
  unfold config_strings. rewrite !Forall_cons. intros (H1 & H2 & H3 & H4 & H5 & H6 & H7 & H8 & _).
  unfold config_options. repeat (apply Forall_app; split);
    first [apply flag_ok; [cbn; tauto|done|done]
          |apply with_value_ok; [cbn; tauto|done|done|first [by apply fits_stores|by apply given_stores]]].
Qed.

(** C35. A configuration that can be run survives being written as a command line:
    for every such configuration whose strings can be copied, parsing the long
    options that say it (a server's addresses inside IPv6, as the help text asks)
    gives back exactly that configuration. *)
Theorem owfd_dhcp_parse_argv_roundtrip conf h :
  config_ok conf -> Forall string_fits (config_strings conf) -> heap_ok h ->
  wp (owfd_dhcp_parse_argv inet_pton6 (command_line conf) owfd_dhcp_init_config)
     (fun res _ => res = Some (0, conf)) h.
Proof.
  intros Hok Hfit Hh. pose proof (config_options_ok conf Hfit) as Hopts. rewrite Forall_forall in Hopts.
  unfold owfd_dhcp_parse_argv. apply wp_bind. eapply wp_mono.
  { apply (options_loop_render _ _ long_options_ok is_help dhcp_option store (config_options conf)); [| | |done].
    - intros o v c h1 Hi%list_elem_of_In H1. destruct (Hopts _ Hi) as (? & ? & ? & ?). by apply dhcp_option_stores.
    - apply Forall_forall. intros [o v] Hi. destruct (Hopts _ Hi) as (? & ? & ? & ?). done.
    - pose proof (getopt_left_start (command_line conf)) as Hl. unfold command_line in Hl at 1.
      rewrite length_map in Hl. lia. }
  intros res h1 [-> H1]. rewrite store_options by apply Hok. apply wp_bind.
  eapply wp_mono; [by apply check_config_render|]. intros rc h2 [-> _]. by apply wp_ret.
Qed.

End render.

(** ** Witnesses *)

(** An [inet_pton] for the addresses [v6_text] writes. *)
Definition lab_pton6 (s : list Z) : option (list Z) :=
  let '(a, s) := dec_digits 0 (drop 7 s) in
  let '(b, s) := dec_digits 0 (drop 1 s) in
  let '(c, s) := dec_digits 0 (drop 1 s) in
  let '(d, s) := dec_digits 0 (drop 1 s) in
  if forallb (fun n => n <? 256) [a; b; c; d] then Some (prefix ++ [a; b; c; d]) else None.

Lemma dec_digits_dec n k :
  byte_ok n -> match k with [] => True | c :: _ => isdigit c = false end -> dec_digits 0 (dec n ++ k) = (n, k).
Proof.
  intros Hn Hk. unfold byte_ok in Hn.
  assert (forallb (fun n => forallb isdigit (dec (Z.of_nat n)) &&
    (fst (dec_digits 0 (dec (Z.of_nat n))) =? Z.of_nat n)) (seq 0 256) = true) as H by (vm_compute; reflexivity).
  rewrite forallb_forall in H. specialize (H (Z.to_nat n)). rewrite Z2Nat.id in H by lia.
  specialize (H ltac:(apply in_seq; lia)). apply andb_true_iff in H as [Hd He%Z.eqb_eq].
  assert (forall l acc, forallb isdigit l = true -> dec_digits acc (l ++ k) = (fst (dec_digits acc l), k)) as Happ.
  { induction l as [|c l IH]; cbn; intros acc Hl.
    - destruct k as [|c k]; [done|]. cbn. by rewrite Hk.
    - apply andb_true_iff in Hl as [-> Hl]. by apply IH. }
  by rewrite Happ, He.
Qed.

Lemma lab_pton6_text a b c d :
  Forall byte_ok [a; b; c; d] -> lab_pton6 (v6_text (dotted a b c d)) = Some (prefix ++ [a; b; c; d]).
Proof.
  rewrite !Forall_cons. intros (Ha & Hb & Hc & Hd & _). unfold lab_pton6, v6_text, dotted.
  change 7%nat with (length (str "::ffff:")). rewrite drop_app_length, dec_digits_dec by done. cbn [app skipn]; rewrite drop_0.
  rewrite dec_digits_dec by done. cbn [app skipn]; rewrite drop_0. rewrite dec_digits_dec by done. cbn [app skipn]; rewrite drop_0.
  rewrite <- (app_nil_r (dec d)), dec_digits_dec by done.
  unfold byte_ok in *. cbn [forallb]. by rewrite !(proj2 (Z.ltb_lt _ 256)) by lia.
Qed.

Definition sample_server : owfd_dhcp_config :=
  let addr d := Some (dotted 192 168 77 d) in
  mkConf true false false false true true false (Some (str "p2p-wlan0-0")) (Some (str "/sbin/ip"))
    (addr 1) (addr 1) (addr 1) (Some (dotted 255 255 255 0)) (addr 2) (addr 254).

Lemma sample_server_ok : config_ok sample_server.
Proof.
  split; try done; try (by eexists). intros _.
  repeat constructor; eexists _, _, _, _; split; try reflexivity; by repeat constructor.
Qed.

Lemma owfd_dhcp_parse_argv_roundtrip_witness :
  config_ok sample_server /\
  wp (owfd_dhcp_parse_argv lab_pton6 (command_line sample_server) owfd_dhcp_init_config)
     (fun res _ => res = Some (0, sample_server)) heap0.
Proof.
  split; [exact sample_server_ok|].
  apply (owfd_dhcp_parse_argv_roundtrip lab_pton6 lab_pton6_text sample_server heap0).
  - exact sample_server_ok.
  - unfold config_strings. rewrite !Forall_cons, Forall_nil.
    split_and!; try done; intros v [= <-]; (split; [by repeat constructor|vm_compute; congruence]).
  - constructor.
Defined.

(** [-s4i wlan0] is refused for want of addresses; [--ser] stands for [--server],
    [--ip] for nothing. *)
Example short_cluster :
  option_map fst (fst (owfd_dhcp_parse_argv lab_pton6 [str "-s4i"; str "wlan0"] owfd_dhcp_init_config heap0)) =
    Some (- EINVAL) /\
  option_map fst (fst (owfd_dhcp_parse_argv lab_pton6 [str "-c4i"; str "wlan0"] owfd_dhcp_init_config heap0)) =
    Some 0 /\
  fst (fst (getopt_long short_options long_options (getopt_start [str "--ser"]))) = LONG_OPT_OFFSET + OPT_SERVER /\
  fst (fst (getopt_long short_options long_options (getopt_start [str "--ip=x"]))) = QUESTION.
Proof. vm_compute. done. Qed.
