(* ===== verification/DhcpCommon.v ===== *)
(** * DHCP packets and options ([src/gdhcp/common.c], [src/gdhcp/common.h]).

    [struct dhcp_packet] is the list of its 628 bytes (it is packed); a pointer
    into it is an offset. *)

From S2P Require Import Prelude CLib Bytes.

(** ** The packet *)

Definition DHCP_MAGIC : Z := 0x63825363.
Definition DHCP_OPTIONS_BUFSIZE : Z := 308.
Definition EXTEND_FOR_BUGGY_SERVERS : Z := 80.
Definition BOOTREQUEST : Z := 1.
Definition BOOTREPLY : Z := 2.
Definition BROADCAST_FLAG : Z := 0x8000.
Definition MAC_BCAST_ADDR : list Z := [255; 255; 255; 255; 255; 255].
Definition INADDR_BROADCAST : Z := 2 ^ 32 - 1.
Definition ETH_ALEN : Z := 6.

(** Offsets and sizes of the fields of [struct dhcp_packet]. *)
Definition off_op : Z := 0.
Definition off_htype : Z := 1.
Definition off_hlen : Z := 2.
Definition off_xid : Z := 4.
Definition off_flags : Z := 10.
Definition off_ciaddr : Z := 12.
Definition off_yiaddr : Z := 16.
Definition off_gateway : Z := 24.
Definition off_chaddr : Z := 28.
Definition off_sname : Z := 44.
Definition size_sname : Z := 64.
Definition off_file : Z := 108.
Definition size_file : Z := 128.
Definition off_cookie : Z := 236.
Definition off_options : Z := 240.
Definition size_options : Z := DHCP_OPTIONS_BUFSIZE + EXTEND_FOR_BUGGY_SERVERS.
Definition sizeof_packet : Z := 628.

(** [packet->field = v], by the bytes stored. *)
Definition put (off : Z) (bytes packet : list Z) : list Z := memcpy off bytes packet.

(** A block of the size of a packet. *)
Definition packet_ok (packet : list Z) : Prop := zlen packet = sizeof_packet /\ Forall byte_ok packet.

(** ** Options *)

Definition DHCP_PADDING : Z := 0x00.
Definition DHCP_SUBNET : Z := 0x01.
Definition DHCP_ROUTER : Z := 0x03.
Definition DHCP_DNS_SERVER : Z := 0x06.
Definition DHCP_REQUESTED_IP : Z := 0x32.
Definition DHCP_LEASE_TIME : Z := 0x33.
Definition DHCP_OPTION_OVERLOAD : Z := 0x34.
Definition DHCP_MESSAGE_TYPE : Z := 0x35.
Definition DHCP_SERVER_ID : Z := 0x36.
Definition DHCP_VENDOR : Z := 0x3c.
Definition DHCP_END : Z := 0xff.

Definition OPT_CODE : Z := 0.
Definition OPT_LEN : Z := 1.
Definition OPT_DATA : Z := 2.
Definition FILE_FIELD : Z := 1.
Definition SNAME_FIELD : Z := 2.

Definition DHCPDISCOVER : Z := 1.
Definition DHCPOFFER : Z := 2.
Definition DHCPREQUEST : Z := 3.
Definition DHCPDECLINE : Z := 4.
Definition DHCPACK : Z := 5.
Definition DHCPNAK : Z := 6.
Definition DHCPRELEASE : Z := 7.
Definition DHCPINFORM : Z := 8.
Definition DHCP_MINTYPE : Z := DHCPDISCOVER.
Definition DHCP_MAXTYPE : Z := DHCPINFORM.

Definition OPTION_UNKNOWN : Z := 0.
Definition OPTION_IP : Z := 1.
Definition OPTION_STRING : Z := 2.
Definition OPTION_U8 : Z := 3.
Definition OPTION_U16 : Z := 4.
Definition OPTION_U32 : Z := 5.
Definition OPTION_TYPE_MASK : Z := 0x0f.
Definition OPTION_LIST : Z := 0x10.

(** Type and code of the known options, up to the terminator. *)
Definition client_options : list (Z * Z) := [
  (OPTION_IP, 0x01);
  (Z.lor OPTION_IP OPTION_LIST, 0x03);
  (Z.lor OPTION_IP OPTION_LIST, 0x06);
  (OPTION_STRING, 0x0c);
  (OPTION_STRING, 0x0f);
  (Z.lor OPTION_IP OPTION_LIST, 0x2a);
  (OPTION_U32, 0x33);
  (OPTION_IP, 0x32);
  (OPTION_U8, 0x35);
  (OPTION_U32, 0x36);
  (OPTION_U16, 0x39);
  (OPTION_STRING, 0x3c);
  (OPTION_STRING, 0x3d);
  (OPTION_STRING, 0xfc)
].

Definition dhcp_option_lengths : list Z := [0; 4; 1; 1; 2; 4].

Definition dhcp_get_code_type (code : Z) : Z :=
  match List.find (fun o => snd o =? code) client_options with
  | Some o => fst o
  | None => OPTION_UNKNOWN
  end.

(** Result of a search: a pointer, [NULL], or out of fuel. *)
Inductive opt_res :=
| OptHang
| OptNull
| OptFound (ptr : Z).

(** The [while (1)] loop. *)
Fixpoint get_option_loop (fuel : nat) (packet : list Z) (code ptr rem overload : Z) : opt_res :=
  match fuel with
  | O => OptHang
  | S fuel =>
    let go := get_option_loop fuel packet code in
    if rem <=? 0 then OptNull
    else if byte_at packet (ptr + OPT_CODE) =? DHCP_PADDING then go (ptr + 1) (rem - 1) overload
    else if byte_at packet (ptr + OPT_CODE) =? DHCP_END then
      if negb (Z.land overload FILE_FIELD =? 0) then
        go off_file size_file (Z.land overload (Z.lnot FILE_FIELD))
      else if negb (Z.land overload SNAME_FIELD =? 0) then
        go off_sname size_sname (Z.land overload (Z.lnot SNAME_FIELD))
      else OptNull
    else
      let len := 2 + byte_at packet (ptr + OPT_LEN) in
      let rem := rem - len in
      if rem <? 0 then go ptr rem overload
      else if byte_at packet (ptr + OPT_CODE) =? code then OptFound (ptr + OPT_DATA)
      else
        let overload :=
          if byte_at packet (ptr + OPT_CODE) =? DHCP_OPTION_OVERLOAD
          then Z.lor overload (byte_at packet (ptr + OPT_DATA)) else overload in
        go (ptr + len) rem overload
  end.

Definition dhcp_get_option (fuel : nat) (packet : list Z) (code : Z) : opt_res :=
  get_option_loop fuel packet code off_options size_options 0.

(** [dhcp_end_option] on the bytes from [optionptr] to the end of the block;
    [None] when it would read past them. *)
Fixpoint end_option_loop (fuel : nat) (opts : list Z) (i : Z) : option Z :=
  match fuel with
  | O => None
  | S fuel =>
    if zlen opts <=? i then None
    else if byte_at opts i =? DHCP_END then Some i
    else if byte_at opts i =? DHCP_PADDING then end_option_loop fuel opts (i + 1)
    else if zlen opts <=? i + OPT_LEN then None
    else end_option_loop fuel opts (i + (byte_at opts (i + OPT_LEN) + OPT_DATA - 1) + 1)
  end.

Definition dhcp_end_option (opts : list Z) : option Z := end_option_loop (S (length opts)) opts 0.

(** The packet afterwards; [None] when memory outside it is touched. *)
Definition dhcp_add_binary_option (packet addopt : list Z) : option (list Z) :=
  match dhcp_end_option (zdrop off_options packet) with
  | None => None
  | Some e =>
    let len := OPT_DATA + byte_at addopt OPT_LEN in
    if DHCP_OPTIONS_BUFSIZE <=? e + len + 1 then Some packet
    else
      let packet := put (off_options + e) (ztake len addopt) packet in
      Some (put (off_options + e + len) [DHCP_END] packet)
  end.

(** The diagnostic print is left out. *)
Definition check_option (code data_len : Z) : Z :=
  let type := dhcp_get_code_type code in
  if type =? OPTION_UNKNOWN then type
  else
    let len := byte_at dhcp_option_lengths (Z.land type OPTION_TYPE_MASK) in
    if negb (len =? data_len) then OPTION_UNKNOWN else type.

Definition dhcp_add_option_uint32 (packet : list Z) (code data : Z) : option (list Z) :=
  if check_option code 4 =? OPTION_UNKNOWN then Some packet
  else dhcp_add_binary_option packet ([code; 4] ++ put_be32 data).

(** The two bytes of the local array that stay unset are never copied. *)
Definition dhcp_add_option_uint16 (packet : list Z) (code data : Z) : option (list Z) :=
  if check_option code 2 =? OPTION_UNKNOWN then Some packet
  else dhcp_add_binary_option packet ([code; 2] ++ put_be16 data).

Definition dhcp_add_option_uint8 (packet : list Z) (code data : Z) : option (list Z) :=
  if check_option code 1 =? OPTION_UNKNOWN then Some packet
  else dhcp_add_binary_option packet [code; 1; data].

Definition zero_packet : list Z := replicate 628 0.

(** The packet is overwritten, so its old contents are not an argument. *)
Definition dhcp_init_header (type : Z) : option (list Z) :=
  let packet := zero_packet in
  let packet := put off_op [BOOTREQUEST] packet in
  let packet :=
    if (type =? DHCPOFFER) || (type =? DHCPACK) || (type =? DHCPNAK)
    then put off_op [BOOTREPLY] packet else packet in
  let packet := put off_htype [1] packet in
  let packet := put off_hlen [6] packet in
  let packet := put off_cookie (le_bytes32 (htonl DHCP_MAGIC)) packet in
  let packet := put off_options [DHCP_END] packet in
  dhcp_add_option_uint8 packet DHCP_MESSAGE_TYPE type.

(** ** Receiving *)

(** [sizeof (vendor)] is the size of a pointer. *)
Definition vendor_length : Z := 8 - 1.

Definition check_vendor (packet : list Z) (option_vendor : Z) (vendor : list Z) : bool :=
  if negb (byte_at packet (option_vendor + (OPT_LEN - OPT_DATA)) =? vendor_length) then false
  else bool_decide (ztake vendor_length (zdrop option_vendor packet) = ztake vendor_length vendor).

(** [None] when the option search does not end. *)
Definition check_broken_vendor (fuel : nat) (packet : list Z) : option (list Z) :=
  if negb (byte_at packet off_op =? BOOTREQUEST) then Some packet
  else
    match dhcp_get_option fuel packet DHCP_VENDOR with
    | OptHang => None
    | OptNull => Some packet
    | OptFound vendor =>
      if check_vendor packet vendor (str "MSFT 98") then
        Some (put off_flags
                (le_bytes16 (Z.lor (get_le16 packet off_flags) (htons BROADCAST_FLAG))) packet)
      else Some packet
    end.

(** The outcome of [read]: the bytes, or an error number. *)
Definition dhcp_recv_l3_packet (fuel : nat) (input : list Z + Z) : option (Z * list Z) :=
  let packet := zero_packet in
  match input with
  | inr errno => Some (- errno, packet)
  | inl data =>
    let n := Z.min (zlen data) sizeof_packet in
    let packet := put 0 (ztake n data) packet in
    if negb (get_le32 packet off_cookie =? htonl DHCP_MAGIC) then Some (- EPROTO, packet)
    else match check_broken_vendor fuel packet with
         | None => None
         | Some packet => Some (n, packet)
         end
  end.

(** ** Checksum *)

(** The words of a block, a left-over byte padded with zero. *)
Fixpoint words16 (l : list Z) : list Z :=
  match l with
  | a :: b :: l' => a + 2 ^ 8 * b :: words16 l'
  | [a] => [a]
  | [] => []
  end.

(** [while (sum >> 16) sum = (sum & 0xffff) + (sum >> 16)] *)
Fixpoint fold_sum (fuel : nat) (sum : Z) : option Z :=
  match fuel with
  | O => None
  | S fuel =>
    if Z.shiftr sum 16 =? 0 then Some sum
    else fold_sum fuel (i32 (Z.land sum 0xffff + Z.shiftr sum 16))
  end.

(** The additions are in an [int32_t]. *)
Definition sum16 (l : list Z) : Z := fold_left (fun s w => i32 (s + w)) (words16 l) 0.

Definition dhcp_checksum (fuel : nat) (data : list Z) : option Z :=
  option_map (fun s => u16 (Z.lnot s)) (fold_sum fuel (sum16 data)).

(** ** DHCPv6 options *)

(** Result: the pointer ([None] is [NULL]), the length and count written back. *)
Record v6_res := mkV6 { v6_ptr : option Z; v6_len : option Z; v6_count : Z }.

(** One pass of the loop per unit of fuel; a pass uses up at least four bytes
    of [rem].  [None]: out of fuel. *)
Fixpoint v6_option_loop (fuel : nat) (packet : list Z) (code ptr rem : Z) (acc : v6_res) :
    option v6_res :=
  match fuel with
  | O => None
  | S fuel =>
    let opt_code := byte_at packet ptr * 2 ^ 8 + byte_at packet (ptr + 1) in
    let opt_len := byte_at packet (ptr + 2) * 2 ^ 8 + byte_at packet (ptr + 3) in
    let len := u16 (opt_len + 4) in
    if len <? 4 then Some (mkV6 None (Some 0) 0)
    else
      let rem := rem - len in
      if rem <? 0 then Some acc
      else
        let acc :=
          if opt_code =? code then mkV6 (Some (ptr + 4)) (Some opt_len) (v6_count acc + 1) else acc in
        if rem =? 0 then Some acc else v6_option_loop fuel packet code (ptr + len) rem acc
  end.

Definition dhcpv6_get_option (packet : list Z) (pkt_len code : Z) : option v6_res :=
  let rem := pkt_len - 1 - 3 in
  if rem <=? 0 then Some (mkV6 None (Some 0) 0)
  else v6_option_loop (S (Z.to_nat rem)) packet code 4 rem (mkV6 None None 0).

(** Pointer offset, code and length. *)
Definition dhcpv6_get_sub_option (opt : list Z) (max_len : Z) : option (Z * Z * Z) :=
  let rem := max_len - 2 - 2 in
  if rem <=? 0 then None
  else
    let code := byte_at opt 0 * 2 ^ 8 + byte_at opt 1 in
    let len := byte_at opt 2 * 2 ^ 8 + byte_at opt 3 in
    if rem - len <? 0 then None else Some (4, code, len).

(** The packet and its length afterwards. *)
Definition dhcpv6_add_binary_option (packet : list Z) (max_len pkt_len : Z) (addopt : list Z) :
    list Z * Z :=
  let len := 2 + 2 + (byte_at addopt 2 * 2 ^ 8 + byte_at addopt 3) in
  if max_len <=? pkt_len + len then (packet, pkt_len)
  else (put (4 + pkt_len) (ztake len addopt) packet, u16 (pkt_len + len)).

(** ** Specification of the options field *)

Inductive dopt :=
| Pad
| Opt (code : Z) (data : list Z).

Definition enc (o : dopt) : list Z :=
  match o with
  | Pad => [DHCP_PADDING]
  | Opt code data => code :: zlen data :: data
  end.

Definition enc_opts (os : list dopt) : list Z := concat (map enc os).

Definition dopt_ok (o : dopt) : Prop :=
  match o with
  | Pad => True
  | Opt code data => 0 < code < 255 /\ zlen data < 256 /\ Forall byte_ok data
  end.

(** Offset of the data of the first option with a code. *)
Fixpoint opt_offset (code base : Z) (os : list dopt) : option Z :=
  match os with
  | [] => None
  | Opt c data :: os' =>
    if c =? code then Some (base + 2) else opt_offset code (base + 2 + zlen data) os'
  | Pad :: os' => opt_offset code (base + 1) os'
  end.

(** Data of the first option with a code. *)
Fixpoint opt_data (code : Z) (os : list dopt) : option (list Z) :=
  match os with
  | [] => None
  | Opt c data :: os' => if c =? code then Some data else opt_data code os'
  | Pad :: os' => opt_data code os'
  end.

(** A packet whose options field holds [os]. *)
Definition has_opts (packet : list Z) (os : list dopt) : Prop :=
  zlen packet = sizeof_packet /\
  exists rest, zdrop off_options packet = enc_opts os ++ DHCP_END :: rest.

Definition no_overload (os : list dopt) : Prop :=
  Forall (fun o => match o with Opt c _ => c <> DHCP_OPTION_OVERLOAD | Pad => True end) os.

(** What the caller gets: the data a pointer and its length byte denote. *)
Definition found_data (packet : list Z) (r : opt_res) : option (list Z) :=
  match r with
  | OptFound p => Some (ztake (byte_at packet (p - 1)) (zdrop p packet))
  | _ => None
  end.

(** ** Lemmas *)

Lemma byte_at_zdrop l n i : 0 <= n -> 0 <= i -> byte_at (zdrop n l) i = byte_at l (n + i).
Proof.
  intros Hn Hi. unfold byte_at, zdrop. rewrite lookup_drop. do 2 f_equal. lia.
Qed.

Lemma enc_len o : dopt_ok o -> 1 <= zlen (enc o).
Proof. destruct o; cbn; intros; zlia. Qed.

Lemma enc_opts_app a b : enc_opts (a ++ b) = enc_opts a ++ enc_opts b.
Proof. unfold enc_opts. by rewrite map_app, concat_app. Qed.

(** The state of the block at an offset: what is left of the options. *)
Definition at_opts (packet : list Z) (ptr : Z) (os : list dopt) : Prop :=
  0 <= ptr /\ exists rest, zdrop ptr packet = enc_opts os ++ DHCP_END :: rest.

Lemma at_opts_byte packet ptr os i c :
  at_opts packet ptr os -> 0 <= i ->
  (forall rest, byte_at (enc_opts os ++ DHCP_END :: rest) i = c) -> byte_at packet (ptr + i) = c.
Proof. intros [Hp [rest Hr]] Hi Hb. rewrite <- byte_at_zdrop, Hr by done. apply Hb. Qed.

Lemma at_opts_pad packet ptr os : at_opts packet ptr (Pad :: os) -> at_opts packet (ptr + 1) os.
Proof.
  intros [Hp [rest Hr]]. split; [lia|]. exists rest. rewrite <- (zdrop_zdrop 1 ptr), Hr by lia. done.
Qed.

Lemma at_opts_opt packet ptr os c d :
  at_opts packet ptr (Opt c d :: os) ->
  at_opts packet (ptr + (2 + zlen d)) os /\ byte_at packet (ptr + 0) = c /\
  byte_at packet (ptr + 1) = zlen d /\ ztake (zlen d) (zdrop (ptr + 2) packet) = d.
Proof.
  intros Hat. pose proof Hat as [Hp [rest Hr]]. pose proof (zlen_nonneg d).
  assert (enc_opts (Opt c d :: os) = [c; zlen d] ++ d ++ enc_opts os) as He by done.
  rewrite He in Hr. split_and!.
  - split; [lia|]. exists rest. rewrite <- (zdrop_zdrop _ ptr), Hr by lia.
    rewrite !app_assoc, <- app_assoc. apply zdrop_app_eq. zlia.
  - by apply (at_opts_byte _ _ _ _ _ Hat).
  - by apply (at_opts_byte _ _ _ _ _ Hat).
  - rewrite <- (zdrop_zdrop 2 ptr), Hr by lia. cbn [app].
    change (zdrop 2 (c :: zlen d :: ?x)) with x. rewrite <- app_assoc. by apply ztake_app_eq.
Qed.

Lemma at_opts_end packet ptr : at_opts packet ptr [] -> byte_at packet (ptr + 0) = DHCP_END.
Proof. intros Hat. by apply (at_opts_byte _ _ _ _ _ Hat). Qed.

Lemma get_option_loop_spec fuel packet code ptr rem os :
  at_opts packet ptr os -> Forall dopt_ok os -> no_overload os -> 0 < code < 255 ->
  zlen (enc_opts os) < rem -> (length os < fuel)%nat ->
  get_option_loop fuel packet code ptr rem 0 =
    match opt_offset code ptr os with Some p => OptFound p | None => OptNull end.
Proof.
  intros Hat Hok Hno Hc. revert ptr rem os Hat Hok Hno.
  induction fuel as [|fuel IH]; intros ptr rem os Hat Hok Hno Hrem Hf; [lia|].
  pose proof (zlen_nonneg (enc_opts os)). cbn [get_option_loop]. unfold OPT_CODE, OPT_LEN, OPT_DATA.
  rewrite (proj2 (Z.leb_gt rem 0)) by lia. destruct os as [|[|c d] os].
  - rewrite (at_opts_end _ _ Hat). done.
  - rewrite (at_opts_byte _ _ _ 0 DHCP_PADDING Hat) by done.
    change (DHCP_PADDING =? DHCP_PADDING) with true; cbn iota. cbn [opt_offset].
    apply Forall_cons in Hok as [_ Hok]. apply Forall_cons in Hno as [_ Hno].
    assert (zlen (enc_opts (Pad :: os)) = 1 + zlen (enc_opts os)) by (unfold enc_opts; cbn; zlia).
    apply IH; [by apply at_opts_pad|done..|lia|cbn in Hf; lia].
  - destruct (at_opts_opt _ _ _ _ _ Hat) as (Hat' & -> & -> & _).
    apply Forall_cons in Hok as [(Hc1 & Hd & _) Hok]. apply Forall_cons in Hno as [Hov Hno].
    assert (zlen (enc_opts (Opt c d :: os)) = 2 + zlen d + zlen (enc_opts os)) by (unfold enc_opts; cbn; zlia).
    pose proof (zlen_nonneg d). pose proof (zlen_nonneg (enc_opts os)).
    rewrite (proj2 (Z.eqb_neq c DHCP_PADDING)) by (unfold DHCP_PADDING; lia).
    rewrite (proj2 (Z.eqb_neq c DHCP_END)) by (unfold DHCP_END; lia).
    rewrite (proj2 (Z.ltb_ge _ 0)) by lia. cbn [opt_offset].
    destruct (Z.eqb_spec c code); [done|]. rewrite (proj2 (Z.eqb_neq c DHCP_OPTION_OVERLOAD)) by done.
    replace (ptr + 2 + zlen d) with (ptr + (2 + zlen d)) by lia.
    apply IH; [done..|lia|cbn in Hf; lia].
Qed.

Lemma opt_offset_data packet code ptr os p :
  at_opts packet ptr os -> opt_offset code ptr os = Some p ->
  opt_data code os = Some (ztake (byte_at packet (p - 1)) (zdrop p packet)).
Proof.
  revert ptr; induction os as [|[|c d] os IH]; intros ptr Hat Hp; [done| |]; cbn [opt_offset opt_data] in *.
  - apply (IH (ptr + 1)); [by apply at_opts_pad | done].
  - destruct (at_opts_opt _ _ _ _ _ Hat) as (Hat' & _ & Hl & Hd).
    destruct (c =? code).
    + simplify_eq. replace (ptr + 2 - 1) with (ptr + 1) by lia. by rewrite Hl, Hd.
    + apply (IH (ptr + (2 + zlen d))); [done|]. rewrite <- Hp. f_equal. lia.
Qed.

Lemma opt_offset_none code ptr os : opt_offset code ptr os = None -> opt_data code os = None.
Proof.
  revert ptr; induction os as [|[|c d] os IH]; intros ptr Hp; [done| |]; cbn [opt_offset opt_data] in *.
  - by eapply IH.
  - destruct (c =? code); [done | by eapply IH].
Qed.

Lemma enc_opts_length os : Forall dopt_ok os -> (length os <= length (enc_opts os))%nat.
Proof.
  induction 1 as [|o os Ho _ IH]; [done|]. unfold enc_opts in *; cbn [map concat length].
  rewrite length_app. apply enc_len in Ho. unfold zlen in Ho. lia.
Qed.

Lemma get_option_spec packet code os fuel :
  has_opts packet os -> Forall dopt_ok os -> no_overload os -> 0 < code < 255 -> (388 <= fuel)%nat ->
  dhcp_get_option fuel packet code <> OptHang /\
  found_data packet (dhcp_get_option fuel packet code) = opt_data code os.
Proof.
  intros [Hl [rest Hr]] Hok Hno Hc Hf. assert (at_opts packet off_options os) as Hat by (split; [done|by exists rest]).
  assert (zlen (enc_opts os) < size_options) as Hlen.
  { apply (f_equal zlen) in Hr. change size_options with 388. unfold sizeof_packet in Hl.
    change off_options with 240 in Hr. zlia. }
  unfold dhcp_get_option. rewrite (get_option_loop_spec _ _ _ _ _ os); try done.
  - destruct (opt_offset code off_options os) as [p|] eqn:Hp.
    + split; [done|]. cbn [found_data]. symmetry. by eapply opt_offset_data.
    + split; [done|]. cbn [found_data]. symmetry. by eapply opt_offset_none.
  - pose proof (enc_opts_length os Hok). change size_options with 388 in Hlen. unfold zlen in Hlen. lia.
Qed.

Lemma end_option_loop_spec fuel opts i os rest :
  zdrop i opts = enc_opts os ++ DHCP_END :: rest -> 0 <= i -> Forall dopt_ok os ->
  (length os < fuel)%nat -> end_option_loop fuel opts i = Some (i + zlen (enc_opts os)).
Proof.
  revert i os; induction fuel as [|fuel IH]; intros i os Hr Hi Hok Hf; [lia|].
  cbn [end_option_loop]. unfold OPT_LEN, OPT_DATA. assert (at_opts opts i os) as Hat by (split; [done|by exists rest]).
  assert (i + zlen (enc_opts os) < zlen opts) as Hlen
    by (apply (f_equal zlen) in Hr; zlia).
  pose proof (zlen_nonneg (enc_opts os)). rewrite (proj2 (Z.leb_gt (zlen opts) i)) by lia.
  replace (byte_at opts i) with (byte_at opts (i + 0)) by (f_equal; lia).
  destruct os as [|[|c d] os].
  - rewrite (at_opts_end _ _ Hat). cbn. f_equal; zlia.
  - rewrite (at_opts_byte _ _ _ 0 DHCP_PADDING Hat) by done.
    change (DHCP_PADDING =? DHCP_END) with false; change (DHCP_PADDING =? DHCP_PADDING) with true; cbn iota.
    apply Forall_cons in Hok as [_ Hok]. assert (zlen (enc_opts (Pad :: os)) = 1 + zlen (enc_opts os)) as ->
      by (unfold enc_opts; cbn; zlia).
    rewrite (IH (i + 1) os); [f_equal; lia| |lia|done|cbn in Hf; lia].
    rewrite <- (zdrop_zdrop 1 i), Hr by lia. done.
  - pose proof Hat as Hat0. destruct (at_opts_opt _ _ _ _ _ Hat) as (_ & -> & -> & _).
    apply Forall_cons in Hok as [(Hc1 & Hd & _) Hok].
    assert (zlen (enc_opts (Opt c d :: os)) = 2 + zlen d + zlen (enc_opts os)) as He by (unfold enc_opts; cbn; zlia).
    pose proof (zlen_nonneg d). pose proof (zlen_nonneg (enc_opts os)).
    rewrite (proj2 (Z.eqb_neq c DHCP_END)) by (unfold DHCP_END; lia).
    rewrite (proj2 (Z.eqb_neq c DHCP_PADDING)) by (unfold DHCP_PADDING; lia).
    rewrite (proj2 (Z.leb_gt _ _)) by lia.
    replace (i + (zlen d + 2 - 1) + 1) with (i + (2 + zlen d)) by lia.
    rewrite (IH _ os); [f_equal; lia| |lia|done|cbn in Hf; lia].
    rewrite <- (zdrop_zdrop _ i), Hr by lia. unfold enc_opts; cbn [map concat enc].
    change ((c :: zlen d :: d) ++ ?x) with ([c; zlen d] ++ d ++ x).
    rewrite !app_assoc, <- app_assoc. apply zdrop_app_eq. zlia.
Qed.

Lemma end_option_spec packet os :
  has_opts packet os -> Forall dopt_ok os ->
  dhcp_end_option (zdrop off_options packet) = Some (zlen (enc_opts os)).
Proof.
  intros [_ [rest Hr]] Hok. unfold dhcp_end_option. rewrite (end_option_loop_spec _ _ 0 os rest); try done.
  rewrite Hr, length_app. pose proof (enc_opts_length os Hok). lia.
Qed.

(** *** Adding options *)

Lemma add_binary_spec packet os c d junk :
  has_opts packet os -> Forall dopt_ok os -> dopt_ok (Opt c d) ->
  exists packet', dhcp_add_binary_option packet (enc (Opt c d) ++ junk) = Some packet' /\
    ztake off_options packet' = ztake off_options packet /\
    if zlen (enc_opts os) + (2 + zlen d) + 1 <? DHCP_OPTIONS_BUFSIZE
    then has_opts packet' (os ++ [Opt c d]) else packet' = packet.
Proof.
  intros Hh Hok (Hc & Hd & Hb). unfold dhcp_add_binary_option. rewrite (end_option_spec _ _ Hh Hok).
  change (byte_at (enc (Opt c d) ++ junk) OPT_LEN) with (zlen d). unfold OPT_DATA.
  pose proof (zlen_nonneg (enc_opts os)). pose proof (zlen_nonneg d).
  destruct (Z.leb_spec DHCP_OPTIONS_BUFSIZE (zlen (enc_opts os) + (2 + zlen d) + 1)) as [Hbig|Hfit].
  { exists packet. rewrite (proj2 (Z.ltb_ge _ _)) by done. done. }
  rewrite (proj2 (Z.ltb_lt _ _)) by done. cbn zeta. destruct Hh as [Hl [rest Hr]].
  rewrite ztake_app_eq by (cbn; zlia). set (e := zlen (enc_opts os)) in *.
  set (hdr := ztake off_options packet). assert (zlen hdr = 240) as HH
    by (unfold hdr, sizeof_packet, off_options in *; zlia).
  assert (packet = hdr ++ enc_opts os ++ DHCP_END :: rest) as Hp by (rewrite <- Hr; symmetry; apply ztake_zdrop).
  assert (zlen (DHCP_END :: rest) = 388 - e) as Htail.
  { apply (f_equal zlen) in Hp. rewrite !zlen_app, Hl, HH in Hp. unfold sizeof_packet in Hp. fold e in Hp. lia. }
  unfold DHCP_OPTIONS_BUFSIZE in Hfit.
  destruct (zsplit3 (2 + zlen d) 1 (DHCP_END :: rest)) as (w & x & y & Hw & Hw1 & Hx & _); [lia..|].
  assert (zlen (enc (Opt c d)) = 2 + zlen d) as Henc by (cbn; zlia).
  eexists; split; [reflexivity|].
  assert (put (off_options + e + (2 + zlen d)) [DHCP_END] (put (off_options + e) (enc (Opt c d)) packet) =
          hdr ++ (enc_opts os ++ enc (Opt c d)) ++ DHCP_END :: y) as ->.
  { unfold put. rewrite Hp, Hw. rewrite (app_assoc hdr).
    rewrite memcpy_app by (unfold off_options, e in *; zlia).
    rewrite <- app_assoc, (app_assoc (enc_opts os)), (app_assoc hdr).
    rewrite memcpy_app by (unfold off_options, e in *; zlia). by rewrite <- app_assoc. }
  split; [by apply ztake_app_eq|]. split.
  - unfold sizeof_packet, off_options in *. apply (f_equal zlen) in Hw. unfold e in *. zlia.
  - exists y. rewrite zdrop_app_eq by done. rewrite enc_opts_app. unfold enc_opts at 3; cbn [map concat].
    by rewrite app_nil_r.
Qed.

Lemma no_overload_app a b : no_overload (a ++ b) <-> no_overload a /\ no_overload b.
Proof. apply Forall_app. Qed.

(** Writing a header field leaves the options alone. *)
Lemma has_opts_put packet os off bytes :
  has_opts packet os -> 0 <= off -> off + zlen bytes <= off_options -> has_opts (put off bytes packet) os.
Proof.
  intros [Hl [rest Hr]] Ho Hb. unfold off_options, sizeof_packet in *. split.
  - unfold put. rewrite zlen_memcpy by zlia. done.
  - exists rest. unfold put. by rewrite zdrop_memcpy_after by (pose proof (zlen_nonneg bytes); unfold off_options; lia).
Qed.

Lemma opt_data_app code a b :
  opt_data code (a ++ b) = match opt_data code a with Some d => Some d | None => opt_data code b end.
Proof. induction a as [|[|c d] a IH]; cbn; [done|done|]. by destruct (c =? code). Qed.

(** A header field that is overwritten later. *)
Definition header (packet : list Z) : list Z := ztake off_options packet.

Lemma zlen_put off bytes packet :
  0 <= off -> off + zlen bytes <= zlen packet -> zlen (put off bytes packet) = zlen packet.
Proof. apply zlen_memcpy. Qed.

(** Reading 32 bits just written, and around a write. *)
Lemma byte_at_put off bytes packet i :
  0 <= off -> off + zlen bytes <= zlen packet -> 0 <= i ->
  byte_at (put off bytes packet) i =
    if (off <=? i) && (i <? off + zlen bytes) then byte_at bytes (i - off) else byte_at packet i.
Proof.
  intros Ho Hl Hi. pose proof (zlen_nonneg bytes). unfold put, memcpy.
  destruct (Z.leb_spec off i), (Z.ltb_spec i (off + zlen bytes)); cbn [andb].
  - rewrite byte_at_app_r by zlia. rewrite byte_at_app by zlia. f_equal; zlia.
  - rewrite byte_at_app_r by zlia. rewrite byte_at_app_r by zlia.
    rewrite byte_at_zdrop by zlia. f_equal; zlia.
  - rewrite byte_at_app by zlia. unfold byte_at, ztake. rewrite lookup_take_lt by lia. done.
  - lia.
Qed.

(** A field of a packet. *)
Definition field_at (off len : Z) (packet : list Z) : list Z := ztake len (zdrop off packet).

Lemma field_put_same off bytes packet :
  0 <= off -> off + zlen bytes <= zlen packet -> field_at off (zlen bytes) (put off bytes packet) = bytes.
Proof.
  intros. unfold field_at, put. pose proof (zlen_nonneg bytes).
  rewrite zwindow_memcpy_end by lia. rewrite ztake_neg by lia. done.
Qed.

Lemma field_put_other off len off' bytes packet :
  0 <= off -> 0 <= len -> 0 <= off' -> off' + zlen bytes <= zlen packet ->
  off + len <= off' \/ off' + zlen bytes <= off ->
  field_at off len (put off' bytes packet) = field_at off len packet.
Proof.
  intros. unfold field_at, put. pose proof (zlen_nonneg bytes). destruct (decide (off + len <= off')).
  - zlist_eq.
  - rewrite zdrop_memcpy_after by lia. done.
Qed.

Lemma field_header off len p q :
  0 <= off -> 0 <= len -> off + len <= off_options -> header p = header q -> field_at off len p = field_at off len q.
Proof.
  intros Ho Hl Hlt Hh. unfold field_at.
  assert (forall x : list Z, ztake len (zdrop off x) = ztake len (zdrop off (ztake off_options x))) as He.
  { intros x. unfold off_options in *. zlist_eq. }
  rewrite (He p), (He q). unfold header in Hh. by rewrite Hh.
Qed.

Lemma get_le32_header i p q :
  0 <= i -> i + 4 <= off_options -> header p = header q -> get_le32 p i = get_le32 q i.
Proof.
  intros Hi Hl Hh. assert (forall x j, 0 <= j < off_options -> byte_at x j = byte_at (header x) j) as Hb.
  { intros x j Hj. unfold byte_at, header, ztake. by rewrite lookup_take_lt by lia. }
  unfold get_le32. rewrite !(Hb p), !(Hb q) by lia. by rewrite Hh.
Qed.

Lemma get_le32_field i p : 0 <= i -> get_le32 p i = get_le32 (field_at i 4 p) 0.
Proof.
  intros Hi. assert (forall j, 0 <= j < 4 -> byte_at p (i + j) = byte_at (field_at i 4 p) j) as Hb.
  { intros j Hj. rewrite <- byte_at_zdrop by lia. unfold field_at, byte_at, ztake. by rewrite lookup_take_lt by lia. }
  unfold get_le32. rewrite <- !Hb by lia. by rewrite !Z.add_0_r, <- ?Z.add_assoc.
Qed.

Lemma get_le32_put_same off v packet :
  0 <= off -> off + 4 <= zlen packet -> 0 <= v < 2 ^ 32 ->
  get_le32 (put off (le_bytes32 v) packet) off = v.
Proof.
  intros Ho Hl Hv. assert (zlen (le_bytes32 v) = 4) as H4 by done.
  transitivity (get_le32 (le_bytes32 v) 0); [|by apply le_bytes32_get].
  unfold get_le32. rewrite !byte_at_put by (rewrite ?H4; lia). rewrite H4.
  rewrite !(proj2 (Z.leb_le _ _)), !(proj2 (Z.ltb_lt _ _)) by lia. cbn [andb].
  repeat f_equal; lia.
Qed.

Lemma get_le32_put_other off bytes packet i :
  0 <= off -> off + zlen bytes <= zlen packet -> 0 <= i ->
  i + 4 <= off \/ off + zlen bytes <= i ->
  get_le32 (put off bytes packet) i = get_le32 packet i.
Proof.
  intros Ho Hl Hi Hd. pose proof (zlen_nonneg bytes). unfold get_le32. rewrite !byte_at_put by lia.
  assert (forall j, i <= j < i + 4 -> (off <=? j) && (j <? off + zlen bytes) = false) as Hf.
  { intros j Hj. destruct (Z.leb_spec off j), (Z.ltb_spec j (off + zlen bytes)); cbn; lia. }
  by rewrite !Hf by lia.
Qed.

(** *** Where a search can lead *)

(** The three fields that hold options. *)
Definition field (lo hi : Z) : Prop :=
  (lo = off_options /\ hi = sizeof_packet) \/ (lo = off_file /\ hi = off_cookie) \/
  (lo = off_sname /\ hi = off_file).

(** An option with its whole data inside one of the fields. *)
Definition in_field (packet : list Z) (code p : Z) : Prop :=
  exists lo hi, field lo hi /\ lo <= p - 2 /\ p + byte_at packet (p - 1) <= hi /\
                byte_at packet (p - 2) = code.

Lemma get_option_loop_bounds fuel packet code ptr rem ov p lo hi :
  Forall byte_ok packet -> field lo hi -> rem <= 0 \/ (lo <= ptr /\ ptr + rem = hi) ->
  get_option_loop fuel packet code ptr rem ov = OptFound p -> in_field packet code p.
Proof.
  intros Hb. revert ptr rem ov lo hi; induction fuel as [|fuel IH]; intros ptr rem ov lo hi Hf Hi Hr; [done|].
  cbn [get_option_loop] in Hr. unfold OPT_CODE, OPT_LEN, OPT_DATA in Hr.
  destruct (Z.leb_spec rem 0); [done|]. destruct Hi as [?|[Hlo Hhi]]; [lia|].
  destruct (_ =? DHCP_PADDING); [eapply (IH _ _ _ lo hi); [done|right|exact Hr]; lia|].
  destruct (_ =? DHCP_END).
  { destruct (negb _); [eapply (IH off_file size_file _ off_file off_cookie); [by right; left|right; split; [apply Z.le_refl|reflexivity]|exact Hr]|].
    destruct (negb _); [eapply (IH off_sname size_sname _ off_sname off_file); [by right; right|right; split; [apply Z.le_refl|reflexivity]|exact Hr]|done]. }
  pose proof (byte_at_range packet (ptr + 1) Hb).
  destruct (Z.ltb_spec (rem - (2 + byte_at packet (ptr + 1))) 0);
    [eapply (IH _ _ _ lo hi); [done|left|exact Hr]; lia|].
  destruct (Z.eqb_spec (byte_at packet (ptr + 0)) code) as [Hc|].
  - simplify_eq. exists lo, (ptr + rem). replace (ptr + 2 - 1) with (ptr + 1) by lia.
    split_and!; [done|lia|lia|]. f_equal; lia.
  - eapply (IH _ _ _ lo hi); [done|right|exact Hr]; lia.
Qed.

(** *** When a search ends *)

Definition weight (ov : Z) : Z :=
  (if Z.land ov FILE_FIELD =? 0 then 0 else 130) + (if Z.land ov SNAME_FIELD =? 0 then 0 else 66).

Lemma weight_range ov : 0 <= weight ov <= 196.
Proof. unfold weight. repeat destruct (_ =? 0); lia. Qed.

Lemma weight_clear_file ov :
  Z.land ov FILE_FIELD <> 0 -> weight (Z.land ov (Z.lnot FILE_FIELD)) = weight ov - 130.
Proof.
  intros H. unfold weight. rewrite <- !Z.land_assoc.
  change (Z.land (Z.lnot FILE_FIELD) FILE_FIELD) with 0.
  change (Z.land (Z.lnot FILE_FIELD) SNAME_FIELD) with SNAME_FIELD. rewrite Z.land_0_r.
  rewrite (proj2 (Z.eqb_neq (Z.land ov FILE_FIELD) 0)) by done. cbn [Z.eqb]. lia.
Qed.

Lemma weight_clear_sname ov :
  Z.land ov FILE_FIELD = 0 -> Z.land ov SNAME_FIELD <> 0 ->
  weight (Z.land ov (Z.lnot SNAME_FIELD)) = weight ov - 66.
Proof.
  intros H0 H. unfold weight. rewrite <- !Z.land_assoc.
  change (Z.land (Z.lnot SNAME_FIELD) FILE_FIELD) with FILE_FIELD.
  change (Z.land (Z.lnot SNAME_FIELD) SNAME_FIELD) with 0. rewrite Z.land_0_r, H0.
  rewrite (proj2 (Z.eqb_neq (Z.land ov SNAME_FIELD) 0)) by done. cbn [Z.eqb]. lia.
Qed.

(** No byte of the [sname] and [file] fields is an overload code. *)
Definition no_reload (packet : list Z) : Prop :=
  forall i, off_sname <= i < off_cookie -> byte_at packet i <> DHCP_OPTION_OVERLOAD.

Lemma get_option_loop_ends fuel packet code ptr rem ov (outer : bool) :
  Forall byte_ok packet -> no_reload packet ->
  (outer = false -> rem <= 0 \/ (off_sname <= ptr /\ ptr + rem <= off_cookie)) ->
  Z.max 0 rem + 1 + (if outer then 196 else weight ov) < Z.of_nat fuel ->
  get_option_loop fuel packet code ptr rem ov <> OptHang.
Proof.
  intros Hb Hn. revert ptr rem ov outer; induction fuel as [|fuel IH]; intros ptr rem ov outer Hi Hf.
  { pose proof (weight_range ov). destruct outer; lia. }
  pose proof (weight_range ov) as Hw.
  cbn [get_option_loop]. unfold OPT_CODE, OPT_LEN, OPT_DATA.
  destruct (Z.leb_spec rem 0); [done|].
  destruct (_ =? DHCP_PADDING); [apply (IH _ _ _ outer); [intros Ho; specialize (Hi Ho); lia|lia]|].
  destruct (_ =? DHCP_END).
  { destruct (Z.eqb_spec (Z.land ov FILE_FIELD) 0) as [H0|H0]; cbn [negb].
    - destruct (Z.eqb_spec (Z.land ov SNAME_FIELD) 0) as [H1|H1]; cbn [negb]; [done|].
      apply (IH _ _ _ false); [right; split; discriminate|]. rewrite weight_clear_sname by done.
      change size_sname with 64. destruct outer; lia.
    - apply (IH _ _ _ false); [right; split; discriminate|]. rewrite weight_clear_file by done.
      change size_file with 128. destruct outer; lia. }
  pose proof (byte_at_range packet (ptr + 1) Hb).
  destruct (Z.ltb_spec (rem - (2 + byte_at packet (ptr + 1))) 0);
    [apply (IH _ _ _ outer); [intros _; left; lia|lia]|].
  destruct (_ =? code); [done|]. apply (IH _ _ _ outer).
  - intros Ho; specialize (Hi Ho). lia.
  - destruct outer; [lia|]. destruct (Hi eq_refl) as [?|[? ?]]; [lia|].
    rewrite (proj2 (Z.eqb_neq _ DHCP_OPTION_OVERLOAD)) by (apply Hn; lia). lia.
Qed.

(** *** Checksums *)

Definition wsum (l : list Z) : Z := foldr Z.add 0 (words16 l).

Lemma words16_ind (P : list Z -> Prop) :
  P [] -> (forall a, P [a]) -> (forall a b l, P l -> P (a :: b :: l)) -> forall l, P l.
Proof.
  intros H0 H1 H2 l. enough (P l /\ forall a, P (a :: l)) by tauto.
  induction l as [|b l [IH1 IH2]]; split; auto.
Qed.

Lemma words16_app a b : Z.even (zlen a) = true -> words16 (a ++ b) = words16 a ++ words16 b.
Proof.
  revert a; refine (words16_ind _ _ _ _); [done|done|]. intros x y l IH He. cbn [app words16].
  rewrite IH; [done|]. rewrite !zlen_cons in He. replace (zlen l + 1 + 1) with (zlen l + 2) in He by lia.
  rewrite Z.even_add in He. by destruct (Z.even (zlen l)).
Qed.

Lemma wsum_app a b : Z.even (zlen a) = true -> wsum (a ++ b) = wsum a + wsum b.
Proof.
  intros He. unfold wsum. rewrite words16_app by done. generalize (words16 a) as u.
  induction u as [|x u IH]; cbn; [lia | rewrite IH; lia].
Qed.

Lemma wsum_range l : Forall byte_ok l -> 0 <= wsum l <= 65535 * ((zlen l + 1) / 2).
Proof.
  revert l; refine (words16_ind _ _ _ _).
  - intros _. change (wsum []) with 0. change ((zlen [] + 1) / 2) with 0. lia.
  - intros a [Ha _]%Forall_cons. unfold byte_ok in Ha.
    change (wsum [a]) with (a + 0). change ((zlen [a] + 1) / 2) with 1. lia.
  - intros a b l IH [Ha [Hb Hl]%Forall_cons]%Forall_cons. specialize (IH Hl).
    unfold wsum in *; cbn [words16 foldr]. unfold byte_ok in *. rewrite !zlen_cons.
    replace (zlen l + 1 + 1 + 1) with (zlen l + 1 + 1 * 2) by lia. rewrite Z.div_add by lia. lia.
Qed.

Lemma i32_small x : 0 <= x < 2 ^ 31 -> i32 x = x.
Proof.
  intros. unfold i32, to_signed. rewrite Z.mod_small by lia. change (2 ^ (32 - 1)) with (2 ^ 31).
  rewrite (proj2 (Z.ltb_lt _ _)) by lia. done.
Qed.

Lemma sum16_wsum l : Forall byte_ok l -> zlen l <= 2 ^ 16 -> sum16 l = wsum l /\ wsum l < 2 ^ 31.
Proof.
  intros Hb Hl. pose proof (wsum_range l Hb) as Hr. assert ((zlen l + 1) / 2 <= 2 ^ 15)
    by (Z.div_mod_to_equations; lia).
  split; [|lia]. unfold sum16, wsum in *. assert (Forall (fun w => 0 <= w) (words16 l)) as Hw.
  { clear Hr H Hl. revert l Hb; refine (words16_ind _ _ _ _); cbn [words16].
    - constructor.
    - intros a [Ha _]%Forall_cons. repeat constructor. unfold byte_ok in Ha; lia.
    - intros a b l IH [Ha [Hb Hl]%Forall_cons]%Forall_cons. constructor; [|auto].
      unfold byte_ok in *; lia. }
  assert (foldr Z.add 0 (words16 l) < 2 ^ 31) as Hlt by lia.
  enough (forall s, 0 <= s -> s + foldr Z.add 0 (words16 l) < 2 ^ 31 ->
    fold_left (fun s w => i32 (s + w)) (words16 l) s = s + foldr Z.add 0 (words16 l)) as Hs
    by (rewrite Hs; lia).
  clear -Hw. induction Hw as [|w ws Hw0 Hws IH]; intros s Hs Hb; cbn [fold_left foldr] in *; [lia|].
  assert (0 <= foldr Z.add 0 ws) by (clear -Hws; induction Hws; cbn; lia).
  rewrite i32_small by lia. rewrite IH by lia. lia.
Qed.

Lemma fold_sum_spec s :
  0 <= s < 2 ^ 31 ->
  exists r, fold_sum 3 s = Some r /\ 0 <= r <= 65535 /\ r mod 65535 = s mod 65535 /\ (r = 0 <-> s = 0).
Proof.
  intros Hs.
  assert (forall x, 0 <= x < 2 ^ 31 -> exists q m, Z.shiftr x 16 = q /\ Z.land x 0xffff = m /\
    x = q * 65536 + m /\ 0 <= m < 65536 /\ 0 <= q < 2 ^ 15) as Hdm.
  { intros x Hx. exists (x / 2 ^ 16), (x mod 2 ^ 16). rewrite Z.shiftr_div_pow2 by lia.
    split; [done|]. split; [exact (Z.land_ones x 16 ltac:(lia))|]. Z.div_mod_to_equations; lia. }
  assert (forall a b, 0 <= b <= 65535 -> a mod 65535 = (a + b * 65535) mod 65535) as Hmod.
  { intros a b _. by rewrite Z_mod_plus_full. }
  destruct (Hdm s Hs) as (q & m & Hq & Hm & -> & ? & ?). cbn [fold_sum]. rewrite Hq.
  destruct (Z.eqb_spec q 0) as [->|].
  { eexists; split; [reflexivity|]. split_and!; lia. }
  rewrite Hm, i32_small by lia.
  destruct (Hdm (m + q)) as (q2 & m2 & Hq2 & Hm2 & He & ? & ?); [lia|]. rewrite Hq2.
  assert ((q * 65536 + m) mod 65535 = (m + q) mod 65535) as Hmod1.
  { rewrite (Hmod (m + q) q) by lia. f_equal; lia. }
  destruct (Z.eqb_spec q2 0) as [->|].
  { eexists; split; [reflexivity|]. split_and!; [lia|lia|done|lia]. }
  rewrite Hm2, i32_small by lia.
  destruct (Hdm (m2 + q2)) as (q3 & m3 & -> & _ & He3 & ? & ?); [lia|].
  rewrite (proj2 (Z.eqb_eq q3 0)) by lia. eexists; split; [reflexivity|].
  split_and!; [lia|lia| |lia].
  rewrite Hmod1, He, (Hmod (m2 + q2) q2) by lia. f_equal; lia.
Qed.

Lemma checksum_spec l :
  Forall byte_ok l -> zlen l <= 2 ^ 16 ->
  exists r, dhcp_checksum 3 l = Some (65535 - r) /\ 0 <= r <= 65535 /\
            r mod 65535 = wsum l mod 65535 /\ (r = 0 <-> wsum l = 0).
Proof.
  intros Hb Hl. destruct (sum16_wsum l Hb Hl) as [Hs Hlt]. pose proof (wsum_range l Hb).
  destruct (fold_sum_spec (wsum l)) as (r & Hf & Hr & Hm & H0); [lia|].
  exists r. split_and!; try done; try lia. unfold dhcp_checksum. rewrite Hs, Hf. cbn [option_map]. f_equal.
  unfold u16, Z.lnot.
  replace (Z.pred (- r)) with (65535 - r + (-1) * 2 ^ 16) by lia. rewrite Z_mod_plus_full.
  apply Z.mod_small; lia.
Qed.

(** *** Fresh packets *)

Lemma zlen_zero_packet : zlen zero_packet = sizeof_packet.
Proof. reflexivity. Qed.

Definition mtype_opt (type : Z) : dopt := Opt DHCP_MESSAGE_TYPE [type].

Lemma put_ok off bytes packet :
  Forall byte_ok bytes -> Forall byte_ok packet -> Forall byte_ok (put off bytes packet).
Proof.
  intros Hb Hp. unfold put, memcpy, ztake, zdrop. rewrite !Forall_app.
  split_and!; [by apply Forall_take|done|by apply Forall_drop].
Qed.

Lemma add_binary_ok packet addopt packet' :
  Forall byte_ok packet -> Forall byte_ok addopt ->
  dhcp_add_binary_option packet addopt = Some packet' -> Forall byte_ok packet'.
Proof.
  intros Hp Ha. unfold dhcp_add_binary_option. destruct (dhcp_end_option _); [|done].
  destruct (_ <=? _); intros; simplify_eq; [done|].
  apply put_ok; [by repeat constructor|]. apply put_ok; [|done]. by apply Forall_take.
Qed.

Lemma init_header_spec type :
  0 <= type < 256 ->
  exists packet, dhcp_init_header type = Some packet /\ has_opts packet [mtype_opt type] /\
    Forall byte_ok packet /\ field_at off_yiaddr 4 packet = [0; 0; 0; 0].
Proof.
  intros Ht. unfold dhcp_init_header. cbn zeta. set (p := put off_options _ _).
  assert (has_opts p [] /\ field_at off_yiaddr 4 p = [0; 0; 0; 0] /\ Forall byte_ok p) as (Hp & Hy & Hpb).
  { unfold p. destruct (_ || _); (split; [split; [reflexivity|exists (replicate 387 0); vm_compute; reflexivity]|]);
      (split; [vm_compute; reflexivity|]); repeat (apply put_ok; [by repeat constructor|]); apply Forall_replicate; done. }
  unfold dhcp_add_option_uint8. change (check_option DHCP_MESSAGE_TYPE 1 =? OPTION_UNKNOWN) with false; cbn iota.
  destruct (add_binary_spec p [] DHCP_MESSAGE_TYPE [type] [] Hp) as (p' & Hadd & Hh & Hopts).
  - constructor.
  - split_and!; [done..|]. constructor; [exact Ht|constructor].
  - change (enc (Opt DHCP_MESSAGE_TYPE [type]) ++ []) with [DHCP_MESSAGE_TYPE; 1; type] in Hadd.
    change (_ <? DHCP_OPTIONS_BUFSIZE) with true in Hopts; cbn iota in Hopts.
    exists p'. split_and!; [done|done| |by rewrite (field_header _ _ p' p)].
    refine (add_binary_ok _ _ _ Hpb _ Hadd).
    repeat (apply Forall_cons_2; [unfold byte_ok, DHCP_MESSAGE_TYPE; lia|]). constructor.
Qed.

(** The fields that tell what kind of packet it is. *)
Definition framed (op : Z) (packet : list Z) : Prop :=
  byte_at packet off_op = op /\ byte_at packet off_hlen = 6 /\ get_le32 packet off_cookie = htonl DHCP_MAGIC.

Lemma byte_at_header i p q : 0 <= i < off_options -> header p = header q -> byte_at p i = byte_at q i.
Proof.
  intros Hi Hh. assert (forall x, byte_at x i = byte_at (header x) i) as Hb.
  { intros x. unfold byte_at, header, ztake. by rewrite lookup_take_lt by lia. }
  by rewrite (Hb p), (Hb q), Hh.
Qed.

Lemma framed_header op p q : header p = header q -> framed op q -> framed op p.
Proof.
  intros Hh (H1 & H2 & H3). unfold framed. rewrite (byte_at_header _ p q), (byte_at_header _ p q) by done.
  by rewrite (get_le32_header _ p q).
Qed.

Lemma framed_put op off bytes packet :
  zlen packet = sizeof_packet -> 3 <= off -> off + zlen bytes <= off_cookie -> framed op packet ->
  framed op (put off bytes packet).
Proof.
  intros Hl Ho Hb (H1 & H2 & H3). unfold framed, off_op, off_hlen, off_cookie, sizeof_packet in *.
  rewrite get_le32_put_other by lia. rewrite !byte_at_put by lia. rewrite !(proj2 (Z.leb_gt off _)) by lia. done.
Qed.

Definition op_of (type : Z) : Z :=
  if (type =? DHCPOFFER) || (type =? DHCPACK) || (type =? DHCPNAK) then BOOTREPLY else BOOTREQUEST.

Lemma init_header_framed type packet :
  0 <= type < 256 -> dhcp_init_header type = Some packet -> framed (op_of type) packet.
Proof.
  intros Ht. unfold dhcp_init_header, op_of. cbn zeta. set (p := put off_options _ _).
  assert (has_opts p [] /\ framed (if (type =? DHCPOFFER) || (type =? DHCPACK) || (type =? DHCPNAK)
    then BOOTREPLY else BOOTREQUEST) p) as [Hp Hf].
  { unfold p. destruct (_ || _); (split; [split; [reflexivity|exists (replicate 387 0); vm_compute; reflexivity]|]);
      vm_compute; done. }
  unfold dhcp_add_option_uint8. change (check_option DHCP_MESSAGE_TYPE 1 =? OPTION_UNKNOWN) with false; cbn iota.
  destruct (add_binary_spec p [] DHCP_MESSAGE_TYPE [type] [] Hp) as (p' & Hadd & Hh & _); [constructor| |].
  - split_and!; [done..|]. constructor; [exact Ht|constructor].
  - change (enc (Opt DHCP_MESSAGE_TYPE [type]) ++ []) with [DHCP_MESSAGE_TYPE; 1; type] in Hadd. rewrite Hadd.
    intros [= <-]. by apply (framed_header _ p' p).
Qed.

Lemma add_uint32_spec packet os code v :
  has_opts packet os -> Forall dopt_ok os -> In code [0x01; 0x03; 0x06; 0x33; 0x36] ->
  exists packet', dhcp_add_option_uint32 packet code v = Some packet' /\
    header packet' = header packet /\ (Forall byte_ok packet -> Forall byte_ok packet') /\
    if zlen (enc_opts os) + 7 <? DHCP_OPTIONS_BUFSIZE
    then has_opts packet' (os ++ [Opt code (put_be32 v)]) else packet' = packet.
Proof.
  intros Hp Hos Hc. unfold dhcp_add_option_uint32.
  assert ((check_option code 4 =? OPTION_UNKNOWN) = false /\ 0 < code < 255) as [-> Hcode].
  { cbn in Hc. by destruct Hc as [<-|[<-|[<-|[<-|[<-|[]]]]]]. }
  destruct (add_binary_spec packet os code (put_be32 v) [] Hp Hos) as (p' & Hadd & Hh & Hopts).
  - split_and!; [lia..|done|apply le_bytes32_ok].
  - exists p'. change (enc (Opt code (put_be32 v)) ++ []) with ([code; 4] ++ put_be32 v) in Hadd.
    split_and!; [done|done| |].
    + intros Hb. refine (add_binary_ok _ _ _ Hb _ Hadd). cbn [app].
      repeat (apply Forall_cons_2; [unfold byte_ok; lia|]). apply le_bytes32_ok.
    + replace (zlen (enc_opts os) + (2 + zlen (put_be32 v)) + 1) with (zlen (enc_opts os) + 7) in Hopts
        by (change (zlen (put_be32 v)) with 4; lia). done.
Qed.

Lemma v6_option_loop_spec fuel packet code ptr rem acc total :
  Forall byte_ok packet -> 4 <= ptr -> ptr + rem = total -> 0 < rem -> rem < Z.of_nat fuel ->
  (forall p, v6_ptr acc = Some p -> exists l, v6_len acc = Some l /\ 8 <= p /\ 0 <= l /\ p + l <= total) ->
  exists r, v6_option_loop fuel packet code ptr rem acc = Some r /\
    (forall p, v6_ptr r = Some p -> exists l, v6_len r = Some l /\ 8 <= p /\ 0 <= l /\ p + l <= total).
Proof.
  intros Hb. revert ptr rem acc; induction fuel as [|fuel IH]; intros ptr rem acc Hp Ht Hr Hf Hacc; [lia|].
  cbn [v6_option_loop].
  pose proof (byte_at_range packet (ptr + 2) Hb). pose proof (byte_at_range packet (ptr + 3) Hb).
  set (l := byte_at packet (ptr + 2) * 2 ^ 8 + byte_at packet (ptr + 3)).
  assert (0 <= l < 65536) as Hl by (unfold l; lia).
  assert (0 <= u16 (l + 4) < 65536) as Hu by (apply Z.mod_pos_bound; lia).
  destruct (Z.ltb_spec (u16 (l + 4)) 4); [by eexists|].
  assert (u16 (l + 4) = l + 4) as Hu4.
  { unfold u16 in *. Z.div_mod_to_equations. lia. }
  destruct (Z.ltb_spec (rem - u16 (l + 4)) 0); [by eexists|].
  set (c := byte_at packet ptr * 2 ^ 8 + byte_at packet (ptr + 1)).
  set (acc' := if c =? code then _ else acc).
  assert (forall p, v6_ptr acc' = Some p -> exists l, v6_len acc' = Some l /\ 8 <= p /\ 0 <= l /\ p + l <= total) as Hacc'.
  { unfold acc'. destruct (c =? code); [|done]. intros p [= <-]. exists l. split_and!; [done|lia..]. }
  destruct (Z.eqb_spec (rem - u16 (l + 4)) 0); [by eexists|].
  apply IH; try done; lia.
Qed.

(** One pass over an overload option, and over the end of a field. *)
Lemma loop_overload f packet code ptr rem :
  byte_at packet ptr = DHCP_OPTION_OVERLOAD -> byte_at packet (ptr + 1) = 1 ->
  byte_at packet (ptr + 2) = FILE_FIELD -> code <> DHCP_OPTION_OVERLOAD -> 4 <= rem ->
  get_option_loop (S f) packet code ptr rem 0 =
    get_option_loop f packet code (ptr + 3) (rem - 3) FILE_FIELD.
Proof.
  intros H0 H1 H2 Hc Hr. cbn [get_option_loop]. unfold OPT_CODE, OPT_LEN, OPT_DATA.
  rewrite Z.add_0_r, H0, H1, H2, (proj2 (Z.leb_gt rem 0)) by lia.
  change (DHCP_OPTION_OVERLOAD =? DHCP_PADDING) with false; change (DHCP_OPTION_OVERLOAD =? DHCP_END) with false.
  rewrite (proj2 (Z.ltb_ge (rem - (2 + 1)) 0)) by lia.
  rewrite (proj2 (Z.eqb_neq DHCP_OPTION_OVERLOAD code)) by done. done.
Qed.

Lemma loop_end_file f packet code ptr rem :
  byte_at packet ptr = DHCP_END -> 0 < rem ->
  get_option_loop (S f) packet code ptr rem FILE_FIELD =
    get_option_loop f packet code off_file size_file 0.
Proof.
  intros H0 Hr. cbn [get_option_loop]. unfold OPT_CODE. rewrite Z.add_0_r, H0, (proj2 (Z.leb_gt rem 0)) by lia.
  done.
Qed.

(** ** Properties *)

(** C22. Round trip of options: adding an option that fits to a packet whose
    options are in order makes [dhcp_get_option] find it (unless its code was
    there already) with its data, and leaves every other option, the header and
    the size of the packet as they were; an option that does not fit changes
    nothing. *)
Theorem dhcp_add_option_roundtrip packet os code data junk code' fuel :
  has_opts packet os -> Forall dopt_ok os -> dopt_ok (Opt code data) ->
  no_overload (os ++ [Opt code data]) -> 0 < code' < 255 -> (388 <= fuel)%nat ->
  exists packet', dhcp_add_binary_option packet (enc (Opt code data) ++ junk) = Some packet' /\
    header packet' = header packet /\ zlen packet' = sizeof_packet /\
    found_data packet' (dhcp_get_option fuel packet' code') =
      match opt_data code' os with
      | Some d => Some d
      | None =>
        if (zlen (enc_opts os) + (2 + zlen data) + 1 <? DHCP_OPTIONS_BUFSIZE) && (code =? code')
        then Some data else None
      end.
Proof.
  intros Hp Hos Ho Hno Hc Hf. destruct (add_binary_spec packet os code data junk Hp Hos Ho) as (p' & Hadd & Hh & Hopts).
  exists p'. split; [done|]. split; [done|]. apply no_overload_app in Hno as Hno'. destruct Hno' as [Hno1 _].
  destruct (_ <? _).
  - split; [by destruct Hopts|]. assert (Forall dopt_ok (os ++ [Opt code data])) by (apply Forall_app; split; [done|constructor; [done|constructor]]).
    destruct (get_option_spec p' code' _ fuel Hopts) as [_ ->]; try done.
    rewrite opt_data_app. cbn. by destruct (opt_data code' os), (code =? code').
  - subst p'. split; [by destruct Hp|]. destruct (get_option_spec packet code' os fuel) as [_ ->]; try done.
    by destruct (opt_data code' os).
Qed.

(** Whatever the packet holds, a pointer [dhcp_get_option] returns is the
    data of an option with the wanted code, whose declared length stays inside
    the field (options, file or sname) it was found in. *)
Theorem dhcp_get_option_bounds fuel packet code p :
  Forall byte_ok packet -> dhcp_get_option fuel packet code = OptFound p -> in_field packet code p.
Proof.
  intros Hb Hg. eapply (get_option_loop_bounds fuel packet code off_options size_options 0); [done| | |exact Hg].
  - by left.
  - by right.
Qed.

(** The search ends, within 600 passes of its loop, on every packet whose
    [sname] and [file] fields hold no overload code. *)
Theorem dhcp_get_option_terminates fuel packet code :
  Forall byte_ok packet -> no_reload packet -> (600 <= fuel)%nat ->
  dhcp_get_option fuel packet code <> OptHang.
Proof.
  intros Hb Hn Hf. apply (get_option_loop_ends _ _ _ _ _ _ true); [done..|].
  change size_options with 388. lia.
Qed.

(** On a packet that declares the file field overloaded, and repeats that
    declaration inside the file field, the search for any other code never
    ends. *)
Theorem dhcp_get_option_diverges fuel packet code :
  ztake 4 (zdrop off_options packet) = [DHCP_OPTION_OVERLOAD; 1; FILE_FIELD; DHCP_END] ->
  ztake 4 (zdrop off_file packet) = [DHCP_OPTION_OVERLOAD; 1; FILE_FIELD; DHCP_END] ->
  code <> DHCP_OPTION_OVERLOAD ->
  dhcp_get_option fuel packet code = OptHang.
Proof.
  intros Ho Hfile Hcode.
  assert (forall off i, 0 <= off -> 0 <= i < 4 ->
    ztake 4 (zdrop off packet) = [DHCP_OPTION_OVERLOAD; 1; FILE_FIELD; DHCP_END] ->
    byte_at packet (off + i) = byte_at [DHCP_OPTION_OVERLOAD; 1; FILE_FIELD; DHCP_END] i) as Hbyte.
  { intros off i Hoff Hi Ht. rewrite <- Ht, <- byte_at_zdrop by lia. unfold byte_at, ztake.
    by rewrite lookup_take_lt by lia. }
  assert (forall off, 0 <= off -> ztake 4 (zdrop off packet) = [DHCP_OPTION_OVERLOAD; 1; FILE_FIELD; DHCP_END] ->
    forall rem f, 4 <= rem -> (forall g, (g < f)%nat -> get_option_loop g packet code off_file size_file 0 = OptHang) ->
    get_option_loop f packet code off rem 0 = OptHang) as Hstep.
  { intros off Hoff Ht rem f Hrem IH. destruct f as [|f]; [done|].
    pose proof (Hbyte off 0 Hoff ltac:(lia) Ht) as H0. pose proof (Hbyte off 1 Hoff ltac:(lia) Ht) as H1.
    pose proof (Hbyte off 2 Hoff ltac:(lia) Ht) as H2. pose proof (Hbyte off 3 Hoff ltac:(lia) Ht) as H3.
    rewrite Z.add_0_r in H0. rewrite loop_overload by done.
    destruct f as [|f]; [done|]. rewrite loop_end_file by (done || lia). apply IH; lia. }
  assert (forall f, get_option_loop f packet code off_file size_file 0 = OptHang) as Hcycle.
  { intros f. induction f as [f IH] using lt_wf_ind. by apply (Hstep off_file). }
  by apply (Hstep off_options).
Qed.

(** The checksum is an Internet checksum: it is computed without overflow
    of the 32-bit sum and in at most two folds, and a block whose checksum
    field (at an even offset, zero while summing) is filled with the result
    sums to zero at the receiver. *)
Theorem dhcp_checksum_verifies a b :
  Forall byte_ok a -> Forall byte_ok b -> Z.even (zlen a) = true -> zlen a + zlen b + 2 <= 2 ^ 16 ->
  exists c, dhcp_checksum 3 (a ++ [0; 0] ++ b) = Some c /\ 0 <= c < 2 ^ 16 /\
            dhcp_checksum 3 (a ++ le_bytes16 c ++ b) = Some 0.
Proof.
  intros Ha Hb He Hl.
  assert (forall x, Forall byte_ok x -> zlen x = 2 -> Forall byte_ok (a ++ x ++ b) /\
    zlen (a ++ x ++ b) <= 2 ^ 16 /\ wsum (a ++ x ++ b) = wsum a + wsum x + wsum b) as Hx.
  { intros x Hx Hlx. split_and!; [by rewrite !Forall_app|zlia|].
    rewrite wsum_app, wsum_app by (done || by rewrite Hlx). lia. }
  destruct (Hx [0; 0]) as (H1 & H2 & H3); [by repeat constructor|done|].
  destruct (checksum_spec _ H1 H2) as (r & Hc & Hr & Hm & H0). exists (65535 - r). split; [done|]. split; [lia|].
  destruct (Hx (le_bytes16 (65535 - r))) as (H4 & H5 & H6); [apply le_bytes16_ok|done|].
  destruct (checksum_spec _ H4 H5) as (r2 & Hc2 & Hr2 & Hm2 & H02). rewrite Hc2. f_equal.
  assert (wsum (le_bytes16 (65535 - r)) = 65535 - r) as Hw.
  { change (u8 (65535 - r) + 2 ^ 8 * u8 ((65535 - r) / 2 ^ 8) + 0 = 65535 - r). unfold u8.
    Z.div_mod_to_equations; lia. }
  rewrite H3 in Hm, H0. change (wsum [0; 0]) with 0 in Hm, H0. rewrite H6, Hw in Hm2, H02.
  pose proof (wsum_range a Ha). pose proof (wsum_range b Hb).
  assert (r2 <> 0) by lia. assert (r2 mod 65535 = 0) as Hz.
  { rewrite Hm2. replace (wsum a + (65535 - r) + wsum b) with ((wsum a + 0 + wsum b) + (65535 - r)) by lia.
    rewrite <- Zplus_mod_idemp_l, <- Hm, Zplus_mod_idemp_l. by replace (r + (65535 - r)) with 65535 by lia. }
  Z.div_mod_to_equations; lia.
Qed.

(** C24. The DHCPv6 search ends for every packet, and an option it returns lies,
    with its declared length, inside the first [pkt_len] bytes. *)
Theorem dhcpv6_get_option_bounds packet pkt_len code :
  Forall byte_ok packet -> 0 <= pkt_len < 2 ^ 16 ->
  exists r, dhcpv6_get_option packet pkt_len code = Some r /\
    forall p, v6_ptr r = Some p ->
      exists l, v6_len r = Some l /\ 8 <= p /\ 0 <= l /\ p + l <= pkt_len.
Proof.
  intros Hb Hl. unfold dhcpv6_get_option. destruct (Z.leb_spec (pkt_len - 1 - 3) 0); [by eexists|].
  apply v6_option_loop_spec; try done; lia.
Qed.

(** ** Witnesses *)

Definition offer_header : list Z := default [] (dhcp_init_header DHCPOFFER).

Lemma offer_header_opts : has_opts offer_header [mtype_opt DHCPOFFER].
Proof. split; [vm_compute; reflexivity|]. exists (replicate 384 0). vm_compute; reflexivity. Qed.

Lemma dhcp_add_option_roundtrip_witness :
  exists packet', dhcp_add_binary_option offer_header ([DHCP_LEASE_TIME; 4; 0; 0; 112; 128] ++ [9]) = Some packet' /\
    header packet' = header offer_header /\ zlen packet' = sizeof_packet /\
    found_data packet' (dhcp_get_option 400 packet' DHCP_LEASE_TIME) = Some [0; 0; 112; 128].
Proof.
  apply (dhcp_add_option_roundtrip offer_header [mtype_opt DHCPOFFER] DHCP_LEASE_TIME [0; 0; 112; 128] [9]
           DHCP_LEASE_TIME 400).
  - exact offer_header_opts.
  - repeat constructor; discriminate.
  - repeat constructor; discriminate.
  - repeat constructor; discriminate.
  - split; reflexivity.
  - lia.
Defined.

Lemma dhcp_get_option_bounds_witness :
  dhcp_get_option 400 offer_header DHCP_MESSAGE_TYPE = OptFound 242 /\
  in_field offer_header DHCP_MESSAGE_TYPE 242.
Proof.
  assert (dhcp_get_option 400 offer_header DHCP_MESSAGE_TYPE = OptFound 242) as H by (vm_compute; reflexivity).
  split; [exact H|]. refine (dhcp_get_option_bounds 400 _ _ _ _ H).
  vm_compute. repeat (constructor; [split; [discriminate|reflexivity]|]). constructor.
Defined.

Lemma offer_header_ok : Forall byte_ok offer_header.
Proof. vm_compute. repeat (constructor; [split; [discriminate|reflexivity]|]). constructor. Qed.

Lemma offer_header_no_reload : no_reload offer_header.
Proof.
  intros i Hi. assert (Forall (fun c => c = 0) (ztake 192 (zdrop 44 offer_header))) as H
    by (vm_compute; repeat constructor).
  unfold off_sname, off_cookie in Hi.
  assert (byte_at offer_header i = 0) as ->; [|done]. unfold byte_at.
  assert (offer_header !! Z.to_nat i = (ztake 192 (zdrop 44 offer_header)) !! Z.to_nat (i - 44)) as ->.
  { unfold ztake, zdrop. rewrite lookup_take_lt, lookup_drop by lia. f_equal. lia. }
  destruct (_ !! Z.to_nat (i - 44)) as [c|] eqn:Hc; [|done]. cbn. exact (Forall_lookup_1 _ _ _ _ H Hc).
Qed.

Lemma dhcp_get_option_terminates_witness :
  dhcp_get_option 600 offer_header DHCP_REQUESTED_IP <> OptHang.
Proof.
  exact (dhcp_get_option_terminates 600 offer_header DHCP_REQUESTED_IP offer_header_ok offer_header_no_reload
           (le_n 600)).
Defined.

(** A request no server would expect. *)
Definition looping_packet : list Z :=
  put off_options [DHCP_OPTION_OVERLOAD; 1; FILE_FIELD; DHCP_END]
    (put off_file [DHCP_OPTION_OVERLOAD; 1; FILE_FIELD; DHCP_END]
      (put off_cookie (le_bytes32 (htonl DHCP_MAGIC))
        (put off_op [BOOTREQUEST; 1; 6] zero_packet))).

Lemma dhcp_get_option_diverges_witness :
  dhcp_get_option 4000 looping_packet DHCP_VENDOR = OptHang.
Proof.
  apply dhcp_get_option_diverges; [vm_compute; reflexivity|vm_compute; reflexivity|discriminate].
Defined.

Lemma dhcp_checksum_verifies_witness :
  exists c, dhcp_checksum 3 ([69; 0; 1; 2] ++ [0; 0] ++ [7; 8; 255]) = Some c /\ 0 <= c < 2 ^ 16 /\
            dhcp_checksum 3 ([69; 0; 1; 2] ++ le_bytes16 c ++ [7; 8; 255]) = Some 0.
Proof.
  apply (dhcp_checksum_verifies [69; 0; 1; 2] [7; 8; 255]);
    [repeat constructor; discriminate|repeat constructor; discriminate|reflexivity|discriminate].
Defined.

Lemma dhcpv6_get_option_bounds_witness :
  exists r, dhcpv6_get_option [1; 0; 0; 0; 0; 3; 0; 2; 9; 9; 0; 5; 0; 1; 4] 15 5 = Some r /\
    forall p, v6_ptr r = Some p -> exists l, v6_len r = Some l /\ 8 <= p /\ 0 <= l /\ p + l <= 15.
Proof.
  apply dhcpv6_get_option_bounds; [repeat constructor; discriminate|split; [discriminate|reflexivity]].
Defined.
