(* ===== verification/DhcpServer.v ===== *)
(** * The DHCP server of [src/gdhcp/server.c].

    [table] is the lease table: the list and the hash of lease pointers, and
    the allocated leases.  The server steps are functions in a state monad with
    failure; [None] is an option search that does not end or a write outside a
    packet. *)

From stdpp Require Import gmap.
From S2P Require Import Prelude StateFail CLib Bytes DhcpCommon.

(** ** Data *)

Definition DEFAULT_DHCP_LEASE_SEC : Z := 8 * 60 * 60.

Definition OFFER_TIME : Z := 5 * 60.

Definition MAC_ANY_ADDR : list Z := [0; 0; 0; 0; 0; 0].

Record dhcp_lease := mkLease { expire : Z; lease_nip : Z; lease_mac : list Z }.

(** The lease table.  A lease pointer is a number; [leases] holds the leases
    that are allocated, [next_id] is the next pointer the allocator gives. *)
Record table := mkTable {
  lease_list : list nat;
  nip_lease_hash : gmap Z nat;
  leases : gmap nat dhcp_lease;
  next_id : nat;
}.

(** The other fields of [struct _GDHCPServer] (the debug hook is left out). *)
Record config := mkConfig {
  ref_count : Z;
  started : bool;
  ifindex : Z;
  start_ip : Z;
  end_ip : Z;
  server_nip : Z;
  lease_seconds : Z;
  listener_sockfd : Z;
  listener_watch : Z;
  listener_channel : bool;
  option_hash : gmap Z (list Z);
  save_lease_func : bool;
}.

(** A packet handed to [dhcp_send_raw_packet]: source, destination and
    hardware address. *)
Record sent_packet := mkSent { p_data : list Z; p_src : Z; p_dst : Z; p_arp : list Z }.

(** What the server reads from and does to its environment: calls of [time]
    and of the allocator so far, packets sent, leases saved. *)
Record env := mkEnv {
  tick : nat;
  answers : list bool;
  sent : list sent_packet;
  saved : list (list Z * Z * Z);
}.

Record server := mkServer { cfg : config; tab : table; en : env }.

(** ** Lists of leases (GLib) *)

(** [g_list_remove]: the first element with this pointer. *)
Fixpoint g_list_remove (l : list nat) (p : nat) : list nat :=
  match l with
  | [] => []
  | q :: l' => if decide (q = p) then l' else q :: g_list_remove l' p
  end.

(** [g_list_insert_sorted]: before the first element that compares at or
    above the new one. *)
Fixpoint g_list_insert_sorted (cmp : nat -> Z) (p : nat) (l : list nat) : list nat :=
  match l with
  | [] => [p]
  | q :: l' => if 0 <? cmp q then q :: g_list_insert_sorted cmp p l' else p :: l
  end.

(** ** The lease table *)

Definition set_list (l : list nat) (t : table) : table :=
  mkTable l (nip_lease_hash t) (leases t) (next_id t).

Definition hash_remove (ip : Z) (t : table) : table :=
  mkTable (lease_list t) (delete ip (nip_lease_hash t)) (leases t) (next_id t).

Definition hash_insert (ip : Z) (p : nat) (t : table) : table :=
  mkTable (lease_list t) (<[ip := p]> (nip_lease_hash t)) (leases t) (next_id t).

Definition lease_free (p : nat) (t : table) : table :=
  mkTable (lease_list t) (nip_lease_hash t) (delete p (leases t)) (next_id t).

Definition lease_put (p : nat) (l : dhcp_lease) (t : table) : table :=
  mkTable (lease_list t) (nip_lease_hash t) (<[p := l]> (leases t)) (next_id t).

(** [*p] *)
Definition lease_at (t : table) (p : nat) : dhcp_lease :=
  default (mkLease 0 0 []) (leases t !! p).

Definition find_lease_by_mac (t : table) (mac : list Z) : option nat :=
  List.find (fun p => bool_decide (lease_mac (lease_at t p) = ztake ETH_ALEN mac)) (lease_list t).

Definition remove_lease (t : table) (p : nat) : table :=
  let ip := lease_nip (lease_at t p) in
  lease_free p (hash_remove ip (set_list (g_list_remove (lease_list t) p) t)).

(** [g_try_new0]: the new block is zeroed. *)
Definition lease_new (t : table) : nat * table :=
  (next_id t, mkTable (lease_list t) (nip_lease_hash t)
                (<[next_id t := mkLease 0 0 (replicate 6 0)]> (leases t)) (S (next_id t))).

(** Both comparisons and the table lookup use host order.  The result is the
    return value, the lease, the table and whether the allocator was asked;
    [ok] is its answer. *)
Definition get_lease (t : table) (start stop : Z) (ok : bool) (yiaddr : Z) (mac : list Z) :
    Z * option nat * table * bool :=
  if yiaddr =? 0 then (- ENXIO, None, t, false)
  else if ntohl yiaddr <? start then (- ENXIO, None, t, false)
  else if stop <? ntohl yiaddr then (- ENXIO, None, t, false)
  else if decide (ztake ETH_ALEN mac = MAC_BCAST_ADDR) then (- ENXIO, None, t, false)
  else if decide (ztake ETH_ALEN mac = MAC_ANY_ADDR) then (- ENXIO, None, t, false)
  else
    let by_mac := find_lease_by_mac t mac in
    match nip_lease_hash t !! ntohl yiaddr with
    | Some by_nip =>
      let t := hash_remove (ntohl yiaddr) (set_list (g_list_remove (lease_list t) by_nip) t) in
      match by_mac with
      | None => (0, Some by_nip, t, false)
      | Some m =>
        if decide (by_nip = m) then (0, Some by_nip, t, false)
        else (0, Some by_nip, remove_lease t m, false)
      end
    | None =>
      match by_mac with
      | Some m =>
        let t := set_list (g_list_remove (lease_list t) m) t in
        (0, Some m, hash_remove (lease_nip (lease_at t m)) t, false)
      | None =>
        if ok then let '(p, t) := lease_new t in (0, Some p, t, true)
        else (- ENOMEM, None, t, true)
      end
    end.

(** The difference of two [time_t], returned as a [gint]. *)
Definition compare_expire (t : table) (a b : nat) : Z :=
  i32 (expire (lease_at t b) - expire (lease_at t a)).

Definition find_lease_by_nip (t : table) (nip : Z) : option nat := nip_lease_hash t !! nip.

(** The part of [add_lease] after [get_lease]. *)
Definition fill_lease (t : table) (p : nat) (l : dhcp_lease) : table :=
  let t := lease_put p l t in
  let t := set_list (g_list_insert_sorted (compare_expire t p) p (lease_list t)) t in
  hash_insert (lease_nip l) p t.

Definition lease_set_expire (t : table) (p : nat) (e : Z) : table :=
  let t := set_list (g_list_remove (lease_list t) p) t in
  let l := lease_at t p in
  let t := lease_put p (mkLease e (lease_nip l) (lease_mac l)) t in
  set_list (g_list_insert_sorted (compare_expire t p) p (lease_list t)) t.

(** The hash is gone; the leases of the list are freed. *)
Definition destroy_lease_table (t : table) : table :=
  mkTable [] ∅ (foldr (fun p m => delete p m) (leases t) (lease_list t)) (next_id t).

(** ** Steps of the server *)

Definition srv : Type -> Type := sfm server.

Definition get : srv server := sget.

Definition set_tab (t : table) : srv unit := fun s => Some (tt, mkServer (cfg s) t (en s)).

Definition set_env (e : env) (s : server) : server := mkServer (cfg s) (tab s) e.

(** [arp_check] is a stub that accepts everything. *)
Definition arp_check (nip : Z) (safe_mac : list Z) : bool := true.

Section server.
(** The clock as a function of the number of calls, [inet_aton] (the address in
    network order, or failure), and the order in which a hash table is walked. *)
Context (clock : nat -> Z).
Context (inet_aton : list Z -> option Z).
Context (foreach_order : gmap Z (list Z) -> list (Z * list Z)).

Definition time : srv Z := fun s =>
  let e := en s in
  Some (clock (tick e), set_env (mkEnv (S (tick e)) (answers e) (sent e) (saved e)) s).

(** The allocator's next answer; [used] tells whether it was asked. *)
Definition next_answer (s : server) : bool := hd true (answers (en s)).

Definition use_answer (used : bool) : srv unit := fun s =>
  let e := en s in
  Some (tt, set_env (mkEnv (tick e) (if used then tl (answers e) else answers e) (sent e) (saved e)) s).

Definition dhcp_send_raw_packet (p : sent_packet) : srv unit := fun s =>
  let e := en s in
  Some (tt, set_env (mkEnv (tick e) (answers e) (sent e ++ [p]) (saved e)) s).

Definition add_lease (exp : Z) (chaddr : list Z) (yiaddr : Z) : srv (option nat) :=
  let* s := get in
  let '(r, lease, t, used) :=
    get_lease (tab s) (start_ip (cfg s)) (end_ip (cfg s)) (next_answer s) yiaddr chaddr in
  let* _ := use_answer used in
  let* _ := set_tab t in
  match lease with
  | None => sret None
  | Some p =>
    let* e := (if exp =? 0 then let* now := time in sret (now + lease_seconds (cfg s)) else sret exp) in
    let* _ := set_tab (fill_lease t p (mkLease e (ntohl yiaddr) (ztake ETH_ALEN chaddr))) in
    sret (Some p)
  end.

Definition is_expired_lease (p : nat) : srv bool :=
  let* s := get in
  let* now := time in
  sret (expire (lease_at (tab s) p) <? now).

(** The loop over the range; [None] when the fuel runs out, which it does when
    the counter wraps around. *)
Fixpoint free_nip_loop (fuel : nat) (t : table) (ip stop : Z) (safe_mac : list Z) : option (option Z) :=
  match fuel with
  | O => None
  | S fuel =>
    if ip <=? stop then
      let next := free_nip_loop fuel t (u32 (ip + 1)) stop safe_mac in
      if Z.land ip 0xff =? 0 then next
      else if Z.land ip 0xff =? 0xff then next
      else match find_lease_by_nip t ip with
           | Some _ => next
           | None => if arp_check (htonl ip) safe_mac then Some (Some ip) else next
           end
    else Some None
  end.

Definition find_free_or_expired_nip (safe_mac : list Z) : srv Z :=
  let* s := get in
  let '(start, stop) := (start_ip (cfg s), end_ip (cfg s)) in
  let* found := slift (free_nip_loop (Z.to_nat (Z.max 0 (stop - start) + 2)) (tab s) start stop safe_mac) in
  match found with
  | Some ip => sret ip
  | None =>
    match last (lease_list (tab s)) with
    | None => sret 0
    | Some p =>
      let* expired := is_expired_lease p in
      let ip := lease_nip (lease_at (tab s) p) in
      if negb expired then sret 0
      else if negb (arp_check ip safe_mac) then sret 0
      else sret ip
    end
  end.

(** The type of the message, 0 when it is not for us. *)
Definition check_packet_type (fuel : nat) (packet : list Z) : option Z :=
  if negb (byte_at packet off_hlen =? ETH_ALEN) then Some 0
  else if negb (byte_at packet off_op =? BOOTREQUEST) then Some 0
  else
    match dhcp_get_option fuel packet DHCP_MESSAGE_TYPE with
    | OptHang => None
    | OptNull => Some 0
    | OptFound p =>
      let type := byte_at packet p in
      if type <? DHCP_MINTYPE then Some 0
      else if DHCP_MAXTYPE <? type then Some 0
      else Some type
    end.

(** [packet->field = client_packet->field] *)
Definition copy_field (off len : Z) (client_packet packet : list Z) : list Z :=
  put off (ztake len (zdrop off client_packet)) packet.

Definition init_packet (c : config) (client_packet : list Z) (type : Z) : option (list Z) :=
  match dhcp_init_header type with
  | None => None
  | Some packet =>
    let packet := copy_field off_xid 4 client_packet packet in
    let packet := copy_field off_chaddr 16 client_packet packet in
    let packet := copy_field off_flags 2 client_packet packet in
    let packet := copy_field off_gateway 4 client_packet packet in
    let packet := copy_field off_ciaddr 4 client_packet packet in
    dhcp_add_option_uint32 packet DHCP_SERVER_ID (server_nip c)
  end.

Definition G_DHCP_SUBNET : Z := 0x01.
Definition G_DHCP_ROUTER : Z := 0x03.
Definition G_DHCP_DNS_SERVER : Z := 0x06.

Definition known_option (code : Z) : bool :=
  (code =? G_DHCP_SUBNET) || (code =? G_DHCP_ROUTER) || (code =? G_DHCP_DNS_SERVER).

(** The callback of [g_hash_table_foreach]; null values cannot be stored. *)
Definition add_option (packet : option (list Z)) (kv : Z * list Z) : option (list Z) :=
  match packet with
  | None => None
  | Some packet =>
    if known_option (u8 (fst kv)) then
      match inet_aton (snd kv) with
      | None => Some packet
      | Some nip => dhcp_add_option_uint32 packet (u8 (fst kv)) (ntohl nip)
      end
    else Some packet
  end.

Definition add_server_options (c : config) (packet : list Z) : option (list Z) :=
  fold_left add_option (foreach_order (option_hash c)) (Some packet).

Definition check_requested_nip (requested_nip : Z) : srv bool :=
  let* s := get in
  if requested_nip =? 0 then sret false
  else if requested_nip <? start_ip (cfg s) then sret false
  else if end_ip (cfg s) <? requested_nip then sret false
  else
    match find_lease_by_nip (tab s) requested_nip with
    | None => sret true
    | Some p =>
      let* expired := is_expired_lease p in
      sret (if negb expired then false else true)
    end.

Definition send_packet_to_client (packet : list Z) : srv unit :=
  let* s := get in
  let '(ciaddr, chaddr) :=
    if negb (Z.land (get_le16 packet off_flags) (htons BROADCAST_FLAG) =? 0) ||
       (get_le32 packet off_ciaddr =? 0)
    then (INADDR_BROADCAST, MAC_BCAST_ADDR)
    else (get_le32 packet off_ciaddr, ztake ETH_ALEN (zdrop off_chaddr packet)) in
  dhcp_send_raw_packet (mkSent packet (server_nip (cfg s)) ciaddr chaddr).

Definition send_offer (client_packet : list Z) (lease : option nat) (requested_nip : Z) : srv unit :=
  let* s := get in
  let* packet := slift (init_packet (cfg s) client_packet DHCPOFFER) in
  let* yiaddr :=
    match lease with
    | Some p => sret (htonl (lease_nip (lease_at (tab s) p)))
    | None =>
      let* ok := check_requested_nip requested_nip in
      if ok then sret (htonl requested_nip)
      else let* ip := find_free_or_expired_nip (zdrop off_chaddr client_packet) in sret (htonl ip)
    end in
  let packet := put off_yiaddr (le_bytes32 yiaddr) packet in
  if yiaddr =? 0 then sret tt
  else
    let* lease := add_lease OFFER_TIME (zdrop off_chaddr packet) yiaddr in
    match lease with
    | None => sret tt
    | Some _ =>
      let* packet := slift (dhcp_add_option_uint32 packet DHCP_LEASE_TIME (lease_seconds (cfg s))) in
      let* packet := slift (add_server_options (cfg s) packet) in
      send_packet_to_client packet
    end.

Definition send_ACK (client_packet : list Z) (dest : Z) : srv unit :=
  let* s := get in
  let* packet := slift (init_packet (cfg s) client_packet DHCPACK) in
  let packet := put off_yiaddr (le_bytes32 (htonl dest)) packet in
  let* packet := slift (dhcp_add_option_uint32 packet DHCP_LEASE_TIME (lease_seconds (cfg s))) in
  let* packet := slift (add_server_options (cfg s) packet) in
  let* _ := send_packet_to_client packet in
  let* _ := add_lease 0 (zdrop off_chaddr packet) (get_le32 packet off_yiaddr) in
  sret tt.

Definition send_NAK (client_packet : list Z) : srv unit :=
  let* s := get in
  let* packet := slift (init_packet (cfg s) client_packet DHCPNAK) in
  dhcp_send_raw_packet (mkSent packet (server_nip (cfg s)) INADDR_BROADCAST MAC_BCAST_ADDR).

Definition send_inform (client_packet : list Z) : srv unit :=
  let* s := get in
  let* packet := slift (init_packet (cfg s) client_packet DHCPACK) in
  let* packet := slift (add_server_options (cfg s) packet) in
  send_packet_to_client packet.

(** The data of an option the server reads as a big-endian number. *)
Definition option_be32 (packet : list Z) (r : opt_res) : option Z :=
  match r with OptFound p => Some (get_be32 packet p) | _ => None end.

(** The body of [listener_event] once a packet has arrived. *)
Definition handle_packet (fuel : nat) (packet : list Z) : srv unit :=
  let* s := get in
  let* type := slift (check_packet_type fuel packet) in
  if type =? 0 then sret tt
  else
    let server_id_option := dhcp_get_option fuel packet DHCP_SERVER_ID in
    let* server_id := slift (match server_id_option with
                             | OptHang => None | r => Some (option_be32 packet r) end) in
    if (match server_id with Some nid => negb (nid =? server_nip (cfg s)) | None => false end)
    then sret tt
    else
      let request_ip_option := dhcp_get_option fuel packet DHCP_REQUESTED_IP in
      let* request_ip := slift (match request_ip_option with
                                | OptHang => None | r => Some (option_be32 packet r) end) in
      let requested_nip := default 0 request_ip in
      let lease := find_lease_by_mac (tab s) (zdrop off_chaddr packet) in
      let lease_ip := fun p => lease_nip (lease_at (tab s) p) in
      if type =? DHCPDISCOVER then send_offer packet lease requested_nip
      else if type =? DHCPREQUEST then
        let requested_nip := if requested_nip =? 0 then get_le32 packet off_ciaddr else requested_nip in
        if requested_nip =? 0 then sret tt
        else
          match lease with
          | Some p =>
            if requested_nip =? lease_ip p then send_ACK packet (lease_ip p)
            else match server_id with Some _ => send_NAK packet | None => sret tt end
          | None => send_NAK packet
          end
      else if type =? DHCPDECLINE then
        match server_id, request_ip, lease with
        | Some _, Some _, Some p =>
          if requested_nip =? lease_ip p then set_tab (remove_lease (tab s) p) else sret tt
        | _, _, _ => sret tt
        end
      else if type =? DHCPRELEASE then
        match server_id, lease with
        | Some _, Some p =>
          if get_le32 packet off_ciaddr =? lease_ip p then
            let* now := time in
            set_tab (lease_set_expire (tab s) p (u32 now))
          else sret tt
        | _, _ => sret tt
        end
      else if type =? DHCPINFORM then send_inform packet
      else sret tt.

Definition set_cfg (c : config) (s : server) : server := mkServer c (tab s) (en s).

Definition with_watch (w : Z) (c : config) : config :=
  mkConfig (ref_count c) (started c) (ifindex c) (start_ip c) (end_ip c) (server_nip c)
    (lease_seconds c) (listener_sockfd c) w (listener_channel c) (option_hash c) (save_lease_func c).

(** The watch callback: the conditions and what [read] gives.  The result
    tells GLib whether to keep the watch. *)
Definition listener_event (fuel : nat) (hangup : bool) (input : list Z + Z) : srv bool :=
  let* s := get in
  if hangup then fun s => Some (false, set_cfg (with_watch 0 (cfg s)) s)
  else
    let* re := slift (dhcp_recv_l3_packet fuel input) in
    let '(n, packet) := re in
    if n <? 0 then sret true
    else let* _ := handle_packet fuel packet in sret true.

(** ** Life of the server *)

Inductive server_error :=
| G_DHCP_SERVER_ERROR_NONE
| G_DHCP_SERVER_ERROR_INTERFACE_UNAVAILABLE
| G_DHCP_SERVER_ERROR_INTERFACE_IN_USE
| G_DHCP_SERVER_ERROR_INTERFACE_DOWN
| G_DHCP_SERVER_ERROR_NOMEM
| G_DHCP_SERVER_ERROR_INVALID_INDEX
| G_DHCP_SERVER_ERROR_INVALID_OPTION
| G_DHCP_SERVER_ERROR_IP_ADDRESS_INVALID.

Definition table0 : table := mkTable [] ∅ ∅ 0.

(** [has_name], [up] and [nip] are what [get_interface_name],
    [interface_is_up] and [get_interface_address] find out about the
    interface, [ok] is the allocator's answer. *)
Definition g_dhcp_server_new (index : Z) (ok has_name up : bool) (nip : Z) (e : env) :
    option server * server_error :=
  if index <? 0 then (None, G_DHCP_SERVER_ERROR_INVALID_INDEX)
  else if negb ok then (None, G_DHCP_SERVER_ERROR_NOMEM)
  else if negb has_name then (None, G_DHCP_SERVER_ERROR_INTERFACE_UNAVAILABLE)
  else if negb up then (None, G_DHCP_SERVER_ERROR_INTERFACE_DOWN)
  else if nip =? 0 then (None, G_DHCP_SERVER_ERROR_IP_ADDRESS_INVALID)
  else
    (Some (mkServer (mkConfig 1 false index 0 0 nip DEFAULT_DHCP_LEASE_SEC (-1) (2 ^ 32 - 1) false ∅ false)
             table0 e),
     G_DHCP_SERVER_ERROR_NONE).

(** The socket, whether a channel could be made, and the new watch. *)
Definition g_dhcp_server_start (sock : Z) (channel : bool) (watch : Z) (s : server) : Z * server :=
  let c := cfg s in
  if started c then (0, s)
  else if sock <? 0 then (- EIO, s)
  else if negb channel then (- EIO, s)
  else
    (0, set_cfg (mkConfig (ref_count c) true (ifindex c) (start_ip c) (end_ip c) (server_nip c)
                   (lease_seconds c) sock watch true (option_hash c) (save_lease_func c)) s).

(** [None] is a null option value. *)
Definition g_dhcp_server_set_option (code : Z) (value : option (list Z)) (s : server) : Z * server :=
  match value with
  | None => (- EINVAL, s)
  | Some v =>
    if known_option code then
      match inet_aton v with
      | None => (- ENXIO, s)
      | Some _ =>
        let c := cfg s in
        (0, set_cfg (mkConfig (ref_count c) (started c) (ifindex c) (start_ip c) (end_ip c)
                       (server_nip c) (lease_seconds c) (listener_sockfd c) (listener_watch c)
                       (listener_channel c) (<[code := v]> (option_hash c)) (save_lease_func c)) s)
      end
    else (- EINVAL, s)
  end.

Definition g_dhcp_server_set_save_lease (f : bool) (s : server) : server :=
  let c := cfg s in
  set_cfg (mkConfig (ref_count c) (started c) (ifindex c) (start_ip c) (end_ip c) (server_nip c)
             (lease_seconds c) (listener_sockfd c) (listener_watch c) (listener_channel c)
             (option_hash c) f) s.

Definition with_ref (n : Z) (s : server) : server :=
  let c := cfg s in
  set_cfg (mkConfig n (started c) (ifindex c) (start_ip c) (end_ip c) (server_nip c)
             (lease_seconds c) (listener_sockfd c) (listener_watch c) (listener_channel c)
             (option_hash c) (save_lease_func c)) s.

Definition g_dhcp_server_ref (s : server) : server := with_ref (i32 (ref_count (cfg s) + 1)) s.

Definition save_lease (s : server) : server :=
  if save_lease_func (cfg s) then
    let e := en s in
    set_env (mkEnv (tick e) (answers e) (sent e)
      (saved e ++ map (fun p => let l := lease_at (tab s) p in (lease_mac l, lease_nip l, expire l))
                    (lease_list (tab s)))) s
  else s.

(** [listener_watch] is unsigned: the initial value -1 is above 0. *)
Definition g_dhcp_server_stop (s : server) : server :=
  let s := save_lease s in
  let c := cfg s in
  set_cfg (mkConfig (ref_count c) false (ifindex c) (start_ip c) (end_ip c) (server_nip c)
             (lease_seconds c) (listener_sockfd c) (if 0 <? listener_watch c then 0 else listener_watch c)
             false (option_hash c) (save_lease_func c)) s.

(** [inr] is what is left when the server itself has been freed. *)
Definition g_dhcp_server_unref (s : server) : server + (table * env) :=
  let old := ref_count (cfg s) in
  let s := with_ref (i32 (old - 1)) s in
  if negb (old =? 1) then inl s
  else
    let s := g_dhcp_server_stop s in
    inr (destroy_lease_table (tab s), en s).

Definition g_dhcp_server_set_ip_range (start stop : list Z) (s : server) : Z * server :=
  let range (a b : Z) (s : server) :=
    let c := cfg s in
    set_cfg (mkConfig (ref_count c) (started c) (ifindex c) a b (server_nip c) (lease_seconds c)
               (listener_sockfd c) (listener_watch c) (listener_channel c) (option_hash c)
               (save_lease_func c)) s in
  match inet_aton start with
  | None => (- ENXIO, s)
  | Some a =>
    let s := range (ntohl a) (end_ip (cfg s)) s in
    match inet_aton stop with
    | None => (- ENXIO, s)
    | Some b => (0, range (start_ip (cfg s)) (ntohl b) s)
    end
  end.

Definition g_dhcp_server_set_lease_time (t : Z) (s : server) : server :=
  let c := cfg s in
  set_cfg (mkConfig (ref_count c) (started c) (ifindex c) (start_ip c) (end_ip c) (server_nip c)
             t (listener_sockfd c) (listener_watch c) (listener_channel c) (option_hash c)
             (save_lease_func c)) s.

End server.

(** ** The invariant of the lease table *)

(** The list and the hash hold exactly the allocated leases, the hash by
    address; no two leases have the same address (the hash is a function) or
    the same hardware address. *)
Record table_ok (t : table) : Prop := {
  ok_nodup : NoDup (lease_list t);
  ok_list p : p ∈ lease_list t <-> is_Some (leases t !! p);
  ok_hash ip p : nip_lease_hash t !! ip = Some p <-> exists l, leases t !! p = Some l /\ lease_nip l = ip;
  ok_mac p q l k : leases t !! p = Some l -> leases t !! q = Some k -> lease_mac l = lease_mac k -> p = q;
  ok_next p : is_Some (leases t !! p) -> (p < next_id t)%nat;
  ok_range p l : leases t !! p = Some l -> 0 <= lease_nip l < 2 ^ 32;
}.

(** Pointer [p] is allocated but in neither the list nor the hash, and no
    other lease has the address or hardware address it is going to get. *)
Record detached (t : table) (p : nat) (ip : Z) (mac : list Z) : Prop := {
  de_nodup : NoDup (lease_list t);
  de_list q : q ∈ lease_list t <-> q <> p /\ is_Some (leases t !! q);
  de_hash i q : nip_lease_hash t !! i = Some q <->
    q <> p /\ exists l, leases t !! q = Some l /\ lease_nip l = i;
  de_mac q r l k : q <> p -> r <> p -> leases t !! q = Some l -> leases t !! r = Some k ->
    lease_mac l = lease_mac k -> q = r;
  de_fresh q l : q <> p -> leases t !! q = Some l -> lease_nip l <> ip /\ lease_mac l <> mac;
  de_next q : is_Some (leases t !! q) -> (q < next_id t)%nat;
  de_live : is_Some (leases t !! p);
  de_range q l : q <> p -> leases t !! q = Some l -> 0 <= lease_nip l < 2 ^ 32;
}.

Lemma g_list_remove_nodup l p :
  NoDup l -> NoDup (g_list_remove l p) /\ (forall q, q ∈ g_list_remove l p <-> q ∈ l /\ q <> p).
Proof.
  induction 1 as [|x l Hx Hl [IH1 IH2]]; cbn [g_list_remove].
  - split; [constructor|]. intros q. set_solver.
  - case_decide as Hd; [subst|].
    + split; [done|]. intros q. set_solver.
    + split.
      * constructor; [|done]. rewrite IH2. tauto.
      * intros q. rewrite !elem_of_cons, IH2. set_solver.
Qed.

Lemma g_list_insert_perm cmp p l : g_list_insert_sorted cmp p l ≡ₚ p :: l.
Proof.
  induction l as [|q l IH]; cbn [g_list_insert_sorted]; [done|].
  destruct (0 <? cmp q); [|done]. rewrite IH. constructor.
Qed.

Lemma table0_ok : table_ok table0.
Proof.
  split; cbn.
  - constructor.
  - intros p. rewrite lookup_empty. split; [by intros ?%elem_of_nil | by intros [? ?]].
  - intros ip p. rewrite lookup_empty. split; [done | intros (l & Hl & _)]. by rewrite lookup_empty in Hl.
  - intros p q l k Hl. by rewrite lookup_empty in Hl.
  - intros p [? Hl]. by rewrite lookup_empty in Hl.
  - intros p l Hl. by rewrite lookup_empty in Hl.
Qed.

Lemma lease_at_some t p l : leases t !! p = Some l -> lease_at t p = l.
Proof. intros Hl. unfold lease_at. by rewrite Hl. Qed.

(** Finding by hardware address. *)
Lemma find_lease_by_mac_spec t mac :
  table_ok t ->
  match find_lease_by_mac t mac with
  | Some p => exists l, leases t !! p = Some l /\ lease_mac l = ztake ETH_ALEN mac
  | None => forall p l, leases t !! p = Some l -> lease_mac l <> ztake ETH_ALEN mac
  end.
Proof.
  intros Hok. unfold find_lease_by_mac. destruct (List.find _ _) as [p|] eqn:Hf.
  - apply List.find_some in Hf as [Hin Hm]. apply list_elem_of_In, (ok_list t Hok) in Hin as [l Hl].
    rewrite (lease_at_some _ _ _ Hl) in Hm. exists l. split; [done|]. by apply bool_decide_eq_true in Hm.
  - intros p l Hl Hm. assert (p ∈ lease_list t) as Hin by (apply (ok_list t Hok); eauto).
    apply list_elem_of_In in Hin. apply (List.find_none _ _ Hf) in Hin.
    rewrite (lease_at_some _ _ _ Hl) in Hin. by apply bool_decide_eq_false in Hin.
Qed.

Lemma remove_lease_ok t p : table_ok t -> is_Some (leases t !! p) -> table_ok (remove_lease t p).
Proof.
  intros Hok [l Hl]. unfold remove_lease. rewrite (lease_at_some _ _ _ Hl).
  destruct (g_list_remove_nodup _ p (ok_nodup t Hok)) as [Hnd Hin].
  assert (nip_lease_hash t !! lease_nip l = Some p) as Hh by (apply (ok_hash t Hok); eauto).
  split; cbn.
  - done.
  - intros q. rewrite Hin, (ok_list t Hok), lookup_delete_is_Some. naive_solver.
  - intros ip q. rewrite lookup_delete_Some, (ok_hash t Hok). split.
    + intros [Hne (k & Hk & <-)]. exists k. rewrite lookup_delete_Some. split_and!; [|done..].
      intros <-. congruence.
    + intros (k & Hk & Hip). apply lookup_delete_Some in Hk as [Hne Hk]. split; [|eauto].
      intros Heq. subst ip. assert (nip_lease_hash t !! lease_nip l = Some q) as Hq
        by (apply (ok_hash t Hok); eauto). congruence.
  - intros q r k k' [_ Hk]%lookup_delete_Some [_ Hk']%lookup_delete_Some. by apply (ok_mac t Hok).
  - intros q Hq. apply (ok_next t Hok). by apply lookup_delete_is_Some in Hq as [_ ?].
  - intros q k [_ Hk]%lookup_delete_Some. by apply (ok_range t Hok q).
Qed.

(** Taking a lease out of the list and the hash. *)
Lemma detach_ok t p l ip mac :
  table_ok t -> leases t !! p = Some l ->
  (forall q k, q <> p -> leases t !! q = Some k -> lease_nip k <> ip /\ lease_mac k <> mac) ->
  detached (hash_remove (lease_nip l) (set_list (g_list_remove (lease_list t) p) t)) p ip mac.
Proof.
  intros Hok Hl Hfresh. destruct (g_list_remove_nodup _ p (ok_nodup t Hok)) as [Hnd Hin].
  assert (nip_lease_hash t !! lease_nip l = Some p) as Hh by (apply (ok_hash t Hok); eauto).
  split; cbn.
  - done.
  - intros q. rewrite Hin, (ok_list t Hok). tauto.
  - intros i q. rewrite lookup_delete_Some, (ok_hash t Hok). split.
    + intros [Hne (k & Hk & <-)]. split; [|eauto]. intros ->. congruence.
    + intros [Hne (k & Hk & Hi)]. split; [|eauto]. intros Heq. subst i.
      assert (nip_lease_hash t !! lease_nip l = Some q) by (apply (ok_hash t Hok); eauto). congruence.
  - intros q r k k' _ _ Hk Hk'. by apply (ok_mac t Hok).
  - intros q k. apply Hfresh.
  - intros q. apply (ok_next t Hok).
  - eauto.
  - intros q k _. apply (ok_range t Hok).
Qed.

(** Putting it back, filled in. *)
Lemma fill_lease_ok t p l :
  detached t p (lease_nip l) (lease_mac l) -> 0 <= lease_nip l < 2 ^ 32 -> table_ok (fill_lease t p l).
Proof.
  intros Hde Hrg. unfold fill_lease. set (t1 := lease_put p l t).
  pose proof (fun cmp => g_list_insert_perm cmp p (lease_list t)) as Hperm.
  assert (p ∉ lease_list t) as Hp by (rewrite (de_list _ _ _ _ Hde); tauto).
  split; cbn.
  - rewrite Hperm. constructor; [done | apply (de_nodup _ _ _ _ Hde)].
  - intros q. rewrite Hperm, elem_of_cons, (de_list _ _ _ _ Hde).
    destruct (decide (q = p)) as [->|Hne]; [rewrite lookup_insert_eq; split; eauto|].
    rewrite lookup_insert_ne by done. tauto.
  - intros i q. destruct (decide (i = lease_nip l)) as [->|Hi].
    + rewrite lookup_insert_eq. split.
      * intros [= <-]. exists l. by rewrite lookup_insert_eq.
      * intros (k & Hk & Hik). destruct (decide (q = p)) as [->|Hne]; [done|].
        rewrite lookup_insert_ne in Hk by done. by apply (de_fresh _ _ _ _ Hde) in Hk as [? _].
    + rewrite lookup_insert_ne by done. rewrite (de_hash _ _ _ _ Hde). split.
      * intros [Hne (k & Hk & Hik)]. exists k. by rewrite lookup_insert_ne.
      * intros (k & Hk & Hik). destruct (decide (q = p)) as [->|Hne].
        -- rewrite lookup_insert_eq in Hk. congruence.
        -- rewrite lookup_insert_ne in Hk by done. split; [done|eauto].
  - intros q r k k' Hk Hk' Hm.
    destruct (decide (q = p)) as [->|Hq], (decide (r = p)) as [->|Hr]; [done|..].
    + rewrite lookup_insert_eq in Hk. rewrite lookup_insert_ne in Hk' by done.
      apply (de_fresh _ _ _ _ Hde) in Hk' as [_ ?]; [congruence|done].
    + rewrite lookup_insert_eq in Hk'. rewrite lookup_insert_ne in Hk by done.
      apply (de_fresh _ _ _ _ Hde) in Hk as [_ ?]; [congruence|done].
    + rewrite lookup_insert_ne in Hk, Hk' by done. by apply (de_mac _ _ _ _ Hde q r k k').
  - intros q. destruct (decide (q = p)) as [->|Hne].
    + intros _. apply (de_next _ _ _ _ Hde), (de_live _ _ _ _ Hde).
    + rewrite lookup_insert_ne by done. apply (de_next _ _ _ _ Hde).
  - intros q k. destruct (decide (q = p)) as [->|Hne].
    + rewrite lookup_insert_eq. by intros [= <-].
    + rewrite lookup_insert_ne by done. by apply (de_range _ _ _ _ Hde).
Qed.

Lemma g_list_remove_comm l p q :
  g_list_remove (g_list_remove l p) q = g_list_remove (g_list_remove l q) p.
Proof.
  induction l as [|x l IH]; [done|]. cbn [g_list_remove].
  repeat (case_decide; cbn [g_list_remove]); congruence.
Qed.

Lemma hash_lease t ip p : table_ok t -> nip_lease_hash t !! ip = Some p ->
  exists l, leases t !! p = Some l /\ lease_nip l = ip.
Proof. intros Hok. apply (ok_hash t Hok). Qed.

Lemma hash_other t ip p q l :
  table_ok t -> nip_lease_hash t !! ip = Some p -> q <> p -> leases t !! q = Some l -> lease_nip l <> ip.
Proof.
  intros Hok Hp Hne Hl Hip. assert (nip_lease_hash t !! ip = Some q) by (apply (ok_hash t Hok); eauto).
  congruence.
Qed.

Lemma remove_then_detach t p m ip :
  m <> p -> remove_lease (hash_remove ip (set_list (g_list_remove (lease_list t) p) t)) m =
    let t2 := remove_lease t m in
    hash_remove ip (set_list (g_list_remove (lease_list t2) p) t2).
Proof.
  intros Hne. unfold remove_lease, hash_remove, set_list, lease_free, lease_at; cbn.
  by rewrite g_list_remove_comm, delete_delete.
Qed.

Lemma lease_new_ok t ip mac :
  table_ok t -> (forall q k, leases t !! q = Some k -> lease_nip k <> ip /\ lease_mac k <> mac) ->
  detached (snd (lease_new t)) (fst (lease_new t)) ip mac.
Proof.
  intros Hok Hfresh. cbn.
  assert (leases t !! next_id t = None) as Hnone.
  { destruct (leases t !! next_id t) eqn:E; [|done].
    assert (next_id t < next_id t)%nat by (apply (ok_next t Hok); eauto). lia. }
  assert (forall q, q <> next_id t -> <[next_id t := mkLease 0 0 (replicate 6 0)]> (leases t) !! q = leases t !! q) as Hne
    by (intros; by rewrite lookup_insert_ne).
  split; cbn.
  - apply (ok_nodup t Hok).
  - intros q. rewrite (ok_list t Hok). destruct (decide (q = next_id t)) as [->|Hq].
    + rewrite Hnone. split; [by intros [? ?]|tauto].
    + rewrite Hne by done. tauto.
  - intros i q. rewrite (ok_hash t Hok). destruct (decide (q = next_id t)) as [->|Hq].
    + rewrite Hnone. split; [by intros (? & ? & ?)|tauto].
    + rewrite Hne by done. tauto.
  - intros q r l k Hq Hr. rewrite !Hne by done. apply (ok_mac t Hok).
  - intros q l Hq. rewrite Hne by done. apply Hfresh.
  - intros q. destruct (decide (q = next_id t)) as [->|Hq]; [lia|].
    rewrite Hne by done. intros Hs%(ok_next t Hok). lia.
  - rewrite lookup_insert_eq. eauto.
  - intros q l Hq. rewrite Hne by done. apply (ok_range t Hok).
Qed.

Lemma get_lease_ok t start stop ok yiaddr mac :
  table_ok t ->
  let '(r, lease, t', used) := get_lease t start stop ok yiaddr mac in
  match lease with
  | Some p => r = 0 /\ detached t' p (ntohl yiaddr) (ztake ETH_ALEN mac) /\
              start <= ntohl yiaddr <= stop
  | None => r <> 0 /\ t' = t
  end.
Proof.
  intros Hok. unfold get_lease.
  destruct (yiaddr =? 0); [done|].
  destruct (Z.ltb_spec (ntohl yiaddr) start); [done|]. destruct (Z.ltb_spec stop (ntohl yiaddr)); [done|].
  destruct (decide _) as [?|_]; [done|]. destruct (decide _) as [?|_]; [done|]. cbv zeta.
  set (ip := ntohl yiaddr) in *. set (mc := ztake ETH_ALEN mac).
  pose proof (find_lease_by_mac_spec t mac Hok) as Hmac. fold mc in Hmac.
  assert (forall m l, leases t !! m = Some l -> lease_mac l = mc ->
    forall q k, q <> m -> leases t !! q = Some k -> lease_mac k <> mc) as Hother.
  { intros m l Hm Hlm q k Hne Hk Hkm. apply Hne. apply (ok_mac t Hok q m k l); congruence. }
  destruct (nip_lease_hash t !! ip) as [n|] eqn:Hn.
  - destruct (hash_lease _ _ _ Hok Hn) as (ln & Hln & Hip).
    pose proof (fun q l => hash_other t ip n q l Hok Hn) as Hnip.
    destruct (find_lease_by_mac t mac) as [m|].
    + destruct Hmac as (lm & Hlm & Hm). destruct (decide (n = m)) as [->|Hne].
      * split_and!; try done. rewrite <- Hip. apply detach_ok; [done..|].
        intros q k Hq Hk. rewrite Hip. split; [exact (Hnip q k Hq Hk)|exact (Hother _ lm Hlm Hm q k Hq Hk)].
      * split_and!; try done. rewrite remove_then_detach by done. cbv zeta.
        assert (table_ok (remove_lease t m)) as Hok2 by (apply remove_lease_ok; [done|eauto]).
        assert (leases (remove_lease t m) !! n = Some ln) as Hln2 by (cbn; by rewrite lookup_delete_ne).
        rewrite <- Hip. apply detach_ok; [done..|]. rewrite Hip.
        intros q k Hq Hk. cbn in Hk. apply lookup_delete_Some in Hk as [Hqm Hk].
        split; [exact (Hnip q k Hq Hk)|].
        apply (Hother m lm Hlm Hm q k); [congruence|done].
    + split_and!; try done. rewrite <- Hip. apply detach_ok; [done..|].
      intros q k Hq Hk. rewrite Hip. split; [exact (Hnip q k Hq Hk)|exact (Hmac q k Hk)].
  - assert (forall q k, leases t !! q = Some k -> lease_nip k <> ip) as Hnip.
    { intros q k Hk Hkip. assert (nip_lease_hash t !! ip = Some q) by (apply (ok_hash t Hok); eauto). congruence. }
    destruct (find_lease_by_mac t mac) as [m|].
    + destruct Hmac as (lm & Hlm & Hm). split_and!; try done.
      change (lease_at (set_list _ t) m) with (lease_at t m). rewrite (lease_at_some _ _ _ Hlm).
      apply detach_ok; [done..|]. intros q k Hq Hk. split; [exact (Hnip q k Hk)|exact (Hother _ lm Hlm Hm q k Hq Hk)].
    + destruct ok; [|done]. cbn [lease_new]. split_and!; try done.
      apply (lease_new_ok t ip mc Hok). intros q k Hk. split; [exact (Hnip q k Hk)|exact (Hmac q k Hk)].
Qed.

Lemma lease_set_expire_ok t p e : table_ok t -> is_Some (leases t !! p) -> table_ok (lease_set_expire t p e).
Proof.
  intros Hok [l Hl]. unfold lease_set_expire. cbv zeta.
  change (lease_at (set_list _ t) p) with (lease_at t p). rewrite (lease_at_some _ _ _ Hl).
  set (l' := mkLease e (lease_nip l) (lease_mac l)).
  destruct (g_list_remove_nodup _ p (ok_nodup t Hok)) as [Hnd Hin].
  pose proof (fun cmp => g_list_insert_perm cmp p (g_list_remove (lease_list t) p)) as Hperm.
  assert (p ∈ lease_list t) as Hp by (apply (ok_list t Hok); eauto).
  assert (forall q k, <[p := l']> (leases t) !! q = Some k ->
    exists k0, leases t !! q = Some k0 /\ lease_nip k0 = lease_nip k /\ lease_mac k0 = lease_mac k) as Hput.
  { intros q k. destruct (decide (q = p)) as [->|Hne].
    - rewrite lookup_insert_eq. intros [= <-]. by exists l.
    - rewrite lookup_insert_ne by done. eauto. }
  assert (forall q k0, leases t !! q = Some k0 -> exists k, <[p := l']> (leases t) !! q = Some k /\
    lease_nip k = lease_nip k0) as Hget.
  { intros q k0 Hk. destruct (decide (q = p)) as [->|Hne].
    - rewrite lookup_insert_eq. exists l'. split; [done|]. by rewrite Hl in Hk; simplify_eq.
    - rewrite lookup_insert_ne by done. eauto. }
  split; cbn.
  - rewrite Hperm. constructor; [rewrite Hin; tauto|done].
  - intros q. rewrite Hperm, elem_of_cons, Hin, (ok_list t Hok). split.
    + intros [->|[[k Hk] _]]; [by rewrite lookup_insert_eq; eauto|].
      destruct (Hget q k Hk) as (k' & -> & _). eauto.
    + intros [k Hk]. destruct (Hput q k Hk) as (k0 & Hk0 & _). destruct (decide (q = p)); [by left|right; eauto].
  - intros i q. rewrite (ok_hash t Hok). split.
    + intros (k & Hk & <-). by destruct (Hget q k Hk) as (k' & ? & ?); eauto.
    + intros (k & Hk & <-). destruct (Hput q k Hk) as (k0 & ? & ? & _). eauto.
  - intros q r k k' Hk Hk' Hm. destruct (Hput q k Hk) as (k0 & ? & _ & ?), (Hput r k' Hk') as (k1 & ? & _ & ?).
    apply (ok_mac t Hok q r k0 k1); congruence.
  - intros q [k Hk]. destruct (Hput q k Hk) as (k0 & ? & _). apply (ok_next t Hok). eauto.
  - intros q k Hk. destruct (Hput q k Hk) as (k0 & ? & <- & _). by apply (ok_range t Hok q).
Qed.
