(* ===== verification/DhcpHandlers.v ===== *)
(** * What the DHCP server does with a packet.

    The packets the server builds, and the properties of the handlers of
    [DhcpServer.v]: the lease table stays consistent, and every address sent out
    belongs to the client it is sent to. *)

From stdpp Require Import gmap.
From S2P Require Import Prelude StateFail CLib Bytes DhcpCommon DhcpServer.

(** ** Packets the server builds *)

(** A reply: message type and server id first, and only ordinary options. *)
Definition reply (type sid : Z) (packet : list Z) : Prop :=
  exists os, has_opts packet (mtype_opt type :: Opt DHCP_SERVER_ID (put_be32 sid) :: os) /\
    Forall dopt_ok os /\ no_overload os /\ Forall byte_ok packet.

Definition u32_codes : list Z := [0x01; 0x03; 0x06; 0x33; 0x36].

Lemma u32_opt_ok code v :
  In code u32_codes -> dopt_ok (Opt code (put_be32 v)) /\ code <> DHCP_OPTION_OVERLOAD.
Proof.
  cbn. intros [<-|[<-|[<-|[<-|[<-|[]]]]]]; (split; [|done]); (split; [lia|]); split; try done; apply le_bytes32_ok.
Qed.

Lemma mtype_ok type : 0 <= type < 256 -> dopt_ok (mtype_opt type).
Proof. intros. split; [done|]. split; [done|]. constructor; [done|constructor]. Qed.

Lemma reply_add type sid packet code v :
  0 <= type < 256 -> reply type sid packet -> In code u32_codes ->
  exists packet', dhcp_add_option_uint32 packet code v = Some packet' /\
    reply type sid packet' /\ header packet' = header packet.
Proof.
  intros Ht (os & Hp & Hos & Hno & Hb) Hc. destruct (u32_opt_ok code v Hc) as [Hok Hov].
  assert (In DHCP_SERVER_ID u32_codes) as Hsid by (cbn; tauto).
  assert (Forall dopt_ok (mtype_opt type :: Opt DHCP_SERVER_ID (put_be32 sid) :: os)) as Hall.
  { constructor; [by apply mtype_ok|]. constructor; [by apply u32_opt_ok|done]. }
  destruct (add_uint32_spec packet _ code v Hp Hall Hc) as (p' & Hadd & Hh & Hbp & Hopts).
  exists p'. split_and!; [done| |done]. destruct (_ <? _).
  - exists (os ++ [Opt code (put_be32 v)]). split_and!; [exact Hopts|..|by apply Hbp].
    + apply Forall_app. split; [done|]. constructor; [done|constructor].
    + apply no_overload_app. split; [done|]. constructor; [done|constructor].
  - subst p'. by exists os.
Qed.

Lemma reply_len type sid packet : reply type sid packet -> zlen packet = sizeof_packet.
Proof. by intros (os & [? _] & _). Qed.

Lemma reply_put type sid packet off bytes :
  reply type sid packet -> 0 <= off -> off + zlen bytes <= off_options -> Forall byte_ok bytes ->
  reply type sid (put off bytes packet).
Proof.
  intros (os & Hp & Hos & Hno & Hb) Ho Hl Hby. exists os. split_and!; [|done..|by apply put_ok].
  by apply has_opts_put.
Qed.

(** What the client reads from a reply. *)
Lemma reply_type type sid packet fuel :
  0 <= type < 256 -> reply type sid packet -> (388 <= fuel)%nat ->
  found_data packet (dhcp_get_option fuel packet DHCP_MESSAGE_TYPE) = Some [type].
Proof.
  intros Ht (os & Hp & Hos & Hno & Hb) Hf.
  destruct (get_option_spec packet DHCP_MESSAGE_TYPE _ fuel Hp) as [_ ->]; try done.
  - constructor; [by apply mtype_ok|]. constructor; [apply u32_opt_ok; cbn; tauto|done].
  - by repeat constructor.
Qed.

Lemma field_len off len packet : 0 <= off -> 0 <= len -> off + len <= zlen packet -> zlen (field_at off len packet) = len.
Proof. intros. unfold field_at. zlia. Qed.

Lemma field_ok off len packet : Forall byte_ok packet -> Forall byte_ok (field_at off len packet).
Proof. intros. unfold field_at, ztake, zdrop. by apply Forall_take, Forall_drop. Qed.

Lemma init_packet_spec c client type :
  packet_ok client -> 0 <= type < 256 ->
  exists packet, init_packet c client type = Some packet /\ reply type (server_nip c) packet /\
    field_at off_chaddr 16 packet = field_at off_chaddr 16 client /\
    field_at off_yiaddr 4 packet = [0; 0; 0; 0].
Proof.
  intros Hc Ht. unfold init_packet. destruct (init_header_spec type Ht) as (p0 & -> & Hp0 & Hb0 & Hy0).
  (* before the server id, the packet is not a [reply] yet; go through its options *)
  assert (forall off len p, has_opts p [mtype_opt type] -> Forall byte_ok p -> 0 <= off -> 0 <= len ->
    off + len <= off_options ->
    has_opts (copy_field off len client p) [mtype_opt type] /\ Forall byte_ok (copy_field off len client p) /\
    field_at off len (copy_field off len client p) = field_at off len client /\
    (forall off' len', 0 <= off' -> 0 <= len' -> off' + len' <= off \/ off + len <= off' ->
       field_at off' len' (copy_field off len client p) = field_at off' len' p)) as Hcopy.
  { intros off len p Hp Hb Ho Hn Hlt. destruct Hc as [Hl Hbc]. pose proof Hp as [Hpl _].
    unfold sizeof_packet, off_options in *.
    assert (zlen (field_at off len client) = len) as Hfl by (apply field_len; lia).
    unfold copy_field. fold (field_at off len client). split_and!.
    - apply has_opts_put; [done..|unfold off_options; lia].
    - apply put_ok; [by apply field_ok|done].
    - rewrite <- Hfl at 1. apply field_put_same; lia.
    - intros off' len' Ho' Hl' Hd. apply field_put_other; lia. }
  destruct (Hcopy off_xid 4 p0) as (H1 & B1 & _ & O1); [done..|].
  set (p1 := copy_field off_xid 4 client p0) in *.
  destruct (Hcopy off_chaddr 16 p1) as (H2 & B2 & F2 & O2); [done..|].
  set (p2 := copy_field off_chaddr 16 client p1) in *.
  destruct (Hcopy off_flags 2 p2) as (H3 & B3 & _ & O3); [done..|].
  set (p3 := copy_field off_flags 2 client p2) in *.
  destruct (Hcopy off_gateway 4 p3) as (H4 & B4 & _ & O4); [done..|].
  set (p4 := copy_field off_gateway 4 client p3) in *.
  destruct (Hcopy off_ciaddr 4 p4) as (H5 & B5 & _ & O5); [done..|].
  set (p5 := copy_field off_ciaddr 4 client p4) in *. cbn zeta.
  destruct (add_uint32_spec p5 [mtype_opt type] DHCP_SERVER_ID (server_nip c) H5) as (p' & Hadd & Hh & Hbp & Hopts).
  - constructor; [by apply mtype_ok|constructor].
  - cbn; tauto.
  - exists p'. split_and!; [done| | |].
    + exists []. split_and!; [exact Hopts|constructor|constructor|by apply Hbp].
    + rewrite (field_header _ _ p' p5) by done.
      rewrite O5, O4, O3 by (unfold off_chaddr, off_ciaddr, off_gateway, off_flags; lia). exact F2.
    + rewrite (field_header _ _ p' p5) by done.
      rewrite O5, O4, O3, O2, O1 by (unfold off_yiaddr, off_xid, off_chaddr, off_ciaddr, off_gateway, off_flags; lia).
      exact Hy0.
Qed.

(** The hardware address handed to the lease functions. *)
Lemma mac_of_field p q :
  field_at off_chaddr 16 p = field_at off_chaddr 16 q ->
  ztake ETH_ALEN (zdrop off_chaddr p) = ztake ETH_ALEN (zdrop off_chaddr q).
Proof.
  unfold field_at. intros H. apply (f_equal (ztake ETH_ALEN)) in H. by rewrite !ztake_ztake in H.
Qed.

(** ** The steps *)

Section handlers.
Context (clock : nat -> Z) (inet_aton : list Z -> option Z).
Context (foreach_order : gmap Z (list Z) -> list (Z * list Z)).

Lemma add_server_options_spec type c packet :
  0 <= type < 256 -> reply type (server_nip c) packet ->
  exists packet', add_server_options inet_aton foreach_order c packet = Some packet' /\
    reply type (server_nip c) packet' /\ header packet' = header packet.
Proof.
  intros Ht. unfold add_server_options. generalize (foreach_order (option_hash c)) as kvs.
  intros kvs; revert packet; induction kvs as [|[k v] kvs IH]; intros packet Hr; cbn [fold_left].
  - by exists packet.
  - cbn [add_option fst snd]. destruct (known_option (u8 k)) eqn:Hk; [|by apply IH].
    destruct (inet_aton v) as [nip|]; [|by apply IH].
    assert (In (u8 k) u32_codes) as Hc.
    { unfold known_option in Hk. apply orb_true_iff in Hk as [[Hk|Hk]%orb_true_iff|Hk];
        apply Z.eqb_eq in Hk; rewrite Hk; cbn; tauto. }
    destruct (reply_add type _ packet (u8 k) (ntohl nip) Ht Hr Hc) as (p1 & -> & Hr1 & Hh1).
    destruct (IH p1 Hr1) as (p2 & -> & Hr2 & Hh2). exists p2. split_and!; [done..|]. by rewrite Hh2.
Qed.

(** Only the environment changes, and nothing is sent. *)
Definition quiet (s s' : server) : Prop :=
  cfg s' = cfg s /\ tab s' = tab s /\ sent (en s') = sent (en s) /\ (tick (en s) <= tick (en s'))%nat.

Lemma quiet_refl s : quiet s s.
Proof. by repeat split. Qed.

Lemma swp_time F (Q : Z -> server -> Prop) s :
  (forall s', quiet s s' -> tick (en s') = S (tick (en s)) -> Q (clock (tick (en s))) s') ->
  swp F (time clock) Q s.
Proof. intros HQ. apply HQ; [|done]. by repeat split; cbn; try lia. Qed.

(** A lease found expired was so at one of the readings of the clock. *)
Definition expired_between (s s' : server) (e : Z) : Prop :=
  exists i, (tick (en s) <= i < tick (en s'))%nat /\ e < clock i.

Lemma swp_is_expired F p s (Q : bool -> server -> Prop) :
  (forall b s', quiet s s' -> (b = true -> expired_between s s' (expire (lease_at (tab s) p))) -> Q b s') ->
  swp F (is_expired_lease clock p) Q s.
Proof.
  intros HQ. unfold is_expired_lease. apply swp_bind, swp_get, swp_bind, swp_time.
  intros s' Hq Ht. apply swp_ret, HQ; [done|]. intros Hlt%Z.ltb_lt. exists (tick (en s)). split; [lia|done].
Qed.

Lemma add_lease_spec F ex ch yi s (Q : option nat -> server -> Prop) :
  table_ok (tab s) ->
  (forall s', quiet s s' -> Q None s') ->
  (forall p s', cfg s' = cfg s -> sent (en s') = sent (en s) -> (tick (en s) <= tick (en s'))%nat ->
     table_ok (tab s') -> start_ip (cfg s) <= ntohl yi <= end_ip (cfg s) ->
     nip_lease_hash (tab s') !! ntohl yi = Some p ->
     lease_mac (lease_at (tab s') p) = ztake ETH_ALEN ch ->
     (ex <> 0 -> expire (lease_at (tab s') p) = ex) ->
     Q (Some p) s') ->
  swp F (add_lease clock ex ch yi) Q s.
Proof.
  intros Hok Hnone Hsome. unfold add_lease. apply swp_bind, swp_get.
  pose proof (get_lease_ok (tab s) (start_ip (cfg s)) (end_ip (cfg s)) (next_answer s) yi ch Hok) as Hg.
  destruct (get_lease _ _ _ _ _ _) as [[[r lease] t] used]. apply swp_bind.
  unfold use_answer, swp at 1. apply swp_bind. unfold set_tab at 1, swp at 1; cbn [cfg tab en set_env].
  destruct lease as [p|].
  2: { destruct Hg as [_ ->]. apply swp_ret, Hnone. by repeat split. }
  destruct Hg as (_ & Hde & Hrange).
  set (s1 := mkServer (cfg s) t _).
  assert (forall e s2, quiet s1 s2 -> (ex <> 0 -> e = ex) ->
    swp F (let* _ := set_tab (fill_lease t p (mkLease e (ntohl yi) (ztake ETH_ALEN ch))) in sret (Some p)) Q s2) as Hfin.
  { intros e s2 (Hc & Ht & Hsent & Htick) He. apply swp_bind. unfold set_tab, swp at 1. apply swp_ret.
    set (l := mkLease e (ntohl yi) (ztake ETH_ALEN ch)).
    pose proof (fill_lease_ok t p l Hde (bswap_32_range yi)) as Hfill.
    assert (lease_at (fill_lease t p l) p = l) as Hat.
    { apply lease_at_some. cbn. by rewrite lookup_insert_eq. }
    apply Hsome; cbn [cfg tab en].
    - by rewrite Hc.
    - by rewrite Hsent.
    - exact Htick.
    - done.
    - done.
    - cbn. by rewrite lookup_insert_eq.
    - by rewrite Hat.
    - intros Hne. rewrite Hat. by apply He. }
  apply swp_bind. destruct (Z.eqb_spec ex 0) as [->|Hne].
  - apply swp_bind, swp_time. intros s2 Hq _. apply swp_ret. by apply Hfin.
  - apply swp_ret. apply Hfin; [apply quiet_refl|done].
Qed.

(** *** Choosing an address *)

(** The address may be given to the client with hardware address [mac]: it is
    free, or the client's own, or its lease has run out. *)
Definition available (s s' : server) (mac : list Z) (ip : Z) : Prop :=
  forall q, nip_lease_hash (tab s) !! ip = Some q ->
    lease_mac (lease_at (tab s) q) = mac \/ expired_between s s' (expire (lease_at (tab s) q)).

Lemma available_later s s' s'' mac ip :
  available s s' mac ip -> (tick (en s') <= tick (en s''))%nat -> available s s'' mac ip.
Proof.
  intros Ha Ht q Hq. destruct (Ha q Hq) as [?|(i & Hi & He)]; [by left|right]. exists i. split; [lia|done].
Qed.

Lemma check_requested_spec F ip mac s (Q : bool -> server -> Prop) :
  (forall b s', quiet s s' -> (b = true -> ip <> 0 /\ available s s' mac ip) -> Q b s') ->
  swp F (check_requested_nip clock ip) Q s.
Proof.
  intros HQ. unfold check_requested_nip. apply swp_bind, swp_get.
  destruct (Z.eqb_spec ip 0); [by apply swp_ret, HQ; [apply quiet_refl|]|].
  destruct (_ <? _); [by apply swp_ret, HQ; [apply quiet_refl|]|].
  destruct (_ <? _); [by apply swp_ret, HQ; [apply quiet_refl|]|].
  unfold find_lease_by_nip. destruct (nip_lease_hash (tab s) !! ip) as [p|] eqn:Hp.
  - apply swp_bind, swp_is_expired. intros b s' Hq Hb. apply swp_ret, HQ; [done|].
    intros Hbt. split; [done|]. intros q Hq'. rewrite Hp in Hq'. simplify_eq. right. apply Hb. by destruct b.
  - apply swp_ret, HQ; [apply quiet_refl|]. intros _. split; [done|]. intros q Hq'. congruence.
Qed.

Lemma free_nip_loop_spec fuel t ip stop mac r :
  free_nip_loop fuel t ip stop mac = Some r ->
  0 <= ip -> match r with Some a => 0 <= a <= stop /\ nip_lease_hash t !! a = None | None => True end.
Proof.
  intros Hr Hip; revert ip Hip Hr; induction fuel as [|fuel IH]; intros ip Hip; cbn [free_nip_loop]; [done|].
  specialize (IH (u32 (ip + 1)) ltac:(apply Z.mod_pos_bound; lia)).
  destruct (Z.leb_spec ip stop); [|by intros; simplify_eq].
  destruct (_ =? 0); [apply IH|]. destruct (_ =? 0xff); [apply IH|].
  unfold find_lease_by_nip. destruct (nip_lease_hash t !! ip) eqn:Hf; [apply IH|].
  cbn [arp_check]. by intros; simplify_eq.
Qed.

(** The loop ends when the counter cannot wrap. *)
Lemma free_nip_loop_ends fuel t ip stop mac :
  0 <= ip -> stop < 2 ^ 32 - 1 -> Z.max 0 (stop - ip) + 2 <= Z.of_nat fuel ->
  free_nip_loop fuel t ip stop mac <> None.
Proof.
  revert ip; induction fuel as [|fuel IH]; intros ip Hip Hs Hf; [lia|]. cbn [free_nip_loop].
  destruct (Z.leb_spec ip stop); [|done].
  assert (free_nip_loop fuel t (u32 (ip + 1)) stop mac <> None) as Hn.
  { assert (u32 (ip + 1) = ip + 1) as -> by (apply Z.mod_small; lia).
    destruct (decide (ip = stop)) as [->|]; [|apply IH; lia].
    destruct fuel as [|fuel]; [lia|]. cbn [free_nip_loop]. by rewrite (proj2 (Z.leb_gt _ _)) by lia. }
  destruct (_ =? 0); [done|]. destruct (_ =? 0xff); [done|]. by destruct (find_lease_by_nip t ip).
Qed.

Lemma last_In {A} (l : list A) x : last l = Some x -> x ∈ l.
Proof. intros H. apply last_Some in H as [k ->]. set_solver. Qed.

Definition cfg_ok (c : config) : Prop := 0 <= start_ip c /\ end_ip c < 2 ^ 32.

Lemma find_free_spec (F : Prop) ch mac s (Q : Z -> server -> Prop) :
  table_ok (tab s) -> cfg_ok (cfg s) -> F \/ end_ip (cfg s) < 2 ^ 32 - 1 ->
  (forall ip s', quiet s s' -> 0 <= ip < 2 ^ 32 -> available s s' mac ip -> Q ip s') ->
  (forall s', quiet s s' -> Q 0 s') ->
  swp F (find_free_or_expired_nip clock ch) Q s.
Proof.
  intros Hok [Hst Hend] HF HQ HQ0. unfold find_free_or_expired_nip. apply swp_bind, swp_get.
  apply swp_bind, swp_lift.
  2: { intros Hnone. destruct HF as [?|Hlt]; [done|]. exfalso. revert Hnone. apply free_nip_loop_ends; lia. }
  intros [ip|] Hf; apply free_nip_loop_spec in Hf; try done.
  - apply swp_ret, HQ; [apply quiet_refl|lia|]. intros q Hq. destruct Hf as [_ Hf]. congruence.
  - destruct (last (lease_list (tab s))) as [p|] eqn:Hl; [|by apply swp_ret, HQ0, quiet_refl].
    apply last_In, (ok_list _ Hok) in Hl as [l Hp].
    apply swp_bind, swp_is_expired. intros b s' Hq Hb. destruct b; cbn [negb arp_check]; apply swp_ret; [|by apply HQ0].
    rewrite (lease_at_some _ _ _ Hp). apply HQ; [done|by apply (ok_range _ Hok p)|]. intros q Hqh. right.
    assert (nip_lease_hash (tab s) !! lease_nip l = Some p) as Hph by (apply (ok_hash _ Hok); eauto).
    rewrite Hph in Hqh. simplify_eq. by apply Hb.
Qed.

(** *** Sending *)

(** The client's hardware address. *)
Definition client_mac (packet : list Z) : list Z := ztake ETH_ALEN (zdrop off_chaddr packet).

Definition yiaddr_of (packet : list Z) : Z := ntohl (get_le32 packet off_yiaddr).

(** The table gives [ip] to [mac]. *)
Definition assigned (s : server) (mac : list Z) (ip : Z) : Prop :=
  exists q, nip_lease_hash (tab s) !! ip = Some q /\ lease_mac (lease_at (tab s) q) = mac.

Definition step_ok (s s' : server) : Prop :=
  table_ok (tab s') /\ cfg s' = cfg s /\ (tick (en s) <= tick (en s'))%nat.

Lemma quiet_step s s' : table_ok (tab s) -> quiet s s' -> step_ok s s'.
Proof. intros Hok (? & Ht & _ & ?). split_and!; [by rewrite Ht|done..]. Qed.

(** What a sent packet says about the table: an offer or an acknowledgement
    with an address names an address in the range that the table has given to
    the client, and that was available to it before. *)
Inductive answer_ok (s s' : server) (client : list Z) (p : sent_packet) : Prop :=
| answer_offer :
    reply DHCPOFFER (server_nip (cfg s)) (p_data p) ->
    start_ip (cfg s) <= yiaddr_of (p_data p) <= end_ip (cfg s) ->
    assigned s' (client_mac client) (yiaddr_of (p_data p)) ->
    available s s' (client_mac client) (yiaddr_of (p_data p)) ->
    answer_ok s s' client p
| answer_ack :
    reply DHCPACK (server_nip (cfg s)) (p_data p) ->
    assigned s (client_mac client) (yiaddr_of (p_data p)) ->
    assigned s' (client_mac client) (yiaddr_of (p_data p)) ->
    answer_ok s s' client p
| answer_nak :
    reply DHCPNAK (server_nip (cfg s)) (p_data p) -> yiaddr_of (p_data p) = 0 ->
    answer_ok s s' client p
| answer_inform :
    reply DHCPACK (server_nip (cfg s)) (p_data p) -> yiaddr_of (p_data p) = 0 ->
    answer_ok s s' client p.

Lemma swp_send F p s (Q : unit -> server -> Prop) :
  (forall s', cfg s' = cfg s -> tab s' = tab s -> tick (en s') = tick (en s) ->
     sent (en s') = sent (en s) ++ [p] -> Q tt s') ->
  swp F (dhcp_send_raw_packet p) Q s.
Proof. intros HQ. by apply HQ. Qed.

Lemma send_to_client_spec F packet s (Q : unit -> server -> Prop) :
  (forall p s', p_data p = packet -> cfg s' = cfg s -> tab s' = tab s -> tick (en s') = tick (en s) ->
     sent (en s') = sent (en s) ++ [p] -> Q tt s') ->
  swp F (send_packet_to_client packet) Q s.
Proof.
  intros HQ. unfold send_packet_to_client. apply swp_bind, swp_get.
  destruct (if _ : bool then _ else _) as [ciaddr chaddr]. apply swp_send. intros s' ? ? ? ?. eapply HQ; [|eassumption..]; done.
Qed.

(** Writing the address into a fresh reply. *)
Lemma put_yiaddr_spec type sid packet v :
  reply type sid packet -> 0 <= v < 2 ^ 32 ->
  let packet' := put off_yiaddr (le_bytes32 v) packet in
  reply type sid packet' /\ get_le32 packet' off_yiaddr = v /\ client_mac packet' = client_mac packet.
Proof.
  intros Hr Hv. pose proof (reply_len _ _ _ Hr) as Hl. unfold sizeof_packet in Hl. cbn zeta. split_and!.
  - apply reply_put; [done|done|done|apply le_bytes32_ok].
  - apply get_le32_put_same; unfold off_yiaddr; lia.
  - apply (field_put_other off_chaddr 6); change (zlen (le_bytes32 v)) with 4;
      unfold off_chaddr, off_yiaddr; lia.
Qed.

Lemma offer_codes : In DHCP_LEASE_TIME u32_codes.
Proof. cbn; tauto. Qed.

(** Adding the remaining options keeps the header. *)
Lemma finish_reply_spec F type packet s (k : list Z -> srv unit) (Q : unit -> server -> Prop) :
  0 <= type < 256 -> reply type (server_nip (cfg s)) packet ->
  (forall packet', reply type (server_nip (cfg s)) packet' -> header packet' = header packet ->
     swp F (k packet') Q s) ->
  swp F (let* packet := slift (dhcp_add_option_uint32 packet DHCP_LEASE_TIME (lease_seconds (cfg s))) in
         let* packet := slift (add_server_options inet_aton foreach_order (cfg s) packet) in
         k packet) Q s.
Proof.
  intros Ht Hr Hk.
  destruct (reply_add type _ packet DHCP_LEASE_TIME (lease_seconds (cfg s)) Ht Hr offer_codes) as (p1 & H1 & Hr1 & Hh1).
  destruct (add_server_options_spec type (cfg s) p1 Ht Hr1) as (p2 & H2 & Hr2 & Hh2).
  apply swp_bind, swp_lift; rewrite H1; [intros ? [= <-]|done].
  apply swp_bind, swp_lift; rewrite H2; [intros ? [= <-]|done].
  apply Hk; [done|by rewrite Hh2].
Qed.

Definition done_ok (s : server) (client : list Z) (s' : server) : Prop :=
  step_ok s s' /\
  (sent (en s') = sent (en s) \/
   exists p, sent (en s') = sent (en s) ++ [p] /\ answer_ok s s' client p).

Lemma step_quiet_sent s s' client : step_ok s s' -> sent (en s') = sent (en s) -> done_ok s client s'.
Proof. intros. split; [done|by left]. Qed.

Lemma send_offer_spec (F : Prop) client lease req s :
  table_ok (tab s) -> cfg_ok (cfg s) -> packet_ok client -> 0 <= req < 2 ^ 32 ->
  F \/ end_ip (cfg s) < 2 ^ 32 - 1 ->
  (forall p, lease = Some p -> exists l, leases (tab s) !! p = Some l /\ lease_mac l = client_mac client) ->
  swp F (send_offer clock inet_aton foreach_order client lease req) (fun _ s' => done_ok s client s') s.
Proof.
  intros Hok Hcfg Hc Hreq HF Hlease. unfold send_offer. apply swp_bind, swp_get.
  destruct (init_packet_spec (cfg s) client DHCPOFFER Hc) as (p0 & Hp0 & Hr0 & Hm0 & _); [done|].
  apply swp_bind, swp_lift; rewrite Hp0; [intros ? [= <-]|done].
  assert (forall yi s1, quiet s s1 ->
    yi = 0 \/ 0 <= yi < 2 ^ 32 /\ available s s1 (client_mac client) (ntohl yi) ->
    swp F (let packet := put off_yiaddr (le_bytes32 yi) p0 in
      if yi =? 0 then sret tt
      else let* lease := add_lease clock OFFER_TIME (zdrop off_chaddr packet) yi in
           match lease with
           | None => sret tt
           | Some _ =>
             let* packet := slift (dhcp_add_option_uint32 packet DHCP_LEASE_TIME (lease_seconds (cfg s))) in
             let* packet := slift (add_server_options inet_aton foreach_order (cfg s) packet) in
             send_packet_to_client packet
           end) (fun _ s' => done_ok s client s') s1) as Hrest.
  { intros yi s1 Hq Hyi. cbn zeta. pose proof Hq as (Hc1 & Ht1 & Hs1 & Hk1).
    destruct (Z.eqb_spec yi 0) as [|Hne].
    - apply swp_ret, step_quiet_sent; [by apply quiet_step|done].
    - destruct Hyi as [?|[Hyi Hav]]; [done|].
      destruct (put_yiaddr_spec DHCPOFFER _ p0 yi Hr0 Hyi) as (Hr1 & Hy1 & Hm1). cbn zeta in *.
      set (p1 := put off_yiaddr (le_bytes32 yi) p0) in *.
      apply swp_bind, add_lease_spec; [by rewrite Ht1| |].
      + intros s2 Hq2. apply swp_ret. destruct Hq2 as (? & Ht2 & Hs2 & ?).
        apply step_quiet_sent; [|congruence]. split_and!; [by rewrite Ht2, Ht1|congruence|lia].
      + intros q s2 Hc2 Hs2 Hk2 Hok2 Hrg Hh2 Hmac _.
        assert (cfg s2 = cfg s) as Hcc by congruence. rewrite <- Hcc.
        apply (finish_reply_spec _ DHCPOFFER); [done|by rewrite Hcc|]. intros p2 Hr2 Hh.
        apply send_to_client_spec. intros p s3 Hpd Hc3 Ht3 Hk3 Hs3.
        split; [split_and!; [by rewrite Ht3|congruence|lia]|]. right. exists p. split; [congruence|].
        assert (yiaddr_of (p_data p) = ntohl yi) as Hyp.
        { unfold yiaddr_of. rewrite Hpd, (get_le32_header _ p2 p1) by done. by rewrite Hy1. }
        apply answer_offer; rewrite ?Hyp.
        * rewrite Hpd. congruence.
        * by rewrite <- Hc1.
        * exists q. rewrite Ht3. split; [done|]. rewrite Hmac. fold (client_mac p1). rewrite Hm1.
          by apply mac_of_field.
        * apply (available_later s s1); [done|lia]. }
  apply swp_bind. destruct lease as [p|].
  - destruct (Hlease p eq_refl) as (l & Hl & Hm). apply swp_ret, Hrest; [apply quiet_refl|].
    right. split; [apply bswap_32_range|]. rewrite (lease_at_some _ _ _ Hl).
    unfold ntohl, htonl. rewrite bswap_32_invol by (by apply (ok_range _ Hok p)).
    intros q Hq. left. assert (nip_lease_hash (tab s) !! lease_nip l = Some p) as Hp by (apply (ok_hash _ Hok); eauto).
    rewrite Hp in Hq. simplify_eq. by rewrite (lease_at_some _ _ _ Hl).
  - apply swp_bind, (check_requested_spec _ _ (client_mac client)). intros b s1 Hq1 Hb. destruct b.
    + apply swp_ret, Hrest; [done|]. right. split; [apply bswap_32_range|].
      unfold ntohl, htonl. rewrite bswap_32_invol by done. by apply Hb.
    + pose proof Hq1 as (Hc1 & Ht1 & Hs1 & Hk1).
      apply swp_bind, (find_free_spec _ _ (client_mac client)); [by rewrite Ht1|by rewrite Hc1|by rewrite Hc1|..].
      * intros ip s2 (Hc2 & Ht2 & Hs2 & Hk2) Hip Hav. apply swp_ret, Hrest.
        -- split_and!; [congruence..|lia].
        -- right. split; [apply bswap_32_range|]. unfold ntohl, htonl. rewrite bswap_32_invol by done.
           intros q Hq. rewrite <- Ht1 in Hq. destruct (Hav q Hq) as [Hm|(i & Hi & He)]; rewrite Ht1 in *; [by left|].
           right. exists i. split; [lia|done].
      * intros s2 (Hc2 & Ht2 & Hs2 & Hk2). apply swp_ret, Hrest.
        -- split_and!; [congruence..|lia].
        -- by left.
Qed.

Lemma send_ACK_spec (F : Prop) client ip s p l :
  table_ok (tab s) -> packet_ok client ->
  leases (tab s) !! p = Some l -> lease_nip l = ip -> lease_mac l = client_mac client ->
  swp F (send_ACK clock inet_aton foreach_order client ip) (fun _ s' => done_ok s client s') s.
Proof.
  intros Hok Hc Hl Hip Hm. unfold send_ACK. apply swp_bind, swp_get.
  destruct (init_packet_spec (cfg s) client DHCPACK Hc) as (p0 & Hp0 & Hr0 & Hm0 & _); [done|].
  apply swp_bind, swp_lift; rewrite Hp0; [intros ? [= <-]|done]. cbn zeta.
  destruct (put_yiaddr_spec DHCPACK _ p0 (htonl ip) Hr0 (bswap_32_range ip)) as (Hr1 & Hy1 & Hm1). cbn zeta in *.
  set (p1 := put off_yiaddr (le_bytes32 (htonl ip)) p0) in *.
  apply (finish_reply_spec _ DHCPACK); [done..|]. intros p2 Hr2 Hh2.
  assert (ntohl (htonl ip) = ip) as Hnn
    by (apply bswap_32_invol; rewrite <- Hip; by apply (ok_range _ Hok p)).
  assert (get_le32 p2 off_yiaddr = htonl ip) as Hy2 by (by rewrite (get_le32_header _ p2 p1)).
  assert (client_mac p2 = client_mac client) as Hm2.
  { transitivity (client_mac p1); [apply (field_header off_chaddr 6); done|]. rewrite Hm1. by apply mac_of_field. }
  assert (nip_lease_hash (tab s) !! ip = Some p) as Hh by (apply (ok_hash _ Hok); eauto).
  assert (assigned s (client_mac client) ip) as Has.
  { exists p. split; [done|]. by rewrite (lease_at_some _ _ _ Hl). }
  apply swp_bind, send_to_client_spec. intros pk s1 Hpd Hc1 Ht1 Hk1 Hs1.
  assert (yiaddr_of (p_data pk) = ip) as Hyp by (unfold yiaddr_of; by rewrite Hpd, Hy2).
  apply swp_bind, add_lease_spec; [by rewrite Ht1| |].
  - intros s2 (Hc2 & Ht2 & Hs2 & Hk2). apply swp_ret.
    split; [split_and!; [by rewrite Ht2, Ht1|congruence|lia]|]. right. exists pk. split; [congruence|].
    apply answer_ack; rewrite ?Hyp, ?Hpd; [done|done|]. destruct Has as (q & ? & ?). exists q.
    by rewrite Ht2, Ht1.
  - intros q s2 Hc2 Hs2 Hk2 Hok2 _ Hh2' Hmac _. apply swp_ret. rewrite Hy2, Hnn in Hh2'.
    split; [split_and!; [done|congruence|lia]|]. right. exists pk. split; [congruence|].
    apply answer_ack; rewrite ?Hyp, ?Hpd; [done|done|]. exists q. split; [done|]. rewrite Hmac. exact Hm2.
Qed.

Lemma yiaddr_zero p q :
  header p = header q -> field_at off_yiaddr 4 q = [0; 0; 0; 0] -> yiaddr_of p = 0.
Proof.
  intros Hh Hq. unfold yiaddr_of. rewrite (get_le32_header _ p q), get_le32_field, Hq by done. done.
Qed.

Lemma send_NAK_spec (F : Prop) client s :
  table_ok (tab s) -> packet_ok client ->
  swp F (send_NAK client) (fun _ s' => done_ok s client s') s.
Proof.
  intros Hok Hc. unfold send_NAK. apply swp_bind, swp_get.
  destruct (init_packet_spec (cfg s) client DHCPNAK Hc) as (p0 & Hp0 & Hr0 & _ & Hy0); [done|].
  apply swp_bind, swp_lift; rewrite Hp0; [intros ? [= <-]|done].
  apply swp_send. intros s1 Hc1 Ht1 Hk1 Hs1. split; [split_and!; [by rewrite Ht1|done|lia]|].
  right. eexists; split; [exact Hs1|]. apply answer_nak; [done|]. by apply (yiaddr_zero p0 p0).
Qed.

Lemma send_inform_spec (F : Prop) client s :
  table_ok (tab s) -> packet_ok client ->
  swp F (send_inform inet_aton foreach_order client) (fun _ s' => done_ok s client s') s.
Proof.
  intros Hok Hc. unfold send_inform. apply swp_bind, swp_get.
  destruct (init_packet_spec (cfg s) client DHCPACK Hc) as (p0 & Hp0 & Hr0 & _ & Hy0); [done|].
  apply swp_bind, swp_lift; rewrite Hp0; [intros ? [= <-]|done].
  destruct (add_server_options_spec DHCPACK (cfg s) p0) as (p1 & H1 & Hr1 & Hh1); [done..|].
  apply swp_bind, swp_lift; rewrite H1; [intros ? [= <-]|done].
  apply send_to_client_spec. intros pk s1 Hpd Hc1 Ht1 Hk1 Hs1.
  split; [split_and!; [by rewrite Ht1|done|lia]|]. right. exists pk. split; [done|].
  apply answer_inform; rewrite Hpd; [done|]. by apply (yiaddr_zero p1 p0).
Qed.

(** ** A whole packet *)

Lemma done_tab (s : server) (t : table) client :
  table_ok t -> done_ok s client (mkServer (cfg s) t (en s)).
Proof. intros. apply step_quiet_sent; [|done]. by split_and!. Qed.

Lemma swp_option F packet fuel code (Q : option Z -> server -> Prop) s :
  Forall byte_ok packet -> F \/ dhcp_get_option fuel packet code <> OptHang ->
  (forall v, (forall x, v = Some x -> 0 <= x < 2 ^ 32) -> Q v s) ->
  swp F (slift (match dhcp_get_option fuel packet code with
                | OptHang => None | _ => Some (option_be32 packet (dhcp_get_option fuel packet code)) end)) Q s.
Proof.
  intros Hb HF HQ. apply swp_lift.
  - intros v Hv. apply HQ. intros x ->. destruct (dhcp_get_option _ _ _); try done.
    injection Hv as <-. apply bswap_32_range.
  - destruct HF as [?|Hne]; [done|]. by destruct (dhcp_get_option _ _ _).
Qed.

Lemma get_option_hangs fuel packet code (F : Prop) :
  Forall byte_ok packet -> F \/ no_reload packet /\ (600 <= fuel)%nat ->
  F \/ dhcp_get_option fuel packet code <> OptHang.
Proof.
  intros Hb [?|[Hn Hf]]; [by left|right]. apply (get_option_loop_ends _ _ _ _ _ _ true); [done..|].
  change size_options with 388. lia.
Qed.

Lemma handle_packet_spec (F : Prop) fuel packet s :
  table_ok (tab s) -> cfg_ok (cfg s) -> packet_ok packet ->
  F \/ end_ip (cfg s) < 2 ^ 32 - 1 -> F \/ no_reload packet /\ (600 <= fuel)%nat ->
  swp F (handle_packet clock inet_aton foreach_order fuel packet) (fun _ s' => done_ok s packet s') s.
Proof.
  intros Hok Hcfg Hc HF Hrl. pose proof Hc as [_ Hb].
  pose proof (fun code => get_option_hangs fuel packet code F Hb Hrl) as Hopt.
  assert (done_ok s packet s) as Hidle by (destruct s; by apply done_tab).
  unfold handle_packet. apply swp_bind, swp_get. apply swp_bind, swp_lift.
  2: { unfold check_packet_type. destruct (negb _); [done|]. destruct (negb _); [done|].
       destruct (Hopt DHCP_MESSAGE_TYPE) as [?|Hne]; [done|].
       destruct (dhcp_get_option _ _ _); try done. cbn zeta.
       destruct (_ <? _); [done|]. by destruct (_ <? _). }
  intros type _. destruct (type =? 0); [by apply swp_ret|].
  apply swp_bind. apply (swp_option F packet fuel DHCP_SERVER_ID); [done..|]. intros server_id _.
  destruct (match server_id with Some _ => _ | None => _ end); [by apply swp_ret|].
  apply swp_bind. apply (swp_option F packet fuel DHCP_REQUESTED_IP); [done..|]. intros request_ip Hrip. cbn zeta.
  assert (0 <= default 0 request_ip < 2 ^ 32) as Hreq.
  { destruct request_ip as [x|]; [by apply Hrip|cbn; lia]. }
  pose proof (find_lease_by_mac_spec (tab s) (zdrop off_chaddr packet) Hok) as Hmac.
  set (lease := find_lease_by_mac (tab s) (zdrop off_chaddr packet)) in *.
  assert (forall p, lease = Some p -> exists l, leases (tab s) !! p = Some l /\ lease_mac l = client_mac packet) as Hl.
  { intros p Hp. by rewrite Hp in Hmac. }
  clear Hmac Hrip. destruct (type =? DHCPDISCOVER); [by apply send_offer_spec|].
  destruct (type =? DHCPREQUEST).
  { generalize (if default 0 request_ip =? 0 then get_le32 packet off_ciaddr else default 0 request_ip) as ip.
    intros ip. destruct (ip =? 0); [by apply swp_ret|]. destruct lease as [p|]; [|by apply send_NAK_spec].
    destruct (_ =? _).
    - destruct (Hl p eq_refl) as (l & Hp & Hm). rewrite (lease_at_some _ _ _ Hp).
      by apply (send_ACK_spec _ _ _ _ p l).
    - destruct server_id; [by apply send_NAK_spec|by apply swp_ret]. }
  destruct (type =? DHCPDECLINE).
  { destruct server_id, request_ip, lease as [p|]; try (by apply swp_ret).
    destruct (_ =? _); [|by apply swp_ret]. apply done_tab, remove_lease_ok; [done|].
    destruct (Hl p eq_refl) as (l & ? & _). by exists l. }
  destruct (type =? DHCPRELEASE).
  { destruct server_id, lease as [p|]; try (by apply swp_ret).
    destruct (_ =? _); [|by apply swp_ret]. apply swp_bind, swp_time.
    intros s1 (Hc1 & Ht1 & Hs1 & Hk1) _. unfold swp, set_tab. apply step_quiet_sent; [|done].
    split_and!; [|done..]. apply lease_set_expire_ok; [done|].
    destruct (Hl p eq_refl) as (l & ? & _). by exists l. }
  destruct (type =? DHCPINFORM); [by apply send_inform_spec|by apply swp_ret].
Qed.

Lemma put_flags_no_reload packet v :
  no_reload packet -> packet_ok packet -> no_reload (put off_flags (le_bytes16 v) packet).
Proof.
  intros Hn [Hl _] i Hi. rewrite byte_at_put; change (zlen (le_bytes16 v)) with 2;
    unfold sizeof_packet, off_flags, off_sname, off_cookie in *; try lia.
  destruct (_ && _) eqn:E; [|by apply Hn]. apply andb_true_iff in E as [E1 E2]. lia.
Qed.

(** ** The watch callback *)

(** The packet buffer after a read. *)
Definition received (input : list Z + Z) : list Z :=
  match input with
  | inl data => put 0 (ztake (Z.min (zlen data) sizeof_packet) data) zero_packet
  | inr _ => zero_packet
  end.

Definition input_ok (input : list Z + Z) : Prop :=
  match input with inl data => Forall byte_ok data | inr _ => True end.

Lemma zero_packet_ok : packet_ok zero_packet.
Proof. split; [done|]. apply Forall_replicate. done. Qed.

Lemma received_ok input : input_ok input -> packet_ok (received input).
Proof.
  intros Hi. destruct input as [data|]; [|apply zero_packet_ok]. cbn [received input_ok] in *.
  assert (zlen (ztake (Z.min (zlen data) sizeof_packet) data) <= sizeof_packet) as Hl
    by (unfold sizeof_packet; zlia).
  split.
  - rewrite zlen_put; [apply zlen_zero_packet|done|]. rewrite zlen_zero_packet. exact Hl.
  - apply put_ok; [|apply zero_packet_ok]. unfold ztake. by apply Forall_take.
Qed.

Lemma put_flags_ok packet v : packet_ok packet -> packet_ok (put off_flags (le_bytes16 v) packet).
Proof.
  intros [Hl Hb]. split; [|apply put_ok; [apply le_bytes16_ok|done]].
  rewrite zlen_put; [done|by cbv|]. rewrite Hl. by cbv.
Qed.

Lemma recv_spec (F : Prop) fuel input :
  input_ok input -> F \/ no_reload (received input) /\ (600 <= fuel)%nat ->
  match dhcp_recv_l3_packet fuel input with
  | Some (n, packet) => packet_ok packet /\ (no_reload (received input) -> no_reload packet)
  | None => F
  end.
Proof.
  intros Hi Hrl. pose proof (received_ok input Hi) as Hp. unfold dhcp_recv_l3_packet.
  destruct input as [data|e]; cbv zeta; [|done]. fold (received (inl data)) in *.
  set (p := received (inl data)) in *. change (put _ _ _) with p.
  destruct (negb _); [done|]. unfold check_broken_vendor. destruct (negb _); [done|].
  destruct (get_option_hangs fuel p DHCP_VENDOR F) as [HF|Hne]; [apply Hp|done|..].
  - destruct (dhcp_get_option _ _ _); [done..|]. destruct (check_vendor _ _ _); [|done].
    split; [by apply put_flags_ok|intros ?; by apply put_flags_no_reload].
  - destruct (dhcp_get_option _ _ _); [done..|]. destruct (check_vendor _ _ _); [|done].
    split; [by apply put_flags_ok|intros ?; by apply put_flags_no_reload].
Qed.

(** What one call does, whatever arrives. *)
Definition event_ok (fuel : nat) (input : list Z + Z) (s s' : server) : Prop :=
  table_ok (tab s') /\ cfg s' = cfg s /\
  (sent (en s') = sent (en s) \/
   exists n packet p, dhcp_recv_l3_packet fuel input = Some (n, packet) /\
     sent (en s') = sent (en s) ++ [p] /\ answer_ok s s' packet p).

Lemma listener_event_spec (F : Prop) fuel input s :
  table_ok (tab s) -> cfg_ok (cfg s) -> input_ok input ->
  F \/ end_ip (cfg s) < 2 ^ 32 - 1 -> F \/ no_reload (received input) /\ (600 <= fuel)%nat ->
  swp F (listener_event clock inet_aton foreach_order fuel false input)
    (fun keep s' => keep = true /\ event_ok fuel input s s') s.
Proof.
  intros Hok Hcfg Hi HF Hrl. pose proof (recv_spec F fuel input Hi Hrl) as Hrecv.
  assert (event_ok fuel input s s) as Hidle by (split_and!; [done..|by left]).
  unfold listener_event. apply swp_bind, swp_get, swp_bind, swp_lift.
  2: { intros Hn. by rewrite Hn in Hrecv. }
  intros [n packet] Hr. rewrite Hr in Hrecv. destruct Hrecv as [Hp Hn]. destruct (n <? 0); [by apply swp_ret|].
  apply swp_bind. eapply swp_mono; [apply handle_packet_spec; try done|].
  - destruct Hrl as [?|[Hr0 Hf]]; [by left|right]. auto.
  - intros _ s1 [(Ht & Hc & _) Hs]. apply swp_ret. split; [done|]. split_and!; [done..|].
    destruct Hs as [?|(p & ? & ?)]; [by left|right]. by exists n, packet, p.
Qed.

(** ** Life of a server *)

(** Every state the interface and the watch can bring a server to. *)
Inductive server_step : server -> server -> Prop :=
| step_event s fuel input keep s' :
    input_ok input ->
    listener_event clock inet_aton foreach_order fuel false input s = Some (keep, s') -> server_step s s'
| step_hangup s fuel input keep s' :
    listener_event clock inet_aton foreach_order fuel true input s = Some (keep, s') -> server_step s s'
| step_start s sock channel watch :
    server_step s (snd (g_dhcp_server_start sock channel watch s))
| step_option s code value :
    server_step s (snd (g_dhcp_server_set_option inet_aton code value s))
| step_save_func s f : server_step s (g_dhcp_server_set_save_lease f s)
| step_ref s : server_step s (g_dhcp_server_ref s)
| step_unref s s' : g_dhcp_server_unref s = inl s' -> server_step s s'
| step_stop s : server_step s (g_dhcp_server_stop s)
| step_range s a b : server_step s (snd (g_dhcp_server_set_ip_range inet_aton a b s))
| step_lease_time s t : server_step s (g_dhcp_server_set_lease_time t s).

Inductive reachable : server -> Prop :=
| reach_new index ok has_name up nip e s :
    g_dhcp_server_new index ok has_name up nip e = (Some s, G_DHCP_SERVER_ERROR_NONE) -> reachable s
| reach_step s s' : reachable s -> server_step s s' -> reachable s'.

Definition server_ok (s : server) : Prop := table_ok (tab s) /\ cfg_ok (cfg s).

Lemma new_ok index ok has_name up nip e s r :
  g_dhcp_server_new index ok has_name up nip e = (Some s, r) ->
  tab s = table0 /\ start_ip (cfg s) = 0 /\ end_ip (cfg s) = 0.
Proof. unfold g_dhcp_server_new. repeat (destruct (_ : bool); [done|]). by intros [= <- _]. Qed.

Lemma ip_range_ok a b s :
  cfg_ok (cfg s) -> cfg_ok (cfg (snd (g_dhcp_server_set_ip_range inet_aton a b s))).
Proof.
  intros [Hs He]. unfold g_dhcp_server_set_ip_range, ntohl.
  destruct (inet_aton a) as [x|]; [|done]. pose proof (bswap_32_range x).
  destruct (inet_aton b) as [y|]; cbn; [pose proof (bswap_32_range y)|]; split; cbn; lia.
Qed.

Lemma step_preserves s s' : server_step s s' -> server_ok s -> server_ok s'.
Proof.
  intros Hstep [Hok Hcfg]. destruct Hstep as
    [s fuel input keep s' Hi He|s fuel input keep s' He|s sock channel watch|s code value|s f|s
    |s s' Hu|s|s a b|s t].
  - pose proof (listener_event_spec True fuel input s Hok Hcfg Hi) as Hsp. unfold swp in Hsp. rewrite He in Hsp.
    destruct Hsp as (_ & Ht & Hc & _); [by left..|]. split; [done|by rewrite Hc].
  - cbn in He. by simplify_eq.
  - unfold g_dhcp_server_start. repeat case_match; done.
  - unfold g_dhcp_server_set_option. repeat case_match; done.
  - done.
  - done.
  - unfold g_dhcp_server_unref in Hu. destruct (negb _); by simplify_eq.
  - unfold g_dhcp_server_stop, save_lease. by destruct (save_lease_func _).
  - split; [|by apply ip_range_ok]. unfold g_dhcp_server_set_ip_range. repeat case_match; done.
  - done.
Qed.

Lemma reachable_ok s : reachable s -> server_ok s.
Proof.
  induction 1 as [index ok has_name up nip e s Hn|s s' _ IH Hs]; [|by eapply step_preserves].
  apply new_ok in Hn as (Ht & Ha & Hb). split; [rewrite Ht; apply table0_ok|]. unfold cfg_ok. lia.
Qed.

End handlers.

(** ** Frame of the lease functions *)

(** The leases of other clients and addresses are kept as they are. *)
Lemma get_lease_frame t start stop ok yiaddr mac :
  table_ok t ->
  let '(_, lease, t', _) := get_lease t start stop ok yiaddr mac in
  forall q l, leases t !! q = Some l -> lease_nip l <> ntohl yiaddr -> lease_mac l <> ztake ETH_ALEN mac ->
    leases t' !! q = Some l /\ lease <> Some q.
Proof.
  intros Hok. pose proof (find_lease_by_mac_spec t mac Hok) as Hmac. unfold get_lease.
  destruct (yiaddr =? 0); [done|]. destruct (_ <? _); [done|]. destruct (_ <? _); [done|].
  destruct (decide _) as [?|_]; [done|]. destruct (decide _) as [?|_]; [done|]. cbv zeta.
  assert (forall n q l, nip_lease_hash t !! ntohl yiaddr = Some n -> leases t !! q = Some l ->
    lease_nip l <> ntohl yiaddr -> Some n <> Some q) as Hn.
  { intros n q l Hn Hl Hne [= ->]. apply Hne. apply (hash_lease t _ q Hok) in Hn as (l' & Hl' & <-). congruence. }
  assert (forall m q l, find_lease_by_mac t mac = Some m -> leases t !! q = Some l ->
    lease_mac l <> ztake ETH_ALEN mac -> m <> q) as Hm.
  { intros m q l Hf Hl Hne ->. rewrite Hf in Hmac. destruct Hmac as (? & ? & ?). congruence. }
  destruct (nip_lease_hash t !! ntohl yiaddr) as [n|] eqn:Hh, (find_lease_by_mac t mac) as [m|] eqn:Hf.
  - destruct (decide (n = m)); intros q l Hl Hip Hma; (split; [|by eapply Hn]); [done|].
    cbn. rewrite lookup_delete_ne; [done|by eapply Hm].
  - intros q l Hl Hip Hma. split; [done|by eapply Hn].
  - intros q l Hl Hip Hma. split; [done|]. intros [= ->]. by eapply Hm.
  - destruct ok; cbn; [|done]. intros q l Hl _ _.
    assert (q < next_id t)%nat by (apply (ok_next t Hok); eauto).
    split; [rewrite lookup_insert_ne; [done|lia]|]. intros [= ?]. lia.
Qed.

(** ** Properties *)

Section properties.
Context (clock : nat -> Z) (inet_aton : list Z -> option Z).
Context (foreach_order : gmap Z (list Z) -> list (Z * list Z)).

(** C20. Serving a packet always ends, and keeps the server consistent: on
    every input without an overload code in its [sname] and [file] fields, and
    every address range below 255.255.255.255, the callback returns and keeps
    its watch, the lease table stays well-formed, the configuration is
    unchanged, and at most one packet is sent, which is an offer of an address
    in the range that was available and is now leased to the client, an
    acknowledgement of the address the client has leased, a refusal, or an
    answer without an address. *)
Theorem listener_event_total fuel input s :
  table_ok (tab s) -> cfg_ok (cfg s) -> end_ip (cfg s) < 2 ^ 32 - 1 ->
  input_ok input -> no_reload (received input) -> (600 <= fuel)%nat ->
  exists s', listener_event clock inet_aton foreach_order fuel false input s = Some (true, s') /\
    event_ok clock fuel input s s'.
Proof.
  intros Hok Hcfg He Hi Hn Hf.
  pose proof (listener_event_spec clock inet_aton foreach_order False fuel input s Hok Hcfg Hi
    (or_intror He) (or_intror (conj Hn Hf))) as Hsp.
  unfold swp in Hsp. destruct (listener_event _ _ _ _ _ _ _) as [[keep s']|]; [|done].
  destruct Hsp as [-> Hev]. by exists s'.
Qed.

(** C21. Whatever sequence of packets and calls of its interface a server has
    gone through, no two leases share an address or a hardware address, each
    lease is found by its address and by its hardware address, and everything
    a further packet makes the server send satisfies the same promise. *)
Theorem reachable_leases_unique s :
  reachable clock inet_aton foreach_order s ->
  NoDup (lease_list (tab s)) /\
  (forall p q, p ∈ lease_list (tab s) -> q ∈ lease_list (tab s) ->
     lease_nip (lease_at (tab s) p) = lease_nip (lease_at (tab s) q) \/
     lease_mac (lease_at (tab s) p) = lease_mac (lease_at (tab s) q) -> p = q) /\
  (forall p mac, p ∈ lease_list (tab s) -> ztake ETH_ALEN mac = lease_mac (lease_at (tab s) p) ->
     find_lease_by_mac (tab s) mac = Some p /\
     find_lease_by_nip (tab s) (lease_nip (lease_at (tab s) p)) = Some p) /\
  (forall fuel input keep s', input_ok input ->
     listener_event clock inet_aton foreach_order fuel false input s = Some (keep, s') ->
     event_ok clock fuel input s s').
Proof.
  intros Hr. destruct (reachable_ok _ _ _ s Hr) as [Hok Hcfg].
  assert (forall p, p ∈ lease_list (tab s) -> leases (tab s) !! p = Some (lease_at (tab s) p)) as Hat.
  { intros p [l Hl]%(ok_list _ Hok). by rewrite (lease_at_some _ _ _ Hl). }
  assert (forall p, p ∈ lease_list (tab s) -> nip_lease_hash (tab s) !! lease_nip (lease_at (tab s) p) = Some p) as Hh.
  { intros p Hp%Hat. apply (ok_hash _ Hok). eauto. }
  split_and!.
  - apply (ok_nodup _ Hok).
  - intros p q Hp Hq [Hn|Hm]; [|by apply (ok_mac _ Hok p q _ _ (Hat p Hp) (Hat q Hq))].
    apply Hh in Hp. apply Hh in Hq. congruence.
  - intros p mac Hp Hm. split; [|by apply Hh]. pose proof (find_lease_by_mac_spec (tab s) mac Hok) as Hf.
    destruct (find_lease_by_mac (tab s) mac) as [q|]; [|by destruct (Hf p _ (Hat p Hp))].
    destruct Hf as (l & Hl & Hlm). f_equal. apply (ok_mac _ Hok q p l _ Hl (Hat p Hp)). congruence.
  - intros fuel input keep s' Hi He.
    pose proof (listener_event_spec clock inet_aton foreach_order True fuel input s Hok Hcfg Hi) as Hsp.
    unfold swp in Hsp. rewrite He in Hsp. destruct Hsp as [_ ?]; [by left..|done].
Qed.

(** Leasing an address to a client: when it succeeds, the address and the
    client belong to each other, with the expiry asked for, the table is still
    well-formed, and the leases of all other clients and addresses are as they
    were; when it fails, no lease has changed. *)
Theorem add_lease_exclusive exp chaddr yiaddr s :
  table_ok (tab s) ->
  exists r s', add_lease clock exp chaddr yiaddr s = Some (r, s') /\ table_ok (tab s') /\ cfg s' = cfg s /\
    match r with
    | None => tab s' = tab s
    | Some p =>
      start_ip (cfg s) <= ntohl yiaddr <= end_ip (cfg s) /\
      find_lease_by_nip (tab s') (ntohl yiaddr) = Some p /\
      leases (tab s') !! p =
        Some (mkLease (if exp =? 0 then clock (tick (en s)) + lease_seconds (cfg s) else exp)
                (ntohl yiaddr) (ztake ETH_ALEN chaddr)) /\
      (forall q l, leases (tab s) !! q = Some l -> lease_nip l <> ntohl yiaddr ->
         lease_mac l <> ztake ETH_ALEN chaddr -> leases (tab s') !! q = Some l)
    end.
Proof.
  intros Hok. unfold add_lease, sbind, get, sget, use_answer, set_tab.
  pose proof (get_lease_ok (tab s) (start_ip (cfg s)) (end_ip (cfg s)) (next_answer s) yiaddr chaddr Hok) as Hg.
  pose proof (get_lease_frame (tab s) (start_ip (cfg s)) (end_ip (cfg s)) (next_answer s) yiaddr chaddr Hok) as Hfr.
  destruct (get_lease _ _ _ _ _ _) as [[[r lease] t] used]. destruct lease as [p|].
  2: { destruct Hg as [_ ->]. eexists _, _. split; [reflexivity|]. done. }
  destruct Hg as (_ & Hde & Hrange).
  assert (forall e, table_ok (fill_lease t p (mkLease e (ntohl yiaddr) (ztake ETH_ALEN chaddr)))) as Hfill
    by (intros e; by apply fill_lease_ok, bswap_32_range).
  assert (forall e q l, leases (tab s) !! q = Some l -> lease_nip l <> ntohl yiaddr ->
    lease_mac l <> ztake ETH_ALEN chaddr -> <[p := e]> (leases t) !! q = Some l) as Hkeep.
  { intros e q l Hl Hip Hm. destruct (Hfr q l Hl Hip Hm) as [Ht Hne].
    rewrite lookup_insert_ne; [done|congruence]. }
  destruct (exp =? 0); eexists _, _; (split; [reflexivity|]);
    (split; [apply Hfill|]); (split; [done|]); cbn; (split; [done|]);
    (split; [apply lookup_insert_eq|]); (split; [apply lookup_insert_eq|]); apply Hkeep.
Qed.

(** Dropping the last reference stops the server, hands every lease to the
    save callback when there is one, and frees every lease. *)
Theorem unref_frees_leases s t e :
  reachable clock inet_aton foreach_order s ->
  g_dhcp_server_unref s = inr (t, e) ->
  ref_count (cfg s) = 1 /\ leases t = ∅ /\ lease_list t = [] /\ nip_lease_hash t = ∅ /\
  saved e = saved (en s) ++
    (if save_lease_func (cfg s)
     then map (fun p => let l := lease_at (tab s) p in (lease_mac l, lease_nip l, expire l)) (lease_list (tab s))
     else []).
Proof.
  intros [Hok _]%reachable_ok. unfold g_dhcp_server_unref.
  destruct (Z.eqb_spec (ref_count (cfg s)) 1) as [Hr|]; [|done]. cbn [negb]. intros [= <- <-].
  assert (tab (save_lease (with_ref (i32 (ref_count (cfg s) - 1)) s)) = tab s) as Ht.
  { unfold save_lease. cbn. by destruct (save_lease_func _). }
  split; [done|]. rewrite Ht. cbn. split_and!; try done.
  - assert (forall l q, foldr (fun p m => delete p m) (leases (tab s)) l !! q =
      if decide (q ∈ l) then None else leases (tab s) !! q) as Hfold.
    { intros l q. induction l as [|p l IH]; cbn [foldr]; [done|]. destruct (decide (p = q)) as [->|Hne].
      - rewrite lookup_delete_eq. by rewrite decide_True by set_solver.
      - rewrite lookup_delete_ne, IH by done. apply decide_ext. set_solver. }
    apply map_empty. intros q. rewrite Hfold. destruct (decide _) as [|Hd]; [done|].
    by rewrite (ok_list _ Hok), <- eq_None_not_Some in Hd.
  - unfold save_lease; cbn. destruct (save_lease_func (cfg s)); cbn; by rewrite ?app_nil_r.
Qed.

(** C23. One packet stops the server for good: when a request repeats the
    overload declaration inside its [file] field, the callback never returns,
    in any state of the server. *)
Theorem listener_event_hangs fuel data s :
  let packet := received (inl data) in
  byte_at packet off_op = BOOTREQUEST -> get_le32 packet off_cookie = htonl DHCP_MAGIC ->
  ztake 4 (zdrop off_options packet) = [DHCP_OPTION_OVERLOAD; 1; FILE_FIELD; DHCP_END] ->
  ztake 4 (zdrop off_file packet) = [DHCP_OPTION_OVERLOAD; 1; FILE_FIELD; DHCP_END] ->
  listener_event clock inet_aton foreach_order fuel false (inl data) s = None.
Proof.
  cbv zeta. intros Hop Hmagic Ho Hfile. unfold listener_event, sbind, get, sget, slift, dhcp_recv_l3_packet.
  change (put 0 (ztake (Z.min (zlen data) sizeof_packet) data) zero_packet) with (received (inl data)).
  cbv zeta. rewrite Hmagic, Z.eqb_refl. cbn [negb]. unfold check_broken_vendor. rewrite Hop. cbn [negb Z.eqb].
  by rewrite dhcp_get_option_diverges.
Qed.

(** An offer does not reserve its address: the five minutes are stored as
    an absolute time, so that for any clock past the year 1970 the lease made
    by the offer is already expired, and the next client that asks for the
    address is told it may have it. *)
Theorem offer_expires_at_once chaddr yiaddr s p s1 :
  table_ok (tab s) -> (forall i, OFFER_TIME < clock i) -> 0 < start_ip (cfg s) ->
  add_lease clock OFFER_TIME chaddr yiaddr s = Some (Some p, s1) ->
  exists s2, check_requested_nip clock (ntohl yiaddr) s1 = Some (true, s2).
Proof.
  intros Hok Hclock Hst Hadd.
  pose proof (add_lease_spec clock True OFFER_TIME chaddr yiaddr s
    (fun r s' => r = Some p -> table_ok (tab s') /\ start_ip (cfg s) <= ntohl yiaddr <= end_ip (cfg s) /\
       cfg s' = cfg s /\ nip_lease_hash (tab s') !! ntohl yiaddr = Some p /\
       expire (lease_at (tab s') p) = OFFER_TIME)) as Hsp.
  unfold swp in Hsp. rewrite Hadd in Hsp. destruct Hsp as (Hok1 & Hr & Hc & Hh & He); [done..| |done|].
  { intros q s' ? ? ? ? ? ? ? Hex [= ->]. split_and!; try done; [lia..|]. by apply Hex. }
  unfold check_requested_nip, sbind, get, sget, find_lease_by_nip, is_expired_lease, sbind, get, sget, time, sret.
  rewrite Hc, Hh, !(proj2 (Z.ltb_ge _ _)), (proj2 (Z.eqb_neq _ _)) by lia. cbn.
  rewrite He, (proj2 (Z.ltb_lt _ _)) by apply Hclock. cbn. eauto.
Qed.

End properties.

(** ** A concrete server *)

Definition wall_clock (n : nat) : Z := 1400000000 + Z.of_nat n.

(** Only the addresses used below parse. *)
Definition parse_addr (s : list Z) : option Z :=
  if decide (s = str "192.168.77.2") then Some (htonl 0xc0a84d02)
  else if decide (s = str "192.168.77.64") then Some (htonl 0xc0a84d40)
  else if decide (s = str "255.255.255.0") then Some (htonl 0xffffff00)
  else None.

Definition env0 : env := mkEnv 0 [] [] [].

Definition fresh_server : server :=
  match g_dhcp_server_new 3 true true true 0xc0a84d01 env0 with
  | (Some s, _) => s
  | _ => mkServer (mkConfig 0 false 0 0 0 0 0 0 0 false ∅ false) table0 env0
  end.

Definition ranged_server : server :=
  snd (g_dhcp_server_set_option parse_addr G_DHCP_SUBNET (Some (str "255.255.255.0"))
    (snd (g_dhcp_server_set_ip_range parse_addr (str "192.168.77.2") (str "192.168.77.64") fresh_server))).

(** A packet of a client, with a requested address. *)
Definition request (type : Z) (mac : list Z) (ip : Z) : list Z :=
  let packet := put off_chaddr mac (put off_op [BOOTREQUEST; 1; 6] (default [] (dhcp_init_header type))) in
  default [] (dhcp_add_option_uint32 packet DHCP_REQUESTED_IP ip).

Definition mac_a : list Z := [2; 0; 0; 0; 0; 10].
Definition mac_b : list Z := [2; 0; 0; 0; 0; 11].
Definition wanted : Z := 0xc0a84d07.

Definition event (input : list Z) (s : server) : option (bool * server) :=
  listener_event wall_clock parse_addr map_to_list 600 false (inl input) s.

Definition after (input : list Z) (s : server) : server :=
  match event input s with Some (_, s') => s' | None => s end.

Definition offered_server : server := after (request DHCPDISCOVER mac_a wanted) ranged_server.

(** Client, message type and address of every packet sent. *)
Definition log (s : server) : list (list Z * option (list Z) * Z) :=
  map (fun p => (client_mac (p_data p),
                 found_data (p_data p) (dhcp_get_option 600 (p_data p) DHCP_MESSAGE_TYPE),
                 yiaddr_of (p_data p))) (sent (en s)).

Example discover_then_request :
  log (after (request DHCPREQUEST mac_a wanted) offered_server) =
  [(mac_a, Some [DHCPOFFER], wanted); (mac_a, Some [DHCPACK], wanted)].
Proof. vm_compute. reflexivity. Qed.

(** Two clients are offered the same address, and the first one is refused
    when it asks for what it was offered. *)
Example conflicting_offers :
  log (after (request DHCPREQUEST mac_a wanted)
        (after (request DHCPDISCOVER mac_b wanted) offered_server)) =
  [(mac_a, Some [DHCPOFFER], wanted); (mac_b, Some [DHCPOFFER], wanted); (mac_a, Some [DHCPNAK], 0)].
Proof. vm_compute. reflexivity. Qed.

Lemma offered_event :
  listener_event wall_clock parse_addr map_to_list 600 false (inl (request DHCPDISCOVER mac_a wanted))
    ranged_server = Some (true, offered_server).
Proof. vm_compute. reflexivity. Qed.

Lemma request_ok : input_ok (inl (request DHCPDISCOVER mac_a wanted)).
Proof. vm_compute. repeat (constructor; [split; [discriminate|reflexivity]|]). constructor. Qed.

Lemma request_no_reload : no_reload (received (inl (request DHCPDISCOVER mac_a wanted))).
Proof.
  assert (forallb (fun i => negb (byte_at (received (inl (request DHCPDISCOVER mac_a wanted))) (off_sname + Z.of_nat i)
    =? DHCP_OPTION_OVERLOAD)) (List.seq 0 192) = true) as H by (vm_compute; reflexivity).
  rewrite List.forallb_forall in H. intros i Hi. unfold off_cookie in Hi.
  specialize (H (Z.to_nat (i - off_sname))). rewrite Z2Nat.id in H by lia.
  replace (off_sname + (i - off_sname)) with i in H by lia.
  apply Z.eqb_neq, negb_true_iff, H, List.in_seq. unfold off_sname in *. lia.
Qed.

Lemma ranged_reachable : reachable wall_clock parse_addr map_to_list ranged_server.
Proof.
  apply (reach_step _ _ _ _ _ (reach_step _ _ _ _ _ (reach_new _ _ _ 3 true true true 0xc0a84d01 env0 fresh_server eq_refl)
    (step_range _ _ _ fresh_server (str "192.168.77.2") (str "192.168.77.64")))
    (step_option _ _ _ _ G_DHCP_SUBNET (Some (str "255.255.255.0")))).
Qed.

Lemma offered_reachable : reachable wall_clock parse_addr map_to_list offered_server.
Proof.
  eapply reach_step; [apply ranged_reachable|]. eapply step_event; [apply request_ok|apply offered_event].
Qed.

Lemma ranged_ok : table_ok (tab ranged_server) /\ cfg_ok (cfg ranged_server).
Proof. split; [apply table0_ok|by split]. Qed.

Lemma listener_event_total_witness :
  exists s', listener_event wall_clock parse_addr map_to_list 600 false
      (inl (request DHCPDISCOVER mac_a wanted)) ranged_server = Some (true, s') /\
    event_ok wall_clock 600 (inl (request DHCPDISCOVER mac_a wanted)) ranged_server s'.
Proof.
  apply listener_event_total; [apply ranged_ok|apply ranged_ok|reflexivity|apply request_ok|
    apply request_no_reload|apply le_n].
Defined.

Lemma reachable_leases_unique_witness :
  lease_list (tab offered_server) = [0%nat] /\
  (NoDup (lease_list (tab offered_server)) /\
  (forall p q, p ∈ lease_list (tab offered_server) -> q ∈ lease_list (tab offered_server) ->
     lease_nip (lease_at (tab offered_server) p) = lease_nip (lease_at (tab offered_server) q) \/
     lease_mac (lease_at (tab offered_server) p) = lease_mac (lease_at (tab offered_server) q) -> p = q) /\
  (forall p mac, p ∈ lease_list (tab offered_server) ->
     ztake ETH_ALEN mac = lease_mac (lease_at (tab offered_server) p) ->
     find_lease_by_mac (tab offered_server) mac = Some p /\
     find_lease_by_nip (tab offered_server) (lease_nip (lease_at (tab offered_server) p)) = Some p) /\
  (forall fuel input keep s', input_ok input ->
     listener_event wall_clock parse_addr map_to_list fuel false input offered_server = Some (keep, s') ->
     event_ok wall_clock fuel input offered_server s')).
Proof.
  split; [vm_compute; reflexivity|].
  exact (reachable_leases_unique wall_clock parse_addr map_to_list offered_server offered_reachable).
Defined.

Lemma add_lease_exclusive_witness :
  exists r s', add_lease wall_clock 0 mac_a (htonl wanted) ranged_server = Some (r, s') /\
    table_ok (tab s') /\ cfg s' = cfg ranged_server /\
    match r with
    | None => tab s' = tab ranged_server
    | Some p =>
      start_ip (cfg ranged_server) <= ntohl (htonl wanted) <= end_ip (cfg ranged_server) /\
      find_lease_by_nip (tab s') (ntohl (htonl wanted)) = Some p /\
      leases (tab s') !! p =
        Some (mkLease (if 0 =? 0 then wall_clock (tick (en ranged_server)) + lease_seconds (cfg ranged_server) else 0)
                (ntohl (htonl wanted)) (ztake ETH_ALEN mac_a)) /\
      (forall q l, leases (tab ranged_server) !! q = Some l -> lease_nip l <> ntohl (htonl wanted) ->
         lease_mac l <> ztake ETH_ALEN mac_a -> leases (tab s') !! q = Some l)
    end.
Proof. exact (add_lease_exclusive wall_clock 0 mac_a (htonl wanted) ranged_server (proj1 ranged_ok)). Defined.

Definition saving_server : server := g_dhcp_server_set_save_lease true offered_server.

Definition freed : table * env :=
  match g_dhcp_server_unref saving_server with inr r => r | inl s => (tab s, en s) end.

Lemma saving_reachable : reachable wall_clock parse_addr map_to_list saving_server.
Proof. eapply reach_step; [apply offered_reachable|apply step_save_func]. Qed.

Lemma unref_frees_leases_witness :
  length (saved (snd freed)) = 1%nat /\
  (ref_count (cfg saving_server) = 1 /\ leases (fst freed) = ∅ /\ lease_list (fst freed) = [] /\
   nip_lease_hash (fst freed) = ∅ /\
   saved (snd freed) = saved (en saving_server) ++
    (if save_lease_func (cfg saving_server)
     then map (fun p => let l := lease_at (tab saving_server) p in (lease_mac l, lease_nip l, expire l))
            (lease_list (tab saving_server))
     else [])).
Proof.
  assert (g_dhcp_server_unref saving_server = inr (fst freed, snd freed)) as H by (vm_compute; reflexivity).
  split; [vm_compute; reflexivity|].
  exact (unref_frees_leases wall_clock parse_addr map_to_list saving_server _ _ saving_reachable H).
Defined.

Lemma listener_event_hangs_witness :
  listener_event wall_clock parse_addr map_to_list 5000 false (inl looping_packet) ranged_server = None.
Proof.
  apply listener_event_hangs; vm_compute; reflexivity.
Defined.

Definition lone_offer : option (option nat * server) :=
  add_lease wall_clock OFFER_TIME mac_a (htonl wanted) ranged_server.

Definition lone_server : server := match lone_offer with Some (_, s) => s | None => ranged_server end.

Lemma offer_expires_at_once_witness :
  exists s2, check_requested_nip wall_clock (ntohl (htonl wanted)) lone_server = Some (true, s2).
Proof.
  assert (forall i, OFFER_TIME < wall_clock i) as Hclock by (intros i; unfold OFFER_TIME, wall_clock; lia).
  assert (add_lease wall_clock OFFER_TIME mac_a (htonl wanted) ranged_server = Some (Some 0%nat, lone_server)) as Hadd
    by (vm_compute; reflexivity).
  exact (offer_expires_at_once wall_clock mac_a (htonl wanted) ranged_server 0 lone_server
    (proj1 ranged_ok) Hclock eq_refl Hadd).
Defined.

(** A client that renews its lease names its address in [ciaddr], in network
    order; the comparison is in host order, and the request is dropped. *)
Definition renewal : list Z :=
  put off_ciaddr (le_bytes32 (htonl wanted))
    (put off_chaddr mac_a (put off_op [BOOTREQUEST; 1; 6] (default [] (dhcp_init_header DHCPREQUEST)))).

Example renewal_ignored : log (after renewal offered_server) = log offered_server.
Proof. vm_compute. reflexivity. Qed.
