(* ===== verification/DhcpNet.v ===== *)
(** * DHCP packets on the network.

    The sockets, frames and interface queries of [src/gdhcp/common.c], the
    link-layer socket and receiver of [src/gdhcp/client.c], and the ARP probes
    of [src/gdhcp/ipv4ll.c].  The functions run in the failure monad over the
    [world] of [Posix.v]; they fail where a copy would leave its buffer and
    where a loop has used up its fuel. *)

From stdpp Require Import gmultiset.
From S2P Require Import Prelude StateFail CLib Bytes DhcpCommon Posix.

(** ** Constants *)

Definition AF_INET : Z := 2.
Definition AF_INET6 : Z := 10.
Definition AF_PACKET : Z := 17.
Definition ETH_P_IP : Z := 0x0800.
Definition ETH_P_ARP : Z := 0x0806.
Definition IPPROTO_UDP : Z := 17.
Definition IPPROTO_IPV6 : Z := 41.
Definition IPV6_PKTINFO : Z := 50.
Definition IPVERSION : Z := 4.
Definition IPDEFTTL : Z := 64.
Definition SO_REUSEADDR : Z := 2.
Definition SO_BINDTODEVICE : Z := 25.
Definition SO_ATTACH_FILTER : Z := 26.
Definition SIOCGIFNAME : Z := 0x8910.
Definition SIOCGIFFLAGS : Z := 0x8913.
Definition SIOCGIFHWADDR : Z := 0x8927.
Definition IFF_UP : Z := 1.
Definition CLIENT_PORT : Z := 68.
Definition SERVER_PORT : Z := 67.
Definition DHCPV6_SERVER_PORT : Z := 547.
Definition DHCPV6_CLIENT_PORT : Z := 546.
Definition ARPHRD_ETHER : Z := 1.
Definition ARPOP_REQUEST : Z := 1.
Definition ARPOP_REPLY : Z := 2.
Definition LINKLOCAL_ADDR : Z := 0xa9fe0000.
Definition IN_CLASSB_HOST : Z := 0xffff.

(** Offsets of [struct ip_udp_dhcp_packet]. *)
Definition ip_tot_len : Z := 2.
Definition ip_ttl : Z := 8.
Definition ip_protocol : Z := 9.
Definition ip_check : Z := 10.
Definition ip_saddr : Z := 12.
Definition ip_daddr : Z := 16.
Definition sizeof_ip : Z := 20.
Definition udp_source : Z := 20.
Definition udp_dest : Z := 22.
Definition udp_len : Z := 24.
Definition udp_check : Z := 26.
Definition sizeof_udp : Z := 8.
Definition off_data : Z := 28.
Definition sizeof_frame : Z := sizeof_ip + sizeof_udp + sizeof_packet.
Definition IP_UPD_DHCP_SIZE : Z := sizeof_frame - EXTEND_FOR_BUGGY_SERVERS.
Definition UPD_DHCP_SIZE : Z := IP_UPD_DHCP_SIZE - udp_source.
Definition DHCP_SIZE : Z := sizeof_packet - EXTEND_FOR_BUGGY_SERVERS.

(** ** Frames *)

Definition zeroes (n : Z) : list Z := replicate (Z.to_nat n) 0.

Definition sockaddr_ll (protocol ifindex hatype pkttype halen : Z) (addr : list Z) : list Z :=
  le_bytes16 AF_PACKET ++ le_bytes16 protocol ++ le_bytes32 ifindex ++ le_bytes16 hatype ++
  [pkttype; halen] ++ addr.

Definition sockaddr_in (port addr : Z) : list Z :=
  le_bytes16 AF_INET ++ le_bytes16 port ++ le_bytes32 addr ++ zeroes 8.

Definition sockaddr_in6 (port : Z) (addr : list Z) : list Z :=
  le_bytes16 AF_INET6 ++ le_bytes16 port ++ zeroes 4 ++ addr ++ zeroes 4.

Definition put16 (off v : Z) (p : list Z) : list Z := put off (le_bytes16 v) p.

Definition put32 (off v : Z) (p : list Z) : list Z := put off (le_bytes32 v) p.

(** The frame [dhcp_send_raw_packet] builds; [None]: a checksum loop did not
    end. *)
Definition raw_frame (dhcp_pkt : list Z) (source_ip source_port dest_ip dest_port : Z) : option (list Z) :=
  let packet := put off_data dhcp_pkt (zeroes sizeof_frame) in
  let packet := put ip_protocol [IPPROTO_UDP] packet in
  let packet := put32 ip_saddr source_ip packet in
  let packet := put32 ip_daddr dest_ip packet in
  let packet := put16 udp_source (htons source_port) packet in
  let packet := put16 udp_dest (htons dest_port) packet in
  let packet := put16 udp_len (htons UPD_DHCP_SIZE) packet in
  let packet := put16 ip_tot_len (htons UPD_DHCP_SIZE) packet in
  match dhcp_checksum 3 (ztake IP_UPD_DHCP_SIZE packet) with
  | None => None
  | Some c =>
    let packet := put16 udp_check c packet in
    let packet := put16 ip_tot_len (htons IP_UPD_DHCP_SIZE) packet in
    let packet := put 0 [Z.lor (Z.shiftl IPVERSION 4) (Z.shiftr sizeof_ip 2)] packet in
    let packet := put ip_ttl [IPDEFTTL] packet in
    match dhcp_checksum 3 (ztake sizeof_ip packet) with
    | None => None
    | Some c => Some (ztake IP_UPD_DHCP_SIZE (put16 ip_check c packet))
    end
  end.

(** [udp.len] is compared with the low 16 bits of the difference. *)
Definition sanity_check (packet : list Z) (bytes : Z) : bool :=
  if negb (byte_at packet ip_protocol =? IPPROTO_UDP) then false
  else if negb (Z.shiftr (byte_at packet 0) 4 =? IPVERSION) then false
  else if negb (Z.land (byte_at packet 0) 15 =? Z.shiftr sizeof_ip 2) then false
  else if negb (get_le16 packet udp_dest =? htons CLIENT_PORT) then false
  else if negb (htons (get_le16 packet udp_len) =? u16 (bytes - sizeof_ip)) then false
  else true.

(** What [dhcp_recv_l2_packet] does with the [bytes] bytes read into [packet]:
    the result and the caller's buffer, which held [dhcp_pkt]. *)
Definition check_frame (dhcp_pkt packet : list Z) (bytes : Z) : option (Z * list Z) :=
  if bytes <? sizeof_ip + sizeof_udp then Some (-1, dhcp_pkt)
  else if bytes <? htons (get_le16 packet ip_tot_len) then Some (-1, dhcp_pkt)
  else
    let bytes := htons (get_le16 packet ip_tot_len) in
    if negb (sanity_check packet bytes) then Some (-1, dhcp_pkt)
    else
      let check := get_le16 packet ip_check in
      let packet := put16 ip_check 0 packet in
      match dhcp_checksum 3 (ztake sizeof_ip packet) with
      | None => None
      | Some sum =>
        if negb (check =? sum) then Some (-1, dhcp_pkt)
        else
          let packet := put 0 (zeroes ip_protocol) packet in
          let packet := put16 ip_tot_len (get_le16 packet udp_len) packet in
          let check := get_le16 packet udp_check in
          let packet := put16 udp_check 0 packet in
          match dhcp_checksum 3 (ztake bytes packet) with
          | None => None
          | Some sum =>
            if negb (check =? 0) && negb (check =? sum) then Some (-1, dhcp_pkt)
            else if bytes <? sizeof_ip + sizeof_udp then None
            else
              let n := bytes - (sizeof_ip + sizeof_udp) in
              let dhcp_pkt := put 0 (ztake n (zdrop off_data packet)) dhcp_pkt in
              if negb (get_le32 dhcp_pkt off_cookie =? htonl DHCP_MAGIC) then Some (-1, dhcp_pkt)
              else Some (n, dhcp_pkt)
          end
      end.

(** The program [dhcp_l2_socket] attaches: (code, jt, jf, k). *)
Definition filter_instr : list (Z * Z * Z * Z) := [
  (0x30, 0, 0, 9);                 (* BPF_LD|BPF_B|BPF_ABS *)
  (0x15, 2, 0, IPPROTO_UDP);       (* BPF_JMP|BPF_JEQ|BPF_K *)
  (0x20, 0, 0, 2);                 (* BPF_LD|BPF_W|BPF_ABS *)
  (0x15, 3, 4, 0x08000604);
  (0xb1, 0, 0, 0);                 (* BPF_LDX|BPF_B|BPF_MSH *)
  (0x40, 0, 0, 0);                 (* BPF_LD|BPF_W|BPF_IND *)
  (0x15, 0, 1, 67 * 2 ^ 16 + 68);
  (0x06, 0, 0, 0x0fffffff);        (* BPF_RET|BPF_K *)
  (0x06, 0, 0, 0)
].

Definition filter_bytes : list Z :=
  concat (map (fun '(code, jt, jf, k) => le_bytes16 code ++ [jt; jf] ++ le_bytes32 k) filter_instr).

(** [struct ether_arp] as [ipv4ll_send_arp_packet] fills it. *)
Definition arp_request (source_eth : list Z) (source_ip target_ip : Z) : list Z :=
  le_bytes16 (htons ARPHRD_ETHER) ++ le_bytes16 (htons ETH_P_IP) ++ [ETH_ALEN; 4] ++
  le_bytes16 (htons ARPOP_REQUEST) ++ ztake ETH_ALEN source_eth ++ le_bytes32 (htonl source_ip) ++
  zeroes ETH_ALEN ++ le_bytes32 (htonl target_ip).

(** ff02::1:2 *)
Definition in6addr_all_dhcp_relay_agents_and_servers_mc : list Z :=
  [255; 2; 0; 0; 0; 0; 0; 0; 0; 0; 0; 0; 0; 1; 0; 2].

(** ** Functions *)

Section net.
Context (kernel : list event -> call -> Z * list Z).

Definition nio : Type -> Type := sfm world.

Definition ncall (c : call) : nio (Z * list Z) := fun w => Some (sys kernel c w).

Definition ncall_ (c : call) : nio Z := fun w => Some (sys_ kernel c w).

(** [close(fd); return -errno;] after a call that answered [r]; the error number
    is positive. *)
Definition close_errno (fd r : Z) : nio Z :=
  let* c := ncall_ (Close fd) in sret (if c <? 0 then c else Z.min r (-1)).

(** [close(fd); return r;] *)
Definition close_ret {A} (fd : Z) (r : A) : nio A :=
  let* _ := ncall_ (Close fd) in sret r.

(** The same at the end of a sender, where [n] is the answer to the send. *)
Definition close_sent (fd n : Z) : nio Z :=
  if n <? 0 then close_errno fd n else close_ret fd n.

Definition dhcp_send_raw_packet (dhcp_pkt : list Z) (source_ip source_port dest_ip dest_port : Z)
    (dest_arp : list Z) (ifindex : Z) : nio Z :=
  let* fd := ncall_ (SocketOn AF_PACKET (htons ETH_P_IP)) in
  if fd <? 0 then sret fd
  else
    let dest := sockaddr_ll (htons ETH_P_IP) ifindex 0 0 6 (ztake 6 dest_arp ++ [0; 0]) in
    let* r := ncall_ (Bind fd dest) in
    if r <? 0 then close_errno fd r
    else
      let* packet := slift (raw_frame dhcp_pkt source_ip source_port dest_ip dest_port) in
      let* n := ncall_ (SendTo fd packet dest) in
      close_sent fd n.

Definition dhcp_send_kernel_packet (dhcp_pkt : list Z) (source_ip source_port dest_ip dest_port : Z) :
    nio Z :=
  let* fd := ncall_ (SocketOn AF_INET IPPROTO_UDP) in
  if fd <? 0 then sret fd
  else
    let* _ := ncall_ (SetSockOpt fd SO_REUSEADDR (le_bytes32 1)) in
    let* r := ncall_ (Bind fd (sockaddr_in (htons source_port) (htonl source_ip))) in
    if r <? 0 then close_errno fd r
    else
      let* r := ncall_ (Connect fd (sockaddr_in (htons dest_port) (htonl dest_ip))) in
      if r <? 0 then close_errno fd r
      else
        let* n := ncall_ (Write fd (ztake DHCP_SIZE dhcp_pkt)) in
        close_sent fd n.

Definition dhcp_l3_socket (port : Z) (interface : list Z) (family : Z) : nio Z :=
  let* fd := ncall_ (SocketOn family IPPROTO_UDP) in
  if fd <? 0 then sret fd
  else
    let* _ := ncall_ (SetSockOpt fd SO_REUSEADDR (le_bytes32 1)) in
    let* r := ncall_ (SetSockOpt fd SO_BINDTODEVICE (cstr interface ++ [0])) in
    if r <? 0 then close_ret fd (-1)
    else
      let addr :=
        if family =? AF_INET then Some (sockaddr_in (htons port) 0)
        else if family =? AF_INET6 then Some (sockaddr_in6 (htons port) (zeroes 16))
        else None in
      match addr with
      | None => close_ret fd (- EINVAL)
      | Some addr =>
        let* r := ncall_ (Bind fd addr) in
        if negb (r =? 0) then close_ret fd (-1) else sret fd
      end.

Definition get_interface_name (index : Z) : nio (option (list Z)) :=
  if index <? 0 then sret None
  else
    let* sk := ncall_ (SocketOn AF_INET 0) in
    if sk <? 0 then sret None
    else
      let* (err, ifr_name) := ncall (Ioctl sk SIOCGIFNAME (le_bytes32 index)) in
      if err <? 0 then close_ret sk None else close_ret sk (Some (cstr ifr_name)).

(** The flags are the first element of what the last call stores. *)
Definition interface_is_up (index : Z) : nio bool :=
  let* sk := ncall_ (SocketOn AF_INET 0) in
  if sk <? 0 then sret false
  else
    let* (err, ifr_name) := ncall (Ioctl sk SIOCGIFNAME (le_bytes32 index)) in
    if err <? 0 then close_ret sk false
    else
      let* (err, ifr_flags) := ncall (Ioctl sk SIOCGIFFLAGS ifr_name) in
      if err <? 0 then close_ret sk false
      else close_ret sk (negb (Z.land (byte_at ifr_flags 0) IFF_UP =? 0)).

(** The address afterwards, given the one before. *)
Definition get_interface_mac_address (index : Z) (mac_address : list Z) : nio (list Z) :=
  let* sk := ncall_ (SocketOn AF_INET 0) in
  if sk <? 0 then sret mac_address
  else
    let* (err, ifr_name) := ncall (Ioctl sk SIOCGIFNAME (le_bytes32 index)) in
    if err <? 0 then close_ret sk mac_address
    else
      let* (err, sa_data) := ncall (Ioctl sk SIOCGIFHWADDR ifr_name) in
      if err <? 0 then close_ret sk mac_address
      else close_ret sk (ztake 6 (sa_data ++ zeroes 6)).

Definition dhcp_l2_socket (ifindex : Z) : nio Z :=
  let* fd := ncall_ (SocketOn AF_PACKET (htons ETH_P_IP)) in
  if fd <? 0 then sret (-1)
  else
    let* _ := (if (SERVER_PORT =? 67) && (CLIENT_PORT =? 68)
               then ncall_ (SetSockOpt fd SO_ATTACH_FILTER filter_bytes) else sret 0) in
    let* r := ncall_ (Bind fd (sockaddr_ll (htons ETH_P_IP) ifindex 0 0 0 (zeroes 8))) in
    if negb (r =? 0) then close_errno fd r else sret fd.

(** The result and the caller's buffer, which held [dhcp_pkt] before. *)
Definition dhcp_recv_l2_packet (dhcp_pkt : list Z) (fd : Z) : nio (Z * list Z) :=
  let* (bytes, data) := ncall (Read fd sizeof_frame) in
  if bytes <? 0 then sret (-1, dhcp_pkt)
  else slift (check_frame dhcp_pkt (put 0 (ztake bytes data) (zeroes sizeof_frame)) bytes).

(** The read of [dhcp_recv_l3_packet], whose rest is in [DhcpCommon.v]. *)
Definition read_l3_packet (fuel : nat) (fd : Z) : nio (Z * list Z) :=
  let* (n, data) := ncall (Read fd sizeof_packet) in
  slift (dhcp_recv_l3_packet fuel (if n <? 0 then inr (- n) else inl (ztake n data))).

(** ** DHCPv6 *)

(** A header alone: the message and the transaction id. *)
Definition dhcpv6_init_header (type : Z) : nio (list Z) :=
  let* id := ncall_ Rand in
  sret [u8 type; Z.land (Z.shiftr id 16) 0xff; Z.land (Z.shiftr id 8) 0xff; Z.land id 0xff].

(** [None]: the packet pointer is left as it was. *)
Definition dhcpv6_recv_l3_packet (buf_len fd : Z) : nio (Z * option (list Z)) :=
  let* (n, data) := ncall (Read fd buf_len) in
  if n <? 0 then sret (n, None) else sret (n, Some (ztake n data)).

(** The control message: a header of 16 bytes and a [struct in6_pktinfo]. *)
Definition pktinfo_control (index : Z) : list Z :=
  le_bytes32 36 ++ zeroes 4 ++ le_bytes32 IPPROTO_IPV6 ++ le_bytes32 IPV6_PKTINFO ++
  zeroes 16 ++ le_bytes32 index.

Definition dhcpv6_send_packet (index : Z) (dhcp_pkt : list Z) (len : Z) : nio Z :=
  let* fd := ncall_ (SocketOn AF_INET6 IPPROTO_UDP) in
  if fd <? 0 then sret fd
  else
    let dst := sockaddr_in6 (htons DHCPV6_SERVER_PORT) in6addr_all_dhcp_relay_agents_and_servers_mc in
    let* ok := (fun w => Some (on_heap (grant 40) w)) in
    if negb ok then close_ret fd (- ENOMEM)
    else
      let* ret := ncall_ (SendMsg fd (ztake len dhcp_pkt) dst (pktinfo_control index)) in
      let* _ := (fun w => Some (on_heap (free_blocks 1) w)) in
      close_ret fd (if ret <? 0 then -1 else ret).

(** ** IPv4 link-local addresses *)

(** [do tmp = rand () & IN_CLASSB_HOST; while (...)] *)
Fixpoint random_host (fuel : nat) : nio Z :=
  match fuel with
  | O => slift None
  | S fuel =>
    let* tmp := ncall_ Rand in
    let tmp := Z.land (u32 tmp) IN_CLASSB_HOST in
    if IN_CLASSB_HOST - 0x0200 <? tmp then random_host fuel else sret tmp
  end.

(** [tv_sec] and [tv_usec] are the two numbers [gettimeofday] stores. *)
Definition tv_usec (tv : list Z) : Z := default 0 (tv !! 1%nat).

Definition ipv4ll_random_ip (fuel : nat) (seed : Z) : nio Z :=
  let* _ :=
    (if negb (seed =? 0) then ncall_ (Srand (u32 seed))
     else let* (_, tv) := ncall Gettimeofday in ncall_ (Srand (u32 (tv_usec tv)))) in
  let* tmp := random_host fuel in
  sret (u32 (LINKLOCAL_ADDR + 0x0100 + tmp)).

Definition ipv4ll_random_delay_ms (secs : Z) : nio Z :=
  let* (_, tv) := ncall Gettimeofday in
  let* _ := ncall_ (Srand (u32 (tv_usec tv))) in
  let* tmp := ncall_ Rand in
  sret (u32 tmp mod u32 (secs * 1000)).

Definition ipv4ll_send_arp_packet (source_eth : list Z) (source_ip target_ip ifindex : Z) : nio Z :=
  let* fd := ncall_ (SocketOn AF_PACKET (htons ETH_P_ARP)) in
  if fd <? 0 then sret fd
  else
    let dest := sockaddr_ll (htons ETH_P_ARP) ifindex 0 0 ETH_ALEN (MAC_BCAST_ADDR ++ [0; 0]) in
    let* r := ncall_ (Bind fd dest) in
    if r <? 0 then close_errno fd r
    else
      let* n := ncall_ (SendTo fd (arp_request source_eth source_ip target_ip) dest) in
      close_ret fd n.

(** The structure is not cleared: [junk] is what its last twelve bytes hold. *)
Definition ipv4ll_arp_socket (junk : list Z) (ifindex : Z) : nio Z :=
  let* fd := ncall_ (SocketOn AF_PACKET (htons ETH_P_ARP)) in
  if fd <? 0 then sret (-1)
  else
    let* r := ncall_ (Bind fd (le_bytes16 AF_PACKET ++ le_bytes16 (htons ETH_P_ARP) ++
                                 le_bytes32 ifindex ++ ztake 12 junk)) in
    if negb (r =? 0) then close_errno fd r else sret fd.

End net.

(** ** Lemmas *)

Lemma zlen_zeroes n : 0 <= n -> zlen (zeroes n) = n.
Proof. intros. unfold zlen, zeroes. rewrite length_replicate. lia. Qed.

(** Writing into a header in front of the data. *)
Lemma put_front off bytes h p :
  0 <= off -> off + zlen bytes <= zlen h -> put off bytes (h ++ p) = put off bytes h ++ p.
Proof.
  intros Ho Hl. pose proof (zlen_nonneg bytes). unfold put, memcpy. rewrite <- !app_assoc.
  rewrite ztake_app, zdrop_app by lia.
  rewrite (ztake_neg (off - zlen h) p), (zdrop_neg (off + zlen bytes - zlen h) p) by lia.
  by rewrite app_nil_r.
Qed.

Lemma get_le16_put_other off bytes packet i :
  0 <= off -> off + zlen bytes <= zlen packet -> 0 <= i -> i + 2 <= off \/ off + zlen bytes <= i ->
  get_le16 (put off bytes packet) i = get_le16 packet i.
Proof.
  intros Ho Hl Hi Hd. pose proof (zlen_nonneg bytes). unfold get_le16. rewrite !byte_at_put by lia.
  by rewrite (proj2 (andb_false_iff (off <=? i) _)), (proj2 (andb_false_iff (off <=? i + 1) _)) by lia.
Qed.

(** The 28 bytes in front of the DHCP packet. *)
Definition frame_header (ver tot_len ttl ipc saddr daddr sport dport udpc : Z) : list Z :=
  [ver; 0] ++ le_bytes16 tot_len ++ [0; 0; 0; 0; ttl; IPPROTO_UDP] ++ le_bytes16 ipc ++
  le_bytes32 saddr ++ le_bytes32 daddr ++ le_bytes16 sport ++ le_bytes16 dport ++
  le_bytes16 (htons UPD_DHCP_SIZE) ++ le_bytes16 udpc.

(** The header under the UDP checksum, and the header sent. *)
Definition pseudo_header (s d sp dp : Z) : list Z :=
  frame_header 0 (htons UPD_DHCP_SIZE) 0 0 s d (htons sp) (htons dp) 0.

Definition sent_header (s d sp dp udpc ipc : Z) : list Z :=
  frame_header 69 (htons IP_UPD_DHCP_SIZE) IPDEFTTL ipc s d (htons sp) (htons dp) udpc.

Ltac header_eq :=
  unfold put16, put32, put, memcpy, ztake, zdrop, zeroes, pseudo_header, sent_header, frame_header;
  cbv -[u8 Z.div Z.pow htons]; reflexivity.

Lemma raw_frame_eq pkt s sp d dp :
  zlen pkt = sizeof_packet ->
  raw_frame pkt s sp d dp =
    match dhcp_checksum 3 (pseudo_header s d sp dp ++ ztake DHCP_SIZE pkt) with
    | None => None
    | Some c =>
      match dhcp_checksum 3 (ztake sizeof_ip (sent_header s d sp dp c 0)) with
      | None => None
      | Some c' => Some (sent_header s d sp dp c c' ++ ztake DHCP_SIZE pkt)
      end
    end.
Proof.
  intros Hl. unfold raw_frame.
  assert (put off_data pkt (zeroes sizeof_frame) = zeroes off_data ++ pkt) as ->.
  { unfold put, memcpy. rewrite (zdrop_all (off_data + zlen pkt)) by (rewrite Hl; done).
    by rewrite app_nil_r. }
  unfold put16, put32. cbn zeta. rewrite !put_front by done.
  assert (forall h, zlen h = 28 -> ztake IP_UPD_DHCP_SIZE (h ++ pkt) = h ++ ztake DHCP_SIZE pkt) as Ht.
  { intros h Hh. rewrite ztake_app, Hh, ztake_all by (rewrite Hh; done). done. }
  rewrite Ht by done.
  match goal with |- match dhcp_checksum 3 (?h ++ _) with _ => _ end = _ =>
    assert (h = pseudo_header s d sp dp) as -> by header_eq end.
  destruct (dhcp_checksum 3 (pseudo_header s d sp dp ++ _)) as [c|]; [|done].
  rewrite !put_front by done. rewrite (ztake_app_le sizeof_ip) by done.
  match goal with |- match dhcp_checksum 3 (ztake _ ?h) with _ => _ end = _ =>
    assert (h = sent_header s d sp dp c 0) as -> by header_eq end.
  destruct (dhcp_checksum 3 (ztake sizeof_ip _)) as [c'|]; [|done].
  rewrite put_front by done. rewrite Ht by done. by do 2 f_equal.
Qed.

Lemma frame_header_ok ver tl ttl ipc s d sp dp uc :
  byte_ok ver -> byte_ok ttl -> Forall byte_ok (frame_header ver tl ttl ipc s d sp dp uc).
Proof.
  intros Hv Ht. unfold frame_header. rewrite !Forall_app.
  split_and!; try apply le_bytes16_ok; try apply le_bytes32_ok;
    repeat (apply Forall_cons_2; [first [done | split; done]|]); constructor.
Qed.

(** The receiver's checks on a frame of full size, in terms of its checksums. *)
Lemma check_frame_eq old pkt pad s sp d c c' :
  zlen pkt = DHCP_SIZE -> zlen old = sizeof_packet -> 0 <= c < 2 ^ 16 -> 0 <= c' < 2 ^ 16 ->
  dhcp_checksum 3 (pseudo_header s d sp CLIENT_PORT ++ pkt) = Some c ->
  dhcp_checksum 3 (ztake sizeof_ip (sent_header s d sp CLIENT_PORT c 0)) = Some c' ->
  get_le32 pkt off_cookie = htonl DHCP_MAGIC ->
  check_frame old (sent_header s d sp CLIENT_PORT c c' ++ pkt ++ pad) IP_UPD_DHCP_SIZE =
    Some (DHCP_SIZE, put 0 pkt old).
Proof.
  intros Hl Ho Hc Hc' Hsum Hsum' Hm.
  assert (forall v, 0 <= v < 2 ^ 16 -> u8 v + 2 ^ 8 * u8 (v / 2 ^ 8) = v) as Hget.
  { intros v Hv. unfold u8. Z.div_mod_to_equations. lia. }
  set (h := sent_header s d sp CLIENT_PORT c c').
  assert (zlen h = 28) as Hh by done.
  assert (get_le16 (h ++ pkt ++ pad) ip_check = c') as Hgc by exact (Hget c' Hc').
  assert (htons (get_le16 (h ++ pkt ++ pad) ip_tot_len) = IP_UPD_DHCP_SIZE) as Hgt by done.
  assert (put16 ip_check 0 (h ++ pkt ++ pad) = sent_header s d sp CLIENT_PORT c 0 ++ pkt ++ pad) as Hp1.
  { unfold put16. rewrite put_front by done. f_equal. }
  set (h2 := put 0 (zeroes ip_protocol) (sent_header s d sp CLIENT_PORT c 0)).
  assert (put 0 (zeroes ip_protocol) (sent_header s d sp CLIENT_PORT c 0 ++ pkt ++ pad) = h2 ++ pkt ++ pad) as Hp2
    by by rewrite put_front.
  assert (get_le16 (h2 ++ pkt ++ pad) udp_len = htons UPD_DHCP_SIZE) as Hgl by done.
  assert (put16 ip_tot_len (htons UPD_DHCP_SIZE) (h2 ++ pkt ++ pad) =
          put16 ip_tot_len (htons UPD_DHCP_SIZE) h2 ++ pkt ++ pad) as Hp3
    by (unfold put16; by rewrite put_front).
  assert (get_le16 (put16 ip_tot_len (htons UPD_DHCP_SIZE) h2 ++ pkt ++ pad) udp_check = c) as Hgu
    by exact (Hget c Hc).
  assert (put16 udp_check 0 (put16 ip_tot_len (htons UPD_DHCP_SIZE) h2 ++ pkt ++ pad) =
          pseudo_header s d sp CLIENT_PORT ++ pkt ++ pad) as Hp4.
  { unfold put16 at 1. rewrite put_front by done. f_equal. }
  unfold check_frame. rewrite Hgt, Hgc, Hp1, Hp2, Hgl, Hp3, Hgu, Hp4.
  change (IP_UPD_DHCP_SIZE <? sizeof_ip + sizeof_udp) with false.
  change (IP_UPD_DHCP_SIZE <? IP_UPD_DHCP_SIZE) with false.
  change (sanity_check (h ++ pkt ++ pad) IP_UPD_DHCP_SIZE) with true. cbn [negb].
  rewrite (ztake_app_le sizeof_ip), Hsum', Z.eqb_refl by done. cbn [negb].
  assert (ztake IP_UPD_DHCP_SIZE (pseudo_header s d sp CLIENT_PORT ++ pkt ++ pad) =
          pseudo_header s d sp CLIENT_PORT ++ pkt) as ->.
  { rewrite app_assoc. apply ztake_app_eq. rewrite zlen_app, Hl. done. }
  rewrite Hsum, Z.eqb_refl. cbn [negb]. rewrite andb_false_r. cbn iota.
  rewrite (zdrop_app_eq off_data) by done. rewrite (ztake_app_eq _ pkt) by (rewrite Hl; done).
  assert (get_le32 (put 0 pkt old) off_cookie = get_le32 pkt off_cookie) as ->.
  { unfold get_le32. rewrite !byte_at_put by (rewrite ?Hl, ?Ho; done). rewrite Hl. done. }
  by rewrite Hm, Z.eqb_refl.
Qed.

Lemma checksum_some l : Forall byte_ok l -> zlen l <= 2 ^ 16 -> exists c, dhcp_checksum 3 l = Some c /\ 0 <= c < 2 ^ 16.
Proof. intros Hb Hl. destruct (checksum_spec l Hb Hl) as (r & -> & Hr & _). exists (65535 - r). split; [done|lia]. Qed.

(** Frames are always built, and a frame to the client's port passes the
    receiver's checks. *)
Lemma raw_frame_total pkt s sp d dp :
  packet_ok pkt ->
  exists c c', raw_frame pkt s sp d dp = Some (sent_header s d sp dp c c' ++ ztake DHCP_SIZE pkt) /\
    0 <= c < 2 ^ 16 /\ 0 <= c' < 2 ^ 16 /\
    dhcp_checksum 3 (pseudo_header s d sp dp ++ ztake DHCP_SIZE pkt) = Some c /\
    dhcp_checksum 3 (ztake sizeof_ip (sent_header s d sp dp c 0)) = Some c'.
Proof.
  intros [Hl Hb]. rewrite raw_frame_eq by done.
  destruct (checksum_some (pseudo_header s d sp dp ++ ztake DHCP_SIZE pkt)) as (c & Hc & Hr).
  { apply Forall_app_2; [by apply frame_header_ok|]. by apply Forall_take. }
  { rewrite zlen_app. assert (zlen (ztake DHCP_SIZE pkt) = DHCP_SIZE) as ->; [|done].
    unfold DHCP_SIZE, sizeof_packet, EXTEND_FOR_BUGGY_SERVERS in *. zlia. }
  rewrite Hc. destruct (checksum_some (ztake sizeof_ip (sent_header s d sp dp c 0))) as (c' & Hc' & Hr').
  { apply Forall_take. by apply frame_header_ok. }
  { done. }
  rewrite Hc'. exists c, c'. exact (conj eq_refl (conj Hr (conj Hr' (conj eq_refl Hc')))).
Qed.

(** ** Descriptors *)

(** The user's functions that were called. *)
Definition callbacks (t : list event) : list nat :=
  omap (fun e => match ev_call e with Callback fn _ => Some fn | _ => None end) t.

(** Nothing is left open, closed twice, or allocated, and the user is not
    called. *)
Definition keeps (w w' : world) : Prop :=
  w_fds w' = w_fds w /\ w_bad w' = w_bad w /\ h_live (w_heap w') = h_live (w_heap w) /\
  callbacks (w_trace w') = callbacks (w_trace w).

(** The result is a new descriptor, or an error and nothing is left open. *)
Definition opens (w : world) (fd : Z) (w' : world) : Prop :=
  if fd <? 0 then keeps w w'
  else w_fds w' = {[+ fd +]} ⊎ w_fds w /\ w_bad w' = w_bad w /\ h_live (w_heap w') = h_live (w_heap w) /\
       callbacks (w_trace w') = callbacks (w_trace w).

(** Calls that neither make nor close a descriptor. *)
Definition plain (c : call) : bool :=
  match c with Close _ | Callback _ _ => false | _ => negb (creates c) end.

Lemma callbacks_called c r d w :
  match c with Callback _ _ => false | _ => true end = true ->
  callbacks (w_trace (called c r d w)) = callbacks (w_trace w).
Proof. intros Hc. unfold called, callbacks. cbn [w_trace]. rewrite omap_app. destruct c; try done; apply app_nil_r. Qed.

Lemma keeps_plain w w0 c r d : plain c = true -> keeps w w0 -> keeps w (called c r d w0).
Proof.
  intros Hc (H1 & H2 & H3 & H4). unfold keeps. rewrite callbacks_called by (by destruct c). by destruct c.
Qed.

Lemma opens_plain w w0 fd c r d : plain c = true -> opens w fd w0 -> opens w fd (called c r d w0).
Proof.
  unfold opens. destruct (fd <? 0); [apply keeps_plain|]. intros Hc (H1 & H2 & H3 & H4).
  rewrite callbacks_called by (by destruct c). by destruct c.
Qed.

Lemma opens_create w w0 c r d : creates c = true -> keeps w w0 -> opens w r (called c r d w0).
Proof.
  intros Hc (H1 & H2 & H3 & H4). unfold opens, keeps. rewrite callbacks_called by (by destruct c).
  destruct (Z.ltb_spec r 0).
  - split_and!; [|by destruct c|done|done]. rewrite <- H1.
    assert ((0 <=? r) = false) as Hr by (apply Z.leb_gt; lia). destruct c; cbn; by rewrite ?Hr.
  - split_and!; [|by destruct c|done|done]. rewrite <- H1.
    assert ((0 <=? r) = true) as Hr by (apply Z.leb_le; lia). destruct c; cbn; try done; by rewrite ?Hr.
Qed.

Lemma keeps_close w w0 fd r d : 0 <= fd -> opens w fd w0 -> keeps w (called (Close fd) r d w0).
Proof.
  unfold opens. intros Hf. rewrite (proj2 (Z.ltb_ge fd 0)) by done. intros (H1 & H2 & H3 & H4).
  unfold keeps. rewrite callbacks_called by done. split_and!; [| |done|done].
  - change (w_fds w0 ∖ {[+ fd +]} = w_fds w). rewrite H1. apply pop_head.
  - change ((if decide (fd ∈ w_fds w0) then w_bad w0 else w_bad w0 + 1) = w_bad w).
    rewrite decide_True; [done|]. rewrite H1. apply in_head.
Qed.

Lemma keeps_refl w : keeps w w.
Proof. done. Qed.

Lemma keeps_trans w1 w2 w3 : keeps w1 w2 -> keeps w2 w3 -> keeps w1 w3.
Proof. intros (? & ? & ? & ?) (? & ? & ? & ?). unfold keeps. split_and!; congruence. Qed.

#[export] Hint Resolve keeps_refl : core.

Section senders.
Context (kernel : list event -> call -> Z * list Z) (F : Prop).

Lemma swp_ncall c (Q : Z * list Z -> world -> Prop) w :
  (forall r d, kernel (w_trace w) c = (r, d) -> Q (r, d) (called c r d w)) -> swp F (ncall kernel c) Q w.
Proof. intros HQ. unfold swp, ncall, sys. destruct (kernel (w_trace w) c) as [r d]. by apply HQ. Qed.

Lemma swp_ncall_ c (Q : Z -> world -> Prop) w :
  (forall r d, kernel (w_trace w) c = (r, d) -> Q r (called c r d w)) -> swp F (ncall_ kernel c) Q w.
Proof. intros HQ. unfold swp, ncall_, sys_, sys. destruct (kernel (w_trace w) c) as [r d]. by eapply HQ. Qed.

Lemma close_errno_keeps w w0 fd r (Q : Z -> world -> Prop) :
  0 <= fd -> opens w fd w0 -> (forall z w', z < 0 -> keeps w w' -> Q z w') ->
  swp F (close_errno kernel fd r) Q w0.
Proof.
  intros Hf Ho HQ. apply swp_bind, swp_ncall_. intros c d _. apply swp_ret, HQ; [|by apply keeps_close].
  destruct (Z.ltb_spec c 0); lia.
Qed.

Lemma close_ret_keeps {A} w w0 fd (r : A) (Q : A -> world -> Prop) :
  0 <= fd -> opens w fd w0 -> (forall w', keeps w w' -> Q r w') -> swp F (close_ret kernel fd r) Q w0.
Proof.
  intros Hf Ho HQ. apply swp_bind, swp_ncall_. intros c d _. by apply swp_ret, HQ, keeps_close.
Qed.

Lemma close_sent_keeps w w0 fd n (Q : Z -> world -> Prop) :
  0 <= fd -> opens w fd w0 -> (forall z w', keeps w w' -> Q z w') -> swp F (close_sent kernel fd n) Q w0.
Proof.
  intros Hf Ho HQ. unfold close_sent. destruct (n <? 0).
  - apply (close_errno_keeps w); auto.
  - apply (close_ret_keeps w); auto.
Qed.

End senders.

(** A plain call, a call that opens a descriptor, and the ends of a function
    with one open descriptor. *)
Ltac net_call := apply swp_bind, swp_ncall_; intros ? ? _.

Ltac net_fact :=
  lazymatch goal with
  | |- keeps _ (called _ _ _ _) => apply keeps_plain; [reflexivity|net_fact]
  | |- opens _ _ (called _ _ _ _) => first [apply opens_plain; [reflexivity|net_fact] | apply opens_create; [reflexivity|net_fact]]
  | |- _ => by auto
  end.

Ltac net_open H :=
  net_call; lazymatch goal with |- context [?fd <? 0] => destruct (Z.ltb_spec fd 0) as [H|H] end.

Ltac net_end :=
  first [ eapply close_errno_keeps | eapply close_ret_keeps | eapply close_sent_keeps ];
  [done|net_fact|].

Section sends.
Context (kernel : list event -> call -> Z * list Z).

Lemma opens_neg w fd w' : fd < 0 -> opens w fd w' -> keeps w w'.
Proof. unfold opens. intros Hf. by rewrite (proj2 (Z.ltb_lt _ _)). Qed.

Lemma send_raw_keeps (F : Prop) pkt s sp d dp arp ifindex w :
  packet_ok pkt \/ F ->
  swp F (dhcp_send_raw_packet kernel pkt s sp d dp arp ifindex) (fun _ w' => keeps w w') w.
Proof.
  intros Hp. unfold dhcp_send_raw_packet. net_open Hf; [apply swp_ret; eapply opens_neg; [done|net_fact]|].
  net_call. destruct (_ <? 0); [by net_end|].
  apply swp_bind, swp_lift; [intros ? _; net_call; by net_end|].
  destruct Hp as [Hp|]; [|done]. destruct (raw_frame_total pkt s sp d dp Hp) as (c & c' & -> & _). done.
Qed.

Lemma send_kernel_keeps pkt s sp d dp w :
  swp False (dhcp_send_kernel_packet kernel pkt s sp d dp) (fun _ w' => keeps w w') w.
Proof.
  unfold dhcp_send_kernel_packet. net_open Hf; [apply swp_ret; eapply opens_neg; [done|net_fact]|].
  net_call. net_call. destruct (_ <? 0); [by net_end|].
  net_call. destruct (_ <? 0); [by net_end|]. net_call. by net_end.
Qed.

Lemma send_arp_keeps eth s d ifindex w :
  swp False (ipv4ll_send_arp_packet kernel eth s d ifindex) (fun _ w' => keeps w w') w.
Proof.
  unfold ipv4ll_send_arp_packet. net_open Hf; [apply swp_ret; eapply opens_neg; [done|net_fact]|].
  net_call. destruct (_ <? 0); [by net_end|]. net_call. by net_end.
Qed.

(** A socket the caller keeps. *)
Lemma opens_result w w0 fd r (Q : Z -> world -> Prop) :
  0 <= fd -> opens w fd w0 -> (forall z w', opens w z w' -> Q z w') ->
  swp False (if negb (r =? 0) then close_errno kernel fd r else sret fd) Q w0.
Proof.
  intros Hf Ho HQ. destruct (negb _); [|by apply swp_ret, HQ].
  apply (close_errno_keeps kernel _ w); [done..|]. intros z w' Hz Hk. apply HQ.
  unfold opens. by rewrite (proj2 (Z.ltb_lt _ _)).
Qed.

Lemma opens_failed w w' fd z : fd < 0 -> z < 0 -> opens w fd w' -> opens w z w'.
Proof. intros Hf Hz Ho. unfold opens. rewrite (proj2 (Z.ltb_lt z 0)) by done. by apply (opens_neg w fd). Qed.

Lemma keeps_opens w w' z : z < 0 -> keeps w w' -> opens w z w'.
Proof. intros Hz Hk. unfold opens. by rewrite (proj2 (Z.ltb_lt z 0)). Qed.

Lemma l2_socket_opens ifindex w :
  swp False (dhcp_l2_socket kernel ifindex) (fun z w' => opens w z w') w.
Proof.
  unfold dhcp_l2_socket. net_open Hf; [apply swp_ret; eapply opens_failed; [exact Hf|done|net_fact]|].
  net_call. net_call. apply (opens_result w); [done|net_fact|done].
Qed.

Lemma arp_socket_opens junk ifindex w :
  swp False (ipv4ll_arp_socket kernel junk ifindex) (fun z w' => opens w z w') w.
Proof.
  unfold ipv4ll_arp_socket. net_open Hf; [apply swp_ret; eapply opens_failed; [exact Hf|done|net_fact]|].
  net_call. apply (opens_result w); [done|net_fact|done].
Qed.

Lemma l3_socket_opens port interface family w :
  swp False (dhcp_l3_socket kernel port interface family) (fun z w' => opens w z w') w.
Proof.
  unfold dhcp_l3_socket. net_open Hf; [apply swp_ret; net_fact|].
  net_call. net_call. destruct (_ <? 0); [net_end; intros; by apply keeps_opens|].
  destruct (if family =? AF_INET then _ else _); [|net_end; intros; by apply keeps_opens].
  net_call. destruct (negb _); [net_end; intros; by apply keeps_opens|]. apply swp_ret. net_fact.
Qed.

Lemma delay_keeps secs w :
  0 < secs < 4000000 ->
  swp False (ipv4ll_random_delay_ms kernel secs) (fun ms w' => keeps w w' /\ 0 <= ms < secs * 1000) w.
Proof.
  intros Hs. unfold ipv4ll_random_delay_ms. apply swp_bind, swp_ncall. intros ? ? _.
  net_call. net_call. apply swp_ret. split; [net_fact|]. assert (u32 (secs * 1000) = secs * 1000) as -> by (apply Z.mod_small; lia).
  apply Z.mod_pos_bound. lia.
Qed.

Lemma mac_keeps index mac w :
  swp False (get_interface_mac_address kernel index mac) (fun _ w' => keeps w w') w.
Proof.
  unfold get_interface_mac_address. net_open Hf; [apply swp_ret; apply (opens_neg w r); [done|net_fact]|].
  apply swp_bind, swp_ncall. intros r1 d1 _. destruct (r1 <? 0); [by net_end|].
  apply swp_bind, swp_ncall. intros r2 d2 _. destruct (r2 <? 0); by net_end.
Qed.

Lemma up_keeps index w : swp False (interface_is_up kernel index) (fun _ w' => keeps w w') w.
Proof.
  unfold interface_is_up. net_open Hf; [apply swp_ret; apply (opens_neg w r); [done|net_fact]|].
  apply swp_bind, swp_ncall. intros r1 d1 _. destruct (r1 <? 0); [by net_end|].
  apply swp_bind, swp_ncall. intros r2 d2 _. destruct (r2 <? 0); by net_end.
Qed.

Lemma name_keeps index w : swp False (get_interface_name kernel index) (fun _ w' => keeps w w') w.
Proof.
  unfold get_interface_name. destruct (index <? 0); [by apply swp_ret|].
  net_open Hf; [apply swp_ret; apply (opens_neg w r); [done|net_fact]|].
  apply swp_bind, swp_ncall. intros r1 d1 _. destruct (r1 <? 0); by net_end.
Qed.

Lemma read_l2_keeps old fd w (F : Prop) (Q : Z * list Z -> world -> Prop) :
  (forall r w', keeps w w' -> Q r w') -> F -> swp F (dhcp_recv_l2_packet kernel old fd) Q w.
Proof.
  intros HQ HF. unfold dhcp_recv_l2_packet. apply swp_bind, swp_ncall. intros r d _.
  destruct (_ <? 0); [apply swp_ret, HQ; net_fact|]. apply swp_lift; [intros x _; apply HQ; net_fact|done].
Qed.

End sends.

(** ** Properties *)

(** C32. A DHCP packet sent on the link comes back unchanged from the receiver:
    the sender always builds a frame, and when the kernel delivers that frame to
    the link-layer socket of a client, [dhcp_recv_l2_packet] accepts it (length,
    header and both checksums) and leaves the 548 bytes sent at the start of the
    caller's buffer. *)
Theorem l2_frame_roundtrip kernel pkt s sp d old fd w :
  packet_ok pkt -> get_le32 pkt off_cookie = htonl DHCP_MAGIC -> zlen old = sizeof_packet ->
  exists frame, raw_frame pkt s sp d CLIENT_PORT = Some frame /\ zlen frame = IP_UPD_DHCP_SIZE /\
    (kernel (w_trace w) (Read fd sizeof_frame) = (zlen frame, frame) ->
     dhcp_recv_l2_packet kernel old fd w =
       Some ((DHCP_SIZE, put 0 (ztake DHCP_SIZE pkt) old),
             called (Read fd sizeof_frame) (zlen frame) frame w)).
Proof.
  intros Hp Hm Ho. destruct (raw_frame_total pkt s sp d CLIENT_PORT Hp) as (c & c' & Hf & Hc & Hc' & Hs & Hs').
  destruct Hp as [Hl Hb]. assert (zlen (ztake DHCP_SIZE pkt) = DHCP_SIZE) as Hd.
  { unfold DHCP_SIZE, sizeof_packet, EXTEND_FOR_BUGGY_SERVERS in *. zlia. }
  eexists; split; [exact Hf|]. assert (zlen (sent_header s d sp CLIENT_PORT c c' ++ ztake DHCP_SIZE pkt) = IP_UPD_DHCP_SIZE) as Hz.
  { rewrite zlen_app, Hd. done. }
  split; [exact Hz|]. rewrite Hz. intros Hk. unfold dhcp_recv_l2_packet, sbind, ncall, sys. rewrite Hk.
  change (IP_UPD_DHCP_SIZE <? 0) with false. cbn iota. fold (called (Read fd sizeof_frame) IP_UPD_DHCP_SIZE (sent_header s d sp CLIENT_PORT c c' ++ ztake DHCP_SIZE pkt) w).
  rewrite (ztake_all IP_UPD_DHCP_SIZE) by (rewrite Hz; done).
  unfold put at 1, memcpy. change (ztake 0 (zeroes sizeof_frame)) with (@nil Z). cbn [app].
  rewrite <- app_assoc. rewrite (check_frame_eq _ _ _ _ _ _ c c'); [reflexivity|exact Hd|exact Ho|exact Hc|exact Hc'|exact Hs|exact Hs'|].
  rewrite <- Hm. unfold get_le32, byte_at, ztake. rewrite !lookup_take_lt by (unfold DHCP_SIZE, off_cookie, sizeof_packet, EXTEND_FOR_BUGGY_SERVERS; lia).
  done.
Qed.

(** A frame that claims to be shorter than its own headers makes the receiver
    copy far past its buffers: the length is checked against the frame but not
    from below, and the size of the copy wraps around.  Everything in the
    hypotheses is chosen by the sender of the frame. *)
Theorem dhcp_recv_l2_overrun old packet bytes sum :
  sizeof_ip + sizeof_udp <= bytes ->
  htons (get_le16 packet ip_tot_len) < sizeof_ip + sizeof_udp ->
  sanity_check packet (htons (get_le16 packet ip_tot_len)) = true ->
  dhcp_checksum 3 (ztake sizeof_ip (put16 ip_check 0 packet)) = Some sum ->
  get_le16 packet ip_check = sum -> get_le16 packet udp_check = 0 -> zlen packet = sizeof_frame ->
  check_frame old packet bytes = None.
Proof.
  intros Hb Ht Hs Hsum Hc Hu Hl. unfold check_frame.
  rewrite (proj2 (Z.ltb_ge bytes (sizeof_ip + sizeof_udp))), (proj2 (Z.ltb_ge bytes _)) by lia.
  rewrite Hs, Hsum, Hc, Z.eqb_refl. cbn [negb].
  match goal with |- context [get_le16 (put16 ip_tot_len ?a ?b) udp_check] =>
    assert (get_le16 (put16 ip_tot_len a b) udp_check = 0) as -> end.
  { transitivity (get_le16 packet udp_check); [|done]. unfold put16.
    repeat (rewrite get_le16_put_other; rewrite ?zlen_put; rewrite ?Hl; try done);
      first [by right | rewrite zlen_put; rewrite ?Hl; done]. }
  change (negb (0 =? 0)) with false. cbn [andb].
  rewrite (proj2 (Z.ltb_lt (htons (get_le16 packet ip_tot_len)) _)) by done.
  repeat case_match; done.
Qed.

(** Whatever [rand] gives, an address the client picks for itself lies in
    169.254.1.0 - 169.254.254.255, the range RFC 3927 allows. *)
Theorem ipv4ll_random_ip_range kernel fuel seed w ip w' :
  ipv4ll_random_ip kernel fuel seed w = Some (ip, w') -> 0xa9fe0100 <= ip <= 0xa9fefeff.
Proof.
  assert (forall f w tmp w', random_host kernel f w = Some (tmp, w') -> 0 <= tmp <= 0xfdff) as Hh.
  { induction f as [|f IH]; intros w0 tmp w1 H; [done|]. cbn [random_host] in H.
    unfold sbind, ncall_, sys_, sys in H. destruct (kernel _ Rand) as [r d].
    destruct (Z.ltb_spec (IN_CLASSB_HOST - 0x0200) (Z.land (u32 r) IN_CLASSB_HOST)) as [Hlt|Hge]; [by eapply IH|].
    injection H as <- _. split; [|exact Hge]. apply Z.land_nonneg. right. done. }
  unfold ipv4ll_random_ip, sbind. intros H.
  match type of H with match ?m with _ => _ end = _ => destruct m as [[? w1]|]; [|done] end.
  destruct (random_host kernel fuel w1) as [[tmp w2]|] eqn:E; [|done]. apply Hh in E. injection H as <- _.
  unfold u32, LINKLOCAL_ADDR. rewrite Z.mod_small by lia. lia.
Qed.

(** ** The properties at concrete inputs *)

(** A DISCOVER header with a hardware address. *)
Definition sample_packet : list Z :=
  put off_chaddr [2; 0; 0; 0; 0; 1] (default [] (dhcp_init_header DHCPDISCOVER)).

Lemma sample_packet_ok : packet_ok sample_packet.
Proof.
  split; [vm_compute; reflexivity|]. vm_compute.
  repeat (constructor; [split; [discriminate|reflexivity]|]). constructor.
Qed.

Definition sample_frame : list Z := default [] (raw_frame sample_packet 0 SERVER_PORT 0 CLIENT_PORT).

Definition world0 : world := mkWorld heap0 ∅ 0 [].

Lemma l2_frame_roundtrip_witness :
  exists frame, raw_frame sample_packet 0 SERVER_PORT 0 CLIENT_PORT = Some frame /\ zlen frame = IP_UPD_DHCP_SIZE /\
    ((fun (_ : list event) (_ : call) => (576, sample_frame)) [] (Read 3 sizeof_frame) = (zlen frame, frame) ->
     dhcp_recv_l2_packet (fun _ _ => (576, sample_frame)) zero_packet 3 world0 =
       Some ((DHCP_SIZE, put 0 (ztake DHCP_SIZE sample_packet) zero_packet),
             called (Read 3 sizeof_frame) (zlen frame) frame world0)).
Proof.
  apply (l2_frame_roundtrip (fun _ _ => (576, sample_frame)) sample_packet 0 SERVER_PORT 0 zero_packet 3 world0).
  - exact sample_packet_ok.
  - vm_compute; reflexivity.
  - reflexivity.
Defined.

(** An IP header alone, with the UDP header of an empty packet. *)
Definition short_frame : list Z :=
  let h := [69; 0; 0; 20; 0; 0; 0; 0; 64; 17; 0; 0; 10; 0; 0; 1; 255; 255; 255; 255; 0; 67; 0; 68; 0; 0; 0; 0] in
  put 0 (put16 ip_check (default 0 (dhcp_checksum 3 (ztake sizeof_ip h))) h) (zeroes sizeof_frame).

Lemma dhcp_recv_l2_overrun_witness : check_frame zero_packet short_frame 28 = None.
Proof.
  eapply dhcp_recv_l2_overrun; [discriminate|vm_compute; reflexivity..].
Defined.

Lemma ipv4ll_random_ip_range_witness :
  0xa9fe0100 <= fst (default (0, world0) (ipv4ll_random_ip (fun _ _ => (65000, [])) 3 7 world0)) <= 0xa9fefeff.
Proof.
  eapply (ipv4ll_random_ip_range (fun _ _ => (65000, [])) 3 7 world0 _ _). vm_compute. reflexivity.
Defined.
