(* ===== verification/DhcpClientBase.v ===== *)
(** * The state of the DHCP client ([src/gdhcp/client.c]).

    [client] is [struct _GDHCPClient]; [cstate] adds what the client shares with
    its process: the event sources of the GLib main loop, the string blocks it
    points to, and the [world] of [Posix.v].  A step fails ([None]) where it
    would touch memory it must not touch or where a search does not end. *)

From stdpp Require Import gmap gmultiset.
From S2P Require Import Prelude RecordSet StateFail CLib Bytes DhcpCommon Posix DhcpNet.

(** ** Data *)

Definition DISCOVER_TIMEOUT : Z := 3.
Definition DISCOVER_RETRIES : Z := 10.
Definition REQUEST_TIMEOUT : Z := 3.
Definition REQUEST_RETRIES : Z := 5.
Definition PROBE_WAIT : Z := 1.
Definition PROBE_NUM : Z := 3.
Definition PROBE_MIN : Z := 1.
Definition PROBE_MAX : Z := 2.
Definition ANNOUNCE_WAIT : Z := 2.
Definition ANNOUNCE_NUM : Z := 2.
Definition ANNOUNCE_INTERVAL : Z := 2.
Definition MAX_CONFLICTS : Z := 10.
Definition DEFEND_INTERVAL : Z := 10.

Inductive ListenMode := L_NONE | L2 | L3 | L_ARP.

#[export] Instance ListenMode_dec : EqDecision ListenMode.
Proof. solve_decision. Defined.

Inductive ClientState :=
| INIT_SELECTING | REQUESTING | BOUND | RENEWING | REBINDING | RELEASED
| IPV4LL_PROBE | IPV4LL_ANNOUNCE | IPV4LL_MONITOR | IPV4LL_DEFEND
| INFORMATION_REQ | SOLICITATION | REQUEST | CONFIRM | RENEW | REBIND | RELEASE | DECLINE.

#[export] Instance ClientState_dec : EqDecision ClientState.
Proof. solve_decision. Defined.

Inductive GDHCPType := G_DHCP_IPV4 | G_DHCP_IPV6 | G_DHCP_IPV4LL.

#[export] Instance GDHCPType_dec : EqDecision GDHCPType.
Proof. solve_decision. Defined.

Inductive GDHCPClientEvent :=
| EVENT_LEASE_AVAILABLE | EVENT_IPV4LL_AVAILABLE | EVENT_NO_LEASE | EVENT_LEASE_LOST
| EVENT_IPV4LL_LOST | EVENT_ADDRESS_CONFLICT | EVENT_INFORMATION_REQ | EVENT_SOLICITATION
| EVENT_ADVERTISE | EVENT_REQUEST | EVENT_RENEW | EVENT_REBIND | EVENT_RELEASE
| EVENT_CONFIRM | EVENT_DECLINE.

#[export] Instance GDHCPClientEvent_dec : EqDecision GDHCPClientEvent.
Proof. solve_decision. Defined.

(** [GDHCPIAPrefix]. *)
Record ia_prefix := mkPrefix {
  prefix : list Z; prefixlen : Z; preferred : Z; valid : Z; prefix_expire : Z
}.

(** What the lists of [code_value_hash] hold. *)
Inductive option_value :=
| VString (s : list Z)
| VPrefix (p : ia_prefix).

(** The callbacks and their data are [cbs]: the number of the function that is
    registered for an event, [None] for [NULL].  [last_address] and
    [assigned_ip] are pointers; [duid] and [server_duid] are the blocks. *)
Record client := mkClient {
  ref_count : Z;
  type : GDHCPType;
  state : ClientState;
  ifindex : Z;
  interface : list Z;
  mac_address : list Z;
  xid : Z;
  server_ip : Z;
  requested_ip : Z;
  assigned_ip : option Z;
  start : Z;
  lease_seconds : Z;
  listen_mode : ListenMode;
  listener_sockfd : Z;
  retry_times : Z;
  ack_retry_times : Z;
  conflicts : Z;
  timeout : Z;
  listener_watch : Z;
  listener_channel : option Z;
  request_list : list Z;
  code_value_hash : gmap Z (list option_value);
  send_value_hash : gmap Z (list Z);
  cbs : GDHCPClientEvent -> option nat;
  last_address : option Z;
  duid : option (list Z);
  duid_len : Z;
  server_duid : option (list Z);
  server_duid_len : Z;
  status_code : Z;
  iaid : Z;
  T1 : Z;
  T2 : Z;
  ia_na : list Z;
  ia_ta : list Z;
  last_request : Z;
  expire : Z;
  retransmit : bool;
  start_time : Z * Z;
}.

#[export] Instance eta_client : Eta client := fun c =>
  mkClient (ref_count c) (type c) (state c) (ifindex c) (interface c) (mac_address c) (xid c)
    (server_ip c) (requested_ip c) (assigned_ip c) (start c) (lease_seconds c) (listen_mode c)
    (listener_sockfd c) (retry_times c) (ack_retry_times c) (conflicts c) (timeout c)
    (listener_watch c) (listener_channel c) (request_list c) (code_value_hash c)
    (send_value_hash c) (cbs c) (last_address c) (duid c) (duid_len c) (server_duid c)
    (server_duid_len c) (status_code c) (iaid c) (T1 c) (T2 c) (ia_na c) (ia_ta c)
    (last_request c) (expire c) (retransmit c) (start_time c).

(** The functions the client gives to timers. *)
Inductive timer_fn :=
| send_probe_packet_fn
| ipv4ll_probe_timeout_fn
| ipv4ll_announce_timeout_fn
| ipv4ll_defend_timeout_fn
| request_timeout_fn
| start_rebound_timeout_fn
| start_renew_request_timeout_fn
| start_renew_timeout_fn
| restart_dhcp_timeout_fn
| discover_timeout_fn.

(** A timer with its interval in milliseconds, or the watch of a descriptor
    (which closes it when it is removed). *)
Inductive source :=
| Timeout (ms : Z) (f : timer_fn)
| Watch (fd : Z).

(** [sources] are the event sources of the client that GLib holds; source ids
    are not used twice.  [strings] are the live string blocks. *)
Record cstate := mkState {
  cl : client;
  sources : gmap Z source;
  next_source : Z;
  strings : gmap Z (list Z);
  next_string : Z;
  wd : world;
}.

#[export] Instance eta_cstate : Eta cstate := fun s =>
  mkState (cl s) (sources s) (next_source s) (strings s) (next_string s) (wd s).

(** ** Steps *)

Definition cm : Type -> Type := sfm cstate.

Definition get_cl : cm client := fun s => Some (cl s, s).

Definition upd (f : client -> client) : cm unit := smod (fun s => s <| cl := f (cl s) |>).

(** A step of the network layer. *)
Definition net {A} (m : nio A) : cm A := fun s =>
  match m (wd s) with Some (a, w) => Some (a, s <| wd := w |>) | None => None end.

Definition cheap {A} (m : alloc A) : cm A := net (fun w => Some (on_heap m w)).

Definition sfail {S A} : sfm S A := slift None.

(** [g_free]; freeing a block that is not live fails. *)
Definition g_free (p : option Z) : cm unit := fun s =>
  match p with
  | None => Some (tt, s)
  | Some p => match strings s !! p with
              | Some _ => Some (tt, s <| strings := delete p (strings s) |>)
              | None => None
              end
  end.

(** A new string block. *)
Definition new_string (v : list Z) : cm Z := fun s =>
  Some (next_string s, s <| strings := <[next_string s := v]> (strings s) |>
                         <| next_string := next_string s + 1 |>).

(** Reading a string; [NULL] and dead blocks fail. *)
Definition read_string (p : Z) : cm (list Z) := fun s =>
  match strings s !! p with Some v => Some (v, s) | None => None end.

Definition g_strdup (p : option Z) : cm (option Z) :=
  match p with
  | None => sret None
  | Some p => let* v := read_string p in let* q := new_string v in sret (Some q)
  end.

Definition add_source (src : source) : cm Z := fun s =>
  Some (next_source s, s <| sources := <[next_source s := src]> (sources s) |>
                         <| next_source := next_source s + 1 |>).

(** [g_timeout_add_full] and [g_timeout_add_seconds_full]. *)
Definition g_timeout_add (ms : Z) (f : timer_fn) : cm Z := add_source (Timeout ms f).

Definition g_timeout_add_seconds (secs : Z) (f : timer_fn) : cm Z := add_source (Timeout (secs * 1000) f).

(** [dhcp_client->timeout = g_timeout_add...] *)
Definition arm (ms : Z) (f : timer_fn) : cm unit :=
  let* id := g_timeout_add ms f in upd (fun c => c <| timeout := id |>).

Definition arm_seconds (secs : Z) (f : timer_fn) : cm unit :=
  let* id := g_timeout_add_seconds secs f in upd (fun c => c <| timeout := id |>).

Section base.
Context (kernel : list event -> call -> Z * list Z).

(** Removing a source; a watch closes its descriptor.  An id that is not there
    (any more) is ignored. *)
Definition g_source_remove (id : Z) : cm unit := fun s =>
  let gone := s <| sources := delete id (sources s) |> in
  match sources s !! id with
  | Some (Watch fd) => net (let* _ := ncall_ kernel (Close fd) in sret tt) gone
  | _ => Some (tt, gone)
  end.

(** [if (dhcp_client->timeout > 0) g_source_remove(dhcp_client->timeout);] *)
Definition remove_timeout : cm unit :=
  let* c := get_cl in
  if 0 <? timeout c then g_source_remove (timeout c) else sret tt.

(** The same with [dhcp_client->timeout = 0;] in the block. *)
Definition clear_timeout : cm unit :=
  let* c := get_cl in
  if 0 <? timeout c then
    let* _ := g_source_remove (timeout c) in upd (fun c => c <| timeout := 0 |>)
  else sret tt.

(** Calling the user, if a function is registered for the event. *)
Definition call_cb (ev : GDHCPClientEvent) : cm bool :=
  let* c := get_cl in
  match cbs c ev with
  | Some fn => let* _ := net (ncall_ kernel (Callback fn [])) in sret true
  | None => sret false
  end.

Definition notify (ev : GDHCPClientEvent) : cm unit := let* _ := call_cb ev in sret tt.

End base.

(** ** Lemmas *)

Section wp.
Context (kernel : list event -> call -> Z * list Z).

Lemma swp_get_cl F (Q : client -> cstate -> Prop) s : Q (cl s) s -> swp F get_cl Q s.
Proof. done. Qed.

Lemma swp_upd F f (Q : unit -> cstate -> Prop) s : Q tt (s <| cl := f (cl s) |>) -> swp F (upd f) Q s.
Proof. done. Qed.

Lemma swp_net {A} F (m : nio A) (Q : A -> cstate -> Prop) s :
  swp F m (fun a w => Q a (s <| wd := w |>)) (wd s) -> swp F (net m) Q s.
Proof. unfold swp, net. by destruct (m (wd s)) as [[a w]|]. Qed.

Lemma swp_arm F ms f (Q : unit -> cstate -> Prop) s :
  Q tt (s <| sources := <[next_source s := Timeout ms f]> (sources s) |>
          <| next_source := next_source s + 1 |>
          <| cl := cl s <| timeout := next_source s |> |>) ->
  swp F (arm ms f) Q s.
Proof. done. Qed.

End wp.
