(* ===== verification/DhcpClient6.v ===== *)
(** * DHCPv6 messages of the client ([src/gdhcp/client.c]).

    The options the user asks to send, the messages built from them, and what
    the client reads from a reply.  A message is the list of its bytes up to
    [ptr]; a pointer into a received message is the list of the bytes from
    there on (bytes behind the buffer read as 0).  Debug output is left out. *)

From stdpp Require Import gmap gmultiset pretty.
From S2P Require Import Prelude RecordSet StateFail CLib Bytes DhcpCommon Posix DhcpNet DhcpClientBase.

(** ** Constants *)

Definition G_DHCPV6_CLIENTID : Z := 1.
Definition G_DHCPV6_SERVERID : Z := 2.
Definition G_DHCPV6_IA_NA : Z := 3.
Definition G_DHCPV6_IA_TA : Z := 4.
Definition G_DHCPV6_IAADDR : Z := 5.
Definition G_DHCPV6_ORO : Z := 6.
Definition G_DHCPV6_ELAPSED_TIME : Z := 8.
Definition G_DHCPV6_STATUS_CODE : Z := 13.
Definition G_DHCPV6_RAPID_COMMIT : Z := 14.
Definition G_DHCPV6_DNS_SERVERS : Z := 23.
Definition G_DHCPV6_DOMAIN_LIST : Z := 24.
Definition G_DHCPV6_IA_PD : Z := 25.
Definition G_DHCPV6_IA_PREFIX : Z := 26.
Definition G_DHCPV6_SNTP_SERVERS : Z := 31.

Definition DHCPV6_SOLICIT : Z := 1.
Definition DHCPV6_ADVERTISE : Z := 2.
Definition DHCPV6_REQUEST : Z := 3.
Definition DHCPV6_CONFIRM : Z := 4.
Definition DHCPV6_RENEW : Z := 5.
Definition DHCPV6_REBIND : Z := 6.
Definition DHCPV6_REPLY : Z := 7.
Definition DHCPV6_RELEASE : Z := 8.
Definition DHCPV6_DECLINE : Z := 9.
Definition DHCPV6_INFORMATION_REQ : Z := 11.

Definition MAX_DHCPV6_PKT_SIZE : Z := 1500.
Definition NS_MAXDNAME : Z := 1025.
Definition DUID_TIME_EPOCH : Z := 946684800.

Inductive GDHCPDuidType := G_DHCPV6_DUID_LLT | G_DHCPV6_DUID_EN | G_DHCPV6_DUID_LL.

(** ** Writing options *)

(** The bytes of [v >> 24], [v >> 16], [v >> 8] and [v]. *)
Definition be_bytes16 (v : Z) : list Z := [u8 (v / 2 ^ 8); u8 v].
Definition be_bytes32 (v : Z) : list Z := [u8 (v / 2 ^ 24); u8 (v / 2 ^ 16); u8 (v / 2 ^ 8); u8 v].

(** What [copy_option] stores; [msg] may be [NULL]. *)
Definition copy_option (code len : Z) (msg : option (list Z)) : list Z :=
  be_bytes16 code ++ be_bytes16 len ++
  match msg with Some m => if 0 <? len then ztake len m else [] | None => [] end.

(** One entry of the table of options to send; [buf] is the message so far. *)
Definition add_dhcpv6_binary_option (max_buf : Z) (buf option : list Z) : list Z :=
  let len := byte_at option 2 * 2 ^ 8 + byte_at option 3 in
  if max_buf <? zlen buf + (len + 2 + 2) then buf else buf ++ ztake (len + 2 + 2) option.

(** Centiseconds between two times, in an [int32_t]. *)
Definition time_diff (now tv : Z * Z) : Z :=
  i32 (i32 ((fst now - fst tv) * 100) + Z.quot (snd now - snd tv) 10000).

Definition timeval (data : list Z) : Z * Z := (default 0 (data !! 0%nat), default 0 (data !! 1%nat)).

(** ** Reading options *)

Definition get_uint32 (value : list Z) : Z :=
  byte_at value 0 * 2 ^ 24 + byte_at value 1 * 2 ^ 16 + byte_at value 2 * 2 ^ 8 + byte_at value 3.

Definition get_uint16 (value : list Z) : Z := byte_at value 0 * 2 ^ 8 + byte_at value 1.

(** The inner loop of [get_domains]: every length byte becomes a dot, and the
    result says where the loop stops.  [None]: it leaves the buffer. *)
Fixpoint dots (fuel : nat) (dns_name : list Z) (c : Z) : option (list Z * Z) :=
  match fuel with
  | O => None
  | S fuel =>
    if zlen dns_name <=? c then None
    else
      let jump := byte_at dns_name c in
      if jump =? 0 then Some (dns_name, c)
      else dots fuel (put c [chr "."] dns_name) (c + (jump + 1))
  end.

(** [strncpy]: the bytes before the terminator, padded with zeros. *)
Definition strncpy (src : list Z) (n : Z) : list Z :=
  let s := ztake n (cstr src) in s ++ zeroes (n - zlen s).

(** The last byte of the array is never set. *)
Fixpoint domains_loop (fuel : nat) (maxlen : Z) (value : list Z) (pos : Z) (acc : list (list Z)) :
    option (list (list Z)) :=
  match fuel with
  | O => None
  | S fuel =>
    if maxlen <=? pos then Some (rev acc)
    else
      match dots (Z.to_nat NS_MAXDNAME + 1) (strncpy (zdrop pos value) NS_MAXDNAME) 0 with
      | None => None
      | Some (dns_name, c) =>
        domains_loop fuel maxlen value (pos + (c + 1)) (cstr (zdrop 1 dns_name) :: acc)
      end
  end.

Definition get_domains (maxlen : Z) (value : list Z) : option (list (list Z)) :=
  if maxlen <? 3 then Some [] else domains_loop (S (Z.to_nat maxlen)) maxlen value 0 [].

(** The local variables of the loop of [get_addresses]. *)
Record addrs := mkAddrs {
  a_list : list option_value;
  a_addr : list Z;
  a_preferred : Z;
  a_valid : Z;
  a_st : Z;
  a_status : Z;
  a_addr_count : Z;
  a_prefix_count : Z;
  a_shortest : Z;
}.

#[export] Instance eta_addrs : Eta addrs := fun a =>
  mkAddrs (a_list a) (a_addr a) (a_preferred a) (a_valid a) (a_st a) (a_status a)
    (a_addr_count a) (a_prefix_count a) (a_shortest a).

Section client6.
(** [inet_pton] and [inet_ntop] for [AF_INET6], the order in which a hash table
    is walked, and what uninitialised memory holds. *)
Context (kernel : list event -> call -> Z * list Z).
Context (inet_pton6 : list Z -> option (list Z)).
Context (inet_ntop6 : list Z -> list Z).
Context (foreach_order : gmap Z (list Z) -> list (Z * list Z)).
Context (stack : list event -> list Z).

Definition junk (n : Z) : cm (list Z) := fun s => Some (ztake n (stack (w_trace (wd s))), s).

(** [g_list_find], [g_list_prepend] *)
Definition g_dhcp_client_set_request (option_code : Z) : cm unit :=
  upd (fun c =>
    if bool_decide (option_code ∈ request_list c) then c
    else c <| request_list := option_code :: request_list c |>).

(** Entering a block in [send_value_hash]; the value it replaces is freed. *)
Definition send_hash_insert (code : Z) (v : list Z) : cm unit :=
  let* c := get_cl in
  let* _ := (match send_value_hash c !! code with
             | Some _ => cheap (free_blocks 1)
             | None => sret tt
             end) in
  upd (fun c => c <| send_value_hash := <[code := v]> (send_value_hash c) |>).

(** [g_malloc] ends the program instead of failing. *)
Definition g_malloc : cm unit :=
  cheap (fun h => (tt, mkHeap (h_answers h) (h_fill h) (h_live h + 1))).

Definition alloc_dhcpv6_option (code : Z) (option : list Z) (len : Z) : cm (list Z) :=
  let* _ := g_malloc in sret (be_bytes16 code ++ be_bytes16 len ++ ztake len option).

(** [option_len] is a [uint16_t]. *)
Definition g_dhcpv6_client_set_send (option_code : Z) (option_value : option (list Z)) (option_len : Z) :
    cm unit :=
  match option_value with
  | None => sret tt
  | Some v =>
    let* b := alloc_dhcpv6_option option_code v (u16 option_len) in
    send_hash_insert option_code b
  end.

(** Whether the key was there. *)
Definition g_dhcpv6_client_clear_send (code : Z) : cm bool :=
  let* c := get_cl in
  match send_value_hash c !! code with
  | Some _ =>
    let* _ := cheap (free_blocks 1) in
    let* _ := upd (fun c => c <| send_value_hash := delete code (send_value_hash c) |>) in
    sret true
  | None => sret false
  end.

(** ** Building a message *)

(** Appends an option of [len] bytes of data, if it fits; the flag says whether
    the caller goes on.  Data shorter than [len] would be read past its end. *)
Definition add_request_option (max_buf : Z) (buf : list Z) (code len : Z) (msg : option (list Z)) :
    cm (bool * list Z) :=
  if max_buf <? zlen buf + (2 + 2 + len) then sret (false, buf)
  else if (len <? 0) || match msg with Some m => zlen m <? len | None => false end then sfail
  else sret (true, buf ++ copy_option code (u16 len) msg).

Definition get_time_diff (tv : Z * Z) : cm Z :=
  let* (_, data) := net (ncall kernel Gettimeofday) in sret (time_diff (timeval data) tv).

(** One option of [request_list]; [false]: the function returns. *)
Definition add_dhcpv6_request_option (max_buf : Z) (buf : list Z) (code : Z) : cm (bool * list Z) :=
  let* c := get_cl in
  if code =? G_DHCPV6_CLIENTID then
    match duid c with
    | None => sret (false, buf)
    | Some d => add_request_option max_buf buf G_DHCPV6_CLIENTID (duid_len c) (Some d)
    end
  else if code =? G_DHCPV6_SERVERID then
    match server_duid c with
    | None => sret (true, buf)
    | Some d => add_request_option max_buf buf G_DHCPV6_SERVERID (server_duid_len c) (Some d)
    end
  else if code =? G_DHCPV6_RAPID_COMMIT then
    add_request_option max_buf buf G_DHCPV6_RAPID_COMMIT 0 None
  else if code =? G_DHCPV6_ELAPSED_TIME then
    let* diff := (if negb (retransmit c) then sret 0
                  else
                    let* d := get_time_diff (start_time c) in
                    sret (if (d <? 0) || (0xffff <? d) then 0xffff else d)) in
    add_request_option max_buf buf G_DHCPV6_ELAPSED_TIME 2 (Some (le_bytes16 (htons (u16 diff))))
  else sret (true, buf).

Fixpoint request_options_loop (max_buf : Z) (codes : list Z) (buf : list Z) : cm (list Z) :=
  match codes with
  | [] => sret buf
  | code :: codes =>
    let* (more, buf) := add_dhcpv6_request_option max_buf buf (u16 code) in
    if more then request_options_loop max_buf codes buf else sret buf
  end.

Definition add_dhcpv6_request_options (buf : list Z) (max_buf : Z) : cm (list Z) :=
  let* c := get_cl in
  if bool_decide (type c = G_DHCP_IPV6) then request_options_loop max_buf (request_list c) buf
  else sret buf.

Definition add_dhcpv6_send_options (buf : list Z) (max_buf : Z) : cm (list Z) :=
  let* c := get_cl in
  if bool_decide (type c = G_DHCP_IPV6) then
    sret (fold_left (add_dhcpv6_binary_option max_buf) (map snd (foreach_order (send_value_hash c))) buf)
  else sret buf.

(** [transaction_id] as a number. *)
Definition packet6_xid (packet : list Z) : Z :=
  byte_at packet 1 * 2 ^ 16 + byte_at packet 2 * 2 ^ 8 + byte_at packet 3.

(** For clients of type [G_DHCP_IPV6], the only ones that get here. *)
Definition send_dhcpv6_msg (type : Z) : cm Z :=
  let* packet := net (dhcpv6_init_header kernel type) in
  let* c := get_cl in
  let* packet :=
    (if negb (retransmit c) then
       let* _ := upd (fun c => c <| xid := packet6_xid packet |>) in
       let* (_, data) := net (ncall kernel Gettimeofday) in
       let* _ := upd (fun c => c <| start_time := timeval data |>) in
       sret packet
     else sret (ztake 1 packet ++ [u8 (xid c / 2 ^ 16); u8 (xid c / 2 ^ 8); u8 (xid c)])) in
  let* _ := g_dhcp_client_set_request G_DHCPV6_ELAPSED_TIME in
  let max_buf := MAX_DHCPV6_PKT_SIZE - 4 in
  let* buf := add_dhcpv6_request_options packet max_buf in
  let* buf := add_dhcpv6_send_options buf max_buf in
  net (dhcpv6_send_packet kernel (ifindex c) buf (zlen buf)).

Definition send_solicitation : cm Z := send_dhcpv6_msg DHCPV6_SOLICIT.
Definition send_dhcpv6_request : cm Z := send_dhcpv6_msg DHCPV6_REQUEST.
Definition send_dhcpv6_confirm : cm Z := send_dhcpv6_msg DHCPV6_CONFIRM.
Definition send_dhcpv6_renew : cm Z := send_dhcpv6_msg DHCPV6_RENEW.
Definition send_dhcpv6_rebind : cm Z := send_dhcpv6_msg DHCPV6_REBIND.
Definition send_dhcpv6_decline : cm Z := send_dhcpv6_msg DHCPV6_DECLINE.
Definition send_dhcpv6_release : cm Z := send_dhcpv6_msg DHCPV6_RELEASE.
Definition send_information_req : cm Z := send_dhcpv6_msg DHCPV6_INFORMATION_REQ.

(** ** The user's settings *)

Definition g_dhcpv6_client_set_retransmit : cm unit := upd (fun c => c <| retransmit := true |>).

Definition g_dhcpv6_client_clear_retransmit : cm unit := upd (fun c => c <| retransmit := false |>).

(** The result and the block made, if any. *)
Definition g_dhcpv6_create_duid (duid_type : GDHCPDuidType) (index type : Z) :
    cm (Z * option (list Z)) :=
  match duid_type with
  | G_DHCPV6_DUID_LLT =>
    let* b := cheap (malloc (2 + 2 + 4 + ETH_ALEN)) in
    match b with
    | None => sret (- ENOMEM, None)
    | Some b =>
      let* mac := net (get_interface_mac_address kernel index (zdrop 8 b)) in
      let* now := net (ncall_ kernel Time) in
      let duid_time := now - DUID_TIME_EPOCH in
      sret (0, Some ([0; 1; 0; u8 type] ++ be_bytes32 duid_time ++ mac))
    end
  | G_DHCPV6_DUID_EN => sret (- EINVAL, None)
  | G_DHCPV6_DUID_LL =>
    let* b := cheap (malloc (2 + 2 + ETH_ALEN)) in
    match b with
    | None => sret (- ENOMEM, None)
    | Some b =>
      let* mac := net (get_interface_mac_address kernel index (zdrop 4 b)) in
      sret (0, Some ([0; 3; 0; u8 type] ++ mac))
    end
  end.

(** [if (!dhcp_client || dhcp_client->type != G_DHCP_IPV6) return a;] *)
Definition only_ipv6 {A} (a : A) (m : cm A) : cm A :=
  let* c := get_cl in if bool_decide (type c = G_DHCP_IPV6) then m else sret a.

(** The old block is freed. *)
Definition g_dhcpv6_client_set_duid (d : list Z) (len : Z) : cm Z :=
  only_ipv6 (- EINVAL) (
    let* c := get_cl in
    let* _ := (match duid c with Some _ => cheap (free_blocks 1) | None => sret tt end) in
    let* _ := upd (fun c => c <| duid := Some d |> <| duid_len := len |>) in
    sret 0).

(** A time option of an identity association. *)
Definition time_bytes (t : option Z) : list Z :=
  match t with Some t => be_bytes32 t | None => zeroes 4 end.

(** The options after one more prefix, or [None] when it does not fit. *)
Definition add_ia_prefix (max_buf : Z) (options : list Z) (p : ia_prefix) : option (list Z) :=
  if max_buf <=? zlen options + 2 + 2 + (4 + 4 + 1 + 16) then None
  else Some (options ++ copy_option G_DHCPV6_IA_PREFIX (4 + 4 + 1 + 16)
               (Some (zeroes 8 ++ [prefixlen p] ++ ztake 16 (prefix p)))).

Fixpoint add_ia_prefixes (max_buf : Z) (options : list Z) (ps : list ia_prefix) : option (list Z) :=
  match ps with
  | [] => Some options
  | p :: ps => match add_ia_prefix max_buf options p with
               | None => None
               | Some options => add_ia_prefixes max_buf options ps
               end
  end.

Definition g_dhcpv6_client_set_pd (t1 t2 : option Z) (prefixes : list ia_prefix) : cm Z :=
  only_ipv6 (- EINVAL) (
    let* _ := g_dhcp_client_set_request G_DHCPV6_IA_PD in
    let* c := get_cl in
    match add_ia_prefixes 1452 (be_bytes32 (iaid c) ++ time_bytes t1 ++ time_bytes t2) prefixes with
    | None => sret (- EINVAL)
    | Some options =>
      let* _ := g_dhcpv6_client_set_send G_DHCPV6_IA_PD (Some options) (zlen options) in sret 0
    end).

Definition g_dhcpv6_client_get_iaid : cm Z :=
  only_ipv6 0 (let* c := get_cl in sret (iaid c)).

Definition g_dhcpv6_client_set_iaid (v : Z) : cm unit :=
  only_ipv6 tt (upd (fun c => c <| iaid := v |>)).

(** The four bytes written to the caller's buffer; the local one is not set
    when the address cannot be read. *)
Definition g_dhcpv6_client_create_iaid (index : Z) : cm (list Z) :=
  let* buf := junk 6 in
  let* buf := net (get_interface_mac_address kernel index buf) in
  let id := ztake 4 (zdrop 2 buf) in
  let* _ := upd (fun c => c <| iaid := get_uint32 id |>) in
  sret id.

(** T1, T2, and the times of the last request and of expiry. *)
Definition g_dhcpv6_client_get_timeouts : cm (Z * option (Z * Z * Z * Z)) :=
  only_ipv6 (- EINVAL, None) (
    let* c := get_cl in
    sret (0, Some (T1 c, T2 c, last_request c, last_request c + expire c))).

(** An address option; the lengths written are those of the callers. *)
Definition create_iaaddr (addr : list Z) (len : Z) : list Z :=
  [0; G_DHCPV6_IAADDR; 0; u8 len] ++ ztake 16 addr ++ zeroes 8.

Definition append_iaaddr (address : list Z) : option (list Z) :=
  option_map (fun addr => create_iaaddr addr 24) (inet_pton6 address).

Definition put_iaid (index : Z) : cm (list Z) :=
  let* id := g_dhcpv6_client_get_iaid in
  if id =? 0 then g_dhcpv6_client_create_iaid index else sret (be_bytes32 id).

(** The address the user asks for: a string, or nothing. *)
Definition g_dhcpv6_client_set_ia (index code : Z) (t1 t2 : option Z) (add_iaaddr : bool)
    (na : option (list Z)) : cm Z :=
  if code =? G_DHCPV6_IA_TA then
    let* id := put_iaid index in
    let* _ := g_dhcp_client_set_request G_DHCPV6_IA_TA in
    let* _ := g_dhcpv6_client_set_send G_DHCPV6_IA_TA (Some id) 4 in
    sret 0
  else if code =? G_DHCPV6_IA_NA then
    let* _ := g_dhcp_client_set_request G_DHCPV6_IA_NA in
    let* c := get_cl in
    let addr := match na with
                | None => if bool_decide (ia_na c = zeroes 16) then None else Some (ia_na c)
                | Some s => inet_pton6 s
                end in
    match (if add_iaaddr then addr else None) with
    | Some addr =>
      let* _ := upd (fun c => c <| ia_na := addr |>) in
      let* id := put_iaid index in
      let options := id ++ time_bytes t1 ++ time_bytes t2 ++ create_iaaddr addr (16 + 4 + 4) in
      let* _ := g_dhcpv6_client_set_send G_DHCPV6_IA_NA (Some options) (zlen options) in
      sret 0
    | None =>
      let* id := put_iaid index in
      let options := id ++ zeroes 8 in
      let* _ := g_dhcpv6_client_set_send G_DHCPV6_IA_NA (Some options) (zlen options) in
      sret 0
    end
  else sret (- EINVAL).

(** The addresses up to the first that is not valid. *)
Fixpoint append_iaaddrs (addresses : list (list Z)) : list Z :=
  match addresses with
  | [] => []
  | a :: rest => match append_iaaddr a with Some b => b ++ append_iaaddrs rest | None => [] end
  end.

Definition g_dhcpv6_client_set_ias (index code : Z) (t1 t2 : option Z) (addresses : list (list Z)) : cm Z :=
  let count := zlen addresses in
  if count =? 0 then sret (- EINVAL)
  else
    let* _ := g_dhcp_client_set_request code in
    if negb (code =? G_DHCPV6_IA_TA) && negb (code =? G_DHCPV6_IA_NA) then sret (- EINVAL)
    else
      let times := if code =? G_DHCPV6_IA_NA then time_bytes t1 ++ time_bytes t2 else [] in
      let total_len := 4 + zlen times + count * (2 + 2 + 16 + 4 + 4) in
      let* ok := cheap (grant total_len) in
      if negb ok then sret (- ENOMEM)
      else
        let* id := put_iaid index in
        let options := put 0 (id ++ times ++ append_iaaddrs addresses) (zeroes total_len) in
        let* _ := g_dhcpv6_client_set_send code (Some options) total_len in
        let* _ := cheap (free_blocks 1) in
        sret 0.

(** [g_try_malloc(0)] is [NULL]. *)
Definition g_dhcpv6_client_set_oro (args : list Z) : cm Z :=
  let len := 2 * zlen args in
  if len =? 0 then sret (- ENOMEM)
  else
    let* ok := cheap (grant len) in
    if negb ok then sret (- ENOMEM)
    else
      let* _ := g_dhcpv6_client_set_send G_DHCPV6_ORO (Some (concat (map be_bytes16 args))) len in
      let* _ := cheap (free_blocks 1) in
      sret 0.

Definition g_dhcpv6_client_reset_request : cm unit :=
  only_ipv6 tt (let* now := net (ncall_ kernel Time) in upd (fun c => c <| last_request := now |>)).

Definition g_dhcpv6_client_get_status : cm Z :=
  only_ipv6 0 (let* c := get_cl in sret (status_code c)).

(** ** Reading a reply *)

(** Asking for a block of a value list; these blocks are not counted in
    [h_live]. *)
Definition value_block (n : Z) : cm bool :=
  let* ok := cheap (grant n) in
  let* _ := (if ok then cheap (free_blocks 1) else sret tt) in
  sret ok.

(** The prefix is lost when there is no memory for it. *)
Definition add_prefix (l : list option_value) (addr : list Z) (plen pref val : Z) : cm (list option_value) :=
  let* ok := value_block 48 in
  if negb ok then sret l
  else
    let* now := net (ncall_ kernel Time) in
    sret (VPrefix (mkPrefix addr plen pref val (now + val)) :: l).

(** One sub-option. *)
Definition address_option (option : list Z) (option_code : Z) (a : addrs) : cm addrs :=
  if option_code =? G_DHCPV6_IAADDR then
    sret (a <| a_addr := ztake 16 option |>
            <| a_preferred := get_uint32 (zdrop 16 option) |>
            <| a_valid := get_uint32 (zdrop 20 option) |>
            <| a_addr_count := a_addr_count a + 1 |>)
  else if option_code =? G_DHCPV6_STATUS_CODE then
    sret (a <| a_st := get_uint16 option |> <| a_status := get_uint16 option |>)
  else if option_code =? G_DHCPV6_IA_PREFIX then
    let pref := get_uint32 option in
    let val := get_uint32 (zdrop 4 option) in
    let addr := ztake 16 (zdrop 9 option) in
    let a := a <| a_preferred := pref |> <| a_valid := val |> <| a_addr := addr |> in
    if pref <? val then
      let* l := add_prefix (a_list a) addr (byte_at option 8) pref val in
      sret (a <| a_list := l |>
              <| a_shortest := (if val <? a_shortest a then val else a_shortest a) |>
              <| a_prefix_count := a_prefix_count a + 1 |>)
    else sret a
  else sret a.

(** A pass moves [pos] by at least 4.  The length left is computed once. *)
Fixpoint addresses_loop (fuel : nat) (value : list Z) (len max_len pos : Z) (a : addrs) : cm addrs :=
  match fuel with
  | O => sfail
  | S fuel =>
    match dhcpv6_get_sub_option (zdrop pos value) max_len with
    | None => sret a
    | Some (off, option_code, option_len) =>
      if len <=? pos then sret a
      else
        let* a := address_option (zdrop (pos + off) value) option_code a in
        let pos := pos + (2 + 2 + option_len) in
        if pos <? len then addresses_loop fuel value len max_len pos a else sret a
    end
  end.

(** The list and the status afterwards. *)
Definition get_addresses (code len : Z) (value : list Z) (status : Z) : cm (list option_value * Z) :=
  let* c := get_cl in
  if (len <? 4) || negb (iaid c =? get_uint32 value) then sret ([], status)
  else
    let timed := (code =? G_DHCPV6_IA_NA) || (code =? G_DHCPV6_IA_PD) in
    let t1 := if timed then get_uint32 (zdrop 4 value) else 0 in
    let t2 := if timed then get_uint32 (zdrop 8 value) else 0 in
    let pos := if timed then 12 else 4 in
    if (t2 <? t1) || (len <=? pos) then sret ([], status)
    else
      let* a := addresses_loop (S (Z.to_nat len)) value len (u16 (len - pos)) pos
                  (mkAddrs [] [] 0 0 0 status 0 0 0) in
      if (0 <? a_addr_count a) && (a_st a =? 0) && (a_valid a <? a_preferred a) then
        sret ([], a_status a)
      else
        let* l := (if (0 <? a_addr_count a) && (a_st a =? 0) then
                     let* _ := upd (fun c =>
                       let c := c <| T1 := t1 |> <| T2 := t2 |> in
                       let c := if code =? G_DHCPV6_IA_NA then c <| ia_na := a_addr a |>
                                else c <| ia_ta := a_addr a |> in
                       if expire c <? a_valid a then c <| expire := a_valid a |> else c) in
                     sret (a_list a ++ [VString (inet_ntop6 (a_addr a))])
                   else sret (a_list a)) in
        if (0 <? a_prefix_count a) && negb (bool_decide (l = [])) then
          let* _ := upd (fun c => c <| T1 := t1 |> <| T2 := t2 |> <| expire := a_shortest a |>) in
          sret (rev l, a_status a)
        else sret (l, a_status a).

(** Servers: 16 bytes each, until there is no memory. *)
Fixpoint servers_loop (n : nat) (value : list Z) (acc : list option_value) : cm (list option_value) :=
  match n with
  | O => sret acc
  | S n =>
    let* ok := value_block 47 in
    if negb ok then sret acc
    else servers_loop n (zdrop 16 value) (acc ++ [VString (inet_ntop6 (ztake 16 value))])
  end.

Definition get_dhcpv6_option_value_list (code len : Z) (value : list Z) (status : Z) :
    cm (list option_value * Z) :=
  if (code =? G_DHCPV6_DNS_SERVERS) || (code =? G_DHCPV6_SNTP_SERVERS) then
    if negb (len mod 16 =? 0) then sret ([], status)
    else let* l := servers_loop (Z.to_nat (len / 16)) value [] in sret (l, status)
  else if (code =? G_DHCPV6_IA_NA) || (code =? G_DHCPV6_IA_TA) || (code =? G_DHCPV6_IA_PD) then
    get_addresses code len value status
  else if code =? G_DHCPV6_DOMAIN_LIST then
    let* l := slift (get_domains len value) in sret (map VString l, status)
  else sret ([], status).

(** [g_hash_table_remove] and [g_hash_table_insert] on the values received. *)
Definition value_remove (code : Z) : cm unit :=
  upd (fun c => c <| code_value_hash := delete code (code_value_hash c) |>).

Definition value_set (code : Z) (l : list option_value) : cm unit :=
  if bool_decide (l = []) then value_remove code
  else upd (fun c => c <| code_value_hash := <[code := l]> (code_value_hash c) |>).

(** [status_code] is read and written through the pointer. *)
Fixpoint dhcpv6_request_loop (codes : list Z) (packet : list Z) (pkt_len : Z) : cm unit :=
  match codes with
  | [] => sret tt
  | code :: codes =>
    let code := u16 code in
    let* r := slift (dhcpv6_get_option packet pkt_len code) in
    let* _ :=
      (match v6_ptr r with
       | None => value_remove code
       | Some p =>
         let* c := get_cl in
         let* (l, st) := get_dhcpv6_option_value_list code (default 0 (v6_len r)) (zdrop p packet) (status_code c) in
         let* _ := upd (fun c => c <| status_code := st |>) in
         value_set code l
       end) in
    dhcpv6_request_loop codes packet pkt_len
  end.

Definition get_dhcpv6_request (packet : list Z) (pkt_len : Z) : cm unit :=
  let* c := get_cl in dhcpv6_request_loop (request_list c) packet pkt_len.

End client6.
