(* ===== verification/DhcpClient.v ===== *)
(** * The DHCP client of [src/gdhcp/client.c].

    Packets of DHCPv4, the listening socket, the lease state machine, the
    link-local state machine, the packet callback and the public interface.
    The callbacks of the user are events of the world: they do not call back
    into the client (those of [src/dhcp.c] do not).  Debug output is left out.
    [dispatch] is the GLib main loop: it runs one event source. *)

From stdpp Require Import gmap gmultiset pretty.
From S2P Require Import Prelude RecordSet StateFail CLib Bytes DhcpCommon Posix DhcpNet DhcpClientBase DhcpClient6.

Definition off_secs : Z := 8.

(** ** Option values as strings *)

Definition sizeof_dotted : Z := 17.

(** [len_of_option_as_string], by option type. *)
Definition len_of_option_as_string : list Z := [0; sizeof_dotted; 1; 5; 7; 12].

(** [sprint_nip] without a prefix. *)
Definition sprint_nip (ip : list Z) : list Z :=
  dotted (byte_at ip 0) (byte_at ip 1) (byte_at ip 2) (byte_at ip 3).

(** The [while] loop; [dest] is the text written so far, [None] while the block
    holds nothing but what [g_malloc] left there. *)
Fixpoint value_loop (fuel : nat) (opt : list Z) (len type optlen : Z) (dest : option (list Z)) :
    option (list Z) :=
  match fuel with
  | O => dest
  | S fuel =>
    if len <? optlen then dest
    else
      let text := default [] dest in
      if type =? OPTION_STRING then Some (text ++ cstr (ztake len opt))
      else
        let dest :=
          if type =? OPTION_IP then Some (text ++ sprint_nip opt)
          else if type =? OPTION_U16 then Some (text ++ dec (get_be16 opt 0))
          else if type =? OPTION_U32 then Some (text ++ dec (get_be32 opt 0))
          else dest in
        let len := len - optlen in
        if len <=? 0 then dest
        else value_loop fuel (zdrop optlen opt) len type optlen (Some (default [] dest ++ [SP]))
  end.

(** [opt] is the data of an option of [len] bytes.  The result is [NULL]
    ([inl tt]), or the text; [inr None] is a block that was never written. *)
Definition malloc_option_value_string (opt : list Z) (len type : Z) : unit + option (list Z) :=
  let type := Z.land type OPTION_TYPE_MASK in
  let optlen := byte_at dhcp_option_lengths type in
  if optlen =? 0 then inl tt
  else inr (value_loop (S (Z.to_nat len)) opt len type optlen None).

(** The text cut at its blanks. *)
Fixpoint split_blanks (value cur : list Z) : list (list Z) :=
  match value with
  | [] => [rev cur]
  | c :: value => if c =? SP then rev cur :: split_blanks value [] else split_blanks value (c :: cur)
  end.

Definition get_option_value_list (value : list Z) (type : Z) : list option_value :=
  map VString (if type =? OPTION_STRING then [value] else split_blanks value []).

(** ** Packets *)

(** [None]: a write outside the packet. *)
Definition put_in (off : Z) (bytes packet : list Z) : option (list Z) :=
  if (0 <=? off) && (off + zlen bytes <=? sizeof_packet) then Some (put off bytes packet) else None.

(** The codes are written behind the end mark before the option is opened. *)
Fixpoint put_codes (off : Z) (codes packet : list Z) : option (list Z) :=
  match codes with
  | [] => Some packet
  | c :: codes => match put_in off [u8 c] packet with
                  | Some packet => put_codes (off + 1) codes packet
                  | None => None
                  end
  end.

Definition DHCP_PARAM_REQ : Z := 0x37.
Definition DHCP_MAX_SIZE : Z := 0x39.

Definition add_request_options (codes packet : list Z) : option (list Z) :=
  match dhcp_end_option (zdrop off_options packet) with
  | None => None
  | Some e =>
    let at_end := off_options + e in
    match put_codes (at_end + OPT_DATA) codes packet with
    | None => None
    | Some packet =>
      let len := zlen codes in
      if len =? 0 then Some packet
      else
        match put_in (at_end + OPT_CODE) [DHCP_PARAM_REQ; u8 len] packet with
        | None => None
        | Some packet => put_in (at_end + OPT_DATA + len) [DHCP_END] packet
        end
    end
  end.

Fixpoint add_send_options (opts : list (list Z)) (packet : list Z) : option (list Z) :=
  match opts with
  | [] => Some packet
  | o :: opts => match dhcp_add_binary_option packet o with
                 | Some packet => add_send_options opts packet
                 | None => None
                 end
  end.

(** The option search with a result the code goes on with. *)
Definition find_option (fuel : nat) (packet : list Z) (code : Z) : option (option Z) :=
  match dhcp_get_option fuel packet code with
  | OptHang => None
  | OptNull => Some None
  | OptFound p => Some (Some p)
  end.

(** The data of an option from its pointer on, and its length. *)
Definition option_data (packet : list Z) (p : Z) : list Z := zdrop p packet.
Definition option_length (packet : list Z) (p : Z) : Z := byte_at packet (p + (OPT_LEN - OPT_DATA)).

(** Between 10 seconds and about 8.5 years. *)
Definition get_lease (fuel : nat) (packet : list Z) : option Z :=
  match find_option fuel packet DHCP_LEASE_TIME with
  | None => None
  | Some None => Some 3600
  | Some (Some p) =>
    let lease_seconds := Z.land (get_be32 packet p) 0x0fffffff in
    Some (if lease_seconds <? 10 then 10 else lease_seconds)
  end.

Section client.
(** The system; [inet_addr] in network order (all ones on failure),
    [inet_pton]/[inet_ntop] for IPv6, the walk through a hash table, the
    contents of uninitialised memory, and the fuel of the searches. *)
Context (kernel : list event -> call -> Z * list Z).
Context (inet_addr : list Z -> Z).
Context (inet_ntop6 : list Z -> list Z).
Context (foreach_order : gmap Z (list Z) -> list (Z * list Z)).
Context (stack : list event -> list Z).
Context (fuel : nat).

Definition init_packet (c : client) (type : Z) : option (list Z) :=
  option_map (put off_chaddr (ztake 6 (mac_address c))) (dhcp_init_header type).

(** Seconds since the start, at most 65535, in network order. *)
Definition dhcp_attempt_secs : cm Z :=
  let* c := get_cl in
  let* now := net (ncall_ kernel Time) in
  sret (htons (u16 (Z.min (now - start c) 65535))).

(** [x] if there is one, then [k]. *)
Local Notation "'let+' x ':=' m 'in' k" := (match m with Some x => k | None => None end)
  (at level 10, x name, m at level 100, k at level 200).

(** The options every request ends with. *)
Definition finish_request (c : client) (packet : list Z) : option (list Z) :=
  let+ packet := add_request_options (request_list c) packet in
  add_send_options (map snd (foreach_order (send_value_hash c))) packet.

Definition broadcast (c : client) (packet : list Z) : cm Z :=
  net (dhcp_send_raw_packet kernel packet 0 CLIENT_PORT INADDR_BROADCAST SERVER_PORT MAC_BCAST_ADDR (ifindex c)).

Definition discover_packet (c : client) (secs requested : Z) : option (list Z) :=
  let+ packet := init_packet c DHCPDISCOVER in
  let packet := put16 off_secs secs (put32 off_xid (xid c) packet) in
  let+ packet := (if negb (requested =? 0)
                  then dhcp_add_option_uint32 packet DHCP_REQUESTED_IP requested else Some packet) in
  let+ packet := dhcp_add_option_uint16 packet DHCP_MAX_SIZE 576 in
  finish_request c packet.

Definition send_discover (requested : Z) : cm Z :=
  let* c := get_cl in
  let* secs := dhcp_attempt_secs in
  let* packet := slift (discover_packet c secs requested) in
  broadcast c packet.

Definition select_packet (c : client) (secs : Z) : option (list Z) :=
  let+ packet := init_packet c DHCPREQUEST in
  let packet := put16 off_secs secs (put32 off_xid (xid c) packet) in
  let+ packet := dhcp_add_option_uint32 packet DHCP_REQUESTED_IP (requested_ip c) in
  let+ packet := dhcp_add_option_uint32 packet DHCP_SERVER_ID (server_ip c) in
  finish_request c packet.

Definition send_select : cm Z :=
  let* c := get_cl in
  let* secs := dhcp_attempt_secs in
  let* packet := slift (select_packet c secs) in
  broadcast c packet.

(** The request of a client that has its address. *)
Definition renew_packet (c : client) : option (list Z) :=
  let+ packet := init_packet c DHCPREQUEST in
  finish_request c (put32 off_ciaddr (htonl (requested_ip c)) (put32 off_xid (xid c) packet)).

Definition send_renew : cm Z :=
  let* c := get_cl in
  let* packet := slift (renew_packet c) in
  net (dhcp_send_kernel_packet kernel packet (requested_ip c) CLIENT_PORT (server_ip c) SERVER_PORT).

Definition send_rebound : cm Z :=
  let* c := get_cl in
  let* packet := slift (renew_packet c) in
  broadcast c packet.

Definition release_packet (c : client) (x server ciaddr : Z) : option (list Z) :=
  let+ packet := init_packet c DHCPRELEASE in
  dhcp_add_option_uint32 (put32 off_ciaddr (htonl ciaddr) (put32 off_xid x packet)) DHCP_SERVER_ID server.

Definition send_release (server ciaddr : Z) : cm Z :=
  let* c := get_cl in
  let* x := net (ncall_ kernel Rand) in
  let* packet := slift (release_packet c x server ciaddr) in
  net (dhcp_send_kernel_packet kernel packet ciaddr CLIENT_PORT server SERVER_PORT).

(** ** The listening socket *)

Definition open_listener (c : client) (mode : ListenMode) : cm (option Z) :=
  match mode with
  | L2 => let* fd := net (dhcp_l2_socket kernel (ifindex c)) in sret (Some fd)
  | L3 =>
    let* fd := (if bool_decide (type c = G_DHCP_IPV6)
                then net (dhcp_l3_socket kernel DHCPV6_CLIENT_PORT (interface c) AF_INET6)
                else net (dhcp_l3_socket kernel CLIENT_PORT (interface c) AF_INET)) in
    sret (Some fd)
  | L_ARP =>
    let* j := junk stack 12 in
    let* fd := net (ipv4ll_arp_socket kernel j (ifindex c)) in sret (Some fd)
  | L_NONE => sret None
  end.

(** Leaving the current mode. *)
Definition close_listener : cm unit :=
  let* c := get_cl in
  if bool_decide (listen_mode c = L_NONE) then sret tt
  else
    let* _ := (if 0 <? listener_watch c then g_source_remove kernel (listener_watch c) else sret tt) in
    upd (fun c => c <| listener_channel := None |> <| listen_mode := L_NONE |>
                    <| listener_sockfd := -1 |> <| listener_watch := 0 |>).

Definition switch_listening_mode (mode : ListenMode) : cm Z :=
  let* c := get_cl in
  if bool_decide (listen_mode c = mode) then sret 0
  else
    let* _ := close_listener in
    if bool_decide (mode = L_NONE) then sret 0
    else
      let* fd := open_listener c mode in
      match fd with
      | None => sret (- EIO)
      | Some fd =>
        if fd <? 0 then sret (- EIO)
        else
          let* ch := net (ncall_ kernel (IoChannelNew fd)) in
          if ch <? 0 then
            let* _ := net (ncall_ kernel (Close fd)) in sret (- EIO)
          else
            let* _ := upd (fun c => c <| listen_mode := mode |> <| listener_sockfd := fd |>
                                      <| listener_channel := Some ch |>) in
            let* id := add_source (Watch fd) in
            let* _ := upd (fun c => c <| listener_watch := id |>) in
            sret 0
      end.

(** ** Requests and leases *)

Definition start_request : cm unit :=
  let* c := get_cl in
  if retry_times c =? REQUEST_RETRIES then notify kernel EVENT_NO_LEASE
  else
    let* _ := (if retry_times c =? 0 then
                 let* _ := upd (fun c => c <| state := REQUESTING |>) in
                 let* _ := switch_listening_mode L2 in sret tt
               else sret tt) in
    let* _ := send_select in
    arm_seconds REQUEST_TIMEOUT request_timeout_fn.

(** The results of the timer functions tell GLib whether to keep the timer. *)
Definition request_timeout : cm bool :=
  let* _ := upd (fun c => c <| retry_times := u8 (retry_times c + 1) |>) in
  let* _ := start_request in
  sret false.

(** ** Link-local addresses *)

Definition send_probe_packet : cm bool :=
  let* c := get_cl in
  let* _ := (if requested_ip c =? 0 then
               let* ip := net (ipv4ll_random_ip kernel fuel 0) in
               upd (fun c => c <| requested_ip := ip |>)
             else sret tt) in
  let* _ := (if retry_times c =? 1 then
               let* _ := upd (fun c => c <| state := IPV4LL_PROBE |>) in
               let* _ := switch_listening_mode L_ARP in sret tt
             else sret tt) in
  let* c := get_cl in
  let* _ := net (ipv4ll_send_arp_packet kernel (mac_address c) 0 (requested_ip c) (ifindex c)) in
  let* ms := (if retry_times c <? PROBE_NUM then
                let* t := net (ipv4ll_random_delay_ms kernel (PROBE_MAX - PROBE_MIN)) in
                sret (u32 (t + PROBE_MIN * 1000))
              else sret (ANNOUNCE_WAIT * 1000)) in
  let* _ := arm ms ipv4ll_probe_timeout_fn in
  sret false.

Definition send_announce_packet : cm bool :=
  let* c := get_cl in
  let* _ := net (ipv4ll_send_arp_packet kernel (mac_address c) (requested_ip c) (requested_ip c) (ifindex c)) in
  let* _ := remove_timeout kernel in
  let* _ := upd (fun c => c <| timeout := 0 |>) in
  let* _ := (if bool_decide (state c = IPV4LL_DEFEND)
             then arm_seconds DEFEND_INTERVAL ipv4ll_defend_timeout_fn
             else arm_seconds ANNOUNCE_INTERVAL ipv4ll_announce_timeout_fn) in
  sret true.

(** The same byte of the hardware address is used twice. *)
Definition ipv4ll_seed (c : client) : Z :=
  let b := byte_at (mac_address c) 4 in Z.lor (Z.shiftl b 8) b.

Definition ipv4ll_start : cm unit :=
  let* _ := clear_timeout kernel in
  let* _ := switch_listening_mode L_NONE in
  let* _ := upd (fun c => c <| retry_times := 0 |> <| requested_ip := 0 |>) in
  let* c := get_cl in
  let* ip := net (ipv4ll_random_ip kernel fuel (ipv4ll_seed c)) in
  let* _ := upd (fun c => c <| requested_ip := ip |>) in
  let* ms := net (ipv4ll_random_delay_ms kernel PROBE_WAIT) in
  let* _ := upd (fun c => c <| retry_times := u8 (retry_times c + 1) |>) in
  arm ms send_probe_packet_fn.

(** [g_free(dhcp_client->assigned_ip); dhcp_client->assigned_ip = NULL;] *)
Definition clear_assigned_ip : cm unit :=
  let* c := get_cl in
  let* _ := g_free (assigned_ip c) in
  upd (fun c => c <| assigned_ip := None |>).

(** [if (dhcp_client->listener_watch > 0) {...}] *)
Definition clear_watch : cm unit :=
  let* c := get_cl in
  if 0 <? listener_watch c then
    let* _ := g_source_remove kernel (listener_watch c) in
    upd (fun c => c <| listener_watch := 0 |>)
  else sret tt.

(** The timer is removed, but its number stays. *)
Definition ipv4ll_stop : cm unit :=
  let* _ := switch_listening_mode L_NONE in
  let* _ := remove_timeout kernel in
  let* _ := clear_watch in
  let* _ := upd (fun c => c <| state := IPV4LL_PROBE |> <| retry_times := 0 |> <| requested_ip := 0 |>) in
  clear_assigned_ip.

(** After a conflict the client cannot defend itself against. *)
Definition ipv4ll_restart : cm unit :=
  let* _ := ipv4ll_stop in
  let* c := get_cl in
  if conflicts c <? MAX_CONFLICTS then
    let* _ := upd (fun c => c <| retry_times := u8 (retry_times c + 1) |>) in
    let* ms := net (ipv4ll_random_delay_ms kernel PROBE_WAIT) in
    arm ms send_probe_packet_fn
  else notify kernel EVENT_NO_LEASE.

(** What [ipv4ll_recv_arp_packet] does with the [struct ether_arp] it read. *)
Definition handle_arp (arp : list Z) : cm Z :=
  let op := get_le16 arp 6 in
  if negb (op =? htons ARPOP_REPLY) && negb (op =? htons ARPOP_REQUEST) then sret (- EINVAL)
  else
    let* c := get_cl in
    let ip_requested := le_bytes32 (htonl (requested_ip c)) in
    let source_conflict := bool_decide (field_at 14 4 arp = ip_requested) in
    let target_conflict := bool_decide (field_at 24 4 arp = ip_requested) in
    if negb source_conflict && negb target_conflict then sret 0
    else
      let* _ := upd (fun c => c <| conflicts := u8 (conflicts c + 1) |>) in
      if bool_decide (state c = IPV4LL_MONITOR) then
        if negb source_conflict then sret 0
        else
          let* _ := upd (fun c => c <| state := IPV4LL_DEFEND |>) in
          let* _ := send_announce_packet in
          sret 0
      else if bool_decide (state c = IPV4LL_DEFEND) && negb source_conflict then sret 0
      else
        let* _ := (if bool_decide (state c = IPV4LL_DEFEND) then notify kernel EVENT_IPV4LL_LOST
                   else sret tt) in
        let* _ := ipv4ll_restart in
        sret 0.

Definition ipv4ll_recv_arp_packet : cm Z :=
  let* c := get_cl in
  let* (bytes, data) := net (ncall kernel (Read (listener_sockfd c) 28)) in
  if bytes <? 0 then sret bytes else handle_arp (put 0 (ztake 28 (ztake bytes data)) (zeroes 28)).

Definition ipv4ll_defend_timeout : cm bool :=
  let* _ := upd (fun c => c <| conflicts := 0 |> <| state := IPV4LL_MONITOR |>) in
  sret false.

(** [get_ip] *)
Definition get_ip (ip : Z) : cm Z := new_string (inet_ntoa ip).

(** An address that was assigned before is not freed here. *)
Definition ipv4ll_announce_timeout : cm bool :=
  let* c := get_cl in
  if negb (retry_times c =? ANNOUNCE_NUM) then
    let* _ := upd (fun c => c <| retry_times := u8 (retry_times c + 1) |>) in
    let* _ := send_announce_packet in
    sret false
  else
    let* _ := upd (fun c => c <| state := IPV4LL_MONITOR |>) in
    let* p := get_ip (htonl (requested_ip c)) in
    let* _ := upd (fun c => c <| assigned_ip := Some p |>) in
    let* _ := notify kernel EVENT_IPV4LL_AVAILABLE in
    let* _ := upd (fun c => c <| conflicts := 0 |>) in
    sret false.

Definition ipv4ll_probe_timeout : cm bool :=
  let* c := get_cl in
  if retry_times c =? PROBE_NUM then
    let* _ := upd (fun c => c <| state := IPV4LL_ANNOUNCE |> <| retry_times := 1 |>) in
    let* _ := send_announce_packet in
    sret false
  else
    let* _ := upd (fun c => c <| retry_times := u8 (retry_times c + 1) |>) in
    let* _ := send_probe_packet in
    sret false.

(** ** Starting and stopping *)

(** The DHCPv6 branches of [g_dhcp_client_start]. *)
Definition start_v6 (st : ClientState) (send : cm Z) : cm Z :=
  let* _ := upd (fun c => c <| state := st |>) in
  let* re := switch_listening_mode L3 in
  if negb (re =? 0) then
    let* _ := switch_listening_mode L_NONE in
    let* _ := upd (fun c => c <| state := INIT_SELECTING |>) in
    sret re
  else let* _ := send in sret 0.

Definition start_ipv6 (c : client) : cm Z :=
  let registered ev := bool_decide (cbs c ev <> None) in
  if registered EVENT_INFORMATION_REQ then start_v6 INFORMATION_REQ (send_information_req kernel foreach_order)
  else if registered EVENT_SOLICITATION then start_v6 SOLICITATION (send_solicitation kernel foreach_order)
  else if registered EVENT_REQUEST then start_v6 REQUEST (send_dhcpv6_request kernel foreach_order)
  else if registered EVENT_CONFIRM then start_v6 CONFIRM (send_dhcpv6_confirm kernel foreach_order)
  else if registered EVENT_RENEW then start_v6 RENEW (send_dhcpv6_renew kernel foreach_order)
  else if registered EVENT_REBIND then start_v6 REBIND (send_dhcpv6_rebind kernel foreach_order)
  else if registered EVENT_RELEASE then start_v6 RENEW (send_dhcpv6_release kernel foreach_order)
  else if registered EVENT_DECLINE then start_v6 DECLINE (send_dhcpv6_decline kernel foreach_order)
  else sret 0.

(** The address to ask for; a valid one is remembered.  The old block is freed
    before the new one is copied from [last]. *)
Definition remember_address (last : option Z) : cm Z :=
  match last with
  | None => sret 0
  | Some p =>
    let* text := read_string p in
    let addr := ntohl (inet_addr text) in
    if addr =? 0xffffffff then sret 0
    else
      let* c := get_cl in
      let* _ := g_free (last_address c) in
      let* q := g_strdup last in
      let* _ := upd (fun c => c <| last_address := q |>) in
      sret addr
  end.

Definition start_ipv4 (last : option Z) : cm Z :=
  let* c := get_cl in
  if retry_times c =? DISCOVER_RETRIES then
    let* _ := notify kernel EVENT_NO_LEASE in
    let* _ := upd (fun c => c <| retry_times := 0 |>) in
    sret 0
  else
    let* re :=
      (if retry_times c =? 0 then
         let* _ := clear_assigned_ip in
         let* _ := upd (fun c => c <| state := INIT_SELECTING |>) in
         let* re := switch_listening_mode L2 in
         if negb (re =? 0) then sret re
         else
           let* x := net (ncall_ kernel Rand) in
           let* now := net (ncall_ kernel Time) in
           let* _ := upd (fun c => c <| xid := u32 x |> <| start := now |>) in
           sret 0
       else sret 0) in
    if negb (re =? 0) then sret re
    else
      let* addr := remember_address last in
      let* _ := send_discover addr in
      let* _ := arm_seconds DISCOVER_TIMEOUT discover_timeout_fn in
      sret 0.

Definition g_dhcp_client_start (last : option Z) : cm Z :=
  let* c := get_cl in
  match type c with
  | G_DHCP_IPV6 => start_ipv6 c
  | G_DHCP_IPV4LL =>
    let* _ := upd (fun c => c <| state := INIT_SELECTING |>) in
    let* _ := ipv4ll_start in
    sret 0
  | G_DHCP_IPV4 => start_ipv4 last
  end.

Definition g_dhcp_client_stop : cm unit :=
  let* _ := switch_listening_mode L_NONE in
  let* c := get_cl in
  let* _ := (if bool_decide (state c = BOUND) || bool_decide (state c = RENEWING) ||
                bool_decide (state c = REBINDING)
             then let* _ := send_release (server_ip c) (requested_ip c) in sret tt else sret tt) in
  let* _ := clear_timeout kernel in
  let* _ := clear_watch in
  upd (fun c => c <| listener_channel := None |> <| retry_times := 0 |> <| ack_retry_times := 0 |>
                  <| requested_ip := 0 |> <| state := RELEASED |> <| lease_seconds := 0 |>).

Definition restart_dhcp (n : Z) : cm unit :=
  let* _ := clear_timeout kernel in
  let* _ := upd (fun c => c <| retry_times := u8 n |> <| requested_ip := 0 |> <| state := INIT_SELECTING |>) in
  let* _ := switch_listening_mode L2 in
  let* c := get_cl in
  let* _ := g_dhcp_client_start (last_address c) in
  sret tt.

Definition discover_timeout : cm bool :=
  let* _ := upd (fun c => c <| retry_times := u8 (retry_times c + 1) |>) in
  let* _ := g_dhcp_client_start None in
  sret false.

Definition restart_dhcp_timeout : cm bool :=
  let* _ := upd (fun c => c <| ack_retry_times := u8 (ack_retry_times c + 1) |>) in
  let* c := get_cl in
  let* _ := restart_dhcp (ack_retry_times c) in
  sret false.

(** ** The lease runs out *)

Definition halve_lease : cm unit :=
  upd (fun c => c <| lease_seconds := Z.shiftr (lease_seconds c) 1 |>).

Definition start_rebound_timeout : cm bool :=
  let* _ := switch_listening_mode L2 in
  let* _ := halve_lease in
  let* c := get_cl in
  if lease_seconds c <=? 6 then
    let* _ := notify kernel EVENT_LEASE_LOST in
    let* _ := restart_dhcp 0 in
    sret false
  else
    let* _ := send_rebound in
    let* _ := arm_seconds (Z.shiftr (lease_seconds c) 1) start_rebound_timeout_fn in
    sret false.

Definition start_rebound : cm unit :=
  let* _ := upd (fun c => c <| state := REBINDING |>) in
  let* c := get_cl in
  arm_seconds (Z.shiftr (lease_seconds c) 1) start_rebound_timeout_fn.

Definition start_renew_request_timeout : cm bool :=
  let* _ := notify kernel EVENT_NO_LEASE in sret false.

Definition start_renew_timeout : cm bool :=
  let* _ := upd (fun c => c <| state := RENEWING |>) in
  let* _ := halve_lease in
  let* _ := switch_listening_mode L3 in
  let* c := get_cl in
  if lease_seconds c <=? 60 then
    let* _ := start_rebound in sret false
  else
    let* _ := send_renew in
    let* _ := remove_timeout kernel in
    let* _ := arm_seconds REQUEST_TIMEOUT start_renew_request_timeout_fn in
    sret false.

Definition start_bound : cm unit :=
  let* _ := upd (fun c => c <| state := BOUND |>) in
  let* _ := remove_timeout kernel in
  let* c := get_cl in
  arm_seconds (Z.shiftr (lease_seconds c) 1) start_renew_timeout_fn.

(** ** A packet has arrived *)

Definition check_package_owner (c : client) (packet : list Z) : bool :=
  if negb (get_le32 packet off_xid =? xid c) then false
  else if negb (byte_at packet off_hlen =? 6) then false
  else bool_decide (field_at off_chaddr 6 packet = ztake 6 (mac_address c)).

Definition check_package_owner6 (c : client) (packet : list Z) : bool := packet6_xid packet =? xid c.

(** One requested option; a text that was never written must not be read. *)
Definition get_request_option (packet : list Z) (code : Z) : cm unit :=
  let* p := slift (find_option fuel packet code) in
  match p with
  | None => value_remove code
  | Some p =>
    let type := dhcp_get_code_type code in
    match malloc_option_value_string (option_data packet p) (option_length packet p) type with
    | inl _ => value_remove code
    | inr None => sfail
    | inr (Some text) => value_set code (get_option_value_list text type)
    end
  end.

Fixpoint get_request_loop (codes packet : list Z) : cm unit :=
  match codes with
  | [] => sret tt
  | code :: codes => let* _ := get_request_option packet (u8 code) in get_request_loop codes packet
  end.

Definition get_request (packet : list Z) : cm unit :=
  let* c := get_cl in get_request_loop (request_list c) packet.

(** In [INIT_SELECTING]; an offer without a server id is read through [NULL]. *)
Definition handle_offer (packet : list Z) : cm unit :=
  let* c := get_cl in
  let* _ := g_source_remove kernel (timeout c) in
  let* _ := upd (fun c => c <| timeout := 0 |> <| retry_times := 0 |>) in
  let* p := slift (find_option fuel packet DHCP_SERVER_ID) in
  match p with
  | None => sfail
  | Some p =>
    let* _ := upd (fun c => c <| server_ip := get_be32 packet p |>
                              <| requested_ip := ntohl (get_le32 packet off_yiaddr) |>
                              <| state := REQUESTING |>) in
    start_request
  end.

(** In [REQUESTING], [RENEWING] and [REBINDING]. *)
Definition handle_ack (packet : list Z) : cm unit :=
  let* _ := upd (fun c => c <| retry_times := 0 |>) in
  let* _ := remove_timeout kernel in
  let* _ := upd (fun c => c <| timeout := 0 |>) in
  let* secs := slift (get_lease fuel packet) in
  let* _ := upd (fun c => c <| lease_seconds := secs |>) in
  let* _ := get_request packet in
  let* _ := switch_listening_mode L_NONE in
  let* c := get_cl in
  let* _ := g_free (assigned_ip c) in
  let* p := get_ip (get_le32 packet off_yiaddr) in
  let* _ := upd (fun c => c <| assigned_ip := Some p |>) in
  let* _ := notify kernel EVENT_LEASE_AVAILABLE in
  start_bound.

Definition handle_nak : cm unit :=
  let* _ := upd (fun c => c <| retry_times := 0 |>) in
  let* _ := remove_timeout kernel in
  arm_seconds 3 restart_dhcp_timeout_fn.

(** A DHCPv4 packet that is addressed to the client. *)
Definition handle_packet (packet : list Z) : cm unit :=
  let* p := slift (find_option fuel packet DHCP_MESSAGE_TYPE) in
  match p with
  | None => sret tt
  | Some p =>
    let message_type := byte_at packet p in
    let* c := get_cl in
    match state c with
    | INIT_SELECTING => if message_type =? DHCPOFFER then handle_offer packet else sret tt
    | REQUESTING | RENEWING | REBINDING =>
      if message_type =? DHCPACK then handle_ack packet
      else if message_type =? DHCPNAK then handle_nak
      else sret tt
    | _ => sret tt
    end
  end.

(** ** The same for DHCPv6 *)

(** [g_try_malloc] and [memcpy] of the server's id; [g_try_malloc(0)] is [NULL]. *)
Definition set_server_duid (packet : list Z) (p len : Z) : cm bool :=
  let* ok := (if len =? 0 then sret false else cheap (grant len)) in
  if negb ok then
    let* _ := upd (fun c => c <| server_duid := None |>) in sret false
  else
    let* _ := upd (fun c => c <| server_duid := Some (ztake len (zdrop p packet)) |>
                              <| server_duid_len := len |>) in
    sret true.

(** A single option that is not empty: its pointer and length. *)
Definition single_option (r : v6_res) (old_len : Z) : option (Z * Z) :=
  let len := default old_len (v6_len r) in
  match v6_ptr r with
  | Some p => if (v6_count r =? 1) && negb (len =? 0) then Some (p, len) else None
  | None => None
  end.

(** The callbacks a reply is given to: the first one that is registered. *)
Definition reply_events : list GDHCPClientEvent :=
  [EVENT_INFORMATION_REQ; EVENT_REQUEST; EVENT_RENEW; EVENT_REBIND; EVENT_RELEASE; EVENT_DECLINE].

Definition notify_reply (packet : list Z) (pkt_len : Z) : cm unit :=
  let* c := get_cl in
  match List.find (fun ev => bool_decide (cbs c ev <> None)) reply_events with
  | Some ev => notify kernel ev
  | None =>
    if bool_decide (cbs c EVENT_CONFIRM = None) then sret tt
    else
      let* r := slift (dhcpv6_get_option packet pkt_len G_DHCPV6_SERVERID) in
      match single_option r 0 with
      | None => sret tt
      | Some (p, len) =>
        let* ok := set_server_duid packet p len in
        if ok then notify kernel EVENT_CONFIRM else sret tt
      end
  end.

(** From [INFORMATION_REQ] on: a reply of the server the client talks to.  The
    comparison reads [server_duid_len] bytes. *)
Definition handle_reply (packet : list Z) (pkt_len : Z) : cm unit :=
  if negb (byte_at packet 0 =? DHCPV6_REPLY) then sret tt
  else
    let* r := slift (dhcpv6_get_option packet pkt_len G_DHCPV6_SERVERID) in
    let* c := get_cl in
    match single_option r 0 with
    | None => sret tt
    | Some (p, _) =>
      let* same := (if 0 <? server_duid_len c then
                      match server_duid c with
                      | None => sfail
                      | Some d => sret (bool_decide (ztake (server_duid_len c) d =
                                                     ztake (server_duid_len c) (zdrop p packet)))
                      end
                    else sret true) in
      if negb same then sret tt
      else
        let* _ := switch_listening_mode L_NONE in
        let* _ := get_dhcpv6_request kernel inet_ntop6 packet pkt_len in
        notify_reply packet pkt_len
    end.

(** In [SOLICITATION].  The block of an earlier server id is lost. *)
Definition handle_solicited (packet : list Z) (pkt_len : Z) : cm unit :=
  let message := byte_at packet 0 in
  if negb (message =? DHCPV6_REPLY) && negb (message =? DHCPV6_ADVERTISE) then sret tt
  else
    let* r := slift (dhcpv6_get_option packet pkt_len G_DHCPV6_SERVERID) in
    match single_option r 0 with
    | None => sret tt
    | Some (p, len) =>
      let* ok := set_server_duid packet p len in
      if negb ok then sret tt
      else
        let* rapid := slift (dhcpv6_get_option packet pkt_len G_DHCPV6_RAPID_COMMIT) in
        if (message =? DHCPV6_REPLY) && bool_decide (single_option rapid 0 = None) then sret tt
        else
          let* _ := switch_listening_mode L_NONE in
          let* c := get_cl in
          let* _ := (if status_code c =? 0 then get_dhcpv6_request kernel inet_ntop6 packet pkt_len
                     else sret tt) in
          if message =? DHCPV6_ADVERTISE then notify kernel EVENT_ADVERTISE
          else notify kernel EVENT_SOLICITATION
    end.

(** In [REBIND], a missing server id is taken from the packet first. *)
Definition handle_rebind (packet : list Z) (pkt_len : Z) : cm unit :=
  let* r := slift (dhcpv6_get_option packet pkt_len G_DHCPV6_SERVERID) in
  let* c := get_cl in
  match v6_ptr r with
  | Some p =>
    if bool_decide (server_duid c = None) && (v6_count r =? 1) then
      let* ok := set_server_duid packet p (default 0 (v6_len r)) in
      if ok then handle_reply packet pkt_len else sret tt
    else handle_reply packet pkt_len
  | None => handle_reply packet pkt_len
  end.

(** The client id of the packet: it must start with the client's own.  Without
    one of its own the client reads through [NULL]. *)
Definition check_client_id (c : client) (packet : list Z) (r : v6_res) : option bool :=
  match v6_ptr r with
  | None => Some false
  | Some p =>
    if (v6_count r =? 0) || (default 0 (v6_len r) =? 0) then Some false
    else match duid c with
         | None => if duid_len c =? 0 then Some true else None
         | Some d => Some (bool_decide (ztake (duid_len c) d = ztake (duid_len c) (zdrop p packet)))
         end
  end.

Definition handle_packet6 (packet : list Z) (pkt_len : Z) : cm unit :=
  let* c := get_cl in
  let* r := slift (dhcpv6_get_option packet pkt_len G_DHCPV6_CLIENTID) in
  let* ok := slift (check_client_id c packet r) in
  if negb ok then sret tt
  else
    let* r := slift (dhcpv6_get_option packet pkt_len G_DHCPV6_STATUS_CODE) in
    let* _ := (match v6_ptr r with
               | Some p =>
                 if 0 <? default 0 (v6_len r)
                 then upd (fun c => c <| status_code := get_uint16 (zdrop p packet) |>)
                 else sret tt
               | None => sret tt
               end) in
    match state c with
    | INIT_SELECTING | REQUESTING | RENEWING | REBINDING => sfail
    | SOLICITATION => handle_solicited packet pkt_len
    | REBIND => handle_rebind packet pkt_len
    | INFORMATION_REQ | REQUEST | RENEW | RELEASE | CONFIRM | DECLINE => handle_reply packet pkt_len
    | _ => sret tt
    end.

(** Receiving a DHCPv6 message; when [read] fails its buffer is used all the
    same, through a pointer that was never set. *)
Definition receive6 : cm unit :=
  let* c := get_cl in
  let* (re, data) := net (dhcpv6_recv_l3_packet kernel MAX_DHCPV6_PKT_SIZE (listener_sockfd c)) in
  match data with
  | None => sfail
  | Some data =>
    let* rest := junk stack MAX_DHCPV6_PKT_SIZE in
    let packet := put 0 data rest in
    if check_package_owner6 c packet then handle_packet6 packet (u16 re) else sret tt
  end.

(** A DHCPv4 packet from the link or from a socket. *)
Definition receive4 (re : Z) (packet : list Z) : cm unit :=
  let* c := get_cl in
  if re <? 0 then sret tt
  else if check_package_owner c packet then handle_packet packet else sret tt.

(** The watch callback; the result tells GLib whether to keep the watch. *)
Definition listener_event (hangup : bool) : cm bool :=
  let* c := get_cl in
  if hangup then
    let* _ := upd (fun c => c <| listener_watch := 0 |>) in sret false
  else if bool_decide (listen_mode c = L_NONE) then sret false
  else
    let* _ := upd (fun c => c <| status_code := 0 |>) in
    let* buf := junk stack sizeof_packet in
    let* _ :=
      match listen_mode c, type c with
      | L2, G_DHCP_IPV6 =>
        let* _ := net (dhcp_recv_l2_packet kernel buf (listener_sockfd c)) in sret tt
      | L2, _ =>
        let* (re, packet) := net (dhcp_recv_l2_packet kernel buf (listener_sockfd c)) in
        receive4 re packet
      | L3, G_DHCP_IPV6 => receive6
      | L3, _ =>
        let* (re, packet) := net (read_l3_packet kernel fuel (listener_sockfd c)) in
        receive4 re packet
      | L_ARP, _ => let* _ := ipv4ll_recv_arp_packet in sret tt
      | L_NONE, _ => sret tt
      end in
    sret true.

(** ** The main loop *)

Definition run_timer (f : timer_fn) : cm bool :=
  match f with
  | send_probe_packet_fn => send_probe_packet
  | ipv4ll_probe_timeout_fn => ipv4ll_probe_timeout
  | ipv4ll_announce_timeout_fn => ipv4ll_announce_timeout
  | ipv4ll_defend_timeout_fn => ipv4ll_defend_timeout
  | request_timeout_fn => request_timeout
  | start_rebound_timeout_fn => start_rebound_timeout
  | start_renew_request_timeout_fn => start_renew_request_timeout
  | start_renew_timeout_fn => start_renew_timeout
  | restart_dhcp_timeout_fn => restart_dhcp_timeout
  | discover_timeout_fn => discover_timeout
  end.

Definition lookup_source (id : Z) : cm (option source) := fun s => Some (sources s !! id, s).

(** One source runs; [hangup] is the condition of a watch. *)
Definition dispatch (id : Z) (hangup : bool) : cm unit :=
  let* src := lookup_source id in
  match src with
  | None => sret tt
  | Some (Timeout _ f) =>
    let* keep := run_timer f in
    if keep then sret tt else g_source_remove kernel id
  | Some (Watch _) =>
    let* keep := listener_event hangup in
    if keep then sret tt else g_source_remove kernel id
  end.

(** ** Public interface *)

Inductive client_error :=
| G_DHCP_CLIENT_ERROR_NONE
| G_DHCP_CLIENT_ERROR_INTERFACE_UNAVAILABLE
| G_DHCP_CLIENT_ERROR_INTERFACE_IN_USE
| G_DHCP_CLIENT_ERROR_INTERFACE_DOWN
| G_DHCP_CLIENT_ERROR_NOMEM
| G_DHCP_CLIENT_ERROR_INVALID_INDEX
| G_DHCP_CLIENT_ERROR_INVALID_OPTION.

(** A client after [g_try_new0]. *)
Definition client0 : client :=
  mkClient 0 G_DHCP_IPV4 INIT_SELECTING 0 [] (zeroes 6) 0 0 0 None 0 0 L_NONE 0 0 0 0 0 0 None [] ∅ ∅
    (fun _ => None) None None 0 None 0 0 0 0 0 (zeroes 16) (zeroes 16) 0 0 false (0, 0).

Definition wheap {A} (m : alloc A) : nio A := fun w => Some (on_heap m w).

Definition g_dhcp_client_new (ty : GDHCPType) (index : Z) : nio (option client * client_error) :=
  if index <? 0 then sret (None, G_DHCP_CLIENT_ERROR_INVALID_INDEX)
  else
    let* ok := wheap (grant 512) in
    if negb ok then sret (None, G_DHCP_CLIENT_ERROR_NOMEM)
    else
      let* name := get_interface_name kernel index in
      match name with
      | None =>
        let* _ := wheap (free_blocks 1) in
        sret (None, G_DHCP_CLIENT_ERROR_INTERFACE_UNAVAILABLE)
      | Some name =>
        let* _ := wheap (free_blocks (-1)) in
        let* up := interface_is_up kernel index in
        if negb up then
          let* _ := wheap (free_blocks 2) in
          sret (None, G_DHCP_CLIENT_ERROR_INTERFACE_DOWN)
        else
          let* mac := get_interface_mac_address kernel index (mac_address client0) in
          let* now := ncall_ kernel Time in
          sret (Some (client0 <| interface := name |> <| mac_address := mac |>
                              <| listener_sockfd := -1 |> <| ref_count := 1 |> <| type := ty |>
                              <| ifindex := index |> <| last_request := now |>),
                G_DHCP_CLIENT_ERROR_NONE)
      end.

Definition g_dhcp_client_ref : cm unit := upd (fun c => c <| ref_count := ref_count c + 1 |>).

(** [true]: the client is gone. *)
Definition g_dhcp_client_unref : cm bool :=
  let* c := get_cl in
  let* _ := upd (fun c => c <| ref_count := ref_count c - 1 |>) in
  if negb (ref_count c =? 1) then sret false
  else
    let* _ := g_dhcp_client_stop in
    let* c := get_cl in
    let* _ := g_free (assigned_ip c) in
    let* _ := g_free (last_address c) in
    let* _ := cheap (free_blocks ((if duid c then 1 else 0) + (if server_duid c then 1 else 0))) in
    let* _ := cheap (free_blocks (Z.of_nat (size (send_value_hash c)) + 2)) in
    sret true.

(** Events only an IPv6 client has, and those it does not have. *)
Definition event_allowed (ty : GDHCPType) (ev : GDHCPClientEvent) : bool :=
  match ev with
  | EVENT_LEASE_AVAILABLE | EVENT_NO_LEASE | EVENT_LEASE_LOST | EVENT_ADDRESS_CONFLICT => true
  | EVENT_IPV4LL_AVAILABLE | EVENT_IPV4LL_LOST => negb (bool_decide (ty = G_DHCP_IPV6))
  | _ => bool_decide (ty = G_DHCP_IPV6)
  end.

Definition g_dhcp_client_register_event (ev : GDHCPClientEvent) (func : option nat) : cm unit :=
  upd (fun c =>
    if event_allowed (type c) ev
    then c <| cbs := fun e => if decide (e = ev) then func else cbs c e |> else c).

Definition g_dhcp_client_get_index (c : client) : Z := ifindex c.

(** A copy of the address. *)
Definition g_dhcp_client_get_address : cm (option Z) :=
  let* c := get_cl in g_strdup (assigned_ip c).

Definition g_dhcp_client_get_option (c : client) (option_code : Z) : list option_value :=
  default [] (code_value_hash c !! option_code).

(** The text of the netmask; the first value of an option is a string. *)
Definition g_dhcp_client_get_netmask (c : client) : option (list Z) :=
  if bool_decide (type c = G_DHCP_IPV6) then None
  else
    match state c with
    | IPV4LL_DEFEND | IPV4LL_MONITOR => Some (str "255.255.0.0")
    | BOUND | RENEWING | REBINDING =>
      match g_dhcp_client_get_option c DHCP_SUBNET with
      | VString v :: _ => Some v
      | _ => None
      end
    | _ => None
    end.

Definition g_dhcp_client_clear_requests : cm unit := upd (fun c => c <| request_list := [] |>).

Definition g_dhcp_client_clear_values : cm unit :=
  let* c := get_cl in
  let* _ := cheap (free_blocks (Z.of_nat (size (send_value_hash c)))) in
  upd (fun c => c <| send_value_hash := ∅ |>).

(** [None]: no memory. *)
Definition alloc_dhcp_option (code : Z) (data : list Z) (size : Z) : cm (option (list Z)) :=
  let* ok := cheap (grant (size + OPT_DATA)) in
  sret (if negb ok then None else Some ([u8 code; u8 size] ++ ztake size data)).

Definition alloc_dhcp_data_option (code : Z) (data : list Z) (size : Z) : cm (option (list Z)) :=
  alloc_dhcp_option code data (Z.min size 255).

Definition alloc_dhcp_string_option (code : Z) (text : list Z) : cm (option (list Z)) :=
  alloc_dhcp_data_option code text (strlen text).

Definition G_DHCP_CLIENT_ID : Z := 0x3d.
Definition G_DHCP_HOST_NAME : Z := 0x0c.

Definition send_value (code : Z) (b : option (list Z)) : cm client_error :=
  match b with
  | None => sret G_DHCP_CLIENT_ERROR_NOMEM
  | Some v => let* _ := send_hash_insert code v in sret G_DHCP_CLIENT_ERROR_NONE
  end.

Definition g_dhcp_client_set_id : cm client_error :=
  let* c := get_cl in
  let* b := alloc_dhcp_data_option G_DHCP_CLIENT_ID ([ARPHRD_ETHER] ++ ztake 6 (mac_address c)) 7 in
  send_value G_DHCP_CLIENT_ID b.

Definition g_dhcp_client_set_send (option_code : Z) (option_value : option (list Z)) : cm client_error :=
  match option_value with
  | Some text =>
    if option_code =? G_DHCP_HOST_NAME then
      let* b := alloc_dhcp_string_option option_code text in
      send_value option_code b
    else sret G_DHCP_CLIENT_ERROR_NONE
  | None => sret G_DHCP_CLIENT_ERROR_NONE
  end.

(** The copies come out in reverse order; [None] where there was no memory. *)
Fixpoint copy_prefixes (prefixes : list ia_prefix) (copy : list (option ia_prefix)) :
    cm (list (option ia_prefix)) :=
  match prefixes with
  | [] => sret copy
  | p :: ps =>
    let* ok := cheap (grant 40) in
    copy_prefixes ps ((if (ok : bool) then Some p else None) :: copy)
  end.

Definition g_dhcpv6_copy_prefixes (prefixes : list ia_prefix) : cm (list (option ia_prefix)) :=
  copy_prefixes prefixes [].

(** ** Sequences of events *)

(** What the user does with a client (reading single fields apart).  An address
    to start with is a string of the user's, freed after the call. *)
Inductive client_call :=
| CallStart (last : option (list Z))
| CallStop
| CallRef
| CallRegister (ev : GDHCPClientEvent) (func : option nat)
| CallSetRequest (code : Z)
| CallClearRequests
| CallClearValues
| CallSetId
| CallSetSend (code : Z) (value : option (list Z))
| CallSetRetransmit (on : bool)
| CallSetDuid (d : list Z)
| CallCreateIaid (index : Z)
| CallSetIaid (v : Z)
| CallSetPd (t1 t2 : option Z) (prefixes : list ia_prefix)
| CallSetIa (index code : Z) (t1 t2 : option Z) (add_iaaddr : bool) (na : option (list Z))
| CallSetIas (index code : Z) (t1 t2 : option Z) (addresses : list (list Z))
| CallSetOro (args : list Z)
| CallSetSend6 (code : Z) (value : list Z)
| CallClearSend6 (code : Z)
| CallResetRequest.

Context (inet_pton6 : list Z -> option (list Z)).

Definition ignore {A} (m : cm A) : cm unit := let* _ := m in sret tt.

Definition run_call (k : client_call) : cm unit :=
  match k with
  | CallStart None => ignore (g_dhcp_client_start None)
  | CallStart (Some text) =>
    let* p := new_string text in
    let* _ := g_dhcp_client_start (Some p) in
    g_free (Some p)
  | CallStop => g_dhcp_client_stop
  | CallRef => g_dhcp_client_ref
  | CallRegister ev func => g_dhcp_client_register_event ev func
  | CallSetRequest code => g_dhcp_client_set_request code
  | CallClearRequests => g_dhcp_client_clear_requests
  | CallClearValues => g_dhcp_client_clear_values
  | CallSetId => ignore g_dhcp_client_set_id
  | CallSetSend code value => ignore (g_dhcp_client_set_send code value)
  | CallSetRetransmit true => g_dhcpv6_client_set_retransmit
  | CallSetRetransmit false => g_dhcpv6_client_clear_retransmit
  | CallSetDuid d => ignore (g_dhcpv6_client_set_duid d (zlen d))
  | CallCreateIaid index => ignore (g_dhcpv6_client_create_iaid kernel stack index)
  | CallSetIaid v => g_dhcpv6_client_set_iaid v
  | CallSetPd t1 t2 prefixes => ignore (g_dhcpv6_client_set_pd t1 t2 prefixes)
  | CallSetIa index code t1 t2 add na =>
    ignore (g_dhcpv6_client_set_ia kernel inet_pton6 stack index code t1 t2 add na)
  | CallSetIas index code t1 t2 addresses =>
    ignore (g_dhcpv6_client_set_ias kernel inet_pton6 stack index code t1 t2 addresses)
  | CallSetOro args => ignore (g_dhcpv6_client_set_oro args)
  | CallSetSend6 code value => g_dhcpv6_client_set_send code (Some value) (zlen value)
  | CallClearSend6 code => ignore (g_dhcpv6_client_clear_send code)
  | CallResetRequest => g_dhcpv6_client_reset_request kernel
  end.

(** No timer of the client is pending. *)
Definition no_timer (s : cstate) : Prop := forall id ms f, sources s !! id <> Some (Timeout ms f).

(** The states a client gets into, by the events of its main loop and by any
    calls of its user.  [D] are the descriptors the process has besides.  The
    client is orderly ([b = true]) while it was never started with a timer
    pending: such a start notes the new timer in [timeout] and loses the old. *)
Inductive client_reach (D : gmultiset Z) : bool -> cstate -> Prop :=
| reach_new ty index w c err w' :
    w_fds w = D -> w_bad w = 0 ->
    g_dhcp_client_new ty index w = Some ((Some c, err), w') ->
    client_reach D true (mkState c ∅ 1 ∅ 1 w')
| reach_dispatch b s id hangup s' :
    client_reach D b s -> dispatch id hangup s = Some (tt, s') -> client_reach D b s'
| reach_call b b' s k s' :
    client_reach D b s -> (b' = true -> b = true /\ forall last, k = CallStart last -> no_timer s) ->
    run_call k s = Some (tt, s') -> client_reach D b' s'.

End client.
