(* ===== verification/DhcpClientPackets.v ===== *)
(** * The packets of the DHCP client.

    Every request the client builds is a well-formed packet, and what it says
    (type, addresses, requested options) is what a reader of DHCP options finds
    in it. *)

From stdpp Require Import gmap gmultiset pretty.
From S2P Require Import Prelude RecordSet StateFail CLib Bytes DhcpCommon Posix DhcpNet DhcpClientBase DhcpClient6 DhcpClient.

(** ** Well-formed packets *)

(** A block of bytes of the right size whose options field holds [os]. *)
Record wfp (packet : list Z) (os : list dopt) : Prop := {
  wfp_opts : has_opts packet os;
  wfp_dopts : Forall dopt_ok os;
  wfp_plain : no_overload os;
  wfp_bytes : Forall byte_ok packet;
}.

(** The options fit the part of the field that is sent. *)
Definition short (os : list dopt) : Prop := zlen (enc_opts os) < DHCP_OPTIONS_BUFSIZE.

Definition plain_opt (o : dopt) : Prop :=
  dopt_ok o /\ match o with Opt c _ => c <> DHCP_OPTION_OVERLOAD | Pad => True end.

(** The options after one more, which is left out when it does not fit. *)
Definition grow (os : list dopt) (o : dopt) : list dopt :=
  if zlen (enc_opts os) + zlen (enc o) + 1 <? DHCP_OPTIONS_BUFSIZE then os ++ [o] else os.

Lemma enc_opts_one os o : zlen (enc_opts (os ++ [o])) = zlen (enc_opts os) + zlen (enc o).
Proof. rewrite enc_opts_app, zlen_app. unfold enc_opts at 2. cbn [map concat]. by rewrite app_nil_r. Qed.

Lemma short_grow os o : short os -> short (grow os o).
Proof.
  unfold short, grow. intros Hs. destruct (Z.ltb_spec (zlen (enc_opts os) + zlen (enc o) + 1) DHCP_OPTIONS_BUFSIZE); [|done].
  rewrite enc_opts_one. lia.
Qed.

Lemma wfp_packet_ok packet os : wfp packet os -> packet_ok packet.
Proof. intros [[Hl _] _ _ Hb]. done. Qed.

Lemma enc_ok c d : dopt_ok (Opt c d) -> Forall byte_ok (enc (Opt c d)).
Proof.
  intros (Hc & Hl & Hd). pose proof (zlen_nonneg d). cbn [enc].
  apply Forall_cons_2; [unfold byte_ok; lia|]. by apply Forall_cons_2.
Qed.

Lemma wfp_add packet os c d junk :
  wfp packet os -> plain_opt (Opt c d) -> Forall byte_ok junk ->
  exists packet', dhcp_add_binary_option packet (enc (Opt c d) ++ junk) = Some packet' /\
    header packet' = header packet /\ wfp packet' (grow os (Opt c d)).
Proof.
  intros [Ho Hd Hn Hb] [Hok Hpl] Hj. destruct (add_binary_spec packet os c d junk Ho Hd Hok) as (p' & Hadd & Hh & Hopts).
  exists p'. split_and!; [done|done|].
  assert (Forall byte_ok p') as Hb'.
  { refine (add_binary_ok _ _ _ Hb _ Hadd). apply Forall_app_2; [by apply enc_ok|done]. }
  unfold grow. assert (zlen (enc (Opt c d)) = 2 + zlen d) as -> by (cbn [enc]; rewrite !zlen_cons; lia).
  destruct (_ <? _).
  - split; [done| | |done].
    + apply Forall_app_2; [done|]. by constructor.
    + apply no_overload_app. split; [done|]. by constructor.
  - subst p'. by split.
Qed.

Lemma wfp_put packet os off bytes :
  wfp packet os -> 0 <= off -> off + zlen bytes <= off_options -> Forall byte_ok bytes ->
  wfp (put off bytes packet) os.
Proof. intros [Ho Hd Hn Hb] H1 H2 H3. split; [by apply has_opts_put|done|done|by apply put_ok]. Qed.

(** The numbers an option of four or two bytes may have. *)
Lemma wfp_add_uint32 packet os code v :
  wfp packet os -> check_option code 4 <> OPTION_UNKNOWN -> 0 < code < 255 -> code <> DHCP_OPTION_OVERLOAD ->
  exists packet', dhcp_add_option_uint32 packet code v = Some packet' /\
    header packet' = header packet /\ wfp packet' (grow os (Opt code (put_be32 v))).
Proof.
  intros Hp Hc Hr Hov. unfold dhcp_add_option_uint32. rewrite (proj2 (Z.eqb_neq _ _)) by done.
  assert (plain_opt (Opt code (put_be32 v))) as Hok by (split; [split_and!; [lia..|done|apply le_bytes32_ok]|done]).
  destruct (wfp_add packet os code (put_be32 v) [] Hp Hok) as (p' & Hadd & Hrest); [constructor|].
  exists p'. by rewrite app_nil_r in Hadd.
Qed.

Lemma wfp_add_uint16 packet os code v :
  wfp packet os -> check_option code 2 <> OPTION_UNKNOWN -> 0 < code < 255 -> code <> DHCP_OPTION_OVERLOAD ->
  exists packet', dhcp_add_option_uint16 packet code v = Some packet' /\
    header packet' = header packet /\ wfp packet' (grow os (Opt code (put_be16 v))).
Proof.
  intros Hp Hc Hr Hov. unfold dhcp_add_option_uint16. rewrite (proj2 (Z.eqb_neq _ _)) by done.
  assert (plain_opt (Opt code (put_be16 v))) as Hok by (split; [split_and!; [lia..|done|apply le_bytes16_ok]|done]).
  destruct (wfp_add packet os code (put_be16 v) [] Hp Hok) as (p' & Hadd & Hrest); [constructor|].
  exists p'. by rewrite app_nil_r in Hadd.
Qed.

Lemma wfp_init type :
  0 <= type < 256 -> exists packet, dhcp_init_header type = Some packet /\ wfp packet [mtype_opt type].
Proof.
  intros Ht. destruct (init_header_spec type Ht) as (p & Hp & Ho & Hb & _). exists p. split; [done|].
  split; [done| | |done].
  - constructor; [|constructor]. split; [done|]. split; [done|]. by constructor.
  - by repeat constructor.
Qed.

(** ** Reading a packet *)

(** What a reader finds under a code. *)
Definition reads (packet : list Z) (code : Z) : option (list Z) :=
  found_data packet (dhcp_get_option 388 packet code).

Lemma wfp_reads packet os code : wfp packet os -> 0 < code < 255 -> reads packet code = opt_data code os.
Proof. intros [Ho Hd Hn Hb] Hc. by apply get_option_spec. Qed.

(** ** The list of requested options *)

(** Writes next to each other. *)
Lemma put_put_after off a b packet :
  0 <= off -> off + zlen a + zlen b <= zlen packet ->
  put (off + zlen a) b (put off a packet) = put off (a ++ b) packet.
Proof.
  intros Ho Hl. pose proof (zlen_nonneg a). pose proof (zlen_nonneg b). unfold put, memcpy.
  assert (zlen (ztake off packet ++ a) = off + zlen a) as Hz by (rewrite zlen_app; zlia).
  rewrite (app_assoc (ztake off packet) a), (ztake_app_eq _ (ztake off packet ++ a)) by lia.
  rewrite (zdrop_app _ (ztake off packet ++ a)), (zdrop_all _ (ztake off packet ++ a)) by lia.
  rewrite Hz, zlen_app, zdrop_zdrop by lia. rewrite <- !app_assoc. cbn [app].
  do 4 f_equal. lia.
Qed.

Lemma put_put_before off a b packet :
  0 <= off -> off + zlen a + zlen b <= zlen packet ->
  put off a (put (off + zlen a) b packet) = put off (a ++ b) packet.
Proof.
  intros Ho Hl. pose proof (zlen_nonneg a). pose proof (zlen_nonneg b). unfold put, memcpy.
  rewrite (ztake_app_le off) by zlia. rewrite ztake_ztake, Z.min_l by lia.
  rewrite zlen_app. rewrite (zdrop_app_eq (off + zlen a) (ztake (off + zlen a) packet)) by zlia.
  by rewrite <- !app_assoc, Z.add_assoc.
Qed.

Lemma put_codes_eq codes off packet :
  0 <= off -> off + zlen codes <= sizeof_packet -> zlen packet = sizeof_packet ->
  put_codes off codes packet = Some (put off (map u8 codes) packet).
Proof.
  revert off packet; induction codes as [|c codes IH]; intros off packet Ho Hl Hp.
  - cbn [put_codes map]. unfold put, memcpy. cbn [app]. change (zlen (@nil Z)) with 0.
    by rewrite Z.add_0_r, ztake_zdrop.
  - rewrite zlen_cons in Hl. pose proof (zlen_nonneg codes). cbn [put_codes map]. unfold put_in.
    rewrite (proj2 (Z.leb_le 0 off)), (proj2 (Z.leb_le _ _)) by (change (zlen [u8 c]) with 1; lia).
    cbn [andb]. rewrite IH by (rewrite ?zlen_put; change (zlen [u8 c]) with 1; lia).
    f_equal. change (u8 c :: map u8 codes) with ([u8 c] ++ map u8 codes).
    apply (put_put_after off [u8 c]); [lia|]. rewrite zlen_map. change (zlen [u8 c]) with 1. lia.
Qed.

(** Writing the list is adding an option. *)
Lemma add_request_options_eq codes packet os :
  wfp packet os -> codes <> [] -> zlen codes <= 255 ->
  zlen (enc_opts os) + (2 + zlen codes) + 1 < DHCP_OPTIONS_BUFSIZE ->
  add_request_options codes packet = dhcp_add_binary_option packet (enc (Opt DHCP_PARAM_REQ (map u8 codes))).
Proof.
  intros Hp Hc H255 Hfit. pose proof (wfp_opts _ _ Hp) as Ho. pose proof Ho as [Hl _].
  unfold add_request_options, dhcp_add_binary_option. rewrite (end_option_spec _ _ Ho) by apply Hp.
  set (e := zlen (enc_opts os)) in *. assert (0 <= e) by (apply zlen_nonneg).
  assert (0 < zlen codes) by (destruct codes; [done|rewrite zlen_cons; pose proof (zlen_nonneg codes); lia]).
  unfold off_options, OPT_DATA, OPT_CODE, OPT_LEN, DHCP_OPTIONS_BUFSIZE, sizeof_packet in *. cbn zeta.
  rewrite put_codes_eq by (unfold sizeof_packet; lia).
  rewrite (proj2 (Z.eqb_neq (zlen codes) 0)) by lia.
  unfold put_in. cbn [enc]. rewrite zlen_map.
  change (byte_at (DHCP_PARAM_REQ :: zlen codes :: map u8 codes) 1) with (zlen codes).
  rewrite (proj2 (Z.leb_gt 308 _)) by lia.
  assert (u8 (zlen codes) = zlen codes) as -> by (apply Z.mod_small; lia).
  change (zlen [DHCP_PARAM_REQ; zlen codes]) with 2. change (zlen [DHCP_END]) with 1. unfold sizeof_packet.
  rewrite !(proj2 (Z.leb_le _ _)) by lia. cbn [andb].
  pose proof (put_put_before (240 + e) [DHCP_PARAM_REQ; zlen codes] (map u8 codes) packet) as Hpp.
  change (zlen [DHCP_PARAM_REQ; zlen codes]) with 2 in Hpp. rewrite zlen_map in Hpp.
  rewrite Z.add_0_r, Hpp by lia. cbn [app].
  rewrite ztake_all by (rewrite !zlen_cons, zlen_map; lia). do 2 f_equal. lia.
Qed.

(** The options after the list of requested ones. *)
Definition grow_requests (codes : list Z) (os : list dopt) : list dopt :=
  if bool_decide (codes = []) then os else os ++ [Opt DHCP_PARAM_REQ (map u8 codes)].

Lemma wfp_add_requests packet os codes :
  wfp packet os -> zlen codes <= 255 -> zlen (enc_opts os) + (2 + zlen codes) + 1 < DHCP_OPTIONS_BUFSIZE ->
  exists packet', add_request_options codes packet = Some packet' /\
    header packet' = header packet /\ wfp packet' (grow_requests codes os).
Proof.
  intros Hp H255 Hfit. unfold grow_requests. case_bool_decide as Hc.
  - subst codes. exists packet. split_and!; [|done|done].
    unfold add_request_options. by rewrite (end_option_spec _ _ (wfp_opts _ _ Hp)) by apply Hp.
  - rewrite (add_request_options_eq codes packet os) by done.
    assert (plain_opt (Opt DHCP_PARAM_REQ (map u8 codes))) as Hok.
    { split; [|done]. split; [done|]. rewrite zlen_map. split; [lia|].
      change (map u8 codes) with (u8 <$> codes). apply Forall_fmap, Forall_true. intros x. apply u8_range. }
    destruct (wfp_add packet os _ _ [] Hp Hok) as (p' & Hadd & Hh & Hw); [constructor|].
    rewrite app_nil_r in Hadd. exists p'. split_and!; [done|done|]. unfold grow in Hw.
    assert (zlen (enc (Opt DHCP_PARAM_REQ (map u8 codes))) = 2 + zlen codes) as He
      by (cbn [enc]; rewrite !zlen_cons, zlen_map; lia).
    rewrite He, (proj2 (Z.ltb_lt _ _)) in Hw by lia. done.
Qed.

(** ** The requests *)

(** What the public interface stores in [send_value_hash]: a client id and a
    host name. *)
Definition send_value_ok (v : list Z) : Prop :=
  exists c d, v = enc (Opt c d) /\ In c [0x0c; 0x3d] /\ dopt_ok (Opt c d).

Section packets.
Context (foreach_order : gmap Z (list Z) -> list (Z * list Z)).

(** A client whose settings fit a packet. *)
Record packet_ready (c : client) : Prop := {
  ready_mac : zlen (mac_address c) = 6 /\ Forall byte_ok (mac_address c);
  ready_requests : zlen (request_list c) <= 255;
  ready_values : Forall send_value_ok (map snd (foreach_order (send_value_hash c)));
}.

(** The user's options do not hide those of the client. *)
Lemma wfp_add_values packet os vals :
  wfp packet os -> Forall send_value_ok vals ->
  exists packet' extra, add_send_options vals packet = Some packet' /\
    header packet' = header packet /\ wfp packet' (os ++ extra) /\
    Forall (fun o => match o with Opt c _ => In c [0x0c; 0x3d] | Pad => False end) extra /\
    (short os -> short (os ++ extra)).
Proof.
  intros Hp Hv. revert packet os Hp; induction Hv as [|v vals (c & d & -> & Hc & Hd) _ IH]; intros packet os Hp.
  - exists packet, []. rewrite app_nil_r. by split_and!.
  - assert (plain_opt (Opt c d)) as Hok by (split; [done|]; by destruct Hc as [<-|[<-|[]]]).
    destruct (wfp_add packet os c d [] Hp Hok) as (p1 & Hadd & Hh & Hw); [constructor|].
    rewrite app_nil_r in Hadd. cbn [add_send_options]. rewrite Hadd.
    destruct (IH p1 _ Hw) as (p2 & extra & Hadd2 & Hh2 & Hw2 & Hx & Hsh).
    pose proof (fun H => Hsh (short_grow os (Opt c d) H)) as Hsh2. unfold grow in Hw2, Hsh2.
    exists p2. destruct (_ <? _).
    + exists (Opt c d :: extra). rewrite <- app_assoc in Hw2, Hsh2. split_and!; [done|congruence|done|by constructor|done].
    + exists extra. split_and!; [done|congruence|done|done|done].
Qed.

Lemma opt_data_extra code extra :
  Forall (fun o => match o with Opt c _ => In c [0x0c; 0x3d] | Pad => False end) extra ->
  ~ In code [0x0c; 0x3d] -> opt_data code extra = None.
Proof.
  intros Hx Hc. induction Hx as [|[|c d] extra Ho _ IH]; [done|done|]. cbn [opt_data].
  destruct (Z.eqb_spec c code) as [->|]; [contradiction|done].
Qed.

(** The end of every request: its own options, then the requested codes. *)
Lemma finish_request_spec c packet os :
  packet_ready c -> wfp packet os -> zlen (enc_opts os) <= 40 ->
  exists packet', finish_request foreach_order c packet = Some packet' /\
    header packet' = header packet /\ (exists os', wfp packet' os' /\ short os') /\
    forall code, 0 < code < 255 -> ~ In code [0x0c; 0x3d] ->
      reads packet' code = opt_data code (grow_requests (request_list c) os).
Proof.
  intros [_ Hr Hv] Hp Hs. unfold finish_request.
  destruct (wfp_add_requests packet os (request_list c) Hp Hr) as (p1 & -> & Hh & Hw).
  { unfold DHCP_OPTIONS_BUFSIZE. lia. }
  destruct (wfp_add_values p1 _ _ Hw Hv) as (p2 & extra & -> & Hh2 & Hw2 & Hx & Hsh).
  exists p2. split_and!; [done|congruence| |].
  { exists (grow_requests (request_list c) os ++ extra). split; [done|]. apply Hsh. unfold short, grow_requests.
    case_bool_decide; [unfold DHCP_OPTIONS_BUFSIZE; lia|]. rewrite enc_opts_one. cbn [enc].
    rewrite !zlen_cons, zlen_map. unfold DHCP_OPTIONS_BUFSIZE. lia. }
  intros code Hc Hne. rewrite (wfp_reads _ _ _ Hw2 Hc), opt_data_app, (opt_data_extra _ _ Hx Hne).
  by destruct (opt_data code _).
Qed.

(** The hardware address is an array of six bytes. *)
Definition mac_ok (c : client) : Prop := zlen (mac_address c) = 6 /\ Forall byte_ok (mac_address c).

(** A packet of the client before its options. *)
Lemma client_init_packet_spec c type :
  mac_ok c -> 0 <= type < 256 ->
  exists packet, init_packet c type = Some packet /\ wfp packet [mtype_opt type] /\
    field_at off_chaddr 6 packet = mac_address c /\ framed (op_of type) packet.
Proof.
  intros [Hm Hmb] Ht. unfold init_packet. destruct (wfp_init type Ht) as (p & Hi & Hp). rewrite Hi.
  cbn [option_map]. rewrite ztake_all by lia. eexists. split; [done|]. pose proof (wfp_packet_ok _ _ Hp) as [Hl _]. split_and!.
  - apply wfp_put; [done|done|rewrite Hm; done|done].
  - rewrite <- Hm at 1. apply field_put_same; [done|]. rewrite Hm, Hl. done.
  - apply framed_put; [done|done|by rewrite Hm|by apply init_header_framed].
Qed.

(** What every request of a client says. *)
Record says (c : client) (type : Z) (packet : list Z) : Prop := {
  says_ok : packet_ok packet;
  says_framed : framed BOOTREQUEST packet;
  says_fits : exists os, wfp packet os /\ short os;
  says_xid : get_le32 packet off_xid = xid c;
  says_mac : field_at off_chaddr 6 packet = mac_address c;
  says_type : reads packet DHCP_MESSAGE_TYPE = Some [type];
  says_requests : reads packet DHCP_PARAM_REQ =
    if bool_decide (request_list c = []) then None else Some (map u8 (request_list c));
  says_vendor : reads packet DHCP_VENDOR = None;
}.

(** From a packet with the header written to the finished request. *)
Lemma finish_says c type packet os :
  packet_ready c -> wfp packet (mtype_opt type :: os) -> zlen (enc_opts (mtype_opt type :: os)) <= 40 ->
  opt_data DHCP_PARAM_REQ os = None -> opt_data DHCP_VENDOR os = None ->
  get_le32 packet off_xid = xid c -> field_at off_chaddr 6 packet = mac_address c -> framed BOOTREQUEST packet ->
  exists packet', finish_request foreach_order c packet = Some packet' /\ says c type packet' /\
    header packet' = header packet /\
    forall code, 0 < code < 255 -> ~ In code [0x0c; 0x3d; DHCP_PARAM_REQ; DHCP_MESSAGE_TYPE] ->
      reads packet' code = opt_data code os.
Proof.
  intros Hr Hp Hs Hnone Hven Hx Hm Hfr. destruct (finish_request_spec c packet _ Hr Hp Hs) as (p & Hf & Hh & Hok & Hread).
  exists p. split; [done|]. split; [|split; [done|]].
  - split; [by destruct Hok as (? & ? & _); eapply wfp_packet_ok|by apply (framed_header _ p packet)|done| | | | |].
    + rewrite <- Hx. by apply get_le32_header.
    + rewrite <- Hm. by apply field_header.
    + rewrite Hread by (done || (cbn; intros [?|[?|[]]]; done)). unfold grow_requests.
      by case_bool_decide.
    + rewrite Hread by (done || (cbn; intros [?|[?|[]]]; done)). unfold grow_requests. cbn [app].
      case_bool_decide; cbn [opt_data mtype_opt app]; [done|]. rewrite opt_data_app, Hnone. done.
    + rewrite Hread by (done || (cbn; intros [?|[?|[]]]; done)). unfold grow_requests.
      case_bool_decide; cbn [opt_data mtype_opt app]; [done|]. rewrite opt_data_app, Hven. done.
  - intros code Hc Hne. rewrite Hread; [|done|].
    + unfold grow_requests. assert ((DHCP_MESSAGE_TYPE =? code) = false) as He
        by (apply Z.eqb_neq; intros <-; apply Hne; cbn; tauto).
      assert ((DHCP_PARAM_REQ =? code) = false) as He2 by (apply Z.eqb_neq; intros <-; apply Hne; cbn; tauto).
      case_bool_decide; cbn [opt_data mtype_opt app]; rewrite He; [done|].
      rewrite opt_data_app. destruct (opt_data code os); [done|]. cbn [opt_data]. by rewrite He2.
    + intros Hin. apply Hne. cbn in *. tauto.
Qed.

(** Writing the transaction id and another field below the hardware address. *)
Lemma says_put c packet os off bytes :
  wfp packet os -> field_at off_chaddr 6 packet = mac_address c -> 0 <= xid c < 2 ^ 32 ->
  off_xid + 4 <= off -> off + zlen bytes <= off_chaddr -> Forall byte_ok bytes ->
  let p := put off bytes (put32 off_xid (xid c) packet) in
  wfp p os /\ field_at off_chaddr 6 p = mac_address c /\ get_le32 p off_xid = xid c /\
  field_at off (zlen bytes) p = bytes /\ (forall op, framed op packet -> framed op p).
Proof.
  intros Hp Hm Hx Ho Hl Hb. pose proof (wfp_packet_ok _ _ Hp) as [Hz _]. pose proof (zlen_nonneg bytes).
  unfold off_xid, off_chaddr in *. cbn zeta. unfold put32.
  assert (zlen (le_bytes32 (xid c)) = 4) as H4 by done.
  assert (zlen (put 4 (le_bytes32 (xid c)) packet) = sizeof_packet) as Hz1 by (by rewrite zlen_put; rewrite ?Hz).
  split_and!.
  - apply wfp_put; [|lia|unfold off_options; lia|done]. apply wfp_put; [done|done|rewrite H4; done|done].
  - rewrite field_put_other by (rewrite ?Hz1; unfold sizeof_packet; lia).
    rewrite field_put_other by (rewrite ?H4, ?Hz; unfold sizeof_packet; lia). done.
  - rewrite get_le32_put_other by (rewrite ?Hz1; unfold sizeof_packet; lia).
    apply get_le32_put_same; [done|rewrite Hz; done|done].
  - apply field_put_same; [lia|]. rewrite Hz1. unfold sizeof_packet. lia.
  - intros op Hf. apply framed_put; [done|lia|unfold off_cookie; lia|].
    apply framed_put; [done|done|by rewrite H4|done].
Qed.

(** The sections of the header that the options do not touch. *)
Lemma secs_header p q secs :
  header p = header q -> field_at off_secs 2 q = le_bytes16 secs -> field_at off_secs 2 p = le_bytes16 secs.
Proof. intros Hh <-. by apply field_header. Qed.

Ltac not_in := cbn; intros Hin; repeat (destruct Hin as [?|Hin]; [done|]); done.

Lemma discover_packet_says c secs requested :
  packet_ready c -> 0 <= xid c < 2 ^ 32 ->
  exists p, discover_packet foreach_order c secs requested = Some p /\ says c DHCPDISCOVER p /\
    reads p DHCP_REQUESTED_IP = (if requested =? 0 then None else Some (put_be32 requested)) /\
    reads p DHCP_MAX_SIZE = Some (put_be16 576) /\ reads p DHCP_SERVER_ID = None /\
    field_at off_secs 2 p = le_bytes16 secs.
Proof.
  intros Hr Hx. unfold discover_packet. destruct (client_init_packet_spec c DHCPDISCOVER (ready_mac _ Hr)) as (p & -> & Hp & Hm & Hf0); [done|].
  destruct (says_put c p _ off_secs (le_bytes16 secs) Hp Hm Hx) as (Hp1 & Hm1 & Hx1 & Hs1 & Hf1); [done..|].
  unfold put16. set (p1 := put off_secs _ _) in *.
  assert (exists p2, (if negb (requested =? 0) then dhcp_add_option_uint32 p1 DHCP_REQUESTED_IP requested
                      else Some p1) = Some p2 /\ header p2 = header p1 /\
    wfp p2 (mtype_opt DHCPDISCOVER :: if requested =? 0 then [] else [Opt DHCP_REQUESTED_IP (put_be32 requested)]))
    as (p2 & -> & Hh2 & Hp2).
  { destruct (requested =? 0); cbn [negb]; [by exists p1|].
    by destruct (wfp_add_uint32 p1 _ DHCP_REQUESTED_IP requested Hp1) as (p2 & ? & ? & ?); [..|exists p2]. }
  destruct (wfp_add_uint16 p2 _ DHCP_MAX_SIZE 576 Hp2) as (p3 & -> & Hh3 & Hp3); [done..|].
  destruct (finish_says c DHCPDISCOVER p3 ((if requested =? 0 then [] else [Opt DHCP_REQUESTED_IP (put_be32 requested)])
    ++ [Opt DHCP_MAX_SIZE (put_be16 576)]) Hr) as (p4 & Hf & Hsays & Hh4 & Hread).
  - destruct (requested =? 0); exact Hp3.
  - by destruct (requested =? 0).
  - by destruct (requested =? 0).
  - by destruct (requested =? 0).
  - rewrite <- Hx1. apply get_le32_header; [done|done|congruence].
  - rewrite <- Hm1. apply field_header; [done|done|done|congruence].
  - apply (framed_header _ _ p1); [congruence|by apply Hf1].
  - exists p4. split; [done|]. split; [done|]. rewrite !Hread by (done || not_in).
    split_and!; [by destruct (requested =? 0)..|]. apply (secs_header p4 p1); [congruence|done].
Qed.

Lemma select_packet_says c secs :
  packet_ready c -> 0 <= xid c < 2 ^ 32 ->
  exists p, select_packet foreach_order c secs = Some p /\ says c DHCPREQUEST p /\
    reads p DHCP_REQUESTED_IP = Some (put_be32 (requested_ip c)) /\
    reads p DHCP_SERVER_ID = Some (put_be32 (server_ip c)) /\ field_at off_secs 2 p = le_bytes16 secs.
Proof.
  intros Hr Hx. unfold select_packet. destruct (client_init_packet_spec c DHCPREQUEST (ready_mac _ Hr)) as (p & -> & Hp & Hm & Hf0); [done|].
  destruct (says_put c p _ off_secs (le_bytes16 secs) Hp Hm Hx) as (Hp1 & Hm1 & Hx1 & Hs1 & Hf1); [done..|].
  unfold put16. set (p1 := put off_secs _ _) in *.
  destruct (wfp_add_uint32 p1 _ DHCP_REQUESTED_IP (requested_ip c) Hp1) as (p2 & -> & Hh2 & Hp2); [done..|].
  destruct (wfp_add_uint32 p2 _ DHCP_SERVER_ID (server_ip c) Hp2) as (p3 & -> & Hh3 & Hp3); [done..|].
  destruct (finish_says c DHCPREQUEST p3 [Opt DHCP_REQUESTED_IP (put_be32 (requested_ip c));
    Opt DHCP_SERVER_ID (put_be32 (server_ip c))] Hr) as (p4 & Hf & Hsays & Hh4 & Hread); [exact Hp3|done|done|done|..].
  - rewrite <- Hx1. apply get_le32_header; [done|done|congruence].
  - rewrite <- Hm1. apply field_header; [done|done|done|congruence].
  - apply (framed_header _ _ p1); [congruence|by apply Hf1].
  - exists p4. split; [done|]. split; [done|]. rewrite !Hread by (done || not_in).
    split_and!; [done|done|]. apply (secs_header p4 p1); [congruence|done].
Qed.

Lemma renew_packet_says c :
  packet_ready c -> 0 <= xid c < 2 ^ 32 ->
  exists p, renew_packet foreach_order c = Some p /\ says c DHCPREQUEST p /\
    reads p DHCP_REQUESTED_IP = None /\ reads p DHCP_SERVER_ID = None /\
    get_le32 p off_ciaddr = htonl (requested_ip c).
Proof.
  intros Hr Hx. unfold renew_packet. destruct (client_init_packet_spec c DHCPREQUEST (ready_mac _ Hr)) as (p & -> & Hp & Hm & Hf0); [done|].
  destruct (says_put c p _ off_ciaddr (le_bytes32 (htonl (requested_ip c))) Hp Hm Hx) as (Hp1 & Hm1 & Hx1 & Hs1 & Hf1);
    [done..|apply le_bytes32_ok|].
  destruct (finish_says c DHCPREQUEST _ [] Hr Hp1) as (p4 & Hf & Hsays & Hh4 & Hread); [done..|by apply Hf1|].
  exists p4. split; [done|]. split; [done|]. rewrite !Hread by (done || not_in). split_and!; [done|done|].
  rewrite (get_le32_header off_ciaddr p4 _) by done. unfold put32 at 1.
  apply get_le32_put_same; [done| |apply bswap_32_range].
  destruct (wfp_packet_ok _ _ Hp) as [Hz _]. unfold put32. by rewrite zlen_put; rewrite ?Hz.
Qed.

(** The release names the address and the server. *)
Lemma release_packet_says c x server ciaddr :
  mac_ok c ->
  exists p, release_packet c x server ciaddr = Some p /\ packet_ok p /\
    reads p DHCP_MESSAGE_TYPE = Some [DHCPRELEASE] /\ reads p DHCP_SERVER_ID = Some (put_be32 server) /\
    get_le32 p off_ciaddr = htonl ciaddr.
Proof.
  intros Hr. unfold release_packet. destruct (client_init_packet_spec c DHCPRELEASE Hr) as (p & -> & Hp & Hm & Hf0); [done|].
  unfold put32. set (p1 := put off_xid _ p). set (p2 := put off_ciaddr _ p1).
  assert (wfp p1 [mtype_opt DHCPRELEASE]) as Hp1 by (apply wfp_put; [done|done|done|apply le_bytes32_ok]).
  assert (wfp p2 [mtype_opt DHCPRELEASE]) as Hp2 by (apply wfp_put; [done|done|done|apply le_bytes32_ok]).
  destruct (wfp_add_uint32 p2 _ DHCP_SERVER_ID server Hp2) as (p3 & -> & Hh3 & Hp3); [done..|].
  exists p3. split; [done|]. split; [by eapply wfp_packet_ok|]. rewrite !(wfp_reads _ _ _ Hp3) by done.
  split_and!; [done|done|]. rewrite (get_le32_header off_ciaddr p3 p2) by done.
  apply get_le32_put_same; [done| |apply bswap_32_range].
  destruct (wfp_packet_ok _ _ Hp1) as [Hz _]. by rewrite Hz.
Qed.

(** C31. The requests of the client can be read: for every client whose settings
    fit a packet (at most 255 requested options), the discover, select, renew and
    release packets are built.  The first three name the client (transaction id and
    hardware address), its requested options and the right message type, and their
    options fit the bytes that are sent; all carry exactly the address and server
    options RFC 2131 prescribes for them: a discover the address it hopes for, if
    any; a select the offered address and the server chosen; a renew neither, but
    its own address in [ciaddr]; a release the server and, in [ciaddr], the
    address. *)
Theorem requests_readable c secs requested x :
  packet_ready c -> 0 <= xid c < 2 ^ 32 ->
  (exists p, discover_packet foreach_order c secs requested = Some p /\ says c DHCPDISCOVER p /\
     reads p DHCP_REQUESTED_IP = (if requested =? 0 then None else Some (put_be32 requested)) /\
     reads p DHCP_MAX_SIZE = Some (put_be16 576) /\ reads p DHCP_SERVER_ID = None /\
     field_at off_secs 2 p = le_bytes16 secs) /\
  (exists p, select_packet foreach_order c secs = Some p /\ says c DHCPREQUEST p /\
     reads p DHCP_REQUESTED_IP = Some (put_be32 (requested_ip c)) /\
     reads p DHCP_SERVER_ID = Some (put_be32 (server_ip c)) /\ field_at off_secs 2 p = le_bytes16 secs) /\
  (exists p, renew_packet foreach_order c = Some p /\ says c DHCPREQUEST p /\
     reads p DHCP_REQUESTED_IP = None /\ reads p DHCP_SERVER_ID = None /\
     get_le32 p off_ciaddr = htonl (requested_ip c)) /\
  (exists p, release_packet c x (server_ip c) (requested_ip c) = Some p /\ packet_ok p /\
     reads p DHCP_MESSAGE_TYPE = Some [DHCPRELEASE] /\
     reads p DHCP_SERVER_ID = Some (put_be32 (server_ip c)) /\
     get_le32 p off_ciaddr = htonl (requested_ip c)).
Proof.
  intros Hr Hx. split_and!; [by apply discover_packet_says|by apply select_packet_says|by apply renew_packet_says|].
  by apply release_packet_says, ready_mac.
Qed.

End packets.

(** A client that asks for netmask, router and name servers. *)
Definition sample_client : client :=
  client0 <| mac_address := [2; 0; 0; 0; 0; 1] |> <| request_list := [1; 3; 6] |> <| xid := 77 |>
          <| requested_ip := 0xc0a80002 |> <| server_ip := 0xc0a80001 |> <| ref_count := 1 |>
          <| listener_sockfd := -1 |> <| ifindex := 2 |>.

Lemma sample_client_ready : packet_ready map_to_list sample_client.
Proof.
  split; [|done|].
  - split; [done|]. repeat constructor; done.
  - change (send_value_hash sample_client) with (∅ : gmap Z (list Z)). rewrite map_to_list_empty. constructor.
Qed.

Lemma requests_readable_witness :
  exists p, discover_packet map_to_list sample_client 0 0 = Some p /\ reads p DHCP_PARAM_REQ = Some [1; 3; 6].
Proof.
  destruct (requests_readable map_to_list sample_client 0 0 5 sample_client_ready) as ((p & Hp & Hs & _) & _); [done|].
  exists p. split; [exact Hp|exact (says_requests _ _ _ Hs)].
Defined.
