(* ===== verification/DhcpReplies.v ===== *)
(** * The replies of the DHCP server, exactly.

    What the offer and the acknowledgement of [DhcpServer.v] say, that they
    survive being cut to the bytes that are sent, and when the server does send
    them. *)

From stdpp Require Import gmap.
From S2P Require Import Prelude StateFail CLib Bytes DhcpCommon DhcpServer DhcpHandlers DhcpNet DhcpClientPackets.

(** ** A packet on its way *)

(** The receiver's buffer after the bytes that are sent have arrived. *)
Definition carried (old packet : list Z) : list Z := put 0 (ztake DHCP_SIZE packet) old.

Lemma carried_split old packet :
  zlen packet = sizeof_packet -> zlen old = sizeof_packet ->
  carried old packet = ztake DHCP_SIZE packet ++ zdrop DHCP_SIZE old /\ zlen (carried old packet) = sizeof_packet.
Proof.
  intros Hp Ho. assert (zlen (ztake DHCP_SIZE packet) = DHCP_SIZE) as Hl.
  { unfold DHCP_SIZE, sizeof_packet, EXTEND_FOR_BUGGY_SERVERS in *. zlia. }
  assert (carried old packet = ztake DHCP_SIZE packet ++ zdrop DHCP_SIZE old) as He.
  { unfold carried, put, memcpy. by rewrite Hl, (ztake_neg 0). }
  split; [done|]. rewrite He, zlen_app, Hl. unfold DHCP_SIZE, sizeof_packet, EXTEND_FOR_BUGGY_SERVERS in *. zlia.
Qed.

Lemma carried_header old packet :
  zlen packet = sizeof_packet -> zlen old = sizeof_packet -> header (carried old packet) = header packet.
Proof.
  intros Hp Ho. destruct (carried_split old packet Hp Ho) as [-> _]. unfold header.
  unfold DHCP_SIZE, sizeof_packet, EXTEND_FOR_BUGGY_SERVERS, off_options in *.
  rewrite ztake_app_le by zlia. rewrite ztake_ztake. done.
Qed.

(** The options that fit are all there. *)
Lemma carried_opts old packet os :
  has_opts packet os -> short os -> zlen old = sizeof_packet -> has_opts (carried old packet) os.
Proof.
  intros [Hl [rest Hr]] Hs Ho. destruct (carried_split old packet Hl Ho) as [He Hz]. split; [done|].
  unfold short in Hs. rewrite He. unfold DHCP_SIZE, sizeof_packet, EXTEND_FOR_BUGGY_SERVERS, off_options, DHCP_OPTIONS_BUFSIZE in *.
  exists (ztake (308 - zlen (enc_opts os) - 1) rest ++ zdrop (628 - 80) old).
  assert (zlen packet = 240 + zlen (enc_opts os ++ DHCP_END :: rest)) as Hlen by (rewrite <- Hr; zlia).
  rewrite zlen_app, zlen_cons in Hlen.
  rewrite zdrop_app_le by zlia.
  assert (zdrop 240 (ztake (628 - 80) packet) = ztake 308 (zdrop 240 packet)) as -> by zlist_eq.
  rewrite Hr, ztake_app, (ztake_all 308) by lia. set (n := 308 - zlen (enc_opts os)).
  assert (ztake n (DHCP_END :: rest) = DHCP_END :: ztake (n - 1) rest) as ->.
  { unfold ztake. replace (Z.to_nat n) with (S (Z.to_nat (n - 1))) by lia. done. }
  by rewrite <- app_assoc.
Qed.

Lemma carried_wfp old packet os :
  wfp packet os -> short os -> zlen old = sizeof_packet -> Forall byte_ok old -> wfp (carried old packet) os.
Proof.
  intros [Hp Hd Hn Hb] Hs Ho Hob. split; [by apply carried_opts|done|done|]. destruct Hp as [Hl _].
  destruct (carried_split old packet Hl Ho) as [-> _]. apply Forall_app_2; [by apply Forall_take|by apply Forall_drop].
Qed.

(** Searches with more fuel find the same. *)
Lemma wfp_found packet os fuel code :
  wfp packet os -> 0 < code < 255 -> (388 <= fuel)%nat ->
  dhcp_get_option fuel packet code <> OptHang /\
  found_data packet (dhcp_get_option fuel packet code) = opt_data code os.
Proof. intros [Hp Hd Hn Hb] Hc Hf. by apply get_option_spec. Qed.

(** ** Replies *)

(** A number of four bytes, as the server puts them into its replies. *)
Definition number_opt (o : dopt) : Prop := exists code v, o = Opt code (put_be32 v) /\ In code u32_codes.

(** A reply starts with these options and goes on with numbers. *)
Definition built (pre : list dopt) (packet : list Z) : Prop :=
  exists os, wfp packet (pre ++ os) /\ short (pre ++ os) /\ Forall number_opt os.

Lemma built_put pre packet off bytes :
  built pre packet -> 0 <= off -> off + zlen bytes <= off_options -> Forall byte_ok bytes ->
  built pre (put off bytes packet).
Proof. intros (os & Hw & Hs & Hn) Ho Hl Hb. exists os. split_and!; [by apply wfp_put|done..]. Qed.

Lemma built_carried pre packet old :
  built pre packet -> zlen old = sizeof_packet -> Forall byte_ok old -> built pre (carried old packet).
Proof. intros (os & Hw & Hs & Hn) Ho Hb. exists os. split_and!; [by apply carried_wfp|done..]. Qed.

Lemma built_len pre packet : built pre packet -> zlen packet = sizeof_packet.
Proof. intros (os & Hw & _). apply (wfp_packet_ok _ _ Hw). Qed.

Lemma u32_codes_known code : In code u32_codes ->
  check_option code 4 <> OPTION_UNKNOWN /\ 0 < code < 255 /\ code <> DHCP_OPTION_OVERLOAD.
Proof. cbn. by intros [<-|[<-|[<-|[<-|[<-|[]]]]]]. Qed.

Lemma built_add pre packet code v :
  built pre packet -> In code u32_codes ->
  exists packet', dhcp_add_option_uint32 packet code v = Some packet' /\ header packet' = header packet /\ built pre packet'.
Proof.
  intros (os & Hw & Hs & Hn) Hc. destruct (u32_codes_known _ Hc) as (H1 & H2 & H3).
  destruct (wfp_add_uint32 packet _ code v Hw) as (p & Hadd & Hh & Hp); [done..|]. exists p. split_and!; [done..|].
  pose proof (short_grow _ (Opt code (put_be32 v)) Hs) as Hsh. unfold grow in *. destruct (_ <? _); [|by exists os].
  exists (os ++ [Opt code (put_be32 v)]). rewrite app_assoc. split_and!; [done..|]. apply Forall_app_2; [done|].
  constructor; [by exists code, v|constructor].
Qed.

(** The first option of a reply with no others. *)
Lemma built_add_first pre packet code v :
  wfp packet pre -> zlen (enc_opts pre) + 7 < DHCP_OPTIONS_BUFSIZE -> In code u32_codes ->
  exists packet', dhcp_add_option_uint32 packet code v = Some packet' /\ header packet' = header packet /\
    wfp packet' (pre ++ [Opt code (put_be32 v)]).
Proof.
  intros Hw Hs Hc. destruct (u32_codes_known _ Hc) as (H1 & H2 & H3).
  destruct (wfp_add_uint32 packet _ code v Hw) as (p & Hadd & Hh & Hp); [done..|]. exists p. split_and!; [done..|].
  unfold grow in Hp. change (zlen (enc (Opt code (put_be32 v)))) with 6 in Hp.
  by rewrite (proj2 (Z.ltb_lt _ _)) in Hp by lia.
Qed.

(** What [init_packet] copies and adds. *)
Lemma server_init_packet c client type :
  packet_ok client -> 0 <= type < 256 ->
  exists packet, DhcpServer.init_packet c client type = Some packet /\
    wfp packet [mtype_opt type; Opt DHCP_SERVER_ID (put_be32 (server_nip c))] /\
    framed (op_of type) packet /\ get_le32 packet off_xid = get_le32 client off_xid /\
    field_at off_chaddr 16 packet = field_at off_chaddr 16 client.
Proof.
  intros [Hl Hb] Ht. unfold DhcpServer.init_packet. destruct (wfp_init type Ht) as (p0 & Hi & Hp0). rewrite Hi.
  pose proof (init_header_framed _ _ Ht Hi) as Hf0.
  assert (forall off len p, wfp p [mtype_opt type] -> framed (op_of type) p -> 3 <= off -> 0 <= len -> off + len <= off_cookie ->
    wfp (copy_field off len client p) [mtype_opt type] /\ framed (op_of type) (copy_field off len client p) /\
    field_at off len (copy_field off len client p) = field_at off len client /\
    (forall off' len', 0 <= off' -> 0 <= len' -> off' + len' <= off \/ off + len <= off' ->
       field_at off' len' (copy_field off len client p) = field_at off' len' p)) as Hcopy.
  { intros off len p Hp Hf Ho Hn Hlt. pose proof (wfp_packet_ok _ _ Hp) as [Hpl _].
    assert (zlen (field_at off len client) = len) as Hfl
      by (apply field_len; unfold off_cookie, sizeof_packet in *; lia).
    unfold copy_field. fold (field_at off len client). split_and!.
    - apply wfp_put; [done|lia|unfold off_cookie, off_options in *; lia|by apply field_ok].
    - apply framed_put; [done|lia|lia|done].
    - rewrite <- Hfl at 1. apply field_put_same; unfold off_cookie, sizeof_packet in *; lia.
    - intros off' len' Ho' Hl' Hd. apply field_put_other; unfold off_cookie, sizeof_packet in *; lia. }
  destruct (Hcopy off_xid 4 p0) as (H1 & B1 & F1 & O1); [done..|]. set (p1 := copy_field off_xid 4 client p0) in *.
  destruct (Hcopy off_chaddr 16 p1) as (H2 & B2 & F2 & O2); [done..|]. set (p2 := copy_field off_chaddr 16 client p1) in *.
  destruct (Hcopy off_flags 2 p2) as (H3 & B3 & _ & O3); [done..|]. set (p3 := copy_field off_flags 2 client p2) in *.
  destruct (Hcopy off_gateway 4 p3) as (H4 & B4 & _ & O4); [done..|]. set (p4 := copy_field off_gateway 4 client p3) in *.
  destruct (Hcopy off_ciaddr 4 p4) as (H5 & B5 & _ & O5); [done..|]. set (p5 := copy_field off_ciaddr 4 client p4) in *.
  cbn zeta. destruct (built_add_first [mtype_opt type] p5 DHCP_SERVER_ID (server_nip c) H5) as (p' & Hadd & Hh & Hw);
    [done|cbn; tauto|]. exists p'. split_and!; [done|done|by apply (framed_header _ p' p5)| |].
  - rewrite (get_le32_header _ p' p5), !(get_le32_field off_xid) by done. f_equal.
    rewrite O5, O4, O3, O2 by (unfold off_xid, off_chaddr, off_ciaddr, off_gateway, off_flags; lia). exact F1.
  - rewrite (field_header _ _ p' p5) by done.
    rewrite O5, O4, O3 by (unfold off_chaddr, off_ciaddr, off_gateway, off_flags; lia). exact F2.
Qed.

Lemma known_code k : known_option k = true -> In k u32_codes.
Proof. unfold known_option. intros [[Hk|Hk]%orb_true_iff|Hk]%orb_true_iff; apply Z.eqb_eq in Hk; rewrite Hk; cbn; tauto. Qed.

Section replies.
Context (inet_aton : list Z -> option Z) (foreach_order : gmap Z (list Z) -> list (Z * list Z)).

Lemma server_options_built pre c packet :
  built pre packet ->
  exists packet', add_server_options inet_aton foreach_order c packet = Some packet' /\
    header packet' = header packet /\ built pre packet'.
Proof.
  unfold add_server_options. generalize (foreach_order (option_hash c)) as kvs.
  intros kvs; revert packet; induction kvs as [|[k v] kvs IH]; intros packet Hr; cbn [fold_left].
  - by exists packet.
  - cbn [add_option fst snd]. destruct (known_option (u8 k)) eqn:Hk; [|by apply IH].
    destruct (inet_aton v) as [nip|]; [|by apply IH].
    assert (In (u8 k) u32_codes) as Hc by (by apply known_code).
    destruct (built_add pre packet (u8 k) (ntohl nip) Hr Hc) as (p1 & -> & Hh1 & Hr1).
    destruct (IH p1 Hr1) as (p2 & -> & Hh2 & Hr2). exists p2. split_and!; [done|congruence|done].
Qed.

(** The options of the configuration, as they are sent. *)
Definition configured_opt (kv : Z * list Z) : option dopt :=
  if known_option (u8 (fst kv)) then option_map (fun nip => Opt (u8 (fst kv)) (put_be32 (ntohl nip))) (inet_aton (snd kv))
  else None.

Definition configured_opts (c : config) : list dopt := omap configured_opt (foreach_order (option_hash c)).

(** A few of them all fit. *)
Lemma server_options_exact pre c packet packet' :
  wfp packet pre -> zlen (enc_opts pre) + 6 * zlen (foreach_order (option_hash c)) + 1 < DHCP_OPTIONS_BUFSIZE ->
  add_server_options inet_aton foreach_order c packet = Some packet' -> wfp packet' (pre ++ configured_opts c).
Proof.
  unfold add_server_options, configured_opts. generalize (foreach_order (option_hash c)) as kvs.
  intros kvs; revert pre packet; induction kvs as [|[k v] kvs IH]; intros pre packet Hw Hs; cbn [fold_left omap list_omap].
  - intros [= <-]. by rewrite app_nil_r.
  - rewrite zlen_cons in Hs. pose proof (zlen_nonneg kvs).
    unfold configured_opt at 1. cbn [add_option fst snd]. destruct (known_option (u8 k)) eqn:Hk; [|apply IH; [done|lia]].
    destruct (inet_aton v) as [nip|]; cbn [option_map]; [|apply IH; [done|lia]].
    destruct (built_add_first pre packet (u8 k) (ntohl nip) Hw) as (p1 & -> & _ & Hw1); [lia|by apply known_code|].
    intros Hf. apply (IH (pre ++ [Opt (u8 k) (put_be32 (ntohl nip))])) in Hf; [by rewrite <- app_assoc in Hf|done|].
    rewrite enc_opts_one. change (zlen (enc (Opt (u8 k) (put_be32 (ntohl nip))))) with 6. lia.
Qed.

(** An offer or an acknowledgement of an address to the sender of a packet. *)
Record answers (c : config) (type yiaddr : Z) (client packet : list Z) : Prop := {
  an_built : built [mtype_opt type; Opt DHCP_SERVER_ID (put_be32 (server_nip c));
    Opt DHCP_LEASE_TIME (put_be32 (lease_seconds c))] packet;
  an_options : zlen (foreach_order (option_hash c)) <= 3 ->
    wfp packet ([mtype_opt type; Opt DHCP_SERVER_ID (put_be32 (server_nip c));
      Opt DHCP_LEASE_TIME (put_be32 (lease_seconds c))] ++ configured_opts c);
  an_framed : framed BOOTREPLY packet;
  an_yiaddr : get_le32 packet off_yiaddr = yiaddr;
  an_xid : get_le32 packet off_xid = get_le32 client off_xid;
  an_chaddr : field_at off_chaddr 16 packet = field_at off_chaddr 16 client;
}.

(** The three steps both handlers share. *)
Lemma answer_steps c client type yiaddr :
  packet_ok client -> In type [DHCPOFFER; DHCPACK] -> 0 <= yiaddr < 2 ^ 32 ->
  exists p0 p1 p2, DhcpServer.init_packet c client type = Some p0 /\
    field_at off_chaddr 16 (put off_yiaddr (le_bytes32 yiaddr) p0) = field_at off_chaddr 16 client /\
    dhcp_add_option_uint32 (put off_yiaddr (le_bytes32 yiaddr) p0) DHCP_LEASE_TIME (lease_seconds c) = Some p1 /\
    add_server_options inet_aton foreach_order c p1 = Some p2 /\ answers c type yiaddr client p2.
Proof.
  intros Hc Hty Hy. assert (0 <= type < 256 /\ op_of type = BOOTREPLY) as [Ht Hop] by (by destruct Hty as [<-|[<-|[]]]).
  destruct (server_init_packet c client type Hc Ht) as (p0 & H0 & Hw0 & Hf0 & Hx0 & Hm0). rewrite Hop in Hf0.
  pose proof (wfp_packet_ok _ _ Hw0) as [Hz _]. set (q := put off_yiaddr (le_bytes32 yiaddr) p0).
  assert (wfp q [mtype_opt type; Opt DHCP_SERVER_ID (put_be32 (server_nip c))]) as Hq
    by (apply wfp_put; [done|done|done|apply le_bytes32_ok]).
  assert (framed BOOTREPLY q) as Hfq by (by apply framed_put).
  destruct (built_add_first _ q DHCP_LEASE_TIME (lease_seconds c) Hq) as (p1 & H1 & Hh1 & Hw1); [done|cbn; tauto|].
  destruct (server_options_built [mtype_opt type; Opt DHCP_SERVER_ID (put_be32 (server_nip c));
    Opt DHCP_LEASE_TIME (put_be32 (lease_seconds c))] c p1) as (p2 & H2 & Hh2 & Hb2).
  { exists []. rewrite app_nil_r. split_and!; [exact Hw1|done|constructor]. }
  assert (header p2 = header q) as Hh by congruence.
  assert (field_at off_chaddr 16 q = field_at off_chaddr 16 client) as Hmq.
  { unfold q. rewrite field_put_other; [done|done|done|done|by rewrite Hz|by right]. }
  exists p0, p1, p2. split_and!; [done|done|done|done|]. split; [done| |by apply (framed_header _ p2 q)| | |].
  - intros H3. eapply server_options_exact; [exact Hw1| |exact H2]. cbn [app].
    change (zlen (enc_opts _)) with 15. unfold DHCP_OPTIONS_BUFSIZE. lia.
  - rewrite (get_le32_header _ p2 q) by done. unfold q. apply get_le32_put_same; [done|by rewrite Hz|done].
  - rewrite (get_le32_header _ p2 q) by done. unfold q. rewrite get_le32_put_other; [done|done|by rewrite Hz|done|by left].
  - by rewrite (field_header _ _ p2 q).
Qed.

End replies.

(** ** Reading options *)

Lemma wfp_option packet os fuel code :
  wfp packet os -> 0 < code < 255 -> (388 <= fuel)%nat ->
  match opt_data code os with
  | None => dhcp_get_option fuel packet code = OptNull
  | Some d => exists p, dhcp_get_option fuel packet code = OptFound p /\ 0 <= p /\
      byte_at packet (p - 1) = zlen d /\ field_at p (zlen d) packet = d
  end.
Proof.
  intros Hw Hc Hf. destruct (wfp_found packet os fuel code Hw Hc Hf) as [Hh Hd]. rewrite <- Hd.
  destruct (dhcp_get_option fuel packet code) as [| |p] eqn:E; [done|done|]. cbn [found_data]. exists p.
  destruct (dhcp_get_option_bounds fuel packet code p) as (lo & hi & Hfi & Hlo & Hhi & _); [apply Hw|done|].
  destruct (wfp_packet_ok _ _ Hw) as [Hl Hb]. pose proof (byte_at_range packet (p - 1) Hb) as Hr.
  assert (0 <= lo /\ hi <= sizeof_packet) as [Hlo0 Hhi0] by (by destruct Hfi as [[-> ->]|[[-> ->]|[-> ->]]]).
  assert (zlen (ztake (byte_at packet (p - 1)) (zdrop p packet)) = byte_at packet (p - 1)) as Hz by zlia.
  split_and!; [done|lia|done|]. unfold field_at. by rewrite Hz.
Qed.

Lemma zlen_put_be32 v : zlen (put_be32 v) = 4.
Proof. reflexivity. Qed.

Lemma field_be32 packet p v : 0 <= p -> 0 <= v < 2 ^ 32 -> field_at p (zlen (put_be32 v)) packet = put_be32 v -> get_be32 packet p = v.
Proof.
  intros Hp Hv Hf. rewrite zlen_put_be32 in Hf. rewrite <- (put_be32_get v Hv). rewrite <- Hf. unfold get_be32.
  f_equal. by apply get_le32_field.
Qed.

Lemma field_byte packet p x : 0 <= p -> field_at p (zlen [x]) packet = [x] -> byte_at packet p = x.
Proof.
  intros Hp Hf. change (zlen [x]) with 1 in Hf. assert (byte_at (field_at p 1 packet) 0 = x) as <- by (by rewrite Hf).
  unfold field_at, byte_at, ztake. rewrite lookup_take_lt by lia. unfold zdrop. rewrite lookup_drop. do 2 f_equal. lia.
Qed.

(** ** Leasing an address *)

(** A hardware address leases are given to. *)
Definition leasable (mac : list Z) : Prop := mac <> MAC_BCAST_ADDR /\ mac <> MAC_ANY_ADDR.

Lemma get_lease_gives t start stop ok yiaddr mac :
  yiaddr <> 0 -> start <= ntohl yiaddr <= stop -> leasable (ztake ETH_ALEN mac) ->
  ok = true \/ find_lease_by_mac t mac <> None \/ nip_lease_hash t !! ntohl yiaddr <> None ->
  exists p t' used, DhcpServer.get_lease t start stop ok yiaddr mac = (0, Some p, t', used).
Proof.
  intros Hy [Hs He] [Hb Ha] Hok. unfold DhcpServer.get_lease. rewrite (proj2 (Z.eqb_neq _ _)) by done.
  rewrite !(proj2 (Z.ltb_ge _ _)) by done. rewrite !decide_False by done. cbv zeta.
  destruct (nip_lease_hash t !! ntohl yiaddr), (find_lease_by_mac t mac); [case_decide; eauto|eauto|eauto|].
  destruct Hok as [->|[?|?]]; [|done|done]. cbn [lease_new]. eauto.
Qed.

(** The client has this address until then. *)
Definition holds (s : server) (mac : list Z) (ip e : Z) : Prop :=
  exists p, find_lease_by_mac (tab s) mac = Some p /\ leases (tab s) !! p = Some (mkLease e ip (ztake ETH_ALEN mac)).

Lemma holds_mac s mac mac' ip e : ztake ETH_ALEN mac = ztake ETH_ALEN mac' -> holds s mac ip e -> holds s mac' ip e.
Proof. unfold holds, find_lease_by_mac. by intros ->. Qed.

(** The lease that is in the table under this hardware address. *)
Lemma found_by_mac t mac p l :
  table_ok t -> leases t !! p = Some l -> lease_mac l = ztake ETH_ALEN mac -> find_lease_by_mac t mac = Some p.
Proof.
  intros Hok Hl Hm. pose proof (find_lease_by_mac_spec t mac Hok) as Hf. destruct (find_lease_by_mac t mac) as [q|].
  - destruct Hf as (k & Hk & Hkm). f_equal. apply (ok_mac t Hok q p k l); congruence.
  - by destruct (Hf p l Hl).
Qed.

Section leases.
Context (clock : nat -> Z).

(** [add_lease] for a client and an address it can have. *)
Lemma add_lease_gives exp chaddr yiaddr s (Q : option nat -> server -> Prop) :
  table_ok (tab s) -> yiaddr <> 0 -> start_ip (cfg s) <= ntohl yiaddr <= end_ip (cfg s) -> leasable (ztake ETH_ALEN chaddr) ->
  next_answer s = true \/ find_lease_by_mac (tab s) chaddr <> None ->
  (forall p s', cfg s' = cfg s -> sent (en s') = sent (en s) -> table_ok (tab s') ->
     holds s' chaddr (ntohl yiaddr) (if exp =? 0 then clock (tick (en s)) + lease_seconds (cfg s) else exp) -> Q (Some p) s') ->
  swp False (add_lease clock exp chaddr yiaddr) Q s.
Proof.
  intros Hok Hy Hr Hm Ha HQ.
  destruct (get_lease_gives (tab s) (start_ip (cfg s)) (end_ip (cfg s)) (next_answer s) yiaddr chaddr) as (p0 & t & used & Hg);
    [done|done|done|tauto|].
  destruct (add_lease_exclusive clock exp chaddr yiaddr s Hok) as (r & s' & E & Hok' & Hc & Hres).
  assert (exists p, r = Some p /\ sent (en s') = sent (en s)) as (p & -> & Hsent).
  { revert E. unfold add_lease, sbind, get, sget, use_answer, set_tab. rewrite Hg. destruct (exp =? 0); intros [= <- <-]; by exists p0. }
  destruct Hres as (_ & _ & Hl & _). unfold swp. rewrite E. apply HQ; [done|done|done|].
  exists p. split; [by eapply found_by_mac|done].
Qed.

(** An address the server may give out to somebody new. *)
Definition free_address (s : server) (ip : Z) : Prop :=
  start_ip (cfg s) <= ip <= end_ip (cfg s) /\ Z.land ip 0xff <> 0 /\ Z.land ip 0xff <> 0xff /\ nip_lease_hash (tab s) !! ip = None.

Lemma free_nip_loop_finds fuel t ip stop mac r g :
  free_nip_loop fuel t ip stop mac = Some r -> 0 <= ip -> stop < 2 ^ 32 - 1 ->
  ip <= g <= stop -> Z.land g 0xff <> 0 -> Z.land g 0xff <> 0xff -> nip_lease_hash t !! g = None ->
  exists a, r = Some a /\ ip <= a <= stop /\ a <> 0.
Proof.
  intros Hr Hip Hs Hg H0 Hff Hnone; revert ip Hip Hg Hr; induction fuel as [|fuel IH]; intros ip Hip Hg; cbn [free_nip_loop]; [done|].
  rewrite (proj2 (Z.leb_le ip stop)) by lia. assert (u32 (ip + 1) = ip + 1) as -> by (apply Z.mod_small; lia).
  assert (ip <> g -> free_nip_loop fuel t (ip + 1) stop mac = Some r -> exists a, r = Some a /\ ip <= a <= stop /\ a <> 0) as Hnext.
  { intros Hne Hl. destruct (IH (ip + 1) ltac:(lia) ltac:(lia) Hl) as (a & ? & ? & ?). exists a. split_and!; [done|lia..]. }
  destruct (Z.eqb_spec (Z.land ip 0xff) 0) as [E|E]; [apply Hnext; congruence|].
  destruct (Z.eqb_spec (Z.land ip 0xff) 0xff); [apply Hnext; congruence|].
  unfold find_lease_by_nip. destruct (nip_lease_hash t !! ip) eqn:Hf; [apply Hnext; congruence|].
  cbn [arp_check]. intros [= <-]. exists ip. split_and!; [done|lia|lia|]. by intros ->.
Qed.

Lemma find_free_gives ch g s (Q : Z -> server -> Prop) :
  table_ok (tab s) -> cfg_ok (cfg s) -> end_ip (cfg s) < 2 ^ 32 - 1 -> free_address s g ->
  (forall ip, start_ip (cfg s) <= ip <= end_ip (cfg s) -> ip <> 0 -> Q ip s) ->
  swp False (find_free_or_expired_nip clock ch) Q s.
Proof.
  intros Hok [Hst _] He (Hg & H0 & Hff & Hn) HQ. unfold find_free_or_expired_nip. apply swp_bind, swp_get, swp_bind, swp_lift.
  - intros r Hr. destruct (free_nip_loop_finds _ _ _ _ _ _ g Hr) as (a & -> & Ha & Hne); [done..|]. by apply swp_ret, HQ.
  - apply free_nip_loop_ends; lia.
Qed.

End leases.

(** ** What the server makes of a request *)

(** A packet that asks: its type, the server and the address it names. *)
Record asks (type : Z) (sid rip : option Z) (d : list Z) : Prop := {
  asks_opts : exists os, wfp d os /\ opt_data DHCP_MESSAGE_TYPE os = Some [type] /\
    opt_data DHCP_SERVER_ID os = option_map put_be32 sid /\
    opt_data DHCP_REQUESTED_IP os = option_map put_be32 rip /\ opt_data DHCP_VENDOR os = None;
  asks_framed : framed BOOTREQUEST d;
  asks_range : forall v, sid = Some v \/ rip = Some v -> 0 <= v < 2 ^ 32;
}.

Lemma asks_packet_ok type sid rip d : asks type sid rip d -> packet_ok d.
Proof. intros [(os & Hw & _) _ _]. by eapply wfp_packet_ok. Qed.

(** A request of the client, as the server receives it. *)
Lemma says_asks c type p sid rip fuel :
  says c type p -> reads p DHCP_SERVER_ID = option_map put_be32 sid -> reads p DHCP_REQUESTED_IP = option_map put_be32 rip ->
  (forall v, sid = Some v \/ rip = Some v -> 0 <= v < 2 ^ 32) -> (388 <= fuel)%nat ->
  let d := carried zero_packet p in
  dhcp_recv_l3_packet fuel (inl (ztake DHCP_SIZE p)) = Some (DHCP_SIZE, d) /\ asks type sid rip d /\
  get_le32 d off_xid = DhcpClientBase.xid c /\ field_at off_chaddr 6 d = DhcpClientBase.mac_address c.
Proof.
  intros [[Hl Hb] Hf (os & Hw & Hs) Hx Hm Hty _ Hv] Hsid Hrip Hrange Hfuel d.
  assert (header d = header p) as Hh by (by apply carried_header).
  assert (wfp d os) as Hd by (apply carried_wfp; [done|done|done|apply zero_packet_ok]).
  pose proof (framed_header _ _ _ Hh Hf) as Hfd.
  rewrite !(wfp_reads _ _ _ Hw) in * by done.
  assert (asks type sid rip d) as Hasks by (split; [by exists os|done|done]). split_and!; [|done| |].
  - unfold dhcp_recv_l3_packet. assert (zlen (ztake DHCP_SIZE p) = DHCP_SIZE) as Hz
      by (unfold DHCP_SIZE, sizeof_packet, EXTEND_FOR_BUGGY_SERVERS in *; zlia).
    rewrite Hz. change (Z.min DHCP_SIZE sizeof_packet) with DHCP_SIZE. rewrite ztake_ztake, Z.min_id. cbv zeta.
    fold (carried zero_packet p). fold d. destruct Hfd as (Hop & _ & Hck). rewrite Hck, Z.eqb_refl. cbn [negb].
    unfold check_broken_vendor. rewrite Hop. cbn [negb Z.eqb BOOTREQUEST].
    pose proof (wfp_option d os fuel DHCP_VENDOR Hd) as Hven. rewrite Hv in Hven. by rewrite Hven.
  - rewrite <- Hx. by apply get_le32_header.
  - rewrite <- Hm. by apply field_header.
Qed.

Section serving.
Context (clock : nat -> Z) (inet_aton : list Z -> option Z) (foreach_order : gmap Z (list Z) -> list (Z * list Z)).

(** What [handle_packet] reads from it. *)
Lemma asks_read type sid rip d fuel :
  asks type sid rip d -> DHCP_MINTYPE <= type <= DHCP_MAXTYPE -> (388 <= fuel)%nat ->
  check_packet_type fuel d = Some type /\
  (match dhcp_get_option fuel d DHCP_SERVER_ID with OptHang => None | _ => Some (option_be32 d (dhcp_get_option fuel d DHCP_SERVER_ID)) end) = Some sid /\
  (match dhcp_get_option fuel d DHCP_REQUESTED_IP with OptHang => None | _ => Some (option_be32 d (dhcp_get_option fuel d DHCP_REQUESTED_IP)) end) = Some rip.
Proof.
  intros [(os & Hw & Hty & Hsid & Hrip & _) (Hop & Hhl & _) Hrange] Ht Hf.
  assert (forall code o, 0 < code < 255 -> opt_data code os = option_map put_be32 o -> (forall v, o = Some v -> 0 <= v < 2 ^ 32) ->
    (match dhcp_get_option fuel d code with OptHang => None | _ => Some (option_be32 d (dhcp_get_option fuel d code)) end) = Some o) as Hnum.
  { intros code o Hc Ho Hr. pose proof (wfp_option d os fuel code Hw Hc Hf) as Hp. rewrite Ho in Hp.
    destruct o as [v|]; cbn [option_map] in Hp; [|by rewrite Hp]. destruct Hp as (p & -> & Hp0 & _ & Hd).
    cbn [option_be32]. do 2 f_equal. apply field_be32; [done|by apply Hr|done]. }
  split_and!; [|apply Hnum; [done|done|auto]|apply Hnum; [done|done|auto]].
  unfold check_packet_type. rewrite Hhl, Hop. change (6 =? ETH_ALEN) with true. change (BOOTREQUEST =? BOOTREQUEST) with true. cbn [negb].
  pose proof (wfp_option d os fuel DHCP_MESSAGE_TYPE Hw ltac:(done) Hf) as Hp. rewrite Hty in Hp.
  destruct Hp as (p & -> & Hp0 & _ & Hd). rewrite (field_byte d p type) by done.
  by rewrite !(proj2 (Z.ltb_ge _ _)) by lia.
Qed.

(** The server can give an address to this client. *)
Definition servable (s : server) (mac : list Z) : Prop :=
  leasable (ztake ETH_ALEN mac) /\
  match find_lease_by_mac (tab s) mac with
  | Some p => start_ip (cfg s) <= lease_nip (lease_at (tab s) p) <= end_ip (cfg s) /\ lease_nip (lease_at (tab s) p) <> 0
  | None => next_answer s = true /\ exists g, free_address s g
  end.

Lemma check_requested_gives ip s (Q : bool -> server -> Prop) :
  (forall b s', cfg s' = cfg s -> tab s' = tab s -> sent (en s') = sent (en s) -> next_answer s' = next_answer s ->
     (b = true -> ip <> 0 /\ start_ip (cfg s) <= ip <= end_ip (cfg s)) -> Q b s') ->
  swp False (check_requested_nip clock ip) Q s.
Proof.
  intros HQ. unfold check_requested_nip. apply swp_bind, swp_get. destruct (Z.eqb_spec ip 0); [by apply swp_ret, HQ|].
  destruct (Z.ltb_spec ip (start_ip (cfg s))); [by apply swp_ret, HQ|].
  destruct (Z.ltb_spec (end_ip (cfg s)) ip); [by apply swp_ret, HQ|].
  unfold find_lease_by_nip. destruct (nip_lease_hash (tab s) !! ip); [|by apply swp_ret, HQ].
  apply swp_bind, swp_bind, swp_get, swp_bind. unfold swp at 1, time. apply swp_ret, swp_ret, HQ; done.
Qed.

(** What a reply leaves: one packet sent, and the address held. *)
Record replied (s s' : server) (type ip e : Z) (d : list Z) : Prop := {
  re_cfg : cfg s' = cfg s;
  re_table : table_ok (tab s');
  re_sent : exists p, sent (en s') = sent (en s) ++ [p] /\ answers inet_aton foreach_order (cfg s) type (htonl ip) d (p_data p);
  re_range : start_ip (cfg s) <= ip <= end_ip (cfg s) /\ ip <> 0;
  re_holds : holds s' (zdrop off_chaddr d) ip e;
}.

Lemma ntohl_htonl ip : 0 <= ip < 2 ^ 32 -> ntohl (htonl ip) = ip.
Proof. apply bswap_32_invol. Qed.

Lemma htonl_zero ip : 0 <= ip < 2 ^ 32 -> htonl ip = 0 -> ip = 0.
Proof. intros Hr H. rewrite <- (ntohl_htonl ip Hr), H. done. Qed.

(** The end of both handlers: the packet goes out. *)
Lemma send_to_client_env packet s (Q : unit -> server -> Prop) :
  (forall p s', p_data p = packet -> cfg s' = cfg s -> tab s' = tab s -> sent (en s') = sent (en s) ++ [p] ->
     next_answer s' = next_answer s -> tick (en s') = tick (en s) -> Q tt s') ->
  swp False (send_packet_to_client packet) Q s.
Proof.
  intros HQ. unfold send_packet_to_client. apply swp_bind, swp_get.
  destruct (if _ : bool then _ else _) as [ciaddr chaddr]. apply (HQ (mkSent packet (server_nip (cfg s)) ciaddr chaddr)); reflexivity.
Qed.

Lemma send_offer_replies d rip s :
  table_ok (tab s) -> cfg_ok (cfg s) -> end_ip (cfg s) < 2 ^ 32 - 1 -> packet_ok d -> servable s (zdrop off_chaddr d) ->
  swp False (send_offer clock inet_aton foreach_order d (find_lease_by_mac (tab s) (zdrop off_chaddr d)) rip)
    (fun _ s' => exists ip, replied s s' DHCPOFFER ip OFFER_TIME d) s.
Proof.
  intros Hok Hcfg He Hd [Hleas Hserv]. unfold send_offer. apply swp_bind, swp_get.
  assert (forall ip s1, start_ip (cfg s) <= ip <= end_ip (cfg s) -> ip <> 0 -> cfg s1 = cfg s -> tab s1 = tab s ->
    sent (en s1) = sent (en s) -> next_answer s1 = next_answer s ->
    swp False (let* packet := slift (DhcpServer.init_packet (cfg s) d DHCPOFFER) in
      if htonl ip =? 0 then sret tt
      else let* lease := add_lease clock OFFER_TIME (zdrop off_chaddr (put off_yiaddr (le_bytes32 (htonl ip)) packet)) (htonl ip) in
        match lease with
        | None => sret tt
        | Some _ =>
          let* packet := slift (dhcp_add_option_uint32 (put off_yiaddr (le_bytes32 (htonl ip)) packet) DHCP_LEASE_TIME (lease_seconds (cfg s))) in
          let* packet := slift (add_server_options inet_aton foreach_order (cfg s) packet) in
          send_packet_to_client packet
        end) (fun _ s' => exists ip, replied s s' DHCPOFFER ip OFFER_TIME d) s1) as Hgo.
  { intros ip s1 Hr Hne Hc1 Ht1 Hs1 Ha1. destruct Hcfg as [Hst Hen]. assert (0 <= ip < 2 ^ 32) as Hip by lia.
    destruct (answer_steps inet_aton foreach_order (cfg s) d DHCPOFFER (htonl ip) Hd) as (p0 & p1 & p2 & H0 & Hm & H1 & H2 & Han);
      [by left|apply bswap_32_range|]. apply swp_bind. rewrite H0. apply swp_lift; [|done]. intros ? [= <-].
    destruct (Z.eqb_spec (htonl ip) 0) as [Hz|Hz]; [by apply htonl_zero in Hz|]. apply swp_bind.
    pose proof (mac_of_field _ _ Hm) as Hmac.
    apply add_lease_gives; [by rewrite Ht1|done|by rewrite Hc1, (ntohl_htonl ip Hip)|by rewrite Hmac| |].
    - rewrite Ha1, Ht1. destruct (find_lease_by_mac (tab s) (zdrop off_chaddr d)) eqn:Ef; [right|left; tauto].
      unfold find_lease_by_mac in *. rewrite Hmac, Ef. done.
    - intros q s2 Hc2 Hs2 Hok2 Hh. rewrite (ntohl_htonl ip Hip) in Hh. rewrite H1.
      apply swp_bind, swp_lift; [|done]. intros ? [= <-]. rewrite H2. apply swp_bind, swp_lift; [|done]. intros ? [= <-].
      apply send_to_client_env. intros p s3 Hp Hc3 Ht3 Hs3 _ _. exists ip.
      split; [congruence|by rewrite Ht3| |done|].
      + exists p. rewrite Hs3, Hs2, Hs1, Hp. done.
      + eapply holds_mac; [exact Hmac|]. unfold holds in *. by rewrite Ht3. }
  destruct (server_init_packet (cfg s) d DHCPOFFER Hd) as (p0 & H0 & _); [done|].
  apply swp_bind, swp_lift; [|by rewrite H0]. intros ? [= <-]%(eq_trans (eq_sym H0)). rewrite H0 in Hgo. apply swp_bind.
  destruct (find_lease_by_mac (tab s) (zdrop off_chaddr d)) as [q|] eqn:Ef.
  - apply swp_ret. exact (Hgo _ s (proj1 Hserv) (proj2 Hserv) eq_refl eq_refl eq_refl eq_refl).
  - destruct Hserv as [Ha (g & Hg)]. apply swp_bind, check_requested_gives. intros b s1 Hc1 Ht1 Hs1 Ha1 Hb. destruct b.
    + destruct (Hb eq_refl). apply swp_ret. by apply Hgo.
    + apply swp_bind, (find_free_gives clock _ g); [by rewrite Ht1|by rewrite Hc1|by rewrite Hc1| |].
      { unfold free_address in *. by rewrite Hc1, Ht1. }
      intros ip Hr Hne. rewrite Hc1 in Hr. apply swp_ret. by apply Hgo.
Qed.

Lemma send_ACK_replies d ip e s :
  table_ok (tab s) -> cfg_ok (cfg s) -> packet_ok d -> leasable (ztake ETH_ALEN (zdrop off_chaddr d)) ->
  start_ip (cfg s) <= ip <= end_ip (cfg s) -> ip <> 0 -> holds s (zdrop off_chaddr d) ip e ->
  swp False (send_ACK clock inet_aton foreach_order d ip)
    (fun _ s' => replied s s' DHCPACK ip (clock (tick (en s)) + lease_seconds (cfg s)) d) s.
Proof.
  intros Hok Hcfg Hd Hleas Hr Hne (p & Hp & _). unfold send_ACK. apply swp_bind, swp_get.
  destruct Hcfg as [Hst Hen]. assert (0 <= ip < 2 ^ 32) as Hip by lia.
  destruct (answer_steps inet_aton foreach_order (cfg s) d DHCPACK (htonl ip) Hd) as (p0 & p1 & p2 & H0 & Hm & H1 & H2 & Han);
    [by right; left|apply bswap_32_range|]. apply swp_bind. rewrite H0. apply swp_lift; [|done]. intros ? [= <-]. cbv zeta.
  rewrite H1. apply swp_bind, swp_lift; [|done]. intros ? [= <-]. rewrite H2. apply swp_bind, swp_lift; [|done]. intros ? [= <-].
  apply swp_bind, send_to_client_env. intros q s1 Hq Hc1 Ht1 Hs1 Ha1 Hk1. apply swp_bind.
  pose proof (mac_of_field _ _ (an_chaddr _ _ _ _ _ _ _ Han)) as Hmac.
  rewrite (an_yiaddr _ _ _ _ _ _ _ Han).
  apply add_lease_gives; [by rewrite Ht1| |by rewrite Hc1, (ntohl_htonl ip Hip)|by rewrite Hmac| |].
  - intros Hz. by apply htonl_zero in Hz.
  - right. rewrite Ht1. unfold find_lease_by_mac in *. rewrite Hmac, Hp. done.
  - intros r s2 Hc2 Hs2 Hok2 Hh. rewrite (ntohl_htonl ip Hip) in Hh. apply swp_ret. rewrite Hc1, Hk1 in Hh.
    split; [congruence|done| |done|].
    + exists q. rewrite Hs2, Hs1, Hq. done.
    + by eapply holds_mac.
Qed.

(** A discover is answered with an offer, a request for the offer with an
    acknowledgement. *)
Lemma discover_replied fuel d rip s :
  table_ok (tab s) -> cfg_ok (cfg s) -> end_ip (cfg s) < 2 ^ 32 - 1 -> asks DHCPDISCOVER None rip d -> (388 <= fuel)%nat ->
  servable s (zdrop off_chaddr d) ->
  swp False (DhcpServer.handle_packet clock inet_aton foreach_order fuel d)
    (fun _ s' => exists ip, replied s s' DHCPOFFER ip OFFER_TIME d) s.
Proof.
  intros Hok Hcfg He Hd Hf Hserv. destruct (asks_read _ _ _ d fuel Hd ltac:(done) Hf) as (Hty & Hsid & Hrip).
  unfold DhcpServer.handle_packet. apply swp_bind, swp_get, swp_bind. rewrite Hty. apply swp_lift; [|done]. intros ? [= <-].
  change (DHCPDISCOVER =? 0) with false. cbv zeta. rewrite Hsid. apply swp_bind, swp_lift; [|done]. intros ? [= <-].
  rewrite Hrip. apply swp_bind, swp_lift; [|done]. intros ? [= <-].
  apply send_offer_replies; [done|done|done|by eapply asks_packet_ok|done].
Qed.

Lemma request_replied fuel d ip e s :
  table_ok (tab s) -> cfg_ok (cfg s) -> asks DHCPREQUEST (Some (server_nip (cfg s))) (Some ip) d -> (388 <= fuel)%nat ->
  leasable (ztake ETH_ALEN (zdrop off_chaddr d)) -> start_ip (cfg s) <= ip <= end_ip (cfg s) -> ip <> 0 ->
  holds s (zdrop off_chaddr d) ip e ->
  swp False (DhcpServer.handle_packet clock inet_aton foreach_order fuel d)
    (fun _ s' => replied s s' DHCPACK ip (clock (tick (en s)) + lease_seconds (cfg s)) d) s.
Proof.
  intros Hok Hcfg Hd Hf Hleas Hr Hne Hh. destruct (asks_read _ _ _ d fuel Hd ltac:(done) Hf) as (Hty & Hsid & Hrip).
  unfold DhcpServer.handle_packet. apply swp_bind, swp_get, swp_bind. rewrite Hty. apply swp_lift; [|done]. intros ? [= <-].
  change (DHCPREQUEST =? 0) with false. cbv zeta. rewrite Hsid. apply swp_bind, swp_lift; [|done]. intros ? [= <-].
  rewrite Z.eqb_refl. cbn [negb]. rewrite Hrip. apply swp_bind, swp_lift; [|done]. intros ? [= <-]. change (default 0 (Some ip)) with ip.
  change (DHCPREQUEST =? DHCPDISCOVER) with false. change (DHCPREQUEST =? DHCPREQUEST) with true. cbn iota.
  rewrite !(proj2 (Z.eqb_neq ip 0)) by done. pose proof Hh as (p & Hp & Hl). rewrite Hp, (lease_at_some _ _ _ Hl). cbn [lease_nip].
  rewrite Z.eqb_refl. eapply send_ACK_replies; [done|done|by eapply asks_packet_ok|done|done|done|exact Hh].
Qed.

End serving.
