(* ===== verification/DhcpClientFacts.v ===== *)
(** * Properties of the DHCP client.

    The invariant of the client of [DhcpClient.v]: what it owns (event sources,
    the listening descriptor, its strings) in every state it can reach, proved
    for every step by weakest preconditions. *)

From stdpp Require Import gmap gmultiset pretty.
From S2P Require Import Prelude RecordSet StateFail CLib Bytes DhcpCommon Posix DhcpNet DhcpClientBase DhcpClient6 DhcpClient.

Create HintDb tri discriminated.
#[local] Hint Constants Opaque : tri.

(** ** Sources and descriptors *)

(** The descriptor of the listening watch, if the watch is there. *)
Definition watched (s : cstate) : gmultiset Z :=
  match sources s !! listener_watch (cl s) with Some (Watch fd) => {[+ fd +]} | _ => ∅ end.

(** The rest of the process: its other descriptors, and a string of the user's
    that a call of his reads; and whether the client was always started without
    a timer pending. *)
Record env := mkEnvWith { orderly : bool; others : gmultiset Z; borrowed : option Z }.

Notation mkEnv := (mkEnvWith true).

(** The two strings of the client are live, apart from each other and from the
    user's. *)
Record strings_ok (user assigned last : option Z) (live : gmap Z (list Z)) (next : Z) : Prop := {
  ok_assigned : forall p, assigned = Some p -> is_Some (live !! p) /\ last <> Some p /\ user <> Some p;
  ok_last : forall p, last = Some p -> is_Some (live !! p) /\ user <> Some p;
  ok_user : forall p, user = Some p -> is_Some (live !! p);
  ok_fresh : forall p, is_Some (live !! p) -> p < next;
}.

(** An orderly client holds at most one timer besides the source [e] that is
    running, the one its [timeout] names; any client at most one watch; the process has the
    descriptors [others D] besides the one of the watch; the strings of the client
    are live.  With [idle], no timer but [e] is pending. *)
Record inv (D : env) (e : Z) (idle : bool) (s : cstate) : Prop := {
  inv_timer : orderly D = true -> forall id ms f, sources s !! id = Some (Timeout ms f) ->
    id = timeout (cl s) /\ idle = false \/ id = e;
  inv_watch : forall id fd, sources s !! id = Some (Watch fd) ->
    id = listener_watch (cl s) /\ listen_mode (cl s) <> L_NONE /\ fd = listener_sockfd (cl s);
  inv_ids : forall id src, sources s !! id = Some src -> 0 < id < next_source s;
  inv_next : timeout (cl s) < next_source s /\ e < next_source s /\ 0 < next_source s /\
    listener_watch (cl s) < next_source s;
  inv_apart : forall fd, sources s !! timeout (cl s) <> Some (Watch fd) /\ sources s !! e <> Some (Watch fd);
  inv_watch_apart : forall ms f, sources s !! listener_watch (cl s) <> Some (Timeout ms f);
  inv_fds : w_fds (wd s) = watched s ⊎ others D;
  inv_bad : w_bad (wd s) = 0;
  inv_strings : strings_ok (borrowed D) (assigned_ip (cl s)) (last_address (cl s)) (strings s) (next_string s);
}.

(** *** What is left of a state when its listening socket is forgotten *)

(** The client without its sources. *)
Definition core (c : client) : client :=
  c <| listen_mode := L_NONE |> <| listener_sockfd := 0 |> <| listener_channel := None |>
    <| listener_watch := 0 |> <| timeout := 0 |>.

(** The timer that waits while the source [e] runs. *)
Definition pending (e : Z) (s : cstate) : option (Z * timer_fn) :=
  match sources s !! timeout (cl s) with
  | Some (Timeout ms f) => if decide (timeout (cl s) = e) then None else Some (ms, f)
  | _ => None
  end.

Record view := mkView {
  v_core : client;
  v_pending : option (Z * timer_fn);
  v_strings : gmap Z (list Z);
  v_next : Z;
  v_log : list nat;
}.

#[export] Instance eta_view : Eta view := fun v =>
  mkView (v_core v) (v_pending v) (v_strings v) (v_next v) (v_log v).

Definition view_of (e : Z) (s : cstate) : view :=
  mkView (core (cl s)) (pending e s) (strings s) (next_string s) (callbacks (w_trace (wd s))).

(** [m] leads from states of the first kind to states of the second. *)
Definition tri {A} (i : bool) (m : cm A) (j : bool) : Prop :=
  forall D e s, inv D e i s -> swp True m (fun _ s' => inv D e j s') s.

Lemma tri_ret {A} i (a : A) : tri i (sret a) i.
Proof. by intros D e s Hs. Qed.

Lemma tri_bind {A B} i j k (m : cm A) (f : A -> cm B) :
  tri i m j -> (forall a, tri j (f a) k) -> tri i (sbind m f) k.
Proof. intros Hm Hf D e s Hs. apply swp_bind. eapply swp_mono; [by apply Hm|]. intros a s' Hs'. by apply Hf. Qed.

Lemma inv_weaken D e i s : inv D e i s -> inv D e false s.
Proof. intros []. split; try done. intros Ho id ms f Hid. destruct (inv_timer0 Ho id ms f Hid) as [[-> _]|]; auto. Qed.

Lemma tri_weaken {A} i (m : cm A) : tri i m true -> tri i m false.
Proof. intros Hm D e s Hs. eapply swp_mono; [by apply Hm|]. intros a s'. apply inv_weaken. Qed.

Lemma tri_pre {A} i (m : cm A) j : tri false m j -> tri i m j.
Proof. intros Hm D e s Hs. eapply Hm, inv_weaken, Hs. Qed.

Lemma tri_fail {A} i j : tri i (sfail : cm A) j.
Proof. done. Qed.

Lemma tri_lift {A} i (o : option A) : tri i (slift o) i.
Proof. intros D e s Hs. by apply swp_lift. Qed.

Lemma tri_get i : tri i get_cl i.
Proof. by intros D e s Hs. Qed.

(** Changing other fields of the client. *)
Lemma tri_upd i f :
  (forall c, timeout (f c) = timeout c /\ listener_watch (f c) = listener_watch c /\
             listen_mode (f c) = listen_mode c /\ listener_sockfd (f c) = listener_sockfd c /\
             assigned_ip (f c) = assigned_ip c /\ last_address (f c) = last_address c) ->
  tri i (upd f) i.
Proof.
  intros Hf D e s [H1 H2 H3 H4 H5 H0 H6 H7 H8]. destruct (Hf (cl s)) as (Ht & Hw & Hm & Hk & Ha & Hl).
  apply swp_upd. split; unfold watched in *; cbn [rset cl sources next_source wd] in *; rewrite ?Ht, ?Hw, ?Hm, ?Hk, ?Ha, ?Hl; auto.
Qed.

(** Steps that do not touch sources, client fields or descriptors. *)
Lemma tri_fds {A} i (m : nio A) :
  (forall w, swp True m (fun _ w' => w_fds w' = w_fds w /\ w_bad w' = w_bad w) w) -> tri i (net m) i.
Proof.
  intros Hm D e s [H1 H2 H3 H4 H5 H0 H6 H7 H8]. apply swp_net. eapply swp_mono; [apply Hm|].
  intros a w' (Hfd & Hbad). split; try done.
  - cbn [rset wd]. by rewrite Hfd.
  - cbn [rset wd]. by rewrite Hbad.
Qed.

Lemma tri_net {A} i (m : nio A) : (forall w, swp True m (fun _ w' => keeps w w') w) -> tri i (net m) i.
Proof. intros Hm. apply tri_fds. intros w. eapply swp_mono; [apply Hm|]. by intros a w' (? & ? & _). Qed.

Lemma tri_arm ms f : tri true (arm ms f) false.
Proof.
  intros D e s [H1 H2 H3 H4 H5 H0 H6 H7 H8]. apply swp_arm.
  assert (sources s !! next_source s = None) as Hn.
  { destruct (sources s !! next_source s) eqn:E; [|done]. apply H3 in E. lia. }
  split; cbn [rset cl sources next_source wd timeout listener_watch listen_mode listener_sockfd].
  - intros Ho id ms' f' [[<- _]|[Hne Hid]]%lookup_insert_Some; [by left|]. apply (H1 Ho) in Hid as [[_ ?]|?]; [done|by right].
  - intros id fd [[_ ?]|[Hne Hid]]%lookup_insert_Some; [done|]. by apply H2.
  - intros id src [[<- _]|[Hne Hid]]%lookup_insert_Some; [lia|]. apply H3 in Hid. lia.
  - lia.
  - intros fd. rewrite lookup_insert_eq, lookup_insert_ne by lia. split; [done|apply H5].
  - intros ms' f'. rewrite lookup_insert_ne by lia. apply H0.
  - rewrite H6. f_equal. unfold watched. cbn [rset cl sources listener_watch].
    by rewrite lookup_insert_ne by lia.
  - done.
  - done.
Qed.

Lemma tri_arm_seconds secs f : tri true (arm_seconds secs f) false.
Proof. apply tri_arm. Qed.

Section owns.
Context (kernel : list event -> call -> Z * list Z).

(** Removing the source [timeout] names. *)
Lemma inv_remove_timer D e i s :
  inv D e i s -> inv D e true (s <| sources := delete (timeout (cl s)) (sources s) |>).
Proof.
  intros [H1 H2 H3 H4 H5 H0 H6 H7 H8]. split; cbn [rset cl sources next_source wd].
  - intros Ho id ms f [Hne Hid]%lookup_delete_Some. apply (H1 Ho) in Hid as [[-> _]|]; [done|by right].
  - intros id fd [_ Hid]%lookup_delete_Some. by apply H2.
  - intros id src [_ Hid]%lookup_delete_Some. by eapply H3.
  - done.
  - intros fd. split; intros [? Hid]%lookup_delete_Some; [done|by destruct (H5 fd)].
  - intros ms f [_ Hid]%lookup_delete_Some. by apply H0 in Hid.
  - rewrite H6. f_equal. unfold watched. cbn [rset cl sources].
    destruct (decide (listener_watch (cl s) = timeout (cl s))) as [E|E].
    + rewrite E, lookup_delete_eq. specialize (H5). destruct (sources s !! timeout (cl s)) as [[]|] eqn:Es; try done.
      by destruct (H5 fd) as [? _].
    + by rewrite lookup_delete_ne.
  - done.
  - done.
Qed.

(** No source has the number 0 or less. *)
Lemma inv_nonpos D e i s id : inv D e i s -> id <= 0 -> sources s !! id = None.
Proof. intros Hs Hid. destruct (sources s !! id) eqn:E; [|done]. apply (inv_ids _ _ _ _ Hs) in E. lia. Qed.

Lemma inv_no_timer D e i s : inv D e i s -> timeout (cl s) <= 0 -> inv D e true s.
Proof.
  intros Hs Hn. pose proof Hs as [H1 H2 H3 H4 H5 H0 H6 H7 H8]. split; try done.
  intros Ho id ms f Hid. pose proof (H3 _ _ Hid). apply (H1 Ho) in Hid as [[-> _]|]; [lia|by right].
Qed.

Lemma swp_remove_timer D e i s (Q : unit -> cstate -> Prop) :
  inv D e i s -> Q tt (s <| sources := delete (timeout (cl s)) (sources s) |>) ->
  swp True (g_source_remove kernel (timeout (cl s))) Q s.
Proof.
  intros Hs HQ. unfold g_source_remove, swp. destruct (sources s !! timeout (cl s)) as [[]|] eqn:E; try done.
  by destruct (inv_apart _ _ _ _ Hs fd) as [? _].
Qed.

Lemma tri_remove_timeout i : tri i (remove_timeout kernel) true.
Proof.
  intros D e s Hs. apply swp_bind, swp_get_cl. destruct (Z.ltb_spec 0 (timeout (cl s))).
  - eapply swp_remove_timer; [done|]. by eapply inv_remove_timer.
  - apply swp_ret. by eapply inv_no_timer.
Qed.

(** Forgetting the number of a timer that is gone. *)
Lemma inv_forget D e s t : inv D e true s -> t <= 0 -> inv D e true (s <| cl := cl s <| timeout := t |> |>).
Proof.
  intros Hs Ht. pose proof Hs as [H1 H2 H3 H4 H5 H0 H6 H7 H8].
  split; unfold watched; cbn [rset cl sources next_source wd timeout listener_watch listen_mode listener_sockfd]; try done.
  - intros Ho id ms f Hid. apply (H1 Ho) in Hid as [[_ ?]|]; [done|by right].
  - lia.
  - intros fd. rewrite (inv_nonpos _ _ _ _ _ Hs Ht). split; [done|apply H5].
Qed.

Lemma tri_timeout0 : tri true (upd (fun c => c <| timeout := 0 |>)) true.
Proof. intros D e s Hs. apply swp_upd. by apply inv_forget. Qed.

Lemma tri_clear_timeout i : tri i (clear_timeout kernel) true.
Proof.
  intros D e s Hs. apply swp_bind, swp_get_cl. destruct (Z.ltb_spec 0 (timeout (cl s))).
  - apply swp_bind. eapply swp_remove_timer; [done|]. apply swp_upd, inv_forget; [|done].
    by eapply inv_remove_timer.
  - apply swp_ret. by eapply inv_no_timer.
Qed.

(** The source that ran is gone. *)
Lemma inv_done D e i s : inv D e i s -> sources s !! e = None -> inv D 0 i s.
Proof.
  intros Hs He. pose proof Hs as [H1 H2 H3 H4 H5 H0 H6 H7 H8]. split; try done; [|lia|].
  2: { intros fd. split; [apply H5|]. by rewrite (inv_nonpos _ _ _ _ _ Hs (Z.le_refl 0)). }
  intros Ho id ms f Hid. pose proof Hid as Hid'. apply (H1 Ho) in Hid' as [?| ->]; [by left|congruence].
Qed.

(** Removing the watch: its descriptor is closed. *)
Lemma swp_remove_watch D e i s (Q : unit -> cstate -> Prop) :
  inv D e i s ->
  (forall w, w_fds w = others D -> w_bad w = 0 -> callbacks (w_trace w) = callbacks (w_trace (wd s)) ->
     Q tt (s <| sources := delete (listener_watch (cl s)) (sources s) |> <| wd := w |>)) ->
  swp False (g_source_remove kernel (listener_watch (cl s))) Q s.
Proof.
  intros [H1 H2 H3 H4 H5 H0 H6 H7 H8] HQ. unfold watched in H6. unfold g_source_remove, swp.
  destruct (sources s !! listener_watch (cl s)) as [[ms f|fd]|] eqn:E.
  - apply (HQ (wd s)); [|done..]. rewrite H6. multiset_solver.
  - unfold net, sbind, ncall_, sys_, sys. cbn [rset wd]. destruct (kernel _ _) as [r d].
    apply (HQ (called (Close fd) r d (wd s))); [| |by apply callbacks_called];
      unfold called; cbn [w_fds w_bad fds_after bad_after].
    + rewrite H6. apply pop_head.
    + rewrite decide_True; [done|]. rewrite H6. apply in_head.
  - apply (HQ (wd s)); [|done..]. rewrite H6. multiset_solver.
Qed.

(** The watch and the world apart, that is the same view. *)
Lemma view_unwatch D e i s w c :
  inv D e i s -> core c = core (cl s) -> timeout c = timeout (cl s) ->
  callbacks (w_trace w) = callbacks (w_trace (wd s)) ->
  view_of e (s <| sources := delete (listener_watch (cl s)) (sources s) |> <| wd := w |> <| cl := c |>) = view_of e s.
Proof.
  intros Hs Hc Ht Hw. unfold view_of, pending. cbn [rset cl sources strings next_string wd]. rewrite Hc, Ht, Hw. f_equal.
  destruct (decide (listener_watch (cl s) = timeout (cl s))) as [E|E].
  - rewrite E, lookup_delete_eq. destruct (sources s !! timeout (cl s)) as [[ms f|]|] eqn:Es; try done.
    rewrite <- E in Es. by apply (inv_watch_apart _ _ _ _ Hs) in Es.
  - by rewrite lookup_delete_ne.
Qed.

Lemma view_install e s w c id src :
  timeout c = timeout (cl s) -> timeout (cl s) < id -> core c = core (cl s) ->
  callbacks (w_trace w) = callbacks (w_trace (wd s)) ->
  view_of e (s <| wd := w |> <| cl := c |> <| sources := <[id := src]> (sources s) |> <| next_source := id + 1 |>) = view_of e s.
Proof.
  intros Ht Hid Hc Hw. unfold view_of, pending. cbn [rset cl sources strings next_string wd].
  by rewrite Ht, Hc, Hw, lookup_insert_ne by lia.
Qed.

(** The state after the watch is gone and forgotten. *)
Lemma inv_unwatch D e i s w f :
  inv D e i s -> w_fds w = others D -> w_bad w = 0 ->
  (forall c, timeout (f c) = timeout c /\ assigned_ip (f c) = assigned_ip c /\ last_address (f c) = last_address c) ->
  (forall c, listener_watch (f c) <= 0) ->
  inv D e i (s <| sources := delete (listener_watch (cl s)) (sources s) |> <| wd := w |> <| cl := f (cl s) |>).
Proof.
  intros Hs Hw Hb Hf Hz. destruct (Hf (cl s)) as (Ht & Ha & Hl). pose proof Hs as [H1 H2 H3 H4 H5 H0 H6 H7 H8].
  assert (forall id, id <= 0 -> delete (listener_watch (cl s)) (sources s) !! id = None) as Hnone.
  { intros id Hid. apply lookup_delete_None. right. by eapply inv_nonpos. }
  split; unfold watched; cbn [rset cl sources next_source strings next_string wd]; rewrite ?Ht, ?Ha, ?Hl.
  - intros Ho id ms g [_ Hid]%lookup_delete_Some. by eapply H1.
  - intros id fd [Hne Hid]%lookup_delete_Some. apply H2 in Hid as (-> & _). done.
  - intros id src [_ Hid]%lookup_delete_Some. by eapply H3.
  - specialize (Hz (cl s)). lia.
  - intros fd. split; intros [_ Hid]%lookup_delete_Some; by destruct (H5 fd).
  - intros ms g. by rewrite Hnone.
  - rewrite Hnone by apply Hz. rewrite Hw. multiset_solver.
  - done.
  - done.
Qed.

(** Without a watch number there is no watch. *)
Lemma inv_unwatched D e i s f :
  inv D e i s -> listener_watch (cl s) <= 0 ->
  (forall c, timeout (f c) = timeout c /\ assigned_ip (f c) = assigned_ip c /\ last_address (f c) = last_address c) ->
  (forall c, listener_watch (f c) <= 0) -> inv D e i (s <| cl := f (cl s) |>).
Proof.
  intros Hs Hn Hf Hz. destruct (Hf (cl s)) as (Ht & Ha & Hl). pose proof Hs as [H1 H2 H3 H4 H5 H0 H6 H7 H8]. unfold watched in H6.
  rewrite (inv_nonpos _ _ _ _ _ Hs Hn) in H6.
  assert (forall id fd, sources s !! id <> Some (Watch fd)) as Hno.
  { intros id fd Hid. pose proof (H3 _ _ Hid). apply H2 in Hid as (-> & _). lia. }
  split; unfold watched; cbn [rset cl sources next_source strings next_string wd]; rewrite ?Ht, ?Ha, ?Hl; try done.
  - intros id fd Hid. by destruct (Hno id fd).
  - specialize (Hz (cl s)). lia.
  - intros ms g. by rewrite (inv_nonpos _ _ _ _ _ Hs (Hz _)).
  - by rewrite (inv_nonpos _ _ _ _ _ Hs (Hz _)).
Qed.

Lemma swp_close_listener D e i s (Q : unit -> cstate -> Prop) :
  inv D e i s ->
  (forall s', inv D e i s' -> listen_mode (cl s') = L_NONE -> view_of e s' = view_of e s -> Q tt s') ->
  swp False (close_listener kernel) Q s.
Proof.
  intros Hs HQ. apply swp_bind, swp_get_cl. case_bool_decide as Hm; [by apply swp_ret, HQ|].
  set (f := fun c => c <| listener_channel := None |> <| listen_mode := L_NONE |>
                       <| listener_sockfd := -1 |> <| listener_watch := 0 |>).
  apply swp_bind. destruct (Z.ltb_spec 0 (listener_watch (cl s))) as [Hw|Hw].
  - eapply swp_remove_watch; [done|]. intros w Hfd Hbad Hcb. apply swp_upd, HQ; [|done|].
    + by apply (inv_unwatch D e i s w f).
    + by apply (view_unwatch D e i s w (f (cl s))).
  - apply swp_ret, swp_upd, HQ; [|done|done]. by apply (inv_unwatched D e i s f).
Qed.

(** With [L_NONE] there is no watch. *)
Lemma inv_none_watched D e i s : inv D e i s -> listen_mode (cl s) = L_NONE -> watched s = ∅.
Proof.
  intros Hs Hm. unfold watched. destruct (sources s !! listener_watch (cl s)) as [[]|] eqn:E; try done.
  by apply (inv_watch _ _ _ _ Hs) in E as (_ & Hne & _).
Qed.

(** Installing the watch of a new descriptor. *)
Lemma inv_install D e i s w fd ch mode :
  inv D e i s -> listen_mode (cl s) = L_NONE -> mode <> L_NONE ->
  w_fds w = {[+ fd +]} ⊎ others D -> w_bad w = 0 ->
  inv D e i (s <| wd := w |>
    <| cl := cl s <| listen_mode := mode |> <| listener_sockfd := fd |> <| listener_channel := ch |>
                  <| listener_watch := next_source s |> |>
    <| sources := <[next_source s := Watch fd]> (sources s) |> <| next_source := next_source s + 1 |>).
Proof.
  intros [H1 H2 H3 H4 H5 H0 H6 H7 H8] Hm Hmode Hw Hb.
  assert (sources s !! next_source s = None) as Hn.
  { destruct (sources s !! next_source s) eqn:E; [|done]. apply H3 in E. lia. }
  split; unfold watched; cbn [rset cl sources next_source wd timeout listener_watch listen_mode listener_sockfd].
  - intros Ho id ms f [[_ ?]|[_ Hid]]%lookup_insert_Some; [done|]. by eapply H1.
  - intros id fd' [[<- [= <-]]|[_ Hid]]%lookup_insert_Some; [done|]. by apply H2 in Hid as (_ & ? & _).
  - intros id src [[<- _]|[_ Hid]]%lookup_insert_Some; [lia|]. apply H3 in Hid. lia.
  - lia.
  - intros fd'. rewrite !lookup_insert_ne by lia. apply H5.
  - intros ms f. by rewrite lookup_insert_eq.
  - by rewrite lookup_insert_eq.
  - done.
  - done.
Qed.

Context (foreach_order : gmap Z (list Z) -> list (Z * list Z)).
Context (stack : list event -> list Z).
Context (fuel : nat).

Lemma open_listener_opens c mode s (Q : option Z -> cstate -> Prop) :
  (forall fd w, opens (wd s) fd w -> Q (Some fd) (s <| wd := w |>)) -> (mode = L_NONE -> Q None s) ->
  swp False (open_listener kernel stack c mode) Q s.
Proof.
  intros HQ HN. destruct mode; cbn [open_listener].
  - by apply swp_ret, HN.
  - apply swp_bind, swp_net. eapply swp_mono; [apply l2_socket_opens|]. intros. by apply swp_ret, HQ.
  - apply swp_bind. destruct (bool_decide _); apply swp_net;
      (eapply swp_mono; [apply l3_socket_opens|]); intros; by apply swp_ret, HQ.
  - apply swp_bind. apply swp_bind, swp_net.
    eapply swp_mono; [apply arp_socket_opens|]. intros. by apply swp_ret, HQ.
Qed.

Lemma opens_log w fd w' : opens w fd w' -> callbacks (w_trace w') = callbacks (w_trace w).
Proof. unfold opens. by destruct (fd <? 0); intros (_ & _ & _ & ?). Qed.

(** Switching ends, keeps the invariant and is not seen in the view. *)
Lemma switch_spec D e i mode s :
  inv D e i s ->
  swp False (switch_listening_mode kernel stack mode) (fun _ s' => inv D e i s' /\ view_of e s' = view_of e s) s.
Proof.
  intros Hs. apply swp_bind, swp_get_cl. case_bool_decide as Hm; [by apply swp_ret|].
  apply swp_bind. eapply swp_close_listener; [done|]. clear Hs Hm. intros s1 Hs Hnone <-.
  generalize (cl s) as c. clear s. rename s1 into s. intros c.
  case_bool_decide as Hmode; [by apply swp_ret|].
  pose proof (inv_fds _ _ _ _ Hs) as Hfds. rewrite (inv_none_watched _ _ _ _ Hs Hnone), gmultiset_disj_union_left_id in Hfds.
  pose proof (inv_bad _ _ _ _ Hs) as Hbad.
  apply swp_bind, open_listener_opens; [|done]. intros fd w Ho. pose proof (opens_log _ _ _ Ho) as Hlog.
  unfold opens in Ho.
  assert (forall w', w_fds w' = others D -> w_bad w' = 0 -> callbacks (w_trace w') = callbacks (w_trace (wd s)) ->
    inv D e i (s <| wd := w' |>) /\ view_of e (s <| wd := w' |>) = view_of e s) as Hw.
  { intros w' Hf Hb Hcb. split.
    - destruct Hs as [H1 H2 H3 H4 H5 H0 H6 H7 H8]. split; try done. cbn [rset wd]. rewrite Hf. rewrite Hfds in H6. exact H6.
    - unfold view_of, pending. cbn [rset cl sources strings next_string wd]. by rewrite Hcb. }
  destruct (Z.ltb_spec fd 0).
  { destruct Ho as (Ef & Eb & _). apply swp_ret, Hw; congruence. }
  destruct Ho as (Hof & Hob & _). rewrite Hfds in Hof. rewrite Hbad in Hob.
  apply swp_bind, swp_net, swp_ncall_. intros ch d _.
  destruct (Z.ltb_spec ch 0).
  { apply swp_bind, swp_net, swp_ncall_. intros r d' _. apply swp_ret.
    apply (Hw (called (Close fd) r d' (called (IoChannelNew fd) ch d w))); [| |by rewrite !callbacks_called];
      unfold called; cbn [w_fds w_bad fds_after bad_after creates andb].
    - rewrite Hof. apply pop_head.
    - rewrite decide_True; [done|]. rewrite Hof. apply in_head. }
  apply swp_bind, swp_upd. apply swp_bind. unfold add_source. unfold swp at 1.
  apply swp_bind, swp_upd, swp_ret. split.
  - exact (inv_install D e i s (called (IoChannelNew fd) ch d w) fd (Some ch) mode Hs Hnone Hmode Hof Hob).
  - apply (view_install e s (called (IoChannelNew fd) ch d w) (cl s <| listen_mode := mode |>
      <| listener_sockfd := fd |> <| listener_channel := Some ch |> <| listener_watch := next_source s |>));
      [done|apply Hs|done|by rewrite callbacks_called].
Qed.

Lemma tri_switch i mode : tri i (switch_listening_mode kernel stack mode) i.
Proof. intros D e s Hs. apply swp_total. eapply swp_mono; [by apply switch_spec|]. by intros a s' []. Qed.

Lemma clear_watch_spec D e i s :
  inv D e i s -> swp False (clear_watch kernel)
    (fun _ s' => inv D e i s' /\ view_of e s' = view_of e s /\ listener_watch (cl s') <= 0) s.
Proof.
  intros Hs. apply swp_bind, swp_get_cl. destruct (Z.ltb_spec 0 (listener_watch (cl s))); [|by apply swp_ret].
  apply swp_bind. eapply swp_remove_watch; [done|]. intros w Hf Hb Hcb. apply swp_upd. split_and!; [| |done].
  - by apply (inv_unwatch D e i s w (fun c => c <| listener_watch := 0 |>)).
  - by apply (view_unwatch D e i s w (cl s <| listener_watch := 0 |>)).
Qed.

Lemma tri_clear_watch i : tri i (clear_watch kernel) i.
Proof. intros D e s Hs. apply swp_total. eapply swp_mono; [by apply clear_watch_spec|]. by intros a s' (? & _). Qed.

(** *** The parts that leave sources and descriptors alone *)

Lemma tri_same {A} i (m : cm A) : (forall s a s', m s = Some (a, s') -> s' = s) -> tri i m i.
Proof.
  intros Hm D e s Hs. unfold swp. destruct (m s) as [[a s']|] eqn:E; [|done]. by apply Hm in E as ->.
Qed.

Ltac same := apply tri_same; intros s a s'; cbv beta delta [read_string junk lookup_source];
  intros ?; repeat case_match; simplify_eq; done.

Lemma tri_read_string i p : tri i (read_string p) i.
Proof. same. Qed.

Lemma tri_junk i n : tri i (junk stack n) i.
Proof. same. Qed.

(** *** Strings *)

(** Other strings, and client fields that point to them. *)
Lemma inv_restring D e i s f m n :
  inv D e i s ->
  (forall c, timeout (f c) = timeout c /\ listener_watch (f c) = listener_watch c /\
             listen_mode (f c) = listen_mode c /\ listener_sockfd (f c) = listener_sockfd c) ->
  strings_ok (borrowed D) (assigned_ip (f (cl s))) (last_address (f (cl s))) m n ->
  inv D e i (s <| strings := m |> <| next_string := n |> <| cl := f (cl s) |>).
Proof.
  intros [H1 H2 H3 H4 H5 H0 H6 H7 _] Hf Hok. destruct (Hf (cl s)) as (Ht & Hw & Hm & Hk).
  split; unfold watched in *; cbn [rset cl sources next_source strings next_string wd]; rewrite ?Ht, ?Hw, ?Hm, ?Hk; auto.
Qed.

(** A string that nobody points to yet. *)
Lemma strings_ok_new user a l m n v : strings_ok user a l m n -> strings_ok user a l (<[n := v]> m) (n + 1).
Proof.
  assert (forall p, is_Some (m !! p) -> is_Some (<[n := v]> m !! p)) as Hin.
  { intros p [x Hx]. destruct (decide (p = n)) as [->|]; [by rewrite lookup_insert_eq|]. rewrite lookup_insert_ne; [by exists x|done]. }
  intros [Ha Hl Hu Hf]. split.
  - intros p Hp. destruct (Ha p Hp) as (? & ? & ?). auto.
  - intros p Hp. destruct (Hl p Hp) as (? & ?). auto.
  - auto.
  - intros p [x [[<- _]|[_ Hx]]%lookup_insert_Some]; [lia|]. assert (p < n) by (apply Hf; by exists x). lia.
Qed.

(** The next string becomes the assigned address, or the remembered one. *)
Lemma strings_ok_assign user a l m n v :
  strings_ok user a l m n -> strings_ok user (Some n) l (<[n := v]> m) (n + 1).
Proof.
  intros Hok. destruct (strings_ok_new _ _ _ _ _ v Hok) as [_ Hl Hu Hf]. destruct Hok as [_ Hl0 Hu0 Hf0]. split; [|done..].
  intros p [= <-]. split; [by rewrite lookup_insert_eq|]. split; intros E.
  - destruct (Hl0 _ E) as [Hp _]. apply Hf0 in Hp. lia.
  - apply Hu0, Hf0 in E. lia.
Qed.

Lemma strings_ok_remember user a l m n v :
  strings_ok user a l m n -> strings_ok user a (Some n) (<[n := v]> m) (n + 1).
Proof.
  intros Hok. destruct (strings_ok_new _ _ _ _ _ v Hok) as [Ha _ Hu Hf]. destruct Hok as [Ha0 _ Hu0 Hf0].
  split; [| |done..].
  - intros p Hp. destruct (Ha p Hp) as (? & _ & ?). split_and!; [done| |done].
    intros [= ->]. destruct (Ha0 _ Hp) as [Hq _]. apply Hf0 in Hq. lia.
  - intros p [= <-]. split; [by rewrite lookup_insert_eq|]. intros E. apply Hu0, Hf0 in E. lia.
Qed.

(** Freeing the assigned address, or the remembered one. *)
Lemma strings_ok_unassign user a l m n :
  strings_ok user a l m n -> strings_ok user None l (match a with Some p => delete p m | None => m end) n.
Proof.
  intros [Ha Hl Hu Hf]. destruct a as [q|]; [|by split]. destruct (Ha q eq_refl) as (_ & Hql & Hqu).
  split; [done| | |].
  - intros p Hp. destruct (Hl p Hp). rewrite lookup_delete_ne by congruence. done.
  - intros p Hp. rewrite lookup_delete_ne by congruence. by apply Hu.
  - intros p [x [_ Hx]%lookup_delete_Some]. apply Hf. by exists x.
Qed.

Lemma strings_ok_forget user a l m n :
  strings_ok user a l m n -> strings_ok user a None (match l with Some p => delete p m | None => m end) n.
Proof.
  intros [Ha Hl Hu Hf]. destruct l as [q|]; [|split; try done; intros p Hp; by destruct (Ha p Hp) as (? & _ & ?)].
  destruct (Hl q eq_refl) as (_ & Hqu). split; [|done| |].
  - intros p Hp. destruct (Ha p Hp) as (? & ? & ?). rewrite lookup_delete_ne by congruence. done.
  - intros p Hp. rewrite lookup_delete_ne by congruence. by apply Hu.
  - intros p [x [_ Hx]%lookup_delete_Some]. apply Hf. by exists x.
Qed.

(** A string of the user's, and giving it back. *)
Lemma strings_ok_borrow a l m n v : strings_ok None a l m n -> strings_ok (Some n) a l (<[n := v]> m) (n + 1).
Proof.
  intros Hok. destruct (strings_ok_new _ _ _ _ _ v Hok) as [Ha Hl _ Hf]. destruct Hok as [Ha0 Hl0 _ Hf0]. split; [| | |done].
  - intros p Hp. destruct (Ha p Hp) as (? & ? & _). split_and!; [done..|]. intros [= ->].
    destruct (Ha0 _ Hp) as [Hq _]. apply Hf0 in Hq. lia.
  - intros p Hp. destruct (Hl p Hp) as (? & _). split; [done|]. intros [= ->].
    destruct (Hl0 _ Hp) as [Hq _]. apply Hf0 in Hq. lia.
  - intros p [= <-]. by rewrite lookup_insert_eq.
Qed.

Lemma strings_ok_return a l m n p : strings_ok (Some p) a l m n -> strings_ok None a l (delete p m) n.
Proof.
  intros [Ha Hl Hu Hf]. split; [| |done|].
  - intros q Hq. destruct (Ha q Hq) as (? & ? & ?). rewrite lookup_delete_ne by congruence. done.
  - intros q Hq. destruct (Hl q Hq) as (? & ?). rewrite lookup_delete_ne by congruence. done.
  - intros q [x [_ Hx]%lookup_delete_Some]. apply Hf. by exists x.
Qed.

Lemma tri_clear_assigned i : tri i clear_assigned_ip i.
Proof.
  intros D e s Hs. apply swp_bind, swp_get_cl, swp_bind. pose proof (strings_ok_unassign _ _ _ _ _ (inv_strings _ _ _ _ Hs)) as Hok.
  unfold g_free, swp at 1. destruct (assigned_ip (cl s)) as [p|].
  - destruct (strings s !! p); [|done].
    exact (inv_restring D e i s (fun c => c <| assigned_ip := None |>) _ _ Hs ltac:(done) Hok).
  - exact (inv_restring D e i s (fun c => c <| assigned_ip := None |>) _ _ Hs ltac:(done) Hok).
Qed.

(** [assigned_ip = get_ip(...)], without and with freeing the old one. *)
Lemma tri_assign {A} i j ip (k : cm A) :
  tri i k j -> tri i (let* p := get_ip ip in let* _ := upd (fun c => c <| assigned_ip := Some p |>) in k) j.
Proof.
  intros Hk D e s Hs. apply swp_bind. unfold swp at 1, get_ip, new_string. apply swp_bind, swp_upd, Hk.
  exact (inv_restring D e i s (fun c => c <| assigned_ip := Some (next_string s) |>) _ _ Hs ltac:(done)
           (strings_ok_assign _ _ _ _ _ (inet_ntoa ip) (inv_strings _ _ _ _ Hs))).
Qed.

Lemma tri_reassign {A} i j ip (k : cm A) :
  tri i k j ->
  tri i (let* c := get_cl in let* _ := g_free (assigned_ip c) in
         let* p := get_ip ip in let* _ := upd (fun c => c <| assigned_ip := Some p |>) in k) j.
Proof.
  intros Hk D e s Hs. apply swp_bind, swp_get_cl, swp_bind.
  pose proof (strings_ok_unassign _ _ _ _ _ (inv_strings _ _ _ _ Hs)) as Hok.
  apply (strings_ok_assign _ _ _ _ _ (inet_ntoa ip)) in Hok.
  pose proof (inv_restring D e i s (fun c => c <| assigned_ip := Some (next_string s) |>) _ _ Hs ltac:(done) Hok) as Hi.
  unfold g_free, swp at 1. destruct (assigned_ip (cl s)) as [p|].
  - destruct (strings s !! p); [|done]. apply swp_bind. unfold swp at 1, get_ip, new_string. apply swp_bind, swp_upd, Hk, Hi.
  - apply swp_bind. unfold swp at 1, get_ip, new_string. apply swp_bind, swp_upd, Hk, Hi.
Qed.

(** The address a client is started with. *)
Lemma tri_remember_address inet_addr i last : tri i (remember_address inet_addr last) i.
Proof.
  intros D e s Hs. unfold remember_address. destruct last as [p|]; [|by apply swp_ret].
  apply swp_bind. unfold read_string, swp at 1. destruct (strings s !! p) as [text|]; [|done].
  destruct (_ =? _); [by apply swp_ret|]. apply swp_bind, swp_get_cl, swp_bind.
  pose proof (strings_ok_forget _ _ _ _ _ (inv_strings _ _ _ _ Hs)) as Hok.
  unfold g_free, swp at 1. destruct (last_address (cl s)) as [q|] eqn:El.
  - destruct (strings s !! q); [|done]. apply swp_bind. unfold g_strdup. apply swp_bind. unfold read_string, swp at 1.
    cbn [rset strings]. destruct (delete q (strings s) !! p) as [v|]; [|done].
    apply swp_bind. unfold swp at 1, new_string. apply swp_ret, swp_bind, swp_upd, swp_ret.
    exact (inv_restring D e i s (fun c => c <| last_address := Some (next_string s) |>) _ _ Hs ltac:(done)
             (strings_ok_remember _ _ _ _ _ v Hok)).
  - apply swp_bind. unfold g_strdup. apply swp_bind. unfold read_string, swp at 1.
    destruct (strings s !! p) as [v|]; [|done].
    apply swp_bind. unfold swp at 1, new_string. apply swp_ret, swp_bind, swp_upd, swp_ret.
    exact (inv_restring D e i s (fun c => c <| last_address := Some (next_string s) |>) _ _ Hs ltac:(done)
             (strings_ok_remember _ _ _ _ _ v Hok)).
Qed.

(** Calls that make and close no descriptor. *)
Lemma tri_ncall_ i c : plain c = true -> tri i (net (ncall_ kernel c)) i.
Proof. intros Hc. apply tri_net. intros w. apply swp_ncall_. intros r d _. by apply keeps_plain. Qed.

Lemma tri_ncall i c : plain c = true -> tri i (net (ncall kernel c)) i.
Proof. intros Hc. apply tri_net. intros w. apply swp_ncall. intros r d _. by apply keeps_plain. Qed.

Lemma tri_callback i fn d : tri i (net (ncall_ kernel (Callback fn d))) i.
Proof. apply tri_fds. intros w. by apply swp_ncall_. Qed.

(** The heap does not matter here. *)
Lemma tri_cheap {A} i (m : alloc A) : tri i (cheap m) i.
Proof.
  intros D e s [H1 H2 H3 H4 H5 H0 H6 H7 H8]. unfold cheap. apply swp_net. unfold swp, on_heap. destruct (m _) as [a h].
  by split.
Qed.

Lemma tri_send_raw i pkt a b c d arp ifi : tri i (net (dhcp_send_raw_packet kernel pkt a b c d arp ifi)) i.
Proof. apply tri_net. intros w. apply send_raw_keeps. by right. Qed.

Lemma tri_send_kernel i pkt a b c d : tri i (net (dhcp_send_kernel_packet kernel pkt a b c d)) i.
Proof. apply tri_net. intros w. apply swp_total, send_kernel_keeps. Qed.

Lemma tri_send_arp i eth a b ifi : tri i (net (ipv4ll_send_arp_packet kernel eth a b ifi)) i.
Proof. apply tri_net. intros w. apply swp_total, send_arp_keeps. Qed.

Lemma tri_delay i secs : tri i (net (ipv4ll_random_delay_ms kernel secs)) i.
Proof.
  apply tri_net. intros w. apply swp_bind, swp_ncall. intros r d _. net_call. net_call. apply swp_ret. net_fact.
Qed.

Lemma random_host_keeps n w : swp True (random_host kernel n) (fun _ w' => keeps w w') w.
Proof.
  revert w; induction n as [|n IH]; intros w; [done|]. cbn [random_host]. net_call.
  destruct (_ <? _); [|apply swp_ret; net_fact]. eapply swp_mono; [apply IH|]. intros x w' Hk.
  eapply keeps_trans; [|exact Hk]. net_fact.
Qed.

Lemma tri_random_ip i n seed : tri i (net (ipv4ll_random_ip kernel n seed)) i.
Proof.
  apply tri_net. intros w. unfold ipv4ll_random_ip. apply swp_bind.
  assert (forall w0, keeps w w0 -> swp True (let* tmp := random_host kernel n in
    sret (u32 (LINKLOCAL_ADDR + 0x0100 + tmp))) (fun _ w' => keeps w w') w0) as Hh.
  { intros w0 Hk. apply swp_bind. eapply swp_mono; [apply random_host_keeps|]. intros tmp w1 Hk1.
    apply swp_ret. by eapply keeps_trans. }
  destruct (negb _).
  - apply swp_ncall_. intros r d _. apply Hh. net_fact.
  - apply swp_bind, swp_ncall. intros r d _. apply swp_ncall_. intros r' d' _. apply Hh. net_fact.
Qed.

Lemma tri_recv_l2 i old fd : tri i (net (dhcp_recv_l2_packet kernel old fd)) i.
Proof. apply tri_net. intros w. by apply read_l2_keeps. Qed.

Lemma tri_read_l3 i fd : tri i (net (read_l3_packet kernel fuel fd)) i.
Proof.
  apply tri_net. intros w. apply swp_bind, swp_ncall. intros r d _. apply swp_lift; [|done]. intros a _. net_fact.
Qed.

Lemma tri_recv6 i n fd : tri i (net (dhcpv6_recv_l3_packet kernel n fd)) i.
Proof.
  apply tri_net. intros w. apply swp_bind, swp_ncall. intros r d _. destruct (_ <? _); apply swp_ret; net_fact.
Qed.

Lemma tri_init6 i ty : tri i (net (dhcpv6_init_header kernel ty)) i.
Proof. apply tri_net. intros w. net_call. apply swp_ret. net_fact. Qed.

Lemma tri_mac i n mac : tri i (net (get_interface_mac_address kernel n mac)) i.
Proof. apply tri_net. intros w. apply swp_total, mac_keeps. Qed.

Lemma tri_send6 i n p len : tri i (net (dhcpv6_send_packet kernel n p len)) i.
Proof.
  apply tri_fds. intros w. unfold dhcpv6_send_packet.
  net_open Hf.
  { apply swp_ret. assert (keeps w (called (SocketOn AF_INET6 IPPROTO_UDP) r d w)) as (? & ? & _); [|done].
    apply (opens_neg _ r); [done|net_fact]. }
  assert (opens w r (called (SocketOn AF_INET6 IPPROTO_UDP) r d w)) as Ho by net_fact.
  unfold opens in Ho. rewrite (proj2 (Z.ltb_ge r 0)) in Ho by done. destruct Ho as (Hfd & Hbad & _).
  assert (forall w1 (v : Z), w_fds w1 = {[+ r +]} ⊎ w_fds w -> w_bad w1 = w_bad w ->
    swp True (close_ret kernel r v) (fun _ w' => w_fds w' = w_fds w /\ w_bad w' = w_bad w) w1) as Hclose.
  { intros w1 v Hw Hb. apply swp_bind, swp_ncall_. intros r1 d1 _. apply swp_ret.
    unfold called; cbn [w_fds w_bad fds_after bad_after]. rewrite Hw. split; [apply pop_head|].
    rewrite decide_True; [done|]. apply in_head. }
  apply swp_bind. unfold swp at 1, on_heap at 1. destruct (grant 40 _) as [ok h]. destruct ok; [|by apply Hclose].
  cbn [negb]. net_call. apply swp_bind. unfold swp at 1, on_heap at 1. destruct (free_blocks 1 _) as [u h']. by apply Hclose.
Qed.

(** *** Every operation *)

Lemma tri_if {A} i j (b : bool) (m n : cm A) : tri i m j -> tri i n j -> tri i (if b then m else n) j.
Proof. by destruct b. Qed.

#[local] Hint Resolve tri_ret tri_get tri_lift tri_fail tri_clear_timeout tri_remove_timeout tri_timeout0
  tri_switch tri_clear_watch tri_arm tri_arm_seconds tri_send_raw tri_send_kernel tri_send_arp tri_delay
  tri_random_ip tri_recv_l2 tri_read_l3 tri_recv6 tri_init6 tri_mac tri_send6 tri_cheap
  tri_clear_assigned tri_remember_address tri_read_string tri_junk tri_callback : tri.

#[local] Hint Extern 1 (tri _ (net (ncall_ _ _)) _) => apply tri_ncall_; reflexivity : tri.
#[local] Hint Extern 1 (tri _ (net (ncall _ _)) _) => apply tri_ncall; reflexivity : tri.
#[local] Hint Extern 1 (tri _ (upd _) _) =>
  apply tri_upd; intros; repeat case_match; split_and!; reflexivity : tri.

(** Follows the structure of a step; what the hints do not know is left. *)
Ltac tri_go :=
  lazymatch goal with
  | |- tri _ (sbind (get_ip _) _) _ => apply tri_assign; tri_go
  | |- tri _ (sbind _ _) _ => eapply tri_bind; [tri_go | intros; tri_go]
  | |- tri _ (match ?x with _ => _ end) _ => case_match; tri_go
  | |- _ => first [ solve [auto with tri] | solve [eauto 1 with tri] | solve [apply tri_weaken; auto with tri] | idtac ]
  end.

Lemma tri_notify i ev : tri i (notify kernel ev) i.
Proof. unfold notify, call_cb. tri_go. Qed.

#[local] Hint Resolve tri_notify : tri.

Lemma tri_broadcast i c p : tri i (broadcast kernel c p) i.
Proof. unfold broadcast. tri_go. Qed.

#[local] Hint Resolve tri_broadcast : tri.

Lemma tri_attempt_secs i : tri i (dhcp_attempt_secs kernel) i.
Proof. unfold dhcp_attempt_secs. tri_go. Qed.

#[local] Hint Resolve tri_attempt_secs : tri.

Lemma tri_send_discover i r : tri i (send_discover kernel foreach_order r) i.
Proof. unfold send_discover. tri_go. Qed.

Lemma tri_send_select i : tri i (send_select kernel foreach_order) i.
Proof. unfold send_select. tri_go. Qed.

Lemma tri_send_renew i : tri i (send_renew kernel foreach_order) i.
Proof. unfold send_renew. tri_go. Qed.

Lemma tri_send_rebound i : tri i (send_rebound kernel foreach_order) i.
Proof. unfold send_rebound. tri_go. Qed.

Lemma tri_send_release i a b : tri i (send_release kernel a b) i.
Proof. unfold send_release. tri_go. Qed.

#[local] Hint Resolve tri_send_discover tri_send_select tri_send_renew tri_send_rebound tri_send_release : tri.

Lemma tri_start_request : tri true (start_request kernel foreach_order stack) false.
Proof. unfold start_request. tri_go. Qed.

Lemma tri_request_timeout : tri true (request_timeout kernel foreach_order stack) false.
Proof. unfold request_timeout. pose proof tri_start_request. tri_go. Qed.

Lemma tri_probe : tri true (send_probe_packet kernel stack fuel) false.
Proof. unfold send_probe_packet. tri_go. Qed.

Lemma tri_announce i : tri i (send_announce_packet kernel) false.
Proof. unfold send_announce_packet. tri_go. Qed.

Lemma tri_ipv4ll_start i : tri i (ipv4ll_start kernel stack fuel) false.
Proof. unfold ipv4ll_start. tri_go. Qed.

Lemma tri_ipv4ll_stop i : tri i (ipv4ll_stop kernel stack) true.
Proof. unfold ipv4ll_stop. tri_go. Qed.

#[local] Hint Resolve tri_start_request tri_probe tri_announce tri_ipv4ll_start tri_ipv4ll_stop : tri.

Lemma tri_ipv4ll_restart i : tri i (ipv4ll_restart kernel stack) false.
Proof. unfold ipv4ll_restart. tri_go. Qed.

#[local] Hint Resolve tri_ipv4ll_restart : tri.

Lemma tri_handle_arp arp : tri false (handle_arp kernel stack arp) false.
Proof. unfold handle_arp. tri_go. Qed.

#[local] Hint Resolve tri_handle_arp : tri.

Lemma tri_recv_arp : tri false (ipv4ll_recv_arp_packet kernel stack) false.
Proof. unfold ipv4ll_recv_arp_packet. tri_go. Qed.

Lemma tri_set_request i code : tri i (g_dhcp_client_set_request code) i.
Proof. unfold g_dhcp_client_set_request. tri_go. Qed.

#[local] Hint Resolve tri_recv_arp tri_set_request : tri.

Lemma tri_add_request_option i max_buf buf code len msg : tri i (add_request_option max_buf buf code len msg) i.
Proof. unfold add_request_option. tri_go. Qed.

#[local] Hint Resolve tri_add_request_option : tri.

Lemma tri_add_dhcpv6_request_option i max_buf buf code : tri i (add_dhcpv6_request_option kernel max_buf buf code) i.
Proof. unfold add_dhcpv6_request_option, get_time_diff. tri_go. Qed.

#[local] Hint Resolve tri_add_dhcpv6_request_option : tri.

Lemma tri_request_options i max_buf codes buf : tri i (request_options_loop kernel max_buf codes buf) i.
Proof. revert buf; induction codes as [|code codes IH]; intros buf; cbn [request_options_loop]; tri_go. Qed.

#[local] Hint Resolve tri_request_options : tri.

Lemma tri_send_dhcpv6_msg i ty : tri i (send_dhcpv6_msg kernel foreach_order ty) i.
Proof. unfold send_dhcpv6_msg, add_dhcpv6_request_options, add_dhcpv6_send_options. tri_go. Qed.

#[local] Hint Resolve tri_send_dhcpv6_msg : tri.

Lemma tri_start_v6 i st send : tri i send i -> tri i (start_v6 kernel stack st send) i.
Proof. intros Hs. unfold start_v6. tri_go. Qed.

Lemma tri_start_ipv6 i c : tri i (start_ipv6 kernel foreach_order stack c) i.
Proof.
  unfold start_ipv6. repeat (case_match; [by apply tri_start_v6, tri_send_dhcpv6_msg|]). tri_go.
Qed.

Context (inet_addr : list Z -> Z).
Context (inet_ntop6 : list Z -> list Z).

#[local] Hint Resolve tri_start_ipv6 : tri.

Lemma tri_start_ipv4 last : tri true (start_ipv4 kernel inet_addr foreach_order stack last) false.
Proof. unfold start_ipv4. tri_go. Qed.

#[local] Hint Resolve tri_start_ipv4 : tri.

Lemma tri_start last : tri true (g_dhcp_client_start kernel inet_addr foreach_order stack fuel last) false.
Proof. unfold g_dhcp_client_start. tri_go. Qed.

Lemma tri_stop i : tri i (g_dhcp_client_stop kernel stack) true.
Proof. unfold g_dhcp_client_stop. tri_go. Qed.

#[local] Hint Resolve tri_start tri_stop : tri.

Lemma tri_restart_dhcp i n : tri i (restart_dhcp kernel inet_addr foreach_order stack fuel n) false.
Proof. unfold restart_dhcp. tri_go. Qed.

Lemma tri_halve i : tri i halve_lease i.
Proof. unfold halve_lease. tri_go. Qed.

Lemma tri_start_rebound : tri true start_rebound false.
Proof. unfold start_rebound. tri_go. Qed.

#[local] Hint Resolve tri_restart_dhcp tri_halve tri_start_rebound : tri.

Lemma tri_start_bound i : tri i (start_bound kernel) false.
Proof. unfold start_bound. tri_go. Qed.

#[local] Hint Resolve tri_start_bound : tri.

(** Every timer function, started from its own timer. *)
Lemma tri_run_timer f : tri true (run_timer kernel inet_addr foreach_order stack fuel f) false.
Proof.
  destruct f; cbn [run_timer]; unfold ipv4ll_probe_timeout, ipv4ll_announce_timeout, ipv4ll_defend_timeout,
    request_timeout, start_rebound_timeout, start_renew_request_timeout, start_renew_timeout,
    restart_dhcp_timeout, discover_timeout; tri_go.
Qed.

(** No timer function asks to be called again. *)
Definition returns {A} (P : A -> Prop) (m : cm A) : Prop := forall s a s', m s = Some (a, s') -> P a.

Lemma returns_ret {A} (P : A -> Prop) (a : A) : P a -> returns P (sret a).
Proof. by intros Ha s b s' [= <- _]. Qed.

Lemma returns_bind {A B} (P : B -> Prop) (m : cm A) (k : A -> cm B) :
  (forall a, returns P (k a)) -> returns P (sbind m k).
Proof.
  intros Hk s b s'. unfold sbind. destruct (m s) as [[a s1]|]; [|done]. apply Hk.
Qed.

Lemma run_timer_once f : returns (fun keep => keep = false) (run_timer kernel inet_addr foreach_order stack fuel f).
Proof.
  destruct f; cbn [run_timer]; unfold send_probe_packet, ipv4ll_probe_timeout, ipv4ll_announce_timeout,
    ipv4ll_defend_timeout, request_timeout, start_rebound_timeout, start_renew_request_timeout,
    start_renew_timeout, restart_dhcp_timeout, discover_timeout;
    repeat first [apply returns_bind; intros | apply returns_ret; reflexivity | case_match].
Qed.

(** *** The packet callback *)

Lemma tri_value_remove i code : tri i (value_remove code) i.
Proof. unfold value_remove. tri_go. Qed.

Lemma tri_value_set i code l : tri i (value_set code l) i.
Proof. unfold value_set, value_remove. tri_go. Qed.

#[local] Hint Resolve tri_value_remove tri_value_set : tri.

Lemma tri_get_request_option i p code : tri i (get_request_option fuel p code) i.
Proof. unfold get_request_option. tri_go. Qed.

#[local] Hint Resolve tri_get_request_option : tri.

Lemma tri_get_request i p : tri i (get_request fuel p) i.
Proof.
  unfold get_request. eapply tri_bind; [tri_go|]. intros c. generalize (request_list c) as codes.
  induction codes as [|code codes IH]; cbn [get_request_loop]; tri_go.
Qed.

(** [g_source_remove(dhcp_client->timeout)] without a test. *)
Lemma tri_source_remove_timeout i : tri i (let* c := get_cl in g_source_remove kernel (timeout c)) true.
Proof.
  intros D e s Hs. apply swp_bind, swp_get_cl. eapply swp_remove_timer; [done|]. by eapply inv_remove_timer.
Qed.

Lemma tri_handle_offer i p : tri i (handle_offer kernel foreach_order stack fuel p) false.
Proof.
  intros D e s Hs. unfold handle_offer. apply swp_bind, swp_get_cl.
  apply swp_bind. eapply swp_remove_timer; [done|]. apply swp_bind, swp_upd.
  eapply (tri_bind true true false); [apply tri_lift| |].
  - intros [q|]; [|done]. tri_go.
  - pose proof (inv_forget _ _ _ 0 (inv_remove_timer _ _ _ _ Hs)) as Hi.
    destruct (Hi ltac:(done)) as [H1 H2 H3 H4 H5 H0 H6 H7 H8]. by split.
Qed.

#[local] Hint Resolve tri_get_request tri_handle_offer : tri.

Lemma tri_handle_ack i p : tri i (handle_ack kernel stack fuel p) false.
Proof. unfold handle_ack.
  do 6 (eapply tri_bind; [tri_go|intros]). eapply tri_bind; [tri_go|intros _]. apply tri_reassign. tri_go. Qed.

Lemma tri_handle_nak i : tri i (handle_nak kernel) false.
Proof. unfold handle_nak. tri_go. Qed.

#[local] Hint Resolve tri_handle_ack tri_handle_nak : tri.

Lemma tri_handle_packet p : tri false (handle_packet kernel foreach_order stack fuel p) false.
Proof. unfold handle_packet. tri_go. Qed.

#[local] Hint Resolve tri_handle_packet : tri.

Lemma tri_value_block i n : tri i (value_block n) i.
Proof. unfold value_block. tri_go. Qed.

#[local] Hint Resolve tri_value_block : tri.

Lemma tri_address_option i o code a : tri i (address_option kernel o code a) i.
Proof. unfold address_option, add_prefix. tri_go. Qed.

#[local] Hint Resolve tri_address_option : tri.

Lemma tri_addresses_loop i n value len max_len pos a : tri i (addresses_loop kernel n value len max_len pos a) i.
Proof. revert pos a; induction n as [|n IH]; intros pos a; cbn [addresses_loop]; tri_go. Qed.

#[local] Hint Resolve tri_addresses_loop : tri.

Lemma tri_get_addresses i code len value st : tri i (get_addresses kernel inet_ntop6 code len value st) i.
Proof. unfold get_addresses. tri_go. Qed.

Lemma tri_servers_loop i n value acc : tri i (servers_loop inet_ntop6 n value acc) i.
Proof. revert value acc; induction n as [|n IH]; intros value acc; cbn [servers_loop]; tri_go. Qed.

#[local] Hint Resolve tri_get_addresses tri_servers_loop : tri.

Lemma tri_option_values i code len value st :
  tri i (get_dhcpv6_option_value_list kernel inet_ntop6 code len value st) i.
Proof. unfold get_dhcpv6_option_value_list. tri_go. Qed.

#[local] Hint Resolve tri_option_values : tri.

Lemma tri_get_dhcpv6_request i p len : tri i (get_dhcpv6_request kernel inet_ntop6 p len) i.
Proof.
  unfold get_dhcpv6_request. eapply tri_bind; [tri_go|]. intros c. generalize (request_list c) as codes.
  induction codes as [|code codes IH]; cbn [dhcpv6_request_loop]; tri_go.
Qed.

Lemma tri_set_server_duid i p a b : tri i (set_server_duid p a b) i.
Proof. unfold set_server_duid. tri_go. Qed.

#[local] Hint Resolve tri_get_dhcpv6_request tri_set_server_duid : tri.

Lemma tri_notify_reply i p len : tri i (notify_reply kernel p len) i.
Proof. unfold notify_reply. tri_go. Qed.

#[local] Hint Resolve tri_notify_reply : tri.

Lemma tri_handle_reply i p len : tri i (handle_reply kernel inet_ntop6 stack p len) i.
Proof. unfold handle_reply. tri_go. Qed.

#[local] Hint Resolve tri_handle_reply : tri.

Lemma tri_handle_packet6 i p len : tri i (handle_packet6 kernel inet_ntop6 stack p len) i.
Proof. unfold handle_packet6, handle_solicited, handle_rebind. tri_go. Qed.

#[local] Hint Resolve tri_handle_packet6 : tri.

Lemma tri_receive6 i : tri i (receive6 kernel inet_ntop6 stack) i.
Proof. unfold receive6. tri_go. Qed.

#[local] Hint Resolve tri_receive6 : tri.

(** The callback without the hang-up branch. *)
Lemma tri_listener_event : tri false (listener_event kernel inet_ntop6 foreach_order stack fuel false) false.
Proof. unfold listener_event, receive4. tri_go. Qed.

Lemma listener_event_keeps s keep s' :
  listener_event kernel inet_ntop6 foreach_order stack fuel false s = Some (keep, s') ->
  keep = false -> s' = s /\ listen_mode (cl s) = L_NONE.
Proof.
  unfold listener_event, sbind at 1, get_cl. cbn iota. case_bool_decide as Hm; [by intros [= <- <-]|].
  intros H Hk. exfalso. revert H Hk.
  match goal with |- ?m s = _ -> _ => assert (returns (fun k => k = true) m) as Hr end.
  { repeat first [apply returns_bind; intros | apply returns_ret; reflexivity]. }
  intros H. apply Hr in H. by subst.
Qed.

(** *** One event *)

(** Taking the source that ran away. *)
Lemma inv_finish D e s :
  inv D e false s -> inv D 0 false (s <| sources := delete e (sources s) |>).
Proof.
  intros Hs. pose proof Hs as [H1 H2 H3 H4 H5 H0 H6 H7 H8].
  apply (inv_done D e); [|cbn [rset sources]; apply lookup_delete_eq].
  split; unfold watched; cbn [rset cl sources next_source wd]; try done.
  - intros Ho id ms f [_ Hid]%lookup_delete_Some. by eapply H1.
  - intros id fd [_ Hid]%lookup_delete_Some. by apply H2.
  - intros id src [_ Hid]%lookup_delete_Some. by eapply H3.
  - intros fd. split; intros [_ Hid]%lookup_delete_Some; by destruct (H5 fd).
  - intros ms f [_ Hid]%lookup_delete_Some. by apply H0 in Hid.
  - rewrite H6. f_equal. unfold watched. destruct (decide (listener_watch (cl s) = e)) as [<-|Hne].
    + rewrite lookup_delete_eq. destruct (sources s !! listener_watch (cl s)) as [[]|] eqn:E; try done.
      by destruct (H5 fd).
    + by rewrite lookup_delete_ne.
Qed.

(** While a timer runs no other one waits. *)
Lemma inv_running D id ms f s : inv D 0 false s -> sources s !! id = Some (Timeout ms f) -> inv D id true s.
Proof.
  intros [H1 H2 H3 H4 H5 H0 H6 H7 H8] E. pose proof (H3 _ _ E) as Hid.
  split; try done; [|lia|].
  - intros Ho id' ms' f' Hid'. destruct (H1 Ho _ _ _ E) as [[Ht _]|]; [|lia].
    destruct (H1 Ho _ _ _ Hid') as [[-> _]|Hz]; [right; congruence|]. apply H3 in Hid'. lia.
  - intros fd. split; [apply H5|]. by rewrite E.
Qed.

Lemma dispatch_inv D id hangup s :
  inv D 0 false s ->
  swp True (dispatch kernel inet_addr inet_ntop6 foreach_order stack fuel id hangup)
    (fun _ s' => inv D 0 false s') s.
Proof.
  intros Hs. unfold dispatch. apply swp_bind. unfold swp at 1, lookup_source.
  destruct (sources s !! id) as [[ms f|fd]|] eqn:E; [| |by apply swp_ret].
  - pose proof (inv_running _ _ _ _ _ Hs E) as Hrun.
    apply swp_bind. pose proof (tri_run_timer f D id s Hrun) as Ht. pose proof (run_timer_once f s) as Ho.
    unfold swp in Ht |- *. destruct (run_timer _ _ _ _ _ f s) as [[keep s1]|]; [|done].
    specialize (Ho keep s1 eq_refl). subst keep. unfold g_source_remove.
    pose proof (inv_finish _ _ _ Ht) as Hfin.
    destruct (sources s1 !! id) as [[]|] eqn:E1; try exact Hfin. by destruct (inv_apart _ _ _ _ Ht fd).
  - destruct hangup.
    + destruct (inv_watch _ _ _ _ Hs _ _ E) as (-> & _ & _).
      unfold listener_event, sbind at 1 2, get_cl, upd, smod, sret. cbn iota.
      unfold sbind. change (swp True (g_source_remove kernel (listener_watch (cl s)))
        (fun _ s' => inv D 0 false s') (s <| cl := cl s <| listener_watch := 0 |> |>)).
      unfold g_source_remove, swp. cbn [rset sources]. rewrite E. unfold net, sbind, ncall_, sys_, sys. cbn [rset wd].
      destruct (kernel _ _) as [r d]. pose proof (inv_fds _ _ _ _ Hs) as Hfds. unfold watched in Hfds. rewrite E in Hfds.
      assert (w_fds (called (Close fd) r d (wd s)) = others D) as Hf
        by (cbn [called w_fds fds_after]; rewrite Hfds; apply pop_head).
      assert (w_bad (called (Close fd) r d (wd s)) = 0) as Hb.
      { cbn [called w_bad bad_after]. rewrite decide_True; [apply Hs|]. rewrite Hfds. apply in_head. }
      pose proof (inv_unwatch D 0 false s (called (Close fd) r d (wd s)) (fun c => c <| listener_watch := 0 |>)
               Hs Hf Hb) as Hu.
      exact (Hu ltac:(done) ltac:(done)).
    + apply swp_bind. pose proof (tri_listener_event D 0 s Hs) as Ht. pose proof (listener_event_keeps s) as Hk.
      unfold swp in Ht |- *. destruct (listener_event _ _ _ _ _ false s) as [[keep s1]|]; [|done].
      destruct keep; [done|]. destruct (Hk false s1 eq_refl eq_refl) as [-> Hm].
      by destruct (inv_watch _ _ _ _ Hs _ _ E) as (_ & ? & _).
Qed.

(** *** The user's calls *)

Context (inet_pton6 : list Z -> option (list Z)).

Lemma tri_send_hash_insert i code v : tri i (send_hash_insert code v) i.
Proof. unfold send_hash_insert. tri_go. Qed.

#[local] Hint Resolve tri_send_hash_insert : tri.

Lemma tri_set_send6 i code v len : tri i (g_dhcpv6_client_set_send code v len) i.
Proof. unfold g_dhcpv6_client_set_send, alloc_dhcpv6_option, g_malloc. tri_go. Qed.

Lemma tri_create_iaid i index : tri i (g_dhcpv6_client_create_iaid kernel stack index) i.
Proof. unfold g_dhcpv6_client_create_iaid. tri_go. Qed.

#[local] Hint Resolve tri_set_send6 tri_create_iaid : tri.

Lemma tri_put_iaid i index : tri i (put_iaid kernel stack index) i.
Proof. unfold put_iaid, g_dhcpv6_client_get_iaid, only_ipv6. tri_go. Qed.

#[local] Hint Resolve tri_put_iaid : tri.

(** Starting with an address of the user's. *)
Lemma start_with_inv D e s text :
  inv D e true s -> borrowed D = None ->
  swp True (run_call kernel inet_addr foreach_order stack fuel inet_pton6 (CallStart (Some text)))
    (fun _ s' => inv D e false s') s.
Proof.
  destruct D as [tidy fds user]. cbn [borrowed]. intros Hs ->. cbn [run_call]. apply swp_bind. unfold swp at 1, new_string.
  set (p := next_string s). pose proof Hs as [H1 H2 H3 H4 H5 H0 H6 H7 H8]. set (D := mkEnvWith tidy fds (Some p)).
  assert (inv D e true (s <| strings := <[p := text]> (strings s) |> <| next_string := p + 1 |>)) as Hb
    by (split; try done; by apply strings_ok_borrow).
  apply swp_bind. eapply swp_mono; [by apply (tri_start (Some p))|]. cbn beta. clear -p. intros _ s' [H1 H2 H3 H4 H5 H0 H6 H7 H8].
  unfold g_free, swp. destruct (ok_user _ _ _ _ _ H8 p eq_refl) as [v ->].
  split; try done. by apply strings_ok_return.
Qed.

Lemma tri_run_call k i :
  (forall last, k = CallStart last -> i = true /\ last = None) ->
  tri i (run_call kernel inet_addr foreach_order stack fuel inet_pton6 k) false.
Proof.
  intros Hi. destruct k as [[]| | | | | | | | |[]| | | | | | | | | |]; cbn [run_call];
    try (destruct (Hi _ eq_refl) as [? [=]]); try (destruct (Hi _ eq_refl) as [-> _]); try destruct i;
    unfold ignore, g_dhcp_client_ref, g_dhcp_client_register_event, g_dhcp_client_clear_requests,
      g_dhcp_client_clear_values, g_dhcp_client_set_id, g_dhcp_client_set_send, g_dhcpv6_client_set_retransmit,
      g_dhcpv6_client_clear_retransmit, g_dhcpv6_client_set_duid, g_dhcpv6_client_set_iaid, g_dhcpv6_client_set_pd,
      g_dhcpv6_client_set_ia, g_dhcpv6_client_set_ias, g_dhcpv6_client_set_oro, g_dhcpv6_client_clear_send,
      g_dhcpv6_client_reset_request, send_value, alloc_dhcp_string_option, alloc_dhcp_data_option, alloc_dhcp_option,
      only_ipv6; tri_go.
Qed.

(** A new client holds no source, and no descriptor is left open. *)
Lemma swp_wheap {A} (m : alloc A) (Q : A -> world -> Prop) w :
  (forall a w', w_fds w' = w_fds w -> w_bad w' = w_bad w -> Q a w') -> swp False (wheap m) Q w.
Proof. intros HQ. unfold swp, wheap, on_heap. destruct (m _) as [a h]. by apply HQ. Qed.

Lemma new_fds ty index w :
  swp False (g_dhcp_client_new kernel ty index)
    (fun r w' => w_fds w' = w_fds w /\ w_bad w' = w_bad w /\
       forall c, fst r = Some c -> timeout c = 0 /\ listener_watch c = 0 /\ assigned_ip c = None /\ last_address c = None) w.
Proof.
  unfold g_dhcp_client_new. destruct (index <? 0); [by apply swp_ret|].
  apply swp_bind, swp_wheap. intros ok w1 Hf1 Hb1. destruct ok; [|by apply swp_ret]. cbn [negb].
  apply swp_bind. eapply swp_mono; [apply name_keeps|]. intros name w2 (Hf2 & Hb2 & _).
  destruct name as [name|]; (apply swp_bind, swp_wheap; intros _ w3 Hf3 Hb3);
    [|apply swp_ret; split_and!; [congruence..|done]].
  apply swp_bind. eapply swp_mono; [apply up_keeps|]. intros up w4 (Hf4 & Hb4 & _). destruct up; cbn [negb].
  - apply swp_bind. eapply swp_mono; [apply mac_keeps|]. intros mac w5 (Hf5 & Hb5 & _).
    net_call. apply swp_ret. unfold called; cbn [w_fds w_bad fds_after bad_after creates andb fst].
    split_and!; [congruence..|]. by intros c [= <-].
  - apply swp_bind, swp_wheap. intros _ w5 Hf5 Hb5. apply swp_ret. split_and!; [congruence..|done].
Qed.

Lemma new_inv ty index w c err w' :
  w_bad w = 0 -> g_dhcp_client_new kernel ty index w = Some ((Some c, err), w') ->
  inv (mkEnv (w_fds w) None) 0 true (mkState c ∅ 1 ∅ 1 w').
Proof.
  intros Hb Hnew. pose proof (new_fds ty index w) as Hm. unfold swp in Hm. rewrite Hnew in Hm.
  destruct Hm as (Hf & Hb' & Hc). destruct (Hc c eq_refl) as (Ht & Hw & Ha & Hl).
  split; unfold watched; cbn [cl sources next_source wd]; rewrite ?Ht, ?Hw; try done.
  - rewrite Hf. by rewrite lookup_empty, gmultiset_disj_union_left_id.
  - congruence.
  - cbn [strings next_string]. rewrite Ha, Hl. split; try done. by intros p [x Hx].
Qed.

(** Nothing is known of the timers of a client that is not orderly, so that it
    may be taken for idle. *)
Lemma inv_untidy D u b b' e i j s :
  inv (mkEnvWith b D u) e i s -> (b' = true -> b = true /\ (j = i \/ no_timer s)) -> inv (mkEnvWith b' D u) e j s.
Proof.
  intros [H1 H2 H3 H4 H5 H0 H6 H7 H8] Hb. split; try done. intros Ho id ms f Hid. destruct (Hb Ho) as [Hbt [->|Hn]].
  - by apply (H1 Hbt _ _ _ Hid).
  - by destruct (Hn id ms f).
Qed.

Lemma reach_inv D b s :
  client_reach kernel inet_addr inet_ntop6 foreach_order stack fuel inet_pton6 D b s -> inv (mkEnvWith b D None) 0 false s.
Proof.
  induction 1 as [ty index w c err w' Hf Hb Hnew|b s id hangup s' _ IH Hd|b b' s k s' _ IH Hstart Hk].
  - subst D. eapply inv_weaken, new_inv; done.
  - pose proof (dispatch_inv (mkEnvWith b D None) id hangup s IH) as Hi. unfold swp in Hi. by rewrite Hd in Hi.
  - set (started := match k with CallStart _ => true | _ => false end).
    assert (inv (mkEnvWith b' D None) 0 started s) as Hi.
    { eapply inv_untidy; [exact IH|]. intros Hb'. destruct (Hstart Hb') as [-> Hn]. split; [done|].
      subst started. destruct k; try (by left). right. by eapply Hn. }
    assert (swp True (run_call kernel inet_addr foreach_order stack fuel inet_pton6 k)
      (fun _ s1 => inv (mkEnvWith b' D None) 0 false s1) s) as Hr.
    { assert ((exists text, k = CallStart (Some text)) \/ forall text, k <> CallStart (Some text)) as [[text ->]|Hn]
        by (destruct k as [[text|]| | | | | | | | | | | | | | | | | | |]; (by left; exists text) || by right).
      - by apply start_with_inv.
      - apply (tri_run_call k started); [|done]. intros [text|] ->; [|done]. by destruct (Hn text). }
    unfold swp in Hr. by rewrite Hk in Hr.
Qed.

End owns.
