(* ===== verification/DhcpClientLife.v ===== *)
(** * The life of a DHCP client.

    What a client owns, how it stops, and what its timers do when nobody
    answers.  [view] is what of a state is left when the listening socket is
    forgotten; [hw] is the weakest precondition of a step that does not fail, on
    views. *)

From stdpp Require Import gmap gmultiset pretty.
From S2P Require Import Prelude RecordSet StateFail CLib Bytes DhcpCommon Posix DhcpNet DhcpClientBase DhcpClient6 DhcpClient DhcpClientPackets DhcpClientFacts.

(** ** Steps that do not fail *)

(** The numbers of the functions called for an event. *)
Definition told (c : client) (ev : GDHCPClientEvent) : list nat := option_list (cbs c ev).

Lemma told_core c ev : told (core c) ev = told c ev.
Proof. done. Qed.

(** Without a pending timer there is none. *)
Lemma pending_no_timer D s : inv D 0 false s -> orderly D = true -> pending 0 s = None -> no_timer s.
Proof.
  intros Hs Ho Hp id ms f Hid. pose proof (inv_ids _ _ _ _ Hs _ _ Hid). unfold pending in Hp.
  destruct (inv_timer _ _ _ _ Hs Ho _ _ _ Hid) as [[-> _]|]; [|lia].
  rewrite Hid in Hp. destruct (decide _); [lia|done].
Qed.

Lemma idle_pending D e s : inv D e true s -> orderly D = true -> pending e s = None.
Proof.
  intros Hs Ho. unfold pending. destruct (sources s !! timeout (cl s)) as [[ms f|]|] eqn:E; try done.
  destruct (inv_timer _ _ _ _ Hs Ho _ _ _ E) as [[_ ?]|]; [done|]. by rewrite decide_True.
Qed.

Section life.
Context (kernel : list event -> call -> Z * list Z).
Context (D : env) (e : Z).

(** [m] ends, and [Q] holds of the result and the view it leaves. *)
Definition hw {A} (i : bool) (m : cm A) (j : bool) (Q : A -> view -> Prop) (v : view) : Prop :=
  forall s, inv D e i s -> view_of e s = v -> swp False m (fun a s' => inv D e j s' /\ Q a (view_of e s')) s.

Lemma hw_intro {A} i j (m : cm A) (Q : A -> view -> Prop) v :
  tri i m j -> (forall s, inv D e i s -> view_of e s = v -> swp False m (fun a s' => Q a (view_of e s')) s) ->
  hw i m j Q v.
Proof.
  intros Ht Hm s Hs Hv. specialize (Ht D e s Hs). specialize (Hm s Hs Hv). unfold swp in *.
  by destruct (m s) as [[a s']|].
Qed.

Lemma hw_bind {A B} i j k (m : cm A) (f : A -> cm B) Q v :
  hw i m j (fun a v' => hw j (f a) k Q v') v -> hw i (sbind m f) k Q v.
Proof.
  intros Hm s Hs Hv. apply swp_bind. eapply swp_mono; [by apply Hm|]. intros a s' [Hs' Hf]. by apply Hf.
Qed.

Lemma hw_mono {A} i j (m : cm A) (P Q : A -> view -> Prop) v :
  hw i m j P v -> (forall a v', P a v' -> Q a v') -> hw i m j Q v.
Proof. intros Hm HPQ s Hs Hv. eapply swp_mono; [by apply Hm|]. intros a s' [? ?]. auto. Qed.

Lemma hw_weaken {A} i (m : cm A) (Q : A -> view -> Prop) v : hw i m true Q v -> hw i m false Q v.
Proof.
  intros Hm s Hs Hv. eapply swp_mono; [by apply Hm|]. intros a s' [Hs' HQ]. split; [by eapply inv_weaken|done].
Qed.

Lemma hw_ret {A} i (a : A) (Q : A -> view -> Prop) v : Q a v -> hw i (sret a) i Q v.
Proof. intros HQ s Hs <-. by apply swp_ret. Qed.

Lemma hw_get i (Q : client -> view -> Prop) v :
  (forall c, core c = v_core v -> Q c v) -> hw i get_cl i Q v.
Proof. intros HQ s Hs <-. apply swp_get_cl. split; [done|]. by apply HQ. Qed.

Lemma hw_upd i f (Q : unit -> view -> Prop) v :
  (forall c, timeout (f c) = timeout c /\ listener_watch (f c) = listener_watch c /\
             listen_mode (f c) = listen_mode c /\ listener_sockfd (f c) = listener_sockfd c /\
             assigned_ip (f c) = assigned_ip c /\ last_address (f c) = last_address c) ->
  (forall c, core (f c) = f (core c)) -> Q tt (v <| v_core := f (v_core v) |>) -> hw i (upd f) i Q v.
Proof.
  intros Hf Hc HQ. apply hw_intro; [by apply tri_upd|]. intros s Hs <-. apply swp_upd.
  unfold view_of, pending in *. cbn [rset cl sources strings next_string wd v_core v_pending v_strings v_next v_log] in *.
  destruct (Hf (cl s)) as (-> & _). by rewrite Hc.
Qed.

(** Steps of the network that do not call the user. *)
Lemma hw_net {A} i (m : nio A) (Q : A -> view -> Prop) v :
  (forall w, swp False m (fun _ w' => keeps w w') w) -> (forall a, Q a v) -> hw i (net m) i Q v.
Proof.
  intros Hm HQ. apply hw_intro; [apply tri_net; intros w; apply swp_total, Hm|]. intros s Hs <-. apply swp_net.
  eapply swp_mono; [apply Hm|]. intros a w' (_ & _ & _ & Hcb). unfold view_of, pending in *.
  cbn [rset cl sources strings next_string wd] in *. rewrite Hcb. apply HQ.
Qed.

Lemma hw_ncall_ i c (Q : Z -> view -> Prop) v :
  plain c = true -> (forall r, Q r v) -> hw i (net (ncall_ kernel c)) i Q v.
Proof. intros Hc HQ. apply hw_net; [|done]. intros w. apply swp_ncall_. intros r d _. by apply keeps_plain. Qed.

Lemma hw_notify i ev (Q : unit -> view -> Prop) v :
  Q tt (v <| v_log := v_log v ++ told (v_core v) ev |>) -> hw i (notify kernel ev) i Q v.
Proof.
  intros HQ. apply hw_intro; [apply tri_notify|]. intros s Hs <-. unfold notify, call_cb.
  apply swp_bind, swp_bind, swp_get_cl. unfold told in HQ. cbn [view_of v_core] in HQ.
  change (cbs (core (cl s)) ev) with (cbs (cl s) ev) in HQ.
  destruct (cbs (cl s) ev) as [fn|]; cbn [option_list] in HQ.
  - apply swp_bind, swp_net, swp_ncall_. intros r d _. do 2 apply swp_ret.
    unfold view_of, pending in *. cbn [rset cl sources strings next_string wd v_core v_pending v_strings v_next v_log] in *.
    unfold called. cbn [w_trace]. unfold callbacks. rewrite omap_app. exact HQ.
  - do 2 apply swp_ret. rewrite app_nil_r in HQ. exact HQ.
Qed.

Lemma hw_arm ms f (Q : unit -> view -> Prop) v :
  Q tt (v <| v_pending := Some (ms, f) |>) -> hw true (arm ms f) false Q v.
Proof.
  intros HQ. apply hw_intro; [apply tri_arm|]. intros s Hs <-. apply swp_arm.
  assert (e < next_source s) by apply Hs. revert HQ. unfold view_of, pending.
  cbn [rset cl sources timeout strings next_string wd v_core v_pending v_strings v_next v_log].
  rewrite lookup_insert_eq, decide_False by lia. done.
Qed.

Lemma hw_arm_seconds secs f (Q : unit -> view -> Prop) v :
  Q tt (v <| v_pending := Some (secs * 1000, f) |>) -> hw true (arm_seconds secs f) false Q v.
Proof. apply hw_arm. Qed.

Lemma hw_remove_timeout i (Q : unit -> view -> Prop) v :
  Q tt (v <| v_pending := None |>) -> hw i (remove_timeout kernel) true Q v.
Proof.
  intros HQ. apply hw_intro; [apply tri_remove_timeout|]. intros s Hs <-. apply swp_bind, swp_get_cl.
  destruct (Z.ltb_spec 0 (timeout (cl s))) as [Ht|Ht].
  - unfold g_source_remove, swp. destruct (sources s !! timeout (cl s)) as [[]|] eqn:E;
      [|by destruct (inv_apart _ _ _ _ Hs fd) as [? _]|]; revert HQ; unfold view_of, pending;
      cbn [rset cl sources timeout strings next_string wd v_core v_pending v_strings v_next v_log];
      by rewrite lookup_delete_eq.
  - apply swp_ret. unfold view_of, pending in *. by rewrite (inv_nonpos _ _ _ _ _ Hs Ht).
Qed.

(** The number of the timer is not part of the view. *)
Lemma hw_timeout0 (Q : unit -> view -> Prop) v :
  v_pending v = None -> Q tt v -> hw true (upd (fun c => c <| timeout := 0 |>)) true Q v.
Proof.
  intros Hn HQ. apply hw_intro; [apply tri_timeout0|]. intros s Hs <-. apply swp_upd.
  unfold view_of in *. cbn [v_pending] in Hn. rewrite Hn in HQ. unfold pending at 1.
  cbn [rset cl sources timeout strings next_string wd].
  by rewrite (inv_nonpos _ _ _ _ _ Hs (Z.le_refl 0)).
Qed.

Lemma hw_clear_timeout i (Q : unit -> view -> Prop) v :
  Q tt (v <| v_pending := None |>) -> hw i (clear_timeout kernel) true Q v.
Proof.
  intros HQ. apply hw_intro; [apply tri_clear_timeout|]. intros s Hs <-. apply swp_bind, swp_get_cl.
  destruct (Z.ltb_spec 0 (timeout (cl s))) as [Ht|Ht].
  - apply swp_bind. unfold g_source_remove, swp at 1.
    assert (forall id, id <= 0 -> delete (timeout (cl s)) (sources s) !! id = None) as Hn.
    { intros id Hid. apply lookup_delete_None. right. by eapply inv_nonpos. }
    destruct (sources s !! timeout (cl s)) as [[]|] eqn:E; [|by destruct (inv_apart _ _ _ _ Hs fd) as [? _]|];
      apply swp_upd; revert HQ; unfold view_of, pending;
      cbn [rset cl sources timeout strings next_string wd v_core v_pending v_strings v_next v_log];
      by rewrite Hn.
  - apply swp_ret. unfold view_of, pending in *. by rewrite (inv_nonpos _ _ _ _ _ Hs Ht).
Qed.

Context (stack : list event -> list Z).

Lemma hw_switch i mode (Q : Z -> view -> Prop) v :
  (forall r, Q r v) -> hw i (switch_listening_mode kernel stack mode) i Q v.
Proof.
  intros HQ s Hs <-. eapply swp_mono; [by apply switch_spec|]. intros r s' [Hs' ->]. split; [done|apply HQ].
Qed.

Lemma hw_clear_watch i (Q : unit -> view -> Prop) v : Q tt v -> hw i (clear_watch kernel) i Q v.
Proof.
  intros HQ s Hs <-. eapply swp_mono; [by apply clear_watch_spec|]. by intros [] s' (Hs' & -> & _).
Qed.

Lemma hw_lift {A} i (o : option A) a (Q : A -> view -> Prop) v : o = Some a -> Q a v -> hw i (slift o) i Q v.
Proof. intros -> HQ s Hs <-. done. Qed.

Lemma hw_ext {A} i j (m m' : cm A) (Q : A -> view -> Prop) v : (forall s, m s = m' s) -> hw i m' j Q v -> hw i m j Q v.
Proof. intros He Hm s Hs Hv. unfold swp. rewrite He. by apply Hm. Qed.

(** A pointer to a string, or [NULL]. *)
Definition live (v : view) (p : option Z) : Prop :=
  match p with None => True | Some p => is_Some (v_strings v !! p) end.

Lemma hw_clear_assigned i (Q : unit -> view -> Prop) v :
  live v (assigned_ip (v_core v)) ->
  Q tt (v <| v_core := v_core v <| assigned_ip := None |> |>
          <| v_strings := match assigned_ip (v_core v) with Some p => delete p (v_strings v) | None => v_strings v end |>) ->
  hw i clear_assigned_ip i Q v.
Proof.
  intros Hl HQ. apply hw_intro; [apply tri_clear_assigned|]. intros s Hs <-.
  apply swp_bind, swp_get_cl, swp_bind. unfold live in Hl. revert HQ Hl. unfold view_of, pending.
  cbn [v_core v_strings]. change (assigned_ip (core (cl s))) with (assigned_ip (cl s)).
  unfold g_free, swp at 1. destruct (assigned_ip (cl s)) as [p|] eqn:E.
  - intros HQ [text Ht]. rewrite Ht. exact HQ.
  - intros HQ _. exact HQ.
Qed.

(** ** Sending *)

Context (foreach_order : gmap Z (list Z) -> list (Z * list Z)).

(** A client that can build its requests. *)
Definition ready (c : client) : Prop := packet_ready foreach_order c /\ 0 <= xid c < 2 ^ 32.

Lemma ready_core c : ready (core c) -> ready c.
Proof. intros [[] ?]. split; [by split|done]. Qed.

Lemma hw_broadcast i c p (Q : Z -> view -> Prop) v :
  packet_ok p -> (forall r, Q r v) -> hw i (broadcast kernel c p) i Q v.
Proof. intros Hp HQ. apply hw_net; [|done]. intros w. apply send_raw_keeps. by left. Qed.

Lemma hw_send_discover i req (Q : Z -> view -> Prop) v :
  ready (v_core v) -> (forall r, Q r v) -> hw i (send_discover kernel foreach_order req) i Q v.
Proof.
  intros Hr HQ. eapply hw_bind, hw_get. intros c Hc. rewrite <- Hc in Hr. destruct (ready_core _ Hr) as [Hrd Hx].
  eapply hw_bind, hw_bind, hw_get. intros c' _. eapply hw_bind, hw_ncall_; [done|]. intros now. apply hw_ret.
  destruct (discover_packet_says foreach_order c (htons (u16 (Z.min (now - start c') 65535))) req Hrd Hx)
    as (p & Hp & Hs & _).
  eapply hw_bind. apply (hw_lift _ _ p); [done|]. apply hw_broadcast; [apply Hs|done].
Qed.

Lemma hw_send_select i (Q : Z -> view -> Prop) v :
  ready (v_core v) -> (forall r, Q r v) -> hw i (send_select kernel foreach_order) i Q v.
Proof.
  intros Hr HQ. eapply hw_bind, hw_get. intros c Hc. rewrite <- Hc in Hr. destruct (ready_core _ Hr) as [Hrd Hx].
  eapply hw_bind, hw_bind, hw_get. intros c' _. eapply hw_bind, hw_ncall_; [done|]. intros now. apply hw_ret.
  destruct (select_packet_says foreach_order c (htons (u16 (Z.min (now - start c') 65535))) Hrd Hx) as (p & Hp & Hs & _).
  eapply hw_bind. apply (hw_lift _ _ p); [done|]. apply hw_broadcast; [apply Hs|done].
Qed.

Lemma hw_send_renew i (Q : Z -> view -> Prop) v :
  ready (v_core v) -> (forall r, Q r v) -> hw i (send_renew kernel foreach_order) i Q v.
Proof.
  intros Hr HQ. eapply hw_bind, hw_get. intros c Hc. rewrite <- Hc in Hr. destruct (ready_core _ Hr) as [Hrd Hx].
  destruct (renew_packet_says foreach_order c Hrd Hx) as (p & Hp & _).
  eapply hw_bind. apply (hw_lift _ _ p); [done|]. apply hw_net; [|done]. intros w. apply send_kernel_keeps.
Qed.

Lemma hw_send_rebound i (Q : Z -> view -> Prop) v :
  ready (v_core v) -> (forall r, Q r v) -> hw i (send_rebound kernel foreach_order) i Q v.
Proof.
  intros Hr HQ. eapply hw_bind, hw_get. intros c Hc. rewrite <- Hc in Hr. destruct (ready_core _ Hr) as [Hrd Hx].
  destruct (renew_packet_says foreach_order c Hrd Hx) as (p & Hp & Hs & _).
  eapply hw_bind. apply (hw_lift _ _ p); [done|]. apply hw_broadcast; [apply Hs|done].
Qed.

Lemma hw_send_release i a b (Q : Z -> view -> Prop) v :
  mac_ok (v_core v) -> (forall r, Q r v) -> hw i (send_release kernel a b) i Q v.
Proof.
  intros Hr HQ. eapply hw_bind, hw_get. intros c Hc. rewrite <- Hc in Hr. change (mac_ok c) in Hr.
  eapply hw_bind, hw_ncall_; [done|]. intros x.
  destruct (release_packet_says c x a b Hr) as (p & Hp & _).
  eapply hw_bind. apply (hw_lift _ _ p); [done|]. apply hw_net; [|done]. intros w. apply send_kernel_keeps.
Qed.

End life.

(** ** One timer *)

Section timers.
Context (kernel : list event -> call -> Z * list Z).
Context (inet_addr : list Z -> Z).
Context (inet_ntop6 : list Z -> list Z).
Context (foreach_order : gmap Z (list Z) -> list (Z * list Z)).
Context (stack : list event -> list Z).
Context (fuel : nat).
Context (D : env).

(** The next timer of the client runs: the milliseconds until then, and the
    state afterwards. *)
Definition tick (s : cstate) : option (Z * cstate) :=
  match sources s !! timeout (cl s) with
  | Some (Timeout ms _) =>
    match dispatch kernel inet_addr inet_ntop6 foreach_order stack fuel (timeout (cl s)) false s with
    | Some (_, s') => Some (ms, s')
    | None => None
    end
  | _ => None
  end.

(** [n] timers in a row, and the time that takes. *)
Fixpoint wait (n : nat) (s : cstate) : option (Z * cstate) :=
  match n with
  | O => Some (0, s)
  | S n =>
    match tick s with
    | Some (ms, s1) => match wait n s1 with Some (t, s2) => Some (ms + t, s2) | None => None end
    | None => None
    end
  end.

Lemma tick_spec s ms f (R : view -> Prop) :
  inv D 0 false s -> pending 0 s = Some (ms, f) ->
  (forall e, hw D e true (run_timer kernel inet_addr foreach_order stack fuel f) false (fun _ v => R v)
               (view_of 0 s <| v_pending := None |>)) ->
  exists s', tick s = Some (ms, s') /\ inv D 0 false s' /\ R (view_of 0 s').
Proof.
  intros Hs Hp Hrun. unfold tick. unfold pending in Hp.
  destruct (sources s !! timeout (cl s)) as [[ms' f'|]|] eqn:E; [|done..].
  destruct (decide _); [done|]. injection Hp as -> ->.
  unfold dispatch, sbind at 1, lookup_source. rewrite E.
  pose proof (inv_running _ _ _ _ _ Hs E) as Hi. pose proof (Hrun (timeout (cl s)) s Hi) as Hw.
  pose proof (run_timer_once kernel foreach_order stack fuel inet_addr f s) as Ho.
  assert (view_of (timeout (cl s)) s = view_of 0 s <| v_pending := None |>) as Hv.
  { unfold view_of. cbn [rset v_core v_strings v_next v_log]. f_equal. unfold pending. by rewrite E, decide_True. }
  specialize (Hw Hv). unfold swp in Hw. unfold sbind.
  destruct (run_timer _ _ _ _ _ f s) as [[keep s1]|]; [|done]. rewrite (Ho _ _ eq_refl). destruct Hw as [Hi1 HR].
  unfold g_source_remove. destruct (sources s1 !! timeout (cl s)) as [[]|] eqn:E1;
    try by destruct (inv_apart _ _ _ _ Hi1 fd).
  all: eexists; split; [reflexivity|]; split; [by apply inv_finish|].
  all: replace (view_of 0 _) with (view_of (timeout (cl s)) s1); [done|].
  all: unfold view_of, pending; cbn [rset cl sources strings next_string wd]; f_equal.
  all: destruct (decide (timeout (cl s1) = timeout (cl s))) as [Ht|Ht];
    [rewrite Ht, lookup_delete_eq; by destruct (sources s1 !! _) as [[]|]|].
  all: rewrite lookup_delete_ne by done; destruct (sources s1 !! timeout (cl s1)) as [[]|] eqn:E2; try done.
  all: rewrite decide_False; [done|]; apply (inv_ids _ _ _ _ Hi1) in E2; lia.
Qed.

(** A DHCPv4 client that was started without an address and is sound. *)
Record settled (v : view) : Prop := {
  settled_type : type (v_core v) = G_DHCP_IPV4;
  settled_ready : ready foreach_order (v_core v);
  settled_last : last_address (v_core v) = None;
  settled_assigned : live v (assigned_ip (v_core v));
}.

Lemma core_fields c v :
  core c = v_core v ->
  type c = type (v_core v) /\ retry_times c = retry_times (v_core v) /\ lease_seconds c = lease_seconds (v_core v) /\
  last_address c = last_address (v_core v) /\ state c = state (v_core v).
Proof. by intros <-. Qed.

(** Changing fields a settled client does not care about. *)
Lemma settled_upd v f :
  settled v ->
  (forall c, type (f c) = type c /\ last_address (f c) = last_address c /\ assigned_ip (f c) = assigned_ip c /\
     xid (f c) = xid c /\ mac_address (f c) = mac_address c /\ request_list (f c) = request_list c /\
     send_value_hash (f c) = send_value_hash c) ->
  settled (v <| v_core := f (v_core v) |>).
Proof.
  intros [Ht [[Hm Hr Hv] Hx] Hl Ha] Hf. destruct (Hf (v_core v)) as (E1 & E2 & E3 & E4 & E5 & E6 & E7).
  split; unfold live in *; cbn [rset v_core v_strings]; [congruence| |congruence|by rewrite E3].
  split; [split|]; by rewrite ?E4, ?E5, ?E6, ?E7.
Qed.

Lemma settled_pending v p : settled v -> settled (v <| v_pending := p |>).
Proof. by intros []. Qed.

Lemma settled_log v l : settled v -> settled (v <| v_log := l |>).
Proof. by intros []. Qed.

Local Notation hw e := (hw D e).
Local Notation arms v secs f := (v <| v_pending := Some (secs * 1000, f) |>).

(** Fields of the client that do not touch what [hw_upd] keeps. *)
Ltac hw_set := eapply hw_bind, hw_upd; [done..|].

Ltac hw_client c H := eapply hw_bind, hw_get; intros c H; pose proof (core_fields _ _ H) as (?Ety & ?Ere & ?Els & ?Ela & ?Est).

(** A discover that follows another one. *)
Lemma hw_discover_again e v (Q : Z -> view -> Prop) :
  settled v -> 0 < retry_times (v_core v) < DISCOVER_RETRIES -> Q 0 (arms v 3 discover_timeout_fn) ->
  hw e true (start_ipv4 kernel inet_addr foreach_order stack None) false Q v.
Proof.
  intros Hv Hr HQ. unfold start_ipv4. hw_client c Hc. rewrite Ere. unfold DISCOVER_RETRIES in *.
  rewrite !(proj2 (Z.eqb_neq _ _)) by lia. eapply hw_bind, hw_ret. cbn [negb Z.eqb]. eapply hw_bind, hw_ret.
  eapply hw_bind, hw_send_discover; [apply Hv|]. intros _.
  eapply hw_bind, hw_arm_seconds, hw_ret. exact HQ.
Qed.

(** The last one has been sent. *)
Lemma hw_discover_over e v (Q : Z -> view -> Prop) :
  settled v -> retry_times (v_core v) = DISCOVER_RETRIES ->
  Q 0 (v <| v_log := v_log v ++ told (v_core v) EVENT_NO_LEASE |> <| v_core := v_core v <| retry_times := 0 |> |>) ->
  hw e true (start_ipv4 kernel inet_addr foreach_order stack None) true Q v.
Proof.
  intros Hv Hr HQ. unfold start_ipv4. hw_client c Hc. rewrite Ere, Hr, Z.eqb_refl.
  eapply hw_bind, hw_notify. hw_set. apply hw_ret. exact HQ.
Qed.

(** What a client is after its first discover, or where its socket failed. *)
Record restarted (v v' : view) : Prop := {
  restarted_settled : settled v';
  restarted_state : state (v_core v') = INIT_SELECTING;
  restarted_retry : retry_times (v_core v') = 0;
  restarted_log : v_log v' = v_log v;
  restarted_cbs : cbs (v_core v') = cbs (v_core v);
}.

Lemma hw_discover_first e v (Q : Z -> view -> Prop) :
  settled v -> retry_times (v_core v) = 0 ->
  (forall r v', restarted v v' ->
     (r = 0 /\ v_pending v' = Some (3 * 1000, discover_timeout_fn) \/ r <> 0 /\ v_pending v' = v_pending v) -> Q r v') ->
  hw e true (start_ipv4 kernel inet_addr foreach_order stack None) false Q v.
Proof.
  intros Hv Hr HQ. unfold start_ipv4. hw_client c Hc. rewrite Ere, Hr. cbn [Z.eqb DISCOVER_RETRIES Pos.eqb].
  pose proof Hv as [Ht Hrd Hl Ha].
  eapply hw_bind, hw_bind, hw_clear_assigned; [exact Ha|]. eapply hw_bind, hw_upd; [done..|].
  set (v1 := _ <| v_core := _ |>).
  assert (settled v1) as Hv1 by (subst v1; split; [exact Ht|by destruct Hrd as [[] ?]|exact Hl|done]).
  assert (state (v_core v1) = INIT_SELECTING /\ retry_times (v_core v1) = 0 /\ v_log v1 = v_log v /\
    cbs (v_core v1) = cbs (v_core v) /\ v_pending v1 = v_pending v) as (Hst & Hre & Hlog & Hcb & Hpe) by done.
  clearbody v1. eapply hw_bind, hw_switch. intros r. destruct (Z.eqb_spec r 0) as [->|Hne]; cbn [negb].
  - eapply hw_bind, hw_ncall_; [done|]. intros x. eapply hw_bind, hw_ncall_; [done|]. intros now.
    hw_set. apply hw_ret. cbn [negb Z.eqb]. eapply hw_bind, hw_ret.
    set (v2 := _ <| v_core := _ |>). assert (settled v2) as Hv2.
    { subst v2. destruct Hv1 as [Ht1 [[] Hx1] Hl1 Ha1]. split; [exact Ht1| |exact Hl1|exact Ha1].
      split; [by split|]. apply Z.mod_pos_bound. lia. }
    eapply hw_bind, hw_send_discover; [apply Hv2|]. intros _. eapply hw_bind, hw_arm_seconds, hw_ret.
    apply HQ; [|by left]. split; try done. by apply settled_pending.
  - apply hw_ret. rewrite (proj2 (Z.eqb_neq _ _)) by done. cbn [negb].
    apply hw_weaken, hw_ret, HQ; [by split|by right].
Qed.

Lemma hw_start e i v (Q : Z -> view -> Prop) :
  settled v -> hw e true (start_ipv4 kernel inet_addr foreach_order stack None) i Q v ->
  hw e true (g_dhcp_client_start kernel inet_addr foreach_order stack fuel None) i Q v.
Proof.
  intros Hv Hm. unfold g_dhcp_client_start. eapply hw_bind, hw_get. intros c Hc.
  destruct (core_fields _ _ Hc) as (-> & _). by rewrite (settled_type _ Hv).
Qed.

Definition retried (v : view) : view := v <| v_core := v_core v <| retry_times := u8 (retry_times (v_core v) + 1) |> |>.

Lemma hw_discover_timeout e v (Q : view -> Prop) :
  settled v ->
  (0 < u8 (retry_times (v_core v) + 1) < DISCOVER_RETRIES -> Q (arms (retried v) 3 discover_timeout_fn)) ->
  (u8 (retry_times (v_core v) + 1) = DISCOVER_RETRIES ->
     Q (v <| v_log := v_log v ++ told (v_core v) EVENT_NO_LEASE |> <| v_core := v_core v <| retry_times := 0 |> |>)) ->
  0 < u8 (retry_times (v_core v) + 1) <= DISCOVER_RETRIES ->
  hw e true (run_timer kernel inet_addr foreach_order stack fuel discover_timeout_fn) false (fun _ => Q) v.
Proof.
  intros Hv HA HB Hr. cbn [run_timer]. unfold discover_timeout. hw_set.
  assert (settled (retried v)) as Hv' by (by apply (settled_upd v (fun c => c <| retry_times := _ |>))).
  destruct (decide (u8 (retry_times (v_core v) + 1) = DISCOVER_RETRIES)) as [E|E].
  - apply hw_weaken. eapply hw_bind, hw_start; [done|]. apply hw_discover_over; [done|exact E|]. apply hw_ret, HB, E.
  - eapply hw_bind, hw_start; [done|]. apply hw_discover_again; [done|cbn [retried rset v_core retry_times]; lia|].
    apply hw_ret, HA. lia.
Qed.

(** Selecting an offer. *)
Lemma hw_request_timeout e v (Q : view -> Prop) :
  settled v ->
  (0 < u8 (retry_times (v_core v) + 1) < REQUEST_RETRIES -> Q (arms (retried v) 3 request_timeout_fn)) ->
  (u8 (retry_times (v_core v) + 1) = REQUEST_RETRIES ->
     Q (retried v <| v_log := v_log v ++ told (v_core v) EVENT_NO_LEASE |>)) ->
  0 < u8 (retry_times (v_core v) + 1) <= REQUEST_RETRIES ->
  hw e true (run_timer kernel inet_addr foreach_order stack fuel request_timeout_fn) false (fun _ => Q) v.
Proof.
  intros Hv HA HB Hr. cbn [run_timer]. unfold request_timeout. hw_set.
  assert (settled (retried v)) as Hv' by (by apply (settled_upd v (fun c => c <| retry_times := _ |>))).
  unfold start_request. destruct (decide (u8 (retry_times (v_core v) + 1) = REQUEST_RETRIES)) as [E|E].
  - apply hw_weaken. eapply hw_bind. hw_client c Hc. rewrite Ere. cbn [retried rset v_core retry_times].
    rewrite (proj2 (Z.eqb_eq _ _) E). apply hw_notify, hw_ret. exact (HB E).
  - eapply hw_bind. hw_client c Hc. rewrite Ere. cbn [retried rset v_core retry_times].
    rewrite !(proj2 (Z.eqb_neq _ _)) by lia. eapply hw_bind, hw_ret.
    eapply hw_bind, hw_send_select; [apply Hv'|]. intros _. apply hw_arm_seconds, hw_ret, HA. lia.
Qed.

(** [restart_dhcp(dhcp_client, 0)] *)
Lemma hw_restart e i v (Q : unit -> view -> Prop) :
  settled v ->
  (forall v', restarted v v' -> v_pending v' = Some (3 * 1000, discover_timeout_fn) \/ v_pending v' = None -> Q tt v') ->
  hw e i (restart_dhcp kernel inet_addr foreach_order stack fuel 0) false Q v.
Proof.
  intros Hv HQ. unfold restart_dhcp. eapply hw_bind, hw_clear_timeout. hw_set. eapply hw_bind, hw_switch. intros _.
  set (v1 := _ <| v_core := _ |>).
  assert (settled v1) as Hv1.
  { subst v1. apply (settled_upd (v <| v_pending := None |>)
      (fun c => c <| retry_times := u8 0 |> <| requested_ip := 0 |> <| state := INIT_SELECTING |>)); [|done].
    by apply settled_pending. }
  assert (v_log v1 = v_log v /\ cbs (v_core v1) = cbs (v_core v) /\ v_pending v1 = None /\ retry_times (v_core v1) = 0)
    as (Hl & Hcb & Hp & Hre) by done. clearbody v1.
  hw_client c Hc. rewrite Ela, (settled_last _ Hv1). eapply hw_bind, hw_start; [done|].
  apply hw_discover_first; [done|done|]. intros r v' [] Hpe. apply hw_ret, HQ.
  - split; congruence.
  - destruct Hpe as [[_ ?]|[_ ?]]; [by left|right; congruence].
Qed.

(** *** The lease *)

Definition halved (v : view) : view :=
  v <| v_core := v_core v <| lease_seconds := Z.shiftr (lease_seconds (v_core v)) 1 |> |>.

Lemma settled_halved v : settled v -> settled (halved v).
Proof. intros Hv. by apply (settled_upd v (fun c => c <| lease_seconds := _ |>)). Qed.

Lemma hw_rebound_timeout e v (Q : view -> Prop) :
  settled v ->
  (Z.shiftr (lease_seconds (v_core v)) 1 <= 6 -> forall v',
     restarted (v <| v_log := v_log v ++ told (v_core v) EVENT_LEASE_LOST |>) v' ->
     v_pending v' = Some (3 * 1000, discover_timeout_fn) \/ v_pending v' = None -> Q v') ->
  (6 < Z.shiftr (lease_seconds (v_core v)) 1 ->
     Q (arms (halved v) (Z.shiftr (Z.shiftr (lease_seconds (v_core v)) 1) 1) start_rebound_timeout_fn)) ->
  hw e true (run_timer kernel inet_addr foreach_order stack fuel start_rebound_timeout_fn) false (fun _ => Q) v.
Proof.
  intros Hv HA HB. cbn [run_timer]. unfold start_rebound_timeout. eapply hw_bind, hw_switch. intros _.
  unfold halve_lease. hw_set. pose proof (settled_halved _ Hv) as Hv'. hw_client c Hc. rewrite Els.
  cbn [rset v_core lease_seconds]. destruct (Z.leb_spec (Z.shiftr (lease_seconds (v_core v)) 1) 6).
  - eapply hw_bind, hw_notify. eapply hw_bind, hw_restart; [by apply settled_log|]. intros v' [] Hp.
    apply hw_ret, HA; [done| |done]. by split.
  - eapply hw_bind, hw_send_rebound; [apply Hv'|]. intros _. eapply hw_bind, hw_arm_seconds, hw_ret. by apply HB.
Qed.

Lemma hw_renew_timeout e v (Q : view -> Prop) :
  settled v ->
  (Z.shiftr (lease_seconds (v_core v)) 1 <= 60 ->
     Q (arms (halved v <| v_core := v_core (halved v) <| state := REBINDING |> |>)
         (Z.shiftr (Z.shiftr (lease_seconds (v_core v)) 1) 1) start_rebound_timeout_fn)) ->
  (60 < Z.shiftr (lease_seconds (v_core v)) 1 ->
     Q (arms (halved v <| v_core := v_core (halved v) <| state := RENEWING |> |>) 3 start_renew_request_timeout_fn)) ->
  hw e true (run_timer kernel inet_addr foreach_order stack fuel start_renew_timeout_fn) false (fun _ => Q) v.
Proof.
  intros Hv HA HB. cbn [run_timer]. unfold start_renew_timeout, halve_lease. hw_set. hw_set.
  eapply hw_bind, hw_switch. intros _.
  assert (settled (halved v <| v_core := v_core (halved v) <| state := RENEWING |> |>)) as Hv'.
  { apply (settled_upd (halved v) (fun c => c <| state := RENEWING |>)); [by apply settled_halved|done]. }
  hw_client c Hc. rewrite Els. cbn [rset v_core lease_seconds].
  destruct (Z.leb_spec (Z.shiftr (lease_seconds (v_core v)) 1) 60).
  - eapply hw_bind. unfold start_rebound. hw_set. hw_client c' Hc'. rewrite Els0.
    apply hw_arm_seconds, hw_ret, HA. done.
  - eapply hw_bind, hw_send_renew; [apply Hv'|]. intros _. eapply hw_bind, hw_remove_timeout.
    eapply hw_bind, hw_arm_seconds, hw_ret. by apply HB.
Qed.

Lemma hw_renew_request_timeout e v (Q : view -> Prop) :
  Q (v <| v_log := v_log v ++ told (v_core v) EVENT_NO_LEASE |>) ->
  hw e true (run_timer kernel inet_addr foreach_order stack fuel start_renew_request_timeout_fn) false (fun _ => Q) v.
Proof.
  intros HQ. cbn [run_timer]. unfold start_renew_request_timeout. apply hw_weaken. by eapply hw_bind, hw_notify, hw_ret.
Qed.

End timers.

(** ** Properties *)

Section properties.
Context (kernel : list event -> call -> Z * list Z).
Context (inet_addr : list Z -> Z).
Context (inet_ntop6 : list Z -> list Z).
Context (foreach_order : gmap Z (list Z) -> list (Z * list Z)).
Context (stack : list event -> list Z).
Context (fuel : nat).
Context (inet_pton6 : list Z -> option (list Z)).

Local Notation reaches := (client_reach kernel inet_addr inet_ntop6 foreach_order stack fuel inet_pton6).
Local Notation reach D s := (client_reach kernel inet_addr inet_ntop6 foreach_order stack fuel inet_pton6 D true s).

(** C6. In every state a client can get into, whatever the network, the user and
    the system do: a watch that is installed is the one [listener_watch] names,
    listens on [listener_sockfd] and its mode is not [L_NONE]; the process has
    exactly one descriptor more than without the client if there is a watch, and
    none otherwise; no descriptor was closed twice; and the strings [assigned_ip]
    and [last_address] point to are live and apart.  As long as the user has never
    started the client while one of its timers was pending, a timer that waits is
    the one [timeout] names.  (Blocks, and strings nobody points to any more, are
    not counted: a client can lose some.) *)
Theorem client_owns D b s :
  reaches D b s ->
  (b = true -> forall id ms f, sources s !! id = Some (Timeout ms f) -> id = timeout (cl s)) /\
  (forall id fd, sources s !! id = Some (Watch fd) ->
     id = listener_watch (cl s) /\ listen_mode (cl s) <> L_NONE /\ fd = listener_sockfd (cl s)) /\
  w_fds (wd s) = watched s ⊎ D /\ w_bad (wd s) = 0 /\
  (forall p, assigned_ip (cl s) = Some p -> is_Some (strings s !! p) /\ last_address (cl s) <> Some p) /\
  (forall p, last_address (cl s) = Some p -> is_Some (strings s !! p)).
Proof.
  intros Hr%reach_inv. destruct (inv_strings _ _ _ _ Hr) as [Ha Hl _ _]. split_and!; [|apply Hr..| |].
  - intros Ho id ms f Hid. destruct (inv_timer _ _ _ _ Hr Ho _ _ _ Hid) as [[? _]| ->]; [done|].
    apply (inv_ids _ _ _ _ Hr) in Hid. lia.
  - intros p Hp. by destruct (Ha p Hp) as (? & ? & _).
  - intros p Hp. by destruct (Hl p Hp).
Qed.

Definition no_watch (s : cstate) : Prop := forall id fd, sources s !! id <> Some (Watch fd).

(** A client without timers and watches. *)
Lemma no_sources D s :
  inv D 0 true s -> listener_watch (cl s) <= 0 ->
  (orderly D = true -> sources s = ∅) /\ no_watch s /\ w_fds (wd s) = others D.
Proof.
  intros Hs Hw. assert (no_watch s) as Hn.
  { intros id fd E. pose proof (inv_ids _ _ _ _ Hs _ _ E). destruct (inv_watch _ _ _ _ Hs _ _ E) as (? & _). lia. }
  split_and!; [|done|].
  - intros Ho. apply map_eq. intros id. rewrite lookup_empty. destruct (sources s !! id) as [[ms f|fd]|] eqn:E; [| |done].
    + pose proof (inv_ids _ _ _ _ Hs _ _ E). destruct (inv_timer _ _ _ _ Hs Ho _ _ _ E) as [[_ ?]|]; [done|lia].
    + by destruct (Hn id fd).
  - rewrite (inv_fds _ _ _ _ Hs). unfold watched. rewrite (inv_nonpos _ _ _ _ _ Hs Hw). multiset_solver.
Qed.

Lemma swp_g_free p (Q : unit -> cstate -> Prop) s :
  match p with Some p => is_Some (strings s !! p) | None => True end ->
  Q tt (s <| strings := match p with Some p => delete p (strings s) | None => strings s end |>) ->
  swp False (g_free p) Q s.
Proof. unfold g_free, swp. destruct p as [p|]; [by intros [v ->]|]. by destruct s. Qed.

Definition stopped (c : client) : client :=
  c <| listener_channel := None |> <| retry_times := 0 |> <| ack_retry_times := 0 |>
    <| requested_ip := 0 |> <| state := RELEASED |> <| lease_seconds := 0 |>.

Lemma stop_spec D i s :
  inv D 0 i s -> mac_ok (core (cl s)) ->
  swp False (g_dhcp_client_stop kernel stack)
    (fun _ s' => inv D 0 true s' /\ listener_watch (cl s') <= 0 /\
       view_of 0 s' = view_of 0 s <| v_pending := None |> <| v_core := stopped (core (cl s)) |>) s.
Proof.
  intros Hs Hr. unfold g_dhcp_client_stop. apply swp_bind. eapply swp_mono; [by apply switch_spec|].
  intros r1 s1 [Hs1 Hv1]. apply swp_bind, swp_get_cl, swp_bind.
  assert (hw D 0 i (if bool_decide (state (cl s1) = BOUND) || bool_decide (state (cl s1) = RENEWING) ||
                bool_decide (state (cl s1) = REBINDING)
             then let* _ := send_release kernel (server_ip (cl s1)) (requested_ip (cl s1)) in sret tt else sret tt) i
    (fun _ v' => v' = view_of 0 s) (view_of 0 s)) as Hrel.
  { destruct (_ || _); [|by apply hw_ret]. eapply hw_bind, hw_send_release; [exact Hr|].
    intros _. by apply hw_ret. }
  eapply swp_mono; [by apply Hrel|]. intros _ s2 [Hs2 Hv2]. apply swp_bind.
  assert (hw D 0 i (clear_timeout kernel) true (fun _ v' => v' = view_of 0 s <| v_pending := None |>) (view_of 0 s)) as Hct
    by by apply hw_clear_timeout.
  eapply swp_mono; [by apply Hct|]. intros _ s3 [Hs3 Hv3].
  apply swp_bind. eapply swp_mono; [by apply clear_watch_spec|]. intros _ s4 (Hs4 & Hv4 & Hw4).
  rewrite Hv3 in Hv4.
  assert (hw D 0 true (upd stopped) true
    (fun _ v' => v' = view_of 0 s <| v_pending := None |> <| v_core := stopped (core (cl s)) |>)
    (view_of 0 s <| v_pending := None |>)) as Hu by by apply hw_upd.
  specialize (Hu s4 Hs4 Hv4). unfold swp in *. by destruct Hu as [? ?].
Qed.

(** C9. Stopping a client: from every state it can get into, for a client of any
    kind whose hardware address is six bytes, [g_dhcp_client_stop] ends (a lease is
    released first), leaves no watch and no descriptor, calls none of the user's
    functions, and resets the lease; and dropping the last reference does the same
    and frees the two strings once each.  No timer is left either, unless the user
    once started the client while a timer was pending: a timer that was lost then
    may be left. *)
Theorem client_stop_releases D b s :
  reaches D b s -> mac_ok (cl s) ->
  (exists s', g_dhcp_client_stop kernel stack s = Some (tt, s') /\
     (b = true -> sources s' = ∅) /\ no_watch s' /\ w_fds (wd s') = D /\ w_bad (wd s') = 0 /\
     state (cl s') = RELEASED /\ lease_seconds (cl s') = 0 /\ retry_times (cl s') = 0 /\
     callbacks (w_trace (wd s')) = callbacks (w_trace (wd s))) /\
  (ref_count (cl s) = 1 -> exists s', g_dhcp_client_unref kernel stack s = Some (true, s') /\
     (b = true -> sources s' = ∅) /\ no_watch s' /\ w_fds (wd s') = D /\ w_bad (wd s') = 0 /\
     forall p, assigned_ip (cl s) = Some p \/ last_address (cl s) = Some p -> strings s' !! p = None).
Proof.
  intros Hr%reach_inv Hrc. split.
  - pose proof (stop_spec _ _ s Hr Hrc) as Hst. unfold swp in Hst.
    destruct (g_dhcp_client_stop kernel stack s) as [[[] s']|]; [|done]. destruct Hst as (Hi & Hw & Hv).
    destruct (no_sources _ _ Hi Hw) as (He & Hn & Hf). pose proof (f_equal v_core Hv) as Hc. pose proof (f_equal v_log Hv) as Hl.
    exists s'. split_and!; [done..|apply Hi| | | |exact Hl].
    + exact (f_equal state Hc).
    + exact (f_equal lease_seconds Hc).
    + exact (f_equal retry_times Hc).
  - intros H1.
    assert (swp False (g_dhcp_client_unref kernel stack) (fun gone s' => gone = true /\ (b = true -> sources s' = ∅) /\ no_watch s' /\
      w_fds (wd s') = D /\ w_bad (wd s') = 0 /\
      forall p, assigned_ip (cl s) = Some p \/ last_address (cl s) = Some p -> strings s' !! p = None) s) as Hu.
    { apply swp_bind, swp_get_cl, swp_bind, swp_upd. rewrite H1. cbn [Z.eqb Pos.eqb negb].
      set (s0 := s <| cl := _ |>). assert (inv (mkEnvWith b D None) 0 false s0) as H0 by (destruct Hr; by split).
      apply swp_bind. eapply swp_mono; [exact (stop_spec _ _ s0 H0 Hrc)|].
      intros [] s1 (Hi & Hw & Hv). destruct (no_sources _ _ Hi Hw) as (He & Hn & Hf).
      pose proof (f_equal v_core Hv) as Hc. pose proof (f_equal v_strings Hv) as Hss.
      assert (assigned_ip (cl s1) = assigned_ip (cl s)) as Ha by exact (f_equal assigned_ip Hc).
      assert (last_address (cl s1) = last_address (cl s)) as Hl by exact (f_equal last_address Hc).
      pose proof (inv_strings _ _ _ _ Hi) as Hok. rewrite Ha, Hl in Hok.
      apply strings_ok_unassign in Hok as Hok1. apply strings_ok_forget in Hok1 as Hok2.
      apply swp_bind, swp_get_cl, swp_bind, swp_g_free; [rewrite Ha; destruct (assigned_ip (cl s)) eqn:E; [by apply (ok_assigned _ _ _ _ _ Hok)|done]|].
      apply swp_bind, swp_g_free; [rewrite Ha, Hl; destruct (last_address (cl s)) eqn:E; [by apply (ok_last _ _ _ _ _ Hok1)|done]|].
      apply swp_bind, swp_net. unfold swp at 1, on_heap. destruct (free_blocks _ _) as [u h].
      apply swp_bind, swp_net. unfold swp at 1, on_heap. destruct (free_blocks _ _) as [u' h'].
      apply swp_ret. split_and!; [done|exact He|exact Hn|exact Hf|apply Hi|]. rewrite Ha, Hl. cbn [rset strings].
      intros p [Hp|Hp]; rewrite Hp; [destruct (last_address (cl s)); [apply lookup_delete_None; right|]|];
        by rewrite lookup_delete_eq. }
    unfold swp in Hu. destruct (g_dhcp_client_unref kernel stack s) as [[gone s']|]; [|done].
    destruct Hu as (-> & Hrest). by exists s'.
Qed.

(** ** Nobody answers *)

Local Notation tick := (tick kernel inet_addr inet_ntop6 foreach_order stack fuel).
Local Notation wait := (wait kernel inet_addr inet_ntop6 foreach_order stack fuel).

Lemma wait_S n s ms s1 t s2 : tick s = Some (ms, s1) -> wait n s1 = Some (t, s2) -> wait (S n) s = Some (ms + t, s2).
Proof. intros Ht Hw. cbn [DhcpClientLife.wait]. by rewrite Ht, Hw. Qed.

Definition set_retry (n : Z) (v : view) : view := v <| v_core := v_core v <| retry_times := n |> |>.

(** A timer that runs every three seconds until it has run often enough: it
    counts in [retry_times], and does [over] in the end. *)
Lemma countdown D f limit (over : view -> view) n s :
  (forall e v (Q : view -> Prop), settled foreach_order v ->
     (0 < u8 (retry_times (v_core v) + 1) < limit -> Q (retried v <| v_pending := Some (3 * 1000, f) |>)) ->
     (u8 (retry_times (v_core v) + 1) = limit -> Q (over v)) ->
     0 < u8 (retry_times (v_core v) + 1) <= limit ->
     hw D e true (run_timer kernel inet_addr foreach_order stack fuel f) false (fun _ => Q) v) ->
  inv D 0 false s -> settled foreach_order (view_of 0 s) -> pending 0 s = Some (3 * 1000, f) ->
  limit < 256 -> retry_times (cl s) = limit - Z.of_nat n -> (0 < Z.of_nat n <= limit) ->
  exists s', wait n s = Some (3000 * Z.of_nat n, s') /\ inv D 0 false s' /\
    view_of 0 s' = over (set_retry (limit - 1) (view_of 0 s <| v_pending := None |>)).
Proof.
  intros Hf. revert s; induction n as [|n IH]; intros s Hs Hv Hp Hlim Hr Hn; [lia|].
  assert (u8 (retry_times (cl s) + 1) = limit - Z.of_nat n) as Hu by (rewrite Hr; unfold u8; rewrite Z.mod_small; lia).
  set (v := view_of 0 s <| v_pending := None |>).
  assert (settled foreach_order v) as Hv' by by apply settled_pending.
  destruct (decide (n = 0%nat)) as [->|Hn0].
  - destruct (tick_spec kernel inet_addr inet_ntop6 foreach_order stack fuel D s _ _ (fun v' => v' = over v) Hs Hp)
      as (s' & Ht & Hs' & Hv'').
    { intros e. fold v. apply Hf; [done|intros Hlt|done|]; change (retry_times (v_core v)) with (retry_times (cl s)) in *; lia. }
    exists s'. split_and!; [exact (wait_S 0 s _ s' 0 s' Ht eq_refl)|done|]. rewrite Hv''. f_equal.
    assert (retry_times (v_core v) = limit - 1) as <- by (change (retry_times (cl s) = limit - 1); lia).
    destruct v as [c p m k l]. by destruct c.
  - destruct (tick_spec kernel inet_addr inet_ntop6 foreach_order stack fuel D s _ _
      (fun v' => v' = retried v <| v_pending := Some (3 * 1000, f) |>) Hs Hp) as (s1 & Ht & Hs1 & Hv1).
    { intros e. fold v. apply Hf; [done|done|intros Heq|]; change (retry_times (v_core v)) with (retry_times (cl s)) in *; lia. }
    pose proof (f_equal (fun v => retry_times (v_core v)) Hv1) as H1.
    change (retry_times (cl s1) = u8 (retry_times (cl s) + 1)) in H1.
    destruct (IH s1) as (s' & Hw & Hs' & Hv2); [done| |exact (f_equal v_pending Hv1)|done|lia|lia|].
    + rewrite Hv1. apply settled_pending. by apply (settled_upd foreach_order v (fun c => c <| retry_times := _ |>)).
    + exists s'. split_and!; [|done|].
      * rewrite (wait_S n s _ _ _ _ Ht Hw). do 2 f_equal. lia.
      * by rewrite Hv2, Hv1.
Qed.

(** What the user is told when the discovers, or the requests, have all been
    sent. *)
Definition discover_over (v : view) : view :=
  v <| v_log := v_log v ++ told (v_core v) EVENT_NO_LEASE |> <| v_core := v_core v <| retry_times := 0 |> |>.

Definition request_over (v : view) : view :=
  retried v <| v_log := v_log v ++ told (v_core v) EVENT_NO_LEASE |>.

Lemma discovers_end D n s :
  inv D 0 false s -> settled foreach_order (view_of 0 s) -> pending 0 s = Some (3 * 1000, discover_timeout_fn) ->
  retry_times (cl s) = DISCOVER_RETRIES - Z.of_nat n -> 0 < Z.of_nat n <= DISCOVER_RETRIES ->
  exists s', wait n s = Some (3000 * Z.of_nat n, s') /\ inv D 0 false s' /\
    view_of 0 s' = discover_over (view_of 0 s <| v_pending := None |>).
Proof.
  intros Hs Hv Hp Hr Hn. apply (countdown D discover_timeout_fn DISCOVER_RETRIES discover_over n s); try done.
  intros e v Q Hv' HA HB Hle. by apply (hw_discover_timeout _ _ foreach_order).
Qed.

Lemma requests_end D n s :
  inv D 0 false s -> settled foreach_order (view_of 0 s) -> pending 0 s = Some (3 * 1000, request_timeout_fn) ->
  retry_times (cl s) = REQUEST_RETRIES - Z.of_nat n -> 0 < Z.of_nat n <= REQUEST_RETRIES ->
  exists s', wait n s = Some (3000 * Z.of_nat n, s') /\ inv D 0 false s' /\
    view_of 0 s' = request_over (set_retry (REQUEST_RETRIES - 1) (view_of 0 s <| v_pending := None |>)).
Proof.
  intros Hs Hv Hp Hr Hn. apply (countdown D request_timeout_fn REQUEST_RETRIES request_over n s); try done.
  intros e v Q Hv' HA HB Hle. by apply (hw_request_timeout _ _ foreach_order).
Qed.

(** A DHCPv4 client that may be started: no timer waits, no discover was sent. *)
Record startable (D : gmultiset Z) (s : cstate) : Prop := {
  startable_reach : reach D s;
  startable_type : type (cl s) = G_DHCP_IPV4;
  startable_ready : ready foreach_order (cl s);
  startable_last : last_address (cl s) = None;
  startable_idle : no_timer s;
  startable_retry : retry_times (cl s) = 0;
}.

(** The view of a reachable client that was not given an address. *)
Lemma reach_settled D s :
  reach D s -> type (cl s) = G_DHCP_IPV4 -> ready foreach_order (cl s) -> last_address (cl s) = None ->
  settled foreach_order (view_of 0 s).
Proof.
  intros Hr%reach_inv Ht [[] Hx] Hl. split; [done| |done|].
  - by split.
  - unfold live. cbn [view_of v_core v_strings]. change (assigned_ip (core (cl s))) with (assigned_ip (cl s)).
    destruct (assigned_ip (cl s)) as [p|] eqn:E; [|done]. by apply (ok_assigned _ _ _ _ _ (inv_strings _ _ _ _ Hr)).
Qed.

Lemma inv_idle D s : inv D 0 false s -> no_timer s -> inv D 0 true s.
Proof. intros [H1 H2 H3 H4 H5 H0 H6 H7 H8] Hn. split; try done. intros _ id ms f Hid. by destruct (Hn id ms f). Qed.

(** C10. Starting a DHCPv4 client that nobody answers ends: either the listening
    socket could not be opened and the start fails with no timer left, or exactly
    ten timers run, thirty seconds go by, and then the user is told [NO_LEASE]
    once, nothing else having been told, and no timer is left. *)
Theorem client_gives_up D s :
  startable D s ->
  exists r s1, g_dhcp_client_start kernel inet_addr foreach_order stack fuel None s = Some (r, s1) /\
    callbacks (w_trace (wd s1)) = callbacks (w_trace (wd s)) /\
    (r <> 0 /\ no_timer s1 \/
     r = 0 /\ exists s2, wait 10 s1 = Some (30000, s2) /\ no_timer s2 /\ retry_times (cl s2) = 0 /\
       callbacks (w_trace (wd s2)) = callbacks (w_trace (wd s)) ++ told (cl s) EVENT_NO_LEASE).
Proof.
  intros [Hr Ht Hrd Hl Hi Hre]. pose proof (reach_settled _ _ Hr Ht Hrd Hl) as Hv. apply reach_inv in Hr.
  pose proof (inv_idle _ _ Hr Hi) as Hri. set (v := view_of 0 s) in *.
  assert (v_pending v = None) as Hp by by eapply idle_pending.
  assert (hw (mkEnv D None) 0 true (g_dhcp_client_start kernel inet_addr foreach_order stack fuel None) false
    (fun r v' => restarted foreach_order v v' /\
       (r = 0 /\ v_pending v' = Some (3 * 1000, discover_timeout_fn) \/ r <> 0 /\ v_pending v' = None)) v) as Hst.
  { apply (hw_start _ _ foreach_order); [done|]. apply hw_discover_first; [done|exact Hre|].
    intros r v' Hv' Hor. split; [done|]. destruct Hor as [?|[? ->]]; [by left|by right]. }
  specialize (Hst s Hri eq_refl). unfold swp in Hst.
  destruct (g_dhcp_client_start _ _ _ _ _ _ s) as [[r s1]|]; [|done]. destruct Hst as (Hs1 & [Hset Hst Hre1 Hlog Hcb] & Hor).
  exists r, s1. split; [done|]. split; [exact Hlog|]. destruct Hor as [[-> Hp1]|[Hne Hp1]].
  - right. split; [done|]. destruct (discovers_end _ 10 s1 Hs1 Hset Hp1) as (s2 & Hw & Hs2 & Hv2); [exact Hre1|done|].
    exists s2. split_and!; [exact Hw|exact (pending_no_timer _ _ Hs2 eq_refl (f_equal v_pending Hv2))| |].
    + exact (f_equal (fun v => retry_times (v_core v)) Hv2).
    + pose proof (f_equal v_log Hv2) as Hl2.
      change (callbacks (w_trace (wd s2)) = callbacks (w_trace (wd s1)) ++ told (cl s1) EVENT_NO_LEASE) in Hl2.
      change (callbacks (w_trace (wd s1)) = callbacks (w_trace (wd s))) in Hlog.
      change (cbs (cl s1) = cbs (cl s)) in Hcb. unfold told in *. by rewrite Hl2, Hlog, Hcb.
  - left. split; [done|]. by eapply pending_no_timer.
Qed.

(** *** The lease runs out *)

Lemma shift1 x : 0 <= x -> Z.shiftr x 1 = x / 2.
Proof. intros _. apply Z.shiftr_div_pow2. lia. Qed.

(** Rebinding halves the lease until it is lost. *)
Lemma rebinding_ends D k s :
  inv D 0 false s -> settled foreach_order (view_of 0 s) ->
  pending 0 s = Some (Z.shiftr (lease_seconds (cl s)) 1 * 1000, start_rebound_timeout_fn) ->
  0 <= lease_seconds (cl s) < 2 ^ Z.of_nat k ->
  exists n t s', wait n s = Some (t, s') /\ inv D 0 false s' /\ 0 <= t <= lease_seconds (cl s) * 1000 /\
    restarted foreach_order (view_of 0 s <| v_log := v_log (view_of 0 s) ++ told (v_core (view_of 0 s)) EVENT_LEASE_LOST |>)
      (view_of 0 s') /\
    (pending 0 s' = Some (3 * 1000, discover_timeout_fn) \/ pending 0 s' = None).
Proof.
  revert s; induction k as [|k IH]; intros s Hs Hv Hp Hl.
  all: set (v := view_of 0 s <| v_pending := None |>).
  all: assert (settled foreach_order v) as Hv' by by apply settled_pending.
  all: assert (lease_seconds (v_core v) = lease_seconds (cl s)) as Els by done.
  all: rewrite shift1 in Hp by lia; set (L := lease_seconds (cl s)) in *.
  all: assert (0 <= L / 2 /\ L / 2 * 2 <= L) as [Hh0 Hh] by (split; [apply Z.div_pos; lia|pose proof (Z.mul_div_le L 2); lia]).
  all: destruct (Z.le_gt_cases (L / 2) 6) as [H6|H6].
  2: { change (2 ^ Z.of_nat 0) with 1 in Hl. lia. }
  1, 2: destruct (tick_spec kernel inet_addr inet_ntop6 foreach_order stack fuel D s _ _ (fun v' =>
      restarted foreach_order (v <| v_log := v_log v ++ told (v_core v) EVENT_LEASE_LOST |>) v' /\
      (v_pending v' = Some (3 * 1000, discover_timeout_fn) \/ v_pending v' = None)) Hs Hp) as (s' & Ht & Hs' & [R1 R2 R3 R4 R5] & Hpe);
    [intros e; fold v; apply (hw_rebound_timeout _ _ foreach_order);
      [exact Hv'|intros _ v'' Hv'' Hp''; exact (conj Hv'' Hp'')|rewrite Els, shift1 by lia; intros ?; lia]|].
  1, 2: exists 1%nat, (L / 2 * 1000), s'; split; [rewrite <- (Z.add_0_r (L / 2 * 1000)); exact (wait_S 0 s _ s' 0 s' Ht eq_refl)|];
    split; [exact Hs'|]; split; [lia|]; split; [split; [exact R1|exact R2|exact R3|exact R4|exact R5]|exact Hpe].
  destruct (tick_spec kernel inet_addr inet_ntop6 foreach_order stack fuel D s _ _ (fun v' => v' =
      halved v <| v_pending := Some (Z.shiftr (Z.shiftr L 1) 1 * 1000, start_rebound_timeout_fn) |>) Hs Hp)
    as (s1 & Ht & Hs1 & Hv1).
  { intros e. fold v. apply (hw_rebound_timeout _ _ foreach_order); [exact Hv'| |intros _; by rewrite Els].
    rewrite Els, shift1 by lia. intros ?. lia. }
  pose proof (f_equal (fun v => lease_seconds (v_core v)) Hv1) as El1.
  change (lease_seconds (cl s1) = Z.shiftr L 1) in El1.
  destruct (IH s1) as (n & t & s' & Hw & Hs' & Hb & [R1 R2 R3 R4 R5] & Hpe); [done| | | |].
  - rewrite Hv1. by apply settled_pending, settled_halved.
  - rewrite El1. exact (f_equal v_pending Hv1).
  - rewrite El1, shift1 by lia. rewrite Nat2Z.inj_succ, Z.pow_succ_r in Hl by lia. lia.
  - rewrite El1, shift1 in Hb by lia. exists (S n), (L / 2 * 1000 + t), s'.
    split; [exact (wait_S n s _ _ _ _ Ht Hw)|]. split_and!; [done|lia|lia| |done].
    pose proof (f_equal v_log Hv1) as Elog. change (callbacks (w_trace (wd s1)) = callbacks (w_trace (wd s))) in Elog.
    pose proof (f_equal (fun v => cbs (v_core v)) Hv1) as Ecbs. change (cbs (cl s1) = cbs (cl s)) in Ecbs.
    split; [exact R1|exact R2|exact R3| |].
    + rewrite R4. cbn [rset v_log v_core view_of]. rewrite !told_core. unfold told. by rewrite Elog, Ecbs.
    + rewrite R5. exact Ecbs.
Qed.

(** A client whose address was confirmed: the renewal timer waits. *)
Record bound (D : gmultiset Z) (s : cstate) : Prop := {
  bound_reach : reach D s;
  bound_type : type (cl s) = G_DHCP_IPV4;
  bound_ready : ready foreach_order (cl s);
  bound_last : last_address (cl s) = None;
  bound_lease : 0 <= lease_seconds (cl s) < 2 ^ 28;
  bound_timer : sources s !! timeout (cl s) =
    Some (Timeout (Z.shiftr (lease_seconds (cl s)) 1 * 1000) start_renew_timeout_fn);
}.

Lemma bound_pending D s :
  bound D s -> pending 0 s = Some (Z.shiftr (lease_seconds (cl s)) 1 * 1000, start_renew_timeout_fn).
Proof.
  intros [Hr%reach_inv _ _ _ _ Ht]. unfold pending. rewrite Ht, decide_False; [done|].
  apply (inv_ids _ _ _ _ Hr) in Ht. lia.
Qed.

(** A short lease (half of it at most 60 seconds) is not kept longer than it was
    given: the timers run one after the other until it is lost. *)
Lemma lease_lost_in_time D s :
  bound D s -> Z.shiftr (lease_seconds (cl s)) 1 <= 60 ->
  exists n t s', wait n s = Some (t, s') /\ 0 <= t <= lease_seconds (cl s) * 1000 /\
    callbacks (w_trace (wd s')) = callbacks (w_trace (wd s)) ++ told (cl s) EVENT_LEASE_LOST /\
    state (cl s') = INIT_SELECTING /\
    (sources s' !! timeout (cl s') = Some (Timeout 3000 discover_timeout_fn) \/ no_timer s').
Proof.
  intros Hb H60. pose proof (bound_pending _ _ Hb) as Hp. destruct Hb as [Hr Ht Hrd Hla Hle _].
  pose proof (reach_settled _ _ Hr Ht Hrd Hla) as Hv. apply reach_inv in Hr.
  set (v := view_of 0 s <| v_pending := None |>). set (L := lease_seconds (cl s)) in *.
  assert (settled foreach_order v) as Hv' by by apply settled_pending.
  destruct (tick_spec kernel inet_addr inet_ntop6 foreach_order stack fuel _ s _ _ (fun v' => v' =
      halved v <| v_core := v_core (halved v) <| state := REBINDING |> |>
        <| v_pending := Some (Z.shiftr (Z.shiftr L 1) 1 * 1000, start_rebound_timeout_fn) |>) Hr Hp)
    as (s1 & Htk & Hs1 & Hv1).
  { intros e. fold v. apply (hw_renew_timeout _ _ foreach_order); [exact Hv'|intros _; reflexivity|]. intros Hgt.
    change (lease_seconds (v_core v)) with L in Hgt. lia. }
  pose proof (f_equal (fun v => lease_seconds (v_core v)) Hv1) as El1. change (lease_seconds (cl s1) = Z.shiftr L 1) in El1.
  pose proof (f_equal v_log Hv1) as Elog. change (callbacks (w_trace (wd s1)) = callbacks (w_trace (wd s))) in Elog.
  pose proof (f_equal (fun v => cbs (v_core v)) Hv1) as Ecbs. change (cbs (cl s1) = cbs (cl s)) in Ecbs.
  rewrite shift1 in El1 by lia.
  destruct (rebinding_ends _ 28 s1 Hs1) as (n & t & s' & Hw & Hs' & Hb & [R1 R2 R3 R4 R5] & Hpe).
  - rewrite Hv1. apply settled_pending.
    apply (settled_upd foreach_order (halved v) (fun c => c <| state := REBINDING |>)); [by apply settled_halved|done].
  - rewrite El1, <- (shift1 L) by lia. exact (f_equal v_pending Hv1).
  - rewrite El1. change (2 ^ Z.of_nat 28) with (2 ^ 28). pose proof (Z.mul_div_le L 2). pose proof (Z.div_pos L 2). lia.
  - rewrite shift1 in Hp by lia. rewrite El1 in Hb. pose proof (Z.mul_div_le L 2).
    exists (S n), (L / 2 * 1000 + t), s'. split_and!; [|lia|lia| |exact R2|].
    + rewrite <- (shift1 L) by lia. exact (wait_S n s _ _ _ _ Htk Hw).
    + cbn [rset v_log v_core view_of] in R4. rewrite told_core in R4. rewrite R4. unfold told. by rewrite Elog, Ecbs.
    + destruct Hpe as [Hpe|Hpe]; [left|right; by eapply pending_no_timer].
      unfold pending in Hpe. destruct (sources s' !! timeout (cl s')) as [[ms f|]|]; try done.
      destruct (decide _); [done|]. by injection Hpe as -> ->.
Qed.

(** A longer lease is never given up: when nobody answers the one renewal the
    client sends at half of the lease, the user is told [NO_LEASE] three seconds
    later, and that is all: no timer is left, the client never rebinds, and the
    user never learns that the lease has run out. *)
Lemma renew_unanswered_stops D s :
  bound D s -> 60 < Z.shiftr (lease_seconds (cl s)) 1 ->
  exists s', wait 2 s = Some (Z.shiftr (lease_seconds (cl s)) 1 * 1000 + 3000, s') /\
    no_timer s' /\ state (cl s') = RENEWING /\
    callbacks (w_trace (wd s')) = callbacks (w_trace (wd s)) ++ told (cl s) EVENT_NO_LEASE.
Proof.
  intros Hb H60. pose proof (bound_pending _ _ Hb) as Hp. destruct Hb as [Hr Ht Hrd Hla Hle _].
  pose proof (reach_settled _ _ Hr Ht Hrd Hla) as Hv. apply reach_inv in Hr.
  set (v := view_of 0 s <| v_pending := None |>). set (L := lease_seconds (cl s)) in *.
  assert (settled foreach_order v) as Hv' by by apply settled_pending.
  set (v1 := halved v <| v_core := v_core (halved v) <| state := RENEWING |> |>).
  destruct (tick_spec kernel inet_addr inet_ntop6 foreach_order stack fuel _ s _ _ (fun v' => v' =
      v1 <| v_pending := Some (3 * 1000, start_renew_request_timeout_fn) |>) Hr Hp) as (s1 & Htk & Hs1 & Hv1).
  { intros e. fold v. apply (hw_renew_timeout _ _ foreach_order); [exact Hv'| |intros _; reflexivity]. intros Hgt.
    change (lease_seconds (v_core v)) with L in Hgt. lia. }
  destruct (tick_spec kernel inet_addr inet_ntop6 foreach_order stack fuel _ s1 _ _ (fun v' =>
      v_pending v' = None /\ state (v_core v') = RENEWING /\
      v_log v' = callbacks (w_trace (wd s)) ++ option_list (cbs (cl s) EVENT_NO_LEASE)) Hs1 (f_equal v_pending Hv1))
    as (s2 & Htk2 & Hs2 & Hp2 & Hst2 & Hl2).
  { intros e. rewrite Hv1. apply hw_renew_request_timeout. split; [reflexivity|]. split; [reflexivity|].
    unfold told. cbn [rset v_log v_core]. reflexivity. }
  exists s2. split_and!; [|exact (pending_no_timer _ _ Hs2 eq_refl Hp2)|exact Hst2|exact Hl2].
  exact (wait_S 1 s _ _ _ _ Htk (wait_S 0 s1 _ s2 0 s2 Htk2 eq_refl)).
Qed.


End properties.
