(* ===== verification/DhcpClientRuns.v ===== *)
(** * Runs of the DHCP client.

    Inputs that stop the client or leave it useless, and runs of whole clients
    against a small system ([lab]), which show that the hypotheses of the
    properties of [DhcpClientLife.v] can be met. *)

From stdpp Require Import gmap gmultiset pretty.
From S2P Require Import Prelude RecordSet StateFail CLib Bytes DhcpCommon Posix DhcpNet DhcpClientBase DhcpClient6 DhcpClient DhcpClientPackets DhcpClientFacts DhcpClientLife.

Section errors.
Context (kernel : list event -> call -> Z * list Z).
Context (inet_addr : list Z -> Z).
Context (inet_ntop6 : list Z -> list Z).
Context (foreach_order : gmap Z (list Z) -> list (Z * list Z)).
Context (stack : list event -> list Z).
Context (fuel : nat).
Context (inet_pton6 : list Z -> option (list Z)).

Local Notation reach D s := (client_reach kernel inet_addr inet_ntop6 foreach_order stack fuel inet_pton6 D true s).
Local Notation wait := (wait kernel inet_addr inet_ntop6 foreach_order stack fuel).
Local Notation tick := (tick kernel inet_addr inet_ntop6 foreach_order stack fuel).

(** A client whose requests were not answered cannot be used again: after the
    fifth request the user is told [NO_LEASE] and no timer is left, but the state
    stays [REQUESTING] and [retry_times] stays 5; when the user then starts the
    client again, the start succeeds and discovers are sent, but every offer that
    answers them is ignored. *)
Theorem request_failure_sticks D s :
  reach D s -> type (cl s) = G_DHCP_IPV4 -> ready foreach_order (cl s) -> last_address (cl s) = None ->
  state (cl s) = REQUESTING -> retry_times (cl s) = 0 ->
  sources s !! timeout (cl s) = Some (Timeout 3000 request_timeout_fn) ->
  exists s2, wait 5 s = Some (15000, s2) /\ no_timer s2 /\
    callbacks (w_trace (wd s2)) = callbacks (w_trace (wd s)) ++ told (cl s) EVENT_NO_LEASE /\
    exists s3, g_dhcp_client_start kernel inet_addr foreach_order stack fuel None s2 = Some (0, s3) /\
      sources s3 !! timeout (cl s3) = Some (Timeout 3000 discover_timeout_fn) /\
      forall packet p, find_option fuel packet DHCP_MESSAGE_TYPE = Some (Some p) -> byte_at packet p = DHCPOFFER ->
        handle_packet kernel foreach_order stack fuel packet s3 = Some (tt, s3).
Proof.
  intros Hr Ht Hrd Hl Hst Hre Htm. pose proof (reach_settled _ _ _ _ _ _ _ _ _ Hr Ht Hrd Hl) as Hv.
  apply reach_inv in Hr. assert (pending 0 s = Some (3 * 1000, request_timeout_fn)) as Hp.
  { unfold pending. rewrite Htm, decide_False; [done|]. apply (inv_ids _ _ _ _ Hr) in Htm. lia. }
  destruct (requests_end kernel inet_addr inet_ntop6 foreach_order stack fuel _ 5 s Hr Hv Hp) as (s2 & Hw & Hs2 & Hv2);
    [rewrite Hre; done|done|].
  set (v2 := request_over _) in Hv2.
  assert (settled foreach_order v2) as Hset.
  { apply settled_log. apply (settled_upd foreach_order _ (fun c => c <| retry_times := _ |>)); [|done].
    apply (settled_upd foreach_order _ (fun c => c <| retry_times := _ |>)); [|done]. by apply settled_pending. }
  assert (v_pending v2 = None /\ retry_times (v_core v2) = 5 /\ state (v_core v2) = state (cl s) /\
    v_log v2 = callbacks (w_trace (wd s)) ++ told (cl s) EVENT_NO_LEASE) as (Hp2 & Hre2 & Hst2 & Hl2).
  { subst v2. split; [reflexivity|]. split; [reflexivity|]. split; [reflexivity|].
    unfold request_over, told. cbn [rset v_log v_core set_retry]. reflexivity. }
  clearbody v2. rewrite <- Hv2 in *.
  pose proof (pending_no_timer _ _ Hs2 eq_refl Hp2) as Hn. exists s2. split_and!; [exact Hw|exact Hn|exact Hl2|].
  assert (hw (mkEnv D None) 0 true (g_dhcp_client_start kernel inet_addr foreach_order stack fuel None) false
    (fun r v' => r = 0 /\ v_pending v' = Some (3 * 1000, discover_timeout_fn) /\ state (v_core v') = state (cl s))
    (view_of 0 s2)) as Hstart.
  { apply (hw_start _ _ foreach_order); [exact Hset|]. apply hw_discover_again; [exact Hset|rewrite Hre2; done|].
    split; [done|]. split; [reflexivity|]. exact Hst2. }
  specialize (Hstart s2 (inv_idle _ _ Hs2 Hn) eq_refl). unfold swp in Hstart.
  destruct (g_dhcp_client_start _ _ _ _ _ _ s2) as [[r s3]|]; [|done]. destruct Hstart as (Hs3 & -> & Hp3 & Hst3).
  exists s3. split; [done|]. split.
  - unfold pending, view_of in Hp3. cbn [v_pending] in Hp3. unfold pending in Hp3.
    destruct (sources s3 !! timeout (cl s3)) as [[ms f|]|]; try done. destruct (decide _); [done|].
    by injection Hp3 as -> ->.
  - intros packet p Hf Hb. unfold handle_packet, sbind, slift. rewrite Hf. cbn [option_map].
    unfold get_cl. change (state (cl s3) = state (cl s)) in Hst3. by rewrite Hst3, Hst, Hb.
Qed.

(** An offer without a server identifier stops the client: while it selects,
    any host that knows the transaction can make it read through [NULL]. *)
Theorem offer_without_server_id s packet p :
  state (cl s) = INIT_SELECTING ->
  find_option fuel packet DHCP_MESSAGE_TYPE = Some (Some p) -> byte_at packet p = DHCPOFFER ->
  find_option fuel packet DHCP_SERVER_ID = Some None ->
  handle_packet kernel foreach_order stack fuel packet s = None.
Proof.
  intros Hst Hf Hb Hid. unfold handle_packet, sbind at 1, slift. rewrite Hf. cbn [option_map].
  unfold sbind at 1, get_cl. rewrite Hst, Hb. cbn [Z.eqb Pos.eqb DHCPOFFER].
  unfold handle_offer, sbind at 1, get_cl. unfold sbind at 1.
  destruct (g_source_remove kernel (timeout (cl s)) s) as [[u s1]|]; [|done].
  unfold sbind at 1, upd, smod. unfold sbind at 1, slift. by rewrite Hid.
Qed.

(** Restarting with the client's own address. *)
Lemma restart_with_own D e i s n p text :
  inv D e i s -> type (cl s) = G_DHCP_IPV4 -> 0 < u8 n < DISCOVER_RETRIES ->
  last_address (cl s) = Some p -> strings s !! p = Some text -> ntohl (inet_addr text) <> 0xffffffff ->
  restart_dhcp kernel inet_addr foreach_order stack fuel n s = None.
Proof.
  intros Hs Ht Hn Hl Hp Hok.
  assert (swp True (restart_dhcp kernel inet_addr foreach_order stack fuel n) (fun _ _ => False) s) as Hf.
  { unfold restart_dhcp. apply swp_bind. pose proof (hw_clear_timeout kernel D e i
      (fun _ v => v = view_of e s <| v_pending := None |>) (view_of e s) eq_refl s Hs eq_refl) as Hc.
    apply swp_total. eapply swp_mono; [exact Hc|]. clear Hc. intros _ s1 [Hs1 Hv1]. apply swp_bind, swp_upd.
    set (s2 := s1 <| cl := _ |>).
    assert (inv D e true s2) as Hs2 by (destruct Hs1; by split).
    apply swp_bind, swp_total. eapply swp_mono; [exact (switch_spec kernel stack D e true L2 s2 Hs2)|]. intros r s3 [Hs3 Hv3].
    pose proof (f_equal (fun v => (type (v_core v), last_address (v_core v), v_strings v)) Hv1) as H1.
    pose proof (f_equal (fun v => (type (v_core v), last_address (v_core v), v_strings v, retry_times (v_core v))) Hv3) as H3.
    change ((type (cl s1), last_address (cl s1), strings s1) = (type (cl s), last_address (cl s), strings s)) in H1.
    change ((type (cl s3), last_address (cl s3), strings s3, retry_times (cl s3)) =
      (type (cl s1), last_address (cl s1), strings s1, u8 n)) in H3.
    injection H1 as Et1 El1 Es1. injection H3 as Et3 El3 Es3 Er3.
    rewrite Et1, Ht in Et3. rewrite El1, Hl in El3. rewrite Es1 in Es3.
    apply swp_bind, swp_get_cl, swp_bind, swp_bind, swp_get_cl. rewrite Et3, El3.
    apply swp_bind, swp_get_cl. unfold DISCOVER_RETRIES in *. rewrite Er3, !(proj2 (Z.eqb_neq _ _)) by lia.
    apply swp_bind, swp_ret. cbn [negb Z.eqb]. apply swp_bind. unfold remember_address.
    apply swp_bind. unfold read_string, swp at 1. rewrite Es3, Hp.
    rewrite (proj2 (Z.eqb_neq _ _)) by done. apply swp_bind, swp_get_cl, swp_bind. rewrite El3.
    unfold g_free, swp at 1. rewrite Es3, Hp. apply swp_bind. unfold g_strdup. apply swp_bind.
    unfold read_string, swp at 1. cbn [rset strings]. by rewrite lookup_delete_eq. }
  unfold swp in Hf. by destruct (restart_dhcp _ _ _ _ _ _ s) as [[]|].
Qed.

(** A client that was started with an address and refused by a server reads
    freed memory: three seconds after the refusal [restart_dhcp] starts the client
    with its own [last_address], which [g_dhcp_client_start] frees before it copies
    it. *)
Theorem restart_uses_freed_address D s p text ms :
  reach D s -> type (cl s) = G_DHCP_IPV4 -> sources s !! timeout (cl s) = Some (Timeout ms restart_dhcp_timeout_fn) ->
  last_address (cl s) = Some p -> strings s !! p = Some text -> ntohl (inet_addr text) <> 0xffffffff ->
  0 <= ack_retry_times (cl s) < 9 ->
  tick s = None.
Proof.
  intros Hr%reach_inv Ht Htm Hl Hp Hok Ha. unfold DhcpClientLife.tick. rewrite Htm.
  unfold dispatch, sbind at 1, lookup_source. rewrite Htm. cbn [run_timer].
  assert (u8 (ack_retry_times (cl s) + 1) = ack_retry_times (cl s) + 1) as Hu by (apply Z.mod_small; lia).
  unfold restart_dhcp_timeout, sbind at 1. unfold sbind at 1, upd, smod. unfold sbind at 1, get_cl. unfold sbind at 1.
  set (s1 := s <| cl := _ |>). change (ack_retry_times (cl s1)) with (u8 (ack_retry_times (cl s) + 1)).
  assert (inv (mkEnv D None) 0 false s1) as Hs1 by (destruct Hr; by split).
  rewrite (restart_with_own _ _ _ s1 _ p text Hs1); try done. unfold DISCOVER_RETRIES. rewrite Hu, Hu. lia.
Qed.

End errors.

(** ** Running a whole client *)

(** What happens to a client: a source runs, or the user calls. *)
Inductive happening :=
| Runs (id : Z)
| Hangs (id : Z)
| Timer
| Does (k : client_call).

Definition idle_b (s : cstate) : bool :=
  forallb (fun '(_, src) => match src with Watch _ => true | Timeout _ _ => false end) (map_to_list (sources s)).

Lemma idle_b_no_timer s : idle_b s = true -> no_timer s.
Proof.
  unfold idle_b. rewrite forallb_forall. intros Hf id ms f Hid.
  assert (In (id, Timeout ms f) (map_to_list (sources s))) as Hin by (by apply list_elem_of_In, elem_of_map_to_list).
  by specialize (Hf _ Hin).
Qed.

(** A small system: an interface that is up, sockets that open, a clock that
    stands still, and frames that arrive one after the other. *)
Definition reads_of (evs : list event) : nat :=
  length (List.filter (fun e => match ev_call e with Read _ _ => true | _ => false end) evs).

Definition lab (frames : list (list Z)) (evs : list event) (c : call) : Z * list Z :=
  match c with
  | SocketOn _ _ => (5, [])
  | Ioctl _ request _ =>
    if request =? SIOCGIFNAME then (0, str "eth0")
    else if request =? SIOCGIFFLAGS then (0, [IFF_UP])
    else (0, [2; 0; 0; 0; 0; 1])
  | Read _ _ => match frames !! reads_of evs with Some f => (zlen f, f) | None => (-11, []) end
  | Rand => (77, [])
  | Time => (1000, [])
  | IoChannelNew _ => (1, [])
  | _ => (0, [])
  end.

Definition lab_addr (_ : list Z) : Z := htonl 0x0a000009.
Definition lab_ntop (_ : list Z) : list Z := [].
Definition lab_pton (_ : list Z) : option (list Z) := None.
Definition lab_stack (_ : list event) : list Z := zeroes 1600.
Definition lab_fuel : nat := 400.

(** What the server of that network sends: its address, 10.0.0.5 for the client,
    and a lease time. *)
Definition answer (type : Z) (lease : option Z) : list Z :=
  default [] (
    match dhcp_init_header type with
    | Some p =>
      let p := put off_chaddr [2; 0; 0; 0; 0; 1] (put32 off_yiaddr (htonl 0x0a000005) (put32 off_xid 77 p)) in
      match dhcp_add_option_uint32 p DHCP_SERVER_ID 0x0a000001 with
      | Some p => match lease with Some l => dhcp_add_option_uint32 p DHCP_LEASE_TIME l | None => Some p end
      | None => None
      end
    | None => None
    end).

Definition answer_frame (type : Z) (lease : option Z) : list Z :=
  default [] (raw_frame (answer type lease) 0x0a000001 SERVER_PORT 0x0a000005 CLIENT_PORT).

Section play.
Context (frames : list (list Z)).

Definition happens (h : happening) (s : cstate) : option cstate :=
  match h with
  | Runs id => option_map snd (dispatch (lab frames) lab_addr lab_ntop map_to_list lab_stack lab_fuel id false s)
  | Hangs id => option_map snd (dispatch (lab frames) lab_addr lab_ntop map_to_list lab_stack lab_fuel id true s)
  | Timer =>
    option_map snd (dispatch (lab frames) lab_addr lab_ntop map_to_list lab_stack lab_fuel (timeout (cl s)) false s)
  | Does k =>
    if match k with CallStart _ => idle_b s | _ => true end
    then option_map snd (run_call (lab frames) lab_addr map_to_list lab_stack lab_fuel lab_pton k s)
    else None
  end.

Fixpoint play (hs : list happening) (s : cstate) : option cstate :=
  match hs with
  | [] => Some s
  | h :: hs => match happens h s with Some s => play hs s | None => None end
  end.

(** The client of interface 2, and what becomes of it. *)
Definition lab_new (ty : GDHCPType) : option cstate :=
  match g_dhcp_client_new (lab frames) ty 2 world0 with
  | Some ((Some c, _), w) => Some (mkState c ∅ 1 ∅ 1 w)
  | _ => None
  end.

Definition played (ty : GDHCPType) (hs : list happening) : cstate :=
  match lab_new ty with
  | Some s => default s (play hs s)
  | None => mkState client0 ∅ 1 ∅ 1 world0
  end.

Definition lab_reach : cstate -> Prop :=
  client_reach (lab frames) lab_addr lab_ntop map_to_list lab_stack lab_fuel lab_pton ∅ true.

Lemma happens_reach h s s' : lab_reach s -> happens h s = Some s' -> lab_reach s'.
Proof.
  intros Hr. destruct h as [id|id| |k]; cbn [happens].
  1-3: destruct (dispatch _ _ _ _ _ _ _ _ s) as [[[] s1]|] eqn:E; [|done]; cbn [option_map snd]; intros [= <-];
    exact (reach_dispatch _ _ _ _ _ _ _ _ _ _ _ _ _ Hr E).
  intros Hk. destruct (match k with CallStart _ => idle_b s | _ => true end) eqn:Ei; [|done].
  destruct (run_call _ _ _ _ _ _ _ s) as [[[] s1]|] eqn:E; [|done]. cbn [option_map snd] in Hk. injection Hk as <-.
  refine (reach_call _ _ _ _ _ _ _ _ _ _ _ _ _ Hr _ E). intros _. split; [done|]. intros last ->. by apply idle_b_no_timer.
Qed.

Lemma play_reach hs s s' : lab_reach s -> play hs s = Some s' -> lab_reach s'.
Proof.
  revert s; induction hs as [|h hs IH]; intros s Hr; cbn [play]; [by intros [= <-]|].
  destruct (happens h s) as [s1|] eqn:E; [|done]. apply IH. by eapply happens_reach.
Qed.

Lemma played_reach ty hs :
  match lab_new ty with Some s => match play hs s with Some _ => true | None => false end | None => false end = true ->
  lab_reach (played ty hs).
Proof.
  unfold played, lab_new. destruct (g_dhcp_client_new _ _ _ _) as [[[[c|] err] w]|] eqn:E; [|done..].
  destruct (play hs _) as [s|] eqn:Ep; [|done]. intros _. cbn [default].
  refine (play_reach hs _ s _ Ep).
  exact (reach_new (lab frames) lab_addr lab_ntop map_to_list lab_stack lab_fuel lab_pton ∅ ty 2 world0 c err w eq_refl eq_refl E).
Qed.

End play.

(** A client that sends no options of its own, with a hardware address, is ready. *)
Definition ready_b (c : client) : bool :=
  (zlen (mac_address c) =? 6) && forallb (fun b => (0 <=? b) && (b <? 256)) (mac_address c) &&
  (zlen (request_list c) <=? 255) && (match map_to_list (send_value_hash c) with [] => true | _ => false end) &&
  (0 <=? xid c) && (xid c <? 2 ^ 32).

Lemma ready_b_ready c : ready_b c = true -> ready map_to_list c.
Proof.
  unfold ready_b. rewrite !andb_true_iff. intros (((((Hm & Hb) & Hr) & Hv) & Hx1) & Hx2). split; [|lia]. split; [|lia|].
  - split; [lia|]. rewrite forallb_forall in Hb. apply Forall_forall. intros x Hx%list_elem_of_In.
    apply Hb in Hx. unfold byte_ok. lia.
  - by destruct (map_to_list (send_value_hash c)).
Qed.

(** A client that has been started, one that has an address for 100 seconds, one
    that has it for an hour, and one whose offer came. *)
Definition frames_bound (lease : Z) : list (list Z) := [answer_frame DHCPOFFER None; answer_frame DHCPACK (Some lease)].

Definition tell (fn : nat) (ev : GDHCPClientEvent) : happening := Does (CallRegister ev (Some fn)).

Definition new_client : cstate := played [] G_DHCP_IPV4 [tell 1 EVENT_NO_LEASE].

Definition discovering_client : cstate := played [] G_DHCP_IPV4 [Does (CallStart None)].

Definition bound_client (lease : Z) : cstate :=
  played (frames_bound lease) G_DHCP_IPV4 [tell 1 EVENT_NO_LEASE; tell 2 EVENT_LEASE_LOST; Does (CallStart None); Runs 1; Runs 1].

Definition requesting_client : cstate :=
  played (frames_bound 100) G_DHCP_IPV4 [tell 1 EVENT_NO_LEASE; Does (CallStart None); Runs 1].

Definition refused_client : cstate :=
  played [answer_frame DHCPOFFER None; answer_frame DHCPNAK None] G_DHCP_IPV4
    [Does (CallStart (Some (str "10.0.0.9"))); Runs 1; Runs 1].

Ltac by_playing := vm_compute; reflexivity.
Ltac by_reach :=
  unfold discovering_client, bound_client, requesting_client, refused_client, new_client; apply played_reach; by_playing.

Lemma discovering_reach : lab_reach [] discovering_client.
Proof. by_reach. Qed.

Lemma bound_reach_lab lease : lease = 100 \/ lease = 3600 -> lab_reach (frames_bound lease) (bound_client lease).
Proof. intros [->| ->]; by_reach. Qed.

Lemma lab_bound lease :
  lease = 100 \/ lease = 3600 ->
  bound (lab (frames_bound lease)) lab_addr lab_ntop map_to_list lab_stack lab_fuel lab_pton ∅ (bound_client lease).
Proof.
  intros Hl. split; [by apply bound_reach_lab| | | | |]; destruct Hl as [->| ->]; try by_playing.
  1, 2: apply ready_b_ready; by_playing.
  1, 2: split; [apply Z.leb_le|apply Z.ltb_lt]; by_playing.
Qed.

(** A client that is started once more while its discover timer waits keeps two
    timers, and [timeout] names the second one only: stopping the client leaves
    the first one, which later runs for a client that was stopped. *)
Definition started_again : cstate :=
  match run_call (lab []) lab_addr map_to_list lab_stack lab_fuel lab_pton (CallStart None) discovering_client with
  | Some (_, s) => s
  | None => discovering_client
  end.

Example stop_leaves_a_timer :
  client_reach (lab []) lab_addr lab_ntop map_to_list lab_stack lab_fuel lab_pton ∅ false started_again /\
  match g_dhcp_client_stop (lab []) lab_stack started_again with
  | Some (_, s) => map (fun '(_, src) => src) (map_to_list (sources s)) = [Timeout 3000 discover_timeout_fn]
  | None => False
  end.
Proof.
  split; [|by_playing].
  apply (reach_call _ _ _ _ _ _ _ _ true _ discovering_client (CallStart None)); [exact discovering_reach|done|by_playing].
Qed.

(** ** Witnesses *)

Lemma client_owns_witness :
  w_fds (wd discovering_client) = watched discovering_client ⊎ ∅ /\ w_bad (wd discovering_client) = 0.
Proof.
  destruct (client_owns _ _ _ _ _ _ _ ∅ _ _ discovering_reach) as (_ & _ & Hf & Hb & _). split; [exact Hf|exact Hb].
Defined.

Lemma client_stop_releases_witness :
  exists s', g_dhcp_client_stop (lab (frames_bound 100)) lab_stack (bound_client 100) = Some (tt, s') /\ sources s' = ∅.
Proof.
  assert (lab_reach (frames_bound 100) (bound_client 100)) as Hr by (apply bound_reach_lab; by left).
  assert (ready map_to_list (cl (bound_client 100))) as [[Hm _ _] _] by (apply ready_b_ready; by_playing).
  destruct (client_stop_releases _ _ _ _ _ _ _ ∅ _ _ Hr Hm) as ((s' & Hs & He & _) & _).
  exists s'. split; [exact Hs|exact (He eq_refl)].
Defined.

Lemma client_gives_up_witness :
  exists r s1, g_dhcp_client_start (lab []) lab_addr map_to_list lab_stack lab_fuel None new_client = Some (r, s1) /\
    callbacks (w_trace (wd s1)) = callbacks (w_trace (wd new_client)).
Proof.
  assert (startable (lab []) lab_addr lab_ntop map_to_list lab_stack lab_fuel lab_pton ∅ new_client) as Hst.
  { split; [by_reach|by_playing|apply ready_b_ready; by_playing|by_playing| |by_playing].
    apply idle_b_no_timer. by_playing. }
  destruct (client_gives_up _ _ _ _ _ _ _ _ _ Hst) as (r & s1 & Hs & Hl & _). exists r, s1. split; [exact Hs|exact Hl].
Defined.


Lemma request_failure_sticks_witness :
  exists s2, wait (lab (frames_bound 100)) lab_addr lab_ntop map_to_list lab_stack lab_fuel 5 requesting_client = Some (15000, s2) /\
    no_timer s2.
Proof.
  assert (lab_reach (frames_bound 100) requesting_client) as Hr by (by_reach).
  assert (ready map_to_list (cl requesting_client)) as Hrd by (apply ready_b_ready; by_playing).
  destruct (request_failure_sticks (lab (frames_bound 100)) lab_addr lab_ntop map_to_list lab_stack lab_fuel lab_pton ∅
    requesting_client Hr) as (s2 & Hw & Hn & _); [by_playing|exact Hrd|by_playing..|].
  exists s2. split; [exact Hw|exact Hn].
Defined.

Lemma offer_without_server_id_witness :
  handle_packet (lab []) map_to_list lab_stack lab_fuel (default [] (dhcp_init_header DHCPOFFER)) discovering_client = None.
Proof. apply (offer_without_server_id _ _ _ _ _ _ 242); by_playing. Defined.

Lemma restart_uses_freed_address_witness :
  tick (lab [answer_frame DHCPOFFER None; answer_frame DHCPNAK None]) lab_addr lab_ntop map_to_list lab_stack lab_fuel
    refused_client = None.
Proof.
  assert (lab_reach [answer_frame DHCPOFFER None; answer_frame DHCPNAK None] refused_client) as Hr
    by (by_reach).
  apply (restart_uses_freed_address _ _ _ _ _ _ lab_pton ∅ refused_client 2 (str "10.0.0.9") 3000 Hr);
    [by_playing|by_playing|by_playing|by_playing|by vm_compute|]. split; [apply Z.leb_le|apply Z.ltb_lt]; by_playing.
Defined.
