(* ===== verification/Steps.v ===== *)
(** * Relations that the steps of a computation respect.

    [steps R m]: whenever [m] returns, the states before and after are related.
    For a preorder this follows the structure of [m]; [steps_go] does so,
    unfolding the operations the hints of [steps] do not know. *)

From S2P Require Import Prelude StateFail.

Create HintDb steps discriminated.
#[export] Hint Constants Opaque : steps.

Definition steps {S A} (R : S -> S -> Prop) (m : sfm S A) : Prop :=
  forall s a s', m s = Some (a, s') -> R s s'.

Section steps.
Context {S : Type} (R : S -> S -> Prop).

Lemma steps_swp {A} (m : sfm S A) s : steps R m -> swp True m (fun _ s' => R s s') s.
Proof. unfold swp. intros Hm. destruct (m s) as [[a s']|] eqn:E; [by eapply Hm|done]. Qed.

Lemma steps_mono {A} (R' : S -> S -> Prop) (m : sfm S A) : (forall s s', R s s' -> R' s s') -> steps R m -> steps R' m.
Proof. intros HR Hm s a s' Hs. by eapply HR, Hm. Qed.

Context `{!PreOrder R}.

Lemma steps_ret {A} (a : A) : steps R (sret a).
Proof. by intros s b s' [= _ <-]. Qed.

Lemma steps_get : steps R sget.
Proof. by intros s b s' [= _ <-]. Qed.

Lemma steps_lift {A} (o : option A) : steps R (slift o).
Proof. intros s b s'. destruct o; [by intros [= _ <-]|done]. Qed.

Lemma steps_bind {A B} (m : sfm S A) (k : A -> sfm S B) : steps R m -> (forall a, steps R (k a)) -> steps R (sbind m k).
Proof.
  intros Hm Hk s b s'. unfold sbind. destruct (m s) as [[a s1]|] eqn:E; [|done]. intros E'.
  etrans; [by eapply Hm|by eapply Hk].
Qed.
End steps.

#[export] Hint Resolve steps_ret steps_get steps_lift : steps.

Ltac head_of t := lazymatch t with ?f _ => head_of f | _ => t end.

(** [lift] handles the embeddings of one kind of step into another. *)
Ltac steps_with lift :=
  lazymatch goal with
  | |- steps _ (sbind _ _) => apply steps_bind; [apply _ | steps_with lift | intros; steps_with lift]
  | |- steps _ (match ?x with _ => _ end) => destruct x; steps_with lift
  | |- steps _ (let _ := _ in _) => cbv zeta; steps_with lift
  | |- steps _ ?m =>
    first [ solve [auto 2 with steps nocore typeclass_instances]
          | progress lift; steps_with lift
          | let h := head_of m in progress unfold h; steps_with lift
          | idtac ]
  | |- _ => idtac
  end.

Ltac steps_go := steps_with idtac.
