(* ===== verification/DhcpCalls.v ===== *)
(** * Which system calls the DHCP parts make.

    [emits P m]: whatever the state, the calls [m] makes satisfy [P].  The
    client talks to the network, the clock and its user, and starts no
    programs. *)

From stdpp Require Import gmap.
From S2P Require Import Prelude RecordSet StateFail Steps CLib Bytes DhcpCommon Posix DhcpNet DhcpClientBase DhcpClient6 DhcpClient.

(** ** The judgement *)

(** States with a trace of system calls. *)
Class Traced (S : Type) := trace_of : S -> list event.

#[export] Instance traced_world : Traced world := w_trace.

#[export] Instance traced_cstate : Traced cstate := fun s => w_trace (wd s).

(** The second trace goes on from the first, with calls that satisfy [P]. *)
Definition grows (P : call -> bool) (t t' : list event) : Prop :=
  exists evs, t' = t ++ evs /\ Forall (fun e => P (ev_call e) = true) evs.

#[export] Instance grows_preorder P : PreOrder (grows P).
Proof.
  split.
  - intros t. exists []. split; [by rewrite app_nil_r|constructor].
  - intros t1 t2 t3 (e1 & -> & H1) (e2 & -> & H2). exists (e1 ++ e2). split; [by rewrite app_assoc|by apply Forall_app_2].
Qed.

Definition trace_grows {S} `{Traced S} (P : call -> bool) (s s' : S) : Prop := grows P (trace_of s) (trace_of s').

#[export] Instance trace_grows_preorder {S} `{Traced S} P : PreOrder (trace_grows P : S -> S -> Prop).
Proof. split; [intros s; apply grows_preorder|intros s1 s2 s3; apply grows_preorder]. Qed.

Notation emits P m := (steps (trace_grows P) m).

Lemma em_same {S} `{Traced S} P {A} (m : sfm S A) :
  (forall s a s', m s = Some (a, s') -> trace_of s' = trace_of s) -> emits P m.
Proof. intros Hm s a s' Hs. unfold trace_grows. by rewrite (Hm _ _ _ Hs). Qed.

(** ** Base steps *)

(** The calls of the DHCP library. *)
Definition net_call_b (c : call) : bool :=
  match c with
  | SocketOn _ _ | Bind _ _ | Connect _ _ | SetSockOpt _ _ _ | SendTo _ _ _ | Write _ _ | SendMsg _ _ _ _
  | Ioctl _ _ _ | Read _ _ | Close _ | Gettimeofday | Time | Rand | Srand _ | IoChannelNew _ | Callback _ _ => true
  | _ => false
  end.

Section base.
Context (kernel : list event -> call -> Z * list Z).

Lemma em_ncall P c : P c = true -> emits P (ncall kernel c).
Proof.
  intros Hc w [r d] w' [= E]. unfold sys in E. destruct (kernel _ _) as [r' d']. injection E as <- <- <-.
  eexists. split; [done|]. by constructor.
Qed.

Lemma em_ncall_ P c : P c = true -> emits P (ncall_ kernel c).
Proof.
  intros Hc w r w' [= E]. unfold sys_, sys in E. destruct (kernel _ _) as [r' d']. injection E as <- <-.
  eexists. split; [done|]. by constructor.
Qed.

Lemma em_on_heap {A} P (m : alloc A) : emits P (fun w => Some (on_heap m w)).
Proof. apply em_same. intros w a w' [= E]. unfold on_heap in E. destruct (m _) as [b h]. by injection E as <- <-. Qed.

Lemma em_net {A} P (m : nio A) : emits P m -> emits P (net m).
Proof.
  intros Hm s a s' Hs. unfold net in Hs. destruct (m (wd s)) as [[b w]|] eqn:E; [|done]. injection Hs as <- <-.
  exact (Hm _ _ _ E).
Qed.

Lemma em_get_cl P : emits P get_cl.
Proof. apply em_same. by intros s a s' [= _ <-]. Qed.

Lemma em_upd P f : emits P (upd f).
Proof. apply em_same. by intros s a s' [= _ <-]. Qed.

Lemma em_g_free P p : emits P (g_free p).
Proof. apply em_same. intros s a s'. unfold g_free. destruct p as [p|]; [destruct (_ !! _)|]; by intros [= _ <-]. Qed.

Lemma em_new_string P v : emits P (new_string v).
Proof. apply em_same. by intros s a s' [= _ <-]. Qed.

Lemma em_read_string P p : emits P (read_string p).
Proof. apply em_same. intros s a s'. unfold read_string. destruct (_ !! _); by intros [= _ <-]. Qed.

Lemma em_add_source P src : emits P (add_source src).
Proof. apply em_same. by intros s a s' [= _ <-]. Qed.

Lemma em_lookup_source P id : emits P (lookup_source id).
Proof. apply em_same. by intros s a s' [= _ <-]. Qed.

Lemma em_junk P stack n : emits P (junk stack n).
Proof. apply em_same. by intros s a s' [= _ <-]. Qed.

End base.

#[export] Hint Resolve em_on_heap em_get_cl em_upd em_g_free em_new_string em_read_string em_add_source
  em_lookup_source em_junk : steps.
#[export] Hint Extern 1 (emits _ (ncall_ _ _)) => apply em_ncall_; reflexivity : steps.
#[export] Hint Extern 1 (emits _ (ncall _ _)) => apply em_ncall; reflexivity : steps.

Ltac em_go := steps_with ltac:(apply em_net).

Section client.
Context (kernel : list event -> call -> Z * list Z).

Lemma em_source_remove P id : (forall fd, P (Close fd) = true) -> emits P (g_source_remove kernel id).
Proof.
  intros HP s a s'. unfold g_source_remove. destruct (sources s !! id) as [[ms f|fd]|].
  - intros [= _ <-]. exists []. split; [by rewrite app_nil_r|constructor].
  - assert (emits P (net (let* _ := ncall_ kernel (Close fd) in sret tt))) as Hm.
    { apply em_net, steps_bind; [apply _|by apply em_ncall_|intros; apply steps_ret, _]. }
    intros E. exact (Hm _ _ _ E).
  - intros [= _ <-]. exists []. split; [by rewrite app_nil_r|constructor].
Qed.

Lemma em_g_source_remove id : emits net_call_b (g_source_remove kernel id).
Proof. by apply em_source_remove. Qed.

#[local] Hint Resolve em_g_source_remove : steps.

Lemma em_random_host n : emits net_call_b (random_host kernel n).
Proof. induction n as [|n IH]; cbn [random_host]; em_go. Qed.

#[local] Hint Resolve em_random_host : steps.

Context (inet_addr : list Z -> Z) (inet_ntop6 : list Z -> list Z)
  (foreach_order : gmap Z (list Z) -> list (Z * list Z)) (stack : list event -> list Z) (fuel : nat).

(** ** The client *)

Lemma em_switch mode : emits net_call_b (switch_listening_mode kernel stack mode).
Proof. em_go. Qed.

Lemma em_broadcast c p : emits net_call_b (broadcast kernel c p).
Proof. em_go. Qed.

#[local] Hint Resolve em_switch em_broadcast : steps.

Lemma em_send_select : emits net_call_b (send_select kernel foreach_order).
Proof. em_go. Qed.

Lemma em_send_discover r : emits net_call_b (send_discover kernel foreach_order r).
Proof. em_go. Qed.

#[local] Hint Resolve em_send_select em_send_discover : steps.

Lemma em_get_request_loop codes p : emits net_call_b (get_request_loop fuel codes p).
Proof. induction codes as [|code codes IH]; cbn [get_request_loop]; em_go. Qed.

Lemma em_request_options n codes buf : emits net_call_b (request_options_loop kernel n codes buf).
Proof. revert buf. induction codes as [|code codes IH]; intros buf; cbn [request_options_loop]; em_go. Qed.

Lemma em_addresses_loop n value len max_len pos a : emits net_call_b (addresses_loop kernel n value len max_len pos a).
Proof. revert pos a. induction n as [|n IH]; intros pos a; cbn [addresses_loop]; em_go. Qed.

Lemma em_servers_loop n value acc : emits net_call_b (servers_loop inet_ntop6 n value acc).
Proof. revert value acc. induction n as [|n IH]; intros value acc; cbn [servers_loop]; em_go. Qed.

#[local] Hint Resolve em_get_request_loop em_request_options em_addresses_loop em_servers_loop : steps.

Lemma em_request6_loop codes p len : emits net_call_b (dhcpv6_request_loop kernel inet_ntop6 codes p len).
Proof. induction codes as [|code codes IH]; cbn [dhcpv6_request_loop]; em_go. Qed.

Lemma em_send_dhcpv6_msg ty : emits net_call_b (send_dhcpv6_msg kernel foreach_order ty).
Proof. em_go. Qed.

Lemma em_start_ipv4 last : emits net_call_b (start_ipv4 kernel inet_addr foreach_order stack last).
Proof. em_go. Qed.

Lemma em_ipv4ll_start : emits net_call_b (ipv4ll_start kernel stack fuel).
Proof. em_go. Qed.

#[local] Hint Resolve em_request6_loop em_send_dhcpv6_msg em_start_ipv4 em_ipv4ll_start : steps.

Lemma em_start last : emits net_call_b (g_dhcp_client_start kernel inet_addr foreach_order stack fuel last).
Proof. em_go. Qed.

Lemma em_stop : emits net_call_b (g_dhcp_client_stop kernel stack).
Proof. em_go. Qed.

Lemma em_new ty index : emits net_call_b (g_dhcp_client_new kernel ty index).
Proof. em_go. Qed.

#[local] Hint Resolve em_start em_stop em_new : steps.

Lemma em_unref : emits net_call_b (g_dhcp_client_unref kernel stack).
Proof. em_go. Qed.

Lemma em_run_timer t : emits net_call_b (run_timer kernel inet_addr foreach_order stack fuel t).
Proof. em_go. Qed.

Lemma em_listener_event hangup : emits net_call_b (DhcpClient.listener_event kernel inet_ntop6 foreach_order stack fuel hangup).
Proof. em_go. Qed.

#[local] Hint Resolve em_unref em_run_timer em_listener_event : steps.

Lemma em_dispatch id hangup :
  emits net_call_b (DhcpClient.dispatch kernel inet_addr inet_ntop6 foreach_order stack fuel id hangup).
Proof. em_go. Qed.

End client.
