(* ===== verification/DhcpLeased.v ===== *)
(** * A DHCP client that is answered.

    What the client of [DhcpClient.v] makes of an offer and of an
    acknowledgement that arrive on the link: the steps of [DhcpClientLife.v]
    carried on from the requests to the lease. *)

From stdpp Require Import gmap gmultiset.
From S2P Require Import Prelude RecordSet StateFail Steps CLib Bytes DhcpCommon DhcpHandlers DhcpReplies Posix DhcpNet DhcpClientBase DhcpClient6 DhcpClient DhcpCalls DhcpClientPackets DhcpClientFacts DhcpClientLife.

(** ** The values of options *)

(** The value of an address of four bytes. *)
Definition address_value (d : list Z) : list option_value := [VString (sprint_nip d)].

Lemma dec_plain n : byte_ok n -> Forall (fun c => c <> SP) (dec n).
Proof.
  intros Hn. assert (forallb (fun n => forallb (fun c => negb (c =? SP)) (dec (Z.of_nat n))) (seq 0 256) = true) as H
    by (vm_compute; reflexivity).
  rewrite forallb_forall in H. specialize (H (Z.to_nat n) ltac:(apply in_seq; destruct Hn; lia)).
  rewrite Z2Nat.id in H by (destruct Hn; lia). apply List.Forall_forall. intros c Hc.
  rewrite forallb_forall in H. specialize (H c Hc). by apply negb_true_iff, Z.eqb_neq in H.
Qed.

Lemma split_plain value cur : Forall (fun c => c <> SP) value -> split_blanks value cur = [rev cur ++ value].
Proof.
  intros Hv; revert cur; induction Hv as [|c value Hc Hv IH]; intros cur; cbn [split_blanks]; [by rewrite app_nil_r|].
  rewrite (proj2 (Z.eqb_neq _ _)), IH by done. cbn [rev]. by rewrite <- app_assoc.
Qed.

Lemma sprint_plain d : Forall byte_ok d -> Forall (fun c => c <> SP) (sprint_nip d).
Proof.
  intros Hd. unfold sprint_nip, dotted. repeat apply Forall_app_2; try (repeat constructor; done);
    apply dec_plain, byte_at_range, Hd.
Qed.

(** The options the program asks for. *)
Definition address_code (code : Z) : Prop := In code [0x01; 0x03; 0x06].

Lemma address_text opt code d :
  address_code code -> ztake 4 opt = d -> zlen d = 4 -> Forall byte_ok d ->
  exists text, malloc_option_value_string opt 4 (dhcp_get_code_type code) = inr (Some text) /\
    get_option_value_list text (dhcp_get_code_type code) = address_value d.
Proof.
  intros Hc <- Hl Hb. assert (sprint_nip opt = sprint_nip (ztake 4 opt)) as E.
  { unfold sprint_nip. f_equal; unfold byte_at, ztake; rewrite lookup_take_lt by lia; done. }
  exists (sprint_nip opt). split.
  - by destruct Hc as [<-|[<-|[<-|[]]]].
  - unfold get_option_value_list, address_value. rewrite E.
    assert (dhcp_get_code_type code =? OPTION_STRING = false) as -> by (by destruct Hc as [<-|[<-|[<-|[]]]]).
    by rewrite (split_plain _ [] (sprint_plain _ Hb)).
Qed.

(** ** The steps *)

Section steps.
Context (kernel : list event -> call -> Z * list Z).
Context (foreach_order : gmap Z (list Z) -> list (Z * list Z)).
Context (stack : list event -> list Z).
Context (fuel : nat).
Context (D : env) (e : Z).

Local Notation hw := (hw D e).

(** [g_source_remove(dhcp_client->timeout)] without a test. *)
Lemma hw_drop_timer i (Q : unit -> view -> Prop) v :
  Q tt (v <| v_pending := None |>) -> hw i (let* c := get_cl in g_source_remove kernel (timeout c)) true Q v.
Proof.
  intros HQ. apply hw_intro; [apply tri_source_remove_timeout|]. intros s Hs <-. apply swp_bind, swp_get_cl.
  unfold g_source_remove, swp. destruct (sources s !! timeout (cl s)) as [[]|] eqn:E;
    [|by destruct (inv_apart _ _ _ _ Hs fd) as [? _]|]; revert HQ; unfold view_of, pending;
    cbn [rset cl sources timeout strings next_string wd v_core v_pending v_strings v_next v_log];
    by rewrite lookup_delete_eq.
Qed.

(** The old address is freed and the new one noted. *)
Definition addressed (ip : Z) (v : view) : view :=
  v <| v_core := v_core v <| assigned_ip := Some (v_next v) |> |>
    <| v_strings := <[v_next v := inet_ntoa ip]>
         (match assigned_ip (v_core v) with Some p => delete p (v_strings v) | None => v_strings v end) |>
    <| v_next := v_next v + 1 |>.

Lemma hw_set_address i ip (Q : unit -> view -> Prop) v :
  live v (assigned_ip (v_core v)) -> Q tt (addressed ip v) ->
  hw i (let* c := get_cl in let* _ := g_free (assigned_ip c) in
        let* p := get_ip ip in let* _ := upd (fun c => c <| assigned_ip := Some p |>) in sret tt) i Q v.
Proof.
  intros Hl HQ. apply hw_intro; [apply tri_reassign, tri_ret|]. intros s Hs <-. unfold get_ip. revert HQ. unfold addressed.
  generalize (inet_ntoa ip) as text. intros text HQ. apply swp_bind, swp_get_cl, swp_bind. unfold live in Hl.
  revert HQ Hl. unfold view_of, pending. cbn [v_core v_strings v_next rset].
  change (assigned_ip (core (cl s))) with (assigned_ip (cl s)). unfold g_free, swp at 1. destruct (assigned_ip (cl s)) as [p|].
  - intros HQ [t Ht]. rewrite Ht. apply swp_bind. unfold swp at 1, new_string. apply swp_bind, swp_upd, swp_ret. exact HQ.
  - intros HQ _. apply swp_bind. unfold swp at 1, new_string. apply swp_bind, swp_upd, swp_ret. exact HQ.
Qed.

Lemma hw_reassign {A} i j ip (k : cm A) (Q : A -> view -> Prop) v :
  live v (assigned_ip (v_core v)) -> hw i k j Q (addressed ip v) ->
  hw i (let* c := get_cl in let* _ := g_free (assigned_ip c) in
        let* p := get_ip ip in let* _ := upd (fun c => c <| assigned_ip := Some p |>) in k) j Q v.
Proof.
  intros Hl Hk. apply hw_ext with (m' := let* _ := (let* c := get_cl in let* _ := g_free (assigned_ip c) in
    let* p := get_ip ip in let* _ := upd (fun c => c <| assigned_ip := Some p |>) in sret tt) in k).
  - intros s. unfold sbind, get_cl. destruct (g_free _ s) as [[[] s1]|]; [|done].
    by destruct (get_ip ip s1) as [[p s2]|].
  - eapply hw_bind, hw_set_address; [done|exact Hk].
Qed.

(** *** The values of the lease *)

(** The addresses a packet with these options has under a code. *)
Definition told_values (os : list dopt) (code : Z) : option (list option_value) :=
  option_map address_value (opt_data code os).

(** The options asked for are addresses of four bytes. *)
Definition addresses (os : list dopt) : Prop :=
  forall code d, address_code code -> opt_data code os = Some d -> exists x, d = put_be32 x.

Lemma hw_get_request_option i packet os code (Q : unit -> view -> Prop) v :
  wfp packet os -> addresses os -> address_code code -> (388 <= fuel)%nat ->
  (forall h, h !! code = told_values os code -> (forall k, k <> code -> h !! k = code_value_hash (v_core v) !! k) ->
     Q tt (v <| v_core := v_core v <| code_value_hash := h |> |>)) ->
  hw i (get_request_option fuel packet code) i Q v.
Proof.
  intros Hw Ha Hc Hf HQ. unfold get_request_option, find_option.
  pose proof (wfp_option packet os fuel code Hw) as Hopt. unfold told_values in HQ.
  destruct (opt_data code os) as [d|] eqn:Eo.
  - destruct Hopt as (p & Hp & Hp0 & Hlen & Hd); [by destruct Hc as [<-|[<-|[<-|[]]]]|done|].
    destruct (Ha _ _ Hc Eo) as [x ->]. rewrite zlen_put_be32 in Hlen, Hd.
    eapply hw_bind. apply (hw_lift _ _ _ _ (Some p)); [by rewrite Hp|].
    destruct (address_text (option_data packet p) code (put_be32 x)) as (text & Ht & Hv); [done|done|done|apply le_bytes32_ok|].
    unfold option_length. replace (p + (OPT_LEN - OPT_DATA)) with (p - 1) by (unfold OPT_LEN, OPT_DATA; lia). rewrite Hlen, Ht. unfold value_set. rewrite Hv.
    rewrite bool_decide_false by done. apply hw_upd; [done..|]. apply HQ; [apply lookup_insert_eq|].
    intros k Hk. by apply lookup_insert_ne.
  - eapply hw_bind. apply (hw_lift _ _ _ _ None); [by rewrite Hopt by (done || by destruct Hc as [<-|[<-|[<-|[]]]])|].
    apply hw_upd; [done..|]. apply HQ; [apply lookup_delete_eq|]. intros k Hk. by apply lookup_delete_ne.
Qed.

Lemma hw_get_request_loop i packet os codes (Q : unit -> view -> Prop) v :
  wfp packet os -> addresses os -> Forall (fun c => address_code (u8 c)) codes -> (388 <= fuel)%nat ->
  (forall h, (forall k, In k (map u8 codes) -> h !! k = told_values os k) ->
     (forall k, ~ In k (map u8 codes) -> h !! k = code_value_hash (v_core v) !! k) ->
     Q tt (v <| v_core := v_core v <| code_value_hash := h |> |>)) ->
  hw i (get_request_loop fuel codes packet) i Q v.
Proof.
  intros Hw Ha Hc Hf. revert Q v; induction Hc as [|c codes Hc _ IH]; intros Q v HQ; cbn [get_request_loop].
  - apply hw_ret. pose proof (HQ (code_value_hash (v_core v)) ltac:(done) ltac:(done)) as H. by destruct v as [[] ? ? ? ?].
  - eapply hw_bind, hw_get_request_option; [done..|]. intros h1 H1 H1'. apply IH. intros h2 H2 H2'.
    assert (Q tt (v <| v_core := v_core v <| code_value_hash := h2 |> |>)) as H; [|exact H].
    cbn [rset v_core code_value_hash] in H2'. apply HQ; cbn [map In].
    + intros k Hk. destruct (in_dec Z.eq_dec k (map u8 codes)) as [Hi|Hn]; [by apply H2|].
      rewrite H2' by done. destruct Hk as [<-|?]; [done|done].
    + intros k Hk. rewrite H2' by tauto. apply H1'. intros ->. tauto.
Qed.

(** *** An offer and an acknowledgement *)

(** The client after an offer, and after an acknowledgement, as its user sees
    it. *)
Record requesting (sid ip : Z) (v v' : view) : Prop := {
  rq_settled : settled foreach_order v';
  rq_state : state (v_core v') = REQUESTING;
  rq_server : server_ip (v_core v') = sid;
  rq_address : requested_ip (v_core v') = ip;
  rq_same : xid (v_core v') = xid (v_core v) /\ mac_address (v_core v') = mac_address (v_core v) /\
    request_list (v_core v') = request_list (v_core v) /\ cbs (v_core v') = cbs (v_core v);
  rq_timer : v_pending v' = Some (3 * 1000, request_timeout_fn);
  rq_log : v_log v' = v_log v;
}.

Record leased (yiaddr secs : Z) (os : list dopt) (v v' : view) : Prop := {
  ls_settled : settled foreach_order v';
  ls_state : state (v_core v') = BOUND;
  ls_address : exists p, assigned_ip (v_core v') = Some p /\ v_strings v' !! p = Some (inet_ntoa yiaddr);
  ls_seconds : lease_seconds (v_core v') = secs;
  ls_values : forall c, In c (request_list (v_core v)) -> code_value_hash (v_core v') !! u8 c = told_values os (u8 c);
  ls_timer : v_pending v' = Some (Z.shiftr secs 1 * 1000, start_renew_timeout_fn);
  ls_log : v_log v' = v_log v ++ told (v_core v) EVENT_LEASE_AVAILABLE;
}.

(** The assignments behind the removal of the timer, one by one. *)
Lemma drop_timer_split {A} (k : cm A) s :
  (let* c := get_cl in let* _ := g_source_remove kernel (timeout c) in
   let* _ := upd (fun c => c <| timeout := 0 |> <| retry_times := 0 |>) in k) s =
  (let* _ := (let* c := get_cl in g_source_remove kernel (timeout c)) in
   let* _ := upd (fun c => c <| timeout := 0 |>) in let* _ := upd (fun c => c <| retry_times := 0 |>) in k) s.
Proof. unfold sbind, get_cl, upd, smod. by destruct (g_source_remove _ _ s) as [[[] s1]|]. Qed.

(** The fields a settled client needs are these. *)
Lemma settled_fields v v' :
  settled foreach_order v ->
  type (v_core v') = type (v_core v) /\ xid (v_core v') = xid (v_core v) /\ mac_address (v_core v') = mac_address (v_core v) /\
  request_list (v_core v') = request_list (v_core v) /\ send_value_hash (v_core v') = send_value_hash (v_core v) /\
  last_address (v_core v') = last_address (v_core v) -> live v' (assigned_ip (v_core v')) -> settled foreach_order v'.
Proof.
  intros [Ht [[Hm Hr Hv] Hx] Hl _] (E1 & E2 & E3 & E4 & E5 & E6) Ha. split; [congruence| |congruence|done].
  split; [split|]; by rewrite ?E2, ?E3, ?E4, ?E5.
Qed.

Lemma hw_handle_offer i packet os sid (Q : unit -> view -> Prop) v :
  settled foreach_order v -> wfp packet os -> opt_data DHCP_SERVER_ID os = Some (put_be32 sid) -> 0 <= sid < 2 ^ 32 ->
  (388 <= fuel)%nat -> (forall v', requesting sid (ntohl (get_le32 packet off_yiaddr)) v v' -> Q tt v') ->
  hw i (handle_offer kernel foreach_order stack fuel packet) false Q v.
Proof.
  intros Hv Hw Hsid Hr Hf HQ. pose proof (wfp_option packet os fuel DHCP_SERVER_ID Hw ltac:(done) Hf) as Hopt.
  rewrite Hsid in Hopt. destruct Hopt as (p & Hp & Hp0 & _ & Hd). apply field_be32 in Hd; [|done|done].
  unfold handle_offer. eapply hw_ext; [apply drop_timer_split|].
  eapply hw_bind, hw_drop_timer. eapply hw_bind, hw_timeout0; [done|]. eapply hw_bind, hw_upd; [done..|].
  eapply hw_bind. apply (hw_lift _ _ _ _ (Some p)); [unfold find_option; by rewrite Hp|]. rewrite Hd.
  revert HQ. generalize (ntohl (get_le32 packet off_yiaddr)). intros ip HQ.
  eapply hw_bind, hw_upd; [done..|]. set (v1 := rset v_core _ _).
  assert (settled foreach_order v1 /\ retry_times (v_core v1) = 0 /\ server_ip (v_core v1) = sid /\ requested_ip (v_core v1) = ip /\
    (xid (v_core v1) = xid (v_core v) /\ mac_address (v_core v1) = mac_address (v_core v) /\
     request_list (v_core v1) = request_list (v_core v) /\ cbs (v_core v1) = cbs (v_core v)) /\ v_log v1 = v_log v)
    as (Hv1 & Hre & Hs1 & Hi1 & Hsame & Hlog).
  { split; [|done]. by apply (settled_fields v); [| |apply Hv]. }
  clearbody v1. unfold start_request. eapply hw_bind, hw_get. intros c Hc.
  assert (retry_times c = 0) as -> by (rewrite <- Hre; exact (f_equal retry_times Hc)).
  change (0 =? REQUEST_RETRIES) with false. change (0 =? 0) with true. cbv iota.
  eapply hw_bind, hw_bind, hw_upd; [done..|]. eapply hw_bind, hw_switch. intros _. apply hw_ret.
  set (v2 := rset v_core _ _). assert (settled foreach_order v2) as Hv2 by (by apply (settled_fields v1); [| |apply Hv1]).
  eapply hw_bind, hw_send_select; [apply Hv2|]. intros _. apply hw_arm_seconds, HQ. by split; [apply settled_pending| | | | | |].
Qed.

Lemma lease_time packet os secs :
  wfp packet os -> opt_data DHCP_LEASE_TIME os = Some (put_be32 secs) -> 10 <= secs < 2 ^ 28 -> (388 <= fuel)%nat ->
  get_lease fuel packet = Some secs.
Proof.
  intros Hw Hs Hr Hf. unfold get_lease, find_option. pose proof (wfp_option packet os fuel DHCP_LEASE_TIME Hw ltac:(done) Hf) as Hopt.
  rewrite Hs in Hopt. destruct Hopt as (p & -> & Hp0 & _ & Hd). apply field_be32 in Hd; [|done|lia]. rewrite Hd.
  change 0x0fffffff with (Z.ones 28). rewrite Z.land_ones, Z.mod_small by lia. by rewrite (proj2 (Z.ltb_ge _ _)) by lia.
Qed.

(** Up to the values of the options. *)
Lemma hw_read_ack {A} i packet os secs (k : cm A) (Q : A -> view -> Prop) v :
  settled foreach_order v -> wfp packet os -> addresses os -> opt_data DHCP_LEASE_TIME os = Some (put_be32 secs) ->
  10 <= secs < 2 ^ 28 -> Forall (fun c => address_code (u8 c)) (request_list (v_core v)) -> (388 <= fuel)%nat ->
  (forall v', settled foreach_order v' -> lease_seconds (v_core v') = secs -> cbs (v_core v') = cbs (v_core v) -> v_log v' = v_log v ->
     (forall c, In c (request_list (v_core v)) -> code_value_hash (v_core v') !! u8 c = told_values os (u8 c)) ->
     hw true k false Q v') ->
  hw i (let* _ := upd (fun c => c <| retry_times := 0 |>) in let* _ := remove_timeout kernel in
        let* _ := upd (fun c => c <| timeout := 0 |>) in let* secs := slift (get_lease fuel packet) in
        let* _ := upd (fun c => c <| lease_seconds := secs |>) in let* _ := get_request fuel packet in k) false Q v.
Proof.
  intros Hv Hw Ha Hs Hr Hc Hf Hk. eapply hw_bind, hw_upd; [done..|].
  eapply hw_bind, hw_remove_timeout. eapply hw_bind, hw_timeout0; [done|].
  eapply hw_bind. apply (hw_lift _ _ _ _ secs); [by apply (lease_time packet os)|]. eapply hw_bind, hw_upd; [done..|].
  set (v1 := rset v_core _ _).
  assert (settled foreach_order v1 /\ lease_seconds (v_core v1) = secs /\ cbs (v_core v1) = cbs (v_core v) /\
    request_list (v_core v1) = request_list (v_core v) /\ v_log v1 = v_log v) as (Hv1 & H1 & H2 & H3 & H4).
  { split; [|done]. by apply (settled_fields v); [| |apply Hv]. }
  clearbody v1. eapply hw_bind. unfold get_request. eapply hw_bind, hw_get. intros c Hcc.
  assert (request_list c = request_list (v_core v)) as -> by (rewrite <- H3; exact (f_equal request_list Hcc)).
  apply (hw_get_request_loop _ packet os); [done..|]. intros h Hh _. apply Hk; [|done..|].
  - by apply (settled_fields v1); [| |apply Hv1].
  - intros k' Hk'. apply Hh. by apply in_map.
Qed.

Lemma hw_start_bound i (Q : unit -> view -> Prop) v :
  Q tt (v <| v_core := v_core v <| state := BOUND |> |>
          <| v_pending := Some (Z.shiftr (lease_seconds (v_core v)) 1 * 1000, start_renew_timeout_fn) |>) ->
  hw i (start_bound kernel) false Q v.
Proof.
  intros HQ. eapply hw_bind, hw_upd; [done..|]. eapply hw_bind, hw_remove_timeout. eapply hw_bind, hw_get. intros c Hc.
  assert (lease_seconds c = lease_seconds (v_core v)) as -> by exact (f_equal lease_seconds Hc).
  by apply hw_arm_seconds.
Qed.

Lemma hw_handle_ack i packet os secs (Q : unit -> view -> Prop) v :
  settled foreach_order v -> wfp packet os -> addresses os -> opt_data DHCP_LEASE_TIME os = Some (put_be32 secs) ->
  10 <= secs < 2 ^ 28 -> Forall (fun c => address_code (u8 c)) (request_list (v_core v)) -> (388 <= fuel)%nat ->
  (forall v', leased (get_le32 packet off_yiaddr) secs os v v' -> Q tt v') ->
  hw i (handle_ack kernel stack fuel packet) false Q v.
Proof.
  intros Hv Hw Ha Hs Hr Hc Hf HQ. revert HQ. unfold handle_ack. generalize (get_le32 packet off_yiaddr). intros yi HQ.
  apply (hw_read_ack _ packet os secs); [done..|]. intros v1 Hv1 H1 H2 H3 H4. eapply hw_bind, hw_switch. intros _.
  apply hw_reassign; [apply Hv1|]. set (v2 := addressed yi v1).
  assert (settled foreach_order v2 /\ lease_seconds (v_core v2) = secs /\ cbs (v_core v2) = cbs (v_core v) /\ v_log v2 = v_log v /\
    code_value_hash (v_core v2) = code_value_hash (v_core v1) /\
    exists p, assigned_ip (v_core v2) = Some p /\ v_strings v2 !! p = Some (inet_ntoa yi)) as (Hv2 & F1 & F2 & F3 & F4 & F5).
  { split_and!; try done.
    - apply (settled_fields v1); [done|done|]. unfold live. eexists. apply lookup_insert_eq.
    - exists (v_next v1). split; [done|apply lookup_insert_eq]. }
  clearbody v2. eapply hw_bind, hw_notify. apply hw_start_bound, HQ.
  split; cbn [rset v_core v_pending v_strings v_log v_next]; [|done|done|done| | |].
  - by apply (settled_fields v2); [| |apply Hv2].
  - intros c Hcc. rewrite <- (H4 c Hcc), <- F4. done.
  - by rewrite <- F1.
  - unfold told. by rewrite F3, F2.
Qed.

End steps.

(** ** Frames and the socket they arrive at *)

(** The frames a process has sent. *)
Definition frame_of (e : event) : option (list Z) :=
  match ev_call e with SendTo _ frame _ => Some frame | _ => None end.

Definition frames_sent (t : list event) : list (list Z) := omap frame_of t.

Definition no_frame_b (c : call) : bool := match c with SendTo _ _ _ => false | _ => true end.

Lemma no_frames t t' : grows no_frame_b t t' -> frames_sent t' = frames_sent t.
Proof.
  intros (evs & -> & He). unfold frames_sent. rewrite omap_app. assert (omap frame_of evs = []) as ->; [|apply app_nil_r].
  induction He as [|ev evs He _ IH]; [done|]. cbn. unfold frame_of. destruct (ev_call ev); done.
Qed.

(** The client listens on the link. *)
Record listens (fd : Z) (s : cstate) : Prop := {
  li_mode : listen_mode (cl s) = L2;
  li_sockfd : listener_sockfd (cl s) = fd;
  li_watch : sources s !! listener_watch (cl s) = Some (Watch fd);
  li_ids : forall id src, sources s !! id = Some src -> 0 < id < next_source s;
  li_apart : forall fd', sources s !! timeout (cl s) <> Some (Watch fd');
}.

Lemma inv_listens D s fd :
  inv D 0 false s -> listen_mode (cl s) = L2 -> sources s !! listener_watch (cl s) = Some (Watch fd) -> listens fd s.
Proof.
  intros Hs Hm Hw. destruct (inv_watch _ _ _ _ Hs _ _ Hw) as (_ & _ & Hfd).
  split; [done|done|done|apply Hs|]. intros fd'. apply (inv_apart _ _ _ _ Hs).
Qed.

(** It goes on listening. *)
Definition stays (s s' : cstate) : Prop := forall fd, listens fd s -> listens fd s'.

#[export] Instance stays_preorder : PreOrder stays.
Proof. split; [by intros s fd|]. intros s1 s2 s3 H1 H2 fd Hs. by apply H2, H1. Qed.

Section listening.
Context (kernel : list event -> call -> Z * list Z).
Context (foreach_order : gmap Z (list Z) -> list (Z * list Z)).
Context (stack : list event -> list Z) (fuel : nat).

Lemma stays_get_cl : steps stays get_cl.
Proof. by intros s a s' [= <- <-]. Qed.

Lemma stays_upd f :
  (forall c, listen_mode (f c) = listen_mode c /\ listener_sockfd (f c) = listener_sockfd c /\
     listener_watch (f c) = listener_watch c /\ (timeout (f c) = timeout c \/ timeout (f c) <= 0)) -> steps stays (upd f).
Proof.
  intros Hf s a s' [= <- <-] fd [H1 H2 H3 H4 H5]. destruct (Hf (cl s)) as (E1 & E2 & E3 & E4).
  split; cbn [rset cl sources next_source]; rewrite ?E1, ?E2, ?E3; try done. intros fd'.
  destruct E4 as [->|Ht]; [done|]. intros E. apply H4 in E. lia.
Qed.

Lemma stays_net {A} (m : nio A) : steps stays (net m).
Proof. intros s a s'. unfold net. destruct (m (wd s)) as [[b w]|]; [|done]. by intros [= <- <-] fd [H1 H2 H3 H4 H5]. Qed.

Lemma stays_drop_timer : steps stays (let* c := get_cl in g_source_remove kernel (timeout c)).
Proof.
  intros s a s'. unfold sbind, get_cl, g_source_remove. intros E fd [H1 H2 H3 H4 H5].
  assert (s' = s <| sources := delete (timeout (cl s)) (sources s) |>) as ->.
  { destruct (sources s !! timeout (cl s)) as [[]|] eqn:Et; [|by destruct (H5 fd0)|]; by injection E as _ <-. }
  split; cbn [rset cl sources next_source]; try done.
  - rewrite lookup_delete_ne; [done|]. intros Et. apply (H5 fd). by rewrite Et.
  - intros id src [_ Hi]%lookup_delete_Some. by eapply H4.
  - intros fd'. by rewrite lookup_delete_eq.
Qed.

Lemma stays_arm ms f : steps stays (arm ms f).
Proof.
  intros s a s' [= <- <-] fd [H1 H2 H3 H4 H5]. split; cbn [rset cl sources next_source listen_mode listener_sockfd listener_watch timeout]; try done.
  - rewrite lookup_insert_ne; [done|]. apply H4 in H3. lia.
  - intros id src Hi. destruct (decide (id = next_source s)) as [->|Hn].
    + apply H4 in H3. lia.
    + rewrite lookup_insert_ne in Hi by done. apply H4 in Hi. lia.
  - intros fd'. by rewrite lookup_insert_eq.
Qed.

(** Switching to the link is nothing to a client that is there. *)
Lemma switch_noop fd s : listens fd s -> switch_listening_mode kernel stack L2 s = Some (0, s).
Proof. intros [Hm _ _ _ _]. unfold switch_listening_mode, sbind at 1, get_cl. by rewrite bool_decide_true. Qed.

End listening.

(** ** A frame arrives *)

Section arrival.
Context (kernel : list event -> call -> Z * list Z).
Context (inet_addr : list Z -> Z) (inet_ntop6 : list Z -> list Z).
Context (foreach_order : gmap Z (list Z) -> list (Z * list Z)).
Context (stack : list event -> list Z) (fuel : nat).
Context (stack_ok : forall t, sizeof_packet <= zlen (stack t) /\ Forall byte_ok (stack t)).

(** The next read of the socket gives this frame. *)
Definition arrives (s : cstate) (frame : list Z) : Prop :=
  kernel (w_trace (wd s)) (Read (listener_sockfd (cl s)) sizeof_frame) = (zlen frame, frame).

(** The state in which a received packet is handled. *)
Definition received_state (s : cstate) (frame : list Z) : cstate :=
  s <| cl := cl s <| status_code := 0 |> |>
    <| wd := called (Read (listener_sockfd (cl s)) sizeof_frame) (zlen frame) frame (wd s) |>.

(** A packet for the client, in a frame. *)
Record for_client (c : client) (pkt frame : list Z) : Prop := {
  fc_ok : packet_ok pkt;
  fc_framed : framed BOOTREPLY pkt;
  fc_xid : get_le32 pkt off_xid = xid c;
  fc_mac : field_at off_chaddr 6 pkt = mac_address c;
  fc_frame : exists src sp dst, raw_frame pkt src sp dst CLIENT_PORT = Some frame;
}.

Local Notation on_frame := (listener_event kernel inet_ntop6 foreach_order stack fuel false).

Lemma event_handles s fd pkt frame Q :
  listens fd s -> type (cl s) = G_DHCP_IPV4 -> zlen (mac_address (cl s)) = 6 -> for_client (cl s) pkt frame -> arrives s frame ->
  (forall old, zlen old = sizeof_packet -> Forall byte_ok old ->
     swp False (DhcpClient.handle_packet kernel foreach_order stack fuel (carried old pkt)) (fun _ => Q true) (received_state s frame)) ->
  swp False on_frame Q s.
Proof.
  intros [Hm _ _ _ _] Ht Hmac [Hok Hf Hx Hma (src & sp & dst & Hfr)] Hk HQ. pose proof Hf as (_ & Hhl & Hck).
  set (old := ztake sizeof_packet (stack (w_trace (wd s)))). destruct (stack_ok (w_trace (wd s))) as [Hl Hb].
  assert (zlen old = sizeof_packet) as Ho by (unfold old; unfold sizeof_packet in *; zlia).
  assert (Forall byte_ok old) as Hob by (unfold old, ztake; by apply Forall_take).
  specialize (HQ old Ho Hob).
  destruct (l2_frame_roundtrip kernel pkt src sp dst old (listener_sockfd (cl s)) (wd s) Hok Hck Ho) as (fr & Hfr' & _ & Hrecv).
  assert (fr = frame) as -> by congruence. specialize (Hrecv Hk). clear Hfr Hfr'.
  pose proof (carried_header old pkt (proj1 Hok) Ho) as Hh.
  assert (check_package_owner (cl s <| status_code := 0 |>) (carried old pkt) = true) as Hown.
  { unfold check_package_owner. rewrite (get_le32_header _ _ pkt), (byte_at_header _ _ pkt), (field_header _ _ _ pkt) by done.
    change (xid (cl s <| status_code := 0 |>)) with (xid (cl s)). change (mac_address (cl s <| status_code := 0 |>)) with (mac_address (cl s)).
    rewrite Hx, Hhl, Hma, Z.eqb_refl, ztake_all by lia. cbn. by rewrite bool_decide_true. }
  unfold listener_event. apply swp_bind, swp_get_cl. rewrite bool_decide_false by (rewrite Hm; done).
  apply swp_bind, swp_upd, swp_bind. unfold junk at 1, swp at 1. rewrite Hm, Ht.
  apply swp_bind, swp_bind. apply swp_net. unfold swp at 1.
  match goal with |- match ?m with _ => _ end => change m with (dhcp_recv_l2_packet kernel old (listener_sockfd (cl s)) (wd s)) end.
  rewrite Hrecv. fold (carried old pkt).
  unfold receive4. apply swp_bind, swp_get_cl. change (DHCP_SIZE <? 0) with false. cbv iota.
  match goal with |- context [check_package_owner ?c _] => change c with (cl s <| status_code := 0 |>) end.
  rewrite Hown. eapply swp_mono; [exact HQ|]. intros u s' H. apply swp_ret, H.
Qed.

(** *** The frames of a request *)

(** A frame that a client like [c] broadcasts, with a packet that depends on the
    seconds since it started. *)
Definition broadcast_frame (packet_of : client -> Z -> option (list Z)) (c : client) (frame : list Z) : Prop :=
  exists secs p, packet_of c secs = Some p /\ raw_frame p 0 CLIENT_PORT INADDR_BROADCAST SERVER_PORT = Some frame.

(** A frame that selects an offer, and one that looks for a server. *)
Definition select_frame : client -> list Z -> Prop := broadcast_frame (select_packet foreach_order).

Definition discover_frame : client -> list Z -> Prop :=
  broadcast_frame (fun c secs => discover_packet foreach_order c secs 0).

(** The client listens, and has sent these frames. *)
Definition at_frames (fd : Z) (fs : list (list Z)) (s : cstate) : Prop := listens fd s /\ frames_sent (w_trace (wd s)) = fs.

Lemma at_frames_steps {A} (m : cm A) fd fs s :
  steps stays m -> emits no_frame_b m -> at_frames fd fs s -> swp True m (fun _ => at_frames fd fs) s.
Proof.
  intros Hst Hem [Hl <-]. unfold swp. destruct (m s) as [[a s']|] eqn:E; [|done]. split; [by eapply Hst|].
  apply no_frames. exact (Hem _ _ _ E).
Qed.

Lemma frames_called c r d w :
  frames_sent (w_trace (called c r d w)) = frames_sent (w_trace w) ++ option_list (frame_of (mkEvent c r d)).
Proof. unfold called, frames_sent. cbn [w_trace]. rewrite omap_app. cbn. by destruct c. Qed.

Lemma close_errno_frames fd r fs w :
  frames_sent (w_trace w) = fs -> swp False (close_errno kernel fd r) (fun _ w' => frames_sent (w_trace w') = fs) w.
Proof. intros <-. apply swp_bind, swp_ncall_. intros c d _. apply swp_ret. rewrite frames_called. apply app_nil_r. Qed.

Lemma close_sent_frames fd n fs w :
  frames_sent (w_trace w) = fs -> swp False (close_sent kernel fd n) (fun _ w' => frames_sent (w_trace w') = fs) w.
Proof.
  intros Hw. unfold close_sent. destruct (n <? 0); [by apply close_errno_frames|].
  apply swp_bind, swp_ncall_. intros c d _. apply swp_ret. rewrite frames_called, Hw. apply app_nil_r.
Qed.

Lemma send_raw_frames pkt s sp d dp arp ifindex frame w :
  raw_frame pkt s sp d dp = Some frame ->
  swp False (dhcp_send_raw_packet kernel pkt s sp d dp arp ifindex)
    (fun _ w' => frames_sent (w_trace w') = frames_sent (w_trace w) \/
       frames_sent (w_trace w') = frames_sent (w_trace w) ++ [frame]) w.
Proof.
  intros Hf. unfold dhcp_send_raw_packet. apply swp_bind, swp_ncall_. intros fd d1 _.
  assert (forall c r d0 w0, no_frame_b c = true -> frames_sent (w_trace w0) = frames_sent (w_trace w) ->
    frames_sent (w_trace (called c r d0 w0)) = frames_sent (w_trace w)) as Hq.
  { intros c r d0 w0 Hc <-. rewrite frames_called. destruct c; try discriminate Hc; apply app_nil_r. }
  assert (frames_sent (w_trace (called (SocketOn AF_PACKET (htons ETH_P_IP)) fd d1 w)) = frames_sent (w_trace w)) as E1 by by apply Hq.
  revert E1. generalize (called (SocketOn AF_PACKET (htons ETH_P_IP)) fd d1 w). intros w1 E1.
  destruct (fd <? 0); [apply swp_ret; by left|]. apply swp_bind, swp_ncall_. intros r d2 _.
  apply (Hq (Bind fd (sockaddr_ll (htons ETH_P_IP) ifindex 0 0 6 (ztake 6 arp ++ [0; 0]))) r d2) in E1; [|done]. destruct (r <? 0).
  - eapply swp_mono; [by apply close_errno_frames|]. intros a w' Hw. by left.
  - rewrite Hf. apply swp_bind, swp_lift; [|done]. intros ? [= <-]. apply swp_bind, swp_ncall_. intros n d3 _.
    eapply swp_mono; [apply close_sent_frames, frames_called|]. intros a w' Hw. right. by rewrite Hw, E1.
Qed.

Lemma send_packet_frames packet_of fd fs s :
  at_frames fd fs s -> (forall secs, exists p, packet_of (cl s) secs = Some p /\ packet_ok p) ->
  swp True (let* c := get_cl in let* secs := dhcp_attempt_secs kernel in
            let* packet := slift (packet_of c secs) in broadcast kernel c packet)
    (fun _ s' => cl s' = cl s /\ exists more, at_frames fd (fs ++ more) s' /\ Forall (broadcast_frame packet_of (cl s)) more) s.
Proof.
  intros [Hl Hfs] Hp. apply swp_bind, swp_get_cl, swp_bind. unfold dhcp_attempt_secs.
  apply swp_bind, swp_get_cl, swp_bind, swp_net, swp_ncall_. intros r d _. apply swp_ret.
  set (secs := htons _). destruct (Hp secs) as (p & Hsel & Hok). rewrite Hsel. apply swp_bind, swp_lift; [|done]. intros ? [= <-].
  destruct (raw_frame_total p 0 CLIENT_PORT INADDR_BROADCAST SERVER_PORT Hok) as (x & y & Hf & _).
  unfold broadcast. apply swp_net. eapply swp_mono; [by eapply swp_total, send_raw_frames|]. intros a w' Hw. split; [done|].
  assert (frames_sent (w_trace (called Time r d (wd s))) = fs) as E.
  { rewrite <- Hfs. unfold called. cbn [w_trace]. unfold frames_sent. rewrite omap_app. apply app_nil_r. }
  cbn [rset wd] in Hw. rewrite E in Hw.
  set (frame := sent_header _ _ _ _ _ _ ++ _) in *.
  assert (forall more, frames_sent (w_trace w') = fs ++ more ->
    at_frames fd (fs ++ more) (s <| wd := called Time r d (wd s) |> <| wd := w' |>)) as Hat by (by destruct Hl).
  assert (broadcast_frame packet_of (cl s) frame) as Hf1 by (by exists secs, p).
  destruct Hw as [Hw|Hw].
  - exists []. split; [apply Hat; by rewrite app_nil_r|constructor].
  - exists [frame]. split; [by apply Hat|]. by constructor; [|constructor].
Qed.

Lemma drop_timer_frames fd fs s :
  at_frames fd fs s ->
  swp True (let* c := get_cl in g_source_remove kernel (timeout c)) (fun _ s' => cl s' = cl s /\ at_frames fd fs s') s.
Proof.
  intros Hs. unfold swp. destruct ((let* c := get_cl in g_source_remove kernel (timeout c)) s) as [[a s']|] eqn:E; [|done]. split.
  - revert E. unfold sbind, get_cl, g_source_remove. destruct (sources s !! timeout (cl s)) as [[]|]; [by intros [= _ <-]| |by intros [= _ <-]].
    unfold net. match goal with |- match ?m with _ => _ end = _ -> _ => destruct m as [[b w]|] end; [|done]. by intros [= _ <-].
  - eapply (at_frames_steps (let* c := get_cl in g_source_remove kernel (timeout c)) fd fs s) in Hs.
    + unfold swp in Hs. by rewrite E in Hs.
    + apply stays_drop_timer.
    + apply steps_bind; [apply _|apply em_get_cl|intros c; by apply em_source_remove].
Qed.

(** A client on its way to the request. *)
Record on_way (fd : Z) (fs : list (list Z)) (s : cstate) : Prop := {
  ow_frames : at_frames fd fs s;
  ow_ready : packet_ready foreach_order (cl s);
  ow_xid : 0 <= xid (cl s) < 2 ^ 32;
}.

Lemma swp_upd_way f fd fs (Q : unit -> cstate -> Prop) s :
  (forall c, listen_mode (f c) = listen_mode c /\ listener_sockfd (f c) = listener_sockfd c /\
     listener_watch (f c) = listener_watch c /\ (timeout (f c) = timeout c \/ timeout (f c) <= 0)) ->
  (forall c, (xid (f c) = xid c \/ 0 <= xid (f c) < 2 ^ 32) /\ mac_address (f c) = mac_address c /\
     request_list (f c) = request_list c /\ send_value_hash (f c) = send_value_hash c) ->
  on_way fd fs s -> (forall s', on_way fd fs s' -> retry_times (cl s') = retry_times (f (cl s)) -> Q tt s') ->
  swp True (upd f) Q s.
Proof.
  intros Hf Hg [[Hl Hfs] [H1 H2 H3] Hx] HQ. apply swp_upd. apply HQ; [|done]. destruct (Hg (cl s)) as (E1 & E2 & E3 & E4).
  split; [split; [|done]| |]; cbn [rset cl].
  - by apply (stays_upd f Hf s tt _ eq_refl fd).
  - by split; rewrite ?E2, ?E3, ?E4.
  - by destruct E1 as [->|?].
Qed.

Lemma offer_frames fd fs packet s :
  at_frames fd fs s -> ready foreach_order (cl s) ->
  swp True (handle_offer kernel foreach_order stack fuel packet)
    (fun _ s' => exists more, at_frames fd (fs ++ more) s' /\ Forall (select_frame (cl s')) more) s.
Proof.
  intros Hs [Hr Hx]. unfold handle_offer, swp. rewrite drop_timer_split.
  match goal with |- match ?m ?s with _ => _ end => change (swp True m (fun _ s' => exists more, at_frames fd (fs ++ more) s' /\ Forall (select_frame (cl s')) more) s) end.
  apply swp_bind. eapply swp_mono; [by apply drop_timer_frames|]. intros _ s1 [E1 Hs1].
  assert (on_way fd fs s1) as Hw1 by (split; [done|by rewrite E1..]). clear E1.
  apply swp_bind, (swp_upd_way _ fd fs); [intros c; split_and!; [done..|by right]|auto|done|]. intros s2 Hw2 _.
  apply swp_bind, (swp_upd_way _ fd fs); [auto|auto|done|]. intros s3 Hw3 Hre. cbn [rset retry_times] in Hre.
  apply swp_bind, swp_lift; [|done]. intros [p|] _; [|done].
  apply swp_bind, (swp_upd_way _ fd fs); [auto|auto|done|]. intros s4 Hw4 Hre4. cbn [rset retry_times] in Hre4. rewrite Hre in Hre4.
  unfold start_request. apply swp_bind, swp_get_cl. rewrite Hre4. change (0 =? REQUEST_RETRIES) with false.
  change (0 =? 0) with true. cbv iota. apply swp_bind, swp_bind, (swp_upd_way _ fd fs); [auto|auto|done|]. intros s5 [Hs5 Hr5 Hx5] _.
  apply swp_bind. unfold swp at 1. rewrite (switch_noop kernel stack fd) by apply Hs5. apply swp_ret, swp_bind.
  eapply swp_mono; [apply (send_packet_frames (select_packet foreach_order) fd fs); [done|]|].
  { intros secs. destruct (select_packet_says foreach_order (cl s5) secs Hr5 Hx5) as (q & Hq & Hsays & _). exists q.
    split; [done|apply Hsays]. }
  intros _ s6 (E6 & more & Hs6 & Hall). unfold swp.
  destruct (arm_seconds REQUEST_TIMEOUT request_timeout_fn s6) as [[[] s7]|] eqn:E7; [|done]. exists more. split.
  - eapply (at_frames_steps (arm_seconds REQUEST_TIMEOUT request_timeout_fn)) in Hs6.
    + unfold swp in Hs6. by rewrite E7 in Hs6.
    + apply stays_arm.
    + unfold arm_seconds, arm, g_timeout_add. em_go.
  - injection E7 as <-. eapply Forall_impl; [exact Hall|]. intros f Hf. rewrite <- E6 in Hf. exact Hf.
Qed.

(** *** The frames of a start *)

Lemma quiet_frames {A} (m : cm A) s : emits no_frame_b m ->
  swp True m (fun _ s' => frames_sent (w_trace (wd s')) = frames_sent (w_trace (wd s))) s.
Proof. intros Hm. unfold swp. destruct (m s) as [[a s']|] eqn:E; [|done]. apply no_frames. exact (Hm _ _ _ E). Qed.

Lemma swp_and {S A} (m : sfm S A) (P Q : A -> S -> Prop) s :
  swp True m P s -> swp True m Q s -> swp True m (fun a s' => P a s' /\ Q a s') s.
Proof. unfold swp. by destruct (m s) as [[a s']|]. Qed.

(** A socket that could be opened is watched. *)
Lemma switch_opens s :
  listen_mode (cl s) = L_NONE ->
  swp True (switch_listening_mode kernel stack L2)
    (fun r s' => r = 0 -> listen_mode (cl s') = L2 /\
       sources s' !! listener_watch (cl s') = Some (Watch (listener_sockfd (cl s')))) s.
Proof.
  intros Hm. unfold switch_listening_mode. apply swp_bind, swp_get_cl. rewrite bool_decide_false by (by rewrite Hm).
  apply swp_bind. unfold close_listener. apply swp_bind, swp_get_cl. rewrite bool_decide_true by exact Hm. apply swp_ret.
  rewrite bool_decide_false by done. unfold open_listener. apply swp_bind, swp_bind, swp_net.
  unfold swp at 1. destruct (dhcp_l2_socket _ _ _) as [[fd w]|]; [|done]. apply swp_ret.
  destruct (fd <? 0); [by apply swp_ret|]. apply swp_bind, swp_net, swp_ncall_. intros ch d _.
  destruct (ch <? 0).
  - apply swp_bind, swp_net, swp_ncall_. intros r d2 _. by apply swp_ret.
  - apply swp_bind, swp_upd, swp_bind. unfold add_source, swp at 1. apply swp_bind, swp_upd, swp_ret. intros _.
    split; [reflexivity|]. apply lookup_insert_eq.
Qed.

(** The client's address and what it asks for stay the same. *)
Definition same_settings (s s' : cstate) : Prop :=
  request_list (cl s') = request_list (cl s) /\ mac_address (cl s') = mac_address (cl s).

#[local] Instance same_settings_preorder : PreOrder same_settings.
Proof. split; [by intros s|]. intros s1 s2 s3 [H1 H2] [H3 H4]. split; congruence. Qed.

Lemma st_same {A} (m : cm A) : (forall s a s', m s = Some (a, s') -> cl s' = cl s) -> steps same_settings m.
Proof. intros Hm s a s' Hs. unfold same_settings. by rewrite (Hm _ _ _ Hs). Qed.

Lemma st_upd f : (forall c, request_list (f c) = request_list c /\ mac_address (f c) = mac_address c) -> steps same_settings (upd f).
Proof. intros Hf s a s' [= _ <-]. apply Hf. Qed.

Lemma st_get_cl : steps same_settings get_cl.
Proof. by apply st_same; intros s a s' [= _ <-]. Qed.

Lemma st_net {A} (m : nio A) : steps same_settings (net m).
Proof. apply st_same. intros s a s'. unfold net. destruct (m (wd s)) as [[b w]|]; [|done]. by intros [= _ <-]. Qed.

Lemma st_g_free p : steps same_settings (g_free p).
Proof. apply st_same. intros s a s'. unfold g_free. destruct p as [p|]; [destruct (_ !! _)|]; by intros [= _ <-]. Qed.

Lemma st_add_source src : steps same_settings (add_source src).
Proof. apply st_same. by intros s a s' [= _ <-]. Qed.

Lemma st_source_remove id : steps same_settings (g_source_remove kernel id).
Proof.
  intros s a s'. unfold g_source_remove. destruct (sources s !! id) as [[]|]; [by intros [= _ <-]| |by intros [= _ <-]].
  intros Hs. by apply st_net in Hs.
Qed.

#[local] Hint Resolve st_get_cl st_g_free st_add_source st_source_remove st_net : steps.
#[local] Hint Extern 1 (steps same_settings (upd _)) => apply st_upd; split; reflexivity : steps.

Lemma st_start : steps same_settings (start_ipv4 kernel inet_addr foreach_order stack None).
Proof. steps_go. Qed.

(** What is left of the state before the socket is opened. *)
Lemma start_prefix D s F :
  inv D 0 true s -> ready foreach_order (cl s) -> listen_mode (cl s) = L_NONE -> frames_sent (w_trace (wd s)) = F ->
  swp True (let* _ := clear_assigned_ip in upd (fun c => c <| state := INIT_SELECTING |>))
    (fun _ s' => inv D 0 true s' /\ ready foreach_order (cl s') /\ listen_mode (cl s') = L_NONE /\ frames_sent (w_trace (wd s')) = F) s.
Proof.
  intros Hs Hr Hm HF. apply swp_bind.
  assert (swp True clear_assigned_ip (fun _ s' => (inv D 0 true s' /\ frames_sent (w_trace (wd s')) = F) /\
    exists a, cl s' = cl s <| assigned_ip := a |>) s) as Hc.
  { apply swp_and; [apply swp_and; [by apply tri_clear_assigned|rewrite <- HF; apply quiet_frames; em_go]|].
    unfold clear_assigned_ip. apply swp_bind, swp_get_cl, swp_bind. unfold g_free, swp at 1.
    destruct (assigned_ip (cl s)) as [p|]; [destruct (strings s !! p); [|done]|]; apply swp_upd; by exists None. }
  eapply swp_mono; [exact Hc|]. intros _ s1 [[Hs1 HF1] (a & E1)].
  assert (ready foreach_order (cl s1) /\ listen_mode (cl s1) = L_NONE) as [Hr1 Hm1].
  { rewrite E1. destruct Hr as [[] Hx]. split; [split; [by split|done]|done]. }
  clear E1 Hc. pose proof (tri_upd true (fun c => c <| state := INIT_SELECTING |>) ltac:(done) D 0 s1 Hs1) as Hu.
  apply swp_upd. split; [exact Hu|]. destruct Hr1 as [[] Hx]. split; [split; [by split|done]|done].
Qed.

Lemma swp_seq {S A B C} (m : sfm S A) (k : sfm S B) (rest : sfm S C) (Q : C -> S -> Prop) s :
  swp True (let* _ := m in k) (fun _ => swp True rest Q) s -> swp True (let* _ := m in let* _ := k in rest) Q s.
Proof. unfold swp, sbind. destruct (m s) as [[a s1]|]; [|done]. by destruct (k s1) as [[b s2]|]. Qed.

Lemma on_way_called fd fs c r d s :
  no_frame_b c = true -> on_way fd fs s -> on_way fd fs (s <| wd := called c r d (wd s) |>).
Proof.
  intros Hc [[Hl Hf] Hr Hx]. split; [|done|done]. split; [by destruct Hl|]. rewrite <- Hf. unfold called, frames_sent.
  cbn [rset wd w_trace]. rewrite omap_app. cbn. unfold frame_of. cbn [ev_call]. destruct c; try done; apply app_nil_r.
Qed.

(** From the listening socket on. *)
Lemma seed_way fd fs s :
  on_way fd fs s ->
  swp True (let* x := net (ncall_ kernel Rand) in let* now := net (ncall_ kernel Time) in
            let* _ := upd (fun c => c <| xid := u32 x |> <| start := now |>) in sret 0)
    (fun r s' => r = 0 /\ on_way fd fs s') s.
Proof.
  intros Hs. apply swp_bind, swp_net, swp_ncall_. intros x d1 _. apply swp_bind, swp_net, swp_ncall_. intros now d2 _.
  apply (on_way_called _ _ Rand x d1) in Hs; [|done]. apply (on_way_called _ _ Time now d2) in Hs; [|done].
  apply swp_bind, (swp_upd_way _ fd fs); [auto| |exact Hs|].
  { intros c. split; [right; apply Z.mod_pos_bound; lia|done]. }
  intros s2 Hs2 _. by apply swp_ret.
Qed.

Lemma discover_frames fd fs s :
  on_way fd fs s ->
  swp True (let* _ := send_discover kernel foreach_order 0 in
            let* _ := arm_seconds DISCOVER_TIMEOUT discover_timeout_fn in sret 0)
    (fun r s' => exists more, at_frames fd (fs ++ more) s' /\ Forall (discover_frame (cl s')) more) s.
Proof.
  intros [Hs Hr Hx]. apply swp_bind.
  eapply swp_mono; [apply (send_packet_frames (fun c secs => discover_packet foreach_order c secs 0) fd fs); [done|]|].
  { intros secs. destruct (discover_packet_says foreach_order (cl s) secs 0 Hr Hx) as (q & Hq & Hsays & _). exists q.
    split; [done|apply Hsays]. }
  intros _ s3 (E3 & more & Hs3 & Hall). apply swp_bind. unfold swp.
  destruct (arm_seconds DISCOVER_TIMEOUT discover_timeout_fn s3) as [[[] s4]|] eqn:E4; [|done]. exists more. split.
  - eapply (at_frames_steps (arm_seconds DISCOVER_TIMEOUT discover_timeout_fn)) in Hs3.
    + unfold swp in Hs3. by rewrite E4 in Hs3.
    + apply stays_arm.
    + unfold arm_seconds, arm, g_timeout_add. em_go.
  - injection E4 as <-. eapply Forall_impl; [exact Hall|]. intros f Hf. rewrite <- E3 in Hf. exact Hf.
Qed.

(** The first start of a client that does not listen yet: if it succeeds the
    client listens, and the frames it has sent look for a server. *)
Lemma start_frames D s :
  inv D 0 true s -> ready foreach_order (cl s) -> type (cl s) = G_DHCP_IPV4 -> retry_times (cl s) = 0 -> listen_mode (cl s) = L_NONE ->
  swp True (g_dhcp_client_start kernel inet_addr foreach_order stack fuel None)
    (fun r s' => same_settings s s' /\
       (r = 0 -> exists fd more, at_frames fd (frames_sent (w_trace (wd s)) ++ more) s' /\ Forall (discover_frame (cl s')) more)) s.
Proof.
  intros Hs Hr Ht Hre Hm. unfold g_dhcp_client_start. apply swp_bind, swp_get_cl. rewrite Ht.
  apply swp_and; [apply (steps_swp same_settings), st_start|]. unfold start_ipv4. apply swp_bind, swp_get_cl. rewrite Hre.
  change (0 =? DISCOVER_RETRIES) with false. change (0 =? 0) with true. cbv iota. apply swp_bind, swp_seq.
  eapply swp_mono; [exact (start_prefix D s _ Hs Hr Hm eq_refl)|]. intros _ s1 (Hs1 & Hr1 & Hm1 & HF). apply swp_bind.
  assert (swp True (switch_listening_mode kernel stack L2) (fun r s' => (inv D 0 true s' /\ view_of 0 s' = view_of 0 s1) /\
    (frames_sent (w_trace (wd s')) = frames_sent (w_trace (wd s1)) /\ (r = 0 -> listen_mode (cl s') = L2 /\
       sources s' !! listener_watch (cl s') = Some (Watch (listener_sockfd (cl s')))))) s1) as Hsw.
  { apply swp_and; [apply swp_total, switch_spec, Hs1|apply swp_and; [apply quiet_frames|by apply switch_opens]].
    assert (forall id, emits no_frame_b (g_source_remove kernel id)) as Hrem by (intros; by apply em_source_remove).
    em_go. }
  eapply swp_mono; [exact Hsw|]. clear Hsw. intros r s2 ((Hs2 & Hv2) & HF2 & Hopen).
  destruct (Z.eqb_spec r 0) as [->|Hne]; cbn [negb].
  - destruct (Hopen eq_refl) as [Hm2 Hw2].
    assert (on_way (listener_sockfd (cl s2)) (frames_sent (w_trace (wd s))) s2) as Hway.
    { assert (ready foreach_order (cl s2)) as [Hr2 Hx2].
      { apply ready_core. assert (core (cl s2) = core (cl s1)) as -> by exact (f_equal v_core Hv2).
        destruct Hr1 as [[] Hx]. split; [by split|done]. }
      split; [|done|done]. split; [|congruence]. eapply inv_listens; [by eapply inv_weaken|done|done]. }
    eapply swp_mono; [by apply seed_way|]. intros r' s3 [-> Hs3]. change (0 =? 0) with true. cbn [negb]. cbv iota.
    apply swp_bind, swp_ret. eapply swp_mono; [by apply discover_frames|]. intros r4 s4 (more & Hat & Hall) _.
    by exists (listener_sockfd (cl s2)), more.
  - apply swp_ret. rewrite (proj2 (Z.eqb_neq _ _)) by done. cbn [negb]. apply swp_ret. intros ?. done.
Qed.

(** *** A reply is handled *)

Lemma received_inv D s frame :
  inv D 0 false s ->
  inv D 0 false (received_state s frame) /\
  view_of 0 (received_state s frame) = view_of 0 s <| v_core := v_core (view_of 0 s) <| status_code := 0 |> |>.
Proof.
  intros [H1 H2 H3 H4 H5 H0 H6 H7 H8]. split; [by split|].
  unfold received_state, view_of. cbn [rset cl wd sources strings next_string v_core]. f_equal.
  unfold callbacks, called. cbn [w_trace]. rewrite omap_app. apply app_nil_r.
Qed.

Lemma received_frames fd fs s frame : at_frames fd fs s -> at_frames fd fs (received_state s frame).
Proof.
  intros [[H1 H2 H3 H4 H5] Hf]. split; [by split|]. rewrite <- Hf. unfold received_state, called, frames_sent.
  cbn [rset wd w_trace]. rewrite omap_app. apply app_nil_r.
Qed.

Lemma swp_both {S A} (m : sfm S A) (P Q : A -> S -> Prop) s :
  swp False m P s -> swp True m Q s -> swp False m (fun a s' => P a s' /\ Q a s') s.
Proof. unfold swp. by destruct (m s) as [[a s']|]. Qed.

Local Notation react := (dispatch kernel inet_addr inet_ntop6 foreach_order stack fuel).

Lemma reply_handled s fd pkt frame (Q : cstate -> Prop) :
  listens fd s -> type (cl s) = G_DHCP_IPV4 -> zlen (mac_address (cl s)) = 6 -> for_client (cl s) pkt frame -> arrives s frame ->
  (forall old, zlen old = sizeof_packet -> Forall byte_ok old ->
     swp False (DhcpClient.handle_packet kernel foreach_order stack fuel (carried old pkt)) (fun _ => Q) (received_state s frame)) ->
  exists s', react (listener_watch (cl s)) false s = Some (tt, s') /\ Q s'.
Proof.
  intros Hl Ht Hm Hc Ha HQ. assert (swp False on_frame (fun keep s' => keep = true /\ Q s') s) as Hev.
  { eapply event_handles; [done..|]. intros old Ho Hob. eapply swp_mono; [by apply HQ|]. done. }
  unfold dispatch, sbind at 1, lookup_source. rewrite (li_watch _ _ Hl). unfold sbind at 1. unfold swp in Hev.
  destruct (on_frame s) as [[keep s']|]; [|done]. destruct Hev as [-> Hq]. by exists s'.
Qed.

(** The handler of a message, by the client's state. *)
Lemma handles_offer F packet os (Q : unit -> cstate -> Prop) s :
  wfp packet os -> (388 <= fuel)%nat -> opt_data DHCP_MESSAGE_TYPE os = Some [DHCPOFFER] -> state (cl s) = INIT_SELECTING ->
  swp F (handle_offer kernel foreach_order stack fuel packet) Q s ->
  swp F (DhcpClient.handle_packet kernel foreach_order stack fuel packet) Q s.
Proof.
  intros Hw Hf Ht Hst HQ. pose proof (wfp_option packet os fuel DHCP_MESSAGE_TYPE Hw ltac:(done) Hf) as Hp. rewrite Ht in Hp.
  destruct Hp as (p & Hp & Hp0 & _ & Hd). apply field_byte in Hd; [|done]. unfold DhcpClient.handle_packet, find_option. rewrite Hp.
  apply swp_bind, swp_lift; [|done]. intros ? [= <-]. apply swp_bind, swp_get_cl. by rewrite Hst, Hd.
Qed.

Lemma handles_ack F packet os (Q : unit -> cstate -> Prop) s :
  wfp packet os -> (388 <= fuel)%nat -> opt_data DHCP_MESSAGE_TYPE os = Some [DHCPACK] -> state (cl s) = REQUESTING ->
  swp F (handle_ack kernel stack fuel packet) Q s ->
  swp F (DhcpClient.handle_packet kernel foreach_order stack fuel packet) Q s.
Proof.
  intros Hw Hf Ht Hst HQ. pose proof (wfp_option packet os fuel DHCP_MESSAGE_TYPE Hw ltac:(done) Hf) as Hp. rewrite Ht in Hp.
  destruct Hp as (p & Hp & Hp0 & _ & Hd). apply field_byte in Hd; [|done]. unfold DhcpClient.handle_packet, find_option. rewrite Hp.
  apply swp_bind, swp_lift; [|done]. intros ? [= <-]. apply swp_bind, swp_get_cl. by rewrite Hst, Hd.
Qed.

Lemma settled_status v : settled foreach_order v -> settled foreach_order (v <| v_core := v_core v <| status_code := 0 |> |>).
Proof. intros Hv. by apply (settled_upd foreach_order v (fun c => c <| status_code := 0 |>)). Qed.

Lemma carried_yiaddr old pkt :
  zlen pkt = sizeof_packet -> zlen old = sizeof_packet -> get_le32 (carried old pkt) off_yiaddr = get_le32 pkt off_yiaddr.
Proof. intros Hp Ho. apply get_le32_header; [done..|by apply carried_header]. Qed.

(** An offer arrives: the client requests the address, and the frames it sends
    say so. *)
Lemma offer_arrives D s fd pkt frame os sid :
  inv D 0 false s -> listens fd s -> settled foreach_order (view_of 0 s) -> state (cl s) = INIT_SELECTING ->
  for_client (cl s) pkt frame -> wfp pkt os -> short os -> opt_data DHCP_MESSAGE_TYPE os = Some [DHCPOFFER] ->
  opt_data DHCP_SERVER_ID os = Some (put_be32 sid) -> 0 <= sid < 2 ^ 32 -> (388 <= fuel)%nat -> arrives s frame ->
  exists s' more, react (listener_watch (cl s)) false s = Some (tt, s') /\ inv D 0 false s' /\
    requesting foreach_order sid (ntohl (get_le32 pkt off_yiaddr)) (view_of 0 s) (view_of 0 s') /\
    at_frames fd (frames_sent (w_trace (wd s)) ++ more) s' /\ Forall (select_frame (cl s')) more.
Proof.
  intros Hs Hl Hv Hst Hc Hw Hsh Hty Hsid Hr Hf Ha. pose proof Hv as [Ht [[Hm _ _] _] _ _].
  destruct (received_inv D s frame Hs) as [Hs1 Hv1].
  assert (at_frames fd (frames_sent (w_trace (wd s))) s) as Hat by done. apply (received_frames _ _ _ frame) in Hat.
  destruct (reply_handled s fd pkt frame (fun s' => (inv D 0 false s' /\
      requesting foreach_order sid (ntohl (get_le32 pkt off_yiaddr)) (view_of 0 s) (view_of 0 s')) /\
    exists more, at_frames fd (frames_sent (w_trace (wd s)) ++ more) s' /\ Forall (select_frame (cl s')) more))
    as (s' & Hd & (Hs' & Hq) & more & Hat' & Hall); [exact Hl|exact Ht|apply Hm|exact Hc|exact Ha| |by exists s', more].
  intros old Ho Hob. pose proof (carried_wfp old pkt os Hw Hsh Ho Hob) as Hwc.
  apply (handles_offer _ _ os); [done..|]. apply (swp_both _ (fun _ s' => inv D 0 false s' /\ _)).
  - rewrite <- (carried_yiaddr old pkt) by (done || apply Hc).
    apply (hw_handle_offer kernel foreach_order stack fuel D 0 false _ os sid
      (fun _ => requesting foreach_order sid (ntohl (get_le32 (carried old pkt) off_yiaddr)) (view_of 0 s))
      (view_of 0 (received_state s frame))); [rewrite Hv1; by apply settled_status|done..| |done|done].
    intros v' [Q1 Q2 Q3 Q4 Q5 Q6 Q7]. by rewrite Hv1 in *.
  - apply offer_frames; [done|]. apply ready_core, (settled_ready _ (view_of 0 (received_state s frame))).
    rewrite Hv1. by apply settled_status.
Qed.

(** An acknowledgement arrives: the client has its lease. *)
Lemma ack_arrives D s fd pkt frame os secs :
  inv D 0 false s -> listens fd s -> settled foreach_order (view_of 0 s) -> state (cl s) = REQUESTING ->
  for_client (cl s) pkt frame -> wfp pkt os -> short os -> opt_data DHCP_MESSAGE_TYPE os = Some [DHCPACK] -> addresses os ->
  opt_data DHCP_LEASE_TIME os = Some (put_be32 secs) -> 10 <= secs < 2 ^ 28 ->
  Forall (fun c => address_code (u8 c)) (request_list (cl s)) -> (388 <= fuel)%nat -> arrives s frame ->
  exists s', react (listener_watch (cl s)) false s = Some (tt, s') /\ inv D 0 false s' /\
    leased foreach_order (get_le32 pkt off_yiaddr) secs os (view_of 0 s) (view_of 0 s').
Proof.
  intros Hs Hl Hv Hst Hc Hw Hsh Hty Had Hsecs Hr Hcodes Hf Ha. pose proof Hv as [Ht [[Hm _ _] _] _ _].
  destruct (received_inv D s frame Hs) as [Hs1 Hv1].
  apply (reply_handled s fd pkt frame (fun s' => inv D 0 false s' /\
    leased foreach_order (get_le32 pkt off_yiaddr) secs os (view_of 0 s) (view_of 0 s')));
    [exact Hl|exact Ht|apply Hm|exact Hc|exact Ha|].
  intros old Ho Hob. pose proof (carried_wfp old pkt os Hw Hsh Ho Hob) as Hwc.
  apply (handles_ack _ _ os); [done..|]. rewrite <- (carried_yiaddr old pkt) by (done || apply Hc).
  apply (hw_handle_ack kernel foreach_order stack fuel D 0 false _ os secs
    (fun _ => leased foreach_order (get_le32 (carried old pkt) off_yiaddr) secs os (view_of 0 s))
    (view_of 0 (received_state s frame))); try done; [rewrite Hv1; by apply settled_status|].
  intros v' [Q1 Q2 Q3 Q4 Q5 Q6 Q7]. by rewrite Hv1 in *.
Qed.

End arrival.
