(* ===== verification/DhcpHandshake.v ===== *)
(** * A DHCP client and a DHCP server.

    The two programs of [DhcpClient.v] and [DhcpServer.v] on one link: the
    packets of each arrive in frames at the other, from the discover to the
    lease. *)

From stdpp Require Import gmap gmultiset.
From S2P Require Import Prelude RecordSet StateFail CLib Bytes DhcpCommon DhcpServer DhcpHandlers DhcpReplies Posix DhcpNet DhcpClientBase DhcpClient6 DhcpClient DhcpClientPackets DhcpClientFacts DhcpClientLife DhcpClientRuns DhcpLeased.

(** ** What a frame carries *)

(** What the system hands to a UDP socket of a frame. *)
Definition payload (frame : list Z) : list Z := zdrop (sizeof_ip + sizeof_udp) frame.

Lemma payload_raw pkt s sp d dp frame :
  packet_ok pkt -> raw_frame pkt s sp d dp = Some frame -> payload frame = ztake DHCP_SIZE pkt.
Proof.
  intros Hp. destruct (raw_frame_total pkt s sp d dp Hp) as (c & c' & -> & _). intros [= <-]. unfold payload.
  reflexivity.
Qed.

(** The frame of a packet of the server. *)
Definition reply_frame (p : sent_packet) : option (list Z) :=
  raw_frame (p_data p) (p_src p) SERVER_PORT (p_dst p) CLIENT_PORT.

(** *** What the client reads in an answer *)

Lemma numbers_data os code d :
  Forall number_opt os -> opt_data code os = Some d -> exists x, d = put_be32 x.
Proof.
  induction 1 as [|o os (c & v & -> & _) _ IH]; [done|]. cbn. destruct (c =? code); [intros [= <-]; by exists v|done].
Qed.

Section answers.
Context (inet_aton : list Z -> option Z) (foreach_order : gmap Z (list Z) -> list (Z * list Z)).

Lemma configured_numbers c : Forall number_opt (configured_opts inet_aton foreach_order c).
Proof.
  unfold configured_opts. induction (foreach_order (option_hash c)) as [|[k v] kvs IH]; [constructor|].
  cbn [omap list_omap]. unfold configured_opt at 1. cbn [fst snd]. destruct (known_option (u8 k)) eqn:Hk; [|done].
  destruct (inet_aton v) as [nip|]; [|done]. cbn. constructor; [|done]. exists (u8 k), (ntohl nip).
  split; [done|by apply known_code].
Qed.

Lemma configured_size c : zlen (enc_opts (configured_opts inet_aton foreach_order c)) <= 6 * zlen (foreach_order (option_hash c)).
Proof.
  unfold configured_opts. induction (foreach_order (option_hash c)) as [|kv kvs IH]; [done|].
  cbn [omap list_omap]. rewrite zlen_cons. unfold configured_opt at 1.
  destruct (known_option _); [destruct (inet_aton _) as [nip|]|]; cbn [option_map]; [|etrans; [exact IH|lia]..].
  unfold enc_opts at 1. cbn [map concat]. rewrite zlen_app. change (zlen (enc _)) with 6. apply (Z.add_le_mono_l _ _ 6) in IH.
  etrans; [exact IH|lia].
Qed.

(** The options of an answer of the server; those it is configured with are
    all there if they are few. *)
Lemma answers_options c type yiaddr client p :
  answers inet_aton foreach_order c type yiaddr client p -> exists os,
    wfp p os /\ short os /\ opt_data DHCP_MESSAGE_TYPE os = Some [type] /\
    opt_data DHCP_SERVER_ID os = Some (put_be32 (server_nip c)) /\
    opt_data DHCP_LEASE_TIME os = Some (put_be32 (DhcpServer.lease_seconds c)) /\ addresses os /\
    (zlen (foreach_order (option_hash c)) <= 3 -> forall code, address_code code ->
       opt_data code os = opt_data code (configured_opts inet_aton foreach_order c)).
Proof.
  intros [Hb He _ _ _ _]. set (pre := [mtype_opt type; Opt DHCP_SERVER_ID (put_be32 (server_nip c));
    Opt DHCP_LEASE_TIME (put_be32 (DhcpServer.lease_seconds c))]) in *.
  assert (forall os, Forall number_opt os -> addresses (pre ++ os)) as Ha.
  { intros os Hn code d Hc. rewrite opt_data_app. destruct Hc as [<-|[<-|[<-|[]]]]; cbn; by apply numbers_data. }
  assert (forall os code, address_code code -> opt_data code (pre ++ os) = opt_data code os) as Hskip.
  { intros os code [<-|[<-|[<-|[]]]]; rewrite opt_data_app; done. }
  destruct (Z.leb_spec (zlen (foreach_order (option_hash c))) 3) as [H3|H3].
  - exists (pre ++ configured_opts inet_aton foreach_order c). split_and!; [by apply He| |done..|apply Ha, configured_numbers|].
    + unfold short. rewrite enc_opts_app, zlen_app. pose proof (configured_size c). change (zlen (enc_opts pre)) with 15.
      unfold DHCP_OPTIONS_BUFSIZE. lia.
    + intros _ code Hc. by apply Hskip.
  - destruct Hb as (os & Hw & Hs & Hn). exists (pre ++ os). split_and!; [done..|by apply Ha|lia].
Qed.
End answers.

(** ** The exchange *)

Section handshake.
Context (clock : nat -> Z) (inet_aton : list Z -> option Z).
Context (kernel : list event -> call -> Z * list Z).
Context (inet_addr : list Z -> Z) (inet_ntop6 : list Z -> list Z) (inet_pton6 : list Z -> option (list Z)).
Context (foreach_order : gmap Z (list Z) -> list (Z * list Z)).
Context (stack : list event -> list Z) (fuel : nat).

(** A frame arrives at the server; a source of the client runs. *)
Local Notation receives frame := (DhcpServer.listener_event clock inet_aton foreach_order fuel false (inl (payload frame))).
Local Notation react := (dispatch kernel inet_addr inet_ntop6 foreach_order stack fuel).
Local Notation reach := (client_reach kernel inet_addr inet_ntop6 foreach_order stack fuel inet_pton6).

Lemma receives_step (P : server -> Prop) frame d sv :
  dhcp_recv_l3_packet fuel (inl (payload frame)) = Some (DHCP_SIZE, d) ->
  swp False (DhcpServer.handle_packet clock inet_aton foreach_order fuel d) (fun _ => P) sv ->
  exists sv', receives frame sv = Some (true, sv') /\ P sv'.
Proof.
  intros Hd HP. unfold DhcpServer.listener_event, sbind at 1, get, sget. unfold sbind at 1, slift. rewrite Hd. cbn [option_map].
  change (DHCP_SIZE <? 0) with false. cbv iota. unfold sbind at 1. unfold swp in HP.
  destruct (DhcpServer.handle_packet _ _ _ _ d sv) as [[u sv']|]; [by exists sv'|done].
Qed.

Lemma field_prefix off n m p q : 0 <= n <= m -> field_at off m p = field_at off m q -> field_at off n p = field_at off n q.
Proof. unfold field_at. intros Hn H. apply (f_equal (ztake n)) in H. by rewrite !ztake_ztake, !Z.min_l in H by lia. Qed.

(** An answer to a client's packet reaches that client. *)
Lemma answer_arrives c type yiaddr d q client :
  answers inet_aton foreach_order c type yiaddr d (p_data q) -> get_le32 d off_xid = xid client ->
  field_at off_chaddr 6 d = mac_address client ->
  exists frame, reply_frame q = Some frame /\ for_client client (p_data q) frame.
Proof.
  intros [(os & Hw & _) _ Hf _ Hx Hm] Hxid Hmac. pose proof (wfp_packet_ok _ _ Hw) as Hok.
  destruct (raw_frame_total (p_data q) (p_src q) SERVER_PORT (p_dst q) CLIENT_PORT Hok) as (x & y & Hfr & _).
  eexists. split; [exact Hfr|]. split; [done|done|congruence| |by do 3 eexists].
  rewrite <- Hmac. by apply (field_prefix _ _ 16).
Qed.

(** A server that can give this hardware address an address. *)
Record ready_server (sv : server) (mac : list Z) : Prop := {
  rs_table : table_ok (tab sv);
  rs_cfg : cfg_ok (cfg sv);
  rs_end : end_ip (cfg sv) < 2 ^ 32 - 1;
  rs_nip : 0 <= server_nip (cfg sv) < 2 ^ 32;
  rs_seconds : 10 <= DhcpServer.lease_seconds (cfg sv) < 2 ^ 28;
  rs_servable : servable sv mac;
}.

(** A client that may be started, and asks for addresses only. *)
Record ready_client (D : gmultiset Z) (s : cstate) : Prop := {
  rc_startable : startable kernel inet_addr inet_ntop6 foreach_order stack fuel inet_pton6 D s;
  rc_codes : Forall (fun c => address_code (u8 c)) (request_list (cl s));
  rc_mode : listen_mode (cl s) = L_NONE;
}.

Lemma discover_asks c frame :
  ready foreach_order c -> discover_frame foreach_order c frame -> (388 <= fuel)%nat -> exists d,
    dhcp_recv_l3_packet fuel (inl (payload frame)) = Some (DHCP_SIZE, d) /\ asks DHCPDISCOVER None None d /\
    get_le32 d off_xid = xid c /\ field_at off_chaddr 6 d = mac_address c.
Proof.
  intros [Hr Hx] (secs & p & Hp & Hf) Hfuel.
  destruct (discover_packet_says foreach_order c secs 0 Hr Hx) as (p' & Hp' & Hs & Hrip & _ & Hsid & _).
  assert (p' = p) as -> by congruence. rewrite (payload_raw p _ _ _ _ frame (says_ok _ _ _ Hs) Hf).
  exists (carried zero_packet p). apply (says_asks c DHCPDISCOVER p None None); [exact Hs|exact Hsid|exact Hrip| |exact Hfuel]. by intros v [?|?].
Qed.

Lemma select_asks c frame :
  ready foreach_order c -> select_frame foreach_order c frame -> (388 <= fuel)%nat ->
  0 <= server_ip c < 2 ^ 32 -> 0 <= requested_ip c < 2 ^ 32 -> exists d,
    dhcp_recv_l3_packet fuel (inl (payload frame)) = Some (DHCP_SIZE, d) /\
    asks DHCPREQUEST (Some (server_ip c)) (Some (requested_ip c)) d /\
    get_le32 d off_xid = xid c /\ field_at off_chaddr 6 d = mac_address c.
Proof.
  intros [Hr Hx] (secs & p & Hp & Hf) Hfuel Hs1 Hs2.
  destruct (select_packet_says foreach_order c secs Hr Hx) as (p' & Hp' & Hs & Hrip & Hsid & _).
  assert (p' = p) as -> by congruence. rewrite (payload_raw p _ _ _ _ frame (says_ok _ _ _ Hs) Hf).
  exists (carried zero_packet p).
  apply (says_asks c DHCPREQUEST p (Some (server_ip c)) (Some (requested_ip c))); [done|done|done| |done].
  by intros v [[= <-]|[= <-]].
Qed.

Lemma servable_mac sv mac mac' : ztake ETH_ALEN mac = ztake ETH_ALEN mac' -> servable sv mac -> servable sv mac'.
Proof. unfold servable, find_lease_by_mac. by intros ->. Qed.

Lemma same_mac d c : field_at off_chaddr 6 d = mac_address c -> ztake ETH_ALEN (mac_address c) = ztake ETH_ALEN (zdrop off_chaddr d).
Proof. intros <-. unfold field_at. by rewrite ztake_ztake. Qed.

(** What a server that has replied to a client leaves for it. *)
Record given (sv sv' : server) (type ip expire : Z) (c : client) (frame : list Z) : Prop := {
  sd_sent : exists q, sent (en sv') = sent (en sv) ++ [q] /\ reply_frame q = Some frame;
  sd_options : exists pkt os, for_client c pkt frame /\ wfp pkt os /\ short os /\
    opt_data DHCP_MESSAGE_TYPE os = Some [type] /\ opt_data DHCP_SERVER_ID os = Some (put_be32 (server_nip (cfg sv))) /\
    opt_data DHCP_LEASE_TIME os = Some (put_be32 (DhcpServer.lease_seconds (cfg sv))) /\ addresses os /\
    get_le32 pkt off_yiaddr = htonl ip /\
    (zlen (foreach_order (option_hash (cfg sv))) <= 3 -> forall code, address_code code ->
       opt_data code os = opt_data code (configured_opts inet_aton foreach_order (cfg sv)));
  sd_range : start_ip (cfg sv) <= ip <= end_ip (cfg sv) /\ ip <> 0;
  sd_holds : holds sv' (mac_address c) ip expire;
  sd_keeps : cfg sv' = cfg sv /\ table_ok (tab sv');
}.

Lemma replied_served sv sv' type ip e d c :
  replied inet_aton foreach_order sv sv' type ip e d ->
  get_le32 d off_xid = xid c -> field_at off_chaddr 6 d = mac_address c ->
  exists frame, given sv sv' type ip e c frame.
Proof.
  intros [Hc Ht (q & Hq & Han) Hr Hh] Hx Hm. destruct (answer_arrives _ _ _ _ q c Han Hx Hm) as (frame & Hf & Hfor).
  exists frame. split; [by exists q| |done| |done].
  - destruct (answers_options inet_aton foreach_order _ _ _ _ _ Han) as (os & H1 & H2 & H3 & H4 & H5 & H6 & H7).
    exists (p_data q), os. split_and!; try done. by apply (an_yiaddr _ _ _ _ _ _ _ Han).
  - eapply holds_mac; [symmetry; by apply same_mac|done].
Qed.

(** The client has the lease that the server with this configuration gave. *)
Record has_lease (c : config) (ip : Z) (s s' : cstate) : Prop := {
  hl_state : state (cl s') = BOUND;
  hl_address : exists p, assigned_ip (cl s') = Some p /\ strings s' !! p = Some (inet_ntoa (htonl ip));
  hl_seconds : lease_seconds (cl s') = DhcpServer.lease_seconds c;
  hl_options : zlen (foreach_order (option_hash c)) <= 3 -> forall code, In code (request_list (cl s)) ->
    code_value_hash (cl s') !! u8 code =
      option_map address_value (opt_data (u8 code) (configured_opts inet_aton foreach_order c));
  hl_renews : pending 0 s' = Some (Z.shiftr (DhcpServer.lease_seconds c) 1 * 1000, start_renew_timeout_fn);
  hl_told : callbacks (w_trace (wd s')) = callbacks (w_trace (wd s)) ++ told (cl s) EVENT_LEASE_AVAILABLE;
}.

Context (stack_ok : forall t, sizeof_packet <= zlen (stack t) /\ Forall byte_ok (stack t)).

(** The second half: a request is acknowledged. *)
Lemma request_served D fd s sv ip e request :
  inv D 0 false s -> listens fd s -> settled foreach_order (view_of 0 s) -> state (cl s) = REQUESTING ->
  requested_ip (cl s) = ip -> server_ip (cl s) = server_nip (cfg sv) ->
  Forall (fun c => address_code (u8 c)) (request_list (cl s)) -> select_frame foreach_order (cl s) request ->
  table_ok (tab sv) -> cfg_ok (cfg sv) -> 0 <= server_nip (cfg sv) < 2 ^ 32 ->
  10 <= DhcpServer.lease_seconds (cfg sv) < 2 ^ 28 -> leasable (ztake ETH_ALEN (mac_address (cl s))) ->
  start_ip (cfg sv) <= ip <= end_ip (cfg sv) -> ip <> 0 -> holds sv (mac_address (cl s)) ip e -> (388 <= fuel)%nat ->
  exists sv' ack, receives request sv = Some (true, sv') /\
    given sv sv' DHCPACK ip (clock (DhcpServer.tick (en sv)) + DhcpServer.lease_seconds (cfg sv)) (cl s) ack /\
    (arrives kernel s ack -> exists s', react (listener_watch (cl s)) false s = Some (tt, s') /\ has_lease (cfg sv) ip s s').
Proof.
  intros Hs Hl Hv Hst Hip Hsid Hcodes Hreq Htab Hcfg Hnip Hsecs Hleas Hrange Hne Hholds Hfuel.
  assert (0 <= ip < 2 ^ 32) as Hipr by (destruct Hcfg; lia).
  assert (ready foreach_order (cl s)) as Hrd by (apply ready_core; exact (settled_ready _ _ Hv)).
  destruct (select_asks (cl s) request Hrd Hreq Hfuel) as (d & Hd & Hasks & Hx & Hm); [by rewrite Hsid|by rewrite Hip|].
  rewrite Hsid, Hip in Hasks. pose proof (same_mac d (cl s) Hm) as Hmac.
  destruct (receives_step (fun sv' => replied inet_aton foreach_order sv sv' DHCPACK ip
    (clock (DhcpServer.tick (en sv)) + DhcpServer.lease_seconds (cfg sv)) d) request d sv Hd) as (sv' & Hrecv & Hrep).
  { eapply request_replied; [done..|by rewrite <- Hmac|done|done|by eapply holds_mac]. }
  destruct (replied_served _ _ _ _ _ _ _ Hrep Hx Hm) as (ack & Hserved). exists sv', ack.
  split; [done|]. split; [done|]. intros Ha.
  destruct Hserved as [_ (pkt & os & Hfor & Hw & Hsh & Hty & _ & Hls & Had & Hyi & Hopts) _ _ _].
  destruct (ack_arrives kernel inet_addr inet_ntop6 foreach_order stack fuel stack_ok D s fd pkt ack os
    (DhcpServer.lease_seconds (cfg sv)) Hs Hl Hv Hst Hfor Hw Hsh Hty Had Hls Hsecs Hcodes Hfuel Ha)
    as (s' & Hd' & Hs' & [_ L1 L2 L3 L4 L5 L6]).
  exists s'. split; [done|]. rewrite Hyi in L2. split; [exact L1|exact L2|exact L3| |exact L5|exact L6].
  intros Hfew code Hc. rewrite List.Forall_forall in Hcodes. rewrite <- Hopts by (done || by apply Hcodes). by apply L4.
Qed.

(** The first half: a discover is answered by an offer, which the client takes
    up. *)
Lemma discover_served D fd s sv discover :
  inv D 0 false s -> listens fd s -> settled foreach_order (view_of 0 s) -> state (cl s) = INIT_SELECTING ->
  discover_frame foreach_order (cl s) discover -> ready_server sv (mac_address (cl s)) -> (388 <= fuel)%nat ->
  exists ip sv' offer, receives discover sv = Some (true, sv') /\ given sv sv' DHCPOFFER ip OFFER_TIME (cl s) offer /\
    (arrives kernel s offer -> exists s' more,
       react (listener_watch (cl s)) false s = Some (tt, s') /\ inv D 0 false s' /\
       requesting foreach_order (server_nip (cfg sv)) ip (view_of 0 s) (view_of 0 s') /\
       at_frames fd (frames_sent (w_trace (wd s)) ++ more) s' /\ Forall (select_frame foreach_order (cl s')) more).
Proof.
  intros Hs Hl Hv Hst Hdis [Htab Hcfg Hend Hnip Hsecs Hserv] Hfuel.
  assert (ready foreach_order (cl s)) as Hrd by (apply ready_core; exact (settled_ready _ _ Hv)).
  destruct (discover_asks (cl s) discover Hrd Hdis Hfuel) as (d & Hd & Hasks & Hx & Hm).
  pose proof (same_mac d (cl s) Hm) as Hmac.
  destruct (receives_step (fun sv' => exists ip, replied inet_aton foreach_order sv sv' DHCPOFFER ip OFFER_TIME d) discover d sv Hd)
    as (sv' & Hrecv & ip & Hrep).
  { eapply discover_replied; [done..|by eapply servable_mac]. }
  destruct (replied_served _ _ _ _ _ _ _ Hrep Hx Hm) as (offer & Hserved). exists ip, sv', offer.
  split; [done|]. split; [done|]. intros Ha.
  destruct Hserved as [_ (pkt & os & Hfor & Hw & Hsh & Hty & Hsid & _ & _ & Hyi & _) [Hrange _] _ _].
  assert (ip = ntohl (get_le32 pkt off_yiaddr)) as -> by (rewrite Hyi, ntohl_htonl; [done|destruct Hcfg; lia]).
  by apply (offer_arrives kernel inet_addr inet_ntop6 foreach_order stack fuel stack_ok D s fd pkt offer os).
Qed.

(** The start of a client that is ready. *)
Record searching (D : gmultiset Z) (s0 s : cstate) (discovers : list (list Z)) : Prop := {
  se_inv : inv (mkEnv D None) 0 false s;
  se_settled : settled foreach_order (view_of 0 s);
  se_state : state (cl s) = INIT_SELECTING;
  se_same : same_settings s0 s /\ cbs (cl s) = cbs (cl s0) /\
    callbacks (w_trace (wd s)) = callbacks (w_trace (wd s0));
  se_listens : exists fd, at_frames fd (frames_sent (w_trace (wd s0)) ++ discovers) s;
  se_frames : Forall (discover_frame foreach_order (cl s)) discovers;
}.

(** A client that is not running, whatever made it. *)
Lemma idle_start D s0 :
  inv (mkEnv D None) 0 true s0 -> settled foreach_order (view_of 0 s0) -> retry_times (cl s0) = 0 -> listen_mode (cl s0) = L_NONE ->
  exists r s, g_dhcp_client_start kernel inet_addr foreach_order stack fuel None s0 = Some (r, s) /\
    callbacks (w_trace (wd s)) = callbacks (w_trace (wd s0)) /\
    (r = 0 -> exists discovers, searching D s0 s discovers).
Proof.
  intros Hri Hv0 Hre Hmode. pose proof (ready_core _ _ (settled_ready _ _ Hv0)) as Hrd. pose proof (settled_type _ _ Hv0) as Ht.
  assert (hw (mkEnv D None) 0 true (g_dhcp_client_start kernel inet_addr foreach_order stack fuel None) false
    (fun _ => restarted foreach_order (view_of 0 s0)) (view_of 0 s0)) as Hst.
  { apply (hw_start _ _ foreach_order); [done|]. apply hw_discover_first; [done|exact Hre|done]. }
  specialize (Hst s0 Hri eq_refl).
  pose proof (start_frames kernel inet_addr foreach_order stack fuel (mkEnv D None) s0 Hri Hrd Ht Hre Hmode) as Hfr.
  unfold swp in Hst, Hfr. destruct (g_dhcp_client_start _ _ _ _ _ _ s0) as [[r s]|]; [|done].
  destruct Hst as (Hs & [Hv Hsel _ Hlog Hcbs]), Hfr as [Hsame Hfr]. exists r, s. split; [done|]. split; [exact Hlog|].
  intros Hok. destruct (Hfr Hok) as (fd & discovers & Hat & Hall). exists discovers.
  split; [done|done|exact Hsel|split; [done|split; [exact Hcbs|exact Hlog]]|by exists fd|done].
Qed.

Lemma start_ready D s0 :
  ready_client D s0 ->
  exists r s, g_dhcp_client_start kernel inet_addr foreach_order stack fuel None s0 = Some (r, s) /\
    callbacks (w_trace (wd s)) = callbacks (w_trace (wd s0)) /\
    (r = 0 -> exists discovers, searching D s0 s discovers).
Proof.
  intros [[Hr Ht Hrd Hla Hi Hre] _ Hmode]. pose proof (reach_settled _ _ _ _ _ _ _ _ _ Hr Ht Hrd Hla) as Hv0.
  apply reach_inv in Hr. apply idle_start; [by apply inv_idle|done..].
Qed.

(** C7. A client that looks for a lease gets one from a server that has one to
    give.  When its start succeeds, the server answers every discover it has sent
    with the offer of an address that it then holds for the client; when the frame
    of the offer arrives, the client asks for that address; the server acknowledges
    every request of that step, and when the frame of the acknowledgement arrives
    the client is bound to the address for the time the server has set, has told
    its user, has the configured options it asked for, and will renew after half
    the time; the server holds the address for it until the time is over. *)
Theorem dhcp_handshake D s0 sv :
  ready_client D s0 -> ready_server sv (mac_address (cl s0)) -> (388 <= fuel)%nat ->
  exists r s, g_dhcp_client_start kernel inet_addr foreach_order stack fuel None s0 = Some (r, s) /\
    (r = 0 -> exists discovers, frames_sent (w_trace (wd s)) = frames_sent (w_trace (wd s0)) ++ discovers /\
     forall discover, In discover discovers -> exists ip sv1 offer,
       receives discover sv = Some (true, sv1) /\ given sv sv1 DHCPOFFER ip OFFER_TIME (cl s) offer /\
       (arrives kernel s offer -> exists s1 requests,
          react (listener_watch (cl s)) false s = Some (tt, s1) /\
          state (cl s1) = REQUESTING /\ requested_ip (cl s1) = ip /\
          frames_sent (w_trace (wd s1)) = frames_sent (w_trace (wd s)) ++ requests /\
          forall request, In request requests -> exists sv2 ack,
            receives request sv1 = Some (true, sv2) /\
            given sv1 sv2 DHCPACK ip (clock (DhcpServer.tick (en sv1)) + DhcpServer.lease_seconds (cfg sv)) (cl s1) ack /\
            (arrives kernel s1 ack -> exists s2,
               react (listener_watch (cl s1)) false s1 = Some (tt, s2) /\ has_lease (cfg sv) ip s1 s2))).
Proof.
  intros Hcl Hsrv Hfuel. pose proof (rc_codes _ _ Hcl) as Hcodes.
  destruct (start_ready D s0 Hcl) as (r & s & Hstart & _ & Hok). exists r, s. split; [done|]. intros Hr0.
  destruct (Hok Hr0) as (discovers & [Hs Hv Hsel [[Hrl Hmac] _] (fd & Hl & Hfs) Hall]). exists discovers. split; [done|].
  intros discover Hin. rewrite List.Forall_forall in Hall. specialize (Hall _ Hin). rewrite <- Hmac in Hsrv. rewrite <- Hrl in Hcodes.
  destruct (discover_served _ fd s sv discover Hs Hl Hv Hsel Hall Hsrv Hfuel) as (ip & sv1 & offer & Hrecv & Hserved & Hnext).
  exists ip, sv1, offer. split; [done|]. split; [done|]. intros Ha.
  destruct (Hnext Ha) as (s1 & requests & Hstep & Hs1 & [R1 R2 R3 R4 (R5 & R6 & R7 & R8) _ _] & [Hl1 Hfr1] & Hreq).
  assert (mac_address (cl s1) = mac_address (cl s)) as Hmac1 by exact R6.
  exists s1, requests. split; [done|]. split; [exact R2|]. split; [exact R4|]. split; [done|].
  intros request Hinr. rewrite List.Forall_forall in Hreq.
  destruct Hserved as [_ _ [Hrange Hne] Hholds [Hcfg1 Htab1]], Hsrv as [Htab Hcfg Hend Hnip Hsecs Hserv]. rewrite <- Hcfg1 in *.
  eapply request_served; [done|done|done|exact R2|exact R4|exact R3| |by apply Hreq|done..| |done|done|by rewrite Hmac1|done].
  - assert (request_list (cl s1) = request_list (cl s)) as -> by exact R7. done.
  - rewrite Hmac1. apply Hserv.
Qed.

(** A renewal is not understood: the client names its address in [ciaddr], in
    network order, and the server compares that with the address of the lease in
    host order.  Unless the address reads the same both ways the server sends
    nothing, so no lease is ever extended. *)
Theorem renewal_unheard c sv p ip e :
  ready foreach_order c -> renew_packet foreach_order c = Some p -> requested_ip c = ip -> 0 < ip < 2 ^ 32 -> htonl ip <> ip ->
  holds sv (mac_address c) ip e -> (388 <= fuel)%nat ->
  DhcpServer.listener_event clock inet_aton foreach_order fuel false (inl (ztake DHCP_SIZE p)) sv = Some (true, sv).
Proof.
  intros [Hr Hx] Hp Hip Hrange Hne Hholds Hf. destruct (renew_packet_says foreach_order c Hr Hx) as (p' & Hp' & Hs & Hrip & Hsid & Hci).
  assert (p' = p) as -> by congruence.
  destruct (says_asks c DHCPREQUEST p None None fuel Hs Hsid Hrip) as (Hd & Hasks & _ & Hm); [by intros v [?|?]|done|].
  set (d := carried zero_packet p) in *. destruct (asks_read _ _ _ d fuel Hasks ltac:(done) Hf) as (Hty & Hsid' & Hrip').
  assert (get_le32 d off_ciaddr = htonl ip) as Hc.
  { rewrite <- Hip, <- Hci. apply get_le32_header; [done..|]. apply carried_header; [apply Hs|done]. }
  assert (htonl ip <> 0) as Hnz by (intros Hz; apply htonl_zero in Hz; lia).
  assert (holds sv (zdrop off_chaddr d) ip e) as (l & Hfind & Hl) by (eapply holds_mac; [by apply same_mac|done]).
  unfold DhcpServer.listener_event, sbind at 1, get, sget. unfold sbind at 1, slift at 1. rewrite Hd. cbn [option_map].
  change (DHCP_SIZE <? 0) with false. cbv iota. unfold sbind at 1, DhcpServer.handle_packet. unfold sbind at 1, get, sget.
  unfold sbind at 1, slift at 1. rewrite Hty. cbn [option_map]. change (DHCPREQUEST =? 0) with false. cbv zeta iota.
  unfold sbind at 1, slift at 1. rewrite Hsid'. cbn [option_map]. unfold sbind at 1, slift at 1. rewrite Hrip'. cbn [option_map].
  change (DHCPREQUEST =? DHCPDISCOVER) with false. change (DHCPREQUEST =? DHCPREQUEST) with true.
  change (default 0 None =? 0) with true. cbv iota. rewrite Hc, (proj2 (Z.eqb_neq _ _) Hnz), Hfind.
  rewrite (lease_at_some _ _ _ Hl). cbn [lease_nip]. by rewrite (proj2 (Z.eqb_neq _ _) Hne).
Qed.

End handshake.

(** ** A lease in the laboratory

    The client of interface 2 and the server of 192.168.77.2 to .64. *)

Definition lab_hears (frame : list Z) (sv : server) : option (bool * server) :=
  DhcpServer.listener_event wall_clock parse_addr map_to_list lab_fuel false (inl (payload frame)) sv.

(** The client before and after its start. *)
Definition lab_idle (frames : list (list Z)) : cstate :=
  played frames G_DHCP_IPV4 [tell 1 EVENT_LEASE_AVAILABLE; Does (CallSetRequest 1); Does (CallSetRequest 3)].

Definition lab_start (frames : list (list Z)) : option (Z * cstate) :=
  g_dhcp_client_start (lab frames) lab_addr map_to_list lab_stack lab_fuel None (lab_idle frames).

Definition lab_client (frames : list (list Z)) : cstate := match lab_start frames with Some (_, s) => s | None => lab_idle frames end.

(** The last frame a client has sent, and the frame of the last packet of a
    server. *)
Definition last_frame (s : cstate) : list Z := default [] (last (frames_sent (w_trace (wd s)))).

Definition last_reply (sv : server) : list Z :=
  match last (sent (en sv)) with Some q => default [] (reply_frame q) | None => [] end.

Definition step_of (frames : list (list Z)) (s : cstate) : cstate := default s (happens frames (Runs (listener_watch (cl s))) s).

Definition hears (frame : list Z) (sv : server) : server := match lab_hears frame sv with Some (_, sv) => sv | None => sv end.

Definition lab_discover : list Z := last_frame (lab_client []).
Definition lab_sv1 : server := hears lab_discover ranged_server.
Definition lab_offer : list Z := last_reply lab_sv1.
Definition lab_request : list Z := last_frame (step_of [lab_offer] (lab_client [lab_offer])).
Definition lab_sv2 : server := hears lab_request lab_sv1.
Definition lab_frames : list (list Z) := [lab_offer; last_reply lab_sv2].

Example lab_lease :
  let s := step_of lab_frames (step_of lab_frames (lab_client lab_frames)) in
  (state (cl s), callbacks (w_trace (wd s)), match assigned_ip (cl s) with Some p => strings s !! p | None => None end,
   code_value_hash (cl s) !! 1, code_value_hash (cl s) !! 3) = (BOUND, [1%nat], Some (str "192.168.77.2"), Some [VString (str "255.255.255.0")], None).
Proof. vm_compute. reflexivity. Qed.

Lemma lab_ready_client : ready_client (lab lab_frames) lab_addr lab_ntop lab_pton map_to_list lab_stack lab_fuel ∅ (lab_idle lab_frames).
Proof.
  assert (lab_reach lab_frames (lab_idle lab_frames)) as Hr by (unfold lab_idle; apply played_reach; by_playing).
  split; [split; [exact Hr|by_playing|apply ready_b_ready; by_playing|by_playing|apply idle_b_no_timer; by_playing|by_playing]| |by_playing].
  assert (request_list (cl (lab_idle lab_frames)) = [3; 1]) as -> by by_playing.
  repeat constructor; unfold address_code; cbn; tauto.
Qed.

Lemma lab_ready_server : ready_server ranged_server (mac_address (cl (lab_idle lab_frames))).
Proof.
  assert (mac_address (cl (lab_idle lab_frames)) = [2; 0; 0; 0; 0; 1]) as -> by by_playing.
  destruct ranged_ok as [Ht Hc]. split; [done|done|done|done| |split; [done|]].
  - split; [apply Z.leb_le|apply Z.ltb_lt]; by_playing.
  - split; [by_playing|]. exists 0xc0a84d02. split_and!; [done|done|done|done|by_playing].
Qed.

Lemma dhcp_handshake_witness :
  exists sv1 sv2 s1 s2,
    lab_hears lab_discover ranged_server = Some (true, sv1) /\ lab_hears lab_request sv1 = Some (true, sv2) /\
    holds sv2 [2; 0; 0; 0; 0; 1] 0xc0a84d02 (1400000000 + 28800) /\
    dispatch (lab lab_frames) lab_addr lab_ntop map_to_list lab_stack lab_fuel 1 false (lab_client lab_frames) = Some (tt, s1) /\
    dispatch (lab lab_frames) lab_addr lab_ntop map_to_list lab_stack lab_fuel 1 false s1 = Some (tt, s2) /\
    state (cl s2) = BOUND.
Proof.
  assert (forall t, sizeof_packet <= zlen (lab_stack t) /\ Forall byte_ok (lab_stack t)) as Hstack.
  { intros t. split; [done|]. apply Forall_forall. intros x Hx%elem_of_replicate. by destruct Hx as [-> _]. }
  destruct (dhcp_handshake wall_clock parse_addr (lab lab_frames) lab_addr lab_ntop lab_pton map_to_list lab_stack lab_fuel Hstack
    ∅ (lab_idle lab_frames) ranged_server lab_ready_client lab_ready_server) as (r & s & Hs & Hstart); [unfold lab_fuel; lia|].
  assert (s = lab_client lab_frames) as -> by (unfold lab_client, lab_start; by rewrite Hs).
  assert (Some r = option_map fst (lab_start lab_frames)) as Hr0 by (unfold lab_start; by rewrite Hs).
  assert (r = 0) as Hr.
  { assert (option_map fst (lab_start lab_frames) = Some 0) as Hz by by_playing. congruence. }
  destruct (Hstart Hr) as (discovers & Hdis & Hdisc). clear Hstart Hr0.
  assert (discovers = [lab_discover]) as ->.
  { apply (app_inv_head (frames_sent (w_trace (wd (lab_idle lab_frames))))). rewrite <- Hdis. by_playing. }
  destruct (Hdisc lab_discover (or_introl eq_refl)) as (ip & sv1 & offer & Hsv1 & [(q & Hq & Hoff) _ _ _ _] & Hnext).
  assert (sv1 = lab_sv1) as E1 by (unfold lab_sv1, hears, lab_hears; by rewrite Hsv1).
  assert (offer = lab_offer) as E2.
  { unfold lab_offer, last_reply. rewrite <- E1, Hq, last_snoc, Hoff. done. }
  destruct Hnext as (s1 & requests & Hs1 & _ & Hip & Hfr & Hack).
  { rewrite E2. by_playing. }
  assert (step_of lab_frames (lab_client lab_frames) = s1) as E3.
  { unfold step_of, happens. by rewrite Hs1. }
  assert (requests = [lab_request]) as ->.
  { apply (app_inv_head (frames_sent (w_trace (wd (lab_client lab_frames))))). rewrite <- Hfr, <- E3. by_playing. }
  destruct (Hack lab_request) as (sv2 & ack & Hsv2 & [(q2 & Hq2 & Hack2) _ _ Hholds _] & Hlast); [exact (or_introl eq_refl)|].
  assert (sv2 = lab_sv2) as E4 by (unfold lab_sv2, hears, lab_hears; rewrite <- E1; by rewrite Hsv2).
  assert (ack = last_reply lab_sv2) as E5.
  { unfold last_reply. rewrite <- E4, Hq2, last_snoc, Hack2. done. }
  destruct Hlast as (s2 & Hs2 & [Hb _ _ _ _ _]).
  { rewrite E5, <- E3. by_playing. }
  exists sv1, sv2, s1, s2. split; [exact Hsv1|]. split; [exact Hsv2|]. split.
  - assert (ip = 0xc0a84d02) as -> by (rewrite <- Hip, <- E3; by_playing).
    assert (mac_address (cl s1) = [2; 0; 0; 0; 0; 1]) as Hm by (rewrite <- E3; by_playing).
    rewrite Hm, E1 in Hholds. assert (wall_clock (DhcpServer.tick (en lab_sv1)) = 1400000000) as Ht by by_playing.
    by rewrite Ht in Hholds.
  - assert (listener_watch (cl (lab_client lab_frames)) = 1) as <- by by_playing. split; [exact Hs1|].
    assert (listener_watch (cl (lab_client lab_frames)) = listener_watch (cl s1)) as -> by (rewrite <- E3; by_playing).
    split; [exact Hs2|exact Hb].
Defined.
