(* ===== verification/Dhcp.v ===== *)
(** * The DHCP program: [src/dhcp.c].

    [main] parses the command line, sets up signals and either a DHCP client or
    a DHCP server, runs the main loop and tears everything down; the addresses
    of the interface are set with the [ip] program.  [None] means that a call
    does not return (a search of the server or the client that does not end) or
    that memory is misused.

    The client of [DhcpClient.v] logs a call of its user; what the user's
    function does is run when the client has returned.  The server of
    [DhcpServer.v] logs the packets it sends, which are put on the network when
    it has returned. *)

From stdpp Require Import gmap.
From S2P Require Import Prelude StateFail RecordSet CLib Bytes DhcpConfig DhcpCommon DhcpServer Posix DhcpNet DhcpClientBase DhcpClient6 DhcpClient.

(** ** The server on the network *)

(** The server, the name of its interface, and the descriptor of its watch
    while GLib has it. *)
Record served := mkServed { sv_server : server; sv_interface : list Z; sv_watch : option Z }.

#[export] Instance eta_served : Eta served := fun s => mkServed (sv_server s) (sv_interface s) (sv_watch s).

Definition SIOCGIFADDR : Z := 0x8915.
Definition SIOCGIFINDEX : Z := 0x8933.
Definition IFNAMSIZ : Z := 16.

(** The number GLib gives to the watch of the server. *)
Definition SERVER_ID : Z := 2.

Section program.
Context (kernel : list event -> call -> Z * list Z).
(** What the server and the client take from the C library and GLib. *)
Context (clock : nat -> Z) (inet_aton : list Z -> option Z) (inet_addr : list Z -> Z)
  (inet_ntop6 : list Z -> list Z) (inet_pton6 : list Z -> option (list Z))
  (foreach_order : gmap Z (list Z) -> list (Z * list Z)) (stack : list event -> list Z) (fuel : nat)
  (env0 : env).

(** The address is the first four bytes of what the last call stores. *)
Definition get_interface_address (index : Z) : nio Z :=
  let* sk := ncall_ kernel (SocketOn AF_INET 0) in
  if sk <? 0 then sret 0
  else
    let* (err, ifr_name) := ncall kernel (Ioctl sk SIOCGIFNAME (le_bytes32 index)) in
    if err <? 0 then close_ret kernel sk 0
    else
      let* (err, s_addr) := ncall kernel (Ioctl sk SIOCGIFADDR ifr_name) in
      if err <? 0 then close_ret kernel sk 0 else close_ret kernel sk (get_le32 s_addr 0).

(** [g_dhcp_server_new] with the questions it asks about the interface. *)
Definition server_new (index : Z) : nio (option served * server_error) :=
  let failed ok has_name up := (None, snd (g_dhcp_server_new index ok has_name up 0 env0)) in
  if index <? 0 then sret (failed false false false)
  else
    let* ok := wheap (grant 96) in
    if negb ok then sret (failed false false false)
    else
      let* name := get_interface_name kernel index in
      match name with
      | None => let* _ := wheap (free_blocks 1) in sret (failed true false false)
      | Some name =>
        let* _ := wheap (free_blocks (-1)) in
        let* up := interface_is_up kernel index in
        if negb up then let* _ := wheap (free_blocks 2) in sret (failed true true false)
        else
          let* nip := get_interface_address index in
          match g_dhcp_server_new index true true true nip env0 with
          | (None, err) => let* _ := wheap (free_blocks 2) in sret (None, err)
          | (Some s, err) => sret (Some (mkServed s name None), err)
          end
      end.

(** [g_dhcp_server_start] *)
Definition server_start (s : served) : nio (Z * served) :=
  if started (cfg (sv_server s)) then sret (0, s)
  else
    let* fd := dhcp_l3_socket kernel SERVER_PORT (sv_interface s) AF_INET in
    let* channel := if fd <? 0 then sret (-1) else ncall_ kernel (IoChannelNew fd) in
    let* _ := if (0 <=? fd) && (channel <? 0) then ncall_ kernel (Close fd) else sret 0 in
    let '(r, sv) := g_dhcp_server_start fd (0 <=? channel) SERVER_ID (sv_server s) in
    sret (r, mkServed sv (sv_interface s) (if r =? 0 then Some fd else None)).

(** Removing the watch closes its descriptor. *)
Definition close_watch (watch : option Z) : nio unit :=
  match watch with Some fd => let* _ := ncall_ kernel (Close fd) in sret tt | None => sret tt end.

(** [g_dhcp_server_stop]; a number that is no source's is ignored by GLib. *)
Definition server_stop (s : served) : nio served :=
  let watch := DhcpServer.listener_watch (cfg (sv_server s)) in
  let* _ := if watch =? SERVER_ID then close_watch (sv_watch s) else sret tt in
  sret (mkServed (g_dhcp_server_stop (sv_server s)) (sv_interface s)
          (if watch =? SERVER_ID then None else sv_watch s)).

(** [g_dhcp_server_unref]: [None] is a server that has been freed. *)
Definition server_unref (s : served) : nio (option served) :=
  match g_dhcp_server_unref (sv_server s) with
  | inl sv => sret (Some (s <| sv_server := sv |>))
  | inr _ =>
    let* _ := server_stop s in
    let* _ := wheap (free_blocks 2) in
    sret None
  end.

(** The packets of one step, in order; the results are ignored. *)
Fixpoint send_packets (index : Z) (ps : list sent_packet) : nio unit :=
  match ps with
  | [] => sret tt
  | p :: ps =>
    let* _ := DhcpNet.dhcp_send_raw_packet kernel (p_data p) (p_src p) SERVER_PORT (p_dst p) CLIENT_PORT
                (p_arp p) index in
    send_packets index ps
  end.

(** The watch callback of the server, and the removal of the watch when it
    asks for that. *)
Definition server_event (hangup : bool) (s : served) : nio served :=
  let c := cfg (sv_server s) in
  let* input :=
    if hangup then sret (inr 0)
    else
      let* (n, data) := ncall kernel (Read (DhcpServer.listener_sockfd c) sizeof_packet) in
      sret (if n <? 0 then inr (- n) else inl (ztake n data)) in
  match DhcpServer.listener_event clock inet_aton foreach_order fuel hangup input (sv_server s) with
  | None => slift None
  | Some (keep, sv) =>
    let* _ := send_packets (DhcpServer.ifindex c) (drop (length (sent (en (sv_server s)))) (sent (en sv))) in
    let* _ := if keep then sret tt else close_watch (sv_watch s) in
    sret (mkServed sv (sv_interface s) (if (keep : bool) then sv_watch s else None))
  end.

(** ** The program *)

(** [dh_loop] is false while there is no main loop, [dh_running] tells whether
    it runs; [dh_sfd_watch] tells whether GLib has the source of [sfd].  The
    world in the state of the client is not used. *)
Record owfd_dhcp := mkDhcp {
  dh_config : owfd_dhcp_config;
  dh_ifindex : Z;
  dh_iflabel : option (list Z);
  dh_loop : bool;
  dh_running : bool;
  dh_sfd : Z;
  dh_sfd_watch : bool;
  dh_client : option cstate;
  dh_client_addr : option (list Z);
  dh_server : option served;
  dh_server_addr : option (list Z);
}.

#[export] Instance eta_dhcp : Eta owfd_dhcp := fun d =>
  mkDhcp (dh_config d) (dh_ifindex d) (dh_iflabel d) (dh_loop d) (dh_running d) (dh_sfd d) (dh_sfd_watch d)
    (dh_client d) (dh_client_addr d) (dh_server d) (dh_server_addr d).

Record dstate := mkDState { dh : owfd_dhcp; dw : world }.

#[export] Instance eta_dstate : Eta dstate := fun s => mkDState (dh s) (dw s).

Definition dm : Type -> Type := sfm dstate.

Definition get_dh : dm owfd_dhcp := fun s => Some (dh s, s).

Definition updh (f : owfd_dhcp -> owfd_dhcp) : dm unit := smod (fun s => s <| dh := f (dh s) |>).

Definition dnet {A} (m : nio A) : dm A := fun s =>
  match m (dw s) with Some (a, w) => Some (a, s <| dw := w |>) | None => None end.

(** A step of the client, in the world of the program. *)
Definition on_client {A} (m : cm A) : dm A := fun s =>
  match dh_client (dh s) with
  | None => None
  | Some c =>
    match m (c <| wd := dw s |>) with
    | Some (a, c) => Some (a, mkDState (dh s <| dh_client := Some c |>) (wd c))
    | None => None
    end
  end.

(** [asprintf] of a text of this length; whether there was memory. *)
Definition dasprintf (text : list Z) : dm bool := dnet (wheap (grant (zlen text + 1))).

Definition dfree (p : option (list Z)) : dm unit :=
  dnet (wheap (free_blocks (match p with Some _ => 1 | None => 0 end))).

(** ** The [ip] program *)

Definition conf_text (t : option (list Z)) : list Z := cstr (default [] t).

(** [WIFEXITED] and [WEXITSTATUS] *)
Definition wifexited (st : Z) : bool := Z.land st 0x7f =? 0.

Definition wexitstatus (st : Z) : Z := Z.land (Z.shiftr st 8) 0xff.

(** The child behind [fork]: [execve] comes back only when it fails. *)
Definition ip_child (argv : list (list Z)) : nio unit :=
  let* _ := ncall_ kernel (Sigprocmask []) in
  let* _ := ncall_ kernel (Dup2 2 1) in
  let* r := ncall_ kernel (Execve argv) in
  if r <? 0 then let* _ := ncall_ kernel (Exit 1) in sret tt else sret tt.

(** What [flush_if_addr] and [add_if_addr] share.  Both returns of [fork] are
    followed: the parent only waits, so the calls of the child come first. *)
Definition run_ip (argv : list (list Z)) : nio Z :=
  let* pid := ncall_ kernel Fork in
  if pid <? 0 then sret pid
  else
    let* _ := ip_child argv in
    let* (rp, st) := ncall kernel (Waitpid pid) in
    let r := get_le32 st 0 in
    if negb (rp =? pid) then sret (- EFAULT)
    else if negb (wifexited r) then sret (- EFAULT)
    else if negb (wexitstatus r =? 0) then sret (- EFAULT)
    else sret 0.

Definition label_args (d : owfd_dhcp) : list (list Z) :=
  match dh_iflabel d with Some label => [str "label"; label] | None => [] end.

Definition flush_args (d : owfd_dhcp) : list (list Z) :=
  [conf_text (ip_binary (dh_config d)); str "addr"; str "flush"; str "dev";
   conf_text (DhcpConfig.interface (dh_config d))] ++ label_args d.

Definition add_args (d : owfd_dhcp) (addr : list Z) : list (list Z) :=
  [conf_text (ip_binary (dh_config d)); str "addr"; str "add"; addr; str "dev";
   conf_text (DhcpConfig.interface (dh_config d))] ++ label_args d.

Definition flush_if_addr : dm Z := let* d := get_dh in dnet (run_ip (flush_args d)).

Definition add_if_addr (addr : list Z) : dm Z := let* d := get_dh in dnet (run_ip (add_args d addr)).

(** ** Callbacks *)

(** [g_main_loop_quit] *)
Definition quit_loop : dm unit := updh (fun d => d <| dh_running := false |>).

(** The numbers of the two functions as function pointers. *)
Definition CLIENT_LEASE_FN : nat := 1.
Definition CLIENT_NO_LEASE_FN : nat := 2.

(** The values of an option are strings; the first one is the netmask. *)
Definition lease_subnet (c : client) : list Z :=
  match g_dhcp_client_get_option c G_DHCP_SUBNET with
  | VString v :: _ => v
  | _ => str "24"
  end.

(** The address and the netmask of a lease become the address of the
    interface, unless it has them already. *)
Definition apply_lease (a : list Z) : dm unit :=
  let* d := get_dh in
  if bool_decide (dh_client_addr d = Some a) then dfree (Some a)
  else
    let* _ := dfree (dh_client_addr d) in
    let* _ := updh (fun d => d <| dh_client_addr := Some a |>) in
    let* r := flush_if_addr in
    if r <? 0 then quit_loop
    else
      let* r := add_if_addr a in
      if r <? 0 then quit_loop else sret tt.

Definition client_lease_fn : dm unit :=
  let* p := on_client g_dhcp_client_get_address in
  match p with
  | None => quit_loop
  | Some p =>
    let* addr := on_client (read_string p) in
    let* c := on_client get_cl in
    let a := addr ++ str "/" ++ lease_subnet c in
    let* ok := dasprintf a in
    let* _ := on_client (g_free (Some p)) in
    if negb ok then quit_loop else apply_lease a
  end.

Definition client_no_lease_fn : dm unit := quit_loop.

(** The functions the client was told to call. *)
Fixpoint call_users (fns : list nat) : dm unit :=
  match fns with
  | [] => sret tt
  | fn :: fns =>
    let* _ := if decide (fn = CLIENT_LEASE_FN) then client_lease_fn
              else if decide (fn = CLIENT_NO_LEASE_FN) then client_no_lease_fn
              else sret tt in
    call_users fns
  end.

(** A step of the client that may call its user. *)
Definition with_users {A} (m : cm A) : dm A := fun s =>
  (let* a := on_client m in
   let* _ := fun s' => call_users (drop (length (callbacks (w_trace (dw s)))) (callbacks (w_trace (dw s')))) s' in
   sret a) s.

Definition sizeof_siginfo : Z := 128.

(** The result tells GLib whether to keep the source. *)
Definition owfd_dhcp_sfd_fn (hangup : bool) : dm bool :=
  if hangup then let* _ := quit_loop in sret false
  else
    let* d := get_dh in
    let* (l, info) := dnet (ncall kernel (Read (dh_sfd d) sizeof_siginfo)) in
    if l <? 0 then let* _ := quit_loop in sret false
    else if negb (l =? sizeof_siginfo) then sret true
    else let* _ := quit_loop in sret false.

(** ** The main loop *)

(** What GLib dispatches: the source of the signals, a source of the client, or
    the watch of the server; [hangup] is its condition. *)
Inductive happening :=
| OnSignal (hangup : bool)
| OnClient (id : Z) (hangup : bool)
| OnServer (hangup : bool).

Definition dispatch_one (h : happening) : dm unit :=
  let* d := get_dh in
  match h with
  | OnSignal hangup =>
    if dh_sfd_watch d then
      let* keep := owfd_dhcp_sfd_fn hangup in
      if keep then sret tt else updh (fun d => d <| dh_sfd_watch := false |>)
    else sret tt
  | OnClient id hangup =>
    match dh_client d with
    | Some _ => with_users (DhcpClient.dispatch kernel inet_addr inet_ntop6 foreach_order stack fuel id hangup)
    | None => sret tt
    end
  | OnServer hangup =>
    match dh_server d with
    | Some sv =>
      match sv_watch sv with
      | Some _ => let* sv := dnet (server_event hangup sv) in updh (fun d => d <| dh_server := Some sv |>)
      | None => sret tt
      end
    | None => sret tt
    end
  end.

(** [g_main_loop_run] for a sequence of dispatches: whether it has returned. *)
Fixpoint loop (hs : list happening) : dm bool :=
  let* d := get_dh in
  if negb (dh_running d) then sret true
  else match hs with
       | [] => sret false
       | h :: hs => let* _ := dispatch_one h in loop hs
       end.

Definition g_main_loop_run (hs : list happening) : dm bool :=
  let* _ := updh (fun d => d <| dh_running := true |>) in loop hs.

(** [None]: the loop still runs. *)
Definition owfd_dhcp_run (hs : list happening) : dm (option Z) :=
  let* d := get_dh in
  let* r :=
    if DhcpConfig.client (dh_config d) then
      with_users (g_dhcp_client_start kernel inet_addr foreach_order stack fuel None)
    else
      match dh_server d with
      | None => slift None
      | Some sv =>
        let* (r, sv) := dnet (server_start sv) in
        let* _ := updh (fun d => d <| dh_server := Some sv |>) in
        sret r
      end in
  if negb (r =? 0) then sret (Some (- EFAULT))
  else
    let* stopped := g_main_loop_run hs in
    sret (if (stopped : bool) then Some 0 else None).

(** ** Setting up and tearing down *)

Definition teardown_client : dm unit :=
  let* d := get_dh in
  match dh_client d with
  | None => sret tt
  | Some _ =>
    let* _ := on_client (g_dhcp_client_stop kernel stack) in
    let* _ :=
      match dh_client_addr d with
      | Some a => let* _ := flush_if_addr in dfree (Some a)
      | None => sret tt
      end in
    let* gone := on_client (g_dhcp_client_unref kernel stack) in
    if (gone : bool) then updh (fun d => d <| dh_client := None |>) else sret tt
  end.

Definition teardown_server : dm unit :=
  let* d := get_dh in
  let* _ :=
    match dh_server d with
    | None => sret tt
    | Some sv =>
      let* sv := dnet (server_stop sv) in
      let* sv := dnet (server_unref sv) in
      updh (fun d => d <| dh_server := sv |>)
    end in
  match dh_server_addr d with
  | Some a => let* _ := flush_if_addr in dfree (Some a)
  | None => sret tt
  end.

(** The channel does not close its descriptor; GLib ignores the removal of a
    source that is gone.  The main loop and the channel are only released. *)
Definition owfd_dhcp_teardown : dm unit :=
  let* d := get_dh in
  let* _ := if DhcpConfig.client (dh_config d) then teardown_client else teardown_server in
  let* _ :=
    if 0 <=? dh_sfd d then
      let* _ := updh (fun d => d <| dh_sfd_watch := false |>) in
      let* _ := dnet (ncall_ kernel (Close (dh_sfd d))) in
      sret tt
    else sret tt in
  dfree (dh_iflabel d).

Definition setup_error (r : Z) : dm Z := let* _ := owfd_dhcp_teardown in sret r.

Definition SIGHUP : Z := 1.
Definition SIGINT : Z := 2.
Definition SIGQUIT : Z := 3.
Definition SIGPIPE : Z := 13.
Definition SIGTERM : Z := 15.

Definition dhcp_sigs : list Z := [SIGINT; SIGTERM; SIGQUIT; SIGHUP; SIGPIPE].

Fixpoint install_dhcp_handlers (sigs : list Z) : nio Z :=
  match sigs with
  | [] => sret 0
  | sig :: sigs =>
    let* r := ncall_ kernel (Sigaction sig) in
    if r <? 0 then sret r else install_dhcp_handlers sigs
  end.

(** [if_name_to_index] of [src/shared.c]; the index is the first four bytes of
    what the call stores. *)
Definition if_name_to_index (name : list Z) : nio Z :=
  if IFNAMSIZ <? zlen name then sret (- EINVAL)
  else
    let* fd := ncall_ kernel (SocketOn AF_INET 0) in
    if fd <? 0 then sret fd
    else
      let* (r, d) := ncall kernel (Ioctl fd SIOCGIFINDEX (name ++ zeroes (IFNAMSIZ - zlen name))) in
      close_ret kernel fd (if r <? 0 then r else i32 (get_le32 d 0)).

Definition client_errno (e : client_error) : Z :=
  match e with G_DHCP_CLIENT_ERROR_NOMEM => - ENOMEM | _ => - EINVAL end.

Definition server_errno (e : server_error) : Z :=
  match e with G_DHCP_SERVER_ERROR_NOMEM => - ENOMEM | _ => - EINVAL end.

Definition setup_client : dm Z :=
  let* d := get_dh in
  let label := conf_text (DhcpConfig.interface (dh_config d)) ++ str ":openwfd" in
  let* ok := dasprintf label in
  if negb ok then setup_error (- ENOMEM)
  else
    let* _ := updh (fun d => d <| dh_iflabel := Some label |>) in
    let* (c, err) := dnet (g_dhcp_client_new kernel G_DHCP_IPV4 (dh_ifindex d)) in
    match c with
    | None => setup_error (client_errno err)
    | Some c =>
      let* _ := (fun s => Some (tt, s <| dh := dh s <| dh_client := Some (mkState c ∅ 1 ∅ 1 (dw s)) |> |>)) in
      let* _ := on_client (g_dhcp_client_set_send G_DHCP_HOST_NAME (Some (str "<hostname>"))) in
      let* _ := on_client (g_dhcp_client_set_request G_DHCP_SUBNET) in
      let* _ := on_client (g_dhcp_client_set_request G_DHCP_DNS_SERVER) in
      let* _ := on_client (g_dhcp_client_set_request G_DHCP_ROUTER) in
      let* _ := on_client (g_dhcp_client_register_event EVENT_LEASE_AVAILABLE (Some CLIENT_LEASE_FN)) in
      let* _ := on_client (g_dhcp_client_register_event EVENT_NO_LEASE (Some CLIENT_NO_LEASE_FN)) in
      sret 0
    end.

(** The options and the range; the first one that is refused ends it. *)
Definition configure_server (conf : owfd_dhcp_config) (s : server) : Z * server :=
  let s := g_dhcp_server_set_lease_time (60 * 60) s in
  let '(r, s) := g_dhcp_server_set_option inet_aton G_DHCP_SUBNET (subnet conf) s in
  if negb (r =? 0) then (r, s)
  else
    let '(r, s) := g_dhcp_server_set_option inet_aton G_DHCP_ROUTER (gateway conf) s in
    if negb (r =? 0) then (r, s)
    else
      let '(r, s) := g_dhcp_server_set_option inet_aton G_DHCP_DNS_SERVER (dns conf) s in
      if negb (r =? 0) then (r, s)
      else g_dhcp_server_set_ip_range inet_aton (conf_text (ip_from conf)) (conf_text (ip_to conf)) s.

Definition setup_server : dm Z :=
  let* d := get_dh in
  let addr := conf_text (local (dh_config d)) ++ str "/" ++ conf_text (subnet (dh_config d)) in
  let* ok := dasprintf addr in
  if negb ok then setup_error (- ENOMEM)
  else
    let* _ := updh (fun d => d <| dh_server_addr := Some addr |>) in
    let* r := flush_if_addr in
    if r <? 0 then setup_error r
    else
      let* r := add_if_addr addr in
      if r <? 0 then setup_error r
      else
        let* (sv, err) := dnet (server_new (dh_ifindex d)) in
        match sv with
        | None => setup_error (server_errno err)
        | Some sv =>
          let '(r, s) := configure_server (dh_config d) (sv_server sv) in
          let* _ := updh (fun d => d <| dh_server := Some (sv <| sv_server := s |>) |>) in
          if negb (r =? 0) then setup_error r else sret 0
        end.

Definition owfd_dhcp_setup : dm Z :=
  let* d := get_dh in
  let* index := dnet (if_name_to_index (conf_text (DhcpConfig.interface (dh_config d)))) in
  let* _ := updh (fun d => d <| dh_ifindex := index |>) in
  if index <? 0 then setup_error (- EINVAL)
  else
    let* _ := updh (fun d => d <| dh_loop := true |>) in
    let* r := dnet (install_dhcp_handlers dhcp_sigs) in
    if r <? 0 then setup_error r
    else
      let* r := dnet (ncall_ kernel (Sigprocmask dhcp_sigs)) in
      if r <? 0 then setup_error r
      else
        let* sfd := dnet (ncall_ kernel (Signalfd dhcp_sigs)) in
        let* _ := updh (fun d => d <| dh_sfd := sfd |>) in
        if sfd <? 0 then setup_error sfd
        else
          let* chan := dnet (ncall_ kernel (IoChannelNew sfd)) in
          let* _ := updh (fun d => d <| dh_sfd_watch := 0 <=? chan |>) in
          if DhcpConfig.client (dh_config d) then setup_client else setup_server.

Definition dhcp0 (conf : owfd_dhcp_config) : owfd_dhcp :=
  mkDhcp conf 0 None false false (-1) false None None None None.

(** [main] behind the command line; the result is the exit status, [None] while
    the loop runs. *)
Definition dhcp_serve (hs : list happening) : dm (option Z) :=
  let* r := owfd_dhcp_setup in
  let* r :=
    if r <? 0 then sret (Some r)
    else
      let* r := owfd_dhcp_run hs in
      match r with
      | None => sret None
      | Some r => let* _ := owfd_dhcp_teardown in sret (Some r)
      end in
  match r with
  | None => sret None
  | Some r =>
    let* d := get_dh in
    let* _ := dnet (wheap (owfd_dhcp_clear_config (dh_config d))) in
    sret (Some (- r))
  end.

Definition dhcp_main (hs : list happening) (args : list (list Z)) : nio (option Z) := fun w =>
  let '(res, w) := on_heap (owfd_dhcp_parse_argv inet_pton6 args owfd_dhcp_init_config) w in
  match res with
  | None => None
  | Some (r, conf) =>
    if r <? 0 then Some (Some (- r), w)
    else
      match dhcp_serve hs (mkDState (dhcp0 conf) w) with
      | Some (r, s) => Some (r, dw s)
      | None => None
      end
  end.

End program.
