(* ===== verification/DhcpFacts.v ===== *)
(** * Properties of the DHCP program.

    What [Dhcp.v] owns while it runs and gives back at the end, and what it does
    to the addresses of its interface. *)

From stdpp Require Import gmap gmultiset.
From S2P Require Import Prelude RecordSet StateFail Steps CLib Bytes DhcpConfig DhcpCommon DhcpServer Posix DhcpNet DhcpClientBase DhcpClient6 DhcpClient DhcpClientFacts DhcpClientLife DhcpCalls Dhcp.

(** ** The commands that are run *)

(** What the children of the program have executed. *)
Definition commands (t : list event) : list (list (list Z)) :=
  omap (fun e => match ev_call e with Execve argv => Some argv | _ => None end) t.

(** *** The addresses of the interfaces

    What the calls in a trace say about the [ip] program: the command that is
    running, whether the last one that was to be run has succeeded, and the
    addresses that were added and not removed, each with its place: the words
    behind it, [dev] with the interface and, for a client, [label] with the
    label. *)
Definition address : Type := (list Z * list (list Z))%type.

Record ip_state := mkIp { ip_running : option (list (list Z)); ip_done : bool; ip_left : list address }.

(** A command that is executed may have added its address, however it ends. *)
Definition added (argv : list (list Z)) : list address :=
  match argv with
  | _ :: _ :: verb :: a :: place => if bool_decide (verb = str "add") then [(a, place)] else []
  | _ => []
  end.

(** A flush that succeeds removes the addresses of its place, and only those. *)
Definition remaining (argv : list (list Z)) (l : list address) : list address :=
  match argv with
  | _ :: _ :: verb :: place =>
    if bool_decide (verb = str "flush") then List.filter (fun x => negb (bool_decide (snd x = place))) l else l
  | _ => l
  end.

(** A child is made; it executes a command, or fails to; it ends, and the
    command has succeeded when [waitpid] tells of the child asked for, and that it
    ended by itself with status 0. *)
Definition ip_event (s : ip_state) (e : event) : ip_state :=
  match ev_call e with
  | Fork => mkIp None false (ip_left s)
  | Execve argv =>
    if ev_ret e <? 0 then mkIp None false (ip_left s) else mkIp (Some argv) false (ip_left s ++ added argv)
  | Waitpid pid =>
    match ip_running s with
    | None => s
    | Some argv =>
      let st := get_le32 (ev_data e) 0 in
      if (ev_ret e =? pid) && wifexited st && (wexitstatus st =? 0)
      then mkIp None true (remaining argv (ip_left s)) else mkIp None false (ip_left s)
    end
  | _ => s
  end.

Definition ip_seen (t : list event) : ip_state := fold_left ip_event t (mkIp None true []).

(** The addresses that are left, and whether the last command succeeded. *)
Definition addresses (t : list event) : list address := ip_left (ip_seen t).
Definition last_succeeded (t : list event) : bool := ip_done (ip_seen t).

(** The commands of the program for its interface. *)
Definition label_of (conf : owfd_dhcp_config) : list Z := conf_text (DhcpConfig.interface conf) ++ str ":openwfd".

Definition place (conf : owfd_dhcp_config) : list (list Z) :=
  [str "dev"; conf_text (DhcpConfig.interface conf)] ++
  (if DhcpConfig.client conf then [str "label"; label_of conf] else []).

Definition flush_command (conf : owfd_dhcp_config) : list (list Z) :=
  [conf_text (ip_binary conf); str "addr"; str "flush"] ++ place conf.

Definition add_command (conf : owfd_dhcp_config) (a : list Z) : list (list Z) :=
  [conf_text (ip_binary conf); str "addr"; str "add"; a] ++ place conf.

Definition ip_command (conf : owfd_dhcp_config) (argv : list (list Z)) : Prop :=
  argv = flush_command conf \/ exists a, argv = add_command conf a.

Lemma commands_app t t' : commands (t ++ t') = commands t ++ commands t'.
Proof. apply omap_app. Qed.

Lemma ip_seen_app t t' : ip_seen (t ++ t') = fold_left ip_event t' (ip_seen t).
Proof. apply fold_left_app. Qed.

(** Calls that have nothing to do with commands. *)
Record same_ip (w w' : world) : Prop := {
  same_commands : commands (w_trace w') = commands (w_trace w);
  same_seen : ip_seen (w_trace w') = ip_seen (w_trace w);
}.

Record calm (w w' : world) : Prop := {
  calm_fds : w_fds w' = w_fds w;
  calm_bad : w_bad w' = w_bad w;
  calm_ip : same_ip w w';
}.

#[export] Instance calm_preorder : PreOrder calm.
Proof. split; [by split|]. intros w1 w2 w3 [? ? []] [? ? []]. split; [congruence..|]. split; congruence. Qed.

(** Calls that make no child, wait for none and execute nothing. *)
Definition quiet (c : call) : bool := match c with Fork | Execve _ | Waitpid _ => false | _ => true end.

Lemma commands_quiet evs :
  Forall (fun e => quiet (ev_call e) = true) evs -> commands evs = [] /\ forall s, fold_left ip_event evs s = s.
Proof.
  induction 1 as [|[c r d] evs He Hf [IH1 IH2]]; [done|]. cbn in *. by destruct c.
Qed.

Lemma grows_quiet (w w' : world) evs :
  w_trace w' = w_trace w ++ evs -> Forall (fun e => quiet (ev_call e) = true) evs -> same_ip w w'.
Proof.
  intros Ht [Hc Hs]%commands_quiet. split; rewrite Ht; [by rewrite commands_app, Hc, app_nil_r|by rewrite ip_seen_app].
Qed.

Lemma grows_same (w w' : world) : grows net_call_b (w_trace w) (w_trace w') -> same_ip w w'.
Proof.
  intros (evs & Ht & Hf). eapply grows_quiet; [exact Ht|].
  eapply Forall_impl; [exact Hf|]. intros [c r d]. cbn. by destruct c.
Qed.

(** ** The server *)

Definition same_cfg (s s' : server) : Prop := cfg s' = cfg s.

#[export] Instance same_cfg_preorder : PreOrder same_cfg.
Proof. split; [done|]. unfold same_cfg. intros s1 s2 s3 H1 H2. congruence. Qed.

Section server.
Context (clock : nat -> Z) (inet_aton : list Z -> option Z)
  (foreach_order : gmap Z (list Z) -> list (Z * list Z)).

Lemma cfg_get : steps same_cfg get.
Proof. by intros s a s' [= _ <-]. Qed.

Lemma cfg_set_tab t : steps same_cfg (set_tab t).
Proof. by intros s a s' [= _ <-]. Qed.

Lemma cfg_time : steps same_cfg (time clock).
Proof. by intros s a s' [= _ <-]. Qed.

Lemma cfg_use_answer b : steps same_cfg (use_answer b).
Proof. by intros s a s' [= _ <-]. Qed.

Lemma cfg_send p : steps same_cfg (DhcpServer.dhcp_send_raw_packet p).
Proof. by intros s a s' [= _ <-]. Qed.

#[local] Hint Resolve cfg_get cfg_set_tab cfg_time cfg_use_answer cfg_send : steps.

(** Packets do not change the configuration, and the watch stays. *)
Lemma server_event_cfg fuel input s keep s' :
  DhcpServer.listener_event clock inet_aton foreach_order fuel false input s = Some (keep, s') ->
  keep = true /\ cfg s' = cfg s.
Proof.
  intros H. split.
  - unfold DhcpServer.listener_event, sbind, slift, get, sget, sret, option_map in H.
    destruct (dhcp_recv_l3_packet fuel input) as [[n packet]|]; [|done]. destruct (n <? 0); [by injection H|].
    destruct (DhcpServer.handle_packet _ _ _ _ _ _) as [[? ?]|]; [by injection H|done].
  - assert (steps same_cfg (DhcpServer.listener_event clock inet_aton foreach_order fuel false input)) as Hs.
    { steps_go. }
    by apply Hs in H.
Qed.
End server.

Section program.
Context (kernel : list event -> call -> Z * list Z).
Context (clock : nat -> Z) (inet_aton : list Z -> option Z) (inet_addr : list Z -> Z)
  (inet_ntop6 : list Z -> list Z) (inet_pton6 : list Z -> option (list Z))
  (foreach_order : gmap Z (list Z) -> list (Z * list Z)) (stack : list event -> list Z) (fuel : nat)
  (env0 : DhcpServer.env).

(** *** The descriptors of the server *)

Definition watch_fds (s : served) : gmultiset Z := match sv_watch s with Some fd => {[+ fd +]} | None => ∅ end.

(** With [D] besides, the descriptor of the watch is open, and the server knows
    the number of its watch. *)
Record sv_ok (D : gmultiset Z) (s : served) (w : world) : Prop := {
  sv_fds : w_fds w = watch_fds s ⊎ D;
  sv_bad : w_bad w = 0;
  sv_id : is_Some (sv_watch s) -> DhcpServer.listener_watch (cfg (sv_server s)) = SERVER_ID;
}.

Lemma em_server_new index : emits net_call_b (server_new kernel env0 index).
Proof. steps_go. Qed.

Lemma em_server_start s : emits net_call_b (server_start kernel s).
Proof. steps_go. Qed.

Lemma em_server_stop s : emits net_call_b (server_stop kernel s).
Proof. steps_go. Qed.

Lemma em_server_unref s : emits net_call_b (server_unref kernel s).
Proof. steps_go. Qed.

Lemma em_send_packets index ps : emits net_call_b (send_packets kernel index ps).
Proof. induction ps as [|p ps IH]; cbn [send_packets]; steps_go. Qed.

#[local] Hint Resolve em_send_packets : steps.

Lemma em_server_event hangup s : emits net_call_b (server_event kernel clock inet_aton foreach_order fuel hangup s).
Proof. steps_go. Qed.

Lemma em_if_name_to_index name : emits net_call_b (if_name_to_index kernel name).
Proof. steps_go. Qed.

Lemma fds_interface_address index w :
  swp False (get_interface_address kernel index) (fun _ w' => keeps w w') w.
Proof.
  unfold get_interface_address. net_open Hf; [apply swp_ret; apply (opens_neg w r); [done|net_fact]|].
  apply swp_bind, swp_ncall. intros r1 d1 _. destruct (r1 <? 0); [by net_end|].
  apply swp_bind, swp_ncall. intros r2 d2 _. destruct (r2 <? 0); by net_end.
Qed.

Lemma if_name_keeps name w : swp False (if_name_to_index kernel name) (fun _ w' => keeps w w') w.
Proof.
  unfold if_name_to_index. destruct (_ <? _); [by apply swp_ret|].
  net_open Hf; [apply swp_ret; apply (opens_neg w r); [done|net_fact]|].
  apply swp_bind, swp_ncall. intros r1 d1 _. by net_end.
Qed.

(** A step that keeps descriptors, in terms of what is open before it. *)
Lemma swp_keeps {A} F (m : nio A) (Q : A -> world -> Prop) fds w :
  swp F m (fun _ w' => keeps w w') w -> w_fds w = fds -> w_bad w = 0 ->
  (forall a w', w_fds w' = fds -> w_bad w' = 0 -> Q a w') -> swp F m Q w.
Proof. intros Hm Hf Hb HQ. eapply swp_mono; [exact Hm|]. intros a w' (? & ? & _). apply HQ; congruence. Qed.

Lemma swp_memory {A} F (m : alloc A) (Q : A -> world -> Prop) fds w :
  w_fds w = fds -> w_bad w = 0 -> (forall a w', w_fds w' = fds -> w_bad w' = 0 -> Q a w') -> swp F (wheap m) Q w.
Proof.
  intros Hf Hb HQ. apply swp_total, swp_wheap. intros a w' ? ?. apply HQ; congruence.
Qed.

Lemma server_new_fds index D w :
  w_fds w = D -> w_bad w = 0 ->
  swp False (server_new kernel env0 index) (fun r w' => w_fds w' = D /\ w_bad w' = 0 /\
    forall sv, fst r = Some sv -> sv_watch sv = None) w.
Proof.
  intros Hf Hb. unfold server_new. destruct (index <? 0); [by apply swp_ret|].
  apply swp_bind. eapply swp_memory; [done..|]. intros ok w1 Hf1 Hb1. destruct ok; [cbn [negb]|by apply swp_ret].
  apply swp_bind. eapply swp_keeps; [apply name_keeps|done..|]. intros name w2 Hf2 Hb2.
  destruct name as [name|]; (apply swp_bind; eapply swp_memory; [done..|]; intros _ w3 Hf3 Hb3); [|by apply swp_ret].
  apply swp_bind. eapply swp_keeps; [apply up_keeps|done..|]. intros up w4 Hf4 Hb4. destruct up; cbn [negb].
  - apply swp_bind. eapply swp_keeps; [apply fds_interface_address|done..|]. intros nip w5 Hf5 Hb5.
    destruct (g_dhcp_server_new _ _ _ _ _ _) as [[s|] err].
    + apply swp_ret. split_and!; [done..|]. by intros sv [= <-].
    + apply swp_bind. eapply swp_memory; [done..|]. intros _ w6 Hf6 Hb6. by apply swp_ret.
  - apply swp_bind. eapply swp_memory; [done..|]. intros _ w6 Hf6 Hb6. by apply swp_ret.
Qed.

(** Closing a descriptor that is open besides [D]. *)
Lemma swp_close fd D (Q : Z -> world -> Prop) w :
  w_fds w = {[+ fd +]} ⊎ D -> w_bad w = 0 ->
  (forall r w', w_fds w' = D -> w_bad w' = 0 -> Q r w') -> swp False (ncall_ kernel (Close fd)) Q w.
Proof.
  intros Hf Hb HQ. apply swp_ncall_. intros r d _. apply HQ; unfold called; cbn [w_fds w_bad fds_after bad_after]; rewrite Hf.
  - apply pop_head.
  - rewrite decide_True; [done|apply in_head].
Qed.

Lemma close_watch_fds s D w :
  w_fds w = watch_fds s ⊎ D -> w_bad w = 0 ->
  swp False (close_watch kernel (sv_watch s)) (fun _ w' => w_fds w' = D /\ w_bad w' = 0) w.
Proof.
  unfold watch_fds, close_watch. intros Hf Hb. destruct (sv_watch s) as [fd|].
  - apply swp_bind. eapply swp_close; [done..|]. intros r w' ? ?. by apply swp_ret.
  - apply swp_ret. by rewrite gmultiset_disj_union_left_id in Hf.
Qed.

Lemma sv_ok_none D s w : sv_watch s = None -> w_fds w = D -> w_bad w = 0 -> sv_ok D s w.
Proof.
  intros Hn Hf Hb. split; unfold watch_fds; rewrite ?Hn; [by rewrite gmultiset_disj_union_left_id|done|by intros [? ?]].
Qed.

Lemma server_start_ok D s w :
  sv_ok D s w -> sv_watch s = None ->
  swp False (server_start kernel s) (fun r w' => sv_ok D (snd r) w') w.
Proof.
  intros [Hf Hb Hid] Hn. unfold watch_fds in Hf. rewrite Hn, gmultiset_disj_union_left_id in Hf.
  unfold server_start. destruct (started _) eqn:Hst.
  { by apply swp_ret, sv_ok_none. }
  apply swp_bind. eapply swp_mono; [apply l3_socket_opens|]. intros fd w1 Ho. unfold opens in Ho.
  unfold g_dhcp_server_start. rewrite Hst. destruct (Z.ltb_spec fd 0).
  - destruct Ho as (Hf1 & Hb1 & _). apply swp_bind, swp_ret, swp_bind. rewrite (proj2 (Z.leb_gt 0 fd)) by done. cbn [andb].
    apply swp_ret, swp_ret, sv_ok_none; [done|congruence..].
  - destruct Ho as (Hf1 & Hb1 & _). apply swp_bind, swp_ncall_. intros ch d _.
    set (w2 := called (IoChannelNew fd) ch d w1). apply swp_bind. rewrite (proj2 (Z.leb_le 0 fd)) by done. cbn [andb].
    rewrite Hf in Hf1. rewrite Hb in Hb1. destruct (Z.ltb_spec ch 0).
    + eapply swp_close; [exact Hf1|exact Hb1|]. intros r w3 Hf3 Hb3. rewrite (proj2 (Z.leb_gt 0 ch)) by done.
      by apply swp_ret, sv_ok_none.
    + apply swp_ret. rewrite (proj2 (Z.leb_le 0 ch)) by done. by split.
Qed.

Lemma server_stop_fds D s w :
  sv_ok D s w ->
  swp False (server_stop kernel s) (fun s' w' => sv_watch s' = None /\ w_fds w' = D /\ w_bad w' = 0) w.
Proof.
  intros [Hf Hb Hid]. unfold server_stop. apply swp_bind. destruct (Z.eqb_spec (DhcpServer.listener_watch (cfg (sv_server s))) SERVER_ID).
  - eapply swp_mono; [by apply close_watch_fds|]. intros _ w' [? ?]. by apply swp_ret.
  - apply swp_ret, swp_ret. unfold watch_fds in Hf. destruct (sv_watch s) as [fd|] eqn:E; [by destruct (n (Hid (ex_intro _ fd eq_refl)))|].
    by rewrite gmultiset_disj_union_left_id in Hf.
Qed.

(** Of a server that was stopped. *)
Lemma server_unref_fds D s w :
  sv_watch s = None -> w_fds w = D -> w_bad w = 0 ->
  swp False (server_unref kernel s) (fun r w' => w_fds w' = D /\ w_bad w' = 0) w.
Proof.
  intros Hn Hf Hb. unfold server_unref. destruct (g_dhcp_server_unref _); [by apply swp_ret|].
  apply swp_bind. eapply swp_mono.
  { by apply (server_stop_fds D), sv_ok_none. }
  intros s' w' (_ & Hf' & Hb'). apply swp_bind. eapply swp_memory; [done..|]. intros _ w2 Hf2 Hb2. by apply swp_ret.
Qed.

Lemma send_packets_keeps index ps w fds :
  w_fds w = fds -> w_bad w = 0 ->
  swp True (send_packets kernel index ps) (fun _ w' => w_fds w' = fds /\ w_bad w' = 0) w.
Proof.
  revert w. induction ps as [|p ps IH]; intros w Hf Hb; cbn [send_packets]; [by apply swp_ret|].
  apply swp_bind. eapply swp_keeps; [apply send_raw_keeps; by right|done..|]. intros r w' ? ?. by apply IH.
Qed.

Lemma server_event_ok D hangup s w :
  sv_ok D s w ->
  swp True (server_event kernel clock inet_aton foreach_order fuel hangup s) (fun s' w' => sv_ok D s' w') w.
Proof.
  intros [Hf Hb Hid]. unfold server_event. apply swp_bind.
  eapply (swp_mono _ _ (fun _ w1 => w_fds w1 = watch_fds s ⊎ D /\ w_bad w1 = 0)).
  { destruct hangup; [by apply swp_ret|]. apply swp_bind, swp_ncall. intros r d _. by apply swp_ret. }
  intros input w1 [Hf1 Hb1]. destruct (DhcpServer.listener_event _ _ _ _ _ _ _) as [[keep sv]|] eqn:E; [|done].
  apply swp_bind. eapply swp_mono; [by apply send_packets_keeps|]. intros _ w2 [Hf2 Hb2]. apply swp_bind.
  destruct hangup.
  - injection E as <- <-. eapply swp_mono; [by apply swp_total, close_watch_fds|]. intros _ w3 [Hf3 Hb3].
    by apply swp_ret, sv_ok_none.
  - destruct (server_event_cfg _ _ _ _ _ _ _ _ E) as [-> Hc]. apply swp_ret, swp_ret. split; [done..|]. cbn [sv_server sv_watch]. rewrite Hc. exact Hid.
Qed.

(** *** The program and its world *)

Definition sfd_fds (d : owfd_dhcp) : gmultiset Z := if 0 <=? dh_sfd d then {[+ dh_sfd d +]} else ∅.

(** The client or the server owns what it says; [u] is the address the client
    has lent to its user. *)
Definition parts (D : gmultiset Z) (i : bool) (u : option Z) (d : owfd_dhcp) (w : world) : Prop :=
  match dh_client d, dh_server d with
  | Some c, None => DhcpConfig.client (dh_config d) = true /\ inv (mkEnv D u) 0 i (c <| wd := w |>)
  | Some _, Some _ => False
  | None, Some sv => DhcpConfig.client (dh_config d) = false /\ sv_ok D sv w
  | None, None => w_fds w = D /\ w_bad w = 0
  end.

(** The address the teardown will remove. *)
Definition armed (d : owfd_dhcp) : Prop :=
  if DhcpConfig.client (dh_config d) then is_Some (dh_client d) /\ is_Some (dh_client_addr d)
  else is_Some (dh_server_addr d).

(** Where a run of the program began, and with which configuration. *)
Record origin := mkOrigin { o_trace : list event; o_conf : owfd_dhcp_config }.

(** Only commands for the interface of the program have been executed. *)
Definition own_commands (n : origin) (w : world) : Prop :=
  exists cs, commands (w_trace w) = commands (o_trace n) ++ cs /\ Forall (ip_command (o_conf n)) cs.

(** The addresses that are left were there before, or are on that interface
    under the condition [P]. *)
Definition left_if (n : origin) (P : Prop) (w : world) : Prop :=
  own_commands n w /\
  forall x, In x (addresses (w_trace w)) -> In x (addresses (o_trace n)) \/ P /\ snd x = place (o_conf n).

(** None is left unless the last command failed. *)
Definition cleared (n : origin) (w : world) : Prop :=
  own_commands n w /\
  (last_succeeded (w_trace w) = true -> forall x, In x (addresses (w_trace w)) -> In x (addresses (o_trace n))).

(** The label of a client is there before the client; a server has none. *)
Definition labelled (d : owfd_dhcp) : Prop :=
  if DhcpConfig.client (dh_config d) then is_Some (dh_client d) -> dh_iflabel d = Some (label_of (dh_config d))
  else dh_iflabel d = None.

Record st (F : gmultiset Z) (n : origin) (i : bool) (u : option Z) (s : dstate) : Prop := {
  st_parts : parts (sfd_fds (dh s) ⊎ F) i u (dh s) (dw s);
  st_left : left_if n (armed (dh s)) (dw s);
  st_conf : dh_config (dh s) = o_conf n;
  st_label : labelled (dh s);
}.

Lemma inv_world D e i c w w' :
  inv D e i (c <| wd := w |>) -> w_fds w' = w_fds w -> w_bad w' = w_bad w -> inv D e i (c <| wd := w' |>).
Proof.
  intros [H1 H2 H3 H4 H5 H0 H6 H7 H8] Hf Hb. split; try done; cbn [rset wd] in *; [|congruence].
  rewrite Hf. exact H6.
Qed.

Lemma parts_world D i u d w w' :
  parts D i u d w -> w_fds w' = w_fds w -> w_bad w' = w_bad w -> parts D i u d w'.
Proof.
  unfold parts. intros Hp Hf Hb. destruct (dh_client d) as [c|], (dh_server d) as [sv|]; [done| | |].
  - destruct Hp. split; [done|]. by eapply inv_world.
  - destruct Hp as [? []]. split; [done|]. split; [congruence..|done].
  - destruct Hp. split; congruence.
Qed.

Lemma own_same n w w' : same_ip w w' -> own_commands n w -> own_commands n w'.
Proof. unfold own_commands. by intros [-> _]. Qed.

Lemma left_same n P w w' : same_ip w w' -> left_if n P w -> left_if n P w'.
Proof. intros Hs [Ho Hl]. split; [by eapply own_same|]. unfold addresses in *. destruct Hs as [_ ->]. exact Hl. Qed.

Lemma cleared_same n w w' : same_ip w w' -> cleared n w -> cleared n w'.
Proof.
  intros Hs [Ho Hl]. split; [by eapply own_same|]. unfold addresses, last_succeeded in *. destruct Hs as [_ ->]. exact Hl.
Qed.

Lemma left_weaken n (P Q : Prop) w : (P -> Q) -> left_if n P w -> left_if n Q w.
Proof. intros HPQ [? H]. split; [done|]. intros x Hx. destruct (H x Hx) as [?|[? ?]]; auto. Qed.

Lemma left_cleared n w : left_if n False w -> cleared n w.
Proof. intros [? H]. split; [done|]. intros _ x Hx. by destruct (H x Hx) as [|[[] _]]. Qed.

Lemma st_calm F n i u d w w' : calm w w' -> st F n i u (mkDState d w) -> st F n i u (mkDState d w').
Proof.
  intros [Hf Hb Hs] [Hp Hl]. cbn [dh dw] in *. split; cbn [dh dw]; [by eapply parts_world|by eapply left_same|done..].
Qed.

Lemma swp_dnet {A} G (m : nio A) (Q : A -> dstate -> Prop) s :
  swp G m (fun a w => Q a (mkDState (dh s) w)) (dw s) -> swp G (dnet m) Q s.
Proof. unfold swp, dnet. by destruct (m (dw s)) as [[a w]|]. Qed.

Lemma swp_updh G f (Q : unit -> dstate -> Prop) s : Q tt (mkDState (f (dh s)) (dw s)) -> swp G (updh f) Q s.
Proof. done. Qed.

Lemma swp_get_dh G (Q : owfd_dhcp -> dstate -> Prop) s : Q (dh s) s -> swp G get_dh Q s.
Proof. done. Qed.

(** A call that changes no descriptor, and memory. *)
Lemma calm_called c r d w : quiet c = true -> plain c = true -> calm w (called c r d w).
Proof.
  intros Hn Hp. split; [unfold called, plain in *; by destruct c..|].
  apply (grows_quiet _ _ [mkEvent c r d]); [done|by constructor].
Qed.

Lemma swp_calm_memory {A} G (m : alloc A) (Q : A -> world -> Prop) w :
  (forall a w', calm w w' -> Q a w') -> swp G (wheap m) Q w.
Proof.
  intros HQ. unfold swp, wheap, on_heap. destruct (m (w_heap w)) as [a h]. by apply HQ.
Qed.

Lemma dfree_st F n i u p s (Q : unit -> dstate -> Prop) :
  st F n i u s -> (forall w, st F n i u (mkDState (dh s) w) -> Q tt (mkDState (dh s) w)) -> swp True (dfree p) Q s.
Proof.
  intros Hs HQ. apply swp_dnet, swp_calm_memory. intros [] w' Hc. apply HQ. destruct s. by eapply st_calm.
Qed.

(** *** The [ip] program *)

(** What becomes of a command that is to be run: it may have been executed or
    not, and it has succeeded or not. *)
Definition ran (argv : list (list Z)) (w w' : world) : Prop :=
  (commands (w_trace w') = commands (w_trace w) \/ commands (w_trace w') = commands (w_trace w) ++ [argv]) /\
  exists l, (l = addresses (w_trace w) \/ l = addresses (w_trace w) ++ added argv) /\
    (ip_seen (w_trace w') = mkIp None false l \/ ip_seen (w_trace w') = mkIp None true (remaining argv l)).

(** The calls of one command: of the child, then [waitpid]. *)
Lemma ran_child argv w w' evs pid d x rp d1 :
  ev_ret x < 0 \/ evs = [] -> ev_call x = Execve argv -> Forall (fun e => quiet (ev_call e) = true) evs ->
  forall pre, Forall (fun e => quiet (ev_call e) = true) pre ->
  w_trace w' = w_trace w ++ mkEvent Fork pid d :: pre ++ x :: evs ++ [mkEvent (Waitpid pid) rp d1] -> ran argv w w'.
Proof.
  intros Hx Hcall [Hc1 Hs1]%commands_quiet pre [Hc2 Hs2]%commands_quiet Ht.
  destruct x as [c r xd]. cbn [ev_ret ev_call] in *. subst c. split.
  - right. rewrite Ht, commands_app. f_equal. change (commands (pre ++ [mkEvent (Execve argv) r xd] ++ evs ++ [mkEvent (Waitpid pid) rp d1]) = [argv]).
    by rewrite !commands_app, Hc1, Hc2.
  - rewrite Ht, ip_seen_app. cbn [fold_left]. rewrite fold_left_app, Hs2. cbn [fold_left]. rewrite fold_left_app, Hs1.
    unfold ip_event. cbn [ev_call ev_ret ev_data fold_left ip_left ip_running]. destruct (Z.ltb_spec r 0) as [Hr|Hr].
    + exists (addresses (w_trace w)). split; [by left|]. by left.
    + exists (addresses (w_trace w) ++ added argv). split; [by right|]. cbn [ip_running ip_left].
      destruct (_ && _ && _); [by right|by left].
Qed.

Lemma run_ip_spec argv w :
  swp False (run_ip kernel argv) (fun r w' => w_fds w' = w_fds w /\ w_bad w' = w_bad w /\ ran argv w w') w.
Proof.
  unfold run_ip. apply swp_bind, swp_ncall_. intros pid d _. destruct (Z.ltb_spec pid 0) as [Hp|Hp].
  - apply swp_ret. split_and!; [done..|]. split.
    + left. unfold called; cbn [w_trace]. rewrite commands_app. apply app_nil_r.
    + exists (addresses (w_trace w)). split; [by left|]. left. unfold called; cbn [w_trace]. by rewrite ip_seen_app.
  - apply swp_bind. eapply (swp_mono _ _ (fun _ w1 => w_fds w1 = w_fds w /\ w_bad w1 = w_bad w /\ forall rp d1 w2,
      w_trace w2 = w_trace w1 ++ [mkEvent (Waitpid pid) rp d1] -> ran argv w w2)).
    { unfold ip_child. net_call. net_call. apply swp_bind, swp_ncall_. intros x d2 _.
      destruct (Z.ltb_spec x 0); [apply swp_bind, swp_ncall_; intros x2 d3 _|]; apply swp_ret; (split; [done|]; split; [done|]);
        intros rp dd w2 Ht; unfold called in Ht; cbn [w_trace] in Ht; rewrite <- !app_assoc in Ht.
      - refine (ran_child argv w w2 [mkEvent (Exit 1) x2 d3] pid d (mkEvent (Execve argv) x d2) rp dd (or_introl _) eq_refl _ [_; _] _ Ht);
          [done|by repeat constructor..].
      - refine (ran_child argv w w2 [] pid d (mkEvent (Execve argv) x d2) rp dd (or_intror eq_refl) eq_refl _ [_; _] _ Ht);
          by repeat constructor. }
    intros _ w1 (Hf & Hb & Hr). apply swp_bind, swp_ncall. intros rp d1 _.
    specialize (Hr rp d1 (called (Waitpid pid) rp d1 w1) eq_refl).
    destruct (negb _); [by apply swp_ret|]. destruct (negb _); [by apply swp_ret|]. destruct (negb _); by apply swp_ret.
Qed.

Lemma own_ran argv n w w' : ran argv w w' -> ip_command (o_conf n) argv -> own_commands n w -> own_commands n w'.
Proof.
  intros [[Hc|Hc] _] Hi (cs & Hcs & Hall); [by exists cs; rewrite Hc|]. exists (cs ++ [argv]).
  split; [by rewrite Hc, Hcs, app_assoc|]. apply Forall_app. split; [done|by constructor].
Qed.

Lemma added_flush conf : added (flush_command conf) = [].
Proof. unfold flush_command, place, added. cbn [app]. by rewrite bool_decide_false. Qed.

Lemma added_add conf a : added (add_command conf a) = [(a, place conf)].
Proof. unfold add_command, added. cbn [app]. by rewrite bool_decide_true. Qed.

Lemma remaining_sub argv l x : In x (remaining argv l) -> In x l.
Proof. unfold remaining. repeat case_match; try done. rewrite filter_In. by intros [? _]. Qed.

Lemma remaining_flush conf l x : In x (remaining (flush_command conf) l) -> In x l /\ snd x <> place conf.
Proof.
  unfold flush_command, remaining. cbn [app]. rewrite bool_decide_true by done. rewrite filter_In.
  intros [? Hx]. split; [done|]. intros E. by rewrite bool_decide_true in Hx.
Qed.

Lemma ran_addresses argv w w' x : ran argv w w' -> In x (addresses (w_trace w')) -> In x (addresses (w_trace w) ++ added argv).
Proof.
  intros (_ & l & Hl & Hs) Hx. assert (In x l) as Hx'.
  { unfold addresses in Hx. destruct Hs as [Hs|Hs]; rewrite Hs in Hx; cbn [ip_left] in Hx; [done|by eapply remaining_sub]. }
  destruct Hl as [-> | ->]; [apply in_or_app; by left|done].
Qed.

Lemma left_ran argv n (P : Prop) w w' :
  ran argv w w' -> ip_command (o_conf n) argv -> P -> left_if n P w -> left_if n P w'.
Proof.
  intros Hr Hi HP [Ho Hl]. split; [by eapply own_ran|]. intros x Hx.
  apply (ran_addresses _ _ _ _ Hr), in_app_or in Hx as [Hx|Hx]; [by apply Hl|]. right. split; [done|].
  destruct Hi as [->|[a ->]]; [by rewrite added_flush in Hx|]. rewrite added_add in Hx. by destruct Hx as [<-|[]].
Qed.

(** Removing the addresses makes everything clean, when it succeeds. *)
Lemma left_flushed n P w w' : ran (flush_command (o_conf n)) w w' -> left_if n P w -> cleared n w'.
Proof.
  intros Hr [Ho Hl]. split; [eapply own_ran; [exact Hr|by left|done]|]. unfold last_succeeded, addresses. intros Hd x Hx.
  destruct Hr as (_ & l & Hll & [Hs|Hs]); rewrite Hs in Hd, Hx; [done|]. cbn [ip_left] in Hx.
  apply remaining_flush in Hx as [Hx Hne]. rewrite added_flush, app_nil_r in Hll.
  destruct Hll as [-> | ->]; by destruct (Hl x Hx) as [|[_ ?]].
Qed.

(** The commands of a program that has a label when it needs one. *)
Lemma commands_placed F n i u s :
  st F n i u s -> is_Some (dh_client (dh s)) \/ DhcpConfig.client (dh_config (dh s)) = false ->
  flush_args (dh s) = flush_command (o_conf n) /\ forall a, add_args (dh s) a = add_command (o_conf n) a.
Proof.
  intros [_ _ Hc Hl] Hp. unfold flush_args, add_args, flush_command, add_command, place, label_args, labelled in *.
  rewrite <- Hc. destruct (DhcpConfig.client (dh_config (dh s))).
  - destruct Hp as [Hp|Hp]; [|done]. by rewrite (Hl Hp).
  - by rewrite Hl.
Qed.

Lemma armed_placed d : armed d -> is_Some (dh_client d) \/ DhcpConfig.client (dh_config d) = false.
Proof. unfold armed. destruct (DhcpConfig.client (dh_config d)); [intros [? _]; by left|by right]. Qed.

Lemma flush_spec F n i u s :
  st F n i u s -> armed (dh s) ->
  swp False (flush_if_addr kernel)
    (fun r s' => dh s' = dh s /\ st F n i u s' /\ cleared n (dw s') /\
       w_fds (dw s') = w_fds (dw s) /\ w_bad (dw s') = w_bad (dw s)) s.
Proof.
  intros Hs Ha. destruct (commands_placed _ _ _ _ _ Hs (armed_placed _ Ha)) as [Hfl _]. destruct Hs as [Hp Hl Hc Hlb].
  unfold flush_if_addr. apply swp_bind, swp_get_dh, swp_dnet. rewrite Hfl.
  eapply swp_mono; [apply run_ip_spec|]. intros r w' (Hf & Hb & Hr). cbn [dh dw].
  split_and!; [done| |by eapply left_flushed|done..]. split; cbn [dh dw]; [by eapply parts_world| |done..].
  eapply left_ran; [exact Hr|by left|done|done].
Qed.

Lemma add_spec F n i u a s :
  st F n i u s -> armed (dh s) ->
  swp False (add_if_addr kernel a) (fun r s' => dh s' = dh s /\ st F n i u s') s.
Proof.
  intros Hs Ha. destruct (commands_placed _ _ _ _ _ Hs (armed_placed _ Ha)) as [_ Had]. destruct Hs as [Hp Hl Hc Hlb].
  unfold add_if_addr. apply swp_bind, swp_get_dh, swp_dnet. rewrite Had.
  eapply swp_mono; [apply run_ip_spec|]. intros r w' (Hf & Hb & Hr). cbn [dh dw].
  split; [done|]. split; cbn [dh dw]; [by eapply parts_world| |done..].
  eapply left_ran; [exact Hr|right; by exists a|done|done].
Qed.

(** *** Steps of the client *)

Definition with_client (d : owfd_dhcp) (c : cstate) : owfd_dhcp := d <| dh_client := Some c |>.

Lemma with_client_sfd d c : sfd_fds (with_client d c) = sfd_fds d.
Proof. done. Qed.

Lemma armed_client d c : armed d -> armed (with_client d c).
Proof. unfold armed. cbn. destruct (DhcpConfig.client _); [|done]. intros [_ ?]. split; [by eexists|done]. Qed.

Lemma labelled_client d c : is_Some (dh_client d) -> labelled d -> labelled (with_client d c).
Proof. unfold labelled. cbn. destruct (DhcpConfig.client _); [|done]. intros Hc Hl _. by apply Hl. Qed.

(** A step of the client leads to a state of the program with the new client
    and the new world, of which [R] holds. *)
Lemma client_rule_with {A} (R : gmultiset Z -> A -> world -> Prop) F n i j u v (m : cm A) (Q : A -> dstate -> Prop) s c :
  st F n i u s -> dh_client (dh s) = Some c -> emits net_call_b m ->
  (forall D, inv (mkEnv D u) 0 i (c <| wd := dw s |>) ->
     swp True m (fun a c' => inv (mkEnv D (v a)) 0 j c' /\ R D a (wd c')) (c <| wd := dw s |>)) ->
  (forall a c' s', dh s' = with_client (dh s) c' -> st F n j (v a) s' -> R (sfd_fds (dh s) ⊎ F) a (dw s') -> Q a s') ->
  swp True (on_client m) Q s.
Proof.
  intros [Hp Hl Hcf Hlb] Hc He Hm HQ. unfold on_client, swp. rewrite Hc. unfold parts in Hp. rewrite Hc in Hp.
  destruct (dh_server (dh s)) eqn:Hs; [done|]. destruct Hp as [Hmode Hi]. specialize (Hm _ Hi). unfold swp in Hm.
  destruct (m (c <| wd := dw s |>)) as [[a c']|] eqn:E; [|done]. destruct Hm as [Hm HR]. apply (HQ a c'); [done| |done].
  pose proof (grows_same _ _ (He _ _ _ E)) as Hsame. split; cbn [dh dw].
  - unfold parts. cbn. rewrite Hs. split; [done|]. by destruct c'.
  - eapply left_weaken; [apply armed_client|]. by eapply (left_same _ _ (dw s)).
  - exact Hcf.
  - by apply labelled_client; [eexists|].
Qed.

Lemma client_rule {A} F n i j u v (m : cm A) (Q : A -> dstate -> Prop) s c :
  st F n i u s -> dh_client (dh s) = Some c -> emits net_call_b m ->
  (forall D, inv (mkEnv D u) 0 i (c <| wd := dw s |>) ->
     swp True m (fun a c' => inv (mkEnv D (v a)) 0 j c') (c <| wd := dw s |>)) ->
  (forall a c' s', dh s' = with_client (dh s) c' -> st F n j (v a) s' -> Q a s') ->
  swp True (on_client m) Q s.
Proof.
  intros Hs Hc He Hm HQ. eapply (client_rule_with (fun _ _ _ => True)); [done..| |by eauto].
  intros D Hi. eapply swp_mono; [by apply Hm|]. by intros a c' ?.
Qed.

Lemma client_step {A} F n i j u (m : cm A) (Q : A -> dstate -> Prop) s c :
  st F n i u s -> dh_client (dh s) = Some c -> emits net_call_b m -> tri i m j ->
  (forall a c' s', dh s' = with_client (dh s) c' -> st F n j u s' -> Q a s') ->
  swp True (on_client m) Q s.
Proof. intros Hs Hc He Hm HQ. eapply (client_rule F n i j u (fun _ => u)); eauto. Qed.

(** *** What the user's functions do *)

(** The client, and what depends on its mode, stay. *)
Definition live_client (F : gmultiset Z) (n : origin) (i : bool) (s : dstate) : Prop :=
  st F n i None s /\ is_Some (dh_client (dh s)).

Lemma live_mode F n i s : live_client F n i s -> DhcpConfig.client (dh_config (dh s)) = true.
Proof.
  intros [[Hp _ _ _] [c Hc]]. unfold parts in Hp. rewrite Hc in Hp. by destruct (dh_server (dh s)), Hp.
Qed.

(** A change of other fields. *)
Lemma st_updh F n i u f s :
  dh_client (f (dh s)) = dh_client (dh s) -> dh_server (f (dh s)) = dh_server (dh s) ->
  dh_config (f (dh s)) = dh_config (dh s) -> dh_sfd (f (dh s)) = dh_sfd (dh s) ->
  (armed (dh s) -> armed (f (dh s))) -> (labelled (dh s) -> labelled (f (dh s))) ->
  st F n i u s -> st F n i u (mkDState (f (dh s)) (dw s)).
Proof.
  intros H1 H2 H3 H4 Ha Hb [Hp Hl Hc Hlb]. split; cbn [dh dw]; [|by eapply left_weaken|congruence|auto].
  unfold parts, sfd_fds in *. by rewrite H1, H2, H3, H4.
Qed.

Lemma quit_live F n i s (Q : unit -> dstate -> Prop) :
  live_client F n i s -> (forall s', live_client F n i s' -> Q tt s') -> swp True quit_loop Q s.
Proof.
  intros [Hs Hc] HQ. apply swp_updh, HQ. split; [|done]. by apply (st_updh F n i None (fun d => d <| dh_running := false |>)).
Qed.

Lemma apply_lease_live F n i a s :
  live_client F n i s -> swp True (apply_lease kernel a) (fun _ s' => live_client F n i s') s.
Proof.
  intros Hs. pose proof (live_mode _ _ _ _ Hs) as Hm. destruct Hs as [Hs Hc]. unfold apply_lease.
  apply swp_bind, swp_get_dh. destruct (bool_decide _).
  { eapply dfree_st; [exact Hs|]. by intros w Hw. }
  apply swp_bind. eapply dfree_st; [exact Hs|]. intros w Hw. apply swp_bind, swp_updh. cbn [dh dw].
  set (d := dh s <| dh_client_addr := Some a |>).
  assert (armed d) as Ha by (unfold armed; cbn; rewrite Hm; split; [done|by eexists]).
  assert (st F n i None (mkDState d w)) as Hd.
  { apply (st_updh F n i None (fun d => d <| dh_client_addr := Some a |>) (mkDState (dh s) w)); done. }
  apply swp_bind. eapply swp_mono; [apply swp_total, (flush_spec _ _ _ _ _ Hd Ha)|]. intros r s1 (E1 & H1 & _).
  assert (forall s', dh s' = d -> st F n i None s' -> live_client F n i s') as Hlive.
  { intros s' E ?. split; [done|]. by rewrite E. }
  destruct (r <? 0); [eapply quit_live; [by apply Hlive|done]|].
  apply swp_bind. eapply swp_mono; [apply swp_total, (add_spec F n i None)|]; [done|by rewrite E1|].
  intros r2 s2 (E2 & H2). rewrite E1 in E2.
  destruct (r2 <? 0); [eapply quit_live; [by apply Hlive|done]|]. by apply swp_ret, Hlive.
Qed.

Lemma get_address_rule D e i c :
  inv (mkEnv D None) e i c ->
  swp True g_dhcp_client_get_address (fun p c' => inv (mkEnv D p) e i c') c.
Proof.
  intros Hi. unfold g_dhcp_client_get_address. apply swp_bind, swp_get_cl. unfold g_strdup.
  destruct (assigned_ip (cl c)) as [q|]; [|by apply swp_ret].
  apply swp_bind. unfold swp at 1, read_string. destruct (strings c !! q) as [v|]; [|done].
  apply swp_bind. unfold swp at 1, new_string. apply swp_ret.
  destruct Hi as [H1 H2 H3 H4 H5 H0 H6 H7 H8]. split; try done. by apply strings_ok_borrow.
Qed.

Lemma free_borrowed_rule D e i p c :
  inv (mkEnv D (Some p)) e i c -> swp True (g_free (Some p)) (fun _ c' => inv (mkEnv D None) e i c') c.
Proof.
  intros [H1 H2 H3 H4 H5 H0 H6 H7 H8]. unfold g_free, swp. destruct (ok_user _ _ _ _ _ H8 p eq_refl) as [v ->].
  split; try done. by apply strings_ok_return.
Qed.

Lemma lease_fn_live F n i s :
  live_client F n i s -> swp True (client_lease_fn kernel) (fun _ s' => live_client F n i s') s.
Proof.
  intros [Hs [c Hc]]. unfold client_lease_fn. apply swp_bind.
  eapply (client_rule F n i i None (fun p => p)); [exact Hs|exact Hc|steps_go| |].
  { intros D. apply get_address_rule. }
  intros p c1 s1 E1 H1. destruct p as [p|].
  2: { eapply quit_live; [split; [exact H1|by rewrite E1; eexists]|done]. }
  assert (dh_client (dh s1) = Some c1) as Hc1 by by rewrite E1.
  apply swp_bind. eapply (client_step F n i i (Some p)); [exact H1|exact Hc1|apply em_read_string|apply tri_read_string|].
  intros addr c2 s2 E2 H2. assert (dh_client (dh s2) = Some c2) as Hc2 by by rewrite E2.
  apply swp_bind. eapply (client_step F n i i (Some p)); [exact H2|exact Hc2|apply em_get_cl|apply tri_get|].
  intros cc c3 s3 E3 H3. assert (dh_client (dh s3) = Some c3) as Hc3 by by rewrite E3.
  cbv zeta. apply swp_bind. unfold dasprintf. apply swp_dnet, swp_calm_memory. intros ok w4 Hw4.
  apply st_calm with (n := n) (F := F) (i := i) (u := Some p) (d := dh s3) in Hw4; [|by destruct s3].
  apply swp_bind. eapply (client_rule F n i i (Some p) (fun _ => None)); [exact Hw4|exact Hc3|apply em_g_free| |].
  { intros D. apply free_borrowed_rule. }
  intros _ c5 s5 E5 H5. assert (live_client F n i s5) as H5' by (split; [done|by rewrite E5; eexists]).
  destruct ok; [by apply apply_lease_live|]. by eapply quit_live.
Qed.

Lemma call_users_live F n i fns s :
  live_client F n i s -> swp True (call_users kernel fns) (fun _ s' => live_client F n i s') s.
Proof.
  revert s. induction fns as [|fn fns IH]; intros s Hs; cbn [call_users]; [by apply swp_ret|].
  apply swp_bind. eapply (swp_mono _ _ (fun _ s' => live_client F n i s')).
  - destruct (decide _); [by apply lease_fn_live|]. destruct (decide _); [by eapply quit_live|by apply swp_ret].
  - intros _ s' Hs'. by apply IH.
Qed.

Lemma with_users_live {A} F n i j (m : cm A) s :
  live_client F n i s -> emits net_call_b m ->
  (forall D c, inv (mkEnv D None) 0 i c -> swp True m (fun _ c' => inv (mkEnv D None) 0 j c') c) ->
  swp True (with_users kernel m) (fun _ s' => live_client F n j s') s.
Proof.
  intros [Hs [c Hc]] He Hm. unfold with_users. apply swp_bind.
  eapply (client_rule F n i j None (fun _ => None)); [exact Hs|exact Hc|exact He|by auto|]. intros a c1 s1 E1 H1.
  apply swp_bind. eapply swp_mono.
  { apply (call_users_live F n j). split; [exact H1|]. rewrite E1. by eexists. }
  intros [] s2 H2. by apply swp_ret.
Qed.

(** Calls of the network do not change which address is left. *)
Lemma swp_same {A} (R : world -> Prop) (m : nio A) (Q : A -> world -> Prop) w :
  (forall w w', same_ip w w' -> R w -> R w') ->
  emits net_call_b m -> R w -> swp False m Q w -> swp False m (fun a w' => Q a w' /\ R w') w.
Proof.
  intros HR He Hl. unfold swp. destruct (m w) as [[a w']|] eqn:E; [|done]. intros HQ. split; [done|].
  eapply HR; [|exact Hl]. apply grows_same. exact (He _ _ _ E).
Qed.

Lemma swp_left {A} n P (m : nio A) (Q : A -> world -> Prop) w :
  emits net_call_b m -> left_if n P w -> swp False m Q w -> swp False m (fun a w' => Q a w' /\ left_if n P w') w.
Proof. apply swp_same. intros w1 w2. apply left_same. Qed.

(** *** The main loop *)

Lemma st_weaken F n i u s : st F n i u s -> st F n false u s.
Proof.
  intros [Hp Hl Hc Hlb]. split; [|done..]. unfold parts in *. destruct (dh_client _), (dh_server _); try done.
  destruct Hp. split; [done|]. by eapply inv_weaken.
Qed.

Lemma sfd_fn_st F n i u hangup s :
  st F n i u s -> swp True (owfd_dhcp_sfd_fn kernel hangup) (fun _ s' => st F n i u s') s.
Proof.
  intros Hs. assert (forall s, st F n i u s -> st F n i u (mkDState (dh s <| dh_running := false |>) (dw s))) as Hq.
  { intros s1. by apply (st_updh F n i u (fun d => d <| dh_running := false |>)). }
  unfold owfd_dhcp_sfd_fn, quit_loop. destruct hangup; [by apply swp_bind, swp_updh, swp_ret, Hq|].
  apply swp_bind, swp_get_dh, swp_bind, swp_dnet, swp_ncall. intros l info _. destruct s as [d w]. cbn [dh dw].
  apply (st_calm _ _ _ _ _ _ (called (Read (dh_sfd d) sizeof_siginfo) l info w)) in Hs; [|by apply calm_called].
  destruct (l <? 0); [by apply swp_bind, swp_updh, swp_ret, Hq|].
  destruct (negb _); [by apply swp_ret|]. by apply swp_bind, swp_updh, swp_ret, Hq.
Qed.

Lemma server_rule {A} F n i s sv (m : nio A) (new : A -> served) (Q : A -> dstate -> Prop) :
  st F n i None s -> dh_server (dh s) = Some sv -> emits net_call_b m ->
  (forall D w, sv_ok D sv w -> swp True m (fun a w' => sv_ok D (new a) w') w) ->
  (forall a w', st F n i None (mkDState (dh s <| dh_server := Some (new a) |>) w') -> Q a (mkDState (dh s) w')) ->
  swp True (dnet m) Q s.
Proof.
  intros [Hp Hl Hcf Hlb] Hsv He Hm HQ. unfold parts in Hp. rewrite Hsv in Hp. destruct (dh_client (dh s)) eqn:Hc; [done|].
  destruct Hp as [Hmode Hok]. apply swp_dnet. specialize (Hm _ _ Hok). unfold swp in Hm |- *.
  destruct (m (dw s)) as [[a w']|] eqn:E; [|done]. apply HQ. split; cbn [dh dw]; [|eapply (left_same _ _ (dw s)); [|exact Hl]|exact Hcf|exact Hlb].
  - unfold parts. cbn. by rewrite Hc.
  - apply grows_same. exact (He _ _ _ E).
Qed.

Lemma dispatch_one_st F n h s :
  st F n false None s ->
  swp True (dispatch_one kernel clock inet_aton inet_addr inet_ntop6 foreach_order stack fuel h)
    (fun _ s' => st F n false None s') s.
Proof.
  intros Hs. unfold dispatch_one. apply swp_bind, swp_get_dh. destruct h as [hangup|id hangup|hangup].
  - destruct (dh_sfd_watch _); [|by apply swp_ret]. apply swp_bind.
    eapply swp_mono; [by apply sfd_fn_st|]. intros keep s1 H1. destruct keep; [by apply swp_ret|].
    apply swp_updh. by apply (st_updh F n false None (fun d => d <| dh_sfd_watch := false |>)).
  - destruct (dh_client (dh s)) as [c|] eqn:Hc; [|by apply swp_ret].
    eapply swp_mono; [eapply (with_users_live F n false false)|]; [by split; [|eexists]|apply em_dispatch| |by intros ? ? []].
    intros D c0. apply dispatch_inv.
  - destruct (dh_server (dh s)) as [sv|] eqn:Hsv; [|by apply swp_ret]. destruct (sv_watch sv); [|by apply swp_ret].
    apply swp_bind. eapply (server_rule F n false s sv _ (fun a => a)); [done..|apply em_server_event| |].
    + intros D w. apply server_event_ok.
    + intros a w' H'. by apply swp_updh.
Qed.

Lemma loop_st F n hs s :
  st F n false None s ->
  swp True (loop kernel clock inet_aton inet_addr inet_ntop6 foreach_order stack fuel hs)
    (fun _ s' => st F n false None s') s.
Proof.
  revert s. induction hs as [|h hs IH]; intros s Hs; cbn [loop]; apply swp_bind, swp_get_dh;
    (destruct (negb _); [by apply swp_ret|]); [by apply swp_ret|].
  apply swp_bind. eapply swp_mono; [by apply dispatch_one_st|]. intros [] s1 H1. by apply IH.
Qed.

Lemma run_st F n hs s :
  st F n true None s -> (forall sv, dh_server (dh s) = Some sv -> sv_watch sv = None) ->
  swp True (owfd_dhcp_run kernel clock inet_aton inet_addr inet_ntop6 foreach_order stack fuel hs)
    (fun _ s' => st F n false None s') s.
Proof.
  intros Hs Hw. unfold owfd_dhcp_run. apply swp_bind, swp_get_dh, swp_bind.
  eapply (swp_mono _ _ (fun _ s' => st F n false None s')).
  - destruct (DhcpConfig.client _) eqn:Hmode.
    + destruct (dh_client (dh s)) as [c|] eqn:Hc; [|by unfold with_users, sbind, on_client, swp; rewrite Hc].
      eapply swp_mono; [eapply (with_users_live F n true false)|]; [by split; [|eexists]|apply em_start| |by intros ? ? []].
      intros D c0. apply tri_start.
    + destruct (dh_server (dh s)) as [sv|] eqn:Hsv; [|done]. apply swp_bind.
      eapply (server_rule F n true s sv _ snd); [done..|apply em_server_start| |].
      * intros D w Hok. by apply swp_total, server_start_ok, Hw.
      * intros [r sv'] w' H'. apply swp_bind, swp_updh, swp_ret. by eapply st_weaken.
  - intros r s1 H1. destruct (negb _); [by apply swp_ret|]. apply swp_bind. unfold g_main_loop_run. apply swp_bind, swp_updh.
    eapply swp_mono; [apply loop_st; by apply (st_updh F n false None (fun d => d <| dh_running := true |>))|].
    intros stopped s2 H2. by apply swp_ret.
Qed.

(** *** Tearing down *)

Lemma stop_rule D i c :
  inv (mkEnv D None) 0 i c ->
  swp True (g_dhcp_client_stop kernel stack)
    (fun _ c' => inv (mkEnv D None) 0 true c' /\ w_fds (wd c') = D /\ w_bad (wd c') = 0) c.
Proof.
  intros Hi. unfold g_dhcp_client_stop. apply swp_bind. eapply swp_mono; [by apply tri_switch|]. intros r c1 H1.
  apply swp_bind, swp_get_cl, swp_bind.
  eapply (swp_mono _ _ (fun _ c2 => inv (mkEnv D None) 0 i c2)).
  { destruct (_ || _); [|by apply swp_ret]. apply swp_bind. eapply swp_mono; [exact (tri_send_release kernel i _ _ _ _ _ H1)|].
    intros x c2 H2. by apply swp_ret. }
  intros [] c2 H2. apply swp_bind. eapply swp_mono; [exact (tri_clear_timeout kernel i _ _ _ H2)|]. intros [] c3 H3.
  apply swp_bind. eapply swp_mono; [exact (swp_total True _ _ _ (clear_watch_spec kernel _ _ _ _ H3))|]. intros [] c4 (H4 & _ & Hw).
  apply swp_upd. set (c5 := c4 <| cl := _ |>).
  assert (inv (mkEnv D None) 0 true c5) as H5 by (destruct H4; by split).
  destruct (no_sources _ _ H5 Hw) as (_ & _ & Hf). split_and!; [done|exact Hf|apply H5].
Qed.

Lemma unref_rule D i c :
  inv (mkEnv D None) 0 i c -> w_fds (wd c) = D ->
  swp True (g_dhcp_client_unref kernel stack) (fun _ c' => w_fds (wd c') = D /\ w_bad (wd c') = 0) c.
Proof.
  intros Hi Hf. unfold g_dhcp_client_unref. apply swp_bind, swp_get_cl, swp_bind, swp_upd. set (c1 := c <| cl := _ |>).
  assert (inv (mkEnv D None) 0 i c1) as H1 by (destruct Hi; by split).
  destruct (negb _); [apply swp_ret; split; [exact Hf|apply H1]|].
  apply swp_bind. eapply swp_mono; [by eapply stop_rule|]. intros [] c2 (_ & Hf2 & Hb2).
  assert (forall A (m : cm A) c, (forall a c', m c = Some (a, c') -> wd c' = wd c) -> w_fds (wd c) = D -> w_bad (wd c) = 0 ->
    swp True m (fun _ c' => w_fds (wd c') = D /\ w_bad (wd c') = 0) c) as Hsame.
  { intros A m c0 Hm ? ?. unfold swp. destruct (m c0) as [[a c']|] eqn:E; [|done]. by rewrite (Hm _ _ eq_refl). }
  assert (forall p (c : cstate) a c', g_free p c = Some (a, c') -> wd c' = wd c) as Hg.
  { intros p c0 a c'. unfold g_free. destruct p as [p|]; [destruct (_ !! p)|]; by intros [= _ <-]. }
  apply swp_bind, swp_get_cl, swp_bind. eapply swp_mono; [apply Hsame; [apply Hg|done..]|]. intros [] c3 [Hf3 Hb3].
  apply swp_bind. eapply swp_mono; [apply Hsame; [apply Hg|done..]|]. intros [] c4 [Hf4 Hb4].
  apply swp_bind, swp_net. eapply (swp_memory True _ _ D); [done..|]. intros [] w5 Hf5 Hb5.
  apply swp_bind, swp_net. eapply (swp_memory True _ _ D); [done..|]. intros [] w6 Hf6 Hb6. by apply swp_ret.
Qed.

(** Nothing but [D] is open, and no address is left unless the last command
    failed. *)
Definition over (D : gmultiset Z) (n : origin) (w : world) : Prop := w_fds w = D /\ w_bad w = 0 /\ cleared n w.

Lemma over_calm D n w w' : calm w w' -> over D n w -> over D n w'.
Proof. intros [Hf Hb Hs] (H1 & H2 & H3). split_and!; [congruence..|]. by eapply cleared_same. Qed.

(** The fields the end of the teardown reads. *)
Definition same_rest (d d' : owfd_dhcp) : Prop :=
  dh_config d' = dh_config d /\ dh_sfd d' = dh_sfd d /\ dh_iflabel d' = dh_iflabel d.

Lemma swp_dfree D n p s (Q : unit -> dstate -> Prop) :
  over D n (dw s) -> (forall w, over D n w -> Q tt (mkDState (dh s) w)) -> swp True (dfree p) Q s.
Proof.
  intros Ho HQ. apply swp_dnet, swp_calm_memory. intros [] w' Hc. by eapply HQ, over_calm.
Qed.

Lemma teardown_client_over F n i s :
  st F n i None s -> DhcpConfig.client (dh_config (dh s)) = true ->
  swp True (teardown_client kernel stack)
    (fun _ s' => over (sfd_fds (dh s) ⊎ F) n (dw s') /\ same_rest (dh s) (dh s')) s.
Proof.
  intros Hs Hmode. unfold teardown_client. apply swp_bind, swp_get_dh. set (D := sfd_fds (dh s) ⊎ F).
  destruct (dh_client (dh s)) as [c|] eqn:Hc.
  2: { destruct Hs as [Hp Hl _ _]. unfold parts in Hp. rewrite Hc, Hmode in Hp.
       destruct (dh_server (dh s)); [by destruct Hp|]. destruct Hp as [Hf Hb]. apply swp_ret. split; [|by split_and!].
       split_and!; [exact Hf|done|]. eapply left_cleared, left_weaken; [|exact Hl]. unfold armed. rewrite Hmode, Hc. by intros [[? ?] _]. }
  apply swp_bind. eapply (client_rule_with (fun D _ w => w_fds w = D /\ w_bad w = 0) F n i true None (fun _ => None));
    [exact Hs|exact Hc|apply em_stop|by intros D'; apply stop_rule|].
  intros [] c1 s1 E1 H1 [Hf1 Hb1]. fold D in Hf1. apply swp_bind.
  eapply (swp_mono _ _ (fun _ s' => dh s' = dh s1 /\ st F n true None s' /\ over D n (dw s'))).
  { destruct (dh_client_addr (dh s)) as [a|] eqn:Ha.
    - apply swp_bind. eapply swp_mono; [apply swp_total, (flush_spec _ _ _ _ _ H1)|].
      { rewrite E1. unfold armed. cbn. rewrite Hmode, Ha. split; by eexists. }
      intros r s2 (E2 & H2 & Hl2 & Hf2 & Hb2). assert (over D n (dw s2)) as Ho2 by (split_and!; [congruence..|done]).
      unfold dfree. apply swp_dnet, swp_calm_memory. intros [] w3 Hc3. cbn [dh dw].
      split_and!; [done|destruct s2; by eapply st_calm|by eapply over_calm].
    - apply swp_ret. split_and!; [done|done|]. split_and!; [done..|].
      eapply left_cleared, left_weaken; [|apply H1]. rewrite E1. unfold armed. cbn. rewrite Hmode, Ha. by intros [_ [? ?]]. }
  intros [] s2 (E2 & [Hp2 _ _ _] & (Hf2 & Hb2 & Hl2)). rewrite E1 in E2. apply swp_bind.
  unfold parts in Hp2. rewrite E2 in Hp2. cbn [with_client rset dh_client dh_server] in Hp2.
  destruct (dh_server (dh s)); [done|]. destruct Hp2 as [_ Hi2].
  eapply (swp_mono _ _ (fun _ s' => exists c', dh s' = with_client (dh s) c' /\ over D n (dw s'))).
  - unfold on_client, swp. rewrite E2. cbn [with_client rset dh_client].
    pose proof (unref_rule _ _ _ Hi2 Hf2) as Hu. unfold swp in Hu.
    destruct (g_dhcp_client_unref kernel stack _) as [[gone c']|] eqn:E; [|done]. exists c'. split; [done|]. cbn [dw].
    destruct Hu as [Hf3 Hb3]. split_and!; [done..|].
    eapply (cleared_same _ (dw s2)); [|done]. apply grows_same. exact (em_unref _ _ _ _ _ E).
  - intros gone s3 (c' & E3 & Ho3). destruct gone; [apply swp_updh|apply swp_ret]; cbn [dh dw]; rewrite E3; by split.
Qed.

Lemma teardown_server_over F n i s :
  st F n i None s -> DhcpConfig.client (dh_config (dh s)) = false ->
  swp True (teardown_server kernel)
    (fun _ s' => over (sfd_fds (dh s) ⊎ F) n (dw s') /\ same_rest (dh s) (dh s')) s.
Proof.
  intros Hs Hmode. destruct (commands_placed _ _ _ _ _ Hs (or_intror Hmode)) as [Hfl _]. destruct Hs as [Hp Hl Hcf Hlb].
  unfold teardown_server. apply swp_bind, swp_get_dh. set (D := sfd_fds (dh s) ⊎ F) in *.
  unfold parts in Hp. destruct (dh_client (dh s)) as [c|] eqn:Hc.
  { destruct (dh_server (dh s)); [done|]. destruct Hp. congruence. }
  apply swp_bind. eapply (swp_mono _ _ (fun _ s' => same_rest (dh s) (dh s') /\ flush_args (dh s') = flush_args (dh s) /\ w_fds (dw s') = D /\ w_bad (dw s') = 0 /\
    left_if n (armed (dh s)) (dw s'))).
  { destruct (dh_server (dh s)) as [sv|]; [|destruct Hp; by apply swp_ret]. destruct Hp as [_ Hok].
    apply swp_bind, swp_dnet. eapply swp_mono; [apply swp_total; exact (swp_left _ _ _ _ _ (em_server_stop sv) Hl (server_stop_fds _ _ _ Hok))|].
    intros sv1 w1 [(Hn1 & Hf1 & Hb1) Hl1].
    apply swp_bind, swp_dnet. eapply swp_mono; [apply swp_total; exact (swp_left _ _ _ _ _ (em_server_unref sv1) Hl1 (server_unref_fds _ _ _ Hn1 Hf1 Hb1))|].
    intros sv2 w2 [(Hf2 & Hb2) Hl2]. by apply swp_updh. }
  intros [] s1 (Hr & Hfl1 & Hf1 & Hb1 & Hl1). destruct (dh_server_addr (dh s)) as [a|] eqn:Ha.
  - apply swp_bind. unfold flush_if_addr. apply swp_bind, swp_get_dh, swp_dnet. rewrite Hfl1, Hfl.
    eapply swp_mono; [apply swp_total, run_ip_spec|]. intros r w2 (Hf2 & Hb2 & Hr2).
    eapply (swp_dfree D n); [|by intros w3 ?]. split_and!; cbn [dw]; [congruence..|]. by eapply left_flushed.
  - apply swp_ret. split; [|done]. split_and!; [done..|]. eapply left_cleared, left_weaken; [|exact Hl1].
    unfold armed. rewrite Hmode, Ha. by intros [? ?].
Qed.

Lemma teardown_over F n i s :
  st F n i None s ->
  swp True (owfd_dhcp_teardown kernel stack) (fun _ s' => over F n (dw s') /\ dh_config (dh s') = dh_config (dh s)) s.
Proof.
  intros Hs. unfold owfd_dhcp_teardown. apply swp_bind, swp_get_dh, swp_bind.
  eapply (swp_mono _ _ (fun _ s' => over (sfd_fds (dh s) ⊎ F) n (dw s') /\ same_rest (dh s) (dh s'))).
  { destruct (DhcpConfig.client _) eqn:Hmode; [by eapply teardown_client_over|by eapply teardown_server_over]. }
  intros [] s1 [Ho1 (Hc1 & _ & _)]. apply swp_bind.
  eapply (swp_mono _ _ (fun _ s' => over F n (dw s') /\ dh_config (dh s') = dh_config (dh s))).
  - unfold sfd_fds in Ho1. destruct (0 <=? dh_sfd (dh s)).
    + destruct Ho1 as (Hf1 & Hb1 & Hl1). apply swp_bind, swp_updh, swp_bind, swp_dnet.
      eapply swp_mono; [apply swp_total; eapply (swp_same (cleared n)); [intros w1 w2; apply cleared_same| |exact Hl1|eapply (swp_close _ F (fun _ w' => w_fds w' = F /\ w_bad w' = 0)); [done..|by split]]|].
      { by apply em_ncall_. }
      intros r w2 [[Hf2 Hb2] Hl2]. by apply swp_ret.
    + apply swp_ret. rewrite gmultiset_disj_union_left_id in Ho1. by split.
  - intros [] s2 [Ho2 Hc2]. eapply swp_dfree; [exact Ho2|]. by intros w Hw.
Qed.

(** *** Setting up *)

(** Failed and cleaned up, or ready. *)
Definition set_up (F : gmultiset Z) (n : origin) (r : Z) (s : dstate) : Prop :=
  r < 0 /\ over F n (dw s) \/
  r = 0 /\ st F n true None s /\ (forall sv, dh_server (dh s) = Some sv -> sv_watch sv = None).

Lemma setup_error_ok F n r s :
  st F n true None s -> r < 0 -> swp True (setup_error kernel stack r) (fun r' s' => set_up F n r' s') s.
Proof.
  intros Hs Hr. apply swp_bind. eapply swp_mono; [by eapply teardown_over|]. intros [] s' [Ho _].
  apply swp_ret. by left.
Qed.

Lemma dnet_calm {A} F n i u (m : nio A) (Q : A -> dstate -> Prop) s :
  st F n i u s -> emits net_call_b m -> (forall w, swp True m (fun _ w' => keeps w w') w) ->
  (forall a w', st F n i u (mkDState (dh s) w') -> Q a (mkDState (dh s) w')) -> swp True (dnet m) Q s.
Proof.
  intros Hs He Hk HQ. apply swp_dnet. specialize (Hk (dw s)). unfold swp in *.
  destruct (m (dw s)) as [[a w']|] eqn:E; [|done]. destruct Hk as (? & ? & _).
  apply HQ. destruct s. eapply st_calm; [|exact Hs]. split; [done..|]. apply grows_same. exact (He _ _ _ E).
Qed.

Lemma live_step {A} F n (m : cm A) s :
  live_client F n true s -> emits net_call_b m -> tri true m true ->
  swp True (on_client m) (fun _ s' => live_client F n true s') s.
Proof.
  intros [Hs [c Hc]] He Hm. eapply (client_step F n true true None); [exact Hs|exact Hc|exact He|exact Hm|].
  intros a c' s' E Hs'. split; [done|]. rewrite E. by eexists.
Qed.

#[local] Hint Resolve tri_ret tri_cheap tri_send_hash_insert tri_set_request : tri.
#[local] Hint Extern 1 (tri _ (upd _) _) =>
  apply tri_upd; intros; repeat case_match; split_and!; reflexivity : tri.

Ltac tri_steps := repeat first [solve [auto with tri] | case_match | eapply tri_bind; [|intros]].

Lemma tri_set_send i code v : tri i (g_dhcp_client_set_send code v) i.
Proof.
  unfold g_dhcp_client_set_send, alloc_dhcp_string_option, alloc_dhcp_data_option, alloc_dhcp_option, send_value. tri_steps.
Qed.

Lemma tri_register i ev f : tri i (g_dhcp_client_register_event ev f) i.
Proof. unfold g_dhcp_client_register_event. tri_steps. Qed.

Lemma swp_intro {S A} (m : sfm S A) Q s : (forall a s', m s = Some (a, s') -> Q a s') -> swp True m Q s.
Proof. unfold swp. destruct (m s) as [[a s']|]; auto. Qed.

Lemma setup_client_ok F n s :
  st F n true None s -> dh_client (dh s) = None -> dh_server (dh s) = None ->
  DhcpConfig.client (dh_config (dh s)) = true ->
  swp True (setup_client kernel stack) (fun r s' => set_up F n r s') s.
Proof.
  intros Hs Hnc Hns Hmode. unfold setup_client. apply swp_bind, swp_get_dh. cbv zeta. apply swp_bind.
  unfold dasprintf. apply swp_dnet, swp_calm_memory. intros ok w1 Hc1.
  apply (st_calm F n true None (dh s)) in Hc1; [|by destruct s]. destruct ok; cbn [negb]; [|by apply setup_error_ok].
  apply swp_bind, swp_updh. cbn [dh dw]. set (d1 := dh s <| dh_iflabel := _ |>).
  assert (st F n true None (mkDState d1 w1)) as H1.
  { apply (st_updh F n true None (fun d => d <| dh_iflabel := _ |>) (mkDState (dh s) w1)); try done.
    cbn [dh]. unfold labelled. cbn. rewrite Hmode, Hnc. by intros _ [? ?]. }
  assert (dh_client d1 = None /\ dh_server d1 = None /\ DhcpConfig.client (dh_config d1) = true /\
          dh_iflabel d1 = Some (label_of (dh_config d1))) as (Hnc1 & Hns1 & Hm1 & Hlab) by done.
  clearbody d1. clear - H1 Hnc1 Hns1 Hm1 Hlab.
  apply swp_bind, swp_dnet. cbn [dh dw]. destruct H1 as [Hp Hl Hcf Hlb]. cbn [dh dw] in *. unfold parts in Hp.
  rewrite Hnc1, Hns1 in Hp. destruct Hp as [Hf Hb].
  pose proof (new_fds kernel G_DHCP_IPV4 (dh_ifindex (dh s)) w1) as Hnew. apply swp_intro. intros [c err] w2 E.
  unfold swp in Hnew. rewrite E in Hnew.
  destruct Hnew as (Hf2 & Hb2 & _).
  assert (left_if n (armed d1) w2) as Hl2.
  { eapply (left_same _ _ w1); [|exact Hl]. apply grows_same. exact (em_new _ _ _ _ _ _ E). }
  destruct c as [c|].
  - apply new_inv in E; [|done]. rewrite Hf in E.
    apply swp_bind, swp_mod.
    assert (live_client F n true (mkDState (with_client d1 (mkState c ∅ 1 ∅ 1 w2)) w2)) as H3.
    { split; [|by eexists]. split; cbn [dh dw].
      - unfold parts. cbn. by rewrite Hns1.
      - eapply left_weaken; [apply armed_client|exact Hl2].
      - exact Hcf.
      - unfold labelled. cbn. by rewrite Hm1. }
    do 6 (apply swp_bind; eapply swp_mono;
      [eapply (live_step F n); [exact H3|steps_with ltac:(apply em_net)|apply tri_set_send || apply tri_set_request || apply tri_register]|];
      clear H3; intros ? ? H3).
    apply swp_ret. right. split; [done|]. split; [apply H3|]. intros sv Hsv. destruct H3 as [[Hp3 _ _ _] [c3 Hc3]].
    unfold parts in Hp3. rewrite Hc3, Hsv in Hp3. done.
  - apply (setup_error_ok F n (client_errno err) (mkDState d1 w2)); [|by destruct err].
    split; cbn [dh dw]; [|done..]. unfold parts. rewrite Hnc1, Hns1. split; congruence.
Qed.

(** The settings give 0 or an error. *)
Lemma set_option_code code v s : fst (g_dhcp_server_set_option inet_aton code v s) <= 0.
Proof.
  unfold g_dhcp_server_set_option. destruct v as [v|]; [|done]. destruct (known_option code); [|done].
  by destruct (inet_aton v).
Qed.

Lemma configure_code conf s : fst (configure_server inet_aton conf s) <= 0.
Proof.
  unfold configure_server.
  do 3 (match goal with |- context [g_dhcp_server_set_option inet_aton ?c ?v ?t] =>
    pose proof (set_option_code c v t) as Hr; destruct (g_dhcp_server_set_option inet_aton c v t) as [? ?] end;
    destruct (negb _); [exact Hr|clear Hr]).
  unfold g_dhcp_server_set_ip_range. destruct (inet_aton _); [|done]. by destruct (inet_aton _).
Qed.

Lemma setup_server_ok F n s :
  st F n true None s -> dh_client (dh s) = None -> dh_server (dh s) = None ->
  DhcpConfig.client (dh_config (dh s)) = false ->
  swp True (setup_server kernel inet_aton stack env0) (fun r s' => set_up F n r s') s.
Proof.
  intros Hs Hnc Hns Hmode. unfold setup_server. apply swp_bind, swp_get_dh. cbv zeta. apply swp_bind.
  unfold dasprintf. apply swp_dnet, swp_calm_memory. intros ok w1 Hc1.
  apply (st_calm F n true None (dh s)) in Hc1; [|by destruct s]. destruct ok; cbn [negb]; [|by apply setup_error_ok].
  set (addr := _ ++ _ ++ _). apply swp_bind, swp_updh. cbn [dh dw]. set (d1 := dh s <| dh_server_addr := _ |>).
  assert (armed d1) as Ha1 by (unfold armed; cbn; rewrite Hmode; by eexists).
  assert (st F n true None (mkDState d1 w1)) as H1
    by by apply (st_updh F n true None (fun d => d <| dh_server_addr := Some addr |>) (mkDState (dh s) w1)).
  apply swp_bind. eapply swp_mono; [exact (swp_total True _ _ _ (flush_spec _ _ _ _ _ H1 Ha1))|].
  intros r s2 (E2 & H2 & _). cbn [dh] in E2. destruct (Z.ltb_spec r 0); [by apply setup_error_ok|].
  assert (armed (dh s2)) as Ha2 by by rewrite E2.
  apply swp_bind. eapply swp_mono; [exact (swp_total True _ _ _ (add_spec _ _ _ _ addr _ H2 Ha2))|].
  intros r3 s3 (E3 & H3). rewrite E2 in E3. destruct (Z.ltb_spec r3 0); [by apply setup_error_ok|].
  assert (dh_client (dh s3) = None /\ dh_server (dh s3) = None /\ armed (dh s3) /\
          DhcpConfig.client (dh_config (dh s3)) = false) as (Hc3 & Hs3 & Ha3 & Hm3) by by rewrite E3.
  clearbody d1 addr. clear - H3 Hc3 Hs3 Ha3 Hm3. destruct s3 as [d3 w3], H3 as [Hp Hl Hcfg Hlb]. cbn [dh dw] in *.
  unfold parts in Hp. rewrite Hc3, Hs3 in Hp. destruct Hp as [Hf Hb].
  apply swp_bind, swp_dnet. cbn [dh dw].
  eapply swp_mono; [apply swp_total; exact (swp_left n _ _ _ _ (em_server_new _) Hl (server_new_fds _ _ _ Hf Hb))|].
  intros [sv err] w4 [(Hf4 & Hb4 & Hn4) Hl4]. destruct sv as [sv|].
  - specialize (Hn4 sv eq_refl). pose proof (configure_code (dh_config (dh s)) (sv_server sv)) as Hcf.
    destruct (configure_server _ _ _) as [r5 sv5]. cbn [fst] in Hcf. apply swp_bind, swp_updh. cbn [dh dw].
    set (d5 := d3 <| dh_server := _ |>).
    assert (st F n true None (mkDState d5 w4)) as H5.
    { split; cbn [dh dw]; [|by eapply left_weaken; [|exact Hl4]|exact Hcfg|exact Hlb]. unfold parts. cbn. rewrite Hc3. split; [done|].
      by apply sv_ok_none. }
    destruct (Z.eqb_spec r5 0) as [->|]; cbn [negb]; [|apply setup_error_ok; [done|lia]].
    apply swp_ret. right. split; [done|]. split; [done|]. by intros sv' [= <-].
  - apply setup_error_ok; [|by destruct err]. split; cbn [dh dw]; [|done..]. unfold parts. by rewrite Hc3, Hs3.
Qed.

Lemma handlers_calm sigs w : swp False (install_dhcp_handlers kernel sigs) (fun _ w' => calm w w') w.
Proof.
  revert w. induction sigs as [|sig sigs IH]; intros w; cbn [install_dhcp_handlers]; [by apply swp_ret|].
  apply swp_bind, swp_ncall_. intros r d _.
  assert (calm w (called (Sigaction sig) r d w)) as Hc by by apply calm_called.
  destruct (r <? 0); [by apply swp_ret|]. eapply swp_mono; [apply IH|]. intros r' w' Hc'. by etrans.
Qed.

(** A state in which nothing has been made yet. *)
Record fresh (F : gmultiset Z) (n : origin) (s : dstate) : Prop := {
  fr_st : st F n true None s;
  fr_client : dh_client (dh s) = None;
  fr_server : dh_server (dh s) = None;
  fr_sfd : dh_sfd (dh s) = -1;
}.

Lemma left_start w conf P : left_if (mkOrigin (w_trace w) conf) P w.
Proof. split; [exists []; split; [symmetry; apply app_nil_r|constructor]|]. intros x Hx. by left. Qed.

Lemma fresh_start conf w : w_bad w = 0 -> fresh (w_fds w) (mkOrigin (w_trace w) conf) (mkDState (dhcp0 conf) w).
Proof.
  intros Hb. split; try done. split; cbn [dh dw]; [|apply left_start|done|].
  - change (w_fds w = ∅ ⊎ w_fds w /\ w_bad w = 0). by rewrite gmultiset_disj_union_left_id.
  - unfold labelled. cbn. by destruct (DhcpConfig.client conf); [intros [? ?]|].
Qed.

Lemma fresh_calm F n d w w' : calm w w' -> fresh F n (mkDState d w) -> fresh F n (mkDState d w').
Proof. intros Hc [H1 H2 H3 H4]. split; try done. by eapply st_calm. Qed.

Lemma setup_ok F n s :
  fresh F n s -> swp True (owfd_dhcp_setup kernel inet_aton stack env0) (fun r s' => set_up F n r s') s.
Proof.
  intros Hs. unfold owfd_dhcp_setup. apply swp_bind, swp_get_dh, swp_bind.
  eapply (dnet_calm F n true None); [apply Hs|apply em_if_name_to_index|intros w; apply swp_total, if_name_keeps|].
  intros index w1 H1. apply swp_bind, swp_updh. cbn [dh dw].
  set (d1 := dh s <| dh_ifindex := index |>).
  assert (fresh F n (mkDState d1 w1)) as Hf1.
  { destruct Hs as [_ H2 H3 H4]. split; try done.
    by apply (st_updh F n true None (fun d => d <| dh_ifindex := index |>) (mkDState (dh s) w1)). }
  destruct (index <? 0); [apply setup_error_ok; [apply Hf1|done]|]. apply swp_bind, swp_updh. cbn [dh dw].
  set (d2 := d1 <| dh_loop := true |>).
  assert (fresh F n (mkDState d2 w1)) as Hf2.
  { destruct Hf1 as [H5 H2 H3 H4]. split; try done.
    by apply (st_updh F n true None (fun d => d <| dh_loop := true |>) (mkDState d1 w1)). }
  assert (DhcpConfig.client (dh_config d2) = DhcpConfig.client (dh_config (dh s))) as Hm by done.
  clearbody d1 d2. clear - Hf2 Hm. apply swp_bind, swp_dnet. cbn [dh dw].
  eapply swp_mono; [apply swp_total, handlers_calm|]. intros r w2 Hc2. apply (fresh_calm F n d2) in Hc2; [|done].
  destruct (Z.ltb_spec r 0); [apply setup_error_ok; [apply Hc2|done]|].
  apply swp_bind, swp_dnet, swp_ncall_. cbn [dh dw]. intros r3 x3 _.
  assert (calm w2 (called (Sigprocmask dhcp_sigs) r3 x3 w2)) as Hc3 by by apply calm_called.
  apply (fresh_calm F n d2) in Hc3; [|done]. destruct (Z.ltb_spec r3 0); [apply setup_error_ok; [apply Hc3|done]|].
  revert Hc3. generalize (called (Sigprocmask dhcp_sigs) r3 x3 w2). intros w3 Hc3.
  apply swp_bind, swp_dnet, swp_ncall_. cbn [dh dw]. intros sfd x4 _. apply swp_bind, swp_updh. cbn [dh dw].
  destruct Hc3 as [[Hp Hl Hcf Hlb] Hcl Hsv Hsfd]. unfold parts, sfd_fds in Hp. cbn [dh dw] in *. rewrite Hcl, Hsv, Hsfd in Hp.
  destruct Hp as [Hf Hb]. cbn [Z.leb Z.compare] in Hf. rewrite gmultiset_disj_union_left_id in Hf.
  set (d5 := d2 <| dh_sfd := sfd |>). set (w5 := called (Signalfd dhcp_sigs) sfd x4 w3).
  assert (st F n true None (mkDState d5 w5)) as H5.
  { split; cbn [dh dw].
    - unfold parts, sfd_fds. cbn. rewrite Hcl, Hsv. unfold w5, called; cbn [w_fds w_bad fds_after bad_after creates andb].
      rewrite Hf. destruct (0 <=? sfd); [done|]. by rewrite gmultiset_disj_union_left_id.
    - apply (left_same n _ w3); [|exact Hl].
      apply (grows_quiet w3 w5 [mkEvent (Signalfd dhcp_sigs) sfd x4]); [done|by constructor].
    - exact Hcf.
    - exact Hlb. }
  destruct (Z.ltb_spec sfd 0); [by apply setup_error_ok|].
  assert (dh_client d5 = None /\ dh_server d5 = None /\ DhcpConfig.client (dh_config d5) = DhcpConfig.client (dh_config (dh s)))
    as (Hc5 & Hs5 & Hm5) by done.
  clearbody d5 w5. clear - H5 Hc5 Hs5 Hm5.
  apply swp_bind, swp_dnet, swp_ncall_. cbn [dh dw]. intros ch x6 _. apply swp_bind, swp_updh. cbn [dh dw].
  set (w6 := called (IoChannelNew sfd) ch x6 w5). assert (calm w5 w6) as Hc6 by by apply calm_called.
  apply (st_calm F n true None d5) in Hc6; [|done].
  set (d6 := d5 <| dh_sfd_watch := 0 <=? ch |>).
  assert (st F n true None (mkDState d6 w6)) as H6.
  { by apply (st_updh F n true None (fun d => d <| dh_sfd_watch := 0 <=? ch |>) (mkDState d5 w6)). }
  destruct (DhcpConfig.client (dh_config (dh s))) eqn:Hmode; [by apply setup_client_ok|by apply setup_server_ok].
Qed.

(** *** The whole program *)

Lemma serve_over F n hs s :
  fresh F n s ->
  swp True (dhcp_serve kernel clock inet_aton inet_addr inet_ntop6 foreach_order stack fuel env0 hs)
    (fun r s' => r <> None -> over F n (dw s')) s.
Proof.
  intros Hs. unfold dhcp_serve. apply swp_bind. eapply swp_mono; [by apply setup_ok|]. intros r s1 H1. apply swp_bind.
  eapply (swp_mono _ _ (fun r s' => r <> None -> over F n (dw s'))).
  - destruct H1 as [[Hr Ho]|(-> & H1 & Hw)]; [by rewrite (proj2 (Z.ltb_lt _ _)) by done; apply swp_ret|].
    cbn [Z.ltb Z.compare]. apply swp_bind. eapply swp_mono; [by apply run_st|]. intros r2 s2 H2.
    destruct r2 as [r2|]; [|by apply swp_ret]. apply swp_bind. eapply swp_mono; [by eapply teardown_over|].
    intros [] s3 [Ho _]. by apply swp_ret.
  - intros r3 s3 Ho. destruct r3 as [r3|]; [|by apply swp_ret]. apply swp_bind, swp_get_dh, swp_bind, swp_dnet, swp_calm_memory.
    intros [] w4 Hc4. apply swp_ret. intros _. eapply over_calm; [exact Hc4|by apply Ho].
Qed.

End program.

(** ** Theorems *)

Section theorems.
Context (kernel : list event -> call -> Z * list Z).
Context (clock : nat -> Z) (inet_aton : list Z -> option Z) (inet_addr : list Z -> Z)
  (inet_ntop6 : list Z -> list Z) (inet_pton6 : list Z -> option (list Z))
  (foreach_order : gmap Z (list Z) -> list (Z * list Z)) (stack : list event -> list Z) (fuel : nat)
  (env0 : DhcpServer.env).

(** C39. Whatever the system answers and whatever happens in the main loop: when
    [main] returns, the process has the descriptors it was started with and has
    closed none twice; the only commands it has executed are those of its [ip]
    program that flush its interface or add an address to it, with the label of
    the interface for a client; and if the last of them succeeded, every address
    that is left was there before: each address the program has added was removed
    by a later flush of the same interface and label that ended with status 0.
    (The program ignores the result of its last flush: if that one fails, the
    address stays.) *)
Theorem dhcp_main_cleans_up hs args w status w' :
  w_bad w = 0 ->
  dhcp_main kernel clock inet_aton inet_addr inet_ntop6 inet_pton6 foreach_order stack fuel env0 hs args w
    = Some (Some status, w') ->
  w_fds w' = w_fds w /\ w_bad w' = 0 /\
  exists r conf cs, fst (owfd_dhcp_parse_argv inet_pton6 args owfd_dhcp_init_config (w_heap w)) = Some (r, conf) /\
    commands (w_trace w') = commands (w_trace w) ++ cs /\ Forall (ip_command conf) cs /\
    (last_succeeded (w_trace w') = true -> forall a, In a (addresses (w_trace w')) -> In a (addresses (w_trace w))).
Proof.
  intros Hb. unfold dhcp_main, on_heap.
  destruct (owfd_dhcp_parse_argv _ _ _ _) as [[[r conf]|] h]; [|done]. cbn [fst]. set (w1 := mkWorld h (w_fds w) (w_bad w) (w_trace w)).
  set (n := mkOrigin (w_trace w) conf).
  assert (over (w_fds w) n w' -> w_fds w' = w_fds w /\ w_bad w' = 0 /\ exists r' conf' cs, Some (r, conf) = Some (r', conf') /\
    commands (w_trace w') = commands (w_trace w) ++ cs /\ Forall (ip_command conf') cs /\
    (last_succeeded (w_trace w') = true -> forall a, In a (addresses (w_trace w')) -> In a (addresses (w_trace w)))) as Hend.
  { intros (? & ? & [(cs & Hcs & Hall) Hl]). split_and!; [done..|]. by exists r, conf, cs. }
  destruct (r <? 0).
  { intros [= _ <-]. apply Hend. split_and!; [done..|]. apply left_cleared, (left_start w1). }
  pose proof (fresh_start conf w1 Hb) as Hfr.
  pose proof (serve_over kernel clock inet_aton inet_addr inet_ntop6 foreach_order stack fuel env0 _ _ hs _ Hfr) as Hs. unfold swp in Hs.
  destruct (dhcp_serve _ _ _ _ _ _ _ _ _ _ _) as [[r2 s2]|]; [|done]. intros [= -> <-]. by apply Hend, Hs.
Qed.

End theorems.
