(* ===== verification/DhcpService.v ===== *)
(** * What the DHCP program does for its interface.

    Which commands the program of [Dhcp.v] carries out: the address of a server
    before it serves, the address of a lease when there is one. *)

From stdpp Require Import gmap gmultiset.
From S2P Require Import Prelude RecordSet StateFail Steps CLib Bytes DhcpConfig DhcpCommon DhcpServer Posix DhcpNet DhcpClientBase DhcpClient6 DhcpClient DhcpClientFacts DhcpClientLife DhcpCalls Dhcp DhcpFacts.

Section program.
Context (kernel : list event -> call -> Z * list Z).
Context (clock : nat -> Z) (inet_aton : list Z -> option Z) (inet_addr : list Z -> Z)
  (inet_ntop6 : list Z -> list Z) (inet_pton6 : list Z -> option (list Z))
  (foreach_order : gmap Z (list Z) -> list (Z * list Z)) (stack : list event -> list Z) (fuel : nat)
  (env0 : DhcpServer.env).

(** *** Commands that were carried out *)

(** One command: it is executed, and then its end is reported, with exit
    status 0. *)
Definition succeeds (argv : list (list Z)) (evs : list event) : Prop :=
  exists pre pid d, evs = pre ++ [mkEvent (Waitpid pid) pid d] /\ commands pre = [argv] /\
    wifexited (get_le32 d 0) = true /\ wexitstatus (get_le32 d 0) = 0.

(** These commands succeed, one after the other, and no others are executed. *)
Inductive performed : list (list (list Z)) -> list event -> Prop :=
| performed_none evs : commands evs = [] -> performed [] evs
| performed_more argv cmds e1 e2 e3 :
    commands e1 = [] -> succeeds argv e2 -> performed cmds e3 -> performed (argv :: cmds) (e1 ++ e2 ++ e3).

Definition did (cmds : list (list (list Z))) (w w' : world) : Prop :=
  exists evs, w_trace w' = w_trace w ++ evs /\ performed cmds evs.

Lemma performed_before cmds e1 e2 : commands e1 = [] -> performed cmds e2 -> performed cmds (e1 ++ e2).
Proof.
  intros H1 H2. destruct H2 as [e2 H2|argv cmds a b c Ha Hb Hc].
  - constructor. by rewrite commands_app, H1, H2.
  - rewrite app_assoc. constructor; [by rewrite commands_app, H1, Ha|done..].
Qed.

Lemma performed_app c1 c2 e1 e2 : performed c1 e1 -> performed c2 e2 -> performed (c1 ++ c2) (e1 ++ e2).
Proof.
  induction 1 as [e1 H1|argv cmds a b c Ha Hb Hc IH]; intros H2; [by apply performed_before|].
  rewrite <- !app_assoc. constructor; auto.
Qed.

Lemma did_trans c1 c2 w1 w2 w3 : did c1 w1 w2 -> did c2 w2 w3 -> did (c1 ++ c2) w1 w3.
Proof.
  intros (e1 & H1 & P1) (e2 & H2 & P2). exists (e1 ++ e2). split; [by rewrite H2, H1, app_assoc|by apply performed_app].
Qed.

Lemma did_refl w : did [] w w.
Proof. exists []. split; [by rewrite app_nil_r|by constructor]. Qed.

(** Calls of the network and the like. *)
Lemma did_quiet {A} (m : nio A) w : emits quiet m -> swp True m (fun _ w' => did [] w w') w.
Proof.
  intros He. apply (steps_swp (trace_grows quiet)) with (s := w) in He. eapply swp_mono; [exact He|].
  intros a w' (evs & Ht & Hq). exists evs. split; [done|]. constructor. by apply commands_quiet.
Qed.

Lemma net_quiet {A} (m : nio A) : emits net_call_b m -> emits quiet m.
Proof.
  apply steps_mono. intros w w' (evs & Ht & Hf). exists evs. split; [done|].
  eapply Forall_impl; [exact Hf|]. intros [c r d]. cbn. by destruct c.
Qed.

(** A command that returns 0 has succeeded. *)
Lemma run_ip_did argv w :
  swp False (run_ip kernel argv) (fun r w' => r <= 0 /\ (r = 0 -> did [argv] w w')) w.
Proof.
  unfold run_ip. apply swp_bind, swp_ncall_. intros pid d _. set (w1 := called Fork pid d w).
  destruct (Z.ltb_spec pid 0); [apply swp_ret; split; lia|]. apply swp_bind.
  eapply (swp_mono _ _ (fun _ w2 => exists e2, w_trace w2 = w_trace w1 ++ e2 /\ commands e2 = [argv])).
  { unfold ip_child. net_call. net_call. apply swp_bind, swp_ncall_. intros x d2 _.
    destruct (x <? 0); [apply swp_bind, swp_ncall_; intros x2 d3 _|]; apply swp_ret;
      (eexists; split; [unfold called; cbn [w_trace]; by rewrite <- !app_assoc|done]). }
  intros [] w2 (e2 & Ht & Hc). apply swp_bind, swp_ncall. intros rp d3 _.
  destruct (Z.eqb_spec rp pid) as [->|]; cbn [negb]; [|by apply swp_ret].
  destruct (wifexited _) eqn:Hx; cbn [negb]; [|by apply swp_ret].
  destruct (Z.eqb_spec (wexitstatus (get_le32 d3 0)) 0) as [Hs|]; cbn [negb]; [|by apply swp_ret].
  apply swp_ret. split; [done|]. intros _. exists ([] ++ ([mkEvent Fork pid d] ++ e2 ++ [mkEvent (Waitpid pid) pid d3]) ++ []). split.
  - unfold called; cbn [w_trace]. rewrite Ht. unfold w1, called; cbn [w_trace]. by rewrite app_nil_r, <- !app_assoc.
  - constructor; [done| |by constructor]. exists ([mkEvent Fork pid d] ++ e2), pid, d3.
    split_and!; [by rewrite app_assoc|by rewrite commands_app, Hc|done..].
Qed.

Lemma flush_did s :
  swp False (flush_if_addr kernel)
    (fun r s' => dh s' = dh s /\ r <= 0 /\ (r = 0 -> did [flush_args (dh s)] (dw s) (dw s'))) s.
Proof.
  unfold flush_if_addr. apply swp_bind, swp_get_dh, swp_dnet. eapply swp_mono; [apply run_ip_did|].
  by intros r w' [? ?].
Qed.

Lemma add_did a s :
  swp False (add_if_addr kernel a)
    (fun r s' => dh s' = dh s /\ r <= 0 /\ (r = 0 -> did [add_args (dh s) a] (dw s) (dw s'))) s.
Proof.
  unfold add_if_addr. apply swp_bind, swp_get_dh, swp_dnet. eapply swp_mono; [apply run_ip_did|].
  by intros r w' [? ?].
Qed.

Lemma swp_wheap_did {A} (m : alloc A) (Q : A -> world -> Prop) w :
  (forall a w', did [] w w' -> Q a w') -> swp False (wheap m) Q w.
Proof.
  intros HQ. unfold swp, wheap, on_heap. destruct (m (w_heap w)) as [a h]. apply HQ. exists [].
  split; [by rewrite app_nil_r|by constructor].
Qed.

(** *** A lease *)

Lemma apply_lease_did a s :
  swp False (apply_lease kernel a) (fun _ s' => dh_running (dh s') = true ->
    dh_client_addr (dh s') = Some a /\
    (dh_client_addr (dh s) = Some a /\ did [] (dw s) (dw s') \/
     did [flush_args (dh s); add_args (dh s) a] (dw s) (dw s'))) s.
Proof.
  unfold apply_lease, dfree. apply swp_bind, swp_get_dh. destruct (bool_decide_reflect (dh_client_addr (dh s) = Some a)).
  { apply swp_dnet, swp_wheap_did. intros [] w1 H1. cbn [dh dw]. auto. }
  apply swp_bind, swp_dnet, swp_wheap_did. intros [] w1 H1. apply swp_bind, swp_updh. cbn [dh dw].
  set (d1 := dh s <| dh_client_addr := Some a |>). apply swp_bind. eapply swp_mono; [apply flush_did|]. cbn [dh dw].
  intros r s2 (E2 & Hr & H2). destruct (Z.ltb_spec r 0); [by apply swp_updh|].
  apply swp_bind. eapply swp_mono; [apply add_did|]. intros r3 s3 (E3 & Hr3 & H3). rewrite E2 in E3, H3.
  destruct (Z.ltb_spec r3 0); [by apply swp_updh|]. apply swp_ret. intros _. split; [by rewrite E3|]. right.
  apply (did_trans [] _ _ w1); [done|]. apply (did_trans [flush_args d1] [add_args d1 a] _ (dw s2)); [apply H2|apply H3]; lia.
Qed.

Lemma swp_on_client {A} (m : cm A) (Q : A -> dstate -> Prop) s c :
  dh_client (dh s) = Some c ->
  swp False m (fun a c' => Q a (mkDState (with_client (dh s) c') (wd c'))) (c <| wd := dw s |>) ->
  swp False (on_client m) Q s.
Proof. intros Hc. unfold swp, on_client. rewrite Hc. by destruct (m _) as [[a c']|]. Qed.

Lemma swp_string F p v (Q : list Z -> cstate -> Prop) s : strings s !! p = Some v -> Q v s -> swp F (read_string p) Q s.
Proof. unfold swp, read_string. by intros ->. Qed.

Lemma lease_fn_did s c p addr :
  dh_client (dh s) = Some c -> assigned_ip (cl c) = Some p -> strings c !! p = Some addr ->
  swp False (client_lease_fn kernel) (fun _ s' => dh_running (dh s') = true ->
    dh_client_addr (dh s') = Some (addr ++ str "/" ++ lease_subnet (cl c)) /\
    (dh_client_addr (dh s) = Some (addr ++ str "/" ++ lease_subnet (cl c)) /\ did [] (dw s) (dw s') \/
     did [flush_args (dh s); add_args (dh s) (addr ++ str "/" ++ lease_subnet (cl c))] (dw s) (dw s'))) s.
Proof.
  intros Hc Hp Ha. unfold client_lease_fn. apply swp_bind. eapply swp_on_client; [done|].
  set (q := next_string c). set (c1 := c <| strings := <[q := addr]> (strings c) |> <| next_string := q + 1 |> <| wd := dw s |>).
  assert (g_dhcp_client_get_address (c <| wd := dw s |>) = Some (Some q, c1)) as E.
  { unfold g_dhcp_client_get_address, get_cl, sbind, g_strdup, read_string. cbn. rewrite Hp. unfold sbind. cbn. by rewrite Ha. }
  unfold swp at 1. rewrite E. clear E. apply swp_bind. eapply swp_on_client; [done|].
  apply (swp_string _ _ addr); [apply lookup_insert_eq|]. apply swp_bind. eapply swp_on_client; [done|].
  apply swp_get_cl. cbv zeta. match goal with |- context [lease_subnet ?x] => change x with (cl c) end.
  set (a := addr ++ str "/" ++ lease_subnet (cl c)).
  apply swp_bind. unfold dasprintf. apply swp_dnet, swp_wheap_did. intros ok w2 H2. apply swp_bind. eapply swp_on_client; [done|].
  apply swp_g_free; [eexists; apply lookup_insert_eq|]. cbn [dh dw wd rset with_client] in *.
  destruct ok; cbn [negb]; [|by apply swp_updh]. eapply swp_mono; [apply apply_lease_did|].
  intros [] s3 H3 Hrun. destruct (H3 Hrun) as [H4 H5]. split; [done|]. destruct H5 as [[? ?]|H5].
  - left. split; [done|]. by apply (did_trans [] [] _ w2).
  - right. by apply (did_trans [] _ _ w2).
Qed.

(** *** A server that is set up *)

Lemma swp_any {S A} (m : sfm S A) s : swp True m (fun _ _ => True) s.
Proof. unfold swp. by destruct (m s) as [[a s']|]. Qed.

Lemma swp_did {A} (m : nio A) (Q : A -> dstate -> Prop) s :
  emits quiet m -> (forall a w', did [] (dw s) w' -> m (dw s) = Some (a, w') -> Q a (mkDState (dh s) w')) ->
  swp True (dnet m) Q s.
Proof.
  intros He HQ. apply swp_dnet, swp_intro. intros a w' E. apply HQ; [|done].
  pose proof (did_quiet m (dw s) He) as H. unfold swp in H. by rewrite E in H.
Qed.

Lemma setup_error_code r (Q : Z -> dstate -> Prop) s :
  (forall s', Q r s') -> swp True (setup_error kernel stack r) Q s.
Proof. intros HQ. apply swp_bind. eapply swp_mono; [apply swp_any|]. intros [] s' _. by apply swp_ret. Qed.

(** The address of the server is one that the system has told. *)
Definition own_address (s : server) : Prop :=
  server_nip (cfg s) <> 0 /\ exists t c, server_nip (cfg s) = get_le32 (snd (kernel t c)) 0.

(** The server before it is configured. *)
Definition plain_server (s : server) : Prop :=
  tab s = table0 /\ started (cfg s) = false /\ option_hash (cfg s) = ∅ /\ own_address s /\ en s = env0.

Lemma address_told index w :
  swp True (get_interface_address kernel index) (fun nip _ => nip <> 0 -> exists t c, nip = get_le32 (snd (kernel t c)) 0) w.
Proof.
  assert (forall sk v w, (v <> 0 -> exists t c, v = get_le32 (snd (kernel t c)) 0) ->
    swp True (close_ret kernel sk v) (fun nip _ => nip <> 0 -> exists t c, nip = get_le32 (snd (kernel t c)) 0) w) as Hclose.
  { intros sk v w0 Hv. unfold close_ret. apply swp_bind, swp_ncall_. intros r d _. by apply swp_ret. }
  unfold get_interface_address. apply swp_bind, swp_ncall_. intros sk d _. destruct (sk <? 0); [by apply swp_ret|].
  apply swp_bind, swp_ncall. intros r1 d1 _. destruct (r1 <? 0); [by apply Hclose|].
  apply swp_bind, swp_ncall. intros r2 d2 Hd2. destruct (r2 <? 0); [by apply Hclose|]. apply Hclose. intros _.
  exists (w_trace (called (Ioctl sk SIOCGIFNAME (le_bytes32 index)) r1 d1 (called (SocketOn AF_INET 0) sk d w))), (Ioctl sk SIOCGIFADDR d1). by rewrite Hd2.
Qed.

Lemma server_new_plain index w :
  swp True (server_new kernel env0 index) (fun r _ => forall sv, fst r = Some sv -> plain_server (sv_server sv)) w.
Proof.
  unfold server_new. destruct (index <? 0) eqn:Hi; [by apply swp_ret|].
  apply swp_bind. eapply swp_mono; [apply swp_any|]. intros ok w1 _. destruct (negb ok); [by apply swp_ret|].
  apply swp_bind. eapply swp_mono; [apply swp_any|]. intros name w2 _.
  destruct name as [name|]; (apply swp_bind; eapply swp_mono; [apply swp_any|]; intros [] w3 _); [|by apply swp_ret].
  apply swp_bind. eapply swp_mono; [apply swp_any|]. intros up w4 _. destruct (negb up).
  { apply swp_bind. eapply swp_mono; [apply swp_any|]. intros [] w5 _. by apply swp_ret. }
  apply swp_bind. eapply swp_mono; [apply address_told|]. intros nip w5 Hnip. unfold g_dhcp_server_new. rewrite Hi. cbn [negb].
  destruct (Z.eqb_spec nip 0).
  - apply swp_bind. eapply swp_mono; [apply swp_any|]. intros [] w6 _. by apply swp_ret.
  - apply swp_ret. intros sv [= <-]. repeat (split; [done|]). split; [split; [done|by apply Hnip]|done].
Qed.

(** The server hands out what the command line says. *)
Record configured (conf : owfd_dhcp_config) (s : server) : Prop := {
  cf_range : exists a b, inet_aton (conf_text (ip_from conf)) = Some a /\ inet_aton (conf_text (ip_to conf)) = Some b /\
    start_ip (cfg s) = ntohl a /\ end_ip (cfg s) = ntohl b;
  cf_options : exists sn gw dn, subnet conf = Some sn /\ gateway conf = Some gw /\ dns conf = Some dn /\
    Forall (fun text => is_Some (inet_aton text)) [sn; gw; dn] /\
    option_hash (cfg s) = <[G_DHCP_DNS_SERVER := dn]> (<[G_DHCP_ROUTER := gw]> {[G_DHCP_SUBNET := sn]});
  cf_lease : DhcpServer.lease_seconds (cfg s) = 3600;
  cf_idle : started (cfg s) = false /\ tab s = table0 /\ en s = env0;
  cf_address : own_address s;
}.

(** An accepted option is entered, and nothing else changes. *)
Lemma set_option_ok code v s s' :
  g_dhcp_server_set_option inet_aton code v s = (0, s') ->
  exists t, v = Some t /\ is_Some (inet_aton t) /\ option_hash (cfg s') = <[code := t]> (option_hash (cfg s)) /\
    tab s' = tab s /\ en s' = en s /\ started (cfg s') = started (cfg s) /\ server_nip (cfg s') = server_nip (cfg s) /\
    DhcpServer.lease_seconds (cfg s') = DhcpServer.lease_seconds (cfg s).
Proof.
  unfold g_dhcp_server_set_option. destruct v as [t|]; [|done]. destruct (known_option code); [|done].
  destruct (inet_aton t) as [a|] eqn:Ha; [|done]. intros [= <-]. exists t. split; [done|]. by split; [exists a|].
Qed.

Lemma configure_ok conf s s' :
  plain_server s -> configure_server inet_aton conf s = (0, s') -> configured conf s'.
Proof.
  intros (Ht & Hst & Ho & Hn & He). unfold configure_server. set (s0 := g_dhcp_server_set_lease_time (60 * 60) s).
  destruct (g_dhcp_server_set_option inet_aton G_DHCP_SUBNET (subnet conf) s0) as [r1 s1] eqn:E1.
  destruct (Z.eqb_spec r1 0) as [->|]; cbn [negb]; [|congruence].
  apply set_option_ok in E1 as (sn & Hsn & A1 & H1 & T1 & E1 & S1 & N1 & L1).
  destruct (g_dhcp_server_set_option inet_aton G_DHCP_ROUTER (gateway conf) s1) as [r2 s2] eqn:E2.
  destruct (Z.eqb_spec r2 0) as [->|]; cbn [negb]; [|congruence].
  apply set_option_ok in E2 as (gw & Hgw & A2 & H2 & T2 & E2 & S2 & N2 & L2).
  destruct (g_dhcp_server_set_option inet_aton G_DHCP_DNS_SERVER (dns conf) s2) as [r3 s3] eqn:E3.
  destruct (Z.eqb_spec r3 0) as [->|]; cbn [negb]; [|congruence].
  apply set_option_ok in E3 as (dn & Hdn & A3 & H3 & T3 & E3 & S3 & N3 & L3).
  unfold g_dhcp_server_set_ip_range. destruct (inet_aton (conf_text (ip_from conf))) as [a|] eqn:Ea; [|done].
  destruct (inet_aton (conf_text (ip_to conf))) as [b|] eqn:Eb; [|done]. intros [= <-].
  split; cbn [cfg set_cfg option_hash started DhcpServer.lease_seconds start_ip end_ip tab en].
  - by exists a, b.
  - exists sn, gw, dn. split_and!; [done..|by repeat constructor|]. rewrite H3, H2, H1. change (option_hash (cfg s0)) with (option_hash (cfg s)).
    by rewrite Ho.
  - by rewrite L3, L2, L1.
  - rewrite S3, S2, S1, T3, T2, T1, E3, E2, E1. by split_and!.
  - unfold own_address. cbn [cfg set_cfg server_nip]. by rewrite N3, N2, N1.
Qed.

(** The address of the server in the configuration. *)
Definition server_address (conf : owfd_dhcp_config) : list Z := conf_text (local conf) ++ str "/" ++ conf_text (subnet conf).

Definition server_ready (w : world) (s' : dstate) : Prop :=
  exists sv, dh_server (dh s') = Some sv /\ configured (dh_config (dh s')) (sv_server sv) /\
    did [flush_args (dh s'); add_args (dh s') (server_address (dh_config (dh s')))] w (dw s').

Lemma setup_server_ready w0 s :
  did [] w0 (dw s) ->
  swp True (setup_server kernel inet_aton stack env0) (fun r s' => r = 0 -> server_ready w0 s' /\ dh_config (dh s') = dh_config (dh s)) s.
Proof.
  intros H0.
  unfold setup_server. apply swp_bind, swp_get_dh. cbv zeta. apply swp_bind.
  unfold dasprintf. apply swp_dnet, swp_total, swp_wheap_did. intros ok w1 H1. destruct ok; cbn [negb]; [|apply setup_error_code; done].
  fold (server_address (dh_config (dh s))). apply swp_bind, swp_updh. cbn [dh dw].
  set (d1 := dh s <| dh_server_addr := _ |>). apply swp_bind. eapply swp_mono; [apply swp_total, flush_did|]. cbn [dh dw].
  intros r s2 (E2 & Hr & H2). destruct (Z.ltb_spec r 0); [apply setup_error_code; lia|].
  apply swp_bind. eapply swp_mono; [apply swp_total, add_did|]. intros r3 s3 (E3 & Hr3 & H3). rewrite E2 in E3, H3.
  destruct (Z.ltb_spec r3 0); [apply setup_error_code; lia|].
  assert (did [flush_args d1; add_args d1 (server_address (dh_config d1))] w0 (dw s3)) as Hd.
  { apply (did_trans [] _ _ (dw s)); [done|]. apply (did_trans [] _ _ w1); [done|].
    apply (did_trans [flush_args d1] [add_args d1 _] _ (dw s2)); [apply H2|apply H3]; lia. }
  apply swp_bind. apply swp_did; [apply net_quiet, em_server_new|]. intros [sv err] w4 Hd4 E4. rewrite E3.
  destruct sv as [sv|]; [|apply setup_error_code; by destruct err].
  assert (plain_server (sv_server sv)) as Hpl.
  { pose proof (server_new_plain (dh_ifindex (dh s)) (dw s3)) as Hn. unfold swp in Hn. rewrite E4 in Hn. by apply Hn. }
  destruct (configure_server inet_aton (dh_config (dh s)) (sv_server sv)) as [r5 sv5] eqn:E5. apply swp_bind, swp_updh.
  destruct (Z.eqb_spec r5 0) as [->|]; cbn [negb]; [|apply setup_error_code; done].
  apply swp_ret. intros _. split; [|done]. eexists. split; [done|]. cbn [dh dw]. split; [by eapply configure_ok|].
  by apply (did_trans [_; _] [] _ (dw s3)).
Qed.

Lemma em_handlers sigs : emits quiet (install_dhcp_handlers kernel sigs).
Proof. induction sigs as [|sig sigs IH]; cbn [install_dhcp_handlers]; steps_go. Qed.

Lemma setup_ready s :
  DhcpConfig.client (dh_config (dh s)) = false ->
  swp True (owfd_dhcp_setup kernel inet_aton stack env0)
    (fun r s' => r = 0 -> server_ready (dw s) s' /\ dh_config (dh s') = dh_config (dh s)) s.
Proof.
  intros Hmode. unfold owfd_dhcp_setup. apply swp_bind, swp_get_dh, swp_bind.
  apply swp_did; [apply net_quiet, em_if_name_to_index|]. intros index w1 H1 _. apply swp_bind, swp_updh. cbn [dh dw].
  destruct (index <? 0); [by apply setup_error_code|]. apply swp_bind, swp_updh, swp_bind. cbn [dh dw].
  apply swp_did; [apply em_handlers|]. cbn [dh dw]. intros r w2 H2 _.
  destruct (Z.ltb_spec r 0); [apply setup_error_code; lia|]. apply swp_bind.
  apply swp_did; [steps_go|]. cbn [dh dw]. intros r3 w3 H3 _.
  destruct (Z.ltb_spec r3 0); [apply setup_error_code; lia|]. apply swp_bind.
  apply swp_did; [steps_go|]. cbn [dh dw]. intros sfd w4 Hd4 _. apply swp_bind, swp_updh.
  destruct (Z.ltb_spec sfd 0); [apply setup_error_code; lia|]. apply swp_bind.
  apply swp_did; [steps_go|]. cbn [dh dw]. intros ch w5 Hd5 _. apply swp_bind, swp_updh. cbn [dh dw]. rewrite Hmode.
  eapply swp_mono; [apply (setup_server_ready (dw s))|].
  - cbn [dw]. repeat (eapply (did_trans [] []); [eassumption|]). apply did_refl.
  - intros r6 s6 H6 Hz. destruct (H6 Hz) as [Hr Hc]. by split.
Qed.

(** *** The client tells its user last *)

(** Steps that leave the timer and the callbacks of the client alone. *)
Definition same_calls (s s' : cstate) : Prop := timeout (cl s') = timeout (cl s) /\ cbs (cl s') = cbs (cl s).

#[local] Instance same_calls_preorder : PreOrder same_calls.
Proof. split; [done|]. intros s1 s2 s3 [] []. split; congruence. Qed.

Lemma sc_upd f : (forall c, timeout (f c) = timeout c /\ cbs (f c) = cbs c) -> steps same_calls (upd f).
Proof. intros Hf s a s' [= _ <-]. apply Hf. Qed.

Lemma sc_client {A} (m : cm A) : (forall s a s', m s = Some (a, s') -> cl s' = cl s) -> steps same_calls m.
Proof. intros Hm s a s' E. unfold same_calls. by rewrite (Hm _ _ _ E). Qed.

Lemma sc_get : steps same_calls get_cl.
Proof. apply sc_client. by intros s a s' [= _ <-]. Qed.

Lemma sc_net {A} (m : nio A) : steps same_calls (net m).
Proof. apply sc_client. intros s a s'. unfold net. destruct (m (wd s)) as [[b w]|]; [by intros [= _ <-]|done]. Qed.

Lemma sc_g_source_remove id : steps same_calls (g_source_remove kernel id).
Proof.
  intros s a s'. unfold g_source_remove. destruct (sources s !! id) as [[ms f|fd]|]; try by intros [= _ <-].
  intros E. exact (sc_net _ _ _ _ E).
Qed.

Lemma sc_junk n : steps same_calls (junk stack n).
Proof. apply sc_client. by intros s a s' [= _ <-]. Qed.

Lemma sc_add_source src : steps same_calls (add_source src).
Proof. apply sc_client. by intros s a s' [= _ <-]. Qed.

Lemma sc_new_string v : steps same_calls (new_string v).
Proof. apply sc_client. by intros s a s' [= _ <-]. Qed.

Lemma sc_g_free p : steps same_calls (g_free p).
Proof. apply sc_client. intros s a s'. unfold g_free. destruct p as [p|]; [destruct (_ !! _)|]; by intros [= _ <-]. Qed.

#[local] Hint Resolve sc_get sc_net sc_g_source_remove sc_junk sc_add_source sc_new_string sc_g_free : steps.
#[local] Hint Extern 1 (steps same_calls (upd _)) => apply sc_upd; intros; repeat case_match; split; reflexivity : steps.

Lemma sc_get_request p : steps same_calls (get_request fuel p).
Proof.
  unfold get_request. apply steps_bind; [apply _|apply sc_get|]. intros c. generalize (request_list c).
  intros codes. induction codes as [|code codes IH]; cbn [get_request_loop]; steps_go.
Qed.

Lemma sc_switch mode : steps same_calls (switch_listening_mode kernel stack mode).
Proof. steps_go. Qed.

#[local] Hint Resolve sc_get_request sc_switch : steps.

(** When an acknowledgement has been handled, telling the user of the lease was
    the last system call, and the address and the options are what the user saw:
    his function may as well run afterwards. *)
Lemma lease_told_last packet s s' fn :
  handle_ack kernel stack fuel packet s = Some (tt, s') -> cbs (cl s) EVENT_LEASE_AVAILABLE = Some fn ->
  exists s1 r d, wd s' = called (Callback fn []) r d (wd s1) /\ strings s' = strings s1 /\
    assigned_ip (cl s') = assigned_ip (cl s1) /\ code_value_hash (cl s') = code_value_hash (cl s1).
Proof.
  intros H Hfn.
  assert (swp True (handle_ack kernel stack fuel packet) (fun _ s' => exists s1 r d,
    wd s' = called (Callback fn []) r d (wd s1) /\ strings s' = strings s1 /\
    assigned_ip (cl s') = assigned_ip (cl s1) /\ code_value_hash (cl s') = code_value_hash (cl s1)) s) as Hs;
    [|unfold swp in Hs; by rewrite H in Hs].
  clear H. unfold handle_ack. apply swp_bind, swp_upd, swp_bind.
  assert (forall A (m : cm A) s Q, steps same_calls m -> cbs (cl s) EVENT_LEASE_AVAILABLE = Some fn ->
    (forall a s', timeout (cl s') = timeout (cl s) -> cbs (cl s') EVENT_LEASE_AVAILABLE = Some fn -> Q a s') ->
    swp True m Q s) as Hstep.
  { intros A m s0 Q Hm Hc HQ. eapply swp_mono; [apply (steps_swp _ _ s0 Hm)|]. intros a s1 [Ht Hcb]. apply HQ; [done|by rewrite Hcb]. }
  apply Hstep; [steps_go|done|]. intros [] s2 _ Hf2. apply swp_bind, swp_upd. set (s3 := s2 <| cl := _ |>).
  assert (timeout (cl s3) = 0) as H3 by done. assert (cbs (cl s3) EVENT_LEASE_AVAILABLE = Some fn) as Hf3 by done.
  clearbody s3. apply swp_bind, Hstep; [apply steps_lift, _|done|]. intros secs s4 H4 Hf4. rewrite H3 in H4.
  apply swp_bind, swp_upd, swp_bind, Hstep; [apply sc_get_request|done|]. intros [] s5 H5 Hf5. cbn in H5. rewrite H4 in H5.
  apply swp_bind, Hstep; [apply sc_switch|done|]. intros r s6 H6 Hf6. rewrite H5 in H6. apply swp_bind, swp_get_cl.
  apply swp_bind, Hstep; [apply sc_g_free|done|]. intros [] s7 H7 Hf7. rewrite H6 in H7.
  apply swp_bind, Hstep; [apply sc_new_string|done|]. intros p s8 H8 Hf8. rewrite H7 in H8.
  apply swp_bind, swp_upd, swp_bind. set (s9 := s8 <| cl := _ |>). assert (timeout (cl s9) = 0) as H9 by done.
  assert (cbs (cl s9) EVENT_LEASE_AVAILABLE = Some fn) as Hf9 by done. clearbody s9.
  unfold notify, call_cb. apply swp_bind, swp_bind, swp_get_cl. rewrite Hf9.
  apply swp_bind, swp_net, swp_ncall_. intros x d _. apply swp_ret, swp_ret.
  unfold start_bound. apply swp_bind, swp_upd, swp_bind. unfold remove_timeout. apply swp_bind, swp_get_cl.
  cbn [rset cl timeout]. rewrite H9. cbn [Z.ltb Z.compare]. apply swp_ret, swp_bind, swp_get_cl.
  unfold swp, arm_seconds, g_timeout_add_seconds, add_source, sbind, upd, smod. by exists s9, x, d.
Qed.

End program.

(** ** Theorems *)

Section theorems.
Context (kernel : list event -> call -> Z * list Z).
Context (clock : nat -> Z) (inet_aton : list Z -> option Z) (inet_addr : list Z -> Z)
  (inet_ntop6 : list Z -> list Z) (inet_pton6 : list Z -> option (list Z))
  (foreach_order : gmap Z (list Z) -> list (Z * list Z)) (stack : list event -> list Z) (fuel : nat)
  (env0 : DhcpServer.env).

(** C40. A server that is set up is ready: when [owfd_dhcp_setup] returns 0 for the
    configuration of a server, the addresses of the interface were removed and
    the address of the server added, by these two commands and both successful;
    and the server, which is not started yet and has no leases, has the range,
    the netmask, gateway and name server of the command line, which are
    addresses, the lease time of an hour and an address the system has told. *)
Theorem dhcp_server_ready conf w s' :
  DhcpConfig.client conf = false ->
  owfd_dhcp_setup kernel inet_aton stack env0 (mkDState (dhcp0 conf) w) = Some (0, s') ->
  exists sv, dh_server (dh s') = Some sv /\ configured kernel inet_aton env0 conf (sv_server sv) /\
    did [flush_args (dh s'); add_args (dh s') (server_address conf)] w (dw s').
Proof.
  intros Hm E. pose proof (setup_ready kernel inet_aton stack env0 (mkDState (dhcp0 conf) w) Hm) as H.
  unfold swp in H. rewrite E in H. destruct (H eq_refl) as [(sv & Hsv & Hcf & Hd) Hconf]. rewrite Hconf in Hcf, Hd.
  by exists sv.
Qed.

(** A lease becomes the address of the interface: when the client has an
    address, its lease function returns, and if the main loop goes on, the
    address with the netmask of the lease is the current one, and either it was
    before and nothing was executed, or the old addresses were removed and the
    new one added, with these two commands and both successful. *)
Theorem lease_becomes_address s c p addr :
  dh_client (dh s) = Some c -> assigned_ip (cl c) = Some p -> strings c !! p = Some addr ->
  let a := addr ++ str "/" ++ lease_subnet (cl c) in
  exists s', client_lease_fn kernel s = Some (tt, s') /\
    (dh_running (dh s') = true ->
     dh_client_addr (dh s') = Some a /\
     (dh_client_addr (dh s) = Some a /\ did [] (dw s) (dw s') \/
      did [flush_args (dh s); add_args (dh s) a] (dw s) (dw s'))).
Proof.
  intros Hc Hp Ha a. pose proof (lease_fn_did kernel s c p addr Hc Hp Ha) as H. unfold swp in H.
  destruct (client_lease_fn kernel s) as [[[] s']|]; [|done]. by exists s'.
Qed.

End theorems.
