(* ===== verification/DhcpRuns.v ===== *)
(** * Runs of the DHCP program.

    Whole runs of [main] as a client and as a server on a small system, and the
    concrete inputs at which the properties of [DhcpFacts.v] and [DhcpService.v]
    apply. *)

From stdpp Require Import gmap gmultiset.
From S2P Require Import Prelude RecordSet StateFail CLib Bytes DhcpConfig DhcpCommon DhcpServer DhcpHandlers Posix DhcpNet DhcpClientBase DhcpClient6 DhcpClient DhcpClientFacts DhcpClientRuns Dhcp DhcpFacts DhcpService.

(** The system of [DhcpClientRuns.v] with children that succeed, a signal that
    can be read, and an interface with a number and an address. *)
Definition station (frames : list (list Z)) (evs : list event) (c : call) : Z * list Z :=
  match c with
  | Fork => (100, [])
  | Waitpid pid => (pid, [0; 0; 0; 0])
  | Signalfd _ => (9, [])
  | Read fd n => if fd =? 9 then (128, zeroes 128) else lab frames evs c
  | Ioctl _ request _ =>
    if request =? SIOCGIFINDEX then (0, le_bytes32 2)
    else if request =? SIOCGIFADDR then (0, le_bytes32 (htonl 0xc0a84d01))
    else lab frames evs c
  | _ => lab frames evs c
  end.

Definition station_aton (s : list Z) : option Z :=
  option_map (fun bytes => get_le32 (drop 12 bytes) 0) (lab_pton6 (str "::ffff:" ++ s)).

Local Notation run_main frames hs args :=
  (dhcp_main (station frames) wall_clock station_aton lab_addr lab_ntop lab_pton6 map_to_list lab_stack 600 env0
     hs args world0).

(** The status, the commands, the packets sent, and the descriptors left. *)
Definition outcome (r : option (option Z * world)) : option (option Z * list (list (list Z)) * nat * list Z) :=
  option_map (fun '(st, w) =>
    (st, commands (w_trace w),
     length (List.filter (fun e => match ev_call e with SendTo _ _ _ => true | _ => false end) (w_trace w)),
     elements (w_fds w))) r.

Definition client_args : list (list Z) := [str "-c4i"; str "eth0"].

Definition got_lease : list Dhcp.happening := [OnClient 1 false; OnClient 1 false; OnSignal false].

(** A client: an offer, an acknowledgement, a signal.  Discover and request are
    broadcast on the link. *)
Example client_run :
  outcome (run_main [answer_frame DHCPOFFER None; answer_frame DHCPACK (Some 100)] got_lease client_args) =
  Some (Some 0,
    [ [str "/bin/ip"; str "addr"; str "flush"; str "dev"; str "eth0"; str "label"; str "eth0:openwfd"];
      [str "/bin/ip"; str "addr"; str "add"; str "10.0.0.5/24"; str "dev"; str "eth0"; str "label"; str "eth0:openwfd"];
      [str "/bin/ip"; str "addr"; str "flush"; str "dev"; str "eth0"; str "label"; str "eth0:openwfd"] ], 2%nat, []).
Proof. vm_compute. reflexivity. Qed.

(** A server: a discover and a request of one client, a signal. *)
Example server_run :
  outcome (run_main [request DHCPDISCOVER mac_a wanted; request DHCPREQUEST mac_a wanted]
             [OnServer false; OnServer false; OnSignal false] (command_line sample_server)) =
  Some (Some 0,
    [ [str "/sbin/ip"; str "addr"; str "flush"; str "dev"; str "p2p-wlan0-0"];
      [str "/sbin/ip"; str "addr"; str "add"; str "192.168.77.1/255.255.255.0"; str "dev"; str "p2p-wlan0-0"];
      [str "/sbin/ip"; str "addr"; str "flush"; str "dev"; str "p2p-wlan0-0"] ], 2%nat, []).
Proof. vm_compute. reflexivity. Qed.

(** Nobody answers: after the tenth discover the program ends by itself, with
    status 0 all the same. *)
Example client_gives_up_run :
  outcome (run_main [] (map (fun n => OnClient (Z.of_nat n) false) (seq 2 12)) client_args) = Some (Some 0, [], 10%nat, []).
Proof. vm_compute. reflexivity. Qed.

(** The [n]th [ip] command ends with status 1. *)
Definition failing (n : nat) (evs : list event) (c : call) : Z * list Z :=
  match c with
  | Waitpid pid => (pid, if decide (length (commands evs) = n) then [0; 1; 0; 0] else [0; 0; 0; 0])
  | _ => station [answer_frame DHCPOFFER None; answer_frame DHCPACK (Some 100)] evs c
  end.

Definition run_failing (n : nat) (hs : list Dhcp.happening) : option (option Z * nat * bool * list address) :=
  option_map (fun '(st, w) => (st, length (commands (w_trace w)), last_succeeded (w_trace w), addresses (w_trace w)))
    (dhcp_main (failing n) wall_clock station_aton lab_addr lab_ntop lab_pton6 map_to_list lab_stack 600 env0
       hs client_args world0).

(** The second one fails: the loop ends, and the address that may have been added
    is flushed once more. *)
Example failed_add_ends :
  run_failing 2 [OnClient 1 false; OnClient 1 false] = Some (Some 0, 3%nat, true, []).
Proof. vm_compute. reflexivity. Qed.

(** The last one fails: nobody looks at its result, the program ends with status
    0, and the address stays. *)
Example failed_flush_leaves :
  run_failing 3 got_lease =
  Some (Some 0, 3%nat, false, [(str "10.0.0.5/24", [str "dev"; str "eth0"; str "label"; str "eth0:openwfd"])]).
Proof. vm_compute. reflexivity. Qed.

(** ** The properties at these inputs *)

Definition client_frames : list (list Z) := [answer_frame DHCPOFFER None; answer_frame DHCPACK (Some 100)].

Lemma client_run_ends :
  option_map (fun '(st, w) => (st, last_succeeded (w_trace w))) (run_main client_frames got_lease client_args) =
  Some (Some 0, true).
Proof. vm_compute. reflexivity. Qed.

Lemma dhcp_main_cleans_up_witness :
  exists w', run_main client_frames got_lease client_args = Some (Some 0, w') /\
    w_fds w' = w_fds world0 /\ w_bad w' = 0 /\ forall a, ~ In a (addresses (w_trace w')).
Proof.
  pose proof client_run_ends as E. destruct (run_main client_frames got_lease client_args) as [[st w']|] eqn:Hrun; [|discriminate E].
  cbn [option_map] in E. injection E as -> Hlast. exists w'. split; [reflexivity|].
  destruct (dhcp_main_cleans_up _ _ _ _ _ _ _ _ _ _ _ _ world0 0 w' eq_refl Hrun) as (Hf & Hb & _ & _ & _ & _ & _ & _ & Hl).
  split; [exact Hf|]. split; [exact Hb|]. exact (Hl Hlast).
Defined.

Local Notation server_setup :=
  (owfd_dhcp_setup (station []) station_aton lab_stack env0 (mkDState (dhcp0 sample_server) world0)).

Lemma server_setup_ends : option_map fst server_setup = Some 0.
Proof. vm_compute. reflexivity. Qed.

Lemma dhcp_server_ready_witness :
  exists s' sv, server_setup = Some (0, s') /\ dh_server (dh s') = Some sv /\
    configured (station []) station_aton env0 sample_server (sv_server sv) /\
    did [flush_args (dh s'); add_args (dh s') (server_address sample_server)] world0 (dw s').
Proof.
  pose proof server_setup_ends as E. destruct server_setup as [[r s']|] eqn:Hs; [|discriminate E].
  cbn [option_map fst] in E. injection E as ->.
  destruct (dhcp_server_ready (station []) station_aton lab_stack env0 sample_server world0 s' eq_refl Hs) as (sv & H1 & H2 & H3).
  exists s', sv. exact (conj eq_refl (conj H1 (conj H2 H3))).
Defined.

(** A program that runs, with the client of [DhcpClientRuns.v] that has a lease. *)
Definition leased_program (c : cstate) : dstate :=
  mkDState (dhcp0 sample_server <| dh_client := Some c |> <| dh_running := true |>) (wd c).

Lemma leased_text :
  exists p, assigned_ip (cl (bound_client 100)) = Some p /\ strings (bound_client 100) !! p = Some (str "10.0.0.5").
Proof. exists (default 0 (assigned_ip (cl (bound_client 100)))). vm_compute. split; reflexivity. Qed.

Lemma lease_becomes_address_witness :
  let s := leased_program (bound_client 100) in
  let a := str "10.0.0.5" ++ str "/" ++ lease_subnet (cl (bound_client 100)) in
  exists s', client_lease_fn (station []) s = Some (tt, s') /\
    (dh_running (dh s') = true ->
     dh_client_addr (dh s') = Some a /\
     (dh_client_addr (dh s) = Some a /\ did [] (dw s) (dw s') \/
      did [flush_args (dh s); add_args (dh s) a] (dw s) (dw s'))).
Proof.
  destruct leased_text as (p & Hp & Ht). revert Hp Ht. generalize (bound_client 100). intros c Hp Ht.
  exact (lease_becomes_address (station []) (leased_program c) c p (str "10.0.0.5") eq_refl Hp Ht).
Defined.
