(* ===== verification/DhcpLink.v ===== *)
(** * Two DHCP programs on one link.

    A computer that runs the program of [Dhcp.v] as a client and one that runs
    it as a server: what their setups leave, and the frames they exchange from
    the first discover to the address on the interface of the client. *)

From stdpp Require Import gmap gmultiset.
From S2P Require Import Prelude RecordSet StateFail Steps CLib Bytes DhcpConfig DhcpCommon DhcpServer DhcpHandlers DhcpReplies Posix DhcpNet DhcpClientBase DhcpClient6 DhcpClient DhcpClientPackets DhcpClientFacts DhcpClientLife DhcpClientRuns DhcpCalls DhcpLeased DhcpHandshake Dhcp DhcpFacts DhcpService DhcpRuns.

(** ** The client that is set up *)

Section client.
Context (kernel : list event -> call -> Z * list Z).
Context (inet_aton : list Z -> option Z) (stack : list event -> list Z) (env0 : DhcpServer.env).
(** What the system stores are bytes. *)
Context (told_bytes : forall t c, Forall byte_ok (snd (kernel t c))).

Definition host_name : list Z := [G_DHCP_HOST_NAME; 10] ++ str "<hostname>".

(** A new client that was asked for these options and told of this function. *)
Record made (requests : list Z) (lease_fn : option nat) (c : client) : Prop := {
  md_type : type c = G_DHCP_IPV4;
  md_mac : zlen (mac_address c) = 6 /\ Forall byte_ok (mac_address c);
  md_requests : request_list c = requests;
  md_values : send_value_hash c = ∅ \/ send_value_hash c = {[G_DHCP_HOST_NAME := host_name]};
  md_idle : xid c = 0 /\ last_address c = None /\ retry_times c = 0 /\ listen_mode c = L_NONE;
  md_lease_fn : cbs c EVENT_LEASE_AVAILABLE = lease_fn;
}.

Lemma mac_told index mac w :
  zlen mac = 6 -> Forall byte_ok mac ->
  swp True (get_interface_mac_address kernel index mac) (fun m _ => zlen m = 6 /\ Forall byte_ok m) w.
Proof.
  intros Hl Hb.
  assert (forall sk m w, zlen m = 6 -> Forall byte_ok m ->
    swp True (close_ret kernel sk m) (fun m _ => zlen m = 6 /\ Forall byte_ok m) w) as Hclose.
  { intros sk m w0 ? ?. unfold close_ret. apply swp_bind, swp_ncall_. intros r d _. by apply swp_ret. }
  unfold get_interface_mac_address. apply swp_bind, swp_ncall_. intros sk d _. destruct (sk <? 0); [by apply swp_ret|].
  apply swp_bind, swp_ncall. intros r1 d1 _. destruct (r1 <? 0); [by apply Hclose|].
  apply swp_bind, swp_ncall. intros r2 d2 Hd2. destruct (r2 <? 0); [by apply Hclose|].
  assert (Forall byte_ok d2) as Hb2.
  { match type of Hd2 with kernel ?t ?c = _ => pose proof (told_bytes t c) as H; by rewrite Hd2 in H end. }
  apply Hclose.
  - unfold zeroes. zlia.
  - unfold ztake. apply Forall_take, Forall_app_2; [done|]. by repeat constructor.
Qed.

Lemma new_made index w :
  swp True (g_dhcp_client_new kernel G_DHCP_IPV4 index) (fun r _ => forall c, fst r = Some c -> made [] None c) w.
Proof.
  unfold g_dhcp_client_new. destruct (index <? 0); [by apply swp_ret|].
  apply swp_bind. eapply swp_mono; [apply swp_any|]. intros ok w1 _. destruct (negb ok); [by apply swp_ret|].
  apply swp_bind. eapply swp_mono; [apply swp_any|]. intros name w2 _.
  destruct name as [name|]; (apply swp_bind; eapply swp_mono; [apply swp_any|]; intros [] w3 _); [|by apply swp_ret].
  apply swp_bind. eapply swp_mono; [apply swp_any|]. intros up w4 _. destruct (negb up).
  { apply swp_bind. eapply swp_mono; [apply swp_any|]. intros [] w5 _. by apply swp_ret. }
  apply swp_bind. eapply swp_mono; [apply mac_told; [done|by repeat constructor]|]. intros mac w5 [Hl Hb].
  apply swp_bind, swp_ncall_. intros now d _. apply swp_ret. intros c [= <-]. split; [done|by split|done|by left|done|done].
Qed.

(** The program has a client like this, and no address yet. *)
Record holding (P : client -> Prop) (d : owfd_dhcp) (s : dstate) : Prop := {
  ho_client : exists c, dh_client (dh s) = Some c /\ P (cl c);
  ho_address : dh_client_addr (dh s) = None;
  ho_rest : flush_args (dh s) = flush_args d /\ (forall a, add_args (dh s) a = add_args d a) /\
    DhcpConfig.client (dh_config (dh s)) = true;
}.

Lemma holding_step {A} (m : cm A) (P P' : client -> Prop) d s (Q : A -> dstate -> Prop) :
  holding P d s -> (forall c, P (cl c) -> swp True m (fun _ c' => P' (cl c')) c) ->
  (forall a s', holding P' d s' -> Q a s') -> swp True (on_client m) Q s.
Proof.
  intros [(c & Hc & HP) Ha Hr] Hm HQ. unfold on_client, swp. rewrite Hc. match goal with |- context [m ?c1] => specialize (Hm c1 HP) end.
  unfold swp in Hm. destruct (m _) as [[a c']|]; [|done]. apply HQ. split; [by exists c'|exact Ha|exact Hr].
Qed.

Lemma set_send_made rs f c :
  made rs f (cl c) ->
  swp True (g_dhcp_client_set_send G_DHCP_HOST_NAME (Some (str "<hostname>"))) (fun _ c' => made rs f (cl c')) c.
Proof.
  intros Hm. unfold g_dhcp_client_set_send. change (G_DHCP_HOST_NAME =? G_DHCP_HOST_NAME) with true. cbv iota.
  unfold alloc_dhcp_string_option, alloc_dhcp_data_option, alloc_dhcp_option, cheap. apply swp_bind, swp_bind, swp_net.
  eapply swp_mono; [apply swp_any|]. intros ok w _. apply swp_ret. destruct ok; cbn [negb]; [|by apply swp_ret].
  unfold send_value. match goal with |- context [send_hash_insert _ ?v] => change v with host_name end.
  apply swp_bind. unfold send_hash_insert. apply swp_bind, swp_get_cl, swp_bind.
  eapply (swp_mono _ _ (fun _ c' => made rs f (cl c'))).
  { destruct (_ !! _); [|by apply swp_ret]. apply swp_net. eapply swp_mono; [apply swp_any|]. done. }
  clear c Hm. intros [] c [H1 H2 H3 H4 H5 H6]. apply swp_upd, swp_ret. split; try done. right. cbn [rset cl send_value_hash].
  by destruct H4 as [->| ->].
Qed.

Lemma set_request_made rs f code c :
  made rs f (cl c) -> ~ In code rs -> swp True (g_dhcp_client_set_request code) (fun _ c' => made (code :: rs) f (cl c')) c.
Proof.
  intros [H1 H2 H3 H4 H5 H6] Hn. apply swp_upd. cbn [rset cl]. rewrite H3.
  rewrite bool_decide_false by (by rewrite list_elem_of_In). by split.
Qed.

Lemma register_made rs f ev fn c :
  made rs f (cl c) ->
  swp True (g_dhcp_client_register_event ev fn)
    (fun _ c' => made rs (if decide (EVENT_LEASE_AVAILABLE = ev) then (if event_allowed G_DHCP_IPV4 ev then fn else f) else f) (cl c')) c.
Proof.
  intros [H1 H2 H3 H4 H5 H6]. apply swp_upd. cbn [rset cl]. rewrite H1. destruct (event_allowed G_DHCP_IPV4 ev).
  - split; [done..|]. cbn [rset cl cbs]. by case_decide.
  - split; [done..|]. by case_decide.
Qed.

Definition wants_addresses : client -> Prop :=
  made [G_DHCP_ROUTER; G_DHCP_DNS_SERVER; G_DHCP_SUBNET] (Some CLIENT_LEASE_FN).

(** The end of a setup as a client. *)
Definition client_is_set_up (r : Z) (s' : dstate) : Prop := r = 0 -> holding wants_addresses (dh s') s'.

Lemma setup_failed r s : r <> 0 -> swp True (setup_error kernel stack r) client_is_set_up s.
Proof. intros Hr. apply setup_error_code. by intros s' ->. Qed.

Lemma setup_client_made s :
  dh_client_addr (dh s) = None -> DhcpConfig.client (dh_config (dh s)) = true ->
  swp True (setup_client kernel stack) client_is_set_up s.
Proof.
  intros Ha Hmode. unfold setup_client. apply swp_bind, swp_get_dh. cbv zeta. apply swp_bind. unfold dasprintf.
  apply swp_dnet. eapply swp_mono; [apply swp_any|]. intros ok w1 _. destruct ok; cbn [negb]; [|by apply setup_failed].
  apply swp_bind, swp_updh, swp_bind, swp_dnet. cbn [dh dw]. set (d1 := dh s <| dh_iflabel := _ |>).
  eapply swp_mono; [apply new_made|]. intros [c err] w2 Hc. destruct c as [c|]; [|apply setup_failed; by destruct err].
  apply swp_bind, swp_mod.
  assert (holding (made [] None) d1 (mkDState (with_client d1 (mkState c ∅ 1 ∅ 1 w2)) w2)) as H2
    by (split; [eexists; split; [done|by apply Hc]|exact Ha|done]).
  apply swp_bind. eapply holding_step; [exact H2|intros; by apply set_send_made|]. intros _ s3 H3.
  apply swp_bind. eapply holding_step; [exact H3|intros; apply set_request_made; [eassumption|by intros []]|]. intros _ s4 H4.
  apply swp_bind. eapply holding_step; [exact H4|intros; apply set_request_made; [eassumption|by intros [?|[]]]|]. intros _ s5 H5.
  apply swp_bind. eapply holding_step; [exact H5|intros; apply set_request_made; [eassumption|by intros [?|[?|[]]]]|]. intros _ s6 H6.
  apply swp_bind. eapply holding_step; [exact H6|intros; apply register_made; eassumption|]. intros _ s7 H7.
  apply swp_bind. eapply holding_step; [exact H7|intros; apply register_made; eassumption|]. intros _ s8 H8.
  apply swp_ret. intros _. destruct H8 as [H81 H82 (_ & _ & H83)]. by split.
Qed.

(** A setup that succeeds as a client. *)
Lemma setup_made conf w :
  DhcpConfig.client conf = true ->
  swp True (owfd_dhcp_setup kernel inet_aton stack env0) client_is_set_up (mkDState (dhcp0 conf) w).
Proof.
  intros Hmode. unfold owfd_dhcp_setup. apply swp_bind, swp_get_dh, swp_bind, swp_dnet. cbn [dh dw].
  eapply swp_mono; [apply swp_any|]. intros index w1 _. apply swp_bind, swp_updh.
  destruct (Z.ltb_spec index 0); [by apply setup_failed|]. apply swp_bind, swp_updh, swp_bind, swp_dnet.
  eapply swp_mono; [apply swp_any|]. intros r w2 _. destruct (Z.ltb_spec r 0); [apply setup_failed; lia|]. apply swp_bind, swp_dnet.
  eapply swp_mono; [apply swp_any|]. intros r3 w3 _. destruct (Z.ltb_spec r3 0); [apply setup_failed; lia|]. apply swp_bind, swp_dnet.
  eapply swp_mono; [apply swp_any|]. intros sfd w4 _. apply swp_bind, swp_updh.
  destruct (Z.ltb_spec sfd 0); [apply setup_failed; lia|]. apply swp_bind, swp_dnet.
  eapply swp_mono; [apply swp_any|]. intros ch w5 _. apply swp_bind, swp_updh. cbn [dh dw dhcp0 rset dh_config]. rewrite Hmode.
  by apply setup_client_made.
Qed.

End client.

(** *** Its packets *)

Section packets.
Context (foreach_order : gmap Z (list Z) -> list (Z * list Z)).
(** The entries of a hash table are visited once each. *)
Context (visits : forall h, foreach_order h ≡ₚ map_to_list h).

Lemma host_name_ok : send_value_ok host_name.
Proof.
  exists G_DHCP_HOST_NAME, (str "<hostname>"). split; [reflexivity|]. split; [by left|]. split; [done|]. by repeat constructor.
Qed.

Lemma made_settled D c :
  inv (mkEnv D None) 0 true c -> wants_addresses (cl c) -> settled foreach_order (view_of 0 c).
Proof.
  intros Hi [H1 H2 H3 H4 (H5 & H6 & H7 & H8) H9]. split; [exact H1| |exact H6|].
  - split; [split|].
    + exact H2.
    + change (zlen (request_list (cl c)) <= 255). by rewrite H3.
    + change (Forall send_value_ok (map snd (foreach_order (send_value_hash (cl c))))).
      destruct H4 as [-> | ->]; rewrite visits; [by rewrite map_to_list_empty|].
      rewrite map_to_list_singleton. constructor; [apply host_name_ok|constructor].
    + change (0 <= xid (cl c) < 2 ^ 32). by rewrite H5.
  - unfold live. cbn [view_of v_core v_strings]. change (assigned_ip (core (cl c))) with (assigned_ip (cl c)).
    destruct (assigned_ip (cl c)) as [p|] eqn:E; [|done]. by apply (ok_assigned _ _ _ _ _ (inv_strings _ _ _ _ Hi)).
Qed.

(** The data of one option of a table. *)
Lemma configured_data inet_aton kvs code v m :
  NoDup (map fst kvs) -> Forall (fun kv => address_code (fst kv)) kvs -> In (code, v) kvs -> inet_aton v = Some m ->
  opt_data code (omap (configured_opt inet_aton) kvs) = Some (put_be32 (ntohl m)).
Proof.
  assert (forall k, address_code k -> u8 k = k /\ known_option k = true) as Hcode by (intros k [<-|[<-|[<-|[]]]]; done).
  intros Hnd Hc Hin Hm. induction kvs as [|[k v'] kvs IH]; [done|]. cbn [map fst] in Hnd.
  apply NoDup_cons in Hnd as [Hk Hnd]. inversion_clear Hc as [|? ? Hk0 Hc0]. cbn [fst] in Hk0.
  destruct (Hcode k Hk0) as [Hu Hkn]. cbn [omap list_omap]. unfold configured_opt at 1. cbn [fst snd]. rewrite Hu, Hkn.
  destruct Hin as [[= -> ->]|Hin].
  - rewrite Hm. cbn [option_map opt_data]. by rewrite Z.eqb_refl.
  - assert (k <> code) as Hne.
    { intros ->. apply Hk, list_elem_of_In. exact (in_map fst _ _ Hin). }
    destruct (inet_aton v') as [x|]; cbn [option_map opt_data]; [rewrite (proj2 (Z.eqb_neq _ _)) by done|]; by apply IH.
Qed.

(** The netmask among the options of a server that is configured. *)
Lemma few_options conf kernel inet_aton env0 sv :
  configured kernel inet_aton env0 conf sv ->
  zlen (foreach_order (option_hash (cfg sv))) <= 3 /\
  exists sn m, subnet conf = Some sn /\ inet_aton sn = Some m /\
    opt_data G_DHCP_SUBNET (configured_opts inet_aton foreach_order (cfg sv)) = Some (put_be32 (ntohl m)).
Proof.
  intros [_ (sn & gw & dn & Hsn & _ & _ & Ha & Ho) _ _ _].
  assert (foreach_order (option_hash (cfg sv)) ≡ₚ [(G_DHCP_DNS_SERVER, dn); (G_DHCP_ROUTER, gw); (G_DHCP_SUBNET, sn)]) as Hp.
  { rewrite visits, Ho, !map_to_list_insert, map_to_list_singleton by (by repeat rewrite lookup_insert_ne). done. }
  inversion_clear Ha as [|? ? [m Hm] _]. split; [unfold zlen; by rewrite (Permutation_length Hp)|].
  exists sn, m. split_and!; [done..|]. unfold configured_opts.
  apply (configured_data _ _ _ sn).
  - rewrite (Permutation_map fst Hp). cbn [map fst]. apply (bool_decide_unpack _). reflexivity.
  - rewrite Hp. by repeat constructor; unfold address_code; cbn; tauto.
  - apply list_elem_of_In. rewrite Hp. apply list_elem_of_In. cbn. tauto.
  - done.
Qed.

(** The text of the netmask. *)
Lemma le_bytes32_mod v : le_bytes32 (v mod 2 ^ 32) = le_bytes32 v.
Proof.
  unfold le_bytes32, u8. rewrite (Z.div_mod v (2 ^ 32)) at 5 6 7 8 by done. set (q := v / 2 ^ 32). set (r := v mod 2 ^ 32).
  replace (2 ^ 32 * q + r) with (r + 2 ^ 24 * q * 2 ^ 8) by lia. rewrite Z.mod_add by done.
  replace (r + 2 ^ 24 * q * 2 ^ 8) with (r + 2 ^ 16 * q * 2 ^ 8 * 2 ^ 8) at 1 by lia. rewrite Z.div_add, Z.mod_add by done.
  replace (r + 2 ^ 24 * q * 2 ^ 8) with (r + 2 ^ 8 * q * 2 ^ 8 * 2 ^ 16) at 1 by lia. rewrite Z.div_add, Z.mod_add by done.
  replace (r + 2 ^ 24 * q * 2 ^ 8) with (r + q * 2 ^ 8 * 2 ^ 24) by lia. by rewrite Z.div_add, Z.mod_add by done.
Qed.

Lemma netmask_text m : sprint_nip (put_be32 (ntohl m)) = inet_ntoa m.
Proof.
  unfold put_be32, ntohl. assert (bswap_32 (bswap_32 m) = m mod 2 ^ 32) as ->.
  { unfold bswap_32 at 2. rewrite <- le_bytes32_mod. fold (bswap_32 (m mod 2 ^ 32)). apply bswap_32_invol, Z.mod_pos_bound. lia. }
  by rewrite le_bytes32_mod.
Qed.
End packets.

(** ** The server that is set up *)

(** Among the addresses of the command line one may be given out, and the last
    one is not that of all hosts. *)
Definition usable (inet_aton : list Z -> option Z) (conf : owfd_dhcp_config) : Prop :=
  exists a b g, inet_aton (conf_text (ip_from conf)) = Some a /\ inet_aton (conf_text (ip_to conf)) = Some b /\
    ntohl b < 2 ^ 32 - 1 /\ ntohl a <= g <= ntohl b /\ Z.land g 0xff <> 0 /\ Z.land g 0xff <> 0xff.

Lemma started_ready kernel inet_aton env0 conf sv fd mac sv' :
  (forall t c, Forall byte_ok (snd (kernel t c))) ->
  configured kernel inet_aton env0 conf sv -> usable inet_aton conf -> hd true (DhcpServer.answers env0) = true ->
  leasable (ztake ETH_ALEN mac) -> g_dhcp_server_start fd true SERVER_ID sv = (0, sv') -> ready_server sv' mac.
Proof.
  intros Hbytes [(a & b & Ha & Hb & Hs & He) _ Hl (Hst & Ht & Hen) [Hnz (t & c & Hn)]] (a' & b' & g & Ha' & Hb' & Hlast & Hg & H0 & Hff) Hans Hm.
  assert (a' = a) as -> by congruence. assert (b' = b) as -> by congruence.
  unfold g_dhcp_server_start. rewrite Hst. destruct (fd <? 0); [done|]. cbn [negb]. intros [= <-].
  pose proof (bswap_32_range a). pose proof (bswap_32_range b). unfold ntohl in *.
  split; unfold cfg_ok, servable; cbn [cfg set_cfg tab start_ip end_ip server_nip DhcpServer.lease_seconds].
  - rewrite Ht. apply table0_ok.
  - lia.
  - lia.
  - rewrite Hn. by apply get_le32_range.
  - rewrite Hl. lia.
  - split; [done|]. rewrite Ht. cbn. unfold next_answer. cbn [en set_cfg]. rewrite Hen. split; [done|]. exists g.
    unfold free_address. cbn [cfg set_cfg tab start_ip end_ip]. rewrite Ht. by split_and!; [lia|lia| | |].
Qed.

(** ** Programs in their main loops *)

(** The frames a program has sent. *)
Definition sent_by (s : dstate) : list (list Z) := frames_sent (w_trace (dw s)).

(** A program that serves, and one that has a client on the link. *)
Record serves (sv : server) (t : dstate) : Prop := {
  sr_running : dh_running (dh t) = true;
  sr_server : exists s, dh_server (dh t) = Some s /\ is_Some (sv_watch s) /\ sv_server s = sv;
}.

Record seeks (c : cstate) (d : owfd_dhcp) (s : dstate) : Prop := {
  sk_running : dh_running (dh s) = true;
  sk_client : dh_client (dh s) = Some c /\ dw s = wd c;
  sk_address : dh_client_addr (dh s) = None;
  sk_args : flush_args (dh s) = flush_args d /\ forall a, add_args (dh s) a = add_args d a;
}.

Section loops.
Context (kernel : list event -> call -> Z * list Z).
Context (clock : nat -> Z) (inet_aton : list Z -> option Z) (inet_addr : list Z -> Z) (inet_ntop6 : list Z -> list Z)
  (foreach_order : gmap Z (list Z) -> list (Z * list Z)) (stack : list event -> list Z) (fuel : nat).

(** The next read of the socket of the server gives what a frame carries, and
    that of the client whose socket this source watches the frame itself. *)
Definition to_server (t : dstate) (frame : list Z) : Prop :=
  exists s, dh_server (dh t) = Some s /\
    kernel (w_trace (dw t)) (Read (DhcpServer.listener_sockfd (cfg (sv_server s))) sizeof_packet) = (zlen (payload frame), payload frame).

Definition to_client (s : dstate) (frame : list Z) (id : Z) : Prop :=
  exists c, dh_client (dh s) = Some c /\ id = DhcpClientBase.listener_watch (cl c) /\
    kernel (w_trace (dw s)) (Read (DhcpClientBase.listener_sockfd (cl c)) sizeof_frame) = (zlen frame, frame).

Local Notation loop := (Dhcp.loop kernel clock inet_aton inet_addr inet_ntop6 foreach_order stack fuel).
Local Notation dispatch_one := (Dhcp.dispatch_one kernel clock inet_aton inet_addr inet_ntop6 foreach_order stack fuel).
Local Notation run := (owfd_dhcp_run kernel clock inet_aton inet_addr inet_ntop6 foreach_order stack fuel).

Lemma loop_one h s s' :
  dh_running (dh s) = true -> dispatch_one h s = Some (tt, s') -> loop [h] s = Some (negb (dh_running (dh s')), s').
Proof.
  intros Hr Hd. cbn [Dhcp.loop]. unfold sbind at 1, get_dh. rewrite Hr. cbn [negb]. unfold sbind at 1. rewrite Hd.
  unfold sbind at 1. by destruct (negb (dh_running (dh s'))).
Qed.

(** *** The server *)

Lemma read_frames fd n r d w : frames_sent (w_trace (called (Read fd n) r d w)) = frames_sent (w_trace w).
Proof. rewrite frames_called. apply app_nil_r. Qed.

Lemma event_frames s frame sv' q out w :
  kernel (w_trace w) (Read (DhcpServer.listener_sockfd (cfg (sv_server s))) sizeof_packet) = (zlen (payload frame), payload frame) ->
  DhcpServer.listener_event clock inet_aton foreach_order fuel false (inl (payload frame)) (sv_server s) = Some (true, sv') ->
  sent (en sv') = sent (en (sv_server s)) ++ [q] -> reply_frame q = Some out ->
  swp False (server_event kernel clock inet_aton foreach_order fuel false s)
    (fun s' w' => sv_server s' = sv' /\ sv_watch s' = sv_watch s /\
       (frames_sent (w_trace w') = frames_sent (w_trace w) \/ frames_sent (w_trace w') = frames_sent (w_trace w) ++ [out])) w.
Proof.
  intros Hk Hev Hq Ho. unfold server_event. cbv zeta. apply swp_bind, swp_bind, swp_ncall. intros n d Hd.
  rewrite Hk in Hd. injection Hd as <- <-. apply swp_ret. rewrite (proj2 (Z.ltb_ge _ _)) by apply zlen_nonneg.
  rewrite ztake_all by lia. rewrite Hev, Hq, drop_app_length. cbn [send_packets]. apply swp_bind, swp_bind.
  eapply swp_mono; [by apply send_raw_frames|]. intros r w2 Hw2. apply swp_ret, swp_bind, swp_ret, swp_ret.
  rewrite read_frames in Hw2. done.
Qed.

Lemma server_hears frame t sv sv' q out :
  serves sv t -> to_server t frame ->
  DhcpServer.listener_event clock inet_aton foreach_order fuel false (inl (payload frame)) sv = Some (true, sv') ->
  sent (en sv') = sent (en sv) ++ [q] -> reply_frame q = Some out ->
  exists t' outs, loop [OnServer false] t = Some (false, t') /\ serves sv' t' /\
    sent_by t' = sent_by t ++ outs /\ forall f, In f outs -> f = out.
Proof.
  intros [Hr (s & Hs & [watch Hwatch] & <-)] (s0 & Hs0 & Hk) Hev Hq Ho. assert (s0 = s) as -> by congruence.
  pose proof (event_frames s frame sv' q out (dw t) Hk Hev Hq Ho) as H. unfold swp in H.
  destruct (server_event _ _ _ _ _ _ _ (dw t)) as [[s' w']|] eqn:E; [|done]. destruct H as (H1 & H2 & H3).
  assert (dispatch_one (OnServer false) t = Some (tt, mkDState (dh t <| dh_server := Some s' |>) w')) as Hd.
  { unfold Dhcp.dispatch_one, sbind at 1, get_dh. rewrite Hs, Hwatch. unfold sbind, dnet. by rewrite E. }
  apply loop_one in Hd; [|done]. revert Hd. set (t' := mkDState _ w'). assert (dh_running (dh t') = true) as Hr' by exact Hr.
  rewrite Hr'. intros Hd. exists t', (match bool_decide (frames_sent (w_trace w') = frames_sent (w_trace (dw t))) with true => [] | false => [out] end).
  split; [exact Hd|]. split; [|split].
  - split; [exact Hr|]. exists s'. split; [done|]. by rewrite H2.
  - unfold sent_by. cbn [dw]. case_bool_decide as Hb; [by rewrite app_nil_r|]. by destruct H3.
  - intros f. case_bool_decide; [by intros []|]. by intros [<-|[]].
Qed.

(** The main loop that is entered. *)
Lemma enter_loop (P : dstate -> Prop) s :
  P (mkDState (dh s <| dh_running := true |>) (dw s)) ->
  swp True (let* stopped := g_main_loop_run kernel clock inet_aton inet_addr inet_ntop6 foreach_order stack fuel [] in
            sret (if (stopped : bool) then Some 0 else None)) (fun r s' => r = None -> P s') s.
Proof. intros HP. apply swp_bind. unfold g_main_loop_run. by apply swp_bind, swp_updh, swp_bind, swp_get_dh, swp_ret, swp_ret. Qed.

(** The server of a program that got into its main loop. *)
Lemma run_serves t0 s :
  DhcpConfig.client (dh_config (dh t0)) = false -> dh_server (dh t0) = Some s -> started (cfg (sv_server s)) = false ->
  swp True (run []) (fun r t => r = None ->
    exists fd sv, g_dhcp_server_start fd true SERVER_ID (sv_server s) = (0, sv) /\ serves sv t) t0.
Proof.
  intros Hm Hs Hst. unfold owfd_dhcp_run. apply swp_bind, swp_get_dh. rewrite Hm, Hs. apply swp_bind, swp_bind, swp_dnet.
  unfold server_start. rewrite Hst. apply swp_bind. eapply swp_mono; [apply swp_any|]. intros fd w1 _. apply swp_bind.
  eapply swp_mono; [apply swp_any|]. intros ch w2 _. apply swp_bind. eapply swp_mono; [apply swp_any|]. intros x w3 _.
  destruct (g_dhcp_server_start fd (0 <=? ch) SERVER_ID (sv_server s)) as [r sv] eqn:E. apply swp_ret, swp_bind, swp_updh, swp_ret.
  destruct (Z.eqb_spec r 0) as [->|]; cbn [negb]; [|by apply swp_ret]. apply enter_loop. exists fd, sv.
  revert E. unfold g_dhcp_server_start. rewrite Hst. destruct (fd <? 0); [done|]. destruct (0 <=? ch); [|done]. cbn [negb].
  intros [= <-]. split; [done|]. split; [done|]. eexists. split; [done|]. split; [by eexists|done].
Qed.

(** *** The client *)

Lemma set_wd_same c : c <| wd := wd c |> = c.
Proof. by destruct c. Qed.

(** A step of the client that does not call the user, and one that tells of a
    lease. *)
Lemma with_users_quiet {A} (m : cm A) s c a c' :
  dh_client (dh s) = Some c -> m (c <| wd := dw s |>) = Some (a, c') ->
  callbacks (w_trace (wd c')) = callbacks (w_trace (dw s)) ->
  with_users kernel m s = Some (a, mkDState (with_client (dh s) c') (wd c')).
Proof.
  intros Hc Hm Hcb. unfold with_users, sbind at 1, on_client. rewrite Hc. rewrite Hm. unfold sbind at 1. cbn [dw]. by rewrite Hcb, drop_all.
Qed.

Lemma seeks_args c d s : seeks c d s -> forall c', seeks c' d (mkDState (with_client (dh s) c') (wd c')).
Proof. intros [H1 H2 H3 H4] c'. by split. Qed.

(** The client of a program that got into its main loop. *)
Lemma run_seeks d s c r c' :
  holding (fun _ => True) d s -> dh_client (dh s) = Some c ->
  g_dhcp_client_start kernel inet_addr foreach_order stack fuel None (c <| wd := dw s |>) = Some (r, c') ->
  callbacks (w_trace (wd c')) = callbacks (w_trace (dw s)) ->
  swp True (run []) (fun o s' => o = None -> r = 0 /\ seeks c' d s') s.
Proof.
  intros [_ Ha (Hf & Hadd & Hm)] Hc Hst Hcb. unfold owfd_dhcp_run. apply swp_bind, swp_get_dh. rewrite Hm. apply swp_bind.
  unfold swp at 1. rewrite (with_users_quiet _ _ _ _ _ Hc Hst Hcb). destruct (Z.eqb_spec r 0) as [->|]; cbn [negb]; [|by apply swp_ret].
  apply enter_loop. split; [done|]. by split.
Qed.

Lemma to_client_arrives d s c frame id : seeks c d s -> to_client s frame id -> arrives kernel c frame.
Proof.
  intros Hs (c0 & Hc0 & _ & Hk). destruct (sk_client _ _ _ Hs) as [Hc Hw]. assert (c0 = c) as -> by congruence.
  unfold arrives. by rewrite <- Hw.
Qed.

(** A frame that arrives at the client. *)
Lemma client_quiet d s c frame id c' :
  seeks c d s -> to_client s frame id ->
  (arrives kernel c frame ->
   DhcpClient.dispatch kernel inet_addr inet_ntop6 foreach_order stack fuel (DhcpClientBase.listener_watch (cl c)) false c = Some (tt, c') /\
   callbacks (w_trace (wd c')) = callbacks (w_trace (wd c))) ->
  exists s', loop [OnClient id false] s = Some (false, s') /\ seeks c' d s'.
Proof.
  intros Hs (c0 & Hc0 & -> & Hk) Hstep. pose proof (sk_client _ _ _ Hs) as [Hc Hw]. assert (c0 = c) as -> by congruence.
  destruct Hstep as [Hd Hcb]; [unfold arrives; by rewrite <- Hw|].
  assert (dispatch_one (OnClient (DhcpClientBase.listener_watch (cl c)) false) s =
    Some (tt, mkDState (with_client (dh s) c') (wd c'))) as Hdis.
  { unfold Dhcp.dispatch_one, sbind at 1, get_dh. rewrite Hc. apply (with_users_quiet _ s c); [done| |congruence].
    by rewrite Hw, set_wd_same. }
  apply loop_one in Hdis; [|apply Hs]. pose proof (sk_running _ _ _ (seeks_args _ _ _ Hs c')) as Hr'. rewrite Hr' in Hdis.
  eexists. split; [exact Hdis|by eapply seeks_args].
Qed.

Lemma dispatch_did id c c' :
  DhcpClient.dispatch kernel inet_addr inet_ntop6 foreach_order stack fuel id false c = Some (tt, c') -> did [] (wd c) (wd c').
Proof.
  intros E. destruct (em_dispatch kernel inet_addr inet_ntop6 foreach_order stack fuel id false _ _ _ E) as (evs & Ht & Hf).
  exists evs. split; [exact Ht|]. constructor. apply commands_quiet. eapply Forall_impl; [exact Hf|]. intros [k r x]. cbn. by destruct k.
Qed.

Lemma client_leased d s c frame id c' p addr :
  seeks c d s -> to_client s frame id ->
  (arrives kernel c frame ->
   DhcpClient.dispatch kernel inet_addr inet_ntop6 foreach_order stack fuel (DhcpClientBase.listener_watch (cl c)) false c = Some (tt, c') /\
   callbacks (w_trace (wd c')) = callbacks (w_trace (wd c)) ++ [CLIENT_LEASE_FN]) ->
  assigned_ip (cl c') = Some p -> strings c' !! p = Some addr ->
  let a := addr ++ str "/" ++ lease_subnet (cl c') in
  exists stopped s', loop [OnClient id false] s = Some (stopped, s') /\
    (stopped = false -> dh_client_addr (dh s') = Some a /\ did [flush_args d; add_args d a] (dw s) (dw s')).
Proof.
  intros Hs (c0 & Hc0 & -> & Hk) Hstep Hp Ha a. pose proof (sk_client _ _ _ Hs) as [Hc Hw]. assert (c0 = c) as -> by congruence.
  destruct Hstep as [Hd Hcb]; [unfold arrives; by rewrite <- Hw|]. pose proof (dispatch_did _ _ _ Hd) as Hdid.
  destruct (seeks_args _ _ _ Hs c') as [_ _ Hno [Hfl Hadd]]. set (s1 := mkDState (with_client (dh s) c') (wd c')) in *.
  pose proof (lease_fn_did kernel s1 c' p addr eq_refl Hp Ha) as Hl. unfold swp in Hl.
  destruct (client_lease_fn kernel s1) as [[[] s2]|] eqn:E; [|done]. fold a in Hl.
  assert (dispatch_one (OnClient (DhcpClientBase.listener_watch (cl c)) false) s = Some (tt, s2)) as Hdis.
  { unfold Dhcp.dispatch_one, sbind at 1, get_dh. rewrite Hc. unfold with_users, sbind at 1, on_client. rewrite Hc, Hw, set_wd_same, Hd.
    unfold sbind at 1. cbn [dw]. rewrite Hcb, drop_app_length. cbn [call_users]. unfold sbind at 1. rewrite decide_True by done.
    match goal with |- context [client_lease_fn kernel ?x] => change x with s1 end. by rewrite E. }
  apply loop_one in Hdis; [|apply Hs]. exists (negb (dh_running (dh s2))), s2. split; [exact Hdis|]. intros Hrun%negb_false_iff.
  destruct (Hl Hrun) as [Hl1 [[Hl2 _]|Hl2]]; [congruence|]. split; [exact Hl1|]. rewrite Hfl, Hadd in Hl2.
  apply (did_trans [] _ _ (wd c')); [by rewrite Hw|exact Hl2].
Qed.
End loops.

(** ** The meeting *)

(** The netmask in the text of the address. *)
Lemma subnet_text c m :
  code_value_hash c !! G_DHCP_SUBNET = Some (address_value (put_be32 (ntohl m))) -> lease_subnet c = inet_ntoa m.
Proof. intros H. unfold lease_subnet, g_dhcp_client_get_option. rewrite H. cbn [default address_value]. apply netmask_text. Qed.

Section meeting.
(** The systems of the client and of the server. *)
Context (kernel kernel' : list event -> call -> Z * list Z).
Context (clock : nat -> Z) (inet_aton : list Z -> option Z) (inet_addr : list Z -> Z) (inet_ntop6 : list Z -> list Z)
  (foreach_order : gmap Z (list Z) -> list (Z * list Z)) (stack stack' : list event -> list Z) (fuel : nat)
  (env0 : DhcpServer.env).
Context (told_bytes : forall t c, Forall byte_ok (snd (kernel t c))) (told_bytes' : forall t c, Forall byte_ok (snd (kernel' t c))).
Context (visits : forall h, foreach_order h ≡ₚ map_to_list h).
Context (stack_ok : forall t, sizeof_packet <= zlen (stack t) /\ Forall byte_ok (stack t)).

Local Notation setup k st conf w := (owfd_dhcp_setup k inet_aton st env0 (mkDState (dhcp0 conf) w)).
Local Notation run k st s := (owfd_dhcp_run k clock inet_aton inet_addr inet_ntop6 foreach_order st fuel [] s).
Local Notation loop k st h s := (Dhcp.loop k clock inet_aton inet_addr inet_ntop6 foreach_order st fuel [h] s).

(** The client that got into its main loop. *)
Lemma client_started conf w s0 s :
  DhcpConfig.client conf = true -> w_bad w = 0 ->
  setup kernel stack conf w = Some (0, s0) -> run kernel stack s0 = Some (None, s) ->
  exists D c0 c discovers, dh_client (dh s0) = Some c0 /\ wants_addresses (cl c0) /\ seeks c (dh s0) s /\
    searching foreach_order D (c0 <| wd := dw s0 |>) c discovers.
Proof.
  intros Hm Hb Hset Hrun.
  pose proof (setup_made kernel inet_aton stack env0 told_bytes conf w Hm) as H1. unfold swp in H1. rewrite Hset in H1.
  destruct (H1 eq_refl) as [(c0 & Hc0 & Hwants) Haddr Hrest].
  pose proof (fresh_start conf w Hb) as Hfr.
  pose proof (setup_ok kernel inet_aton stack env0 _ _ _ Hfr) as H2. unfold swp in H2. rewrite Hset in H2.
  destruct H2 as [[? _]|(_ & [Hp _ _ _] & _)]; [lia|]. unfold parts in Hp. rewrite Hc0 in Hp.
  destruct (dh_server (dh s0)); [done|]. destruct Hp as [_ Hi]. set (D := sfd_fds (dh s0) ⊎ w_fds w) in *.
  pose proof (md_idle _ _ _ Hwants) as (_ & _ & Hre & Hmode).
  destruct (idle_start kernel inet_addr foreach_order stack fuel D (c0 <| wd := dw s0 |>) Hi) as (r & c & Hst & Hcb & Hok);
    [by eapply made_settled|exact Hre|exact Hmode|].
  pose proof (run_seeks kernel clock inet_aton inet_addr inet_ntop6 foreach_order stack fuel (dh s0) s0 c0 r c) as H3.
  unfold swp in H3. rewrite Hrun in H3. destruct H3 as [-> Hs]; [by split; [exists c0|..]|done..|].
  destruct (Hok eq_refl) as (discovers & Hse). by exists D, c0, c, discovers.
Qed.

(** The server that got into its main loop. *)
Lemma server_started conf w t0 t :
  DhcpConfig.client conf = false -> setup kernel' stack' conf w = Some (0, t0) -> run kernel' stack' t0 = Some (None, t) ->
  usable inet_aton conf -> hd true (DhcpServer.answers env0) = true ->
  exists sv0 sv, configured kernel' inet_aton env0 conf sv0 /\ serves sv t /\
    start_ip (cfg sv) = start_ip (cfg sv0) /\ end_ip (cfg sv) = end_ip (cfg sv0) /\ option_hash (cfg sv) = option_hash (cfg sv0) /\
    DhcpServer.lease_seconds (cfg sv) = 3600 /\ forall mac, leasable (ztake ETH_ALEN mac) -> ready_server sv mac.
Proof.
  intros Hm Hset Hrun Hu Hans.
  pose proof (setup_ready kernel' inet_aton stack' env0 (mkDState (dhcp0 conf) w) Hm) as H. unfold swp in H. rewrite Hset in H.
  destruct (H eq_refl) as [(s & Hs & Hcf & _) Hconf]. rewrite Hconf in Hcf. cbn [dh dhcp0 dh_config] in Hcf, Hconf.
  pose proof (run_serves kernel' clock inet_aton inet_addr inet_ntop6 foreach_order stack' fuel t0 s) as Hr. unfold swp in Hr.
  rewrite Hrun in Hr. destruct Hr as (fd & sv & Hst & Hsv); [by rewrite Hconf|done|apply Hcf|done|].
  exists (sv_server s), sv. pose proof Hst as Hst'. revert Hst. unfold g_dhcp_server_start. rewrite (proj1 (cf_idle _ _ _ _ _ Hcf)).
  destruct (fd <? 0); [done|]. cbn [negb]. intros [= E]. split; [done|]. split; [done|]. rewrite <- E. split_and!; try done.
  { apply (cf_lease _ _ _ _ _ Hcf). }
  rewrite E. intros mac Hmac. by eapply started_ready.
Qed.
(** An address of the range of the command line, and its text with the
    netmask of the command line. *)
Definition offered (conf : owfd_dhcp_config) (ip : Z) (text : list Z) : Prop :=
  exists lo hi sn m, inet_aton (conf_text (ip_from conf)) = Some lo /\ inet_aton (conf_text (ip_to conf)) = Some hi /\
    ntohl lo <= ip <= ntohl hi /\ subnet conf = Some sn /\ inet_aton sn = Some m /\
    text = inet_ntoa (htonl ip) ++ str "/" ++ inet_ntoa m.

(** The server of this program has the address in its table, for an hour from
    some time on. *)
Definition lends (t : dstate) (mac : list Z) (ip : Z) : Prop :=
  exists s n, dh_server (dh t) = Some s /\ holds (sv_server s) mac ip (clock n + 3600).

(** A server like the configured one, with an address that it holds for the
    client. *)
Record keeps_for (conf : owfd_dhcp_config) (sv : server) (mac : list Z) (ip : Z) : Prop := {
  kf_ready : table_ok (tab sv) /\ cfg_ok (cfg sv) /\ 0 <= server_nip (cfg sv) < 2 ^ 32;
  kf_seconds : DhcpServer.lease_seconds (cfg sv) = 3600;
  kf_mac : leasable (ztake ETH_ALEN mac);
  kf_range : start_ip (cfg sv) <= ip <= end_ip (cfg sv) /\ ip <> 0;
  kf_holds : exists e, holds sv mac ip e;
  kf_configured : exists sv0, configured kernel' inet_aton env0 conf sv0 /\
    start_ip (cfg sv) = start_ip (cfg sv0) /\ end_ip (cfg sv) = end_ip (cfg sv0) /\ option_hash (cfg sv) = option_hash (cfg sv0);
}.

(** A client of the program that has asked for an address. *)
Record asking (D : DhcpClientFacts.env) (c : cstate) (sid ip : Z) : Prop := {
  ak_inv : inv D 0 false c;
  ak_listens : exists fd, listens fd c;
  ak_settled : settled foreach_order (view_of 0 c);
  ak_state : state (cl c) = REQUESTING /\ requested_ip (cl c) = ip /\ server_ip (cl c) = sid;
  ak_wants : request_list (cl c) = [G_DHCP_ROUTER; G_DHCP_DNS_SERVER; G_DHCP_SUBNET] /\
    cbs (cl c) EVENT_LEASE_AVAILABLE = Some CLIENT_LEASE_FN;
}.

Lemma offered_address conf sv mac ip c c' :
  keeps_for conf sv mac ip -> In G_DHCP_SUBNET (request_list (cl c)) -> has_lease inet_aton foreach_order (cfg sv) ip c c' ->
  exists p addr, assigned_ip (cl c') = Some p /\ strings c' !! p = Some addr /\ offered conf ip (addr ++ str "/" ++ lease_subnet (cl c')).
Proof.
  intros [_ _ _ [Hr _] _ (sv0 & Hcf & E1 & E2 & E3)] Hin [_ (p & Hp & Ht) _ Ho _ _].
  destruct (few_options foreach_order visits _ _ _ _ _ Hcf) as (H3 & sn & m & Hsn & Hm & Hd).
  unfold configured_opts in *. rewrite E3 in Ho. specialize (Ho H3 G_DHCP_SUBNET Hin).
  change (u8 G_DHCP_SUBNET) with G_DHCP_SUBNET in Ho. rewrite Hd in Ho. cbn [option_map] in Ho.
  exists p, (inet_ntoa (htonl ip)). split_and!; [done..|]. rewrite (subnet_text _ _ Ho).
  destruct (cf_range _ _ _ _ _ Hcf) as (lo & hi & Hlo & Hhi & F1 & F2). exists lo, hi, sn, m.
  rewrite <- F1, <- F2, <- E1, <- E2. split; [done|]. split; [done|]. split; [lia|]. by split_and!.
Qed.

(** The second half of the exchange. *)
Lemma acknowledged D conf d c s sv t ip request :
  asking D c (server_nip (cfg sv)) ip -> select_frame foreach_order (cl c) request -> seeks c d s ->
  keeps_for conf sv (mac_address (cl c)) ip -> serves sv t -> to_server kernel' t request -> (388 <= fuel)%nat ->
  exists t' acks, loop kernel' stack' (OnServer false) t = Some (false, t') /\ sent_by t' = sent_by t ++ acks /\
    lends t' (mac_address (cl c)) ip /\
    forall ack id, In ack acks -> to_client kernel s ack id ->
    exists stopped s' text, loop kernel stack (OnClient id false) s = Some (stopped, s') /\ offered conf ip text /\
      (stopped = false -> dh_client_addr (dh s') = Some text /\ did [flush_args d; add_args d text] (dw s) (dw s')).
Proof.
  intros [Hi (fd & Hli) Hv (Hst & Hip & Hsid) [Hrl Hfn]] Hsel Hsk Hkf Hsv Hto Hfuel.
  pose proof Hkf as [(Htab & Hcfg & Hnip) Hsec Hmac [Hr Hnz] (e & Hh) _].
  destruct (request_served clock inet_aton kernel inet_addr inet_ntop6 foreach_order stack fuel stack_ok
    D fd c sv ip e request Hi Hli Hv Hst Hip Hsid) as (sv' & ack & Hrecv & Hgiven & Hlast); [|done|done|done|done|by rewrite Hsec|done|done|done|done|done|].
  { rewrite Hrl. repeat constructor; unfold address_code; cbn; tauto. }
  pose proof (sd_sent _ _ _ _ _ _ _ _ _ Hgiven) as (q & Hq & Hack).
  destruct (server_hears kernel' clock inet_aton inet_addr inet_ntop6 foreach_order stack' fuel request t sv sv' q ack
    Hsv Hto Hrecv Hq Hack) as (t' & acks & Ht' & [_ (sv1 & Hsv1 & _ & E)] & Hso & Hacks).
  exists t', acks. split; [exact Ht'|]. split; [exact Hso|]. split.
  { exists sv1, (DhcpServer.tick (en sv)). split; [done|]. rewrite E, <- Hsec. apply (sd_holds _ _ _ _ _ _ _ _ _ Hgiven). }
  intros f id ->%Hacks Htc. assert (arrives kernel c ack) as Harr by by eapply to_client_arrives.
  destruct (Hlast Harr) as (c' & Hd & Hl). pose proof (hl_told _ _ _ _ _ _ Hl) as Htold. unfold told in Htold. rewrite Hfn in Htold.
  destruct (offered_address conf sv _ ip c c' Hkf) as (p & addr & Hp & Haddr & Hoff); [rewrite Hrl; cbn; tauto|done|].
  destruct (client_leased kernel clock inet_aton inet_addr inet_ntop6 foreach_order stack fuel d s c ack id c' p addr
    Hsk Htc ltac:(done) Hp Haddr) as (stopped & s' & Hs' & Hend). by exists stopped, s', (addr ++ str "/" ++ lease_subnet (cl c')).
Qed.

(** C8. Two programs on a link agree on an address.  One is set up as a client
    and one as a server, and both have got into their main loops.  Every discover
    the client has sent is answered when it arrives at the server; every frame of
    the answer makes the client request an address of the server's range; every
    request is acknowledged, and the server then holds the address for the client
    for an hour; and when a frame of the acknowledgement arrives, the client's
    program either ends or has removed the old addresses of its interface and
    added this one, with the netmask of the server's command line, by two
    commands that were both successful. *)
Theorem programs_meet conf conf' w w' s0 s t0 t c0 :
  DhcpConfig.client conf = true -> DhcpConfig.client conf' = false -> w_bad w = 0 ->
  setup kernel stack conf w = Some (0, s0) -> run kernel stack s0 = Some (None, s) ->
  setup kernel' stack' conf' w' = Some (0, t0) -> run kernel' stack' t0 = Some (None, t) ->
  usable inet_aton conf' -> hd true (DhcpServer.answers env0) = true -> (388 <= fuel)%nat ->
  dh_client (dh s0) = Some c0 -> leasable (mac_address (cl c0)) ->
  exists discovers, sent_by s = sent_by s0 ++ discovers /\
  forall discover, In discover discovers -> to_server kernel' t discover ->
  exists ip t1 offers, loop kernel' stack' (OnServer false) t = Some (false, t1) /\ sent_by t1 = sent_by t ++ offers /\
  forall offer id, In offer offers -> to_client kernel s offer id ->
  exists s1 requests, loop kernel stack (OnClient id false) s = Some (false, s1) /\ sent_by s1 = sent_by s ++ requests /\
  forall request, In request requests -> to_server kernel' t1 request ->
  exists t2 acks, loop kernel' stack' (OnServer false) t1 = Some (false, t2) /\ sent_by t2 = sent_by t1 ++ acks /\
    lends t2 (mac_address (cl c0)) ip /\
  forall ack id', In ack acks -> to_client kernel s1 ack id' ->
  exists stopped s2 text, loop kernel stack (OnClient id' false) s1 = Some (stopped, s2) /\ offered conf' ip text /\
    (stopped = false -> dh_client_addr (dh s2) = Some text /\
       did [flush_args (dh s0); add_args (dh s0) text] (dw s1) (dw s2)).
Proof.
  intros Hm Hm' Hb Hset Hrun Hset' Hrun' Hu Hans Hfuel Hc0 Hmac.
  destruct (client_started conf w s0 s Hm Hb Hset Hrun) as (D & c1 & c & discovers & Hc1 & [_ [Hml _] Hrl _ _ Hfn] & Hsk & Hse).
  assert (c1 = c0) as -> by congruence. clear Hc1.
  destruct (server_started conf' w' t0 t Hm' Hset' Hrun' Hu Hans) as (sv0 & sv & Hcf & Hsv & E1 & E2 & E3 & E4 & Hready).
  destruct Hse as [Hi Hv Hsel [[Hrl1 Hmac1] [Hcb1 Hlog1]] (fd & Hli & Hfs) Hall]. cbn [rset cl wd] in *.
  specialize (Hready (mac_address (cl c))). rewrite Hmac1, ztake_all in Hready by (unfold ETH_ALEN; lia). specialize (Hready Hmac).
  rewrite <- Hmac1 in Hready. exists discovers. split; [unfold sent_by; by rewrite (proj2 (sk_client _ _ _ Hsk))|].
  intros discover Hin Hto. rewrite List.Forall_forall in Hall. specialize (Hall _ Hin).
  destruct (discover_served clock inet_aton kernel inet_addr inet_ntop6 foreach_order stack fuel stack_ok
    (mkEnv D None) fd c sv discover Hi Hli Hv Hsel Hall Hready Hfuel) as (ip & sv1 & offer & Hrecv & Hgiven & Hnext).
  pose proof (sd_sent _ _ _ _ _ _ _ _ _ Hgiven) as (q & Hq & Hoff).
  destruct (server_hears kernel' clock inet_aton inet_addr inet_ntop6 foreach_order stack' fuel discover t sv sv1 q offer
    Hsv Hto Hrecv Hq Hoff) as (t1 & offers & Ht1 & Hsv1 & Hso & Hoffers).
  exists ip, t1, offers. split; [exact Ht1|]. split; [exact Hso|]. intros f id ->%Hoffers Htc.
  assert (arrives kernel c offer) as Harr by by eapply to_client_arrives.
  destruct (Hnext Harr) as (c1 & requests & Hd & Hi1 & [R1 R2 R3 R4 (R5 & R6 & R7 & R8) _ R9] & [Hli1 Hfr1] & Hreq).
  destruct (client_quiet kernel clock inet_aton inet_addr inet_ntop6 foreach_order stack fuel _ s c offer id c1 Hsk Htc) as (s1 & Hs1 & Hsk1);
    [done|].
  exists s1, requests. split; [exact Hs1|]. split.
  { unfold sent_by. by rewrite (proj2 (sk_client _ _ _ Hsk1)), (proj2 (sk_client _ _ _ Hsk)). }
  intros request Hinr Hto1. rewrite List.Forall_forall in Hreq. destruct Hgiven as [_ _ Hr Hh [Hcfg1 Htab1]].
  assert (mac_address (cl c1) = mac_address (cl c)) as Hmac2 by exact R6. rewrite <- Hmac1, <- Hmac2.
  apply (acknowledged (mkEnv D None) conf' _ c1 s1 sv1 t1 ip request); [| |done| |done..].
  - rewrite Hcfg1. split; [done|by exists fd|done|by split_and!|].
    assert (request_list (cl c1) = request_list (cl c)) as -> by exact R7.
    assert (cbs (cl c1) = cbs (cl c)) as -> by exact R8. by rewrite Hrl1, Hcb1.
  - by apply Hreq.
  - destruct Hready as [? ? _ ? _ [? _]]. rewrite Hmac2. split; rewrite ?Hcfg1; try done.
    + by exists OFFER_TIME.
    + by exists sv0.
Qed.

End meeting.

(** ** A meeting in the laboratory

    The programs of [DhcpRuns.v], each on its own system. *)

Definition set_up_on (frames : list (list Z)) (conf : owfd_dhcp_config) : option (Z * dstate) :=
  owfd_dhcp_setup (station frames) station_aton lab_stack env0 (mkDState (dhcp0 conf) world0).

Definition run_on (frames : list (list Z)) (s : dstate) : option (option Z * dstate) :=
  owfd_dhcp_run (station frames) wall_clock station_aton lab_addr lab_ntop map_to_list lab_stack 600 [] s.

Definition loop_on (frames : list (list Z)) (h : Dhcp.happening) (s : dstate) : option (bool * dstate) :=
  Dhcp.loop (station frames) wall_clock station_aton lab_addr lab_ntop map_to_list lab_stack 600 [h] s.

Definition after {A} (r : option (A * dstate)) : dstate := match r with Some (_, s) => s | None => mkDState (dhcp0 sample_server) world0 end.

Definition ready_on (frames : list (list Z)) (conf : owfd_dhcp_config) : dstate := after (set_up_on frames conf).
Definition running_on (frames : list (list Z)) (conf : owfd_dhcp_config) : dstate := after (run_on frames (ready_on frames conf)).
Definition step_on (frames : list (list Z)) (h : Dhcp.happening) (s : dstate) : dstate := after (loop_on frames h s).

(** The configuration of [DhcpRuns.client_args]. *)
Definition sample_client : owfd_dhcp_config :=
  match fst (owfd_dhcp_parse_argv lab_pton6 client_args owfd_dhcp_init_config heap0) with
  | Some (_, conf) => conf
  | None => owfd_dhcp_init_config
  end.

Definition last_sent (s : dstate) : list Z := default [] (last (sent_by s)).

Definition link_discover : list Z := last_sent (running_on [] sample_client).
Definition link_offer : list Z :=
  let fs := [payload link_discover] in last_sent (step_on fs (OnServer false) (running_on fs sample_server)).
Definition link_request : list Z :=
  let fs := [link_offer] in last_sent (step_on fs (OnClient 1 false) (running_on fs sample_client)).

(** What arrives at the server, and at the client. *)
Definition at_server : list (list Z) := [payload link_discover; payload link_request].
Local Notation t_link := (running_on at_server sample_server).
Local Notation t1_link := (step_on at_server (OnServer false) t_link).
Local Notation t2_link := (step_on at_server (OnServer false) t1_link).

Definition link_ack : list Z := last_sent t2_link.
Definition at_client : list (list Z) := [link_offer; link_ack].
Local Notation s_link := (running_on at_client sample_client).
Local Notation s1_link := (step_on at_client (OnClient 1 false) s_link).
Local Notation s2_link := (step_on at_client (OnClient 1 false) s1_link).

Example link_ends :
  (dh_client_addr (dh s2_link), dh_running (dh s2_link), commands (w_trace (dw s2_link)), length (sent_by s2_link)) =
  (Some (str "192.168.77.2/255.255.255.0"), true,
   [flush_args (dh s_link); add_args (dh s_link) (str "192.168.77.2/255.255.255.0")], 2%nat).
Proof. vm_compute. reflexivity. Qed.

Lemma link_bytes : Forall (Forall byte_ok) at_client /\ Forall (Forall byte_ok) at_server.
Proof. split; apply (bool_decide_unpack _); vm_compute; exact I. Qed.

Lemma station_bytes frames : Forall (Forall byte_ok) frames -> forall evs c, Forall byte_ok (snd (station frames evs c)).
Proof.
  intros Hf evs c. assert (Forall byte_ok (snd (lab frames evs c))) as Hlab.
  { unfold lab. destruct c; repeat case_match; cbn [snd]; try (by repeat constructor). by eapply Forall_lookup_1. }
  unfold station. destruct c; repeat case_match; try exact Hlab; cbn [snd]; try (by repeat constructor); apply le_bytes32_ok.
Qed.

Lemma sample_usable : usable station_aton sample_server.
Proof.
  exists (default 0 (station_aton (conf_text (ip_from sample_server)))), (default 0 (station_aton (conf_text (ip_to sample_server)))), 0xc0a84d02.
  split_and!; try by_playing; vm_compute; congruence.
Qed.

(** What a state answers, and the state itself. *)
Lemma after_eq {A} (r : option (A * dstate)) a : option_map fst r = Some a -> r = Some (a, after r).
Proof. by destruct r as [[? ?]|]; [intros [= ->]|]. Qed.

Lemma sent_in fs f s s' : sent_by s' = sent_by s ++ fs -> sent_by s' = sent_by s ++ [f] -> In f fs.
Proof. intros -> H. apply app_inv_head in H as ->. by left. Qed.

(** The programs on the link come this far. *)
Lemma link_set_up fs conf :
  option_map fst (set_up_on fs conf) = Some 0 ->
  owfd_dhcp_setup (station fs) station_aton lab_stack env0 (mkDState (dhcp0 conf) world0) = Some (0, ready_on fs conf).
Proof. apply after_eq. Qed.

Lemma link_runs fs conf :
  option_map fst (run_on fs (ready_on fs conf)) = Some None ->
  owfd_dhcp_run (station fs) wall_clock station_aton lab_addr lab_ntop map_to_list lab_stack 600 [] (ready_on fs conf) =
    Some (None, running_on fs conf).
Proof. apply after_eq. Qed.

Lemma link_steps fs h s b s' :
  option_map fst (loop_on fs h s) = Some false ->
  Dhcp.loop (station fs) wall_clock station_aton lab_addr lab_ntop map_to_list lab_stack 600 [h] s = Some (b, s') ->
  b = false /\ s' = step_on fs h s.
Proof. unfold step_on, loop_on. intros Hb E. rewrite E in *. by injection Hb as ->. Qed.

Lemma link_hears t frame :
  match dh_server (dh t) with
  | Some s => station at_server (w_trace (dw t)) (Read (DhcpServer.listener_sockfd (cfg (sv_server s))) sizeof_packet) =
      (zlen (payload frame), payload frame)
  | None => False
  end -> to_server (station at_server) t frame.
Proof. unfold to_server. destruct (dh_server (dh t)) as [s|]; [|done]. by exists s. Qed.

Lemma link_gets s frame :
  match dh_client (dh s) with
  | Some c => DhcpClientBase.listener_watch (cl c) = 1 /\
      station at_client (w_trace (dw s)) (Read (DhcpClientBase.listener_sockfd (cl c)) sizeof_frame) = (zlen frame, frame)
  | None => False
  end -> to_client (station at_client) s frame 1.
Proof. unfold to_client. destruct (dh_client (dh s)) as [c|]; [|done]. intros [? ?]. by exists c. Qed.

(** The setups, the discover and its answer; the request and its answer. *)
Lemma link_starts :
  option_map fst (set_up_on at_client sample_client) = Some 0 /\
  option_map fst (run_on at_client (ready_on at_client sample_client)) = Some None /\
  option_map fst (set_up_on at_server sample_server) = Some 0 /\
  option_map fst (run_on at_server (ready_on at_server sample_server)) = Some None.
Proof. split_and!; by_playing. Qed.

Lemma link_goes :
  option_map fst (loop_on at_server (OnServer false) t_link) = Some false /\
  option_map fst (loop_on at_client (OnClient 1 false) s_link) = Some false /\
  option_map fst (loop_on at_server (OnServer false) t1_link) = Some false /\
  option_map fst (loop_on at_client (OnClient 1 false) s1_link) = Some false.
Proof. split_and!; by_playing. Qed.

Lemma link_frames :
  sent_by s_link = sent_by (ready_on at_client sample_client) ++ [link_discover] /\
  sent_by t1_link = sent_by t_link ++ [link_offer] /\ sent_by s1_link = sent_by s_link ++ [link_request] /\
  sent_by t2_link = sent_by t1_link ++ [link_ack].
Proof. split_and!; by_playing. Qed.

Lemma link_arrivals :
  to_server (station at_server) t_link link_discover /\ to_client (station at_client) s_link link_offer 1 /\
  to_server (station at_server) t1_link link_request /\ to_client (station at_client) s1_link link_ack 1.
Proof.
  split_and!; [apply link_hears|apply link_gets|apply link_hears|apply link_gets]; vm_compute;
    first [reflexivity|split; reflexivity].
Qed.

Lemma link_lease : dh_client_addr (dh s2_link) = Some (str "192.168.77.2/255.255.255.0").
Proof. by_playing. Qed.

Lemma link_client :
  exists c0, dh_client (dh (ready_on at_client sample_client)) = Some c0 /\ mac_address (cl c0) = [2; 0; 0; 0; 0; 1].
Proof.
  assert (option_map (fun c => mac_address (cl c)) (dh_client (dh (ready_on at_client sample_client))) = Some [2; 0; 0; 0; 0; 1]) as H by by_playing.
  destruct (dh_client _) as [c|]; [|done]. injection H as H. by exists c.
Qed.

Lemma lab_stack_ok t : sizeof_packet <= zlen (lab_stack t) /\ Forall byte_ok (lab_stack t).
Proof. split; [done|]. by apply Forall_replicate. Qed.

Lemma programs_meet_witness :
  dh_client_addr (dh s2_link) = Some (str "192.168.77.2/255.255.255.0") /\
  did [flush_args (dh (ready_on at_client sample_client));
       add_args (dh (ready_on at_client sample_client)) (str "192.168.77.2/255.255.255.0")] (dw s1_link) (dw s2_link).
Proof.
  destruct link_bytes as [Hb Hb'], link_starts as (E1 & E2 & E3 & E4), link_goes as (E5 & E6 & E7 & E8), link_frames as (F1 & F2 & F3 & F4),
    link_arrivals as (A1 & A2 & A3 & A4), link_client as (c0 & Hc0 & Hmac).
  assert (DhcpConfig.client sample_client = true) as Hm by by_playing.
  destruct (programs_meet (station at_client) (station at_server) wall_clock station_aton lab_addr lab_ntop map_to_list lab_stack lab_stack
    600 env0 (station_bytes _ Hb) (station_bytes _ Hb') (fun h => Permutation_refl _) lab_stack_ok sample_client sample_server world0 world0
    (ready_on at_client sample_client) s_link (ready_on at_server sample_server) t_link c0 Hm eq_refl eq_refl
    (link_set_up _ _ E1) (link_runs _ _ E2) (link_set_up _ _ E3) (link_runs _ _ E4) sample_usable eq_refl ltac:(lia) Hc0) as (discovers & G1 & Hdis); [by rewrite Hmac; split|].
  destruct (Hdis link_discover (sent_in _ _ _ _ G1 F1) A1) as (ip & t1 & offers & L1 & G2 & Hoff).
  destruct (link_steps _ _ _ _ _ E5 L1) as [_ ->].
  destruct (Hoff link_offer 1 (sent_in _ _ _ _ G2 F2) A2) as (s1 & requests & L2 & G3 & Hreq).
  destruct (link_steps _ _ _ _ _ E6 L2) as [_ ->].
  destruct (Hreq link_request (sent_in _ _ _ _ G3 F3) A3) as (t2 & acks & L3 & G4 & _ & Hack).
  destruct (link_steps _ _ _ _ _ E7 L3) as [_ ->].
  destruct (Hack link_ack 1 (sent_in _ _ _ _ G4 F4) A4) as (stopped & s2 & text & L4 & _ & Hlease).
  destruct (link_steps _ _ _ _ _ E8 L4) as [Hst ->].
  destruct (Hlease Hst) as [Ht Hdid]. rewrite link_lease in Ht. apply (inj Some) in Ht. rewrite <- Ht in Hdid. split; [exact link_lease|exact Hdid].
Defined.
