(* ===== verification/RtspCtrl.v ===== *)
(** * The RTSP connection of [src/rtsp_ctrl.c].

    [owfd_rtsp_ctrl] is [struct owfd_rtsp_ctrl]; the operations take and give
    it back as a value and run in the [io] monad of [Posix.v].  The callback is
    a number ([NULL] is [None]); what the user does in it is a list of calls of
    this interface, chosen from everything that happened so far.  The first
    half of the file is the code, the second its properties. *)

From stdpp Require Import gmultiset.
From S2P Require Import Prelude CLib Ring Posix.

(** ** Data *)

Record owfd_rtsp_ctrl := mkCtrl {
  c_ref : Z;
  c_data : Z;
  c_efd : Z;
  c_fd : Z;
  c_cb : option nat;
  c_out_ring : shl_ring;
  c_connected : bool;
}.

Definition set_conn (fd : Z) (connected : bool) (cb : option nat) (c : owfd_rtsp_ctrl) : owfd_rtsp_ctrl :=
  mkCtrl (c_ref c) (c_data c) (c_efd c) fd cb (c_out_ring c) connected.

Definition set_ring (r : shl_ring) (c : owfd_rtsp_ctrl) : owfd_rtsp_ctrl :=
  mkCtrl (c_ref c) (c_data c) (c_efd c) (c_fd c) (c_cb c) r (c_connected c).

Definition set_ref (n : Z) (c : owfd_rtsp_ctrl) : owfd_rtsp_ctrl :=
  mkCtrl n (c_data c) (c_efd c) (c_fd c) (c_cb c) (c_out_ring c) (c_connected c).

Definition sizeof_ctrl : Z := 72.

(** [&ctrl->fd] as the data of an epoll event. *)
Definition TAG_FD : Z := 1.

(** What the user can do from inside the callback: take a new connection and
    open it (closing it when that fails), connect, send, close, take a
    reference, set the user data. *)
Inductive action :=
| ActAccept (cb : option nat)
| ActOpen (src : option (list Z)) (dst : list Z) (cb : option nat)
| ActSend (bytes : list Z)
| ActClose
| ActRef
| ActSetData (data : Z).

Section rtsp_ctrl.
Context (kernel : list event -> call -> Z * list Z) (user : list event -> list action).

(** ** Life of a connection object *)

Definition owfd_rtsp_ctrl_new : io (Z * option owfd_rtsp_ctrl) :=
  let% ok := on_heap (grant sizeof_ctrl) in
  if negb ok then iret (- ENOMEM, None)
  else
    let% efd := sys_ kernel EpollCreate in
    if efd <? 0 then
      let% _ := on_heap (free_blocks 1) in
      iret (efd, None)
    else iret (0, Some (mkCtrl 1 0 efd (-1) None ring0 false)).

Definition owfd_rtsp_ctrl_ref (c : owfd_rtsp_ctrl) : owfd_rtsp_ctrl :=
  if c_ref c =? 0 then c else set_ref (u64 (c_ref c + 1)) c.

Definition owfd_rtsp_ctrl_is_open (c : owfd_rtsp_ctrl) : bool := 0 <=? c_fd c.

Definition owfd_rtsp_ctrl_is_connected (c : owfd_rtsp_ctrl) : bool :=
  owfd_rtsp_ctrl_is_open c && c_connected c.

Definition owfd_rtsp_ctrl_close (c : owfd_rtsp_ctrl) : io owfd_rtsp_ctrl :=
  if negb (owfd_rtsp_ctrl_is_open c) then iret c
  else
    let% _ := sys_ kernel (Close (c_fd c)) in
    iret (set_ring (shl_ring_flush (c_out_ring c)) (set_conn (-1) false None c)).

(** [None] when the object has been freed. *)
Definition owfd_rtsp_ctrl_unref (c : owfd_rtsp_ctrl) : io (option owfd_rtsp_ctrl) :=
  if c_ref c =? 0 then iret (Some c)
  else
    let c := set_ref (u64 (c_ref c - 1)) c in
    if negb (c_ref c =? 0) then iret (Some c)
    else
      let% c := owfd_rtsp_ctrl_close c in
      let% _ := sys_ kernel (Close (c_efd c)) in
      let% _ := on_heap (shl_ring_clear (c_out_ring c)) in
      let% _ := on_heap (free_blocks 1) in
      iret None.

Definition owfd_rtsp_ctrl_set_data (data : Z) (c : owfd_rtsp_ctrl) : owfd_rtsp_ctrl :=
  mkCtrl (c_ref c) data (c_efd c) (c_fd c) (c_cb c) (c_out_ring c) (c_connected c).

Definition owfd_rtsp_ctrl_get_data (c : owfd_rtsp_ctrl) : Z := c_data c.

Definition owfd_rtsp_ctrl_get_fd (c : owfd_rtsp_ctrl) : Z := c_efd c.

(** ** Opening *)

Definition owfd_rtsp_ctrl_open_tcp_fd (c : owfd_rtsp_ctrl) (fd : Z) (cb : option nat) :
    io (Z * owfd_rtsp_ctrl) :=
  if owfd_rtsp_ctrl_is_open c then iret (- EALREADY, c)
  else if fd <? 0 then iret (- EINVAL, c)
  else
    let% set := sys_ kernel (GetFl fd) in
    if set <? 0 then iret (set, c)
    else
      let% r := sys_ kernel (SetFl fd (Z.lor set O_NONBLOCK)) in
      if r <? 0 then iret (r, c)
      else
        let events := Z.lor (Z.lor (Z.lor EPOLLHUP EPOLLERR) EPOLLIN) EPOLLOUT in
        let% r := sys_ kernel (EpollAdd (c_efd c) fd events TAG_FD) in
        if r <? 0 then iret (r, c)
        else iret (0, set_conn fd false cb c).

(** Closing the socket on the error paths. *)
Definition close_with (fd r : Z) (c : owfd_rtsp_ctrl) : io (Z * owfd_rtsp_ctrl) :=
  let% _ := sys_ kernel (Close fd) in iret (r, c).

Definition owfd_rtsp_ctrl_open_tcp (c : owfd_rtsp_ctrl) (src : option (list Z)) (dst : list Z)
    (cb : option nat) : io (Z * owfd_rtsp_ctrl) :=
  if owfd_rtsp_ctrl_is_open c then iret (- EALREADY, c)
  else
    let% fd := sys_ kernel Socket in
    if fd <? 0 then iret (fd, c)
    else
      let% r := match src with Some a => sys_ kernel (Bind fd a) | None => iret 0 end in
      if r <? 0 then close_with fd r c
      else
        let% r := sys_ kernel (Connect fd dst) in
        if r <? 0 then close_with fd r c
        else
          let% (r, c) := owfd_rtsp_ctrl_open_tcp_fd c fd cb in
          if r <? 0 then close_with fd r c else iret (0, c).

(** ** Sending *)

Definition owfd_rtsp_ctrl_send (c : owfd_rtsp_ctrl) (buf : list Z) : io (Z * owfd_rtsp_ctrl) :=
  if negb (owfd_rtsp_ctrl_is_open c) then iret (- ENODEV, c)
  else
    let empty := fst (shl_ring_peek (c_out_ring c)) =? 0 in
    let% (r, ring) := on_heap (shl_ring_push (c_out_ring c) buf) in
    let c := set_ring ring c in
    if (0 <=? r) && empty then
      let events := Z.lor (Z.lor (Z.lor EPOLLHUP EPOLLERR) EPOLLIN) EPOLLOUT in
      let% r := sys_ kernel (EpollMod (c_efd c) (c_fd c) events TAG_FD) in
      iret (r, c)
    else iret (r, c).

(** [formatted] is what [vasprintf] makes of the format and its arguments;
    [None] is its failure. *)
Definition owfd_rtsp_ctrl_vsendf (c : owfd_rtsp_ctrl) (formatted : option (list Z)) :
    io (Z * owfd_rtsp_ctrl) :=
  match formatted with
  | None => iret (- ENOMEM, c)
  | Some buf =>
    let% ok := on_heap (grant (zlen buf + 1)) in
    if negb ok then iret (- ENOMEM, c)
    else
      let% (r, c) := owfd_rtsp_ctrl_send c buf in
      let% _ := on_heap (free_blocks 1) in
      iret (r, c)
  end.

Definition owfd_rtsp_ctrl_sendf : owfd_rtsp_ctrl -> option (list Z) -> io (Z * owfd_rtsp_ctrl) :=
  owfd_rtsp_ctrl_vsendf.

(** ** The callback *)

Definition act (a : action) (c : owfd_rtsp_ctrl) : io owfd_rtsp_ctrl :=
  match a with
  | ActAccept cb =>
    let% fd := sys_ kernel Accept in
    if fd <? 0 then iret c
    else
      let% (r, c) := owfd_rtsp_ctrl_open_tcp_fd c fd cb in
      if r <? 0 then let% _ := sys_ kernel (Close fd) in iret c else iret c
  | ActOpen src dst cb => let% (_, c) := owfd_rtsp_ctrl_open_tcp c src dst cb in iret c
  | ActSend bytes => let% (_, c) := owfd_rtsp_ctrl_send c bytes in iret c
  | ActClose => owfd_rtsp_ctrl_close c
  | ActRef => iret (owfd_rtsp_ctrl_ref c)
  | ActSetData data => iret (owfd_rtsp_ctrl_set_data data c)
  end.

Fixpoint acts (l : list action) (c : owfd_rtsp_ctrl) : io owfd_rtsp_ctrl :=
  match l with
  | [] => iret c
  | a :: l => let% c := act a c in acts l c
  end.

(** What the user wants to do now. *)
Definition ask_user : io (list action) := fun w => (user (w_trace w), w).

(** [if (ctrl->cb) ctrl->cb (ctrl, buf, len, ctrl->data)] *)
Definition call_cb (c : owfd_rtsp_ctrl) (data : list Z) : io owfd_rtsp_ctrl :=
  match c_cb c with
  | None => iret c
  | Some fn =>
    let% _ := sys_ kernel (Callback fn data) in
    let% l := ask_user in
    acts l c
  end.

(** ** Dispatching *)

Definition connect_done (c : owfd_rtsp_ctrl) : io (Z * owfd_rtsp_ctrl) :=
  if c_connected c then iret (0, c)
  else
    let% c := call_cb (set_conn (c_fd c) true (c_cb c) c) [] in
    iret (if c_connected c then 0 else - EPIPE, c).

Definition sizeof_buf : Z := 4096.

(** One round of [recv_all]: the error to return (0 for none), what [read]
    returned, and the connection after the callback. *)
Definition recv_once (c : owfd_rtsp_ctrl) : io (Z * Z * owfd_rtsp_ctrl) :=
  let% (l, buf) := sys kernel (Read (c_fd c) sizeof_buf) in
  if l <? 0 then iret (if negb (- l =? EAGAIN) && negb (- l =? EINTR) then l else 0, l, c)
  else if 0 <? l then
    let n := if sizeof_buf <? l then sizeof_buf else l in
    let% c := call_cb c (ztake n buf) in
    iret (0, l, c)
  else iret (0, l, c).

Definition recv_end (c : owfd_rtsp_ctrl) : Z := if c_connected c then 0 else - EPIPE.

(** [rounds] counts the rounds left after the current one. *)
Fixpoint recv_rounds (rounds : nat) (c : owfd_rtsp_ctrl) : io (Z * owfd_rtsp_ctrl) :=
  let% (e, l, c) := recv_once c in
  if e <? 0 then iret (e, c)
  else
    match rounds with
    | S rounds =>
      if (0 <? l) && c_connected c then recv_rounds rounds c else iret (recv_end c, c)
    | O => iret (recv_end c, c)
    end.

Definition recv_all (c : owfd_rtsp_ctrl) : io (Z * owfd_rtsp_ctrl) := recv_rounds 127 c.

(** The part of [send_all] after a complete write. *)
Definition send_done (c : owfd_rtsp_ctrl) : io Z :=
  let events := Z.lor (Z.lor EPOLLHUP EPOLLERR) EPOLLIN in
  let% r := sys_ kernel (EpollMod (c_efd c) (c_fd c) events TAG_FD) in
  iret (if r <? 0 then r else 0).

Definition send_all (c : owfd_rtsp_ctrl) : io Z :=
  let '(n, vec) := shl_ring_peek (c_out_ring c) in
  if 0 <? n then
    let sum := snd (default (0, 0) (vec !! 0%nat)) in
    let sum := if 1 <? n then sum + snd (default (0, 0) (vec !! 1%nat)) else sum in
    let bytes := concat (map (iov_bytes (c_out_ring c)) (ztake n vec)) in
    let% l := sys_ kernel (Writev (c_fd c) bytes) in
    if (l <? 0) && negb (- l =? EAGAIN) && negb (- l =? EINTR) then iret l
    else if l <? sum then iret 0
    else send_done c
  else send_done c.

Definition has_event (events e : Z) : bool := negb (Z.land events e =? 0).

(** The parts of [dispatch_ctrl] for [EPOLLOUT] and for [EPOLLHUP] and
    [EPOLLERR]. *)
Definition dispatch_hup (c : owfd_rtsp_ctrl) (events : Z) : io (Z * owfd_rtsp_ctrl) :=
  iret (if has_event events (Z.lor EPOLLHUP EPOLLERR) then - EPIPE else 0, c).

Definition dispatch_out (c : owfd_rtsp_ctrl) (events : Z) : io (Z * owfd_rtsp_ctrl) :=
  if has_event events EPOLLOUT then
    let% (r, c) := connect_done c in
    if r <? 0 then iret (r, c)
    else
      let% r := send_all c in
      if r <? 0 then iret (r, c) else dispatch_hup c events
  else dispatch_hup c events.

Definition dispatch_ctrl (c : owfd_rtsp_ctrl) (events : Z) : io (Z * owfd_rtsp_ctrl) :=
  if has_event events EPOLLIN then
    let% (r, c) := connect_done c in
    if r <? 0 then iret (r, c)
    else
      let% (r, c) := recv_all c in
      if r <? 0 then iret (r, c) else dispatch_out c events
  else dispatch_out c events.

(** [epoll_wait] stores the events and the data pointer of one event. *)
Definition owfd_rtsp_ctrl_dispatch (c : owfd_rtsp_ctrl) (timeout : Z) : io (Z * owfd_rtsp_ctrl) :=
  if negb (owfd_rtsp_ctrl_is_open c) then iret (- ENODEV, c)
  else
    let% (n, ev) := sys kernel (EpollWait (c_efd c) 1 timeout) in
    if n <? 0 then iret (if (- n =? EAGAIN) || (- n =? EINTR) then 0 else n, c)
    else if n =? 0 then iret (0, c)
    else if negb (default 0 (ev !! 1%nat) =? TAG_FD) then iret (0, c)
    else
      let% (r, c) := dispatch_ctrl c (default 0 (ev !! 0%nat)) in
      if r <? 0 then let% c := owfd_rtsp_ctrl_close c in iret (r, c)
      else iret (r, c).

End rtsp_ctrl.

(** ** What a connection object owns *)

(** Its epoll descriptor, its socket when it is open, its own block and the
    block of its queue.  [F] and [L] are the descriptors and the live blocks of
    the rest of the process. *)
Definition held (c : owfd_rtsp_ctrl) : gmultiset Z :=
  {[+ c_efd c +]} ⊎ (if 0 <=? c_fd c then {[+ c_fd c +]} else ∅).

Record owns (c : owfd_rtsp_ctrl) (F : gmultiset Z) (L : Z) (w : world) : Prop := {
  ow_fds : w_fds w = held c ⊎ F;
  ow_live : h_live (w_heap w) = L + 1 + ring_owned (c_out_ring c);
  ow_bad : w_bad w = 0;
  ow_ring : ring_wf (c_out_ring c);
  ow_ref : 0 <= c_ref c < 2 ^ 64;
  ow_closed : c_fd c < 0 -> c_connected c = false /\ c_cb c = None /\ ring_contents (c_out_ring c) = [];
}.

(** Calls that do not touch the descriptor table. *)
Definition plain (k : call) : bool :=
  match k with Close _ => false | _ => negb (creates k) end.

Lemma plain_fds k r fds : plain k = true -> fds_after k r fds = fds.
Proof. by destruct k. Qed.

Lemma plain_bad k fds bad : plain k = true -> bad_after k fds bad = bad.
Proof. by destruct k. Qed.

Lemma owns_plain c F L k r d w : plain k = true -> owns c F L w -> owns c F L (called k r d w).
Proof. intros Hk []. split; cbn; by rewrite ?plain_fds, ?plain_bad by done. Qed.

(** A new descriptor is the process's to close. *)
Lemma owns_create c F L k r d w :
  creates k = true -> owns c F L w ->
  if 0 <=? r then owns c ({[+ r +]} ⊎ F) L (called k r d w) else owns c F L (called k r d w).
Proof.
  intros Hk []. assert (fds_after k r (w_fds w) = if 0 <=? r then {[+ r +]} ⊎ w_fds w else w_fds w) as Hf.
  { destruct k; try done; cbn; by destruct (0 <=? r). }
  assert (bad_after k (w_fds w) (w_bad w) = w_bad w) as Hb by (by destruct k).
  destruct (0 <=? r); split; cbn; rewrite ?Hf, ?Hb; try done. rewrite ow_fds0. apply fds_swap.
Qed.

Lemma owns_close_foreign c F L fd r d w :
  owns c ({[+ fd +]} ⊎ F) L w -> owns c F L (called (Close fd) r d w).
Proof.
  intros []. split; cbn; try done.
  - rewrite ow_fds0. apply fds_close.
  - rewrite decide_True; [done|]. rewrite ow_fds0. apply fds_open.
Qed.

Section proofs.
Context (kernel : list event -> call -> Z * list Z) (user : list event -> list action).

Lemma iwp_plain c F L k (Q : Z -> world -> Prop) w :
  plain k = true -> owns c F L w ->
  (forall r d w', w' = called k r d w -> owns c F L w' -> Q r w') -> iwp (sys_ kernel k) Q w.
Proof. intros Hk Ho HQ. apply iwp_sys_. intros r d _. eapply HQ; [done|by apply owns_plain]. Qed.

(** The object after its socket is gone. *)
Definition shut (c c' : owfd_rtsp_ctrl) : Prop :=
  c_fd c' < 0 /\ c_connected c' = false /\ c_cb c' = None /\ ring_contents (c_out_ring c') = [] /\
  c_efd c' = c_efd c /\ c_ref c' = c_ref c.

Lemma close_ok c F L w :
  owns c F L w -> iwp (owfd_rtsp_ctrl_close kernel c) (fun c' w' => owns c' F L w' /\ shut c c') w.
Proof.
  intros Ho. unfold owfd_rtsp_ctrl_close, owfd_rtsp_ctrl_is_open.
  destruct (Z.leb_spec 0 (c_fd c)) as [Hfd|Hfd]; cbn [negb].
  - apply iwp_bind, iwp_sys_. intros r d _. apply iwp_ret. destruct Ho.
    destruct (ring_flush_ok _ ow_ring0) as (Hwf & Hbuf & Hc). unfold held in ow_fds0.
    rewrite (proj2 (Z.leb_le _ _)), fds_assoc in ow_fds0 by done. split; [split; cbn; try done|by split_and!].
    + rewrite ow_fds0, fds_close.
      change ({[+ c_efd c +]} ⊎ F = ({[+ c_efd c +]} ⊎ ∅) ⊎ F). by rewrite fds_empty.
    + rewrite decide_True; [done|]. rewrite ow_fds0. apply fds_open.
  - apply iwp_ret. split; [done|]. destruct Ho. destruct (ow_closed0 Hfd) as (? & ? & ?). by split_and!.
Qed.

Lemma open_fd_ok c fd cb F L w :
  owns c ({[+ fd +]} ⊎ F) L w ->
  iwp (owfd_rtsp_ctrl_open_tcp_fd kernel c fd cb) (fun x w' =>
    (fst x < 0 /\ snd x = c /\ owns c ({[+ fd +]} ⊎ F) L w') \/
    (fst x = 0 /\ snd x = set_conn fd false cb c /\ c_fd c < 0 /\ 0 <= fd /\ owns (snd x) F L w')) w.
Proof.
  intros Ho. unfold owfd_rtsp_ctrl_open_tcp_fd, owfd_rtsp_ctrl_is_open.
  destruct (Z.leb_spec 0 (c_fd c)); [by apply iwp_ret; left|].
  destruct (Z.ltb_spec fd 0); [by apply iwp_ret; left|].
  apply iwp_bind. eapply iwp_plain; [done|exact Ho|]. intros set d1 w1 _ Ho1.
  destruct (Z.ltb_spec set 0); [by apply iwp_ret; left|].
  apply iwp_bind. eapply iwp_plain; [done|exact Ho1|]. intros r d2 w2 _ Ho2.
  destruct (Z.ltb_spec r 0); [by apply iwp_ret; left|]. cbv zeta.
  apply iwp_bind. eapply iwp_plain; [done|exact Ho2|]. intros r3 d3 w3 _ Ho3.
  destruct (Z.ltb_spec r3 0); [by apply iwp_ret; left|]. apply iwp_ret. right. split_and!; try done.
  destruct Ho3. split; try done; [|cbn; lia].
  rewrite ow_fds0. unfold held; cbn [fst snd set_conn c_efd c_fd].
  rewrite (proj2 (Z.leb_gt 0 (c_fd c))), (proj2 (Z.leb_le 0 fd)), fds_empty by lia. by rewrite fds_assoc.
Qed.

(** What an operation of the user does to the connection: it may stay as it
    was, or lose its connected state. *)
Definition steady (c c' : owfd_rtsp_ctrl) : Prop :=
  c_efd c' = c_efd c /\
  (c_connected c' = true -> c_connected c = true /\ c_fd c' = c_fd c /\ c_cb c' = c_cb c).

Lemma steady_refl c : steady c c.
Proof. done. Qed.

Lemma steady_trans a b c : steady a b -> steady b c -> steady a c.
Proof.
  intros [He1 H1] [He2 H2]. split; [congruence|]. intros Hc.
  destruct (H2 Hc) as (Hb & -> & ->). by apply H1.
Qed.

Lemma shut_steady c c' : shut c c' -> steady c c'.
Proof. intros (_ & Hc & _ & _ & He & _). split; [done|]. by rewrite Hc. Qed.

Lemma conn_steady c fd cb : steady c (set_conn fd false cb c).
Proof. split; [done|]. by cbn. Qed.

Lemma open_tcp_ok c src dst cb F L w :
  owns c F L w ->
  iwp (owfd_rtsp_ctrl_open_tcp kernel c src dst cb)
    (fun x w' => owns (snd x) F L w' /\ steady c (snd x) /\ (fst x < 0 -> snd x = c)) w.
Proof.
  intros Ho. unfold owfd_rtsp_ctrl_open_tcp.
  destruct (owfd_rtsp_ctrl_is_open c); [by apply iwp_ret|].
  apply iwp_bind, iwp_sys_. intros fd d _. pose proof (owns_create c F L Socket fd d w eq_refl Ho) as Hc.
  set (w1 := called Socket fd d w) in *. clearbody w1. clear w d Ho.
  destruct (Z.ltb_spec fd 0) as [Hfd|Hfd].
  { rewrite (proj2 (Z.leb_gt _ _)) in Hc by lia. by apply iwp_ret. }
  rewrite (proj2 (Z.leb_le _ _)) in Hc by done.
  assert (forall r w', owns c ({[+ fd +]} ⊎ F) L w' ->
    iwp (close_with kernel fd r c) (fun x w' => owns (snd x) F L w' /\ steady c (snd x) /\ (fst x < 0 -> snd x = c)) w')
    as Hclose.
  { intros r w' Ho'. apply iwp_bind, iwp_sys_. intros r' d' _. apply iwp_ret.
    split_and!; [by apply owns_close_foreign|done|done]. }
  apply iwp_bind.
  apply (iwp_mono _ (fun _ w' => owns c ({[+ fd +]} ⊎ F) L w')).
  { destruct src as [a|]; [|by apply iwp_ret]. eapply iwp_plain; [done|exact Hc|]. by intros. }
  intros r w2 Ho2. destruct (r <? 0); [by apply Hclose|].
  apply iwp_bind. eapply iwp_plain; [done|exact Ho2|]. intros r3 d3 w3 _ Ho3.
  destruct (r3 <? 0); [by apply Hclose|].
  apply iwp_bind. eapply iwp_mono; [by apply open_fd_ok|].
  intros [r4 c4] w4; cbn [fst snd]. intros [(Hr & -> & Ho4)|(Hr & -> & _ & _ & Ho4)].
  - rewrite (proj2 (Z.ltb_lt _ _)) by done. by apply Hclose.
  - subst r4. apply iwp_ret. cbn [fst snd]. split_and!; [done|apply conn_steady|done].
Qed.

Lemma send_ok c buf F L w :
  owns c F L w -> zlen buf <= PTRDIFF_MAX ->
  iwp (owfd_rtsp_ctrl_send kernel c buf) (fun x w' => owns (snd x) F L w' /\ steady c (snd x)) w.
Proof.
  intros Ho Hb. unfold owfd_rtsp_ctrl_send, owfd_rtsp_ctrl_is_open.
  destruct (Z.leb_spec 0 (c_fd c)) as [Hfd|]; cbn [negb]; [|by apply iwp_ret]. cbv zeta.
  apply iwp_bind, iwp_heap. eapply wp_mono; [apply ring_push_ok; [apply Ho|done]|].
  intros [r ring] h (Hwf & [Hlive _] & _). cbv zeta.
  set (w1 := mkWorld h _ _ _).
  assert (owns (set_ring ring c) F L w1) as Ho1.
  { destruct Ho. split; cbn; try done; lia. }
  assert (steady c (set_ring ring c)) as Hst by done.
  destruct (_ && _); [|by apply iwp_ret].
  apply iwp_bind. eapply iwp_plain; [done|exact Ho1|]. intros r2 d2 w2 _ Ho2. by apply iwp_ret.
Qed.

(** *** The callback *)

Definition action_ok (a : action) : Prop :=
  match a with ActSend bytes => zlen bytes <= PTRDIFF_MAX | _ => True end.

Context (user_ok : forall t, Forall action_ok (user t)).

Lemma act_ok a c F L w :
  action_ok a -> owns c F L w -> iwp (act kernel a c) (fun c' w' => owns c' F L w' /\ steady c c') w.
Proof.
  intros Ha Ho. destruct a as [cb|src dst cb|bytes| | |data]; cbn [act].
  - apply iwp_bind, iwp_sys_. intros fd d _. pose proof (owns_create c F L Accept fd d w eq_refl Ho) as Hc.
    destruct (Z.ltb_spec fd 0).
    { rewrite (proj2 (Z.leb_gt _ _)) in Hc by lia. by apply iwp_ret. }
    rewrite (proj2 (Z.leb_le _ _)) in Hc by done.
    apply iwp_bind. eapply iwp_mono; [by apply open_fd_ok|].
    intros [r c1] w1; cbn [fst snd]. intros [(Hr & -> & Ho1)|(Hr & -> & _ & _ & Ho1)].
    + rewrite (proj2 (Z.ltb_lt _ _)) by done. apply iwp_bind, iwp_sys_. intros r2 d2 _. apply iwp_ret.
      split; [by apply owns_close_foreign|done].
    + subst r. apply iwp_ret. split; [done|apply conn_steady].
  - apply iwp_bind. eapply iwp_mono; [by apply open_tcp_ok|]. intros [r c1] w1 (Ho1 & Hst & _). by apply iwp_ret.
  - apply iwp_bind. eapply iwp_mono; [by apply send_ok|]. intros [r c1] w1 (Ho1 & Hst). by apply iwp_ret.
  - eapply iwp_mono; [by apply close_ok|]. intros c1 w1 [Ho1 Hs]. split; [done|by apply shut_steady].
  - apply iwp_ret. unfold owfd_rtsp_ctrl_ref. destruct (c_ref c =? 0); [done|]. split; [|done].
    destruct Ho. split; try done. by apply Z.mod_pos_bound.
  - apply iwp_ret. split; [by destruct Ho|done].
Qed.

Lemma acts_ok l c F L w :
  Forall action_ok l -> owns c F L w -> iwp (acts kernel l c) (fun c' w' => owns c' F L w' /\ steady c c') w.
Proof.
  intros Hl; revert c w; induction Hl as [|a l Ha Hl IH]; intros c w Ho; cbn [acts]; [by apply iwp_ret|].
  apply iwp_bind. eapply iwp_mono; [by apply act_ok|]. intros c1 w1 [Ho1 Hs1].
  eapply iwp_mono; [by apply IH|]. intros c2 w2 [Ho2 Hs2]. split; [done|by eapply steady_trans].
Qed.

Lemma call_cb_ok c data F L w :
  owns c F L w -> iwp (call_cb kernel user c data) (fun c' w' => owns c' F L w' /\ steady c c') w.
Proof.
  intros Ho. unfold call_cb. destruct (c_cb c) as [fn|]; [|by apply iwp_ret].
  apply iwp_bind. eapply iwp_plain; [done|exact Ho|]. intros r d w1 _ Ho1.
  apply iwp_bind. unfold ask_user, iwp at 1. by apply acts_ok.
Qed.

(** *** Dispatching *)

Lemma connect_done_ok c F L w :
  owns c F L w -> 0 <= c_fd c ->
  iwp (connect_done kernel user c) (fun x w' => owns (snd x) F L w' /\ c_efd (snd x) = c_efd c /\
    (if c_connected (snd x) then fst x = 0 /\ 0 <= c_fd (snd x) else fst x = - EPIPE)) w.
Proof.
  intros Ho Hfd. unfold connect_done. destruct (c_connected c) eqn:Hc.
  { apply iwp_ret. cbn [fst snd]. by rewrite Hc. }
  apply iwp_bind. eapply iwp_mono; [apply call_cb_ok|].
  { destruct Ho. split; try done. cbn. lia. }
  intros c1 w1 [Ho1 [He Hs]]. apply iwp_ret. cbn [fst snd] in *. split_and!; [done|done|].
  destruct (c_connected c1); [|done]. split; [done|]. destruct (Hs eq_refl) as (_ & -> & _). done.
Qed.

Lemma recv_once_ok c F L w :
  owns c F L w ->
  iwp (recv_once kernel user c) (fun x w' => owns (snd x) F L w' /\ steady c (snd x) /\ fst (fst x) <= 0) w.
Proof.
  intros Ho. unfold recv_once. apply iwp_bind, iwp_sys. intros l buf _.
  apply (owns_plain _ _ _ (Read (c_fd c) sizeof_buf) l buf) in Ho; [|done].
  destruct (Z.ltb_spec l 0).
  - apply iwp_ret. cbn [fst snd]. split_and!; [done|done|]. destruct (_ && _); lia.
  - destruct (0 <? l); [|by apply iwp_ret]. cbv zeta. apply iwp_bind.
    eapply iwp_mono; [by apply call_cb_ok|]. intros c1 w1 [Ho1 Hs1]. by apply iwp_ret.
Qed.

Lemma recv_end_spec c : (recv_end c = 0 <-> c_connected c = true) /\ recv_end c <= 0.
Proof. unfold recv_end. by destruct (c_connected c). Qed.

Lemma recv_rounds_ok n c F L w :
  owns c F L w ->
  iwp (recv_rounds kernel user n c) (fun x w' => owns (snd x) F L w' /\ steady c (snd x) /\
    (fst x = 0 -> c_connected (snd x) = true) /\ fst x <= 0) w.
Proof.
  revert c w; induction n as [|n IH]; intros c w Ho; cbn [recv_rounds]; apply iwp_bind;
    (eapply iwp_mono; [by apply recv_once_ok|]); intros [[e l] c1] w1 (Ho1 & Hs1 & He); cbn [fst snd] in *;
    pose proof (recv_end_spec c1) as [Hend ?];
    (destruct (Z.ltb_spec e 0); [apply iwp_ret; cbn [fst snd]; split_and!; [done..|lia|lia]|]).
  - apply iwp_ret. cbn [fst snd]. split_and!; [done..|by apply Hend|done].
  - destruct (_ && _); [|apply iwp_ret; cbn [fst snd]; split_and!; [done..|by apply Hend|done]].
    eapply iwp_mono; [by apply IH|]. intros [r c2] w2 (Ho2 & Hs2 & ?).
    split_and!; [done|by eapply steady_trans|tauto..].
Qed.

Lemma send_done_ok c F L w :
  owns c F L w -> iwp (send_done kernel c) (fun r w' => owns c F L w' /\ r <= 0) w.
Proof.
  intros Ho. unfold send_done. cbv zeta. apply iwp_bind. eapply iwp_plain; [done|exact Ho|].
  intros r d w1 _ Ho1. apply iwp_ret. split; [done|]. destruct (Z.ltb_spec r 0); lia.
Qed.

Lemma send_all_ok c F L w :
  owns c F L w -> iwp (send_all kernel c) (fun r w' => owns c F L w' /\ r <= 0) w.
Proof.
  intros Ho. unfold send_all. destruct (shl_ring_peek (c_out_ring c)) as [n vec].
  destruct (0 <? n); [|by apply send_done_ok]. cbv zeta.
  apply iwp_bind. eapply iwp_plain; [done|exact Ho|]. intros l d w1 _ Ho1.
  destruct (Z.ltb_spec l 0); cbn [andb].
  - destruct (_ && _); [apply iwp_ret; split; [done|lia]|].
    destruct (_ <? _); [by apply iwp_ret|by apply send_done_ok].
  - destruct (_ <? _); [by apply iwp_ret|by apply send_done_ok].
Qed.

(** What a dispatch leaves behind: the connection is open when it succeeds. *)
Definition dispatched (c : owfd_rtsp_ctrl) F L (x : Z * owfd_rtsp_ctrl) (w : world) : Prop :=
  owns (snd x) F L w /\ c_efd (snd x) = c_efd c /\ fst x <= 0 /\ (fst x = 0 -> 0 <= c_fd (snd x)).

Lemma connect_done_then c F L w (k : owfd_rtsp_ctrl -> io (Z * owfd_rtsp_ctrl)) :
  owns c F L w -> 0 <= c_fd c ->
  (forall c1 w1, owns c1 F L w1 -> 0 <= c_fd c1 -> c_efd c1 = c_efd c -> c_connected c1 = true ->
     iwp (k c1) (dispatched c1 F L) w1) ->
  iwp (let% (r, c) := connect_done kernel user c in
       if r <? 0 then iret (r, c) else k c) (dispatched c F L) w.
Proof.
  intros Ho Hfd Hk. apply iwp_bind. eapply iwp_mono; [by apply connect_done_ok|].
  intros [r c1] w1; cbn [fst snd]. intros (Ho1 & He & Hr). destruct (c_connected c1) eqn:Hc.
  - destruct Hr as [-> Hfd1]. cbn. eapply iwp_mono; [by apply Hk|].
    intros x w2 (? & Hx & ?). split_and!; [done|congruence|tauto..].
  - subst r. by apply iwp_ret.
Qed.

Lemma dispatch_hup_ok c events F L w :
  owns c F L w -> 0 <= c_fd c -> iwp (dispatch_hup c events) (dispatched c F L) w.
Proof. intros Ho Hfd. apply iwp_ret. unfold dispatched. by destruct (has_event _ _). Qed.

Lemma dispatch_out_ok c events F L w :
  owns c F L w -> 0 <= c_fd c -> iwp (dispatch_out kernel user c events) (dispatched c F L) w.
Proof.
  intros Ho Hfd. unfold dispatch_out. destruct (has_event _ _); [|by apply dispatch_hup_ok].
  apply (connect_done_then c F L w (fun c =>
    let% r := send_all kernel c in if r <? 0 then iret (r, c) else dispatch_hup c events)); [done|done|].
  intros c1 w1 Ho1 Hfd1 He1 _. apply iwp_bind. eapply iwp_mono; [by apply send_all_ok|].
  intros r w2 [Ho2 Hr]. destruct (Z.ltb_spec r 0); [|by apply dispatch_hup_ok].
  apply iwp_ret. unfold dispatched; cbn [fst snd]. split_and!; [done..|lia].
Qed.

Lemma dispatch_ctrl_ok c events F L w :
  owns c F L w -> 0 <= c_fd c -> iwp (dispatch_ctrl kernel user c events) (dispatched c F L) w.
Proof.
  intros Ho Hfd. unfold dispatch_ctrl. destruct (has_event _ _); [|by apply dispatch_out_ok].
  apply (connect_done_then c F L w (fun c =>
    let% (r, c) := recv_all kernel user c in if r <? 0 then iret (r, c) else dispatch_out kernel user c events)); [done|done|].
  intros c1 w1 Ho1 Hfd1 He1 Hc1. apply iwp_bind. eapply iwp_mono; [by apply recv_rounds_ok|].
  intros [r c2] w2; cbn [fst snd]. intros (Ho2 & [He2 Hs2] & H0 & Hr).
  destruct (Z.ltb_spec r 0); [apply iwp_ret; unfold dispatched; cbn [fst snd]; split_and!; [done..|lia]|].
  assert (0 <= c_fd c2) by (destruct (Hs2 (H0 ltac:(lia))) as (_ & -> & _); done).
  eapply iwp_mono; [by apply dispatch_out_ok|]. intros x w3 (? & ? & ?). split_and!; [done|congruence|tauto..].
Qed.

(** A failure of the connection closes it; a failure of [epoll_wait] does not. *)
Lemma dispatch_ok c timeout F L w :
  owns c F L w ->
  iwp (owfd_rtsp_ctrl_dispatch kernel user c timeout) (fun x w' =>
    owns (snd x) F L w' /\ c_efd (snd x) = c_efd c /\ fst x <= 0 /\
    (fst x < 0 -> snd x = c \/ c_fd (snd x) < 0) /\ (fst x = 0 -> 0 <= c_fd (snd x))) w.
Proof.
  intros Ho. unfold owfd_rtsp_ctrl_dispatch, owfd_rtsp_ctrl_is_open.
  destruct (Z.leb_spec 0 (c_fd c)) as [Hfd|]; cbn [negb].
  2: { apply iwp_ret. cbn [fst snd]. split_and!; [done..|by left|done]. }
  apply iwp_bind, iwp_sys. intros n ev _.
  apply (owns_plain _ _ _ (EpollWait (c_efd c) 1 timeout) n ev) in Ho; [|done].
  destruct (Z.ltb_spec n 0).
  { apply iwp_ret. cbn [fst snd]. destruct (_ || _); split_and!; try done; try lia; by left. }
  destruct (n =? 0); [apply iwp_ret; by cbn [fst snd]; split_and!|].
  destruct (negb _); [apply iwp_ret; by cbn [fst snd]; split_and!|].
  apply iwp_bind. eapply iwp_mono; [by apply dispatch_ctrl_ok|].
  intros [r c1] w1; unfold dispatched; cbn [fst snd]. intros (Ho1 & He & Hr & H0).
  destruct (Z.ltb_spec r 0).
  - apply iwp_bind. eapply iwp_mono; [by apply close_ok|]. intros c2 w2 [Ho2 (Hfd2 & _ & _ & _ & He2 & _)].
    apply iwp_ret. cbn [fst snd]. split_and!; [done|congruence|lia|by right|lia].
  - apply iwp_ret. cbn [fst snd]. split_and!; [done|done|done|lia|done].
Qed.
End proofs.

(** ** What arrives at the callback *)

(** The bytes read from the socket, and the bytes given to callback [fn]. *)
Definition read_bytes (e : event) : list Z :=
  match ev_call e with
  | Read _ _ => if 0 <? ev_ret e then ztake (Z.min (ev_ret e) sizeof_buf) (ev_data e) else []
  | _ => []
  end.

Definition given_bytes (fn : nat) (e : event) : list Z :=
  match ev_call e with
  | Callback f data => if decide (f = fn) then data else []
  | _ => []
  end.

Definition silent (e : event) : Prop :=
  match ev_call e with Read _ _ | Callback _ _ => False | _ => True end.

Definition is_read (e : event) : Prop := match ev_call e with Read _ _ => True | _ => False end.

#[global] Instance is_read_dec e : Decision (is_read e).
Proof. unfold is_read. destruct (ev_call e); apply _. Defined.

Definition reads (t : list event) : list Z := concat (map read_bytes t).

Definition given (fn : nat) (t : list event) : list Z := concat (map (given_bytes fn) t).

Lemma silent_none fn t :
  Forall silent t -> reads t = [] /\ given fn t = [] /\ filter is_read t = [].
Proof.
  unfold reads, given. induction 1 as [|[k r d] t He Ht (IH1 & IH2 & IH3)]; [done|].
  cbn [map concat]. rewrite IH1, IH2, filter_cons, IH3.
  destruct k; cbn in He; try done; cbn; by rewrite decide_False by (unfold is_read; cbn; tauto).
Qed.

(** The trace grows, by events that neither read nor call back. *)
Definition extends (w w' : world) : Prop := exists t, w_trace w' = w_trace w ++ t /\ Forall silent t.

Lemma extends_refl w : extends w w.
Proof. exists []. by rewrite app_nil_r. Qed.

Lemma extends_trans a b c : extends a b -> extends b c -> extends a c.
Proof.
  intros (t & Ht & Hs) (u & Hu & Hs'). exists (t ++ u). rewrite Hu, Ht, app_assoc.
  split; [done|]. by apply Forall_app.
Qed.

Lemma extends_heap h w : extends w (mkWorld h (w_fds w) (w_bad w) (w_trace w)).
Proof. exists []. cbn. by rewrite app_nil_r. Qed.

Definition noisy (k : call) : bool := match k with Read _ _ | Callback _ _ => true | _ => false end.

Lemma extends_called k r d w : noisy k = false -> extends w (called k r d w).
Proof. intros Hk. exists [mkEvent k r d]. split; [done|]. constructor; [by destruct k|constructor]. Qed.

Lemma extends_sys kernel k w (Q : Z -> world -> Prop) :
  noisy k = false -> (forall r w', extends w w' -> Q r w') -> iwp (sys_ kernel k) Q w.
Proof. intros Hk HQ. apply iwp_sys_. intros r d _. by apply HQ, extends_called. Qed.

Lemma extends_on_heap {A} (m : alloc A) w (Q : A -> world -> Prop) :
  (forall a w', extends w w' -> Q a w') -> iwp (on_heap m) Q w.
Proof.
  intros HQ. unfold iwp, on_heap. destruct (m (w_heap w)) as [a h]. apply HQ, extends_heap.
Qed.

(** Runs that only make such calls. *)
Definition quiet_io {A} (m : io A) : Prop := forall w, iwp m (fun _ w' => extends w w') w.

Lemma quiet_ret {A} (a : A) : quiet_io (iret a).
Proof. intros w. apply iwp_ret, extends_refl. Qed.

Lemma quiet_sys kernel k : noisy k = false -> quiet_io (sys_ kernel k).
Proof. intros Hk w. by apply extends_sys. Qed.

Lemma quiet_on_heap {A} (m : alloc A) : quiet_io (on_heap m).
Proof. intros w. by apply extends_on_heap. Qed.

Lemma quiet_bind {A B} (m : io A) (k : A -> io B) :
  quiet_io m -> (forall a, quiet_io (k a)) -> quiet_io (ibind m k).
Proof.
  intros Hm Hk w. apply iwp_bind. eapply iwp_mono; [apply Hm|]. intros a w1 H1.
  eapply iwp_mono; [apply Hk|]. intros b w2 H2. exact (extends_trans _ _ _ H1 H2).
Qed.

Create HintDb quiet.
#[export] Hint Resolve quiet_ret quiet_on_heap : quiet.
#[export] Hint Extern 1 (quiet_io (sys_ _ _)) => apply quiet_sys; reflexivity : quiet.

(** Splits a run into its calls. *)
Ltac quiet :=
  cbv zeta;
  repeat match goal with
  | |- quiet_io (ibind _ _) => apply quiet_bind; [|intros]
  | |- quiet_io (if ?b then _ else _) => destruct b
  | |- quiet_io (match ?x with _ => _ end) => destruct x
  end; eauto with quiet.

Lemma quiet_close kernel c : quiet_io (owfd_rtsp_ctrl_close kernel c).
Proof. unfold owfd_rtsp_ctrl_close. quiet. Qed.

Lemma quiet_open_fd kernel c fd cb : quiet_io (owfd_rtsp_ctrl_open_tcp_fd kernel c fd cb).
Proof. unfold owfd_rtsp_ctrl_open_tcp_fd. quiet. Qed.

#[export] Hint Resolve quiet_close quiet_open_fd : quiet.

Lemma quiet_open kernel c src dst cb : quiet_io (owfd_rtsp_ctrl_open_tcp kernel c src dst cb).
Proof. unfold owfd_rtsp_ctrl_open_tcp, close_with. quiet. Qed.

Lemma quiet_send kernel c buf : quiet_io (owfd_rtsp_ctrl_send kernel c buf).
Proof. unfold owfd_rtsp_ctrl_send. quiet. Qed.

#[export] Hint Resolve quiet_open quiet_send : quiet.

Lemma quiet_act kernel a c : quiet_io (act kernel a c).
Proof. unfold act. quiet. Qed.

#[export] Hint Resolve quiet_act : quiet.

Lemma quiet_acts kernel l c : quiet_io (acts kernel l c).
Proof. revert c; induction l; intros c; cbn [acts]; quiet. Qed.

(** A round hands over what it read. *)
Definition relayed (fn : nat) (n : nat) (w w' : world) : Prop :=
  exists t, w_trace w' = w_trace w ++ t /\ given fn t = reads t /\ (length (filter is_read t) <= n)%nat.

Lemma relayed_trans fn n m a b c : relayed fn n a b -> relayed fn m b c -> relayed fn (n + m) a c.
Proof.
  intros (t & Ht & Hg & Hn) (u & Hu & Hg' & Hm). exists (t ++ u). rewrite Hu, Ht, app_assoc.
  unfold given, reads in *. rewrite !map_app, !concat_app, Hg, Hg', filter_app, length_app.
  split_and!; [done|done|lia].
Qed.

Lemma relayed_weaken fn n m a b : (n <= m)%nat -> relayed fn n a b -> relayed fn m a b.
Proof. intros Hnm (t & ? & ? & ?). exists t. split_and!; [done|done|lia]. Qed.

Section relay.
Context (kernel : list event -> call -> Z * list Z) (user : list event -> list action).
Context (user_ok : forall t, Forall action_ok (user t)).

Lemma recv_once_relayed c fn w :
  c_cb c = Some fn -> iwp (recv_once kernel user c) (fun _ w' => relayed fn 1 w w') w.
Proof.
  intros Hcb. unfold recv_once. apply iwp_bind, iwp_sys. intros l buf _.
  set (e := mkEvent (Read (c_fd c) sizeof_buf) l buf).
  assert (l <= 0 -> relayed fn 1 w (called (Read (c_fd c) sizeof_buf) l buf w)) as Hnone.
  { intros Hl. exists [e]. split; [done|]. unfold given, reads; cbn.
    rewrite (proj2 (Z.ltb_ge _ _)) by done. split; [done|vm_compute; lia]. }
  destruct (Z.ltb_spec l 0); [apply iwp_ret, Hnone; lia|].
  destruct (Z.ltb_spec 0 l) as [Hl|]; [|apply iwp_ret, Hnone; lia].
  cbv zeta. apply iwp_bind. unfold call_cb. rewrite Hcb.
  apply iwp_bind, iwp_sys_. intros r d _. apply iwp_bind. unfold ask_user, iwp at 1.
  eapply iwp_mono; [apply quiet_acts|]. intros c1 w1 (t & Ht & Hs). apply iwp_ret.
  set (n := if sizeof_buf <? l then sizeof_buf else l) in *.
  set (cb := mkEvent (Callback fn (ztake n buf)) r d).
  destruct (silent_none fn t Hs) as (Hr & Hg & Hf). exists ([e; cb] ++ t).
  rewrite Ht. split; [cbn; by rewrite <- !app_assoc|]. unfold given, reads in *.
  rewrite !map_app, !concat_app, Hr, Hg, filter_app, Hf. split.
  - cbn. rewrite decide_True, (proj2 (Z.ltb_lt _ _)), !app_nil_r by done.
    do 2 f_equal. unfold n. destruct (Z.ltb_spec sizeof_buf l); lia.
  - rewrite app_nil_r. cbn. repeat case_decide; cbn; try lia; done.
Qed.

Lemma recv_rounds_relayed n c F L fn w :
  owns c F L w -> c_cb c = Some fn ->
  iwp (recv_rounds kernel user n c) (fun _ w' => relayed fn (S n) w w') w.
Proof.
  revert c w; induction n as [|n IH]; intros c w Ho Hcb; cbn [recv_rounds]; apply iwp_bind.
  - eapply iwp_mono; [by apply recv_once_relayed|]. intros [[e l] c1] w1 Hr.
    destruct (e <? 0); by apply iwp_ret.
  - pose proof (recv_once_ok kernel user user_ok c F L w Ho) as Hok.
    pose proof (recv_once_relayed c fn w Hcb) as Hrel. unfold iwp in Hok, Hrel |- * at 1.
    destruct (recv_once kernel user c w) as [[[e l] c1] w1]. cbn [fst snd] in Hok.
    destruct Hok as (Ho1 & [_ Hs1] & _).
    destruct (e <? 0); [apply iwp_ret; by eapply relayed_weaken; [|exact Hrel]; lia|].
    destruct (0 <? l); cbn [andb]; [|apply iwp_ret; by eapply relayed_weaken; [|exact Hrel]; lia].
    destruct (c_connected c1); [|apply iwp_ret; by eapply relayed_weaken; [|exact Hrel]; lia].
    destruct (Hs1 eq_refl) as (_ & _ & Hcb1).
    eapply iwp_mono; [apply IH; [done|congruence]|]. intros x w2 Hr2.
    apply (relayed_trans fn 1 (S n) w w1 w2 Hrel Hr2).
Qed.
End relay.

(** ** Life of a connection object *)

Section life.
Context (kernel : list event -> call -> Z * list Z) (user : list event -> list action).

(** Everything a program can do with the object while it holds a reference. *)
Inductive ctrl_step : owfd_rtsp_ctrl * world -> owfd_rtsp_ctrl * world -> Prop :=
| step_act a c w c' w' :
    action_ok a -> act kernel a c w = (c', w') -> ctrl_step (c, w) (c', w')
| step_sendf f c w r c' w' :
    owfd_rtsp_ctrl_sendf kernel c f w = ((r, c'), w') -> ctrl_step (c, w) (c', w')
| step_dispatch timeout c w r c' w' :
    owfd_rtsp_ctrl_dispatch kernel user c timeout w = ((r, c'), w') -> ctrl_step (c, w) (c', w')
| step_unref c w c' w' :
    owfd_rtsp_ctrl_unref kernel c w = (Some c', w') -> ctrl_step (c, w) (c', w').

Inductive ctrl_reachable (w0 : world) : owfd_rtsp_ctrl * world -> Prop :=
| ctrl_new c w r :
    owfd_rtsp_ctrl_new kernel w0 = ((r, Some c), w) -> ctrl_reachable w0 (c, w)
| ctrl_next s s' : ctrl_reachable w0 s -> ctrl_step s s' -> ctrl_reachable w0 s'.

Lemma new_spec w0 :
  w_bad w0 = 0 ->
  iwp (owfd_rtsp_ctrl_new kernel) (fun x w =>
    match snd x with
    | Some c => fst x = 0 /\ owns c (w_fds w0) (h_live (w_heap w0)) w
    | None => fst x < 0 /\ w_fds w = w_fds w0 /\ h_live (w_heap w) = h_live (w_heap w0) /\ w_bad w = 0
    end) w0.
Proof.
  intros Hb. unfold owfd_rtsp_ctrl_new. apply iwp_bind, iwp_heap, wp_grant; intros h Hg [Hl _]; cbn [negb].
  2: { apply iwp_ret. cbn. split_and!; [done|done|lia|done]. }
  apply iwp_bind, iwp_sys_. intros efd d _. destruct (Z.ltb_spec efd 0).
  - apply iwp_bind, iwp_heap, wp_free. intros h2 [Hl2 _]. apply iwp_ret. cbn in *.
    rewrite (proj2 (Z.leb_gt _ _)) by done. split_and!; [done|done|lia|done].
  - apply iwp_ret. cbn [fst snd]. split; [done|].
    split; cbn [w_fds w_heap w_bad called c_out_ring c_fd fds_after creates andb].
    + rewrite (proj2 (Z.leb_le _ _)) by done.
      change ({[+ efd +]} ⊎ w_fds w0 = ({[+ efd +]} ⊎ ∅) ⊎ w_fds w0). by rewrite fds_empty.
    + cbn in *. lia.
    + done.
    + split; [done|]. by left.
    + done.
    + done.
Qed.

(** Dropping a reference: the last one gives everything back. *)
Lemma unref_spec c F L w :
  owns c F L w ->
  iwp (owfd_rtsp_ctrl_unref kernel c) (fun x w' =>
    match x with
    | Some c' => owns c' F L w'
    | None => c_ref c = 1 /\ w_fds w' = F /\ h_live (w_heap w') = L /\ w_bad w' = 0
    end) w.
Proof.
  intros Ho. unfold owfd_rtsp_ctrl_unref. destruct (Z.eqb_spec (c_ref c) 0); [by apply iwp_ret|]. cbv zeta.
  pose proof (ow_ref _ _ _ _ Ho) as Hr.
  assert (u64 (c_ref c - 1) = c_ref c - 1) as -> by (apply Z.mod_small; lia).
  assert (owns (set_ref (c_ref c - 1) c) F L w) as Ho' by (destruct Ho; split; try done; cbn; lia).
  change (c_ref (set_ref _ c)) with (c_ref c - 1).
  destruct (Z.eqb_spec (c_ref c - 1) 0); cbn [negb]; [|by apply iwp_ret].
  apply iwp_bind. eapply iwp_mono; [by apply close_ok|].
  intros c1 w1 [[] (Hfd & _ & _ & _ & He & _)]. unfold held in ow_fds0.
  rewrite (proj2 (Z.leb_gt _ _)), fds_empty in ow_fds0 by done.
  apply iwp_bind, iwp_sys_. intros r d _.
  apply iwp_bind, iwp_heap. unfold shl_ring_clear. apply wp_bind, wp_free_buf. intros h [Hl _]. apply wp_ret.
  apply iwp_bind, iwp_heap, wp_free. intros h2 [Hl2 _]. apply iwp_ret.
  cbn [w_fds w_heap w_bad called fds_after bad_after creates andb] in *. rewrite ow_fds0. split_and!.
  - lia.
  - pose proof (fds_close ∅ F (c_efd c1)) as Hc.
    by rewrite !(left_id_L ∅ (⊎)) in Hc.
  - unfold ring_owned in *. destruct (r_buf (c_out_ring c1)); lia.
  - rewrite decide_True; [done|]. pose proof (fds_open ∅ F (c_efd c1)) as Hc.
    by rewrite (left_id_L ∅ (⊎)) in Hc.
Qed.

Lemma sendf_ok c f F L w :
  owns c F L w -> iwp (owfd_rtsp_ctrl_sendf kernel c f) (fun x w' => owns (snd x) F L w' /\ steady c (snd x)) w.
Proof.
  intros Ho. unfold owfd_rtsp_ctrl_sendf, owfd_rtsp_ctrl_vsendf. destruct f as [buf|]; [|by apply iwp_ret].
  apply iwp_bind, iwp_heap, wp_grant; intros h Hg [Hl _]; cbn [negb].
  - assert (owns c F (L + 1) (mkWorld h (w_fds w) (w_bad w) (w_trace w))) as Ho1
      by (destruct Ho; split; cbn; try done; lia).
    apply iwp_bind. eapply iwp_mono; [apply send_ok; [exact Ho1|lia]|]. intros [r c1] w1; cbn [fst snd]. intros [Ho2 Hs].
    apply iwp_bind, iwp_heap, wp_free. intros h2 [Hl2 _]. apply iwp_ret. cbn [fst snd]. split; [|done].
    destruct Ho2. split; cbn; try done; lia.
  - apply iwp_ret. split; [|done]. destruct Ho. split; cbn; try done; lia.
Qed.
End life.

(** ** Properties *)

(** The sum of the lengths of the iovecs, as [send_all] computes it. *)
Lemma send_all_eq kernel c :
  ring_wf (c_out_ring c) -> ring_contents (c_out_ring c) <> [] ->
  send_all kernel c =
    (let% l := sys_ kernel (Writev (c_fd c) (ring_contents (c_out_ring c))) in
     if (l <? 0) && negb (- l =? EAGAIN) && negb (- l =? EINTR) then iret l
     else if l <? zlen (ring_contents (c_out_ring c)) then iret 0
     else send_done kernel c).
Proof.
  intros Hwf Hne. unfold send_all. destruct (shl_ring_peek (c_out_ring c)) as [n vec] eqn:Hp.
  destruct (ring_peek_ok _ n vec Hwf Hp) as (Hc & _). rewrite Hc.
  rewrite <- (ring_length_contents _ Hwf). unfold shl_ring_length. unfold shl_ring_peek in Hp.
  destruct (Z.ltb_spec (r_start (c_out_ring c)) (r_end (c_out_ring c))); [by simplify_eq|].
  destruct (Z.ltb_spec (r_end (c_out_ring c)) (r_start (c_out_ring c))).
  - injection Hp as <- <-. destruct (Z.eqb_spec (r_end (c_out_ring c)) 0) as [->|]; [|done].
    cbn. by rewrite Z.add_0_r.
  - by simplify_eq.
Qed.

Lemma dispatch_writable kernel user c :
  c_connected c = true ->
  dispatch_ctrl kernel user c EPOLLOUT =
    (let% r := send_all kernel c in if r <? 0 then iret (r, c) else iret (0, c)).
Proof.
  intros Hc. unfold dispatch_ctrl, dispatch_out, connect_done.
  change (has_event EPOLLOUT EPOLLIN) with false. change (has_event EPOLLOUT EPOLLOUT) with true.
  cbv iota. rewrite Hc. reflexivity.
Qed.

(** Sending several buffers. *)
Fixpoint sends (kernel : list event -> call -> Z * list Z) (bufs : list (list Z)) (c : owfd_rtsp_ctrl) :
    io owfd_rtsp_ctrl :=
  match bufs with
  | [] => iret c
  | b :: bufs => let% (_, c) := owfd_rtsp_ctrl_send kernel c b in sends kernel bufs c
  end.

(** With something in the queue, sending makes no system call. *)
Lemma send_queued kernel c buf w :
  ring_wf (c_out_ring c) -> 0 <= c_fd c -> ring_contents (c_out_ring c) <> [] -> zlen buf <= PTRDIFF_MAX ->
  iwp (owfd_rtsp_ctrl_send kernel c buf) (fun x w' => w_trace w' = w_trace w /\
    ring_wf (c_out_ring (snd x)) /\ c_fd (snd x) = c_fd c /\
    exists rest, ring_contents (c_out_ring (snd x)) = ring_contents (c_out_ring c) ++ rest) w.
Proof.
  intros Hwf Hfd Hne Hb. unfold owfd_rtsp_ctrl_send, owfd_rtsp_ctrl_is_open.
  rewrite (proj2 (Z.leb_le _ _)) by done. cbn [negb]. cbv zeta.
  assert ((fst (shl_ring_peek (c_out_ring c)) =? 0) = false) as ->.
  { apply Z.eqb_neq. intros H0. destruct (shl_ring_peek (c_out_ring c)) as [n vec] eqn:Hp. cbn in H0. subst n.
    destruct (ring_peek_ok _ _ _ Hwf Hp) as (Hc & _). apply Hne. by rewrite <- Hc, ztake_neg. }
  apply iwp_bind, iwp_heap. eapply wp_mono; [by apply ring_push_ok|].
  intros [e r] h (Hwf1 & _ & Hcase). rewrite andb_false_r. apply iwp_ret. cbn. split_and!; [done..|].
  destruct Hcase as [(_ & -> & _)|(_ & -> & _)]; [by eexists|]. exists []. by rewrite app_nil_r.
Qed.

Lemma sends_queued kernel bufs c w :
  ring_wf (c_out_ring c) -> 0 <= c_fd c -> ring_contents (c_out_ring c) <> [] ->
  Forall (fun b => zlen b <= PTRDIFF_MAX) bufs ->
  iwp (sends kernel bufs c) (fun c' w' => w_trace w' = w_trace w /\
    exists rest, ring_contents (c_out_ring c') = ring_contents (c_out_ring c) ++ rest) w.
Proof.
  intros Hwf Hfd Hne Hb; revert c w Hwf Hfd Hne; induction Hb as [|b bufs Hb Hbs IH]; intros c w Hwf Hfd Hne; cbn [sends].
  { apply iwp_ret. split; [done|]. exists []. by rewrite app_nil_r. }
  apply iwp_bind. eapply iwp_mono; [by apply send_queued|].
  intros [r c1] w1; cbn [fst snd]. intros (Ht1 & Hwf1 & Hfd1 & rest1 & Hc1).
  eapply iwp_mono; [apply IH; [done|lia|]|].
  - rewrite Hc1. by intros [? _]%app_eq_nil.
  - intros c2 w2 (Ht2 & rest2 & Hc2). split; [congruence|]. exists (rest1 ++ rest2).
    by rewrite Hc2, Hc1, app_assoc.
Qed.

Section properties.
Context (kernel : list event -> call -> Z * list Z) (user : list event -> list action).

(** C25. Nothing leaks and nothing is closed twice: at any point of its life,
    whatever the system answers and the callback does, a connection object
    holds exactly its epoll descriptor, its socket when it is open, its own
    block and the block of its queue; when the last reference is dropped the
    process has the descriptors and blocks it had before the object was made,
    and an object that could not be made leaves nothing behind. *)
Theorem rtsp_ctrl_no_leak w0 :
  w_bad w0 = 0 -> (forall t, Forall action_ok (user t)) ->
  (forall c w, ctrl_reachable kernel user w0 (c, w) ->
     owns c (w_fds w0) (h_live (w_heap w0)) w /\
     forall w', owfd_rtsp_ctrl_unref kernel c w = (None, w') ->
       c_ref c = 1 /\ w_fds w' = w_fds w0 /\ h_live (w_heap w') = h_live (w_heap w0) /\ w_bad w' = 0) /\
  (forall r w, owfd_rtsp_ctrl_new kernel w0 = ((r, None), w) ->
     r < 0 /\ w_fds w = w_fds w0 /\ h_live (w_heap w) = h_live (w_heap w0) /\ w_bad w = 0).
Proof.
  intros Hb Hu. pose proof (new_spec kernel w0 Hb) as Hnew. unfold iwp in Hnew. split.
  2: { intros r w Hn. by rewrite Hn in Hnew. }
  assert (forall s, ctrl_reachable kernel user w0 s -> owns (fst s) (w_fds w0) (h_live (w_heap w0)) (snd s)) as Hinv.
  { induction 1 as [c w r Hn|s s' _ IH Hs]; [rewrite Hn in Hnew; apply Hnew|].
    destruct Hs as [a c w c' w' Ha He|f c w r c' w' He|timeout c w r c' w' He|c w c' w' He]; cbn [fst snd] in *.
    - pose proof (act_ok kernel a c _ _ w Ha IH) as H. unfold iwp in H. rewrite He in H. apply H.
    - pose proof (sendf_ok kernel c f _ _ w IH) as H. unfold iwp in H. rewrite He in H. apply H.
    - pose proof (dispatch_ok kernel user Hu c timeout _ _ w IH) as H. unfold iwp in H. rewrite He in H. apply H.
    - pose proof (unref_spec kernel c _ _ w IH) as H. unfold iwp in H. by rewrite He in H. }
  intros c w Hr. pose proof (Hinv (c, w) Hr) as Ho. split; [done|]. intros w' He.
  pose proof (unref_spec kernel c _ _ w Ho) as H. unfold iwp in H. by rewrite He in H.
Qed.

(** C26. A dispatch that succeeds leaves the connection open; one that fails
    either did not get to the connection and changed nothing, or has closed it:
    no socket, no callback, an empty queue. *)
Theorem rtsp_ctrl_dispatch_result c timeout F L w r c' w' :
  owns c F L w -> (forall t, Forall action_ok (user t)) ->
  owfd_rtsp_ctrl_dispatch kernel user c timeout w = ((r, c'), w') ->
  r <= 0 /\ owns c' F L w' /\
  (r = 0 -> owfd_rtsp_ctrl_is_open c' = true) /\
  (r < 0 -> c' = c \/
     (owfd_rtsp_ctrl_is_open c' = false /\ c_connected c' = false /\ c_cb c' = None /\
      ring_contents (c_out_ring c') = [])).
Proof.
  intros Ho Hu He. pose proof (dispatch_ok kernel user Hu c timeout F L w Ho) as H. unfold iwp in H.
  rewrite He in H. cbn [fst snd] in H. destruct H as (Ho' & _ & Hr & Hneg & H0).
  unfold owfd_rtsp_ctrl_is_open. split_and!; [done|done|by intros ?%H0; apply Z.leb_le|].
  intros [->|Hfd]%Hneg; [by left|right]. split; [by apply Z.leb_gt|]. by apply (ow_closed _ _ _ _ Ho').
Qed.

(** C27. Receiving hands the callback exactly the bytes that were read, in
    order, with at most 128 reads, whatever the callback does in between. *)
Theorem rtsp_ctrl_recv_relays c F L fn w r c' w' :
  owns c F L w -> (forall t, Forall action_ok (user t)) -> c_cb c = Some fn ->
  recv_all kernel user c w = ((r, c'), w') ->
  exists t, w_trace w' = w_trace w ++ t /\ given fn t = reads t /\ (length (filter is_read t) <= 128)%nat.
Proof.
  intros Ho Hu Hcb He. pose proof (recv_rounds_relayed kernel user Hu 127 c F L fn w Ho Hcb) as H.
  unfold iwp in H. unfold recv_all in He. by rewrite He in H.
Qed.

(** Data that has been sent stays in the queue, and no later data is ever
    sent: when the kernel takes the whole queue, the dispatch stops waiting for
    [EPOLLOUT] and keeps the queue, and from then on sending makes no system
    call, so that nothing waits for [EPOLLOUT] again. *)
Theorem rtsp_ctrl_send_stalls c timeout bufs w d1 d2 d3 :
  ring_wf (c_out_ring c) -> 0 <= c_fd c -> c_connected c = true -> ring_contents (c_out_ring c) <> [] ->
  Forall (fun b => zlen b <= PTRDIFF_MAX) bufs ->
  let q := ring_contents (c_out_ring c) in
  let wait := EpollWait (c_efd c) 1 timeout in
  let write := Writev (c_fd c) q in
  let arm := EpollMod (c_efd c) (c_fd c) (Z.lor (Z.lor EPOLLHUP EPOLLERR) EPOLLIN) TAG_FD in
  let t1 := w_trace w ++ [mkEvent wait 1 (EPOLLOUT :: TAG_FD :: d1)] in
  let t2 := t1 ++ [mkEvent write (zlen q) d2] in
  kernel (w_trace w) wait = (1, EPOLLOUT :: TAG_FD :: d1) ->
  kernel t1 write = (zlen q, d2) -> kernel t2 arm = (0, d3) ->
  exists w1, owfd_rtsp_ctrl_dispatch kernel user c timeout w = ((0, c), w1) /\
    w_trace w1 = t2 ++ [mkEvent arm 0 d3] /\
    forall c2 w2, sends kernel bufs c w1 = (c2, w2) ->
      w_trace w2 = w_trace w1 /\ exists rest, ring_contents (c_out_ring c2) = q ++ rest.
Proof.
  intros Hwf Hfd Hcon Hne Hb q wait write arm t1 t2 Hk1 Hk2 Hk3.
  set (w1 := called arm 0 d3 (called write (zlen q) d2 (called wait 1 (EPOLLOUT :: TAG_FD :: d1) w))).
  exists w1. split_and!; [|done|].
  - unfold owfd_rtsp_ctrl_dispatch, owfd_rtsp_ctrl_is_open. rewrite (proj2 (Z.leb_le _ _)) by done. cbn [negb].
    unfold ibind at 1. unfold sys. fold wait. rewrite Hk1.
    cbn [Z.ltb Z.compare Z.eqb default lookup list_lookup]. cbn -[dispatch_ctrl].
    rewrite (dispatch_writable kernel user c Hcon), (send_all_eq kernel c Hwf Hne). unfold send_done, ibind, sys_, sys. cbn [w_trace]. fold q write.
    fold t1. rewrite Hk2, (proj2 (Z.ltb_ge _ _)) by apply zlen_nonneg. cbn [andb]. rewrite Z.ltb_irrefl.
    cbn [w_trace]. fold arm t2. rewrite Hk3. cbn. done.
  - intros c2 w2 He. pose proof (sends_queued kernel bufs c w1 Hwf Hfd Hne Hb) as H. unfold iwp in H.
    by rewrite He in H.
Qed.

End properties.

(** ** Witnesses *)

(** A system that grants everything, takes all data, and has two bytes to
    read; the connection is reported with [events]. *)
Definition demo_kernel (events : Z) (t : list event) (k : call) : Z * list Z :=
  match k with
  | EpollCreate => (3, [])
  | Socket | Accept => (4, [])
  | GetFl _ => (2, [])
  | EpollWait _ _ _ => (1, [events; TAG_FD])
  | Writev _ bytes => (zlen bytes, [])
  | Read _ _ => if decide (Exists is_read t) then (- EAGAIN, []) else (2, str "hi")
  | _ => (0, [])
  end.

Definition idle (t : list event) : list action := [].

Lemma idle_ok t : Forall action_ok (idle t).
Proof. constructor. Qed.

Definition world0 : world := mkWorld heap0 ∅ 0 [].

Definition demo_new : owfd_rtsp_ctrl := mkCtrl 1 0 3 (-1) None ring0 false.

(** After taking a connection and dispatching it once. *)
Definition demo_open (events : Z) : owfd_rtsp_ctrl * world :=
  act (demo_kernel events) (ActAccept (Some 7%nat)) demo_new (snd (owfd_rtsp_ctrl_new (demo_kernel events) world0)).

Definition demo_run (events : Z) : Z * owfd_rtsp_ctrl * world :=
  owfd_rtsp_ctrl_dispatch (demo_kernel events) idle (fst (demo_open events)) 0 (snd (demo_open events)).

Lemma demo_open_reachable events :
  ctrl_reachable (demo_kernel events) idle world0 (demo_open events).
Proof.
  eapply ctrl_next; [apply (ctrl_new _ _ _ demo_new (snd (owfd_rtsp_ctrl_new (demo_kernel events) world0)) 0); reflexivity|].
  rewrite (surjective_pairing (demo_open events)).
  apply (step_act _ _ (ActAccept (Some 7%nat))); [done|]. apply surjective_pairing.
Qed.

Lemma rtsp_ctrl_no_leak_witness :
  owfd_rtsp_ctrl_is_open (fst (demo_open EPOLLIN)) = true /\
  owns (fst (demo_open EPOLLIN)) ∅ 0 (snd (demo_open EPOLLIN)).
Proof.
  split; [reflexivity|].
  pose proof (demo_open_reachable EPOLLIN) as Hr. rewrite (surjective_pairing (demo_open EPOLLIN)) in Hr.
  exact (proj1 (proj1 (rtsp_ctrl_no_leak (demo_kernel EPOLLIN) idle world0 eq_refl idle_ok) _ _ Hr)).
Defined.

Lemma demo_owns events : owns (fst (demo_open events)) ∅ 0 (snd (demo_open events)).
Proof.
  split; try done. split; [done|by left].
Qed.

Lemma rtsp_ctrl_dispatch_result_witness :
  fst (fst (demo_run EPOLLHUP)) = - EPIPE /\
  (fst (fst (demo_run EPOLLHUP)) <= 0 /\
   owns (snd (fst (demo_run EPOLLHUP))) ∅ 0 (snd (demo_run EPOLLHUP)) /\
   (fst (fst (demo_run EPOLLHUP)) = 0 -> owfd_rtsp_ctrl_is_open (snd (fst (demo_run EPOLLHUP))) = true) /\
   (fst (fst (demo_run EPOLLHUP)) < 0 -> snd (fst (demo_run EPOLLHUP)) = fst (demo_open EPOLLHUP) \/
     (owfd_rtsp_ctrl_is_open (snd (fst (demo_run EPOLLHUP))) = false /\
      c_connected (snd (fst (demo_run EPOLLHUP))) = false /\
      c_cb (snd (fst (demo_run EPOLLHUP))) = None /\
      ring_contents (c_out_ring (snd (fst (demo_run EPOLLHUP)))) = []))).
Proof.
  split; [reflexivity|].
  assert (owfd_rtsp_ctrl_dispatch (demo_kernel EPOLLHUP) idle (fst (demo_open EPOLLHUP)) 0 (snd (demo_open EPOLLHUP)) =
    (fst (fst (demo_run EPOLLHUP)), snd (fst (demo_run EPOLLHUP)), snd (demo_run EPOLLHUP))) as He
    by (vm_compute; reflexivity).
  exact (rtsp_ctrl_dispatch_result (demo_kernel EPOLLHUP) idle _ 0 ∅ 0 _ _ _ _ (demo_owns EPOLLHUP) idle_ok He).
Defined.

Definition demo_recv : Z * owfd_rtsp_ctrl * world :=
  recv_all (demo_kernel EPOLLIN) idle (fst (demo_open EPOLLIN)) (snd (demo_open EPOLLIN)).

Lemma rtsp_ctrl_recv_relays_witness :
  given 7 (w_trace (snd demo_recv)) = str "hi" /\
  exists t, w_trace (snd demo_recv) = w_trace (snd (demo_open EPOLLIN)) ++ t /\
    given 7 t = reads t /\ (length (filter is_read t) <= 128)%nat.
Proof.
  split; [reflexivity|].
  assert (recv_all (demo_kernel EPOLLIN) idle (fst (demo_open EPOLLIN)) (snd (demo_open EPOLLIN)) =
    (fst (fst demo_recv), snd (fst demo_recv), snd demo_recv)) as He by (vm_compute; reflexivity).
  exact (rtsp_ctrl_recv_relays (demo_kernel EPOLLIN) idle _ ∅ 0 7 _ _ _ _ (demo_owns EPOLLIN) idle_ok eq_refl He).
Defined.

(** A connected object with a queued message. *)
Definition demo_sent : owfd_rtsp_ctrl * world :=
  let '((_, c), w) := owfd_rtsp_ctrl_send (demo_kernel EPOLLOUT)
    (snd (fst (demo_run EPOLLOUT))) (str "OPTIONS") (snd (demo_run EPOLLOUT)) in (c, w).

Lemma demo_sent_ring : ring_wf (c_out_ring (fst demo_sent)).
Proof.
  unfold demo_sent, demo_run.
  pose proof (dispatch_ok (demo_kernel EPOLLOUT) idle idle_ok _ 0 _ _ _ (demo_owns EPOLLOUT)) as H.
  unfold iwp in H. destruct (owfd_rtsp_ctrl_dispatch _ _ _ _ _) as [[r c] w]. cbn [fst snd] in *.
  pose proof (send_ok (demo_kernel EPOLLOUT) c (str "OPTIONS") _ _ w (proj1 H) ltac:(by vm_compute)) as H2.
  unfold iwp in H2. destruct (owfd_rtsp_ctrl_send _ _ _ _) as [[r2 c2] w2]. cbn [fst snd] in *.
  apply H2.
Qed.

Lemma rtsp_ctrl_send_stalls_witness :
  let c := fst demo_sent in
  let q := ring_contents (c_out_ring c) in
  q = str "OPTIONS" /\
  exists w1, owfd_rtsp_ctrl_dispatch (demo_kernel EPOLLOUT) idle c 0 (snd demo_sent) = ((0, c), w1) /\
    w_trace w1 = ((w_trace (snd demo_sent) ++ [mkEvent (EpollWait (c_efd c) 1 0) 1 [EPOLLOUT; TAG_FD]]) ++
      [mkEvent (Writev (c_fd c) q) (zlen q) []]) ++
      [mkEvent (EpollMod (c_efd c) (c_fd c) (Z.lor (Z.lor EPOLLHUP EPOLLERR) EPOLLIN) TAG_FD) 0 []] /\
    forall c2 w2, sends (demo_kernel EPOLLOUT) [str "PLAY"; str "PAUSE"] c w1 = (c2, w2) ->
      w_trace w2 = w_trace w1 /\ exists rest, ring_contents (c_out_ring c2) = q ++ rest.
Proof.
  intros c q. split; [vm_compute; reflexivity|].
  assert (ring_contents (c_out_ring (fst demo_sent)) = str "OPTIONS") as Hq by (vm_compute; reflexivity).
  assert (ring_contents (c_out_ring (fst demo_sent)) <> []) as Hne by (rewrite Hq; discriminate).
  assert (Forall (fun b => zlen b <= PTRDIFF_MAX) [str "PLAY"; str "PAUSE"]) as Hb
    by (repeat constructor; vm_compute; discriminate).
  assert (0 <= c_fd (fst demo_sent)) as Hfd by (vm_compute; discriminate).
  assert (c_connected (fst demo_sent) = true) as Hcon by (vm_compute; reflexivity).
  exact (rtsp_ctrl_send_stalls (demo_kernel EPOLLOUT) idle (fst demo_sent) 0 [str "PLAY"; str "PAUSE"]
    (snd demo_sent) [] [] [] demo_sent_ring Hfd Hcon Hne Hb eq_refl eq_refl eq_refl).
Defined.

(** A callback that closes the connection and opens another one, as a comment
    in [connect_done] foresees, loses both: the new one is closed at once. *)
Definition reopen (t : list event) : list action := [ActClose; ActAccept (Some 8%nat)].

Example reopened_is_closed :
  let '((r, c), w) := owfd_rtsp_ctrl_dispatch (demo_kernel EPOLLOUT) reopen
    (fst (demo_open EPOLLOUT)) 0 (snd (demo_open EPOLLOUT)) in
  r = - EPIPE /\ owfd_rtsp_ctrl_is_open c = false /\
  map ev_call (drop 5 (w_trace w)) =
    [EpollWait 3 1 0; Callback 7 []; Close 4; Accept; GetFl 4; SetFl 4 (Z.lor 2 O_NONBLOCK);
     EpollAdd 3 4 (Z.lor (Z.lor (Z.lor EPOLLHUP EPOLLERR) EPOLLIN) EPOLLOUT) TAG_FD; Close 4].
Proof. vm_compute. repeat split. Qed.

(** A non-blocking [connect] reports that it is in progress; the code takes
    that for a failure and closes the socket. *)
Example connect_in_progress :
  let kernel t k := match k with Connect _ _ => (- EINPROGRESS, []) | _ => demo_kernel 0 t k end in
  let '((r, c), w) := owfd_rtsp_ctrl_open_tcp kernel demo_new None (str "::1") (Some 7%nat) world0 in
  r = - EINPROGRESS /\ owfd_rtsp_ctrl_is_open c = false /\
  map ev_call (w_trace w) = [Socket; Connect 4 (str "::1"); Close 4].
Proof. vm_compute. repeat split. Qed.
