(* ===== verification/WpaCtrl.v ===== *)
(** * The connection to wpa_supplicant of [src/wpa_ctrl.c].

    [owfd_wpa_ctrl] is [struct owfd_wpa_ctrl].  The operations run in the [io]
    monad of [Posix.v]; loops that only end when the system or the clock make
    them end have fuel, and give [None] when it runs out.  The static counter
    of [bind_socket] is an argument and a result.  Signal masks are stored but
    have no effect. *)

From stdpp Require Import gmultiset sets pretty.
From S2P Require Import Prelude CLib Posix.

(** ** Data *)

Definition UNIX_PATH_MAX : Z := 108.
Definition REQ_REPLY_MAX : Z := 512.

Record owfd_wpa_ctrl := mkWpa {
  wc_ref : Z;
  wc_data : Z;
  wc_mask : Z;
  wc_efd : Z;
  wc_tfd : Z;
  wc_req_fd : Z;
  wc_req_name : list Z;
  wc_ev_fd : Z;
  wc_ev_name : list Z;
  wc_cb : option nat;
}.

Definition sizeof_wpa : Z := 384.

(** [&wpa->ev_fd], [&wpa->req_fd] and [&wpa->tfd] as epoll data. *)
Definition TAG_EV : Z := 1.
Definition TAG_REQ : Z := 2.
Definition TAG_TFD : Z := 3.

Definition with_req (fd : Z) (name : list Z) (c : owfd_wpa_ctrl) : owfd_wpa_ctrl :=
  mkWpa (wc_ref c) (wc_data c) (wc_mask c) (wc_efd c) (wc_tfd c) fd name (wc_ev_fd c) (wc_ev_name c) (wc_cb c).

Definition with_ev (fd : Z) (name : list Z) (c : owfd_wpa_ctrl) : owfd_wpa_ctrl :=
  mkWpa (wc_ref c) (wc_data c) (wc_mask c) (wc_efd c) (wc_tfd c) (wc_req_fd c) (wc_req_name c) fd name (wc_cb c).

Definition with_cb (cb : option nat) (c : owfd_wpa_ctrl) : owfd_wpa_ctrl :=
  mkWpa (wc_ref c) (wc_data c) (wc_mask c) (wc_efd c) (wc_tfd c) (wc_req_fd c) (wc_req_name c)
    (wc_ev_fd c) (wc_ev_name c) cb.

Definition with_wref (n : Z) (c : owfd_wpa_ctrl) : owfd_wpa_ctrl :=
  mkWpa n (wc_data c) (wc_mask c) (wc_efd c) (wc_tfd c) (wc_req_fd c) (wc_req_name c)
    (wc_ev_fd c) (wc_ev_name c) (wc_cb c).

(** ** Runs that may not end *)

Definition obind {A B} (m : io (option A)) (k : A -> io (option B)) : io (option B) :=
  let% o := m in match o with Some a => k a | None => iret None end.

Definition olift {A} (m : io A) : io (option A) := let% a := m in iret (Some a).

Definition oret {A} (a : A) : io (option A) := iret (Some a).

Notation "'let?' x ':=' m 'in' k" := (obind m (fun x => k))
  (at level 10, x pattern, m at level 100, k at level 200) : io_scope.

Section wpa_ctrl.
Context (kernel : list event -> call -> Z * list Z).

(** ** Requests *)

Definition again (l : Z) : bool := (- l =? EAGAIN) || (- l =? EINTR).

(** The loop [timed_send] and [timed_recv] share.  [attempt] gives the error
    to return, or 0 and what it has got when it is done.  The result is the
    return value, the rest of the timeout and what was got. *)
Fixpoint timed_loop {A} (fuel : nat) (fd events : Z) (attempt : io (Z * option A)) (start timeout : Z) :
    io (option (Z * Z * option A)) :=
  match fuel with
  | O => iret None
  | S fuel =>
    let '(sec, nsec) := us_to_timespec timeout in
    let recalculate (got : option A) : io (option (Z * Z * option A)) :=
      let% now := get_time_us kernel in
      let t := timeout - (now - start) in
      match got with
      | Some _ => oret (0, if t <=? 0 then 0 else t, got)
      | None =>
        if t <=? 0 then oret (- ETIMEDOUT, 0, None)
        else timed_loop fuel fd events attempt start t
      end in
    let% (n, d) := sys kernel (Ppoll fd (Z.lor (Z.lor POLLHUP POLLERR) events) sec nsec) in
    if (n <? 0) && negb (- n =? EAGAIN) then oret (n, timeout, None)
    else if n =? 0 then oret (- ETIMEDOUT, timeout, None)
    else if 0 <? n then
      if negb (Z.land (default 0 (d !! 0%nat)) (Z.lor POLLHUP POLLERR) =? 0)
      then oret (- EPIPE, timeout, None)
      else
        let% (e, got) := attempt in
        if e <? 0 then oret (e, timeout, None) else recalculate got
    else recalculate None
  end.

Definition try_send (fd : Z) (cmd : list Z) : io (Z * option unit) :=
  let% l := sys_ kernel (Send fd cmd) in
  iret (if (l <? 0) && negb (again l) then (l, None) else (0, if 0 <? l then Some tt else None)).

Definition timed_send (fuel : nat) (fd : Z) (cmd : list Z) (timeout : Z) : io (option (Z * Z * option unit)) :=
  let% start := get_time_us kernel in
  timed_loop fuel fd POLLOUT (try_send fd cmd) start timeout.

(** Events, which begin with '<', are ignored; they come on another socket. *)
Definition try_recv (fd reply_len : Z) : io (Z * option (list Z)) :=
  let% (l, d) := sys kernel (Recv fd reply_len) in
  let reply := ztake l d in
  iret (if (l <? 0) && negb (again l) then (l, None)
        else (0, if (0 <? l) && negb (char_at reply 0 =? chr "<") then Some reply else None)).

Definition timed_recv (fuel : nat) (fd reply_len timeout : Z) : io (option (Z * Z * option (list Z))) :=
  let% start := get_time_us kernel in
  timed_loop fuel fd POLLIN (try_recv fd reply_len) start timeout.

(** The return value and the reply.  A null [t2] is [None]. *)
Definition wpa_request (fuel : nat) (fd : Z) (cmd : list Z) (reply_len : Z) (t2 : option Z) :
    io (option (Z * list Z)) :=
  if fd <? 0 then oret (- ENODEV, [])
  else
    let t := default (-1) t2 in
    let max := 10 * 1000 * 1000 in
    let t := if (t <? 0) || (max <? t) then max else t in
    let? (r, t, _) := timed_send fuel fd cmd t in
    if r <? 0 then oret (r, [])
    else
      let? (r, _, reply) := timed_recv fuel fd reply_len t in
      if r <? 0 then oret (r, []) else oret (0, default [] reply).

(** The reply has to be "OK" and a newline. *)
Definition reply_ok (reply : list Z) : Z :=
  if negb (zlen reply =? 3) || negb (strncmp reply (str "OK" ++ [LF]) 3 =? 0) then - EINVAL else 0.

Definition wpa_request_ok (fuel : nat) (fd : Z) (cmd : list Z) (t : option Z) : io (option Z) :=
  let? (r, reply) := wpa_request fuel fd cmd REQ_REPLY_MAX t in
  oret (if r <? 0 then r else reply_ok reply).

(** ** Sockets *)

(** [snprintf] of the template and the process id; [mktemp] replaces the Xs. *)
Definition CTRL_PATH_TEMPLATE (pid counter : Z) : list Z :=
  str "/tmp/openwfd-wpa-ctrl-" ++ str (pretty pid) ++ str "-" ++ str (pretty counter) ++ str "-XXXXXX".

Context (pid : Z).

(** The second try, after [unlink]. *)
Definition bind_again (fd : Z) (name : list Z) (counter : Z) : io (Z * Z) :=
  let% r := sys_ kernel (Bind fd name) in
  iret (if r <? 0 then (r, counter) else (0, u64 (counter + 1))).

(** The return value, the name and the counter. *)
Definition bind_socket (fd counter : Z) : io (Z * list Z * Z) :=
  let% (_, name) := sys kernel (Mktemp (ztake (UNIX_PATH_MAX - 2) (CTRL_PATH_TEMPLATE pid counter))) in
  let name := ztake (UNIX_PATH_MAX - 1) name in
  let% r := sys_ kernel (Bind fd name) in
  if r <? 0 then
    if - r =? EADDRINUSE then
      let% _ := sys_ kernel (Unlink name) in
      let% (r, counter) := bind_again fd name counter in
      iret (r, name, counter)
    else iret (r, name, counter)
  else iret (0, name, u64 (counter + 1)).

(** [strncpy (dst, src, n)] *)
Definition strncpy (src : list Z) (n : Z) : list Z :=
  let s := ztake n (cstr src) in s ++ replicate (Z.to_nat (n - zlen s)) 0.

Definition connect_socket (fd : Z) (ctrl_path : list Z) : io Z :=
  let len := strlen ctrl_path in
  if strncmp ctrl_path (str "@abstract:") 10 =? 0 then
    if UNIX_PATH_MAX - 2 <? len then iret (- EINVAL)
    else
      let% r := sys_ kernel (Connect fd ([0] ++ strncpy (zdrop 10 ctrl_path) (UNIX_PATH_MAX - 2) ++ [0])) in
      iret (if r <? 0 then r else 0)
  else
    if UNIX_PATH_MAX - 1 <? len then iret (- EINVAL)
    else
      let% r := sys_ kernel (Connect fd (strncpy ctrl_path (UNIX_PATH_MAX - 1) ++ [0])) in
      iret (if r <? 0 then r else 0).

(** The error paths of [open_socket]. *)
Definition err_fd (fd r : Z) (name : list Z) (counter : Z) : io (Z * list Z * Z) :=
  let% _ := sys_ kernel (Close fd) in iret (r, name, counter).

Definition err_name (fd r : Z) (name : list Z) (counter : Z) : io (Z * list Z * Z) :=
  let% _ := sys_ kernel (Unlink name) in err_fd fd r name counter.

(** [name] is the old contents of the array the name is written to. *)
Definition open_socket (c : owfd_wpa_ctrl) (ctrl_path : list Z) (tag : Z) (name : list Z) (counter : Z) :
    io (Z * list Z * Z) :=
  let% fd := sys_ kernel Socket in
  if fd <? 0 then iret (fd, name, counter)
  else
    let% (r, name, counter) := bind_socket fd counter in
    if r <? 0 then err_fd fd r name counter
    else
      let% r := connect_socket fd ctrl_path in
      if r <? 0 then err_name fd r name counter
      else
        let% r := sys_ kernel (EpollAdd (wc_efd c) fd (Z.lor (Z.lor EPOLLHUP EPOLLERR) EPOLLIN) tag) in
        if r <? 0 then err_name fd r name counter else iret (fd, name, counter).

Definition close_socket (c : owfd_wpa_ctrl) (fd : Z) (name : list Z) : io unit :=
  let% _ := sys_ kernel (EpollDel (wc_efd c) fd) in
  let% _ := sys_ kernel (Unlink name) in
  let% _ := sys_ kernel (Close fd) in
  iret tt.

(** The interval is the same as the first expiry. *)
Definition arm_timer (c : owfd_wpa_ctrl) (usecs : Z) : io Z :=
  let '(sec, nsec) := us_to_timespec usecs in
  let% r := sys_ kernel (TimerfdSettime (wc_tfd c) sec nsec) in
  iret (if r <? 0 then r else 0).

Definition disarm_timer (c : owfd_wpa_ctrl) : io unit := let% _ := arm_timer c 0 in iret tt.

(** ** Life of a connection *)

Definition owfd_wpa_ctrl_is_open (c : owfd_wpa_ctrl) : bool := 0 <=? wc_ev_fd c.

Definition owfd_wpa_ctrl_get_fd (c : owfd_wpa_ctrl) : Z := wc_efd c.

Definition owfd_wpa_ctrl_get_data (c : owfd_wpa_ctrl) : Z := wc_data c.

Definition owfd_wpa_ctrl_set_data (data : Z) (c : owfd_wpa_ctrl) : owfd_wpa_ctrl :=
  mkWpa (wc_ref c) data (wc_mask c) (wc_efd c) (wc_tfd c) (wc_req_fd c) (wc_req_name c)
    (wc_ev_fd c) (wc_ev_name c) (wc_cb c).

Definition owfd_wpa_ctrl_set_sigmask (mask : Z) (c : owfd_wpa_ctrl) : owfd_wpa_ctrl :=
  mkWpa (wc_ref c) (wc_data c) mask (wc_efd c) (wc_tfd c) (wc_req_fd c) (wc_req_name c)
    (wc_ev_fd c) (wc_ev_name c) (wc_cb c).

Definition owfd_wpa_ctrl_ref (c : owfd_wpa_ctrl) : owfd_wpa_ctrl :=
  if wc_ref c =? 0 then c else with_wref (u64 (wc_ref c + 1)) c.

(** The error paths of [owfd_wpa_ctrl_new]. *)
Definition err_wpa (r : Z) : io (Z * option owfd_wpa_ctrl) :=
  let% _ := on_heap (free_blocks 1) in iret (r, None).

Definition err_efd (efd r : Z) : io (Z * option owfd_wpa_ctrl) :=
  let% _ := sys_ kernel (Close efd) in err_wpa r.

Definition owfd_wpa_ctrl_new : io (Z * option owfd_wpa_ctrl) :=
  let% ok := on_heap (grant sizeof_wpa) in
  if negb ok then iret (- ENOMEM, None)
  else
    let% efd := sys_ kernel EpollCreate in
    if efd <? 0 then err_wpa efd
    else
      let% tfd := sys_ kernel TimerfdCreate in
      if tfd <? 0 then err_efd efd tfd
      else
        let% r := sys_ kernel (EpollAdd efd tfd (Z.lor (Z.lor EPOLLHUP EPOLLERR) EPOLLIN) TAG_TFD) in
        if r <? 0 then let% _ := sys_ kernel (Close tfd) in err_efd efd r
        else iret (0, Some (mkWpa 1 0 0 efd tfd (-1) [] (-1) [] None)).

(** The error paths of [owfd_wpa_ctrl_open]. *)
Definition err_timer (r : Z) (c : owfd_wpa_ctrl) (counter : Z) : io (option (Z * owfd_wpa_ctrl * Z)) :=
  let% _ := disarm_timer c in oret (r, c, counter).

Definition err_req (r : Z) (c : owfd_wpa_ctrl) (counter : Z) : io (option (Z * owfd_wpa_ctrl * Z)) :=
  let% _ := close_socket c (wc_req_fd c) (wc_req_name c) in
  err_timer r (with_req (-1) (wc_req_name c) c) counter.

Definition err_ev (fuel : nat) (r : Z) (c : owfd_wpa_ctrl) (counter : Z) : io (option (Z * owfd_wpa_ctrl * Z)) :=
  let? _ := wpa_request fuel (wc_ev_fd c) (str "DETACH") REQ_REPLY_MAX (Some 0) in
  let% _ := close_socket c (wc_ev_fd c) (wc_ev_name c) in
  err_req r (with_ev (-1) (wc_ev_name c) c) counter.

Definition owfd_wpa_ctrl_open (fuel : nat) (c : owfd_wpa_ctrl) (ctrl_path : list Z) (cb : option nat) (counter : Z) :
    io (option (Z * owfd_wpa_ctrl * Z)) :=
  if owfd_wpa_ctrl_is_open c then oret (- EALREADY, c, counter)
  else
    let% r := arm_timer c 10000000 in
    if r <? 0 then oret (r, c, counter)
    else
      let% (fd, name, counter) := open_socket c ctrl_path TAG_REQ (wc_req_name c) counter in
      let c := with_req fd name c in
      if fd <? 0 then err_timer fd c counter
      else
        let% (fd, name, counter) := open_socket c ctrl_path TAG_EV (wc_ev_name c) counter in
        let c := with_ev fd name c in
        if fd <? 0 then err_req fd c counter
        else
          let? r := wpa_request_ok fuel (wc_ev_fd c) (str "ATTACH") None in
          if r <? 0 then err_ev fuel r c counter
          else oret (0, with_cb cb c, counter).

Definition owfd_wpa_ctrl_close (fuel : nat) (c : owfd_wpa_ctrl) : io (option owfd_wpa_ctrl) :=
  if negb (owfd_wpa_ctrl_is_open c) then oret c
  else
    let? _ := wpa_request fuel (wc_ev_fd c) (str "DETACH") REQ_REPLY_MAX (Some 0) in
    let% _ := close_socket c (wc_ev_fd c) (wc_ev_name c) in
    let c := with_ev (-1) (wc_ev_name c) c in
    let% _ := close_socket c (wc_req_fd c) (wc_req_name c) in
    let c := with_req (-1) (wc_req_name c) c in
    let% _ := disarm_timer c in
    oret (with_cb None c).

(** [Some None] when the object has been freed. *)
Definition owfd_wpa_ctrl_unref (fuel : nat) (c : owfd_wpa_ctrl) : io (option (option owfd_wpa_ctrl)) :=
  if wc_ref c =? 0 then oret (Some c)
  else
    let c := with_wref (u64 (wc_ref c - 1)) c in
    if negb (wc_ref c =? 0) then oret (Some c)
    else
      let? c := owfd_wpa_ctrl_close fuel c in
      let% _ := sys_ kernel (Close (wc_tfd c)) in
      let% _ := sys_ kernel (Close (wc_efd c)) in
      let% _ := on_heap (free_blocks 1) in
      oret None.

(** ** Requests of the user *)

Definition owfd_wpa_ctrl_request (fuel : nat) (c : owfd_wpa_ctrl) (cmd : list Z) (reply_len timeout : Z) :
    io (option (Z * list Z)) :=
  if negb (owfd_wpa_ctrl_is_open c) then oret (- ENODEV, [])
  else
    let timeout := if timeout <? 0 then -1 else if 1000000 <? timeout then 1000000 else timeout in
    wpa_request fuel (wc_req_fd c) cmd reply_len (Some (timeout * 1000)).

Definition owfd_wpa_ctrl_request_ok (fuel : nat) (c : owfd_wpa_ctrl) (cmd : list Z) (timeout : Z) : io (option Z) :=
  let? (r, reply) := owfd_wpa_ctrl_request fuel c cmd REQ_REPLY_MAX timeout in
  oret (if r <? 0 then r else reply_ok reply).

End wpa_ctrl.

(** ** Dispatching *)

(** What the user does from inside the callback. *)
Inductive wpa_action :=
| WpaClose
| WpaOpen (ctrl_path : list Z) (cb : option nat)
| WpaRequest (cmd : list Z) (reply_len timeout : Z)
| WpaRef
| WpaSetData (data : Z).

(** A connection and the counter of [bind_socket]. *)
Definition wstate : Type := owfd_wpa_ctrl * Z.

(** A callback gets the function the connection has installed and the message.
    Its first argument is fuel. *)
Definition wpa_callback : Type := nat -> nat -> list Z -> wstate -> io (option wstate).

(** Callbacks of a program that only uses this file. *)
Section wpa_user.
Context (kernel : list event -> call -> Z * list Z) (pid : Z) (user : list event -> list wpa_action).

Definition wpa_act (fuel : nat) (a : wpa_action) (s : wstate) : io (option wstate) :=
  let '(c, counter) := s in
  match a with
  | WpaClose => let? c := owfd_wpa_ctrl_close kernel fuel c in oret (c, counter)
  | WpaOpen path cb =>
    let? (_, c, counter) := owfd_wpa_ctrl_open kernel pid fuel c path cb counter in oret (c, counter)
  | WpaRequest cmd len timeout =>
    let? _ := owfd_wpa_ctrl_request kernel fuel c cmd len timeout in oret (c, counter)
  | WpaRef => oret (owfd_wpa_ctrl_ref c, counter)
  | WpaSetData data => oret (owfd_wpa_ctrl_set_data data c, counter)
  end.

Fixpoint wpa_acts (fuel : nat) (l : list wpa_action) (s : wstate) : io (option wstate) :=
  match l with
  | [] => oret s
  | a :: l => let? s := wpa_act fuel a s in wpa_acts fuel l s
  end.

Definition ask_wpa_user : io (list wpa_action) := fun w => (user (w_trace w), w).

Definition user_callback : wpa_callback := fun fuel fn buf s =>
  let% _ := sys_ kernel (Callback fn buf) in
  let% l := ask_wpa_user in
  wpa_acts fuel l s.

End wpa_user.

Section wpa_dispatch.
Context (kernel : list event -> call -> Z * list Z) (callback : wpa_callback).

(** [if (wpa->cb && *buf == '<') wpa->cb (wpa, buf, l, wpa->data)] *)
Definition call_wpa_cb (fuel : nat) (s : wstate) (buf : list Z) : io (option wstate) :=
  match wc_cb (fst s) with
  | Some fn =>
    if char_at buf 0 =? chr "<" then callback fuel fn buf s else oret s
  | None => oret s
  end.

Fixpoint read_ev (fuel : nat) (s : wstate) : io (option (Z * wstate)) :=
  match fuel with
  | O => iret None
  | S fuel' =>
    let% (l, buf) := sys kernel (Recv (wc_ev_fd (fst s)) REQ_REPLY_MAX) in
    if l <? 0 then oret (if again l then 0 else l, s)
    else if 0 <? l then
      let l := if REQ_REPLY_MAX <? l then REQ_REPLY_MAX else l in
      let? s := call_wpa_cb fuel s (ztake l buf) in
      if negb (owfd_wpa_ctrl_is_open (fst s)) then oret (- ENODEV, s) else read_ev fuel' s
    else oret (0, s)
  end.

Definition has_epoll (events e : Z) : bool := negb (Z.land events e =? 0).

Definition dispatch_ev (fuel : nat) (s : wstate) (events : Z) : io (option (Z * wstate)) :=
  let finish (s : wstate) : io (option (Z * wstate)) :=
    oret (if has_epoll events (Z.lor EPOLLHUP EPOLLERR) then - EPIPE else 0, s) in
  if has_epoll events EPOLLIN then
    let? (r, s) := read_ev fuel s in
    if r <? 0 then oret (r, s) else finish s
  else finish s.

Fixpoint read_req (fuel : nat) (c : owfd_wpa_ctrl) : io (option Z) :=
  match fuel with
  | O => iret None
  | S fuel =>
    let% l := sys_ kernel (Recv (wc_req_fd c) REQ_REPLY_MAX) in
    if l <? 0 then oret (if again l then 0 else l)
    else if 0 <? l then read_req fuel c else oret 0
  end.

Definition dispatch_req (fuel : nat) (c : owfd_wpa_ctrl) (events : Z) : io (option Z) :=
  let finish : io (option Z) :=
    oret (if has_epoll events (Z.lor EPOLLHUP EPOLLERR) then - EPIPE else 0) in
  if has_epoll events EPOLLIN then
    let? r := read_req fuel c in
    if r <? 0 then oret r else finish
  else finish.

Definition PONG : list Z := str "PONG" ++ [LF].

Definition read_tfd (fuel : nat) (c : owfd_wpa_ctrl) : io (option Z) :=
  let% l := sys_ kernel (Read (wc_tfd c) 8) in
  if (l <? 0) && negb (again l) then oret l
  else if l =? 8 then
    let? (r, buf) := wpa_request kernel fuel (wc_req_fd c) (str "PING") 10 None in
    if r <? 0 then oret r
    else if negb (zlen buf =? 5) || negb (strncmp buf PONG 5 =? 0) then oret (- ETIMEDOUT)
    else oret 0
  else oret 0.

(** The error path: no more events from the timer. *)
Definition tfd_error (c : owfd_wpa_ctrl) (r : Z) : io (option Z) :=
  let% _ := sys_ kernel (EpollDel (wc_efd c) (wc_tfd c)) in oret r.

Definition dispatch_tfd (fuel : nat) (c : owfd_wpa_ctrl) (events : Z) : io (option Z) :=
  if has_epoll events (Z.lor EPOLLHUP EPOLLERR) then tfd_error c (- EFAULT)
  else if has_epoll events EPOLLIN then
    let? r := read_tfd fuel c in
    if r <? 0 then tfd_error c r else oret 0
  else oret 0.

(** The events of one wait, as [epoll_wait] stores them. *)
Fixpoint epoll_events (d : list Z) : list (Z * Z) :=
  match d with
  | events :: tag :: d => (events, tag) :: epoll_events d
  | _ => []
  end.

Fixpoint dispatch_events (fuel : nat) (evs : list (Z * Z)) (r : Z) (s : wstate) : io (option (Z * wstate)) :=
  match evs with
  | [] => oret (r, s)
  | (events, tag) :: evs =>
    let? (r, s) :=
      if tag =? TAG_EV then dispatch_ev fuel s events
      else if tag =? TAG_REQ then let? r := dispatch_req fuel (fst s) events in oret (r, s)
      else if tag =? TAG_TFD then let? r := dispatch_tfd fuel (fst s) events in oret (r, s)
      else oret (r, s) in
    if r <? 0 then oret (r, s) else dispatch_events fuel evs r s
  end.

Definition owfd_wpa_ctrl_dispatch (fuel : nat) (s : wstate) (timeout : Z) : io (option (Z * wstate)) :=
  if negb (owfd_wpa_ctrl_is_open (fst s)) then oret (- ENODEV, s)
  else
    let% (n, d) := sys kernel (EpollWait (wc_efd (fst s)) 2 timeout) in
    if n <? 0 then oret (if again n then 0 else n, s)
    else dispatch_events fuel (ztake (if 2 <? n then 2 else n) (epoll_events d)) 0 s.

End wpa_dispatch.
