(* ===== verification/WpaCtrlFacts.v ===== *)
(** * Properties of the connection to wpa_supplicant.

    What the operations of [WpaCtrl.v] own (descriptors, socket files, blocks),
    what a request exchanges, and that requests end. *)

From stdpp Require Import gmultiset sets.
From S2P Require Import Prelude CLib Posix WpaCtrl.

(** ** Reasoning about runs that may not end *)

Definition owp {A} (F : Prop) (m : io (option A)) (Q : A -> world -> Prop) (w : world) : Prop :=
  iwp m (fun o w' => match o with Some a => Q a w' | None => F end) w.

Lemma owp_ret {A} F (a : A) Q w : Q a w -> owp F (oret a) Q w.
Proof. done. Qed.

Lemma owp_obind {A B} F (m : io (option A)) (k : A -> io (option B)) Q w :
  owp F m (fun a w' => owp F (k a) Q w') w -> owp F (obind m k) Q w.
Proof.
  intros Hm. unfold owp, obind. apply iwp_bind. eapply iwp_mono; [exact Hm|]. by intros [a|] w'.
Qed.

Lemma owp_ibind {A B} F (m : io A) (k : A -> io (option B)) Q w :
  iwp m (fun a w' => owp F (k a) Q w') w -> owp F (ibind m k) Q w.
Proof. intros Hm. by apply iwp_bind. Qed.

Lemma owp_mono {A} F (m : io (option A)) (Q R : A -> world -> Prop) w :
  owp F m Q w -> (forall a w', Q a w' -> R a w') -> owp F m R w.
Proof. intros Hm HQ. eapply iwp_mono; [exact Hm|]. intros [a|] w'; auto. Qed.

(** ** Socket files *)

Definition file_step (fs : gmultiset (list Z)) (e : event) : gmultiset (list Z) :=
  match ev_call e with
  | Bind _ name => if 0 <=? ev_ret e then {[+ name +]} ⊎ fs else fs
  | Unlink name => fs ∖ {[+ name +]}
  | _ => fs
  end.

(** The files that binding has made and [unlink] has not removed. *)
Definition files (t : list event) : gmultiset (list Z) := fold_left file_step t ∅.

Lemma files_snoc t e : files (t ++ [e]) = file_step (files t) e.
Proof. apply fold_left_app. Qed.

(** The process has descriptors [D], socket files [N] and [L] live blocks, and
    has not closed anything it did not have. *)
Record res (D : gmultiset Z) (N : gmultiset (list Z)) (L : Z) (w : world) : Prop := {
  res_fds : w_fds w = D;
  res_files : files (w_trace w) = N;
  res_live : h_live (w_heap w) = L;
  res_bad : w_bad w = 0;
}.

(** Calls that change neither descriptors nor files. *)
Definition inert (k : call) : bool :=
  match k with
  | EpollCreate | TimerfdCreate | Socket | SocketOn _ _ | Accept | Signalfd _ | InotifyInit
  | Close _ | Bind _ _ | Unlink _ => false
  | _ => true
  end.

Lemma res_inert D N L k r d w : inert k = true -> res D N L w -> res D N L (called k r d w).
Proof.
  intros Hk []. split; cbn [called w_fds w_trace w_heap w_bad]; try done.
  - by destruct k.
  - rewrite files_snoc. by destruct k.
  - by destruct k.
Qed.

Lemma res_create D N L k r d w :
  creates k = true -> res D N L w ->
  if r <? 0 then res D N L (called k r d w) else res ({[+ r +]} ⊎ D) N L (called k r d w).
Proof.
  intros Hk []. assert (files (w_trace w ++ [mkEvent k r d]) = N) as Hf by (rewrite files_snoc; by destruct k).
  assert (bad_after k (w_fds w) (w_bad w) = 0) as Hb by (by destruct k).
  assert (fds_after k r (w_fds w) = if 0 <=? r then {[+ r +]} ⊎ w_fds w else w_fds w) as Hfd
    by (destruct k; try done; cbn; by destruct (0 <=? r)).
  destruct (Z.ltb_spec r 0).
  - rewrite (proj2 (Z.leb_gt _ _)) in Hfd by done. split; try done. cbn [called w_fds]. by rewrite Hfd, res_fds0.
  - rewrite (proj2 (Z.leb_le _ _)) in Hfd by done. split; try done. cbn [called w_fds]. by rewrite Hfd, res_fds0.
Qed.

Lemma pop_absent {A} `{Countable A} (x : A) (X : gmultiset A) : x ∉ X -> X ∖ {[+ x +]} = X.
Proof. multiset_solver. Qed.

Lemma res_close D N L fd r d w : res ({[+ fd +]} ⊎ D) N L w -> res D N L (called (Close fd) r d w).
Proof.
  intros []. split; cbn [called w_fds w_trace w_heap w_bad fds_after bad_after]; try done.
  - rewrite res_fds0. apply pop_head.
  - by rewrite files_snoc.
  - rewrite decide_True; [done|]. rewrite res_fds0. apply in_head.
Qed.

Lemma res_bind D N L fd name r d w :
  res D N L w ->
  if r <? 0 then res D N L (called (Bind fd name) r d w)
  else res D ({[+ name +]} ⊎ N) L (called (Bind fd name) r d w).
Proof.
  intros []. destruct (Z.ltb_spec r 0); split; try done; cbn [called w_trace]; rewrite files_snoc; unfold file_step; cbn [ev_call ev_ret].
  - by rewrite (proj2 (Z.leb_gt _ _)).
  - rewrite (proj2 (Z.leb_le _ _)) by done. by rewrite res_files0.
Qed.

Lemma res_unlink D N L name r d w :
  res D ({[+ name +]} ⊎ N) L w -> res D N L (called (Unlink name) r d w).
Proof.
  intros []. split; try done. cbn [called w_trace]. rewrite files_snoc; cbn [file_step ev_call].
  rewrite res_files0. apply pop_head.
Qed.

Lemma res_unlink_absent D N L name r d w :
  name ∉ N -> res D N L w -> res D N L (called (Unlink name) r d w).
Proof.
  intros Hn []. split; try done. cbn [called w_trace]. rewrite files_snoc; cbn [file_step ev_call].
  rewrite res_files0. by apply pop_absent.
Qed.

Lemma res_heap {A} (m : alloc A) (Q : A -> world -> Prop) D N L w :
  wp m (fun a h => forall w', res D N (h_live h) w' -> Q a w') (w_heap w) -> res D N L w -> iwp (on_heap m) Q w.
Proof.
  intros Hm []. apply iwp_heap. eapply wp_mono; [exact Hm|]. intros a h HQ. apply HQ. by split.
Qed.

(** *** Runs that only make inert calls *)

Definition inert_io {A} (m : io A) : Prop :=
  forall w, iwp m (fun _ w' => forall D N L, res D N L w -> res D N L w') w.

Lemma inert_ret {A} (a : A) : inert_io (iret a).
Proof. intros w. by apply iwp_ret. Qed.

Lemma inert_oret {A} (a : A) : inert_io (oret a).
Proof. apply inert_ret. Qed.

Lemma inert_sys kernel k : inert k = true -> inert_io (sys kernel k).
Proof. intros Hk w. apply iwp_sys. intros r d _ D N L. by apply res_inert. Qed.

Lemma inert_sys_ kernel k : inert k = true -> inert_io (sys_ kernel k).
Proof. intros Hk w. apply iwp_sys_. intros r d _ D N L. by apply res_inert. Qed.

Lemma inert_bind {A B} (m : io A) (k : A -> io B) :
  inert_io m -> (forall a, inert_io (k a)) -> inert_io (ibind m k).
Proof.
  intros Hm Hk w. apply iwp_bind. eapply iwp_mono; [apply Hm|]. intros a w1 H1.
  eapply iwp_mono; [apply Hk|]. cbn beta. intros b w2 H2 D N L Hr. by apply H2, H1.
Qed.

Lemma inert_obind {A B} (m : io (option A)) (k : A -> io (option B)) :
  inert_io m -> (forall a, inert_io (k a)) -> inert_io (obind m k).
Proof. intros Hm Hk. apply inert_bind; [done|]. intros [a|]; [apply Hk|apply inert_ret]. Qed.

Create HintDb inert.
#[export] Hint Resolve inert_ret inert_oret : inert.
#[export] Hint Extern 1 (inert_io (sys_ _ _)) => apply inert_sys_; reflexivity : inert.
#[export] Hint Extern 1 (inert_io (sys _ _)) => apply inert_sys; reflexivity : inert.

Ltac inert :=
  cbv zeta;
  repeat match goal with
  | |- inert_io (ibind _ _) => apply inert_bind; [|intros]
  | |- inert_io (obind _ _) => apply inert_obind; [|intros]
  | |- inert_io (if ?b then _ else _) => destruct b
  | |- inert_io (match ?x with _ => _ end) => destruct x
  end; eauto with inert.

Lemma inert_time kernel : inert_io (get_time_us kernel).
Proof. unfold get_time_us. inert. Qed.

#[export] Hint Resolve inert_time : inert.

Lemma inert_timed {A} kernel fuel fd events (attempt : io (Z * option A)) start timeout :
  inert_io attempt -> inert_io (timed_loop kernel fuel fd events attempt start timeout).
Proof.
  intros Ha. revert timeout; induction fuel as [|fuel IH]; intros timeout; cbn [timed_loop]; inert.
Qed.

Lemma inert_request kernel fuel fd cmd len t : inert_io (wpa_request kernel fuel fd cmd len t).
Proof.
  assert (inert_io (try_send kernel fd cmd)) as Hs by (unfold try_send; inert).
  assert (inert_io (try_recv kernel fd len)) as Hr by (unfold try_recv; inert).
  pose proof (fun st ti => inert_timed kernel fuel fd POLLOUT _ st ti Hs).
  pose proof (fun st ti => inert_timed kernel fuel fd POLLIN _ st ti Hr).
  unfold wpa_request, timed_send, timed_recv. inert.
Qed.

#[export] Hint Resolve inert_request : inert.

Lemma inert_request_ok kernel fuel fd cmd t : inert_io (wpa_request_ok kernel fuel fd cmd t).
Proof. unfold wpa_request_ok. inert. Qed.

Lemma inert_arm kernel c us : inert_io (arm_timer kernel c us).
Proof. unfold arm_timer. inert. Qed.

#[export] Hint Resolve inert_request_ok inert_arm : inert.

Lemma inert_disarm kernel c : inert_io (disarm_timer kernel c).
Proof. unfold disarm_timer. inert. Qed.

Lemma inert_connect kernel fd path : inert_io (connect_socket kernel fd path).
Proof. unfold connect_socket. inert. Qed.

Lemma inert_read_req kernel fuel c : inert_io (read_req kernel fuel c).
Proof. induction fuel; cbn [read_req]; inert. Qed.

#[export] Hint Resolve inert_disarm inert_connect inert_read_req : inert.

Lemma inert_dispatch_req kernel fuel c events : inert_io (dispatch_req kernel fuel c events).
Proof. unfold dispatch_req. inert. Qed.

Lemma inert_dispatch_tfd kernel fuel c events : inert_io (dispatch_tfd kernel fuel c events).
Proof. unfold dispatch_tfd, tfd_error, read_tfd. inert. Qed.

(** ** What a connection owns *)

Definition opt_add {A} `{Countable A} (fd : Z) (x : A) (X : gmultiset A) : gmultiset A :=
  if 0 <=? fd then {[+ x +]} ⊎ X else X.

Lemma opt_none {A} `{Countable A} fd (x : A) X : fd < 0 -> opt_add fd x X = X.
Proof. intros Hf. unfold opt_add. by rewrite (proj2 (Z.leb_gt _ _)). Qed.

Lemma opt_some {A} `{Countable A} fd (x : A) X : 0 <= fd -> opt_add fd x X = {[+ x +]} ⊎ X.
Proof. intros Hf. unfold opt_add. by rewrite (proj2 (Z.leb_le _ _)). Qed.

(** The two descriptors it always has, on top of those of the process. *)
Definition base (c : owfd_wpa_ctrl) (F : gmultiset Z) : gmultiset Z :=
  {[+ wc_tfd c +]} ⊎ ({[+ wc_efd c +]} ⊎ F).

Definition wfds (c : owfd_wpa_ctrl) (F : gmultiset Z) : gmultiset Z :=
  opt_add (wc_ev_fd c) (wc_ev_fd c) (opt_add (wc_req_fd c) (wc_req_fd c) (base c F)).

Definition wfiles (c : owfd_wpa_ctrl) (G : gmultiset (list Z)) : gmultiset (list Z) :=
  opt_add (wc_ev_fd c) (wc_ev_name c) (opt_add (wc_req_fd c) (wc_req_name c) G).

(** Both sockets are open or none is. *)
Record wowns (c : owfd_wpa_ctrl) F G L (w : world) : Prop := {
  wo_res : res (wfds c F) (wfiles c G) (L + 1) w;
  wo_sync : wc_ev_fd c < 0 <-> wc_req_fd c < 0;
  wo_ref : 0 <= wc_ref c < 2 ^ 64;
}.

Definition same_base (c c' : owfd_wpa_ctrl) : Prop :=
  wc_efd c' = wc_efd c /\ wc_tfd c' = wc_tfd c /\ wc_ref c' = wc_ref c.

Section resources.
Context (kernel : list event -> call -> Z * list Z) (pid : Z).

(** [mktemp] gives a name that is not in use. *)
Context (mktemp_fresh : forall t template r name,
  kernel t (Mktemp template) = (r, name) -> ztake (UNIX_PATH_MAX - 1) name ∉ files t).

Lemma res_inert_io {A} F (m : io (option A)) D N L w :
  inert_io m -> res D N L w -> owp True m (fun _ w' => res D N L w') w \/ F.
Proof.
  intros Hm Hr. left. unfold owp. eapply iwp_mono; [apply Hm|]. intros [a|] w' H; [by apply H|done].
Qed.

Lemma owp_inert {A} (m : io (option A)) D N L w (Q : A -> world -> Prop) :
  inert_io m -> res D N L w -> (forall a w', res D N L w' -> Q a w') -> owp True m Q w.
Proof.
  intros Hm Hr HQ. unfold owp. eapply iwp_mono; [apply Hm|]. intros [a|] w' H; [by apply HQ, H|done].
Qed.

Lemma iwp_inert {A} (m : io A) D N L w (Q : A -> world -> Prop) :
  inert_io m -> res D N L w -> (forall a w', res D N L w' -> Q a w') -> iwp m Q w.
Proof. intros Hm Hr HQ. eapply iwp_mono; [apply Hm|]. intros a w' H. by apply HQ, H. Qed.

Lemma bind_socket_spec fd counter D N L w :
  res D N L w ->
  iwp (bind_socket kernel pid fd counter) (fun x w' => let '(r, name, _) := x in
    if r <? 0 then res D N L w' else res D ({[+ name +]} ⊎ N) L w') w.
Proof.
  intros Hr. unfold bind_socket. apply iwp_bind, iwp_sys. intros r0 d Hk.
  set (name := ztake (UNIX_PATH_MAX - 1) d). set (tmpl := ztake _ _) in *.
  assert (name ∉ N) as Hfresh by (rewrite <- (res_files _ _ _ _ Hr); by eapply mktemp_fresh).
  apply (res_inert _ _ _ (Mktemp tmpl) r0 d) in Hr; [|done]. cbv zeta.
  apply iwp_bind, iwp_sys_. intros r d1 _. pose proof (res_bind _ _ _ fd name r d1 _ Hr) as Hb.
  destruct (r <? 0) eqn:Hr0; [|by apply iwp_ret].
  destruct (_ =? _); [|apply iwp_ret; by rewrite Hr0].
  apply iwp_bind, iwp_sys_. intros r2 d2 _. apply (res_unlink_absent _ _ _ name r2 d2) in Hb; [|done].
  apply iwp_bind. unfold bind_again. apply iwp_bind, iwp_sys_. intros r3 d3 _.
  pose proof (res_bind _ _ _ fd name r3 d3 _ Hb) as Hb3.
  destruct (r3 <? 0) eqn:Hr3; apply iwp_ret, iwp_ret; by rewrite ?Hr3.
Qed.

Lemma err_fd_spec fd r name counter D N L w :
  r < 0 -> res ({[+ fd +]} ⊎ D) N L w ->
  iwp (err_fd kernel fd r name counter) (fun x w' => fst (fst x) = r /\ res D N L w') w.
Proof. intros Hr Hs. apply iwp_bind, iwp_sys_. intros r' d _. apply iwp_ret. split; [done|by apply res_close]. Qed.

Lemma err_name_spec fd r name counter D N L w :
  r < 0 -> res ({[+ fd +]} ⊎ D) ({[+ name +]} ⊎ N) L w ->
  iwp (err_name kernel fd r name counter) (fun x w' => fst (fst x) = r /\ res D N L w') w.
Proof.
  intros Hr Hs. apply iwp_bind, iwp_sys_. intros r' d _. apply err_fd_spec; [done|by apply res_unlink].
Qed.

Lemma open_socket_spec c path tag name counter D N L w :
  res D N L w ->
  iwp (open_socket kernel pid c path tag name counter) (fun x w' => let '(fd, name, _) := x in
    res (opt_add fd fd D) (opt_add fd name N) L w') w.
Proof.
  intros Hr. unfold open_socket. apply iwp_bind, iwp_sys_. intros fd d _.
  pose proof (res_create _ _ _ Socket fd d _ eq_refl Hr) as Hs.
  destruct (Z.ltb_spec fd 0) as [Hfd|Hfd]; [apply iwp_ret; by rewrite !opt_none|].
  set (Q := fun (x : Z * list Z * Z) w' => let '(fd, name, _) := x in
    res (opt_add fd fd D) (opt_add fd name N) L w').
  assert (forall r (m : io (Z * list Z * Z)) w1, r < 0 ->
    iwp m (fun x w' => fst (fst x) = r /\ res D N L w') w1 -> iwp m Q w1) as Herr.
  { intros r m w1 Hneg Hm. eapply iwp_mono; [exact Hm|]. intros [[fd' n'] k'] w'. cbn [fst].
    intros [-> Hres]. unfold Q. by rewrite !opt_none. }
  apply iwp_bind. eapply iwp_mono; [by apply bind_socket_spec|]. intros [[r name'] counter'] w1 Hb.
  destruct (Z.ltb_spec r 0); [by apply (Herr r), err_fd_spec|].
  apply iwp_bind. eapply iwp_inert; [apply inert_connect|exact Hb|]. intros r2 w2 Hr2.
  destruct (Z.ltb_spec r2 0); [by apply (Herr r2), err_name_spec|].
  apply iwp_bind. eapply iwp_inert; [by apply inert_sys_|exact Hr2|]. intros r3 w3 Hr3.
  destruct (Z.ltb_spec r3 0); [by apply (Herr r3), err_name_spec|].
  apply iwp_ret. unfold Q. by rewrite !opt_some.
Qed.

Lemma close_socket_spec c fd name D N L w :
  res ({[+ fd +]} ⊎ D) ({[+ name +]} ⊎ N) L w ->
  iwp (close_socket kernel c fd name) (fun _ w' => res D N L w') w.
Proof.
  intros Hr. unfold close_socket. apply iwp_bind, iwp_sys_. intros r1 d1 _.
  apply (res_inert _ _ _ (EpollDel (wc_efd c) fd) r1 d1) in Hr; [|done].
  apply iwp_bind, iwp_sys_. intros r2 d2 _. apply (res_unlink _ _ _ _ r2 d2) in Hr.
  apply iwp_bind, iwp_sys_. intros r3 d3 _. apply iwp_ret. by apply res_close.
Qed.

(** A connection without sockets. *)
Lemma wowns_shut c F G L w :
  wc_ev_fd c < 0 -> wc_req_fd c < 0 -> 0 <= wc_ref c < 2 ^ 64 ->
  res (base c F) G (L + 1) w -> wowns c F G L w.
Proof. intros He Hr Href Hs. split; [|lia|done]. unfold wfds, wfiles. by rewrite !opt_none. Qed.

Lemma wowns_res c F G L w : wowns c F G L w -> wc_ev_fd c < 0 -> res (base c F) G (L + 1) w.
Proof. intros [Hr Hs _] He. unfold wfds, wfiles in Hr. rewrite !opt_none in Hr by (done || tauto). done. Qed.

Lemma err_req_spec r c counter F G L w :
  wc_ev_fd c < 0 -> 0 <= wc_req_fd c -> 0 <= wc_ref c < 2 ^ 64 ->
  res ({[+ wc_req_fd c +]} ⊎ base c F) ({[+ wc_req_name c +]} ⊎ G) (L + 1) w ->
  owp True (err_req kernel r c counter) (fun x w' => let '(r', c', _) := x in
    r' = r /\ wowns c' F G L w' /\ same_base c c' /\ wc_ev_fd c' < 0) w.
Proof.
  intros He Hr Href Hs. unfold err_req. apply owp_ibind. eapply iwp_mono; [by apply close_socket_spec|].
  intros u1 w1 H1. cbn beta in H1. unfold err_timer. apply owp_ibind.
  eapply iwp_inert; [apply inert_disarm|exact H1|].
  intros u2 w2 H2. apply owp_ret. split_and!; [done|by apply wowns_shut|done|done].
Qed.

(** What a failing or succeeding [owfd_wpa_ctrl_open] leaves. *)
Definition opened c F G L (x : Z * owfd_wpa_ctrl * Z) (w : world) : Prop :=
  let '(r, c', _) := x in
  wowns c' F G L w /\ same_base c c' /\
  (r < 0 -> c' = c \/ wc_ev_fd c' < 0) /\ (0 <= r -> r = 0 /\ 0 <= wc_ev_fd c').

Lemma open_fails r c c2 counter F G L w :
  r < 0 -> wc_ev_fd c2 < 0 -> 0 <= wc_req_fd c2 -> same_base c c2 -> 0 <= wc_ref c < 2 ^ 64 ->
  res ({[+ wc_req_fd c2 +]} ⊎ base c F) ({[+ wc_req_name c2 +]} ⊎ G) (L + 1) w ->
  owp True (err_req kernel r c2 counter) (opened c F G L) w.
Proof.
  intros Hr He Hq (H1 & H2 & H3) Href Hs.
  assert (base c2 F = base c F) as Hb by (unfold base; by rewrite H1, H2).
  eapply owp_mono; [apply (err_req_spec r c2 counter F G L); [done|done|by rewrite H3|by rewrite Hb]|].
  intros [[r' c'] k'] w' (-> & Hw & (H1' & H2' & H3') & He').
  split_and!; [done|split_and!; congruence|by right|lia].
Qed.

Lemma open_spec fuel c path cb counter F G L w :
  wowns c F G L w ->
  owp True (owfd_wpa_ctrl_open kernel pid fuel c path cb counter) (opened c F G L) w.
Proof.
  intros Ho. unfold owfd_wpa_ctrl_open, owfd_wpa_ctrl_is_open. pose proof (wo_ref _ _ _ _ _ Ho) as Href.
  destruct (Z.leb_spec 0 (wc_ev_fd c)) as [|Hev]; [apply owp_ret; split_and!; [done..|by left|done]|].
  pose proof (wowns_res _ _ _ _ _ Ho Hev) as Hr.
  assert (wc_req_fd c < 0) as Hreq by (by apply (wo_sync _ _ _ _ _ Ho)).
  apply owp_ibind. eapply iwp_inert; [apply inert_arm|exact Hr|]. intros r1 w1 H1.
  destruct (Z.ltb_spec r1 0); [apply owp_ret; split_and!; [by apply wowns_shut|done|by left|lia]|].
  apply owp_ibind. eapply iwp_mono; [by apply open_socket_spec|]. intros [[fd name] counter1] w2 H2.
  destruct (Z.ltb_spec fd 0) as [Hfd|Hfd].
  { rewrite !opt_none in H2 by done. apply owp_ibind. eapply iwp_inert; [apply inert_disarm|exact H2|].
    intros u3 w3 H3. apply owp_ret. split_and!; [by apply wowns_shut|done|by right|lia]. }
  rewrite !opt_some in H2 by done. apply owp_ibind. eapply iwp_mono; [by apply open_socket_spec|].
  intros [[fd2 name2] counter2] w3 H3. cbv zeta.
  destruct (Z.ltb_spec fd2 0) as [Hfd2|Hfd2].
  { rewrite !opt_none in H3 by done. by apply open_fails. }
  rewrite !opt_some in H3 by done.
  apply owp_obind. eapply owp_inert; [apply inert_request_ok|exact H3|]. intros r4 w4 H4.
  destruct (Z.ltb_spec r4 0) as [Hr4|Hr4].
  - unfold err_ev. apply owp_obind. eapply owp_inert; [apply inert_request|exact H4|]. intros u5 w5 H5.
    apply owp_ibind. eapply iwp_mono; [by apply close_socket_spec|]. intros u6 w6 H6. by apply open_fails.
  - apply owp_ret. split_and!; [|done|lia|done]. split; [|cbn; lia|done].
    unfold wfds, wfiles. cbn [with_cb with_ev with_req wc_ev_fd wc_req_fd wc_ev_name wc_req_name].
    by rewrite !opt_some.
Qed.

Lemma close_spec fuel c F G L w :
  wowns c F G L w ->
  owp True (owfd_wpa_ctrl_close kernel fuel c) (fun c' w' =>
    wowns c' F G L w' /\ same_base c c' /\ wc_ev_fd c' < 0) w.
Proof.
  intros Ho. unfold owfd_wpa_ctrl_close, owfd_wpa_ctrl_is_open.
  destruct (Z.leb_spec 0 (wc_ev_fd c)) as [Hev|]; cbn [negb]; [|by apply owp_ret].
  pose proof Ho as [Hr Hsync Href]. assert (0 <= wc_req_fd c) as Hreq by lia.
  unfold wfds, wfiles in Hr. rewrite !opt_some in Hr by done.
  apply owp_obind. eapply owp_inert; [apply inert_request|exact Hr|]. intros u1 w1 H1.
  apply owp_ibind. eapply iwp_mono; [by apply close_socket_spec|]. intros u2 w2 H2. cbv zeta.
  apply owp_ibind. eapply iwp_mono; [exact (close_socket_spec _ _ _ _ _ _ _ H2)|]. intros u3 w3 H3. cbn beta in H3.
  apply owp_ibind. eapply iwp_inert; [apply inert_disarm|exact H3|]. intros u4 w4 H4.
  apply owp_ret. split_and!; [by apply wowns_shut|done|done].
Qed.

Lemma wpa_new_spec F G L w :
  res F G L w ->
  iwp (owfd_wpa_ctrl_new kernel) (fun x w' =>
    match snd x with
    | Some c => fst x = 0 /\ wc_ref c = 1 /\ wowns c F G L w'
    | None => fst x < 0 /\ res F G L w'
    end) w.
Proof.
  intros Hr. pose proof (res_live _ _ _ _ Hr) as Hlive.
  assert (forall D r w', r < 0 -> res D G (L + 1) w' ->
    iwp (err_wpa r) (fun x w' => fst x = r /\ snd x = None /\ res D G L w') w') as Hwpa.
  { intros D r w' Hneg Hs. unfold err_wpa. apply iwp_bind. eapply res_heap; [|exact Hs].
    apply wp_free. intros h [Hl _] w2 Hs2. apply iwp_ret. split_and!; [done|done|].
    rewrite (res_live _ _ _ _ Hs) in Hl. by replace L with (h_live h) by lia. }
  assert (forall D efd r w', r < 0 -> res ({[+ efd +]} ⊎ D) G (L + 1) w' ->
    iwp (err_efd kernel efd r) (fun x w' => fst x = r /\ snd x = None /\ res D G L w') w') as Hefd.
  { intros D efd r w' Hneg Hs. unfold err_efd. apply iwp_bind, iwp_sys_. intros r' d _.
    by apply Hwpa, res_close. }
  assert (forall r (m : io (Z * option owfd_wpa_ctrl)) w', r < 0 ->
    iwp m (fun x w' => fst x = r /\ snd x = None /\ res F G L w') w' ->
    iwp m (fun x w' => match snd x with
      | Some c => fst x = 0 /\ wc_ref c = 1 /\ wowns c F G L w' | None => fst x < 0 /\ res F G L w' end) w') as Hfail.
  { intros r m w' Hneg Hm. eapply iwp_mono; [exact Hm|]. intros [r' o] w2; cbn [fst snd]. by intros (-> & -> & ?). }
  unfold owfd_wpa_ctrl_new. apply iwp_bind. eapply res_heap; [|exact Hr].
  apply wp_grant; intros h Hg [Hl _] w1 Hs1; cbn [negb].
  2: { apply iwp_ret. cbn. split; [done|]. rewrite Hlive in Hl. by replace L with (h_live h) by lia. }
  rewrite Hlive in Hl. rewrite Hl in Hs1.
  apply iwp_bind, iwp_sys_. intros efd d1 _. pose proof (res_create _ _ _ EpollCreate efd d1 _ eq_refl Hs1) as Hs2.
  destruct (Z.ltb_spec efd 0); [by apply (Hfail efd), Hwpa|].
  apply iwp_bind, iwp_sys_. intros tfd d2 _. pose proof (res_create _ _ _ TimerfdCreate tfd d2 _ eq_refl Hs2) as Hs3.
  destruct (Z.ltb_spec tfd 0); [by apply (Hfail tfd), Hefd|]. cbv zeta.
  apply iwp_bind. eapply iwp_inert; [by apply inert_sys_|exact Hs3|]. intros r w4 Hs4.
  destruct (Z.ltb_spec r 0).
  - apply iwp_bind, iwp_sys_. intros r5 d5 _. by apply (Hfail r), Hefd, res_close.
  - apply iwp_ret. split_and!; [done|done|]. by apply wowns_shut.
Qed.

(** Dropping a reference: the last one gives everything back. *)
Lemma wpa_unref_spec fuel c F G L w :
  wowns c F G L w ->
  owp True (owfd_wpa_ctrl_unref kernel fuel c) (fun x w' =>
    match x with
    | Some c' => wc_ref c <> 1 /\ wowns c' F G L w'
    | None => wc_ref c = 1 /\ res F G L w'
    end) w.
Proof.
  intros Ho. unfold owfd_wpa_ctrl_unref. destruct (Z.eqb_spec (wc_ref c) 0); [by apply owp_ret; split; [lia|]|]. cbv zeta.
  pose proof (wo_ref _ _ _ _ _ Ho) as Href.
  assert (u64 (wc_ref c - 1) = wc_ref c - 1) as -> by (apply Z.mod_small; lia).
  change (wc_ref (with_wref _ c)) with (wc_ref c - 1).
  assert (wowns (with_wref (wc_ref c - 1) c) F G L w) as Ho' by (destruct Ho; split; try done; cbn; lia).
  destruct (Z.eqb_spec (wc_ref c - 1) 0); cbn [negb]; [|by apply owp_ret; split; [lia|]].
  apply owp_obind. eapply owp_mono; [by apply close_spec|]. intros c1 w1 (Ho1 & _ & He1).
  pose proof (wowns_res _ _ _ _ _ Ho1 He1) as Hr. unfold base in Hr.
  apply owp_ibind, iwp_sys_. intros r2 d2 _. apply (res_close _ _ _ _ r2 d2) in Hr.
  apply owp_ibind, iwp_sys_. intros r3 d3 _. apply (res_close _ _ _ _ r3 d3) in Hr.
  apply owp_ibind. eapply res_heap; [|exact Hr]. apply wp_free. intros h [Hl _] w4 Hs4.
  apply owp_ret. split; [lia|]. rewrite (res_live _ _ _ _ Hr) in Hl. by replace L with (h_live h) by lia.
Qed.

(** *** The user and the dispatcher *)

Lemma wowns_inert {A} (m : io (option A)) c F G L w (Q : A -> world -> Prop) :
  inert_io m -> wowns c F G L w -> (forall a w', wowns c F G L w' -> Q a w') -> owp True m Q w.
Proof.
  intros Hm [Hr Hs Href] HQ. eapply owp_inert; [exact Hm|exact Hr|]. intros a w' H. apply HQ. by split.
Qed.

Lemma wpa_act_spec fuel a s F G L w :
  wowns (fst s) F G L w -> owp True (wpa_act kernel pid fuel a s) (fun s' w' => wowns (fst s') F G L w') w.
Proof.
  destruct s as [c counter]; cbn [fst]. intros Ho. destruct a as [|path cb|cmd len timeout| |data]; cbn [wpa_act].
  - apply owp_obind. eapply owp_mono; [by apply close_spec|]. intros c1 w1 (Ho1 & _). by apply owp_ret.
  - apply owp_obind. eapply owp_mono; [by apply open_spec|]. intros [[r c1] k1] w1 (Ho1 & _). by apply owp_ret.
  - apply owp_obind. eapply wowns_inert; [|exact Ho|]; [unfold owfd_wpa_ctrl_request; inert|].
    intros x w1 Ho1. by apply owp_ret.
  - apply owp_ret. cbn [fst]. unfold owfd_wpa_ctrl_ref. destruct (_ =? _); [done|].
    destruct Ho. split; try done. by apply Z.mod_pos_bound.
  - apply owp_ret. by destruct Ho.
Qed.

Lemma wpa_acts_spec fuel l s F G L w :
  wowns (fst s) F G L w -> owp True (wpa_acts kernel pid fuel l s) (fun s' w' => wowns (fst s') F G L w') w.
Proof.
  revert s w; induction l as [|a l IH]; intros s w Ho; cbn [wpa_acts]; [by apply owp_ret|].
  apply owp_obind. eapply owp_mono; [by apply wpa_act_spec|]. intros s1 w1 Ho1. by apply IH.
Qed.

End resources.

(** *** The dispatcher

    It keeps what inert calls and the callback keep. *)
Section dispatcher.
Context (kernel : list event -> call -> Z * list Z) (callback : wpa_callback).
Context (I : wstate -> world -> Prop).

Definition only_inert : Prop := forall s w w',
  (forall D N L, res D N L w -> res D N L w') -> I s w -> I s w'.

(** What a callback has to do. *)
Definition keeps_wpa : Prop := forall fuel fn buf s w,
  zlen buf <= REQ_REPLY_MAX -> I s w -> owp True (callback fuel fn buf s) I w.

Context (I_inert : only_inert) (callback_keeps : keeps_wpa).

Lemma kept_inert {A} (m : io (option A)) s w (Q : A -> world -> Prop) :
  inert_io m -> I s w -> (forall a w', I s w' -> Q a w') -> owp True m Q w.
Proof.
  intros Hm Hi HQ. unfold owp. eapply iwp_mono; [apply Hm|]. intros [a|] w' H; [|done].
  by apply HQ, (I_inert s w).
Qed.

Lemma kept_call s k r d w : inert k = true -> I s w -> I s (called k r d w).
Proof. intros Hk. apply I_inert. intros D N L. by apply res_inert. Qed.

Lemma call_wpa_cb_spec fuel s buf w :
  zlen buf <= REQ_REPLY_MAX -> I s w -> owp True (call_wpa_cb callback fuel s buf) I w.
Proof.
  intros Hl Hi. unfold call_wpa_cb. destruct (wc_cb (fst s)) as [fn|]; [|by apply owp_ret].
  destruct (_ =? _); [|by apply owp_ret]. by apply callback_keeps.
Qed.

(** A positive result would be an error the caller does not see. *)
Definition nonpos (x : Z * wstate) (w : world) : Prop := fst x <= 0 /\ I (snd x) w.

Lemma read_ev_spec fuel s w : I s w -> owp True (read_ev kernel callback fuel s) nonpos w.
Proof.
  revert s w; induction fuel as [|fuel IH]; intros s w Hi; cbn [read_ev]; [done|].
  apply owp_ibind, iwp_sys. intros l buf _.
  apply (kept_call _ (Recv (wc_ev_fd (fst s)) REQ_REPLY_MAX) l buf) in Hi; [|done].
  destruct (Z.ltb_spec l 0); [apply owp_ret; split; [destruct (again l); cbn; lia|done]|].
  destruct (0 <? l); [|by apply owp_ret]. cbv zeta.
  apply owp_obind. eapply owp_mono.
  { apply call_wpa_cb_spec; [|exact Hi]. rewrite zlen_ztake.
    destruct (Z.ltb_spec REQ_REPLY_MAX l); unfold REQ_REPLY_MAX in *; lia. }
  intros s1 w1 H1. destruct (negb _); [by apply owp_ret|]. by apply IH.
Qed.

Lemma dispatch_ev_spec fuel s events w : I s w -> owp True (dispatch_ev kernel callback fuel s events) nonpos w.
Proof.
  intros Hi. unfold dispatch_ev. cbv zeta.
  assert (forall s' w', I s' w' -> owp True
    (oret (if has_epoll events (Z.lor EPOLLHUP EPOLLERR) then - EPIPE else 0, s')) nonpos w') as Hfin.
  { intros s' w' H'. apply owp_ret. split; [by destruct (has_epoll _ _)|done]. }
  destruct (has_epoll events EPOLLIN); [|by apply Hfin].
  apply owp_obind. eapply owp_mono; [by apply read_ev_spec|]. intros [r s1] w1 [Hr H1].
  destruct (r <? 0); [by apply owp_ret|by apply Hfin].
Qed.

Lemma dispatch_events_spec fuel evs r s w :
  I s w -> owp True (dispatch_events kernel callback fuel evs r s) (fun x w' => I (snd x) w') w.
Proof.
  revert r s w; induction evs as [|[events tag] evs IH]; intros r s w Hi; cbn [dispatch_events]; [by apply owp_ret|].
  apply owp_obind, (owp_mono _ _ (fun x w' => I (snd x) w')).
  - destruct (tag =? TAG_EV); [eapply owp_mono; [by apply dispatch_ev_spec|]; by intros x w' [_ ?]|].
    destruct (tag =? TAG_REQ).
    { apply owp_obind. eapply kept_inert; [apply inert_dispatch_req|exact Hi|]. intros x w1 H1. by apply owp_ret. }
    destruct (tag =? TAG_TFD); [|by apply owp_ret].
    apply owp_obind. eapply kept_inert; [apply inert_dispatch_tfd|exact Hi|]. intros x w1 H1. by apply owp_ret.
  - intros [r1 s1] w1 H1. destruct (r1 <? 0); [by apply owp_ret|by apply IH].
Qed.

Lemma wpa_dispatch_spec fuel s timeout w :
  I s w -> owp True (owfd_wpa_ctrl_dispatch kernel callback fuel s timeout) (fun x w' => I (snd x) w') w.
Proof.
  intros Hi. unfold owfd_wpa_ctrl_dispatch. destruct (negb _); [by apply owp_ret|].
  apply owp_ibind, iwp_sys. intros n d _. apply (kept_call _ (EpollWait (wc_efd (fst s)) 2 timeout) n d) in Hi; [|done].
  destruct (n <? 0); [by apply owp_ret|]. by apply dispatch_events_spec.
Qed.
End dispatcher.

Lemma wowns_only_inert F G L : only_inert (fun s w => wowns (fst s) F G L w).
Proof. intros s w w' Hr []. split; [by apply Hr|done|done]. Qed.

Lemma user_callback_keeps kernel pid user F G L :
  (forall t template r name,
     kernel t (Mktemp template) = (r, name) -> ztake (UNIX_PATH_MAX - 1) name ∉ files t) ->
  keeps_wpa (user_callback kernel pid user) (fun s w => wowns (fst s) F G L w).
Proof.
  intros Hfresh fuel fn buf s w _ Ho. unfold user_callback. apply owp_ibind, iwp_sys_. intros r d _.
  assert (wowns (fst s) F G L (called (Callback fn buf) r d w)) as Ho1
    by (destruct Ho; split; [by apply res_inert|done|done]).
  apply owp_ibind. unfold ask_wpa_user, iwp at 1. by apply wpa_acts_spec.
Qed.

(** ** What a request exchanges *)

(** Commands sent and messages received, in order. *)
Definition exchanged (e : event) : list (list Z + list Z) :=
  match ev_call e with
  | Send _ cmd => if 0 <? ev_ret e then [inl cmd] else []
  | Recv _ _ => if 0 <? ev_ret e then [inr (ztake (ev_ret e) (ev_data e))] else []
  | _ => []
  end.

Definition exchange (t : list event) : list (list Z + list Z) := concat (map exchanged t).

Lemma exchange_app a b : exchange (a ++ b) = exchange a ++ exchange b.
Proof. unfold exchange. by rewrite map_app, concat_app. Qed.

(** A message on the request socket that is an event, not a reply. *)
Definition is_event (msg : list Z) : Prop := char_at msg 0 = chr "<".

(** The trace grows by [t] with [P t]. *)
Definition grows (P : list event -> Prop) (w w' : world) : Prop :=
  exists t, w_trace w' = w_trace w ++ t /\ P t.

Lemma grows_trans (P Q R : list event -> Prop) a b c :
  (forall s t, P s -> Q t -> R (s ++ t)) -> grows P a b -> grows Q b c -> grows R a c.
Proof.
  intros HR (s & Hs & Hp) (t & Ht & Hq). exists (s ++ t). rewrite Ht, Hs, app_assoc. split; [done|by apply HR].
Qed.

Lemma grows_call k r d w (P : list event -> Prop) : P [mkEvent k r d] -> grows P w (called k r d w).
Proof. intros HP. by exists [mkEvent k r d]. Qed.

Section exchange.
Context (kernel : list event -> call -> Z * list Z).
Context {A : Type} (fd events : Z) (attempt : io (Z * option A)).
Context (Pnone : list event -> Prop) (Pdone : A -> list event -> Prop).
Context (none_quiet : forall k r d, match k with Ppoll _ _ _ _ | ClockGettime => True | _ => False end ->
  Pnone [mkEvent k r d]).
Context (none_app : forall s t, Pnone s -> Pnone t -> Pnone (s ++ t)).
Context (done_app : forall a s t, Pnone s -> Pdone a t -> Pdone a (s ++ t)).
Context (app_done : forall a s r d, Pdone a s -> Pdone a (s ++ [mkEvent ClockGettime r d])).

(** What the trace says of an outcome. *)
Definition outcome (r : Z) (got : option A) (t : list event) : Prop :=
  match got with Some a => r = 0 /\ Pdone a t | None => r < 0 /\ Pnone t end.

Context (attempt_ok : forall w, iwp attempt (fun x w' =>
  grows (match snd x with Some a => Pdone a | None => Pnone end) w w' /\
  fst x <= 0 /\ (fst x < 0 -> snd x = None)) w).

Lemma timed_loop_outcome fuel start timeout w :
  owp True (timed_loop kernel fuel fd events attempt start timeout)
    (fun x w' => let '(r, _, got) := x in grows (outcome r got) w w') w.
Proof.
  revert timeout w; induction fuel as [|fuel IH]; intros timeout w; cbn [timed_loop]; [done|].
  destruct (us_to_timespec timeout) as [sec nsec]. cbv zeta.
  assert (forall w0 got w1, grows (match got with Some a => Pdone a | None => Pnone end) w0 w1 ->
    owp True (let% now := get_time_us kernel in
      match got with
      | Some _ => oret (0, if timeout - (now - start) <=? 0 then 0 else timeout - (now - start), got)
      | None => if timeout - (now - start) <=? 0 then oret (- ETIMEDOUT, 0, None)
                else timed_loop kernel fuel fd events attempt start (timeout - (now - start))
      end) (fun x w' => let '(r, _, got) := x in grows (outcome r got) w0 w') w1) as Hre.
  { intros w0 got w1 Hg. unfold get_time_us. apply owp_ibind, iwp_bind, iwp_sys. intros r d _. cbv zeta. apply iwp_ret.
    set (w2 := called ClockGettime r d w1).
    assert (grows Pnone w1 w2) as Hq by (apply grows_call, none_quiet; done).
    destruct got as [a|].
    - apply owp_ret. eapply (grows_trans _ (fun t => t = [mkEvent ClockGettime r d])); [|exact Hg|by apply grows_call].
      intros s t Hs ->. split; [done|by apply app_done].
    - destruct (_ <=? 0).
      + apply owp_ret. eapply grows_trans; [|exact Hg|exact Hq]. intros s t Hs Ht. split; [done|by apply none_app].
      + eapply owp_mono; [apply IH|]. intros [[r' t'] got'] w3 H3.
        assert (grows Pnone w0 w2) as H02 by (eapply grows_trans; [|exact Hg|exact Hq]; done).
        eapply grows_trans; [|exact H02|exact H3]. intros s t Hs Ht. destruct got'; cbn in *.
        * destruct Ht as [-> Ht]. split; [done|by apply done_app].
        * destruct Ht as [? Ht]. split; [done|by apply none_app]. }
  apply owp_ibind, iwp_sys. intros n d _. set (poll := Ppoll _ _ _ _).
  assert (grows Pnone w (called poll n d w)) as Hp by (apply grows_call, none_quiet; done).
  assert (forall r, r < 0 -> grows (outcome r None) w (called poll n d w)) as Herr.
  { intros r Hr. destruct Hp as (t & ? & ?). by exists t. }
  destruct (Z.ltb_spec n 0); cbn [andb].
  - destruct (negb _); [by apply owp_ret, Herr|].
    destruct (Z.eqb_spec n 0); [lia|]. destruct (Z.ltb_spec 0 n); [lia|]. by apply (Hre w None).
  - destruct (Z.eqb_spec n 0); [by apply owp_ret, Herr|]. destruct (Z.ltb_spec 0 n); [|lia].
    destruct (negb _); [by apply owp_ret, Herr|].
    apply owp_ibind. eapply iwp_mono; [apply attempt_ok|]. intros [e got] w2; cbn [fst snd]. intros (Hg & He & Hnone).
    assert (grows (match got with Some a => Pdone a | None => Pnone end) w w2) as Hg2.
    { destruct got; (eapply grows_trans; [|exact Hp|exact Hg]); auto. }
    destruct (Z.ltb_spec e 0); [|by apply Hre].
    rewrite (Hnone ltac:(lia)) in Hg2. apply owp_ret. destruct Hg2 as (t & ? & ?). by exists t.
Qed.
End exchange.

Lemma send_outcome kernel fuel fd cmd timeout w :
  owp True (timed_send kernel fuel fd cmd timeout) (fun x w' => let '(r, _, got) := x in
    grows (fun t => (r = 0 /\ exchange t = [inl cmd]) \/ (r < 0 /\ exchange t = [])) w w') w.
Proof.
  unfold timed_send, get_time_us. apply owp_ibind, iwp_bind, iwp_sys. intros r0 d0 _. cbv zeta. apply iwp_ret.
  eapply owp_mono; [apply (timed_loop_outcome kernel fd POLLOUT (try_send kernel fd cmd)
    (fun t => exchange t = []) (fun _ t => exchange t = [inl cmd]))|].
  - by intros [] r d.
  - intros s t Hs Ht. by rewrite exchange_app, Hs, Ht.
  - intros _ s t Hs Ht. by rewrite exchange_app, Hs, Ht.
  - intros _ s r d Hs. by rewrite exchange_app, Hs.
  - intros w1. unfold try_send. apply iwp_bind, iwp_sys_. intros l d _. apply iwp_ret.
    assert (exchange [mkEvent (Send fd cmd) l d] = if 0 <? l then [inl cmd] else []) as He
      by (unfold exchange; cbn; by destruct (0 <? l)).
    destruct (Z.ltb_spec l 0), (Z.ltb_spec 0 l); cbn [andb]; try lia.
    + destruct (negb _); cbn [fst snd]; (split; [by apply grows_call|lia || done]).
    + cbn [fst snd]. split; [by apply grows_call|lia].
    + cbn [fst snd]. split; [by apply grows_call|done].
  - intros [[r t'] got] w1 (t & Ht & Ho). exists ([mkEvent ClockGettime r0 d0] ++ t).
    rewrite Ht. split; [cbn; by rewrite <- app_assoc|]. rewrite exchange_app. destruct got; [by left|by right].
Qed.

Lemma char_at_take msg l : 0 < l -> char_at (ztake l msg) 0 = char_at msg 0.
Proof. intros Hl. unfold char_at. cbn. unfold ztake. destruct (Z.to_nat l) eqn:E; [lia|]. by destruct msg. Qed.

(** Only events, and then a reply. *)
Definition only_events (t : list event) : Prop :=
  exists evs, exchange t = map inr evs /\ Forall is_event evs.

Definition replied (reply : list Z) (t : list event) : Prop :=
  exists evs, exchange t = map inr (evs ++ [reply]) /\ Forall is_event evs /\ ~ is_event reply.

Lemma only_events_app s t : only_events s -> only_events t -> only_events (s ++ t).
Proof.
  intros (a & Ha & Hfa) (b & Hb & Hfb). exists (a ++ b). rewrite exchange_app, Ha, Hb, map_app.
  split; [done|by apply Forall_app].
Qed.

Lemma replied_app reply s t : only_events s -> replied reply t -> replied reply (s ++ t).
Proof.
  intros (a & Ha & Hfa) (b & Hb & Hfb & Hr). exists (a ++ b). rewrite exchange_app, Ha, Hb, <- map_app, app_assoc.
  split_and!; [done|by apply Forall_app|done].
Qed.

Lemma recv_outcome kernel fuel fd len timeout w :
  owp True (timed_recv kernel fuel fd len timeout) (fun x w' => let '(r, _, got) := x in
    grows (fun t => (r = 0 /\ replied (default [] got) t) \/ (r < 0 /\ only_events t)) w w') w.
Proof.
  unfold timed_recv, get_time_us. apply owp_ibind, iwp_bind, iwp_sys. intros r0 d0 _. cbv zeta. apply iwp_ret.
  eapply owp_mono; [apply (timed_loop_outcome kernel fd POLLIN (try_recv kernel fd len) only_events replied)|].
  - intros [] r d; try done; by exists [].
  - apply only_events_app.
  - apply replied_app.
  - intros reply s r d (a & Ha & ? & ?). exists a. rewrite exchange_app, Ha, app_nil_r. by split_and!.
  - intros w1. unfold try_recv. apply iwp_bind, iwp_sys. intros l d _. cbv zeta. apply iwp_ret.
    assert (exchange [mkEvent (Recv fd len) l d] = if 0 <? l then [inr (ztake l d)] else []) as He
      by (unfold exchange; cbn; by destruct (0 <? l)).
    destruct (Z.ltb_spec l 0), (Z.ltb_spec 0 l); cbn [andb]; try lia.
    + destruct (negb _); cbn [fst snd]; (split; [apply grows_call; by exists []|lia || done]).
    + destruct (Z.eqb_spec (char_at (ztake l d) 0) (chr "<")); cbn [negb fst snd].
      * split; [apply grows_call|lia]. exists [ztake l d]. split; [done|]. by constructor.
      * split; [apply grows_call|lia]. exists []. by split_and!.
    + cbn [fst snd]. split; [apply grows_call; by exists []|done].
  - intros [[r t'] got] w1 (t & Ht & Ho). exists ([mkEvent ClockGettime r0 d0] ++ t).
    rewrite Ht. split; [cbn; by rewrite <- app_assoc|]. destruct got as [reply|]; destruct Ho as [Hr Ho].
    + left. split; [done|]. apply replied_app; [by exists []|done].
    + right. split; [done|]. apply only_events_app; [by exists []|done].
Qed.

(** What a request with the result [r] and [reply] exchanges. *)
Definition request_exchange (cmd : list Z) (r : Z) (reply : list Z) (t : list event) : Prop :=
  exists evs, Forall is_event evs /\
    ((r = 0 /\ ~ is_event reply /\ exchange t = inl cmd :: map inr (evs ++ [reply])) \/
     (r < 0 /\ reply = [] /\ (exchange t = [] \/ exchange t = inl cmd :: map inr evs))).

Lemma request_outcome kernel fuel fd cmd len t2 w :
  owp True (wpa_request kernel fuel fd cmd len t2)
    (fun x w' => grows (request_exchange cmd (fst x) (snd x)) w w') w.
Proof.
  assert (forall r t, r < 0 -> exchange t = [] -> request_exchange cmd r [] t) as Hquiet.
  { intros r t Hr Ht. exists []. split; [done|]. right. split_and!; [done|done|by left]. }
  unfold wpa_request. destruct (fd <? 0); [apply owp_ret; exists []; rewrite app_nil_r; split; [done|by apply Hquiet]|].
  cbv zeta. set (t := if _ : bool then _ else _). clearbody t.
  apply owp_obind. eapply owp_mono; [apply send_outcome|]. intros [[r1 t1] got1] w1 (u & Hu & Hsent).
  destruct (Z.ltb_spec r1 0) as [Hneg|Hpos].
  { apply owp_ret. exists u. split; [done|]. apply Hquiet; [done|]. by destruct Hsent as [[? _]|[_ ?]]; [lia|]. }
  destruct Hsent as [[-> Hsent]|[? _]]; [|lia].
  apply owp_obind. eapply owp_mono; [apply recv_outcome|]. intros [[r2 t2'] got2] w2 (v & Hv & Hrecv).
  assert (w_trace w2 = w_trace w ++ u ++ v) as Ht by (by rewrite Hv, Hu, app_assoc).
  destruct (Z.ltb_spec r2 0) as [Hneg|Hpos2]; apply owp_ret; exists (u ++ v); (split; [done|]);
    unfold request_exchange; rewrite exchange_app, Hsent.
  - destruct Hrecv as [[? _]|[_ (evs & Hevs & Hall)]]; [lia|]. exists evs.
    split; [done|]. right. split_and!; [done|done|]. right. by rewrite Hevs.
  - destruct Hrecv as [[_ (evs & Hevs & Hall & Hne)]|[? _]]; [|lia]. exists evs.
    split; [done|]. left. split_and!; [done|done|]. by rewrite Hevs.
Qed.

(** ** Requests end *)

Section ends.
Context (kernel : list event -> call -> Z * list Z).

(** What [get_time_us] reads after the events [t]. *)
Definition clock_at (t : list event) : Z := fst (get_time_us kernel (mkWorld heap0 ∅ 0 t)).

(** The clock advances from one reading to any later one. *)
Context (clock_advances : forall t u, u <> [] -> clock_at t < clock_at (t ++ u)).

Lemma get_time_spec (Q : Z -> world -> Prop) w :
  (forall w', grows (fun t => t <> []) w w' -> Q (clock_at (w_trace w)) w') -> iwp (get_time_us kernel) Q w.
Proof.
  intros HQ. unfold clock_at, get_time_us, ibind, iwp, sys in *. cbn [w_trace] in *.
  destruct (kernel (w_trace w) ClockGettime) as [r d]. cbn. apply HQ.
  by exists [mkEvent ClockGettime r d].
Qed.

Lemma timed_loop_ends {A} fuel fd events (attempt : io (Z * option A)) start timeout w :
  (forall w, iwp attempt (fun _ w' => grows (fun _ => True) w w') w) ->
  start < clock_at (w_trace w) -> 0 <= timeout < Z.of_nat fuel ->
  owp False (timed_loop kernel fuel fd events attempt start timeout)
    (fun x _ => 0 <= snd (fst x) <= timeout) w.
Proof.
  intros Hatt. revert timeout w; induction fuel as [|fuel IH]; intros timeout w Hstart Hf; [lia|]. cbn [timed_loop].
  destruct (us_to_timespec timeout) as [sec nsec]. cbv zeta.
  assert (forall (got : option A) w1, grows (fun _ => True) w w1 -> owp False (let% now := get_time_us kernel in
      match got with
      | Some _ => oret (0, if timeout - (now - start) <=? 0 then 0 else timeout - (now - start), got)
      | None => if timeout - (now - start) <=? 0 then oret (- ETIMEDOUT, 0, None)
                else timed_loop kernel fuel fd events attempt start (timeout - (now - start))
      end) (fun x _ => 0 <= snd (fst x) <= timeout) w1) as Hre.
  { intros got w1 (u & Hu & _). apply owp_ibind, get_time_spec. intros w2 (v & Hv & Hne).
    assert (start < clock_at (w_trace w1)) as H1.
    { rewrite Hu. destruct u; [by rewrite app_nil_r|]. etrans; [exact Hstart|]. by apply clock_advances. }
    assert (start < clock_at (w_trace w2)) as H2 by (rewrite Hv; etrans; [exact H1|]; by apply clock_advances).
    set (t := timeout - (clock_at (w_trace w1) - start)). destruct got as [a|].
    - apply owp_ret. cbn [fst snd]. destruct (Z.leb_spec t 0); lia.
    - destruct (Z.leb_spec t 0); [apply owp_ret; cbn [fst snd]; lia|].
      eapply owp_mono; [apply IH; [done|lia]|]. intros x w3 Hx. cbn beta in Hx. lia. }
  apply owp_ibind, iwp_sys. intros n d _. set (poll := Ppoll _ _ _ _).
  assert (grows (fun _ => True) w (called poll n d w)) as Hp by by apply grows_call.
  destruct (_ && _); [by apply owp_ret; cbn; lia|]. destruct (n =? 0); [by apply owp_ret; cbn; lia|].
  destruct (0 <? n); [|by apply (Hre None)]. destruct (negb _); [by apply owp_ret; cbn; lia|].
  apply owp_ibind. eapply iwp_mono; [apply Hatt|]. intros [e got] w2 Hg.
  destruct (e <? 0); [by apply owp_ret; cbn; lia|]. apply Hre. eapply grows_trans; [|exact Hp|exact Hg]. done.
Qed.

Lemma timed_send_ends fuel fd cmd timeout w :
  0 <= timeout < Z.of_nat fuel ->
  owp False (timed_send kernel fuel fd cmd timeout) (fun x _ => 0 <= snd (fst x) <= timeout) w.
Proof.
  intros Hf. unfold timed_send. apply owp_ibind, get_time_spec. intros w1 (u & Hu & Hne).
  apply timed_loop_ends; [|rewrite Hu; by apply clock_advances|done].
  intros w2. unfold try_send. apply iwp_bind, iwp_sys_. intros l d _. apply iwp_ret. by apply grows_call.
Qed.

Lemma timed_recv_ends fuel fd len timeout w :
  0 <= timeout < Z.of_nat fuel ->
  owp False (timed_recv kernel fuel fd len timeout) (fun x _ => 0 <= snd (fst x) <= timeout) w.
Proof.
  intros Hf. unfold timed_recv. apply owp_ibind, get_time_spec. intros w1 (u & Hu & Hne).
  apply timed_loop_ends; [|rewrite Hu; by apply clock_advances|done].
  intros w2. unfold try_recv. apply iwp_bind, iwp_sys. intros l d _. apply iwp_ret. by apply grows_call.
Qed.

(** Runs that end whatever the state. *)
Definition ends {A} (m : io (option A)) : Prop := forall w, owp False m (fun _ _ => True) w.

Lemma ends_oret {A} (a : A) : ends (oret a).
Proof. intros w. by apply owp_ret. Qed.

Lemma ends_ibind {A B} (m : io A) (k : A -> io (option B)) : (forall a, ends (k a)) -> ends (ibind m k).
Proof. intros Hk w. apply owp_ibind. unfold iwp. destruct (m w) as [a w1]. apply Hk. Qed.

Lemma ends_obind {A B} (m : io (option A)) (k : A -> io (option B)) :
  ends m -> (forall a, ends (k a)) -> ends (obind m k).
Proof. intros Hm Hk w. apply owp_obind. eapply owp_mono; [apply Hm|]. intros a w1 _. apply Hk. Qed.

Context (fuel : nat) (enough : 10 * 1000 * 1000 < Z.of_nat fuel).

Lemma request_ends fd cmd len t2 : ends (wpa_request kernel fuel fd cmd len t2).
Proof.
  intros w. unfold wpa_request. destruct (fd <? 0); [by apply owp_ret|]. cbv zeta.
  set (t := if _ : bool then _ else _).
  assert (0 <= t <= 10 * 1000 * 1000) as Ht.
  { unfold t. destruct (Z.ltb_spec (default (-1) t2) 0), (Z.ltb_spec (10 * 1000 * 1000) (default (-1) t2));
      cbn [orb]; lia. }
  clearbody t. apply owp_obind. eapply owp_mono; [apply timed_send_ends; lia|]. intros [[r t'] got] w1 Ht'. cbn [fst snd] in Ht'.
  destruct (r <? 0); [by apply owp_ret|].
  apply owp_obind. eapply owp_mono; [apply timed_recv_ends; lia|]. intros [[r2 t2'] got2] w2 _.
  destruct (r2 <? 0); by apply owp_ret.
Qed.

Ltac ends :=
  cbv zeta;
  repeat match goal with
  | |- ends (ibind _ _) => apply ends_ibind; intros
  | |- ends (obind _ _) => apply ends_obind; [|intros]
  | |- ends (oret _) => apply ends_oret
  | |- ends (wpa_request _ _ _ _ _ _) => apply request_ends
  | |- ends (if ?b then _ else _) => destruct b
  | |- ends (match ?x with _ => _ end) => destruct x
  end.

Lemma open_ends pid c path cb counter : ends (owfd_wpa_ctrl_open kernel pid fuel c path cb counter).
Proof. unfold owfd_wpa_ctrl_open, wpa_request_ok, err_ev, err_req, err_timer. ends. Qed.

Lemma close_ends c : ends (owfd_wpa_ctrl_close kernel fuel c).
Proof. unfold owfd_wpa_ctrl_close. ends. Qed.

Lemma unref_ends c : ends (owfd_wpa_ctrl_unref kernel fuel c).
Proof. unfold owfd_wpa_ctrl_unref. ends. apply close_ends. Qed.

Lemma request_ok_ends c cmd timeout : ends (owfd_wpa_ctrl_request_ok kernel fuel c cmd timeout).
Proof. unfold owfd_wpa_ctrl_request_ok, owfd_wpa_ctrl_request. ends. Qed.

Lemma dispatch_tfd_ends c events : ends (dispatch_tfd kernel fuel c events).
Proof. unfold dispatch_tfd, tfd_error, read_tfd. ends. Qed.

Lemma ends_some {A} (m : io (option A)) w : ends m -> fst (m w) <> None.
Proof. intros Hm. specialize (Hm w). unfold owp, iwp in Hm. by destruct (m w) as [[a|] w']. Qed.
End ends.

(** ** Life of a connection object *)

Section life.
Context (kernel : list event -> call -> Z * list Z) (pid : Z) (user : list event -> list wpa_action).

(** Everything a program can do with the object while it holds a reference. *)
Inductive wpa_step : wstate * world -> wstate * world -> Prop :=
| wpa_step_act fuel a s w s' w' :
    wpa_act kernel pid fuel a s w = (Some s', w') -> wpa_step (s, w) (s', w')
| wpa_step_dispatch fuel timeout s w r s' w' :
    owfd_wpa_ctrl_dispatch kernel (user_callback kernel pid user) fuel s timeout w = (Some (r, s'), w') -> wpa_step (s, w) (s', w')
| wpa_step_sigmask mask c k w :
    wpa_step ((c, k), w) ((owfd_wpa_ctrl_set_sigmask mask c, k), w)
| wpa_step_unref fuel c k w c' w' :
    owfd_wpa_ctrl_unref kernel fuel c w = (Some (Some c'), w') -> wpa_step ((c, k), w) ((c', k), w').

Inductive wpa_reachable (w0 : world) : wstate * world -> Prop :=
| wpa_made c counter w r :
    owfd_wpa_ctrl_new kernel w0 = ((r, Some c), w) -> wpa_reachable w0 ((c, counter), w)
| wpa_next s s' : wpa_reachable w0 s -> wpa_step s s' -> wpa_reachable w0 s'.
End life.

(** ** Properties *)

Section properties.
Context (kernel : list event -> call -> Z * list Z) (pid : Z) (user : list event -> list wpa_action).

(** C28. Nothing leaks: at any point of its life, whatever the system answers
    and the callback does, a connection object holds exactly its epoll and
    timer descriptors, its block and, when it is open, two sockets and their
    two socket files; nothing is closed twice.  When the last reference is
    dropped, descriptors, files and blocks are those from before it was made,
    and an object that could not be made leaves nothing behind.  [mktemp] is
    taken to give names that are not in use. *)
Theorem wpa_ctrl_no_leak w0 F G L :
  (forall t template r name,
     kernel t (Mktemp template) = (r, name) -> ztake (UNIX_PATH_MAX - 1) name ∉ files t) ->
  res F G L w0 ->
  (forall c counter w, wpa_reachable kernel pid user w0 ((c, counter), w) ->
     wowns c F G L w /\
     forall fuel w', owfd_wpa_ctrl_unref kernel fuel c w = (Some None, w') -> wc_ref c = 1 /\ res F G L w') /\
  (forall r w, owfd_wpa_ctrl_new kernel w0 = ((r, None), w) -> r < 0 /\ res F G L w).
Proof.
  intros Hfresh Hr. pose proof (wpa_new_spec kernel F G L w0 Hr) as Hnew. unfold iwp in Hnew. split.
  2: { intros r w Hn. by rewrite Hn in Hnew. }
  assert (forall s, wpa_reachable kernel pid user w0 s -> wowns (fst (fst s)) F G L (snd s)) as Hinv.
  { induction 1 as [c k w r Hn|s s' _ IH Hs]; [rewrite Hn in Hnew; apply Hnew|].
    destruct Hs as [fuel a s w s' w' He|fuel timeout s w r s' w' He|mask c k w|fuel c k w c' w' He]; cbn [fst snd] in *.
    - pose proof (wpa_act_spec kernel pid Hfresh fuel a s F G L w IH) as H. unfold owp, iwp in H. by rewrite He in H.
    - pose proof (wpa_dispatch_spec kernel _ _ (wowns_only_inert F G L)
        (user_callback_keeps kernel pid user F G L Hfresh) fuel s timeout w IH) as H.
      unfold owp, iwp in H. by rewrite He in H.
    - by destruct IH.
    - pose proof (wpa_unref_spec kernel fuel c F G L w IH) as H. unfold owp, iwp in H. rewrite He in H. apply H. }
  intros c k w Hs. pose proof (Hinv _ Hs) as Ho. split; [done|]. intros fuel w' He.
  pose proof (wpa_unref_spec kernel fuel c F G L w Ho) as H. unfold owp, iwp in H. by rewrite He in H.
Qed.

(** C29. What a request exchanges with wpa_supplicant: it sends its command once
    and then ignores messages that are events; when it succeeds, the reply is
    the first message that is not an event, and it is the last thing read; when
    it fails, either the command was not sent, or only events were read. *)
Theorem wpa_request_exchange fuel fd cmd len t2 w r reply w' :
  wpa_request kernel fuel fd cmd len t2 w = (Some (r, reply), w') ->
  exists t evs, w_trace w' = w_trace w ++ t /\ Forall is_event evs /\
    ((r = 0 /\ ~ is_event reply /\ exchange t = inl cmd :: map inr (evs ++ [reply])) \/
     (r < 0 /\ reply = [] /\ (exchange t = [] \/ exchange t = inl cmd :: map inr evs))).
Proof.
  intros He. pose proof (request_outcome kernel fuel fd cmd len t2 w) as H. unfold owp, iwp in H. rewrite He in H.
  destruct H as (t & Ht & evs & Hall & Hx). by exists t, evs.
Qed.

(** C30. Opening, closing and dropping a connection, every request, and the
    check on the timer come to an end after at most ten million rounds of each
    timed loop, whatever the system answers, as long as the clock advances
    between two readings. *)
Theorem wpa_ctrl_requests_end fuel c path cb counter cmd len timeout events w :
  (forall t u, u <> [] -> clock_at kernel t < clock_at kernel (t ++ u)) ->
  10 * 1000 * 1000 < Z.of_nat fuel ->
  fst (owfd_wpa_ctrl_open kernel pid fuel c path cb counter w) <> None /\
  fst (owfd_wpa_ctrl_close kernel fuel c w) <> None /\
  fst (owfd_wpa_ctrl_unref kernel fuel c w) <> None /\
  fst (owfd_wpa_ctrl_request kernel fuel c cmd len timeout w) <> None /\
  fst (owfd_wpa_ctrl_request_ok kernel fuel c cmd timeout w) <> None /\
  fst (dispatch_tfd kernel fuel c events w) <> None.
Proof.
  intros Hc Hf. split_and!; apply ends_some.
  - by apply open_ends.
  - by apply close_ends.
  - by apply unref_ends.
  - intros w'. unfold owfd_wpa_ctrl_request. destruct (negb _); [by apply owp_ret|]. by apply request_ends.
  - by apply request_ok_ends.
  - by apply dispatch_tfd_ends.
Qed.
End properties.

(** ** Witnesses *)

(** A system whose clock counts events, whose [mktemp] gives a name above all
    those bound before, and which answers each command with one event and OK. *)
Definition bound (t : list event) : list (list Z) :=
  omap (fun e => match ev_call e with Bind _ name => Some name | _ => None end) t.

Definition name_of (t : list event) : list Z := [1 + foldr (fun name m => Z.max (hd 0 name) m) 0 (bound t)].

Definition has_recv (t : list event) : bool :=
  existsb (fun e => match ev_call e with Recv _ _ => true | _ => false end) t.

Definition wpa_kernel (t : list event) (k : call) : Z * list Z :=
  match k with
  | EpollCreate => (3, [])
  | TimerfdCreate => (4, [])
  | Socket => (5 + zlen t, [])
  | Mktemp _ => (0, name_of t)
  | ClockGettime => (0, [zlen t; 0])
  | Ppoll _ _ _ _ => (1, [0])
  | Send _ cmd => (zlen cmd, [])
  | Recv _ _ => if has_recv t then (3, str "OK" ++ [LF]) else (3, str "<2>")
  | _ => (0, [])
  end.

Lemma files_bound t name : name ∈ files t -> name ∈ bound t.
Proof.
  unfold bound. induction t as [|[k r d] t IH] using rev_ind; [multiset_solver|].
  rewrite files_snoc, omap_app, elem_of_app. unfold file_step; cbn [ev_call ev_ret].
  destruct k; try (intros H; left; by apply IH).
  - destruct (0 <=? r); [|intros H; left; by apply IH].
    intros [->%gmultiset_elem_of_singleton|H]%gmultiset_elem_of_disj_union; [right; set_solver|left; by apply IH].
  - intros H. left. apply IH. multiset_solver.
Qed.

Lemma name_of_fresh t : ztake (UNIX_PATH_MAX - 1) (name_of t) ∉ files t.
Proof.
  intros Hin%files_bound. change (ztake _ (name_of t)) with (name_of t) in Hin.
  assert (forall l, name_of t ∈ l -> hd 0 (name_of t) <= foldr (fun name m => Z.max (hd 0 name) m) 0 l) as Hmax.
  { induction l as [|x l IH]; intros H; [by apply elem_of_nil in H|]. apply elem_of_cons in H as [<-|H]; cbn [foldr]; [lia|].
    specialize (IH H). lia. }
  specialize (Hmax _ Hin). unfold name_of in Hmax; cbn [hd] in Hmax. lia.
Qed.

Lemma wpa_kernel_fresh t template r name :
  wpa_kernel t (Mktemp template) = (r, name) -> ztake (UNIX_PATH_MAX - 1) name ∉ files t.
Proof. intros [= _ <-]. apply name_of_fresh. Qed.

Lemma wpa_kernel_clock t u : u <> [] -> clock_at wpa_kernel t < clock_at wpa_kernel (t ++ u).
Proof.
  intros Hu. unfold clock_at. cbn. rewrite zlen_app. destruct u; [done|]. rewrite zlen_cons.
  pose proof (zlen_nonneg u). lia.
Qed.

Definition wpa_world : world := mkWorld heap0 ∅ 0 [].

Lemma wpa_world_res : res ∅ ∅ 0 wpa_world.
Proof. by split. Qed.

Definition wpa_quiet (t : list event) : list wpa_action := [].

Definition wpa_fresh : owfd_wpa_ctrl * world :=
  match owfd_wpa_ctrl_new wpa_kernel wpa_world with
  | ((_, Some c), w) => (c, w)
  | ((_, None), w) => (mkWpa 0 0 0 0 0 0 [] 0 [] None, w)
  end.

(** An open connection. *)
Definition wpa_opened : owfd_wpa_ctrl * Z * world :=
  match wpa_act wpa_kernel 77 20 (WpaOpen (str "/run/wpa") (Some 1%nat)) (fst wpa_fresh, 0) (snd wpa_fresh) with
  | (Some s, w) => (s, w)
  | (None, w) => ((fst wpa_fresh, 0), w)
  end.

Lemma wpa_opened_reachable : wpa_reachable wpa_kernel 77 wpa_quiet wpa_world wpa_opened.
Proof.
  apply (wpa_next _ _ _ _ ((fst wpa_fresh, 0), snd wpa_fresh)).
  - apply (wpa_made _ _ _ _ _ _ _ 0). vm_compute. reflexivity.
  - rewrite (surjective_pairing wpa_opened).
    apply (wpa_step_act _ _ _ 20 (WpaOpen (str "/run/wpa") (Some 1%nat))). vm_compute. reflexivity.
Qed.

Lemma wpa_ctrl_no_leak_witness :
  owfd_wpa_ctrl_is_open (fst (fst wpa_opened)) = true /\
  (wowns (fst (fst wpa_opened)) ∅ ∅ 0 (snd wpa_opened) /\
   forall fuel w', owfd_wpa_ctrl_unref wpa_kernel fuel (fst (fst wpa_opened)) (snd wpa_opened) = (Some None, w') ->
     wc_ref (fst (fst wpa_opened)) = 1 /\ res ∅ ∅ 0 w').
Proof.
  split; [vm_compute; reflexivity|].
  pose proof wpa_opened_reachable as Hr.
  rewrite (surjective_pairing wpa_opened), (surjective_pairing (fst wpa_opened)) in Hr.
  exact (proj1 (wpa_ctrl_no_leak wpa_kernel 77 wpa_quiet wpa_world ∅ ∅ 0 wpa_kernel_fresh wpa_world_res) _ _ _ Hr).
Defined.

Definition wpa_ping : option (Z * list Z) * world :=
  wpa_request wpa_kernel 20 9 (str "PING") 10 None wpa_world.

Lemma wpa_request_exchange_witness :
  fst wpa_ping = Some (0, str "OK" ++ [LF]) /\
  exists t evs, w_trace (snd wpa_ping) = w_trace wpa_world ++ t /\ Forall is_event evs /\
    ((0 = 0 /\ ~ is_event (str "OK" ++ [LF]) /\
      exchange t = inl (str "PING") :: map inr (evs ++ [str "OK" ++ [LF]])) \/
     (0 < 0 /\ str "OK" ++ [LF] = [] /\ (exchange t = [] \/ exchange t = inl (str "PING") :: map inr evs))).
Proof.
  assert (wpa_request wpa_kernel 20 9 (str "PING") 10 None wpa_world =
    (Some (0, str "OK" ++ [LF]), snd wpa_ping)) as He by (vm_compute; reflexivity).
  split; [vm_compute; reflexivity|].
  exact (wpa_request_exchange wpa_kernel 20 9 (str "PING") 10 None wpa_world _ _ _ He).
Defined.

Lemma wpa_ctrl_requests_end_witness :
  let fuel := Z.to_nat 10000001 in
  let c := fst wpa_fresh in
  let w := snd wpa_fresh in
  fst (owfd_wpa_ctrl_open wpa_kernel 77 fuel c (str "/run/wpa") None 0 w) <> None /\
  fst (owfd_wpa_ctrl_close wpa_kernel fuel c w) <> None /\
  fst (owfd_wpa_ctrl_unref wpa_kernel fuel c w) <> None /\
  fst (owfd_wpa_ctrl_request wpa_kernel fuel c (str "PING") 10 1000 w) <> None /\
  fst (owfd_wpa_ctrl_request_ok wpa_kernel fuel c (str "SCAN") 1000 w) <> None /\
  fst (dispatch_tfd wpa_kernel fuel c EPOLLIN w) <> None.
Proof.
  intros fuel c w. assert (10 * 1000 * 1000 < Z.of_nat fuel) as Hf by (unfold fuel; rewrite Z2Nat.id; lia).
  exact (wpa_ctrl_requests_end wpa_kernel 77 fuel c (str "/run/wpa") None 0 (str "PING") 10 1000 EPOLLIN w
    wpa_kernel_clock Hf).
Defined.

(** The time that has passed since the start is subtracted again in every
    round: with one event per second, a request with ten seconds to go gives
    up after four. *)
Definition polls (t : list event) : Z :=
  zlen (List.filter (fun e => match ev_call e with Ppoll _ _ _ _ => true | _ => false end) t).

Definition slow_kernel (t : list event) (k : call) : Z * list Z :=
  match k with
  | ClockGettime => (0, [polls t; 0])
  | Ppoll _ _ _ _ => (1, [0])
  | Recv _ _ => (3, str "<2>")
  | _ => (0, [])
  end.

Example times_out_early :
  let '(r, w) := timed_recv slow_kernel 100 9 512 10000000 wpa_world in
  option_map (fun x => fst (fst x)) r = Some (- ETIMEDOUT) /\ polls (w_trace w) = 4.
Proof. vm_compute. split; reflexivity. Qed.
