(* ===== verification/P2pdInterface.v ===== *)
(** * The wpa_supplicant process of [src/p2pd_interface.c].

    [owfd_p2pd_interface] is [struct owfd_p2pd_interface]: it forks
    wpa_supplicant, waits for its control socket, sets it up, and passes its
    events to the registered functions.  The operations run in the [io] monad;
    [None] means that a call does not return (the fuel of a waiting loop has run
    out, or this is the child process).  The list of event users is the sequence
    that [Dlist.v] shows the intrusive list to be; a function pointer is a
    number, 0 is [NULL], and what the functions do is a parameter. *)

From S2P Require Import Prelude CLib RecordSet WpaParser P2pdConfig Posix WpaCtrl.

(** ** Constants *)

Definition SIGHUP : Z := 1.
Definition SIGINT : Z := 2.
Definition SIGQUIT : Z := 3.
Definition SIGPIPE : Z := 13.
Definition SIGTERM : Z := 15.
Definition SIGCHLD : Z := 17.

Definition IN_OPEN : Z := 0x20.
Definition IN_MOVED_TO : Z := 0x80.
Definition IN_CREATE : Z := 0x100.
Definition IN_DELETE_SELF : Z := 0x400.
Definition IN_MOVE_SELF : Z := 0x800.
Definition IN_ONLYDIR : Z := 0x1000000.

(** [sigset_t] *)
Definition sigset (sigs : list Z) : Z := foldr (fun s m => Z.lor (Z.shiftl 1 (s - 1)) m) 0 sigs.

(** [enum owfd_p2pd_ep_action] *)
Definition OWFD_P2PD_EP_HANDLED : Z := 0.
Definition OWFD_P2PD_EP_NOT_HANDLED : Z := 1.
Definition OWFD_P2PD_EP_QUIT : Z := 2.

(** [&p2pd->sfd] and [&iface->wpa_fd] as epoll data; the address of the
    interface. *)
Definition TAG_SFD : Z := 11.
Definition TAG_WPA : Z := 12.
Definition ADDR_IFACE : Z := 13.

(** ** Data *)

Record event_user := mkUser { eu_event_fn : Z; eu_data : Z }.

Record owfd_p2pd_interface := mkIface {
  if_wpa : owfd_wpa_ctrl;
  if_config : owfd_p2pd_config;
  if_wpa_fd : Z;
  if_pid : Z;
  if_event_users : list event_user;
}.

#[export] Instance eta_iface : Eta owfd_p2pd_interface := fun i =>
  mkIface (if_wpa i) (if_config i) (if_wpa_fd i) (if_pid i) (if_event_users i).

Definition sizeof_interface : Z := 40.
Definition sizeof_event_user : Z := 32.

(** The number [owfd_wpa_ctrl] knows [wpa_event] by. *)
Definition WPA_EVENT : nat := 1.

(** A string of the configuration; parsing leaves none of them [NULL]. *)
Definition conf_str (s : option (list Z)) : list Z := default [] s.

(** [asprintf] of a text: false when there is no memory. *)
Definition asprintf (text : list Z) : io bool := on_heap (grant (strlen text + 1)).

Section interface.
Context (kernel : list event -> call -> Z * list Z) (getpid : Z).

(** What an event function does when it is called with the event and its data. *)
Context (event_fn : nat -> Z -> owfd_wpa_event -> Z -> wstate -> io (option wstate)).

(** ** Epoll helpers of [src/p2pd.c] *)

Definition owfd_p2pd_ep_add (efd fd tag events : Z) : io Z :=
  let% r := sys_ kernel (EpollAdd efd fd events tag) in iret (if r <? 0 then r else 0).

Definition owfd_p2pd_ep_update (efd fd tag events : Z) : io unit :=
  let% _ := sys_ kernel (EpollMod efd fd events tag) in iret tt.

Definition owfd_p2pd_ep_remove (efd fd : Z) : io unit :=
  let% _ := sys_ kernel (EpollDel efd fd) in iret tt.

(** ** The child *)

Definition child_argv (conf : owfd_p2pd_config) : list (list Z) :=
  [conf_str (wpa_binary conf); str "-Dnl80211"; str "-qq"; str "-C"; conf_str (wpa_ctrldir conf);
   str "-i"; conf_str (interface conf)].

(** [None]: wpa_supplicant runs. *)
Definition run_child (iface : owfd_p2pd_interface) : io (option unit) :=
  let% _ := sys_ kernel (Sigprocmask []) in
  let% r := sys_ kernel (Dup2 2 1) in
  if r <? 0 then oret tt
  else
    let% r := sys_ kernel (Execve (child_argv (if_config iface))) in
    if r <? 0 then oret tt else iret None.

Definition is_child_alive (pid : Z) : io bool :=
  let% r := sys_ kernel (Waitpid pid) in iret (r =? 0).

(** ** Waiting for the control socket *)

(** One round of both loops up to the check of the child: the error, or 0, and
    what is left of the timeout. *)
Definition wait_round (fd pid t : Z) : io (Z * Z) :=
  let% start := get_time_us kernel in
  let '(sec, nsec) := us_to_timespec (if 100 * 1000 <? t then 100 * 1000 else t) in
  let% (r, d) := sys kernel (Ppoll fd (Z.lor (Z.lor POLLHUP POLLERR) POLLIN) sec nsec) in
  if r <? 0 then iret (r, t)
  else if (r =? 1) && has_epoll (default 0 (d !! 0%nat)) (Z.lor POLLHUP POLLERR) then iret (- EPIPE, t)
  else
    let% now := get_time_us kernel in
    let t := t - (now - start) in
    let t := if t <? 0 then 0 else t in
    let% alive := is_child_alive pid in
    iret (if alive then 0 else - ENODEV, t).

(** [char ev[sizeof(struct inotify_event) + 1024]] *)
Definition sizeof_ev : Z := 1040.

(** The first loop: until the socket file is there. *)
Fixpoint wait_file (n : nat) (fd pid : Z) (file : list Z) (t : Z) : io (option (Z * Z)) :=
  match n with
  | O => iret None
  | S n =>
    let% (r, t) := wait_round fd pid t in
    if r <? 0 then oret (r, t)
    else
      let% a := sys_ kernel (Access file) in
      if a =? 0 then oret (0, t)
      else
        let% _ := sys_ kernel (Read fd sizeof_ev) in
        if t <=? 0 then oret (- ETIMEDOUT, t) else wait_file n fd pid file t
  end.

(** The second loop: until the socket can be opened. *)
Fixpoint wait_open (fuel n : nat) (fd pid : Z) (file : list Z) (t : Z) (s : wstate) : io (option (Z * wstate)) :=
  match n with
  | O => iret None
  | S n =>
    let% (r, t) := wait_round fd pid t in
    if r <? 0 then oret (r, s)
    else
      let? (r, c, counter) := owfd_wpa_ctrl_open kernel getpid fuel (fst s) file (Some WPA_EVENT) (snd s) in
      if 0 <=? r then oret (0, (c, counter))
      else
        let% _ := sys_ kernel (Read fd sizeof_ev) in
        if t <=? 0 then oret (- ETIMEDOUT, (c, counter)) else wait_open fuel n fd pid file t (c, counter)
  end.

(** From the removal of the directory watch to the label [done]. *)
Definition wait_socket (fuel : nat) (fd w pid : Z) (file : list Z) (t : Z) (s : wstate) : io (option (Z * wstate)) :=
  let% _ := if 0 <=? w then sys_ kernel (InotifyRmWatch fd w) else iret 0 in
  let% _ := sys_ kernel (InotifyAddWatch fd file (Z.lor (Z.lor IN_OPEN IN_DELETE_SELF) IN_MOVE_SELF)) in
  let% alive := is_child_alive pid in
  if negb alive then oret (- ENODEV, s)
  else
    let? (r, c, counter) := owfd_wpa_ctrl_open kernel getpid fuel (fst s) file (Some WPA_EVENT) (snd s) in
    if 0 <=? r then oret (0, (c, counter)) else wait_open fuel fuel fd pid file t (c, counter).

(** Everything between the first watch and [err_close]. *)
Definition wait_started (fuel : nat) (fd w pid : Z) (file : list Z) (t : Z) (s : wstate) : io (option (Z * wstate)) :=
  let% alive := is_child_alive pid in
  if negb alive then oret (- ENODEV, s)
  else
    let% a := sys_ kernel (Access file) in
    let? (r, t) := if a <? 0 then wait_file fuel fd pid file t else oret (0, t) in
    if r <? 0 then oret (r, s) else wait_socket fuel fd w pid file t s.

Definition wait_for_wpa (fuel : nat) (iface : owfd_p2pd_interface) (file : list Z) (counter : Z) :
    io (option (Z * owfd_p2pd_interface * Z)) :=
  let% fd := sys_ kernel InotifyInit in
  if fd <? 0 then oret (fd, iface, counter)
  else
    let% w := sys_ kernel (InotifyAddWatch fd (conf_str (wpa_ctrldir (if_config iface)))
                             (Z.lor (Z.lor IN_CREATE IN_MOVED_TO) IN_ONLYDIR)) in
    let? (r, s) := wait_started fuel fd w (if_pid iface) file (10 * 1000 * 1000) (if_wpa iface, counter) in
    let% _ := sys_ kernel (Close fd) in
    oret (r, iface <| if_wpa := fst s |>, snd s).

(** ** Requests *)

Definition iface_request_ok (fuel : nat) (c : owfd_wpa_ctrl) (req : list Z) : io (option Z) :=
  owfd_wpa_ctrl_request_ok kernel fuel c (cstr req) (-1).

Definition iface_request (fuel : nat) (c : owfd_wpa_ctrl) (req : list Z) (len : Z) : io (option (Z * list Z)) :=
  owfd_wpa_ctrl_request kernel fuel c (cstr req) len (-1).

Definition connect_req (peer_mac pin : list Z) (pin_mode : option (list Z)) : list Z :=
  str "P2P_CONNECT " ++ cstr peer_mac ++ [SP] ++ cstr pin ++
  match pin_mode with Some mode => SP :: cstr mode | None => [] end.

Definition owfd_p2pd_interface_connect (fuel : nat) (c : owfd_wpa_ctrl)
    (peer_mac pin : list Z) (pin_mode : option (list Z)) : io (option Z) :=
  let req := connect_req peer_mac pin pin_mode in
  let% ok := asprintf req in
  if negb ok then oret (- ENOMEM)
  else
    let? r := iface_request_ok fuel c req in
    let% _ := on_heap (free_blocks 1) in
    oret r.

(** The requests [wpa_setup] has to have acknowledged, in order. *)
Definition setup_requests : list (list Z) :=
  [str "SET ap_scan 1"; str "SET device_name some-random-name"; str "SET device_type 1-0050F204-1";
   str "SET wifi_display 1"].

Fixpoint request_all (fuel : nat) (c : owfd_wpa_ctrl) (reqs : list (list Z)) : io (option Z) :=
  match reqs with
  | [] => oret 0
  | req :: reqs =>
    let? r := iface_request_ok fuel c req in
    if r <? 0 then oret (- ENODEV) else request_all fuel c reqs
  end.

Definition wpa_setup (fuel : nat) (c : owfd_wpa_ctrl) : io (option Z) :=
  let? (r, buf) := iface_request fuel c (str "GET wifi_display") 128 in
  if (r <? 0) || negb (zlen buf =? 1) || negb (char_at buf 0 =? chr "1") then oret (- ENODEV)
  else request_all fuel c setup_requests.

(** ** Starting and stopping *)

Definition ctrl_file (conf : owfd_p2pd_config) : list Z :=
  conf_str (wpa_ctrldir conf) ++ str "/" ++ conf_str (interface conf).

Definition fork_wpa (fuel : nat) (iface : owfd_p2pd_interface) (counter : Z) :
    io (option (Z * owfd_p2pd_interface * Z)) :=
  let% pid := sys_ kernel Fork in
  if pid <? 0 then oret (pid, iface, counter)
  else if pid =? 0 then
    let? _ := run_child iface in
    let% _ := sys_ kernel (Exit 1) in
    iret None
  else
    let iface := iface <| if_pid := pid |> in
    let ctrl := ctrl_file (if_config iface) in
    let% ok := asprintf ctrl in
    if negb ok then oret (- ENOMEM, iface, counter)
    else
      let iface := iface <| if_wpa := owfd_wpa_ctrl_set_sigmask (sigset [SIGPIPE]) (if_wpa iface) |> in
      let? (r, iface, counter) := wait_for_wpa fuel iface ctrl counter in
      let% _ := on_heap (free_blocks 1) in
      if r <? 0 then oret (r, iface, counter)
      else
        let? r := wpa_setup fuel (if_wpa iface) in
        oret (if r <? 0 then r else 0, iface, counter).

(** [kill (pid, SIGTERM)] *)
Definition send_sigterm (pid : Z) : io (option unit) :=
  let% _ := sys_ kernel (Kill pid SIGTERM) in oret tt.

Definition kill_wpa (fuel : nat) (iface : owfd_p2pd_interface) : io (option unit) :=
  if if_pid iface <=? 0 then oret tt
  else if owfd_wpa_ctrl_is_open (if_wpa iface) then
    let? r := owfd_wpa_ctrl_request_ok kernel fuel (if_wpa iface) (str "TERMINATE") (-1) in
    if 0 <=? r then oret tt
    else
      let% alive := is_child_alive (if_pid iface) in
      if negb alive then oret tt else send_sigterm (if_pid iface)
  else send_sigterm (if_pid iface).

(** What the error path of [owfd_p2pd_interface_new] and
    [owfd_p2pd_interface_free] share. *)
Definition stop_iface (fuel : nat) (iface : owfd_p2pd_interface) : io (option unit) :=
  let? _ := kill_wpa fuel iface in
  let? c := owfd_wpa_ctrl_close kernel fuel (if_wpa iface) in
  let? _ := owfd_wpa_ctrl_unref kernel fuel c in
  let% _ := on_heap (free_blocks 1) in
  oret tt.

Definition err_kill (fuel : nat) (r : Z) (iface : owfd_p2pd_interface) (counter : Z) :
    io (option (Z * option owfd_p2pd_interface * Z)) :=
  let? _ := stop_iface fuel iface in oret (r, None, counter).

Definition owfd_p2pd_interface_new (fuel : nat) (conf : owfd_p2pd_config) (efd counter : Z) :
    io (option (Z * option owfd_p2pd_interface * Z)) :=
  let% ok := on_heap (grant sizeof_interface) in
  if negb ok then oret (- ENOMEM, None, counter)
  else
    let% (r, wpa) := owfd_wpa_ctrl_new kernel in
    match wpa with
    | None => let% _ := on_heap (free_blocks 1) in oret (r, None, counter)
    | Some c =>
      let iface := mkIface (owfd_wpa_ctrl_set_data ADDR_IFACE c) conf 0 0 [] in
      let? (r, iface, counter) := fork_wpa fuel iface counter in
      if r <? 0 then err_kill fuel r iface counter
      else
        let iface := iface <| if_wpa_fd := owfd_wpa_ctrl_get_fd (if_wpa iface) |> in
        let% r := owfd_p2pd_ep_add efd (if_wpa_fd iface) TAG_WPA EPOLLIN in
        if r <? 0 then err_kill fuel r iface counter else oret (0, Some iface, counter)
    end.

Fixpoint free_users (l : list event_user) : io unit :=
  match l with
  | [] => iret tt
  | _ :: l => let% _ := on_heap (free_blocks 1) in free_users l
  end.

Definition owfd_p2pd_interface_free (fuel : nat) (iface : option owfd_p2pd_interface) : io (option unit) :=
  match iface with
  | None => oret tt
  | Some iface => let% _ := free_users (if_event_users iface) in stop_iface fuel iface
  end.

(** ** Events *)

Definition owfd_p2pd_interface_register_event_fn (iface : owfd_p2pd_interface) (fn data : Z) :
    io (Z * owfd_p2pd_interface) :=
  let% ok := on_heap (grant sizeof_event_user) in
  iret (if ok then (0, iface <| if_event_users := mkUser fn data :: if_event_users iface |>)
        else (- ENOMEM, iface)).

(** The loop of [owfd_p2pd_interface_unregister_event_fn]. *)
Fixpoint remove_user (fn data : Z) (l : list event_user) : io (list event_user) :=
  match l with
  | [] => iret []
  | e :: l =>
    if (eu_event_fn e =? fn) && (eu_data e =? data) then let% _ := on_heap (free_blocks 1) in iret l
    else let% l := remove_user fn data l in iret (e :: l)
  end.

Definition owfd_p2pd_interface_unregister_event_fn (iface : owfd_p2pd_interface) (fn data : Z) :
    io owfd_p2pd_interface :=
  let% l := remove_user fn data (if_event_users iface) in iret (iface <| if_event_users := l |>).

(** The loop of [wpa_event]. *)
Fixpoint call_users (fuel : nat) (ev : owfd_wpa_event) (l : list event_user) (s : wstate) : io (option wstate) :=
  match l with
  | [] => oret s
  | e :: l =>
    let? s := if negb (eu_event_fn e =? 0) then event_fn fuel (eu_event_fn e) ev (eu_data e) s else oret s in
    call_users fuel ev l s
  end.

Definition wpa_event (users : list event_user) (fuel : nat) (buf : list Z) (s : wstate) : io (option wstate) :=
  let% (r, ev) := on_heap (owfd_wpa_event_parse owfd_wpa_event_init buf) in
  let? s :=
    if r <? 0 then oret s
    else if event_code (ev_type ev) =? event_code OWFD_WPA_EVENT_UNKNOWN then oret s
    else call_users fuel ev users s in
  let% _ := on_heap (owfd_wpa_event_reset ev) in
  oret s.

(** The callbacks of the connection: only [wpa_event] is ever installed. *)
Definition iface_callback (users : list event_user) : wpa_callback := fun fuel fn buf s =>
  if (fn =? WPA_EVENT)%nat then wpa_event users fuel buf s else oret s.

(** ** Dispatching *)

Definition owfd_p2pd_interface_dispatch (fuel : nat) (iface : owfd_p2pd_interface) (counter tag : Z) :
    io (option (Z * owfd_p2pd_interface * Z)) :=
  if negb (tag =? TAG_WPA) then oret (OWFD_P2PD_EP_NOT_HANDLED, iface, counter)
  else
    let? (r, s) := owfd_wpa_ctrl_dispatch kernel (iface_callback (if_event_users iface)) fuel
                     (if_wpa iface, counter) 0 in
    oret (if r <? 0 then r else OWFD_P2PD_EP_HANDLED, iface <| if_wpa := fst s |>, snd s).

Definition owfd_p2pd_interface_dispatch_chld (fuel : nat) (iface : owfd_p2pd_interface) (ssi_pid : Z) :
    io (option (Z * owfd_p2pd_interface)) :=
  if (if_pid iface <=? 0) || negb (ssi_pid =? u32 (if_pid iface)) then oret (OWFD_P2PD_EP_NOT_HANDLED, iface)
  else
    let? c := owfd_wpa_ctrl_close kernel fuel (if_wpa iface) in
    oret (OWFD_P2PD_EP_QUIT, iface <| if_wpa := c |> <| if_pid := 0 |>).

End interface.
