(* ===== verification/P2pd.v ===== *)
(** * The daemon: [src/p2pd_dummy.c] and [src/p2pd.c].

    [main] parses the command line, sets up epoll, the signal descriptor, the
    wpa_supplicant process and the dummy manager, runs the event loop and tears
    everything down.  [None] means, as in [P2pdInterface.v], that a call does
    not return.  The static counter of [bind_socket] is threaded through. *)

From S2P Require Import Prelude CLib RecordSet Bytes WpaParser P2pdConfig Posix WpaCtrl P2pdInterface.

(** ** The dummy manager *)

(** The addresses of the configuration and of the dummy, and the number of
    [dummy_event_fn] as a function pointer. *)
Definition ADDR_CONFIG : Z := 14.
Definition ADDR_DUMMY : Z := 15.
Definition DUMMY_EVENT_FN : Z := 16.

Record owfd_p2pd_dummy := mkDummy { dm_config : Z; dm_iface : Z }.

Definition sizeof_dummy : Z := 16.

Record owfd_p2pd := mkP2pd {
  pd_config : owfd_p2pd_config;
  pd_efd : Z;
  pd_sfd : Z;
  pd_interface : option owfd_p2pd_interface;
  pd_dummy : option owfd_p2pd_dummy;
}.

#[export] Instance eta_p2pd : Eta owfd_p2pd := fun p =>
  mkP2pd (pd_config p) (pd_efd p) (pd_sfd p) (pd_interface p) (pd_dummy p).

Definition sizeof_siginfo : Z := 128.

(** The signals the daemon reads from its descriptor. *)
Definition sigs : list Z := [SIGINT; SIGTERM; SIGQUIT; SIGHUP; SIGCHLD; SIGPIPE].

(** [sizeof(evs) / sizeof( *evs)] *)
Definition max_evs : Z := 64.

Section daemon.
Context (kernel : list event -> call -> Z * list Z) (getpid : Z).

Definition dummy_event_fn (fuel : nat) (ev : owfd_wpa_event) (s : wstate) : io (option wstate) :=
  match ev_type ev with
  | OWFD_WPA_EVENT_P2P_PROV_DISC_SHOW_PIN =>
    let? _ := owfd_p2pd_interface_connect kernel fuel (fst s) (ev_mac ev) (default [] (ev_str ev))
                (Some (str "display")) in
    oret s
  | _ => oret s
  end.

(** The event functions of the program. *)
Definition event_fns (fuel : nat) (fn : Z) (ev : owfd_wpa_event) (data : Z) (s : wstate) : io (option wstate) :=
  if fn =? DUMMY_EVENT_FN then dummy_event_fn fuel ev s else oret s.

Definition owfd_p2pd_dummy_new (iface : owfd_p2pd_interface) :
    io (Z * owfd_p2pd_interface * option owfd_p2pd_dummy) :=
  let% ok := on_heap (grant sizeof_dummy) in
  if negb ok then iret (- ENOMEM, iface, None)
  else
    let% (r, iface) := owfd_p2pd_interface_register_event_fn iface DUMMY_EVENT_FN ADDR_DUMMY in
    if r <? 0 then let% _ := on_heap (free_blocks 1) in iret (r, iface, None)
    else iret (0, iface, Some (mkDummy ADDR_CONFIG ADDR_IFACE)).

(** [dummy->iface] is the interface of the daemon. *)
Definition owfd_p2pd_dummy_free (dummy : option owfd_p2pd_dummy) (iface : option owfd_p2pd_interface) :
    io (option (option owfd_p2pd_interface)) :=
  match dummy with
  | None => oret iface
  | Some _ =>
    match iface with
    | None => iret None
    | Some iface =>
      let% iface := owfd_p2pd_interface_unregister_event_fn iface DUMMY_EVENT_FN ADDR_DUMMY in
      let% _ := on_heap (free_blocks 1) in
      oret (Some iface)
    end
  end.

(** ** Dispatching *)

(** The daemon and the counter of [bind_socket]. *)
Definition pstate : Type := owfd_p2pd * Z.

(** The reaction to a signal that was read. *)
Definition handle_signal (fuel : nat) (signo ssi_pid : Z) (s : pstate) : io (option (Z * pstate)) :=
  if signo =? SIGCHLD then
    match pd_interface (fst s) with
    | None => iret None
    | Some iface =>
      let? (r, iface) := owfd_p2pd_interface_dispatch_chld kernel fuel iface ssi_pid in
      oret (if negb (r =? OWFD_P2PD_EP_NOT_HANDLED) then r else OWFD_P2PD_EP_HANDLED,
            (fst s <| pd_interface := Some iface |>, snd s))
    end
  else if signo =? SIGPIPE then oret (OWFD_P2PD_EP_HANDLED, s)
  else oret (OWFD_P2PD_EP_QUIT, s).

Definition owfd_p2pd_dispatch_sfd (fuel : nat) (events tag : Z) (s : pstate) : io (option (Z * pstate)) :=
  if negb (tag =? TAG_SFD) then oret (OWFD_P2PD_EP_NOT_HANDLED, s)
  else if has_epoll events (Z.lor EPOLLHUP EPOLLERR) then oret (- EPIPE, s)
  else
    let% (l, info) := sys kernel (Read (pd_sfd (fst s)) sizeof_siginfo) in
    if l <? 0 then oret (l, s)
    else if negb (l =? sizeof_siginfo) then oret (OWFD_P2PD_EP_NOT_HANDLED, s)
    else handle_signal fuel (get_le32 info 0) (get_le32 info 12) s.

Definition dispatch_iface (fuel : nat) (tag : Z) (s : pstate) : io (option (Z * pstate)) :=
  match pd_interface (fst s) with
  | None => iret None
  | Some iface =>
    let? (r, iface, counter) :=
      owfd_p2pd_interface_dispatch kernel event_fns fuel iface (snd s) tag in
    oret (r, (fst s <| pd_interface := Some iface |>, counter))
  end.

Fixpoint dispatch_evs (fuel : nat) (evs : list (Z * Z)) (r : Z) (s : pstate) : io (option (Z * pstate)) :=
  match evs with
  | [] => oret (r, s)
  | (events, tag) :: evs =>
    if tag =? 0 then dispatch_evs fuel evs r s
    else
      let? (r, s) := owfd_p2pd_dispatch_sfd fuel events tag s in
      if r <? 0 then oret (r, s)
      else if r =? OWFD_P2PD_EP_HANDLED then dispatch_evs fuel evs r s
      else if r =? OWFD_P2PD_EP_QUIT then oret (r, s)
      else
        let? (r, s) := dispatch_iface fuel tag s in
        if r <? 0 then oret (r, s)
        else if r =? OWFD_P2PD_EP_HANDLED then dispatch_evs fuel evs r s
        else if r =? OWFD_P2PD_EP_QUIT then oret (r, s)
        else dispatch_evs fuel evs r s
  end.

Definition owfd_p2pd_dispatch (fuel : nat) (s : pstate) : io (option (Z * pstate)) :=
  let% (n, d) := sys kernel (EpollWait (pd_efd (fst s)) max_evs (-1)) in
  if n <? 0 then oret (if again n then 0 else n, s)
  else dispatch_evs fuel (ztake (if max_evs <? n then max_evs else n) (epoll_events d)) 0 s.

Fixpoint owfd_p2pd_run (n fuel : nat) (s : pstate) : io (option (Z * pstate)) :=
  match n with
  | O => iret None
  | S n =>
    let? (r, s) := owfd_p2pd_dispatch fuel s in
    if r <? 0 then oret (r, s)
    else if r =? OWFD_P2PD_EP_QUIT then oret (0, s)
    else owfd_p2pd_run n fuel s
  end.

(** ** Setting up and tearing down *)

Definition close_fd (fd : Z) : io Z := if 0 <=? fd then sys_ kernel (Close fd) else iret 0.

Definition owfd_p2pd_teardown (fuel : nat) (p2pd : owfd_p2pd) : io (option unit) :=
  let? iface := owfd_p2pd_dummy_free (pd_dummy p2pd) (pd_interface p2pd) in
  let? _ := owfd_p2pd_interface_free kernel fuel iface in
  let% _ := close_fd (pd_sfd p2pd) in
  let% _ := close_fd (pd_efd p2pd) in
  oret tt.

(** The label [error] of [owfd_p2pd_setup]. *)
Definition setup_error (fuel : nat) (r : Z) (s : pstate) : io (option (Z * pstate)) :=
  let? _ := owfd_p2pd_teardown fuel (fst s) in oret (r, s).

Fixpoint install_handlers (sigs : list Z) : io Z :=
  match sigs with
  | [] => iret 0
  | sig :: sigs =>
    let% r := sys_ kernel (Sigaction sig) in
    if r <? 0 then iret r else install_handlers sigs
  end.

(** From the interface on. *)
Definition setup_objects (fuel : nat) (s : pstate) : io (option (Z * pstate)) :=
  let? (r, iface, counter) :=
    owfd_p2pd_interface_new kernel getpid fuel (pd_config (fst s)) (pd_efd (fst s)) (snd s) in
  let s := (fst s <| pd_interface := iface |>, counter) in
  match iface with
  | None => setup_error fuel r s
  | Some iface =>
    let% (r, iface, dummy) := owfd_p2pd_dummy_new iface in
    let s := (fst s <| pd_interface := Some iface |> <| pd_dummy := dummy |>, counter) in
    if r <? 0 then setup_error fuel r s else oret (0, s)
  end.

Definition owfd_p2pd_setup (fuel : nat) (s : pstate) : io (option (Z * pstate)) :=
  let% efd := sys_ kernel EpollCreate in
  let s := (fst s <| pd_efd := efd |>, snd s) in
  if efd <? 0 then setup_error fuel efd s
  else
    let% r := install_handlers sigs in
    if r <? 0 then setup_error fuel r s
    else
      let% r := sys_ kernel (Sigprocmask sigs) in
      if r <? 0 then setup_error fuel r s
      else
        let% sfd := sys_ kernel (Signalfd sigs) in
        let s := (fst s <| pd_sfd := sfd |>, snd s) in
        if sfd <? 0 then setup_error fuel sfd s
        else
          let% r := owfd_p2pd_ep_add kernel efd sfd TAG_SFD EPOLLIN in
          if r <? 0 then setup_error fuel r s else setup_objects fuel s.

(** What [main] does behind the command line, with the exit status. *)
Definition serve (n fuel : nat) (conf : owfd_p2pd_config) : io (option Z) :=
  let? (r, s) := owfd_p2pd_setup fuel (mkP2pd conf (-1) (-1) None None, 0) in
  let? r :=
    if r <? 0 then oret r
    else
      let? (r, s) := owfd_p2pd_run n fuel s in
      let? _ := owfd_p2pd_teardown fuel (fst s) in
      oret r in
  let% _ := on_heap (owfd_p2pd_clear_config conf) in
  oret (- r).

Definition main (n fuel : nat) (args : list (list Z)) : io (option Z) :=
  let% res := on_heap (owfd_p2pd_parse_argv args owfd_p2pd_init_config) in
  match res with
  | None => iret None
  | Some (r, conf) => if r <? 0 then oret (- r) else serve n fuel conf
  end.

End daemon.
