(* ===== verification/P2pdFacts.v ===== *)
(** * Properties of the daemon.

    What the operations of [P2pdInterface.v] and [P2pd.v] own, on top of what
    [WpaCtrlFacts.v] says of the connection. *)

From stdpp Require Import gmultiset.
From S2P Require Import Prelude CLib RecordSet Getopt WpaParser P2pdConfig Posix WpaCtrl WpaCtrlFacts P2pdInterface P2pd.

(** ** Connections and memory *)

Lemma owp_and {A} F (m : io (option A)) (Q R : A -> world -> Prop) w :
  owp F m Q w -> owp F m R w -> owp F m (fun a w' => Q a w' /\ R a w') w.
Proof. unfold owp, iwp. by destruct (m w) as [[a|] w']. Qed.

Lemma res_on_heap {A} (m : alloc A) (Q : A -> world -> Prop) D N L w :
  res D N L w ->
  wp m (fun a h => exists d, heap_step (w_heap w) h d /\ forall w', res D N (L + d) w' -> Q a w') (w_heap w) ->
  iwp (on_heap m) Q w.
Proof.
  intros Hr Hm. eapply res_heap; [|exact Hr]. eapply wp_mono; [exact Hm|].
  intros a h (d & [Hl _] & HQ) w' Hw. apply HQ. rewrite <- (res_live _ _ _ _ Hr).
  by replace (h_live (w_heap w) + d) with (h_live h) by lia.
Qed.

Lemma res_grant n (Q : bool -> world -> Prop) D N L w :
  res D N L w -> (forall b w', res D N (L + if b : bool then 1 else 0) w' -> Q b w') ->
  iwp (on_heap (grant n)) Q w.
Proof.
  intros Hr HQ. eapply res_on_heap; [exact Hr|]. apply wp_grant; intros h _ Hs.
  - exists 1. split; [done|]. intros w'. apply (HQ true).
  - exists 0. split; [done|]. intros w'. apply (HQ false).
Qed.

Lemma res_free n (Q : unit -> world -> Prop) D N L w :
  res D N L w -> (forall w', res D N (L - n) w' -> Q tt w') -> iwp (on_heap (free_blocks n)) Q w.
Proof.
  intros Hr HQ. eapply res_on_heap; [exact Hr|]. apply wp_free. intros h Hs. by exists (- n).
Qed.

(** A connection in a world with more or fewer blocks. *)
Lemma wowns_world c F G L L' w w' :
  wowns c F G L w -> res (wfds c F) (wfiles c G) (L' + 1) w' -> wowns c F G L' w'.
Proof. intros [_ Hs Href] Hr. by split. Qed.

Lemma wowns_grant n (Q : bool -> world -> Prop) c F G L w :
  wowns c F G L w -> (forall b w', wowns c F G (L + if b : bool then 1 else 0) w' -> Q b w') ->
  iwp (on_heap (grant n)) Q w.
Proof.
  intros Ho HQ. eapply res_grant; [apply Ho|]. intros b w' Hr. apply HQ.
  eapply wowns_world; [exact Ho|]. by rewrite <- Z.add_assoc, (Z.add_comm _ 1), Z.add_assoc.
Qed.

Lemma wowns_free n (Q : unit -> world -> Prop) c F G L w :
  wowns c F G L w -> (forall w', wowns c F G (L - n) w' -> Q tt w') -> iwp (on_heap (free_blocks n)) Q w.
Proof.
  intros Ho HQ. eapply res_free; [apply Ho|]. intros w' Hr. apply HQ.
  eapply wowns_world; [exact Ho|]. by replace (L - n + 1) with (L + 1 - n) by lia.
Qed.

Lemma wowns_quiet {A} (m : io A) c F G L w (Q : A -> world -> Prop) :
  inert_io m -> wowns c F G L w -> (forall a w', wowns c F G L w' -> Q a w') -> iwp m Q w.
Proof.
  intros Hm Ho HQ. eapply iwp_inert; [exact Hm|apply Ho|]. intros a w' Hr. apply HQ. by eapply wowns_world.
Qed.

(** A descriptor the connection does not know. *)
Lemma wfds_add c F fd : wfds c ({[+ fd +]} ⊎ F) = {[+ fd +]} ⊎ wfds c F.
Proof.
  unfold wfds, base, opt_add.
  destruct (0 <=? wc_ev_fd c), (0 <=? wc_req_fd c);
    repeat rewrite (fds_swap {[+ wc_tfd c +]} {[+ fd +]} _), ?(fds_swap {[+ wc_efd c +]} {[+ fd +]} _),
      ?(fds_swap {[+ wc_ev_fd c +]} {[+ fd +]} _), ?(fds_swap {[+ wc_req_fd c +]} {[+ fd +]} _) by done;
    multiset_solver.
Qed.

Lemma wowns_create k (Q : Z -> world -> Prop) kernel c F G L w :
  creates k = true -> wowns c F G L w ->
  (forall r w', r < 0 -> wowns c F G L w' -> Q r w') ->
  (forall fd w', 0 <= fd -> wowns c ({[+ fd +]} ⊎ F) G L w' -> Q fd w') ->
  iwp (sys_ kernel k) Q w.
Proof.
  intros Hk Ho Hneg Hpos. apply iwp_sys_. intros r d _.
  pose proof (res_create _ _ _ k r d w Hk (wo_res _ _ _ _ _ Ho)) as Hr.
  destruct (Z.ltb_spec r 0).
  - apply Hneg; [done|]. by eapply wowns_world.
  - apply Hpos; [done|]. destruct Ho. split; try done. by rewrite wfds_add.
Qed.

Lemma wowns_close (Q : Z -> world -> Prop) kernel c fd F G L w :
  wowns c ({[+ fd +]} ⊎ F) G L w -> (forall r w', wowns c F G L w' -> Q r w') ->
  iwp (sys_ kernel (Close fd)) Q w.
Proof.
  intros [Hr Hs Href] HQ. apply iwp_sys_. intros r d _. apply HQ. split; try done.
  rewrite wfds_add in Hr. by apply res_close.
Qed.

(** ** Calls without an effect on what is owned *)

Section inert_daemon.
Context (kernel : list event -> call -> Z * list Z).

Lemma inert_alive pid : inert_io (is_child_alive kernel pid).
Proof. unfold is_child_alive. inert. Qed.

#[local] Hint Resolve inert_alive : inert.

Lemma inert_round fd pid t : inert_io (wait_round kernel fd pid t).
Proof. unfold wait_round. inert. Qed.

#[local] Hint Resolve inert_round : inert.

Lemma inert_wait_file n fd pid file t : inert_io (wait_file kernel n fd pid file t).
Proof. revert t; induction n; intros t; cbn [wait_file]; inert. Qed.

Lemma inert_ctrl_request fuel c cmd len timeout : inert_io (owfd_wpa_ctrl_request kernel fuel c cmd len timeout).
Proof. unfold owfd_wpa_ctrl_request. inert. Qed.

#[local] Hint Resolve inert_ctrl_request : inert.

Lemma inert_ctrl_request_ok fuel c cmd timeout : inert_io (owfd_wpa_ctrl_request_ok kernel fuel c cmd timeout).
Proof. unfold owfd_wpa_ctrl_request_ok. inert. Qed.

#[local] Hint Resolve inert_ctrl_request_ok : inert.

Lemma inert_setup fuel c : inert_io (wpa_setup kernel fuel c).
Proof.
  assert (forall reqs, inert_io (request_all kernel fuel c reqs)).
  { induction reqs; cbn [request_all]; unfold iface_request_ok; inert. }
  unfold wpa_setup, iface_request. inert.
Qed.

Lemma inert_kill fuel iface : inert_io (kill_wpa kernel fuel iface).
Proof. unfold kill_wpa, send_sigterm. inert. Qed.

Lemma inert_child iface : inert_io (run_child kernel iface).
Proof. unfold run_child. inert. Qed.

Lemma inert_handlers l : inert_io (install_handlers kernel l).
Proof. induction l; cbn [install_handlers]; inert. Qed.

Lemma inert_ep_add efd fd tag events : inert_io (owfd_p2pd_ep_add kernel efd fd tag events).
Proof. unfold owfd_p2pd_ep_add. inert. Qed.
End inert_daemon.

#[export] Hint Resolve inert_alive inert_round inert_wait_file inert_ctrl_request inert_ctrl_request_ok inert_setup
  inert_kill inert_child inert_handlers inert_ep_add : inert.

(** ** Events *)

Section events.
Context (kernel : list event -> call -> Z * list Z).

(** Runs that give a connection back as it was. *)
Definition same_wpa (m : wstate -> io (option wstate)) : Prop := forall s F G L w,
  wowns (fst s) F G L w -> owp True (m s) (fun s' w' => s' = s /\ wowns (fst s) F G L w') w.

Lemma connect_keeps fuel c mac pin mode F G L w :
  wowns c F G L w ->
  owp True (owfd_p2pd_interface_connect kernel fuel c mac pin mode) (fun _ w' => wowns c F G L w') w.
Proof.
  intros Ho. unfold owfd_p2pd_interface_connect. cbv zeta. apply owp_ibind.
  eapply wowns_grant; [exact Ho|]. intros [] w1 H1; cbn [negb].
  - apply owp_obind. unfold iface_request_ok. eapply wowns_inert; [apply inert_ctrl_request_ok|exact H1|].
    intros r w2 H2. apply owp_ibind. eapply wowns_free; [exact H2|]. intros w3 H3. apply owp_ret.
    by replace (L + 1 - 1) with L in H3 by lia.
  - apply owp_ret. by rewrite Z.add_0_r in H1.
Qed.

Lemma event_fns_same fuel fn ev data : same_wpa (event_fns kernel fuel fn ev data).
Proof.
  intros s F G L w Ho. unfold event_fns, dummy_event_fn.
  destruct (fn =? DUMMY_EVENT_FN); [|by apply owp_ret].
  destruct (ev_type ev); try by apply owp_ret.
  apply owp_obind. eapply owp_mono; [by apply connect_keeps|]. intros r w1 H1. by apply owp_ret.
Qed.

Lemma call_users_same fuel ev l : same_wpa (call_users (event_fns kernel) fuel ev l).
Proof.
  induction l as [|e l IH]; intros s F G L w Ho; cbn [call_users]; [by apply owp_ret|].
  apply owp_obind. destruct (eu_event_fn e =? 0); cbn [negb].
  - apply owp_ret. by apply IH.
  - eapply owp_mono; [by apply event_fns_same|]. intros s1 w1 [-> H1]. by apply IH.
Qed.

Lemma wpa_event_same users fuel buf :
  strlen buf < 2 ^ 62 -> same_wpa (wpa_event (event_fns kernel) users fuel buf).
Proof.
  intros Hl s F G L w Ho. unfold wpa_event. apply owp_ibind. eapply res_on_heap; [apply Ho|].
  eapply wp_mono; [apply wp_event_parse; [apply init_wf|done]|]. intros [r ev] h1 (Hwf & Hs & _).
  eexists; split; [exact Hs|]. change (ev_owned owfd_wpa_event_init) with 0. intros w1 H1.
  assert (wowns (fst s) F G (L + ev_owned ev) w1) as Ho1.
  { eapply wowns_world; [exact Ho|]. by replace (L + ev_owned ev + 1) with (L + 1 + (ev_owned ev - 0)) by lia. }
  apply owp_obind, (owp_mono _ _ (fun s' w' => s' = s /\ wowns (fst s) F G (L + ev_owned ev) w')).
  { destruct (r <? 0); [by apply owp_ret|]. destruct (_ =? _); [by apply owp_ret|]. by apply call_users_same. }
  intros s2 w2 [-> H2]. apply owp_ibind. eapply res_on_heap; [apply H2|].
  apply wp_reset; [done|]. intros h3 Hs3. eexists; split; [exact Hs3|]. intros w3 H3. apply owp_ret.
  split; [done|]. eapply wowns_world; [exact Ho|].
  by replace (L + 1) with (L + ev_owned ev + 1 + - ev_owned ev) by lia.
Qed.

Lemma iface_callback_same users fuel fn buf :
  zlen buf <= REQ_REPLY_MAX -> same_wpa (iface_callback (event_fns kernel) users fuel fn buf).
Proof.
  intros Hl s F G L w Ho. unfold iface_callback. destruct (_ =? _)%nat; [|by apply owp_ret].
  apply wpa_event_same; [|done]. pose proof (strlen_le buf). unfold REQ_REPLY_MAX in Hl. lia.
Qed.
End events.

(** ** The interface *)

(** An interface owns its block, those of its event users, and its connection,
    to which it has the only reference. *)
Record iowns (iface : owfd_p2pd_interface) F G L (w : world) : Prop := {
  io_wpa : wowns (if_wpa iface) F G (L + 1 + zlen (if_event_users iface)) w;
  io_ref : wc_ref (if_wpa iface) = 1;
}.

Section interface.
Context (kernel : list event -> call -> Z * list Z) (getpid : Z).
Context (mktemp_fresh : forall t template r name,
  kernel t (Mktemp template) = (r, name) -> ztake (UNIX_PATH_MAX - 1) name ∉ files t).

(** What waiting for wpa_supplicant leaves. *)
Definition waited (c : owfd_wpa_ctrl) F G L (x : Z * wstate) (w : world) : Prop :=
  wowns (fst (snd x)) F G L w /\ same_base c (fst (snd x)) /\ (0 <= fst x -> fst x = 0 /\ 0 <= wc_ev_fd (fst (snd x))).

Lemma waited_error c c0 counter r F G L w :
  r < 0 -> wowns c F G L w -> same_base c0 c -> owp True (oret (r, (c, counter))) (waited c0 F G L) w.
Proof. intros Hr Ho Hb. apply owp_ret. split_and!; [done|done|cbn; lia]. Qed.

Lemma same_base_trans a b c : same_base a b -> same_base b c -> same_base a c.
Proof. intros (? & ? & ?) (? & ? & ?). repeat split; congruence. Qed.

(** Opening the socket, once or in a loop. *)
Lemma try_open_spec fuel c0 s file F G L w (k : Z -> owfd_wpa_ctrl -> Z -> io (option (Z * wstate))) :
  wowns (fst s) F G L w -> same_base c0 (fst s) ->
  (forall r c counter w', r < 0 -> wowns c F G L w' -> same_base c0 c ->
    owp True (k r c counter) (waited c0 F G L) w') ->
  owp True (let? (r, c, counter) := owfd_wpa_ctrl_open kernel getpid fuel (fst s) file (Some WPA_EVENT) (snd s) in
    if 0 <=? r then oret (0, (c, counter)) else k r c counter) (waited c0 F G L) w.
Proof.
  intros Ho Hb Hk. apply owp_obind. eapply owp_mono; [by apply open_spec|].
  intros [[r c] counter] w1 (Ho1 & Hb1 & _ & Hpos). pose proof (same_base_trans _ _ _ Hb Hb1) as Hb2.
  destruct (Z.leb_spec 0 r); [|by apply Hk]. apply owp_ret. split_and!; [done|done|].
  intros _. split; [done|by apply Hpos].
Qed.

Lemma wait_open_spec fuel n fd pid file t c0 s F G L w :
  wowns (fst s) F G L w -> same_base c0 (fst s) ->
  owp True (wait_open kernel getpid fuel n fd pid file t s) (waited c0 F G L) w.
Proof.
  revert t s w; induction n as [|n IH]; intros t s w Ho Hb; cbn [wait_open]; [done|].
  apply owp_ibind. eapply wowns_quiet; [apply inert_round|exact Ho|]. intros [r t1] w1 H1.
  destruct (Z.ltb_spec r 0); [destruct s; by apply waited_error|].
  apply try_open_spec; [done|done|]. intros r2 c counter w2 Hr2 H2 Hb2.
  apply owp_ibind. eapply wowns_quiet; [by apply inert_sys_|exact H2|]. intros r3 w3 H3.
  destruct (t1 <=? 0); [by apply waited_error|by apply IH].
Qed.

Lemma wait_socket_spec fuel fd wd pid file t s F G L w :
  wowns (fst s) F G L w ->
  owp True (wait_socket kernel getpid fuel fd wd pid file t s) (waited (fst s) F G L) w.
Proof.
  intros Ho. unfold wait_socket. apply owp_ibind.
  eapply wowns_quiet; [inert|exact Ho|]. intros r1 w1 H1. apply owp_ibind.
  eapply wowns_quiet; [by apply inert_sys_|exact H1|]. intros r2 w2 H2. apply owp_ibind.
  eapply wowns_quiet; [apply inert_alive|exact H2|]. intros alive w3 H3.
  destruct alive; cbn [negb]; [|destruct s; by apply waited_error].
  apply try_open_spec; [done|done|]. intros r c counter w4 Hr H4 Hb. by apply wait_open_spec.
Qed.

Lemma wait_started_spec fuel fd wd pid file t s F G L w :
  wowns (fst s) F G L w ->
  owp True (wait_started kernel getpid fuel fd wd pid file t s) (waited (fst s) F G L) w.
Proof.
  intros Ho. unfold wait_started. apply owp_ibind.
  eapply wowns_quiet; [apply inert_alive|exact Ho|]. intros alive w1 H1.
  destruct alive; cbn [negb]; [|destruct s; by apply waited_error].
  apply owp_ibind. eapply wowns_quiet; [by apply inert_sys_|exact H1|]. intros a w2 H2.
  apply owp_obind. eapply wowns_inert; [inert|exact H2|]. intros [r t1] w3 H3.
  destruct (Z.ltb_spec r 0); [destruct s; by apply waited_error|by apply wait_socket_spec].
Qed.

(** The interface behind a step of starting it: nothing but its connection has
    changed. *)
Definition started (iface : owfd_p2pd_interface) F G L (x : Z * owfd_p2pd_interface * Z) (w : world) : Prop :=
  let '(r, i, _) := x in
  wowns (if_wpa i) F G L w /\ same_base (if_wpa iface) (if_wpa i) /\ if_config i = if_config iface /\
  if_pid i = if_pid iface /\ if_event_users i = if_event_users iface /\
  (0 <= r -> r = 0 /\ 0 <= wc_ev_fd (if_wpa i)).

Lemma wait_for_wpa_spec fuel iface file counter F G L w :
  wowns (if_wpa iface) F G L w ->
  owp True (wait_for_wpa kernel getpid fuel iface file counter) (started iface F G L) w.
Proof.
  intros Ho. unfold wait_for_wpa. apply owp_ibind. eapply (wowns_create InotifyInit); [done|exact Ho| |].
  { intros r w1 Hr H1. rewrite (proj2 (Z.ltb_lt _ _)) by done. apply owp_ret. split_and!; (done || lia). }
  intros fd w1 Hfd H1. rewrite (proj2 (Z.ltb_ge _ _)) by done.
  apply owp_ibind. eapply wowns_quiet; [by apply inert_sys_|exact H1|]. intros wd w2 H2.
  apply owp_obind. eapply owp_mono; [by apply (wait_started_spec _ _ _ _ _ _ (if_wpa iface, counter))|].
  intros [r [c counter']] w3 (H3 & Hb & Hr). cbn [fst snd] in *.
  apply owp_ibind. eapply wowns_close; [exact H3|]. intros r4 w4 H4. apply owp_ret. by split_and!.
Qed.

Lemma fork_wpa_spec fuel iface counter F G L w :
  wowns (if_wpa iface) F G L w ->
  owp True (fork_wpa kernel getpid fuel iface counter) (fun x w' => let '(r, i, _) := x in
    wowns (if_wpa i) F G L w' /\ same_base (if_wpa iface) (if_wpa i) /\
    if_event_users i = if_event_users iface /\ r <= 0) w.
Proof.
  intros Ho. unfold fork_wpa. apply owp_ibind. eapply wowns_quiet; [by apply inert_sys_|exact Ho|]. intros pid w1 H1.
  destruct (Z.ltb_spec pid 0); [apply owp_ret; split_and!; (done || lia)|].
  destruct (pid =? 0).
  { apply owp_obind. eapply wowns_inert; [apply inert_child|exact H1|]. intros u w2 H2.
    apply owp_ibind, iwp_sys_. by intros. }
  cbv zeta. apply owp_ibind. eapply wowns_grant; [exact H1|]. intros [] w2 H2; cbn [negb].
  2: { apply owp_ret. rewrite Z.add_0_r in H2. by split_and!. }
  apply owp_obind. eapply owp_mono.
  { apply (wait_for_wpa_spec _ _ _ _ F G (L + 1)). cbn. by destruct H2. }
  intros [[r i] counter'] w3 (H3 & Hb & _ & _ & Hu & Hr). cbn in Hb, Hu.
  apply owp_ibind. eapply wowns_free; [exact H3|]. intros w4 H4. rewrite Z.add_simpl_r in H4.
  destruct (Z.ltb_spec r 0); [apply owp_ret; split_and!; (done || lia)|].
  apply owp_obind. eapply wowns_inert; [apply inert_setup|exact H4|]. intros r5 w5 H5. apply owp_ret.
  split_and!; try done. destruct (Z.ltb_spec r5 0); lia.
Qed.

Lemma stop_iface_spec fuel iface F G L w :
  wowns (if_wpa iface) F G (L + 1) w -> wc_ref (if_wpa iface) = 1 ->
  owp True (stop_iface kernel fuel iface) (fun _ w' => res F G L w') w.
Proof.
  intros Ho Href. unfold stop_iface. apply owp_obind. eapply wowns_inert; [apply inert_kill|exact Ho|]. intros u w1 H1.
  apply owp_obind. eapply owp_mono; [by apply close_spec|]. intros c w2 (H2 & (_ & _ & Hr) & _).
  apply owp_obind. eapply owp_mono; [by apply wpa_unref_spec|]. intros [c'|] w3; [intros [Hne _]; congruence|].
  intros [_ H3]. apply owp_ibind. eapply res_free; [exact H3|]. intros w4 H4.
  apply owp_ret. by rewrite Z.add_simpl_r in H4.
Qed.

Lemma interface_new_spec fuel conf efd counter F G L w :
  res F G L w ->
  owp True (owfd_p2pd_interface_new kernel getpid fuel conf efd counter) (fun x w' => let '(r, o, _) := x in
    match o with
    | Some i => r = 0 /\ if_event_users i = [] /\ iowns i F G L w'
    | None => r < 0 /\ res F G L w'
    end) w.
Proof.
  intros Hr. unfold owfd_p2pd_interface_new. apply owp_ibind. eapply res_grant; [exact Hr|].
  intros [] w1 H1; cbn [negb]; [|apply owp_ret; by rewrite Z.add_0_r in H1].
  apply owp_ibind. eapply iwp_mono; [by apply wpa_new_spec|]. intros [r [c|]] w2; cbn [fst snd].
  2: { intros [Hneg H2]. apply owp_ibind. eapply res_free; [exact H2|]. intros w3 H3. apply owp_ret.
       by rewrite Z.add_simpl_r in H3. }
  intros (-> & Href & H2). cbv zeta.
  apply owp_obind. eapply owp_mono.
  { apply (fork_wpa_spec _ _ _ F G (L + 1)). cbn. by destruct H2. }
  intros [[r3 i] counter3] w3 (H3 & (_ & _ & Hb) & Hu & Hr3). cbn in Hb, Hu.
  assert (forall r j w', r < 0 -> wowns (if_wpa j) F G (L + 1) w' -> wc_ref (if_wpa j) = 1 ->
    owp True (err_kill kernel fuel r j counter3) (fun x w' => let '(r, o, _) := x in
      match o with Some i => r = 0 /\ if_event_users i = [] /\ iowns i F G L w' | None => r < 0 /\ res F G L w' end) w') as Herr.
  { intros r j w' Hneg Hj Hjr. unfold err_kill. apply owp_obind. eapply owp_mono; [by apply stop_iface_spec|].
    intros u w4 H4. by apply owp_ret. }
  destruct (Z.ltb_spec r3 0); [apply Herr; (done || congruence)|].
  apply owp_ibind. eapply wowns_quiet; [apply inert_ep_add|exact H3|]. intros r5 w5 H5.
  destruct (Z.ltb_spec r5 0); [apply Herr; (done || cbn; congruence)|]. apply owp_ret.
  split_and!; [done|done|]. split; [|cbn; congruence]. cbn. rewrite Hu. by rewrite Z.add_0_r.
Qed.
End interface.

(** ** The daemon *)

Definition dummy_users (d : option owfd_p2pd_dummy) : list event_user :=
  match d with Some _ => [mkUser DUMMY_EVENT_FN ADDR_DUMMY] | None => [] end.

(** The descriptors the daemon itself has open. *)
Definition pfds (p : owfd_p2pd) (F : gmultiset Z) : gmultiset Z :=
  opt_add (pd_sfd p) (pd_sfd p) (opt_add (pd_efd p) (pd_efd p) F).

Definition downs (p : owfd_p2pd) F G L (w : world) : Prop :=
  match pd_interface p with
  | None => pd_dummy p = None /\ res (pfds p F) G L w
  | Some i => if_event_users i = dummy_users (pd_dummy p) /\
              iowns i (pfds p F) G (L + opt_blocks (pd_dummy p)) w
  end.

Lemma downs_res p F G L w : pd_interface p = None -> pd_dummy p = None -> downs p F G L w <-> res (pfds p F) G L w.
Proof. unfold downs. intros -> ->. tauto. Qed.

Section daemon.
Context (kernel : list event -> call -> Z * list Z) (getpid : Z).

Lemma close_fd_spec fd D N L w :
  res (opt_add fd fd D) N L w -> iwp (close_fd kernel fd) (fun _ w' => res D N L w') w.
Proof.
  unfold close_fd, opt_add. destruct (0 <=? fd); intros Hr; [|by apply iwp_ret].
  apply iwp_sys_. intros r d _. by apply res_close.
Qed.

Lemma teardown_spec fuel p F G L w :
  downs p F G L w -> owp True (owfd_p2pd_teardown kernel fuel p) (fun _ w' => res F G L w') w.
Proof.
  intros Hd. unfold owfd_p2pd_teardown.
  apply owp_obind, (owp_mono _ _ (fun o w' => match o with
    | None => res (pfds p F) G L w'
    | Some i => if_event_users i = [] /\ iowns i (pfds p F) G L w'
    end)).
  { unfold downs in Hd. destruct (pd_interface p) as [i|]; [|destruct Hd as [-> Hr]; by apply owp_ret].
    destruct Hd as [Hu [Ho Href]]. destruct (pd_dummy p) as [d|]; cbn [owfd_p2pd_dummy_free];
      [|apply owp_ret; split; [done|]; split; [by rewrite Z.add_0_r in Ho|done]].
    apply owp_ibind. unfold owfd_p2pd_interface_unregister_event_fn. rewrite Hu in Ho |- *. cbn [dummy_users remove_user].
    change (_ && _) with true. cbn [opt_blocks] in Ho. apply iwp_bind, iwp_bind. eapply wowns_free; [exact Ho|].
    intros w1 H1. apply iwp_ret, iwp_ret. apply owp_ibind. eapply wowns_free; [exact H1|]. intros w2 H2.
    apply owp_ret. split; [done|]. split; [|done]. cbn [if_wpa if_event_users rset].
    replace (L + 1 + zlen []) with (L + 1 + 1 + zlen (dummy_users (Some d)) - 1 - 1) by (cbn [dummy_users]; zlia).
    exact H2. }
  intros o w1 H1. apply owp_obind, (owp_mono _ _ (fun _ w' => res (pfds p F) G L w')).
  { destruct o as [i|]; cbn [owfd_p2pd_interface_free]; [|by apply owp_ret].
    destruct H1 as [Hu [Ho Href]]. rewrite Hu in Ho |- *. apply owp_ibind, iwp_ret.
    apply stop_iface_spec; [|done]. by rewrite zlen_nil, Z.add_0_r in Ho. }
  intros u w2 H2. apply owp_ibind. eapply iwp_mono; [by apply close_fd_spec|]. intros r3 w3 H3. cbn beta in H3.
  apply owp_ibind. eapply iwp_mono; [by apply close_fd_spec|]. intros r4 w4 H4. by apply owp_ret.
Qed.

(** *** Dispatching *)

Lemma downs_inert p F G L w w' :
  (forall D N L, res D N L w -> res D N L w') -> downs p F G L w -> downs p F G L w'.
Proof.
  intros Hr. unfold downs. destruct (pd_interface p) as [i|].
  - intros [Hu [Ho Href]]. split; [done|]. split; [|done]. by apply (wowns_only_inert _ _ _ (if_wpa i, 0) w w').
  - intros [Hn H]. split; [done|]. by apply Hr.
Qed.

Lemma handle_signal_spec fuel signo pid s F G L w :
  downs (fst s) F G L w ->
  owp True (handle_signal kernel fuel signo pid s) (fun x w' => downs (fst (snd x)) F G L w') w.
Proof.
  intros Hd. unfold handle_signal.
  destruct (signo =? SIGCHLD); [|destruct (signo =? SIGPIPE); by apply owp_ret].
  unfold downs in Hd. destruct (pd_interface (fst s)) as [i|] eqn:Hi; [|done]. destruct Hd as [Hu [Ho Href]].
  apply owp_obind. unfold owfd_p2pd_interface_dispatch_chld. destruct (_ || _).
  - apply owp_ret, owp_ret. split; [done|]. by split.
  - apply owp_obind. eapply owp_mono; [by apply close_spec|]. intros c w1 (H1 & (_ & _ & Hc) & _).
    apply owp_ret, owp_ret. split; [done|]. split; [done|]. cbn. congruence.
Qed.

Lemma dispatch_sfd_spec fuel events tag s F G L w :
  downs (fst s) F G L w ->
  owp True (owfd_p2pd_dispatch_sfd kernel fuel events tag s) (fun x w' => downs (fst (snd x)) F G L w') w.
Proof.
  intros Hd. unfold owfd_p2pd_dispatch_sfd. destruct (negb _); [by apply owp_ret|].
  destruct (has_epoll _ _); [by apply owp_ret|]. apply owp_ibind, iwp_sys. intros l info _.
  eapply (downs_inert _ _ _ _ _ (called (Read (pd_sfd (fst s)) sizeof_siginfo) l info w)) in Hd;
    [|intros D N L'; by apply res_inert].
  destruct (l <? 0); [by apply owp_ret|]. destruct (negb _); [by apply owp_ret|]. by apply handle_signal_spec.
Qed.

Lemma dispatch_iface_spec fuel tag s F G L w :
  downs (fst s) F G L w ->
  owp True (dispatch_iface kernel fuel tag s) (fun x w' => downs (fst (snd x)) F G L w') w.
Proof.
  intros Hd. unfold dispatch_iface, downs in *. destruct (pd_interface (fst s)) as [i|] eqn:Hi; [|done].
  destruct Hd as [Hu [Ho Href]]. apply owp_obind. unfold owfd_p2pd_interface_dispatch.
  destruct (negb _); [apply owp_ret, owp_ret; split; [done|]; by split|].
  apply owp_obind. eapply owp_mono.
  { set (c0 := if_wpa i) in *.
    apply (wpa_dispatch_spec kernel _ (fun s' w' => fst s' = c0 /\ wowns c0 (pfds (fst s) F) G
        (L + opt_blocks (pd_dummy (fst s)) + 1 + zlen (if_event_users i)) w')); [| |done].
    - intros s' w1 w2 Hr [-> H1]. split; [done|]. destruct H1. split; [by apply Hr|done|done].
    - intros fu fn buf s' w1 Hl [He H1]. rewrite <- He in H1. eapply owp_mono; [by apply iface_callback_same|].
      intros s2 w2 [-> H2]. by rewrite He in H2. }
  intros [r s'] w1 [He H1]. cbn [fst snd] in *. apply owp_ret, owp_ret. cbn. split; [done|]. rewrite He.
  split; [exact H1|exact Href].
Qed.

Lemma dispatch_evs_spec fuel evs r s F G L w :
  downs (fst s) F G L w ->
  owp True (dispatch_evs kernel fuel evs r s) (fun x w' => downs (fst (snd x)) F G L w') w.
Proof.
  revert r s w; induction evs as [|[events tag] evs IH]; intros r s w Hd; cbn [dispatch_evs]; [by apply owp_ret|].
  destruct (tag =? 0); [by apply IH|]. apply owp_obind. eapply owp_mono; [by apply dispatch_sfd_spec|].
  intros [r1 s1] w1 H1. cbn [fst snd] in H1. destruct (r1 <? 0); [by apply owp_ret|].
  destruct (r1 =? _); [by apply IH|]. destruct (r1 =? _); [by apply owp_ret|].
  apply owp_obind. eapply owp_mono; [by apply dispatch_iface_spec|].
  intros [r2 s2] w2 H2. cbn [fst snd] in H2. destruct (r2 <? 0); [by apply owp_ret|].
  destruct (r2 =? _); [by apply IH|]. destruct (r2 =? _); [by apply owp_ret|by apply IH].
Qed.

Lemma run_spec n fuel s F G L w :
  downs (fst s) F G L w ->
  owp True (owfd_p2pd_run kernel n fuel s) (fun x w' => downs (fst (snd x)) F G L w') w.
Proof.
  revert s w; induction n as [|n IH]; intros s w Hd; cbn [owfd_p2pd_run]; [done|].
  apply owp_obind. unfold owfd_p2pd_dispatch. eapply (owp_mono _ _ (fun x w' => downs (fst (snd x)) F G L w')).
  - apply owp_ibind, iwp_sys. intros l d _.
    eapply (downs_inert _ _ _ _ _ (called (EpollWait (pd_efd (fst s)) max_evs (-1)) l d w)) in Hd;
      [|intros D N L'; by apply res_inert].
    destruct (l <? 0); [by apply owp_ret|by apply dispatch_evs_spec].
  - intros [r1 s1] w1 H1. destruct (r1 <? 0); [by apply owp_ret|]. destruct (r1 =? _); [by apply owp_ret|by apply IH].
Qed.
End daemon.

(** *** Setting up *)

Section setup.
Context (kernel : list event -> call -> Z * list Z) (getpid : Z).
Context (mktemp_fresh : forall t template r name,
  kernel t (Mktemp template) = (r, name) -> ztake (UNIX_PATH_MAX - 1) name ∉ files t).

(** After a failure everything has been given back; after a success there is an
    interface. *)
Definition set_up F G L (x : Z * pstate) (w : world) : Prop :=
  if fst x <? 0 then res F G L w
  else fst x = 0 /\ is_Some (pd_interface (fst (snd x))) /\ downs (fst (snd x)) F G L w.

Lemma setup_error_spec fuel r s F G L w :
  r < 0 -> downs (fst s) F G L w -> owp True (setup_error kernel fuel r s) (set_up F G L) w.
Proof.
  intros Hr Hd. unfold setup_error. apply owp_obind. eapply owp_mono; [by apply teardown_spec|].
  intros u w1 H1. apply owp_ret. unfold set_up. cbn [fst]. by rewrite (proj2 (Z.ltb_lt _ _)).
Qed.

Lemma dummy_new_spec i (Q : Z * owfd_p2pd_interface * option owfd_p2pd_dummy -> world -> Prop) F G L w :
  iowns i F G L w -> if_event_users i = [] ->
  (forall r i' d w', (if r <? 0 then d = None else r = 0) ->
     if_event_users i' = dummy_users d -> iowns i' F G (L + opt_blocks d) w' -> Q (r, i', d) w') ->
  iwp (owfd_p2pd_dummy_new i) Q w.
Proof.
  intros [Ho Href] Hu HQ. rewrite Hu, zlen_nil, Z.add_0_r in Ho. unfold owfd_p2pd_dummy_new.
  assert (forall r w', r < 0 -> wowns (if_wpa i) F G (L + 1) w' -> Q (r, i, None) w') as Hfail.
  { intros r w' Hr H. apply HQ; [by rewrite (proj2 (Z.ltb_lt _ _))|done|]. split; [|done].
    rewrite Hu. change (wowns (if_wpa i) F G (L + 0 + 1 + 0) w'). by rewrite !Z.add_0_r. }
  apply iwp_bind. eapply wowns_grant; [exact Ho|]. intros [] w1 H1; cbn [negb].
  2: { apply iwp_ret, Hfail; [done|]. by rewrite Z.add_0_r in H1. }
  apply iwp_bind. unfold owfd_p2pd_interface_register_event_fn. apply iwp_bind.
  eapply wowns_grant; [exact H1|]. intros [] w2 H2; apply iwp_ret; cbn [Z.ltb].
  - change (0 <? 0) with false. apply iwp_ret, HQ; [done|cbn; by rewrite Hu|]. split; [|done].
    cbn [if_wpa if_event_users rset]. rewrite Hu. cbn [opt_blocks].
    by replace (L + 1 + 1 + zlen [mkUser DUMMY_EVENT_FN ADDR_DUMMY]) with (L + 1 + 1 + 1) by zlia.
  - change (- ENOMEM <? 0) with true. cbv iota. apply iwp_bind. eapply wowns_free; [exact H2|]. intros w3 H3.
    apply iwp_ret, Hfail; [done|].
    by replace (L + 1) with (L + 1 + 1 + 0 - 1) by lia.
Qed.

Lemma setup_objects_spec fuel s F G L w :
  pd_interface (fst s) = None -> pd_dummy (fst s) = None -> res (pfds (fst s) F) G L w ->
  owp True (setup_objects kernel getpid fuel s) (set_up F G L) w.
Proof.
  intros Hi Hn Hr. unfold setup_objects. apply owp_obind. eapply owp_mono; [by apply interface_new_spec|].
  intros [[r [i|]] counter] w1; cbv zeta.
  2: { intros [Hneg H1]. apply setup_error_spec; [done|]. by apply downs_res. }
  intros (-> & Hu & Ho). apply owp_ibind. eapply dummy_new_spec; [exact Ho|exact Hu|]. intros r i' d w2 Hd Hu' H2. cbv zeta.
  destruct (Z.ltb_spec r 0) as [Hneg|Hpos].
  - apply setup_error_spec; [done|]. by split.
  - apply owp_ret. unfold set_up. cbn [fst snd]. rewrite (proj2 (Z.ltb_ge _ _)) by lia.
    split_and!; [done|by eexists|]. by split.
Qed.

Lemma setup_spec fuel conf counter F G L w :
  res F G L w ->
  owp True (owfd_p2pd_setup kernel getpid fuel (mkP2pd conf (-1) (-1) None None, counter)) (set_up F G L) w.
Proof.
  intros Hr. unfold owfd_p2pd_setup. apply owp_ibind, iwp_sys_. intros efd d1 _. cbv zeta.
  pose proof (res_create _ _ _ EpollCreate efd d1 _ eq_refl Hr) as H1.
  destruct (Z.ltb_spec efd 0) as [Hneg|Hefd].
  { apply setup_error_spec; [done|]. apply downs_res; [done..|]. unfold pfds. cbn. by rewrite !opt_none. }
  set (p1 := mkP2pd conf efd (-1) None None). change (_ <| pd_efd := efd |>) with p1. cbn [fst snd].
  assert (forall r w', r < 0 -> res ({[+ efd +]} ⊎ F) G L w' ->
    owp True (setup_error kernel fuel r (p1, counter)) (set_up F G L) w') as Herr.
  { intros r w' Hr' Hw. apply setup_error_spec; [done|]. apply downs_res; [done..|]. unfold pfds, p1. cbn.
    by rewrite opt_some. }
  apply owp_ibind. eapply iwp_inert; [apply inert_handlers|exact H1|]. intros r2 w2 H2.
  destruct (Z.ltb_spec r2 0); [by apply Herr|].
  apply owp_ibind. eapply iwp_inert; [by apply inert_sys_|exact H2|]. intros r3 w3 H3.
  destruct (Z.ltb_spec r3 0); [by apply Herr|].
  apply owp_ibind, iwp_sys_. intros sfd d4 _. cbv zeta.
  pose proof (res_create _ _ _ (Signalfd sigs) sfd d4 _ eq_refl H3) as H4.
  set (p2 := mkP2pd conf efd sfd None None). change (p1 <| pd_sfd := sfd |>) with p2.
  destruct (Z.ltb_spec sfd 0) as [Hneg|Hsfd].
  { apply setup_error_spec; [done|]. apply downs_res; [done..|]. unfold pfds, p2. cbn.
    rewrite opt_none by done. by rewrite opt_some. }
  assert (pfds p2 F = {[+ sfd +]} ⊎ ({[+ efd +]} ⊎ F)) as Hp by (unfold pfds, p2; cbn; by rewrite !opt_some).
  apply owp_ibind. eapply iwp_inert; [apply inert_ep_add|exact H4|]. intros r5 w5 H5. rewrite <- Hp in H5.
  destruct (Z.ltb_spec r5 0).
  - apply setup_error_spec; [done|]. by apply downs_res.
  - by apply setup_objects_spec.
Qed.

Lemma serve_spec n fuel conf F G L w :
  res F G (L + owned conf) w -> owp True (serve kernel getpid n fuel conf) (fun _ w' => res F G L w') w.
Proof.
  intros Hr. unfold serve. apply owp_obind. eapply owp_mono; [by apply setup_spec|].
  intros [r s] w1 H1. unfold set_up in H1. cbn [fst snd] in H1.
  apply owp_obind, (owp_mono _ _ (fun _ w' => res F G (L + owned conf) w')).
  - destruct (r <? 0); [by apply owp_ret|]. destruct H1 as (_ & _ & Hd).
    apply owp_obind. eapply owp_mono; [by apply run_spec|]. intros [r2 s2] w2 H2. cbn [fst snd] in H2.
    apply owp_obind. eapply owp_mono; [by apply teardown_spec|]. intros u w3 H3. by apply owp_ret.
  - intros r2 w2 H2. apply owp_ibind. eapply res_on_heap; [exact H2|].
    apply wp_free_strings. intros h Hs. eexists; split; [exact Hs|]. intros w3 H3. apply owp_ret.
    unfold owned in H3. by replace (L + _ + _) with L in H3 by lia.
Qed.
End setup.

(** ** Properties *)

Section properties.
Context (kernel : list event -> call -> Z * list Z) (getpid : Z).

(** C12. The daemon cleans up after itself: whatever the system answers, however
    the command line, the set-up or the event loop fails, and whatever events
    and signals arrive, when [main] returns the process has the descriptors,
    socket files and memory blocks it was started with, and nothing was closed
    twice.  The one exception is a command line that is refused, after which
    [main] keeps the strings it has copied from it.  [mktemp] is taken to give
    names that are not in use. *)
Theorem p2pd_main_no_leak n fuel args w status w' F G L :
  (forall t template r name,
     kernel t (Mktemp template) = (r, name) -> ztake (UNIX_PATH_MAX - 1) name ∉ files t) ->
  res F G L w -> main kernel getpid n fuel args w = (Some status, w') ->
  res F G L w' \/
  exists r conf h, owfd_p2pd_parse_argv args owfd_p2pd_init_config (w_heap w) = (Some (r, conf), h) /\
    r < 0 /\ status = - r /\ res F G (L + owned conf) w'.
Proof.
  intros Hfresh Hr Hm. unfold main, ibind, on_heap in Hm.
  pose proof (p2pd_parse_keeps args (w_heap w)) as Hp. unfold wp in Hp.
  destruct (owfd_p2pd_parse_argv args owfd_p2pd_init_config (w_heap w)) as [res h] eqn:He.
  destruct Hp as (r & conf & -> & Hcases & Hs). cbv zeta in Hm.
  assert (WpaCtrlFacts.res F G (L + owned conf) (mkWorld h (w_fds w) (w_bad w) (w_trace w))) as H1.
  { destruct Hr as [Hf Hn Hl Hb]. split; try done. destruct Hs as [Hs _]. cbn [w_heap].
    change (owned owfd_p2pd_init_config) with 0 in Hs. lia. }
  destruct (Z.ltb_spec r 0).
  - right. exists r, conf, h. unfold oret, iret in Hm. simplify_eq. by split_and!.
  - left. pose proof (serve_spec kernel getpid Hfresh n fuel conf F G L _ H1) as Hserve.
    unfold owp, iwp in Hserve. by rewrite Hm in Hserve.
Qed.

End properties.
