(* ===== verification/P2pdLife.v ===== *)
(** * Runs of the daemon.

    What happens to the wpa_supplicant process the daemon starts, why the event
    loop stops, what the daemon answers to an event, and that nothing but the
    event loop can wait for ever. *)

From stdpp Require Import gmultiset.
From S2P Require Import Prelude CLib RecordSet Getopt Bytes WpaParser P2pdConfig Posix WpaCtrl WpaCtrlFacts P2pdInterface P2pd P2pdFacts.

(** ** Runs that start no process *)

Definition forkless (e : event) : Prop := ev_call e = Fork -> ev_ret e <= 0.

(** [m] extends the trace by events with [P]. *)
Definition adds {A} (P : list event -> Prop) (m : io A) : Prop := forall w, iwp m (fun _ w' => grows P w w') w.

Notation forkless_io := (adds (Forall forkless)).

Lemma grows_refl (P : list event -> Prop) w : P [] -> grows P w w.
Proof. intros HP. exists []. by rewrite app_nil_r. Qed.

Lemma grows_mono (P Q : list event -> Prop) w w' : (forall t, P t -> Q t) -> grows P w w' -> grows Q w w'.
Proof. intros HPQ (t & Ht & Hp). exists t. auto. Qed.

Lemma grows_forkless a b c : grows (Forall forkless) a b -> grows (Forall forkless) b c -> grows (Forall forkless) a c.
Proof. apply grows_trans. intros s t Hs Ht. by apply Forall_app. Qed.

Lemma fl_ret {A} (a : A) : forkless_io (iret a).
Proof. intros w. by apply iwp_ret, grows_refl. Qed.

Lemma fl_oret {A} (a : A) : forkless_io (oret a).
Proof. apply fl_ret. Qed.

Lemma fl_sys kernel k : k <> Fork -> forkless_io (sys kernel k).
Proof. intros Hk w. apply iwp_sys. intros r d _. apply grows_call. constructor; [|done]. by intros ?. Qed.

Lemma fl_sys_ kernel k : k <> Fork -> forkless_io (sys_ kernel k).
Proof. intros Hk w. apply iwp_sys_. intros r d _. apply grows_call. constructor; [|done]. by intros ?. Qed.

Lemma fl_heap {A} (m : alloc A) : forkless_io (on_heap m).
Proof. intros w. apply iwp_heap. unfold wp. destruct (m (w_heap w)) as [a h].
  exists []. by rewrite app_nil_r.
Qed.

Lemma fl_bind {A B} (m : io A) (k : A -> io B) :
  forkless_io m -> (forall a, forkless_io (k a)) -> forkless_io (ibind m k).
Proof.
  intros Hm Hk w. apply iwp_bind. eapply iwp_mono; [apply Hm|]. intros a w1 H1.
  eapply iwp_mono; [apply Hk|]. intros b w2 H2. exact (grows_forkless _ _ _ H1 H2).
Qed.

Lemma fl_obind {A B} (m : io (option A)) (k : A -> io (option B)) :
  forkless_io m -> (forall a, forkless_io (k a)) -> forkless_io (obind m k).
Proof. intros Hm Hk. apply fl_bind; [done|]. intros [a|]; [apply Hk|apply fl_ret]. Qed.

Create HintDb forkless.
#[export] Hint Resolve fl_ret fl_oret fl_heap : forkless.
#[export] Hint Extern 1 (adds _ (sys_ _ _)) => apply fl_sys_; discriminate : forkless.
#[export] Hint Extern 1 (adds _ (sys _ _)) => apply fl_sys; discriminate : forkless.

Ltac forkless :=
  cbv zeta;
  repeat match goal with
  | |- adds _ (ibind _ _) => apply fl_bind; [|intros]
  | |- adds _ (obind _ _) => apply fl_obind; [|intros]
  | |- adds _ (if ?b then _ else _) => destruct b
  | |- adds _ (match ?x with _ => _ end) => destruct x
  end; eauto with forkless.

Section forkless.
Context (kernel : list event -> call -> Z * list Z) (getpid : Z).

Lemma fl_time : forkless_io (get_time_us kernel).
Proof. unfold get_time_us. forkless. Qed.

#[local] Hint Resolve fl_time : forkless.

Lemma fl_timed {A} fuel fd events (attempt : io (Z * option A)) start timeout :
  forkless_io attempt -> forkless_io (timed_loop kernel fuel fd events attempt start timeout).
Proof. intros Ha. revert timeout; induction fuel as [|fuel IH]; intros timeout; cbn [timed_loop]; forkless. Qed.

Lemma fl_request fuel fd cmd len t : forkless_io (wpa_request kernel fuel fd cmd len t).
Proof.
  assert (forkless_io (try_send kernel fd cmd)) as Hs by (unfold try_send; forkless).
  assert (forkless_io (try_recv kernel fd len)) as Hr by (unfold try_recv; forkless).
  pose proof (fun st ti => fl_timed fuel fd POLLOUT _ st ti Hs).
  pose proof (fun st ti => fl_timed fuel fd POLLIN _ st ti Hr).
  unfold wpa_request, timed_send, timed_recv. forkless.
Qed.

#[local] Hint Resolve fl_request : forkless.

Lemma fl_ctrl_request fuel c cmd len timeout : forkless_io (owfd_wpa_ctrl_request kernel fuel c cmd len timeout).
Proof. unfold owfd_wpa_ctrl_request. forkless. Qed.

#[local] Hint Resolve fl_ctrl_request : forkless.

Lemma fl_ctrl_request_ok fuel c cmd timeout : forkless_io (owfd_wpa_ctrl_request_ok kernel fuel c cmd timeout).
Proof. unfold owfd_wpa_ctrl_request_ok. forkless. Qed.

#[local] Hint Resolve fl_ctrl_request_ok : forkless.

Lemma fl_open_socket c path tag name counter : forkless_io (open_socket kernel getpid c path tag name counter).
Proof. unfold open_socket, bind_socket, bind_again, connect_socket, err_name, err_fd. forkless. Qed.

Lemma fl_close_socket c fd name : forkless_io (close_socket kernel c fd name).
Proof. unfold close_socket. forkless. Qed.

Lemma fl_arm c us : forkless_io (arm_timer kernel c us).
Proof. unfold arm_timer. forkless. Qed.

#[local] Hint Resolve fl_open_socket fl_close_socket fl_arm : forkless.

Lemma fl_open fuel c path cb counter : forkless_io (owfd_wpa_ctrl_open kernel getpid fuel c path cb counter).
Proof. unfold owfd_wpa_ctrl_open, wpa_request_ok, err_ev, err_req, err_timer, disarm_timer. forkless. Qed.

Lemma fl_close fuel c : forkless_io (owfd_wpa_ctrl_close kernel fuel c).
Proof. unfold owfd_wpa_ctrl_close, disarm_timer. forkless. Qed.

#[local] Hint Resolve fl_open fl_close : forkless.

Lemma fl_unref fuel c : forkless_io (owfd_wpa_ctrl_unref kernel fuel c).
Proof. unfold owfd_wpa_ctrl_unref. forkless. Qed.

Lemma fl_new : forkless_io (owfd_wpa_ctrl_new kernel).
Proof. unfold owfd_wpa_ctrl_new, err_efd, err_wpa. forkless. Qed.

Lemma fl_alive pid : forkless_io (is_child_alive kernel pid).
Proof. unfold is_child_alive. forkless. Qed.

#[local] Hint Resolve fl_unref fl_new fl_alive : forkless.

Lemma fl_round fd pid t : forkless_io (wait_round kernel fd pid t).
Proof. unfold wait_round. forkless. Qed.

#[local] Hint Resolve fl_round : forkless.

Lemma fl_wait_for_wpa fuel iface file counter : forkless_io (wait_for_wpa kernel getpid fuel iface file counter).
Proof.
  assert (forall n fd pid t, forkless_io (wait_file kernel n fd pid file t)).
  { induction n; intros; cbn [wait_file]; forkless. }
  assert (forall n fd pid t s, forkless_io (wait_open kernel getpid fuel n fd pid file t s)).
  { induction n; intros; cbn [wait_open]; forkless. }
  unfold wait_for_wpa, wait_started, wait_socket. forkless.
Qed.

Lemma fl_setup_wpa fuel c : forkless_io (wpa_setup kernel fuel c).
Proof.
  assert (forall reqs, forkless_io (request_all kernel fuel c reqs)).
  { induction reqs; cbn [request_all]; unfold iface_request_ok; forkless. }
  unfold wpa_setup, iface_request. forkless.
Qed.

Lemma fl_ep_add efd fd tag events : forkless_io (owfd_p2pd_ep_add kernel efd fd tag events).
Proof. unfold owfd_p2pd_ep_add. forkless. Qed.

Lemma fl_kill fuel iface : forkless_io (kill_wpa kernel fuel iface).
Proof. unfold kill_wpa, send_sigterm. forkless. Qed.

Lemma fl_connect fuel c mac pin mode : forkless_io (owfd_p2pd_interface_connect kernel fuel c mac pin mode).
Proof. unfold owfd_p2pd_interface_connect, asprintf, iface_request_ok. forkless. Qed.

#[local] Hint Resolve fl_connect : forkless.

Lemma fl_callback users fuel fn buf s : forkless_io (iface_callback (event_fns kernel) users fuel fn buf s).
Proof.
  assert (forall ev l s, forkless_io (call_users (event_fns kernel) fuel ev l s)).
  { intros ev; induction l; intros; cbn [call_users]; unfold event_fns, dummy_event_fn; forkless. }
  unfold iface_callback, wpa_event. forkless.
Qed.

#[local] Hint Resolve fl_callback : forkless.

Lemma fl_wpa_dispatch users fuel s timeout :
  forkless_io (owfd_wpa_ctrl_dispatch kernel (iface_callback (event_fns kernel) users) fuel s timeout).
Proof.
  assert (forall n s, forkless_io (read_ev kernel (iface_callback (event_fns kernel) users) n s)).
  { induction n; intros; cbn [read_ev]; unfold call_wpa_cb; forkless. }
  assert (forall n c, forkless_io (read_req kernel n c)) by (induction n; intros; cbn [read_req]; forkless).
  assert (forall evs r s, forkless_io (dispatch_events kernel (iface_callback (event_fns kernel) users) fuel evs r s)).
  { induction evs as [|[events tag] evs IH]; intros; cbn [dispatch_events];
      unfold dispatch_ev, dispatch_req, dispatch_tfd, read_tfd, tfd_error; forkless. }
  unfold owfd_wpa_ctrl_dispatch. forkless.
Qed.
End forkless.

#[export] Hint Resolve fl_unref fl_new fl_alive fl_wait_for_wpa fl_setup_wpa fl_kill fl_close fl_wpa_dispatch : forkless.

(** ** What becomes of the child *)

(** wpa_supplicant has confirmed that it terminates. *)
Definition confirmed (t : list event) : Prop :=
  exists evs, Forall is_event evs /\
    exchange t = inl (str "TERMINATE") :: map inr (evs ++ [str "OK" ++ [LF]]).

(** The signal descriptor has reported the end of the child. *)
Definition reported (pid : Z) (e : event) : Prop :=
  exists fd info, e = mkEvent (Read fd sizeof_siginfo) sizeof_siginfo info /\
    get_le32 info 0 = SIGCHLD /\ get_le32 info 12 = u32 pid.

(** The child does not run any more or has been told to stop. *)
Definition settled (pid : Z) (e : event) : Prop :=
  reported pid e \/
  (ev_call e = Waitpid pid /\ ev_ret e <> 0) \/
  ev_call e = Kill pid SIGTERM.

Definition fate (pid : Z) (t : list event) : Prop :=
  Exists (settled pid) t \/ exists a b c, t = a ++ b ++ c /\ confirmed b.

Lemma fate_app_l pid s t : fate pid s -> fate pid (s ++ t).
Proof.
  intros [H|(a & b & c & -> & H)]; [left; apply Exists_app; by left|right]. exists a, b, (c ++ t).
  by rewrite <- !app_assoc.
Qed.

Lemma fate_app_r pid s t : fate pid t -> fate pid (s ++ t).
Proof.
  intros [H|(a & b & c & -> & H)]; [left; apply Exists_app; by right|right]. exists (s ++ a), b, c.
  by rewrite <- !app_assoc.
Qed.

(** Every child that was started is settled afterwards. *)
Definition all_settled (t : list event) : Prop :=
  forall a pid d b, t = a ++ mkEvent Fork pid d :: b -> 0 < pid -> fate pid b.

Lemma settled_forkless t : Forall forkless t -> all_settled t.
Proof.
  intros Hf a pid d b -> Hp. apply Forall_app in Hf as [_ Hf]. apply Forall_inv in Hf. specialize (Hf eq_refl). cbn in Hf. lia.
Qed.

(** The cut of a concatenation. *)
Lemma app_cut {A} (s t a : list A) x b :
  s ++ t = a ++ x :: b -> (exists b1, s = a ++ x :: b1 /\ b = b1 ++ t) \/ (exists a2, t = a2 ++ x :: b /\ a = s ++ a2).
Proof.
  revert a; induction s as [|y s IH]; intros a H; [right; by exists a|].
  destruct a as [|z a]; cbn in H; [injection H as -> <-; left; by exists s|injection H as -> H].
  destruct (IH a H) as [(b1 & -> & ->)|(a2 & -> & ->)]; [left|right]; eauto.
Qed.

Lemma settled_app s t : all_settled s -> all_settled t -> all_settled (s ++ t).
Proof.
  intros Hs Ht a pid d b [(b1 & -> & ->)|(a2 & -> & ->)]%app_cut Hp; [by eapply fate_app_l, Hs|by eapply Ht].
Qed.

(** The child is still looked after by the interface, or settled. *)
Definition watched (pid : Z) (i : owfd_p2pd_interface) (t : list event) : Prop :=
  if_pid i = pid \/ (if_pid i = 0 /\ fate pid t).

(** The only fork of [t] is the one of the child of [i]. *)
Definition forked (i : owfd_p2pd_interface) (t : list event) : Prop :=
  exists a pid d b, t = a ++ mkEvent Fork pid d :: b /\ Forall forkless a /\ Forall forkless b /\
    0 < pid /\ watched pid i b.

Lemma forked_more i i' s t :
  forked i s -> Forall forkless t -> (forall pid, 0 < pid -> if_pid i = pid -> watched pid i' t) ->
  (if_pid i = 0 -> if_pid i' = 0) -> forked i' (s ++ t).
Proof.
  intros (a & pid & d & b & -> & Ha & Hb & Hp & Hw) Ht Hk H0. exists a, pid, d, (b ++ t).
  rewrite <- app_assoc. split_and!; [done|done|by apply Forall_app|done|].
  destruct Hw as [Hi|[Hi Hf]].
  - destruct (Hk pid Hp Hi) as [?|[? ?]]; [by left|right]. split; [done|by apply fate_app_r].
  - right. split; [by apply H0|by apply fate_app_l].
Qed.

Lemma forked_settled i s t :
  forked i s -> Forall forkless t -> (0 < if_pid i -> fate (if_pid i) t) -> all_settled (s ++ t).
Proof.
  intros (a & pid & d & b & -> & Ha & Hb & Hp & Hw) Ht Hk.
  rewrite <- app_assoc. apply settled_app; [by apply settled_forkless|].
  intros a' pid' d' b' He Hp'. destruct a' as [|x a']; cbn in He; [simplify_eq|injection He as _ He].
  - destruct Hw as [<-|[_ Hf]]; [by apply fate_app_r, Hk|by apply fate_app_l].
  - exfalso. assert (Forall forkless (b ++ t)) as Hbt by (by apply Forall_app).
    rewrite He in Hbt. apply Forall_app in Hbt as [_ Hbt]. apply Forall_inv in Hbt. specialize (Hbt eq_refl). cbn in Hbt. lia.
Qed.

Section child.
Context (kernel : list event -> call -> Z * list Z) (getpid : Z).

Lemma reply_ok_spec reply : 0 <= reply_ok reply -> reply = str "OK" ++ [LF].
Proof.
  unfold reply_ok. destruct (Z.eqb_spec (zlen reply) 3) as [Hl|]; cbn [negb orb]; [|by intros []].
  destruct (Z.eqb_spec (strncmp reply (str "OK" ++ [LF]) 3) 0) as [Hc|]; cbn [negb]; [|by intros []].
  intros _. apply strncmp_prefix in Hc as [r ->]; [|by repeat constructor|done].
  destruct r; [done|]. exfalso. rewrite zlen_app, zlen_cons in Hl. pose proof (zlen_nonneg r).
  change (zlen (str "OK" ++ [LF])) with 3 in Hl. lia.
Qed.

(** A command that [owfd_wpa_ctrl_request_ok] says was carried out. *)
Lemma request_ok_outcome fuel c cmd timeout w :
  owp True (owfd_wpa_ctrl_request_ok kernel fuel c cmd timeout) (fun r w' => grows (fun t => 0 <= r ->
    exists evs, Forall is_event evs /\ exchange t = inl cmd :: map inr (evs ++ [str "OK" ++ [LF]])) w w') w.
Proof.
  unfold owfd_wpa_ctrl_request_ok, owfd_wpa_ctrl_request. apply owp_obind. destruct (negb _).
  { apply owp_ret, owp_ret, grows_refl. by intros []. }
  cbv zeta. eapply owp_mono; [apply request_outcome|]. intros [r reply] w1 (t & Ht & evs & Hevs & Hx). cbn [fst snd] in Hx.
  apply owp_ret. exists t. split; [done|]. intros Hr. destruct (Z.ltb_spec r 0); [lia|].
  apply reply_ok_spec in Hr as ->. destruct Hx as [(_ & _ & Hx)|(? & _)]; [by exists evs|lia].
Qed.

Lemma alive_settles pid (Q : bool -> world -> Prop) w :
  (forall w', grows (fun t => Forall forkless t /\ Exists (settled pid) t) w w' -> Q false w') ->
  (forall w', grows (Forall forkless) w w' -> Q true w') ->
  iwp (is_child_alive kernel pid) Q w.
Proof.
  intros Hf Ht. unfold is_child_alive. apply iwp_bind, iwp_sys_. intros r d _. apply iwp_ret.
  assert (forkless (mkEvent (Waitpid pid) r d)) as He by by intros ?.
  destruct (Z.eqb_spec r 0); [apply Ht|apply Hf]; apply grows_call; [by constructor|]. split; [by constructor|].
  constructor. right. by left.
Qed.

Lemma send_sigterm_settles pid w :
  owp True (send_sigterm kernel pid) (fun _ w' => grows (fun t => Forall forkless t /\ Exists (settled pid) t) w w') w.
Proof.
  unfold send_sigterm. apply owp_ibind, iwp_sys_. intros r d _. apply owp_ret, grows_call.
  split; [constructor; [by intros ?|done]|]. constructor. by right; right.
Qed.

Lemma kill_wpa_settles fuel iface w :
  owp True (kill_wpa kernel fuel iface) (fun _ w' => grows (fun t => Forall forkless t /\
    (0 < if_pid iface -> fate (if_pid iface) t)) w w') w.
Proof.
  apply (owp_mono _ _ (fun _ w' => grows (Forall forkless) w w' /\
    grows (fun t => 0 < if_pid iface -> fate (if_pid iface) t) w w')).
  2: { intros u w' [(t & Ht & H1) (t' & Ht' & H2)]. exists t. split_and!; [done|done|].
       rewrite Ht in Ht'. by apply app_inv_head in Ht' as <-. }
  apply owp_and.
  { unfold owp. eapply iwp_mono; [apply fl_kill|]. by intros [u|] w'. }
  unfold kill_wpa. destruct (Z.leb_spec (if_pid iface) 0); [apply owp_ret, grows_refl; lia|].
  assert (forall t, Exists (settled (if_pid iface)) t -> 0 < if_pid iface -> fate (if_pid iface) t) as Hset
    by (intros; by left).
  destruct (owfd_wpa_ctrl_is_open _).
  - apply owp_obind. eapply owp_mono; [apply request_ok_outcome|]. intros r w1 (t & Ht & Hr).
    destruct (Z.leb_spec 0 r).
    { apply owp_ret. exists t. split; [done|]. intros _. right. exists [], t, []. rewrite app_nil_r.
      split; [done|by apply Hr]. }
    assert (grows (fun _ => True) w w1) as Hg by by exists t.
    apply owp_ibind, alive_settles; intros w2 H2; cbn [negb].
    + apply owp_ret. eapply grows_trans; [|exact Hg|exact H2]. intros s u _ [_ Hu] Hp. by apply fate_app_r, Hset.
    + eapply owp_mono; [apply send_sigterm_settles|]. intros u w3 H3.
      eapply (grows_trans (fun _ => True)); [| |exact H3]; [intros s v _ [_ Hv] Hp; by apply fate_app_r, Hset|].
      eapply grows_trans; [|exact Hg|exact H2]. done.
  - eapply owp_mono; [apply send_sigterm_settles|]. intros u w3 H3. eapply grows_mono; [|exact H3].
    intros t [_ Hv]. by apply Hset.
Qed.

Lemma owp_any {A} (m : io (option A)) (Q : A -> world -> Prop) w : (forall a w', Q a w') -> owp True m Q w.
Proof. intros HQ. unfold owp, iwp. by destruct (m w) as [[a|] w']. Qed.

Lemma owp_fl {A} (m : io (option A)) (Q : A -> world -> Prop) w :
  forkless_io m -> (forall a w', grows (Forall forkless) w w' -> Q a w') -> owp True m Q w.
Proof. intros Hm HQ. unfold owp. eapply iwp_mono; [apply Hm|]. intros [a|] w' H; [by apply HQ|done]. Qed.

Lemma wait_for_wpa_pid fuel iface file counter w :
  owp True (wait_for_wpa kernel getpid fuel iface file counter) (fun x _ => if_pid (snd (fst x)) = if_pid iface) w.
Proof.
  unfold wait_for_wpa. apply owp_ibind, iwp_sys_. intros fd d _. destruct (fd <? 0); [by apply owp_ret|].
  apply owp_ibind, iwp_sys_. intros wd d1 _. apply owp_obind, owp_any. intros [r s] w1.
  apply owp_ibind, iwp_sys_. intros r2 d2 _. by apply owp_ret.
Qed.

Lemma wpa_new_sign w : iwp (owfd_wpa_ctrl_new kernel) (fun x _ => snd x = None -> fst x < 0) w.
Proof.
  unfold owfd_wpa_ctrl_new, err_efd, err_wpa, iwp, ibind, iret, on_heap, sys_, sys.
  repeat case_match; simplify_eq; cbn; intros; try done; by apply Z.ltb_lt.
Qed.

(** The trace of starting an interface: its child, if there is one, is the only
    one. *)
Definition one_child (i : owfd_p2pd_interface) (t : list event) : Prop :=
  (Forall forkless t /\ if_pid i = 0) \/ forked i t.

Lemma one_child_more i i' s t :
  one_child i s -> Forall forkless t -> if_pid i' = if_pid i -> one_child i' (s ++ t).
Proof.
  intros [[Hs H0]|Hf] Ht Hi; [left; split; [by apply Forall_app|congruence]|right].
  eapply forked_more; [exact Hf|exact Ht| |congruence]. intros pid _ <-. by left.
Qed.

Lemma one_child_behind i s t : Forall forkless s -> one_child i t -> one_child i (s ++ t).
Proof.
  intros Hs [[Ht H0]|(a & pid & d & b & -> & Ha & Hb & Hp & Hw)]; [left; split; [by apply Forall_app|done]|right].
  exists (s ++ a), pid, d, b. rewrite <- app_assoc. split_and!; [done|by apply Forall_app|done|done|done].
Qed.

Lemma fork_wpa_child fuel iface counter w :
  if_pid iface = 0 ->
  owp True (fork_wpa kernel getpid fuel iface counter) (fun x w' => grows (one_child (snd (fst x))) w w') w.
Proof.
  intros H0. unfold fork_wpa. apply owp_ibind, iwp_sys_. intros pid d _.
  destruct (Z.ltb_spec pid 0).
  { apply owp_ret, grows_call. left. split; [|done]. constructor; [intros _; cbn; lia|done]. }
  destruct (Z.eqb_spec pid 0).
  { apply owp_obind, owp_any. intros u w1. apply owp_ibind, iwp_sys_. by intros. }
  cbv zeta. set (i1 := iface <| if_pid := pid |>).
  assert (grows (one_child i1) w (called Fork pid d w)) as Hg.
  { apply grows_call. right. exists [], pid, d, []. split_and!; [done|done|done|lia|]. by left. }
  assert (forall i w1 w2, if_pid i = pid -> grows (one_child i1) w w1 -> grows (Forall forkless) w1 w2 ->
    grows (one_child i) w w2) as Hmore.
  { intros i w1 w2 Hi. apply grows_trans. intros s t Hs Ht. by apply (one_child_more i1). }
  apply owp_ibind. eapply iwp_mono; [apply fl_heap|]. intros ok w1 H1.
  pose proof (Hmore i1 _ _ eq_refl Hg H1) as Hg1. destruct (negb ok); [by apply owp_ret|].
  apply owp_obind. eapply owp_mono; [apply owp_and; [apply wait_for_wpa_pid|apply owp_fl; [apply fl_wait_for_wpa|]]|].
  { intros a w2 H2. exact H2. }
  intros [[r i] counter'] w2 [Hp H2]. cbn in Hp. pose proof (Hmore i _ _ Hp Hg1 H2) as Hg2.
  apply owp_ibind. eapply iwp_mono; [apply fl_heap|]. intros u w3 H3.
  assert (grows (one_child i) w w3) as Hg3.
  { eapply grows_trans; [|exact Hg2|exact H3]. intros s t Hs Ht. by apply (one_child_more i). }
  destruct (r <? 0); [by apply owp_ret|].
  apply owp_obind, owp_fl; [apply fl_setup_wpa|]. intros r4 w4 H4. apply owp_ret.
  eapply grows_trans; [|exact Hg3|exact H4]. intros s t Hs Ht. by apply (one_child_more i).
Qed.

(** Stopping an interface settles its child. *)
Lemma stop_iface_settles fuel i w0 w :
  grows (one_child i) w0 w -> owp True (stop_iface kernel fuel i) (fun _ w' => grows all_settled w0 w') w.
Proof.
  intros Hg. unfold stop_iface. apply owp_obind. eapply owp_mono; [apply kill_wpa_settles|]. intros u w1 H1.
  assert (grows all_settled w0 w1) as Hg1.
  { eapply grows_trans; [|exact Hg|exact H1]. intros s t [[Hs _]|Hs] [Ht Hk].
    - apply settled_forkless. by apply Forall_app.
    - by eapply forked_settled. }
  assert (forall w2, grows (Forall forkless) w1 w2 -> grows all_settled w0 w2) as Hend.
  { intros w2 H2. eapply grows_trans; [|exact Hg1|exact H2]. intros s t Hs Ht.
    apply settled_app; [done|by apply settled_forkless]. }
  apply owp_fl; [|intros a w2 H2; by apply Hend]. forkless.
Qed.

Lemma interface_new_child fuel conf efd counter w :
  owp True (owfd_p2pd_interface_new kernel getpid fuel conf efd counter) (fun x w' => grows (fun t =>
    match snd (fst x) with Some i => one_child i t | None => all_settled t end) w w') w.
Proof.
  unfold owfd_p2pd_interface_new.
  assert (forall w', grows (Forall forkless) w w' -> grows all_settled w w') as Hfl
    by (intros w'; apply grows_mono, settled_forkless).
  apply owp_ibind. eapply iwp_mono; [apply fl_heap|]. intros ok w1 H1. cbn beta in H1.
  destruct (negb ok); [by apply owp_ret, Hfl|].
  apply owp_ibind. eapply iwp_mono; [apply fl_new|]. intros [r wpa] w2 H2. cbn beta in H2.
  pose proof (grows_forkless _ _ _ H1 H2) as H12.
  destruct wpa as [c|].
  2: { apply owp_ibind. eapply iwp_mono; [apply fl_heap|]. intros u w3 H3. cbn beta in H3.
       apply owp_ret, Hfl. exact (grows_forkless _ _ _ H12 H3). }
  cbv zeta. apply owp_obind. eapply owp_mono; [by apply fork_wpa_child|]. intros [[r3 i] counter3] w3 H3. cbn [fst snd] in H3.
  assert (grows (one_child i) w w3) as Hg.
  { eapply grows_trans; [|exact H12|exact H3]. intros s t. apply one_child_behind. }
  assert (forall r j w', grows (one_child j) w w' -> owp True (err_kill kernel fuel r j counter3) (fun x w' => grows (fun t =>
    match snd (fst x) with Some i => one_child i t | None => all_settled t end) w w') w') as Herr.
  { intros r4 j w' Hj. unfold err_kill. apply owp_obind. eapply owp_mono; [by eapply stop_iface_settles|].
    intros u w4 H4. by apply owp_ret. }
  destruct (r3 <? 0); [by apply Herr|]. apply owp_ibind.
  eapply iwp_mono; [apply fl_ep_add|]. intros r5 w5 H5. cbn beta in H5.
  set (j := i <| if_wpa_fd := _ |>).
  assert (grows (one_child j) w w5) as Hj.
  { eapply grows_trans; [|exact Hg|exact H5]. intros s t Hs Ht. by apply (one_child_more i). }
  destruct (r5 <? 0); [by apply Herr|by apply owp_ret].
Qed.

Lemma interface_new_sign fuel conf efd counter w :
  owp True (owfd_p2pd_interface_new kernel getpid fuel conf efd counter)
    (fun x _ => snd (fst x) = None -> fst (fst x) < 0) w.
Proof.
  unfold owfd_p2pd_interface_new. apply owp_ibind. unfold iwp at 1. destruct (on_heap _ w) as [[] w1]; cbn [negb]; [|by apply owp_ret].
  apply owp_ibind. pose proof (wpa_new_sign w1) as Hn. unfold iwp in *. destruct (owfd_wpa_ctrl_new kernel w1) as [[r [c|]] w2].
  2: { apply owp_ibind. unfold iwp. destruct (on_heap _ w2). apply owp_ret. intros _. by apply Hn. }
  cbv zeta. apply owp_obind, owp_any. intros [[r3 i] counter3] w3.
  assert (forall r j w', r < 0 -> owp True (err_kill kernel fuel r j counter3)
    (fun x _ => snd (fst x) = None -> fst (fst x) < 0) w') as Herr.
  { intros r4 j w' Hr. unfold err_kill. apply owp_obind, owp_any. intros u w4. by apply owp_ret. }
  destruct (Z.ltb_spec r3 0); [by apply Herr|]. apply owp_ibind. unfold iwp. destruct (owfd_p2pd_ep_add _ _ _ _ _ w3) as [r5 w5].
  destruct (Z.ltb_spec r5 0); [by apply Herr|by apply owp_ret].
Qed.

(** *** Event loop *)

(** A signal that ends the event loop of a daemon with the child [pid]. *)
Definition quits (pid : Z) (e : event) : Prop :=
  exists fd info, e = mkEvent (Read fd sizeof_siginfo) sizeof_siginfo info /\
    ((get_le32 info 0 <> SIGCHLD /\ get_le32 info 0 <> SIGPIPE) \/
     (0 < pid /\ get_le32 info 0 = SIGCHLD /\ get_le32 info 12 = u32 pid)).

(** What a step of the event loop does to the interface and its child: the
    trace tells why the process id was cleared, and why the loop ends. *)
Definition loop_step (i : owfd_p2pd_interface) (r : Z) (p' : owfd_p2pd) (t : list event) : Prop :=
  exists i', pd_interface p' = Some i' /\ Forall forkless t /\
    (if_pid i' = if_pid i \/ (r = OWFD_P2PD_EP_QUIT /\ if_pid i' = 0 /\ Exists (reported (if_pid i)) t)) /\
    (r = OWFD_P2PD_EP_QUIT -> Exists (quits (if_pid i)) t).

Lemma loop_stay i p r : pd_interface p = Some i -> r <> OWFD_P2PD_EP_QUIT -> loop_step i r p [].
Proof. intros Hi Hr. exists i. split_and!; [done|done|by left|done]. Qed.

Lemma loop_more i r1 p1 i1 r2 p2 s t :
  loop_step i r1 p1 s -> r1 <> OWFD_P2PD_EP_QUIT -> pd_interface p1 = Some i1 -> loop_step i1 r2 p2 t ->
  loop_step i r2 p2 (s ++ t).
Proof.
  intros (i' & Hi' & Hs & Hp & _) Hr Hi1 (i2 & Hi2 & Ht & Hp2 & Hq). simplify_eq.
  destruct Hp as [Hp|[? _]]; [|done]. rewrite Hp in Hp2, Hq. exists i2. split_and!; [done|by apply Forall_app| |].
  - destruct Hp2 as [?|(? & ? & ?)]; [by left|right]. split_and!; [done|done|]. apply Exists_app. by right.
  - intros ?. apply Exists_app. right. by apply Hq.
Qed.

Lemma dispatch_sfd_step fuel events tag s i w :
  pd_interface (fst s) = Some i ->
  owp True (owfd_p2pd_dispatch_sfd kernel fuel events tag s)
    (fun x w' => grows (loop_step i (fst x) (fst (snd x))) w w') w.
Proof.
  intros Hi. unfold owfd_p2pd_dispatch_sfd.
  destruct (negb _); [by apply owp_ret, grows_refl, loop_stay|].
  destruct (has_epoll _ _); [by apply owp_ret, grows_refl, loop_stay|].
  apply owp_ibind, iwp_sys. intros l info _. set (e := Read _ _).
  assert (forall r p', pd_interface p' = Some i -> r <> OWFD_P2PD_EP_QUIT ->
    grows (loop_step i r p') w (called e l info w)) as Hstay.
  { intros r p' Hp' Hr. apply grows_call. exists i. split_and!; [done|by constructor; [intros ?|]|by left|done]. }
  destruct (Z.ltb_spec l 0); [apply owp_ret, Hstay; [done|unfold OWFD_P2PD_EP_QUIT; cbn [fst]; lia]|].
  destruct (Z.eqb_spec l sizeof_siginfo) as [->|]; cbn [negb]; [|by apply owp_ret, Hstay].
  unfold handle_signal. destruct (Z.eqb_spec (get_le32 info 0) SIGCHLD) as [Hs|Hs].
  - rewrite Hi. apply owp_obind. unfold owfd_p2pd_interface_dispatch_chld.
    destruct (Z.leb_spec (if_pid i) 0); cbn [orb]; [by apply owp_ret, owp_ret, Hstay|].
    destruct (Z.eqb_spec (get_le32 info 12) (u32 (if_pid i))) as [Hp|]; cbn [negb]; [|by apply owp_ret, owp_ret, Hstay].
    apply owp_obind, owp_fl; [apply fl_close|]. intros c w1 (t & Ht & Hf). apply owp_ret, owp_ret.
    exists (mkEvent e sizeof_siginfo info :: t). split; [cbn in Ht; by rewrite Ht, <- app_assoc|].
    eexists. split; [done|]. split; [constructor; [by intros ?|done]|]. split.
    + right. split_and!; [done|done|]. constructor. by eexists _, _.
    + intros _. constructor. exists (pd_sfd (fst s)), info. split; [done|]. by right.
  - destruct (Z.eqb_spec (get_le32 info 0) SIGPIPE) as [Hs2|Hs2]; [by apply owp_ret, Hstay|].
    apply owp_ret, grows_call. exists i. split_and!; [done|by constructor; [intros ?|]|by left|].
    intros _. constructor. exists (pd_sfd (fst s)), info. split; [done|]. by left.
Qed.

Lemma dispatch_iface_step fuel tag s i w :
  pd_interface (fst s) = Some i ->
  owp True (dispatch_iface kernel fuel tag s)
    (fun x w' => fst x <> OWFD_P2PD_EP_QUIT /\ grows (loop_step i (fst x) (fst (snd x))) w w') w.
Proof.
  intros Hi. unfold dispatch_iface. rewrite Hi. apply owp_obind. unfold owfd_p2pd_interface_dispatch.
  destruct (negb _); [apply owp_ret, owp_ret; split; [done|by apply grows_refl, loop_stay]|].
  apply owp_obind, owp_fl; [apply fl_wpa_dispatch|]. intros [r s'] w1 (t & Ht & Hf). apply owp_ret, owp_ret.
  assert ((if r <? 0 then r else OWFD_P2PD_EP_HANDLED) <> OWFD_P2PD_EP_QUIT) as Hr.
  { destruct (Z.ltb_spec r 0); unfold OWFD_P2PD_EP_QUIT, OWFD_P2PD_EP_HANDLED; lia. }
  split; [exact Hr|]. exists t. split; [done|]. eexists. split_and!; [done|done|by left|done].
Qed.

Lemma dispatch_evs_step fuel evs r s i w :
  pd_interface (fst s) = Some i -> r <> OWFD_P2PD_EP_QUIT ->
  owp True (dispatch_evs kernel fuel evs r s) (fun x w' => grows (loop_step i (fst x) (fst (snd x))) w w') w.
Proof.
  revert r s i w; induction evs as [|[events tag] evs IH]; intros r s i w Hi Hr; cbn [dispatch_evs].
  { by apply owp_ret, grows_refl, loop_stay. }
  destruct (tag =? 0); [by apply IH|].
  assert (forall r1 s1 w1, r1 <> OWFD_P2PD_EP_QUIT -> grows (loop_step i r1 (fst s1)) w w1 ->
    owp True (dispatch_evs kernel fuel evs r1 s1) (fun x w' => grows (loop_step i (fst x) (fst (snd x))) w w') w1) as Hnext.
  { intros r1 s1 w1 Hr1 (t & Ht & Hst). destruct Hst as (i1 & Hi1 & Hst).
    eapply owp_mono; [by apply (IH r1 s1 i1)|]. intros x w2 (t2 & Ht2 & Hx). exists (t ++ t2).
    rewrite Ht2, Ht, app_assoc. split; [done|]. eapply loop_more; [by exists i1|done|done|done]. }
  apply owp_obind. eapply owp_mono; [by apply dispatch_sfd_step|]. intros [r1 s1] w1 H1. cbn [fst snd] in H1.
  destruct (Z.ltb_spec r1 0); [by apply owp_ret|].
  destruct (Z.eqb_spec r1 OWFD_P2PD_EP_HANDLED) as [->|]; [by apply Hnext|].
  destruct (Z.eqb_spec r1 OWFD_P2PD_EP_QUIT) as [|Hq]; [by apply owp_ret|].
  destruct H1 as (t1 & Ht1 & Hst1). pose proof Hst1 as (i1 & Hi1 & _).
  apply owp_obind. eapply owp_mono; [by apply (dispatch_iface_step fuel tag s1 i1)|].
  intros [r2 s2] w2 [Hr2 (t2 & Ht2 & H2)]. cbn [fst snd] in *.
  assert (grows (loop_step i r2 (fst s2)) w w2) as Hg.
  { exists (t1 ++ t2). rewrite Ht2, Ht1, app_assoc. split; [done|]. by eapply loop_more. }
  destruct (r2 <? 0); [by apply owp_ret|].
  destruct (Z.eqb_spec r2 OWFD_P2PD_EP_HANDLED) as [->|]; [by apply Hnext|].
  destruct (Z.eqb_spec r2 OWFD_P2PD_EP_QUIT) as [|]; [done|by apply Hnext].
Qed.

(** The whole loop: it ends with an error or because of a signal. *)
Lemma run_step n fuel s i w :
  pd_interface (fst s) = Some i ->
  owp True (owfd_p2pd_run kernel n fuel s) (fun x w' => fst x <= 0 /\
    grows (loop_step i (if fst x =? 0 then OWFD_P2PD_EP_QUIT else fst x) (fst (snd x))) w w') w.
Proof.
  revert s i w; induction n as [|n IH]; intros s i w Hi; cbn [owfd_p2pd_run]; [done|].
  apply owp_obind, (owp_mono _ _ (fun x w' => grows (loop_step i (fst x) (fst (snd x))) w w')).
  - unfold owfd_p2pd_dispatch. apply owp_ibind, iwp_sys. intros l d _. set (e := EpollWait _ _ _).
    assert (forall r, r <> OWFD_P2PD_EP_QUIT -> grows (loop_step i r (fst s)) w (called e l d w)) as Hw.
    { intros r Hr. apply grows_call. exists i. split_and!; [done|by constructor; [intros ?|]|by left|done]. }
    destruct (Z.ltb_spec l 0); [apply owp_ret, Hw; destruct (again l); cbn; unfold OWFD_P2PD_EP_QUIT; lia|].
    destruct (Hw 0 ltac:(done)) as (t & Ht & Hst).
    eapply owp_mono; [by apply (dispatch_evs_step _ _ _ _ i)|]. intros x w2 (t2 & Ht2 & Hx). exists (t ++ t2).
    rewrite Ht2, Ht, app_assoc. split; [done|]. by eapply loop_more.
  - intros [r1 s1] w1 H1. cbn [fst snd] in H1. destruct (Z.ltb_spec r1 0).
    { apply owp_ret. cbn [fst snd]. destruct (Z.eqb_spec r1 0); [lia|]. split; [lia|done]. }
    destruct (Z.eqb_spec r1 OWFD_P2PD_EP_QUIT) as [->|]; [by apply owp_ret|].
    destruct H1 as (t1 & Ht1 & Hst1). pose proof Hst1 as (i1 & Hi1 & _).
    eapply owp_mono; [by apply (IH s1 i1)|]. intros x w2 [Hx (t2 & Ht2 & H2)]. split; [done|].
    exists (t1 ++ t2). rewrite Ht2, Ht1, app_assoc. split; [done|]. by eapply loop_more.
Qed.

(** *** The whole program *)

Lemma one_child_loop i i' r p' s t :
  one_child i s -> loop_step i r p' t -> pd_interface p' = Some i' -> one_child i' (s ++ t).
Proof.
  intros Hs (i2 & Hi2 & Ht & Hp & _) Hi'. simplify_eq. destruct Hp as [Hp|(_ & Hp & Hrep)].
  { by apply (one_child_more i). }
  assert (if_pid i = 0 -> if_pid i2 = 0) as H0 by done.
  destruct Hs as [[Hs Hi]|Hf]; [left; split; [by apply Forall_app|done]|right].
  eapply forked_more; [exact Hf|exact Ht| |done]. intros pid _ <-. right. split; [done|]. left.
  eapply Exists_impl; [exact Hrep|]. intros e He. by left.
Qed.

Lemma teardown_settles fuel p i w0 w :
  pd_interface p = Some i -> grows (one_child i) w0 w ->
  owp True (owfd_p2pd_teardown kernel fuel p) (fun _ w' => grows all_settled w0 w') w.
Proof.
  intros Hi Hg. unfold owfd_p2pd_teardown. rewrite Hi.
  assert (forall o w', (exists j, o = Some j /\ grows (one_child j) w0 w') -> owp True
    (let? _ := owfd_p2pd_interface_free kernel fuel o in
     let% _ := close_fd kernel (pd_sfd p) in
     let% _ := close_fd kernel (pd_efd p) in oret tt) (fun _ w' => grows all_settled w0 w') w') as Hrest.
  { intros o w1 (j & -> & Hj). apply owp_obind. cbn [owfd_p2pd_interface_free]. apply owp_ibind.
    assert (forkless_io (free_users (if_event_users j))) as Hfree.
    { induction (if_event_users j); cbn [free_users]; forkless. }
    eapply iwp_mono; [apply Hfree|]. intros u w2 H2. cbn beta in H2.
    eapply owp_mono; [apply (stop_iface_settles fuel j w0); eapply grows_trans; [|exact Hj|exact H2]|].
    { intros s t Hs Ht. by apply (one_child_more j). }
    intros u3 w3 H3. cbn beta in H3. apply owp_fl; [unfold close_fd; forkless|]. intros u4 w4 H4.
    eapply grows_trans; [|exact H3|exact H4]. intros s t Hs Ht. apply settled_app; [done|by apply settled_forkless]. }
  apply owp_obind. destruct (pd_dummy p) as [d|]; cbn [owfd_p2pd_dummy_free]; [|apply owp_ret, Hrest; by exists i].
  assert (forall l, forkless_io (remove_user DUMMY_EVENT_FN ADDR_DUMMY l)) as Hrem.
  { induction l; cbn [remove_user]; forkless. }
  apply owp_ibind. unfold owfd_p2pd_interface_unregister_event_fn. apply iwp_bind.
  eapply iwp_mono; [apply Hrem|]. intros l w1 H1. apply iwp_ret, owp_ibind.
  eapply iwp_mono; [apply fl_heap|]. intros u w2 H2. apply owp_ret, Hrest. eexists. split; [done|].
  eapply grows_trans; [|exact Hg|exact (grows_forkless _ _ _ H1 H2)]. intros s t Hs Ht. by apply (one_child_more i).
Qed.

(** What setting up leaves in the trace. *)
Definition setup_child (x : Z * pstate) (t : list event) : Prop :=
  if fst x <? 0 then all_settled t
  else exists i, pd_interface (fst (snd x)) = Some i /\ one_child i t.

Lemma setup_error_child fuel r s w0 w :
  r < 0 -> grows (fun t => match pd_interface (fst s) with Some i => one_child i t | None => all_settled t end) w0 w ->
  (pd_interface (fst s) = None -> pd_dummy (fst s) = None) ->
  owp True (setup_error kernel fuel r s) (fun x w' => grows (setup_child x) w0 w') w.
Proof.
  intros Hr Hg Hd. unfold setup_error, setup_child. apply owp_obind.
  apply (owp_mono _ _ (fun _ w' => grows all_settled w0 w')).
  - destruct (pd_interface (fst s)) as [i|] eqn:Hi; [by apply (teardown_settles _ _ i)|].
    unfold owfd_p2pd_teardown. rewrite Hi, Hd by done. cbn [owfd_p2pd_dummy_free owfd_p2pd_interface_free].
    apply owp_obind, owp_ret, owp_obind, owp_ret, owp_fl; [unfold close_fd; forkless|]. intros u w1 H1.
    eapply grows_trans; [|exact Hg|exact H1]. intros s1 t Hs Ht. apply settled_app; [done|by apply settled_forkless].
  - intros u w1 H1. apply owp_ret. cbn [fst]. by rewrite (proj2 (Z.ltb_lt _ _)).
Qed.

Lemma setup_objects_child fuel s w0 w :
  pd_dummy (fst s) = None -> grows (Forall forkless) w0 w ->
  owp True (setup_objects kernel getpid fuel s) (fun x w' => grows (setup_child x) w0 w') w.
Proof.
  intros Hn Hg. unfold setup_objects. apply owp_obind.
  eapply owp_mono; [apply (owp_and _ _ _ _ _ (interface_new_child _ _ _ _ _) (interface_new_sign _ _ _ _ _))|].
  intros [[r o] counter] w1 [H1 Hsign]; cbn [fst snd] in *; cbv zeta.
  destruct o as [i|].
  2: { apply setup_error_child; [by apply Hsign| |done]. cbn. eapply grows_trans; [|exact Hg|exact H1].
       intros s1 t Hs Ht. apply settled_app; [by apply settled_forkless|done]. }
  assert (grows (one_child i) w0 w1) as Hi.
  { eapply grows_trans; [|exact Hg|exact H1]. intros s1 t. apply one_child_behind. }
  apply owp_ibind. assert (forkless_io (owfd_p2pd_dummy_new i)) as Hfl.
  { unfold owfd_p2pd_dummy_new, owfd_p2pd_interface_register_event_fn. forkless. }
  apply (iwp_mono _ (fun x w' => grows (Forall forkless) w1 w' /\ if_pid (snd (fst x)) = if_pid i)).
  { pose proof (Hfl w1) as H. unfold iwp in *. destruct (owfd_p2pd_dummy_new i w1) as [[[r2 i2] d2] w2] eqn:He.
    split; [exact H|]. clear H. unfold owfd_p2pd_dummy_new, owfd_p2pd_interface_register_event_fn, ibind, iret, on_heap in He.
    repeat case_match; simplify_eq; done. }
  intros [[r2 i2] d2] w2 [H2 Hp]. cbn [fst snd] in *. cbv zeta.
  assert (grows (one_child i2) w0 w2) as Hi2.
  { eapply grows_trans; [|exact Hi|exact H2]. intros s1 t Hs Ht. by apply (one_child_more i). }
  destruct (Z.ltb_spec r2 0); [by apply setup_error_child|]. apply owp_ret. unfold setup_child. cbn [fst snd].
  rewrite (proj2 (Z.ltb_ge _ _)) by lia. destruct Hi2 as (t & Ht & Hc). exists t. split; [done|]. by exists i2.
Qed.

Lemma setup_ok_child fuel s w :
  pd_interface (fst s) = None -> pd_dummy (fst s) = None ->
  owp True (owfd_p2pd_setup kernel getpid fuel s) (fun x w' => grows (setup_child x) w w') w.
Proof.
  intros Hi Hd. unfold owfd_p2pd_setup.
  assert (forall r s' w', r < 0 -> pd_interface (fst s') = None -> pd_dummy (fst s') = None ->
    grows (Forall forkless) w w' -> owp True (setup_error kernel fuel r s') (fun x w' => grows (setup_child x) w w') w') as Herr.
  { intros r s' w' Hr Hi' Hd' Hg. apply setup_error_child; [done| |by intros _]. rewrite Hi'.
    eapply grows_mono; [|exact Hg]. apply settled_forkless. }
  apply owp_ibind. eapply iwp_mono; [by apply fl_sys_|]. intros efd w1 K1. cbn beta zeta in *.
  destruct (Z.ltb_spec efd 0); [by apply Herr|].
  assert (forall l, forkless_io (install_handlers kernel l)) as Hh by (induction l; cbn [install_handlers]; forkless).
  apply owp_ibind. eapply iwp_mono; [apply Hh|]. intros r2 w2 K2. pose proof (grows_forkless _ _ _ K1 K2) as G2.
  destruct (Z.ltb_spec r2 0); [by apply Herr|].
  apply owp_ibind. eapply iwp_mono; [by apply fl_sys_|]. intros r3 w3 K3. pose proof (grows_forkless _ _ _ G2 K3) as G3.
  destruct (Z.ltb_spec r3 0); [by apply Herr|].
  apply owp_ibind. eapply iwp_mono; [by apply fl_sys_|]. intros sfd w4 K4. pose proof (grows_forkless _ _ _ G3 K4) as G4.
  cbv zeta. destruct (Z.ltb_spec sfd 0); [by apply Herr|].
  apply owp_ibind. eapply iwp_mono; [apply fl_ep_add|]. intros r5 w5 K5. pose proof (grows_forkless _ _ _ G4 K5) as G5.
  destruct (Z.ltb_spec r5 0); [by apply Herr|]. by apply setup_objects_child.
Qed.

Lemma serve_settles n fuel conf w :
  owp True (serve kernel getpid n fuel conf) (fun _ w' => grows all_settled w w') w.
Proof.
  unfold serve. apply owp_obind. eapply owp_mono; [by apply setup_ok_child|]. intros [r s] w1 H1.
  unfold setup_child in H1. cbn [fst snd] in H1. apply owp_obind, (owp_mono _ _ (fun _ w' => grows all_settled w w')).
  - destruct (r <? 0); [by apply owp_ret|]. destruct H1 as (t & Ht & i & Hi & Hc).
    apply owp_obind. eapply owp_mono; [by apply (run_step n fuel s i)|]. intros [r2 s2] w2 [_ (u & Hu & Hst)]. cbn [fst snd] in *.
    pose proof Hst as (i2 & Hi2 & _).
    apply owp_obind. eapply owp_mono; [apply (teardown_settles fuel (fst s2) i2 w); [done|]|].
    { exists (t ++ u). rewrite Hu, Ht, app_assoc. split; [done|]. by eapply one_child_loop. }
    intros u3 w3 H3. by apply owp_ret.
  - intros r2 w2 H2. apply owp_ibind. eapply iwp_mono; [apply fl_heap|]. intros u w3 H3. apply owp_ret.
    eapply grows_trans; [|exact H2|exact H3]. intros s1 t Hs Ht. apply settled_app; [done|by apply settled_forkless].
Qed.
End child.

(** ** Properties *)

Section properties.
Context (kernel : list event -> call -> Z * list Z) (getpid : Z).

(** C13. No wpa_supplicant is left behind: when [main] returns, however it got
    there, each child process it has started has confirmed that it terminates,
    has been found dead by [waitpid], has been reported dead by the signal
    descriptor, or has been sent SIGTERM, after it was started. *)
Theorem p2pd_child_settled n fuel args w status w' :
  main kernel getpid n fuel args w = (Some status, w') ->
  exists t, w_trace w' = w_trace w ++ t /\ all_settled t.
Proof.
  intros Hm. enough (owp True (main kernel getpid n fuel args) (fun _ w' => grows all_settled w w') w) as H
    by (unfold owp, iwp in H; by rewrite Hm in H).
  unfold main. apply owp_ibind. eapply iwp_mono; [apply fl_heap|]. intros [[r conf]|] w1 H1; [|done].
  assert (grows all_settled w w1) as Hg by (eapply grows_mono; [apply settled_forkless|exact H1]).
  destruct (r <? 0); [by apply owp_ret|]. eapply owp_mono; [apply serve_settles|]. intros u w2 H2.
  eapply grows_trans; [|exact Hg|exact H2]. intros s t. apply settled_app.
Qed.

(** C16. The event loop stops for a reason: it returns an error, or 0 after the
    signal descriptor has given a signal that is neither SIGPIPE nor SIGCHLD,
    or SIGCHLD for the wpa_supplicant it watches; it forgets the process id of
    its child only then.  A SIGPIPE, the end of another process, an event of
    wpa_supplicant, or an interrupted wait never stop it with 0. *)
Theorem p2pd_run_stops n fuel s i w r s' w' :
  pd_interface (fst s) = Some i -> owfd_p2pd_run kernel n fuel s w = (Some (r, s'), w') ->
  exists i' t, pd_interface (fst s') = Some i' /\ w_trace w' = w_trace w ++ t /\
    (if_pid i' = if_pid i \/ (r = 0 /\ if_pid i' = 0 /\ Exists (reported (if_pid i)) t)) /\
    (r < 0 \/ (r = 0 /\ Exists (quits (if_pid i)) t)).
Proof.
  intros Hi He. pose proof (run_step kernel n fuel s i w Hi) as H. unfold owp, iwp in H. rewrite He in H.
  cbn [fst snd] in H. destruct H as [Hr (t & Ht & i' & Hi' & _ & Hp & Hq)]. exists i', t.
  destruct (Z.eqb_spec r 0) as [->|]; split_and!; try done.
  - destruct Hp as [?|(_ & ? & ?)]; [by left|by right].
  - right. split; [done|by apply Hq].
  - destruct Hp as [?|(-> & ?)]; [by left|unfold OWFD_P2PD_EP_QUIT in Hr; lia].
  - left. lia.
Qed.
End properties.
