(* ===== verification/P2pdService.v ===== *)
(** * What the daemon does for its peers, and that it gets there.

    The answer to a PIN event, the state a started interface is in, the end of
    every waiting loop, and whole runs on a concrete system. *)

From stdpp Require Import gmultiset.
From S2P Require Import Prelude CLib RecordSet Getopt Bytes WpaParser P2pdConfig Posix WpaCtrl WpaCtrlFacts P2pdInterface P2pd P2pdFacts P2pdLife.

(** ** The answer to a PIN event *)

(** A heap action leaves the trace alone. *)
Lemma iwp_quiet_heap {A} (m : alloc A) (Q : A -> world -> Prop) w :
  wp m (fun a h => forall w', w_trace w' = w_trace w -> w_heap w' = h -> Q a w') (w_heap w) -> iwp (on_heap m) Q w.
Proof. intros Hm. apply iwp_heap. eapply wp_mono; [exact Hm|]. intros a h HQ. by apply HQ. Qed.

Lemma words_length cur q e src :
  Forall (fun t => zlen t <= zlen (default [] cur) + zlen src) (words cur q e src).
Proof.
  revert cur q e; induction src as [|c src IH]; intros cur q e; cbn [words].
  { destruct cur as [t|]; repeat constructor. cbn. pose proof (zlen_nonneg (@nil Z)). lia. }
  assert (forall cur' q' e', zlen (default [] cur') <= zlen (default [] cur) + 1 ->
    Forall (fun t => zlen t <= zlen (default [] cur) + zlen (c :: src)) (words cur' q' e' src)) as Hnext.
  { intros cur' q' e' Hc. eapply Forall_impl; [apply IH|]. intros t Ht. cbn beta in Ht. rewrite zlen_cons. lia. }
  assert (zlen (default [] (Some (default [] cur ++ [c]))) <= zlen (default [] cur) + 1) as Hadd by (cbn; zlia).
  pose proof (zlen_nonneg (default [] cur)). pose proof (zlen_nonneg src).
  repeat case_match; try (apply Hnext; cbn; zlia).
  constructor; [cbn; zlia|]. apply Hnext. cbn. zlia.
Qed.

(** The payload of a PIN event: a MAC address and a PIN without zero bytes. *)
Lemma spec_show_pin event p raw pl :
  no_zero event -> spec_event event = Known OWFD_WPA_EVENT_P2P_PROV_DISC_SHOW_PIN p raw pl ->
  exists mac pin, pl = mkPayload mac 0 (Some pin) /\ no_zero mac /\ no_zero pin /\
    zlen mac <= 17 /\ zlen pin <= zlen event.
Proof.
  intros Hz. unfold spec_event. destruct (parse_priority event) as [[t q]|] eqn:Hq; [|done].
  destruct (parse_priority_ok _ _ _ Hz Hq) as [Hzt Hlt].
  destruct (List.find _ _) as [e|]; [|done]. cbv zeta. set (body := skip_sp _).
  destruct (skip_sp_ok (zdrop (ty_len e) t)) as [Hzb Hlb]; [by apply no_zero_zdrop|]. fold body in Hzb, Hlb.
  destruct (spec_payload _ _) as [pl'|] eqn:Hpl; [|done]. intros [= Hty <- <- <-]. rewrite Hty in Hpl. cbn [spec_payload] in Hpl.
  pose proof (words_no_zero None false false body Hzb ltac:(constructor)) as Hnz.
  pose proof (words_length None false false body) as Hlen. fold (tokens_of body) in Hnz, Hlen.
  destruct (tokens_of body) as [|mac [|pin rest]]; try done. unfold mac_ok in Hpl.
  destruct (Z.leb_spec (zlen mac) 17); [|done]. cbn [andb] in Hpl. destruct (scan_mac 6 mac); [|done].
  injection Hpl as <-. exists mac, pin. decompose_Forall_hyps. split_and!; try done.
  assert (zlen pin <= zlen body) by (cbn in *; pose proof (zlen_nil (A := Z)); lia). zlia.
Qed.

(** The command that connects to a peer. *)
Definition connect_cmd (mac pin : list Z) : list Z :=
  str "P2P_CONNECT " ++ mac ++ str " " ++ pin ++ str " display".

Section pin.
Context (kernel : list event -> call -> Z * list Z).

(** The request [cmd] was made, or could not be for lack of memory or of a
    connection. *)
Definition answered (cmd : list Z) (c : owfd_wpa_ctrl) (h : heap) (t : list event) : Prop :=
  (t = [] /\ (~ heap_ok h \/ owfd_wpa_ctrl_is_open c = false)) \/ exists r reply, request_exchange cmd r reply t.

Lemma connect_answers fuel c mac pin w :
  no_zero (cstr mac) -> no_zero pin -> zlen (cstr mac) <= 17 -> zlen pin < 2 ^ 62 ->
  owp True (owfd_p2pd_interface_connect kernel fuel c mac pin (Some (str "display")))
    (fun _ w' => grows (answered (connect_cmd (cstr mac) pin) c (w_heap w)) w w') w.
Proof.
  intros Hm Hp Hlm Hlp. unfold owfd_p2pd_interface_connect. cbv zeta.
  assert (connect_req mac pin (Some (str "display")) = connect_cmd (cstr mac) pin) as ->.
  { unfold connect_req, connect_cmd. by rewrite (cstr_id pin). }
  set (req := connect_cmd (cstr mac) pin).
  assert (no_zero req) as Hz.
  { unfold req, connect_cmd. repeat (apply Forall_app; split); try done; by repeat constructor. }
  assert (strlen req + 1 <= PTRDIFF_MAX) as Hl.
  { unfold strlen. rewrite cstr_id by done. unfold req, connect_cmd. rewrite !zlen_app.
    change (zlen (str "P2P_CONNECT ")) with 12. change (zlen (str " ")) with 1. change (zlen (str " display")) with 8.
    unfold PTRDIFF_MAX. lia. }
  apply owp_ibind, iwp_quiet_heap, wp_grant; intros h Hh _ w1 Ht Hw; cbn [negb].
  2: { apply owp_ret. exists []. rewrite app_nil_r. split; [done|]. left. split; [done|]. left. auto. }
  apply owp_obind. unfold iface_request_ok, owfd_wpa_ctrl_request_ok, owfd_wpa_ctrl_request.
  apply owp_obind. rewrite cstr_id by done.
  assert (forall w2, grows (answered req c (w_heap w)) w w2 -> forall r,
    owp True (let% _ := on_heap (free_blocks 1) in oret r) (fun (_ : Z) w' => grows (answered req c (w_heap w)) w w') w2) as Hend.
  { intros w2 (t & Ht2 & Ha) r. apply owp_ibind, iwp_quiet_heap, wp_free. intros h2 _ w3 Ht3 _. apply owp_ret.
    exists t. by rewrite Ht3. }
  destruct (owfd_wpa_ctrl_is_open c) eqn:Ho; cbn [negb].
  - eapply owp_mono; [apply request_outcome|]. intros [r reply] w2 (t & Ht2 & Hx). apply owp_ret, Hend.
    exists t. rewrite Ht2, Ht. split; [done|]. right. by exists r, reply.
  - apply owp_ret, owp_ret, Hend. exists []. rewrite app_nil_r. split; [done|]. left. split; [done|by right].
Qed.

(** C14. The daemon answers a PIN event and nothing else: for a message that
    [spec_event] reads as P2P-PROV-DISC-SHOW-PIN with a MAC address and a PIN,
    it makes exactly one request to wpa_supplicant, P2P_CONNECT with that
    address, that PIN and "display"; it leaves the request out only when memory
    is refused or the connection is closed.  Any other message, known, unknown
    or malformed, makes it send nothing.  The connection is as before. *)
Theorem daemon_answers_pin d fuel buf s w s' w' :
  strlen buf < 2 ^ 62 ->
  wpa_event (event_fns kernel) (dummy_users (Some d)) fuel buf s w = (Some s', w') ->
  s' = s /\ exists t, w_trace w' = w_trace w ++ t /\
    match spec_event (cstr buf) with
    | Known OWFD_WPA_EVENT_P2P_PROV_DISC_SHOW_PIN _ _ pl =>
      answered (connect_cmd (pl_mac pl) (default [] (pl_str pl))) (fst s) (w_heap w) t
    | _ => t = []
    end.
Proof.
  intros Hl He. set (P := fun t => match spec_event (cstr buf) with
    | Known OWFD_WPA_EVENT_P2P_PROV_DISC_SHOW_PIN _ _ pl =>
      answered (connect_cmd (pl_mac pl) (default [] (pl_str pl))) (fst s) (w_heap w) t
    | _ => t = [] end).
  enough (owp True (wpa_event (event_fns kernel) (dummy_users (Some d)) fuel buf s) (fun s' w' => s' = s /\ grows P w w') w) as H.
  { unfold owp, iwp in H. rewrite He in H. exact H. }
  clear He. unfold wpa_event. apply owp_ibind, iwp_quiet_heap.
  eapply wp_mono; [apply wp_event_parse; [apply init_wf|done]|]. intros [r ev] h (Hwf & [_ Hok] & Hag) w1 Ht Hw.
  apply owp_obind, (owp_mono _ _ (fun s' w' => s' = s /\ grows P w w')).
  2: { intros s2 w2 [-> (t & Ht2 & HP)]. apply owp_ibind, iwp_quiet_heap.
       apply wp_reset; [done|]. intros h3 _ w3 Ht3 _. apply owp_ret. split; [done|]. exists t. by rewrite Ht3. }
  assert (P [] -> s = s /\ grows P w w1) as Hnil.
  { intros HP. split; [done|]. exists []. by rewrite app_nil_r. }
  destruct Hag as [Hag|(-> & Hno & ->)].
  2: { change (- ENOMEM <? 0) with true. apply owp_ret, Hnil. unfold P. repeat case_match; try done. left. split; [done|by left]. }
  destruct (spec_event (cstr buf)) as [p| |ty p raw pl] eqn:Hspec; cbn [agrees] in Hag.
  - destruct Hag as [-> ->]. by apply owp_ret, Hnil.
  - destruct Hag as [-> ->]. change (- EINVAL <? 0) with true. by apply owp_ret, Hnil.
  - destruct Hag as (-> & Hty & _ & _ & Hmac & _ & Hstr). change (0 <? 0) with false. cbv iota. rewrite Hty.
    destruct (decide (ty = OWFD_WPA_EVENT_UNKNOWN)) as [->|Hu]; [by apply owp_ret, Hnil|].
    rewrite (proj2 (Z.eqb_neq _ _)) by by destruct ty.
    cbn [dummy_users call_users eu_event_fn eu_data]. change (negb (DUMMY_EVENT_FN =? 0)) with true. cbv iota.
    unfold event_fns. change (DUMMY_EVENT_FN =? DUMMY_EVENT_FN) with true. unfold dummy_event_fn. rewrite Hty.
    apply owp_obind. destruct (decide (ty = OWFD_WPA_EVENT_P2P_PROV_DISC_SHOW_PIN)) as [->|Hne].
    2: { destruct ty; try done; by apply owp_ret, owp_ret, Hnil. }
    destruct (spec_show_pin _ _ _ _ (cstr_no_zero buf) Hspec) as (mac & pin & -> & Hm & Hp & Hlm & Hlp).
    cbn [pl_mac pl_str] in *. rewrite Hstr. change (default [] (Some pin)) with pin. unfold strlen in Hl.
    apply owp_obind. eapply owp_mono; [apply connect_answers|]; rewrite ?Hmac; try done; [lia|].
    intros r w2 (t & Ht2 & Ha). do 2 apply owp_ret. split; [done|]. exists t. rewrite Ht2, Ht. split; [done|].
    unfold P. cbn. destruct Ha as [[-> [Hno|Hc]]|Hx]; [left|left|by right]; (split; [done|]).
    + left. intros Hh. apply Hno. rewrite Hw. by apply Hok.
    + by right.
Qed.
End pin.

(** ** A started interface *)

Lemma iwp_any {A} (m : io A) (Q : A -> world -> Prop) w : (forall a w', Q a w') -> iwp m Q w.
Proof. intros HQ. unfold iwp. destruct (m w). apply HQ. Qed.

(** What the user of a connection has set in it, and its descriptor. *)
Definition same_user (c c' : owfd_wpa_ctrl) : Prop :=
  wc_data c' = wc_data c /\ wc_mask c' = wc_mask c /\ wc_efd c' = wc_efd c.

(** Opened for the interface. *)
Definition listening (c : owfd_wpa_ctrl) : Prop := wc_cb c = Some WPA_EVENT /\ owfd_wpa_ctrl_is_open c = true.

Section ready.
Context (kernel : list event -> call -> Z * list Z) (getpid : Z).

Definition opens (c : owfd_wpa_ctrl) (x : Z * owfd_wpa_ctrl * Z) : Prop :=
  same_user c (snd (fst x)) /\ (0 <= fst (fst x) -> listening (snd (fst x))).

Lemma open_listening fuel c path counter w :
  owp True (owfd_wpa_ctrl_open kernel getpid fuel c path (Some WPA_EVENT) counter) (fun x _ => opens c x) w.
Proof.
  assert (forall r c' k, r < 0 -> same_user c c' -> opens c (r, c', k)) as Herr by (intros r c' k Hr Hs; split; [done|cbn; lia]).
  assert (forall r c' k w', r < 0 -> same_user c c' -> owp True (err_req kernel r c' k) (fun x _ => opens c x) w') as Hreq.
  { intros r c' k w' Hr Hs. unfold err_req, err_timer. apply owp_ibind, iwp_any. intros u w1.
    apply owp_ibind, iwp_any. intros u2 w2. by apply owp_ret, Herr. }
  unfold owfd_wpa_ctrl_open. destruct (owfd_wpa_ctrl_is_open c); [by apply owp_ret, Herr|].
  apply owp_ibind, iwp_any. intros r1 w1. destruct (Z.ltb_spec r1 0); [by apply owp_ret, Herr|].
  apply owp_ibind, iwp_any. intros [[fd name] k1] w2. cbv zeta. destruct (Z.ltb_spec fd 0).
  { unfold err_timer. apply owp_ibind, iwp_any. intros u w3. by apply owp_ret, Herr. }
  apply owp_ibind, iwp_any. intros [[fd2 name2] k2] w3. destruct (Z.ltb_spec fd2 0) as [|Hfd2]; [by apply Hreq|].
  apply owp_obind, owp_any. intros r4 w4. destruct (Z.ltb_spec r4 0).
  { unfold err_ev. apply owp_obind, owp_any. intros u w5. apply owp_ibind, iwp_any. intros u2 w6. by apply Hreq. }
  apply owp_ret. split; [done|]. intros _. split; [done|]. by apply Z.leb_le.
Qed.

Lemma same_user_trans a b c : same_user a b -> same_user b c -> same_user a c.
Proof. intros (? & ? & ?) (? & ? & ?). repeat split; congruence. Qed.

(** The connection behind a step of waiting for it. *)
Definition waits (c : owfd_wpa_ctrl) (x : Z * wstate) : Prop :=
  same_user c (fst (snd x)) /\ (0 <= fst x -> listening (fst (snd x))).

Lemma waits_error c c' r k : r < 0 -> same_user c c' -> waits c (r, (c', k)).
Proof. intros Hr Hs. split; [done|cbn; lia]. Qed.

Lemma try_open_listening fuel c0 s file w (k : Z -> owfd_wpa_ctrl -> Z -> io (option (Z * wstate))) :
  same_user c0 (fst s) ->
  (forall r c counter w', r < 0 -> same_user c0 c -> owp True (k r c counter) (fun x _ => waits c0 x) w') ->
  owp True (let? (r, c, counter) := owfd_wpa_ctrl_open kernel getpid fuel (fst s) file (Some WPA_EVENT) (snd s) in
    if 0 <=? r then oret (0, (c, counter)) else k r c counter) (fun x _ => waits c0 x) w.
Proof.
  intros Hs Hk. apply owp_obind. eapply owp_mono; [apply open_listening|]. intros [[r c] counter] w1 [Hs1 Hl].
  cbn [fst snd] in *. pose proof (same_user_trans _ _ _ Hs Hs1).
  destruct (Z.leb_spec 0 r); [|by apply Hk]. apply owp_ret. split; [done|]. intros _. by apply Hl.
Qed.

Lemma wait_listening fuel iface file counter w :
  owp True (wait_for_wpa kernel getpid fuel iface file counter) (fun x _ => let '(r, i, _) := x in
    i = iface <| if_wpa := if_wpa i |> /\ same_user (if_wpa iface) (if_wpa i) /\
    (0 <= r -> listening (if_wpa i))) w.
Proof.
  unfold wait_for_wpa. apply owp_ibind, iwp_any. intros fd w1. destruct (Z.ltb_spec fd 0).
  { apply owp_ret. split_and!; [by destruct iface|done|lia]. }
  apply owp_ibind, iwp_any. intros wd w2.
  apply owp_obind, (owp_mono _ _ (fun x _ => waits (if_wpa iface) x)).
  2: { intros [r [c k]] w3 [Hs Hl]. apply owp_ibind, iwp_any. intros u w4. apply owp_ret. by split_and!. }
  set (s0 := (if_wpa iface, counter)). assert (same_user (if_wpa iface) (fst s0)) as Hs0 by done.
  assert (forall n t s w', same_user (if_wpa iface) (fst s) ->
    owp True (wait_open kernel getpid fuel n fd (if_pid iface) file t s) (fun x _ => waits (if_wpa iface) x) w') as Hloop.
  { induction n as [|n IH]; intros t s w' Hs; cbn [wait_open]; [done|].
    apply owp_ibind, iwp_any. intros [r t1] w3. destruct (Z.ltb_spec r 0); [destruct s; by apply owp_ret, waits_error|].
    apply try_open_listening; [done|]. intros r4 c k w4 Hr Hc. apply owp_ibind, iwp_any. intros u w5.
    destruct (t1 <=? 0); [by apply owp_ret, waits_error|by apply IH]. }
  unfold wait_started. apply owp_ibind, iwp_any. intros [] w3; cbn [negb]; [|by apply owp_ret, waits_error].
  apply owp_ibind, iwp_any. intros a w4. apply owp_obind, owp_any. intros [r t1] w5.
  destruct (Z.ltb_spec r 0); [by apply owp_ret, waits_error|].
  unfold wait_socket. apply owp_ibind, iwp_any. intros u6 w6. apply owp_ibind, iwp_any. intros u7 w7.
  apply owp_ibind, iwp_any. intros [] w8; cbn [negb]; [|by apply owp_ret, waits_error].
  apply try_open_listening; [done|]. intros r9 c k w9 Hr Hc. by apply Hloop.
Qed.

(** *** What is exchanged to set wpa_supplicant up *)

(** The commands and the replies they have to have. *)
Definition dialogue : list (list Z * list Z) :=
  (str "GET wifi_display", str "1") :: map (fun req => (req, str "OK" ++ [LF])) setup_requests.

(** A command and its reply, with events before it. *)
Definition turn (x : list Z * list Z) (l : list (list Z + list Z)) : Prop :=
  exists evs, Forall is_event evs /\ l = inl (fst x) :: map inr (evs ++ [snd x]).

Definition talk (xs : list (list Z * list Z)) (t : list event) : Prop :=
  exists ls, exchange t = concat ls /\ Forall2 turn xs ls.

Lemma talk_cons x xs s t : talk [x] s -> talk xs t -> talk (x :: xs) (s ++ t).
Proof.
  intros (ls & Hs & Hx) (ms & Ht & Hy). exists (ls ++ ms). rewrite exchange_app, Hs, Ht, concat_app.
  split; [done|]. change (x :: xs) with ([x] ++ xs). by apply Forall2_app.
Qed.

Lemma request_all_talk fuel c reqs w :
  Forall no_zero reqs ->
  owp True (request_all kernel fuel c reqs) (fun r w' => grows (fun t =>
    0 <= r -> talk (map (fun req => (req, str "OK" ++ [LF])) reqs) t) w w') w.
Proof.
  intros Hz; revert w; induction Hz as [|req reqs Hreq Hz IH]; intros w; cbn [request_all map].
  { apply owp_ret, grows_refl. intros _. by exists []. }
  apply owp_obind. unfold iface_request_ok. rewrite cstr_id by done. eapply owp_mono; [apply request_ok_outcome|].
  intros r w1 (t & Ht & Hr). destruct (Z.ltb_spec r 0).
  { apply owp_ret. exists t. split; [done|]. by intros []. }
  eapply owp_mono; [apply IH|]. intros r2 w2 (u & Hu & Hr2). exists (t ++ u). rewrite Hu, Ht, app_assoc.
  split; [done|]. intros Hpos. apply talk_cons; [|by apply Hr2]. destruct (Hr ltac:(lia)) as (evs & Hevs & Hx).
  eexists [_]. rewrite Hx. cbn [concat]. rewrite app_nil_r. split; [done|]. constructor; [|constructor]. by exists evs.
Qed.

Lemma wpa_setup_talk fuel c w :
  owp True (wpa_setup kernel fuel c) (fun r w' => grows (fun t => 0 <= r -> talk dialogue t) w w') w.
Proof.
  unfold wpa_setup, iface_request, owfd_wpa_ctrl_request. apply owp_obind.
  destruct (negb _); [apply owp_ret, owp_ret, grows_refl; by intros []|].
  rewrite cstr_id by by repeat constructor. cbv zeta. eapply owp_mono; [apply request_outcome|].
  intros [r buf] w1 (t & Ht & evs & Hevs & Hx). cbn [fst snd] in *.
  destruct (Z.ltb_spec r 0); cbn [orb]; [apply owp_ret; exists t; split; [done|]; by intros []|].
  destruct Hx as [(_ & _ & Hx)|(? & _)]; [|lia].
  destruct (Z.eqb_spec (zlen buf) 1) as [Hl|]; cbn [negb orb]; [|apply owp_ret; exists t; split; [done|]; by intros []].
  destruct (Z.eqb_spec (char_at buf 0) (chr "1")) as [Hc|]; cbn [negb]; [|apply owp_ret; exists t; split; [done|]; by intros []].
  assert (buf = str "1") as ->.
  { destruct buf as [|x [|y l]]; [done| |]; [change (x = chr "1") in Hc; by subst|]. rewrite !zlen_cons in Hl. pose proof (zlen_nonneg l). lia. }
  eapply owp_mono; [apply request_all_talk; by repeat constructor|]. intros r2 w2 (u & Hu & Hr2). exists (t ++ u).
  rewrite Hu, Ht, app_assoc. split; [done|]. intros Hpos. apply talk_cons; [|by apply Hr2].
  eexists [_]. rewrite Hx. cbn [concat]. rewrite app_nil_r. split; [done|]. constructor; [|constructor]. by exists evs.
Qed.

(** The trace ends with a complete set-up. *)
Definition set_up_by (t : list event) : Prop := exists a b, t = a ++ b /\ talk dialogue b.

(** What an interface that has been started is like. *)
Record ready (conf : owfd_p2pd_config) (i : owfd_p2pd_interface) : Prop := {
  rd_config : if_config i = conf;
  rd_users : if_event_users i = [];
  rd_pid : 0 < if_pid i;
  rd_listening : listening (if_wpa i);
  rd_data : wc_data (if_wpa i) = ADDR_IFACE;
  rd_mask : wc_mask (if_wpa i) = sigset [SIGPIPE];
}.

Lemma fork_wpa_ready fuel iface counter w :
  owp True (fork_wpa kernel getpid fuel iface counter) (fun x w' => let '(r, i, _) := x in
    0 <= r -> 0 < if_pid i /\ if_config i = if_config iface /\ if_event_users i = if_event_users iface /\
    listening (if_wpa i) /\ wc_data (if_wpa i) = wc_data (if_wpa iface) /\ wc_mask (if_wpa i) = sigset [SIGPIPE] /\
    grows set_up_by w w') w.
Proof.
  unfold fork_wpa. apply owp_ibind, iwp_sys_. intros pid d _.
  destruct (Z.ltb_spec pid 0); [apply owp_ret; intros ?; exfalso; lia|]. destruct (Z.eqb_spec pid 0).
  { apply owp_obind, owp_any. intros u w1. apply owp_ibind, iwp_any. by intros. }
  assert (grows (fun _ => True) w (called Fork pid d w)) as Hg by by apply grows_call.
  cbv zeta. apply owp_ibind. eapply iwp_mono; [apply fl_heap|]. intros ok w1 H1.
  destruct (negb ok); [apply owp_ret; by intros []|].
  apply owp_obind. eapply owp_mono; [apply owp_and; [apply wait_listening|apply owp_fl; [apply fl_wait_for_wpa|]; intros a w2 H2; exact H2]|].
  intros [[r i] k] w2 [(Hi & (Hd & Hm & _) & Hl) H2]. apply owp_ibind. eapply iwp_mono; [apply fl_heap|]. intros u w3 H3.
  destruct (Z.ltb_spec r 0); [apply owp_ret; intros ?; exfalso; lia|].
  apply owp_obind. eapply owp_mono; [apply wpa_setup_talk|]. intros r4 w4 H4. apply owp_ret.
  destruct (Z.ltb_spec r4 0); [intros ?; exfalso; lia|]. intros _. rewrite Hi. cbn. cbn in Hd, Hm.
  split_and!; try done; [lia|by apply Hl|].
  pose proof (grows_forkless _ _ _ (grows_forkless _ _ _ H1 H2) H3) as H13.
  eapply (grows_trans (fun _ => True) (fun t => 0 <= r4 -> talk dialogue t)); [| |exact H4].
  - intros s t _ Ht. exists s, t. split; [done|by apply Ht].
  - eapply grows_trans; [|exact Hg|exact H13]. done.
Qed.

(** C15. A daemon that has been set up can serve: when
    [owfd_p2pd_interface_new] succeeds, it has a child process, an open
    connection that gives its events to [wpa_event] and knows the interface,
    the descriptor of that connection as the one it polls, and wpa_supplicant
    has said that it can do Wi-Fi Display and has confirmed each of the four
    settings, in order and after everything that was exchanged to connect. *)
Theorem p2pd_interface_ready fuel conf efd counter w r i counter' w' :
  owfd_p2pd_interface_new kernel getpid fuel conf efd counter w = (Some (r, Some i, counter'), w') ->
  r = 0 /\ ready conf i /\ if_wpa_fd i = wc_efd (if_wpa i) /\ grows set_up_by w w'.
Proof.
  intros He. enough (owp True (owfd_p2pd_interface_new kernel getpid fuel conf efd counter) (fun x w' =>
    forall i, snd (fst x) = Some i -> fst (fst x) = 0 /\ ready conf i /\ if_wpa_fd i = wc_efd (if_wpa i) /\
    grows set_up_by w w') w) as H by (unfold owp, iwp in H; rewrite He in H; by apply H).
  clear He. unfold owfd_p2pd_interface_new. apply owp_ibind. eapply iwp_mono; [apply fl_heap|]. intros ok w1 H1.
  destruct (negb ok); [by apply owp_ret|]. apply owp_ibind. eapply iwp_mono; [apply fl_new|]. intros [r2 [c|]] w2 H2.
  2: { apply owp_ibind, iwp_any. intros u w3. by apply owp_ret. }
  cbv zeta. apply owp_obind. eapply owp_mono; [apply fork_wpa_ready|]. intros [[r3 j] k] w3 H3.
  assert (forall r j w', owp True (err_kill kernel fuel r j k) (fun x w' => forall i, snd (fst x) = Some i ->
    fst (fst x) = 0 /\ ready conf i /\ if_wpa_fd i = wc_efd (if_wpa i) /\ grows set_up_by w w') w') as Herr.
  { intros r0 j0 w0. unfold err_kill. apply owp_obind, owp_any. intros u w4. by apply owp_ret. }
  destruct (Z.ltb_spec r3 0); [apply Herr|]. destruct H3 as (Hp & Hc & Hu & Hl & Hd & Hm & Hg); [done|].
  unfold owfd_p2pd_ep_add. apply owp_ibind, iwp_bind, iwp_sys_. intros r5 d5 _. apply iwp_ret.
  set (w5 := called _ r5 d5 w3). destruct (Z.ltb_spec (if r5 <? 0 then r5 else 0) 0); [apply Herr|]. apply owp_ret. cbn [fst snd]. intros i0 [= <-].
  split_and!; [done|by split|done|].
  eapply (grows_trans (Forall forkless) set_up_by); [|exact (grows_forkless _ _ _ H1 H2)|].
  { intros s t _ (a & b & -> & Hb). exists (s ++ a), b. by rewrite <- app_assoc. }
  eapply (grows_trans set_up_by (fun t => exchange t = [])); [|exact Hg|by apply grows_call].
  intros s t (a & b & -> & ls & Hb & Hls) Ht. exists a, (b ++ t). rewrite <- app_assoc. split; [done|].
  exists ls. by rewrite exchange_app, Ht, app_nil_r.
Qed.
End ready.

(** ** Nothing but the event loop waits for ever *)

Section ends.
Context (kernel : list event -> call -> Z * list Z) (getpid : Z).
Context (clock_advances : forall t u, u <> [] -> clock_at kernel t < clock_at kernel (t ++ u)).
Context (fuel : nat) (enough : 10 * 1000 * 1000 < Z.of_nat fuel).

(** This is the parent process. *)
Context (parent : forall t, fst (kernel t Fork) <> 0).

(** A round of waiting fails or takes time off the timeout. *)
Lemma wait_round_progress fd pid t w :
  0 <= t -> iwp (wait_round kernel fd pid t) (fun x _ => fst x < 0 \/ (0 <= snd x /\ snd x < Z.max t 1)) w.
Proof.
  intros Ht. unfold wait_round. apply iwp_bind, get_time_spec. intros w1 (u & Hu & Hne).
  destruct (us_to_timespec _) as [sec nsec]. apply iwp_bind, iwp_sys. intros r d _. set (e := Ppoll _ _ _ _).
  destruct (Z.ltb_spec r 0); [apply iwp_ret; by left|]. destruct (_ && _); [apply iwp_ret; by left|].
  apply iwp_bind, get_time_spec. intros w2 _. cbv zeta.
  assert (clock_at kernel (w_trace w) < clock_at kernel (w_trace (called e r d w1))) as Hc.
  { cbn [called w_trace]. rewrite Hu, <- app_assoc. apply clock_advances. by destruct u. }
  apply iwp_bind, iwp_any. intros alive w3. apply iwp_ret. cbn [fst snd].
  destruct alive; [|by left]. right. destruct (Z.ltb_spec (t - (clock_at kernel (w_trace (called e r d w1)) - clock_at kernel (w_trace w))) 0); lia.
Qed.

Lemma wait_file_ends n fd pid file t w :
  0 <= t < Z.of_nat n -> owp False (wait_file kernel n fd pid file t) (fun x _ => fst x < 0 \/ 0 <= snd x <= t) w.
Proof.
  revert t w; induction n as [|n IH]; intros t w Ht; cbn [wait_file]; [lia|].
  apply owp_ibind. eapply iwp_mono; [apply wait_round_progress; lia|]. intros [r t1] w1 Hr. cbn [fst snd] in Hr.
  destruct (Z.ltb_spec r 0); [apply owp_ret; by left|]. destruct Hr as [?|Hr]; [lia|].
  apply owp_ibind, iwp_any. intros a w2. destruct (a =? 0); [apply owp_ret; right; cbn; lia|].
  apply owp_ibind, iwp_any. intros b w3. destruct (Z.leb_spec t1 0); [apply owp_ret; by left|].
  eapply owp_mono; [apply IH; lia|]. intros [r2 t2] w4 [?|?]; [by left|right]. cbn in *. lia.
Qed.

Lemma try_open_ends s file (k : Z -> owfd_wpa_ctrl -> Z -> io (option (Z * wstate))) w :
  (forall r c counter w', owp False (k r c counter) (fun _ _ => True) w') ->
  owp False (let? (r, c, counter) := owfd_wpa_ctrl_open kernel getpid fuel (fst s) file (Some WPA_EVENT) (snd s) in
    if 0 <=? r then oret (0, (c, counter)) else k r c counter) (fun _ _ => True) w.
Proof.
  intros Hk. apply owp_obind. eapply owp_mono; [by apply open_ends|]. intros [[r c] counter] w1 _.
  destruct (0 <=? r); [by apply owp_ret|apply Hk].
Qed.

Lemma wait_open_ends n fd pid file t s w :
  0 <= t < Z.of_nat n -> owp False (wait_open kernel getpid fuel n fd pid file t s) (fun _ _ => True) w.
Proof.
  revert t s w; induction n as [|n IH]; intros t s w Ht; cbn [wait_open]; [lia|].
  apply owp_ibind. eapply iwp_mono; [apply wait_round_progress; lia|]. intros [r t1] w1 Hr. cbn [fst snd] in Hr.
  destruct (Z.ltb_spec r 0); [by apply owp_ret|]. destruct Hr as [?|Hr]; [lia|].
  apply try_open_ends. intros r2 c k w2. apply owp_ibind, iwp_any. intros b w3.
  destruct (Z.leb_spec t1 0); [by apply owp_ret|]. apply IH. lia.
Qed.

Lemma wait_for_wpa_ends iface file counter : ends (wait_for_wpa kernel getpid fuel iface file counter).
Proof.
  intros w. unfold wait_for_wpa. apply owp_ibind, iwp_any. intros fd w1. destruct (fd <? 0); [by apply owp_ret|].
  apply owp_ibind, iwp_any. intros wd w2.
  apply owp_obind, (owp_mono _ _ (fun _ _ => True)).
  2: { intros [r s] w3 _. apply owp_ibind, iwp_any. intros u w4. by apply owp_ret. }
  unfold wait_started. apply owp_ibind, iwp_any. intros [] w3; cbn [negb]; [|by apply owp_ret].
  apply owp_ibind, iwp_any. intros a w4.
  apply owp_obind, (owp_mono _ _ (fun x _ => fst x < 0 \/ 0 <= snd x <= 10 * 1000 * 1000)).
  { destruct (a <? 0); [apply wait_file_ends; lia|apply owp_ret; right; cbn; lia]. }
  intros [r t] w5 Hr. cbn [fst snd] in Hr. destruct (Z.ltb_spec r 0); [by apply owp_ret|]. destruct Hr as [?|Hr]; [lia|].
  unfold wait_socket. apply owp_ibind, iwp_any. intros u6 w6. apply owp_ibind, iwp_any. intros u7 w7.
  apply owp_ibind, iwp_any. intros [] w8; cbn [negb]; [|by apply owp_ret].
  apply try_open_ends. intros r9 c k w9. apply wait_open_ends. lia.
Qed.

Lemma ctrl_request_ends c cmd len timeout : ends (owfd_wpa_ctrl_request kernel fuel c cmd len timeout).
Proof. unfold owfd_wpa_ctrl_request. destruct (negb _); [apply ends_oret|]. by apply request_ends. Qed.

Ltac daemon_ends :=
  cbv zeta;
  repeat match goal with
  | |- ends (ibind _ _) => apply ends_ibind; intros
  | |- ends (obind _ _) => apply ends_obind; [|intros]
  | |- ends (oret _) => apply ends_oret
  | |- ends (owfd_wpa_ctrl_request_ok _ _ _ _ _) => by apply request_ok_ends
  | |- ends (owfd_wpa_ctrl_request _ _ _ _ _ _) => apply ctrl_request_ends
  | |- ends (owfd_wpa_ctrl_close _ _ _) => by apply close_ends
  | |- ends (owfd_wpa_ctrl_unref _ _ _) => by apply unref_ends
  | |- ends (wait_for_wpa _ _ _ _ _ _) => apply wait_for_wpa_ends
  | |- ends (if ?b then _ else _) => destruct b
  | |- ends (match ?x with _ => _ end) => destruct x
  end.

Lemma stop_iface_ends iface : ends (stop_iface kernel fuel iface).
Proof. unfold stop_iface, kill_wpa, send_sigterm. daemon_ends. Qed.

Lemma fork_wpa_ends iface counter : ends (fork_wpa kernel getpid fuel iface counter).
Proof.
  intros w. unfold fork_wpa. apply owp_ibind, iwp_sys_. intros pid d Hk. pose proof (parent (w_trace w)) as Hp.
  rewrite Hk in Hp. cbn in Hp. destruct (pid <? 0); [by apply owp_ret|]. rewrite (proj2 (Z.eqb_neq _ _) Hp).
  generalize (called Fork pid d w). clear Hk.
  assert (forall c reqs, ends (request_all kernel fuel c reqs)) as Hall.
  { intros c; induction reqs; cbn [request_all]; unfold iface_request_ok; daemon_ends. apply IHreqs. }
  match goal with |- forall w, owp False (?m) _ w => change (ends m) end.
  unfold wpa_setup, iface_request. daemon_ends. apply Hall.
Qed.

Lemma interface_new_ends conf efd counter : ends (owfd_p2pd_interface_new kernel getpid fuel conf efd counter).
Proof.
  unfold owfd_p2pd_interface_new, err_kill. daemon_ends; try apply stop_iface_ends. apply fork_wpa_ends.
Qed.

(** A dummy is only there with its interface. *)
Lemma teardown_ends p : (pd_interface p = None -> pd_dummy p = None) -> ends (owfd_p2pd_teardown kernel fuel p).
Proof.
  intros Hd. unfold owfd_p2pd_teardown. apply ends_obind.
  - destruct (pd_dummy p) as [d|]; cbn [owfd_p2pd_dummy_free]; [|apply ends_oret].
    destruct (pd_interface p); [daemon_ends|]. by specialize (Hd eq_refl).
  - intros [i|]; cbn [owfd_p2pd_interface_free]; daemon_ends. apply stop_iface_ends.
Qed.

Lemma setup_ends s : pd_interface (fst s) = None -> pd_dummy (fst s) = None -> ends (owfd_p2pd_setup kernel getpid fuel s).
Proof.
  intros Hi Hd. assert (forall r s', (pd_interface (fst s') = None -> pd_dummy (fst s') = None) ->
    ends (setup_error kernel fuel r s')) as Herr.
  { intros r s' Hs. unfold setup_error. apply ends_obind; [by apply teardown_ends|]. intros. apply ends_oret. }
  unfold owfd_p2pd_setup, setup_objects. daemon_ends; try (by apply Herr); try apply interface_new_ends.
Qed.

(** What the daemon does about a signal or a message. *)
Lemma handle_signal_ends signo pid s :
  is_Some (pd_interface (fst s)) -> ends (handle_signal kernel fuel signo pid s).
Proof.
  intros [i Hi]. unfold handle_signal. rewrite Hi. unfold owfd_p2pd_interface_dispatch_chld. daemon_ends.
Qed.

Lemma wpa_event_ends users buf s : ends (wpa_event (event_fns kernel) users fuel buf s).
Proof.
  assert (forall ev l s, ends (call_users (event_fns kernel) fuel ev l s)) as Hall.
  { intros ev; induction l as [|e l IH]; intros s'; cbn [call_users]; [apply ends_oret|].
    apply ends_obind; [|intros; apply IH]. unfold event_fns, dummy_event_fn, owfd_p2pd_interface_connect, iface_request_ok, asprintf.
    daemon_ends. }
  unfold wpa_event. daemon_ends. apply Hall.
Qed.
End ends.

(** C17. Only the event loop can wait for ever: whatever the system answers, as
    long as its clock advances between two readings, setting the daemon up (with
    the ten seconds it gives wpa_supplicant, in rounds of a tenth of a second),
    tearing it down, and its reaction to a signal or to a message come to an
    end, within ten million rounds of each loop.  [Fork] does not answer 0,
    which it does in the child. *)
Theorem p2pd_waits_end kernel getpid fuel conf counter p signo pid s users buf ws w :
  (forall t u, u <> [] -> clock_at kernel t < clock_at kernel (t ++ u)) ->
  (forall t, fst (kernel t Fork) <> 0) ->
  10 * 1000 * 1000 < Z.of_nat fuel ->
  (pd_interface p = None -> pd_dummy p = None) -> is_Some (pd_interface (fst s)) ->
  fst (owfd_p2pd_setup kernel getpid fuel (mkP2pd conf (-1) (-1) None None, counter) w) <> None /\
  fst (owfd_p2pd_teardown kernel fuel p w) <> None /\
  fst (handle_signal kernel fuel signo pid s w) <> None /\
  fst (wpa_event (event_fns kernel) users fuel buf ws w) <> None.
Proof.
  intros Hc Hp Hf Hd Hi. split_and!; apply ends_some.
  - by apply setup_ends.
  - by apply teardown_ends.
  - by apply handle_signal_ends.
  - by apply wpa_event_ends.
Qed.

(** ** Witnesses *)

(** A system on which wpa_supplicant starts, does what it is told, and reports
    one PIN event; then the daemon gets SIGTERM. *)
Definition talks (e : event) : bool :=
  match ev_call e with Send _ _ | Recv _ _ | EpollWait _ _ _ => true | _ => false end.

Definition PIN_EVENT : list Z := str "<3>P2P-PROV-DISC-SHOW-PIN 02:00:00:00:00:01 12345670".

Definition daemon_waits (t : list event) : Z :=
  zlen (List.filter (fun e => match ev_call e with EpollWait _ n _ => n =? max_evs | _ => false end) t).

Definition siginfo (signo pid : Z) : list Z :=
  le_bytes32 signo ++ replicate 8 0 ++ le_bytes32 pid ++ replicate 112 0.

Definition daemon_kernel (t : list event) (k : call) : Z * list Z :=
  match k with
  | EpollCreate | TimerfdCreate | Socket | Signalfd _ | InotifyInit => (3 + zlen t, [])
  | Mktemp _ => (0, name_of t)
  | ClockGettime => (0, [zlen t; 0])
  | Fork => (4711, [])
  | Ppoll _ _ _ _ => (1, [0])
  | Send _ cmd => (zlen cmd, [])
  | Recv _ _ =>
    match ev_call <$> last (List.filter talks t) with
    | Some (Send _ cmd) => if decide (cmd = str "GET wifi_display") then (1, str "1") else (3, str "OK" ++ [LF])
    | Some (EpollWait _ _ _) => (zlen PIN_EVENT, PIN_EVENT)
    | _ => (- EAGAIN, [])
    end
  | EpollWait _ n _ =>
    if n =? max_evs then (1, [EPOLLIN; if daemon_waits t =? 0 then TAG_WPA else TAG_SFD]) else (1, [EPOLLIN; TAG_EV])
  | Read _ n => (n, siginfo SIGTERM 1)
  | _ => (0, [])
  end.

Lemma daemon_kernel_fresh t template r name :
  daemon_kernel t (Mktemp template) = (r, name) -> ztake (UNIX_PATH_MAX - 1) name ∉ files t.
Proof. intros [= _ <-]. apply name_of_fresh. Qed.

Lemma daemon_kernel_clock t u : u <> [] -> clock_at daemon_kernel t < clock_at daemon_kernel (t ++ u).
Proof.
  intros Hu. unfold clock_at. cbn. rewrite zlen_app. destruct u; [done|]. rewrite zlen_cons.
  pose proof (zlen_nonneg u). lia.
Qed.

Definition daemon_args : list (list Z) := [str "-i"; str "wlan0"].

Definition daemon_run : option Z * world := main daemon_kernel 77 5 20 daemon_args wpa_world.

(** What the daemon sends in this run. *)
Definition sent (t : list event) : list (list Z) :=
  omap (fun x => match x with inl cmd => Some cmd | inr _ => None end) (exchange t).

Example daemon_run_sends :
  fst daemon_run = Some 0 /\
  sent (w_trace (snd daemon_run)) =
    [str "ATTACH"; str "GET wifi_display"] ++ setup_requests ++
    [str "P2P_CONNECT 02:00:00:00:00:01 12345670 display"; str "TERMINATE"; str "DETACH"].
Proof. vm_compute. split; reflexivity. Qed.

Lemma p2pd_main_no_leak_witness :
  res ∅ ∅ 0 (snd daemon_run) \/
  exists r conf h, owfd_p2pd_parse_argv daemon_args owfd_p2pd_init_config (w_heap wpa_world) = (Some (r, conf), h) /\
    r < 0 /\ 0 = - r /\ res ∅ ∅ (0 + owned conf) (snd daemon_run).
Proof.
  assert (main daemon_kernel 77 5 20 daemon_args wpa_world = (Some 0, snd daemon_run)) as He by (vm_compute; reflexivity).
  exact (p2pd_main_no_leak daemon_kernel 77 5 20 daemon_args wpa_world 0 (snd daemon_run) ∅ ∅ 0
    daemon_kernel_fresh wpa_world_res He).
Defined.

Lemma p2pd_child_settled_witness :
  exists t, w_trace (snd daemon_run) = w_trace wpa_world ++ t /\ all_settled t.
Proof.
  assert (main daemon_kernel 77 5 20 daemon_args wpa_world = (Some 0, snd daemon_run)) as He by (vm_compute; reflexivity).
  exact (p2pd_child_settled daemon_kernel 77 5 20 daemon_args wpa_world 0 (snd daemon_run) He).
Defined.

(** The daemon when it has been set up. *)
Definition daemon_conf : owfd_p2pd_config :=
  mkConf false false false (Some (str "wlan0")) (Some (str "/bin/wpa_supplicant")) (Some (str "/run/wpa_supplicant")).

Definition daemon_new : option (Z * option owfd_p2pd_interface * Z) * world :=
  owfd_p2pd_interface_new daemon_kernel 77 20 daemon_conf 3 0 wpa_world.

Definition new_iface : owfd_p2pd_interface :=
  match fst daemon_new with
  | Some (_, Some i, _) => i
  | _ => mkIface (mkWpa 0 0 0 0 0 0 [] 0 [] None) daemon_conf 0 0 []
  end.

Lemma p2pd_interface_ready_witness :
  0 = 0 /\ ready daemon_conf new_iface /\ if_wpa_fd new_iface = wc_efd (if_wpa new_iface) /\
  grows set_up_by wpa_world (snd daemon_new).
Proof.
  assert (owfd_p2pd_interface_new daemon_kernel 77 20 daemon_conf 3 0 wpa_world =
    (Some (0, Some new_iface, 2), snd daemon_new)) as He by (vm_compute; reflexivity).
  exact (p2pd_interface_ready daemon_kernel 77 20 daemon_conf 3 0 wpa_world 0 new_iface 2 (snd daemon_new) He).
Defined.

Definition new_state : pstate := (mkP2pd daemon_conf 3 4 (Some new_iface) None, 2).

Definition new_loop : option (Z * pstate) * world := owfd_p2pd_run daemon_kernel 5 20 new_state (snd daemon_new).

Definition loop_state : pstate := match fst new_loop with Some (_, s) => s | None => new_state end.

Lemma p2pd_run_stops_witness :
  exists i' t, pd_interface (fst loop_state) = Some i' /\ w_trace (snd new_loop) = w_trace (snd daemon_new) ++ t /\
    (if_pid i' = if_pid new_iface \/ (0 = 0 /\ if_pid i' = 0 /\ Exists (reported (if_pid new_iface)) t)) /\
    (0 < 0 \/ (0 = 0 /\ Exists (quits (if_pid new_iface)) t)).
Proof.
  assert (owfd_p2pd_run daemon_kernel 5 20 new_state (snd daemon_new) = (Some (0, loop_state), snd new_loop)) as He
    by (vm_compute; reflexivity).
  exact (p2pd_run_stops daemon_kernel 5 20 new_state new_iface (snd daemon_new) 0 loop_state (snd new_loop) eq_refl He).
Defined.

Definition dummy0 : owfd_p2pd_dummy := mkDummy ADDR_CONFIG ADDR_IFACE.

Definition pin_state : wstate := (if_wpa new_iface, 2).

Definition pin_event : option wstate * world :=
  wpa_event (event_fns daemon_kernel) (dummy_users (Some dummy0)) 20 PIN_EVENT pin_state (snd daemon_new).

Lemma daemon_answers_pin_witness :
  pin_state = pin_state /\ exists t, w_trace (snd pin_event) = w_trace (snd daemon_new) ++ t /\
    match spec_event (cstr PIN_EVENT) with
    | Known OWFD_WPA_EVENT_P2P_PROV_DISC_SHOW_PIN _ _ pl =>
      answered (connect_cmd (pl_mac pl) (default [] (pl_str pl))) (fst pin_state) (w_heap (snd daemon_new)) t
    | _ => t = []
    end.
Proof.
  assert (wpa_event (event_fns daemon_kernel) (dummy_users (Some dummy0)) 20 PIN_EVENT pin_state (snd daemon_new) =
    (Some pin_state, snd pin_event)) as He by (vm_compute; reflexivity).
  assert (strlen PIN_EVENT < 2 ^ 62) as Hl by (vm_compute; reflexivity).
  exact (daemon_answers_pin daemon_kernel dummy0 20 PIN_EVENT pin_state (snd daemon_new) pin_state (snd pin_event) Hl He).
Defined.

Lemma p2pd_waits_end_witness :
  let fuel := Z.to_nat 10000001 in
  let w := snd daemon_new in
  fst (owfd_p2pd_setup daemon_kernel 77 fuel (mkP2pd daemon_conf (-1) (-1) None None, 0) w) <> None /\
  fst (owfd_p2pd_teardown daemon_kernel fuel (fst new_state) w) <> None /\
  fst (handle_signal daemon_kernel fuel SIGCHLD 4711 new_state w) <> None /\
  fst (wpa_event (event_fns daemon_kernel) (dummy_users (Some dummy0)) fuel PIN_EVENT pin_state w) <> None.
Proof.
  intros fuel w. assert (10 * 1000 * 1000 < Z.of_nat fuel) as Hf by (unfold fuel; rewrite Z2Nat.id; lia).
  assert (forall t, fst (daemon_kernel t Fork) <> 0) as Hp by discriminate.
  exact (p2pd_waits_end daemon_kernel 77 fuel daemon_conf 0 (fst new_state) SIGCHLD 4711 new_state
    (dummy_users (Some dummy0)) PIN_EVENT pin_state w
    daemon_kernel_clock Hp Hf (fun _ => eq_refl) (ex_intro _ new_iface eq_refl)).
Defined.

(** ** What goes wrong *)

(** wpa_supplicant dies before its socket is there.  [waitpid] has taken the
    child away when the daemon sends SIGTERM to its process id. *)
Definition dying_kernel (t : list event) (k : call) : Z * list Z :=
  match k with Waitpid pid => (pid, []) | _ => daemon_kernel t k end.

Example kills_reaped_child :
  let '(r, w) := owfd_p2pd_interface_new dying_kernel 77 20 daemon_conf 3 0 wpa_world in
  option_map (fun x => fst (fst x)) r = Some (- ENODEV) /\
  List.filter (fun e => match ev_call e with Waitpid _ | Kill _ _ => true | _ => false end) (w_trace w) =
    [mkEvent (Waitpid 4711) 4711 []; mkEvent (Kill 4711 SIGTERM) 0 []].
Proof. vm_compute. split; reflexivity. Qed.

(** The signal mask for the start stays: requests made later let the signals
    through that the signal descriptor should get.  When one has been taken that
    way, reading the descriptor gives EAGAIN, and the daemon ends. *)
Example spurious_signal_ends_loop :
  let k := fun (t : list event) (c : call) =>
    match c with
    | EpollWait _ _ _ => (1, [EPOLLIN; TAG_SFD])
    | Read _ _ => (- EAGAIN, [])
    | _ => daemon_kernel t c
    end in
  option_map fst (fst (owfd_p2pd_run k 5 20 new_state (snd daemon_new))) = Some (- EAGAIN).
Proof. vm_compute. reflexivity. Qed.
