(* ===== verification/OpenwfdIe.v ===== *)
(** * The information element printer of [src/tools/openwfd_ie.c].

    [print_ie] walks the blocks and sub-elements of a Wi-Fi Display information
    element and prints what it finds.  The state is the indentation, the bytes
    printed so far and the heap; [None] is a read or a write outside the buffer
    or the block that collects a sub-element.  [NULL] is [None], and pointers
    into the buffer are offsets. *)

From S2P Require Import Prelude StateFail RecordSet CLib Bytes.

(** ** Definitions of [src/openwfd/wfd_defs.h] *)

Definition OPENWFD_WFD_IE_ID : Z := 0xdd.
Definition OPENWFD_WFD_IE_OUI_1_0 : Z := 0x506f9a0a.
Definition OPENWFD_WFD_IE_DATA_MAX : Z := 251.
Definition OPENWFD_WFD_IE_SUB_DEV_INFO : Z := 0.
Definition OPENWFD_WFD_IE_SUB_DEV_INFO_PRIMARY_SINK : Z := 0x0001.
Definition OPENWFD_WFD_IE_SUB_DEV_INFO_AVAILABLE : Z := 0x0010.
Definition OPENWFD_WFD_IE_SUB_DEV_INFO_DEFAULT_PORT : Z := 7236.

(** ** Output *)

Record tool := mkTool { t_indent : Z; t_out : list Z; t_heap : heap }.

#[export] Instance eta_tool : Eta tool := fun s => mkTool (t_indent s) (t_out s) (t_heap s).

(** [%x] of an [unsigned int]; eight digits are enough. *)
Definition hex_digit (d : Z) : Z := if d <? 10 then 48 + d else 87 + d.

Fixpoint hex_digits (fuel : nat) (n : Z) (acc : list Z) : list Z :=
  match fuel with
  | O => acc
  | S fuel =>
    let acc := hex_digit (n mod 16) :: acc in
    if n <? 16 then acc else hex_digits fuel (n / 16) acc
  end.

Definition hex (n : Z) : list Z := hex_digits 8 n [].

(** [%02x] of a byte. *)
Definition hex2 (n : Z) : list Z := [hex_digit (n / 16); hex_digit (n mod 16)].

Definition fprint (text : list Z) : sfm tool unit := smod (fun s => s <| t_out := t_out s ++ text |>).

Definition print_line (text : list Z) : sfm tool unit :=
  let* s := sget in
  fprint (replicate (4 * Z.to_nat (t_indent s)) SP ++ text ++ [LF]).

Definition print_err (text : list Z) : sfm tool unit := fprint (str "ERROR: " ++ text ++ [LF]).

(** [size_t] *)
Definition indent_in : sfm tool unit := smod (fun s => s <| t_indent := u64 (t_indent s + 1) |>).

Definition indent_out : sfm tool unit := smod (fun s => s <| t_indent := u64 (t_indent s - 1) |>).

(** ** Memory *)

Definition inside (l : list Z) (off n : Z) : bool := (0 <=? off) && (0 <=? n) && (off + n <=? zlen l).

Definition rd8 (l : list Z) (off : Z) : sfm tool Z := slift (if inside l off 1 then Some (byte_at l off) else None).

Definition rd16 (l : list Z) (off : Z) : sfm tool Z := slift (if inside l off 2 then Some (get_be16 l off) else None).

Definition rd32 (l : list Z) (off : Z) : sfm tool Z := slift (if inside l off 4 then Some (get_be32 l off) else None).

(** [memcpy (&dst[c], &src[h], n)] *)
Definition copy (src : list Z) (h n : Z) (dst : list Z) (c : Z) : sfm tool (list Z) :=
  slift (if inside src h n && inside dst c n then Some (memcpy c (ztake n (zdrop h src)) dst) else None).

Definition on_tool {A} (m : alloc A) : sfm tool A := fun s =>
  let '(a, h) := m (t_heap s) in Some (a, s <| t_heap := h |>).

(** ** Sub-elements *)

Definition print_sub_dev_info (data : list Z) (h : Z) (p : list Z) : sfm tool unit :=
  let* len := rd16 data (h + 1) in
  if negb (len =? 6) then print_err (str "invalid sub-length " ++ dec len)
  else
    let* info := rd16 p 0 in
    let* _ := print_line (str "dev_info: " ++ hex info) in
    let* port := rd16 p 2 in
    let* _ := print_line (str "ctrl_port: " ++ dec port) in
    let* max := rd16 p 4 in
    print_line (str "max_throughput: " ++ dec max).

(** [sub] is where the header of the sub-element is, [p] the collected payload. *)
Definition print_sub (data : list Z) (sub : Z) (p : list Z) : sfm tool unit :=
  let* id := rd8 data sub in
  let* _ := print_line (str "subelement_id: 0x" ++ hex id) in
  let* len := rd16 data (sub + 1) in
  let* _ := print_line (str "length: " ++ dec len) in
  if id =? OPENWFD_WFD_IE_SUB_DEV_INFO then
    let* _ := print_line (str "type: DEVICE INFO") in
    print_sub_dev_info data sub p
  else print_line (str "unknown sub-element ID " ++ hex id).

(** The sub-element being collected: [col] and [c], [sub], and how much of its
    payload is missing. *)
Record coll := mkColl { k_col : option (list Z); k_c : Z; k_sub : Z; k_sl : Z }.

(** Both branches that collect: the payload is complete, or the rest of the
    block is taken.  In the second branch [c] is advanced by [l], after [l] has
    been set to 0.  The results are [l], [h] and the sub-element. *)
Definition collect (data : list Z) (l h : Z) (b : list Z) (k : coll) : sfm tool (Z * Z * coll) :=
  if k_sl k <=? l then
    let* b := copy data h (k_sl k) b (k_c k) in
    let* _ := indent_in in
    let* _ := print_sub data (k_sub k) b in
    let* _ := indent_out in
    let* _ := on_tool (free_blocks 1) in
    sret (l - k_sl k, h + k_sl k, mkColl None (k_c k) (k_sub k) (k_sl k))
  else
    let* _ := print_line (str "MULTI IE sub-element; delay parsing to next IE") in
    let* b := copy data h l b (k_c k) in
    let sl := k_sl k - l in
    let l := 0 in
    sret (l, h, mkColl (Some b) (k_c k + l) (k_sub k) sl).

(** A new sub-element: its header and as much of its payload as there is.  The
    first result is false for the jump to [error]. *)
Definition new_sub (data : list Z) (l h : Z) (k : coll) : sfm tool (bool * (Z * Z * coll)) :=
  if l <? 3 then
    let* _ := print_err (str "WFD IE subelement header block too small (" ++ dec l ++ str " < 3), aborting") in
    let* _ := indent_out in
    sret (false, (l, h, k))
  else
    let sub := h in
    let* sl := rd16 data (sub + 1) in
    let* id := rd8 data sub in
    let* _ := print_line (str "IE SUBELEMENT(id: " ++ dec id ++ str " len: " ++ dec sl ++ str "):") in
    let l := l - 3 in
    let h := h + 3 in
    if sl =? 0 then sret (true, (l, h, mkColl None (k_c k) sub sl))
    else
      let* col := on_tool (malloc sl) in
      match col with
      | None =>
        let* _ := print_err (str "out of memory") in
        let* _ := indent_out in
        sret (false, (l, h, mkColl None (k_c k) sub sl))
      | Some b =>
        let* r := collect data l h b (mkColl (Some b) 0 sub sl) in
        sret (true, r)
      end.

(** The loop over the payload of a block: [l] bytes from [h]. *)
Fixpoint subs_loop (fuel : nat) (data : list Z) (l h : Z) (k : coll) : sfm tool (bool * coll) :=
  match fuel with
  | O => slift None
  | S fuel =>
    if l =? 0 then sret (true, k)
    else
      let* (l, h, k) :=
        match k_col k with
        | Some b => collect data l h b k
        | None => sret (l, h, k)
        end in
      if bool_decide (k_col k <> None) || (l =? 0) then sret (true, k)
      else
        let* (ok, (l, h, k)) := new_sub data l h k in
        if negb ok then sret (false, k) else subs_loop fuel data l h k
  end.

(** ** Blocks *)

(** A jump to [error] from inside a block. *)
Definition block_error (text : list Z) (k : coll) : sfm tool (bool * coll) :=
  let* _ := print_err text in
  let* _ := indent_out in
  sret (false, k).

(** One block whose header is at [off], with [len] bytes behind its header. *)
Definition print_block (data : list Z) (off len : Z) (k : coll) : sfm tool (bool * coll) :=
  let* _ := print_line (str "IE BLOCK:") in
  let* _ := indent_in in
  let* id := rd8 data off in
  let* _ := print_line (str "element_id: 0x" ++ hex id ++
                        if id =? OPENWFD_WFD_IE_ID then str " (WFD)" else str " (UNKNOWN)") in
  let* length := rd8 data (off + 1) in
  let* _ := print_line (str "length: " ++ dec length) in
  if len <? length then
    block_error (str "IE length bigger than remaining data (" ++ dec length ++ str " > " ++ dec (u32 len) ++
                 str "), aborting") k
  else if negb (id =? OPENWFD_WFD_IE_ID) then block_error (str "IE ID unknown, aborting") k
  else if length <? 4 then block_error (str "WFD IE lacks OUI (len " ++ dec length ++ str " < 4)") k
  else
    let* oui := rd32 data (off + 2) in
    if negb (oui =? OPENWFD_WFD_IE_OUI_1_0) then
      let* _ := print_line (str "oui: 0x" ++ hex oui ++ str " (UNKNOWN)") in
      block_error (str "WFD IE OUI unknown, aborting") k
    else
      let* _ := print_line (str "oui: 0x" ++ hex oui ++ str " (WFD-1.0)") in
      let* (ok, k) := subs_loop (S (Z.to_nat length)) data (length - 4) (off + 6) k in
      if negb ok then sret (false, k)
      else let* _ := indent_out in sret (true, k).

(** The loop over the blocks: [len] bytes from [off]. *)
Fixpoint blocks_loop (fuel : nat) (data : list Z) (off len : Z) (k : coll) : sfm tool (bool * coll) :=
  match fuel with
  | O => slift None
  | S fuel =>
    if len <=? 0 then sret (true, k)
    else if len <? 2 then
      let* _ := print_err (str "remaining data too small (" ++ dec len ++ str " < 2)") in
      sret (false, k)
    else
      let* (ok, k) := print_block data off (len - 2) k in
      if negb ok then sret (false, k)
      else
        let* length := rd8 data (off + 1) in
        blocks_loop fuel data (off + 2 + length) (len - 2 - length) k
  end.

Definition free_col (col : option (list Z)) : sfm tool unit :=
  match col with Some _ => on_tool (free_blocks 1) | None => sret tt end.

Definition print_ie (data : list Z) : sfm tool unit :=
  let* _ := print_line (str "IE:") in
  let* _ := indent_in in
  if zlen data =? 0 then
    let* _ := print_line (str "<empty>") in
    indent_out
  else
    let* (ok, k) := blocks_loop (S (length data)) data 0 (zlen data) (mkColl None 0 0 0) in
    let* _ :=
      if ok && bool_decide (k_col k <> None)
      then print_err (str "MULTI IE sub-element not entirely contained in data") else sret tt in
    let* _ := free_col (k_col k) in
    let* _ := indent_out in
    print_line [].

(** ** Hexadecimal dump *)

Fixpoint hex_loop (d : list Z) (i : Z) : list Z :=
  match d with
  | [] => []
  | c :: d =>
    [SP] ++ hex2 c ++ (if negb (i =? 0) && ((i + 1) mod 16 =? 0) then [LF] else []) ++ hex_loop d (i + 1)
  end.

Definition print_hex (d : list Z) : sfm tool unit :=
  let* _ := fprint (str "IE hex (len: " ++ dec (zlen d) ++ str "):" ++ [LF]) in
  let* _ := fprint (hex_loop d 0) in
  let* _ := fprint (if negb (zlen d mod 16 =? 0) then [LF] else []) in
  fprint (str "END of IE" ++ [LF]).

(** ** The program *)

(** The bytes of [struct example]; the flags that are zero are left out. *)
Definition example_ie : list Z :=
  [OPENWFD_WFD_IE_ID; 4 + 3 + 6] ++ put_be32 OPENWFD_WFD_IE_OUI_1_0 ++
  [OPENWFD_WFD_IE_SUB_DEV_INFO] ++ put_be16 6 ++
  put_be16 (Z.lor OPENWFD_WFD_IE_SUB_DEV_INFO_PRIMARY_SINK OPENWFD_WFD_IE_SUB_DEV_INFO_AVAILABLE) ++
  put_be16 OPENWFD_WFD_IE_SUB_DEV_INFO_DEFAULT_PORT ++ put_be16 200.

Definition print_example : sfm tool unit :=
  let* _ := print_ie example_ie in
  print_hex example_ie.

(** ** What printing does to the state *)

(** Output is only added, the number of live blocks has changed by [d], and the
    indentation is [j]. *)
Record eff (s : tool) (d j : Z) (s' : tool) : Prop := {
  ef_indent : t_indent s' = j;
  ef_out : exists t, t_out s' = t_out s ++ t;
  ef_heap : heap_step (t_heap s) (t_heap s') d;
}.

Lemma eff_refl s : eff s 0 (t_indent s) s.
Proof. split; [done|exists []; by rewrite app_nil_r|apply heap_step_refl]. Qed.

Definition line (i : Z) (text : list Z) : list Z := replicate (4 * Z.to_nat i) SP ++ text ++ [LF].

Definition err_line (text : list Z) : list Z := str "ERROR: " ++ text ++ [LF].

Lemma swp_line F text (Q : unit -> tool -> Prop) s :
  Q tt (s <| t_out := t_out s ++ line (t_indent s) text |>) -> swp F (print_line text) Q s.
Proof. intros HQ. by apply swp_bind, swp_get, swp_mod. Qed.

Lemma swp_on_tool {A} F (m : alloc A) (Q : A -> tool -> Prop) s :
  wp m (fun a h => Q a (s <| t_heap := h |>)) (t_heap s) -> swp F (on_tool m) Q s.
Proof. unfold swp, on_tool, wp. by destruct (m (t_heap s)). Qed.

(** *** Rules that carry [eff] from the start of a run along *)

Section rules.
Context (F : Prop) (s0 : tool) (d j : Z).

Lemma eff_out t s : eff s0 d j s -> eff s0 d j (s <| t_out := t_out s ++ t |>).
Proof. intros [Hi [u Hu] Hh]. split; [done| |done]. exists (u ++ t). cbn. by rewrite Hu, <- app_assoc. Qed.

Lemma r_line text (Q : unit -> tool -> Prop) s :
  eff s0 d j s -> (forall s', eff s0 d j s' -> Q tt s') -> swp F (print_line text) Q s.
Proof. intros He HQ. by apply swp_line, HQ, eff_out. Qed.

Lemma r_err text (Q : unit -> tool -> Prop) s :
  eff s0 d j s -> (forall s', eff s0 d j s' -> Q tt s') -> swp F (print_err text) Q s.
Proof. intros He HQ. by apply swp_mod, HQ, eff_out. Qed.

Lemma r_in (Q : unit -> tool -> Prop) s :
  eff s0 d j s -> (forall s', eff s0 d (u64 (j + 1)) s' -> Q tt s') -> swp F indent_in Q s.
Proof. intros [Hi Ho Hh] HQ. apply swp_mod, HQ. split; [cbn; by rewrite Hi|done|done]. Qed.

Lemma r_out (Q : unit -> tool -> Prop) s :
  eff s0 d j s -> (forall s', eff s0 d (u64 (j - 1)) s' -> Q tt s') -> swp F indent_out Q s.
Proof. intros [Hi Ho Hh] HQ. apply swp_mod, HQ. split; [cbn; by rewrite Hi|done|done]. Qed.

Lemma r_free n (Q : unit -> tool -> Prop) s :
  eff s0 d j s -> (forall s', eff s0 (d - n) j s' -> Q tt s') -> swp F (on_tool (free_blocks n)) Q s.
Proof.
  intros [Hi Ho Hh] HQ. apply swp_on_tool, wp_free. intros h Hs. apply HQ. split; [done|done|].
  by eapply heap_step_trans.
Qed.

Lemma r_malloc n (Q : option (list Z) -> tool -> Prop) s :
  0 <= n -> eff s0 d j s ->
  (forall b s', zlen b = n -> eff s0 (d + 1) j s' -> Q (Some b) s') ->
  (forall s', (heap_ok (t_heap s) -> n <= PTRDIFF_MAX -> False) -> eff s0 d j s' -> Q None s') ->
  swp F (on_tool (malloc n)) Q s.
Proof.
  intros Hn [Hi Ho Hh] Hsome Hnone. apply swp_on_tool, wp_malloc; [done| |].
  - intros b h Hb _ Hs. apply Hsome; [done|]. split; [done|done|]. by eapply heap_step_trans.
  - intros h Hno Hs. apply Hnone; [done|]. split; [done|done|].
    eapply heap_step_trans; [done..|]. lia.
Qed.

(** Reading and writing inside. *)
Lemma r_read {A} (b : bool) (v : A) (Q : A -> tool -> Prop) s :
  b = true -> Q v s -> swp False (slift (if b then Some v else None)) Q s.
Proof. by intros ->. Qed.
End rules.

Lemma inside_ok l off n : 0 <= off -> 0 <= n -> off + n <= zlen l -> inside l off n = true.
Proof. intros. unfold inside. by rewrite !(proj2 (Z.leb_le _ _)) by lia. Qed.

Lemma out_of_in i : 0 <= i < 2 ^ 64 -> u64 (u64 (i + 1) - 1) = i.
Proof. intros Hi. unfold u64. rewrite Zminus_mod_idemp_l. replace (i + 1 - 1) with i by lia. by apply Z.mod_small. Qed.

Lemma get_be16_range l i : Forall byte_ok l -> 0 <= get_be16 l i < 2 ^ 16.
Proof.
  intros _. unfold get_be16. change (bswap_16 (get_le16 l i)) with (u8 (get_le16 l i / 2 ^ 8) + 2 ^ 8 * u8 (get_le16 l i)).
  pose proof (u8_range (get_le16 l i)). pose proof (u8_range (get_le16 l i / 2 ^ 8)). lia.
Qed.

(** ** Safety *)

Section safety.
Context (data : list Z) (data_ok : Forall byte_ok data) (s0 : tool).

(** The sub-element that is collected: it has a header in the buffer, its block
    has the size the header says, and what is missing fits in. *)
Definition coll_ok (k : coll) : Prop :=
  match k_col k with
  | Some b => 0 < k_sl k <= zlen b /\ k_c k = 0 /\ 0 <= k_sub k /\ k_sub k + 3 <= zlen data /\
              zlen b = get_be16 data (k_sub k + 1)
  | None => True
  end.

Definition coll_blocks (k : coll) : Z := match k_col k with Some _ => 1 | None => 0 end.

Ltac inside := apply r_read; [apply inside_ok; lia|].

Lemma print_sub_safe sub p d j (Q : unit -> tool -> Prop) s :
  0 <= sub -> sub + 3 <= zlen data -> zlen p = get_be16 data (sub + 1) -> eff s0 d j s ->
  (forall s', eff s0 d j s' -> Q tt s') -> swp False (print_sub data sub p) Q s.
Proof.
  intros H0 H3 Hp He HQ. unfold print_sub.
  apply swp_bind. inside. apply swp_bind. eapply r_line; [exact He|]. intros s1 H1.
  apply swp_bind. inside. apply swp_bind. eapply r_line; [exact H1|]. intros s2 H2.
  destruct (_ =? _); [|by eapply r_line].
  apply swp_bind. eapply r_line; [exact H2|]. intros s4 H4. unfold print_sub_dev_info.
  apply swp_bind. inside. destruct (Z.eqb_spec (get_be16 data (sub + 1)) 6) as [Hl|]; cbn [negb]; [|by eapply r_err].
  apply swp_bind. inside. apply swp_bind. eapply r_line; [exact H4|]. intros s5 H5.
  apply swp_bind. inside. apply swp_bind. eapply r_line; [exact H5|]. intros s6 H6.
  apply swp_bind. inside. by eapply r_line.
Qed.

(** What remains of a block lies in the buffer. *)
Definition rest_ok (l h : Z) : Prop := 0 <= l /\ 0 <= h /\ h + l <= zlen data.

Lemma collect_safe l h b k d j (Q : Z * Z * coll -> tool -> Prop) s :
  rest_ok l h -> coll_ok k -> k_col k = Some b -> 0 <= j < 2 ^ 64 -> eff s0 (d + 1) j s ->
  (forall l' h' k' s', rest_ok l' h' -> l' <= l -> coll_ok k' -> (k_col k' <> None -> l' = 0) ->
     eff s0 (d + coll_blocks k') j s' -> Q (l', h', k') s') ->
  swp False (collect data l h b k) Q s.
Proof.
  intros (Hl & Hh & Hd) Hk Hb Hj He HQ. unfold coll_ok in Hk. rewrite Hb in Hk.
  destruct Hk as (Hsl & Hc & Hs0 & Hs3 & Hz). unfold collect. rewrite Hc. destruct (Z.leb_spec (k_sl k) l).
  - assert (zlen (ztake (k_sl k) (zdrop h data)) = k_sl k) as Ht by (rewrite zlen_ztake, zlen_zdrop; lia).
    apply swp_bind, r_read; [rewrite !inside_ok by lia; done|].
    apply swp_bind. eapply r_in; [exact He|]. intros s1 H1. apply swp_bind.
    eapply print_sub_safe; [done|done| |exact H1|]; [rewrite zlen_memcpy; lia|]. intros s2 H2.
    apply swp_bind. eapply r_out; [exact H2|]. intros s3 H3. rewrite out_of_in in H3 by done.
    apply swp_bind. eapply r_free; [exact H3|]. intros s4 H4. apply swp_ret, HQ; [split_and!; lia|lia|done|done|].
    cbn. by replace (d + 0) with (d + 1 - 1) by lia.
  - assert (zlen (ztake l (zdrop h data)) = l) as Ht by (rewrite zlen_ztake, zlen_zdrop; lia).
    apply swp_bind. eapply r_line; [exact He|]. intros s1 H1.
    apply swp_bind, r_read; [rewrite !inside_ok by lia; done|]. cbv zeta.
    apply swp_ret, HQ; [split_and!; lia|lia| |done|done].
    unfold coll_ok. cbn. rewrite zlen_memcpy by lia. split_and!; lia.
Qed.

Lemma new_sub_safe l h k d j (Q : bool * (Z * Z * coll) -> tool -> Prop) s :
  rest_ok l h -> k_col k = None -> 0 <= j < 2 ^ 64 -> eff s0 d j s ->
  (forall l' h' k' s', k_col k' = None -> eff s0 d (u64 (j - 1)) s' -> Q (false, (l', h', k')) s') ->
  (forall l' h' k' s', rest_ok l' h' -> l' < l -> coll_ok k' -> (k_col k' <> None -> l' = 0) ->
     eff s0 (d + coll_blocks k') j s' -> Q (true, (l', h', k')) s') ->
  swp False (new_sub data l h k) Q s.
Proof.
  intros (Hl & Hh & Hd) Hk Hj He Hfail HQ. unfold new_sub. destruct (Z.ltb_spec l 3).
  { apply swp_bind. eapply r_err; [exact He|]. intros s1 H1. apply swp_bind. eapply r_out; [exact H1|]. intros s2 H2.
    by apply swp_ret, Hfail. }
  cbv zeta. pose proof (get_be16_range data (h + 1) data_ok) as Hr.
  apply swp_bind. inside. apply swp_bind. inside. apply swp_bind. eapply r_line; [exact He|]. intros s1 H1.
  destruct (Z.eqb_spec (get_be16 data (h + 1)) 0).
  { apply swp_ret, HQ; [split_and!; lia|lia|done|done|]. by replace (d + coll_blocks _) with d by (cbn; lia). }
  apply swp_bind. eapply r_malloc; [lia|exact H1| |].
  - intros b s2 Hb H2. apply swp_bind. eapply collect_safe; [split_and!; lia| |done|exact Hj|exact H2|].
    + unfold coll_ok. cbn. split_and!; lia.
    + intros l' h' k' s' Hr' Hle Hk' Hz' H'. apply swp_ret, HQ; try done. lia.
  - intros s2 _ H2. apply swp_bind. eapply r_err; [exact H2|]. intros s3 H3.
    apply swp_bind. eapply r_out; [exact H3|]. intros s4 H4. by apply swp_ret, Hfail.
Qed.

Lemma subs_loop_safe fuel l h k d j (Q : bool * coll -> tool -> Prop) s :
  rest_ok l h -> l < Z.of_nat fuel -> coll_ok k -> 0 <= j < 2 ^ 64 -> eff s0 (d + coll_blocks k) j s ->
  (forall k' s', k_col k' = None -> eff s0 d (u64 (j - 1)) s' -> Q (false, k') s') ->
  (forall k' s', coll_ok k' -> eff s0 (d + coll_blocks k') j s' -> Q (true, k') s') ->
  swp False (subs_loop fuel data l h k) Q s.
Proof.
  intros Hr Hf Hk Hj He Hfail HQ. revert l h k s Hr Hf Hk He; induction fuel as [|fuel IH]; intros l h k s Hr Hf Hk He.
  { destruct Hr. lia. }
  cbn [subs_loop]. destruct (l =? 0); [by apply swp_ret, HQ|]. apply swp_bind.
  eapply (swp_mono _ _ (fun x s' => let '(l', h', k') := x in rest_ok l' h' /\ l' <= l /\ coll_ok k' /\
    eff s0 (d + coll_blocks k') j s')).
  { unfold coll_blocks in He. destruct (k_col k) as [b|] eqn:Hb.
    - eapply collect_safe; [done|done|done|done|exact He|]. intros l' h' k' s' ? ? ? ? ?. by split_and!.
    - apply swp_ret. split_and!; [done|lia|done|]. unfold coll_blocks. by rewrite Hb. }
  intros [[l1 h1] k1] s1 (Hr1 & Hl1 & Hk1 & H1).
  destruct (k_col k1) eqn:Hb1; [by apply swp_ret, HQ|]. rewrite bool_decide_false by by intros []. cbn [orb].
  destruct (l1 =? 0); [by apply swp_ret, HQ|].
  assert (eff s0 d j s1) as H1' by (unfold coll_blocks in H1; rewrite Hb1, Z.add_0_r in H1; done).
  apply swp_bind. eapply new_sub_safe; [exact Hr1|done|exact Hj|exact H1'| |].
  - intros l' h' k' s' Hk' H'. by apply swp_ret, Hfail.
  - intros l' h' k' s' Hr' Hlt Hk' _ H'. cbn [negb]. apply IH; [done|lia|done|done].
Qed.

Lemma print_block_safe off len k d j (Q : bool * coll -> tool -> Prop) s :
  0 <= off -> 0 <= len -> off + 2 + len = zlen data -> coll_ok k -> 0 <= j < 2 ^ 64 ->
  eff s0 (d + coll_blocks k) j s ->
  (forall ok k' s', (ok = true -> byte_at data (off + 1) <= len) -> coll_ok k' ->
     eff s0 (d + coll_blocks k') j s' -> Q (ok, k') s') ->
  swp False (print_block data off len k) Q s.
Proof.
  intros Ho Hl Hlen Hk Hj He HQ. unfold print_block.
  assert (forall text s, eff s0 (d + coll_blocks k) (u64 (j + 1)) s -> swp False (block_error text k) Q s) as Herr.
  { intros text s' Hs'. apply swp_bind. eapply r_err; [exact Hs'|]. intros s1 H1.
    apply swp_bind. eapply r_out; [exact H1|]. intros s2 H2. rewrite out_of_in in H2 by done. by apply swp_ret, HQ. }
  apply swp_bind. eapply r_line; [exact He|]. intros s1 H1. apply swp_bind. eapply r_in; [exact H1|]. intros s2 H2.
  apply swp_bind. inside. apply swp_bind. eapply r_line; [exact H2|]. intros s3 H3.
  apply swp_bind. inside. apply swp_bind. eapply r_line; [exact H3|]. intros s4 H4.
  pose proof (byte_at_range data (off + 1) data_ok) as Hb.
  destruct (Z.ltb_spec len (byte_at data (off + 1))); [by apply Herr|].
  destruct (negb _); [by apply Herr|]. destruct (Z.ltb_spec (byte_at data (off + 1)) 4); [by apply Herr|].
  apply swp_bind. inside. destruct (negb _).
  { apply swp_bind. eapply r_line; [exact H4|]. intros s5 H5. by apply Herr. }
  apply swp_bind. eapply r_line; [exact H4|]. intros s5 H5. apply swp_bind.
  assert (0 <= u64 (j + 1) < 2 ^ 64) as Hu by (apply Z.mod_pos_bound; lia).
  eapply subs_loop_safe; [| |exact Hk|exact Hu|exact H5| |]; [split_and!; lia|lia| |].
  - intros k' s' Hn H'. cbn [negb]. rewrite out_of_in in H' by done. apply swp_ret, HQ; [done| |].
    + unfold coll_ok. by rewrite Hn.
    + unfold coll_blocks. by rewrite Hn, Z.add_0_r.
  - intros k' s' Hk' H'. cbn [negb]. apply swp_bind. eapply r_out; [exact H'|]. intros s6 H6.
    rewrite out_of_in in H6 by done. by apply swp_ret, HQ.
Qed.

Lemma blocks_loop_safe fuel off len k d j (Q : bool * coll -> tool -> Prop) s :
  0 <= off -> 0 <= len < Z.of_nat fuel -> off + len = zlen data -> coll_ok k -> 0 <= j < 2 ^ 64 ->
  eff s0 (d + coll_blocks k) j s ->
  (forall ok k' s', coll_ok k' -> eff s0 (d + coll_blocks k') j s' -> Q (ok, k') s') ->
  swp False (blocks_loop fuel data off len k) Q s.
Proof.
  intros Ho Hf Hlen Hk Hj He HQ. revert off len k s Ho Hf Hlen Hk He; induction fuel as [|fuel IH];
    intros off len k s Ho Hf Hlen Hk He; [lia|].
  cbn [blocks_loop]. destruct (Z.leb_spec len 0); [by apply swp_ret, HQ|]. destruct (Z.ltb_spec len 2).
  { apply swp_bind. eapply r_err; [exact He|]. intros s1 H1. by apply swp_ret, HQ. }
  apply swp_bind. eapply print_block_safe; [exact Ho|..|exact Hk|exact Hj|exact He|]; [lia|lia|].
  intros [] k' s' Hb Hk' H'; cbn [negb]; [|by apply swp_ret, HQ]. specialize (Hb eq_refl).
  pose proof (byte_at_range data (off + 1) data_ok). apply swp_bind. inside. apply IH; [lia|lia|lia|done|done].
Qed.
End safety.

(** C37. For every buffer [print_ie] ends, reads and writes only inside the
    buffer and the block that collects a sub-element, only adds output, leaves
    the indentation as it was and leaves no block behind: on every path, the
    refused allocations and the jumps to [error] included. *)
Theorem print_ie_safe data s :
  Forall byte_ok data -> 0 <= t_indent s < 2 ^ 64 ->
  exists s' t, print_ie data s = Some (tt, s') /\ t_out s' = t_out s ++ t /\
    t_indent s' = t_indent s /\ h_live (t_heap s') = h_live (t_heap s).
Proof.
  intros Hd Hi. assert (swp False (print_ie data) (fun _ s' => eff s 0 (t_indent s) s') s) as H.
  { unfold print_ie. pose proof (eff_refl s) as He. apply swp_bind. eapply r_line; [exact He|]. intros s1 H1.
    apply swp_bind. eapply r_in; [exact H1|]. intros s2 H2. destruct (zlen data =? 0).
    { apply swp_bind. eapply r_line; [exact H2|]. intros s3 H3. eapply r_out; [exact H3|]. intros s4 H4.
      by rewrite out_of_in in H4. }
    apply swp_bind. pose proof (zlen_nonneg data).
    eapply (blocks_loop_safe data Hd s _ 0 (zlen data) (mkColl None 0 0 0) 0); [lia|unfold zlen; lia|lia|done| |exact H2|].
    { apply Z.mod_pos_bound; lia. }
    intros ok k s3 Hk H3. apply swp_bind.
    eapply (swp_mono _ _ (fun _ s' => eff s (0 + coll_blocks k) (u64 (t_indent s + 1)) s')).
    { destruct (ok && _); [by eapply r_err|by apply swp_ret]. }
    intros _ s4 H4. apply swp_bind. eapply (swp_mono _ _ (fun _ s' => eff s 0 (u64 (t_indent s + 1)) s')).
    { unfold free_col, coll_blocks in *. destruct (k_col k); [by eapply r_free|by apply swp_ret]. }
    intros _ s5 H5. apply swp_bind. eapply r_out; [exact H5|]. intros s6 H6. rewrite out_of_in in H6 by done.
    by eapply r_line. }
  unfold swp in H. destruct (print_ie data s) as [[[] s']|]; [|done].
  destruct H as [Hj [t Ht] [Hl _]]. exists s', t. split_and!; [done..|lia].
Qed.

(** ** Well-formed elements *)

(** A sub-element: its ID and its payload. *)
Definition sub_elem : Type := Z * list Z.

Definition enc_sub (e : sub_elem) : list Z := e.1 :: put_be16 (zlen e.2) ++ e.2.

Definition enc_subs (es : list sub_elem) : list Z := concat (enc_sub <$> es).

(** A block holds whole sub-elements. *)
Definition enc_block (es : list sub_elem) : list Z :=
  [OPENWFD_WFD_IE_ID; 4 + zlen (enc_subs es)] ++ put_be32 OPENWFD_WFD_IE_OUI_1_0 ++ enc_subs es.

Definition enc_ie (blocks : list (list sub_elem)) : list Z := concat (enc_block <$> blocks).

Definition sub_ok (e : sub_elem) : Prop := 0 <= e.1 < 256 /\ zlen e.2 < 2 ^ 16.

(** The length of a block is a byte, and counts the OUI. *)
Definition block_ok (es : list sub_elem) : Prop := Forall sub_ok es /\ zlen (enc_subs es) <= OPENWFD_WFD_IE_DATA_MAX.

#[export] Instance sub_ok_dec e : Decision (sub_ok e).
Proof. unfold sub_ok. apply _. Defined.

#[export] Instance block_ok_dec es : Decision (block_ok es).
Proof. unfold block_ok. apply _. Defined.

(** What is printed for them. *)
Definition show_dev_info (i : Z) (p : list Z) : list Z :=
  if zlen p =? 6
  then line i (str "dev_info: " ++ hex (get_be16 p 0)) ++ line i (str "ctrl_port: " ++ dec (get_be16 p 2)) ++
       line i (str "max_throughput: " ++ dec (get_be16 p 4))
  else err_line (str "invalid sub-length " ++ dec (zlen p)).

Definition show_payload (i : Z) (e : sub_elem) : list Z :=
  line i (str "subelement_id: 0x" ++ hex e.1) ++ line i (str "length: " ++ dec (zlen e.2)) ++
  if e.1 =? OPENWFD_WFD_IE_SUB_DEV_INFO then line i (str "type: DEVICE INFO") ++ show_dev_info i e.2
  else line i (str "unknown sub-element ID " ++ hex e.1).

Definition show_sub (i : Z) (e : sub_elem) : list Z :=
  line i (str "IE SUBELEMENT(id: " ++ dec e.1 ++ str " len: " ++ dec (zlen e.2) ++ str "):") ++
  if zlen e.2 =? 0 then [] else show_payload (i + 1) e.

Definition show_block (i : Z) (es : list sub_elem) : list Z :=
  line i (str "IE BLOCK:") ++
  line (i + 1) (str "element_id: 0x" ++ hex OPENWFD_WFD_IE_ID ++ str " (WFD)") ++
  line (i + 1) (str "length: " ++ dec (4 + zlen (enc_subs es))) ++
  line (i + 1) (str "oui: 0x" ++ hex OPENWFD_WFD_IE_OUI_1_0 ++ str " (WFD-1.0)") ++
  concat (show_sub (i + 1) <$> es).

Definition show_ie (i : Z) (blocks : list (list sub_elem)) : list Z :=
  line i (str "IE:") ++
  if bool_decide (blocks = []) then line (i + 1) (str "<empty>")
  else concat (show_block (i + 1) <$> blocks) ++ line i [].

(** From [s0] to [s]: the indentation is [j], [t] has been printed, and the
    allocator still answers. *)
Record prn (s0 : tool) (j : Z) (t : list Z) (s : tool) : Prop := {
  pr_indent : t_indent s = j;
  pr_out : t_out s = t_out s0 ++ t;
  pr_heap : heap_ok (t_heap s);
}.

Section print_rules.
Context (s0 : tool) (j : Z) (t : list Z).

Lemma p_line text (Q : unit -> tool -> Prop) s :
  prn s0 j t s -> (forall s', prn s0 j (t ++ line j text) s' -> Q tt s') -> swp False (print_line text) Q s.
Proof. intros [Hi Ho Hh] HQ. apply swp_line, HQ. split; [done| |done]. cbn. by rewrite Ho, Hi, <- app_assoc. Qed.

Lemma p_err text (Q : unit -> tool -> Prop) s :
  prn s0 j t s -> (forall s', prn s0 j (t ++ err_line text) s' -> Q tt s') -> swp False (print_err text) Q s.
Proof. intros [Hi Ho Hh] HQ. apply swp_mod, HQ. split; [done| |done]. cbn. by rewrite Ho, <- app_assoc. Qed.

Lemma p_in (Q : unit -> tool -> Prop) s :
  0 <= j < 2 ^ 64 - 1 -> prn s0 j t s -> (forall s', prn s0 (j + 1) t s' -> Q tt s') -> swp False indent_in Q s.
Proof.
  intros Hj [Hi Ho Hh] HQ. apply swp_mod, HQ. split; [|done|done]. cbn. rewrite Hi. apply Z.mod_small. lia.
Qed.

Lemma p_out (Q : unit -> tool -> Prop) s :
  1 <= j < 2 ^ 64 -> prn s0 j t s -> (forall s', prn s0 (j - 1) t s' -> Q tt s') -> swp False indent_out Q s.
Proof.
  intros Hj [Hi Ho Hh] HQ. apply swp_mod, HQ. split; [|done|done]. cbn. rewrite Hi. apply Z.mod_small. lia.
Qed.

Lemma p_free n (Q : unit -> tool -> Prop) s :
  prn s0 j t s -> (forall s', prn s0 j t s' -> Q tt s') -> swp False (on_tool (free_blocks n)) Q s.
Proof. intros [Hi Ho Hh] HQ. apply swp_on_tool, wp_free. intros h [_ Hs]. apply HQ. by split; [| |apply Hs]. Qed.

Lemma p_malloc n (Q : option (list Z) -> tool -> Prop) s :
  0 <= n <= PTRDIFF_MAX -> prn s0 j t s ->
  (forall b s', zlen b = n -> prn s0 j t s' -> Q (Some b) s') -> swp False (on_tool (malloc n)) Q s.
Proof.
  intros Hn [Hi Ho Hh] HQ. apply swp_on_tool, wp_malloc; [lia| |].
  - intros b h Hb _ [_ Hs]. apply HQ; [done|]. by split; [| |apply Hs].
  - intros h Hno _. destruct (Hno Hh). lia.
Qed.
End print_rules.

(** *** Reading an encoding at an offset *)

Lemma byte_at_pre pre l i : 0 <= i -> byte_at (pre ++ l) (zlen pre + i) = byte_at l i.
Proof. intros. rewrite byte_at_app_r by lia. f_equal. lia. Qed.

Lemma get_be16_pre pre l i : 0 <= i -> get_be16 (pre ++ l) (zlen pre + i) = get_be16 l i.
Proof. intros. unfold get_be16, get_le16. by rewrite <- Z.add_assoc, !byte_at_pre by lia. Qed.

Lemma get_be32_pre pre l i : 0 <= i -> get_be32 (pre ++ l) (zlen pre + i) = get_be32 l i.
Proof. intros. unfold get_be32, get_le32. by rewrite <- !Z.add_assoc, !byte_at_pre by lia. Qed.

Lemma bswap_16_explicit a b : 0 <= a < 256 -> 0 <= b < 256 -> bswap_16 (a + 2 ^ 8 * b) = b + 2 ^ 8 * a.
Proof.
  intros. set (v := a + 2 ^ 8 * b). change (u8 (v / 2 ^ 8) + 2 ^ 8 * u8 v = b + 2 ^ 8 * a).
  unfold v, u8. Z.div_mod_to_equations. lia.
Qed.

Lemma get_be16_put v l : 0 <= v < 2 ^ 16 -> get_be16 (put_be16 v ++ l) 0 = v.
Proof.
  intros Hv. assert (exists a b, 0 <= a < 256 /\ 0 <= b < 256 /\ v = a + 2 ^ 8 * b) as (a & b & Ha & Hb & ->).
  { exists (v mod 256), (v / 256). Z.div_mod_to_equations. lia. }
  unfold put_be16, get_be16. rewrite bswap_16_explicit by done.
  change (bswap_16 (u8 (b + 2 ^ 8 * a) + 2 ^ 8 * u8 ((b + 2 ^ 8 * a) / 2 ^ 8)) = a + 2 ^ 8 * b).
  assert (u8 (b + 2 ^ 8 * a) = b) as -> by (unfold u8; Z.div_mod_to_equations; lia).
  assert (u8 ((b + 2 ^ 8 * a) / 2 ^ 8) = a) as -> by (unfold u8; Z.div_mod_to_equations; lia).
  by apply bswap_16_explicit.
Qed.

Lemma enc_sub_len e : zlen (enc_sub e) = 3 + zlen e.2.
Proof. unfold enc_sub. rewrite zlen_cons, zlen_app. change (zlen (put_be16 _)) with 2. lia. Qed.

Lemma enc_subs_cons e es : enc_subs (e :: es) = enc_sub e ++ enc_subs es.
Proof. done. Qed.

Section sub_at.
Context (pre post : list Z) (e : sub_elem) (e_ok : sub_ok e).

Lemma sub_id : byte_at (pre ++ enc_sub e ++ post) (zlen pre) = e.1.
Proof. rewrite <- (Z.add_0_r (zlen pre)), byte_at_pre by lia. done. Qed.

Lemma sub_len : get_be16 (pre ++ enc_sub e ++ post) (zlen pre + 1) = zlen e.2.
Proof.
  rewrite get_be16_pre by lia. unfold enc_sub. rewrite <- app_comm_cons, <- app_assoc.
  change (e.1 :: ?l) with ([e.1] ++ l). change 1 with (zlen [e.1] + 0). rewrite get_be16_pre by lia.
  apply get_be16_put. destruct e_ok. pose proof (zlen_nonneg e.2). lia.
Qed.

Lemma sub_payload : ztake (zlen e.2) (zdrop (zlen pre + 3) (pre ++ enc_sub e ++ post)) = e.2.
Proof.
  assert (pre ++ enc_sub e ++ post = (pre ++ e.1 :: put_be16 (zlen e.2)) ++ e.2 ++ post) as ->.
  { unfold enc_sub. by rewrite <- !app_assoc, <- app_comm_cons, <- app_assoc. }
  rewrite zdrop_app_eq; [by apply ztake_app_eq|].
  rewrite zlen_app, zlen_cons. change (zlen (put_be16 _)) with 2. lia.
Qed.
End sub_at.

Lemma memcpy_whole (b p : list Z) : zlen b = zlen p -> memcpy 0 p b = p.
Proof.
  intros H. unfold memcpy. rewrite ztake_neg by lia. cbn [app].
  rewrite zdrop_all by lia. apply app_nil_r.
Qed.

Section prints.
Context (s0 : tool).

Ltac inside := apply r_read; [apply inside_ok; lia|].

(** The pieces of the output are collected to the left. *)
Ltac pieces H := rewrite <- ?app_assoc; rewrite <- ?app_assoc in H; exact H.

Lemma print_sub_prints data sub e j t (Q : unit -> tool -> Prop) s :
  0 <= sub -> sub + 3 <= zlen data -> byte_at data sub = e.1 -> get_be16 data (sub + 1) = zlen e.2 ->
  prn s0 j t s -> (forall s', prn s0 j (t ++ show_payload j e) s' -> Q tt s') ->
  swp False (print_sub data sub e.2) Q s.
Proof.
  intros H0 H3 Hid Hlen He HQ. unfold print_sub, show_payload in *.
  apply swp_bind. inside. rewrite Hid. apply swp_bind. eapply p_line; [exact He|]. intros s1 H1.
  apply swp_bind. inside. rewrite Hlen. apply swp_bind. eapply p_line; [exact H1|]. intros s2 H2.
  destruct (e.1 =? _); [|eapply p_line; [exact H2|]; intros s' H'; apply HQ; pieces H'].
  apply swp_bind. eapply p_line; [exact H2|]. intros s4 H4. unfold print_sub_dev_info, show_dev_info in *.
  apply swp_bind. inside. rewrite Hlen. destruct (Z.eqb_spec (zlen e.2) 6) as [Hl|]; cbn [negb];
    [|eapply p_err; [exact H4|]; intros s' H'; apply HQ; pieces H'].
  apply swp_bind. inside. apply swp_bind. eapply p_line; [exact H4|]. intros s5 H5.
  apply swp_bind. inside. apply swp_bind. eapply p_line; [exact H5|]. intros s6 H6.
  apply swp_bind. inside. eapply p_line; [exact H6|]. intros s' H'; apply HQ; pieces H'.
Qed.

Lemma new_sub_prints pre post e l k j t (Q : bool * (Z * Z * coll) -> tool -> Prop) s :
  sub_ok e -> 3 + zlen e.2 <= l -> 0 <= j < 2 ^ 64 - 1 -> prn s0 j t s ->
  (forall k' s', k_col k' = None -> prn s0 j (t ++ show_sub j e) s' ->
     Q (true, (l - (3 + zlen e.2), zlen (pre ++ enc_sub e), k')) s') ->
  swp False (new_sub (pre ++ enc_sub e ++ post) l (zlen pre) k) Q s.
Proof.
  intros Hok Hl Hj He HQ. unfold new_sub, show_sub in *. pose proof (zlen_nonneg e.2) as Hn.
  set (data := pre ++ enc_sub e ++ post). pose proof (proj2 Hok) as H16.
  assert (zlen pre + 3 + zlen e.2 <= zlen data) as Hfit.
  { unfold data. rewrite !zlen_app, enc_sub_len. pose proof (zlen_nonneg post). lia. }
  pose proof (zlen_nonneg pre) as Hp.
  assert (zlen (pre ++ enc_sub e) = zlen pre + 3 + zlen e.2) as Hh by (rewrite zlen_app, enc_sub_len; lia).
  destruct (Z.ltb_spec l 3); [lia|]. cbv zeta.
  apply swp_bind. inside. unfold data. rewrite (sub_len pre post e Hok). fold data.
  apply swp_bind. inside. unfold data. rewrite (sub_id pre post e). fold data.
  apply swp_bind. eapply p_line; [exact He|]. intros s1 H1.
  destruct (Z.eqb_spec (zlen e.2) 0) as [Hz|].
  { apply swp_ret. rewrite Hh, Hz in HQ. cbn [Z.eqb] in HQ. rewrite app_nil_r in HQ. rewrite Hz in H1.
    replace (zlen pre + 3) with (zlen pre + 3 + 0) by lia. replace (l - 3) with (l - (3 + 0)) by lia. by apply HQ. }
  apply swp_bind. eapply p_malloc; [unfold PTRDIFF_MAX; lia|exact H1|]. intros b s2 Hb H2. apply swp_bind.
  unfold collect. cbn [k_sl k_c k_sub]. destruct (Z.leb_spec (zlen e.2) (l - 3)); [|lia].
  apply swp_bind, r_read; [by rewrite !inside_ok by lia|]. unfold data. rewrite sub_payload. fold data.
  rewrite memcpy_whole by done.
  apply swp_bind. eapply p_in; [|exact H2|]; [lia|]. intros s3 H3.
  apply swp_bind. eapply print_sub_prints; [lia|lia|apply sub_id|by apply (sub_len pre post e)|exact H3|]. intros s4 H4.
  apply swp_bind. eapply p_out; [|exact H4|]; [lia|]. intros s5 H5. replace (j + 1 - 1) with j in H5 by lia.
  apply swp_bind. eapply p_free; [exact H5|]. intros s6 H6. apply swp_ret, swp_ret.
  rewrite Hh in HQ. replace (l - 3 - zlen e.2) with (l - (3 + zlen e.2)) by lia. apply HQ; [done|]. pieces H6.
Qed.

Lemma subs_loop_prints fuel data es pre post k j t (Q : bool * coll -> tool -> Prop) s :
  data = pre ++ enc_subs es ++ post -> Forall sub_ok es -> zlen (enc_subs es) < Z.of_nat fuel ->
  k_col k = None -> 0 <= j < 2 ^ 64 - 1 -> prn s0 j t s ->
  (forall k' s', k_col k' = None -> prn s0 j (t ++ concat (show_sub j <$> es)) s' -> Q (true, k') s') ->
  swp False (subs_loop fuel data (zlen (enc_subs es)) (zlen pre) k) Q s.
Proof.
  intros -> Hes Hf Hk Hj He HQ. revert fuel pre k t s Hf Hk He HQ.
  induction Hes as [|e es Hok Hes IH]; intros fuel pre k t s Hf Hk He HQ.
  { destruct fuel; [done|]. cbn. apply swp_ret, HQ; [done|]. by rewrite app_nil_r. }
  destruct fuel as [|fuel]; [pose proof (zlen_nonneg (enc_subs (e :: es))); lia|].
  rewrite enc_subs_cons, zlen_app, enc_sub_len in *. cbn [subs_loop].
  pose proof (zlen_nonneg e.2). pose proof (zlen_nonneg (enc_subs es)).
  destruct (Z.eqb_spec (3 + zlen e.2 + zlen (enc_subs es)) 0); [lia|]. rewrite Hk.
  apply swp_bind, swp_ret. rewrite Hk, bool_decide_false by by intros []. cbn [orb].
  destruct (Z.eqb_spec (3 + zlen e.2 + zlen (enc_subs es)) 0); [lia|]. apply swp_bind. rewrite <- app_assoc.
  eapply (new_sub_prints pre (enc_subs es ++ post) e); [done|lia|done|exact He|]. intros k' s' Hk' H'. cbn [negb].
  replace (3 + zlen e.2 + zlen (enc_subs es) - (3 + zlen e.2)) with (zlen (enc_subs es)) by lia.
  rewrite app_assoc. eapply IH; [lia|done|exact H'|]. intros k2 s2 Hk2 H2. apply HQ; [done|]. rewrite fmap_cons. cbn [concat]. pieces H2.
Qed.

Lemma enc_block_len es : zlen (enc_block es) = 6 + zlen (enc_subs es).
Proof. unfold enc_block. rewrite !zlen_app. change (zlen [_; _]) with 2. change (zlen (put_be32 _)) with 4. lia. Qed.

Lemma print_block_prints data es pre post len k j t (Q : bool * coll -> tool -> Prop) s :
  data = pre ++ enc_block es ++ post -> block_ok es -> 4 + zlen (enc_subs es) <= len ->
  k_col k = None -> 0 <= j < 2 ^ 64 - 2 -> prn s0 j t s ->
  (forall k' s', k_col k' = None -> prn s0 j (t ++ show_block j es) s' -> Q (true, k') s') ->
  swp False (print_block data (zlen pre) len k) Q s.
Proof.
  intros Hdata [Hes Hmax] Hlen Hk Hj He HQ. set (n := 4 + zlen (enc_subs es)) in *.
  pose proof (zlen_nonneg (enc_subs es)) as Hn0. pose proof (zlen_nonneg pre) as Hp0. pose proof (zlen_nonneg post) as Hq0.
  assert (zlen pre + 2 + n <= zlen data) as Hfit.
  { rewrite Hdata, !zlen_app, enc_block_len. lia. }
  assert (byte_at data (zlen pre) = OPENWFD_WFD_IE_ID) as Hid.
  { rewrite Hdata, <- (Z.add_0_r (zlen pre)), byte_at_pre by lia. done. }
  assert (byte_at data (zlen pre + 1) = n) as Hn by (rewrite Hdata, byte_at_pre by lia; done).
  assert (get_be32 data (zlen pre + 2) = OPENWFD_WFD_IE_OUI_1_0) as Houi.
  { rewrite Hdata, get_be32_pre by lia. done. }
  unfold print_block, show_block in *. fold n in HQ.
  apply swp_bind. eapply p_line; [exact He|]. intros s1 H1.
  apply swp_bind. eapply p_in; [|exact H1|]; [lia|]. intros s2 H2.
  apply swp_bind. inside. rewrite Hid. apply swp_bind. eapply p_line; [exact H2|]. intros s3 H3.
  apply swp_bind. inside. rewrite Hn. apply swp_bind. eapply p_line; [exact H3|]. intros s4 H4.
  destruct (Z.ltb_spec len n); [lia|]. rewrite Z.eqb_refl. cbn [negb]. destruct (Z.ltb_spec n 4); [lia|].
  apply swp_bind. inside. rewrite Houi, Z.eqb_refl. cbn [negb].
  apply swp_bind. eapply p_line; [exact H4|]. intros s5 H5. apply swp_bind.
  replace (n - 4) with (zlen (enc_subs es)) by lia.
  replace (zlen pre + 6) with (zlen (pre ++ [OPENWFD_WFD_IE_ID; n] ++ put_be32 OPENWFD_WFD_IE_OUI_1_0))
    by (rewrite !zlen_app; change (zlen [_; _]) with 2; change (zlen (put_be32 _)) with 4; lia).
  eapply (subs_loop_prints _ _ es _ post); [|exact Hes|lia|exact Hk| |exact H5|]; [|lia|].
  { rewrite Hdata. unfold enc_block. fold n. by rewrite <- !app_assoc. }
  intros k' s' Hk' H'. cbn [negb]. apply swp_bind. eapply p_out; [|exact H'|]; [lia|]. intros s6 H6.
  apply swp_ret, HQ; [done|]. replace (j + 1 - 1) with j in H6 by lia. pieces H6.
Qed.

Lemma blocks_loop_prints fuel data blocks pre k j t (Q : bool * coll -> tool -> Prop) s :
  data = pre ++ enc_ie blocks -> Forall block_ok blocks -> zlen (enc_ie blocks) < Z.of_nat fuel ->
  k_col k = None -> 0 <= j < 2 ^ 64 - 2 -> prn s0 j t s ->
  (forall k' s', k_col k' = None -> prn s0 j (t ++ concat (show_block j <$> blocks)) s' -> Q (true, k') s') ->
  swp False (blocks_loop fuel data (zlen pre) (zlen (enc_ie blocks)) k) Q s.
Proof.
  intros -> Hbs Hf Hk Hj He HQ. revert fuel pre k t s Hf Hk He HQ.
  induction Hbs as [|es blocks Hes Hbs IH]; intros fuel pre k t s Hf Hk He HQ.
  { destruct fuel; [done|]. cbn. apply swp_ret, HQ; [done|]. by rewrite app_nil_r. }
  destruct fuel as [|fuel]; [pose proof (zlen_nonneg (enc_ie (es :: blocks))); lia|].
  change (enc_ie (es :: blocks)) with (enc_block es ++ enc_ie blocks) in *.
  rewrite zlen_app, enc_block_len in *. cbn [blocks_loop].
  pose proof (zlen_nonneg (enc_subs es)) as Hn0. pose proof (zlen_nonneg (enc_ie blocks)) as Hm0.
  pose proof (zlen_nonneg pre) as Hp0.
  set (len := 6 + zlen (enc_subs es) + zlen (enc_ie blocks)) in *.
  destruct (Z.leb_spec len 0); [lia|]. destruct (Z.ltb_spec len 2); [lia|]. apply swp_bind.
  eapply (print_block_prints _ es pre (enc_ie blocks)); [done|done|lia|exact Hk|exact Hj|exact He|].
  intros k' s' Hk' H'. cbn [negb]. apply swp_bind.
  apply r_read; [apply inside_ok; rewrite ?zlen_app, ?enc_block_len; lia|].
  rewrite byte_at_pre by lia. change (byte_at _ 1) with (4 + zlen (enc_subs es)).
  replace (zlen pre + 2 + (4 + zlen (enc_subs es))) with (zlen (pre ++ enc_block es))
    by (rewrite zlen_app, enc_block_len; lia).
  replace (len - 2 - (4 + zlen (enc_subs es))) with (zlen (enc_ie blocks)) by lia.
  rewrite app_assoc. eapply IH; [lia|done|exact H'|]. intros k2 s2 Hk2 H2. apply HQ; [done|]. rewrite fmap_cons. cbn [concat]. pieces H2.
Qed.
End prints.

(** C38. For an element made of blocks that hold whole sub-elements, [print_ie]
    prints exactly every block and every sub-element, in order, with the decoded
    fields of the device information, and nothing else. *)
Theorem print_ie_shows blocks s :
  Forall block_ok blocks -> 0 <= t_indent s < 2 ^ 64 - 3 -> heap_ok (t_heap s) ->
  exists s', print_ie (enc_ie blocks) s = Some (tt, s') /\
    t_out s' = t_out s ++ show_ie (t_indent s) blocks.
Proof.
  intros Hbs Hi Hh. set (i := t_indent s) in *.
  assert (swp False (print_ie (enc_ie blocks)) (fun _ s' => prn s i (show_ie i blocks) s') s) as H.
  { assert (prn s i [] s) as He by (split; [done|by rewrite app_nil_r|done]).
    unfold print_ie, show_ie. apply swp_bind. eapply p_line; [exact He|]. intros s1 H1.
    apply swp_bind. eapply p_in; [|exact H1|]; [lia|]. intros s2 H2. destruct blocks as [|es blocks].
    { cbn -[line]. apply swp_bind. eapply p_line; [exact H2|]. intros s3 H3.
      eapply p_out; [|exact H3|]; [lia|]. intros s4 H4. by replace (i + 1 - 1) with i in H4 by lia. }
    rewrite bool_decide_false by done. destruct (Z.eqb_spec (zlen (enc_ie (es :: blocks))) 0) as [Hz|].
    { change (enc_ie (es :: blocks)) with (enc_block es ++ enc_ie blocks) in Hz.
      rewrite zlen_app, enc_block_len in Hz. pose proof (zlen_nonneg (enc_subs es)).
      pose proof (zlen_nonneg (enc_ie blocks)). lia. }
    apply swp_bind. eapply (blocks_loop_prints s _ _ (es :: blocks) []); [done|exact Hbs|unfold zlen; lia|done| |exact H2|];
      [lia|]. intros k s3 Hk H3. rewrite Hk. cbn [free_col]. rewrite bool_decide_false by by intros [].
    apply swp_bind, swp_ret, swp_bind, swp_ret, swp_bind. eapply p_out; [|exact H3|]; [lia|]. intros s4 H4.
    replace (i + 1 - 1) with i in H4 by lia. eapply p_line; [exact H4|]. intros s5 H5. rewrite <- ?app_assoc in H5.
    exact H5. }
  unfold swp in H. destruct (print_ie (enc_ie blocks) s) as [[[] s']|]; [|done].
  exists s'. by split; [|apply H].
Qed.

(** ** Concrete runs *)

Definition tool0 : tool := mkTool 0 [] (mkHeap [] (fun _ => 0xaa) 0).

Definition dev_info_elem : sub_elem := (0, put_be16 0x0011 ++ put_be16 7236 ++ put_be16 200).

Definition two_blocks : list (list sub_elem) := [[dev_info_elem; (5, [])]; [(6, [1; 2])]].

Lemma print_ie_safe_witness :
  exists s' t, print_ie [0xdd; 9; 0x50] tool0 = Some (tt, s') /\ t_out s' = t_out tool0 ++ t /\
    t_indent s' = t_indent tool0 /\ h_live (t_heap s') = h_live (t_heap tool0).
Proof. apply print_ie_safe; [repeat constructor; unfold byte_ok; lia|cbn; lia]. Defined.

Lemma print_ie_shows_witness :
  exists s', print_ie (enc_ie two_blocks) tool0 = Some (tt, s') /\
    t_out s' = t_out tool0 ++ show_ie (t_indent tool0) two_blocks.
Proof. apply print_ie_shows; [apply (bool_decide_unpack _); by vm_compute|cbn; lia|constructor]. Defined.

(** What the program prints. *)
Example example_output : (t_out ∘ snd) <$> print_example tool0 = Some (
  line 0 (str "IE:") ++
  line 1 (str "IE BLOCK:") ++
  line 2 (str "element_id: 0xdd (WFD)") ++
  line 2 (str "length: 13") ++
  line 2 (str "oui: 0x506f9a0a (WFD-1.0)") ++
  line 2 (str "IE SUBELEMENT(id: 0 len: 6):") ++
  line 3 (str "subelement_id: 0x0") ++
  line 3 (str "length: 6") ++
  line 3 (str "type: DEVICE INFO") ++
  line 3 (str "dev_info: 11") ++
  line 3 (str "ctrl_port: 7236") ++
  line 3 (str "max_throughput: 200") ++
  line 0 [] ++
  line 0 (str "IE hex (len: 15):") ++
  line 0 (str " dd 0d 50 6f 9a 0a 00 00 06 00 11 1c 44 00 c8") ++
  line 0 (str "END of IE")).
Proof. vm_compute. reflexivity. Qed.

(** The same device information, two of its bytes in a first block and four in
    a second one.  The second fragment is copied over the first: the bytes of
    the port are printed as the flags, and the last field is what [malloc]
    left. *)
Definition split_ie : list Z :=
  [OPENWFD_WFD_IE_ID; 9] ++ put_be32 OPENWFD_WFD_IE_OUI_1_0 ++ [0] ++ put_be16 6 ++ put_be16 0x0011 ++
  [OPENWFD_WFD_IE_ID; 8] ++ put_be32 OPENWFD_WFD_IE_OUI_1_0 ++ put_be16 7236 ++ put_be16 200.

Example split_overwritten : (t_out ∘ snd) <$> print_ie split_ie tool0 = Some (
  line 0 (str "IE:") ++
  line 1 (str "IE BLOCK:") ++
  line 2 (str "element_id: 0xdd (WFD)") ++
  line 2 (str "length: 9") ++
  line 2 (str "oui: 0x506f9a0a (WFD-1.0)") ++
  line 2 (str "IE SUBELEMENT(id: 0 len: 6):") ++
  line 2 (str "MULTI IE sub-element; delay parsing to next IE") ++
  line 1 (str "IE BLOCK:") ++
  line 2 (str "element_id: 0xdd (WFD)") ++
  line 2 (str "length: 8") ++
  line 2 (str "oui: 0x506f9a0a (WFD-1.0)") ++
  line 3 (str "subelement_id: 0x0") ++
  line 3 (str "length: 6") ++
  line 3 (str "type: DEVICE INFO") ++
  line 3 (str "dev_info: 1c44") ++
  line 3 (str "ctrl_port: 200") ++
  line 3 (str "max_throughput: 43690") ++
  line 0 []).
Proof. vm_compute. reflexivity. Qed.
